(* ===== verification/_CoqProject ===== *)
-Q . S2P
Prelude.v
Mem.v
Prp.v
ChannelModel.v
Pqueue.v
SsdConfig.v
Ssd.v
ConvFtl.v
ConvInv.v
ConvState.v
ConvStep.v
ConvMaps.v
ConvGc.v
ConvWrite.v
ConvNs.v
ConvInit.v
ConvRun.v
ZnsFtl.v
ZnsMgmt.v
ZnsRw.v
ZnsInv.v
ZnsStep.v
ZnsSend.v
ZnsWrite.v
ZnsRead.v
ZnsInit.v
ZnsRun.v
IoUnits.v
IoQueue.v
IoInv.v
KvAlloc.v
KvFtl.v
NvmeCmd.v
IoCopy.v
Dma.v
Io.v
IoBackends.v
IoRun.v
IoDispatch.v
IoConsume.v
IoLaws.v
IoDevice.v
IoRing.v
IoPass.v
IoComplete.v
Vdev.v
Admin.v
AdminInv.v
Bars.v
AdminQueues.v
PciCfg.v
PciInv.v
Config.v
Main.v
ProcFs.v
Threads.v
MainInv.v
Start.v
KvTable.v
KvInv.v
KvRun.v
Heap.v
NsMem.v
Life.v
LifeInv.v
Toy.v
BaseProps.v
ConvProps.v
ZnsProps.v
KvProps.v
IoProps.v
RingProps.v
AdminProps.v
DevProps.v
MainProps.v
PciProps.v
ProcProps.v
LifeProps.v
DmaProps.v
StartProps.v
