(* ===== verification/Prelude.v ===== *)
(** * NVMeVirt: a verification library of the virtual NVMe device

    NVMeVirt is a kernel module that shows the host an NVMe device in reserved
    memory.  A dispatcher thread polls the device's registers and doorbells, takes
    the commands from the submission queues and asks the namespace of each when the
    command would be done on the device it imitates; worker threads move the data,
    wait for that time and post the completions.  Five builds choose the namespace:
    a simple one on I/O units, a page-mapped FTL, two zoned ones and a key-value
    store.  The library is a shallow embedding of src/: a C function is a Gallina
    function of the same name, state is passed explicitly, and what would be
    undefined or stop the kernel is a [Fault] of the result type [res].

    ** The parts, and where they are modelled

    - channel_model.c: ChannelModel.v.  pqueue/pqueue.c: Pqueue.v, over an interface
      for the callbacks ([PqCallbacks], [PqLaws]).
    - ssd_config.h and ssd_init_params of ssd.c: SsdConfig.v, one instance of the
      class [SsdConfig] for each build.  The rest of ssd.c: Ssd.v.
    - conv_ftl.c: ConvFtl.v.  Its invariant is built in ConvInv.v ([lines_ok] on the
      lines, [maps_ok] on the two tables), ConvState.v, ConvStep.v, ConvMaps.v,
      ConvGc.v (a collection), ConvWrite.v (a host page, the write credit), ConvNs.v
      (the commands), ConvInit.v, ConvRun.v (sessions), which restates it in
      the terms of the code.
    - zns_ftl.c, zns_mgmt_send.c, zns_mgmt_recv.c, zns_read_write.c: ZnsFtl.v,
      ZnsMgmt.v, ZnsRw.v; invariant and steps in ZnsInv.v, ZnsStep.v, ZnsSend.v,
      ZnsWrite.v, ZnsRead.v, ZnsInit.v, ZnsRun.v.
    - simple_ftl.c: IoUnits.v.  kv_ftl.c: KvFtl.v with the allocators of
      append_only.c and bitmap.c in KvAlloc.v; refinement in KvTable.v, KvInv.v, KvRun.v.
    - io.c: IoQueue.v (the sorted work queue of a worker), NvmeCmd.v (commands and
      completions as bytes), IoCopy.v (the data of a command, by memcpy and by DMA),
      Io.v (dispatch, completion, the worker thread in steps).  The loop over PRP
      entries that three files contain is in Prp.v, with what a transfer leaves in the
      memory of the host.  IoInv.v and IoRun.v have the
      invariant of the queues and their interleavings, IoDispatch.v and IoConsume.v
      the doorbells, IoRing.v the completion ring as the host reads it and what a
      worker needs to move the data of a command, IoPass.v that a walk of a
      worker returns and completes what is due, IoComplete.v both with the dispatcher,
      from the ring of commands to the completions, IoDevice.v the device as a step
      relation.
    - nvmev.h and the build: Vdev.v.  admin.c: Admin.v, with its specification in
      AdminInv.v and the layout of queues in AdminQueues.v.
    - pci.c: Bars.v (controller registers), PciCfg.v and PciInv.v (configuration
      space and interrupts).
    - dma.c: Dma.v, over the class [DmaEngine] of the kernel's functions that it calls,
      with their documented behaviour in [DmaLaws].
    - main.c: Config.v (module parameters), Main.v (the dispatcher, the statistics,
      the namespaces), MainInv.v (a pass of the dispatcher, the layout of the
      namespaces), ProcFs.v (the proc files as texts), Threads.v (threads, idle time, proc entries), Start.v ([NVMeV_init] and
      [NVMeV_exit]).
    - What all of them allocate and release: Heap.v (a heap of allocations, and
      triples over what a structure owns), NsMem.v (device and namespaces), Life.v (the
      module from its start to its end), LifeInv.v.

    Mem.v is byte memory; this file has the result monad, machine integers, arrays
    and bounded loops.

    ** How the parts meet

    Io.v calls a namespace through the class [Backend], whose fields are the function
    pointers of struct nvmev_ns; IoBackends.v has the instances for the simple, the
    conventional, the zoned and the key-value namespace.  What the dispatcher relies on
    is the class [BackendLaws] of IoDispatch.v: the handler returns for the commands
    that are allowed, schedules a bounded number of internal operations for its own
    queue, writes only the bytes [cmd_writes] of the host's memory, which leave the
    commands [cmd_apart] from them as they were, and a refused command leaves nothing
    behind.  IoLaws.v proves it of the instances.  Main.v
    reaches the initialisers through [NsInit], with [NsInitLaws] and its instances in MainInv.v, and
    admin.c reads the namespaces through [NsFields].

    Memory is seen twice.  The models of the operations take what is allocated as a
    value; the functions of NsMem.v and Life.v, which have the names of the code with
    "_mem", are the same functions of the code reduced to what they allocate, keep,
    touch and release.  [triple P m Q] frames: [m] returns from a heap that holds [P],
    leaves the rest alone, and holds [Q] of its result.

    ** What the theorems show

    Each property is a theorem of one of the files at the end of the list, with an
    instance at a small device of Toy.v or of the file itself, followed by examples of
    what the code does where a caller does not keep to the hypotheses.

    - BaseProps.v: the heap keeps its order and its elements; a transfer is
      charged to the slots of the channel; geometry and timing of the NAND device.
    - ConvProps.v: from initialisation on every sequence of commands and releases
      runs without a fault; the two mapping tables stay inverse and each line stays
      in one place; what a write, a read, a collection and the credit control do.
    - ZnsProps.v: the same for zones; the management commands refine the state
      machine of a zone, and every status of writes, reads, reports and flushes.
    - KvProps.v: the store refines a finite map, values come back, iterators end;
      the schedule of the I/O units; allocators hand out disjoint extents.
    - IoProps.v: no request is lost or done early under any interleaving; a ring is
      dispatched in order; the host reads what was posted; both copies agree.
      RingProps.v: commands put in a ring are answered, each once, after one walk of
      the worker at which their times have come; where a namespace may refuse, those
      before the first that it refuses.
    - AdminProps.v: admin commands refine their specification, the queue tables stay
      well formed, the controller comes up for any order of register writes.
    - DevProps.v: the conventional FTL and the zoned namespace behind dispatcher and
      workers, in every order of their steps: the invariants, what became of each
      accepted command, and that the next step of dispatcher and worker returns.
      MainProps.v: a pass of the dispatcher
      over all queues, the namespaces in the storage, the module parameters.
      PciProps.v: the configuration space under any writes.  DmaProps.v: success of a copy means
      that the bytes were copied.  StartProps.v: which parameters start the
      module, in a state from which the other theorems go on, which are refused or
      overrun an array, and what its end leaves behind.  ProcProps.v:
      the proc files set what they are told and show what is set.  LifeProps.v: what
      the module allocates it releases, once, but for what its end forgets.

    ** Interleaving

    A call of the dispatcher is one step; a pass of a worker is cut into its start,
    the visit of an entry, the move to the next and the interrupts, so that a call
    of the dispatcher, another worker or the host can come between ([queue_run] of
    IoRun.v, [dev_step] of IoDevice.v).  A visit is atomic: it moves the data of its
    request and posts its completion under the lock of the completion queue.  The
    registers of the controller do not change within a call of [nvmev_proc_bars].  A
    clock reading is any value ([Clock]), so nothing depends on how time passes.

    ** Loops and fuel

    Counted loops are folds over their range.  The others are [rloop] or a fixpoint
    with fuel, and the properties show that they return with a result, hence that
    the fuel is enough: a walk over the entries of a worker takes at most one step for
    each entry of the table; a chain of the hash table has at most as many links as
    there are slots, by the rank in the invariant (the search of a free slot in a full
    table runs out, as the loop of the code does not end); a walk of PRP entries
    advances by at least one byte; percolation and the check of the heap descend
    from a position to at least twice it; a doorbell is reached within the size of the
    ring; the list of processors shortens by a comma at each step; a number of 64 bits
    has at most twenty digits.

    ** Assumptions

    Allocations succeed, but for the table of units that a proc file asks for.  The
    contents of memory that is not cleared, the validity of page frames, the map of the machine's memory, [simple_strtol], the search of a
    clear bit, the interrupt numbers and what the kernel writes while it scans the bus
    are parameters.  [NVMEV_ASSERT] is [BUG_ON]; [ASSERT] is empty, as in nvmev.h.
    Shared objects (the PCIe link, write buffers) are in a store and named by
    references, so that use after their release is a fault.  The host of the device
    theorem of the zoned namespace opens no ZRWA, and a report has a buffer of at most
    two pages, apart from the rings.

    ** Not modelled

    - What the kernel does for the module: the scheduling of its threads, [memparse] of
      the parameters before [__load_configs], the file layer above the proc files.
    - The waiting of dma.c, a function of [DmaEngine]; IoCopy.v has the effect of a
      copy rather than a call of Dma.v.  The channels of dma.c are not in Life.v.
    - The contents of the MSI-X table, which nothing reads, messages, and the code
      under PERF_DEBUG and CONFIG_NVMEV_VERBOSE, which the build leaves out.
    - The configurations and constants of the headers that no code of src/ uses. *)

From stdpp Require Import prelude list gmap.
From Stdlib Require Import ZArith Lia.

#[global] Open Scope Z_scope.

(** ** Machine integers

    A C integer is its value in [Z]; an expression whose value can leave the
    range of its C type goes through the wrap-around of that type.  Signed
    wrap-around is the kernel's semantics (it builds with
    [-fno-strict-overflow]). *)

Definition u8 (x : Z) : Z := x `mod` 256.
Definition u16 (x : Z) : Z := x `mod` 65536.
Definition u32 (x : Z) : Z := x `mod` 4294967296.
Definition u64 (x : Z) : Z := x `mod` 18446744073709551616.
Definition s32 (x : Z) : Z := (x + 2147483648) `mod` 4294967296 - 2147483648.

Definition b2z (b : bool) : Z := if b then 1 else 0.

(** ** Outcomes

    [Fault] is what the kernel would not survive, or what C leaves undefined:
    a [BUG_ON], a dereference of [NULL] or of freed memory, an index outside an
    array, a division by zero, the read of an uninitialised variable, a corrupt
    [list_head].  [OutOfFuel] is the only outcome that is not one of the
    program: a theorem that an operation returns [Ok] also excludes it. *)

Inductive fault :=
| BugOn
| NullDeref
| UseAfterFree
| OutOfBounds
| DivByZero
| Uninit
| ListCorrupt
| OutOfFuel.

Inductive res (A : Type) :=
| Ok (a : A)
| Fault (f : fault).
Arguments Ok {A} a.
Arguments Fault {A} f.

#[global] Instance res_ret : MRet res := fun A a => Ok a.
#[global] Instance res_bind : MBind res :=
  fun A B k r => match r with Ok a => k a | Fault f => Fault f end.
#[global] Instance res_fmap : FMap res :=
  fun A B g r => match r with Ok a => Ok (g a) | Fault f => Fault f end.

(** [NVMEV_ASSERT(x)] is [BUG_ON(!x)]. *)
Definition nvmev_assert (b : bool) : res unit := if b then Ok () else Fault BugOn.
Definition of_opt {A} (f : fault) (o : option A) : res A :=
  match o with Some a => Ok a | None => Fault f end.
(** C division and remainder of non-negative operands. *)
Definition cdiv (a b : Z) : res Z := if b =? 0 then Fault DivByZero else Ok (a `div` b).
Definition cmod (a b : Z) : res Z := if b =? 0 then Fault DivByZero else Ok (a `mod` b).

(** The kernel's [DIV_ROUND_UP(n, d)]. *)
Definition DIV_ROUND_UP (n d : Z) : Z := (n + d - 1) `div` d.

#[global] Arguments cdiv : simpl never.
#[global] Arguments cmod : simpl never.

(** [DIV_ROUND_UP(n, d)] computed in 64 bits. *)
Definition div_round_up64 (n d : Z) : res Z := cdiv (u64 (u64 (n + d) - 1)) d.

(** The size macros of nvmev.h on a 64-bit operand. *)
Definition KB (k : Z) : Z := u64 (Z.shiftl k 10).
Definition MB (m : Z) : Z := u64 (Z.shiftl m 20).
Definition GB (g : Z) : Z := u64 (Z.shiftl g 30).
Definition NS_PER_SEC (s : Z) : Z := s * 1000 * 1000 * 1000.

(** ** Total correctness of a computation

    [okp r Q]: the computation returns, and its result satisfies [Q]. *)

Definition okp {A} (r : res A) (Q : A -> Prop) : Prop :=
  match r with Ok a => Q a | Fault _ => False end.

(** ** Arrays indexed by [Z] *)

Definition zlen {A} (l : list A) : Z := Z.of_nat (length l).

#[global] Instance zlookup {A} : Lookup Z A (list A) :=
  fun i l => if decide (0 <= i) then l !! Z.to_nat i else None.
#[global] Instance zinsert {A} : Insert Z A (list A) :=
  fun i x l => if decide (0 <= i) then <[Z.to_nat i := x]> l else l.

Definition zrepeat {A} (n : Z) (x : A) : list A := replicate (Z.to_nat n) x.

(** [a[i]] and [a[i] = x] with the bounds that C leaves to the programmer. *)
Definition aget {A} (l : list A) (i : Z) : res A := of_opt OutOfBounds (l !! i).
Definition aset {A} (l : list A) (i : Z) (x : A) : res (list A) :=
  _ ← aget l i; Ok (<[i := x]> l).

(** An update of [a[i]] in place. *)
Definition amod {A} (l : list A) (i : Z) (f : A -> res A) : res (list A) :=
  x ← aget l i; y ← f x; Ok (<[i := y]> l).

(** [memset(&a[from], x, len)] on an array of bytes. *)
Definition zfill {A} (from len : Z) (x : A) (l : list A) : list A :=
  imap (fun k y => if decide (from <= Z.of_nat k < from + len) then x else y) l.

(** ** Loops *)

(** [for (i = lo; i < hi; i++) body(i)], and the same over a list of indices. *)
Fixpoint rfold {A S} (body : A -> S -> res S) (l : list A) (s : S) : res S :=
  match l with
  | [] => Ok s
  | x :: l' => s' ← body x s; rfold body l' s'
  end.

Definition zrange (lo hi : Z) : list Z := (fun k => lo + Z.of_nat k) <$> seq 0 (Z.to_nat (hi - lo)).

(** The indices of [for (i = lo; i <= hi; i += step)]. *)
Definition zsteps (lo hi step : Z) : list Z :=
  (fun k => lo + k * step) <$> zrange 0 ((hi - lo) `div` step + 1).

(** A [while] loop: the body returns [inl] to go on and [inr] to leave. *)
Fixpoint rloop {S R} (fuel : nat) (body : S -> res (S + R)) (s : S) : res R :=
  match fuel with
  | O => Fault OutOfFuel
  | S n =>
      r ← body s;
      match r with inl s' => rloop n body s' | inr x => Ok x end
  end.

(** ** Counting *)

Fixpoint zcount {A} (f : A -> bool) (l : list A) : Z :=
  match l with
  | [] => 0
  | x :: l' => b2z (f x) + zcount f l'
  end.

(** ** Lemmas: machine integers *)

Lemma u8_small x : 0 <= x < 256 -> u8 x = x.
Proof. intros; by apply Z.mod_small. Qed.

Lemma u16_small x : 0 <= x < 65536 -> u16 x = x.
Proof. intros; by apply Z.mod_small. Qed.

Lemma u32_small x : 0 <= x < 4294967296 -> u32 x = x.
Proof. intros; by apply Z.mod_small. Qed.

Lemma u64_small x : 0 <= x < 18446744073709551616 -> u64 x = x.
Proof. intros; by apply Z.mod_small. Qed.

Lemma s32_small x : -2147483648 <= x < 2147483648 -> s32 x = x.
Proof. intros; unfold s32; rewrite Z.mod_small; lia. Qed.

Lemma u32_range x : 0 <= u32 x < 4294967296.
Proof. by apply Z.mod_pos_bound. Qed.

Lemma u64_range x : 0 <= u64 x < 18446744073709551616.
Proof. by apply Z.mod_pos_bound. Qed.

Lemma DIV_ROUND_UP_spec n d :
  0 < d -> 0 <= n -> n <= d * DIV_ROUND_UP n d < n + d.
Proof.
  intros Hd Hn. unfold DIV_ROUND_UP.
  pose proof (Z.div_mod (n + d - 1) d ltac:(lia)).
  pose proof (Z.mod_pos_bound (n + d - 1) d ltac:(lia)). lia.
Qed.

#[global] Opaque u8 u16 u32 u64 s32.

(** [unwrap] removes the wrap-arounds whose argument is in range. *)
Ltac unwrap :=
  repeat match goal with
  | |- context [u64 ?x] => rewrite (u64_small x) by lia
  | |- context [u32 ?x] => rewrite (u32_small x) by lia
  | |- context [s32 ?x] => rewrite (s32_small x) by lia
  | |- context [u16 ?x] => rewrite (u16_small x) by lia
  | |- context [u8 ?x] => rewrite (u8_small x) by lia
  end.

(** ** Lemmas: outcomes *)

Lemma okp_bind {A B} (r : res A) (k : A -> res B) Q :
  okp r (fun a => okp (k a) Q) -> okp (r ≫= k) Q.
Proof. by destruct r. Qed.

Lemma okp_mono {A} (r : res A) (P Q : A -> Prop) :
  okp r P -> (forall a, P a -> Q a) -> okp r Q.
Proof. destruct r; simpl; auto. Qed.

Lemma okp_inv {A} (r : res A) Q : okp r Q -> exists a, r = Ok a /\ Q a.
Proof. destruct r as [a|]; [by exists a|done]. Qed.

Lemma okp_intro {A} (r : res A) a (Q : A -> Prop) : r = Ok a -> Q a -> okp r Q.
Proof. by intros ->. Qed.

Lemma okp_and {A} (r : res A) (P Q : A -> Prop) :
  okp r P -> okp r Q -> okp r (fun a => P a /\ Q a).
Proof. by destruct r. Qed.

Lemma okp_assert b Q : b = true -> Q () -> okp (nvmev_assert b) Q.
Proof. by intros ->. Qed.

Lemma okp_cdiv a b (Q : Z -> Prop) : b <> 0 -> Q (a `div` b) -> okp (cdiv a b) Q.
Proof. intros Hb HQ. unfold cdiv. by rewrite (proj2 (Z.eqb_neq b 0) Hb). Qed.

Lemma okp_cmod a b (Q : Z -> Prop) : b <> 0 -> Q (a `mod` b) -> okp (cmod a b) Q.
Proof. intros Hb HQ. unfold cmod. by rewrite (proj2 (Z.eqb_neq b 0) Hb). Qed.

Lemma okp_of_opt {A} f (o : option A) a (Q : A -> Prop) :
  o = Some a -> Q a -> okp (of_opt f o) Q.
Proof. by intros ->. Qed.

Lemma bind_Ok {A B} (a : A) (k : A -> res B) : (Ok a ≫= k) = k a.
Proof. done. Qed.

(** [okstep] runs one bind of the goal, [okdone] closes assertions by [lia]. *)
Ltac okstep := apply okp_bind.

(** ** Lemmas: arrays *)

Section arrays.
Context {A : Type}.
Implicit Types (l : list A) (x y : A).

Lemma zlen_nonneg l : 0 <= zlen l.
Proof. unfold zlen; lia. Qed.

Lemma zlookup_nat l (k : nat) : l !! Z.of_nat k = l !! k.
Proof. unfold lookup at 1, zlookup. rewrite decide_True by lia. by rewrite Nat2Z.id. Qed.

Lemma zlookup_to_nat l i : 0 <= i -> l !! i = l !! Z.to_nat i.
Proof. intros. unfold lookup at 1, zlookup. by rewrite decide_True. Qed.

Lemma zlookup_Some_range l i x : l !! i = Some x -> 0 <= i < zlen l.
Proof.
  unfold lookup, zlookup, zlen. case_decide; [|done].
  intros Hl. apply lookup_lt_Some in Hl. lia.
Qed.

Lemma zlookup_is_Some l i : is_Some (l !! i) <-> 0 <= i < zlen l.
Proof.
  split; [intros [x Hx]; by eapply zlookup_Some_range|].
  intros [H1 H2]. rewrite zlookup_to_nat by done. apply lookup_lt_is_Some.
  unfold zlen in H2. lia.
Qed.

Lemma zlookup_lt l i : 0 <= i < zlen l -> exists x, l !! i = Some x.
Proof. intros Hi. by apply zlookup_is_Some in Hi. Qed.

Lemma zlookup_ge_None l i : zlen l <= i -> l !! i = None.
Proof.
  intros Hi. destruct (l !! i) eqn:E; [|done].
  apply zlookup_Some_range in E. lia.
Qed.

Lemma zinsert_to_nat l i x : 0 <= i -> <[i := x]> l = <[Z.to_nat i := x]> l.
Proof. intros. unfold insert at 1, zinsert. by rewrite decide_True. Qed.

Lemma zlen_zinsert l i x : zlen (<[i := x]> l) = zlen l.
Proof. unfold zlen, insert, zinsert. case_decide; [by rewrite length_insert|done]. Qed.

Lemma zlookup_zinsert_eq l i x : 0 <= i < zlen l -> <[i := x]> l !! i = Some x.
Proof.
  intros [H1 H2]. rewrite zinsert_to_nat, zlookup_to_nat by done.
  apply list_lookup_insert_eq. unfold zlen in H2. lia.
Qed.

Lemma zlookup_zinsert_ne l i j x : i <> j -> <[i := x]> l !! j = l !! j.
Proof.
  intros Hij. unfold insert, zinsert. case_decide; [|done].
  unfold lookup, zlookup. case_decide; [|done].
  apply list_lookup_insert_ne. lia.
Qed.

Lemma zlookup_zinsert l i j x :
  0 <= i < zlen l -> <[i := x]> l !! j = if decide (i = j) then Some x else l !! j.
Proof.
  intros. case_decide; subst; [by apply zlookup_zinsert_eq|by apply zlookup_zinsert_ne].
Qed.

Lemma zlen_app l l' : zlen (l ++ l') = zlen l + zlen l'.
Proof. unfold zlen. rewrite length_app. lia. Qed.

Lemma zlen_zrepeat n x : 0 <= n -> zlen (zrepeat n x) = n.
Proof. intros. unfold zlen, zrepeat. rewrite length_replicate. lia. Qed.

Lemma zlookup_zrepeat n i x y : zrepeat n x !! i = Some y -> y = x.
Proof.
  unfold zrepeat. intros H. pose proof (zlookup_Some_range _ _ _ H).
  rewrite zlookup_to_nat in H by lia. by apply lookup_replicate in H as [-> _].
Qed.

Lemma zlookup_zrepeat_lt n i x : 0 <= i < n -> zrepeat n x !! i = Some x.
Proof.
  intros. rewrite zlookup_to_nat by lia. unfold zrepeat.
  apply lookup_replicate_2. lia.
Qed.

Lemma zlen_zfill from len x l : zlen (zfill from len x l) = zlen l.
Proof. unfold zlen, zfill. by rewrite length_imap. Qed.

Lemma zlookup_zfill from len x l i :
  zfill from len x l !! i =
  if decide (from <= i < from + len) then (fun _ => x) <$> (l !! i) else l !! i.
Proof.
  unfold zfill, lookup, zlookup.
  case_decide as Hi; [|by case_decide].
  rewrite list_lookup_imap.
  destruct (l !! Z.to_nat i) as [y|]; simpl; [|by case_decide].
  rewrite Z2Nat.id by done. by case_decide.
Qed.

Lemma aget_okp l i (Q : A -> Prop) :
  0 <= i < zlen l -> (forall x, l !! i = Some x -> Q x) -> okp (aget l i) Q.
Proof. intros Hi HQ. destruct (zlookup_lt l i Hi) as [x Hx]. unfold aget. rewrite Hx. by apply HQ. Qed.

Lemma aget_Some l i x : l !! i = Some x -> aget l i = Ok x.
Proof. unfold aget. by intros ->. Qed.

Lemma aset_Some l i x : 0 <= i < zlen l -> aset l i x = Ok (<[i := x]> l).
Proof. intros Hi. destruct (zlookup_lt l i Hi) as [y Hy]. unfold aset. by rewrite (aget_Some _ _ _ Hy). Qed.

Lemma amod_okp l i x (f : A -> res A) (Q : list A -> Prop) :
  l !! i = Some x -> okp (f x) (fun y => Q (<[i := y]> l)) -> okp (amod l i f) Q.
Proof. intros Hx Hf. unfold amod. rewrite (aget_Some _ _ _ Hx). simpl. by apply okp_bind. Qed.

Lemma elem_of_zlookup l x : x ∈ l <-> exists i, l !! i = Some x.
Proof.
  rewrite list_elem_of_lookup. split.
  - intros [k Hk]. exists (Z.of_nat k). by rewrite zlookup_nat.
  - intros [i Hi]. pose proof (zlookup_Some_range _ _ _ Hi).
    exists (Z.to_nat i). by rewrite <- zlookup_to_nat by lia.
Qed.

Lemma zlist_eq l l' : zlen l = zlen l' -> (forall i, 0 <= i < zlen l -> l !! i = l' !! i) -> l = l'.
Proof.
  intros Hlen H. apply list_eq. intros k.
  destruct (decide (Z.of_nat k < zlen l)) as [Hk|Hk].
  - rewrite <- !zlookup_nat. apply H. lia.
  - unfold zlen in *. rewrite !lookup_ge_None_2; [done|lia|lia].
Qed.
End arrays.

Lemma filter_all {A} (P : A -> Prop) `{!forall x, Decision (P x)} (l : list A) :
  (forall x, x ∈ l -> P x) -> filter P l = l.
Proof.
  induction l as [|x l IH]; intros Hall; [done|].
  rewrite filter_cons_True by (apply Hall; set_solver). f_equal. apply IH. intros; apply Hall; set_solver.
Qed.

Create HintDb arrays.
Create Rewrite HintDb arrays.
#[export] Hint Rewrite @zlen_zinsert @zlen_zfill @zlen_app : arrays.
#[export] Hint Resolve zlen_nonneg zlookup_Some_range : arrays.

(** ** Lemmas: loops *)

Section loops.
Context {A S : Type}.

(** The invariant of a [for] loop speaks of the indices already visited. *)
Lemma rfold_inv (body : A -> S -> res S) (I : list A -> S -> Prop) l s :
  I [] s ->
  (forall pre x post s, l = pre ++ x :: post -> I pre s ->
     okp (body x s) (I (pre ++ [x]))) ->
  okp (rfold body l s) (I l).
Proof.
  intros HI Hstep.
  enough (forall post pre s, l = pre ++ post -> I pre s -> okp (rfold body post s) (I l)) as H
    by (by apply (H l [])).
  clear s HI. induction post as [|x post IH]; intros pre s -> HI; simpl.
  - by rewrite app_nil_r.
  - apply okp_bind. eapply okp_mono; [by apply (Hstep pre x post)|].
    intros s' HI'. apply (IH (pre ++ [x])); [by rewrite <- app_assoc|done].
Qed.

(** The same when the invariant does not count iterations. *)
Lemma rfold_inv_const (body : A -> S -> res S) (I : S -> Prop) l s :
  I s -> (forall x s, x ∈ l -> I s -> okp (body x s) I) -> okp (rfold body l s) I.
Proof.
  intros HI Hstep. apply (rfold_inv body (fun _ => I)); [done|].
  intros pre x post s' -> HI'. apply Hstep; [set_solver|done].
Qed.

Lemma rfold_app (body : A -> S -> res S) l1 l2 s :
  rfold body (l1 ++ l2) s = (rfold body l1 s ≫= rfold body l2).
Proof.
  revert s. induction l1 as [|x l1 IH]; intros s; simpl; [done|].
  destruct (body x s); simpl; auto.
Qed.

Lemma rfold_ext (f g : A -> S -> res S) l s :
  (forall x s, f x s = g x s) -> rfold f l s = rfold g l s.
Proof.
  intros Hfg. revert s. induction l as [|x l IH]; intros s; simpl; [done|].
  rewrite Hfg. destruct (g x s); simpl; auto.
Qed.

Lemma rfold_fmap {B} (g : A -> B) (body : B -> S -> res S) l s :
  rfold body (g <$> l) s = rfold (fun x => body (g x)) l s.
Proof.
  revert s. induction l as [|x l IH]; intros s; simpl; [done|].
  destruct (body (g x) s); simpl; auto.
Qed.
End loops.

(** Nested loops are one loop over the indices of all. *)
Lemma rfold_bind {A B S} (body : B -> S -> res S) (g : A -> list B) (l : list A) s :
  rfold body (l ≫= g) s = rfold (fun x => rfold body (g x)) l s.
Proof.
  revert s. induction l as [|x l IH]; intros s; simpl; [done|].
  rewrite rfold_app. destruct (rfold body (g x) s); simpl; [apply IH|done].
Qed.

(** Nested loops are one loop over the pairs of indices. *)
Lemma rfold_nest {A B S} (f : A -> B -> S -> res S) (la : list A) (lb : list B) s :
  rfold (fun a => rfold (f a) lb) la s =
  rfold (fun ab => f ab.1 ab.2) (la ≫= fun a => (fun b => (a, b)) <$> lb) s.
Proof.
  revert s. induction la as [|a la IH]; intros s; simpl; [done|].
  rewrite rfold_app. rewrite rfold_fmap.
  destruct (rfold _ lb s); simpl; [apply IH|done].
Qed.

Lemma zrange_nil lo hi : hi <= lo -> zrange lo hi = [].
Proof. intros. unfold zrange. by replace (Z.to_nat (hi - lo)) with 0%nat by lia. Qed.

Lemma zlen_zrange lo hi : lo <= hi -> zlen (zrange lo hi) = hi - lo.
Proof. intros. unfold zlen, zrange. rewrite length_fmap, length_seq. lia. Qed.

Lemma elem_of_zrange lo hi i : i ∈ zrange lo hi <-> lo <= i < hi.
Proof.
  unfold zrange. rewrite list_elem_of_fmap. split.
  - intros [k [-> Hk%elem_of_seq]]. lia.
  - intros. exists (Z.to_nat (i - lo)). rewrite elem_of_seq. lia.
Qed.

Lemma NoDup_zrange lo hi : NoDup (zrange lo hi).
Proof.
  unfold zrange. apply NoDup_fmap_2; [intros x y; lia|apply NoDup_ListNoDup, seq_NoDup].
Qed.

Lemma zrange_S lo hi : lo < hi -> zrange lo hi = lo :: zrange (lo + 1) hi.
Proof.
  intros. unfold zrange. replace (Z.to_nat (hi - lo)) with (S (Z.to_nat (hi - (lo + 1)))) by lia.
  simpl. f_equal; [lia|]. rewrite <- seq_shift, <- list_fmap_compose.
  apply list_fmap_ext. intros ? ? _; simpl. lia.
Qed.

Lemma zrange_snoc lo hi : lo <= hi -> zrange lo (hi + 1) = zrange lo hi ++ [hi].
Proof.
  intros. unfold zrange. replace (Z.to_nat (hi + 1 - lo)) with (S (Z.to_nat (hi - lo))) by lia.
  rewrite seq_S, fmap_app. simpl. do 2 f_equal. lia.
Qed.

Lemma zrange_app lo mid hi : lo <= mid <= hi -> zrange lo hi = zrange lo mid ++ zrange mid hi.
Proof.
  intros. unfold zrange. replace (Z.to_nat (hi - lo)) with (Z.to_nat (mid - lo) + Z.to_nat (hi - mid))%nat by lia.
  rewrite seq_app, fmap_app. f_equal. rewrite Nat.add_0_l.
  assert (forall a n, seq a n = Nat.add a <$> seq 0 n) as E by (intros; rewrite fmap_add_seq; f_equal; lia).
  rewrite (E (Z.to_nat (mid - lo))), <- list_fmap_compose. apply list_fmap_ext. intros ? ? _. simpl. lia.
Qed.

(** A [for] loop over [lo..hi-1] whose invariant speaks of the counter. *)
Lemma rfold_range {S} (body : Z -> S -> res S) (I : Z -> S -> Prop) lo hi s :
  lo <= hi -> I lo s ->
  (forall i s, lo <= i < hi -> I i s -> okp (body i s) (I (i + 1))) ->
  okp (rfold body (zrange lo hi) s) (I hi).
Proof.
  intros Hle HI Hstep.
  remember (Z.to_nat (hi - lo)) as n eqn:Hn.
  revert lo s Hle HI Hn Hstep. induction n as [|n IH]; intros lo s Hle HI Hn Hstep.
  - rewrite zrange_nil by lia. simpl. by replace hi with lo by lia.
  - rewrite zrange_S by lia. simpl. apply okp_bind.
    eapply okp_mono; [apply Hstep; [lia|done]|].
    intros s' HI'. apply IH; [lia|done|lia|]. intros; apply Hstep; [lia|done].
Qed.

(** A [while] loop terminates when a measure bounds the fuel. *)
Lemma rloop_inv {S R} (body : S -> res (S + R)) (I : S -> Prop) (m : S -> Z) (Q : R -> Prop) :
  (forall s, I s -> 0 <= m s) ->
  (forall s, I s -> okp (body s) (fun r =>
     match r with inl s' => I s' /\ m s' < m s | inr x => Q x end)) ->
  forall fuel s, I s -> m s < Z.of_nat fuel -> okp (rloop fuel body s) Q.
Proof.
  intros Hpos Hstep. induction fuel as [|n IH]; intros s HI Hm; simpl.
  - specialize (Hpos s HI). lia.
  - apply okp_bind. eapply okp_mono; [by apply Hstep|].
    intros [s'|x]; [|done]. intros [HI' Hlt]. apply IH; [done|lia].
Qed.

(** ** Lemmas: counting *)

Section counting.
Context {A : Type}.
Implicit Types (f g : A -> bool) (l : list A).

Lemma zcount_range f l : 0 <= zcount f l <= zlen l.
Proof.
  unfold zlen. induction l as [|x l IH]; simpl; [lia|]. destruct (f x); simpl; lia.
Qed.

Lemma zcount_ext f g l : (forall x, x ∈ l -> f x = g x) -> zcount f l = zcount g l.
Proof.
  induction l as [|x l IH]; intros H; simpl; [done|].
  rewrite (H x) by set_solver. rewrite IH; [done|]. intros; apply H; set_solver.
Qed.

Lemma zcount_app f l1 l2 : zcount f (l1 ++ l2) = zcount f l1 + zcount f l2.
Proof. induction l1 as [|x l1 IH]; simpl; lia. Qed.

Lemma zcount_false f l : (forall x, x ∈ l -> f x = false) -> zcount f l = 0.
Proof.
  induction l as [|x l IH]; intros H; simpl; [done|].
  rewrite (H x) by set_solver. simpl. apply IH. intros; apply H; set_solver.
Qed.

Lemma zcount_true f l : (forall x, x ∈ l -> f x = true) -> zcount f l = zlen l.
Proof.
  unfold zlen. induction l as [|x l IH]; intros H; simpl; [done|].
  rewrite (H x) by set_solver. simpl. rewrite IH; [lia|]. intros; apply H; set_solver.
Qed.

(** Changing the predicate at one element of a duplicate-free list. *)
Lemma zcount_update f g l x :
  NoDup l -> x ∈ l -> (forall y, y ∈ l -> y <> x -> g y = f y) ->
  zcount g l = zcount f l - b2z (f x) + b2z (g x).
Proof.
  intros Hnd Hx Hfg. induction l as [|y l IH]; [set_solver|].
  apply NoDup_cons in Hnd as [Hy Hnd]. simpl.
  apply elem_of_cons in Hx as [->|Hx].
  - rewrite (zcount_ext g f l); [lia|]. intros z Hz. apply Hfg; set_solver.
  - rewrite (Hfg y) by set_solver. rewrite IH; [lia|done|done|].
    intros; apply Hfg; set_solver.
Qed.

Lemma zcount_pos f l x : x ∈ l -> f x = true -> 0 < zcount f l.
Proof.
  intros Hx Hf. apply list_elem_of_split in Hx as (l1 & l2 & ->).
  rewrite zcount_app. simpl. rewrite Hf. simpl.
  pose proof (zcount_range f l1). pose proof (zcount_range f l2). lia.
Qed.

Lemma zcount_lt f l x : x ∈ l -> f x = false -> zcount f l < zlen l.
Proof.
  intros Hx Hf. apply list_elem_of_split in Hx as (l1 & l2 & ->).
  rewrite zcount_app, zlen_app. simpl. rewrite Hf. simpl.
  pose proof (zcount_range f l1). pose proof (zcount_range f l2).
  unfold zlen in *. simpl. lia.
Qed.

Lemma zcount_split f g l :
  (forall x, x ∈ l -> g x = negb (f x)) -> zcount f l + zcount g l = zlen l.
Proof.
  unfold zlen. induction l as [|x l IH]; intros H; simpl; [done|].
  rewrite (H x) by set_solver. rewrite Nat2Z.inj_succ.
  assert (zcount f l + zcount g l = Z.of_nat (length l)) by (apply IH; intros; apply H; set_solver).
  destruct (f x); simpl; lia.
Qed.

Lemma zcount_zinsert f l (i : Z) x y :
  l !! i = Some x -> zcount f (<[i := y]> l) = zcount f l - b2z (f x) + b2z (f y).
Proof.
  intros E. pose proof (zlookup_Some_range _ _ _ E). rewrite zlookup_to_nat in E by lia.
  rewrite zinsert_to_nat by lia. rewrite <- (take_drop_middle l (Z.to_nat i) x E) at 2.
  rewrite insert_take_drop by (by eapply lookup_lt_Some). rewrite !zcount_app. simpl. lia.
Qed.

Lemma zcount_mono f g l : (forall x, x ∈ l -> f x = true -> g x = true) -> zcount f l <= zcount g l.
Proof.
  induction l as [|x l IH]; intros H; simpl; [done|].
  assert (zcount f l <= zcount g l) by (apply IH; intros; apply H; set_solver).
  destruct (f x) eqn:E; [rewrite (H x) by (done || set_solver); simpl; lia|destruct (g x); simpl; lia].
Qed.
End counting.

(** ** Lemmas: partial correctness *)

Definition retp {A} (r : res A) (Q : A -> Prop) : Prop := forall a, r = Ok a -> Q a.

Lemma retp_bind {A B} (r : res A) (k : A -> res B) Q : retp r (fun a => retp (k a) Q) -> retp (r ≫= k) Q.
Proof. intros H b E. destruct r as [a|]; [|done]. by apply (H a). Qed.

Lemma retp_Ok {A} (a : A) (Q : A -> Prop) : Q a -> retp (Ok a) Q.
Proof. by intros H b [= <-]. Qed.

Lemma retp_Fault {A} f (Q : A -> Prop) : retp (Fault f) Q.
Proof. done. Qed.

Lemma retp_any {A} (r : res A) : retp r (fun _ => True).
Proof. done. Qed.

Lemma retp_mono {A} (r : res A) (P Q : A -> Prop) : retp r P -> (forall a, P a -> Q a) -> retp r Q.
Proof. intros H HPQ a E. by apply HPQ, H. Qed.

Lemma okp_retp {A} (r : res A) (Q : A -> Prop) : okp r Q -> retp r Q.
Proof. intros H a E. by rewrite E in H. Qed.

Lemma retp_aget {A} (l : list A) i (Q : A -> Prop) : (forall x, l !! i = Some x -> Q x) -> retp (aget l i) Q.
Proof. intros H a. unfold aget, of_opt. destruct (l !! i) eqn:E; [|done]. intros [= <-]. by apply H. Qed.

Lemma retp_amod {A} (l : list A) i (f : A -> res A) (Q : list A -> Prop) :
  (forall x y, l !! i = Some x -> f x = Ok y -> Q (<[i := y]> l)) -> retp (amod l i f) Q.
Proof.
  intros H. unfold amod. apply retp_bind, retp_aget. intros x Hx. apply retp_bind. intros y Hy. apply retp_Ok. by eapply H.
Qed.

Lemma okp_with {A} (r : res A) (P Q : A -> Prop) : okp r P -> retp r Q -> okp r (fun a => P a /\ Q a).
Proof. destruct r as [a|]; [|done]. intros HP HQ. split; [exact HP|by apply HQ]. Qed.

Lemma retp_rfold {A S} (body : A -> S -> res S) (I : S -> Prop) l s :
  I s -> (forall x s, I s -> retp (body x s) I) -> retp (rfold body l s) I.
Proof.
  intros Hs H. revert s Hs. induction l as [|x l IH]; intros s Hs; [by apply retp_Ok|].
  apply retp_bind. intros s' E. by apply IH, (H x s Hs).
Qed.

(** ** Lemmas: lists built in loops *)

Lemma elem_of_bind_intro {A B} (f : A -> list B) (l : list A) (y : B) :
  y ∈ (l ≫= f) <-> exists x, y ∈ f x /\ x ∈ l.
Proof. apply list_elem_of_bind. Qed.

Lemma NoDup_bind_disjoint {A B} (f : A -> list B) (l : list A) :
  NoDup l -> (forall x, x ∈ l -> NoDup (f x)) ->
  (forall x y z, x ∈ l -> y ∈ l -> z ∈ f x -> z ∈ f y -> x = y) -> NoDup (l ≫= f).
Proof.
  induction 1 as [|x l Hx Hl IH]; intros Hf Hd; simpl; [constructor|].
  apply NoDup_app. split; [apply Hf; set_solver|]. split.
  - intros z Hz [y [Hzy Hy]]%elem_of_bind_intro.
    assert (x = y) as <- by (eapply Hd; set_solver). done.
  - apply IH; [intros; apply Hf; set_solver|intros; eapply Hd; set_solver].
Qed.

Lemma zlen_bind_const {A B} (f : A -> list B) (l : list A) n :
  (forall x, x ∈ l -> zlen (f x) = n) -> zlen (l ≫= f) = zlen l * n.
Proof.
  induction l as [|x l IH]; intros H; [done|].
  rewrite bind_cons, zlen_app, H, IH by set_solver. unfold zlen. simpl. lia.
Qed.

Lemma zlen_fmap {A B} (f : A -> B) (l : list A) : zlen (f <$> l) = zlen l.
Proof. unfold zlen. by rewrite length_fmap. Qed.
