(* ===== verification/Mem.v ===== *)
(** * Byte memories

    The host's memory and the mapped storage are functions from addresses to
    bytes; [mcopy] is [memcpy] between two of them, and words are little-endian. *)

From stdpp Require Import prelude list.
From Stdlib Require Import ZArith Lia.
From S2P Require Import Prelude.

Definition mem : Type := Z -> Z.

(** [memcpy(dst + d, src + s, n)]. *)
Definition mcopy (dst : mem) (d : Z) (src : mem) (s n : Z) : mem :=
  fun a => if decide (d <= a < d + n) then src (s + (a - d)) else dst a.

Definition mload (m : mem) (a n : Z) : list Z := (fun i => m (a + i)) <$> zrange 0 n.

Definition mstore (m : mem) (a : Z) (bs : list Z) : mem :=
  fun x => match bs !! (x - a) with Some b => b | None => m x end.

Fixpoint le_decode (bs : list Z) : Z :=
  match bs with [] => 0 | b :: bs => b + 256 * le_decode bs end.

Fixpoint le_encode (n : nat) (x : Z) : list Z :=
  match n with O => [] | S n => x `mod` 256 :: le_encode n (x `div` 256) end.

#[global] Arguments le_encode : simpl never.

Definition get_le (m : mem) (a n : Z) : Z := le_decode (mload m a n).
Definition u64_at (m : mem) (a : Z) : Z := get_le m a 8.

Lemma zlen_mload m a n : 0 <= n -> zlen (mload m a n) = n.
Proof. intros. unfold mload. rewrite zlen_fmap, zlen_zrange; lia. Qed.

Lemma zlen_le_encode n x : zlen (le_encode n x) = Z.of_nat n.
Proof. revert x. induction n as [|n IH]; intros x; [done|]. simpl. unfold zlen in *. simpl. rewrite Nat2Z.inj_succ, IH. lia. Qed.

Lemma le_decode_encode n x : 0 <= x < 256 ^ Z.of_nat n -> le_decode (le_encode n x) = x.
Proof.
  revert x. induction n as [|n IH]; intros x Hx; [simpl in Hx; simpl; lia|].
  simpl. rewrite IH.
  - pose proof (Z.div_mod x 256). lia.
  - rewrite Nat2Z.inj_succ, Z.pow_succ_r in Hx by lia. split; [apply Z.div_pos; lia|]. apply Z.div_lt_upper_bound; lia.
Qed.

Lemma mload_ext m m' a n : (forall i, 0 <= i < n -> m (a + i) = m' (a + i)) -> mload m a n = mload m' a n.
Proof.
  intros H. apply list_fmap_ext. intros k i Hi. apply H. apply elem_of_zrange.
  by eapply list_elem_of_lookup_2.
Qed.

Lemma zlookup_zrange lo hi i : 0 <= i < hi - lo -> zrange lo hi !! i = Some (lo + i).
Proof.
  intros Hi. rewrite zlookup_to_nat by lia. unfold zrange. rewrite list_lookup_fmap, lookup_seq_lt by lia.
  simpl. f_equal. lia.
Qed.

Lemma zlookup_fmap {A B} (f : A -> B) (l : list A) (i : Z) : (f <$> l) !! i = f <$> (l !! i).
Proof. unfold lookup, zlookup. case_decide; [|done]. apply list_lookup_fmap. Qed.

Lemma zlookup_mload m a n i : 0 <= i < n -> mload m a n !! i = Some (m (a + i)).
Proof. intros Hi. unfold mload. by rewrite zlookup_fmap, zlookup_zrange by lia. Qed.

Lemma zlookup_mid {A} (pre bs post : list A) i : 0 <= i < zlen bs -> (pre ++ bs ++ post) !! (zlen pre + i) = bs !! i.
Proof.
  intros Hi. pose proof (zlen_nonneg pre). rewrite !zlookup_to_nat by lia. unfold zlen in *.
  rewrite lookup_app_r, lookup_app_l by lia. f_equal. lia.
Qed.

(** A memory that holds [bs] at [a]. *)
Lemma get_le_bytes m a bs : (forall i, 0 <= i < zlen bs -> Some (m (a + i)) = bs !! i) -> get_le m a (zlen bs) = le_decode bs.
Proof.
  intros H. unfold get_le. f_equal. pose proof (zlen_nonneg bs). apply zlist_eq; [by rewrite zlen_mload|].
  intros i Hi. rewrite zlen_mload in Hi by done. rewrite zlookup_mload by done. by apply H.
Qed.

Lemma mload_mstore m a bs : mload (mstore m a bs) a (zlen bs) = bs.
Proof.
  pose proof (zlen_nonneg bs). apply zlist_eq; [by rewrite zlen_mload|].
  intros i Hi. rewrite zlen_mload in Hi by done. rewrite zlookup_mload by done. unfold mstore.
  replace (a + i - a) with i by lia. destruct (zlookup_lt bs i Hi) as [b E]. by rewrite E.
Qed.

Lemma mstore_out m a bs x : ~ (a <= x < a + zlen bs) -> mstore m a bs x = m x.
Proof.
  intros Hx. unfold mstore. destruct (bs !! (x - a)) eqn:E; [|done].
  apply zlookup_Some_range in E. lia.
Qed.

Lemma mload_app m a n1 n2 : 0 <= n1 -> 0 <= n2 -> mload m a (n1 + n2) = mload m a n1 ++ mload m (a + n1) n2.
Proof.
  intros H1 H2. unfold mload. rewrite (zrange_app 0 n1 (n1 + n2)), fmap_app by lia. f_equal.
  apply zlist_eq; [rewrite !zlen_fmap, !zlen_zrange; lia|]. intros i Hi. rewrite zlen_fmap, zlen_zrange in Hi by lia.
  rewrite !zlookup_fmap, !zlookup_zrange by lia. simpl. do 2 f_equal. lia.
Qed.

Lemma mload_mstore_out m a bs b n : (forall i, 0 <= i < n -> ~ (a <= b + i < a + zlen bs)) ->
  mload (mstore m a bs) b n = mload m b n.
Proof. intros H. apply mload_ext. intros i Hi. by apply mstore_out, H. Qed.
