(* ===== verification/Prp.v ===== *)
(** * The PRP entries of a command

    The loop that walks the physical region pages of a command, which the zone
    report, the key-value commands and the data transfer of a block command each
    contain: the first entry is in the command, the second is in the command or
    is the address of a list.  What is done with a chunk of a page is an argument,
    and so is the reading of the list, since a transfer may write the host's
    memory that the list is in.  The last part is what a transfer leaves there.

    [walk_ok]: with entries as NVMe has them, the loop ends and its chunks cover
    the transfer from its first byte to its last, none across a page boundary. *)

From stdpp Require Import prelude list.
From Stdlib Require Import ZArith Lia.
From S2P Require Import Prelude Mem.

Definition PAGE_SIZE : Z := 4096.
Definition PAGE_SHIFT : Z := 12.
Definition PAGE_OFFSET_MASK : Z := PAGE_SIZE - 1.
Definition PRP_PFN (x : Z) : Z := Z.shiftr x PAGE_SHIFT.

(** The address of the element [i] of a list that [kmap_atomic_pfn] maps, [l] being
    its physical address: the mapping ends with the page. *)
Definition kmap_list (l i : Z) : option Z :=
  if Z.land l PAGE_OFFSET_MASK + 8 * (i + 1) <=? PAGE_SIZE then Some (l + 8 * i) else None.

Section walk.
Context {St : Type} (list_at : Z -> Z -> option Z) (prp_u64 : St -> Z -> Z) (chunk : Z -> Z -> Z -> St -> res St).

(** [paddr_list[i]], [paddr_list] being mapped from the physical address [l]. *)
Definition paddr_list_get (st : St) (l : option Z) (i : Z) : res Z :=
  l ← of_opt NullDeref l;
  a ← of_opt OutOfBounds (list_at l i);
  Ok (prp_u64 st a).

Record prp_state := PrpState {
  ps_remaining : Z; ps_offset : Z; ps_prp_offs : Z; ps_prp2_offs : Z;
  ps_list : option Z; ps_st : St
}.

(** Reading the next entry: its address, and the list with the next index. *)
Definition next_paddr (prp1 prp2 : Z) (s : prp_state) : res (Z * option Z * Z) :=
  let prp_offs := s.(ps_prp_offs) + 1 in
  if prp_offs =? 1 then Ok (prp1, s.(ps_list), s.(ps_prp2_offs))
  else if prp_offs =? 2 then
    if PAGE_SIZE <? s.(ps_remaining) then
      let l := Some prp2 in
      paddr ← paddr_list_get s.(ps_st) l s.(ps_prp2_offs);
      Ok (paddr, l, s.(ps_prp2_offs) + 1)
    else Ok (prp2, s.(ps_list), s.(ps_prp2_offs))
  else
    paddr ← paddr_list_get s.(ps_st) s.(ps_list) s.(ps_prp2_offs);
    Ok (paddr, s.(ps_list), s.(ps_prp2_offs) + 1).

(** One iteration: [chunk a o n] moves [n] bytes between the physical address [a]
    and the offset [o] of the transfer. *)
Definition prp_step (prp1 prp2 : Z) (s : prp_state) : res (prp_state + St) :=
  if s.(ps_remaining) =? 0 then Ok (inr s.(ps_st)) else
  '(paddr, l, prp2_offs) ← next_paddr prp1 prp2 s;
  let io_size := Z.min s.(ps_remaining) PAGE_SIZE in
  let mem_offs := Z.land paddr PAGE_OFFSET_MASK in
  let io_size := if negb (mem_offs =? 0) && (PAGE_SIZE <? io_size + mem_offs)
                 then PAGE_SIZE - mem_offs else io_size in
  st ← chunk (PRP_PFN paddr * PAGE_SIZE + mem_offs) s.(ps_offset) io_size s.(ps_st);
  Ok (inl {| ps_remaining := s.(ps_remaining) - io_size; ps_offset := s.(ps_offset) + io_size;
             ps_prp_offs := s.(ps_prp_offs) + 1; ps_prp2_offs := prp2_offs; ps_list := l; ps_st := st |}).

(** Each iteration moves at least one byte. *)
Definition prp_walk (prp1 prp2 length : Z) (st : St) : res St :=
  rloop (S (Z.to_nat length)) (prp_step prp1 prp2) (PrpState length 0 0 0 None st).
End walk.
Arguments PrpState {St}.
Arguments ps_remaining {St}.
Arguments ps_offset {St}.
Arguments ps_prp_offs {St}.
Arguments ps_prp2_offs {St}.
Arguments ps_list {St}.
Arguments ps_st {St}.

(** ** The walk *)

(** The bytes that the first entry takes. *)
Definition prp_first (prp1 length : Z) : Z := Z.min length (PAGE_SIZE - prp1 `mod` PAGE_SIZE).

(** Entries as NVMe has them: only the first has an offset, and the list stays in
    its page. *)
Record prp_ok (rd : Z -> Z) (prp1 prp2 length : Z) : Prop := {
  pp_second : 0 < length - prp_first prp1 length <= PAGE_SIZE -> prp2 `mod` PAGE_SIZE = 0;
  pp_entries i : PAGE_SIZE < length - prp_first prp1 length -> 0 <= i ->
    PAGE_SIZE * i < length - prp_first prp1 length -> rd (prp2 + 8 * i) `mod` PAGE_SIZE = 0;
  pp_list : PAGE_SIZE < length - prp_first prp1 length ->
    prp2 `mod` PAGE_SIZE + 8 * ((length - prp_first prp1 length + PAGE_SIZE - 1) `div` PAGE_SIZE) <= PAGE_SIZE
}.

(** The physical address of the byte [o] of the transfer. *)
Definition prp_addr (rd : Z -> Z) (prp1 prp2 length o : Z) : Z :=
  let first := prp_first prp1 length in
  if o <? first then prp1 + o
  else (if PAGE_SIZE <? length - first then rd (prp2 + 8 * ((o - first) `div` PAGE_SIZE)) else prp2) +
       (o - first) `mod` PAGE_SIZE.

Lemma page_offset x : Z.land x PAGE_OFFSET_MASK = x `mod` PAGE_SIZE.
Proof. exact (Z.land_ones x 12 ltac:(done)). Qed.

Lemma pfn_split x : PRP_PFN x * PAGE_SIZE + x `mod` PAGE_SIZE = x.
Proof.
  unfold PRP_PFN, PAGE_SHIFT. rewrite Z.shiftr_div_pow2 by done. change (2 ^ 12) with PAGE_SIZE.
  pose proof (Z.div_mod x PAGE_SIZE ltac:(done)). lia.
Qed.

(** The size of a chunk is what is left of the transfer or of the page. *)
Lemma chunk_size rem offs :
  0 <= offs < PAGE_SIZE ->
  (if negb (offs =? 0) && (PAGE_SIZE <? Z.min rem PAGE_SIZE + offs) then PAGE_SIZE - offs else Z.min rem PAGE_SIZE) =
  Z.min rem (PAGE_SIZE - offs).
Proof.
  intros Ho. destruct (offs =? 0) eqn:E1; [apply Z.eqb_eq in E1|apply Z.eqb_neq in E1]; simpl; [lia|].
  destruct (PAGE_SIZE <? _) eqn:E2; [apply Z.ltb_lt in E2|apply Z.ltb_ge in E2]; lia.
Qed.

Lemma kmap_list_ok l i : l `mod` PAGE_SIZE + 8 * (i + 1) <= PAGE_SIZE -> kmap_list l i = Some (l + 8 * i).
Proof. intros H. unfold kmap_list. by rewrite page_offset, (proj2 (Z.leb_le _ _)). Qed.

Section walk_ok.
Context {St : Type} (list_at : Z -> Z -> option Z) (prp_u64 : St -> Z -> Z) (chunk : Z -> Z -> Z -> St -> res St).
Context (rd : Z -> Z) (prp1 prp2 length : Z) (J : Z -> St -> Prop).

(** What is left of the entries as the walk sees them after [o] bytes. *)
Let first := prp_first prp1 length.
Context (Hprp : prp_ok rd prp1 prp2 length) (Hlen : 0 <= length).
Context (Hat : forall i, 0 <= i -> prp2 `mod` PAGE_SIZE + 8 * (i + 1) <= PAGE_SIZE -> list_at prp2 i = Some (prp2 + 8 * i)).
Context (Hrd : forall o st i, J o st -> PAGE_SIZE < length - first -> 0 <= i -> PAGE_SIZE * i < length - first ->
  prp_u64 st (prp2 + 8 * i) = rd (prp2 + 8 * i)).
Context (Hchunk : forall a o n st, J o st -> 0 < n -> 0 <= o -> o + n <= length -> n = Z.min (length - o) (PAGE_SIZE - a `mod` PAGE_SIZE) ->
  (o = 0 \/ a `mod` PAGE_SIZE = 0) ->
  (forall j, 0 <= j < n -> prp_addr rd prp1 prp2 length (o + j) = a + j) -> okp (chunk a o n st) (J (o + n))).

Definition prp_at (s : prp_state (St := St)) : Prop :=
  0 <= s.(ps_remaining) /\ s.(ps_remaining) + s.(ps_offset) = length /\ 0 <= s.(ps_offset) /\
  J s.(ps_offset) s.(ps_st) /\
  (s.(ps_remaining) = 0 \/
   (s.(ps_prp_offs) = 0 /\ s.(ps_prp2_offs) = 0 /\ s.(ps_offset) = 0) \/
   (s.(ps_prp_offs) = 1 /\ s.(ps_prp2_offs) = 0 /\ s.(ps_offset) = first) \/
   (2 <= s.(ps_prp_offs) /\ s.(ps_list) = Some prp2 /\ 0 < s.(ps_prp2_offs) /\ PAGE_SIZE < length - first /\
    s.(ps_offset) = first + PAGE_SIZE * s.(ps_prp2_offs))).

Lemma first_range : 0 <= first <= length /\ (first = length \/ first = PAGE_SIZE - prp1 `mod` PAGE_SIZE).
Proof using Hlen.
  clear Hrd Hchunk. unfold first, prp_first, PAGE_SIZE. pose proof (Z.mod_pos_bound prp1 4096 ltac:(done)). lia.
Qed.

(** The addresses of the bytes past the first entry, by the entry they fall in. *)
Lemma prp_addr_first o : 0 <= o < first -> prp_addr rd prp1 prp2 length o = prp1 + o.
Proof using. intros. unfold prp_addr. fold first. by rewrite (proj2 (Z.ltb_lt _ _)) by lia. Qed.

Lemma prp_addr_rest k j :
  0 <= k -> 0 <= j < PAGE_SIZE ->
  prp_addr rd prp1 prp2 length (first + PAGE_SIZE * k + j) =
  (if PAGE_SIZE <? length - first then rd (prp2 + 8 * k) else prp2) + j.
Proof using.
  clear Hprp Hrd Hchunk. intros Hk Hj. unfold prp_addr. fold first.
  rewrite (proj2 (Z.ltb_ge _ _)) by (unfold PAGE_SIZE in *; lia).
  replace (first + PAGE_SIZE * k + j - first) with (j + k * PAGE_SIZE) by lia.
  rewrite Z.div_add, Z.mod_add, Z.div_small, Z.mod_small by (done || lia). by rewrite Z.add_0_l.
Qed.

(** The entry that the next iteration reads, and what is left of its page. *)
Lemma next_paddr_ok s :
  prp_at s -> 0 < s.(ps_remaining) ->
  okp (next_paddr list_at prp_u64 prp1 prp2 s) (fun '(a, l, i) =>
    let n := Z.min s.(ps_remaining) (PAGE_SIZE - a `mod` PAGE_SIZE) in
    (s.(ps_offset) = 0 \/ a `mod` PAGE_SIZE = 0) /\
    (forall j, 0 <= j < n -> prp_addr rd prp1 prp2 length (s.(ps_offset) + j) = a + j) /\
    forall st, J (s.(ps_offset) + n) st ->
      prp_at (PrpState (s.(ps_remaining) - n) (s.(ps_offset) + n) (s.(ps_prp_offs) + 1) i l st)).
Proof using Hprp Hlen Hat Hrd.
  clear Hchunk. intros (H1 & H2 & Ho & H3 & Hcase) Hr. destruct Hprp as [Hp2 He Hl]. fold first in Hp2, He, Hl.
  pose proof first_range as [Hf Hf']. pose proof (Z.mod_pos_bound prp1 PAGE_SIZE ltac:(done)) as Hm1.
  pose proof (fun i => Hrd _ _ i H3) as Hrd'. pose proof (prp_addr_rest 0) as Hr0. pose proof (fun k => prp_addr_rest k) as Hrk.
  clear Hrd. unfold next_paddr, paddr_list_get, prp_at. rewrite ?page_offset.
  assert (forall i, PAGE_SIZE < length - first -> 0 <= i -> PAGE_SIZE * i < length - first ->
    list_at prp2 i = Some (prp2 + 8 * i)) as Hbd.
  { intros i Hg Hi Hi2. specialize (Hl Hg). apply Hat; [done|].
    assert (i + 1 <= (length - first + PAGE_SIZE - 1) `div` PAGE_SIZE) by (apply Z.div_le_lower_bound; unfold PAGE_SIZE in *; lia).
    lia. }
  destruct Hcase as [?|[(E1 & E2 & E3)|[(E1 & E2 & E3)|(E1 & E2 & E3 & E4 & E5)]]]; [lia|..].
  - rewrite E1. simpl. rewrite E3. split; [by left|]. split.
    { intros j Hj. rewrite prp_addr_first; unfold first, prp_first in *; lia. }
    intros st Hst. repeat (split; [done || lia|]). simpl. right. right. left. split; [lia|]. split; [lia|].
    unfold first, prp_first. lia.
  - rewrite E1. simpl. destruct (PAGE_SIZE <? ps_remaining s) eqn:El; [apply Z.ltb_lt in El|apply Z.ltb_ge in El].
    + assert (PAGE_SIZE < length - first) as Hg by lia.
      rewrite E2, Hbd by (done || lia). simpl. rewrite (Hrd' 0), (He 0) by (done || lia).
      rewrite Z.sub_0_r, E3. split; [by right|]. split.
      { intros j Hj. specialize (Hr0 j ltac:(lia) ltac:(lia)). rewrite (proj2 (Z.ltb_lt _ _)) in Hr0 by lia.
        rewrite Z.mul_0_r, !Z.add_0_r in Hr0. by rewrite Z.add_0_r. }
      intros st Hst. repeat (split; [done || lia|]). simpl. right. right. right. unfold PAGE_SIZE in *. split; [lia|]. split; [done|]. lia.
    + simpl. rewrite Hp2, Z.sub_0_r, E3 by lia. split; [by right|]. split.
      { intros j Hj. specialize (Hr0 j ltac:(lia) ltac:(lia)). rewrite (proj2 (Z.ltb_ge _ _)) in Hr0 by lia.
        by rewrite Z.mul_0_r, !Z.add_0_r in Hr0. }
      intros st Hst. repeat (split; [done || lia|]). simpl. left. lia.
  - rewrite (proj2 (Z.eqb_neq _ 1)), (proj2 (Z.eqb_neq _ 2)) by lia. rewrite E2. simpl.
    rewrite Hbd by (done || lia). simpl. rewrite Hrd', (He (ps_prp2_offs s)), Z.sub_0_r, E5 by (done || lia). split; [by right|]. split.
    { intros j Hj. specialize (Hrk (ps_prp2_offs s) j ltac:(lia) ltac:(lia)). by rewrite (proj2 (Z.ltb_lt _ _)) in Hrk by lia. }
    intros st Hst. repeat (split; [done || (unfold PAGE_SIZE in *; lia)|]). simpl.
    destruct (decide (ps_remaining s - Z.min (ps_remaining s) PAGE_SIZE = 0)); [by left|].
    right. right. right. unfold PAGE_SIZE in *. split; [lia|]. split; [done|]. lia.
Qed.

Lemma prp_step_ok s :
  prp_at s ->
  okp (prp_step list_at prp_u64 chunk prp1 prp2 s) (fun r =>
    match r with
    | inl s' => prp_at s' /\ s'.(ps_remaining) < s.(ps_remaining)
    | inr st => J length st
    end).
Proof using Hprp Hlen Hat Hrd Hchunk.
  intros Hs. pose proof Hs as (H1 & H2 & Ho & H3 & _). unfold prp_step.
  destruct (ps_remaining s =? 0) eqn:E0; [apply Z.eqb_eq in E0|apply Z.eqb_neq in E0].
  { simpl. by replace length with (ps_offset s) by lia. }
  apply okp_bind. eapply okp_mono; [apply next_paddr_ok; [done|lia]|]. intros [[a l] i] (Hal & Ha & Hn).
  rewrite page_offset, pfn_split. pose proof (Z.mod_pos_bound a PAGE_SIZE ltac:(done)) as Hm. rewrite chunk_size by done.
  set (k := Z.min (ps_remaining s) (PAGE_SIZE - a `mod` PAGE_SIZE)) in *.
  assert (0 < k <= ps_remaining s) by (unfold k; lia). apply okp_bind.
  eapply okp_mono; [apply Hchunk; [done|lia|done|lia|unfold k; f_equal; lia|done|done]|].
  intros st Hst. simpl. split; [by apply Hn|lia].
Qed.

(** The walk hands every byte of the transfer to [chunk] once, in order, at the
    address its entry gives. *)
Lemma walk_ok st : J 0 st -> okp (prp_walk list_at prp_u64 chunk prp1 prp2 length st) (J length).
Proof using Hprp Hlen Hat Hrd Hchunk.
  intros HJ. unfold prp_walk. apply (rloop_inv _ prp_at (fun s => s.(ps_remaining))).
  - by intros s (? & _).
  - intros s Hs. by apply prp_step_ok.
  - unfold prp_at. simpl. split; [done|]. split; [lia|]. split; [done|]. split; [done|]. right. by left.
  - simpl. lia.
Qed.
End walk_ok.

(** ** Buffers of the host

    A transfer to the host writes the bytes of a buffer to the addresses that the
    PRP entries of its command give.  [delivered] is what the host's memory holds
    after the first bytes of it; the zone report, the values of the key-value store
    and the data of a read are all delivered this way. *)

(** Buffers as NVMe has them: no byte twice, and the list not part of the data. *)
Record prp_buffer_ok (h : mem) (prp1 prp2 length : Z) : Prop := {
  pb_prp : prp_ok (u64_at h) prp1 prp2 length;
  pb_inj o o' : 0 <= o < length -> 0 <= o' < length ->
    prp_addr (u64_at h) prp1 prp2 length o = prp_addr (u64_at h) prp1 prp2 length o' -> o = o';
  pb_list i o j : PAGE_SIZE < length - prp_first prp1 length -> 0 <= i ->
    PAGE_SIZE * i < length - prp_first prp1 length -> 0 <= o < length -> 0 <= j < 8 ->
    prp_addr (u64_at h) prp1 prp2 length o <> prp2 + 8 * i + j
}.

(** The host's memory [h'] after the first [o] bytes of [src] went to the addresses
    [addr], from [h]. *)
Record delivered (addr : Z -> Z) (src : mem) (h : mem) (o : Z) (h' : mem) : Prop := {
  dl_done j : 0 <= j < o -> h' (addr j) = src j;
  dl_other x : (forall j, 0 <= j < o -> x <> addr j) -> h' x = h x
}.

Lemma delivered_0 addr src h : delivered addr src h 0 h.
Proof. split; [lia|done]. Qed.

(** One more chunk, which goes to consecutive addresses. *)
Lemma deliver_copy addr length src buf s h o a n h' :
  (forall o o', 0 <= o < length -> 0 <= o' < length -> addr o = addr o' -> o = o') ->
  delivered addr src h o h' -> 0 <= o -> 0 < n -> o + n <= length ->
  (forall j, 0 <= j < n -> addr (o + j) = a + j) -> (forall j, 0 <= j < n -> src (o + j) = buf (s + j)) ->
  delivered addr src h (o + n) (mcopy h' a buf s n).
Proof.
  intros Hinj [Hd Hx] Ho Hn Hl Ha Hb. split.
  - intros j Hj. unfold mcopy. destruct (decide (o <= j)) as [Hoj|Hoj].
    + replace j with (o + (j - o)) by lia. rewrite Ha, Hb by lia. rewrite decide_True by lia. f_equal. lia.
    + rewrite decide_False; [apply Hd; lia|]. intros Hr.
      specialize (Hinj j (o + (addr j - a)) ltac:(lia) ltac:(lia)). rewrite Ha in Hinj by lia. specialize (Hinj ltac:(lia)). lia.
  - intros x Hne. unfold mcopy. rewrite decide_False.
    + apply Hx. intros j Hj. apply Hne. lia.
    + intros Hr. apply (Hne (o + (x - a))); [lia|]. rewrite Ha by lia. lia.
Qed.

(** What was delivered before leaves the list as it was. *)
Lemma list_delivered h prp1 prp2 length src o h' i :
  prp_buffer_ok h prp1 prp2 length -> delivered (prp_addr (u64_at h) prp1 prp2 length) src h o h' -> o <= length ->
  PAGE_SIZE < length - prp_first prp1 length -> 0 <= i -> PAGE_SIZE * i < length - prp_first prp1 length ->
  u64_at h' (prp2 + 8 * i) = u64_at h (prp2 + 8 * i).
Proof.
  intros Hb [_ Hx] Ho Hg Hi1 Hi2. unfold u64_at, get_le. f_equal. apply mload_ext. intros k Hk. apply Hx.
  intros j Hj Ej. apply (pb_list _ _ _ _ Hb i j k); try (done || lia).
Qed.

(** Two deliveries of the same bytes agree. *)
Lemma delivered_agree addr src h n h1 h2 : delivered addr src h n h1 -> delivered addr src h n h2 -> forall x, h1 x = h2 x.
Proof.
  intros [Ha Ha'] [Hb Hb'] x. destruct (decide (Exists (fun j => x = addr j) (zrange 0 n))) as [H|H].
  - apply Exists_exists in H as (j & Hj%elem_of_zrange & ->). by rewrite Ha, Hb.
  - rewrite Ha', Hb'; [done|..]; intros j Hj ->; apply H, Exists_exists; exists j; (split; [by apply elem_of_zrange|done]).
Qed.

(** A buffer of at most two pages is without a list. *)
Lemma short_addr rd rd' prp1 prp2 length : length - prp_first prp1 length <= PAGE_SIZE ->
  forall o, prp_addr rd' prp1 prp2 length o = prp_addr rd prp1 prp2 length o.
Proof. intros Hl o. unfold prp_addr. by rewrite (proj2 (Z.ltb_ge PAGE_SIZE _)) by lia. Qed.

Lemma short_buffer h h' prp1 prp2 length : length - prp_first prp1 length <= PAGE_SIZE ->
  prp_buffer_ok h prp1 prp2 length -> prp_buffer_ok h' prp1 prp2 length.
Proof.
  intros Hl [[H1 _ _] H2 _]. split; [split; [done|lia|lia]|intros o o'|lia].
  rewrite !(short_addr (u64_at h) (u64_at h')) by done. by apply H2.
Qed.

(** A walk each chunk of which copies from [buf], from [s] on, delivers it; [host] is the host's
    memory in the state of the walk, and [J] what else the walk keeps. *)
Section deliver.
Context {St : Type} (host : St -> mem) (J : St -> Prop) (chunk : Z -> Z -> Z -> St -> res St).
Context (h : mem) (prp1 prp2 length : Z) (buf : mem) (s : Z).
Context (Hb : prp_buffer_ok h prp1 prp2 length) (Hl : 0 <= length).
Context (Hchunk : forall a o n st, J st -> 0 <= o -> 0 < n -> o + n <= length ->
  okp (chunk a o n st) (fun st' => J st' /\ host st' = mcopy (host st) a buf (s + o) n)).

Lemma deliver_walk_ok st : J st -> host st = h ->
  okp (prp_walk kmap_list (fun st => u64_at (host st)) chunk prp1 prp2 length st) (fun st' =>
    J st' /\ delivered (prp_addr (u64_at h) prp1 prp2 length) (fun j => buf (s + j)) h length (host st')).
Proof using Hb Hl Hchunk.
  intros HJ E. set (addr := prp_addr _ _ _ _). set (src := fun j => buf (s + j)).
  eapply (okp_mono _ (fun st' => length <= length /\ J st' /\ delivered addr src h length (host st'))); [|by intros ? [_ ?]].
  apply (walk_ok _ _ _ (u64_at h) prp1 prp2 length (fun o st' => o <= length /\ J st' /\ delivered addr src h o (host st'))); [apply Hb|done|by intros; apply kmap_list_ok| | |].
  - intros o st' i (Ho & _ & Hd) Hg Hi1 Hi2. by eapply list_delivered.
  - intros a o n st' (_ & HJ' & Hd) Hn Ho Hon _ _ Ha. eapply okp_mono; [by apply Hchunk|]. intros st2 [HJ2 ->].
    split; [done|]. split; [done|]. apply (deliver_copy _ length); try done; [apply (pb_inj _ _ _ _ Hb)|]. intros j Hj. unfold src. f_equal. lia.
  - split; [done|]. split; [done|]. rewrite E. apply delivered_0.
Qed.
End deliver.
