(* ===== verification/ChannelModel.v ===== *)
(** * The bandwidth model of a channel (channel_model.c, channel_model.h)

    A channel is a ring of time slots of [UNIT_TIME_INTERVAL] nanoseconds, each
    holding the transfer credits left in it.  [head] is the slot of the clock
    reading [cur_time]; only the [valid_len] slots from [head] on may have been
    drawn from.  A request takes its credits greedily from the slot of its
    arrival on; the slots it had to skip become its delay.

    [slot ch k] is the slot [k] intervals ahead of the clock, which is how the
    theorems read the ring. *)

From stdpp Require Import prelude list.
From Stdlib Require Import ZArith Lia.
From S2P Require Import Prelude.

(** The length of the ring is the one constant of channel_model.h whose size
    makes an evaluation slow; it is a parameter and [nvmev_chan] its value in
    the program.  The bound keeps [head + offset] inside a [uint32_t]. *)
Class ChanConfig := {
  NR_CREDIT_ENTRIES : Z;
  nr_credit_entries_bound : 0 < NR_CREDIT_ENTRIES <= 2147483648
}.

#[global] Instance nvmev_chan : ChanConfig | 100 :=
  {| NR_CREDIT_ENTRIES := 1024 * 96; nr_credit_entries_bound := ltac:(lia) |}.

Definition UNIT_TIME_INTERVAL : Z := 4000.
Definition UNIT_XFER_SIZE : Z := 128.
Definition UNIT_XFER_CREDITS : Z := 1.

Record channel_model := Channel {
  cur_time : Z;
  head : Z;
  valid_len : Z;
  max_credits : Z;
  command_credits : Z;
  xfer_lat : Z;
  avail_credits : list Z
}.

Definition BANDWIDTH_TO_TX_TIME (mb_s : Z) : res Z :=
  cdiv (UNIT_XFER_SIZE * NS_PER_SEC 1) (MB mb_s).

Definition BANDWIDTH_TO_MAX_CREDITS (mb_s : Z) : Z :=
  (u64 (MB mb_s * UNIT_TIME_INTERVAL) `div` NS_PER_SEC 1) `div` UNIT_XFER_SIZE * UNIT_XFER_CREDITS.

Section channel.
Context `{ChanConfig}.

(** [MEMSET(&avail_credits[from], value, len)]: bytes, and inside the array. *)
Definition memset_credits (from value len : Z) (l : list Z) : res (list Z) :=
  if (0 <=? from) && (0 <=? len) && (from + len <=? zlen l)
  then Ok (zfill from len (u8 value) l) else Fault OutOfBounds.

Definition chmodel_init (bandwidth : Z) : res channel_model :=
  let maxc := u32 (BANDWIDTH_TO_MAX_CREDITS bandwidth) in
  lat ← BANDWIDTH_TO_TX_TIME bandwidth;
  Ok {| head := 0; valid_len := 0; cur_time := 0; max_credits := maxc;
        command_credits := 0; xfer_lat := u32 lat;
        avail_credits := zrepeat NR_CREDIT_ENTRIES (u8 maxc) |}.

(** The first half of [chmodel_request]: move [head] to the slot of [now],
    refilling the slots that are left behind. *)
Definition chmodel_advance (ch : channel_model) (now : Z) : res channel_model :=
  let offs := u32 (u64 (now `div` UNIT_TIME_INTERVAL - ch.(cur_time) `div` UNIT_TIME_INTERVAL)) in
  let offs := if offs <? ch.(valid_len) then offs else ch.(valid_len) in
  credits ←
    (if NR_CREDIT_ENTRIES <=? u32 (ch.(head) + offs) then
       l ← memset_credits ch.(head) ch.(max_credits) (NR_CREDIT_ENTRIES - ch.(head)) ch.(avail_credits);
       memset_credits 0 ch.(max_credits) (offs - (NR_CREDIT_ENTRIES - ch.(head))) l
     else memset_credits ch.(head) ch.(max_credits) offs ch.(avail_credits));
  let ch' := {| head := u32 (ch.(head) + offs) `mod` NR_CREDIT_ENTRIES;
                cur_time := now;
                valid_len := u32 (ch.(valid_len) - offs);
                max_credits := ch.(max_credits);
                command_credits := ch.(command_credits);
                xfer_lat := ch.(xfer_lat);
                avail_credits := credits |} in
  if NR_CREDIT_ENTRIES <? ch'.(valid_len) then Fault BugOn else Ok ch'.

(** The state of the [while (1)] loop that draws the credits. *)
Record draw := Draw { d_credits : list Z; d_remaining : Z; d_pos : Z; d_delay : Z }.

Definition draw_step (hd : Z) (d : draw) : res (draw + draw) :=
  c ← aget d.(d_credits) d.(d_pos);
  let consumed := if d.(d_remaining) <=? c then d.(d_remaining) else c in
  let credits := <[d.(d_pos) := u8 (c - consumed)]> d.(d_credits) in
  let remaining := u32 (d.(d_remaining) - consumed) in
  if negb (remaining =? 0) then
    let next_pos := u32 (d.(d_pos) + 1) `mod` NR_CREDIT_ENTRIES in
    if negb (next_pos =? hd)
    then Ok (inl (Draw credits remaining next_pos (u32 (d.(d_delay) + 1))))
    else Ok (inr (Draw credits remaining d.(d_pos) d.(d_delay)))
  else Ok (inr (Draw credits remaining d.(d_pos) d.(d_delay))).

Definition chmodel_request (now : Z) (ch : channel_model) (request_time len : Z) :
    res (channel_model * Z) :=
  let units_to_xfer := u32 (u64 (len + UNIT_XFER_SIZE - 1) `div` UNIT_XFER_SIZE) in
  ch ← chmodel_advance ch now;
  if request_time <? now then Ok (ch, request_time) else
  let request_time_offs :=
    u32 (u64 (request_time `div` UNIT_TIME_INTERVAL - now `div` UNIT_TIME_INTERVAL)) in
  if NR_CREDIT_ENTRIES <=? request_time_offs then Ok (ch, request_time) else
  let pos := u32 (ch.(head) + request_time_offs) `mod` NR_CREDIT_ENTRIES in
  let remaining := u32 (u32 (units_to_xfer * UNIT_XFER_CREDITS) + ch.(command_credits)) in
  default_delay ← cdiv remaining ch.(max_credits);
  d ← rloop (Z.to_nat NR_CREDIT_ENTRIES + 1) (draw_step ch.(head))
        (Draw ch.(avail_credits) remaining pos 0);
  let valid_length :=
    if ch.(head) <=? d.(d_pos) then u32 (d.(d_pos) - ch.(head) + 1)
    else u32 (NR_CREDIT_ENTRIES - (ch.(head) - d.(d_pos) - 1)) in
  let vl := if ch.(valid_len) <? valid_length then valid_length else ch.(valid_len) in
  let delay := if default_delay <? d.(d_delay) then d.(d_delay) - default_delay else 0 in
  let total_latency := u64 (u32 (ch.(xfer_lat) * units_to_xfer) + u64 (delay * UNIT_TIME_INTERVAL)) in
  Ok ({| head := ch.(head); cur_time := ch.(cur_time); valid_len := vl;
         max_credits := ch.(max_credits); command_credits := ch.(command_credits);
         xfer_lat := ch.(xfer_lat); avail_credits := d.(d_credits) |},
      u64 (request_time + total_latency)).

(** ** The ring read from the clock on *)

(** The index of the slot [k] intervals ahead of the head. *)
Definition slot_idx (hd k : Z) : Z := (hd + k) `mod` NR_CREDIT_ENTRIES.

Definition slot (ch : channel_model) (k : Z) : option Z :=
  ch.(avail_credits) !! slot_idx ch.(head) k.

(** The invariant: the array has its size, no slot holds more than
    [max_credits], and a slot outside the window of [valid_len] is full. *)
Record chan_ok (ch : channel_model) : Prop := {
  chan_len : zlen ch.(avail_credits) = NR_CREDIT_ENTRIES;
  chan_head : 0 <= ch.(head) < NR_CREDIT_ENTRIES;
  chan_valid : 0 <= ch.(valid_len) <= NR_CREDIT_ENTRIES;
  chan_max : 0 < ch.(max_credits) < 256;
  chan_cmd : 0 <= ch.(command_credits) < 4294967296;
  chan_credits : forall i c, ch.(avail_credits) !! i = Some c -> 0 <= c <= ch.(max_credits);
  chan_full : forall k, ch.(valid_len) <= k < NR_CREDIT_ENTRIES ->
    slot ch k = Some ch.(max_credits)
}.

(** The sum of the credits in the slots [lo..hi-1] ahead of [hd]. *)
Definition ring_sum (hd : Z) (l : list Z) (lo hi : Z) : Z :=
  foldr Z.add 0 ((fun k => default 0 (l !! slot_idx hd k)) <$> zrange lo hi).

Definition slots_sum (ch : channel_model) (lo hi : Z) : Z :=
  ring_sum ch.(head) ch.(avail_credits) lo hi.

(** ** What a draw of [rem0] credits from the slot [k0] on does

    It stops at a slot [k']: the slots in between are emptied, [t] credits
    come from [k'] itself, and credits are left over only at the end of the
    ring. *)
Definition drawn (hd : Z) (l0 : list Z) (k0 rem0 : Z) (d : draw) (k' t : Z) : Prop :=
  k0 <= k' < NR_CREDIT_ENTRIES /\ d.(d_pos) = slot_idx hd k' /\ d.(d_delay) = k' - k0 /\
  zlen d.(d_credits) = NR_CREDIT_ENTRIES /\
  (forall j, 0 <= j < NR_CREDIT_ENTRIES -> j < k0 \/ k' < j ->
     d.(d_credits) !! slot_idx hd j = l0 !! slot_idx hd j) /\
  (forall j, k0 <= j < k' -> d.(d_credits) !! slot_idx hd j = Some 0) /\
  (exists c, l0 !! slot_idx hd k' = Some c /\ 0 <= t <= c /\
     d.(d_credits) !! slot_idx hd k' = Some (c - t) /\
     (0 < d.(d_remaining) -> k' = NR_CREDIT_ENTRIES - 1 /\ t = c)) /\
  0 <= d.(d_remaining) /\
  rem0 = ring_sum hd l0 k0 k' + t + d.(d_remaining).

(** ** Lemmas *)

Lemma slot_idx_cases hd k :
  0 <= hd < NR_CREDIT_ENTRIES -> 0 <= k < NR_CREDIT_ENTRIES ->
  slot_idx hd k = if decide (hd + k < NR_CREDIT_ENTRIES) then hd + k else hd + k - NR_CREDIT_ENTRIES.
Proof.
  intros. unfold slot_idx. case_decide; [by apply Z.mod_small; lia|].
  replace (hd + k) with (hd + k - NR_CREDIT_ENTRIES + 1 * NR_CREDIT_ENTRIES) at 1 by lia.
  rewrite Z.mod_add by lia. apply Z.mod_small. lia.
Qed.

Lemma slot_idx_range hd k : 0 <= slot_idx hd k < NR_CREDIT_ENTRIES.
Proof. pose proof nr_credit_entries_bound. apply Z.mod_pos_bound. lia. Qed.

Lemma slot_idx_add hd a k : slot_idx (slot_idx hd a) k = slot_idx hd (a + k).
Proof.
  pose proof nr_credit_entries_bound. unfold slot_idx.
  rewrite Z.add_mod_idemp_l by lia. f_equal. lia.
Qed.

Lemma slot_idx_inj hd j k :
  0 <= hd < NR_CREDIT_ENTRIES -> 0 <= j < NR_CREDIT_ENTRIES -> 0 <= k < NR_CREDIT_ENTRIES ->
  slot_idx hd j = slot_idx hd k -> j = k.
Proof. intros. rewrite !slot_idx_cases in * by lia. repeat case_decide; lia. Qed.

Lemma memset_credits_ok from value len l :
  0 <= from -> 0 <= len -> from + len <= zlen l ->
  memset_credits from value len l = Ok (zfill from len (u8 value) l).
Proof.
  intros. unfold memset_credits.
  by rewrite !(proj2 (Z.leb_le _ _)) by lia.
Qed.

(** The offset [chmodel_advance] moves the head by. *)
Definition advance_offs (ch : channel_model) (now : Z) : Z :=
  Z.min (u32 (u64 (now `div` UNIT_TIME_INTERVAL - ch.(cur_time) `div` UNIT_TIME_INTERVAL)))
    ch.(valid_len).

(** The clock moves the window: a slot [k] ahead of the new clock is the slot
    [k + offs] ahead of the old one, and the slots that come into sight are
    full. *)
Definition advanced (ch ch' : channel_model) (now : Z) : Prop :=
  ch'.(cur_time) = now /\ ch'.(max_credits) = ch.(max_credits) /\
  ch'.(command_credits) = ch.(command_credits) /\ ch'.(xfer_lat) = ch.(xfer_lat) /\
  ch'.(valid_len) = ch.(valid_len) - advance_offs ch now /\
  forall k, 0 <= k < NR_CREDIT_ENTRIES ->
    slot ch' k = if decide (k + advance_offs ch now < NR_CREDIT_ENTRIES)
                 then slot ch (k + advance_offs ch now) else Some ch.(max_credits).

Lemma refill_lookup (l : list Z) hd offs m j :
  zlen l = NR_CREDIT_ENTRIES -> 0 <= hd < NR_CREDIT_ENTRIES -> 0 <= offs <= NR_CREDIT_ENTRIES ->
  0 <= m < 256 -> 0 <= j < NR_CREDIT_ENTRIES ->
  exists l',
    (if NR_CREDIT_ENTRIES <=? hd + offs then
       l ← memset_credits hd m (NR_CREDIT_ENTRIES - hd) l;
       memset_credits 0 m (offs - (NR_CREDIT_ENTRIES - hd)) l
     else memset_credits hd m offs l) = Ok l' /\ zlen l' = NR_CREDIT_ENTRIES /\
    forall j, 0 <= j < NR_CREDIT_ENTRIES ->
      l' !! slot_idx hd j = if decide (j < offs) then Some m else l !! slot_idx hd j.
Proof.
  intros Hl Hhd Hoffs Hm Hj.
  assert (forall i, 0 <= i < NR_CREDIT_ENTRIES -> (fun _ => m) <$> (l !! i) = Some m) as Hfill.
  { intros i Hi. destruct (zlookup_lt l i) as [x ->]; [lia|done]. }
  destruct (Z.leb_spec NR_CREDIT_ENTRIES (hd + offs)).
  - rewrite memset_credits_ok by lia. simpl.
    rewrite memset_credits_ok by (autorewrite with arrays; lia).
    eexists. split; [done|]. split; [autorewrite with arrays; done|].
    intros i Hi. rewrite !zlookup_zfill, slot_idx_cases by lia.
    unwrap. repeat case_decide; rewrite ?Hfill by lia; simpl; try done; lia.
  - rewrite memset_credits_ok by lia.
    eexists. split; [done|]. split; [autorewrite with arrays; done|].
    intros i Hi. rewrite !zlookup_zfill, slot_idx_cases by lia.
    unwrap. repeat case_decide; rewrite ?Hfill by lia; simpl; try done; lia.
Qed.

Lemma chmodel_advance_ok ch now :
  chan_ok ch -> okp (chmodel_advance ch now) (fun ch' => chan_ok ch' /\ advanced ch ch' now).
Proof.
  intros [Hlen Hhd Hvl Hmax Hcmd Hcr Hfull].
  pose proof nr_credit_entries_bound.
  unfold chmodel_advance.
  set (raw := u32 (u64 _)).
  assert (0 <= raw < 4294967296) as Hraw by apply u32_range.
  replace (if raw <? valid_len ch then raw else valid_len ch) with (advance_offs ch now)
    by (unfold advance_offs; fold raw; destruct (Z.ltb_spec raw (valid_len ch)); lia).
  assert (0 <= advance_offs ch now <= valid_len ch) as Hoffs by (unfold advance_offs; fold raw; lia).
  remember (advance_offs ch now) as offs eqn:Eoffs. clear raw Hraw.
  rewrite u32_small by lia.
  destruct (refill_lookup ch.(avail_credits) ch.(head) offs ch.(max_credits) 0) as (l' & -> & Hl' & Hlook);
    [lia..|].
  simpl. unwrap. rewrite (proj2 (Z.ltb_ge _ _)) by lia. simpl.
  fold (slot_idx ch.(head) offs).
  assert (forall k, 0 <= k < NR_CREDIT_ENTRIES ->
    l' !! slot_idx (slot_idx ch.(head) offs) k =
    if decide (k + offs < NR_CREDIT_ENTRIES) then slot ch (k + offs) else Some ch.(max_credits)) as Hslot.
  { intros k Hk. rewrite slot_idx_add. case_decide.
    - rewrite Hlook by lia. case_decide; [lia|]. unfold slot. do 2 f_equal. lia.
    - replace (offs + k) with (offs + k - NR_CREDIT_ENTRIES + NR_CREDIT_ENTRIES) by lia.
      unfold slot_idx. replace (head ch + (offs + k - NR_CREDIT_ENTRIES + NR_CREDIT_ENTRIES))
        with (head ch + (offs + k - NR_CREDIT_ENTRIES) + 1 * NR_CREDIT_ENTRIES) by lia.
      rewrite Z.mod_add by lia. fold (slot_idx (head ch) (offs + k - NR_CREDIT_ENTRIES)).
      rewrite Hlook by lia. by case_decide; [|lia]. }
  split; [split; simpl|].
  - done.
  - apply slot_idx_range.
  - lia.
  - lia.
  - lia.
  - intros i c Hi. pose proof (zlookup_Some_range _ _ _ Hi).
    assert (exists j, 0 <= j < NR_CREDIT_ENTRIES /\ slot_idx ch.(head) j = i) as (j & Hj & <-).
    { exists (if decide (head ch <= i) then i - head ch else i - head ch + NR_CREDIT_ENTRIES).
      case_decide; (split; [lia|]); rewrite slot_idx_cases by lia; case_decide; lia. }
    rewrite Hlook in Hi by lia. case_decide; [injection Hi as <-; lia|]. eauto.
  - intros k Hk. unfold slot; simpl. rewrite Hslot by lia.
    case_decide; [apply Hfull; lia|done].
  - unfold advanced. rewrite <- Eoffs. simpl. do 5 (split; [done|]).
    intros k Hk. by apply Hslot.
Qed.

Lemma ring_sum_snoc hd l lo hi :
  lo <= hi -> ring_sum hd l lo (hi + 1) = ring_sum hd l lo hi + default 0 (l !! slot_idx hd hi).
Proof.
  intros. unfold ring_sum. rewrite zrange_snoc by done. rewrite fmap_app, foldr_app. simpl.
  generalize (default 0 (l !! slot_idx hd hi)). intros z.
  induction (_ <$> zrange lo hi) as [|x xs IH]; simpl; lia.
Qed.

Lemma ring_sum_nil hd l lo : ring_sum hd l lo lo = 0.
Proof. unfold ring_sum. by rewrite zrange_nil by lia. Qed.

(** The state of the loop at the slot [k]. *)
Definition draw_inv (hd : Z) (l0 : list Z) (k0 rem0 k : Z) (d : draw) : Prop :=
  k0 <= k < NR_CREDIT_ENTRIES /\ d.(d_pos) = slot_idx hd k /\ d.(d_delay) = k - k0 /\
  zlen d.(d_credits) = NR_CREDIT_ENTRIES /\
  (forall j, 0 <= j < NR_CREDIT_ENTRIES -> j < k0 \/ k <= j ->
     d.(d_credits) !! slot_idx hd j = l0 !! slot_idx hd j) /\
  (forall j, k0 <= j < k -> d.(d_credits) !! slot_idx hd j = Some 0) /\
  0 <= d.(d_remaining) < 4294967296 /\
  rem0 = ring_sum hd l0 k0 k + d.(d_remaining).

Lemma draw_step_ok hd l0 k0 rem0 k d :
  0 <= hd < NR_CREDIT_ENTRIES -> 0 <= k0 ->
  (forall i c, l0 !! i = Some c -> 0 <= c < 256) ->
  draw_inv hd l0 k0 rem0 k d ->
  okp (draw_step hd d) (fun r => match r with
    | inl d' => k + 1 < NR_CREDIT_ENTRIES /\ draw_inv hd l0 k0 rem0 (k + 1) d'
    | inr d' => exists k' t, drawn hd l0 k0 rem0 d' k' t end).
Proof.
  intros Hhd Hk0 Hbyte (Hk & Hpos & Hdel & Hlen & Hout & Hin & Hrem & Hsum).
  pose proof nr_credit_entries_bound.
  pose proof (slot_idx_range hd k).
  unfold draw_step. rewrite Hpos. apply okp_bind, aget_okp; [lia|]. intros c Hc.
  rewrite Hout in Hc by lia. pose proof (Hbyte _ _ Hc).
  set (t := if d_remaining d <=? c then d_remaining d else c).
  assert (0 <= t <= c /\ t <= d_remaining d /\ (d_remaining d - t = 0 \/ t = c)) as (Ht & Ht' & Ht'')
    by (unfold t; destruct (Z.leb_spec (d_remaining d) c); lia).
  clearbody t. rewrite u8_small, u32_small by lia.
  assert (zlen (<[slot_idx hd k := c - t]> (d_credits d)) = NR_CREDIT_ENTRIES) as Hlen'
    by (by autorewrite with arrays).
  assert (forall j, 0 <= j < NR_CREDIT_ENTRIES -> j <> k ->
    <[slot_idx hd k := c - t]> (d_credits d) !! slot_idx hd j = d_credits d !! slot_idx hd j) as Hne.
  { intros j Hj Hjk. apply zlookup_zinsert_ne. intros E. apply slot_idx_inj in E; lia. }
  assert (drawn hd l0 k0 rem0
    (Draw (<[slot_idx hd k := c - t]> (d_credits d)) (d_remaining d - t) (slot_idx hd k) (d_delay d)) k t
    \/ (0 < d_remaining d - t /\ k + 1 < NR_CREDIT_ENTRIES)) as Hstop.
  { destruct (decide (0 < d_remaining d - t /\ k + 1 < NR_CREDIT_ENTRIES)); [by right|left].
    repeat split; simpl; try lia; try done.
    - intros j Hj Hjk. rewrite Hne by lia. apply Hout; lia.
    - intros j Hj. rewrite Hne by lia. apply Hin; lia.
    - exists c. split; [done|]. split; [lia|]. split; [apply zlookup_zinsert_eq; lia|lia]. }
  assert (slot_idx hd k + 1 <= 4294967295) as Hb by lia.
  assert (u32 (slot_idx hd k + 1) `mod` NR_CREDIT_ENTRIES = slot_idx hd (k + 1)) as ->.
  { rewrite u32_small by lia. unfold slot_idx. rewrite Z.add_mod_idemp_l by lia. f_equal. lia. }
  assert (slot_idx hd (k + 1) = hd <-> k + 1 = NR_CREDIT_ENTRIES) as Hwrap.
  { split.
    - intros E. destruct (decide (k + 1 = NR_CREDIT_ENTRIES)); [done|].
      rewrite slot_idx_cases in E by lia. case_decide; lia.
    - intros ->. unfold slot_idx. replace (hd + NR_CREDIT_ENTRIES) with (hd + 1 * NR_CREDIT_ENTRIES) by lia.
      rewrite Z.mod_add by lia. apply Z.mod_small; lia. }
  destruct (Z.eqb_spec (d_remaining d - t) 0); simpl; [destruct Hstop as [?|[??]]; [eauto|lia]|].
  destruct (Z.eqb_spec (slot_idx hd (k + 1)) hd); simpl; [destruct Hstop as [?|[??]]; [eauto|lia]|].
  destruct Hstop as [(_ & _ & _ & _ & _ & _ & (c' & _ & _ & _ & Hfin) & _)|[Hpos1 Hpos2]].
  { simpl in Hfin. lia. }
  split; [lia|]. rewrite u32_small by lia. repeat split; simpl; try lia; try done.
  - intros j Hj Hjk. rewrite Hne by lia. apply Hout; lia.
  - intros j Hj. destruct (decide (j = k)) as [->|].
    + rewrite zlookup_zinsert_eq by lia. f_equal. lia.
    + rewrite Hne by lia. apply Hin; lia.
  - rewrite ring_sum_snoc, Hc by lia. simpl. lia.
Qed.

Lemma draw_loop_ok hd l0 k0 rem0 :
  0 <= hd < NR_CREDIT_ENTRIES -> 0 <= k0 < NR_CREDIT_ENTRIES -> 0 <= rem0 < 4294967296 ->
  zlen l0 = NR_CREDIT_ENTRIES -> (forall i c, l0 !! i = Some c -> 0 <= c < 256) ->
  okp (rloop (Z.to_nat NR_CREDIT_ENTRIES + 1) (draw_step hd) (Draw l0 rem0 (slot_idx hd k0) 0))
    (fun d => exists k' t, drawn hd l0 k0 rem0 d k' t).
Proof.
  intros Hhd Hk0 Hrem Hlen Hbyte.
  apply (rloop_inv _ (fun d => exists k, draw_inv hd l0 k0 rem0 k d)
    (fun d => NR_CREDIT_ENTRIES - d.(d_delay))).
  - intros d (k & ? & ? & -> & _). lia.
  - intros d (k & Hinv). pose proof Hinv as (_ & _ & -> & _).
    eapply okp_mono; [apply (draw_step_ok hd l0 k0 rem0 k d); [done|lia|done|done]|].
    intros [d'|d'].
    + intros [Hk Hinv']. split; [by eauto|]. pose proof Hinv' as (_ & _ & -> & _). lia.
    + done.
  - exists k0. repeat split; simpl; try lia; try done. by rewrite ring_sum_nil.
  - simpl. lia.
Qed.

(** The ring after a draw, and the window that covers it. *)
Definition after_draw (mid : channel_model) (d : draw) (k' : Z) (ch' : channel_model) : Prop :=
  ch'.(head) = mid.(head) /\ ch'.(cur_time) = mid.(cur_time) /\
  ch'.(max_credits) = mid.(max_credits) /\ ch'.(command_credits) = mid.(command_credits) /\
  ch'.(xfer_lat) = mid.(xfer_lat) /\ ch'.(avail_credits) = d.(d_credits) /\
  ch'.(valid_len) = Z.max mid.(valid_len) (k' + 1).

Lemma idx_of_slot hd i :
  0 <= hd < NR_CREDIT_ENTRIES -> 0 <= i < NR_CREDIT_ENTRIES ->
  exists j, 0 <= j < NR_CREDIT_ENTRIES /\ slot_idx hd j = i.
Proof.
  intros. exists (if decide (hd <= i) then i - hd else i - hd + NR_CREDIT_ENTRIES).
  case_decide; (split; [lia|]); rewrite slot_idx_cases by lia; case_decide; lia.
Qed.

Lemma after_draw_ok mid ch' k0 rem0 d k' t :
  chan_ok mid -> 0 <= k0 -> drawn mid.(head) mid.(avail_credits) k0 rem0 d k' t ->
  after_draw mid d k' ch' -> chan_ok ch'.
Proof.
  intros [Hlen Hhd Hvl Hmax Hcmd Hcr Hfull] Hk0
    (Hk & Hpos & Hdel & Hdlen & Hout & Hin & (c & Hc & Ht & Hd & _) & _ & _)
    (Eh & _ & Em & Ec & _ & Ea & Ev).
  pose proof (Hcr _ _ Hc).
  split; rewrite ?Eh, ?Em, ?Ec, ?Ea, ?Ev; try done; try lia.
  - intros i x Hi. pose proof (zlookup_Some_range _ _ _ Hi).
    destruct (idx_of_slot mid.(head) i) as (j & Hj & <-); [lia..|].
    destruct (decide (j < k0 \/ k' < j)).
    { rewrite Hout in Hi by lia. eauto. }
    destruct (decide (j = k')) as [->|]; [rewrite Hd in Hi|rewrite Hin in Hi by lia];
      injection Hi as <-; lia.
  - intros k Hk1. unfold slot. rewrite Eh, Ea, Hout by lia. by apply Hfull; lia.
Qed.

(** ** The request, characterised

    A request that is late, or too far ahead, only moves the clock.  Any other
    draws its credits from the slot of its arrival on, and completes after the
    bare transfer time plus the slots it had to wait beyond the minimum. *)
Definition xfer_units (len : Z) : Z :=
  u32 (u64 (len + UNIT_XFER_SIZE - 1) `div` UNIT_XFER_SIZE).

Definition arrival_slot (now request_time : Z) : Z :=
  u32 (u64 (request_time `div` UNIT_TIME_INTERVAL - now `div` UNIT_TIME_INTERVAL)).

Definition needed_credits (ch : channel_model) (len : Z) : Z :=
  u32 (u32 (xfer_units len * UNIT_XFER_CREDITS) + ch.(command_credits)).

Definition requested (ch : channel_model) (now request_time len : Z) (ch' : channel_model) (tdone : Z) : Prop :=
  exists mid, chan_ok mid /\ advanced ch mid now /\
  (if (request_time <? now) || (NR_CREDIT_ENTRIES <=? arrival_slot now request_time)
   then ch' = mid /\ tdone = request_time
   else exists d k' t,
     drawn mid.(head) mid.(avail_credits) (arrival_slot now request_time) (needed_credits ch len) d k' t /\
     after_draw mid d k' ch' /\
     tdone = u64 (request_time + u64 (u32 (ch.(xfer_lat) * xfer_units len) +
       u64 (Z.max 0 (k' - arrival_slot now request_time
                     - needed_credits ch len `div` ch.(max_credits)) * UNIT_TIME_INTERVAL)))).

Lemma chmodel_request_spec ch now request_time len :
  chan_ok ch ->
  okp (chmodel_request now ch request_time len) (fun '(ch', tdone) =>
    chan_ok ch' /\ requested ch now request_time len ch' tdone).
Proof.
  intros Hok. unfold chmodel_request.
  apply okp_bind. eapply okp_mono; [by apply chmodel_advance_ok|].
  intros mid [Hmid Hadv]. unfold requested.
  destruct (request_time <? now) eqn:Elate; simpl; [eauto 10|].
  fold (arrival_slot now request_time). fold (xfer_units len).
  destruct (NR_CREDIT_ENTRIES <=? arrival_slot now request_time) eqn:Efar; simpl; [eauto 10|].
  apply Z.leb_gt in Efar.
  pose proof Hadv as (_ & Emax & Ecmd & Elat & _).
  rewrite Emax, Ecmd, Elat. fold (needed_credits ch len).
  pose proof nr_credit_entries_bound. pose proof (chan_head _ Hmid). pose proof (chan_max _ Hok).
  apply okp_bind, okp_cdiv; [lia|].
  assert (0 <= arrival_slot now request_time < 4294967296) by apply u32_range.
  rewrite (u32_small (head mid + _)) by lia. fold (slot_idx (head mid) (arrival_slot now request_time)).
  apply okp_bind. eapply okp_mono.
  { apply (draw_loop_ok (head mid) (avail_credits mid) (arrival_slot now request_time)); try lia.
    - apply u32_range.
    - apply Hmid.
    - intros i c Hc. pose proof (chan_credits _ Hmid _ _ Hc). pose proof (chan_max _ Hmid). lia. }
  intros d (k' & t & Hd). pose proof Hd as (Hk & Hpos & Hdel & _).
  rewrite Hpos, Hdel. pose proof (slot_idx_range (head mid) k').
  assert ((if head mid <=? slot_idx (head mid) k' then u32 (slot_idx (head mid) k' - head mid + 1)
     else u32 (NR_CREDIT_ENTRIES - (head mid - slot_idx (head mid) k' - 1))) = k' + 1) as ->.
  { rewrite slot_idx_cases by lia. case_decide; case_match; rewrite u32_small; lia. }
  assert (forall a b, (if a <? b then b else a) = Z.max a b) as Hmaxs
    by (intros a b; destruct (Z.ltb_spec a b); lia).
  rewrite Hmaxs.
  assert (forall a b, (if a <? b then b - a else 0) = Z.max 0 (b - a)) as Hdels
    by (intros a b; destruct (Z.ltb_spec a b); lia).
  rewrite Hdels. simpl.
  match goal with |- chan_ok ?c /\ _ => assert (after_draw mid d k' c) as Hafter by done end.
  split; [eapply after_draw_ok; [exact Hmid| |exact Hd|exact Hafter]; lia|].
  exists mid. split; [done|]. split; [done|]. eauto 10.
Qed.

Lemma chmodel_init_ok bandwidth :
  31 <= bandwidth <= 7811 ->
  okp (chmodel_init bandwidth) (fun ch => chan_ok ch /\ ch.(cur_time) = 0 /\
    ch.(max_credits) = ((bandwidth * 1048576 * 4000) `div` 1000000000) `div` 128).
Proof.
  intros Hbw. unfold chmodel_init, BANDWIDTH_TO_TX_TIME, BANDWIDTH_TO_MAX_CREDITS.
  pose proof nr_credit_entries_bound.
  assert (MB bandwidth = bandwidth * 1048576) as ->.
  { unfold MB. rewrite Z.shiftl_mul_pow2 by lia. change (2 ^ 20) with 1048576. unwrap. done. }
  unfold UNIT_TIME_INTERVAL, NS_PER_SEC, UNIT_XFER_SIZE, UNIT_XFER_CREDITS.
  change (1 * 1000 * 1000 * 1000) with 1000000000.
  rewrite (u64_small (_ * _)) by lia. rewrite Z.mul_1_r.
  set (m := (_ `div` 128)).
  assert (130 <= (bandwidth * 1048576 * 4000) `div` 1000000000 < 32768) as Hq
    by (split; [apply Z.div_le_lower_bound|apply Z.div_lt_upper_bound]; lia).
  assert (0 < m < 256) as Hm
    by (unfold m; split; [apply Z.div_str_pos|apply Z.div_lt_upper_bound]; lia).
  apply okp_bind, okp_cdiv; [lia|]. unwrap. simpl.
  split; [|done]. split; simpl; try lia.
  - by apply zlen_zrepeat; lia.
  - intros i c ->%zlookup_zrepeat. lia.
  - intros k Hk. unfold slot; simpl. apply zlookup_zrepeat_lt. apply slot_idx_range.
Qed.
End channel.
