(* ===== verification/Pqueue.v ===== *)
(** * The priority queue (pqueue/pqueue.c, pqueue/pqueue.h)

    A binary heap of pointers: slot 0 of [d] is unused, the elements are in
    [d[1..size-1]].  The queue does not own its elements; it reads and writes
    their priority and their position through the callbacks its creator
    installs.  The callbacks are the interface [PqCallbacks] over the store
    [St] that holds the elements, and [PqLaws] is what the queue relies on.

    The heap lemmas read the array as a function with a hole: [bubble_up] and
    [percolate_down] hold the moving element out of the array, and their
    invariants speak of the array with that element written at the hole. *)

From stdpp Require Import prelude list.
From Stdlib Require Import ZArith Lia.
From S2P Require Import Prelude.

(** The callbacks of [pqueue_t]; an element is a pointer, here a [Z]. *)
Class PqCallbacks (St : Type) := {
  cmppri : Z -> Z -> bool;
  getpri : St -> Z -> res Z;
  setpri : St -> Z -> Z -> res St;
  getpos : St -> Z -> res Z;
  setpos : St -> Z -> Z -> res St
}.

Record pqueue := Pqueue { pq_size : Z; pq_avail : Z; pq_step : Z; pq_d : list Z }.

Definition left (i : Z) : Z := u64 (Z.shiftl i 1).
Definition right (i : Z) : Z := u64 (u64 (Z.shiftl i 1) + 1).
Definition parent (i : Z) : Z := Z.shiftr i 1.

(** [alloc_q] and [alloc_d] are the outcomes of the two [kmalloc] calls; the
    contents of the array are whatever the allocator left, here zeroes. *)
Definition pqueue_init (alloc_q alloc_d : bool) (n : Z) : option pqueue :=
  if negb alloc_q then None else
  if negb alloc_d then None else
  Some {| pq_size := 1; pq_avail := u64 (n + 1); pq_step := u64 (n + 1);
          pq_d := zrepeat (u64 (n + 1)) 0 |}.

Definition pqueue_size (q : pqueue) : Z := u64 (q.(pq_size) - 1).

Section pqueue.
Context {St : Type} `{!PqCallbacks St}.

Record walk := Walk { w_d : list Z; w_st : St; w_i : Z }.

Definition bubble_step (moving_pri : Z) (w : walk) : res (walk + walk) :=
  let i := w.(w_i) in
  let parent_node := parent i in
  if 1 <? i then
    p ← aget w.(w_d) parent_node;
    pri ← getpri w.(w_st) p;
    if cmppri pri moving_pri then
      d ← aset w.(w_d) i p;
      st ← setpos w.(w_st) p i;
      Ok (inl (Walk d st parent_node))
    else Ok (inr w)
  else Ok (inr w).

Definition settle (moving_node : Z) (q : pqueue) (w : walk) : res (pqueue * St) :=
  d ← aset w.(w_d) w.(w_i) moving_node;
  st ← setpos w.(w_st) moving_node w.(w_i);
  Ok (Pqueue q.(pq_size) q.(pq_avail) q.(pq_step) d, st).

Definition bubble_up (q : pqueue) (i : Z) (st : St) : res (pqueue * St) :=
  moving_node ← aget q.(pq_d) i;
  moving_pri ← getpri st moving_node;
  w ← rloop (Z.to_nat i + 1) (bubble_step moving_pri) (Walk q.(pq_d) st i);
  settle moving_node q w.

Definition maxchild (size : Z) (d : list Z) (i : Z) (st : St) : res Z :=
  let child_node := left i in
  if size <=? child_node then Ok 0 else
  if u64 (child_node + 1) <? size then
    a ← aget d child_node;
    pa ← getpri st a;
    b ← aget d (u64 (child_node + 1));
    pb ← getpri st b;
    if cmppri pa pb then Ok (u64 (child_node + 1)) else Ok child_node
  else Ok child_node.

Definition percolate_step (size moving_pri : Z) (w : walk) : res (walk + walk) :=
  child_node ← maxchild size w.(w_d) w.(w_i) w.(w_st);
  if negb (child_node =? 0) then
    c ← aget w.(w_d) child_node;
    pri ← getpri w.(w_st) c;
    if cmppri moving_pri pri then
      d ← aset w.(w_d) w.(w_i) c;
      st ← setpos w.(w_st) c w.(w_i);
      Ok (inl (Walk d st child_node))
    else Ok (inr w)
  else Ok (inr w).

Definition percolate_down (q : pqueue) (i : Z) (st : St) : res (pqueue * St) :=
  moving_node ← aget q.(pq_d) i;
  moving_pri ← getpri st moving_node;
  w ← rloop (Z.to_nat q.(pq_size) + 1) (percolate_step q.(pq_size) moving_pri)
        (Walk q.(pq_d) st i);
  settle moving_node q w.

(** The queue has no room test beyond a message: a full array is overrun. *)
Definition pqueue_insert (q : option pqueue) (x : Z) (st : St) : res (Z * option pqueue * St) :=
  match q with
  | None => Ok (1, q, st)
  | Some q =>
      let i := q.(pq_size) in
      d ← aset q.(pq_d) i x;
      r ← bubble_up (Pqueue (u64 (i + 1)) q.(pq_avail) q.(pq_step) d) i st;
      Ok (0, Some r.1, r.2)
  end.

Definition pqueue_change_priority (q : option pqueue) (new_pri x : Z) (st : St) :
    res (option pqueue * St) :=
  old_pri ← getpri st x;
  st ← setpri st x new_pri;
  posn ← getpos st x;
  q ← of_opt NullDeref q;
  r ← (if cmppri old_pri new_pri then bubble_up q posn st else percolate_down q posn st);
  Ok (Some r.1, r.2).

Definition pqueue_remove (q : option pqueue) (x : Z) (st : St) : res (Z * option pqueue * St) :=
  posn ← getpos st x;
  q ← of_opt NullDeref q;
  let size := u64 (q.(pq_size) - 1) in
  lst ← aget q.(pq_d) size;
  d ← aset q.(pq_d) posn lst;
  let q := Pqueue size q.(pq_avail) q.(pq_step) d in
  px ← getpri st x;
  y ← aget d posn;
  py ← getpri st y;
  r ← (if cmppri px py then bubble_up q posn st else percolate_down q posn st);
  Ok (0, Some r.1, r.2).

Definition pqueue_pop (q : option pqueue) (st : St) : res (option Z * option pqueue * St) :=
  match q with
  | None => Ok (None, q, st)
  | Some q =>
      if q.(pq_size) =? 1 then Ok (None, Some q, st) else
      hd ← aget q.(pq_d) 1;
      let size := u64 (q.(pq_size) - 1) in
      lst ← aget q.(pq_d) size;
      d ← aset q.(pq_d) 1 lst;
      r ← percolate_down (Pqueue size q.(pq_avail) q.(pq_step) d) 1 st;
      Ok (Some hd, Some r.1, r.2)
  end.

Definition pqueue_peek (q : option pqueue) : res (option Z) :=
  match q with
  | None => Ok None
  | Some q => if q.(pq_size) =? 1 then Ok None else d ← aget q.(pq_d) 1; Ok (Some d)
  end.

Fixpoint subtree_is_valid (fuel : nat) (q : pqueue) (st : St) (pos : Z) : res bool :=
  match fuel with
  | O => Fault OutOfFuel
  | S fuel =>
      let side (child : Z) : res bool :=
        if child <? q.(pq_size) then
          x ← aget q.(pq_d) pos; px ← getpri st x;
          c ← aget q.(pq_d) child; pc ← getpri st c;
          if cmppri px pc then Ok false else subtree_is_valid fuel q st child
        else Ok true in
      l ← side (left pos);
      if negb l then Ok false else
      r ← side (right pos);
      if negb r then Ok false else Ok true
  end.

Definition pqueue_is_valid (q : pqueue) (st : St) : res bool :=
  subtree_is_valid (Z.to_nat q.(pq_size) + 1) q st 1.
End pqueue.
Arguments walk : clear implicits.

(** ** What the queue relies on

    A creator of a queue promises that its callbacks read and write the
    priority and the position of a valid node and nothing else: [frame] is the
    relation between two stores that differ in positions only, [put_pri] the
    store after an assignment of a priority. *)
Class PqLaws (St : Type) `{!PqCallbacks St} := {
  node_ok : St -> Z -> Prop;
  pri_ok : Z -> Prop;
  pri_of : St -> Z -> Z;
  pos_of : St -> Z -> Z;
  put_pri : St -> Z -> Z -> St;
  frame : St -> St -> Prop;
  frame_preorder :: PreOrder frame;
  frame_pri st st' y : frame st st' -> pri_of st' y = pri_of st y;
  frame_node st st' y : frame st st' -> (node_ok st' y <-> node_ok st y);
  getpri_law st x : node_ok st x -> getpri st x = Ok (pri_of st x);
  getpos_law st x : node_ok st x -> getpos st x = Ok (pos_of st x);
  setpos_law st x p : node_ok st x -> 0 <= p < 4294967296 ->
    okp (setpos st x p) (fun st' => frame st st' /\ pos_of st' x = p /\
      forall y, y <> x -> pos_of st' y = pos_of st y);
  setpri_law st x v : node_ok st x -> setpri st x v = Ok (put_pri st x v);
  put_pri_law st x v : node_ok st x -> pri_ok v ->
    pri_of (put_pri st x v) x = v /\
    (forall y, y <> x -> pri_of (put_pri st x v) y = pri_of st y) /\
    (forall y, pos_of (put_pri st x v) y = pos_of st y) /\
    (forall y, node_ok (put_pri st x v) y <-> node_ok st y);
  cmppri_asym a b : cmppri a b = true -> cmppri b a = false;
  cmppri_negtrans a b c : cmppri a b = false -> cmppri b c = false -> cmppri a c = false
}.

(** ** The order of the heap *)
Section order.
Context {St : Type} `{!PqCallbacks St, !PqLaws St}.
Implicit Types F : Z -> Z.

Definition child (p j : Z) : Prop := 1 <= p /\ (j = 2 * p \/ j = 2 * p + 1).

(** [j] does not beat [p]. *)
Definition below F (p j : Z) : Prop := cmppri (F p) (F j) = false.

Definition heap F (n : Z) : Prop := forall p j, child p j -> j < n -> below F p j.

(** Heap order but for the element at [i], which may be too high up a tree
    whose other elements are in order ([up_ok]), or too low ([down_ok]). *)
Definition up_ok F (i n : Z) : Prop :=
  (forall p j, child p j -> j < n -> j <> i -> below F p j) /\
  (forall p j, child p i -> child i j -> j < n -> below F p j).

Definition down_ok F (i n : Z) : Prop :=
  (forall p j, child p j -> j < n -> p <> i -> below F p j) /\
  (forall p j, child p i -> child i j -> j < n -> below F p j).

Definition swapped F F' (a b : Z) : Prop :=
  F' a = F b /\ F' b = F a /\ forall j, j <> a -> j <> b -> F' j = F j.

Lemma below_trans F F' a b c :
  cmppri (F a) (F b) = false -> below F b c -> F' a = F a -> F' c = F c -> below F' a c.
Proof. unfold below. intros H1 H2 -> ->. by eapply cmppri_negtrans. Qed.

Lemma up_step F F' p i n :
  up_ok F i n -> child p i -> i < n -> cmppri (F p) (F i) = true -> swapped F F' i p -> up_ok F' p n.
Proof.
  intros [H1 H2] Hpi Hi Hc (Ei & Ep & Eo). pose proof (cmppri_asym _ _ Hc) as Hc'.
  unfold up_ok, child in *. split.
  - intros q j Hqj Hj Hjp. unfold below.
    destruct (decide (j = i)) as [->|].
    { assert (q = p) as -> by lia. by rewrite Ei, Ep. }
    rewrite (Eo j) by done. destruct (decide (q = p)) as [->|].
    { rewrite Ep. eapply cmppri_negtrans; [done|]. apply H1; lia. }
    destruct (decide (q = i)) as [->|]; [rewrite Ei; apply H2; lia|].
    rewrite Eo by done. apply H1; lia.
  - intros q j Hqp Hpj Hj. unfold below. rewrite (Eo q) by lia.
    assert (below F q p) as Hq by (apply H1; lia).
    destruct (decide (j = i)) as [->|]; [by rewrite Ei|].
    rewrite Eo by lia. eapply cmppri_negtrans; [done|]. apply H1; lia.
Qed.

Lemma up_stop F i n :
  up_ok F i n -> (forall p, child p i -> below F p i) -> heap F n.
Proof.
  intros [H1 H2] Hs p j Hpj Hj. destruct (decide (j = i)) as [->|]; auto.
Qed.

Lemma down_step F F' i c n :
  down_ok F i n -> child i c -> c < n -> (forall j, child i j -> j < n -> below F c j) ->
  cmppri (F i) (F c) = true -> swapped F F' i c -> down_ok F' c n.
Proof.
  intros [H1 H2] Hic Hc Hbest Hcmp (Ei & Ec & Eo). pose proof (cmppri_asym _ _ Hcmp) as Hcmp'.
  unfold down_ok, child in *. split.
  - intros q j Hqj Hj Hqc. unfold below.
    destruct (decide (q = i)) as [->|].
    { rewrite Ei. destruct (decide (j = c)) as [->|]; [by rewrite Ec|].
      rewrite Eo by lia. apply Hbest; lia. }
    rewrite (Eo q) by lia. destruct (decide (j = i)) as [->|]; [rewrite Ei; apply H2; lia|].
    rewrite Eo by lia. apply H1; lia.
  - intros q j Hqc Hcj Hj. assert (q = i) as -> by lia. unfold below.
    rewrite Ei, Eo by lia. apply H1; lia.
Qed.

Lemma down_stop F i n :
  down_ok F i n -> (forall j, child i j -> j < n -> below F i j) -> heap F n.
Proof.
  intros [H1 H2] Hs p j Hpj Hj. destruct (decide (p = i)) as [->|]; auto.
Qed.

(** Re-prioritising the element at [i] of a heap. *)
Lemma heap_up_ok F F' i n :
  heap F n -> (forall j, j <> i -> F' j = F j) -> cmppri (F i) (F' i) = true -> up_ok F' i n.
Proof.
  intros Hh Eo Hc. pose proof (cmppri_asym _ _ Hc) as Hc'. split.
  - intros p j Hpj Hj Hji. unfold below. rewrite (Eo j) by done.
    destruct (decide (p = i)) as [->|]; [|rewrite Eo by done; by apply Hh].
    eapply cmppri_negtrans; [done|]. by apply Hh.
  - intros p j Hpi Hij Hj. unfold child in *. unfold below. rewrite !Eo by lia.
    apply (cmppri_negtrans _ (F i)); apply Hh; unfold child; lia.
Qed.

Lemma heap_down_ok F F' i n :
  heap F n -> (forall j, j <> i -> F' j = F j) ->
  (forall p, child p i -> cmppri (F p) (F' i) = false) -> down_ok F' i n.
Proof.
  intros Hh Eo Hc. split.
  - intros p j Hpj Hj Hpi. unfold below. rewrite (Eo p) by done.
    destruct (decide (j = i)) as [->|]; [by apply Hc|]. rewrite Eo by done. by apply Hh.
  - intros p j Hpi Hij Hj. unfold child in *. unfold below. rewrite !Eo by lia.
    apply (cmppri_negtrans _ (F i)); apply Hh; unfold child; lia.
Qed.

Lemma heap_ext F F' n n' :
  heap F n -> n' <= n -> (forall j, 1 <= j < n' -> F' j = F j) -> heap F' n'.
Proof.
  intros Hh Hn Eo p j Hpj Hj. unfold child in *. unfold below. rewrite !Eo by lia.
  apply Hh; unfold child; lia.
Qed.

(** The root of a heap is beaten by nothing. *)
Lemma cmppri_irrefl a : cmppri a a = false.
Proof. destruct (cmppri a a) eqn:E; [|done]. by rewrite (cmppri_asym _ _ E) in E. Qed.

Lemma heap_root F n j : heap F n -> 1 <= j < n -> below F 1 j.
Proof.
  intros Hh. induction j as [j IH] using (well_founded_induction (Z.lt_wf 0)). intros Hj.
  destruct (decide (j = 1)) as [->|]; [apply cmppri_irrefl|].
  pose proof (Z.div_mod j 2 ltac:(lia)). pose proof (Z.mod_pos_bound j 2 ltac:(lia)).
  unfold below. apply (cmppri_negtrans _ (F (j `div` 2))).
  - apply IH; lia.
  - apply Hh; unfold child; lia.
Qed.
End order.

(** ** The invariant of the queue *)
Section invariant.
Context {St : Type} `{!PqCallbacks St, !PqLaws St}.

(** The elements of the array below [n]. *)
Definition slots (n : Z) (d : list Z) (y : Z) : Prop := exists j, 1 <= j < n /\ d !! j = Some y.

Definition in_pq (q : pqueue) (y : Z) : Prop := slots q.(pq_size) q.(pq_d) y.

Definition prio (st : St) (d : list Z) (j : Z) : Z :=
  match d !! j with Some y => pri_of st y | None => 0 end.

Record pq_ok (st : St) (q : pqueue) : Prop := {
  pq_len : zlen q.(pq_d) = q.(pq_avail);
  pq_bound : q.(pq_avail) < 2147483648;
  pq_range : 1 <= q.(pq_size) <= q.(pq_avail);
  pq_nodes j y : 1 <= j < q.(pq_size) -> q.(pq_d) !! j = Some y -> node_ok st y /\ pos_of st y = j;
  pq_heap : heap (prio st q.(pq_d)) q.(pq_size)
}.

(** A walk of the element [x] through the array, which started at the store
    [st0] and the array [d0]; [w_i] is the hole. *)
Record walking (st0 : St) (d0 : list Z) (n x : Z) (w : walk St) : Prop := {
  wk_hole : 1 <= w.(w_i) < zlen d0;
  wk_len : zlen w.(w_d) = zlen d0;
  wk_frame : frame st0 w.(w_st);
  wk_fix y : ~ slots n d0 y -> pos_of w.(w_st) y = pos_of st0 y;
  wk_nodes j y : 1 <= j < n -> j <> w.(w_i) -> w.(w_d) !! j = Some y ->
    y <> x /\ node_ok st0 y /\ pos_of w.(w_st) y = j;
  wk_mem y : slots n (<[w.(w_i) := x]> w.(w_d)) y <-> slots n d0 y
}.

Lemma wk_start st0 d n x i :
  1 <= i < zlen d -> n <= zlen d -> (i < n -> d !! i = Some x) -> 
  (forall j y, 1 <= j < n -> j <> i -> d !! j = Some y -> y <> x /\ node_ok st0 y /\ pos_of st0 y = j) ->
  walking st0 d n x (Walk d st0 i).
Proof.
  intros Hi Hn Hx Hnodes. split; simpl; try done.
  intros y. unfold slots. split; intros (j & Hj & E); exists j; (split; [done|]).
  - destruct (decide (i = j)) as [->|]; [|by rewrite zlookup_zinsert_ne in E].
    rewrite zlookup_zinsert_eq in E by lia. rewrite Hx by lia. congruence.
  - destruct (decide (i = j)) as [->|]; [|by rewrite zlookup_zinsert_ne].
    rewrite zlookup_zinsert_eq by lia. rewrite Hx in E by lia. congruence.
Qed.

(** One move: the element [c] of the slot [b] drops into the hole. *)
Lemma wk_move st0 d0 n x w b c st :
  walking st0 d0 n x w -> n <= zlen d0 -> 1 <= b < n -> b <> w.(w_i) -> w.(w_i) < n ->
  w.(w_d) !! b = Some c ->
  frame w.(w_st) st -> pos_of st c = w.(w_i) ->
  (forall y, y <> c -> pos_of st y = pos_of w.(w_st) y) ->
  walking st0 d0 n x (Walk (<[w.(w_i) := c]> w.(w_d)) st b).
Proof.
  intros [Hhole Hlen Hfr Hfix Hnodes Hmem] Hn Hb Hbi Hi Hc Hfr' Epos Eother.
  destruct (Hnodes b c Hb Hbi Hc) as (Hcx & Hcn & Hcp).
  split; simpl.
  - lia.
  - by rewrite zlen_zinsert.
  - by etrans.
  - intros y Hy. destruct (decide (y = c)) as [->|]; [|rewrite Eother by done; by apply Hfix].
    destruct Hy. apply Hmem. exists b. split; [done|]. by rewrite zlookup_zinsert_ne.
  - intros j y Hj Hjb Hy. destruct (decide (j = w_i w)) as [->|].
    + rewrite zlookup_zinsert_eq in Hy by lia. injection Hy as <-. auto.
    + rewrite zlookup_zinsert_ne in Hy by done.
      destruct (Hnodes j y Hj) as (? & ? & E); [done|done|].
      split; [done|]. split; [done|]. rewrite Eother; [done|]. intros ->. congruence.
  - intros y. rewrite <- Hmem. unfold slots. split; intros (j & Hj & E).
    + destruct (decide (j = b)) as [->|].
      { rewrite zlookup_zinsert_eq in E by (rewrite zlen_zinsert; lia). injection E as <-.
        exists (w_i w). split; [lia|]. apply zlookup_zinsert_eq. lia. }
      rewrite zlookup_zinsert_ne in E by done.
      destruct (decide (j = w_i w)) as [->|].
      { rewrite zlookup_zinsert_eq in E by lia. injection E as <-.
        exists b. split; [lia|]. by rewrite zlookup_zinsert_ne. }
      rewrite zlookup_zinsert_ne in E by done.
      exists j. split; [done|]. by rewrite zlookup_zinsert_ne.
    + destruct (decide (j = w_i w)) as [->|].
      { rewrite zlookup_zinsert_eq in E by lia. injection E as <-.
        exists b. split; [lia|]. apply zlookup_zinsert_eq. rewrite zlen_zinsert. lia. }
      rewrite zlookup_zinsert_ne in E by done.
      destruct (decide (j = b)) as [->|].
      { assert (y = c) as -> by congruence. exists (w_i w). split; [lia|].
        rewrite zlookup_zinsert_ne by done. apply zlookup_zinsert_eq. lia. }
      exists j. split; [done|]. rewrite !zlookup_zinsert_ne by done. done.
Qed.

(** The priorities seen by a walk: the array with the element in the hole. *)
Definition wprio (st0 : St) (x : Z) (w : walk St) : Z -> Z := prio st0 (<[w.(w_i) := x]> w.(w_d)).

Lemma wprio_hole st0 x w : 1 <= w.(w_i) < zlen w.(w_d) -> wprio st0 x w w.(w_i) = pri_of st0 x.
Proof. intros. unfold wprio, prio. by rewrite zlookup_zinsert_eq by lia. Qed.

Lemma wprio_other st0 x w j y :
  j <> w.(w_i) -> w.(w_d) !! j = Some y -> wprio st0 x w j = pri_of st0 y.
Proof. intros Hj E. unfold wprio, prio. by rewrite zlookup_zinsert_ne, E by done. Qed.

Lemma wprio_move st0 x w b c st :
  0 <= w.(w_i) < zlen w.(w_d) -> 0 <= b < zlen w.(w_d) -> b <> w.(w_i) -> w.(w_d) !! b = Some c ->
  swapped (wprio st0 x w) (wprio st0 x (Walk (<[w.(w_i) := c]> w.(w_d)) st b)) w.(w_i) b.
Proof.
  intros Hi Hb Hbi Hc. unfold swapped, wprio, prio; simpl. split; [|split].
  - rewrite !(zlookup_zinsert_ne _ b), zlookup_zinsert_eq by (done || lia).
    by rewrite zlookup_zinsert_ne, Hc by done.
  - rewrite !zlookup_zinsert_eq by (rewrite ?zlen_zinsert; lia). done.
  - intros j Hji Hjb. by rewrite !zlookup_zinsert_ne by done.
Qed.

(** ** The two walks *)

(** A queue with the element [x] at [i], out of place or with a stale position. *)
Record loose (st : St) (q : pqueue) (i x : Z) : Prop := {
  ls_len : zlen q.(pq_d) = q.(pq_avail);
  ls_bound : q.(pq_avail) < 2147483648;
  ls_range : 1 <= q.(pq_size) <= q.(pq_avail);
  ls_pos : 1 <= i < q.(pq_avail);
  ls_at : q.(pq_d) !! i = Some x;
  ls_node : node_ok st x;
  ls_nodes j y : 1 <= j < q.(pq_size) -> j <> i -> q.(pq_d) !! j = Some y ->
    y <> x /\ node_ok st y /\ pos_of st y = j
}.

(** What a walk of [x] from the queue [q] leaves. *)
Definition rearranged (st : St) (q : pqueue) (x : Z) (r : pqueue * St) : Prop :=
  pq_ok r.2 r.1 /\ frame st r.2 /\ (forall y, in_pq r.1 y <-> in_pq q y) /\
  (forall y, y <> x -> ~ in_pq q y -> pos_of r.2 y = pos_of st y) /\
  r.1.(pq_size) = q.(pq_size) /\ r.1.(pq_avail) = q.(pq_avail).

Lemma settle_ok st q i x w :
  loose st q i x -> walking st q.(pq_d) q.(pq_size) x w -> heap (wprio st x w) q.(pq_size) ->
  okp (settle x q w) (rearranged st q x).
Proof.
  intros Hl [Hhole Hlen Hfr Hfix Hnodes Hmem] Hheap. destruct Hl as [Ll Lb Lr Lp La Ln _].
  unfold settle. rewrite aset_Some by lia. rewrite bind_Ok.
  apply okp_bind. eapply okp_mono.
  { apply setpos_law; [by apply (frame_node _ _ _ Hfr)|lia]. }
  intros st' (Hfr' & Epos & Eother). unfold rearranged. simpl.
  assert (frame st st') as Hframe by (by etrans).
  split; [split; simpl|split; [done|split; [|split; [|done]]]].
  - by rewrite zlen_zinsert, Hlen.
  - done.
  - done.
  - intros j y Hj E. rewrite (frame_node _ _ _ Hframe).
    destruct (decide (j = w_i w)) as [->|].
    + rewrite zlookup_zinsert_eq in E by lia. injection E as <-. done.
    + rewrite zlookup_zinsert_ne in E by done.
      destruct (Hnodes j y Hj) as (Hyx & Hy & E'); [done|done|].
      split; [done|]. by rewrite Eother.
  - eapply heap_ext; [exact Hheap|lia|]. intros j Hj. unfold wprio, prio.
    destruct (_ !! j); [by apply frame_pri|done].
  - intros y. apply Hmem.
  - intros y Hy Hin. rewrite Eother by done. by apply Hfix.
Qed.

Lemma loose_start st q i x : loose st q i x -> walking st q.(pq_d) q.(pq_size) x (Walk q.(pq_d) st i).
Proof. intros []. apply wk_start; (lia || auto). Qed.

Lemma loose_wprio st q i x j : loose st q i x -> wprio st x (Walk q.(pq_d) st i) j = prio st q.(pq_d) j.
Proof.
  intros []. unfold wprio, prio; simpl. destruct (decide (i = j)) as [->|].
  - by rewrite zlookup_zinsert_eq, ls_at0 by lia.
  - by rewrite zlookup_zinsert_ne.
Qed.

Lemma child_parent i : 1 < i -> child (parent i) i /\ 1 <= parent i < i.
Proof.
  intros. unfold parent, child. rewrite Z.shiftr_div_pow2 by lia. change (2 ^ 1) with 2.
  pose proof (Z.div_mod i 2 ltac:(lia)). pose proof (Z.mod_pos_bound i 2 ltac:(lia)). lia.
Qed.

Lemma child_inj p p' i : child p i -> child p' i -> p = p'.
Proof. unfold child. lia. Qed.

(** A node the walk finds at [b], with its priority as the walk sees it. *)
Lemma wk_at st0 d0 n x w b :
  walking st0 d0 n x w -> n <= zlen d0 -> 1 <= b < n -> b <> w.(w_i) ->
  exists c, w.(w_d) !! b = Some c /\ node_ok w.(w_st) c /\
    getpri w.(w_st) c = Ok (wprio st0 x w b) /\ wprio st0 x w b = pri_of st0 c.
Proof.
  intros Hw Hn Hb Hbi. pose proof Hw as [Hhole Hlen Hfr _ Hnodes _].
  destruct (zlookup_lt (w_d w) b) as [c Hc]; [lia|].
  destruct (Hnodes b c Hb Hbi Hc) as (_ & Hcn & _).
  apply (frame_node _ _ _ Hfr) in Hcn. exists c.
  assert (wprio st0 x w b = pri_of st0 c) as E by (by apply wprio_other).
  split; [done|]. split; [done|]. split; [|done].
  rewrite getpri_law, E by done. by rewrite (frame_pri _ _ _ Hfr).
Qed.

(** The body of both loops: [c] drops into the hole. *)
Lemma wk_drop st0 d0 n x w b c :
  walking st0 d0 n x w -> n <= zlen d0 -> zlen d0 < 2147483648 ->
  1 <= b < n -> b <> w.(w_i) -> w.(w_i) < n -> w.(w_d) !! b = Some c -> node_ok w.(w_st) c ->
  okp (d ← aset w.(w_d) w.(w_i) c; st ← setpos w.(w_st) c w.(w_i);
       Ok (inl (Walk d st b) : walk St + walk St))
    (fun r => exists w', r = inl w' /\ walking st0 d0 n x w' /\ w'.(w_i) = b /\
       swapped (wprio st0 x w) (wprio st0 x w') w.(w_i) b).
Proof.
  intros Hw Hn Hb32 Hb Hbi Hi Hc Hcn. pose proof Hw as [Hhole Hlen _ _ _ _].
  rewrite aset_Some by lia. rewrite bind_Ok. apply okp_bind. eapply okp_mono.
  { apply (setpos_law _ c (w_i w)); [done|lia]. }
  intros st (Hfr & Epos & Eother). simpl. eexists. split; [done|].
  split; [by eapply wk_move|]. split; [done|].
  apply wprio_move; (done || lia).
Qed.

Lemma bubble_up_ok st q i x :
  loose st q i x -> i < q.(pq_size) -> up_ok (prio st q.(pq_d)) i q.(pq_size) ->
  okp (bubble_up q i st) (rearranged st q x).
Proof.
  intros Hl Hi Hup. pose proof Hl as [Ll Lb Lr Lp La Ln _].
  unfold bubble_up. rewrite (aget_Some _ _ _ La), bind_Ok, getpri_law, bind_Ok by done.
  remember q.(pq_size) as n eqn:En.
  apply okp_bind. apply (okp_mono _ (fun w => walking st q.(pq_d) n x w /\ heap (wprio st x w) n));
    [|intros w [Hw Hh]; subst n; by eapply settle_ok].
  apply (rloop_inv _ (fun w => walking st q.(pq_d) n x w /\ w.(w_i) < n /\
    up_ok (wprio st x w) w.(w_i) n) (fun w => w.(w_i))).
  - intros w [[] _]. lia.
  - clear Hup. intros w (Hw & Hwi & Hup). unfold bubble_step.
    pose proof (wk_hole _ _ _ _ _ Hw). pose proof (wk_len _ _ _ _ _ Hw).
    destruct (Z.ltb_spec 1 (w_i w)) as [Hi1|Hi1].
    + destruct (child_parent (w_i w) Hi1) as [Hch Hp].
      destruct (wk_at st q.(pq_d) n x w (parent (w_i w)) Hw) as (c & Hc & Hcn & Hpri & Epri); [lia..|].
      rewrite (aget_Some _ _ _ Hc), bind_Ok, Hpri, bind_Ok.
      rewrite <- (wprio_hole st x w) by lia.
      destruct (cmppri _ _) eqn:Ecmp; simpl.
      * eapply okp_mono; [eapply wk_drop; (exact Hw || exact Hc || done || lia)|].
        intros r (w' & -> & Hw' & Ei & Hsw). split; [|lia].
        split; [done|]. rewrite Ei. split; [lia|]. eapply up_step; eauto; lia.
      * split; [done|]. eapply up_stop; [done|]. intros p Hpc.
        by rewrite (child_inj _ _ _ Hpc Hch).
    + simpl. split; [done|]. eapply up_stop; [done|]. intros p [? ?]. lia.
  - split; [by subst n; apply loose_start|]. split; [done|]. simpl.
    destruct Hup as [H1 H2]. split; intros p j Hpj Hj ?; unfold below;
      rewrite !(loose_wprio _ _ _ _ _ Hl); [by apply H1|by eapply H2].
  - simpl. lia.
Qed.

Lemma maxchild_ok st0 d0 n x w :
  walking st0 d0 n x w -> n <= zlen d0 -> zlen d0 < 2147483648 ->
  okp (maxchild n w.(w_d) w.(w_i) w.(w_st)) (fun c =>
    (c = 0 /\ (forall j, child w.(w_i) j -> n <= j)) \/
    (child w.(w_i) c /\ c < n /\
     forall j, child w.(w_i) j -> j < n -> below (wprio st0 x w) c j)).
Proof.
  intros Hw Hn Hb. pose proof (wk_hole _ _ _ _ _ Hw).
  unfold maxchild, left. rewrite Z.shiftl_mul_pow2 by lia. change (2 ^ 1) with 2. unwrap.
  destruct (Z.leb_spec n (w_i w * 2)); [left; split; [done|unfold child; lia]|].
  destruct (Z.ltb_spec (w_i w * 2 + 1) n).
  - destruct (wk_at st0 d0 n x w (w_i w * 2) Hw) as (a & Ha & _ & Hpa & _); [lia..|].
    destruct (wk_at st0 d0 n x w (w_i w * 2 + 1) Hw) as (b & Hb' & _ & Hpb & _); [lia..|].
    rewrite (aget_Some _ _ _ Ha), bind_Ok, Hpa, bind_Ok.
    rewrite (aget_Some _ _ _ Hb'), bind_Ok, Hpb, bind_Ok.
    destruct (cmppri _ _) eqn:Ec; right; (split; [unfold child; lia|]); (split; [lia|]);
      intros j [_ [->| ->]] Hj; unfold below; rewrite ?(Z.mul_comm 2); try done;
      try apply cmppri_irrefl. by apply cmppri_asym.
  - right. split; [unfold child; lia|]. split; [lia|]. intros j [_ Hj] ?.
    assert (j = w_i w * 2) as -> by lia. apply cmppri_irrefl.
Qed.

Lemma percolate_down_ok st q i x :
  loose st q i x -> down_ok (prio st q.(pq_d)) i q.(pq_size) ->
  okp (percolate_down q i st) (rearranged st q x).
Proof.
  intros Hl Hdown. pose proof Hl as [Ll Lb Lr Lp La Ln _].
  unfold percolate_down. rewrite (aget_Some _ _ _ La), bind_Ok, getpri_law, bind_Ok by done.
  remember q.(pq_size) as n eqn:En.
  apply okp_bind. apply (okp_mono _ (fun w => walking st q.(pq_d) n x w /\ heap (wprio st x w) n));
    [|intros w [Hw Hh]; subst n; by eapply settle_ok].
  apply (rloop_inv _ (fun w => walking st q.(pq_d) n x w /\ down_ok (wprio st x w) w.(w_i) n)
    (fun w => Z.max 0 (n - w.(w_i)))).
  - lia.
  - clear Hdown. intros w (Hw & Hdown). unfold percolate_step.
    pose proof (wk_hole _ _ _ _ _ Hw). pose proof (wk_len _ _ _ _ _ Hw).
    apply okp_bind. eapply okp_mono; [eapply maxchild_ok; (exact Hw || lia)|].
    intros c [[-> Hnone]|(Hch & Hcn & Hbest)]; simpl.
    { split; [done|]. eapply down_stop; [done|]. intros j Hj ?. specialize (Hnone j Hj). lia. }
    assert (w_i w < c) by (unfold child in Hch; lia).
    rewrite (proj2 (Z.eqb_neq c 0)) by lia. simpl.
    destruct (wk_at st q.(pq_d) n x w c Hw) as (y & Hy & Hyn & Hpri & Epri); [lia..|].
    rewrite (aget_Some _ _ _ Hy), bind_Ok, Hpri, bind_Ok.
    rewrite <- (wprio_hole st x w) by lia.
    destruct (cmppri _ _) eqn:Ecmp; simpl.
    + eapply okp_mono; [eapply wk_drop; (exact Hw || exact Hy || done || lia)|].
      intros r (w' & -> & Hw' & Ei & Hsw). split; [|lia].
      split; [done|]. rewrite Ei. by eapply down_step.
    + split; [done|]. eapply down_stop; [done|]. intros j Hj ?. unfold below.
      eapply cmppri_negtrans; [done|]. by apply Hbest.
  - split; [by subst n; apply loose_start|]. simpl.
    destruct Hdown as [H1 H2]. split; intros p j Hpj Hj ?; unfold below;
      rewrite !(loose_wprio _ _ _ _ _ Hl); [by apply H1|by eapply H2].
  - simpl. lia.
Qed.

(** ** The operations *)

(** Elements of the queue sit at one index, the one their position says. *)
Lemma pq_index st q y :
  pq_ok st q -> in_pq q y ->
  1 <= pos_of st y < q.(pq_size) /\ q.(pq_d) !! pos_of st y = Some y /\ node_ok st y.
Proof. intros Hq (j & Hj & E). destruct (pq_nodes _ _ Hq j y Hj E) as [? ->]. done. Qed.

(** The queue holds the elements [mem]; only their positions changed. *)
Definition pq_upd (st : St) (mem : Z -> Prop) (st' : St) (q' : pqueue) : Prop :=
  pq_ok st' q' /\ frame st st' /\ (forall y, in_pq q' y <-> mem y).

(** The queue only sees the priority and the position of its elements. *)
Lemma pq_ok_ext st st' q :
  pq_ok st q ->
  (forall y, in_pq q y -> node_ok st y -> pos_of st' y = pos_of st y /\
     pri_of st' y = pri_of st y /\ node_ok st' y) ->
  pq_ok st' q.
Proof.
  intros [Hl Hb Hr Hn Hh] Hext. split; try done.
  - intros j y Hj E. destruct (Hn j y Hj E) as [Hy Hpos].
    destruct (Hext y) as (-> & _ & ?); [by exists j|done|done].
  - eapply heap_ext; [exact Hh|lia|]. intros j Hj. unfold prio.
    destruct (q.(pq_d) !! j) as [y|] eqn:E; [|done].
    destruct (Hn j y Hj E) as [Hy _]. by destruct (Hext y) as (_ & -> & _); [by exists j|done|].
Qed.

(** Positions outside [mem] are unchanged. *)
Definition pos_kept (st st' : St) (mem : Z -> Prop) : Prop :=
  forall y, ~ mem y -> pos_of st' y = pos_of st y.

Lemma pqueue_insert_spec st q x :
  pq_ok st q -> node_ok st x -> ~ in_pq q x -> q.(pq_size) < q.(pq_avail) ->
  okp (pqueue_insert (Some q) x st) (fun '(rc, oq, st') =>
    rc = 0 /\ exists q', oq = Some q' /\ pq_upd st (fun y => y = x \/ in_pq q y) st' q' /\
    pos_kept st st' (fun y => y = x \/ in_pq q y) /\
    q'.(pq_size) = q.(pq_size) + 1 /\ q'.(pq_avail) = q.(pq_avail)).
Proof.
  intros [Hlen Hb Hr Hn Hh] Hx Hnin Hroom. unfold pqueue_insert.
  rewrite aset_Some, bind_Ok by lia. unwrap.
  remember q.(pq_size) as n eqn:En.
  assert (forall j y, 1 <= j < n + 1 -> j <> n -> <[n := x]> q.(pq_d) !! j = Some y ->
    y <> x /\ node_ok st y /\ pos_of st y = j) as Hothers.
  { intros j y Hj Hjn E. rewrite zlookup_zinsert_ne in E by done.
    split; [|apply Hn; [lia|done]]. intros ->. apply Hnin. exists j. split; [lia|done]. }
  assert (forall y, in_pq (Pqueue (n + 1) (pq_avail q) (pq_step q) (<[n := x]> (pq_d q))) y
    <-> y = x \/ in_pq q y) as Hmem.
  { intros y. unfold in_pq, slots; simpl. rewrite <- En. split.
    - intros (j & Hj & E). destruct (decide (j = n)) as [->|].
      + rewrite zlookup_zinsert_eq in E by lia. left. congruence.
      + rewrite zlookup_zinsert_ne in E by done. right. exists j. split; [lia|done].
    - intros [->|(j & Hj & E)].
      + exists n. split; [lia|]. apply zlookup_zinsert_eq. lia.
      + exists j. split; [lia|]. rewrite zlookup_zinsert_ne; [done|lia]. }
  apply okp_bind. eapply okp_mono.
  { apply (bubble_up_ok st _ n x).
    - split; simpl; try done; try lia.
      + by rewrite zlen_zinsert.
      + apply zlookup_zinsert_eq. lia.
    - simpl. lia.
    - simpl. split; [intros p j Hpj Hj Hjn|unfold child; lia].
      unfold child in Hpj. unfold below, prio. rewrite !zlookup_zinsert_ne by lia.
      apply Hh; unfold child; lia. }
  intros [q' st'] (Hok & Hfr & Hin & Hpos & Hsz & Hav). simpl in *.
  split; [done|]. exists q'. split; [done|]. split; [split; [done|split; [done|]]|split; [|lia]].
  - intros y. by rewrite Hin.
  - intros y Hy. apply Hpos; [|rewrite Hmem]; tauto.
Qed.

(** [slots] of an array whose last element replaces the one at [i]. *)
Lemma slots_replace st q i x y :
  pq_ok st q -> 1 <= i < q.(pq_size) -> q.(pq_d) !! i = Some x ->
  exists lst, q.(pq_d) !! (q.(pq_size) - 1) = Some lst /\
    (slots (q.(pq_size) - 1) (<[i := lst]> q.(pq_d)) y <-> in_pq q y /\ y <> x).
Proof.
  intros [Hlen Hb Hr Hn Hh] Hi Hx.
  destruct (zlookup_lt q.(pq_d) (q.(pq_size) - 1)) as [lst Hlst]; [lia|].
  exists lst. split; [done|]. unfold in_pq, slots. split.
  - intros (j & Hj & E). destruct (decide (j = i)) as [->|].
    + rewrite zlookup_zinsert_eq in E by lia. injection E as <-. split; [exists (q.(pq_size) - 1); split; [lia|done]|].
      intros ->. destruct (Hn _ _ Hi Hx) as [_ ?]. destruct (Hn (pq_size q - 1) x) as [_ ?]; [lia|done|]. lia.
    + rewrite zlookup_zinsert_ne in E by done. split; [exists j; split; [lia|done]|].
      intros ->. destruct (Hn _ _ Hi Hx) as [_ ?]. destruct (Hn j x) as [_ ?]; [lia|done|]. lia.
  - intros [(j & Hj & E) Hyx].
    assert (j <> i) by (intros ->; congruence).
    destruct (decide (j = pq_size q - 1)) as [->|].
    + exists i. split; [lia|]. rewrite zlookup_zinsert_eq by lia. congruence.
    + exists j. split; [lia|]. by rewrite zlookup_zinsert_ne.
Qed.

(** The array of [pqueue_pop] and [pqueue_remove] before their walk. *)
Lemma loose_replace st q i x lst :
  pq_ok st q -> 1 <= i < q.(pq_size) -> q.(pq_d) !! i = Some x ->
  q.(pq_d) !! (q.(pq_size) - 1) = Some lst ->
  loose st (Pqueue (q.(pq_size) - 1) q.(pq_avail) q.(pq_step) (<[i := lst]> q.(pq_d))) i lst /\
  (forall j, j <> i -> prio st (<[i := lst]> q.(pq_d)) j = prio st q.(pq_d) j) /\
  prio st (<[i := lst]> q.(pq_d)) i = pri_of st lst.
Proof.
  intros [Hlen Hb Hr Hn Hh] Hi Hx Hlst.
  destruct (Hn (q.(pq_size) - 1) lst) as [Hlok Hlpos]; [lia|done|].
  split; [split; simpl; try done; try lia|split].
  - by rewrite zlen_zinsert.
  - apply zlookup_zinsert_eq. lia.
  - intros j y Hj Hji E. rewrite zlookup_zinsert_ne in E by done.
    destruct (Hn j y) as [? E']; [lia|done|]. split; [intros ->; lia|done].
  - intros j Hj. unfold prio. by rewrite zlookup_zinsert_ne.
  - unfold prio. rewrite zlookup_zinsert_eq by lia. done.
Qed.

Lemma pq_prio st q j y : q.(pq_d) !! j = Some y -> prio st q.(pq_d) j = pri_of st y.
Proof. unfold prio. by intros ->. Qed.

Lemma pqueue_pop_empty st q : q.(pq_size) = 1 -> pqueue_pop (Some q) st = Ok (None, Some q, st).
Proof. intros E. unfold pqueue_pop. by rewrite E. Qed.

Lemma pqueue_peek_spec st q :
  pq_ok st q -> 1 < q.(pq_size) -> exists x, q.(pq_d) !! 1 = Some x /\ pqueue_peek (Some q) = Ok (Some x).
Proof.
  intros [Hl _ Hr _ _] Hs. destruct (zlookup_lt q.(pq_d) 1) as [x Hx]; [lia|]. exists x. split; [done|].
  unfold pqueue_peek. rewrite (proj2 (Z.eqb_neq _ _)) by lia. by rewrite (aget_Some _ _ _ Hx).
Qed.

(** The first element is beaten by none. *)
Lemma pq_first st q x y :
  pq_ok st q -> q.(pq_d) !! 1 = Some x -> in_pq q y -> cmppri (pri_of st x) (pri_of st y) = false.
Proof.
  intros Hq Hx (j & Hj & E). rewrite <- (pq_prio st q 1 x Hx), <- (pq_prio st q j y E).
  apply (heap_root _ _ _ (pq_heap _ _ Hq)), Hj.
Qed.

Lemma pqueue_pop_spec st q :
  pq_ok st q -> 1 < q.(pq_size) ->
  okp (pqueue_pop (Some q) st) (fun '(o, oq, st') =>
    exists x q', o = Some x /\ oq = Some q' /\ in_pq q x /\ q.(pq_d) !! 1 = Some x /\
    (forall y, in_pq q y -> cmppri (pri_of st x) (pri_of st y) = false) /\
    pq_upd st (fun y => in_pq q y /\ y <> x) st' q' /\
    pos_kept st st' (in_pq q) /\
    q'.(pq_size) = q.(pq_size) - 1 /\ q'.(pq_avail) = q.(pq_avail)).
Proof.
  intros Hq Hsz. pose proof Hq as [Hlen Hb Hr Hn Hh]. unfold pqueue_pop.
  rewrite (proj2 (Z.eqb_neq _ _)) by lia.
  destruct (zlookup_lt q.(pq_d) 1) as [x Hx]; [lia|].
  destruct (zlookup_lt q.(pq_d) (q.(pq_size) - 1)) as [lst Hlst]; [lia|].
  rewrite (aget_Some _ _ _ Hx), bind_Ok. unwrap.
  rewrite (aget_Some _ _ _ Hlst), bind_Ok, aset_Some, bind_Ok by lia.
  destruct (loose_replace st q 1 x lst Hq ltac:(lia) Hx Hlst) as (Hl & Hp & _).
  apply okp_bind. eapply okp_mono.
  { apply (percolate_down_ok st _ 1 lst Hl). simpl. apply (heap_down_ok (prio st q.(pq_d))).
    - eapply heap_ext; [exact Hh|lia|done].
    - done.
    - unfold child. lia. }
  assert (forall y, slots (q.(pq_size) - 1) (<[1 := lst]> q.(pq_d)) y <-> in_pq q y /\ y <> x) as Hmem.
  { intros y. destruct (slots_replace st q 1 x y Hq) as (lst' & Hlst' & Hiff); [lia|done|].
    assert (lst' = lst) as -> by congruence. done. }
  intros [q' st'] (Hok & Hfr & Hin & Hpos & Hsz' & Hav). unfold in_pq in Hin, Hpos; simpl in *.
  assert (in_pq q x) as Hxin by (exists 1; split; [lia|done]).
  assert (in_pq q lst) as Hlin by (exists (q.(pq_size) - 1); split; [lia|done]).
  exists x, q'. do 4 (split; [done|]). split.
  { intros y. by apply pq_first. }
  split; [split; [done|split; [done|]]|split; [|done]].
  - intros y. rewrite <- Hmem. apply Hin.
  - intros y Hy. apply Hpos; [by intros ->|]. rewrite Hmem. tauto.
Qed.

Lemma pqueue_remove_spec st q x :
  pq_ok st q -> in_pq q x ->
  okp (pqueue_remove (Some q) x st) (fun '(rc, oq, st') =>
    rc = 0 /\ exists q', oq = Some q' /\
    pq_upd st (fun y => in_pq q y /\ y <> x) st' q' /\
    pos_kept st st' (in_pq q) /\
    q'.(pq_size) = q.(pq_size) - 1 /\ q'.(pq_avail) = q.(pq_avail)).
Proof.
  intros Hq Hxin. pose proof Hq as [Hlen Hb Hr Hn Hh].
  destruct (pq_index st q x Hq Hxin) as (Hi & Hx & Hxok).
  unfold pqueue_remove. rewrite getpos_law, bind_Ok by done. simpl.
  remember (pos_of st x) as i eqn:Ei.
  destruct (zlookup_lt q.(pq_d) (q.(pq_size) - 1)) as [lst Hlst]; [lia|].
  destruct (Hn (q.(pq_size) - 1) lst) as [Hlok Hlpos]; [lia|done|].
  unwrap. rewrite (aget_Some _ _ _ Hlst), bind_Ok, aset_Some, bind_Ok by lia.
  rewrite getpri_law, bind_Ok by done.
  rewrite (aget_Some (<[i := lst]> _) i lst), bind_Ok by (apply zlookup_zinsert_eq; lia).
  rewrite getpri_law, bind_Ok by done.
  destruct (loose_replace st q i x lst Hq Hi Hx Hlst) as (Hl & Hp & Hpi).
  assert (forall y, slots (q.(pq_size) - 1) (<[i := lst]> q.(pq_d)) y <-> in_pq q y /\ y <> x) as Hmem.
  { intros y. destruct (slots_replace st q i x y Hq Hi Hx) as (lst' & Hlst' & Hiff).
    assert (lst' = lst) as -> by congruence. done. }
  assert (heap (prio st (pq_d q)) (pq_size q - 1)) as Hh' by (eapply heap_ext; [exact Hh|lia|done]).
  rewrite <- (pq_prio st q i x Hx), <- Hpi.
  apply okp_bind. apply (okp_mono _ (rearranged st (Pqueue (q.(pq_size) - 1) q.(pq_avail) q.(pq_step)
    (<[i := lst]> q.(pq_d))) lst)).
  { destruct (cmppri _ _) eqn:Ec.
    - destruct (decide (i < pq_size q - 1)) as [Hlt|].
      + apply (bubble_up_ok st _ i lst Hl Hlt). simpl. by apply (heap_up_ok (prio st q.(pq_d))).
      + assert (lst = x) as -> by (replace i with (pq_size q - 1) in Hx by lia; congruence).
        rewrite Hpi, (pq_prio st q i x Hx), cmppri_irrefl in Ec. done.
    - apply (percolate_down_ok st _ i lst Hl). simpl. apply (heap_down_ok (prio st q.(pq_d))); [done|done|].
      intros p Hpc. apply (cmppri_negtrans _ (prio st (pq_d q) i)); [|done]. apply Hh; [done|lia]. }
  assert (in_pq q lst) as Hlin by (exists (q.(pq_size) - 1); split; [lia|done]).
  intros [q' st'] (Hok & Hfr & Hin & Hpos & Hsz' & Hav). unfold in_pq in Hin, Hpos; simpl in *.
  split; [done|]. exists q'. split; [done|]. split; [split; [done|split; [done|]]|split; [|done]].
  - intros y. rewrite <- Hmem. apply Hin.
  - intros y Hy. apply Hpos; [by intros ->|]. rewrite Hmem. tauto.
Qed.

Lemma pqueue_change_priority_spec st q v x :
  pq_ok st q -> in_pq q x -> pri_ok v ->
  okp (pqueue_change_priority (Some q) v x st) (fun '(oq, st') =>
    exists q', oq = Some q' /\ pq_upd (put_pri st x v) (in_pq q) st' q' /\
    pos_kept st st' (in_pq q) /\
    q'.(pq_size) = q.(pq_size) /\ q'.(pq_avail) = q.(pq_avail)).
Proof.
  intros Hq Hxin Hv. pose proof Hq as [Hlen Hb Hr Hn Hh].
  destruct (pq_index st q x Hq Hxin) as (Hi & Hx & Hxok).
  destruct (put_pri_law st x v Hxok Hv) as (Ex & Eother & Epos & Enode).
  unfold pqueue_change_priority. rewrite getpri_law, bind_Ok by done.
  rewrite setpri_law, bind_Ok by done.
  rewrite getpos_law, bind_Ok, Epos by (by apply Enode). simpl.
  remember (pos_of st x) as i eqn:Ei.
  assert (loose (put_pri st x v) q i x) as Hl.
  { split; try done; try lia; [by apply Enode|].
    intros j y Hj Hji E. destruct (Hn j y Hj E) as [? E']. rewrite Epos, Enode.
    split; [intros ->; lia|done]. }
  assert (forall j, 1 <= j < pq_size q -> j <> i ->
    prio (put_pri st x v) q.(pq_d) j = prio st q.(pq_d) j) as Hp.
  { intros j Hj Hji. unfold prio. destruct (pq_d q !! j) as [y|] eqn:E; [|done].
    apply Eother. intros ->. destruct (Hn j x Hj E). lia. }
  assert (prio (put_pri st x v) q.(pq_d) i = v) as Hpi by (by rewrite (pq_prio _ q i x Hx)).
  remember (fun j => if decide (1 <= j < pq_size q) then prio (put_pri st x v) q.(pq_d) j
    else prio st q.(pq_d) j) as F' eqn:EF'.
  assert (forall j, j <> i -> F' j = prio st q.(pq_d) j) as HF' by (intros j Hj; subst F'; case_decide; auto).
  assert (F' i = v) as HF'i by (subst F'; rewrite decide_True by done; done).
  assert (forall j, 1 <= j < pq_size q -> prio (put_pri st x v) q.(pq_d) j = F' j) as HFF
    by (intros j Hj; subst F'; by rewrite decide_True).
  apply okp_bind. apply (okp_mono _ (rearranged (put_pri st x v) q x)).
  { destruct (cmppri _ _) eqn:Ec; rewrite <- (pq_prio st q i x Hx), <- HF'i in Ec.
    - apply bubble_up_ok; [done|lia|].
      destruct (heap_up_ok _ F' i _ Hh HF' Ec) as [H1 H2].
      split; intros p j Hpj; [intros Hj Hji|intros Hij Hj]; unfold child in *; unfold below;
        rewrite !HFF by lia; [apply H1|apply H2]; unfold child; lia.
    - apply percolate_down_ok; [done|].
      destruct (heap_down_ok _ F' i _ Hh HF') as [H1 H2].
      { intros p Hpc. eapply cmppri_negtrans; [apply Hh; [done|lia]|done]. }
      split; intros p j Hpj; [intros Hj Hji|intros Hij Hj]; unfold child in *; unfold below;
        rewrite !HFF by lia; [apply H1|apply H2]; unfold child; lia. }
  intros [q' st'] (Hok & Hfr & Hin & Hpos & Hsz' & Hav). simpl in *.
  exists q'. split; [done|]. split; [done|]. split; [|done].
  intros y Hy. rewrite Hpos; [done|by intros ->|done].
Qed.

(** ** The validity check *)

(** The slots of the subtree rooted at [a]. *)
Inductive subtree (a : Z) : Z -> Prop :=
| subtree_root : subtree a a
| subtree_child p j : subtree a p -> child p j -> subtree a j.

Lemma subtree_inv a p :
  1 <= a -> subtree a p -> p = a \/ subtree (2 * a) p \/ subtree (2 * a + 1) p.
Proof.
  intros Ha. induction 1 as [|p j Hp IH Hc]; [by left|right].
  destruct IH as [->|[H|H]]; [|left; by econstructor|right; by econstructor].
  destruct Hc as [_ [->| ->]]; [left|right]; constructor.
Qed.

Lemma subtree_trans a b p : subtree a b -> subtree b p -> subtree a p.
Proof. intros Hab. induction 1; [done|by econstructor]. Qed.

Lemma subtree_all p : 1 <= p -> subtree 1 p.
Proof.
  induction p as [p IH] using (well_founded_induction (Z.lt_wf 0)). intros Hp.
  destruct (decide (p = 1)) as [->|]; [constructor|].
  destruct (child_parent p) as [Hc Hlt]; [lia|].
  econstructor; [|exact Hc]. apply IH; lia.
Qed.

(** Every slot below [n] holds a node whose priority can be read. *)
Definition readable (st : St) (q : pqueue) : Prop :=
  zlen q.(pq_d) = q.(pq_avail) /\ q.(pq_avail) < 2147483648 /\ 1 <= q.(pq_size) <= q.(pq_avail) /\
  forall j y, 1 <= j < q.(pq_size) -> q.(pq_d) !! j = Some y -> node_ok st y.

Lemma readable_at st q j :
  readable st q -> 1 <= j < q.(pq_size) ->
  exists y, aget q.(pq_d) j = Ok y /\ getpri st y = Ok (prio st q.(pq_d) j).
Proof.
  intros (Hl & _ & Hr & Hn) Hj. destruct (zlookup_lt q.(pq_d) j) as [y Hy]; [lia|].
  exists y. split; [by apply aget_Some|].
  rewrite getpri_law by (by eapply Hn). by rewrite (pq_prio st q j y Hy).
Qed.

Definition in_order (st : St) (q : pqueue) (a : Z) : Prop :=
  forall p j, subtree a p -> child p j -> j < q.(pq_size) -> below (prio st q.(pq_d)) p j.

Lemma in_order_split st q a :
  1 <= a ->
  (forall c, child a c -> c < q.(pq_size) -> below (prio st q.(pq_d)) a c /\ in_order st q c) ->
  in_order st q a.
Proof.
  intros Ha H p j Hp Hc Hj.
  destruct (subtree_inv a p Ha Hp) as [->|Hp']; [by apply H|].
  assert (forall c p', subtree c p' -> c <= p') as Hle
    by (intros c p'; induction 1; unfold child in *; lia).
  destruct Hp' as [Hp'|Hp']; pose proof (Hle _ _ Hp');
    refine (proj2 (H _ _ _) p j Hp' Hc Hj); unfold child in *; lia.
Qed.

Lemma in_order_child st q a c : in_order st q a -> child a c -> in_order st q c.
Proof.
  intros H Hc p j Hp. apply H. eapply subtree_trans; [|done]. econstructor; [constructor|done].
Qed.

Lemma subtree_is_valid_ok st q fuel a :
  readable st q -> 1 <= a -> a < q.(pq_size) \/ a = 1 ->
  q.(pq_size) - a < Z.of_nat fuel ->
  okp (subtree_is_valid fuel q st a) (fun b => b = true <-> in_order st q a).
Proof.
  intros Hr. pose proof Hr as (Hl & Hb & Hs & _). revert a.
  induction fuel as [|fuel IH]; intros a Ha Ha' Hf; [lia|].
  assert (forall c, child a c ->
    okp (if c <? q.(pq_size) then
          x ← aget q.(pq_d) a; px ← getpri st x;
          y ← aget q.(pq_d) c; py ← getpri st y;
          if cmppri px py then Ok false else subtree_is_valid fuel q st c
        else Ok true)
      (fun b => b = true <-> (c < q.(pq_size) -> below (prio st q.(pq_d)) a c /\ in_order st q c)))
    as Hside.
  { intros c Hc. destruct (Z.ltb_spec c (pq_size q)); [|simpl; split; [lia|done]].
    assert (a < c) by (unfold child in Hc; lia).
    destruct (readable_at st q a Hr) as (x & -> & Hx); [lia|]. simpl. rewrite Hx. simpl.
    destruct (readable_at st q c Hr) as (y & -> & Hy); [lia|]. simpl. rewrite Hy. simpl.
    unfold below. destruct (cmppri _ _).
    - simpl. split; [done|]. intros H'. by destruct (H' ltac:(done)).
    - eapply okp_mono; [apply IH; lia|]. intros b ->. tauto. }
  simpl subtree_is_valid. unfold left, right. rewrite Z.shiftl_mul_pow2 by lia. change (2 ^ 1) with 2.
  rewrite !(u64_small (a * 2)), (u64_small (a * 2 + 1)) by lia. rewrite (Z.mul_comm a 2).
  apply okp_bind. eapply okp_mono; [apply Hside; unfold child; lia|]. intros l Hl'. simpl in Hl'.
  destruct l; simpl.
  - apply okp_bind. eapply okp_mono; [apply Hside; unfold child; lia|]. intros r Hr'. simpl in Hr'.
    assert ((r = true) <-> in_order st q a) as Hiff.
    { rewrite Hr'. split; intros H'.
      - apply in_order_split; [done|]. intros c [_ [->| ->]] Hc; [by apply Hl'|by apply H'].
      - intros Hc. split; [apply H'; [constructor|unfold child; lia|done]|].
        eapply in_order_child; [done|unfold child; lia]. }
    destruct r; simpl; tauto.
  - split; [done|]. intros H'. apply Hl'. intros Hc.
    split; [apply H'; [constructor|unfold child; lia|done]|].
    eapply in_order_child; [done|unfold child; lia].
Qed.

Lemma pqueue_is_valid_spec st q :
  readable st q ->
  okp (pqueue_is_valid q st) (fun b => b = true <-> heap (prio st q.(pq_d)) q.(pq_size)).
Proof.
  intros Hr. pose proof Hr as (_ & _ & Hs & _). unfold pqueue_is_valid.
  eapply okp_mono; [apply subtree_is_valid_ok; [done|lia|by right|lia]|].
  intros b ->. split.
  - intros H p j Hc Hj. apply H; [|done|done]. apply subtree_all. by destruct Hc.
  - intros H p j _. apply H.
Qed.

Lemma pq_ok_readable st q : pq_ok st q -> readable st q.
Proof.
  intros [H1 H2 H3 H4 _]. do 3 (split; [done|]). intros j y Hj Hy. by apply (H4 j y).
Qed.

Lemma pq_ok_valid st q : pq_ok st q -> pqueue_is_valid q st = Ok true.
Proof.
  intros Hq. destruct (okp_inv _ _ (pqueue_is_valid_spec st q (pq_ok_readable st q Hq))) as ([|] & -> & Hiff);
    [done|]. exfalso. apply diff_false_true, Hiff, Hq.
Qed.
End invariant.
