(* ===== verification/SsdConfig.v ===== *)
(** * The SSD models and their geometry (ssd_config.h, ssd.c: ssd_init_params)

    [SsdConfig] is the set of compile-time constants of ssd_config.h that ssd.c
    and the FTLs built on it use, with one instance for each [BASE_SSD] that
    selects them.  [ssd_init_params] computes the geometry of one partition;
    [params_ok] is what the rest of the library needs of a geometry, and
    [ssd_init_params_ok] says when the computation delivers it. *)

From stdpp Require Import prelude list.
From Stdlib Require Import ZArith Lia.
From S2P Require Import Prelude.

Definition INTEL_OPTANE : Z := 0.
Definition SAMSUNG_970PRO : Z := 1.
Definition ZNS_PROTOTYPE : Z := 2.
Definition KV_PROTOTYPE : Z := 3.
Definition WD_ZN540 : Z := 4.

Definition SSD_TYPE_NVM : Z := 0.
Definition SSD_TYPE_CONV : Z := 1.
Definition SSD_TYPE_ZNS : Z := 2.
Definition SSD_TYPE_KV : Z := 3.

Definition CELL_MODE_UNKNOWN : Z := 0.
Definition CELL_MODE_SLC : Z := 1.
Definition CELL_MODE_MLC : Z := 2.
Definition CELL_MODE_TLC : Z := 3.
Definition CELL_MODE_QLC : Z := 4.

Definition CELL_TYPE_LSB : Z := 0.
Definition CELL_TYPE_MSB : Z := 1.
Definition CELL_TYPE_CSB : Z := 2.
Definition MAX_CELL_TYPES : Z := 3.

(** [OP_AREA_HUNDREDTHS] is [OP_AREA_PERCENT * 100]: the only floating-point
    constant of the program is used in [(int)((1 + OP_AREA_PERCENT) * 100)]. *)
Class SsdConfig := {
  MDTS : Z;
  CELL_MODE : Z;
  SSD_PARTITIONS : Z;
  NAND_CHANNELS : Z;
  LUNS_PER_NAND_CH : Z;
  PLNS_PER_LUN : Z;
  FLASH_PAGE_SIZE : Z;
  ONESHOT_PAGE_SIZE : Z;
  BLKS_PER_PLN : Z;
  BLK_SIZE : Z;
  MAX_CH_XFER_SIZE : Z;
  WRITE_UNIT_SIZE : Z;
  NAND_CHANNEL_BANDWIDTH : Z;
  PCIE_BANDWIDTH : Z;
  NAND_4KB_READ_LATENCY : list Z;
  NAND_READ_LATENCY : list Z;
  NAND_PROG_LATENCY : Z;
  NAND_ERASE_LATENCY : Z;
  FW_4KB_READ_LATENCY : Z;
  FW_READ_LATENCY : Z;
  FW_WBUF_LATENCY0 : Z;
  FW_WBUF_LATENCY1 : Z;
  FW_CH_XFER_LATENCY : Z;
  OP_AREA_HUNDREDTHS : Z;
  GLOBAL_WB_SIZE : Z;
  WRITE_EARLY_COMPLETION : bool;
  LBA_BITS : Z
}.

Definition samsung_970pro : SsdConfig := {|
  MDTS := 6; CELL_MODE := CELL_MODE_MLC; SSD_PARTITIONS := 4;
  NAND_CHANNELS := 8; LUNS_PER_NAND_CH := 2; PLNS_PER_LUN := 1;
  FLASH_PAGE_SIZE := KB 32; ONESHOT_PAGE_SIZE := KB 32 * 1;
  BLKS_PER_PLN := 8192; BLK_SIZE := 0;
  MAX_CH_XFER_SIZE := KB 16; WRITE_UNIT_SIZE := 512;
  NAND_CHANNEL_BANDWIDTH := 800; PCIE_BANDWIDTH := 3360;
  NAND_4KB_READ_LATENCY := [35760 - 6000; 35760 + 6000; 0];
  NAND_READ_LATENCY := [36013 - 6000; 36013 + 6000; 0];
  NAND_PROG_LATENCY := 185000; NAND_ERASE_LATENCY := 0;
  FW_4KB_READ_LATENCY := 21500; FW_READ_LATENCY := 30490;
  FW_WBUF_LATENCY0 := 4000; FW_WBUF_LATENCY1 := 460; FW_CH_XFER_LATENCY := 0;
  OP_AREA_HUNDREDTHS := 7;
  GLOBAL_WB_SIZE := 8 * 2 * (KB 32 * 1) * 2; WRITE_EARLY_COMPLETION := true;
  LBA_BITS := 9
|}.

Definition zns_prototype : SsdConfig := {|
  MDTS := 6; CELL_MODE := CELL_MODE_TLC; SSD_PARTITIONS := 1;
  NAND_CHANNELS := 8; LUNS_PER_NAND_CH := 16; PLNS_PER_LUN := 1;
  FLASH_PAGE_SIZE := KB 64; ONESHOT_PAGE_SIZE := KB 64 * 2;
  BLKS_PER_PLN := 0; BLK_SIZE := MB 32 `div` 1;
  MAX_CH_XFER_SIZE := KB 64; WRITE_UNIT_SIZE := KB 64 * 2;
  NAND_CHANNEL_BANDWIDTH := 800; PCIE_BANDWIDTH := 3200;
  NAND_4KB_READ_LATENCY := [25485; 25485; 25485];
  NAND_READ_LATENCY := [40950; 40950; 40950];
  NAND_PROG_LATENCY := 1913640; NAND_ERASE_LATENCY := 0;
  FW_4KB_READ_LATENCY := 37540 - 7390 + 2000; FW_READ_LATENCY := 37540 - 7390 + 2000;
  FW_WBUF_LATENCY0 := 0; FW_WBUF_LATENCY1 := 0; FW_CH_XFER_LATENCY := 413;
  OP_AREA_HUNDREDTHS := 0;
  GLOBAL_WB_SIZE := 8 * 16 * (KB 64 * 2) * 2; WRITE_EARLY_COMPLETION := false;
  LBA_BITS := 9
|}.

Definition wd_zn540 : SsdConfig := {|
  MDTS := 6; CELL_MODE := CELL_MODE_TLC; SSD_PARTITIONS := 1;
  NAND_CHANNELS := 8; LUNS_PER_NAND_CH := 4; PLNS_PER_LUN := 1;
  FLASH_PAGE_SIZE := KB 32; ONESHOT_PAGE_SIZE := KB 32 * 3;
  BLKS_PER_PLN := 0; BLK_SIZE := GB 2 `div` (8 * 4);
  MAX_CH_XFER_SIZE := KB 32; WRITE_UNIT_SIZE := 512;
  NAND_CHANNEL_BANDWIDTH := 450; PCIE_BANDWIDTH := 3050;
  NAND_4KB_READ_LATENCY := [50000; 50000; 50000];
  NAND_READ_LATENCY := [58000; 58000; 58000];
  NAND_PROG_LATENCY := 561000; NAND_ERASE_LATENCY := 0;
  FW_4KB_READ_LATENCY := 20000; FW_READ_LATENCY := 13000;
  FW_WBUF_LATENCY0 := 5600; FW_WBUF_LATENCY1 := 600; FW_CH_XFER_LATENCY := 0;
  OP_AREA_HUNDREDTHS := 0;
  GLOBAL_WB_SIZE := 0; WRITE_EARLY_COMPLETION := true;
  LBA_BITS := 9
|}.

Definition LBA_SIZE `{SsdConfig} : Z := Z.shiftl 1 LBA_BITS.
Definition LBA_TO_BYTE `{SsdConfig} (lba : Z) : Z := u64 (Z.shiftl lba LBA_BITS).
Definition BYTE_TO_LBA `{SsdConfig} (byte : Z) : Z := Z.shiftr byte LBA_BITS.

Record ssdparams := SsdParams {
  secsz : Z;
  secs_per_pg : Z;
  pgsz : Z;
  pgs_per_flashpg : Z;
  flashpgs_per_blk : Z;
  pgs_per_oneshotpg : Z;
  oneshotpgs_per_blk : Z;
  pgs_per_blk : Z;
  blks_per_pl : Z;
  pls_per_lun : Z;
  luns_per_ch : Z;
  nchs : Z;
  cell_mode : Z;
  write_unit_size : Z;
  write_early_completion : bool;
  pg_4kb_rd_lat : list Z;
  pg_rd_lat : list Z;
  pg_wr_lat : Z;
  blk_er_lat : Z;
  max_ch_xfer_size : Z;
  fw_4kb_rd_lat : Z;
  fw_rd_lat : Z;
  fw_wbuf_lat0 : Z;
  fw_wbuf_lat1 : Z;
  fw_ch_xfer_lat : Z;
  ch_bandwidth : Z;
  pcie_bandwidth : Z;
  secs_per_blk : Z;
  secs_per_pl : Z;
  secs_per_lun : Z;
  secs_per_ch : Z;
  tt_secs : Z;
  pgs_per_pl : Z;
  pgs_per_lun : Z;
  pgs_per_ch : Z;
  tt_pgs : Z;
  blks_per_lun : Z;
  blks_per_ch : Z;
  tt_blks : Z;
  secs_per_line : Z;
  pgs_per_line : Z;
  blks_per_line : Z;
  tt_lines : Z;
  pls_per_ch : Z;
  tt_pls : Z;
  tt_luns : Z;
  write_buffer_size : Z
}.

(** [check_params] has no live code. *)
Definition check_params (spp : ssdparams) : unit := ().

Definition ssd_init_params `{SsdConfig} (capacity nparts : Z) : res ssdparams :=
  let secsz := s32 LBA_SIZE in
  secs_per_pg ← cdiv 4096 LBA_SIZE;
  let pgsz := s32 (secsz * secs_per_pg) in
  let pls_per_lun := PLNS_PER_LUN in
  let luns_per_ch := LUNS_PER_NAND_CH in
  r ← cmod NAND_CHANNELS nparts;
  _ ← nvmev_assert (r =? 0);
  nchs ← cdiv NAND_CHANNELS nparts;
  let nchs := s32 nchs in
  capacity ← cdiv capacity nparts;
  g ← (if 0 <? BLKS_PER_PLN then
         let blks_per_pl := BLKS_PER_PLN in
         blk_size ← div_round_up64 capacity
           (u64 (s32 (s32 (s32 (blks_per_pl * pls_per_lun) * luns_per_ch) * nchs)));
         Ok (blk_size, blks_per_pl)
       else
         _ ← nvmev_assert (0 <? BLK_SIZE);
         let blk_size := BLK_SIZE in
         blks ← div_round_up64 capacity
           (u64 (u64 (u64 (blk_size * pls_per_lun) * luns_per_ch) * nchs));
         Ok (blk_size, s32 blks));
  let blk_size := g.1 in
  let blks_per_pl := g.2 in
  a ← cmod ONESHOT_PAGE_SIZE pgsz;
  b ← cmod FLASH_PAGE_SIZE pgsz;
  _ ← nvmev_assert ((a =? 0) && (b =? 0));
  c ← cmod ONESHOT_PAGE_SIZE FLASH_PAGE_SIZE;
  _ ← nvmev_assert (c =? 0);
  pgs_per_oneshotpg ← cdiv ONESHOT_PAGE_SIZE pgsz;
  oneshotpgs ← div_round_up64 blk_size ONESHOT_PAGE_SIZE;
  let oneshotpgs_per_blk := s32 oneshotpgs in
  pgs_per_flashpg ← cdiv FLASH_PAGE_SIZE pgsz;
  flash_per_oneshot ← cdiv ONESHOT_PAGE_SIZE FLASH_PAGE_SIZE;
  let flashpgs_per_blk := s32 (flash_per_oneshot * oneshotpgs_per_blk) in
  let pgs_per_blk := s32 (pgs_per_oneshotpg * oneshotpgs_per_blk) in
  let secs_per_blk := u64 (s32 (secs_per_pg * pgs_per_blk)) in
  let secs_per_pl := u64 (secs_per_blk * blks_per_pl) in
  let secs_per_lun := u64 (secs_per_pl * pls_per_lun) in
  let secs_per_ch := u64 (secs_per_lun * luns_per_ch) in
  let tt_secs := u64 (secs_per_ch * nchs) in
  let pgs_per_pl := u64 (s32 (pgs_per_blk * blks_per_pl)) in
  let pgs_per_lun := u64 (pgs_per_pl * pls_per_lun) in
  let pgs_per_ch := u64 (pgs_per_lun * luns_per_ch) in
  let tt_pgs := u64 (pgs_per_ch * nchs) in
  let blks_per_lun := u64 (s32 (blks_per_pl * pls_per_lun)) in
  let blks_per_ch := u64 (blks_per_lun * luns_per_ch) in
  let tt_blks := u64 (blks_per_ch * nchs) in
  let pls_per_ch := u64 (s32 (pls_per_lun * luns_per_ch)) in
  let tt_pls := u64 (pls_per_ch * nchs) in
  let tt_luns := u64 (s32 (luns_per_ch * nchs)) in
  let blks_per_line := tt_luns in
  let pgs_per_line := u64 (blks_per_line * pgs_per_blk) in
  let secs_per_line := u64 (pgs_per_line * secs_per_pg) in
  let tt_lines := blks_per_lun in
  Ok {| secsz := secsz; secs_per_pg := secs_per_pg; pgsz := pgsz;
        pgs_per_flashpg := pgs_per_flashpg; flashpgs_per_blk := flashpgs_per_blk;
        pgs_per_oneshotpg := pgs_per_oneshotpg; oneshotpgs_per_blk := oneshotpgs_per_blk;
        pgs_per_blk := pgs_per_blk; blks_per_pl := blks_per_pl; pls_per_lun := pls_per_lun;
        luns_per_ch := luns_per_ch; nchs := nchs; cell_mode := CELL_MODE;
        write_unit_size := WRITE_UNIT_SIZE; write_early_completion := WRITE_EARLY_COMPLETION;
        pg_4kb_rd_lat := NAND_4KB_READ_LATENCY; pg_rd_lat := NAND_READ_LATENCY;
        pg_wr_lat := NAND_PROG_LATENCY; blk_er_lat := NAND_ERASE_LATENCY;
        max_ch_xfer_size := MAX_CH_XFER_SIZE;
        fw_4kb_rd_lat := FW_4KB_READ_LATENCY; fw_rd_lat := FW_READ_LATENCY;
        fw_wbuf_lat0 := FW_WBUF_LATENCY0; fw_wbuf_lat1 := FW_WBUF_LATENCY1;
        fw_ch_xfer_lat := FW_CH_XFER_LATENCY;
        ch_bandwidth := NAND_CHANNEL_BANDWIDTH; pcie_bandwidth := PCIE_BANDWIDTH;
        secs_per_blk := secs_per_blk; secs_per_pl := secs_per_pl; secs_per_lun := secs_per_lun;
        secs_per_ch := secs_per_ch; tt_secs := tt_secs;
        pgs_per_pl := pgs_per_pl; pgs_per_lun := pgs_per_lun; pgs_per_ch := pgs_per_ch;
        tt_pgs := tt_pgs;
        blks_per_lun := blks_per_lun; blks_per_ch := blks_per_ch; tt_blks := tt_blks;
        secs_per_line := secs_per_line; pgs_per_line := pgs_per_line;
        blks_per_line := blks_per_line; tt_lines := tt_lines;
        pls_per_ch := pls_per_ch; tt_pls := tt_pls; tt_luns := tt_luns;
        write_buffer_size := GLOBAL_WB_SIZE |}.

(** ** A sound geometry *)

(** The bounds are those of the fields of [struct ppa]; the page count fits the
    [int] that the initialisation loops count with. *)
Record params_ok (sp : ssdparams) : Prop := {
  po_nchs : 0 < sp.(nchs) <= 256;
  po_luns : 0 < sp.(luns_per_ch) <= 256;
  po_pls : 0 < sp.(pls_per_lun) <= 256;
  po_blks : 0 < sp.(blks_per_pl) <= 65536;
  po_pgs : 0 < sp.(pgs_per_blk) <= 65536;
  po_total : sp.(tt_pgs) < 2147483648;
  po_oneshot : 0 < sp.(pgs_per_oneshotpg);
  po_oneshots : 0 < sp.(oneshotpgs_per_blk);
  po_blk_oneshot : sp.(pgs_per_blk) = sp.(pgs_per_oneshotpg) * sp.(oneshotpgs_per_blk);
  po_flash : 0 < sp.(pgs_per_flashpg);
  po_flashes : 0 < sp.(flashpgs_per_blk);
  po_blk_flash : sp.(pgs_per_blk) = sp.(pgs_per_flashpg) * sp.(flashpgs_per_blk);
  po_flash_oneshot : (sp.(pgs_per_flashpg) | sp.(pgs_per_oneshotpg));
  po_pgsz : sp.(pgsz) = 4096;
  po_secs : 0 < sp.(secs_per_pg) <= 4096 /\ sp.(secsz) * sp.(secs_per_pg) = 4096;
  po_pgs_per_pl : sp.(pgs_per_pl) = sp.(blks_per_pl) * sp.(pgs_per_blk);
  po_pgs_per_lun : sp.(pgs_per_lun) = sp.(pls_per_lun) * sp.(pgs_per_pl);
  po_pgs_per_ch : sp.(pgs_per_ch) = sp.(luns_per_ch) * sp.(pgs_per_lun);
  po_tt_pgs : sp.(tt_pgs) = sp.(nchs) * sp.(pgs_per_ch);
  po_tt_lines : sp.(tt_lines) = sp.(blks_per_pl) * sp.(pls_per_lun);
  po_tt_luns : sp.(tt_luns) = sp.(luns_per_ch) * sp.(nchs);
  po_blks_per_line : sp.(blks_per_line) = sp.(tt_luns);
  po_pgs_per_line : sp.(pgs_per_line) = sp.(tt_luns) * sp.(pgs_per_blk);
  po_cell : 1 <= sp.(cell_mode) <= 3;
  po_rd_lat : length sp.(pg_rd_lat) = 3%nat /\ length sp.(pg_4kb_rd_lat) = 3%nat;
  po_max_xfer : 0 < sp.(max_ch_xfer_size) < 2147483648;
  po_bandwidth : 31 <= sp.(ch_bandwidth) <= 7811 /\ 31 <= sp.(pcie_bandwidth) <= 7811;
  po_fw_ch_xfer : 0 <= sp.(fw_ch_xfer_lat) < 16777216
}.

Section geometry.
Context `{SsdConfig}.

(** What ssd_config.h promises by its [static_assert]s and by its values. *)
Record config_ok : Prop := {
  co_lba : 0 <= LBA_BITS <= 12;
  co_nchs : 0 < NAND_CHANNELS <= 256;
  co_luns : 0 < LUNS_PER_NAND_CH <= 256;
  co_pls : 0 < PLNS_PER_LUN <= 256;
  co_flash : 0 < FLASH_PAGE_SIZE /\ (4096 | FLASH_PAGE_SIZE);
  co_oneshot : 0 < ONESHOT_PAGE_SIZE < 1073741824 /\ (FLASH_PAGE_SIZE | ONESHOT_PAGE_SIZE);
  co_blks : 0 <= BLKS_PER_PLN <= 65536;
  co_blk_size : 0 <= BLK_SIZE < 274877906944 /\ (BLKS_PER_PLN = 0 -> 0 < BLK_SIZE);
  co_cell : 1 <= CELL_MODE <= 3;
  co_rd_lat : length NAND_READ_LATENCY = 3%nat /\ length NAND_4KB_READ_LATENCY = 3%nat;
  co_max_xfer : 0 < MAX_CH_XFER_SIZE < 2147483648;
  co_bandwidth : 31 <= NAND_CHANNEL_BANDWIDTH <= 7811 /\ 31 <= PCIE_BANDWIDTH <= 7811;
  co_fw_ch_xfer : 0 <= FW_CH_XFER_LATENCY < 16777216
}.

(** The geometry of one of [nparts] partitions, in exact arithmetic. *)
Definition part_chs (nparts : Z) : Z := NAND_CHANNELS `div` nparts.
Definition part_planes (nparts : Z) : Z := PLNS_PER_LUN * LUNS_PER_NAND_CH * part_chs nparts.

Definition part_blk_size (capacity nparts : Z) : Z :=
  if 0 <? BLKS_PER_PLN
  then DIV_ROUND_UP (capacity `div` nparts) (BLKS_PER_PLN * part_planes nparts)
  else BLK_SIZE.

Definition part_blks (capacity nparts : Z) : Z :=
  if 0 <? BLKS_PER_PLN then BLKS_PER_PLN
  else DIV_ROUND_UP (capacity `div` nparts) (BLK_SIZE * part_planes nparts).

Definition part_pgs (capacity nparts : Z) : Z :=
  ONESHOT_PAGE_SIZE `div` 4096 * DIV_ROUND_UP (part_blk_size capacity nparts) ONESHOT_PAGE_SIZE.

Lemma cdiv_ok a b : b <> 0 -> cdiv a b = Ok (a `div` b).
Proof. intros Hb. unfold cdiv. by rewrite (proj2 (Z.eqb_neq b 0) Hb). Qed.

Lemma cmod_ok a b : b <> 0 -> cmod a b = Ok (a `mod` b).
Proof. intros Hb. unfold cmod. by rewrite (proj2 (Z.eqb_neq b 0) Hb). Qed.

Lemma div_round_up64_ok n d :
  0 <= n < 9223372036854775808 -> 0 < d < 9223372036854775808 ->
  div_round_up64 n d = Ok (DIV_ROUND_UP n d).
Proof. intros. unfold div_round_up64, DIV_ROUND_UP. unwrap. by apply cdiv_ok; lia. Qed.

Lemma DIV_ROUND_UP_pos n d : 0 < d -> 0 < n -> 0 < DIV_ROUND_UP n d.
Proof.
  intros. unfold DIV_ROUND_UP. apply Z.div_str_pos. lia.
Qed.

Lemma DIV_ROUND_UP_le n d : 0 < d -> 0 < n -> DIV_ROUND_UP n d <= n.
Proof.
  intros. unfold DIV_ROUND_UP. apply Z.div_le_upper_bound; [lia|]. nia.
Qed.

Lemma sector_split : config_ok ->
  0 < LBA_SIZE <= 4096 /\ 0 < 4096 `div` LBA_SIZE <= 4096 /\ LBA_SIZE * (4096 `div` LBA_SIZE) = 4096.
Proof.
  intros [Hlba _ _ _ _ _ _ _ _ _ _ _ _]. unfold LBA_SIZE.
  assert (exists k, LBA_BITS = k /\ (k = 0 \/ k = 1 \/ k = 2 \/ k = 3 \/ k = 4 \/ k = 5 \/ k = 6 \/
    k = 7 \/ k = 8 \/ k = 9 \/ k = 10 \/ k = 11 \/ k = 12)) as (k & -> & Hk) by (exists LBA_BITS; lia).
  repeat destruct Hk as [->|Hk]; try subst k; (split; [|split]; vm_compute; split; congruence) ||
    (split; [|split]; [vm_compute; split; congruence|vm_compute; split; congruence|reflexivity]).
Qed.

Lemma oneshot_split : config_ok ->
  0 < ONESHOT_PAGE_SIZE `div` 4096 <= 262144 /\ 0 < FLASH_PAGE_SIZE `div` 4096 /\
  0 < ONESHOT_PAGE_SIZE `div` FLASH_PAGE_SIZE /\
  ONESHOT_PAGE_SIZE `div` 4096 = FLASH_PAGE_SIZE `div` 4096 * (ONESHOT_PAGE_SIZE `div` FLASH_PAGE_SIZE) /\
  ONESHOT_PAGE_SIZE `mod` 4096 = 0 /\ FLASH_PAGE_SIZE `mod` 4096 = 0 /\
  ONESHOT_PAGE_SIZE `mod` FLASH_PAGE_SIZE = 0 /\ ONESHOT_PAGE_SIZE = 4096 * (ONESHOT_PAGE_SIZE `div` 4096).
Proof.
  intros Hc. destruct (co_flash Hc) as [Hf [a Ha]]. destruct (co_oneshot Hc) as [Ho [b Hb]].
  assert (0 < a) by lia. assert (0 < b) by nia.
  assert (ONESHOT_PAGE_SIZE = b * a * 4096) as Hab by lia.
  assert (ONESHOT_PAGE_SIZE `div` FLASH_PAGE_SIZE = b) as E1 by (rewrite Hb; apply Z.div_mul; lia).
  assert (ONESHOT_PAGE_SIZE `div` 4096 = b * a) as E2 by (rewrite Hab; apply Z.div_mul; lia).
  assert (FLASH_PAGE_SIZE `div` 4096 = a) as E3 by (rewrite Ha; apply Z.div_mul; lia).
  rewrite E1, E2, E3. repeat split; try nia.
  - rewrite Hab. apply Z.mod_mul. lia.
  - rewrite Ha. apply Z.mod_mul. lia.
  - rewrite Hb. apply Z.mod_mul. lia.
Qed.

(** The size of a partition is small enough for [struct ppa] and for [int]. *)
Record fits (capacity nparts : Z) : Prop := {
  ft_parts : 0 < nparts /\ (nparts | NAND_CHANNELS);
  ft_capacity : 0 < capacity `div` nparts < 4611686018427387904;
  ft_blks : part_blks capacity nparts <= 65536;
  ft_pgs : part_pgs capacity nparts <= 65536;
  ft_total : part_planes nparts * (part_blks capacity nparts * part_pgs capacity nparts) < 2147483648
}.

Lemma part_chs_bounds nparts :
  config_ok -> 0 < nparts -> (nparts | NAND_CHANNELS) ->
  NAND_CHANNELS `mod` nparts = 0 /\ 0 < part_chs nparts <= 256.
Proof.
  intros Hc Hn [k Hk]. pose proof (co_nchs Hc). unfold part_chs.
  rewrite Hk in *. rewrite Z.mod_mul, Z.div_mul by lia. split; [done|]. nia.
Qed.

Lemma part_planes_bounds nparts :
  config_ok -> 0 < nparts -> (nparts | NAND_CHANNELS) ->
  0 < part_planes nparts <= 16777216 /\ 0 < PLNS_PER_LUN * LUNS_PER_NAND_CH <= 65536.
Proof.
  intros Hc Hn Hd. destruct (part_chs_bounds nparts Hc Hn Hd) as [_ ?].
  pose proof (co_pls Hc). pose proof (co_luns Hc). unfold part_planes.
  assert (0 < PLNS_PER_LUN * LUNS_PER_NAND_CH <= 65536) by nia. nia.
Qed.

(** The first part of the computation: the size of a block and the blocks of a
    plane, and that together they cover the partition. *)
Lemma part_blocks_ok capacity nparts :
  config_ok -> fits capacity nparts ->
  0 < part_blk_size capacity nparts < 9223372036854775808 /\ 0 < part_blks capacity nparts /\
  capacity `div` nparts <=
    part_planes nparts * part_blks capacity nparts * part_blk_size capacity nparts /\
  (if 0 <? BLKS_PER_PLN then
     blk_size ← div_round_up64 (capacity `div` nparts)
       (u64 (s32 (s32 (s32 (BLKS_PER_PLN * PLNS_PER_LUN) * LUNS_PER_NAND_CH) * part_chs nparts)));
     Ok (blk_size, BLKS_PER_PLN)
   else
     _ ← nvmev_assert (0 <? BLK_SIZE);
     blks ← div_round_up64 (capacity `div` nparts)
       (u64 (u64 (u64 (BLK_SIZE * PLNS_PER_LUN) * LUNS_PER_NAND_CH) * part_chs nparts));
     Ok (BLK_SIZE, s32 blks))
  = Ok (part_blk_size capacity nparts, part_blks capacity nparts).
Proof.
  intros Hc [[Hn Hd] Hcap Hblks _ Htot].
  destruct (part_planes_bounds nparts Hc Hn Hd) as [Hpl Hpl2].
  destruct (part_chs_bounds nparts Hc Hn Hd) as [_ Hch].
  pose proof (co_pls Hc). pose proof (co_luns Hc). pose proof (co_blks Hc).
  pose proof (co_blk_size Hc) as [Hbs Hbs0]. pose proof (oneshot_split Hc) as (Hos & _).
  unfold part_pgs, part_blk_size, part_blks in *.
  remember (capacity `div` nparts) as cap eqn:Ecap. clear Ecap.
  destruct (Z.ltb_spec 0 BLKS_PER_PLN) as [Hb|Hb].
  - assert (0 < BLKS_PER_PLN * part_planes nparts) as Hpos by (apply Z.mul_pos_pos; lia).
    pose proof (DIV_ROUND_UP_spec cap _ Hpos ltac:(lia)).
    assert (0 < DIV_ROUND_UP cap (BLKS_PER_PLN * part_planes nparts)) as Hsz
      by (apply DIV_ROUND_UP_pos; lia).
    pose proof (DIV_ROUND_UP_le cap _ Hpos ltac:(lia)).
    assert (0 < DIV_ROUND_UP (DIV_ROUND_UP cap (BLKS_PER_PLN * part_planes nparts)) ONESHOT_PAGE_SIZE)
      as Hn1 by (apply DIV_ROUND_UP_pos; [apply Hc|lia]).
    remember (DIV_ROUND_UP cap _) as bs. remember (DIV_ROUND_UP bs _) as nos.
    assert (BLKS_PER_PLN * part_planes nparts < 2147483648) as Hlt by nia.
    assert (0 < BLKS_PER_PLN * PLNS_PER_LUN <= 16777216) by nia.
    assert (0 < BLKS_PER_PLN * PLNS_PER_LUN * LUNS_PER_NAND_CH * part_chs nparts < 2147483648)
      by (unfold part_planes in *; nia).
    assert (0 < BLKS_PER_PLN * PLNS_PER_LUN * LUNS_PER_NAND_CH < 2147483648) by nia.
    split; [lia|]. split; [lia|]. split; [lia|]. unwrap.
    rewrite div_round_up64_ok by lia. subst bs. simpl. do 3 f_equal. unfold part_planes. lia.
  - assert (0 < BLK_SIZE) as Hbs1 by lia.
    assert (0 < BLK_SIZE * part_planes nparts <= BLK_SIZE * 16777216) as Hpos
      by (split; [apply Z.mul_pos_pos; lia|apply Z.mul_le_mono_nonneg_l; lia]).
    pose proof (DIV_ROUND_UP_spec cap (BLK_SIZE * part_planes nparts) (proj1 Hpos) ltac:(lia)).
    assert (0 < DIV_ROUND_UP cap (BLK_SIZE * part_planes nparts)) as Hsz by (apply DIV_ROUND_UP_pos; lia).
    split; [lia|]. split; [lia|]. split; [lia|].
    rewrite (proj2 (Z.ltb_lt 0 BLK_SIZE)) by lia. simpl.
    assert (0 < BLK_SIZE * PLNS_PER_LUN <= BLK_SIZE * 256)
      by (split; [apply Z.mul_pos_pos; lia|apply Z.mul_le_mono_nonneg_l; lia]).
    assert (0 < BLK_SIZE * (PLNS_PER_LUN * LUNS_PER_NAND_CH) <= BLK_SIZE * 65536)
      by (split; [apply Z.mul_pos_pos; lia|apply Z.mul_le_mono_nonneg_l; lia]).
    assert (BLK_SIZE * (PLNS_PER_LUN * LUNS_PER_NAND_CH) * part_chs nparts = BLK_SIZE * part_planes nparts)
      as E by (unfold part_planes; lia).
    rewrite (u64_small (BLK_SIZE * PLNS_PER_LUN)), <- Z.mul_assoc by lia.
    rewrite (u64_small (BLK_SIZE * (PLNS_PER_LUN * LUNS_PER_NAND_CH))), E by lia.
    rewrite u64_small, div_round_up64_ok by lia. simpl. by unwrap.
Qed.

(** What [ssd_init_params] returns: a sound geometry of the expected size whose
    pages cover the capacity. *)
Definition geometry_of (capacity nparts : Z) (sp : ssdparams) : Prop :=
  params_ok sp /\ sp.(nchs) = part_chs nparts /\ sp.(luns_per_ch) = LUNS_PER_NAND_CH /\
  sp.(pls_per_lun) = PLNS_PER_LUN /\ sp.(blks_per_pl) = part_blks capacity nparts /\
  sp.(pgs_per_blk) = part_pgs capacity nparts /\
  sp.(secsz) = LBA_SIZE /\ sp.(write_buffer_size) = GLOBAL_WB_SIZE /\
  capacity `div` nparts <= sp.(tt_pgs) * sp.(pgsz).

Lemma factor_bound a b n : 0 < a -> 0 < a * b <= n -> 0 < b <= n.
Proof. nia. Qed.

Lemma product_bound a b n : 0 < a -> 0 < b -> a * b < n -> 0 < b < n.
Proof. nia. Qed.

Lemma geometry_bounds C L P B G :
  0 < C <= 256 -> 0 < L <= 256 -> 0 < P <= 256 -> 0 < B <= 65536 -> 0 < G <= 65536 ->
  P * L * C * (B * G) < 2147483648 ->
  0 < B * G < 2147483648 /\ 0 < P * (B * G) < 2147483648 /\
  0 < L * (P * (B * G)) < 2147483648 /\ 0 < C * (L * (P * (B * G))) < 2147483648 /\
  0 < B * P <= 16777216 /\ 0 < L * C <= 65536 /\ 0 < L * C * G <= 4294967296.
Proof.
  intros HC HL HP HB HG Ht.
  assert (0 < B * G) as H1 by (apply Z.mul_pos_pos; lia).
  assert (0 < P * (B * G)) as H2 by (apply Z.mul_pos_pos; lia).
  assert (0 < L * (P * (B * G))) as H3 by (apply Z.mul_pos_pos; lia).
  assert (0 < C * (L * (P * (B * G))) < 2147483648) as H4 by (split; [apply Z.mul_pos_pos; lia|lia]).
  assert (0 < L * (P * (B * G)) < 2147483648) as H5 by (apply (product_bound C); lia).
  assert (0 < P * (B * G) < 2147483648) as H6 by (apply (product_bound L); lia).
  assert (0 < B * G < 2147483648) as H7 by (apply (product_bound P); lia).
  assert (0 < L * C <= 256 * 256) by (split; [apply Z.mul_pos_pos; lia|apply Z.mul_le_mono_nonneg; lia]).
  repeat (split; [lia|]). split; [|split; [lia|]].
  - split; [apply Z.mul_pos_pos; lia|]. apply (Z.mul_le_mono_nonneg B 65536 P 256); lia.
  - split; [apply Z.mul_pos_pos; lia|]. apply (Z.mul_le_mono_nonneg (L * C) 65536 G 65536); lia.
Qed.

Lemma part_pgs_cover capacity nparts :
  config_ok -> fits capacity nparts ->
  0 < DIV_ROUND_UP (part_blk_size capacity nparts) ONESHOT_PAGE_SIZE <= 65536 /\
  0 < part_pgs capacity nparts <= 65536 /\
  part_blk_size capacity nparts <= 4096 * part_pgs capacity nparts.
Proof.
  intros Hc Hf. destruct (part_blocks_ok capacity nparts Hc Hf) as (Hbs & _).
  pose proof (ft_pgs _ _ Hf) as Hpgs. destruct (oneshot_split Hc) as (Hos & _ & _ & _ & _ & _ & _ & Eos).
  unfold part_pgs in *. pose proof (proj1 (co_oneshot Hc)).
  assert (0 < DIV_ROUND_UP (part_blk_size capacity nparts) ONESHOT_PAGE_SIZE)
    by (apply DIV_ROUND_UP_pos; lia).
  destruct (DIV_ROUND_UP_spec (part_blk_size capacity nparts) ONESHOT_PAGE_SIZE); [lia..|].
  remember (DIV_ROUND_UP _ _) as n. remember (ONESHOT_PAGE_SIZE `div` 4096) as os.
  split; [nia|]. split; [nia|]. rewrite Eos in *. lia.
Qed.

Lemma ssd_init_params_ok capacity nparts :
  config_ok -> fits capacity nparts ->
  okp (ssd_init_params capacity nparts) (geometry_of capacity nparts).
Proof.
  intros Hc Hf. destruct (ft_parts _ _ Hf) as [Hn Hd].
  destruct (part_chs_bounds nparts Hc Hn Hd) as [Hmod Hch].
  destruct (part_planes_bounds nparts Hc Hn Hd) as [Hpl _].
  destruct (part_blocks_ok capacity nparts Hc Hf) as (Hbs & Hblks & Hcover & Eblks).
  destruct (part_pgs_cover capacity nparts Hc Hf) as (Hnos & Hpgs & Hpgs2).
  pose proof (ft_blks _ _ Hf) as Hblks2. pose proof (ft_total _ _ Hf) as Htot.
  destruct (sector_split Hc) as (Hsec & Hspp & Esec).
  destruct (oneshot_split Hc) as (Hos & Hfl & Hfo & Eof & M1 & M2 & M3 & Eos).
  pose proof (co_luns Hc). pose proof (co_pls Hc). pose proof (proj1 (co_oneshot Hc)).
  pose proof (proj1 (co_flash Hc)).
  unfold ssd_init_params.
  rewrite (cdiv_ok 4096), bind_Ok, (cmod_ok NAND_CHANNELS), bind_Ok by lia. rewrite Hmod. simpl.
  rewrite (cdiv_ok NAND_CHANNELS), bind_Ok by lia. fold (part_chs nparts).
  rewrite (s32_small (part_chs nparts)) by lia.
  rewrite (cdiv_ok capacity), bind_Ok by lia. rewrite Eblks, bind_Ok. simpl.
  rewrite (s32_small LBA_SIZE) by lia. rewrite Esec, (s32_small 4096) by lia.
  rewrite !(cmod_ok _ 4096), !bind_Ok by lia. rewrite M1, M2. simpl.
  rewrite (cmod_ok ONESHOT_PAGE_SIZE), bind_Ok, M3 by lia. simpl.
  rewrite div_round_up64_ok, !bind_Ok by lia.
  rewrite (cdiv_ok ONESHOT_PAGE_SIZE), bind_Ok by lia.
  unfold part_pgs in *. unfold part_planes in *.
  remember (DIV_ROUND_UP _ _) as nos. remember (ONESHOT_PAGE_SIZE `div` 4096) as os.
  remember (part_blks capacity nparts) as B. remember (part_chs nparts) as C.
  remember (4096 `div` LBA_SIZE) as spp. remember (ONESHOT_PAGE_SIZE `div` FLASH_PAGE_SIZE) as fo.
  remember (FLASH_PAGE_SIZE `div` 4096) as fl.
  rewrite (s32_small nos) by lia. remember (os * nos) as G.
  assert (fl * (fo * nos) = G) as Eflash by (rewrite HeqG, Eof; lia).
  assert (0 < fo * nos <= 65536) by (apply (factor_bound fl); lia).
  destruct (geometry_bounds C LUNS_PER_NAND_CH PLNS_PER_LUN B G) as (?&?&?&?&?&?&?); [lia..|].
  assert (0 < spp * G <= 4096 * 65536)
    by (split; [apply Z.mul_pos_pos; lia|apply Z.mul_le_mono_nonneg; lia]).
  rewrite (s32_small G), (s32_small (fo * nos)), (s32_small (G * B)), (Z.mul_comm G B),
    (s32_small (B * PLNS_PER_LUN)), (s32_small (LUNS_PER_NAND_CH * C)) by lia.
  rewrite (u64_small (B * G)), (Z.mul_comm (B * G) PLNS_PER_LUN), (u64_small (PLNS_PER_LUN * (B * G))),
    (Z.mul_comm (PLNS_PER_LUN * (B * G))), (u64_small (LUNS_PER_NAND_CH * (PLNS_PER_LUN * (B * G)))),
    (Z.mul_comm (LUNS_PER_NAND_CH * (PLNS_PER_LUN * (B * G)))),
    (u64_small (C * (LUNS_PER_NAND_CH * (PLNS_PER_LUN * (B * G))))),
    (u64_small (LUNS_PER_NAND_CH * C)), (u64_small (LUNS_PER_NAND_CH * C * G)),
    (u64_small (B * PLNS_PER_LUN)) by lia.
  unfold geometry_of, part_pgs; simpl. rewrite <- Heqos, <- Heqnos, <- HeqB, <- HeqC, <- HeqG.
  split; [split; simpl; try done; try lia; try apply Hc|repeat split; try done; nia].
  exists fo. lia.
Qed.
End geometry.

(** [known]: a closed inequality, or a closed divisibility with its quotient. *)
Ltac known := first [reflexivity | vm_compute; split; congruence | vm_compute; congruence].

Lemma samsung_970pro_ok : config_ok (H := samsung_970pro).
Proof.
  split; simpl; try (split; known); try known.
  split; [known|]. by exists 8.
Qed.

Lemma zns_prototype_ok : config_ok (H := zns_prototype).
Proof.
  split; simpl; try (split; known); try known.
  - split; [known|]. by exists 16.
  - split; [split; known|]. by exists 2.
Qed.

Lemma wd_zn540_ok : config_ok (H := wd_zn540).
Proof.
  split; simpl; try (split; known); try known.
  - split; [known|]. by exists 8.
  - split; [split; known|]. by exists 3.
Qed.
