(* ===== verification/Ssd.v ===== *)
(** * The NAND device and its timing (ssd.c, ssd.h)

    The tree channel / die (lun) / plane / block / page of [struct ssd], the
    write buffer, and the functions that advance the clocks of the device.  A
    pointer to a node of the tree is its path, here the [ppa] that the code
    computes it from: [get_blk] reads the node, [mod_blk] writes it in place.

    The PCIe link and the write buffer are heap objects that the partitions of
    a namespace share; a [struct ssd] holds pointers to them.  [hw] is the
    store of these objects together with the clock and the trace of the calls
    to [schedule_internal_operation] (io.c), which is where a released write
    buffer goes. *)

From stdpp Require Import prelude list.
From Stdlib Require Import ZArith Lia.
From S2P Require Import Prelude ChannelModel SsdConfig.

(** The kernel's clocks: the [n]-th reading of the device. *)
Class Clock := {
  cpu_clock : nat -> Z;
  local_clock : nat -> Z;
  cpu_clock_u64 n : 0 <= cpu_clock n < 18446744073709551616;
  local_clock_u64 n : 0 <= local_clock n < 18446744073709551616
}.

Definition NAND_READ : Z := 0.
Definition NAND_WRITE : Z := 1.
Definition NAND_ERASE : Z := 2.
Definition NAND_NOP : Z := 3.

Definition USER_IO : Z := 0.
Definition GC_IO : Z := 1.

Definition SEC_FREE : Z := 0.
Definition PG_FREE : Z := 0.
Definition PG_INVALID : Z := 1.
Definition PG_VALID : Z := 2.

(** ** Physical addresses *)

Definition PAGE_BITS : Z := 16.
Definition BLK_BITS : Z := 16.
Definition PL_BITS : Z := 8.
Definition LUN_BITS : Z := 8.
Definition CH_BITS : Z := 8.
Definition RSB_BITS : Z := 64 - (BLK_BITS + PAGE_BITS + PL_BITS + LUN_BITS + CH_BITS).

(** The bit fields [g] of the union; [ppa_u64] is its member [ppa] and
    [blk_in_ssd] the field of its view [h]. *)
Record ppa := Ppa { p_pg : Z; p_blk : Z; p_pl : Z; p_lun : Z; p_ch : Z; p_rsv : Z }.

#[global] Instance ppa_eq_dec : EqDecision ppa.
Proof. solve_decision. Defined.

Definition ppa_u64 (p : ppa) : Z :=
  p.(p_pg) + Z.shiftl p.(p_blk) 16 + Z.shiftl p.(p_pl) 32 + Z.shiftl p.(p_lun) 40 +
  Z.shiftl p.(p_ch) 48 + Z.shiftl p.(p_rsv) 56.

Definition blk_in_ssd (p : ppa) : Z :=
  p.(p_blk) + Z.shiftl p.(p_pl) 16 + Z.shiftl p.(p_lun) 24 + Z.shiftl p.(p_ch) 32.

(** An assignment to the member [ppa] of the union. *)
Definition ppa_of_u64 (x : Z) : ppa :=
  {| p_pg := x `mod` 65536; p_blk := Z.shiftr x 16 `mod` 65536; p_pl := Z.shiftr x 32 `mod` 256;
     p_lun := Z.shiftr x 40 `mod` 256; p_ch := Z.shiftr x 48 `mod` 256;
     p_rsv := Z.shiftr x 56 `mod` 256 |}.

Definition UNMAPPED_PPA : Z := 18446744073709551615.
Definition INVALID_LPN : Z := 18446744073709551615.

(** Assignments to the fields truncate to their width. *)
Definition set_pg (p : ppa) (x : Z) : ppa :=
  Ppa (x `mod` 65536) p.(p_blk) p.(p_pl) p.(p_lun) p.(p_ch) p.(p_rsv).
Definition set_ch (p : ppa) (x : Z) : ppa :=
  Ppa p.(p_pg) p.(p_blk) p.(p_pl) p.(p_lun) (x `mod` 256) p.(p_rsv).
Definition set_lun (p : ppa) (x : Z) : ppa :=
  Ppa p.(p_pg) p.(p_blk) p.(p_pl) (x `mod` 256) p.(p_ch) p.(p_rsv).
Definition set_pl (p : ppa) (x : Z) : ppa :=
  Ppa p.(p_pg) p.(p_blk) (x `mod` 256) p.(p_lun) p.(p_ch) p.(p_rsv).
Definition set_blk (p : ppa) (x : Z) : ppa :=
  Ppa p.(p_pg) (x `mod` 65536) p.(p_pl) p.(p_lun) p.(p_ch) p.(p_rsv).

(** ** The tree *)

Record nand_page := NandPage { np_sec : list Z; np_nsecs : Z; np_status : Z }.

Record nand_block := NandBlock {
  nb_pg : list nand_page; nb_npgs : Z; nb_ipc : Z; nb_vpc : Z; nb_erase_cnt : Z; nb_wp : Z
}.

Record nand_plane := NandPlane { pn_blk : list nand_block; pn_nblks : Z }.

Record nand_lun := NandLun {
  nl_pl : list nand_plane; nl_npls : Z; nl_next_lun_avail_time : Z; nl_busy : bool; nl_gc_endtime : Z
}.

Record ssd_channel := SsdChannel {
  ch_lun : list nand_lun; ch_nluns : Z; ch_gc_endtime : Z; ch_perf_model : channel_model
}.

(** [ssd_pcie] and [buffer] are behind pointers: an index of the store, or
    [None] for [NULL]. *)
Record ssd := Ssd {
  sd_sp : ssdparams;
  sd_ch : list ssd_channel;
  sd_pcie : option Z;
  sd_write_buffer : option Z;
  sd_cpu_nr_dispatcher : Z
}.

Record nand_cmd := NandCmd {
  nc_type : Z; nc_cmd : Z; nc_xfer_size : Z; nc_stime : Z; nc_interleave_pci_dma : bool; nc_ppa : ppa
}.

(** The lock of a buffer is taken and released inside each function that uses
    it, so each function is one atomic step. *)
Record buffer := Buffer { bf_size : Z; bf_remaining : Z }.

(** A call of [schedule_internal_operation(sqid, nsecs_target, buf, size)]. *)
Record internal_op := InternalOp { io_sqid : Z; io_nsecs_target : Z; io_buffer : option Z; io_buffs : Z }.

Record hw := Hw {
  hw_tick : nat;
  hw_pcie : list (option channel_model);
  hw_wbuf : list (option buffer);
  hw_sched : list internal_op
}.

(** ** Pointers into the store *)

(** [*p] of a pointer to an object that [kfree] may have released. *)
Definition deref {A} (l : list (option A)) (p : option Z) : res A :=
  i ← of_opt NullDeref p;
  o ← aget l i;
  of_opt UseAfterFree o.

Definition store {A} (l : list (option A)) (p : option Z) (x : A) : res (list (option A)) :=
  _ ← deref l p; i ← of_opt NullDeref p; Ok (<[i := Some x]> l).

(** [kfree(p)]: nothing for [NULL], a fault for what is freed already. *)
Definition kfree {A} (l : list (option A)) (p : option Z) : res (list (option A)) :=
  match p with
  | None => Ok l
  | Some i => _ ← deref l p; Ok (<[i := None]> l)
  end.

(** ** The write buffer *)

Definition buffer_init (size : Z) : buffer := {| bf_size := size; bf_remaining := size |}.

Definition buffer_allocate (buf : buffer) (size : Z) : res (buffer * Z) :=
  _ ← nvmev_assert (size <=? buf.(bf_size));
  let size := if buf.(bf_remaining) <? size then 0 else size in
  Ok (Buffer buf.(bf_size) (u64 (buf.(bf_remaining) - size)), u32 size).

Definition buffer_release (buf : buffer) (size : Z) : buffer * bool :=
  (Buffer buf.(bf_size) (u64 (buf.(bf_remaining) + size)), true).

Definition buffer_refill (buf : buffer) : buffer := Buffer buf.(bf_size) buf.(bf_size).

(** ** Initialisation

    [kmalloc] is assumed to succeed, as the code does; a field it leaves
    unwritten is 0 here. *)

Definition ssd_init_nand_page (spp : ssdparams) : nand_page :=
  {| np_nsecs := spp.(secs_per_pg); np_sec := zrepeat spp.(secs_per_pg) SEC_FREE; np_status := PG_FREE |}.

Definition ssd_init_nand_blk (spp : ssdparams) : nand_block :=
  {| nb_npgs := spp.(pgs_per_blk); nb_pg := zrepeat spp.(pgs_per_blk) (ssd_init_nand_page spp);
     nb_ipc := 0; nb_vpc := 0; nb_erase_cnt := 0; nb_wp := 0 |}.

Definition ssd_init_nand_plane (spp : ssdparams) : nand_plane :=
  {| pn_nblks := spp.(blks_per_pl); pn_blk := zrepeat spp.(blks_per_pl) (ssd_init_nand_blk spp) |}.

Definition ssd_init_nand_lun (spp : ssdparams) : nand_lun :=
  {| nl_npls := spp.(pls_per_lun); nl_pl := zrepeat spp.(pls_per_lun) (ssd_init_nand_plane spp);
     nl_next_lun_avail_time := 0; nl_busy := false; nl_gc_endtime := 0 |}.

Section ssd.
Context `{ChanConfig}.

Definition add_xfer_lat (ch : channel_model) (x : Z) : channel_model :=
  {| cur_time := ch.(cur_time); head := ch.(head); valid_len := ch.(valid_len);
     max_credits := ch.(max_credits); command_credits := ch.(command_credits);
     xfer_lat := u32 (ch.(xfer_lat) + x); avail_credits := ch.(avail_credits) |}.

Definition ssd_init_ch (spp : ssdparams) : res ssd_channel :=
  perf_model ← chmodel_init spp.(ch_bandwidth);
  Ok {| ch_nluns := spp.(luns_per_ch); ch_lun := zrepeat spp.(luns_per_ch) (ssd_init_nand_lun spp);
        ch_gc_endtime := 0;
        ch_perf_model := add_xfer_lat perf_model
          (u64 (spp.(fw_ch_xfer_lat) * UNIT_XFER_SIZE) `div` KB 4) |}.

Definition ssd_init_pcie (spp : ssdparams) : res channel_model := chmodel_init spp.(pcie_bandwidth).

Definition ssd_init (spp : ssdparams) (cpu_nr_dispatcher : Z) (h : hw) : res (ssd * hw) :=
  ch ← rfold (fun _ l => c ← ssd_init_ch spp; Ok (l ++ [c])) (zrange 0 spp.(nchs)) [];
  pcie ← ssd_init_pcie spp;
  Ok ({| sd_sp := spp; sd_ch := ch; sd_cpu_nr_dispatcher := cpu_nr_dispatcher;
         sd_pcie := Some (zlen h.(hw_pcie)); sd_write_buffer := Some (zlen h.(hw_wbuf)) |},
      {| hw_tick := h.(hw_tick); hw_sched := h.(hw_sched);
         hw_pcie := h.(hw_pcie) ++ [Some pcie];
         hw_wbuf := h.(hw_wbuf) ++ [Some (buffer_init spp.(write_buffer_size))] |}).

(** The tree of an [ssd] is freed with it; what can go wrong is the release of
    the shared objects. *)
Definition ssd_remove (s : ssd) (h : hw) : res hw :=
  wbuf ← kfree h.(hw_wbuf) s.(sd_write_buffer);
  pcie ← (match s.(sd_pcie) with
          | Some _ => kfree h.(hw_pcie) s.(sd_pcie)
          | None => Ok h.(hw_pcie)
          end);
  Ok {| hw_tick := h.(hw_tick); hw_sched := h.(hw_sched); hw_pcie := pcie; hw_wbuf := wbuf |}.

(** ** Nodes of the tree *)

Definition get_ch (s : ssd) (p : ppa) : res ssd_channel := aget s.(sd_ch) p.(p_ch).
Definition get_lun (s : ssd) (p : ppa) : res nand_lun := c ← get_ch s p; aget c.(ch_lun) p.(p_lun).
Definition get_pl (s : ssd) (p : ppa) : res nand_plane := l ← get_lun s p; aget l.(nl_pl) p.(p_pl).
Definition get_blk (s : ssd) (p : ppa) : res nand_block := l ← get_pl s p; aget l.(pn_blk) p.(p_blk).
Definition get_pg (s : ssd) (p : ppa) : res nand_page := b ← get_blk s p; aget b.(nb_pg) p.(p_pg).

Definition get_cell (s : ssd) (p : ppa) : res Z :=
  q ← cdiv p.(p_pg) s.(sd_sp).(pgs_per_flashpg);
  cmod q s.(sd_sp).(cell_mode).

Definition mod_ch (p : ppa) (f : ssd_channel -> res ssd_channel) (s : ssd) : res ssd :=
  l ← amod s.(sd_ch) p.(p_ch) f;
  Ok (Ssd s.(sd_sp) l s.(sd_pcie) s.(sd_write_buffer) s.(sd_cpu_nr_dispatcher)).

Definition mod_lun (p : ppa) (f : nand_lun -> res nand_lun) : ssd -> res ssd :=
  mod_ch p (fun c => l ← amod c.(ch_lun) p.(p_lun) f;
    Ok (SsdChannel l c.(ch_nluns) c.(ch_gc_endtime) c.(ch_perf_model))).

Definition mod_pl (p : ppa) (f : nand_plane -> res nand_plane) : ssd -> res ssd :=
  mod_lun p (fun n => l ← amod n.(nl_pl) p.(p_pl) f;
    Ok (NandLun l n.(nl_npls) n.(nl_next_lun_avail_time) n.(nl_busy) n.(nl_gc_endtime))).

Definition mod_blk (p : ppa) (f : nand_block -> res nand_block) : ssd -> res ssd :=
  mod_pl p (fun n => l ← amod n.(pn_blk) p.(p_blk) f; Ok (NandPlane l n.(pn_nblks))).

Definition mod_pg (p : ppa) (f : nand_page -> res nand_page) : ssd -> res ssd :=
  mod_blk p (fun b => l ← amod b.(nb_pg) p.(p_pg) f;
    Ok (NandBlock l b.(nb_npgs) b.(nb_ipc) b.(nb_vpc) b.(nb_erase_cnt) b.(nb_wp))).

Definition set_lun_avail (p : ppa) (t : Z) : ssd -> res ssd :=
  mod_lun p (fun n => Ok (NandLun n.(nl_pl) n.(nl_npls) t n.(nl_busy) n.(nl_gc_endtime))).

Definition set_lun_gc_endtime (p : ppa) (t : Z) : ssd -> res ssd :=
  mod_lun p (fun n => Ok (NandLun n.(nl_pl) n.(nl_npls) n.(nl_next_lun_avail_time) n.(nl_busy) t)).

Definition set_perf_model (p : ppa) (m : channel_model) : ssd -> res ssd :=
  mod_ch p (fun c => Ok (SsdChannel c.(ch_lun) c.(ch_nluns) c.(ch_gc_endtime) m)).
End ssd.

(** ** The clocks of the device *)
Section timing.
Context `{ChanConfig, Clock}.

Definition tick (h : hw) : hw * Z :=
  (Hw (S h.(hw_tick)) h.(hw_pcie) h.(hw_wbuf) h.(hw_sched), cpu_clock h.(hw_tick)).

Definition __get_ioclock (h : hw) : hw * Z := tick h.

(** [chmodel_request] with its own reading of the clock. *)
Definition request (ch : channel_model) (request_time len : Z) (h : hw) :
    res (channel_model * hw * Z) :=
  let '(h, now) := tick h in
  r ← chmodel_request now ch request_time len;
  Ok (r.1, h, r.2).

Definition ssd_advance_pcie (s : ssd) (request_time len : Z) (h : hw) : res (hw * Z) :=
  perf_model ← deref h.(hw_pcie) s.(sd_pcie);
  '(perf_model, h, t) ← request perf_model request_time len h;
  l ← store h.(hw_pcie) s.(sd_pcie) perf_model;
  Ok (Hw h.(hw_tick) l h.(hw_wbuf) h.(hw_sched), t).

Definition ssd_advance_write_buffer (s : ssd) (request_time len : Z) (h : hw) : res (hw * Z) :=
  let spp := s.(sd_sp) in
  let nsecs_latest := u64 (request_time + spp.(fw_wbuf_lat0)) in
  units ← div_round_up64 len (KB 4);
  let nsecs_latest := u64 (nsecs_latest + u64 (spp.(fw_wbuf_lat1) * units)) in
  ssd_advance_pcie s nsecs_latest len h.

(** The state of the transfer loop of a NAND read: the times are set by the
    first iteration. *)
Record xfer := Xfer {
  x_model : channel_model; x_hw : hw; x_remaining : Z; x_stime : Z;
  x_etime : option Z; x_completed : option Z
}.

Definition xfer_step (s : ssd) (interleave : bool) (x : xfer) : res (xfer + xfer) :=
  if x.(x_remaining) =? 0 then Ok (inr x) else
  let xfer_size := Z.min x.(x_remaining) (u64 s.(sd_sp).(max_ch_xfer_size)) in
  '(model, h, chnl_etime) ← request x.(x_model) x.(x_stime) xfer_size x.(x_hw);
  r ← (if interleave then ssd_advance_pcie s chnl_etime xfer_size h else Ok (h, chnl_etime));
  Ok (inl {| x_model := model; x_hw := r.1; x_remaining := u64 (x.(x_remaining) - xfer_size);
             x_stime := chnl_etime; x_etime := Some chnl_etime; x_completed := Some r.2 |}).

Definition ssd_advance_nand (s : ssd) (ncmd : nand_cmd) (h : hw) : res (ssd * hw * Z) :=
  let '(h, cmd_stime) :=
    if ncmd.(nc_stime) =? 0 then __get_ioclock h else (h, ncmd.(nc_stime)) in
  let p := ncmd.(nc_ppa) in
  if ppa_u64 p =? UNMAPPED_PPA then Ok (s, h, cmd_stime) else
  let spp := s.(sd_sp) in
  ch ← get_ch s p;
  lun ← get_lun s p;
  cell ← get_cell s p;
  let nand_stime := Z.max lun.(nl_next_lun_avail_time) cmd_stime in
  if ncmd.(nc_cmd) =? NAND_READ then
    lat ← (if ncmd.(nc_xfer_size) =? 4096 then aget spp.(pg_4kb_rd_lat) cell
           else aget spp.(pg_rd_lat) cell);
    let nand_etime := u64 (nand_stime + lat) in
    x ← rloop (Z.to_nat ncmd.(nc_xfer_size) + 1) (xfer_step s ncmd.(nc_interleave_pci_dma))
          (Xfer ch.(ch_perf_model) h ncmd.(nc_xfer_size) nand_etime None None);
    s ← set_perf_model p x.(x_model) s;
    chnl_etime ← of_opt Uninit x.(x_etime);
    s ← set_lun_avail p chnl_etime s;
    completed_time ← of_opt Uninit x.(x_completed);
    Ok (s, x.(x_hw), completed_time)
  else if ncmd.(nc_cmd) =? NAND_WRITE then
    '(model, h, chnl_etime) ← request ch.(ch_perf_model) nand_stime ncmd.(nc_xfer_size) h;
    s ← set_perf_model p model s;
    let nand_etime := u64 (chnl_etime + spp.(pg_wr_lat)) in
    s ← set_lun_avail p nand_etime s;
    Ok (s, h, nand_etime)
  else if ncmd.(nc_cmd) =? NAND_ERASE then
    let nand_etime := u64 (nand_stime + spp.(blk_er_lat)) in
    s ← set_lun_avail p nand_etime s;
    Ok (s, h, nand_etime)
  else if ncmd.(nc_cmd) =? NAND_NOP then
    s ← set_lun_avail p nand_stime s;
    Ok (s, h, nand_stime)
  else Ok (s, h, 0).

Definition ssd_next_idle_time (s : ssd) (h : hw) : res (hw * Z) :=
  let spp := s.(sd_sp) in
  let '(h, latest) := __get_ioclock h in
  latest ← rfold (fun i latest =>
    ch ← aget s.(sd_ch) i;
    rfold (fun j latest =>
      lun ← aget ch.(ch_lun) j;
      Ok (Z.max latest lun.(nl_next_lun_avail_time))) (zrange 0 spp.(luns_per_ch)) latest)
    (zrange 0 spp.(nchs)) latest;
  Ok (h, latest).
End timing.

(** ** The shape of the tree *)

(** What [ssd_init] builds and nothing changes: the size of every array. *)
Definition page_shape (sp : ssdparams) (g : nand_page) : Prop := g.(np_nsecs) = sp.(secs_per_pg).

Definition blk_shape (sp : ssdparams) (b : nand_block) : Prop :=
  zlen b.(nb_pg) = sp.(pgs_per_blk) /\ b.(nb_npgs) = sp.(pgs_per_blk) /\
  Forall (page_shape sp) b.(nb_pg).

Definition pl_shape (sp : ssdparams) (n : nand_plane) : Prop :=
  zlen n.(pn_blk) = sp.(blks_per_pl) /\ Forall (blk_shape sp) n.(pn_blk).

Definition lun_shape (sp : ssdparams) (n : nand_lun) : Prop :=
  zlen n.(nl_pl) = sp.(pls_per_lun) /\ Forall (pl_shape sp) n.(nl_pl).

Definition ch_shape `{ChanConfig} (sp : ssdparams) (c : ssd_channel) : Prop :=
  zlen c.(ch_lun) = sp.(luns_per_ch) /\ Forall (lun_shape sp) c.(ch_lun) /\ chan_ok c.(ch_perf_model).

Definition ssd_shape `{ChanConfig} (s : ssd) : Prop :=
  zlen s.(sd_ch) = s.(sd_sp).(nchs) /\ Forall (ch_shape s.(sd_sp)) s.(sd_ch).

(** An address inside the device. *)
Definition in_dev (sp : ssdparams) (p : ppa) : Prop :=
  0 <= p.(p_ch) < sp.(nchs) /\ 0 <= p.(p_lun) < sp.(luns_per_ch) /\
  0 <= p.(p_pl) < sp.(pls_per_lun) /\ 0 <= p.(p_blk) < sp.(blks_per_pl) /\
  0 <= p.(p_pg) < sp.(pgs_per_blk) /\ p.(p_rsv) = 0.

(** The block at a path, as a total lookup. *)
Definition pl_at (n : nand_lun) (i : Z) : option nand_plane := n.(nl_pl) !! i.
Definition lun_at (s : ssd) (c l : Z) : option nand_lun :=
  ch ← s.(sd_ch) !! c; ch.(ch_lun) !! l.
Definition blk_at (s : ssd) (c l pl b : Z) : option nand_block :=
  n ← lun_at s c l; p ← n.(nl_pl) !! pl; p.(pn_blk) !! b.

(** [s'] is [s] up to its clocks: times of the dies and channel models. *)
Definition same_nand (s s' : ssd) : Prop :=
  s'.(sd_sp) = s.(sd_sp) /\ s'.(sd_pcie) = s.(sd_pcie) /\ s'.(sd_write_buffer) = s.(sd_write_buffer) /\
  s'.(sd_cpu_nr_dispatcher) = s.(sd_cpu_nr_dispatcher) /\
  forall c l pl b, blk_at s' c l pl b = blk_at s c l pl b.

(** [s'] is [s] with the block at [p] replaced. *)
Definition blk_replaced (s s' : ssd) (p : ppa) (b : nand_block) : Prop :=
  s'.(sd_sp) = s.(sd_sp) /\ s'.(sd_pcie) = s.(sd_pcie) /\ s'.(sd_write_buffer) = s.(sd_write_buffer) /\
  s'.(sd_cpu_nr_dispatcher) = s.(sd_cpu_nr_dispatcher) /\
  forall c l pl k, blk_at s' c l pl k =
    if decide (c = p.(p_ch) /\ l = p.(p_lun) /\ pl = p.(p_pl) /\ k = p.(p_blk)) then Some b
    else blk_at s c l pl k.

#[global] Instance same_nand_preorder : PreOrder same_nand.
Proof.
  split; [done|]. intros a b c (H1 & H2 & H3 & H4 & H5) (K1 & K2 & K3 & K4 & K5).
  repeat split; congruence.
Qed.

Lemma in_dev_not_unmapped sp p : params_ok sp -> in_dev sp p -> ppa_u64 p <> UNMAPPED_PPA.
Proof.
  intros Hp (H1 & H2 & H3 & H4 & H5 & H6). pose proof (po_nchs _ Hp). pose proof (po_luns _ Hp).
  pose proof (po_pls _ Hp). pose proof (po_blks _ Hp). pose proof (po_pgs _ Hp).
  unfold ppa_u64, UNMAPPED_PPA. rewrite H6, !Z.shiftl_mul_pow2 by lia.
  change (2 ^ 16) with 65536. change (2 ^ 32) with 4294967296.
  change (2 ^ 40) with 1099511627776. change (2 ^ 48) with 281474976710656. lia.
Qed.

Section tree.
Context `{ChanConfig}.

Lemma Forall_zlookup {A} (P : A -> Prop) (l : list A) i x : Forall P l -> l !! i = Some x -> P x.
Proof.
  intros HF Hx. rewrite Forall_forall in HF. apply HF, elem_of_zlookup. by exists i.
Qed.

Lemma Forall_zinsert {A} (P : A -> Prop) (l : list A) i x : Forall P l -> P x -> Forall P (<[i := x]> l).
Proof. intros HF Hx. unfold insert, zinsert. case_decide; [by apply Forall_insert|done]. Qed.

Lemma amod_Ok {A} (l : list A) i x y f : l !! i = Some x -> f x = Ok y -> amod l i f = Ok (<[i := y]> l).
Proof. intros Hx Hf. unfold amod. rewrite (aget_Some _ _ _ Hx). simpl. by rewrite Hf. Qed.

Lemma path_ch s p : ssd_shape s -> in_dev s.(sd_sp) p ->
  exists c, s.(sd_ch) !! p.(p_ch) = Some c /\ ch_shape s.(sd_sp) c /\ get_ch s p = Ok c.
Proof.
  intros [Hl HF] (Hc & _). destruct (zlookup_lt s.(sd_ch) p.(p_ch)) as [c E]; [lia|].
  exists c. split; [done|]. split; [by eapply Forall_zlookup|]. by apply aget_Some.
Qed.

Lemma path_lun s p : ssd_shape s -> in_dev s.(sd_sp) p ->
  exists c n, s.(sd_ch) !! p.(p_ch) = Some c /\ ch_shape s.(sd_sp) c /\
    c.(ch_lun) !! p.(p_lun) = Some n /\ lun_shape s.(sd_sp) n /\
    get_ch s p = Ok c /\ get_lun s p = Ok n /\ lun_at s p.(p_ch) p.(p_lun) = Some n.
Proof.
  intros Hs Hp. destruct (path_ch s p Hs Hp) as (c & Ec & Hc & Gc). destruct Hp as (_ & Hl & _).
  pose proof Hc as (Hll & HF & _). destruct (zlookup_lt c.(ch_lun) p.(p_lun)) as [n En]; [lia|].
  exists c, n. split; [done|]. split; [done|]. split; [done|]. split; [by eapply Forall_zlookup|].
  split; [done|]. unfold get_lun, lun_at. rewrite Gc, Ec. simpl. split; [by apply aget_Some|done].
Qed.

Lemma path_blk s p : ssd_shape s -> in_dev s.(sd_sp) p ->
  exists c n m b, s.(sd_ch) !! p.(p_ch) = Some c /\ ch_shape s.(sd_sp) c /\
    c.(ch_lun) !! p.(p_lun) = Some n /\ lun_shape s.(sd_sp) n /\
    n.(nl_pl) !! p.(p_pl) = Some m /\ pl_shape s.(sd_sp) m /\
    m.(pn_blk) !! p.(p_blk) = Some b /\ blk_shape s.(sd_sp) b /\
    get_blk s p = Ok b /\ blk_at s p.(p_ch) p.(p_lun) p.(p_pl) p.(p_blk) = Some b /\
    lun_at s p.(p_ch) p.(p_lun) = Some n.
Proof.
  intros Hs Hp. destruct (path_lun s p Hs Hp) as (c & n & Ec & Hc & En & Hn & Gc & Gn & An).
  destruct Hp as (_ & _ & Hl & Hb & _). pose proof Hn as [Hnl HF].
  destruct (zlookup_lt n.(nl_pl) p.(p_pl)) as [m Em]; [lia|].
  assert (pl_shape s.(sd_sp) m) as Hm by (by eapply Forall_zlookup).
  pose proof Hm as [Hml HF'].
  destruct (zlookup_lt m.(pn_blk) p.(p_blk)) as [b Eb]; [lia|].
  exists c, n, m, b. repeat (split; [done|]). split; [by eapply Forall_zlookup|].
  unfold get_blk, get_pl, blk_at. rewrite Gn, An. simpl. rewrite (aget_Some _ _ _ Em), Em. simpl.
  split; [by apply aget_Some|]. by rewrite Eb.
Qed.

(** Writes to a die's times and to a channel's model leave the blocks alone. *)
Lemma mod_ch_ok s p c c' f :
  ssd_shape s -> s.(sd_ch) !! p.(p_ch) = Some c -> f c = Ok c' -> ch_shape s.(sd_sp) c' ->
  okp (mod_ch p f s) (fun s' => ssd_shape s' /\
    s' = Ssd s.(sd_sp) (<[p.(p_ch) := c']> s.(sd_ch)) s.(sd_pcie) s.(sd_write_buffer) s.(sd_cpu_nr_dispatcher)).
Proof.
  intros [Hl HF] Hc Hf Hc'. unfold mod_ch. erewrite amod_Ok by done. simpl.
  split; [|done]. split; simpl; [by rewrite zlen_zinsert|by apply Forall_zinsert].
Qed.

Lemma lun_at_insert s p c' sp pc wb cpu q r :
  0 <= p.(p_ch) < zlen s.(sd_ch) ->
  lun_at (Ssd sp (<[p.(p_ch) := c']> s.(sd_ch)) pc wb cpu) q r =
  if decide (q = p.(p_ch)) then c'.(ch_lun) !! r else lun_at s q r.
Proof.
  intros Hp. unfold lun_at; simpl. rewrite zlookup_zinsert by done.
  case_decide; case_decide; simpl; try congruence; done.
Qed.

(** The device with other clocks: every die is the same die but for them. *)
Definition same_but (s s' : ssd) : Prop :=
  s'.(sd_sp) = s.(sd_sp) /\ s'.(sd_pcie) = s.(sd_pcie) /\ s'.(sd_write_buffer) = s.(sd_write_buffer) /\
  s'.(sd_cpu_nr_dispatcher) = s.(sd_cpu_nr_dispatcher).

Lemma mod_lun_ok s p n n' f :
  ssd_shape s -> in_dev s.(sd_sp) p -> lun_at s p.(p_ch) p.(p_lun) = Some n ->
  f n = Ok n' -> lun_shape s.(sd_sp) n' ->
  okp (mod_lun p f s) (fun s' => ssd_shape s' /\ same_but s s' /\
    forall q r, lun_at s' q r =
      if decide (q = p.(p_ch) /\ r = p.(p_lun)) then Some n' else lun_at s q r).
Proof.
  intros Hs Hp Hn Hf Hn'. destruct (path_lun s p Hs Hp) as (c & n0 & Ec & Hc & En & _ & _ & _ & An).
  assert (n0 = n) as -> by congruence. clear An.
  pose proof Hc as (Hcl & HcF & Hcm). pose proof (zlookup_Some_range _ _ _ Ec).
  pose proof (zlookup_Some_range _ _ _ En).
  unfold mod_lun. eapply okp_mono.
  { eapply mod_ch_ok; [done|done|by erewrite amod_Ok|]. split; simpl; [by rewrite zlen_zinsert|].
    split; [by apply Forall_zinsert|done]. }
  intros s' [Hs' ->]. split; [done|]. split; [done|].
  intros q r. rewrite lun_at_insert by done. simpl. rewrite zlookup_zinsert by done.
  destruct (decide (q = p_ch p)) as [->|]; [|rewrite decide_False by tauto; done].
  unfold lun_at. rewrite Ec. simpl.
  destruct (decide (r = p_lun p)) as [->|]; [by rewrite !decide_True by done|].
  rewrite !decide_False by (intros Hd; destruct_and? Hd; congruence). done.
Qed.

(** A die whose planes are unchanged leaves every block unchanged. *)
Lemma same_nand_lun s s' p n n' :
  same_but s s' -> lun_at s p.(p_ch) p.(p_lun) = Some n ->
  (forall q r, lun_at s' q r =
      if decide (q = p.(p_ch) /\ r = p.(p_lun)) then Some n' else lun_at s q r) ->
  n'.(nl_pl) = n.(nl_pl) ->
  same_nand s s'.
Proof.
  intros (H1 & H2 & H3 & H4) Hn Hlun E. repeat split; try done.
  intros c l pl b. unfold blk_at. rewrite Hlun. case_decide as Hd; [|done].
  destruct Hd as [-> ->]. rewrite Hn. simpl. by rewrite E.
Qed.

Lemma set_lun_avail_ok s p t :
  ssd_shape s -> in_dev s.(sd_sp) p ->
  okp (set_lun_avail p t s) (fun s' => ssd_shape s' /\ same_nand s s' /\
    (forall c l, nl_next_lun_avail_time <$> lun_at s' c l =
       if decide (c = p.(p_ch) /\ l = p.(p_lun)) then Some t
       else nl_next_lun_avail_time <$> lun_at s c l)).
Proof.
  intros Hs Hp. destruct (path_lun s p Hs Hp) as (c & n & _ & _ & _ & Hn & _ & _ & An).
  unfold set_lun_avail. eapply okp_mono; [by eapply mod_lun_ok|].
  intros s' (Hs' & Hb & E). split; [done|]. split; [eapply same_nand_lun; [exact Hb|exact An|exact E|done]|].
  intros q r. rewrite E. by case_decide.
Qed.

Lemma set_lun_gc_endtime_ok s p t :
  ssd_shape s -> in_dev s.(sd_sp) p ->
  okp (set_lun_gc_endtime p t s) (fun s' => ssd_shape s' /\ same_nand s s').
Proof.
  intros Hs Hp. destruct (path_lun s p Hs Hp) as (c & n & _ & _ & _ & Hn & _ & _ & An).
  unfold set_lun_gc_endtime. eapply okp_mono; [by eapply mod_lun_ok|].
  intros s' (Hs' & Hb & E). split; [done|eapply same_nand_lun; [exact Hb|exact An|exact E|done]].
Qed.

Lemma set_perf_model_ok s p m :
  ssd_shape s -> in_dev s.(sd_sp) p -> chan_ok m ->
  okp (set_perf_model p m s) (fun s' => ssd_shape s' /\ same_nand s s' /\
    forall c l, lun_at s' c l = lun_at s c l).
Proof.
  intros Hs Hp Hm. destruct (path_ch s p Hs Hp) as (c & Ec & (Hcl & HcF & _) & _).
  pose proof (zlookup_Some_range _ _ _ Ec).
  unfold set_perf_model. eapply okp_mono; [by eapply mod_ch_ok|].
  intros s' [Hs' ->]. split; [done|].
  assert (forall q r, lun_at (Ssd (sd_sp s) (<[p_ch p:=SsdChannel (ch_lun c) (ch_nluns c)
    (ch_gc_endtime c) m]> (sd_ch s)) (sd_pcie s) (sd_write_buffer s) (sd_cpu_nr_dispatcher s)) q r
    = lun_at s q r) as E.
  { intros q r. rewrite lun_at_insert by done. simpl. case_decide as Hd; [|done]. subst q.
    unfold lun_at. by rewrite Ec. }
  split; [|exact E]. repeat split; try done. intros q r pl b. unfold blk_at. by rewrite E.
Qed.

Lemma mod_blk_ok s p b b' f :
  ssd_shape s -> in_dev s.(sd_sp) p -> blk_at s p.(p_ch) p.(p_lun) p.(p_pl) p.(p_blk) = Some b ->
  f b = Ok b' -> blk_shape s.(sd_sp) b' ->
  okp (mod_blk p f s) (fun s' => ssd_shape s' /\ blk_replaced s s' p b').
Proof.
  intros Hs Hp Hb Hf Hb'.
  destruct (path_blk s p Hs Hp) as
    (c & n & m & b0 & _ & _ & En & [Hn HnF] & Em & [Hm HmF] & Eb & _ & _ & Ab & An').
  assert (b0 = b) as -> by congruence.
  pose proof (zlookup_Some_range _ _ _ Em). pose proof (zlookup_Some_range _ _ _ Eb).
  unfold mod_blk, mod_pl. eapply okp_mono.
  { eapply mod_lun_ok; [done|done|exact An'| |].
    - erewrite (amod_Ok (nl_pl n)); [done|exact Em|]. by erewrite amod_Ok.
    - split; simpl; [by rewrite zlen_zinsert|]. apply Forall_zinsert; [done|].
      split; simpl; [by rewrite zlen_zinsert|by apply Forall_zinsert]. }
  intros s' (Hs' & (K1 & K2 & K3 & K4) & E). split; [done|]. repeat split; try done.
  intros q r pl k. unfold blk_at. rewrite E.
  destruct (decide (q = p_ch p /\ r = p_lun p)) as [[-> ->]|]; [|rewrite decide_False by tauto; done].
  rewrite An'. simpl. rewrite zlookup_zinsert by done.
  destruct (decide (pl = p_pl p)) as [->|].
  - rewrite decide_True by done. simpl. rewrite zlookup_zinsert, Em by done. simpl.
    destruct (decide (k = p_blk p)) as [->|]; [by rewrite !decide_True by done|].
    rewrite !decide_False by (intros Hd; destruct_and? Hd; congruence). done.
  - rewrite !decide_False by (tauto || congruence). done.
Qed.
End tree.

(** ** The store of shared objects *)

Section store.
Context {A : Type}.
Implicit Types (l : list (option A)) (p : option Z).

Lemma deref_Some l p x : deref l p = Ok x <-> exists i, p = Some i /\ l !! i = Some (Some x).
Proof.
  unfold deref, aget, of_opt. split.
  - destruct p as [i|]; simpl; [|done]. destruct (l !! i) as [[y|]|] eqn:E; simpl; intros [=].
    exists i. subst. done.
  - intros (i & -> & E). simpl. by rewrite E.
Qed.

Lemma store_ok l p x y :
  deref l p = Ok x ->
  okp (store l p y) (fun l' => deref l' p = Ok y /\ zlen l' = zlen l /\
    forall q, q <> p -> deref l' q = deref l q).
Proof.
  intros Hx. pose proof Hx as (i & -> & E)%deref_Some. pose proof (zlookup_Some_range _ _ _ E).
  unfold store. rewrite Hx. simpl. split; [|split].
  - apply deref_Some. exists i. split; [done|]. by apply zlookup_zinsert_eq.
  - apply zlen_zinsert.
  - intros [j|] Hq; [|done]. unfold deref, aget. simpl. rewrite zlookup_zinsert_ne; [done|congruence].
Qed.
End store.

Section clocks.
Context `{ChanConfig, Clock}.

(** The link a pointer leads to is alive and sound. *)
Definition link_ok (pc : option Z) (h : hw) : Prop :=
  exists ch, deref h.(hw_pcie) pc = Ok ch /\ chan_ok ch.

(** Only the clock and the link [pc] moved. *)
Definition hw_adv (pc : option Z) (h h' : hw) : Prop :=
  link_ok pc h' /\ h'.(hw_wbuf) = h.(hw_wbuf) /\ h'.(hw_sched) = h.(hw_sched) /\
  (h.(hw_tick) <= h'.(hw_tick))%nat /\ zlen h'.(hw_pcie) = zlen h.(hw_pcie) /\
  forall q, q <> pc -> deref h'.(hw_pcie) q = deref h.(hw_pcie) q.

Lemma hw_adv_refl pc h : link_ok pc h -> hw_adv pc h h.
Proof. by repeat split. Qed.

Lemma hw_adv_trans pc h1 h2 h3 : hw_adv pc h1 h2 -> hw_adv pc h2 h3 -> hw_adv pc h1 h3.
Proof.
  intros (A1 & A2 & A3 & A4 & A5 & A6) (B1 & B2 & B3 & B4 & B5 & B6).
  repeat split; try congruence; [lia|]. intros q Hq. rewrite B6, A6; done.
Qed.

Lemma tick_adv pc h : link_ok pc h -> hw_adv pc h (tick h).1.
Proof. intros Hl. repeat split; simpl; try done. lia. Qed.

Lemma request_ok pc ch t len h :
  chan_ok ch -> link_ok pc h ->
  okp (request ch t len h) (fun '(ch', h', _) => chan_ok ch' /\ hw_adv pc h h').
Proof.
  intros Hc Hl. unfold request. destruct (tick h) as [h' now] eqn:E.
  apply okp_bind. eapply okp_mono; [by apply chmodel_request_spec|].
  intros [ch' t'] [Hc' _]. simpl. split; [done|]. replace h' with (tick h).1 by (by rewrite E).
  by apply tick_adv.
Qed.

Lemma ssd_advance_pcie_ok s t len h :
  link_ok s.(sd_pcie) h ->
  okp (ssd_advance_pcie s t len h) (fun '(h', _) => hw_adv s.(sd_pcie) h h').
Proof.
  intros (ch & Hd & Hc). unfold ssd_advance_pcie. rewrite Hd. simpl.
  apply okp_bind. eapply okp_mono.
  { apply (request_ok (sd_pcie s)); [done|by exists ch]. }
  intros [[ch' h'] t'] [Hc' ((y & Hy & _) & A2 & A3 & A4 & A5 & A6)].
  apply okp_bind. eapply okp_mono; [by apply (store_ok _ _ y ch')|].
  intros l (B1 & B2 & B3). repeat split; simpl; try done.
  - by exists ch'.
  - congruence.
  - intros q Hq. rewrite B3; auto.
Qed.

Lemma ssd_advance_write_buffer_ok s t len h :
  link_ok s.(sd_pcie) h ->
  okp (ssd_advance_write_buffer s t len h) (fun '(h', _) => hw_adv s.(sd_pcie) h h').
Proof.
  intros Hl. unfold ssd_advance_write_buffer, div_round_up64.
  apply okp_bind, okp_cdiv; [done|]. by apply ssd_advance_pcie_ok.
Qed.

Lemma xfer_loop_ok s il x :
  link_ok s.(sd_pcie) x.(x_hw) -> 0 < s.(sd_sp).(max_ch_xfer_size) < 2147483648 ->
  chan_ok x.(x_model) -> 0 < x.(x_remaining) < 18446744073709551616 ->
  okp (rloop (Z.to_nat x.(x_remaining) + 1) (xfer_step s il) x) (fun x' =>
    chan_ok x'.(x_model) /\ hw_adv s.(sd_pcie) x.(x_hw) x'.(x_hw) /\
    is_Some x'.(x_etime) /\ is_Some x'.(x_completed)).
Proof.
  intros Hl Hm Hc Hr.
  apply (rloop_inv _ (fun y => chan_ok y.(x_model) /\ hw_adv s.(sd_pcie) x.(x_hw) y.(x_hw) /\
    0 <= y.(x_remaining) <= x.(x_remaining) /\
    (y.(x_remaining) = 0 -> is_Some y.(x_etime) /\ is_Some y.(x_completed)))
    (fun y => y.(x_remaining))).
  - intros y (_ & _ & ? & _). lia.
  - intros y (Hcy & Hadv & Hry & Hfin). unfold xfer_step.
    destruct (Z.eqb_spec y.(x_remaining) 0) as [E|E]; [destruct (Hfin E); done|].
    rewrite (u64_small (max_ch_xfer_size _)) by lia.
    remember (Z.min _ _) as sz.
    apply okp_bind. eapply okp_mono; [apply (request_ok (sd_pcie s)); [done|apply Hadv]|].
    intros [[m h'] t'] [Hm' Hadv']. apply okp_bind.
    apply (okp_mono _ (fun r => hw_adv s.(sd_pcie) h' r.1)).
    { destruct il; [|apply hw_adv_refl, Hadv'].
      eapply okp_mono; [apply ssd_advance_pcie_ok, Hadv'|]. by intros []. }
    intros r Hr'. simpl. rewrite u64_small by lia. split; [|lia].
    split; [done|]. split; [|split; [lia|by eauto]].
    eapply hw_adv_trans; [done|]. by eapply hw_adv_trans.
  - split; [done|]. split; [by apply hw_adv_refl|]. split; [lia|]. lia.
  - lia.
Qed.

(** The time at which a die is idle, and the time a command begins. *)
Definition die_time (s : ssd) (c l : Z) : option Z := nl_next_lun_avail_time <$> lun_at s c l.

Definition nand_start (ncmd : nand_cmd) (h : hw) : Z :=
  if ncmd.(nc_stime) =? 0 then cpu_clock h.(hw_tick) else ncmd.(nc_stime).

(** The die of [p] is idle at [t], the times of the others are unchanged. *)
Definition die_set (s s' : ssd) (p : ppa) (t : Z) : Prop :=
  forall c l, die_time s' c l =
    if decide (c = p.(p_ch) /\ l = p.(p_lun)) then Some t else die_time s c l.

(** The times a command leaves: the die is busy until the command ends; a read
    occupies it until the channel has taken the last transfer. *)
Definition nand_timed (s s' : ssd) (ncmd : nand_cmd) (h : hw) (t : Z) : Prop :=
  exists a, die_time s ncmd.(nc_ppa).(p_ch) ncmd.(nc_ppa).(p_lun) = Some a /\
    let start := Z.max a (nand_start ncmd h) in
    if ncmd.(nc_cmd) =? NAND_READ then exists busy, die_set s s' ncmd.(nc_ppa) busy
    else if ncmd.(nc_cmd) =? NAND_WRITE then die_set s s' ncmd.(nc_ppa) t
    else if ncmd.(nc_cmd) =? NAND_ERASE then
      t = u64 (start + s.(sd_sp).(blk_er_lat)) /\ die_set s s' ncmd.(nc_ppa) t
    else if ncmd.(nc_cmd) =? NAND_NOP then t = start /\ die_set s s' ncmd.(nc_ppa) t
    else s' = s /\ t = 0.

Lemma set_times_ok s p m t :
  ssd_shape s -> in_dev s.(sd_sp) p -> chan_ok m ->
  okp (s1 ← set_perf_model p m s; set_lun_avail p t s1)
    (fun s' => ssd_shape s' /\ same_nand s s' /\ die_set s s' p t).
Proof.
  intros Hs Hin Hm. apply okp_bind. eapply okp_mono; [by apply set_perf_model_ok|].
  intros s2 (Hs2 & Hn2 & Hl2). eapply okp_mono.
  - apply (set_lun_avail_ok s2 p t Hs2). by destruct Hn2 as (-> & _).
  - intros s3 (Hs3 & Hn3 & Ht3). split; [done|]. split; [by etrans|]. intros c l. unfold die_time.
    rewrite Ht3. case_decide; [done|]. by rewrite Hl2.
Qed.

Lemma get_cell_ok s p : params_ok s.(sd_sp) -> exists cell, get_cell s p = Ok cell /\ 0 <= cell < 3.
Proof.
  intros Hp. pose proof (po_flash _ Hp). pose proof (po_cell _ Hp). unfold get_cell.
  rewrite cdiv_ok, bind_Ok, cmod_ok by lia. eexists. split; [done|].
  pose proof (Z.mod_pos_bound (p_pg p `div` pgs_per_flashpg (sd_sp s)) (cell_mode (sd_sp s))). lia.
Qed.

Lemma nand_start_ok s ncmd h : link_ok s.(sd_pcie) h ->
  exists h1, (if nc_stime ncmd =? 0 then __get_ioclock h else (h, nc_stime ncmd)) = (h1, nand_start ncmd h)
    /\ hw_adv s.(sd_pcie) h h1.
Proof.
  intros Hl. unfold nand_start. destruct (nc_stime ncmd =? 0).
  - exists (tick h).1. split; [done|by apply tick_adv].
  - exists h. split; [done|by apply hw_adv_refl].
Qed.

(** A NAND command never faults on a sound device, whatever the command code,
    except that a read must transfer something.  It changes clocks only. *)
Lemma ssd_advance_nand_timed s ncmd h :
  params_ok s.(sd_sp) -> ssd_shape s -> link_ok s.(sd_pcie) h -> in_dev s.(sd_sp) ncmd.(nc_ppa) ->
  (ncmd.(nc_cmd) = NAND_READ -> 0 < ncmd.(nc_xfer_size) < 18446744073709551616) ->
  okp (ssd_advance_nand s ncmd h) (fun '(s', h', t) =>
    ssd_shape s' /\ same_nand s s' /\ hw_adv s.(sd_pcie) h h' /\ nand_timed s s' ncmd h t).
Proof.
  intros Hp Hs Hl Hin Hread. unfold ssd_advance_nand.
  destruct (nand_start_ok s ncmd h Hl) as (h1 & -> & Hadv). pose proof Hadv as [Hl1 _].
  rewrite (proj2 (Z.eqb_neq _ _)) by (by eapply in_dev_not_unmapped).
  destruct (path_lun s _ Hs Hin) as (c & n & _ & (_ & _ & Hcm) & _ & _ & -> & -> & An).
  destruct (get_cell_ok s (nc_ppa ncmd) Hp) as (cell & -> & Hcell). rewrite !bind_Ok.
  unfold nand_timed, die_time at 1. rewrite An.
  destruct (Z.eqb_spec (nc_cmd ncmd) NAND_READ) as [Er|Er].
  { apply okp_bind. apply (okp_mono _ (fun _ => True)).
    { pose proof (po_rd_lat _ Hp) as []. destruct (_ =? 4096); apply aget_okp; unfold zlen; (lia || done). }
    intros lat _. specialize (Hread Er). apply okp_bind. eapply okp_mono.
    { apply (xfer_loop_ok s (nc_interleave_pci_dma ncmd)
        (Xfer (ch_perf_model c) h1 (nc_xfer_size ncmd) _ None None)); simpl; try done; apply Hp. }
    intros x (Hxm & Hxh & [et Eet] & [ct Ect]). rewrite Eet, Ect. simpl.
    destruct (okp_inv _ _ (set_times_ok s _ _ et Hs Hin Hxm)) as (s' & E & Hs' & Hn' & Ht').
    destruct (set_perf_model _ _ _) as [s1|]; simpl in E |- *; [|done]. rewrite E. simpl.
    split; [done|]. split; [done|]. split; [by eapply hw_adv_trans|]. eexists. split; [done|by exists et]. }
  destruct (Z.eqb_spec (nc_cmd ncmd) NAND_WRITE) as [Ew|Ew].
  { apply okp_bind. eapply okp_mono; [by apply (request_ok (sd_pcie s))|].
    intros [[m h2] t2] [Hm Hadv2].
    destruct (okp_inv _ _ (set_times_ok s _ _ (u64 (t2 + pg_wr_lat (sd_sp s))) Hs Hin Hm))
      as (s' & E & Hs' & Hn' & Ht').
    destruct (set_perf_model _ _ _) as [s1|]; simpl in E |- *; [|done]. rewrite E. simpl.
    split; [done|]. split; [done|]. split; [by eapply hw_adv_trans|]. by eexists. }
  destruct (nc_cmd ncmd =? NAND_ERASE).
  { apply okp_bind. eapply okp_mono; [by apply set_lun_avail_ok|]. intros s' (H1 & H2 & H3). simpl.
    repeat (split; [done|]). by eexists. }
  destruct (nc_cmd ncmd =? NAND_NOP).
  { apply okp_bind. eapply okp_mono; [by apply set_lun_avail_ok|]. intros s' (H1 & H2 & H3). simpl.
    repeat (split; [done|]). by eexists. }
  simpl. repeat (split; [done|]). by eexists.
Qed.

Lemma ssd_advance_nand_ok s ncmd h :
  params_ok s.(sd_sp) -> ssd_shape s -> link_ok s.(sd_pcie) h -> in_dev s.(sd_sp) ncmd.(nc_ppa) ->
  (ncmd.(nc_cmd) = NAND_READ -> 0 < ncmd.(nc_xfer_size) < 18446744073709551616) ->
  okp (ssd_advance_nand s ncmd h) (fun '(s', h', _) =>
    ssd_shape s' /\ same_nand s s' /\ hw_adv s.(sd_pcie) h h').
Proof.
  intros. eapply okp_mono; [by apply ssd_advance_nand_timed|]. intros [[s' h'] t] (? & ? & ? & _). done.
Qed.
(** The link moved, and [n] operations, that satisfy [P], were scheduled. *)
Definition hw_wrote (P : internal_op -> Prop) (n : nat) (pc : option Z) (h h' : hw) : Prop :=
  link_ok pc h' /\ h'.(hw_wbuf) = h.(hw_wbuf) /\ (h.(hw_tick) <= h'.(hw_tick))%nat /\
  zlen h'.(hw_pcie) = zlen h.(hw_pcie) /\
  (forall q, q <> pc -> deref h'.(hw_pcie) q = deref h.(hw_pcie) q) /\
  exists ops, h'.(hw_sched) = h.(hw_sched) ++ ops /\ Forall P ops /\ length ops = n.

Lemma hw_wrote_refl P pc h : link_ok pc h -> hw_wrote P 0 pc h h.
Proof.
  intros Hl. repeat split; try done. exists []. split; [by rewrite app_nil_r|]. split; [constructor|done].
Qed.

Lemma hw_wrote_trans P n1 n2 pc h1 h2 h3 : hw_wrote P n1 pc h1 h2 -> hw_wrote P n2 pc h2 h3 -> hw_wrote P (n1 + n2) pc h1 h3.
Proof.
  intros (A1 & A2 & A3 & A4 & A5 & o1 & A6 & A7 & A8) (B1 & B2 & B3 & B4 & B5 & o2 & B6 & B7 & B8).
  repeat split; try congruence; [lia|intros q Hq; by rewrite B5, A5|].
  exists (o1 ++ o2). rewrite B6, A6, app_assoc, length_app. split; [done|]. split; [by apply Forall_app|lia].
Qed.

Lemma hw_adv_wrote P pc h h' : hw_adv pc h h' -> hw_wrote P 0 pc h h'.
Proof.
  intros (A1 & A2 & A3 & A4 & A5 & A6). repeat split; try done.
  exists []. rewrite app_nil_r. split; [done|]. split; [constructor|done].
Qed.

End clocks.

(** ** Initialisation *)

Section init.
Context `{ChanConfig, Clock}.

Lemma Forall_zrepeat {A} (P : A -> Prop) n x : P x -> Forall P (zrepeat n x).
Proof. intros Hx. by apply Forall_replicate. Qed.

Lemma ssd_init_lun_shape sp : params_ok sp -> lun_shape sp (ssd_init_nand_lun sp).
Proof.
  intros Hp. pose proof (po_pls _ Hp). pose proof (po_blks _ Hp). pose proof (po_pgs _ Hp).
  split; simpl; [apply zlen_zrepeat; lia|]. apply Forall_zrepeat.
  split; simpl; [apply zlen_zrepeat; lia|]. apply Forall_zrepeat.
  split; simpl; [apply zlen_zrepeat; lia|]. split; [done|]. by apply Forall_zrepeat.
Qed.

Lemma add_xfer_lat_ok ch x : chan_ok ch -> chan_ok (add_xfer_lat ch x).
Proof. intros []. by split. Qed.

Definition init_lun_like (sp : ssdparams) (c : ssd_channel) : Prop :=
  ch_shape sp c /\ c.(ch_lun) = zrepeat sp.(luns_per_ch) (ssd_init_nand_lun sp).

Lemma ssd_init_ch_ok sp : params_ok sp -> okp (ssd_init_ch sp) (init_lun_like sp).
Proof.
  intros Hp. unfold ssd_init_ch. destruct (po_bandwidth _ Hp) as [Hb _].
  apply okp_bind. eapply okp_mono; [by apply chmodel_init_ok|]. intros ch (Hch & _).
  split; [|done]. pose proof (po_luns _ Hp). split; simpl; [apply zlen_zrepeat; lia|].
  split; [by apply Forall_zrepeat, ssd_init_lun_shape|by apply add_xfer_lat_ok].
Qed.

(** A new device: every block is erased, and its link and write buffer are new
    objects of the store. *)
Lemma ssd_init_ok sp cpu h :
  params_ok sp ->
  okp (ssd_init sp cpu h) (fun '(s, h') =>
    ssd_shape s /\ s.(sd_sp) = sp /\
    s.(sd_pcie) = Some (zlen h.(hw_pcie)) /\ s.(sd_write_buffer) = Some (zlen h.(hw_wbuf)) /\
    link_ok s.(sd_pcie) h' /\
    h'.(hw_wbuf) = h.(hw_wbuf) ++ [Some (buffer_init sp.(write_buffer_size))] /\
    (exists m, chan_ok m /\ h'.(hw_pcie) = h.(hw_pcie) ++ [Some m]) /\
    h'.(hw_sched) = h.(hw_sched) /\ h'.(hw_tick) = h.(hw_tick) /\
    (forall c l pl b, 0 <= c < sp.(nchs) -> 0 <= l < sp.(luns_per_ch) -> 0 <= pl < sp.(pls_per_lun) ->
       0 <= b < sp.(blks_per_pl) -> blk_at s c l pl b = Some (ssd_init_nand_blk sp))).
Proof.
  intros Hp. unfold ssd_init. pose proof (po_nchs _ Hp). destruct (po_bandwidth _ Hp) as [_ Hb].
  apply okp_bind. eapply okp_mono.
  { apply (rfold_range _ (fun i l => zlen l = i /\ Forall (init_lun_like sp) l)); [lia|done|].
    intros i l Hi [Hl HF]. apply okp_bind. eapply okp_mono; [by apply ssd_init_ch_ok|].
    intros c Hc. simpl. rewrite zlen_app, Hl. split; [done|]. apply Forall_app. by rewrite Forall_singleton. }
  intros chs [Hl HF]. apply okp_bind. unfold ssd_init_pcie.
  eapply okp_mono; [by apply chmodel_init_ok|]. intros m (Hm & _). simpl.
  split; [split; simpl; [done|]; eapply Forall_impl; [exact HF|by intros c []]|].
  do 3 (split; [done|]). split.
  { exists m. split; [|done]. apply deref_Some. eexists. split; [done|]. simpl.
    rewrite zlookup_to_nat by apply zlen_nonneg. unfold zlen. rewrite Nat2Z.id.
    by rewrite lookup_app_r, Nat.sub_diag by lia. }
  do 2 (split; [by eauto|]). do 2 (split; [done|]).
  intros c l pl b Hc Hlu Hpl Hbl. unfold blk_at, lun_at; simpl.
  destruct (zlookup_lt chs c) as [x Hx]; [lia|]. rewrite Hx. simpl.
  destruct (Forall_zlookup _ _ _ _ HF Hx) as [_ ->].
  rewrite zlookup_zrepeat_lt by done. simpl. rewrite zlookup_zrepeat_lt by done. simpl.
  by rewrite zlookup_zrepeat_lt.
Qed.

(** The idle time is the latest of the clock and of the times of the dies. *)
Lemma ssd_next_idle_time_ok s h :
  params_ok s.(sd_sp) -> ssd_shape s ->
  okp (ssd_next_idle_time s h) (fun '(h', t) =>
    h' = (tick h).1 /\ cpu_clock h.(hw_tick) <= t /\
    (forall c l n, lun_at s c l = Some n -> n.(nl_next_lun_avail_time) <= t) /\
    (t = cpu_clock h.(hw_tick) \/ exists c l n, lun_at s c l = Some n /\ t = n.(nl_next_lun_avail_time))).
Proof.
  intros Hp [Hl HF]. unfold ssd_next_idle_time, __get_ioclock, tick. simpl.
  pose proof (po_nchs _ Hp). pose proof (po_luns _ Hp).
  apply okp_bind. eapply okp_mono.
  { apply (rfold_range _ (fun i t => cpu_clock h.(hw_tick) <= t /\
      (forall c l n, c < i -> lun_at s c l = Some n -> n.(nl_next_lun_avail_time) <= t) /\
      (t = cpu_clock h.(hw_tick) \/ exists c l n, lun_at s c l = Some n /\ t = n.(nl_next_lun_avail_time)))).
    - lia.
    - split; [lia|]. split; [|by left]. intros c l n Hc Hn. unfold lun_at in Hn.
      destruct (sd_ch s !! c) eqn:E; [|done]. apply zlookup_Some_range in E. lia.
    - intros i t Hi (J1 & J2 & J3). destruct (zlookup_lt s.(sd_ch) i) as [ch Hch]; [lia|].
      rewrite (aget_Some _ _ _ Hch). simpl.
      destruct (Forall_zlookup _ _ _ _ HF Hch) as (Hcl & _ & _).
      eapply okp_mono.
      { apply (rfold_range _ (fun j t => cpu_clock h.(hw_tick) <= t /\
          (forall c l n, c < i \/ (c = i /\ l < j) -> lun_at s c l = Some n ->
             n.(nl_next_lun_avail_time) <= t) /\
          (t = cpu_clock h.(hw_tick) \/ exists c l n, lun_at s c l = Some n /\ t = n.(nl_next_lun_avail_time))));
          [lia| |].
        - split; [done|]. split; [|done]. intros c l n [Hc|[-> Hl']] Hn; [by eapply J2|].
          unfold lun_at in Hn. rewrite Hch in Hn. simpl in Hn. apply zlookup_Some_range in Hn. lia.
        - intros j u Hj (K1 & K2 & K3). destruct (zlookup_lt ch.(ch_lun) j) as [n Hn]; [lia|].
          assert (lun_at s i j = Some n) as Hij by (unfold lun_at; by rewrite Hch).
          rewrite (aget_Some _ _ _ Hn). simpl. split; [lia|]. split.
          + intros c l n' Hc Hn'. destruct (decide (c = i /\ l = j)) as [[-> ->]|].
            * assert (n' = n) as -> by congruence. lia.
            * assert (nl_next_lun_avail_time n' <= u) by (eapply (K2 c l); [lia|done]). lia.
          + destruct (Z.max_spec u (nl_next_lun_avail_time n)) as [[_ ->]|[_ ->]]; [right; by eauto|done]. }
      intros u (K1 & K2 & K3). split; [done|]. split; [|done]. intros c l n Hc Hn.
      destruct (decide (c < i)); [eapply K2; [by left|done]|].
      assert (c = i) as -> by lia. eapply K2; [|done]. right. split; [done|].
      unfold lun_at in Hn. rewrite Hch in Hn. simpl in Hn. apply zlookup_Some_range in Hn. lia. }
  intros t (J1 & J2 & J3). simpl. split; [done|]. split; [done|]. split; [|done].
  intros c l n Hn. eapply J2; [|done]. unfold lun_at in Hn. destruct (sd_ch s !! c) eqn:E; [|done].
  apply zlookup_Some_range in E. lia.
Qed.
End init.
