(* ===== verification/ConvFtl.v ===== *)
(** * The conventional FTL (conv_ftl.c, conv_ftl.h)

    A page-level mapping FTL over the device of Ssd.v: [maptbl] maps logical
    to physical pages, [rmap] back; a line is the blocks of one number on all
    dies; writes go to the line of a write pointer, one for the host and one
    for garbage collection; full lines with invalid pages wait in a priority
    queue ordered by valid pages.

    A [struct line *] is the index of the line.  The two [list_head] lists are
    lists of indices: a node is in at most one of them, [list_add_tail] of a
    node that is linked corrupts the lists ([ListCorrupt]) and [list_del_init]
    unlinks the node from wherever it is.  The functions that reach the clocks
    also take and return the store [hw] of Ssd.v.

    This file holds the definitions; ConvInv.v states what they preserve. *)

From stdpp Require Import prelude list.
From Stdlib Require Import ZArith Lia.
From S2P Require Import Prelude ChannelModel Pqueue SsdConfig Ssd.

Record convparams := ConvParams {
  gc_thres_lines : Z;
  gc_thres_lines_high : Z;
  enable_gc_delay : bool;
  op_area_hundredths : Z;
  pba_pcent : Z
}.

Record line := Line { ln_id : Z; ln_ipc : Z; ln_vpc : Z; ln_pos : Z }.

Record write_pointer := WritePointer {
  wp_curline : option Z; wp_ch : Z; wp_lun : Z; wp_pg : Z; wp_blk : Z; wp_pl : Z
}.

Record line_mgmt := LineMgmt {
  lm_lines : list line;
  free_line_list : list Z;
  victim_line_pq : option pqueue;
  full_line_list : list Z;
  lm_tt_lines : Z;
  free_line_cnt : Z;
  victim_line_cnt : Z;
  full_line_cnt : Z
}.

Record write_flow_control := Wfc { write_credits : Z; credits_to_refill : Z }.

Record conv_ftl := ConvFtl {
  cf_ssd : ssd;
  cf_cp : convparams;
  maptbl : list ppa;
  rmap : list Z;
  cf_wp : write_pointer;
  cf_gc_wp : write_pointer;
  cf_lm : line_mgmt;
  cf_wfc : write_flow_control
}.

Definition cf_sp (f : conv_ftl) : ssdparams := f.(cf_ssd).(sd_sp).

(** Assignments to one member of the structure. *)
Definition with_ssd (f : conv_ftl) (s : ssd) : conv_ftl :=
  ConvFtl s f.(cf_cp) f.(maptbl) f.(rmap) f.(cf_wp) f.(cf_gc_wp) f.(cf_lm) f.(cf_wfc).
Definition with_maptbl (f : conv_ftl) (m : list ppa) : conv_ftl :=
  ConvFtl f.(cf_ssd) f.(cf_cp) m f.(rmap) f.(cf_wp) f.(cf_gc_wp) f.(cf_lm) f.(cf_wfc).
Definition with_rmap (f : conv_ftl) (m : list Z) : conv_ftl :=
  ConvFtl f.(cf_ssd) f.(cf_cp) f.(maptbl) m f.(cf_wp) f.(cf_gc_wp) f.(cf_lm) f.(cf_wfc).
Definition with_lm (f : conv_ftl) (m : line_mgmt) : conv_ftl :=
  ConvFtl f.(cf_ssd) f.(cf_cp) f.(maptbl) f.(rmap) f.(cf_wp) f.(cf_gc_wp) m f.(cf_wfc).
Definition with_wfc (f : conv_ftl) (w : write_flow_control) : conv_ftl :=
  ConvFtl f.(cf_ssd) f.(cf_cp) f.(maptbl) f.(rmap) f.(cf_wp) f.(cf_gc_wp) f.(cf_lm) w.
Definition with_lines (m : line_mgmt) (l : list line) : line_mgmt :=
  LineMgmt l m.(free_line_list) m.(victim_line_pq) m.(full_line_list) m.(lm_tt_lines)
    m.(free_line_cnt) m.(victim_line_cnt) m.(full_line_cnt).
Definition with_pq (m : line_mgmt) (q : option pqueue) (l : list line) : line_mgmt :=
  LineMgmt l m.(free_line_list) q m.(full_line_list) m.(lm_tt_lines)
    m.(free_line_cnt) m.(victim_line_cnt) m.(full_line_cnt).

(** ** The callbacks of the victim queue *)

#[global] Instance victim_line_callbacks : PqCallbacks (list line) := {|
  cmppri := fun next curr => curr <? next;
  getpri := fun ls a => l ← aget ls a; Ok (u64 l.(ln_vpc));
  setpri := fun ls a pri =>
    amod ls a (fun l => Ok (Line l.(ln_id) l.(ln_ipc) (s32 pri) l.(ln_pos)));
  getpos := fun ls a => l ← aget ls a; Ok l.(ln_pos);
  setpos := fun ls a pos =>
    amod ls a (fun l => Ok (Line l.(ln_id) l.(ln_ipc) l.(ln_vpc) (u64 pos)))
|}.

(** ** The lists of lines *)

Definition linked (m : line_mgmt) (id : Z) : bool :=
  bool_decide (id ∈ m.(free_line_list)) || bool_decide (id ∈ m.(full_line_list)).

Definition list_add_tail_free (m : line_mgmt) (id : Z) : res line_mgmt :=
  if linked m id then Fault ListCorrupt else
  Ok (LineMgmt m.(lm_lines) (m.(free_line_list) ++ [id]) m.(victim_line_pq) m.(full_line_list)
        m.(lm_tt_lines) m.(free_line_cnt) m.(victim_line_cnt) m.(full_line_cnt)).

Definition list_add_tail_full (m : line_mgmt) (id : Z) : res line_mgmt :=
  if linked m id then Fault ListCorrupt else
  Ok (LineMgmt m.(lm_lines) m.(free_line_list) m.(victim_line_pq) (m.(full_line_list) ++ [id])
        m.(lm_tt_lines) m.(free_line_cnt) m.(victim_line_cnt) m.(full_line_cnt)).

Definition list_del_init (m : line_mgmt) (id : Z) : line_mgmt :=
  LineMgmt m.(lm_lines) (filter (fun x => x <> id) m.(free_line_list)) m.(victim_line_pq)
    (filter (fun x => x <> id) m.(full_line_list))
    m.(lm_tt_lines) m.(free_line_cnt) m.(victim_line_cnt) m.(full_line_cnt).

Definition add_cnts (m : line_mgmt) (free victim full : Z) : line_mgmt :=
  LineMgmt m.(lm_lines) m.(free_line_list) m.(victim_line_pq) m.(full_line_list) m.(lm_tt_lines)
    (u32 (m.(free_line_cnt) + free)) (u32 (m.(victim_line_cnt) + victim))
    (u32 (m.(full_line_cnt) + full)).

(** ** The mapping tables *)

Definition last_pg_in_wordline (f : conv_ftl) (p : ppa) : res bool :=
  let spp := cf_sp f in
  r ← cmod p.(p_pg) spp.(pgs_per_oneshotpg);
  Ok (r =? spp.(pgs_per_oneshotpg) - 1).

Definition should_gc (f : conv_ftl) : bool :=
  f.(cf_lm).(free_line_cnt) <=? f.(cf_cp).(gc_thres_lines).

Definition should_gc_high (f : conv_ftl) : bool :=
  f.(cf_lm).(free_line_cnt) <=? f.(cf_cp).(gc_thres_lines_high).

Definition get_maptbl_ent (f : conv_ftl) (lpn : Z) : res ppa := aget f.(maptbl) lpn.

Definition set_maptbl_ent (f : conv_ftl) (lpn : Z) (p : ppa) : res conv_ftl :=
  _ ← nvmev_assert (lpn <? (cf_sp f).(tt_pgs));
  m ← aset f.(maptbl) lpn p;
  Ok (with_maptbl f m).

Definition ppa2pgidx (f : conv_ftl) (p : ppa) : res Z :=
  let spp := cf_sp f in
  let pgidx := u64 (p.(p_ch) * spp.(pgs_per_ch) + p.(p_lun) * spp.(pgs_per_lun) +
                    p.(p_pl) * spp.(pgs_per_pl) + p.(p_blk) * spp.(pgs_per_blk) + p.(p_pg)) in
  _ ← nvmev_assert (pgidx <? spp.(tt_pgs));
  Ok pgidx.

Definition get_rmap_ent (f : conv_ftl) (p : ppa) : res Z :=
  pgidx ← ppa2pgidx f p; aget f.(rmap) pgidx.

Definition set_rmap_ent (f : conv_ftl) (lpn : Z) (p : ppa) : res conv_ftl :=
  pgidx ← ppa2pgidx f p;
  m ← aset f.(rmap) pgidx lpn;
  Ok (with_rmap f m).

Definition mapped_ppa (p : ppa) : bool := negb (ppa_u64 p =? UNMAPPED_PPA).

Definition valid_lpn (f : conv_ftl) (lpn : Z) : bool := lpn <? (cf_sp f).(tt_pgs).

Definition valid_ppa (f : conv_ftl) (p : ppa) : bool :=
  let spp := cf_sp f in
  if (p.(p_ch) <? 0) || (spp.(nchs) <=? p.(p_ch)) then false else
  if (p.(p_lun) <? 0) || (spp.(luns_per_ch) <=? p.(p_lun)) then false else
  if (p.(p_pl) <? 0) || (spp.(pls_per_lun) <=? p.(p_pl)) then false else
  if (p.(p_blk) <? 0) || (spp.(blks_per_pl) <=? p.(p_blk)) then false else
  if (p.(p_pg) <? 0) || (spp.(pgs_per_blk) <=? p.(p_pg)) then false else
  true.

Definition is_same_flash_page (f : conv_ftl) (ppa1 ppa2 : ppa) : res bool :=
  let spp := cf_sp f in
  ppa1_page ← cdiv ppa1.(p_pg) spp.(pgs_per_flashpg);
  ppa2_page ← cdiv ppa2.(p_pg) spp.(pgs_per_flashpg);
  Ok ((blk_in_ssd ppa1 =? blk_in_ssd ppa2) && (u32 ppa1_page =? u32 ppa2_page)).

(** ** Initialisation *)

Definition init_lines (spp : ssdparams) : res line_mgmt :=
  let tt := u32 spp.(blks_per_pl) in
  _ ← nvmev_assert (tt =? spp.(tt_lines));
  let m := {| lm_lines := zrepeat tt (Line 0 0 0 0); free_line_list := []; full_line_list := [];
              victim_line_pq := pqueue_init true true spp.(tt_lines);
              lm_tt_lines := tt; free_line_cnt := 0; victim_line_cnt := 0; full_line_cnt := 0 |} in
  m ← rfold (fun i m =>
        ls ← aset m.(lm_lines) i (Line i 0 0 0);
        m ← list_add_tail_free (with_lines m ls) i;
        Ok (add_cnts m 1 0 0)) (zrange 0 tt) m;
  _ ← nvmev_assert (m.(free_line_cnt) =? tt);
  Ok m.

Definition init_write_flow_control (spp : ssdparams) : write_flow_control :=
  {| write_credits := u32 spp.(pgs_per_line); credits_to_refill := u32 spp.(pgs_per_line) |}.

Definition init_maptbl (spp : ssdparams) : list ppa := zrepeat spp.(tt_pgs) (ppa_of_u64 UNMAPPED_PPA).

Definition init_rmap (spp : ssdparams) : list Z := zrepeat spp.(tt_pgs) INVALID_LPN.

Definition check_addr (a max : Z) : res unit := nvmev_assert ((0 <=? a) && (a <? max)).

(** ** Write pointers *)

Definition get_next_free_line (m : line_mgmt) : line_mgmt * option Z :=
  match m.(free_line_list) with
  | [] => (m, None)
  | id :: _ => (add_cnts (list_del_init m id) (-1) 0 0, Some id)
  end.

Definition __get_wp (f : conv_ftl) (io_type : Z) : res write_pointer :=
  if io_type =? USER_IO then Ok f.(cf_wp)
  else if io_type =? GC_IO then Ok f.(cf_gc_wp)
  else Fault BugOn.

(** [*__get_wp(ftl, io_type) = wp]. *)
Definition set_wp (f : conv_ftl) (io_type : Z) (wp : write_pointer) : conv_ftl :=
  if io_type =? USER_IO
  then ConvFtl f.(cf_ssd) f.(cf_cp) f.(maptbl) f.(rmap) wp f.(cf_gc_wp) f.(cf_lm) f.(cf_wfc)
  else ConvFtl f.(cf_ssd) f.(cf_cp) f.(maptbl) f.(rmap) f.(cf_wp) wp f.(cf_lm) f.(cf_wfc).

Definition prepare_write_pointer (f : conv_ftl) (io_type : Z) : res conv_ftl :=
  _ ← __get_wp f io_type;
  let '(m, curline) := get_next_free_line f.(cf_lm) in
  _ ← nvmev_assert (match curline with Some _ => true | None => false end);
  id ← of_opt NullDeref curline;
  l ← aget m.(lm_lines) id;
  Ok (set_wp (with_lm f m) io_type (WritePointer (Some id) 0 0 0 (u32 l.(ln_id)) 0)).

(** The tail of [advance_write_pointer]: the current line is used up. *)
Definition retire_line (f : conv_ftl) (wpp : write_pointer) : res line_mgmt :=
  let spp := cf_sp f in
  let m := f.(cf_lm) in
  id ← of_opt NullDeref wpp.(wp_curline);
  l ← aget m.(lm_lines) id;
  if u64 l.(ln_vpc) =? spp.(pgs_per_line) then
    _ ← nvmev_assert (l.(ln_ipc) =? 0);
    m ← list_add_tail_full m id;
    Ok (add_cnts m 0 0 1)
  else
    _ ← nvmev_assert ((0 <=? l.(ln_vpc)) && (u64 l.(ln_vpc) <? spp.(pgs_per_line)));
    _ ← nvmev_assert (0 <? l.(ln_ipc));
    r ← pqueue_insert m.(victim_line_pq) id m.(lm_lines);
    Ok (add_cnts (with_pq m r.1.2 r.2) 0 1 0).

Definition advance_write_pointer (f : conv_ftl) (io_type : Z) : res conv_ftl :=
  let spp := cf_sp f in
  wpp ← __get_wp f io_type;
  let moved ch lun pg := set_wp f io_type
    (WritePointer wpp.(wp_curline) ch lun pg wpp.(wp_blk) wpp.(wp_pl)) in
  _ ← check_addr (s32 wpp.(wp_pg)) spp.(pgs_per_blk);
  let pg := u32 (wpp.(wp_pg) + 1) in
  r ← cmod pg spp.(pgs_per_oneshotpg);
  if negb (r =? 0) then Ok (moved wpp.(wp_ch) wpp.(wp_lun) pg) else
  let pg := u32 (pg - spp.(pgs_per_oneshotpg)) in
  _ ← check_addr (s32 wpp.(wp_ch)) spp.(nchs);
  let ch := u32 (wpp.(wp_ch) + 1) in
  if negb (ch =? spp.(nchs)) then Ok (moved ch wpp.(wp_lun) pg) else
  let ch := 0 in
  _ ← check_addr (s32 wpp.(wp_lun)) spp.(luns_per_ch);
  let lun := u32 (wpp.(wp_lun) + 1) in
  if negb (lun =? spp.(luns_per_ch)) then Ok (moved ch lun pg) else
  let lun := 0 in
  let pg := u32 (pg + spp.(pgs_per_oneshotpg)) in
  if negb (pg =? spp.(pgs_per_blk)) then Ok (moved ch lun pg) else
  let pg := 0 in
  m ← retire_line f wpp;
  _ ← check_addr (s32 wpp.(wp_blk)) spp.(blks_per_pl);
  let '(m, curline) := get_next_free_line m in
  id ← of_opt NullDeref curline;
  l ← aget m.(lm_lines) id;
  let blk := u32 l.(ln_id) in
  _ ← check_addr (s32 blk) spp.(blks_per_pl);
  _ ← nvmev_assert (pg =? 0);
  _ ← nvmev_assert (lun =? 0);
  _ ← nvmev_assert (ch =? 0);
  _ ← nvmev_assert (wpp.(wp_pl) =? 0);
  Ok (set_wp (with_lm f m) io_type (WritePointer curline ch lun pg blk wpp.(wp_pl))).

Definition get_new_page (f : conv_ftl) (io_type : Z) : res ppa :=
  wp ← __get_wp f io_type;
  let p := ppa_of_u64 0 in
  let p := set_ch p wp.(wp_ch) in
  let p := set_lun p wp.(wp_lun) in
  let p := set_pg p wp.(wp_pg) in
  let p := set_blk p wp.(wp_blk) in
  let p := set_pl p wp.(wp_pl) in
  _ ← nvmev_assert (p.(p_pl) =? 0);
  Ok p.

(** ** Page and block states *)

Definition get_line (f : conv_ftl) (p : ppa) : res line := aget f.(cf_lm).(lm_lines) p.(p_blk).

Definition set_page_status (st : Z) (g : nand_page) : nand_page := NandPage g.(np_sec) g.(np_nsecs) st.

Definition set_blk_cnts (b : nand_block) (ipc vpc : Z) : nand_block :=
  NandBlock b.(nb_pg) b.(nb_npgs) ipc vpc b.(nb_erase_cnt) b.(nb_wp).

(** The first half of [mark_page_invalid]: the page and its block. *)
Definition invalidate_page (spp : ssdparams) (s : ssd) (p : ppa) : res ssd :=
  pg ← get_pg s p;
  _ ← nvmev_assert (pg.(np_status) =? PG_VALID);
  s ← mod_pg p (fun g => Ok (set_page_status PG_INVALID g)) s;
  blk ← get_blk s p;
  _ ← nvmev_assert ((0 <=? blk.(nb_ipc)) && (blk.(nb_ipc) <? spp.(pgs_per_blk)));
  _ ← nvmev_assert ((0 <? blk.(nb_vpc)) && (blk.(nb_vpc) <=? spp.(pgs_per_blk)));
  mod_blk p (fun b => Ok (set_blk_cnts b (s32 (b.(nb_ipc) + 1)) (s32 (b.(nb_vpc) - 1)))) s.

(** The second half: its line. *)
Definition invalidate_line (spp : ssdparams) (m : line_mgmt) (id : Z) : res line_mgmt :=
  l ← aget m.(lm_lines) id;
  _ ← nvmev_assert ((0 <=? l.(ln_ipc)) && (u64 l.(ln_ipc) <? spp.(pgs_per_line)));
  let was_full_line := u64 l.(ln_vpc) =? spp.(pgs_per_line) in
  _ ← (if was_full_line then nvmev_assert (l.(ln_ipc) =? 0) else Ok ());
  let m := with_lines m (<[id := Line l.(ln_id) (s32 (l.(ln_ipc) + 1)) l.(ln_vpc) l.(ln_pos)]>
                           m.(lm_lines)) in
  _ ← nvmev_assert ((0 <? l.(ln_vpc)) && (u64 l.(ln_vpc) <=? spp.(pgs_per_line)));
  m ← (if negb (l.(ln_pos) =? 0) then
         r ← pqueue_change_priority m.(victim_line_pq) (u64 (s32 (l.(ln_vpc) - 1))) id m.(lm_lines);
         Ok (with_pq m r.1 r.2)
       else
         ls ← amod m.(lm_lines) id (fun l =>
                Ok (Line l.(ln_id) l.(ln_ipc) (s32 (l.(ln_vpc) - 1)) l.(ln_pos)));
         Ok (with_lines m ls));
  if was_full_line then
    let m := add_cnts (list_del_init m id) 0 0 (-1) in
    r ← pqueue_insert m.(victim_line_pq) id m.(lm_lines);
    Ok (add_cnts (with_pq m r.1.2 r.2) 0 1 0)
  else Ok m.

Definition mark_page_invalid (f : conv_ftl) (p : ppa) : res conv_ftl :=
  s ← invalidate_page (cf_sp f) f.(cf_ssd) p;
  m ← invalidate_line (cf_sp f) f.(cf_lm) p.(p_blk);
  Ok (with_lm (with_ssd f s) m).

Definition validate_page (spp : ssdparams) (s : ssd) (p : ppa) : res ssd :=
  pg ← get_pg s p;
  _ ← nvmev_assert (pg.(np_status) =? PG_FREE);
  s ← mod_pg p (fun g => Ok (set_page_status PG_VALID g)) s;
  blk ← get_blk s p;
  _ ← nvmev_assert ((0 <=? blk.(nb_vpc)) && (blk.(nb_vpc) <? spp.(pgs_per_blk)));
  mod_blk p (fun b => Ok (set_blk_cnts b b.(nb_ipc) (s32 (b.(nb_vpc) + 1)))) s.

Definition mark_page_valid (f : conv_ftl) (p : ppa) : res conv_ftl :=
  s ← validate_page (cf_sp f) f.(cf_ssd) p;
  let f := with_ssd f s in
  l ← get_line f p;
  _ ← nvmev_assert ((0 <=? l.(ln_vpc)) && (u64 l.(ln_vpc) <? (cf_sp f).(pgs_per_line)));
  Ok (with_lm f (with_lines f.(cf_lm)
       (<[p.(p_blk) := Line l.(ln_id) l.(ln_ipc) (s32 (l.(ln_vpc) + 1)) l.(ln_pos)]>
          f.(cf_lm).(lm_lines)))).

(** The loop of [mark_block_free] over the pages of a block. *)
Definition free_pages (spp : ssdparams) (b : nand_block) : res nand_block :=
  pgs ← rfold (fun i pgs =>
          amod pgs i (fun g =>
            _ ← nvmev_assert (g.(np_nsecs) =? spp.(secs_per_pg));
            Ok (set_page_status PG_FREE g))) (zrange 0 spp.(pgs_per_blk)) b.(nb_pg);
  Ok (NandBlock pgs b.(nb_npgs) b.(nb_ipc) b.(nb_vpc) b.(nb_erase_cnt) b.(nb_wp)).

Definition mark_block_free (f : conv_ftl) (p : ppa) : res conv_ftl :=
  let spp := cf_sp f in
  s ← mod_blk p (fun b =>
        b ← free_pages spp b;
        _ ← nvmev_assert (b.(nb_npgs) =? spp.(pgs_per_blk));
        Ok (NandBlock b.(nb_pg) b.(nb_npgs) 0 0 (s32 (b.(nb_erase_cnt) + 1)) b.(nb_wp))) f.(cf_ssd);
  Ok (with_ssd f s).

Definition mark_line_free (f : conv_ftl) (p : ppa) : res conv_ftl :=
  l ← get_line f p;
  let m := with_lines f.(cf_lm)
    (<[p.(p_blk) := Line l.(ln_id) 0 0 l.(ln_pos)]> f.(cf_lm).(lm_lines)) in
  m ← list_add_tail_free m p.(p_blk);
  Ok (with_lm f (add_cnts m 1 0 0)).

(** ** Garbage collection *)

Section ftl.
Context `{ChanConfig, Clock}.

(** [ssd_advance_nand(conv_ftl->ssd, &cmd)], the returned time dropped. *)
Definition advance_nand (f : conv_ftl) (cmd : nand_cmd) (h : hw) : res (conv_ftl * hw * Z) :=
  '(s, h, t) ← ssd_advance_nand f.(cf_ssd) cmd h;
  Ok (with_ssd f s, h, t).

Definition gc_read_page (f : conv_ftl) (p : ppa) (h : hw) : res (conv_ftl * hw) :=
  if f.(cf_cp).(enable_gc_delay) then
    '(f, h, _) ← advance_nand f (NandCmd GC_IO NAND_READ (cf_sp f).(pgsz) 0 false p) h;
    Ok (f, h)
  else Ok (f, h).

Definition gc_write_page (f : conv_ftl) (old_ppa : ppa) (h : hw) : res (conv_ftl * hw) :=
  let spp := cf_sp f in
  lpn ← get_rmap_ent f old_ppa;
  _ ← nvmev_assert (valid_lpn f lpn);
  new_ppa ← get_new_page f GC_IO;
  f ← set_maptbl_ent f lpn new_ppa;
  f ← set_rmap_ent f lpn new_ppa;
  f ← mark_page_valid f new_ppa;
  f ← advance_write_pointer f GC_IO;
  if f.(cf_cp).(enable_gc_delay) then
    last_pg ← last_pg_in_wordline f new_ppa;
    let gcw := if last_pg : bool
      then NandCmd GC_IO NAND_WRITE (u64 (s32 (spp.(pgsz) * spp.(pgs_per_oneshotpg)))) 0 false new_ppa
      else NandCmd GC_IO NAND_NOP 0 0 false new_ppa in
    '(f, h, _) ← advance_nand f gcw h;
    Ok (f, h)
  else Ok (f, h).

Definition select_victim_line (f : conv_ftl) (force : bool) : res (conv_ftl * option Z) :=
  let spp := cf_sp f in
  let m := f.(cf_lm) in
  victim ← pqueue_peek m.(victim_line_pq);
  match victim with
  | None => Ok (f, None)
  | Some id =>
      l ← aget m.(lm_lines) id;
      if negb force && (spp.(pgs_per_line) `div` 8 <? u64 l.(ln_vpc)) then Ok (f, None) else
      r ← pqueue_pop m.(victim_line_pq) m.(lm_lines);
      ls ← amod r.2 id (fun l => Ok (Line l.(ln_id) l.(ln_ipc) l.(ln_vpc) 0));
      Ok (with_lm f (add_cnts (with_pq m r.1.2 ls) 0 (-1) 0), Some id)
  end.

(** The body of [clean_one_block] is reached from no caller. *)
Definition clean_one_block (f : conv_ftl) (p : ppa) (h : hw) : res (conv_ftl * hw) :=
  let spp := cf_sp f in
  '(f, h, cnt) ← rfold (fun pg '(f, h, cnt) =>
      let p := set_pg p pg in
      pg_iter ← get_pg f.(cf_ssd) p;
      _ ← nvmev_assert (negb (pg_iter.(np_status) =? PG_FREE));
      if pg_iter.(np_status) =? PG_VALID then
        '(f, h) ← gc_read_page f p h;
        '(f, h) ← gc_write_page f p h;
        Ok (f, h, cnt + 1)
      else Ok (f, h, cnt)) (zrange 0 spp.(pgs_per_blk)) (f, h, 0);
  blk ← get_blk f.(cf_ssd) p;
  _ ← nvmev_assert (blk.(nb_vpc) =? cnt);
  Ok (f, h).

(** The two loops over the pages of a flash page; [ppa_copy] is [ppa] with its
    page field incremented. *)
Definition count_valid (f : conv_ftl) (p : ppa) : res Z :=
  rfold (fun i cnt =>
    pg_iter ← get_pg f.(cf_ssd) (set_pg p (p.(p_pg) + i));
    _ ← nvmev_assert (negb (pg_iter.(np_status) =? PG_FREE));
    Ok (if pg_iter.(np_status) =? PG_VALID then cnt + 1 else cnt))
    (zrange 0 (cf_sp f).(pgs_per_flashpg)) 0.

Definition move_page (p : ppa) (i : Z) (st : conv_ftl * hw) : res (conv_ftl * hw) :=
  let '(f, h) := st in
  let p := set_pg p (p.(p_pg) + i) in
  pg_iter ← get_pg f.(cf_ssd) p;
  if pg_iter.(np_status) =? PG_VALID then gc_write_page f p h else Ok (f, h).

Definition clean_one_flashpg (f : conv_ftl) (p : ppa) (h : hw) : res (conv_ftl * hw) :=
  let spp := cf_sp f in
  cnt ← count_valid f p;
  if cnt <=? 0 then Ok (f, h) else
  '(f, h) ← (if f.(cf_cp).(enable_gc_delay) then
               '(f, h, _) ← advance_nand f
                 (NandCmd GC_IO NAND_READ (u64 (s32 (spp.(pgsz) * cnt))) 0 false p) h;
               Ok (f, h)
             else Ok (f, h));
  rfold (move_page p) (zrange 0 spp.(pgs_per_flashpg)) (f, h).

(** [ppa] of [do_gc]: its field [rsv] is never written, and never matters
    since [pl] is 0. *)
Definition gc_ppa (blk pg ch lun : Z) : ppa :=
  set_pl (set_lun (set_ch (set_pg (set_blk (ppa_of_u64 0) blk) pg) ch) lun) 0.

(** The erasure of a block after its last flash page is clean. *)
Definition erase_block (f : conv_ftl) (p : ppa) (h : hw) : res (conv_ftl * hw) :=
  f ← mark_block_free f p;
  '(f, h) ← (if f.(cf_cp).(enable_gc_delay) then
               '(f, h, _) ← advance_nand f (NandCmd GC_IO NAND_ERASE 0 0 false p) h;
               Ok (f, h)
             else Ok (f, h));
  lun ← get_lun f.(cf_ssd) p;
  s ← set_lun_gc_endtime p lun.(nl_next_lun_avail_time) f.(cf_ssd);
  Ok (with_ssd f s, h).

(** The body of the three loops of [do_gc]. *)
Definition gc_step (victim flashpg ch lun : Z) (st : conv_ftl * hw) : res (conv_ftl * hw) :=
  let '(f, h) := st in
  let spp := cf_sp f in
  let p := gc_ppa victim (s32 (flashpg * spp.(pgs_per_flashpg))) ch lun in
  _ ← get_lun f.(cf_ssd) p;
  '(f, h) ← clean_one_flashpg f p h;
  if flashpg =? spp.(flashpgs_per_blk) - 1 then erase_block f p h else Ok (f, h).

Definition gc_loops (victim : Z) (f : conv_ftl) (h : hw) : res (conv_ftl * hw) :=
  let spp := cf_sp f in
  rfold (fun flashpg =>
    rfold (fun ch =>
      rfold (fun lun => gc_step victim flashpg ch lun) (zrange 0 spp.(luns_per_ch)))
      (zrange 0 spp.(nchs)))
    (zrange 0 spp.(flashpgs_per_blk)) (f, h).

Definition do_gc (f : conv_ftl) (force : bool) (h : hw) : res (conv_ftl * hw * Z) :=
  '(f, victim) ← select_victim_line f force;
  match victim with
  | None => Ok (f, h, -1)
  | Some id =>
      l ← aget f.(cf_lm).(lm_lines) id;
      let f := with_wfc f (Wfc f.(cf_wfc).(write_credits) (u32 l.(ln_ipc))) in
      '(f, h) ← gc_loops l.(ln_id) f h;
      f ← mark_line_free f (gc_ppa l.(ln_id) 0 0 0);
      Ok (f, h, 0)
  end.

Definition foreground_gc (f : conv_ftl) (h : hw) : res (conv_ftl * hw) :=
  if should_gc_high f then '(f, h, _) ← do_gc f true h; Ok (f, h) else Ok (f, h).

(** ** Write flow control *)

Definition consume_write_credit (f : conv_ftl) : conv_ftl :=
  with_wfc f (Wfc (u32 (f.(cf_wfc).(write_credits) - 1)) f.(cf_wfc).(credits_to_refill)).

Definition check_and_refill_write_credit (f : conv_ftl) (h : hw) : res (conv_ftl * hw) :=
  if f.(cf_wfc).(write_credits) <=? 0 then
    '(f, h) ← foreground_gc f h;
    let w := f.(cf_wfc) in
    Ok (with_wfc f (Wfc (u32 (w.(write_credits) + w.(credits_to_refill))) w.(credits_to_refill)), h)
  else Ok (f, h).

(** ** Life cycle of a namespace *)

Definition conv_init_params `{SsdConfig} : convparams :=
  {| op_area_hundredths := OP_AREA_HUNDREDTHS; gc_thres_lines := 2; gc_thres_lines_high := 2;
     enable_gc_delay := true; pba_pcent := s32 (100 + OP_AREA_HUNDREDTHS) |}.

Definition conv_init_ftl (cpp : convparams) (s : ssd) : res conv_ftl :=
  let spp := s.(sd_sp) in
  let nowhere := WritePointer None 0 0 0 0 0 in
  lm ← init_lines spp;
  let f := {| cf_cp := cpp; cf_ssd := s; maptbl := init_maptbl spp; rmap := init_rmap spp;
              cf_wp := nowhere; cf_gc_wp := nowhere; cf_lm := lm; cf_wfc := Wfc 0 0 |} in
  f ← prepare_write_pointer f USER_IO;
  f ← prepare_write_pointer f GC_IO;
  Ok (with_wfc f (init_write_flow_control spp)).

Definition NVME_CSI_NVM : Z := 0.

Record conv_ns := ConvNs {
  cn_id : Z; cn_csi : Z; cn_size : Z; cn_nr_parts : Z; cn_ftls : list conv_ftl; cn_mapped : Z
}.

(** Partition [i] of a namespace drops its own link and write buffer for those
    of partition 0. *)
Definition share_hw (s0 s : ssd) (h : hw) : res (ssd * hw) :=
  pcie ← kfree h.(hw_pcie) s.(sd_pcie);
  wbuf ← kfree h.(hw_wbuf) s.(sd_write_buffer);
  Ok (Ssd s.(sd_sp) s.(sd_ch) s0.(sd_pcie) s0.(sd_write_buffer) s.(sd_cpu_nr_dispatcher),
      Hw h.(hw_tick) pcie wbuf h.(hw_sched)).

Definition conv_init_namespace `{SsdConfig} (id size mapped_addr cpu_nr_dispatcher : Z) (h : hw) :
    res (conv_ns * hw) :=
  let nr_parts := u32 SSD_PARTITIONS in
  spp ← ssd_init_params size nr_parts;
  let cpp := conv_init_params in
  '(ftls, h) ← rfold (fun _ '(ftls, h) =>
      '(s, h) ← ssd_init spp cpu_nr_dispatcher h;
      f ← conv_init_ftl cpp s;
      Ok (ftls ++ [f], h)) (zrange 0 nr_parts) ([], h);
  '(ftls, h) ← rfold (fun i '(ftls, h) =>
      f0 ← aget ftls 0;
      f ← aget ftls i;
      '(s, h) ← share_hw f0.(cf_ssd) f.(cf_ssd) h;
      Ok (<[i := with_ssd f s]> ftls, h)) (zrange 1 nr_parts) (ftls, h);
  ns_size ← cdiv (u64 (size * 100)) cpp.(pba_pcent);
  Ok ({| cn_id := id; cn_csi := NVME_CSI_NVM; cn_nr_parts := nr_parts; cn_ftls := ftls;
         cn_size := ns_size; cn_mapped := mapped_addr |}, h).

Definition conv_remove_namespace `{SsdConfig} (ns : conv_ns) (h : hw) : res hw :=
  let nr_parts := u32 SSD_PARTITIONS in
  ftls ← rfold (fun i ftls =>
      amod ftls i (fun f =>
        let s := f.(cf_ssd) in
        Ok (with_ssd f (Ssd s.(sd_sp) s.(sd_ch) None None s.(sd_cpu_nr_dispatcher)))))
    (zrange 1 nr_parts) ns.(cn_ftls);
  rfold (fun i h => f ← aget ftls i; ssd_remove f.(cf_ssd) h) (zrange 0 nr_parts) h.

(** ** I/O commands *)

(** The fields of [struct nvme_command] that the FTLs read. *)
Record rw_command := RwCommand { rw_opcode : Z; rw_slba : Z; rw_length : Z; rw_control : Z }.
Record nvmev_request := Request { rq_cmd : rw_command; rq_sq_id : Z; rq_nsecs_start : Z }.
Record nvmev_result := Result { rs_status : Z; rs_nsecs_target : Z }.

Definition nvme_cmd_flush : Z := 0.
Definition nvme_cmd_write : Z := 1.
Definition nvme_cmd_read : Z := 2.
Definition NVME_SC_SUCCESS : Z := 0.
Definition NVME_RW_FUA : Z := Z.shiftl 1 14.

(** [schedule_internal_operation]: what it does with the call is io.c's. *)
Definition schedule_internal_operation (sqid nsecs_target : Z) (buf : option Z) (size : Z) (h : hw) : hw :=
  Hw h.(hw_tick) h.(hw_pcie) h.(hw_wbuf) (h.(hw_sched) ++ [InternalOp sqid nsecs_target buf size]).

(** The state of the read loops: [rd_ftl] is [conv_ftls[start_lpn % nr_parts]]. *)
Record reading := Reading {
  rd_ftl : conv_ftl; rd_hw : hw; rd_prev : ppa; rd_xfer_size : Z; rd_latest : Z
}.

Definition issue_read (stime : Z) (r : reading) : res reading :=
  if 0 <? r.(rd_xfer_size) then
    '(f, h, t) ← advance_nand r.(rd_ftl)
      (NandCmd USER_IO NAND_READ r.(rd_xfer_size) stime true r.(rd_prev)) r.(rd_hw);
    Ok (Reading f h r.(rd_prev) r.(rd_xfer_size) (Z.max t r.(rd_latest)))
  else Ok r.

Definition read_lpn (spp : ssdparams) (stime nr_parts lpn : Z) (r : reading) : res reading :=
  local_lpn ← cdiv lpn nr_parts;
  cur_ppa ← get_maptbl_ent r.(rd_ftl) local_lpn;
  if negb (mapped_ppa cur_ppa) || negb (valid_ppa r.(rd_ftl) cur_ppa) then Ok r else
  same ← (if mapped_ppa r.(rd_prev) then is_same_flash_page r.(rd_ftl) cur_ppa r.(rd_prev) else Ok false);
  if same : bool
  then Ok (Reading r.(rd_ftl) r.(rd_hw) r.(rd_prev) (u32 (r.(rd_xfer_size) + spp.(pgsz))) r.(rd_latest))
  else
    r ← issue_read stime r;
    Ok (Reading r.(rd_ftl) r.(rd_hw) cur_ppa (u32 spp.(pgsz)) r.(rd_latest)).

Definition conv_read `{SsdConfig} (ns : conv_ns) (req : nvmev_request) (ret : nvmev_result) (h : hw) :
    res (conv_ns * hw * nvmev_result * bool) :=
  let nr_parts := ns.(cn_nr_parts) in
  f0 ← aget ns.(cn_ftls) 0;
  let spp := cf_sp f0 in
  let cmd := req.(rq_cmd) in
  let lba := cmd.(rw_slba) in
  let nr_lba := cmd.(rw_length) + 1 in
  start_lpn ← cdiv lba spp.(secs_per_pg);
  end_lpn ← cdiv (u64 (u64 (lba + nr_lba) - 1)) spp.(secs_per_pg);
  e ← cdiv end_lpn nr_parts;
  if spp.(tt_pgs) <=? e then Ok (ns, h, ret, false) else
  let stime := if LBA_TO_BYTE nr_lba <=? u32 (KB 4 * nr_parts)
    then u64 (req.(rq_nsecs_start) + spp.(fw_4kb_rd_lat))
    else u64 (req.(rq_nsecs_start) + spp.(fw_rd_lat)) in
  '(ftls, h, latest) ← rfold (fun i '(ftls, h, latest) =>
      let start_lpn := start_lpn + i in
      if end_lpn <? start_lpn then Ok (ftls, h, latest) else
      p ← cmod start_lpn nr_parts;
      f ← aget ftls p;
      local_lpn ← cdiv start_lpn nr_parts;
      prev_ppa ← get_maptbl_ent f local_lpn;
      r ← rfold (read_lpn spp stime nr_parts) (zsteps start_lpn end_lpn nr_parts)
            (Reading f h prev_ppa 0 latest);
      r ← issue_read stime r;
      Ok (<[p := r.(rd_ftl)]> ftls, r.(rd_hw), r.(rd_latest)))
    (zrange 0 nr_parts) (ns.(cn_ftls), h, req.(rq_nsecs_start));
  Ok (ConvNs ns.(cn_id) ns.(cn_csi) ns.(cn_size) nr_parts ftls ns.(cn_mapped), h,
      Result NVME_SC_SUCCESS latest, true).

(** The body of the write loop, up to the timing, for one page of [f]. *)
Definition write_page (f : conv_ftl) (local_lpn : Z) : res (conv_ftl * ppa) :=
  p ← get_maptbl_ent f local_lpn;
  f ← (if mapped_ppa p then
         f ← mark_page_invalid f p;
         set_rmap_ent f INVALID_LPN p
       else Ok f);
  p ← get_new_page f USER_IO;
  f ← set_maptbl_ent f local_lpn p;
  f ← set_rmap_ent f local_lpn p;
  f ← mark_page_valid f p;
  f ← advance_write_pointer f USER_IO;
  Ok (f, p).

(** The body of the write loop. *)
Definition write_lpn (spp : ssdparams) (sqid : Z) (wbuf : option Z) (stime local_lpn : Z)
    (f : conv_ftl) (h : hw) (latest : Z) : res (conv_ftl * hw * Z) :=
  '(f, p) ← write_page f local_lpn;
  last_pg ← last_pg_in_wordline f p;
  '(f, h, latest) ← (if last_pg : bool then
      '(f, h, t) ← advance_nand f
        (NandCmd USER_IO NAND_WRITE (u64 (s32 (spp.(pgsz) * spp.(pgs_per_oneshotpg)))) stime false p) h;
      Ok (f, schedule_internal_operation sqid t wbuf (u64 (s32 (spp.(pgs_per_oneshotpg) * spp.(pgsz)))) h,
          Z.max t latest)
    else Ok (f, h, latest));
  let f := consume_write_credit f in
  '(f, h) ← check_and_refill_write_credit f h;
  Ok (f, h, latest).

Definition conv_write `{SsdConfig} (ns : conv_ns) (req : nvmev_request) (ret : nvmev_result) (h : hw) :
    res (conv_ns * hw * nvmev_result * bool) :=
  let nr_parts := ns.(cn_nr_parts) in
  f0 ← aget ns.(cn_ftls) 0;
  let spp := cf_sp f0 in
  let wbuf := f0.(cf_ssd).(sd_write_buffer) in
  let cmd := req.(rq_cmd) in
  let lba := cmd.(rw_slba) in
  let nr_lba := cmd.(rw_length) + 1 in
  start_lpn ← cdiv lba spp.(secs_per_pg);
  end_lpn ← cdiv (u64 (u64 (lba + nr_lba) - 1)) spp.(secs_per_pg);
  e ← cdiv end_lpn nr_parts;
  if spp.(tt_pgs) <=? e then Ok (ns, h, ret, false) else
  buf ← deref h.(hw_wbuf) wbuf;
  '(buf, allocated_buf_size) ← buffer_allocate buf (LBA_TO_BYTE nr_lba);
  bufs ← store h.(hw_wbuf) wbuf buf;
  let h := Hw h.(hw_tick) h.(hw_pcie) bufs h.(hw_sched) in
  if allocated_buf_size <? LBA_TO_BYTE nr_lba then Ok (ns, h, ret, false) else
  '(h, nsecs_xfer_completed) ←
    ssd_advance_write_buffer f0.(cf_ssd) req.(rq_nsecs_start) (LBA_TO_BYTE nr_lba) h;
  '(ftls, h, latest) ← rfold (fun lpn '(ftls, h, latest) =>
      p ← cmod lpn nr_parts;
      f ← aget ftls p;
      local_lpn ← cdiv lpn nr_parts;
      '(f, h, latest) ← write_lpn spp req.(rq_sq_id) wbuf nsecs_xfer_completed local_lpn f h latest;
      Ok (<[p := f]> ftls, h, latest))
    (zrange start_lpn (end_lpn + 1)) (ns.(cn_ftls), h, nsecs_xfer_completed);
  let target :=
    if negb (Z.land cmd.(rw_control) NVME_RW_FUA =? 0) || negb spp.(write_early_completion)
    then latest else nsecs_xfer_completed in
  Ok (ConvNs ns.(cn_id) ns.(cn_csi) ns.(cn_size) nr_parts ftls ns.(cn_mapped), h,
      Result NVME_SC_SUCCESS target, true).

Definition conv_flush (ns : conv_ns) (req : nvmev_request) (h : hw) : res (hw * nvmev_result) :=
  let start := local_clock h.(hw_tick) in
  '(h, latest) ← rfold (fun i '(h, latest) =>
      f ← aget ns.(cn_ftls) i;
      '(h, t) ← ssd_next_idle_time f.(cf_ssd) h;
      Ok (h, Z.max latest t)) (zrange 0 ns.(cn_nr_parts)) (h, start);
  Ok (h, Result NVME_SC_SUCCESS latest).

(** An opcode that is not implemented leaves the result as it was. *)
Definition conv_proc_nvme_io_cmd `{SsdConfig} (ns : conv_ns) (req : nvmev_request) (ret : nvmev_result)
    (h : hw) : res (conv_ns * hw * nvmev_result * bool) :=
  _ ← nvmev_assert (ns.(cn_csi) =? NVME_CSI_NVM);
  let op := req.(rq_cmd).(rw_opcode) in
  if op =? nvme_cmd_write then conv_write ns req ret h
  else if op =? nvme_cmd_read then conv_read ns req ret h
  else if op =? nvme_cmd_flush then '(h, ret) ← conv_flush ns req h; Ok (ns, h, ret, true)
  else Ok (ns, h, ret, true).
End ftl.
