(* ===== verification/ConvInv.v ===== *)
(** * The invariant of the conventional FTL

    Definitions and basic facts: the pages of a line and the order in which a
    write pointer visits them, the index of a page in [rmap], the page
    statuses as a function, the structural invariant [lines_ok] of the lines
    and their lists, and the mapping invariant [maps_ok] of the two tables. *)

From stdpp Require Import prelude list list_tactics.
From Stdlib Require Import ZArith Lia.
From S2P Require Import Prelude ChannelModel Pqueue SsdConfig Ssd ConvFtl.

(** ** The pages of a line

    A page of a line is its channel, die and page number. *)
Definition coord : Type := Z * Z * Z.
Definition c_ch (x : coord) : Z := x.1.1.
Definition c_lun (x : coord) : Z := x.1.2.
Definition c_pg (x : coord) : Z := x.2.

Definition in_line (sp : ssdparams) (x : coord) : Prop :=
  0 <= c_ch x < sp.(nchs) /\ 0 <= c_lun x < sp.(luns_per_ch) /\ 0 <= c_pg x < sp.(pgs_per_blk).

#[global] Instance in_line_dec sp x : Decision (in_line sp x).
Proof. unfold in_line. apply _. Defined.

Definition ppa_at (b : Z) (x : coord) : ppa := Ppa (c_pg x) b 0 (c_lun x) (c_ch x) 0.

(** The pages of the flash page [fp] on one die, and of a line in the order in
    which garbage collection visits them. *)
Definition flash_coords (sp : ssdparams) (fp c l : Z) : list coord :=
  (fun i => (c, l, fp * sp.(pgs_per_flashpg) + i)) <$> zrange 0 sp.(pgs_per_flashpg).

Definition dies (sp : ssdparams) : list (Z * Z * Z) :=
  fp ← zrange 0 sp.(flashpgs_per_blk);
  c ← zrange 0 sp.(nchs);
  (fun l => (fp, c, l)) <$> zrange 0 sp.(luns_per_ch).

Definition coords (sp : ssdparams) : list coord :=
  d ← dies sp; flash_coords sp d.1.1 d.1.2 d.2.

(** The order of a write pointer: the one-shot page of all dies, then the next
    one; [before sp x y] when [x] is written before [y]. *)
Definition before (sp : ssdparams) (x y : coord) : Prop :=
  let os := sp.(pgs_per_oneshotpg) in
  let q z := c_pg z `div` os in
  let r z := c_pg z `mod` os in
  q x < q y \/ (q x = q y /\ (c_lun x < c_lun y \/ (c_lun x = c_lun y /\
    (c_ch x < c_ch y \/ (c_ch x = c_ch y /\ r x < r y))))).

#[global] Instance before_dec sp x y : Decision (before sp x y).
Proof. unfold before. apply _. Defined.

Section geometry.
Context (sp : ssdparams) (Hp : params_ok sp).

Lemma elem_of_dies fp c l :
  (fp, c, l) ∈ dies sp <->
  0 <= fp < sp.(flashpgs_per_blk) /\ 0 <= c < sp.(nchs) /\ 0 <= l < sp.(luns_per_ch).
Proof.
  unfold dies. rewrite elem_of_bind_intro. split.
  - intros (fp' & Hfp & Hfp'). apply elem_of_bind_intro in Hfp as (c' & Hc & Hc').
    apply list_elem_of_fmap in Hc as (l' & [= -> -> ->] & Hl).
    rewrite elem_of_zrange in Hfp', Hc', Hl. done.
  - intros (Hfp & Hc & Hl). exists fp. split; [|by apply elem_of_zrange].
    apply elem_of_bind_intro. exists c. split; [|by apply elem_of_zrange].
    apply list_elem_of_fmap. exists l. split; [done|by apply elem_of_zrange].
Qed.

Lemma elem_of_flash_coords fp c l x :
  x ∈ flash_coords sp fp c l <->
  c_ch x = c /\ c_lun x = l /\
  fp * sp.(pgs_per_flashpg) <= c_pg x < (fp + 1) * sp.(pgs_per_flashpg).
Proof.
  unfold flash_coords. rewrite list_elem_of_fmap. setoid_rewrite elem_of_zrange.
  destruct x as [[cx lx] gx]. unfold c_ch, c_lun, c_pg. simpl. split.
  - intros (i & [= -> -> ->] & Hi). lia.
  - intros (-> & -> & Hg). exists (gx - fp * sp.(pgs_per_flashpg)). split; [f_equal; lia|lia].
Qed.

Lemma elem_of_coords x : x ∈ coords sp <-> in_line sp x.
Proof.
  pose proof (po_flash _ Hp) as Hf. pose proof (po_blk_flash _ Hp) as Hb.
  unfold coords. rewrite elem_of_bind_intro. unfold in_line. split.
  - intros ([[fp c] l] & Hx & Hd). apply elem_of_dies in Hd. simpl in Hx.
    apply elem_of_flash_coords in Hx. rewrite Hb. nia.
  - intros (Hc & Hl & Hg).
    pose proof (Z.div_mod (c_pg x) sp.(pgs_per_flashpg) ltac:(lia)).
    pose proof (Z.mod_pos_bound (c_pg x) sp.(pgs_per_flashpg) ltac:(lia)).
    exists (c_pg x `div` sp.(pgs_per_flashpg), c_ch x, c_lun x). simpl.
    rewrite elem_of_flash_coords, elem_of_dies. split; [lia|].
    split; [|lia]. split; [apply Z.div_pos; lia|]. apply Z.div_lt_upper_bound; lia.
Qed.

Lemma NoDup_dies : NoDup (dies sp).
Proof.
  unfold dies. apply NoDup_bind_disjoint; [apply NoDup_zrange| |].
  - intros fp _. apply NoDup_bind_disjoint; [apply NoDup_zrange| |].
    + intros c _. apply NoDup_fmap_2, NoDup_zrange. intros ?? [=]; done.
    + intros c c' z _ _ (?&->&_)%list_elem_of_fmap (?&[=]&_)%list_elem_of_fmap. done.
  - intros fp fp' z _ _ (c&(?&->&_)%list_elem_of_fmap&_)%elem_of_bind_intro
      (c'&(?&[=]&_)%list_elem_of_fmap&_)%elem_of_bind_intro. done.
Qed.

Lemma NoDup_coords : NoDup (coords sp).
Proof.
  pose proof (po_flash _ Hp) as Hf.
  unfold coords. apply NoDup_bind_disjoint; [apply NoDup_dies| |].
  - intros [[fp c] l] _. simpl. apply NoDup_fmap_2, NoDup_zrange. intros ?? [=]; lia.
  - intros [[fp c] l] [[fp' c'] l'] z _ _. simpl.
    intros (<- & <- & Hz)%elem_of_flash_coords (-> & -> & Hz')%elem_of_flash_coords.
    assert (fp = fp') as -> by nia. done.
Qed.

Lemma zlen_coords : zlen (coords sp) = sp.(pgs_per_line).
Proof.
  pose proof (po_flash _ Hp). pose proof (po_flashes _ Hp). pose proof (po_nchs _ Hp).
  pose proof (po_luns _ Hp).
  unfold coords. rewrite (zlen_bind_const _ _ sp.(pgs_per_flashpg)).
  - unfold dies. rewrite (zlen_bind_const _ _ (sp.(nchs) * sp.(luns_per_ch))).
    + rewrite zlen_zrange, (po_pgs_per_line _ Hp), (po_tt_luns _ Hp), (po_blk_flash _ Hp) by lia. lia.
    + intros fp _. rewrite (zlen_bind_const _ _ sp.(luns_per_ch)).
      * rewrite zlen_zrange by lia. lia.
      * intros c _. rewrite zlen_fmap, zlen_zrange by lia. lia.
  - intros d _. unfold flash_coords. rewrite zlen_fmap, zlen_zrange by lia. lia.
Qed.

Lemma coord_eq (x y : coord) : c_ch x = c_ch y -> c_lun x = c_lun y -> c_pg x = c_pg y -> x = y.
Proof. destruct x as [[??]?], y as [[??]?]. unfold c_ch, c_lun, c_pg. simpl. congruence. Qed.

(** ** The write order is a total order *)
Lemma before_irrefl x : ~ before sp x x.
Proof. unfold before. lia. Qed.

Lemma before_total x y : before sp x y \/ x = y \/ before sp y x.
Proof.
  pose proof (po_oneshot _ Hp).
  destruct (decide (before sp x y)) as [?|Hxy]; [by left|].
  destruct (decide (before sp y x)) as [?|Hyx]; [by right; right|]. right; left.
  pose proof (Z.div_mod (c_pg x) sp.(pgs_per_oneshotpg) ltac:(lia)).
  pose proof (Z.div_mod (c_pg y) sp.(pgs_per_oneshotpg) ltac:(lia)).
  unfold before in *.
  remember (c_pg x `div` _) as qx. remember (c_pg y `div` _) as qy.
  remember (c_pg x `mod` _) as rx. remember (c_pg y `mod` _) as ry.
  assert (qx = qy) as Eq by lia. assert (rx = ry) as Er by lia.
  apply coord_eq; [lia|lia|]. rewrite Eq, Er in *. lia.
Qed.

Lemma before_trans x y z : before sp x y -> before sp y z -> before sp x z.
Proof using. unfold before. lia. Qed.

Lemma oneshot_pg q r :
  0 <= r < sp.(pgs_per_oneshotpg) ->
  (q * sp.(pgs_per_oneshotpg) + r) `div` sp.(pgs_per_oneshotpg) = q /\
  (q * sp.(pgs_per_oneshotpg) + r) `mod` sp.(pgs_per_oneshotpg) = r.
Proof.
  intros Hr. rewrite Z.div_add_l, (Z.add_comm (_ * _)), Z.mod_add by lia.
  rewrite Z.div_small, Z.mod_small by lia. lia.
Qed.

(** ** The index of a page in [rmap] *)
Definition pgidx (b : Z) (x : coord) : Z :=
  ((c_ch x * sp.(luns_per_ch) + c_lun x) * sp.(blks_per_pl) + b) * sp.(pgs_per_blk) + c_pg x.

Lemma radix_inj n a r a' r' :
  0 <= r < n -> 0 <= r' < n -> a * n + r = a' * n + r' -> a = a' /\ r = r'.
Proof. intros. assert (a = a') by nia. lia. Qed.

Lemma pgidx_inj b x b' x' :
  in_line sp x -> in_line sp x' -> 0 <= b < sp.(blks_per_pl) -> 0 <= b' < sp.(blks_per_pl) ->
  pgidx b x = pgidx b' x' -> b = b' /\ x = x'.
Proof.
  unfold pgidx. intros (Hc & Hl & Hg) (Hc' & Hl' & Hg') Hb Hb' E.
  apply radix_inj in E as [E Eg]; [|done|done].
  apply radix_inj in E as [E Eb]; [|done|done].
  apply radix_inj in E as [Ec El]; [|done|done].
  split; [done|by apply coord_eq].
Qed.

Hypothesis Hpl : sp.(pls_per_lun) = 1.

Lemma tt_pgs_eq :
  sp.(tt_pgs) = ((sp.(nchs) * sp.(luns_per_ch)) * sp.(blks_per_pl)) * sp.(pgs_per_blk).
Proof.
  rewrite (po_tt_pgs _ Hp), (po_pgs_per_ch _ Hp), (po_pgs_per_lun _ Hp), (po_pgs_per_pl _ Hp), Hpl. lia.
Qed.

Lemma pgidx_range b x :
  in_line sp x -> 0 <= b < sp.(blks_per_pl) -> 0 <= pgidx b x < sp.(tt_pgs).
Proof.
  intros (Hc & Hl & Hg) Hb. rewrite tt_pgs_eq. unfold pgidx.
  assert (0 <= c_ch x * luns_per_ch sp + c_lun x <= nchs sp * luns_per_ch sp - 1) by nia.
  assert (0 <= (c_ch x * luns_per_ch sp + c_lun x) * blks_per_pl sp + b
    <= nchs sp * luns_per_ch sp * blks_per_pl sp - 1) by nia.
  nia.
Qed.

Lemma tt_pgs_line : sp.(tt_pgs) = sp.(blks_per_pl) * sp.(pgs_per_line).
Proof. rewrite tt_pgs_eq, (po_pgs_per_line _ Hp), (po_tt_luns _ Hp). lia. Qed.

Lemma pgs_per_line_bounds : 0 < sp.(pgs_per_line) <= sp.(tt_pgs).
Proof.
  rewrite tt_pgs_line. pose proof (po_blks _ Hp).
  assert (0 < sp.(pgs_per_line)).
  { rewrite (po_pgs_per_line _ Hp), (po_tt_luns _ Hp).
    pose proof (po_nchs _ Hp). pose proof (po_luns _ Hp). pose proof (po_pgs _ Hp).
    apply Z.mul_pos_pos; [apply Z.mul_pos_pos|]; lia. }
  nia.
Qed.
End geometry.

(** ** The victim queue over the lines *)

Definition queueable (l : line) : Prop := 0 <= l.(ln_vpc) < 2147483648.

Definition unpos (l : line) : Z * Z * Z := (l.(ln_id), l.(ln_ipc), l.(ln_vpc)).

Definition put_vpc (ls : list line) (a v : Z) : list line :=
  match ls !! a with
  | Some l => <[a := Line l.(ln_id) l.(ln_ipc) v l.(ln_pos)]> ls
  | None => ls
  end.

Lemma put_vpc_lookup ls a v b :
  put_vpc ls a v !! b =
  if decide (b = a) then (fun l => Line l.(ln_id) l.(ln_ipc) v l.(ln_pos)) <$> (ls !! a) else ls !! b.
Proof.
  unfold put_vpc. destruct (ls !! a) as [l|] eqn:E.
  - rewrite zlookup_zinsert by (by eapply zlookup_Some_range).
    destruct (decide (b = a)) as [->|]; [by rewrite decide_True|by rewrite decide_False by congruence].
  - case_decide; [by subst|done].
Qed.

Definition line_vpc (ls : list line) (a : Z) : Z := default 0 (ln_vpc <$> ls !! a).
Definition line_pos (ls : list line) (a : Z) : Z := default 0 (ln_pos <$> ls !! a).
Definition line_node (ls : list line) (a : Z) : Prop := exists l, ls !! a = Some l /\ queueable l.

#[global, refine] Instance victim_line_laws : PqLaws (list line) := {|
  node_ok := line_node;
  pri_ok := fun v => 0 <= v < 2147483648;
  pri_of := line_vpc;
  pos_of := line_pos;
  put_pri := fun ls a v => put_vpc ls a (s32 v);
  frame := fun ls ls' => forall i : Z, unpos <$> (ls' !! i) = unpos <$> (ls !! i)
|}.
Proof.
  - split; [done|]. intros a b c Hab Hbc i. by rewrite Hbc, Hab.
  - intros ls ls' y Hf. specialize (Hf y). unfold line_vpc.
    destruct (ls !! y), (ls' !! y); simpl in *; unfold unpos in *; congruence.
  - intros ls ls' y Hf. specialize (Hf y). unfold line_node, queueable.
    destruct (ls !! y) as [l|], (ls' !! y) as [l'|]; simpl in *; unfold unpos in *; try done.
    assert (ln_vpc l' = ln_vpc l) as E by congruence.
    split; intros (? & [= <-] & ?); [exists l|exists l']; (split; [done|lia]).
  - intros ls a (l & E & Hl). simpl. unfold line_vpc. rewrite (aget_Some _ _ _ E), E. simpl.
    unfold queueable in Hl. by unwrap.
  - intros ls a (l & E & Hl). simpl. unfold line_pos. by rewrite (aget_Some _ _ _ E), E.
  - intros ls a p (l & E & Hl) Hp. simpl. pose proof (zlookup_Some_range _ _ _ E).
    eapply amod_okp; [done|]. simpl. unwrap. split; [|split].
    + intros i. rewrite zlookup_zinsert by done. case_decide; [subst; by rewrite E|done].
    + unfold line_pos. by rewrite zlookup_zinsert_eq.
    + intros y Hy. unfold line_pos. by rewrite zlookup_zinsert_ne by done.
  - intros ls a v (l & E & Hl). simpl. unfold put_vpc. rewrite E. by erewrite amod_Ok.
  - intros ls a v (l & E & Hl) Hv. rewrite s32_small by lia. unfold line_vpc, line_pos, line_node.
    split; [|split; [|split]].
    + rewrite put_vpc_lookup, decide_True, E by done. done.
    + intros y Hy. by rewrite put_vpc_lookup, decide_False.
    + intros y. rewrite put_vpc_lookup. case_decide; [subst; by rewrite E|done].
    + intros y. rewrite put_vpc_lookup. case_decide; [subst y; rewrite E; simpl|done].
      split; intros _; eexists; (split; [done|]); [done|]. unfold queueable. simpl. lia.
  - intros a b Hab. simpl in *. apply Z.ltb_ge. apply Z.ltb_lt in Hab. lia.
  - intros a b c Hab Hbc. simpl in *. apply Z.ltb_ge in Hab, Hbc. apply Z.ltb_ge. lia.
Defined.

(** ** The lists of lines

    Every line is in exactly one place: the free list, the full list, the
    victim queue, or the hand of the FTL ([held]: the lines of the two write
    pointers and the victim under garbage collection). *)
Definition in_victims (m : line_mgmt) (b : Z) : Prop :=
  match m.(victim_line_pq) with Some q => in_pq q b | None => False end.

Definition elsewhere (held : list Z) (m : line_mgmt) : list Z :=
  m.(free_line_list) ++ m.(full_line_list) ++ held.

Record mgmt_ok (n : Z) (held : list Z) (m : line_mgmt) : Prop := {
  mo_n : 0 < n <= 65536;
  mo_len : zlen m.(lm_lines) = n /\ m.(lm_tt_lines) = n;
  mo_line b l : m.(lm_lines) !! b = Some l -> l.(ln_id) = b /\ queueable l /\
    0 <= l.(ln_ipc) < 2147483648 /\ (l.(ln_pos) <> 0 <-> in_victims m b);
  mo_pq : exists q, m.(victim_line_pq) = Some q /\ pq_ok m.(lm_lines) q /\ q.(pq_avail) = n + 1;
  mo_nodup : NoDup (elsewhere held m);
  mo_disj b : in_victims m b -> b ∉ elsewhere held m;
  mo_range b : b ∈ elsewhere held m -> 0 <= b < n;
  mo_cover b : 0 <= b < n -> b ∈ elsewhere held m \/ in_victims m b;
  mo_free_cnt : m.(free_line_cnt) = zlen m.(free_line_list);
  mo_full_cnt : m.(full_line_cnt) = zlen m.(full_line_list);
  mo_victim_cnt q : m.(victim_line_pq) = Some q -> m.(victim_line_cnt) = q.(pq_size) - 1
}.

(** The lists and the queue of [m] over other lines. *)
Definition same_lists (m m' : line_mgmt) : Prop :=
  m'.(free_line_list) = m.(free_line_list) /\ m'.(full_line_list) = m.(full_line_list) /\
  m'.(victim_line_pq) = m.(victim_line_pq) /\ m'.(lm_tt_lines) = m.(lm_tt_lines) /\
  m'.(free_line_cnt) = m.(free_line_cnt) /\ m'.(full_line_cnt) = m.(full_line_cnt) /\
  m'.(victim_line_cnt) = m.(victim_line_cnt).

Section mgmt.
Context (n : Z).
Implicit Types (held : list Z) (m : line_mgmt).

Lemma mgmt_ok_perm held held' m : held ≡ₚ held' -> mgmt_ok n held m -> mgmt_ok n held' m.
Proof.
  intros Hh []. split; try done; unfold elsewhere in *; try (by rewrite <- Hh); intros b.
  - rewrite <- Hh. apply mo_disj0.
  - rewrite <- Hh. apply mo_range0.
  - rewrite <- Hh. apply mo_cover0.
Qed.

Lemma mo_victim_range held m b : mgmt_ok n held m -> in_victims m b -> 0 <= b < n.
Proof.
  intros Hm Hb. destruct (mo_pq _ _ _ Hm) as (q & Eq & Hq & _). unfold in_victims in Hb. rewrite Eq in Hb.
  destruct (pq_index _ _ _ Hq Hb) as (_ & _ & l & E & _).
  apply zlookup_Some_range in E. by rewrite (proj1 (mo_len _ _ _ Hm)) in E.
Qed.

Lemma mo_lookup held m b : mgmt_ok n held m -> 0 <= b < n -> exists l, m.(lm_lines) !! b = Some l.
Proof. intros Hm Hb. apply zlookup_lt. by rewrite (proj1 (mo_len _ _ _ Hm)). Qed.

(** A list of distinct lines has at most [n] elements. *)
Lemma zlen_lines (l : list Z) : NoDup l -> (forall b, b ∈ l -> 0 <= b < n) -> zlen l <= Z.max 0 n.
Proof.
  intros Hl Hr. unfold zlen.
  assert (l ⊆+ zrange 0 n) as Hs.
  { apply NoDup_submseteq; [done|]. intros b Hb. apply elem_of_zrange. by apply Hr. }
  apply submseteq_length in Hs. unfold zrange in Hs. rewrite length_fmap, length_seq in Hs. lia.
Qed.

(** The elements of the queue, as a list. *)
Definition pq_list (q : pqueue) : list Z := (fun j => default 0 (q.(pq_d) !! j)) <$> zrange 1 q.(pq_size).

Lemma pq_list_spec (ls : list line) q :
  pq_ok ls q -> NoDup (pq_list q) /\ zlen (pq_list q) = q.(pq_size) - 1 /\
  forall b, b ∈ pq_list q <-> in_pq q b.
Proof.
  intros Hq. pose proof Hq as [Hl _ Hr Hn _]. split; [|split].
  - apply NoDup_fmap_2_strong; [|apply NoDup_zrange].
    intros i j Hi%elem_of_zrange Hj%elem_of_zrange.
    destruct (zlookup_lt (pq_d q) i) as [x Ex]; [lia|]. destruct (zlookup_lt (pq_d q) j) as [y Ey]; [lia|].
    rewrite Ex, Ey. simpl. intros ->. destruct (Hn i y) as [_ <-]; [lia|done|]. by destruct (Hn j y) as [_ <-].
  - unfold pq_list. rewrite zlen_fmap, zlen_zrange by lia. done.
  - intros b. unfold pq_list. rewrite list_elem_of_fmap. setoid_rewrite elem_of_zrange. split.
    + intros (j & -> & Hj). destruct (zlookup_lt (pq_d q) j) as [x Ex]; [lia|]. rewrite Ex. simpl.
      exists j. split; [lia|done].
    + intros (j & Hj & E). exists j. rewrite E. split; [done|lia].
Qed.

(** The places together hold each line once. *)
Lemma mo_count held m q :
  mgmt_ok n held m -> m.(victim_line_pq) = Some q ->
  zlen m.(free_line_list) + zlen m.(full_line_list) + zlen held + (q.(pq_size) - 1) = n.
Proof.
  intros Hm Eq. destruct (mo_pq _ _ _ Hm) as (q' & Eq' & Hq & _). assert (q' = q) as -> by congruence.
  destruct (pq_list_spec _ _ Hq) as (Hnd & Hlen & Hmem).
  assert (zlen (elsewhere held m ++ pq_list q) = n) as E.
  { assert (elsewhere held m ++ pq_list q ≡ₚ zrange 0 n) as Hperm.
    { apply NoDup_Permutation.
      - apply NoDup_app. split; [apply Hm|]. split; [|done].
        intros b Hb Hb'. apply Hmem in Hb'. eapply mo_disj; [exact Hm| |exact Hb].
        unfold in_victims. by rewrite Eq.
      - apply NoDup_zrange.
      - intros b. rewrite elem_of_app, elem_of_zrange, Hmem. split.
        + intros [Hb|Hb]; [by eapply mo_range|]. eapply mo_victim_range; [exact Hm|].
          unfold in_victims. by rewrite Eq.
        + intros Hb. destruct (mo_cover _ _ _ Hm b Hb) as [?|Hv]; [by left|right].
          unfold in_victims in Hv. by rewrite Eq in Hv. }
    unfold zlen. rewrite Hperm. pose proof (mo_n _ _ _ Hm).
    pose proof (zlen_zrange 0 n ltac:(lia)). unfold zlen in *. lia. }
  unfold elsewhere in E. rewrite !zlen_app in E. lia.
Qed.

(** Room for one more element. *)
Lemma mo_room held m q :
  mgmt_ok n held m -> m.(victim_line_pq) = Some q -> q.(pq_size) <= n + 1 - zlen held.
Proof.
  intros Hm Eq. pose proof (mo_count held m q Hm Eq).
  pose proof (zlen_nonneg m.(free_line_list)). pose proof (zlen_nonneg m.(full_line_list)). lia.
Qed.

(** Lines whose positions, and the valid counts of the queued ones, are the same. *)
Lemma mgmt_ok_lines held m ls :
  mgmt_ok n held m -> zlen ls = n ->
  (forall b l, ls !! b = Some l -> exists l0, m.(lm_lines) !! b = Some l0 /\
     l.(ln_id) = l0.(ln_id) /\ l.(ln_pos) = l0.(ln_pos) /\ queueable l /\
     0 <= l.(ln_ipc) < 2147483648 /\ (l.(ln_pos) <> 0 -> l.(ln_vpc) = l0.(ln_vpc))) ->
  mgmt_ok n held (with_lines m ls).
Proof.
  intros Hm Hlen Hls. pose proof Hm as [Hn _ Hline (q & Eq & Hq & Hav) Hnd Hdisj Hrange Hcover Hc1 Hc2 Hc3].
  split; try done; simpl.
  - split; [done|apply Hm].
  - intros b l E. destruct (Hls b l E) as (l0 & E0 & -> & -> & Hql & Hipc & _).
    destruct (Hline b l0 E0) as (-> & _ & _ & ?). done.
  - exists q. split; [done|]. split; [|done]. eapply pq_ok_ext; [exact Hq|].
    intros y Hy (l0 & E0 & _). destruct (zlookup_lt ls y) as [l E].
    { rewrite Hlen. pose proof (zlookup_Some_range _ _ _ E0). by rewrite (proj1 (mo_len _ _ _ Hm)) in *. }
    destruct (Hls y l E) as (l0' & E0' & _ & Hpos & Hql & _ & Hv).
    assert (l0' = l0) as -> by congruence.
    simpl. unfold line_vpc, line_pos. rewrite E, E0. simpl. split; [done|]. split; [|by exists l].
    apply Hv. rewrite Hpos. apply (Hline y l0 E0). unfold in_victims. by rewrite Eq.
Qed.

(** [get_next_free_line]. *)
Lemma get_next_free_line_ok held m id rest :
  mgmt_ok n held m -> m.(free_line_list) = id :: rest ->
  exists m', get_next_free_line m = (m', Some id) /\ mgmt_ok n (id :: held) m' /\
    m'.(free_line_list) = rest /\ m'.(full_line_list) = m.(full_line_list) /\
    m'.(victim_line_pq) = m.(victim_line_pq) /\ m'.(lm_lines) = m.(lm_lines).
Proof.
  intros Hm Ef. unfold get_next_free_line. rewrite Ef. eexists. split; [done|].
  pose proof Hm as [Hn Hlen Hline Hpq Hnd Hdisj Hrange Hcover Hc1 Hc2 Hc3].
  assert (filter (fun x => x <> id) m.(free_line_list) = rest /\
    filter (fun x => x <> id) m.(full_line_list) = m.(full_line_list)) as [E1 E2].
  { unfold elsewhere in Hnd. rewrite Ef in Hnd |- *. simpl in Hnd.
    apply NoDup_cons in Hnd as [Hin _].
    rewrite filter_cons_False by tauto. split; apply filter_all; intros x Hx ->; set_solver. }
  assert (zlen m.(free_line_list) = zlen rest + 1) as Elen by (rewrite Ef; unfold zlen; simpl; lia).
  assert (zlen m.(free_line_list) <= n).
  { destruct Hpq as (q & Eq & Hq & _). pose proof (mo_count held m q Hm Eq). pose proof (pq_range _ _ Hq).
    pose proof (zlen_nonneg m.(full_line_list)). pose proof (zlen_nonneg held). lia. }
  pose proof (zlen_nonneg rest). 
  assert (0 <= m.(full_line_cnt) < 4294967296 /\ 0 <= m.(victim_line_cnt) < 4294967296) as [Hfc Hvc].
  { destruct Hpq as (q & Eq & Hq & _). pose proof (mo_count held m q Hm Eq). pose proof (pq_range _ _ Hq).
    pose proof (zlen_nonneg m.(full_line_list)). pose proof (zlen_nonneg held).
    rewrite Hc2, (Hc3 q Eq). lia. }
  assert (elsewhere (id :: held) (add_cnts (list_del_init m id) (-1) 0 0) ≡ₚ elsewhere held m) as Hperm.
  { unfold elsewhere; simpl. rewrite E1, E2, Ef. simpl. solve_Permutation. }
  simpl. split; [|by rewrite E1, E2].
  split; try done; try (by rewrite Hperm); simpl.
  - intros b Hb. rewrite Hperm. by apply Hdisj.
  - intros b. rewrite Hperm. apply Hrange.
  - intros b Hb. rewrite Hperm. by apply Hcover.
  - rewrite E1, Hc1. unwrap. lia.
  - rewrite E2. unwrap. lia.
  - intros q Eq. unwrap. rewrite (Hc3 q Eq). lia.
Qed.

Lemma mo_cnt_bounds held m :
  mgmt_ok n held m ->
  0 <= m.(free_line_cnt) <= n /\ 0 <= m.(full_line_cnt) <= n /\ 0 <= m.(victim_line_cnt) <= n /\
  m.(free_line_cnt) + m.(full_line_cnt) + m.(victim_line_cnt) + zlen held = n.
Proof.
  intros Hm. destruct (mo_pq _ _ _ Hm) as (q & Eq & Hq & _). pose proof (mo_count held m q Hm Eq).
  pose proof (pq_range _ _ Hq). pose proof (zlen_nonneg m.(free_line_list)).
  pose proof (zlen_nonneg m.(full_line_list)). pose proof (zlen_nonneg held).
  rewrite (mo_free_cnt _ _ _ Hm), (mo_full_cnt _ _ _ Hm), (mo_victim_cnt _ _ _ Hm q Eq). lia.
Qed.

Lemma mo_not_linked held m id : mgmt_ok n (id :: held) m -> linked m id = false.
Proof.
  intros Hm. pose proof (mo_nodup _ _ _ Hm) as Hnd. unfold elsewhere in Hnd.
  apply orb_false_iff. split; apply bool_decide_eq_false; intros Hin.
  - apply NoDup_app in Hnd as (_ & Hd & _). eapply Hd; [done|set_solver].
  - apply NoDup_app in Hnd as (_ & _ & Hnd). apply NoDup_app in Hnd as (_ & Hd & _).
    eapply Hd; [done|set_solver].
Qed.

(** A held line goes to the full list, or back to the free list. *)
Lemma retire_full_ok held m id :
  mgmt_ok n (id :: held) m ->
  exists m', (m ← list_add_tail_full m id; Ok (add_cnts m 0 0 1)) = Ok m' /\ mgmt_ok n held m' /\
    m'.(free_line_list) = m.(free_line_list) /\ m'.(full_line_list) = m.(full_line_list) ++ [id] /\
    m'.(victim_line_pq) = m.(victim_line_pq) /\ m'.(lm_lines) = m.(lm_lines).
Proof.
  intros Hm. pose proof (mo_cnt_bounds _ _ Hm) as (B1 & B2 & B3 & _). pose proof (mo_n _ _ _ Hm).
  unfold list_add_tail_full. rewrite (mo_not_linked held) by done. simpl.
  eexists. split; [done|]. simpl. split; [|done].
  pose proof Hm as [Hn Hlen Hline Hpq Hnd Hdisj Hrange Hcover Hc1 Hc2 Hc3].
  match goal with |- mgmt_ok _ _ ?m' => assert (elsewhere held m' ≡ₚ elsewhere (id :: held) m) as Hperm end.
  { unfold elsewhere; simpl. solve_Permutation. }
  split; try done; try (by rewrite Hperm); simpl.
  - intros b Hb. rewrite Hperm. by apply Hdisj.
  - intros b. rewrite Hperm. apply Hrange.
  - intros b Hb. rewrite Hperm. by apply Hcover.
  - unwrap. lia.
  - unwrap. rewrite zlen_app. unfold zlen at 2. simpl. lia.
  - intros q Eq. unwrap. rewrite (Hc3 q Eq). lia.
Qed.

Lemma release_free_ok held m id :
  mgmt_ok n (id :: held) m ->
  exists m', (m ← list_add_tail_free m id; Ok (add_cnts m 1 0 0)) = Ok m' /\ mgmt_ok n held m' /\
    m'.(free_line_list) = m.(free_line_list) ++ [id] /\ m'.(full_line_list) = m.(full_line_list) /\
    m'.(victim_line_pq) = m.(victim_line_pq) /\ m'.(lm_lines) = m.(lm_lines).
Proof.
  intros Hm. pose proof (mo_cnt_bounds _ _ Hm) as (B1 & B2 & B3 & _). pose proof (mo_n _ _ _ Hm).
  unfold list_add_tail_free. rewrite (mo_not_linked held) by done. simpl.
  eexists. split; [done|]. simpl. split; [|done].
  pose proof Hm as [Hn Hlen Hline Hpq Hnd Hdisj Hrange Hcover Hc1 Hc2 Hc3].
  match goal with |- mgmt_ok _ _ ?m' => assert (elsewhere held m' ≡ₚ elsewhere (id :: held) m) as Hperm end.
  { unfold elsewhere; simpl. solve_Permutation. }
  split; try done; try (by rewrite Hperm); simpl.
  - intros b Hb. rewrite Hperm. by apply Hdisj.
  - intros b. rewrite Hperm. apply Hrange.
  - intros b Hb. rewrite Hperm. by apply Hcover.
  - unwrap. rewrite zlen_app. unfold zlen at 2. simpl. lia.
  - unwrap. lia.
  - intros q Eq. unwrap. rewrite (Hc3 q Eq). lia.
Qed.

(** A full line leaves its list. *)
Lemma unlink_full_ok held m id :
  mgmt_ok n held m -> id ∈ m.(full_line_list) ->
  let m' := add_cnts (list_del_init m id) 0 0 (-1) in
  mgmt_ok n (id :: held) m' /\ m'.(free_line_list) = m.(free_line_list) /\
  (forall b, b ∈ m'.(full_line_list) <-> b ∈ m.(full_line_list) /\ b <> id).
Proof.
  intros Hm Hin m'. pose proof (mo_cnt_bounds _ _ Hm) as (B1 & B2 & B3 & _). pose proof (mo_n _ _ _ Hm).
  pose proof Hm as [Hn Hlen Hline Hpq Hnd Hdisj Hrange Hcover Hc1 Hc2 Hc3].
  apply list_elem_of_split in Hin as (l1 & l2 & El).
  assert (filter (fun x => x <> id) m.(free_line_list) = m.(free_line_list) /\
    filter (fun x => x <> id) m.(full_line_list) = l1 ++ l2) as [E1 E2].
  { unfold elsewhere in Hnd. rewrite El in Hnd |- *.
    apply NoDup_app in Hnd as (_ & Hd & Hnd). apply NoDup_app in Hnd as (Hnd & _ & _).
    apply NoDup_app in Hnd as (Hn1 & Hd1 & Hnd). apply NoDup_cons in Hnd as [Hn2 _].
    split; [apply filter_all; intros x Hx ->; apply (Hd id Hx); set_solver|].
    rewrite filter_app, filter_cons_False by tauto.
    f_equal; apply filter_all; intros x Hx ->; [apply (Hd1 id Hx); set_solver|done]. }
  assert (elsewhere (id :: held) m' ≡ₚ elsewhere held m) as Hperm.
  { unfold elsewhere; simpl. rewrite E1, E2, El. solve_Permutation. }
  assert (zlen m.(full_line_list) = zlen (l1 ++ l2) + 1) as Elen
    by (rewrite El, !zlen_app; unfold zlen; simpl; lia).
  pose proof (zlen_nonneg (l1 ++ l2)).
  split; [|split; [done|]].
  - split; try done; try (by rewrite Hperm); simpl.
    + intros b Hb. rewrite Hperm. by apply Hdisj.
    + intros b. rewrite Hperm. apply Hrange.
    + intros b Hb. rewrite Hperm. by apply Hcover.
    + rewrite E1. unwrap. lia.
    + rewrite E2. unwrap. lia.
    + intros q Eq. unwrap. rewrite (Hc3 q Eq). lia.
  - intros b. simpl. rewrite list_elem_of_filter. tauto.
Qed.

(** The lines of [ls'] are those of [ls], whose queue was [q], but for the
    positions, and [q'] is their queue now. *)
Definition line_good (q : pqueue) (b : Z) (l : line) : Prop :=
  l.(ln_id) = b /\ queueable l /\ 0 <= l.(ln_ipc) < 2147483648 /\ (l.(ln_pos) <> 0 <-> in_pq q b).

Lemma frame_zlen (ls ls' : list line) : frame ls ls' -> zlen ls' = zlen ls.
Proof.
  intros Hfr. simpl in Hfr. destruct (Z.lt_trichotomy (zlen ls') (zlen ls)) as [Hlt|[?|Hlt]]; [|done|].
  - pose proof (zlen_nonneg ls'). destruct (zlookup_lt ls (zlen ls')) as [y Ey]; [lia|].
    specialize (Hfr (zlen ls')). rewrite Ey, (zlookup_ge_None ls') in Hfr by lia. done.
  - pose proof (zlen_nonneg ls). destruct (zlookup_lt ls' (zlen ls)) as [y Ey]; [lia|].
    specialize (Hfr (zlen ls)). rewrite Ey, (zlookup_ge_None ls) in Hfr by lia. done.
Qed.

Lemma line_after ls ls' q q' (mem : Z -> Prop) b l' :
  (forall l, ls !! b = Some l -> line_good q b l) ->
  frame ls ls' -> pos_kept ls ls' mem -> pq_ok ls' q' ->
  (in_pq q' b <-> mem b) -> (~ in_pq q b -> mem b \/ ~ mem b) -> (in_pq q b -> mem b) ->
  ls' !! b = Some l' -> line_good q' b l'.
Proof.
  intros Hline Hfr Hkeep Hq' Hmem Hdec Hsub E'.
  pose proof (Hfr b) as Hb. rewrite E' in Hb.
  destruct (ls !! b) as [l|] eqn:E; [|done]. simpl in Hb. unfold unpos in Hb.
  destruct (Hline l eq_refl) as (H1 & H2 & H3 & H4).
  assert (ln_id l' = ln_id l /\ ln_ipc l' = ln_ipc l /\ ln_vpc l' = ln_vpc l) as (Ei & Ep & Ev)
    by (split; [|split]; congruence).
  unfold line_good, queueable. rewrite Ei, Ep, Ev. split; [done|]. split; [done|]. split; [done|].
  split.
  - intros Hne. apply Hmem. destruct (decide (ln_pos l = 0)) as [E0|]; [|by apply Hsub, H4].
    assert (~ in_pq q b) as Hnin by (intros Hin; by apply H4 in Hin).
    destruct (Hdec Hnin) as [|Hn]; [done|]. specialize (Hkeep b Hn). simpl in Hkeep.
    unfold line_pos in Hkeep. rewrite E', E in Hkeep. simpl in Hkeep. lia.
  - intros Hin. destruct (pq_index _ _ _ Hq' Hin) as (Hi & _).
    simpl in Hi. unfold line_pos in Hi. rewrite E' in Hi. simpl in Hi. lia.
Qed.

(** A held line joins the victim queue. *)
Lemma enqueue_ok held m id :
  mgmt_ok n (id :: held) m ->
  okp (pqueue_insert m.(victim_line_pq) id m.(lm_lines)) (fun r =>
    let m' := add_cnts (with_pq m r.1.2 r.2) 0 1 0 in
    mgmt_ok n held m' /\ m'.(free_line_list) = m.(free_line_list) /\
    m'.(full_line_list) = m.(full_line_list) /\
    (forall b, unpos <$> m'.(lm_lines) !! b = unpos <$> m.(lm_lines) !! b) /\
    (forall b, in_victims m' b <-> b = id \/ in_victims m b)).
Proof.
  intros Hm. pose proof (mo_cnt_bounds _ _ Hm) as (B1 & B2 & B3 & B4). pose proof (mo_n _ _ _ Hm).
  pose proof Hm as [Hn [Hlen Htt] Hline (q & Eq & Hq & Hav) Hnd Hdisj Hrange Hcover Hc1 Hc2 Hc3].
  assert (0 <= id < n) as Hid by (apply Hrange; unfold elsewhere; set_solver).
  destruct (zlookup_lt m.(lm_lines) id) as [l El]; [lia|].
  destruct (Hline id l El) as (Eid & Hql & Hipc & Hpos).
  assert (~ in_pq q id) as Hnin.
  { intros Hin. apply (Hdisj id); [unfold in_victims; by rewrite Eq|unfold elsewhere; set_solver]. }
  pose proof (mo_room _ _ _ Hm Eq) as Hroom. unfold zlen in Hroom at 1; simpl in Hroom.
  rewrite Eq. eapply okp_mono; [apply pqueue_insert_spec; [done|by exists l|done|lia]|].
  intros [[rc oq] ls'] (-> & q' & -> & (Hq' & Hfr & Hin') & Hkeep & Hsz & Hav').
  pose proof (frame_zlen _ _ Hfr) as Hlen'.
  simpl. split; [|split; [done|split; [done|split; [done|]]]].
  - match goal with |- mgmt_ok _ _ ?m' =>
      assert (elsewhere (id :: held) m ≡ₚ id :: elsewhere held m') as Hperm end.
    { unfold elsewhere; simpl. solve_Permutation. }
    rewrite Hperm in Hnd. apply NoDup_cons in Hnd as [Hnin' Hnd].
    split; try done; simpl.
    + split; [lia|done].
    + intros b l' E'. unfold in_victims; simpl.
      apply (line_after m.(lm_lines) ls' q q' (fun y => y = id \/ in_pq q y)); try done.
      * intros l0 E0. destruct (Hline b l0 E0) as (? & ? & ? & Hp).
        unfold in_victims in Hp. by rewrite Eq in Hp.
      * intros Hno. destruct (decide (b = id)); [by left; left|right; tauto].
      * by right.
    + exists q'. split; [done|]. split; [done|lia].
    + intros b Hb. apply Hin' in Hb as [->|Hb]; [done|].
      intros Hb'. apply (Hdisj b); [unfold in_victims; by rewrite Eq|]. rewrite Hperm. set_solver.
    + intros b Hb. apply Hrange. rewrite Hperm. set_solver.
    + intros b Hb. unfold in_victims; simpl. rewrite Hin'. destruct (Hcover b Hb) as [Hc|Hc].
      * rewrite Hperm in Hc. apply elem_of_cons in Hc as [->|Hc]; [right; by left|by left].
      * unfold in_victims in Hc. rewrite Eq in Hc. right; by right.
    + unwrap. lia.
    + unwrap. lia.
    + intros q0 [= <-]. rewrite (Hc3 q Eq) in *. unwrap. lia.
  - intros b. unfold in_victims; simpl. rewrite Hin', Eq. done.
Qed.

(** A queued line gets another priority. *)
Lemma requeue_ok held m id v :
  mgmt_ok n held m -> in_victims m id -> 0 <= v < 2147483648 ->
  okp (pqueue_change_priority m.(victim_line_pq) v id m.(lm_lines)) (fun r =>
    let m' := with_pq m r.1 r.2 in
    mgmt_ok n held m' /\ m'.(free_line_list) = m.(free_line_list) /\
    m'.(full_line_list) = m.(full_line_list) /\
    (forall b, unpos <$> m'.(lm_lines) !! b = unpos <$> put_vpc m.(lm_lines) id v !! b) /\
    (forall b, in_victims m' b <-> in_victims m b)).
Proof.
  intros Hm Hin Hv.
  pose proof Hm as [Hn [Hlen Htt] Hline (q & Eq & Hq & Hav) Hnd Hdisj Hrange Hcover Hc1 Hc2 Hc3].
  pose proof Hin as Hin0. unfold in_victims in Hin0. rewrite Eq in Hin0 |- *.
  eapply okp_mono; [by apply pqueue_change_priority_spec|].
  intros [oq ls'] (q' & -> & (Hq' & Hfr & Hin') & Hkeep & Hsz & Hav').
  change (put_pri m.(lm_lines) id v) with (put_vpc m.(lm_lines) id (s32 v)) in Hfr.
  rewrite s32_small in Hfr by lia.
  assert (pos_kept (put_vpc m.(lm_lines) id v) ls' (in_pq q)) as Hkeep2.
  { intros y Hy. rewrite (Hkeep y Hy). simpl. unfold line_pos. rewrite put_vpc_lookup.
    case_decide; [subst; by destruct (_ !! id)|done]. }
  assert (zlen (put_vpc m.(lm_lines) id v) = n) as Hlen2.
  { unfold put_vpc. destruct (_ !! id); [by rewrite zlen_zinsert|done]. }
  assert (forall b, in_victims (with_pq m (Some q') ls') b <-> in_victims m b) as Hvic.
  { intros b. unfold in_victims; simpl. by rewrite Hin', Eq. }
  simpl. split; [|split; [done|split; [done|split; [exact Hfr|done]]]].
  split; try done; simpl.
  - split; [|done]. by rewrite (frame_zlen _ _ Hfr).
  - intros b l' E'. unfold in_victims; simpl.
    apply (line_after (put_vpc m.(lm_lines) id v) ls' q q' (in_pq q)); try done.
    + intros l. rewrite put_vpc_lookup. case_decide as Hb.
      * subst b. destruct (lm_lines m !! id) as [l0|] eqn:E0; [|done]. intros [= <-].
        destruct (Hline id l0 E0) as (? & ? & ? & Hp). unfold in_victims in Hp. rewrite Eq in Hp. done.
      * intros E0. destruct (Hline b l E0) as (? & ? & ? & Hp). unfold in_victims in Hp. by rewrite Eq in Hp.
    + by right.
  - exists q'. split; [done|]. split; [done|lia].
  - intros b Hb. apply Hvic in Hb. by apply Hdisj.
  - intros b Hb. rewrite Hvic. by apply Hcover.
  - intros q0 [= <-]. rewrite (Hc3 q Eq). lia.
Qed.

(** The root of the queue is taken out, and held. *)
Lemma dequeue_ok held m q id :
  mgmt_ok n held m -> m.(victim_line_pq) = Some q -> 1 < q.(pq_size) -> q.(pq_d) !! 1 = Some id ->
  okp (pqueue_pop m.(victim_line_pq) m.(lm_lines)) (fun r =>
    okp (amod r.2 id (fun l => Ok (Line l.(ln_id) l.(ln_ipc) l.(ln_vpc) 0))) (fun ls =>
      let m' := add_cnts (with_pq m r.1.2 ls) 0 (-1) 0 in
      mgmt_ok n (id :: held) m' /\ m'.(free_line_list) = m.(free_line_list) /\
      m'.(full_line_list) = m.(full_line_list) /\ in_victims m id /\
      (forall b, unpos <$> m'.(lm_lines) !! b = unpos <$> m.(lm_lines) !! b) /\
      (forall b, in_victims m' b <-> in_victims m b /\ b <> id) /\
      (forall b, in_victims m b -> line_vpc m.(lm_lines) id <= line_vpc m.(lm_lines) b))).
Proof.
  intros Hm Eq Hsz1 Hid.
  pose proof (mo_cnt_bounds _ _ Hm) as (B1 & B2 & B3 & B4). pose proof (mo_n _ _ _ Hm).
  pose proof Hm as [Hn [Hlen Htt] Hline (q0 & Eq0 & Hq & Hav) Hnd Hdisj Hrange Hcover Hc1 Hc2 Hc3].
  assert (q0 = q) as -> by congruence. clear Eq0. rewrite Eq.
  eapply okp_mono; [by apply pqueue_pop_spec|].
  intros [[o oq] ls1] (x & q' & -> & -> & Hx & Hd1 & Hmin & (Hq' & Hfr & Hin') & Hkeep & Hsz & Hav').
  assert (x = id) as -> by congruence. simpl.
  destruct (pq_index _ _ _ Hq Hx) as (_ & _ & (l0 & El0 & _)).
  assert (exists l1, ls1 !! id = Some l1 /\ unpos l1 = unpos l0) as (l1 & El1 & Eu).
  { pose proof (Hfr id) as E. rewrite El0 in E. destruct (ls1 !! id) as [l1|]; [|done].
    exists l1. split; [done|]. simpl in E. congruence. }
  pose proof (zlookup_Some_range _ _ _ El1).
  eapply amod_okp; [done|]. simpl.
  remember (<[id := Line (ln_id l1) (ln_ipc l1) (ln_vpc l1) 0]> ls1) as ls eqn:Els.
  assert (frame m.(lm_lines) ls) as Hfr2.
  { intros b. rewrite <- (Hfr b). subst ls. rewrite zlookup_zinsert by done.
    case_decide; [subst; by rewrite El1|done]. }
  assert (~ in_pq q' id) as Hnin by (rewrite Hin'; tauto).
  assert (pq_ok ls q') as Hqs.
  { eapply pq_ok_ext; [exact Hq'|]. intros y Hy (ly & Ely & Hly). simpl.
    assert (y <> id) by (intros ->; done). subst ls. unfold line_pos, line_vpc, line_node.
    rewrite !zlookup_zinsert_ne by done. split; [done|]. split; [done|]. by exists ly. }
  assert (forall b, in_victims (with_pq m (Some q') ls) b <-> in_victims m b /\ b <> id) as Hvic.
  { intros b. unfold in_victims; simpl. by rewrite Hin', Eq. }
  split; [|split; [done|split; [done|split; [unfold in_victims; by rewrite Eq|split; [exact Hfr2|split; [done|]]]]]].
  - match goal with |- mgmt_ok _ _ ?m' =>
      assert (elsewhere (id :: held) m' ≡ₚ id :: elsewhere held m) as Hperm end.
    { unfold elsewhere; simpl. solve_Permutation. }
    assert (in_victims m id) as Hvid by (unfold in_victims; by rewrite Eq).
    split; try done; simpl.
    + split; [|done]. by rewrite (frame_zlen _ _ Hfr2).
    + intros b l' E'. unfold in_victims; simpl.
      destruct (decide (b = id)) as [->|Hb].
      { subst ls. rewrite zlookup_zinsert_eq in E' by done. injection E' as <-. simpl.
        destruct (Hline id l0 El0) as (? & ? & ? & _). unfold unpos in Eu.
        assert (ln_id l1 = ln_id l0 /\ ln_ipc l1 = ln_ipc l0 /\ ln_vpc l1 = ln_vpc l0) as (-> & -> & Ev)
          by (split; [|split]; congruence).
        unfold queueable; simpl. rewrite Ev. split; [done|]. split; [done|]. split; [done|]. tauto. }
      apply (line_after m.(lm_lines) ls q q' (in_pq q)); try done.
      * intros l E. destruct (Hline b l E) as (? & ? & ? & Hp). unfold in_victims in Hp. by rewrite Eq in Hp.
      * intros y Hy. assert (y <> id) by (intros ->; done). rewrite <- (Hkeep y Hy). simpl. subst ls.
        unfold line_pos. by rewrite zlookup_zinsert_ne by done.
      * rewrite Hin'. tauto.
      * by right.
    + exists q'. split; [done|]. split; [done|lia].
    + rewrite Hperm. apply NoDup_cons. split; [by apply Hdisj|done].
    + intros b Hb. apply Hvic in Hb as [Hb Hne]. rewrite Hperm.
      intros [->|Hin]%elem_of_cons; [done|]. by eapply Hdisj.
    + intros b. rewrite Hperm. intros [->|Hin]%elem_of_cons; [|by apply Hrange].
      by eapply mo_victim_range.
    + intros b Hb. rewrite Hperm. destruct (decide (b = id)) as [->|]; [left; set_solver|].
      destruct (Hcover b Hb); [left; set_solver|right]. by apply Hvic.
    + unwrap. lia.
    + unwrap. lia.
    + intros q1 [= <-]. rewrite (Hc3 q Eq) in *. unwrap. lia.
  - intros b Hb. unfold in_victims in Hb. rewrite Eq in Hb. specialize (Hmin b Hb).
    simpl in Hmin. apply Z.ltb_ge in Hmin. done.
Qed.
End mgmt.
