(* ===== verification/ConvState.v ===== *)
(** * What the steps of the conventional FTL preserve

    The device part of the invariant ([dev_ok]: page statuses against block
    counters), the whole structural invariant [conv_ok], and the steps that
    every write and every collection are made of: a page becomes invalid, a
    page of a write pointer becomes valid, a write pointer advances. *)

From stdpp Require Import prelude list list_tactics.
From Stdlib Require Import ZArith Lia.
From S2P Require Import Prelude ChannelModel Pqueue SsdConfig Ssd ConvFtl ConvInv.

(** ** Page statuses and counts *)

Definition pg_at (s : ssd) (b : Z) (x : coord) : option nand_page :=
  blk ← blk_at s (c_ch x) (c_lun x) 0 b; blk.(nb_pg) !! c_pg x.

Definition pst (s : ssd) (b : Z) (x : coord) : Z :=
  match pg_at s b x with Some g => g.(np_status) | None => -1 end.

(** The valid and invalid counters of a block. *)
Definition bcnt (s : ssd) (c l b : Z) : option (Z * Z) :=
  (fun blk => (blk.(nb_vpc), blk.(nb_ipc))) <$> blk_at s c l 0 b.

Definition is_st (st : Z) (s : ssd) (b : Z) (x : coord) : bool := pst s b x =? st.

Definition line_count (st : Z) (s : ssd) (b : Z) : Z := zcount (is_st st s b) (coords s.(sd_sp)).

Definition blk_count (st : Z) (s : ssd) (c l b : Z) : Z :=
  zcount (fun g => is_st st s b (c, l, g)) (zrange 0 s.(sd_sp).(pgs_per_blk)).

Definition in_blk (sp : ssdparams) (c l b : Z) : Prop :=
  0 <= c < sp.(nchs) /\ 0 <= l < sp.(luns_per_ch) /\ 0 <= b < sp.(blks_per_pl).

Record dev_ok `{ChanConfig} (s : ssd) : Prop := {
  do_params : params_ok s.(sd_sp);
  do_pls : s.(sd_sp).(pls_per_lun) = 1;
  do_shape : ssd_shape s;
  do_blk c l b : in_blk s.(sd_sp) c l b ->
    bcnt s c l b = Some (blk_count PG_VALID s c l b, blk_count PG_INVALID s c l b);
  do_st b x : 0 <= b < s.(sd_sp).(blks_per_pl) -> in_line s.(sd_sp) x ->
    pst s b x = PG_FREE \/ pst s b x = PG_INVALID \/ pst s b x = PG_VALID
}.

(** [s'] is [s] with one page status changed. *)
Definition pst_upd (s s' : ssd) (b : Z) (x : coord) (st : Z) : Prop :=
  forall b' y, pst s' b' y = if decide (b' = b /\ y = x) then st else pst s b' y.

Section device.
Context `{CC : ChanConfig}.

Lemma in_dev_ppa_at s b x :
  dev_ok s -> 0 <= b < s.(sd_sp).(blks_per_pl) -> in_line s.(sd_sp) x -> in_dev s.(sd_sp) (ppa_at b x).
Proof.
  intros Hd Hb (Hc & Hl & Hg). unfold in_dev, ppa_at; simpl. rewrite (do_pls _ Hd).
  do 5 (split; [lia|]). done.
Qed.

(** Reading a page through its address. *)
Lemma get_pg_ok s b x :
  ssd_shape s -> in_dev s.(sd_sp) (ppa_at b x) ->
  exists blk g, blk_at s (c_ch x) (c_lun x) 0 b = Some blk /\ get_blk s (ppa_at b x) = Ok blk /\
    blk_shape s.(sd_sp) blk /\ blk.(nb_pg) !! c_pg x = Some g /\
    get_pg s (ppa_at b x) = Ok g /\ pst s b x = g.(np_status).
Proof.
  intros Hs Hin. destruct (path_blk s _ Hs Hin) as
    (_ & _ & _ & blk & _ & _ & _ & _ & _ & _ & _ & Hbs & Gb & Ab & _).
  pose proof Hbs as (Hlen & _ & _). destruct Hin as (_ & _ & _ & _ & Hg & _). simpl in *.
  destruct (zlookup_lt blk.(nb_pg) (c_pg x)) as [g Eg]; [lia|].
  exists blk, g. do 4 (split; [done|]). unfold get_pg, pst, pg_at. rewrite Gb, Ab. simpl.
  split; [by apply aget_Some|by rewrite Eg].
Qed.

(** A page status written in place. *)
Lemma set_status_ok s b x st :
  ssd_shape s -> in_dev s.(sd_sp) (ppa_at b x) ->
  okp (mod_pg (ppa_at b x) (fun g => Ok (set_page_status st g)) s) (fun s' =>
    ssd_shape s' /\ same_but s s' /\ pst_upd s s' b x st /\
    forall c l b', bcnt s' c l b' = bcnt s c l b').
Proof.
  intros Hs Hin. destruct (get_pg_ok s b x Hs Hin) as (blk & g & Ab & _ & (Hlen & Hnp & HF) & Eg & _ & _).
  pose proof (zlookup_Some_range _ _ _ Eg).
  unfold mod_pg. eapply okp_mono.
  { eapply (mod_blk_ok s (ppa_at b x) blk); [done|done|exact Ab|by erewrite amod_Ok|].
    split; simpl; [by rewrite zlen_zinsert|]. split; [done|]. apply Forall_zinsert; [done|].
    pose proof (Forall_zlookup _ _ _ _ HF Eg). done. }
  intros s' (Hs' & H1 & H2 & H3 & H4 & E). split; [done|]. split; [done|]. simpl in E. split.
  - intros b' y. unfold pst, pg_at. rewrite E.
    destruct (decide (c_ch y = c_ch x /\ c_lun y = c_lun x /\ 0 = 0 /\ b' = b)) as [(E1 & E2 & _ & ->)|Hne].
    + simpl. rewrite zlookup_zinsert by done. destruct (decide (c_pg x = c_pg y)) as [Ep|Hp].
      * rewrite decide_True; [done|]. split; [done|by apply coord_eq].
      * rewrite decide_False by (intros [_ ->]; done). rewrite E1, E2, Ab. done.
    + rewrite decide_False; [done|]. intros [-> ->]. by apply Hne.
  - intros c l b'. unfold bcnt. rewrite E. case_decide as Hd; [|done].
    destruct Hd as (-> & -> & _ & ->). by rewrite Ab.
Qed.

(** The counters of a block written in place. *)
Lemma set_cnts_ok s b x blk ipc vpc :
  ssd_shape s -> in_dev s.(sd_sp) (ppa_at b x) -> blk_at s (c_ch x) (c_lun x) 0 b = Some blk ->
  forall f, f blk = Ok (set_blk_cnts blk ipc vpc) ->
  okp (mod_blk (ppa_at b x) f s) (fun s' =>
    ssd_shape s' /\ same_but s s' /\ (forall b' y, pst s' b' y = pst s b' y) /\
    forall c l b', bcnt s' c l b' =
      if decide (c = c_ch x /\ l = c_lun x /\ b' = b) then Some (vpc, ipc) else bcnt s c l b').
Proof.
  intros Hs Hin Ab f Hf. destruct (get_pg_ok s b x Hs Hin) as (blk' & _ & Ab' & _ & Hbs & _).
  assert (blk' = blk) as -> by congruence.
  eapply okp_mono.
  { eapply (mod_blk_ok s (ppa_at b x) blk); [done|done|exact Ab|exact Hf|done]. }
  intros s' (Hs' & H1 & H2 & H3 & H4 & E). split; [done|]. split; [done|]. simpl in E. split.
  - intros b' y. unfold pst, pg_at. rewrite E. case_decide as Hd; [|done].
    destruct Hd as (-> & -> & _ & ->). by rewrite Ab.
  - intros c l b'. unfold bcnt. rewrite E.
    destruct (decide (c = c_ch x /\ l = c_lun x /\ b' = b)) as [(-> & -> & ->)|Hne].
    + by rewrite decide_True.
    + rewrite decide_False; [done|]. intros (-> & -> & _ & ->). by apply Hne.
Qed.

(** ** Counting after an update *)

Lemma is_st_upd s s' b x st st' b' y :
  pst_upd s s' b x st -> is_st st' s' b' y =
  if decide (b' = b /\ y = x) then st =? st' else is_st st' s b' y.
Proof. intros Hu. unfold is_st. rewrite Hu. by case_decide. Qed.

Lemma line_count_upd s s' b x st st' b' :
  params_ok s.(sd_sp) -> s'.(sd_sp) = s.(sd_sp) -> in_line s.(sd_sp) x -> pst_upd s s' b x st ->
  line_count st' s' b' = line_count st' s b' +
    (if decide (b' = b) then b2z (st =? st') - b2z (pst s b x =? st') else 0).
Proof.
  intros Hp Esp Hx Hu. unfold line_count. rewrite Esp. case_decide as Hb.
  - subst b'. rewrite (zcount_update (is_st st' s b) (is_st st' s' b) _ x).
    + rewrite (is_st_upd _ _ _ _ _ _ _ _ Hu), decide_True by done. unfold is_st. lia.
    + by apply NoDup_coords.
    + by apply elem_of_coords.
    + intros y _ Hy. by rewrite (is_st_upd _ _ _ _ _ _ _ _ Hu), decide_False by tauto.
  - rewrite Z.add_0_r. apply zcount_ext. intros y _.
    by rewrite (is_st_upd _ _ _ _ _ _ _ _ Hu), decide_False by tauto.
Qed.

Lemma blk_count_upd s s' b x st st' c l b' :
  s'.(sd_sp) = s.(sd_sp) -> in_line s.(sd_sp) x -> pst_upd s s' b x st ->
  blk_count st' s' c l b' = blk_count st' s c l b' +
    (if decide (c = c_ch x /\ l = c_lun x /\ b' = b) then b2z (st =? st') - b2z (pst s b x =? st') else 0).
Proof.
  intros Esp Hx Hu. unfold blk_count. rewrite Esp. case_decide as Hb.
  - destruct Hb as (-> & -> & ->).
    assert ((c_ch x, c_lun x, c_pg x) = x) as Ex by (by destruct x as [[??]?]).
    rewrite (zcount_update (fun g => is_st st' s b (c_ch x, c_lun x, g)) _ _ (c_pg x)).
    + rewrite Ex, (is_st_upd _ _ _ _ _ _ _ _ Hu), decide_True by done. unfold is_st. lia.
    + apply NoDup_zrange.
    + apply elem_of_zrange. apply Hx.
    + intros g _ Hg. rewrite (is_st_upd _ _ _ _ _ _ _ _ Hu), decide_False; [done|].
      intros [_ E]. apply Hg. by rewrite <- E.
  - rewrite Z.add_0_r. apply zcount_ext. intros g _.
    rewrite (is_st_upd _ _ _ _ _ _ _ _ Hu), decide_False; [done|].
    intros [-> E]. apply Hb. by rewrite <- E.
Qed.

(** The counts of a line and of a block are bounded by their pages. *)
Lemma line_count_bound s b st :
  params_ok s.(sd_sp) -> 0 <= line_count st s b <= s.(sd_sp).(pgs_per_line).
Proof. intros Hp. rewrite <- (zlen_coords _ Hp). apply zcount_range. Qed.

Lemma line_count_sum s b st st' :
  params_ok s.(sd_sp) -> st <> st' -> line_count st s b + line_count st' s b <= s.(sd_sp).(pgs_per_line).
Proof.
  intros Hp Hne. rewrite <- (zlen_coords _ Hp).
  rewrite <- (zcount_split (is_st st s b) (fun x => negb (is_st st s b x)) (coords (sd_sp s))) by done.
  apply Z.add_le_mono_l. apply zcount_mono. intros x _. unfold is_st. 
  destruct (Z.eqb_spec (pst s b x) st); [|done]. intros ?%Z.eqb_eq. congruence.
Qed.

Lemma line_count_pos s b x st :
  params_ok s.(sd_sp) -> in_line s.(sd_sp) x -> pst s b x = st -> 0 < line_count st s b.
Proof.
  intros Hp Hx E. eapply zcount_pos; [by apply elem_of_coords|]. unfold is_st. by apply Z.eqb_eq.
Qed.

Lemma line_count_lt s b x st :
  params_ok s.(sd_sp) -> in_line s.(sd_sp) x -> pst s b x <> st ->
  line_count st s b < s.(sd_sp).(pgs_per_line).
Proof.
  intros Hp Hx E. rewrite <- (zlen_coords _ Hp).
  eapply zcount_lt; [by apply elem_of_coords|]. unfold is_st. by apply Z.eqb_neq.
Qed.

Lemma line_count_all s b st :
  params_ok s.(sd_sp) -> (forall x, in_line s.(sd_sp) x -> pst s b x = st) ->
  line_count st s b = s.(sd_sp).(pgs_per_line).
Proof.
  intros Hp Hall. rewrite <- (zlen_coords _ Hp). apply zcount_true. intros x Hx.
  apply Z.eqb_eq, Hall. by apply elem_of_coords.
Qed.

Lemma line_count_none s b st :
  params_ok s.(sd_sp) -> (forall x, in_line s.(sd_sp) x -> pst s b x <> st) -> line_count st s b = 0.
Proof.
  intros Hp Hall. apply zcount_false. intros x Hx. apply Z.eqb_neq, Hall. by apply elem_of_coords.
Qed.

Lemma blk_count_bound s c l b st :
  params_ok s.(sd_sp) -> 0 <= blk_count st s c l b <= s.(sd_sp).(pgs_per_blk).
Proof.
  intros Hp. unfold blk_count. pose proof (po_pgs _ Hp).
  pose proof (zcount_range (fun g => is_st st s b (c, l, g)) (zrange 0 (pgs_per_blk (sd_sp s)))) as Hr.
  rewrite zlen_zrange in Hr by lia. lia.
Qed.

Lemma blk_count_pos s b x st :
  in_line s.(sd_sp) x -> pst s b x = st -> 0 < blk_count st s (c_ch x) (c_lun x) b.
Proof.
  intros Hx E. eapply (zcount_pos _ _ (c_pg x)); [apply elem_of_zrange, Hx|].
  unfold is_st. replace (c_ch x, c_lun x, c_pg x) with x by (by destruct x as [[??]?]). by apply Z.eqb_eq.
Qed.

Lemma blk_count_lt s b x st :
  params_ok s.(sd_sp) -> in_line s.(sd_sp) x -> pst s b x <> st ->
  blk_count st s (c_ch x) (c_lun x) b < s.(sd_sp).(pgs_per_blk).
Proof.
  intros Hp Hx E. pose proof (po_pgs _ Hp).
  pose proof (zcount_lt (fun g => is_st st s b (c_ch x, c_lun x, g)) (zrange 0 (pgs_per_blk (sd_sp s)))
    (c_pg x)) as Hlt.
  rewrite zlen_zrange, Z.sub_0_r in Hlt by lia. apply Hlt; [apply elem_of_zrange, Hx|].
  unfold is_st. replace (c_ch x, c_lun x, c_pg x) with x by (by destruct x as [[??]?]). by apply Z.eqb_neq.
Qed.

(** ** A page becomes invalid, or valid *)

Lemma same_but_trans a b c : same_but a b -> same_but b c -> same_but a c.
Proof. unfold same_but. intros (? & ? & ? & ?) (? & ? & ? & ?). repeat split; congruence. Qed.

(** The device after a status change whose counters were adjusted. *)
Lemma dev_ok_upd s s' b x st blk :
  dev_ok s -> 0 <= b < s.(sd_sp).(blks_per_pl) -> in_line s.(sd_sp) x ->
  (st = PG_FREE \/ st = PG_INVALID \/ st = PG_VALID) ->
  ssd_shape s' -> same_but s s' -> pst_upd s s' b x st ->
  bcnt s (c_ch x) (c_lun x) b = Some blk ->
  (forall c l b', bcnt s' c l b' =
     if decide (c = c_ch x /\ l = c_lun x /\ b' = b)
     then Some (blk.1 + (b2z (st =? PG_VALID) - b2z (pst s b x =? PG_VALID)),
                blk.2 + (b2z (st =? PG_INVALID) - b2z (pst s b x =? PG_INVALID)))
     else bcnt s c l b') ->
  dev_ok s'.
Proof.
  intros [Hp Hpl Hs Hblk Hst] Hb Hx Hst' Hs' (Esp & _) Hu Hc Hcnt.
  split; rewrite ?Esp; try done.
  - intros c l b' Hin. rewrite Hcnt, !(blk_count_upd s s' b x st) by done.
    case_decide as Hd; [|rewrite !Z.add_0_r; by apply Hblk].
    destruct Hd as (-> & -> & ->). rewrite (Hblk _ _ _ Hin) in Hc. injection Hc as <-. done.
  - intros b' y Hb' Hy. rewrite Hu. case_decide; [done|by apply Hst].
Qed.

Lemma in_blk_coord sp b x : 0 <= b < sp.(blks_per_pl) -> in_line sp x -> in_blk sp (c_ch x) (c_lun x) b.
Proof. intros Hb (? & ? & ?). done. Qed.

Lemma bcnt_blk_at s c l b blk v i :
  blk_at s c l 0 b = Some blk -> bcnt s c l b = Some (v, i) -> blk.(nb_vpc) = v /\ blk.(nb_ipc) = i.
Proof. unfold bcnt. intros ->. simpl. by intros [= <- <-]. Qed.

Lemma invalidate_page_ok s b x :
  dev_ok s -> 0 <= b < s.(sd_sp).(blks_per_pl) -> in_line s.(sd_sp) x -> pst s b x = PG_VALID ->
  okp (invalidate_page s.(sd_sp) s (ppa_at b x)) (fun s' =>
    dev_ok s' /\ same_but s s' /\ pst_upd s s' b x PG_INVALID).
Proof.
  intros Hd Hb Hx Hv. pose proof (in_dev_ppa_at s b x Hd Hb Hx) as Hin.
  pose proof (do_shape _ Hd) as Hs. pose proof (do_params _ Hd) as Hp. pose proof (po_pgs _ Hp).
  destruct (get_pg_ok s b x Hs Hin) as (blk & g & _ & _ & _ & _ & Gg & Est).
  unfold invalidate_page. rewrite Gg. simpl. apply okp_bind, okp_assert; [apply Z.eqb_eq; congruence|].
  apply okp_bind. eapply okp_mono; [by apply set_status_ok|].
  intros s1 (Hs1 & Hb1 & Hu1 & Hc1). pose proof Hb1 as (Esp & _).
  assert (in_dev s1.(sd_sp) (ppa_at b x)) as Hin1 by (by rewrite Esp).
  destruct (get_pg_ok s1 b x Hs1 Hin1) as (blk1 & g1 & Ab1 & Gb1 & _ & _ & _ & Est1).
  rewrite Gb1. simpl.
  pose proof (do_blk _ Hd _ _ _ (in_blk_coord _ b x Hb Hx)) as Hcnt.
  destruct (bcnt_blk_at s1 _ _ _ blk1 _ _ Ab1 (eq_trans (Hc1 _ _ _) Hcnt)) as [Ev Ei].
  pose proof (blk_count_bound s (c_ch x) (c_lun x) b PG_INVALID Hp).
  pose proof (blk_count_bound s (c_ch x) (c_lun x) b PG_VALID Hp).
  pose proof (blk_count_pos s b x PG_VALID Hx Hv).
  pose proof (blk_count_lt s b x PG_INVALID Hp Hx) as Hlt.
  rewrite Hv in Hlt. specialize (Hlt ltac:(done)). rewrite Ev, Ei.
  apply okp_bind, okp_assert; [apply andb_true_iff; split; [apply Z.leb_le|apply Z.ltb_lt]; lia|].
  apply okp_bind, okp_assert; [apply andb_true_iff; split; [apply Z.ltb_lt|apply Z.leb_le]; lia|].
  eapply okp_mono; [apply (set_cnts_ok s1 b x blk1 (nb_ipc blk1 + 1) (nb_vpc blk1 - 1)); try done; by unwrap|].
  intros s2 (Hs2 & Hb2 & Hu2 & Hc2).
  assert (pst_upd s s2 b x PG_INVALID) as Hu by (intros b' y; by rewrite Hu2).
  assert (same_but s s2) as Hsb by (by eapply same_but_trans).
  split; [|done]. eapply (dev_ok_upd s s2 b x PG_INVALID); try done; [tauto|].
  intros c l b'. rewrite Hc2, Hc1, Ev, Ei, Hv. case_decide; [|done]. done.
Qed.

Lemma validate_page_ok s b x :
  dev_ok s -> 0 <= b < s.(sd_sp).(blks_per_pl) -> in_line s.(sd_sp) x -> pst s b x = PG_FREE ->
  okp (validate_page s.(sd_sp) s (ppa_at b x)) (fun s' =>
    dev_ok s' /\ same_but s s' /\ pst_upd s s' b x PG_VALID).
Proof.
  intros Hd Hb Hx Hv. pose proof (in_dev_ppa_at s b x Hd Hb Hx) as Hin.
  pose proof (do_shape _ Hd) as Hs. pose proof (do_params _ Hd) as Hp. pose proof (po_pgs _ Hp).
  destruct (get_pg_ok s b x Hs Hin) as (blk & g & _ & _ & _ & _ & Gg & Est).
  unfold validate_page. rewrite Gg. simpl. apply okp_bind, okp_assert; [apply Z.eqb_eq; congruence|].
  apply okp_bind. eapply okp_mono; [by apply set_status_ok|].
  intros s1 (Hs1 & Hb1 & Hu1 & Hc1). pose proof Hb1 as (Esp & _).
  assert (in_dev s1.(sd_sp) (ppa_at b x)) as Hin1 by (by rewrite Esp).
  destruct (get_pg_ok s1 b x Hs1 Hin1) as (blk1 & g1 & Ab1 & Gb1 & _ & _ & _ & Est1).
  rewrite Gb1. simpl.
  pose proof (do_blk _ Hd _ _ _ (in_blk_coord _ b x Hb Hx)) as Hcnt.
  destruct (bcnt_blk_at s1 _ _ _ blk1 _ _ Ab1 (eq_trans (Hc1 _ _ _) Hcnt)) as [Ev Ei].
  pose proof (blk_count_bound s (c_ch x) (c_lun x) b PG_VALID Hp).
  pose proof (blk_count_lt s b x PG_VALID Hp Hx) as Hlt.
  rewrite Hv in Hlt. specialize (Hlt ltac:(done)). rewrite Ev.
  apply okp_bind, okp_assert; [apply andb_true_iff; split; [apply Z.leb_le|apply Z.ltb_lt]; lia|].
  eapply okp_mono; [apply (set_cnts_ok s1 b x blk1 (nb_ipc blk1) (nb_vpc blk1 + 1)); try done; by unwrap|].
  intros s2 (Hs2 & Hb2 & Hu2 & Hc2).
  assert (pst_upd s s2 b x PG_VALID) as Hu by (intros b' y; by rewrite Hu2).
  assert (same_but s s2) as Hsb by (by eapply same_but_trans).
  split; [|done]. eapply (dev_ok_upd s s2 b x PG_VALID); try done; [tauto|].
  intros c l b'. rewrite Hc2, Hc1, Ev, Ei, Hv. case_decide; [|done]. simpl. by rewrite ?Z.add_0_r.
Qed.
End device.

(** ** A line loses a valid page *)

Section lines.
Context (n : Z) (sp : ssdparams).

Lemma unpos_upd (ls : list line) b l b' l0 :
  ls !! b = Some l0 ->
  unpos <$> <[b := l]> ls !! b' = if decide (b' = b) then Some (unpos l) else unpos <$> ls !! b'.
Proof.
  intros E. rewrite zlookup_zinsert by (by eapply zlookup_Some_range).
  destruct (decide (b' = b)) as [->|]; [by rewrite decide_True|by rewrite decide_False by congruence].
Qed.

(** One line rewritten, its id and position kept. *)
Lemma mgmt_ok_upd held m b l0 l :
  mgmt_ok n held m -> m.(lm_lines) !! b = Some l0 -> l.(ln_id) = l0.(ln_id) -> l.(ln_pos) = l0.(ln_pos) ->
  queueable l -> 0 <= l.(ln_ipc) < 2147483648 -> (l0.(ln_pos) <> 0 -> l.(ln_vpc) = l0.(ln_vpc)) ->
  mgmt_ok n held (with_lines m (<[b := l]> m.(lm_lines))).
Proof.
  intros Hm E0 Hid Hpos Hq Hi Hv. apply mgmt_ok_lines; [done|by rewrite zlen_zinsert, (proj1 (mo_len _ _ _ Hm))|].
  intros b' l'. rewrite zlookup_zinsert by (by eapply zlookup_Some_range). case_decide as Hb.
  - subst b'. intros [= <-]. exists l0. rewrite Hpos, Hid. done.
  - intros E'. exists l'. destruct (mo_line _ _ _ Hm b' l' E') as (? & ? & ? & ?). done.
Qed.

Lemma invalidate_line_ok held m b l :
  mgmt_ok n held m -> m.(lm_lines) !! b = Some l ->
  0 < l.(ln_vpc) <= sp.(pgs_per_line) -> 0 <= l.(ln_ipc) < sp.(pgs_per_line) ->
  sp.(pgs_per_line) < 2147483648 ->
  (l.(ln_vpc) = sp.(pgs_per_line) -> l.(ln_ipc) = 0) ->
  (l.(ln_vpc) = sp.(pgs_per_line) <-> b ∈ m.(full_line_list)) ->
  okp (invalidate_line sp m b) (fun m' =>
    mgmt_ok n held m' /\ m'.(free_line_list) = m.(free_line_list) /\
    (forall b', unpos <$> m'.(lm_lines) !! b' =
       if decide (b' = b) then Some (b, l.(ln_ipc) + 1, l.(ln_vpc) - 1) else unpos <$> m.(lm_lines) !! b') /\
    (forall b', b' ∈ m'.(full_line_list) <-> b' ∈ m.(full_line_list) /\ b' <> b) /\
    (forall b', in_victims m' b' <-> in_victims m b' \/ (b' = b /\ b ∈ m.(full_line_list)))).
Proof.
  intros Hm El Hv Hi HP Hfi Hfull. unfold invalidate_line.
  destruct (mo_line _ _ _ Hm b l El) as (Eid & Hql & _ & Hpos).
  rewrite (aget_Some _ _ _ El), bind_Ok. cbv zeta. unwrap.
  apply okp_bind, okp_assert; [apply andb_true_iff; split; [apply Z.leb_le|apply Z.ltb_lt]; lia|].
  apply okp_bind. apply (okp_mono _ (fun _ => True)).
  { destruct (Z.eqb_spec (ln_vpc l) (pgs_per_line sp)) as [E|E]; [|done].
    apply okp_assert; [|done]. apply Z.eqb_eq. by apply Hfi. }
  intros _ _. apply okp_bind, okp_assert; [apply andb_true_iff; split; [apply Z.ltb_lt|apply Z.leb_le]; lia|].
  remember (Line (ln_id l) (ln_ipc l + 1) (ln_vpc l) (ln_pos l)) as l1 eqn:El1.
  remember (with_lines m (<[b := l1]> (lm_lines m))) as m1 eqn:Em1.
  assert (mgmt_ok n held m1) as Hm1.
  { subst m1. eapply mgmt_ok_upd; [exact Hm|exact El|..]; subst l1; simpl; try done. lia. }
  pose proof (zlookup_Some_range _ _ _ El) as Hbr.
  assert (m1.(lm_lines) !! b = Some l1) as E1 by (subst m1; simpl; by apply zlookup_zinsert_eq).
  assert (forall b', unpos <$> m1.(lm_lines) !! b' = if decide (b' = b) then Some (unpos l1)
    else unpos <$> m.(lm_lines) !! b') as Hu1 by (intros b'; subst m1; simpl; by eapply unpos_upd).
  assert (m1.(free_line_list) = m.(free_line_list) /\ m1.(full_line_list) = m.(full_line_list) /\
    (forall b', in_victims m1 b' <-> in_victims m b')) as (Hf1 & Hf2 & Hf3) by (by subst m1).
  destruct (Z.eqb_spec (ln_pos l) 0) as [Ep|Ep]; cbv [negb].
  - apply okp_bind, okp_bind. eapply amod_okp; [exact E1|]. unfold okp at 1 2.
    remember (Line (ln_id l1) (ln_ipc l1) (s32 (ln_vpc l1 - 1)) (ln_pos l1)) as l2 eqn:El2.
    assert (unpos l2 = (b, ln_ipc l + 1, ln_vpc l - 1)) as Eu2.
    { subst l2 l1. unfold unpos; simpl. unwrap. by rewrite Eid. }
    assert (mgmt_ok n held (with_lines m1 (<[b := l2]> (lm_lines m1)))) as Hm2.
    { eapply mgmt_ok_upd; [exact Hm1|exact E1|..]; subst l2 l1; unfold queueable; simpl; unwrap; try done; lia. }
    remember (with_lines m1 (<[b := l2]> (lm_lines m1))) as m2 eqn:Em2.
    assert (forall b', unpos <$> m2.(lm_lines) !! b' = if decide (b' = b)
      then Some (b, ln_ipc l + 1, ln_vpc l - 1) else unpos <$> m.(lm_lines) !! b') as Hu2.
    { intros b'. subst m2; simpl. rewrite (unpos_upd _ _ _ _ _ E1), Hu1, Eu2. by repeat case_decide. }
    assert (m2.(free_line_list) = m.(free_line_list) /\ m2.(full_line_list) = m.(full_line_list) /\
      (forall b', in_victims m2 b' <-> in_victims m b')) as (Hg1 & Hg2 & Hg3) by (by subst m2).
    destruct (Z.eqb_spec (ln_vpc l) (pgs_per_line sp)) as [Ef|Ef].
    + assert (b ∈ m2.(full_line_list)) as Hb2 by (rewrite Hg2; by apply Hfull).
      destruct (unlink_full_ok n held m2 b Hm2 Hb2) as (Hm3 & Hh1 & Hh2).
      apply okp_bind. eapply okp_mono; [apply (enqueue_ok n held _ b Hm3)|].
      intros r (Hm4 & Hk1 & Hk2 & Hk3 & Hk4). simpl in *.
      split; [done|]. split; [congruence|]. split; [|split].
      * intros b'. rewrite Hk3. apply Hu2.
      * intros b'. rewrite <- Hg2. apply Hh2.
      * intros b'. rewrite Hk4. apply Hfull in Ef. unfold in_victims in *; simpl in *. rewrite Hg3.
        split; [intros [->|?]; [by right|by left]|intros [?|[-> _]]; [by right|by left]].
    + simpl. split; [done|]. split; [done|]. split; [done|]. split.
      * intros b'. rewrite Hg2. split; [|by intros []]. intros Hin. split; [done|]. intros ->. by apply Ef, Hfull.
      * intros b'. rewrite Hg3. split; [by left|]. intros [|[-> Hin]]; [done|]. by apply Hfull in Hin.
  - assert (in_victims m b) as Hvb by (by apply Hpos).
    assert (b ∉ m.(full_line_list)) as Hnf.
    { intros Hin. apply (mo_disj _ _ _ Hm b Hvb). unfold elsewhere. set_solver. }
    assert (ln_vpc l <> pgs_per_line sp) as Ef by (intros E; by apply Hfull in E).
    rewrite (proj2 (Z.eqb_neq _ _) Ef).
    apply okp_bind, okp_bind. eapply okp_mono.
    { apply (requeue_ok n held m1 b (ln_vpc l - 1) Hm1); [by apply Hf3|lia]. }
    intros r (Hm2 & Hk1 & Hk2 & Hk3 & Hk4). simpl.
    split; [done|]. split; [congruence|]. split; [|split].
    + intros b'. simpl in Hk3. rewrite Hk3, put_vpc_lookup. case_decide as Hb.
      * rewrite E1. subst l1. simpl. unfold unpos; simpl. by rewrite Eid.
      * rewrite Hu1. by rewrite decide_False.
    + intros b'. simpl. rewrite Hf2. split; [|by intros []]. intros Hin. split; [done|]. by intros ->.
    + intros b'. rewrite Hk4, Hf3. split; [by left|]. intros [|[-> Hin]]; done.
Qed.
End lines.

(** ** The order of a write pointer, one step at a time *)

Section cursor.
Context (sp : ssdparams) (Hp : params_ok sp).

Definition quo (x : coord) : Z := c_pg x `div` sp.(pgs_per_oneshotpg).
Definition rem (x : coord) : Z := c_pg x `mod` sp.(pgs_per_oneshotpg).

Lemma quo_rem x : c_pg x = quo x * sp.(pgs_per_oneshotpg) + rem x /\ 0 <= rem x < sp.(pgs_per_oneshotpg).
Proof.
  pose proof (po_oneshot _ Hp). unfold quo, rem.
  pose proof (Z.div_mod (c_pg x) sp.(pgs_per_oneshotpg) ltac:(lia)).
  pose proof (Z.mod_pos_bound (c_pg x) sp.(pgs_per_oneshotpg) ltac:(lia)). lia.
Qed.

Lemma quo_range x : in_line sp x -> 0 <= quo x < sp.(oneshotpgs_per_blk).
Proof.
  intros (_ & _ & Hg). pose proof (po_oneshot _ Hp). rewrite (po_blk_oneshot _ Hp) in Hg. unfold quo.
  split; [apply Z.div_pos; lia|]. apply Z.div_lt_upper_bound; lia.
Qed.

Lemma same_coord x y :
  c_ch x = c_ch y -> c_lun x = c_lun y -> quo x = quo y -> rem x = rem y -> x = y.
Proof.
  intros Hc Hl Hq Hr. apply coord_eq; [done|done|].
  destruct (quo_rem x) as [-> _], (quo_rem y) as [-> _]. by rewrite Hq, Hr.
Qed.

(** [y] comes right after [x]. *)
Definition next_of (x y : coord) : Prop :=
  in_line sp y /\ forall z, in_line sp z -> before sp z y <-> before sp z x \/ z = x.

Lemma next_of_intro x y :
  in_line sp y ->
  (forall c l q r, 0 <= c < sp.(nchs) -> 0 <= l < sp.(luns_per_ch) -> 0 <= r < sp.(pgs_per_oneshotpg) ->
     (q < quo y \/ (q = quo y /\ (l < c_lun y \/ (l = c_lun y /\
        (c < c_ch y \/ (c = c_ch y /\ r < rem y)))))) <->
     (q < quo x \/ (q = quo x /\ (l < c_lun x \/ (l = c_lun x /\
        (c < c_ch x \/ (c = c_ch x /\ r <= rem x))))))) ->
  next_of x y.
Proof.
  intros Hy H. split; [done|]. intros z (Hc & Hl & _). destruct (quo_rem z) as [_ Hr].
  unfold before. fold (quo z) (quo x) (quo y) (rem z) (rem x) (rem y). rewrite H by done. split.
  - intros Hz. destruct (decide (quo z = quo x /\ c_lun z = c_lun x /\ c_ch z = c_ch x /\ rem z = rem x))
      as [(?&?&?&?)|]; [right; by apply same_coord|left; lia].
  - intros [Hz| ->]; lia.
Qed.

Lemma quo_rem_of c l q r :
  0 <= r < sp.(pgs_per_oneshotpg) ->
  quo (c, l, q * sp.(pgs_per_oneshotpg) + r) = q /\ rem (c, l, q * sp.(pgs_per_oneshotpg) + r) = r.
Proof. apply oneshot_pg. Qed.

(** The four ways a write pointer moves on. *)
Lemma next_page c l g :
  in_line sp (c, l, g) -> (g + 1) `mod` sp.(pgs_per_oneshotpg) <> 0 -> next_of (c, l, g) (c, l, g + 1).
Proof.
  intros Hin Hmod. pose proof (po_oneshot _ Hp). destruct (quo_rem (c, l, g)) as [Eg Hr].
  pose proof (quo_range _ Hin) as Hq. pose proof Hin as (Hc & Hl & Hg). unfold c_ch, c_lun, c_pg in *; simpl in *.
  assert (rem (c, l, g) + 1 < pgs_per_oneshotpg sp) as Hlt.
  { destruct (decide (rem (c, l, g) + 1 = pgs_per_oneshotpg sp)) as [E|]; [|lia]. exfalso. apply Hmod.
    replace (g + 1) with ((quo (c, l, g) + 1) * pgs_per_oneshotpg sp) by lia. apply Z.mod_mul. lia. }
  destruct (quo_rem_of c l (quo (c, l, g)) (rem (c, l, g) + 1)) as [Eq Er]; [lia|].
  replace (quo (c, l, g) * pgs_per_oneshotpg sp + (rem (c, l, g) + 1)) with (g + 1) in Eq, Er by lia.
  rewrite (po_blk_oneshot _ Hp) in Hg. apply next_of_intro.
  - split; [done|]. split; [done|]. unfold c_pg; simpl. rewrite (po_blk_oneshot _ Hp). nia.
  - intros c' l' q r Hc' Hl' Hr'. rewrite Eq, Er. unfold c_ch, c_lun; simpl. lia.
Qed.

(** At the end of a one-shot page: its first page is [g + 1 - os]. *)
Lemma oneshot_end c l g :
  in_line sp (c, l, g) -> (g + 1) `mod` sp.(pgs_per_oneshotpg) = 0 ->
  rem (c, l, g) = sp.(pgs_per_oneshotpg) - 1 /\
  g + 1 - sp.(pgs_per_oneshotpg) = quo (c, l, g) * sp.(pgs_per_oneshotpg).
Proof.
  intros Hin Hmod. pose proof (po_oneshot _ Hp). destruct (quo_rem (c, l, g)) as [Eg Hr].
  unfold c_pg in Eg; simpl in Eg.
  assert (rem (c, l, g) + 1 = pgs_per_oneshotpg sp) as E; [|lia].
  destruct (decide (rem (c, l, g) + 1 < pgs_per_oneshotpg sp)) as [Hlt|]; [|lia]. exfalso.
  destruct (oneshot_pg sp (quo (c, l, g)) (rem (c, l, g) + 1)) as [_ E]; [lia|].
  replace (quo (c, l, g) * pgs_per_oneshotpg sp + (rem (c, l, g) + 1)) with (g + 1) in E by lia. lia.
Qed.

Lemma next_oneshot c l g c' l' q' :
  in_line sp (c, l, g) -> (g + 1) `mod` sp.(pgs_per_oneshotpg) = 0 ->
  (c + 1 < sp.(nchs) /\ c' = c + 1 /\ l' = l /\ q' = quo (c, l, g)) \/
  (c + 1 = sp.(nchs) /\ l + 1 < sp.(luns_per_ch) /\ c' = 0 /\ l' = l + 1 /\ q' = quo (c, l, g)) \/
  (c + 1 = sp.(nchs) /\ l + 1 = sp.(luns_per_ch) /\ c' = 0 /\ l' = 0 /\ q' = quo (c, l, g) + 1 /\
     q' * sp.(pgs_per_oneshotpg) <> sp.(pgs_per_blk)) ->
  next_of (c, l, g) (c', l', q' * sp.(pgs_per_oneshotpg)).
Proof.
  intros Hin Hmod Hcase. pose proof (po_oneshot _ Hp). destruct (oneshot_end c l g Hin Hmod) as [Er Eg].
  pose proof (quo_range _ Hin) as Hq. pose proof Hin as (Hc & Hl & Hg). unfold c_ch, c_lun, c_pg in *; simpl in *.
  pose proof (po_nchs _ Hp). pose proof (po_luns _ Hp).
  destruct (quo_rem_of c' l' q' 0) as [Eq0 Er0]; [lia|]. rewrite Z.add_0_r in Eq0, Er0.
  assert (0 <= q' < oneshotpgs_per_blk sp) as Hq'.
  { rewrite (po_blk_oneshot _ Hp) in *. destruct Hcase as [?|[?|(_&_&_&_&?&?)]]; [lia..|].
    split; [lia|]. assert (q' <> oneshotpgs_per_blk sp) by (intros ->; lia). lia. }
  apply next_of_intro.
  - split; [unfold c_ch; simpl; lia|]. split; [unfold c_lun; simpl; lia|].
    unfold c_pg; simpl. rewrite (po_blk_oneshot _ Hp). nia.
  - intros c1 l1 q r Hc1 Hl1 Hr1. rewrite Eq0, Er0, Er. unfold c_ch, c_lun; simpl. lia.
Qed.

(** The last page of a line. *)
Lemma last_page c l g :
  in_line sp (c, l, g) -> (g + 1) `mod` sp.(pgs_per_oneshotpg) = 0 ->
  c + 1 = sp.(nchs) -> l + 1 = sp.(luns_per_ch) -> g + 1 = sp.(pgs_per_blk) ->
  forall z, in_line sp z -> before sp z (c, l, g) \/ z = (c, l, g).
Proof.
  intros Hin Hmod Hc Hl Hg z Hz. pose proof (po_oneshot _ Hp).
  destruct (oneshot_end c l g Hin Hmod) as [Er Eg]. pose proof (quo_range _ Hz) as Hqz.
  destruct (quo_rem z) as [_ Hrz]. pose proof Hz as (Hcz & Hlz & _).
  rewrite (po_blk_oneshot _ Hp) in Hg. assert (quo (c, l, g) + 1 = oneshotpgs_per_blk sp) as Hq by nia.
  destruct (decide (quo z = quo (c, l, g) /\ c_lun z = l /\ c_ch z = c /\ rem z = rem (c, l, g)))
    as [(?&?&?&?)|]; [right; by apply same_coord|left].
  unfold before. fold (quo z) (quo (c, l, g)) (rem z) (rem (c, l, g)).
  unfold c_ch, c_lun in *; simpl in *. lia.
Qed.
End cursor.
