(* ===== verification/ConvStep.v ===== *)
(** * The steps of the conventional FTL

    [conv_ok], the structural invariant of one partition, and what each step
    of a write does to it: a page of a write pointer becomes valid, the write
    pointer advances, a page becomes invalid.  [vic] is the line under garbage
    collection, [pend] the write pointer whose current page is written but
    which has not advanced yet. *)

From stdpp Require Import prelude list list_tactics.
From Stdlib Require Import ZArith Lia.
From S2P Require Import Prelude ChannelModel Pqueue SsdConfig Ssd ConvFtl ConvInv ConvState.

Definition wp_of (f : conv_ftl) (io : Z) : write_pointer :=
  if io =? USER_IO then f.(cf_wp) else f.(cf_gc_wp).

Definition is_io (io : Z) : Prop := io = USER_IO \/ io = GC_IO.

Definition cursor (wp : write_pointer) : coord := (wp.(wp_ch), wp.(wp_lun), wp.(wp_pg)).

Definition held (vic : option Z) (f : conv_ftl) : list Z :=
  option_list f.(cf_wp).(wp_curline) ++ option_list f.(cf_gc_wp).(wp_curline) ++ option_list vic.

(** The pages of a write pointer's line are free from its cursor on. *)
Definition wp_ok (f : conv_ftl) (pend : option Z) (io : Z) : Prop :=
  let wp := wp_of f io in
  exists b, wp.(wp_curline) = Some b /\ wp.(wp_blk) = b /\ wp.(wp_pl) = 0 /\
    in_line (cf_sp f) (cursor wp) /\
    forall x, in_line (cf_sp f) x ->
      (pst f.(cf_ssd) b x = PG_FREE <->
       ~ before (cf_sp f) x (cursor wp) /\ ~ (pend = Some io /\ x = cursor wp)).

Record conv_ok `{ChanConfig} (vic pend : option Z) (f : conv_ftl) : Prop := {
  cv_dev : dev_ok f.(cf_ssd);
  cv_mgmt : mgmt_ok (cf_sp f).(blks_per_pl) (held vic f) f.(cf_lm);
  cv_wp io : is_io io -> wp_ok f pend io;
  cv_line b l : f.(cf_lm).(lm_lines) !! b = Some l -> vic <> Some b ->
    l.(ln_vpc) = line_count PG_VALID f.(cf_ssd) b /\ l.(ln_ipc) = line_count PG_INVALID f.(cf_ssd) b;
  cv_free b x : b ∈ f.(cf_lm).(free_line_list) -> in_line (cf_sp f) x -> pst f.(cf_ssd) b x = PG_FREE;
  cv_full b x : b ∈ f.(cf_lm).(full_line_list) -> in_line (cf_sp f) x -> pst f.(cf_ssd) b x = PG_VALID;
  cv_victim b x : in_victims f.(cf_lm) b -> in_line (cf_sp f) x -> pst f.(cf_ssd) b x <> PG_FREE;
  cv_victim_inv b : in_victims f.(cf_lm) b -> exists x, in_line (cf_sp f) x /\ pst f.(cf_ssd) b x = PG_INVALID;
  cv_maptbl : zlen f.(maptbl) = (cf_sp f).(tt_pgs);
  cv_rmap : zlen f.(rmap) = (cf_sp f).(tt_pgs)
}.

(** Everything of [f'] but the device statuses and the lines is that of [f]. *)
Definition same_maps (f f' : conv_ftl) : Prop :=
  same_but f.(cf_ssd) f'.(cf_ssd) /\ f'.(cf_cp) = f.(cf_cp) /\ f'.(maptbl) = f.(maptbl) /\
  f'.(rmap) = f.(rmap) /\ f'.(cf_wfc) = f.(cf_wfc).

Lemma same_maps_trans a b c : same_maps a b -> same_maps b c -> same_maps a c.
Proof.
  intros (? & ? & ? & ? & ?) (? & ? & ? & ? & ?). split; [by eapply same_but_trans|].
  repeat split; congruence.
Qed.

Lemma elem_of_olist {A} (o : option A) x : x ∈ option_list o <-> o = Some x.
Proof.
  destruct o as [y|]; simpl; [|set_solver]. rewrite list_elem_of_singleton. split; congruence.
Qed.

Section steps.
Context `{CC : ChanConfig}.

Lemma pgs_per_line_ok s : dev_ok s -> 0 < s.(sd_sp).(pgs_per_line) < 2147483648.
Proof.
  intros Hd. pose proof (pgs_per_line_bounds _ (do_params _ Hd) (do_pls _ Hd)).
  pose proof (po_total _ (do_params _ Hd)). lia.
Qed.

(** Where a line with a valid page is. *)
Lemma valid_line_place vic pend f b x :
  conv_ok vic pend f -> 0 <= b < (cf_sp f).(blks_per_pl) -> in_line (cf_sp f) x ->
  pst f.(cf_ssd) b x = PG_VALID -> b ∉ f.(cf_lm).(free_line_list).
Proof. intros Hf Hb Hx Hv Hin. pose proof (cv_free _ _ _ Hf b x Hin Hx) as E. by rewrite E in Hv. Qed.

Lemma wp_has_free vic f io b :
  conv_ok vic None f -> is_io io -> (wp_of f io).(wp_curline) = Some b ->
  pst f.(cf_ssd) b (cursor (wp_of f io)) = PG_FREE /\ in_line (cf_sp f) (cursor (wp_of f io)).
Proof.
  intros Hf Hio Hb. destruct (cv_wp _ _ _ Hf io Hio) as (b' & Hb' & _ & _ & Hin & Hiff).
  assert (b' = b) as -> by congruence. split; [|done]. apply Hiff; [done|].
  split; [apply before_irrefl|]. by intros [? _].
Qed.

Lemma held_cases vic f b :
  b ∈ held vic f -> (exists io, is_io io /\ (wp_of f io).(wp_curline) = Some b) \/ vic = Some b.
Proof.
  unfold held. rewrite !elem_of_app, !elem_of_olist. intros [H|[H|H]].
  - left. exists USER_IO. split; [by left|done].
  - left. exists GC_IO. split; [by right|done].
  - by right.
Qed.

Lemma held_wp vic f io b : is_io io -> (wp_of f io).(wp_curline) = Some b -> b ∈ held vic f.
Proof.
  unfold held. rewrite !elem_of_app, !elem_of_olist. intros [->| ->] E; [by left|by right; left].
Qed.

(** A full line is one all of whose pages are valid. *)
Lemma full_iff vic f b l :
  conv_ok vic None f -> f.(cf_lm).(lm_lines) !! b = Some l -> vic <> Some b ->
  (l.(ln_vpc) = (cf_sp f).(pgs_per_line) <-> b ∈ f.(cf_lm).(full_line_list)).
Proof.
  intros Hf El Hvic. pose proof (cv_dev _ _ _ Hf) as Hd. pose proof (do_params _ Hd) as Hp.
  destruct (cv_line _ _ _ Hf b l El Hvic) as [Ev _]. rewrite Ev.
  pose proof (pgs_per_line_ok _ Hd) as HP. split.
  - intros Hall. assert (forall x, in_line (cf_sp f) x -> pst f.(cf_ssd) b x = PG_VALID) as Hpst.
    { intros x Hx. destruct (decide (pst f.(cf_ssd) b x = PG_VALID)) as [|Hne]; [done|].
      pose proof (line_count_lt _ b x PG_VALID Hp Hx Hne). unfold cf_sp in *. lia. }
    pose proof (zlookup_Some_range _ _ _ El) as Hbr. rewrite (proj1 (mo_len _ _ _ (cv_mgmt _ _ _ Hf))) in Hbr.
    destruct (cv_wp _ _ _ Hf USER_IO (or_introl eq_refl)) as (bu & Hbu & _ & _ & Hcu & _).
    destruct (mo_cover _ _ _ (cv_mgmt _ _ _ Hf) b Hbr) as [Hin|Hin].
    + unfold elsewhere in Hin. rewrite !elem_of_app in Hin. destruct Hin as [Hin|[Hin|Hin]]; [|done|].
      * pose proof (cv_free _ _ _ Hf b _ Hin Hcu). rewrite Hpst in H by done. done.
      * apply held_cases in Hin as [(io & Hio & Hb)|?]; [|done].
        destruct (wp_has_free vic f io b Hf Hio Hb) as [Hfree Hc]. rewrite Hpst in Hfree by done. done.
    + destruct (cv_victim_inv _ _ _ Hf b Hin) as (x & Hx & Hi). rewrite Hpst in Hi by done. done.
  - intros Hin. apply line_count_all; [done|]. intros x Hx. by apply (cv_full _ _ _ Hf).
Qed.

Lemma full_disj vic pend f b : conv_ok vic pend f -> in_victims f.(cf_lm) b -> b ∉ f.(cf_lm).(full_line_list).
Proof.
  intros Hf Hv Hin. apply (mo_disj _ _ _ (cv_mgmt _ _ _ Hf) b Hv). unfold elsewhere. set_solver.
Qed.

(** A valid page becomes invalid. *)
Lemma mark_page_invalid_ok vic f b x :
  conv_ok vic None f -> 0 <= b < (cf_sp f).(blks_per_pl) -> in_line (cf_sp f) x ->
  vic <> Some b -> pst f.(cf_ssd) b x = PG_VALID ->
  okp (mark_page_invalid f (ppa_at b x)) (fun f' =>
    conv_ok vic None f' /\ same_maps f f' /\ pst_upd f.(cf_ssd) f'.(cf_ssd) b x PG_INVALID /\
    f'.(cf_wp) = f.(cf_wp) /\ f'.(cf_gc_wp) = f.(cf_gc_wp) /\
    f'.(cf_lm).(free_line_list) = f.(cf_lm).(free_line_list)).
Proof.
  intros Hf Hb Hx Hvic Hv. pose proof (cv_dev _ _ _ Hf) as Hd. pose proof (do_params _ Hd) as Hp.
  pose proof (pgs_per_line_ok _ Hd) as HP.
  destruct (mo_lookup _ _ _ b (cv_mgmt _ _ _ Hf) Hb) as [l El].
  destruct (cv_line _ _ _ Hf b l El Hvic) as [Ev Ei].
  pose proof (line_count_pos _ b x PG_VALID Hp Hx Hv).
  pose proof (line_count_sum f.(cf_ssd) b PG_VALID PG_INVALID Hp ltac:(done)).
  pose proof (line_count_bound f.(cf_ssd) b PG_INVALID Hp).
  pose proof (full_iff vic f b l Hf El Hvic) as Hfull.
  unfold mark_page_invalid. apply okp_bind. eapply okp_mono; [by apply invalidate_page_ok|].
  intros s' (Hd' & Hsb & Hu). pose proof Hsb as (Esp & _). simpl.
  apply okp_bind. eapply okp_mono.
  { apply (invalidate_line_ok (cf_sp f).(blks_per_pl) (cf_sp f) (held vic f) f.(cf_lm) b l);
      [apply Hf|done|unfold cf_sp in *; lia..|done]. }
  intros m' (Hm' & Hfree & Hlines & Hfulls & Hvics). simpl.
  split; [|done].
  assert (forall y, pst s' b y = PG_FREE <-> pst (cf_ssd f) b y = PG_FREE) as Hfb.
  { intros y. rewrite Hu. case_decide as Hy; [|done]. destruct Hy as [_ ->]. by rewrite Hv. }
  assert (forall b' y, pst s' b' y = PG_FREE <-> pst (cf_ssd f) b' y = PG_FREE) as Hfr.
  { intros b' y. destruct (decide (b' = b)) as [->|]; [done|]. by rewrite Hu, decide_False by tauto. }
  pose proof Hf as [_ _ Hwp Hline Hfree0 Hfull0 Hvic0 Hinv0 Hl1 Hl2].
  split; unfold cf_sp in *; simpl; rewrite ?Esp; try done.
  - intros io Hio. destruct (Hwp io Hio) as (b0 & E1 & E2 & E3 & E4 & E5).
    exists b0. unfold wp_of, cf_sp in *; simpl in *. rewrite Esp.
    do 4 (split; [done|]). intros y Hy. rewrite Hfr. by apply E5.
  - intros b' l' E' Hvb'. pose proof (Hlines b') as Hl'. rewrite E' in Hl'. simpl in Hl'.
    rewrite (line_count_upd f.(cf_ssd) s' b x PG_INVALID PG_VALID),
      (line_count_upd f.(cf_ssd) s' b x PG_INVALID PG_INVALID) by done.
    destruct (decide (b' = b)) as [->|Hbb].
    + unfold unpos in Hl'. injection Hl' as _ -> ->. rewrite Ev, Ei, Hv. unfold PG_INVALID, PG_VALID. simpl. lia.
    + rewrite !Z.add_0_r. destruct (lm_lines (cf_lm f) !! b') as [l0|] eqn:E0; [|done].
      simpl in Hl'. unfold unpos in Hl'. injection Hl' as _ -> ->. by apply Hline.
  - intros b' y Hin Hy. apply Hfr. apply Hfree0; [by rewrite <- Hfree|done].
  - intros b' y Hin Hy. apply Hfulls in Hin as [Hin Hbb]. rewrite Hu, decide_False by tauto. by apply Hfull0.
  - intros b' y Hin Hy. rewrite Hfr. apply Hvics in Hin as [Hin|[-> Hin]]; [by apply Hvic0|].
    rewrite (Hfull0 b y Hin Hy). done.
  - intros b' Hin. apply Hvics in Hin as [Hin|[-> Hin]].
    + destruct (Hinv0 b' Hin) as (y & Hy & Ey). exists y. split; [done|]. rewrite Hu. by case_decide.
    + exists x. split; [done|]. rewrite Hu. by rewrite decide_True.
Qed.

(** ** A new page *)

Lemma get_new_page_ok vic pend f io :
  conv_ok vic pend f -> is_io io ->
  exists b, (wp_of f io).(wp_curline) = Some b /\ 0 <= b < (cf_sp f).(blks_per_pl) /\
    in_line (cf_sp f) (cursor (wp_of f io)) /\
    get_new_page f io = Ok (ppa_at b (cursor (wp_of f io))).
Proof.
  intros Hf Hio. pose proof (cv_dev _ _ _ Hf) as Hd. pose proof (do_params _ Hd) as Hp.
  destruct (cv_wp _ _ _ Hf io Hio) as (b & Hb & Eb & Epl & Hin & _).
  assert (0 <= b < (cf_sp f).(blks_per_pl)) as Hbr.
  { apply (mo_range _ _ _ (cv_mgmt _ _ _ Hf)). unfold elsewhere. rewrite !elem_of_app.
    right; right. by eapply held_wp. }
  exists b. split; [done|]. split; [done|]. split; [done|].
  assert (__get_wp f io = Ok (wp_of f io)) as Egw by (by destruct Hio as [->| ->]).
  unfold get_new_page. rewrite Egw, bind_Ok. cbv zeta.
  pose proof (po_nchs _ Hp). pose proof (po_luns _ Hp). pose proof (po_pgs _ Hp). pose proof (po_blks _ Hp).
  unfold cf_sp in *. destruct Hin as (Hc & Hl & Hg). unfold cursor, c_ch, c_lun, c_pg in *; simpl in *.
  rewrite Epl, Eb. unfold set_ch, set_lun, set_pg, set_blk, set_pl, ppa_of_u64, ppa_at; simpl.
  rewrite !Z.mod_small by lia. reflexivity.
Qed.

Lemma held_others vic f io b :
  is_io io -> (wp_of f io).(wp_curline) = Some b ->
  held vic f ≡ₚ b :: (option_list (wp_of f (if io =? USER_IO then GC_IO else USER_IO)).(wp_curline) ++ option_list vic).
Proof.
  intros [->| ->] E; unfold held, wp_of in *; simpl in *; rewrite E; simpl; [done|solve_Permutation].
Qed.

Lemma held_not_vic vic pend f io b :
  conv_ok vic pend f -> is_io io -> (wp_of f io).(wp_curline) = Some b -> vic <> Some b.
Proof.
  intros Hf Hio E ->. pose proof (mo_nodup _ _ _ (cv_mgmt _ _ _ Hf)) as Hnd. unfold elsewhere in Hnd.
  rewrite (held_others _ _ _ _ Hio E) in Hnd. apply NoDup_app in Hnd as (_ & _ & Hnd).
  apply NoDup_app in Hnd as (_ & _ & Hnd). apply NoDup_cons in Hnd as [Hnin _]. apply Hnin.
  simpl. set_solver.
Qed.

Lemma held_wp_inj vic pend f io io' b :
  conv_ok vic pend f -> is_io io -> is_io io' ->
  (wp_of f io).(wp_curline) = Some b -> (wp_of f io').(wp_curline) = Some b -> io = io'.
Proof.
  intros Hf Hio Hio' E E'. pose proof (mo_nodup _ _ _ (cv_mgmt _ _ _ Hf)) as Hnd. unfold elsewhere in Hnd.
  rewrite (held_others _ _ _ _ Hio E) in Hnd. apply NoDup_app in Hnd as (_ & _ & Hnd).
  apply NoDup_app in Hnd as (_ & _ & Hnd). apply NoDup_cons in Hnd as [Hnin _].
  destruct Hio as [->| ->], Hio' as [->| ->]; try done; exfalso; apply Hnin;
    unfold wp_of in *; simpl in *; rewrite E'; simpl; set_solver.
Qed.

(** A held line of a write pointer is neither full, free, nor queued. *)
Lemma wp_place vic pend f io b :
  conv_ok vic pend f -> is_io io -> (wp_of f io).(wp_curline) = Some b ->
  b ∉ f.(cf_lm).(free_line_list) /\ b ∉ f.(cf_lm).(full_line_list) /\ ~ in_victims f.(cf_lm) b.
Proof.
  intros Hf Hio E. pose proof (cv_mgmt _ _ _ Hf) as Hm. pose proof (mo_nodup _ _ _ Hm) as Hnd.
  pose proof (held_wp vic f io b Hio E) as Hh. unfold elsewhere in Hnd.
  apply NoDup_app in Hnd as (_ & Hd1 & Hnd). apply NoDup_app in Hnd as (_ & Hd2 & _).
  split; [intros Hin; apply (Hd1 b Hin); set_solver|].
  split; [intros Hin; by apply (Hd2 b Hin)|].
  intros Hin. apply (mo_disj _ _ _ Hm b Hin). unfold elsewhere. set_solver.
Qed.

(** The page under a write pointer becomes valid. *)
Lemma mark_page_valid_ok vic f io b :
  conv_ok vic None f -> is_io io -> (wp_of f io).(wp_curline) = Some b ->
  let x := cursor (wp_of f io) in
  okp (mark_page_valid f (ppa_at b x)) (fun f' =>
    conv_ok vic (Some io) f' /\ same_maps f f' /\ pst_upd f.(cf_ssd) f'.(cf_ssd) b x PG_VALID /\
    f'.(cf_wp) = f.(cf_wp) /\ f'.(cf_gc_wp) = f.(cf_gc_wp) /\ same_lists f.(cf_lm) f'.(cf_lm) /\
    (forall b', b' <> b -> f'.(cf_lm).(lm_lines) !! b' = f.(cf_lm).(lm_lines) !! b')).
Proof.
  intros Hf Hio Ebl x. pose proof (cv_dev _ _ _ Hf) as Hd. pose proof (do_params _ Hd) as Hp.
  pose proof (pgs_per_line_ok _ Hd) as HP.
  destruct (wp_has_free vic f io b Hf Hio Ebl) as [Hfree Hx]. fold x in Hfree, Hx.
  destruct (get_new_page_ok vic None f io Hf Hio) as (b0 & E0 & Hb & _ & _).
  assert (b0 = b) as -> by congruence. clear E0.
  pose proof (held_not_vic _ _ _ _ _ Hf Hio Ebl) as Hvic.
  destruct (wp_place _ _ _ _ _ Hf Hio Ebl) as (Hnf & Hnfull & Hnv).
  destruct (mo_lookup _ _ _ b (cv_mgmt _ _ _ Hf) Hb) as [l El].
  destruct (cv_line _ _ _ Hf b l El Hvic) as [Ev Ei].
  destruct (mo_line _ _ _ (cv_mgmt _ _ _ Hf) b l El) as (Eid & Hql & Hipc & Hpos).
  assert (ln_pos l = 0) as Hpos0
    by (destruct (decide (ln_pos l = 0)) as [|Hne]; [done|]; by apply Hpos in Hne).
  assert (pst f.(cf_ssd) b x <> PG_VALID) as Hnv2 by (by rewrite Hfree).
  pose proof (line_count_lt _ b x PG_VALID Hp Hx Hnv2) as Hlt.
  pose proof (line_count_bound f.(cf_ssd) b PG_VALID Hp).
  unfold mark_page_valid. apply okp_bind. eapply okp_mono; [by apply validate_page_ok|].
  intros s' (Hd' & Hsb & Hu). pose proof Hsb as (Esp & _). cbv zeta.
  unfold get_line; simpl. rewrite (aget_Some _ _ _ El), bind_Ok.
  unfold cf_sp in *; simpl. rewrite Esp. unwrap.
  apply okp_bind, okp_assert; [apply andb_true_iff; split; [apply Z.leb_le|apply Z.ltb_lt]; lia|].
  simpl. split; [|split; [done|split; [done|split; [done|split; [done|split; [done|]]]]]].
  2: { intros b' Hb'. by rewrite zlookup_zinsert_ne. }
  assert (forall b' y, b' <> b -> pst s' b' y = pst (cf_ssd f) b' y) as Hother
    by (intros b' y Hb'; by rewrite Hu, decide_False by tauto).
  pose proof Hf as [_ Hm Hwp Hline Hfree0 Hfull0 Hvic0 Hinv0 Hl1 Hl2].
  split; unfold cf_sp in *; simpl; rewrite ?Esp; try done.
  - change (held vic (with_lm (with_ssd f s') _)) with (held vic f).
    eapply mgmt_ok_upd; [exact Hm|exact El|..]; unfold queueable; simpl; try done; lia.
  - intros io' Hio'. destruct (Hwp io' Hio') as (b0 & E1 & E2 & E3 & E4 & E5).
    exists b0. unfold wp_of, cf_sp in *; simpl in *. rewrite Esp.
    do 4 (split; [done|]). intros y Hy. destruct (decide (b0 = b)) as [->|Hne].
    + assert (io' = io) as -> by (eapply (held_wp_inj vic None f io' io b); done).
      fold x. rewrite Hu. destruct (decide (b = b /\ y = x)) as [[_ ->]|Hyx].
      * split; [done|]. intros [_ Hno]. by destruct Hno.
      * rewrite E5 by done. split; intros [K1 K2]; (split; [done|]).
        -- intros [_ ->]. by apply Hyx.
        -- by intros [? _].
    + rewrite Hother, E5 by done. assert (io' <> io) by (intros ->; unfold wp_of in Ebl; congruence).
      split; intros [K1 K2]; (split; [done|]); intros [? ?]; congruence.
  - intros b' l' E' Hvb'. rewrite (line_count_upd f.(cf_ssd) s' b x PG_VALID PG_VALID),
      (line_count_upd f.(cf_ssd) s' b x PG_VALID PG_INVALID) by done.
    rewrite zlookup_zinsert in E' by (by eapply zlookup_Some_range).
    destruct (decide (b' = b)) as [->|Hbb].
    + rewrite decide_True in E' by done. injection E' as <-. simpl. rewrite Ev, Ei, Hfree.
      unfold PG_INVALID, PG_VALID, PG_FREE. simpl. lia.
    + rewrite decide_False in E' by congruence. rewrite !Z.add_0_r. by apply Hline.
  - intros b' y Hin Hy. rewrite Hother; [by apply Hfree0|]. by intros ->.
  - intros b' y Hin Hy. rewrite Hother; [by apply Hfull0|]. by intros ->.
  - intros b' y Hin Hy. rewrite Hother; [by apply Hvic0|]. by intros ->.
  - intros b' Hin. destruct (Hinv0 b' Hin) as (y & Hy & Ey). exists y. split; [done|].
    rewrite Hother; [done|]. by intros ->.
Qed.

(** ** A write pointer advances *)

(** A line without free pages is full, or has an invalid page. *)
Lemma used_up_counts s b :
  dev_ok s -> 0 <= b < s.(sd_sp).(blks_per_pl) ->
  (forall x, in_line s.(sd_sp) x -> pst s b x <> PG_FREE) ->
  (line_count PG_VALID s b = s.(sd_sp).(pgs_per_line) /\ line_count PG_INVALID s b = 0 /\
   forall x, in_line s.(sd_sp) x -> pst s b x = PG_VALID) \/
  (line_count PG_VALID s b < s.(sd_sp).(pgs_per_line) /\ 0 < line_count PG_INVALID s b /\
   exists x, in_line s.(sd_sp) x /\ pst s b x = PG_INVALID).
Proof.
  intros Hd Hb Hnf. pose proof (do_params _ Hd) as Hp.
  destruct (decide (line_count PG_INVALID s b = 0)) as [E|E].
  - left. assert (forall x, in_line s.(sd_sp) x -> pst s b x = PG_VALID) as Hall.
    { intros x Hx. destruct (do_st _ Hd b x Hb Hx) as [K|[K|K]]; [by apply Hnf in K| |done].
      pose proof (line_count_pos s b x PG_INVALID Hp Hx K). lia. }
    split; [by apply line_count_all|done].
  - right. pose proof (line_count_bound s b PG_INVALID Hp).
    pose proof (line_count_sum s b PG_VALID PG_INVALID Hp ltac:(done)).
    split; [lia|]. split; [lia|].
    destruct (decide (Exists (fun x => pst s b x = PG_INVALID) (coords s.(sd_sp)))) as [Hex|Hno].
    + apply Exists_exists in Hex as (x & Hx & Ex). exists x. split; [by apply elem_of_coords|done].
    + exfalso. apply E. apply line_count_none; [done|]. intros x Hx Ex. apply Hno, Exists_exists.
      exists x. split; [by apply elem_of_coords|done].
Qed.

Lemma retire_line_ok vic f io b rest :
  conv_ok vic (Some io) f -> is_io io -> (wp_of f io).(wp_curline) = Some b ->
  held vic f ≡ₚ b :: rest ->
  (forall x, in_line (cf_sp f) x -> pst f.(cf_ssd) b x <> PG_FREE) ->
  okp (retire_line f (wp_of f io)) (fun m' =>
    mgmt_ok (cf_sp f).(blks_per_pl) rest m' /\
    m'.(free_line_list) = f.(cf_lm).(free_line_list) /\
    (forall b', unpos <$> m'.(lm_lines) !! b' = unpos <$> f.(cf_lm).(lm_lines) !! b') /\
    (forall b', b' ∈ m'.(full_line_list) -> b' ∈ f.(cf_lm).(full_line_list) \/
       (forall x, in_line (cf_sp f) x -> b' = b /\ pst f.(cf_ssd) b x = PG_VALID)) /\
    (forall b', in_victims m' b' -> in_victims f.(cf_lm) b' \/
       (b' = b /\ exists x, in_line (cf_sp f) x /\ pst f.(cf_ssd) b x = PG_INVALID))).
Proof.
  intros Hf Hio Ebl Hperm Hnf. pose proof (cv_dev _ _ _ Hf) as Hd.
  pose proof (pgs_per_line_ok _ Hd) as HP.
  destruct (get_new_page_ok vic _ f io Hf Hio) as (b0 & E0 & Hb & _ & _).
  assert (b0 = b) as -> by congruence. clear E0.
  pose proof (held_not_vic _ _ _ _ _ Hf Hio Ebl) as Hvic.
  pose proof (mgmt_ok_perm _ _ _ _ Hperm (cv_mgmt _ _ _ Hf)) as Hm.
  destruct (mo_lookup _ _ _ b Hm Hb) as [l El].
  destruct (cv_line _ _ _ Hf b l El Hvic) as [Ev Ei].
  unfold retire_line. rewrite Ebl. simpl. rewrite (aget_Some _ _ _ El), bind_Ok, Ev, Ei.
  unfold cf_sp in *. pose proof (line_count_bound f.(cf_ssd) b PG_VALID (do_params _ Hd)). unwrap.
  destruct (used_up_counts f.(cf_ssd) b Hd Hb Hnf) as [(E1 & E2 & Hall)|(E1 & E2 & Hex)].
  - rewrite E1, Z.eqb_refl. apply okp_bind, okp_assert; [by apply Z.eqb_eq|].
    destruct (retire_full_ok _ _ _ _ Hm) as (m' & -> & Hm' & F1 & F2 & F3 & F4). simpl.
    split; [done|]. split; [done|]. split; [by rewrite F4|]. split.
    + intros b'. rewrite F2, elem_of_app, list_elem_of_singleton. intros [?| ->]; [by left|right].
      intros x Hx. split; [done|by apply Hall].
    + intros b' Hv. left. unfold in_victims in *. by rewrite F3 in Hv.
  - rewrite (proj2 (Z.eqb_neq _ _)) by lia.
    apply okp_bind, okp_assert; [apply andb_true_iff; split; [apply Z.leb_le|apply Z.ltb_lt]; lia|].
    apply okp_bind, okp_assert; [by apply Z.ltb_lt|].
    apply okp_bind. eapply okp_mono; [by apply enqueue_ok|].
    intros r (Hm' & F1 & F2 & F3 & F4). simpl in *. split; [done|]. split; [done|]. split; [done|]. split.
    + intros b' Hin. by left.
    + intros b' Hv. apply F4 in Hv as [->|Hv]; [by right|by left].
Qed.

(** What [advance_write_pointer] leaves: the line goes on, or a new one starts. *)
Definition advanced_to (f f' : conv_ftl) (io b : Z) : Prop :=
  ((wp_of f' io).(wp_curline) = Some b /\ f'.(cf_lm) = f.(cf_lm)) \/
  ((forall x, in_line (cf_sp f) x -> pst f.(cf_ssd) b x <> PG_FREE) /\
   exists id, (wp_of f' io).(wp_curline) = Some id /\
     f.(cf_lm).(free_line_list) = id :: f'.(cf_lm).(free_line_list) /\
     forall b', unpos <$> f'.(cf_lm).(lm_lines) !! b' = unpos <$> f.(cf_lm).(lm_lines) !! b').

Definition other_io (io : Z) : Z := if io =? USER_IO then GC_IO else USER_IO.

Lemma wp_of_set f io wp : is_io io -> wp_of (set_wp f io wp) io = wp.
Proof. by intros [->| ->]. Qed.

Lemma wp_of_set_other f io io' wp : is_io io -> is_io io' -> io' <> io -> wp_of (set_wp f io wp) io' = wp_of f io'.
Proof. intros [->| ->] [->| ->] Hne; done. Qed.

Lemma set_wp_same f io wp :
  (set_wp f io wp).(cf_ssd) = f.(cf_ssd) /\ (set_wp f io wp).(cf_cp) = f.(cf_cp) /\
  (set_wp f io wp).(maptbl) = f.(maptbl) /\ (set_wp f io wp).(rmap) = f.(rmap) /\
  (set_wp f io wp).(cf_lm) = f.(cf_lm) /\ (set_wp f io wp).(cf_wfc) = f.(cf_wfc).
Proof. unfold set_wp. by case_match. Qed.

(** The cursor moves inside the line. *)
Lemma move_wp_ok vic f io b y :
  conv_ok vic (Some io) f -> is_io io -> (wp_of f io).(wp_curline) = Some b ->
  next_of (cf_sp f) (cursor (wp_of f io)) y ->
  let wp := wp_of f io in
  conv_ok vic None (set_wp f io (WritePointer wp.(wp_curline) (c_ch y) (c_lun y) (c_pg y) wp.(wp_blk) wp.(wp_pl))).
Proof.
  intros Hf Hio Ebl [Hy Hnext] wp.
  remember (WritePointer _ _ _ _ _ _) as wp' eqn:Ewp'.
  destruct (set_wp_same f io wp') as (E1 & E2 & E3 & E4 & E5 & E6).
  assert (held vic (set_wp f io wp') = held vic f) as Eh.
  { unfold held. destruct Hio as [->| ->]; subst wp'; unfold set_wp, wp; simpl; done. }
  pose proof Hf as [Hd Hm Hwp Hline Hfree0 Hfull0 Hvic0 Hinv0 Hl1 Hl2].
  split; unfold cf_sp in *; rewrite ?Eh, ?E1, ?E3, ?E4, ?E5; try done.
  intros io' Hio'. destruct (Hwp io' Hio') as (b0 & K1 & K2 & K3 & K4 & K5). exists b0.
  unfold cf_sp in *. rewrite E1. destruct (decide (io' = io)) as [->|Hne].
  - rewrite wp_of_set by done. assert (b0 = b) as -> by congruence.
    assert (cursor wp' = y) as Ey by (subst wp'; by destruct y as [[??]?]).
    rewrite Ey. split; [by subst wp'|]. split; [by subst wp'|]. split; [by subst wp'|]. split; [done|].
    intros z Hz. rewrite K5, Hnext by done. split.
    + intros [N1 N2]. split; [|by intros [? _]]. intros [?| ->]; [done|]. by apply N2.
    + intros [N1 _]. split; [tauto|]. intros [_ ->]. apply N1. by right.
  - rewrite wp_of_set_other by done. do 4 (split; [done|]). intros z Hz. rewrite K5 by done.
    split; intros [N1 N2]; (split; [done|]); intros [? ?]; congruence.
Qed.

(** The line is used up: it is retired, and the first free line takes over. *)
Lemma roll_wp_ok vic f io b id rest m' m'' others :
  conv_ok vic (Some io) f -> is_io io -> (wp_of f io).(wp_curline) = Some b ->
  others = option_list (wp_of f (other_io io)).(wp_curline) ++ option_list vic ->
  mgmt_ok (cf_sp f).(blks_per_pl) (id :: others) m'' ->
  (forall b', unpos <$> m''.(lm_lines) !! b' = unpos <$> f.(cf_lm).(lm_lines) !! b') ->
  f.(cf_lm).(free_line_list) = id :: rest -> m''.(free_line_list) = rest ->
  m''.(full_line_list) = m'.(full_line_list) -> m''.(victim_line_pq) = m'.(victim_line_pq) ->
  (forall b', b' ∈ m'.(full_line_list) -> b' ∈ f.(cf_lm).(full_line_list) \/
       (forall x, in_line (cf_sp f) x -> b' = b /\ pst f.(cf_ssd) b x = PG_VALID)) ->
  (forall b', in_victims m' b' -> in_victims f.(cf_lm) b' \/
       (b' = b /\ exists x, in_line (cf_sp f) x /\ pst f.(cf_ssd) b x = PG_INVALID)) ->
  (forall x, in_line (cf_sp f) x -> pst f.(cf_ssd) b x <> PG_FREE) ->
  conv_ok vic None (set_wp (with_lm f m'') io (WritePointer (Some id) 0 0 0 id 0)).
Proof.
  intros Hf Hio Ebl Eo Hm'' Hun Ef Ef' Efull Epq Hfull Hvics Hnf.
  remember (WritePointer (Some id) 0 0 0 id 0) as wp' eqn:Ewp'.
  destruct (set_wp_same (with_lm f m'') io wp') as (E1 & E2 & E3 & E4 & E5 & E6). simpl in E1, E2, E3, E4, E5, E6.
  assert (held vic (set_wp (with_lm f m'') io wp') ≡ₚ id :: others) as Eh.
  { subst others wp'. unfold held, other_io, wp_of. destruct Hio as [->| ->]; simpl; [done|solve_Permutation]. }
  pose proof Hf as [Hd Hm Hwp Hline Hfree0 Hfull0 Hvic0 Hinv0 Hl1 Hl2].
  pose proof (do_params _ Hd) as Hp.
  split; unfold cf_sp in *; rewrite ?E1, ?E3, ?E4, ?E5; try done.
  - by eapply mgmt_ok_perm.
  - intros io' Hio'. destruct (Hwp io' Hio') as (b0 & K1 & K2 & K3 & K4 & K5).
    unfold wp_ok, cf_sp in *. rewrite E1. destruct (decide (io' = io)) as [->|Hne].
    + rewrite wp_of_set by done. exists id. subst wp'; simpl. do 3 (split; [done|]).
      pose proof (po_nchs _ Hp). pose proof (po_luns _ Hp). pose proof (po_pgs _ Hp). pose proof (po_oneshot _ Hp).
      split; [unfold cursor, in_line, c_ch, c_lun, c_pg; simpl; lia|].
      intros z Hz. split; [|intros _; apply Hfree0; [rewrite Ef; set_solver|done]].
      intros _. split; [|by intros [? _]]. destruct (quo_rem _ Hp z) as [_ Hr]. pose proof (quo_range _ Hp z Hz) as Hq.
      pose proof Hz as (Hc & Hl & _). unfold before, cursor.
      fold (quo (sd_sp (cf_ssd f)) z) (rem (sd_sp (cf_ssd f)) z). unfold c_ch, c_lun, c_pg in *; simpl.
      rewrite Z.div_0_l, Z.mod_0_l by lia. lia.
    + rewrite wp_of_set_other by done. exists b0. do 4 (split; [done|]). intros z Hz.
      change (wp_of (with_lm f m'') io') with (wp_of f io'). rewrite K5 by done.
      split; intros [N1 N2]; (split; [done|]); intros [? ?]; congruence.
  - intros b' l' E' Hv. pose proof (Hun b') as Hu. rewrite E' in Hu.
    destruct (lm_lines (cf_lm f) !! b') as [l0|] eqn:E0; [|done]. simpl in Hu. unfold unpos in Hu.
    injection Hu as _ -> ->. by apply Hline.
  - intros b' y Hin Hy. apply Hfree0; [|done]. rewrite Ef. rewrite Ef' in Hin. set_solver.
  - intros b' y Hin Hy. rewrite Efull in Hin. apply Hfull in Hin as [Hin|Hin]; [by apply Hfull0|].
    by destruct (Hin y Hy) as [-> ?].
  - intros b' y Hin Hy. unfold in_victims in Hin, Hvics. rewrite Epq in Hin.
    apply Hvics in Hin as [Hin|[-> _]]; [by apply Hvic0|by apply Hnf].
  - intros b' Hin. unfold in_victims in Hin, Hvics. rewrite Epq in Hin.
    apply Hvics in Hin as [Hin|[-> Hin]]; [by apply Hinv0|done].
Qed.

Lemma check_addr_ok a n (Q : unit -> Prop) : 0 <= a < n -> Q () -> okp (check_addr a n) Q.
Proof.
  intros Ha HQ. apply okp_assert; [|done]. apply andb_true_iff. split; [apply Z.leb_le|apply Z.ltb_lt]; lia.
Qed.

(** The page under the write pointer is written; the write pointer advances.
    A new line must be free if this was the last page of its line. *)
Lemma advance_write_pointer_ok vic f io b :
  conv_ok vic (Some io) f -> is_io io -> (wp_of f io).(wp_curline) = Some b ->
  f.(cf_lm).(free_line_list) <> [] \/ (exists x, in_line (cf_sp f) x /\ pst f.(cf_ssd) b x = PG_FREE) ->
  okp (advance_write_pointer f io) (fun f' =>
    conv_ok vic None f' /\ same_maps f f' /\ f'.(cf_ssd) = f.(cf_ssd) /\
    wp_of f' (other_io io) = wp_of f (other_io io) /\ advanced_to f f' io b).
Proof.
  intros Hf Hio Ebl Hroom. pose proof (cv_dev _ _ _ Hf) as Hd. pose proof (do_params _ Hd) as Hp.
  destruct (cv_wp _ _ _ Hf io Hio) as (b0 & K1 & K2 & K3 & K4 & K5).
  assert (b0 = b) as -> by congruence. clear K1.
  destruct (get_new_page_ok vic _ f io Hf Hio) as (b0 & E0 & Hb & _ & _).
  assert (b0 = b) as -> by congruence. clear E0.
  assert (__get_wp f io = Ok (wp_of f io)) as Egw by (by destruct Hio as [->| ->]).
  assert (is_io (other_io io) /\ other_io io <> io) as [Hoio Hone].
  { destruct Hio as [->| ->]; unfold other_io; simpl; (split; [|done]); [by right|by left]. }
  unfold advance_write_pointer. rewrite Egw, bind_Ok. cbv zeta.
  pose proof Ebl as Ebl0.
  remember (wp_of f io) as wp eqn:Ewp in Egw, Ebl, K2, K3, K4, K5 |- *. destruct wp as [cl c l g bk pl]. unfold cursor in *; simpl in *.
  pose proof K4 as (Hc & Hl & Hg). unfold c_ch, c_lun, c_pg in Hc, Hl, Hg; simpl in Hc, Hl, Hg.
  unfold cf_sp in *. remember (sd_sp (cf_ssd f)) as sp eqn:Esp.
  pose proof (po_nchs _ Hp). pose proof (po_luns _ Hp). pose proof (po_pgs _ Hp). pose proof (po_oneshot _ Hp).
  pose proof (po_oneshots _ Hp). pose proof (po_blk_oneshot _ Hp). pose proof (po_blks _ Hp).
  assert (forall y, next_of sp (c, l, g) y ->
    okp (Ok (set_wp f io (WritePointer cl (c_ch y) (c_lun y) (c_pg y) bk pl))) (fun f' =>
      conv_ok vic None f' /\ same_maps f f' /\ f'.(cf_ssd) = f.(cf_ssd) /\
      wp_of f' (other_io io) = wp_of f (other_io io) /\ advanced_to f f' io b)) as Hmove.
  { intros y Hy.
    assert (conv_ok vic None (set_wp f io (WritePointer cl (c_ch y) (c_lun y) (c_pg y) bk pl))) as Hok.
    { pose proof (move_wp_ok vic f io b y Hf Hio) as Hmv. rewrite <- Ewp in Hmv. simpl in Hmv.
      apply Hmv; [done|]. unfold cf_sp. by rewrite <- Esp. }
    match goal with |- okp (Ok (set_wp f io ?w)) _ => destruct (set_wp_same f io w) as (E1 & E2 & E3 & E4 & E5 & E6) end.
    split; [done|]. split; [unfold same_maps; rewrite E1, E2, E3, E4, E6; done|]. split; [done|].
    split; [by apply wp_of_set_other|]. left. rewrite wp_of_set, E5 by done. done. }
  unwrap. apply okp_bind, check_addr_ok; [lia|].
  apply okp_bind, okp_cmod; [lia|].
  destruct (Z.eqb_spec ((g + 1) `mod` pgs_per_oneshotpg sp) 0) as [Emod|Emod]; simpl negb; cbv iota.
  2: { apply (Hmove (c, l, g + 1)). by apply next_page. }
  destruct (oneshot_end sp Hp c l g K4 Emod) as [Er Eg].
  pose proof (quo_range sp Hp _ K4) as Hq.
  assert (0 <= g + 1 - pgs_per_oneshotpg sp < 65536) by (rewrite Eg in *; nia).
  unwrap. apply okp_bind, check_addr_ok; [lia|].
  destruct (Z.eqb_spec (c + 1) (nchs sp)) as [Ec|Ec]; simpl negb; cbv iota.
  2: { rewrite Eg. apply (Hmove (c + 1, l, quo sp (c, l, g) * pgs_per_oneshotpg sp)).
       apply next_oneshot; [done|done|done|]. left. lia. }
  apply okp_bind, check_addr_ok; [lia|].
  destruct (Z.eqb_spec (l + 1) (luns_per_ch sp)) as [El|El]; simpl negb; cbv iota.
  2: { rewrite Eg. apply (Hmove (0, l + 1, quo sp (c, l, g) * pgs_per_oneshotpg sp)).
       apply next_oneshot; [done|done|done|]. right; left. lia. }
  replace (g + 1 - pgs_per_oneshotpg sp + pgs_per_oneshotpg sp) with (g + 1) by lia. unwrap.
  destruct (Z.eqb_spec (g + 1) (pgs_per_blk sp)) as [Egg|Egg]; simpl negb; cbv iota.
  2: { replace (g + 1) with ((quo sp (c, l, g) + 1) * pgs_per_oneshotpg sp) by lia.
       apply (Hmove (0, 0, (quo sp (c, l, g) + 1) * pgs_per_oneshotpg sp)).
       apply next_oneshot; [done|done|done|]. right; right. lia. }
  assert (forall x, in_line sp x -> pst (cf_ssd f) b x <> PG_FREE) as Hnf.
  { intros x Hx Ex. apply K5 in Ex as [N1 N2]; [|done].
    destruct (last_page sp Hp c l g K4 Emod Ec El Egg x Hx) as [?| ->]; [done|by apply N2]. }
  destruct Hroom as [Hroom|(x & Hx & Ex)]; [|by apply Hnf in Ex].
  destruct (free_line_list (cf_lm f)) as [|id rest] eqn:Efl; [done|].
  remember (option_list (wp_of f (other_io io)).(wp_curline) ++ option_list vic) as others eqn:Eoth.
  assert (held vic f ≡ₚ b :: others) as Hperm.
  { subst others. by apply held_others. }
  pose proof (retire_line_ok vic f io b others Hf Hio) as Hret. rewrite <- Ewp in Hret.
  apply okp_bind. eapply okp_mono; [apply Hret; [done|done|unfold cf_sp; by rewrite <- Esp]|].
  intros m' (Hm' & F1 & F2 & F3 & F4).
  apply okp_bind, check_addr_ok; [subst bk; lia|].
  rewrite Efl in F1. destruct (get_next_free_line_ok _ _ _ id rest Hm' F1) as (m'' & -> & Hm'' & G1 & G2 & G3 & G4).
  simpl of_opt. rewrite bind_Ok.
  assert (0 <= id < (sd_sp (cf_ssd f)).(blks_per_pl)) as Hid.
  { apply (mo_range _ _ _ Hm''). unfold elsewhere. rewrite !elem_of_app. right; right. by left. }
  destruct (mo_lookup _ _ _ id Hm'' Hid) as [lid Elid]. rewrite (aget_Some _ _ _ Elid), bind_Ok.
  destruct (mo_line _ _ _ Hm'' id lid Elid) as (-> & _). rewrite <- Esp in Hid. unwrap.
  apply okp_bind, check_addr_ok; [lia|].
  rewrite K3. apply okp_bind, okp_assert; [done|].
  assert (conv_ok vic None (set_wp (with_lm f m'') io (WritePointer (Some id) 0 0 0 id 0))) as Hok.
  { eapply (roll_wp_ok vic f io b id rest m' m'' others); try done.
    - intros b'. rewrite G4. apply F2.
    - unfold cf_sp. by rewrite <- Esp. }
  match goal with |- okp (Ok (set_wp _ io ?w)) _ =>
    destruct (set_wp_same (with_lm f m'') io w) as (E1 & E2 & E3 & E4 & E5 & E6) end.
  simpl in E1, E2, E3, E4, E5, E6.
  split; [done|]. split; [unfold same_maps; rewrite E1, E2, E3, E4, E6; done|]. split; [done|].
  split; [by rewrite wp_of_set_other by done|]. right. unfold cf_sp. rewrite <- Esp. split; [done|].
  exists id. rewrite wp_of_set, E5, G1, G4 by done. done.
Qed.
End steps.
