(* ===== verification/ConvMaps.v ===== *)
(** * The mapping of the conventional FTL

    [maps_ok]: the mapping table and the reverse table are inverse to each
    other on the live pages.  A page is live when it is valid and, if its line
    is under garbage collection, not moved yet ([moved]); [hole] is a logical
    page whose entry is about to be rewritten.  [free_total] counts the free
    pages.  A logical page gets a new physical page ([place_page_ok]), which is
    what both a host write and a collection do. *)

From stdpp Require Import prelude list list_tactics.
From Stdlib Require Import ZArith Lia.
From S2P Require Import Prelude ChannelModel Pqueue SsdConfig Ssd ConvFtl ConvInv ConvState ConvStep.

Definition live (vic : option Z) (moved : list coord) (f : conv_ftl) (b : Z) (x : coord) : Prop :=
  pst f.(cf_ssd) b x = PG_VALID /\ ~ (vic = Some b /\ x ∈ moved).

Definition at_page (f : conv_ftl) (b : Z) (x : coord) : Prop :=
  0 <= b < (cf_sp f).(blks_per_pl) /\ in_line (cf_sp f) x.

Definition rmap_at (f : conv_ftl) (b : Z) (x : coord) : option Z := f.(rmap) !! pgidx (cf_sp f) b x.

Record maps_ok (vic : option Z) (moved : list coord) (hole : option Z) (f : conv_ftl) : Prop := {
  mp_fwd lpn p : Some lpn <> hole -> f.(maptbl) !! lpn = Some p -> mapped_ppa p = true ->
    exists b x, at_page f b x /\ p = ppa_at b x /\ live vic moved f b x /\ rmap_at f b x = Some lpn;
  mp_bwd b x : at_page f b x -> live vic moved f b x ->
    exists lpn, Some lpn <> hole /\ rmap_at f b x = Some lpn /\ f.(maptbl) !! lpn = Some (ppa_at b x)
}.

(** The free pages of the line of a write pointer, and all free pages. *)
Definition wp_free (f : conv_ftl) (io : Z) : Z :=
  match (wp_of f io).(wp_curline) with
  | Some b => line_count PG_FREE f.(cf_ssd) b
  | None => 0
  end.

Definition free_total (f : conv_ftl) : Z :=
  zlen f.(cf_lm).(free_line_list) * (cf_sp f).(pgs_per_line) + wp_free f USER_IO + wp_free f GC_IO.

(** [f'] maps [lpn] to the page [(b, x)], which was free; nothing else moved. *)
Definition placed (f f' : conv_ftl) (lpn b : Z) (x : coord) : Prop :=
  at_page f b x /\ pst f.(cf_ssd) b x = PG_FREE /\
  f'.(maptbl) = <[lpn := ppa_at b x]> f.(maptbl) /\
  f'.(rmap) = <[pgidx (cf_sp f) b x := lpn]> f.(rmap) /\
  pst_upd f.(cf_ssd) f'.(cf_ssd) b x PG_VALID /\
  same_but f.(cf_ssd) f'.(cf_ssd) /\ f'.(cf_cp) = f.(cf_cp) /\ f'.(cf_wfc) = f.(cf_wfc) /\
  free_total f' = free_total f - 1 /\
  (forall b', unpos <$> f'.(cf_lm).(lm_lines) !! b' <> unpos <$> f.(cf_lm).(lm_lines) !! b' -> b' = b).

Section maps.
Context `{CC : ChanConfig}.

(** ** Reading and writing the tables *)

Lemma ppa2pgidx_ok f b x :
  dev_ok f.(cf_ssd) -> at_page f b x -> ppa2pgidx f (ppa_at b x) = Ok (pgidx (cf_sp f) b x).
Proof.
  intros Hd [Hb Hx]. pose proof (do_params _ Hd) as Hp. pose proof (do_pls _ Hd) as Hpl.
  unfold cf_sp in *. remember (sd_sp (cf_ssd f)) as sp eqn:Esp.
  pose proof (pgidx_range sp Hp Hpl b x Hx Hb) as Hr. pose proof (po_total _ Hp).
  unfold ppa2pgidx, cf_sp. rewrite <- Esp. unfold ppa_at; simpl.
  match goal with |- context [u64 ?e] => replace e with (pgidx sp b x) end.
  2: { rewrite (po_pgs_per_ch _ Hp), (po_pgs_per_lun _ Hp), (po_pgs_per_pl _ Hp), Hpl. unfold pgidx. ring. }
  unwrap. by rewrite (proj2 (Z.ltb_lt _ _)) by lia.
Qed.

Lemma get_rmap_ent_ok f b x lpn :
  dev_ok f.(cf_ssd) -> at_page f b x -> rmap_at f b x = Some lpn -> get_rmap_ent f (ppa_at b x) = Ok lpn.
Proof.
  intros Hd Hbx E. unfold get_rmap_ent. rewrite ppa2pgidx_ok by done. simpl. by apply aget_Some.
Qed.

Lemma set_rmap_ent_ok f b x lpn :
  dev_ok f.(cf_ssd) -> at_page f b x -> zlen f.(rmap) = (cf_sp f).(tt_pgs) ->
  set_rmap_ent f lpn (ppa_at b x) = Ok (with_rmap f (<[pgidx (cf_sp f) b x := lpn]> f.(rmap))).
Proof.
  intros Hd Hbx Hl. unfold set_rmap_ent. rewrite ppa2pgidx_ok by done. simpl.
  rewrite aset_Some; [done|]. rewrite Hl. destruct Hbx.
  by apply pgidx_range; [apply (do_params _ Hd)|apply (do_pls _ Hd)| |].
Qed.

Lemma set_maptbl_ent_ok f lpn p :
  zlen f.(maptbl) = (cf_sp f).(tt_pgs) -> 0 <= lpn < (cf_sp f).(tt_pgs) ->
  set_maptbl_ent f lpn p = Ok (with_maptbl f (<[lpn := p]> f.(maptbl))).
Proof.
  intros Hl Hlpn. unfold set_maptbl_ent. rewrite (proj2 (Z.ltb_lt _ _)) by lia. simpl.
  by rewrite aset_Some by lia.
Qed.

Lemma conv_ok_tables vic pend f m r :
  conv_ok vic pend f -> zlen m = (cf_sp f).(tt_pgs) -> zlen r = (cf_sp f).(tt_pgs) ->
  conv_ok vic pend (with_rmap (with_maptbl f m) r).
Proof. intros [] Hm Hr. split; done. Qed.

(** ** Counting free pages *)

Lemma free_ge_2 s b x :
  params_ok s.(sd_sp) -> 2 <= line_count PG_FREE s b ->
  exists y, in_line s.(sd_sp) y /\ pst s b y = PG_FREE /\ y <> x.
Proof.
  intros Hp H2.
  destruct (decide (Exists (fun y => pst s b y = PG_FREE /\ y <> x) (coords s.(sd_sp)))) as [Hex|Hno].
  - apply Exists_exists in Hex as (y & Hy & E & Hne). exists y. split; [by apply elem_of_coords|done].
  - exfalso. assert (line_count PG_FREE s b <= 1); [|lia].
    assert (forall l, NoDup l -> (forall y, y ∈ l -> ~ (pst s b y = PG_FREE /\ y <> x)) ->
      zcount (is_st PG_FREE s b) l <= 1) as Hcount.
    { induction 1 as [|y l Hy Hnd IH]; intros Hall; simpl; [lia|].
      destruct (decide (y = x)) as [->|Hne].
      - rewrite (zcount_false _ l); [unfold b2z; case_match; lia|].
        intros z Hz. apply Z.eqb_neq. intros E. apply (Hall z); [set_solver|]. split; [done|]. by intros ->.
      - assert (is_st PG_FREE s b y = false) as ->.
        { apply Z.eqb_neq. intros E. apply (Hall y); [set_solver|done]. }
        simpl. apply IH. intros z Hz. apply Hall. set_solver. }
    apply Hcount; [by apply NoDup_coords|]. intros y Hy Hcon. apply Hno, Exists_exists. by exists y.
Qed.

Lemma wp_free_range f io : dev_ok f.(cf_ssd) -> 0 <= wp_free f io <= (cf_sp f).(pgs_per_line).
Proof.
  intros Hd. pose proof (pgs_per_line_ok _ Hd). unfold wp_free, cf_sp in *. case_match; [|lia].
  apply line_count_bound, Hd.
Qed.

(** With more than a line of free pages, a write pointer can always advance. *)
Lemma room_ok vic f io b x :
  conv_ok vic None f -> is_io io -> (wp_of f io).(wp_curline) = Some b ->
  (cf_sp f).(pgs_per_line) + 2 <= free_total f ->
  f.(cf_lm).(free_line_list) <> [] \/
  exists y, in_line (cf_sp f) y /\ pst f.(cf_ssd) b y = PG_FREE /\ y <> x.
Proof.
  intros Hf Hio Eb Hroom. pose proof (cv_dev _ _ _ Hf) as Hd.
  destruct (free_line_list (cf_lm f)) as [|id rest] eqn:E; [right|by left].
  unfold free_total in Hroom. rewrite E in Hroom. unfold zlen in Hroom; simpl in Hroom.
  pose proof (wp_free_range f USER_IO Hd). pose proof (wp_free_range f GC_IO Hd).
  apply free_ge_2; [apply Hd|].
  assert (2 <= wp_free f io) as H2 by (destruct Hio as [->| ->]; lia).
  unfold wp_free in H2. by rewrite Eb in H2.
Qed.

(** ** A logical page gets a new physical page *)

Lemma pgidx_ne f b x b' x' :
  at_page f b x -> at_page f b' x' -> ~ (b' = b /\ x' = x) ->
  pgidx (cf_sp f) b x <> pgidx (cf_sp f) b' x'.
Proof. intros [Hb Hx] [Hb' Hx'] Hne E. apply pgidx_inj in E as [-> ->]; try done. by apply Hne. Qed.

Lemma maps_ok_place vic moved f f' lpn b x :
  maps_ok vic moved (Some lpn) f -> dev_ok f.(cf_ssd) ->
  zlen f.(maptbl) = (cf_sp f).(tt_pgs) -> zlen f.(rmap) = (cf_sp f).(tt_pgs) ->
  0 <= lpn < (cf_sp f).(tt_pgs) -> at_page f b x -> vic <> Some b ->
  pst f.(cf_ssd) b x = PG_FREE -> cf_sp f' = cf_sp f ->
  f'.(maptbl) = <[lpn := ppa_at b x]> f.(maptbl) ->
  f'.(rmap) = <[pgidx (cf_sp f) b x := lpn]> f.(rmap) ->
  pst_upd f.(cf_ssd) f'.(cf_ssd) b x PG_VALID ->
  maps_ok vic moved None f'.
Proof.
  intros [Hfwd Hbwd] Hd Hml Hrl Hlpn Hbx Hvic Hfree Esp Em Er Hu.
  assert (0 <= pgidx (cf_sp f) b x < zlen f.(rmap)) as Hidx.
  { rewrite Hrl. destruct Hbx. by apply pgidx_range; [apply (do_params _ Hd)|apply (do_pls _ Hd)| |]. }
  assert (forall b' y, at_page f b' y -> live vic moved f b' y -> ~ (b' = b /\ y = x)) as Hne.
  { intros b' y _ [Hv _] [-> ->]. by rewrite Hfree in Hv. }
  assert (forall b' y, ~ (b' = b /\ y = x) -> live vic moved f' b' y <-> live vic moved f b' y) as Hlive.
  { intros b' y Hn. unfold live. by rewrite Hu, decide_False. }
  assert (live vic moved f' b x) as Hlx.
  { unfold live. rewrite Hu, decide_True by done. split; [done|]. intros [? _]. done. }
  assert (rmap_at f' b x = Some lpn) as Hrx by (unfold rmap_at; rewrite Esp, Er; by apply zlookup_zinsert_eq).
  assert (forall b' y, at_page f b' y -> ~ (b' = b /\ y = x) -> rmap_at f' b' y = rmap_at f b' y) as Hry.
  { intros b' y Hb' Hn. unfold rmap_at. rewrite Esp, Er. apply zlookup_zinsert_ne. by apply pgidx_ne. }
  assert (forall b' y, at_page f' b' y <-> at_page f b' y) as Hat by (intros; unfold at_page; by rewrite Esp).
  split.
  - intros l p _ E Hm. rewrite Em, zlookup_zinsert in E by lia.
    destruct (decide (lpn = l)) as [<-|Hl].
    + injection E as <-. exists b, x. by rewrite Hat.
    + destruct (Hfwd l p) as (b' & y & Hb' & -> & Hlv & Hr); [congruence|done|done|].
      pose proof (Hne b' y Hb' Hlv) as Hn. exists b', y. rewrite Hat, Hlive, Hry by done. done.
  - intros b' y Hb' Hlv. apply Hat in Hb'. destruct (decide (b' = b /\ y = x)) as [[-> ->]|Hn].
    + exists lpn. split; [done|]. split; [done|]. rewrite Em. apply zlookup_zinsert_eq. lia.
    + apply Hlive in Hlv; [|done]. destruct (Hbwd b' y Hb' Hlv) as (l & Hl & Hr & Ep).
      exists l. split; [done|]. rewrite Hry by done. split; [done|].
      rewrite Em, zlookup_zinsert_ne; [done|congruence].
Qed.

Lemma wp_free_eq f f' io :
  wp_of f' io = wp_of f io -> cf_sp f' = cf_sp f ->
  (forall b x, (wp_of f io).(wp_curline) = Some b -> pst f'.(cf_ssd) b x = pst f.(cf_ssd) b x) ->
  wp_free f' io = wp_free f io.
Proof.
  intros Ew Esp Hp. unfold wp_free. rewrite Ew. case_match eqn:E; [|done].
  unfold line_count. unfold cf_sp in Esp. rewrite Esp. apply zcount_ext. intros x _.
  unfold is_st. by rewrite Hp.
Qed.

Lemma other_io_ok io : is_io io -> is_io (other_io io) /\ other_io io <> io.
Proof. intros [->| ->]; unfold other_io; simpl; (split; [|done]); [by right|by left]. Qed.

Lemma free_total_io f io :
  is_io io -> free_total f = zlen f.(cf_lm).(free_line_list) * (cf_sp f).(pgs_per_line)
    + wp_free f io + wp_free f (other_io io).
Proof. intros [->| ->]; unfold free_total, other_io; simpl; lia. Qed.

(** The free pages after a page of the write pointer was marked and the write
    pointer advanced: one less. *)
Lemma free_total_place vic f f3 f4 io b :
  let x := cursor (wp_of f io) in
  conv_ok vic None f -> conv_ok vic None f4 -> is_io io -> (wp_of f io).(wp_curline) = Some b ->
  cf_sp f3 = cf_sp f -> cf_sp f4 = cf_sp f -> pst_upd f.(cf_ssd) f3.(cf_ssd) b x PG_VALID ->
  wp_of f3 io = wp_of f io -> wp_of f3 (other_io io) = wp_of f (other_io io) ->
  f3.(cf_lm).(free_line_list) = f.(cf_lm).(free_line_list) ->
  f4.(cf_ssd) = f3.(cf_ssd) -> wp_of f4 (other_io io) = wp_of f3 (other_io io) ->
  advanced_to f3 f4 io b -> free_total f4 = free_total f - 1.
Proof.
  intros x Hf Hf4 Hio Eb Esp3 Esp4 Hu Ew Ewo Efl Es Ewo4 Hadv.
  destruct (other_io_ok io Hio) as [Hoio Hone].
  pose proof (cv_dev _ _ _ Hf) as Hd. pose proof (do_params _ Hd) as Hp.
  destruct (wp_has_free vic f io b Hf Hio Eb) as [Hfree Hx]. fold x in Hfree, Hx.
  assert (wp_free f4 (other_io io) = wp_free f (other_io io)) as Eo.
  { apply wp_free_eq; [congruence|done|]. intros b' y Eb'. rewrite Es, Hu, decide_False; [done|].
    intros [-> _]. apply Hone. eapply held_wp_inj; [exact Hf|done|done|exact Eb'|exact Eb]. }
  rewrite !(free_total_io _ io Hio), Eo, Esp4.
  assert (line_count PG_FREE f3.(cf_ssd) b = wp_free f io - 1) as E3.
  { unfold wp_free. rewrite Eb. unfold cf_sp in *.
    rewrite (line_count_upd f.(cf_ssd) f3.(cf_ssd) b x PG_VALID PG_FREE) by done.
    rewrite decide_True, Hfree by done. unfold PG_VALID, PG_FREE. simpl. lia. }
  destruct Hadv as [[Eb4 Elm]|(Hnf & id & Eid & Efl3 & _)].
  - rewrite Elm, Efl. unfold wp_free at 1. rewrite Eb4, Es, E3. lia.
  - rewrite Esp3 in Hnf. rewrite <- Efl, Efl3.
    assert (line_count PG_FREE f3.(cf_ssd) b = 0) as E0.
    { apply line_count_none; [unfold cf_sp in *; by rewrite Esp3|]. unfold cf_sp in *. by rewrite Esp3. }
    unfold wp_free at 1. rewrite Eid. unfold zlen; simpl length. rewrite Nat2Z.inj_succ.
    assert (line_count PG_FREE f4.(cf_ssd) id = (cf_sp f).(pgs_per_line)) as ->; [|lia].
    unfold cf_sp in *. rewrite <- Esp4. apply line_count_all; [by rewrite Esp4|].
    assert (id ∈ f.(cf_lm).(free_line_list)) as Hid by (rewrite <- Efl, Efl3; by left).
    intros z Hz. rewrite Esp4 in Hz. rewrite Es, Hu, decide_False; [by apply (cv_free _ _ _ Hf)|].
    intros [-> _]. by destruct (wp_place _ _ _ _ _ Hf Hio Eb).
Qed.

Lemma lines_unpos_ne (ls ls' ls'' : list line) (b : Z) :
  (forall b' : Z, b' <> b -> ls' !! b' = ls !! b') ->
  (forall b' : Z, unpos <$> ls'' !! b' = unpos <$> ls' !! b') ->
  forall b' : Z, unpos <$> ls'' !! b' <> unpos <$> ls !! b' -> b' = b.
Proof.
  intros H1 H2 b' Hne. destruct (decide (b' = b)) as [|Hb]; [done|]. by rewrite H2, H1 in Hne.
Qed.

Lemma wp_of_same f f' io : f'.(cf_wp) = f.(cf_wp) -> f'.(cf_gc_wp) = f.(cf_gc_wp) -> wp_of f' io = wp_of f io.
Proof. unfold wp_of. by intros -> ->. Qed.

(** The four calls that write a logical page at a write pointer, in the order
    of the code, and what runs after them. *)
Lemma place_page_ok {R} vic moved f io lpn (k : conv_ftl -> ppa -> res R) Q :
  conv_ok vic None f -> maps_ok vic moved (Some lpn) f -> is_io io ->
  0 <= lpn < (cf_sp f).(tt_pgs) -> (cf_sp f).(pgs_per_line) + 2 <= free_total f ->
  (forall f' b x, conv_ok vic None f' -> maps_ok vic moved None f' -> placed f f' lpn b x ->
     (wp_of f io).(wp_curline) = Some b -> x = cursor (wp_of f io) ->
     okp (k f' (ppa_at b x)) Q) ->
  okp (p ← get_new_page f io;
       f ← set_maptbl_ent f lpn p;
       f ← set_rmap_ent f lpn p;
       f ← mark_page_valid f p;
       f ← advance_write_pointer f io;
       k f p) Q.
Proof.
  intros Hf Hmaps Hio Hlpn Hroom Hk. pose proof (cv_dev _ _ _ Hf) as Hd.
  destruct (get_new_page_ok vic None f io Hf Hio) as (b & Eb & Hb & Hx & ->). rewrite bind_Ok.
  remember (cursor (wp_of f io)) as x eqn:Ex.
  destruct (wp_has_free vic f io b Hf Hio Eb) as [Hfree _]. rewrite <- Ex in Hfree.
  rewrite set_maptbl_ent_ok by (done || apply Hf). rewrite bind_Ok.
  remember (with_maptbl f _) as f1 eqn:E1.
  rewrite (set_rmap_ent_ok f1 b x) by (subst f1; done || apply Hf). rewrite bind_Ok.
  assert (with_rmap f1 (<[pgidx (cf_sp f1) b x := lpn]> f1.(rmap)) =
    with_rmap (with_maptbl f (<[lpn := ppa_at b x]> f.(maptbl)))
      (<[pgidx (cf_sp f) b x := lpn]> f.(rmap))) as -> by (by subst f1).
  remember (with_rmap _ _) as f2 eqn:E2.
  assert (conv_ok vic None f2) as Hf2
    by (subst f2; apply conv_ok_tables; [done|rewrite zlen_zinsert; apply Hf..]).
  assert (wp_of f2 io = wp_of f io) as Ew2 by (subst f2; by apply wp_of_same).
  apply okp_bind. eapply okp_mono.
  { pose proof (mark_page_valid_ok vic f2 io b Hf2 Hio) as Hmv. simpl in Hmv.
    rewrite Ew2, <- Ex in Hmv. by apply Hmv. }
  intros f3 (Hf3 & (Hsb3 & Ec3 & Em3 & Er3 & Ewf3) & Hu3 & Ewp3 & Egw3 & (Efl3 & _) & Hlines3).
  assert (cf_sp f3 = cf_sp f) as Esp3 by (subst f2; apply Hsb3).
  assert (forall io', wp_of f3 io' = wp_of f io') as Ew3
    by (intros io'; subst f2; by apply wp_of_same).
  assert (free_line_list (cf_lm f3) <> [] \/
    exists y, in_line (cf_sp f3) y /\ pst f3.(cf_ssd) b y = PG_FREE) as Hroom3.
  { destruct (room_ok vic f io b x Hf Hio Eb Hroom) as [Hr|(y & Hy & Ey & Hne)].
    - left. rewrite Efl3. by subst f2.
    - right. exists y. rewrite Esp3, Hu3, decide_False by tauto. split; [done|by subst f2]. }
  apply okp_bind. eapply okp_mono.
  { apply (advance_write_pointer_ok vic f3 io b Hf3 Hio); [by rewrite Ew3|exact Hroom3]. }
  intros f4 (Hf4 & (Hsb4 & Ec4 & Em4 & Er4 & Ewf4) & Es4 & Ewo4 & Hadv).
  assert (cf_sp f4 = cf_sp f) as Esp4 by (unfold cf_sp in *; congruence).
  assert (pst_upd f.(cf_ssd) f4.(cf_ssd) b x PG_VALID) as Hu4
    by (intros b' y; rewrite Es4, Hu3; by subst f2).
  assert (vic <> Some b) as Hvic by (eapply held_not_vic; [exact Hf|exact Hio|exact Eb]).
  apply Hk; [done| | |done|done].
  - eapply (maps_ok_place vic moved f f4 lpn b x); try done; try apply Hf;
      rewrite ?Em4, ?Er4, ?Em3, ?Er3; by subst f2.
  - split; [done|]. split; [done|]. split; [rewrite Em4, Em3; by subst f2|].
    split; [rewrite Er4, Er3; by subst f2|]. split; [done|].
    split; [eapply same_but_trans; [|exact Hsb4]; by subst f2|].
    split; [rewrite Ec4, Ec3; by subst f2|]. split; [rewrite Ewf4, Ewf3; by subst f2|]. split.
    + eapply (free_total_place vic f f3 f4 io b); try done; rewrite <- ?Ex, ?Ew3, ?Efl3; try done.
      * intros b' y. rewrite Hu3. by subst f2.
      * by subst f2.
    + apply (lines_unpos_ne _ f3.(cf_lm).(lm_lines)).
      * intros b' Hb'. rewrite Hlines3 by done. by subst f2.
      * destruct Hadv as [[_ ->]|(_ & id & _ & _ & Hun)]; [done|exact Hun].
Qed.
(** ** A host write of one page *)

Lemma mapped_ppa_at f b x : dev_ok f.(cf_ssd) -> at_page f b x -> mapped_ppa (ppa_at b x) = true.
Proof.
  intros Hd [Hb Hx]. unfold mapped_ppa. apply negb_true_iff, Z.eqb_neq.
  eapply in_dev_not_unmapped; [apply Hd|]. by apply in_dev_ppa_at.
Qed.

(** Dropping the mapping of one logical page: its entry becomes the hole. *)
Lemma maps_ok_unmapped vic moved f lpn p :
  maps_ok vic moved None f -> dev_ok f.(cf_ssd) -> f.(maptbl) !! lpn = Some p -> mapped_ppa p = false ->
  maps_ok vic moved (Some lpn) f.
Proof.
  intros [Hfwd Hbwd] Hd E Hp. split; [intros l q _; by apply Hfwd|].
  intros b x Hbx Hl. destruct (Hbwd b x Hbx Hl) as (l & _ & Hr & Hm). exists l.
  split; [|done]. intros [= ->]. rewrite E in Hm. injection Hm as ->.
  by rewrite (mapped_ppa_at f b x Hd Hbx) in Hp.
Qed.

Lemma maps_ok_invalidate moved f f' lpn b x r :
  maps_ok None moved None f -> at_page f b x -> f.(maptbl) !! lpn = Some (ppa_at b x) ->
  rmap_at f b x = Some lpn -> cf_sp f' = cf_sp f -> f'.(maptbl) = f.(maptbl) ->
  f'.(rmap) = <[pgidx (cf_sp f) b x := r]> f.(rmap) -> pst_upd f.(cf_ssd) f'.(cf_ssd) b x PG_INVALID ->
  maps_ok None moved (Some lpn) f'.
Proof.
  intros [Hfwd Hbwd] Hbx E Er Esp Em Er' Hu.
  assert (forall b' y, live None moved f' b' y <-> live None moved f b' y /\ ~ (b' = b /\ y = x)) as Hlive.
  { intros b' y. unfold live. rewrite Hu. case_decide; [|naive_solver]. by split; [intros [? _]|intros [_ ?]]. }
  assert (forall b' y, at_page f' b' y <-> at_page f b' y) as Hat by (intros; unfold at_page; by rewrite Esp).
  assert (forall b' y, at_page f b' y -> ~ (b' = b /\ y = x) -> rmap_at f' b' y = rmap_at f b' y) as Hry.
  { intros b' y Hb' Hn. unfold rmap_at. rewrite Esp, Er'. apply zlookup_zinsert_ne. by apply pgidx_ne. }
  split.
  - intros l p Hl Ep Hmp. rewrite Em in Ep. destruct (Hfwd l p) as (b' & y & Hb' & -> & Hlv & Hr); [done..|].
    assert (~ (b' = b /\ y = x)) as Hn by (intros [-> ->]; congruence).
    exists b', y. rewrite Hat, Hlive, Hry by done. done.
  - intros b' y Hb' Hlv. apply Hat in Hb'. apply Hlive in Hlv as [Hlv Hn].
    destruct (Hbwd b' y Hb' Hlv) as (l & _ & Hr & Ep). exists l. rewrite Hry, Em by done.
    split; [|done]. intros [= ->]. rewrite E in Ep. apply Hn. unfold ppa_at in Ep.
    assert (c_pg x = c_pg y /\ b = b' /\ c_lun x = c_lun y /\ c_ch x = c_ch y) as (? & ? & ? & ?)
      by (split_and!; congruence). split; [done|]. by apply coord_eq.
Qed.

(** What one host page write does: a free page of the write pointer's line gets
    [lpn], and the page that held it, if any, becomes invalid. *)
Definition page_written (f f' : conv_ftl) (lpn : Z) (p : ppa) : Prop :=
  exists b x, p = ppa_at b x /\ at_page f b x /\ pst f.(cf_ssd) b x = PG_FREE /\
    f'.(maptbl) = <[lpn := p]> f.(maptbl) /\
    forall b' y, at_page f b' y -> pst f'.(cf_ssd) b' y =
      if decide (b' = b /\ y = x) then PG_VALID
      else if decide (f.(maptbl) !! lpn = Some (ppa_at b' y)) then PG_INVALID
      else pst f.(cf_ssd) b' y.

Lemma ppa_at_inj b x b' x' : ppa_at b x = ppa_at b' x' -> b = b' /\ x = x'.
Proof. unfold ppa_at. intros E. split; [congruence|]. apply coord_eq; congruence. Qed.

(** The first part of [write_page]: the old page of the logical page. *)
Lemma drop_old_ok f lpn p {R} (k : conv_ftl -> res R) Q :
  conv_ok None None f -> maps_ok None [] None f -> 0 <= lpn < (cf_sp f).(tt_pgs) ->
  f.(maptbl) !! lpn = Some p ->
  (forall f1, conv_ok None None f1 -> maps_ok None [] (Some lpn) f1 -> cf_sp f1 = cf_sp f ->
     same_but f.(cf_ssd) f1.(cf_ssd) -> f1.(cf_cp) = f.(cf_cp) -> f1.(cf_wfc) = f.(cf_wfc) ->
     f1.(maptbl) = f.(maptbl) -> free_total f1 = free_total f ->
     (forall b y, at_page f b y -> pst f1.(cf_ssd) b y =
        if decide (p = ppa_at b y) then PG_INVALID else pst f.(cf_ssd) b y) ->
     okp (k f1) Q) ->
  okp (f ← (if mapped_ppa p then f ← mark_page_invalid f p; set_rmap_ent f INVALID_LPN p else Ok f); k f) Q.
Proof.
  intros Hf Hmaps Hlpn E Hk. pose proof (cv_dev _ _ _ Hf) as Hd.
  destruct (mapped_ppa p) eqn:Emp.
  2: { rewrite bind_Ok. apply Hk; try done; [by eapply maps_ok_unmapped|].
       intros b y Hby. rewrite decide_False; [done|]. intros ->.
       by rewrite (mapped_ppa_at f b y Hd Hby) in Emp. }
  destruct (mp_fwd _ _ _ _ Hmaps lpn p) as (b & x & [Hb Hx] & -> & [Hv _] & Hr); [done..|].
  apply okp_bind, okp_bind. eapply okp_mono; [by apply (mark_page_invalid_ok None f b x)|].
  intros f1 (Hf1 & (Hsb & Ec & Em & Er & Ew) & Hu & Ewp & Egw & Efl).
  assert (cf_sp f1 = cf_sp f) as Esp by apply Hsb.
  rewrite (set_rmap_ent_ok f1 b x) by (apply Hf1 || (unfold at_page; by rewrite Esp)). simpl.
  remember (with_rmap f1 _) as f2 eqn:E2.
  assert (free_total f1 = free_total f) as Eft.
  { assert (forall io, wp_free f1 io = wp_free f io) as Ewf.
    { intros io. unfold wp_free. rewrite (wp_of_same f f1 io) by done. case_match; [|done].
      rewrite (line_count_upd f.(cf_ssd) f1.(cf_ssd) b x PG_INVALID PG_FREE) by (done || apply Hd || apply Hsb).
      case_decide; [|lia]. rewrite Hv. unfold PG_INVALID, PG_VALID, PG_FREE. simpl. lia. }
    unfold free_total. by rewrite Efl, Esp, !Ewf. }
  apply Hk; try (by subst f2).
  - subst f2. change (with_rmap f1 _) with (with_rmap (with_maptbl f1 f1.(maptbl)) (<[pgidx (cf_sp f1) b x := INVALID_LPN]> f1.(rmap))).
    apply conv_ok_tables; [done|apply Hf1|]. rewrite zlen_zinsert. apply Hf1.
  - subst f2. eapply (maps_ok_invalidate [] f _ lpn b x INVALID_LPN); try done. simpl. by rewrite Esp, Er.
  - intros b' y Hby. subst f2. simpl. rewrite Hu. destruct (decide (b' = b /\ y = x)) as [[-> ->]|Hn].
    + by rewrite decide_True.
    + rewrite decide_False; [done|]. intros Epp%ppa_at_inj. apply Hn. by destruct Epp.
Qed.

Lemma write_page_ok f lpn :
  conv_ok None None f -> maps_ok None [] None f -> 0 <= lpn < (cf_sp f).(tt_pgs) ->
  (cf_sp f).(pgs_per_line) + 2 <= free_total f ->
  okp (write_page f lpn) (fun '(f', p) =>
    conv_ok None None f' /\ maps_ok None [] None f' /\ same_but f.(cf_ssd) f'.(cf_ssd) /\
    f'.(cf_cp) = f.(cf_cp) /\ f'.(cf_wfc) = f.(cf_wfc) /\
    free_total f' = free_total f - 1 /\ page_written f f' lpn p /\
    exists b x, p = ppa_at b x /\ at_page f b x).
Proof.
  intros Hf Hmaps Hlpn Hroom. unfold write_page, get_maptbl_ent.
  destruct (zlookup_lt f.(maptbl) lpn) as [p Ep]; [rewrite (cv_maptbl _ _ _ Hf); lia|].
  rewrite (aget_Some _ _ _ Ep), bind_Ok.
  apply (drop_old_ok f lpn); try done. intros f1 Hf1 Hm1 Esp1 Hsb1 Ec1 Ew1 Em1 Eft1 Hp1.
  apply (place_page_ok None [] f1 USER_IO lpn (fun f p => Ok (f, p))); try done.
  { by left. } { by rewrite Esp1. } { by rewrite Esp1, Eft1. }
  intros f2 b x Hf2 Hm2 (Hbx & Hfree & Em2 & _ & Hu2 & Hsb2 & Ec2 & Ew2 & Eft2 & _) _ _. simpl.
  assert (at_page f b x) as Hbx0 by (unfold at_page in *; by rewrite <- Esp1).
  split; [done|]. split; [done|]. split; [by eapply same_but_trans|]. split; [congruence|].
  split; [congruence|]. split; [lia|]. split; [|by exists b, x].
  exists b, x. split; [done|]. split; [done|].
  assert (pst f.(cf_ssd) b x = PG_FREE) as Hfree0.
  { rewrite Hp1 in Hfree by done. by case_decide. }
  split; [done|]. split; [by rewrite Em2, Em1|]. intros b' y Hby. rewrite Hu2. case_decide; [done|].
  rewrite Hp1 by done. rewrite Ep. destruct (decide (p = ppa_at b' y)) as [->|Hne].
  - by rewrite decide_True.
  - rewrite decide_False; [done|]. intros [= E]. done.
Qed.
End maps.
