(* ===== verification/ConvGc.v ===== *)
(** * Garbage collection of the conventional FTL

    [do_gc] moves the valid pages of a victim line, one flash page of one die
    after the other, erases the blocks and puts the line on the free list.
    [gc_state] is the state in the middle of it: [moved] lists the pages
    already visited, [er] the dies whose block is erased. *)

From stdpp Require Import prelude list list_tactics.
From Stdlib Require Import ZArith Lia Sorting.Sorted.
From S2P Require Import Prelude ChannelModel Pqueue SsdConfig Ssd ConvFtl ConvInv ConvState ConvStep ConvMaps.

(** [f'] is [f] with other clocks. *)
Definition ticked `{ChanConfig} (f f' : conv_ftl) : Prop :=
  exists s', f' = with_ssd f s' /\ ssd_shape s' /\ same_nand f.(cf_ssd) s'.

Section clocks.
Context `{CC : ChanConfig, CK : Clock}.

Lemma ticked_refl f : dev_ok f.(cf_ssd) -> ticked f f.
Proof. intros Hd. exists f.(cf_ssd). split; [by destruct f|]. split; [apply Hd|done]. Qed.

Lemma ticked_trans f1 f2 f3 : ticked f1 f2 -> ticked f2 f3 -> ticked f1 f3.
Proof.
  intros (s & -> & Hs & Hn) (s' & -> & Hs' & Hn'). exists s'. split; [done|]. split; [done|].
  by etrans.
Qed.

Section ticks.
Context (f f' : conv_ftl) (Ht : ticked f f').

Lemma ticked_sp : cf_sp f' = cf_sp f.
Proof using Ht. destruct Ht as (s & -> & _ & Hn). apply Hn. Qed.

Lemma ticked_pst b x : pst f'.(cf_ssd) b x = pst f.(cf_ssd) b x.
Proof using Ht.
  destruct Ht as (s & -> & _ & (_ & _ & _ & _ & E)). unfold pst, pg_at. simpl. by rewrite E.
Qed.

Lemma ticked_line_count st b : line_count st f'.(cf_ssd) b = line_count st f.(cf_ssd) b.
Proof using Ht.
  unfold line_count. pose proof ticked_sp as Esp. unfold cf_sp in Esp. rewrite Esp.
  apply zcount_ext. intros x _. unfold is_st. by rewrite ticked_pst.
Qed.

Lemma ticked_same : same_maps f f'.
Proof using Ht.
  destruct Ht as (s & -> & _ & (E1 & E2 & E3 & E4 & _)). by repeat split.
Qed.

Lemma ticked_dev : dev_ok f.(cf_ssd) -> dev_ok f'.(cf_ssd).
Proof using Ht.
  intros Hd. pose proof ticked_sp as Esp. pose proof ticked_pst as Ep. unfold cf_sp in *.
  split; rewrite ?Esp; try apply Hd.
  - by destruct Ht as (s & -> & Hs & _).
  - intros c l b Hin.
    assert (bcnt f'.(cf_ssd) c l b = bcnt f.(cf_ssd) c l b) as ->.
    { destruct Ht as (s & -> & _ & (_ & _ & _ & _ & E)). unfold bcnt. simpl. by rewrite E. }
    rewrite (do_blk _ Hd c l b Hin). unfold blk_count. rewrite Esp.
    f_equal; f_equal; apply zcount_ext; intros g _; unfold is_st; by rewrite Ep.
  - intros b x Hb Hx. rewrite Ep. by apply Hd.
Qed.

Lemma ticked_conv_ok vic pend : conv_ok vic pend f -> conv_ok vic pend f'.
Proof using Ht.
  intros Hf. pose proof ticked_sp as Esp. pose proof ticked_pst as Ep. pose proof ticked_line_count as Ec.
  pose proof (ticked_dev (cv_dev _ _ _ Hf)) as Hd.
  assert (f'.(cf_lm) = f.(cf_lm) /\ f'.(maptbl) = f.(maptbl) /\ f'.(rmap) = f.(rmap) /\
    held vic f' = held vic f /\ forall io, wp_of f' io = wp_of f io) as (Em & Et & Er & Eh & Ew)
    by (by destruct Ht as (s & -> & _)).
  destruct Hf as [_ Hm Hwp Hline Hfree Hfull Hvic Hinv Hl1 Hl2].
  split; rewrite ?Em, ?Et, ?Er, ?Eh, ?Esp; try done.
  - intros io Hio. destruct (Hwp io Hio) as (b & K1 & K2 & K3 & K4 & K5). exists b.
    rewrite Ew, Esp. do 4 (split; [done|]). intros x Hx. rewrite Ep. by apply K5.
  - intros b l E Hv. rewrite !Ec. by apply Hline.
  - intros b x Hb Hx. rewrite Ep. by apply Hfree.
  - intros b x Hb Hx. rewrite Ep. by apply Hfull.
  - intros b x Hb Hx. rewrite Ep. by apply Hvic.
  - intros b Hb. setoid_rewrite Ep. by apply Hinv.
Qed.

Lemma ticked_maps_ok vic moved hole : maps_ok vic moved hole f -> maps_ok vic moved hole f'.
Proof using Ht.
  intros [Hfwd Hbwd]. pose proof ticked_sp as Esp. pose proof ticked_pst as Ep.
  assert (f'.(maptbl) = f.(maptbl) /\ f'.(rmap) = f.(rmap)) as [Et Er] by (by destruct Ht as (s & -> & _)).
  split; unfold at_page, rmap_at, live in *; rewrite ?Esp, ?Et, ?Er.
  - intros lpn p H1 H2 H3. destruct (Hfwd lpn p H1 H2 H3) as (b & x & ?). exists b, x. by rewrite Ep.
  - intros b x Hb. rewrite Ep. by apply Hbwd.
Qed.

Lemma ticked_free_total : free_total f' = free_total f.
Proof using Ht.
  unfold free_total, wp_free. rewrite ticked_sp.
  assert (f'.(cf_lm) = f.(cf_lm) /\ forall io, wp_of f' io = wp_of f io) as [-> Ew]
    by (by destruct Ht as (s & -> & _)).
  rewrite !Ew. do 2 f_equal; [f_equal|]; case_match; try done; apply ticked_line_count.
Qed.
End ticks.

(** [advance_nand] moves the clocks and nothing else. *)
Lemma advance_nand_ok vic pend f cmd h {R} (k : conv_ftl * hw * Z -> res R) Q :
  conv_ok vic pend f -> link_ok f.(cf_ssd).(sd_pcie) h -> in_dev (cf_sp f) cmd.(nc_ppa) ->
  (cmd.(nc_cmd) = NAND_READ -> 0 < cmd.(nc_xfer_size) < 18446744073709551616) ->
  (forall f' h' t, ticked f f' -> hw_adv f.(cf_ssd).(sd_pcie) h h' -> okp (k (f', h', t)) Q) ->
  okp (advance_nand f cmd h ≫= k) Q.
Proof.
  intros Hf Hl Hin Hrd Hk. pose proof (cv_dev _ _ _ Hf) as Hd. unfold advance_nand.
  apply okp_bind, okp_bind. eapply okp_mono.
  { apply ssd_advance_nand_ok; [apply Hd|apply Hd|exact Hl|exact Hin|exact Hrd]. }
  intros [[s' h'] t] (Hs' & Hn & Hadv). simpl. apply Hk; [|done]. by exists s'.
Qed.

Lemma in_dev_at f b x : dev_ok f.(cf_ssd) -> at_page f b x -> in_dev (cf_sp f) (ppa_at b x).
Proof. intros Hd [Hb Hx]. by apply in_dev_ppa_at. Qed.
End clocks.

(** [f] and [h] are what a collection of [v] that began in [f0] and [h0] has
    reached. *)
Record gc_state `{ChanConfig} (v : Z) (f0 : conv_ftl) (h0 : hw) (moved : list coord) (er : list (Z * Z))
    (f : conv_ftl) (h : hw) : Prop := {
  gs_ok : conv_ok (Some v) None f;
  gs_maps : maps_ok (Some v) moved None f;
  gs_same : same_but f0.(cf_ssd) f.(cf_ssd) /\ f.(cf_cp) = f0.(cf_cp) /\ f.(cf_wfc) = f0.(cf_wfc);
  gs_pst y : in_line (cf_sp f0) y -> pst f.(cf_ssd) v y =
    if decide ((c_ch y, c_lun y) ∈ er) then PG_FREE else pst f0.(cf_ssd) v y;
  gs_free : free_total f = free_total f0 - zcount (is_st PG_VALID f0.(cf_ssd) v) moved;
  gs_tbl lpn p : f0.(maptbl) !! lpn = Some p ->
    exists p', f.(maptbl) !! lpn = Some p' /\
      (p' = p \/ (p.(p_blk) = v /\ mapped_ppa p = true /\ mapped_ppa p' = true));
  gs_hw : hw_adv f0.(cf_ssd).(sd_pcie) h0 h
}.

Section gc.
Context `{CC : ChanConfig, CK : Clock}.
Context (v : Z) (f0 : conv_ftl) (h0 : hw).
Notation gcs := (gc_state v f0 h0).

Lemma gs_sp moved er f h : gcs moved er f h -> cf_sp f = cf_sp f0.
Proof using. intros Hg. by destruct (gs_same _ _ _ _ _ _ _ Hg) as ((E & _) & _). Qed.

Lemma gs_pcie moved er f h : gcs moved er f h -> f.(cf_ssd).(sd_pcie) = f0.(cf_ssd).(sd_pcie).
Proof using. intros Hg. by destruct (gs_same _ _ _ _ _ _ _ Hg) as ((_ & E & _) & _). Qed.

Lemma gs_ticked moved er f f' h h' :
  gcs moved er f h -> ticked f f' -> hw_adv f.(cf_ssd).(sd_pcie) h h' -> gcs moved er f' h'.
Proof using.
  intros Hg Ht Ha. pose proof (gs_pcie _ _ _ _ Hg) as Epc. destruct Hg as [G1 G2 (G3 & G4 & G5) G6 G7 G8 G9].
  destruct (ticked_same _ _ Ht) as (S1 & S2 & S3 & S4 & S5). split.
  - by eapply ticked_conv_ok.
  - by eapply ticked_maps_ok.
  - split; [by eapply same_but_trans|]. split; congruence.
  - intros y Hy. rewrite (ticked_pst _ _ Ht). by apply G6.
  - by rewrite (ticked_free_total _ _ Ht).
  - intros lpn p E. rewrite S3. by apply G8.
  - rewrite Epc in Ha. by eapply hw_adv_trans.
Qed.

(** A page that is not valid needs no move. *)
Lemma gs_skip moved er f h x :
  gcs moved er f h -> at_page f0 v x -> (c_ch x, c_lun x) ∉ er -> pst f0.(cf_ssd) v x <> PG_VALID ->
  gcs (moved ++ [x]) er f h.
Proof using.
  intros [G1 [Hfwd Hbwd] G3 G6 G7 G8 G9] [_ Hx] Her Hnv. split; try done.
  - assert (forall b y, live (Some v) (moved ++ [x]) f b y <-> live (Some v) moved f b y) as Hl.
    { intros b y. unfold live. split; intros [Hv Hm]; (split; [done|]); intros [[= <-] Hin]; apply Hm.
      - split; [done|]. apply elem_of_app. by left.
      - split; [done|]. apply elem_of_app in Hin as [?|Hin]; [done|].
        apply list_elem_of_singleton in Hin as ->. exfalso. rewrite G6, decide_False in Hv by done. done. }
    split.
    + intros l p H1 H2 H3. destruct (Hfwd l p H1 H2 H3) as (b & y & ?). exists b, y. by rewrite Hl.
    + intros b y Hb. rewrite Hl. by apply Hbwd.
  - rewrite zcount_app. simpl. unfold is_st at 2. rewrite (proj2 (Z.eqb_neq _ _)) by done. simpl. lia.
Qed.

(** The move of a valid page, seen from the tables: its logical page is the hole. *)
Lemma maps_ok_moving moved f x lpn :
  maps_ok (Some v) moved None f -> rmap_at f v x = Some lpn -> f.(maptbl) !! lpn = Some (ppa_at v x) ->
  maps_ok (Some v) (moved ++ [x]) (Some lpn) f.
Proof using.
  intros [Hfwd Hbwd] Er Em. split.
  - intros l p Hl E Hp. destruct (Hfwd l p) as (b & y & Hb & -> & [Hv Hm] & Hr); [done..|].
    exists b, y. split; [done|]. split; [done|]. split; [|done]. split; [done|].
    intros [[= <-] Hin]. apply elem_of_app in Hin as [Hin|Hin]; [by apply Hm|].
    apply list_elem_of_singleton in Hin as ->. congruence.
  - intros b y Hb [Hv Hm]. destruct (Hbwd b y Hb) as (l & _ & Hr & E).
    { split; [done|]. intros [? Hin]. apply Hm. split; [done|]. apply elem_of_app. by left. }
    exists l. split; [|done]. intros [= ->]. rewrite Em in E.
    assert (b = v /\ y = x) as [-> ->] by (by apply ppa_at_inj; congruence).
    apply Hm. split; [done|]. apply elem_of_app. right. by left.
Qed.

Lemma last_pg_in_wordline_ok f p : dev_ok f.(cf_ssd) -> exists b, last_pg_in_wordline f p = Ok b.
Proof using.
  intros Hd. unfold last_pg_in_wordline. pose proof (po_oneshot _ (do_params _ Hd)).
  rewrite cmod_ok by (unfold cf_sp; lia). by eexists.
Qed.

Lemma gc_write_page_ok moved er f h x :
  gcs moved er f h -> at_page f0 v x -> x ∉ moved -> (c_ch x, c_lun x) ∉ er ->
  pst f0.(cf_ssd) v x = PG_VALID -> (cf_sp f0).(pgs_per_line) + 2 <= free_total f ->
  okp (gc_write_page f (ppa_at v x) h) (fun '(f', h') => gcs (moved ++ [x]) er f' h').
Proof using.
  intros Hg Hx Hnm Her Hv Hroom. pose proof (gs_sp _ _ _ _ Hg) as Esp.
  pose proof (gs_ok _ _ _ _ _ _ _ Hg) as Hf. pose proof (cv_dev _ _ _ Hf) as Hd.
  assert (at_page f v x) as Hxf by (unfold at_page in *; by rewrite Esp).
  assert (pst f.(cf_ssd) v x = PG_VALID) as Hvf.
  { rewrite (gs_pst _ _ _ _ _ _ _ Hg) by apply Hx. by rewrite decide_False. }
  destruct (mp_bwd _ _ _ _ (gs_maps _ _ _ _ _ _ _ Hg) v x Hxf) as (lpn & _ & Hr & Em).
  { split; [done|]. by intros [_ ?]. }
  pose proof (zlookup_Some_range _ _ _ Em) as Hlpn. rewrite (cv_maptbl _ _ _ Hf) in Hlpn.
  unfold gc_write_page. rewrite (get_rmap_ent_ok f v x lpn) by done. rewrite bind_Ok.
  apply okp_bind, okp_assert; [apply Z.ltb_lt; lia|].
  apply (place_page_ok (Some v) (moved ++ [x]) f GC_IO lpn); try done.
  { by eapply maps_ok_moving; [apply Hg|..]. } { by right. } { by rewrite Esp. }
  intros f' b y Hf' Hm' (Hby & _ & Em' & _ & Hu & Hsb & Ec & Ew & Eft & _) Eb _.
  assert (b <> v) as Hbv.
  { intros ->. by eapply (held_not_vic (Some v) None f GC_IO v); [exact Hf|by right|exact Eb|]. }
  assert (gcs (moved ++ [x]) er f' h) as Hg'.
  { destruct Hg as [G1 G2 (G3 & G4 & G5) G6 G7 G8 G9]. split; try done.
    - split; [by eapply same_but_trans|]. split; congruence.
    - intros z Hz. rewrite Hu, decide_False; [by apply G6|]. by intros [<- _].
    - rewrite Eft, G7, zcount_app. simpl. unfold is_st at 3. rewrite (proj2 (Z.eqb_eq _ _)) by done. simpl. lia.
    - intros l p El. destruct (G8 l p El) as (p' & El' & Hp'). rewrite Em'.
      destruct (decide (l = lpn)) as [->|Hl].
      + exists (ppa_at b y). rewrite zlookup_zinsert_eq by (rewrite (cv_maptbl _ _ _ Hf); lia).
        split; [done|]. right. assert (mapped_ppa (ppa_at v x) = true) by (by eapply mapped_ppa_at).
        assert (mapped_ppa (ppa_at b y) = true) by (by eapply mapped_ppa_at).
        rewrite Em in El'. injection El' as <-. by destruct Hp' as [<-|(? & ? & _)].
      + exists p'. by rewrite zlookup_zinsert_ne. }
  assert (at_page f' b y) as Hby' by (unfold at_page in *; by rewrite (gs_sp _ _ _ _ Hg'), <- Esp).
  destruct (enable_gc_delay (cf_cp f')); [|done].
  destruct (last_pg_in_wordline_ok f' (ppa_at b y)) as [lp ->]; [apply Hf'|]. rewrite bind_Ok.
  apply (advance_nand_ok (Some v) None); [done| | | |].
  { rewrite (gs_pcie _ _ _ _ Hg'). apply Hg'. }
  { destruct lp; by apply in_dev_at; [apply Hf'|]. }
  { by destruct lp. }
  intros f2 h2 t Ht Ha. simpl. by eapply gs_ticked.
Qed.

(** ** One flash page *)

(** The page [i] of the flash page [fp] of a die, and the address of its first
    page in [do_gc]. *)
Definition fl (fp c l i : Z) : coord := (c, l, fp * (cf_sp f0).(pgs_per_flashpg) + i).

Lemma fl_in_line fp c l i :
  params_ok (cf_sp f0) -> (fp, c, l) ∈ dies (cf_sp f0) -> 0 <= i < (cf_sp f0).(pgs_per_flashpg) ->
  in_line (cf_sp f0) (fl fp c l i).
Proof using.
  intros Hp (Hfp & Hc & Hl)%elem_of_dies Hi. pose proof (po_blk_flash _ Hp).
  unfold in_line, fl, c_ch, c_lun, c_pg; simpl. nia.
Qed.

Lemma set_pg_at fp c l i :
  params_ok (cf_sp f0) -> (fp, c, l) ∈ dies (cf_sp f0) -> 0 <= i < (cf_sp f0).(pgs_per_flashpg) ->
  set_pg (ppa_at v (fl fp c l 0)) (p_pg (ppa_at v (fl fp c l 0)) + i) = ppa_at v (fl fp c l i).
Proof using.
  intros Hp Hd Hi. destruct (fl_in_line fp c l i Hp Hd Hi) as (_ & _ & Hg). pose proof (po_pgs _ Hp).
  unfold set_pg, ppa_at, fl, c_ch, c_lun, c_pg in *; simpl in *.
  by rewrite Z.add_0_r, Z.mod_small by lia.
Qed.

Lemma count_valid_ok moved er f h fp c l :
  gcs moved er f h -> 0 <= v < (cf_sp f0).(blks_per_pl) -> (fp, c, l) ∈ dies (cf_sp f0) -> (c, l) ∉ er ->
  (forall y, in_line (cf_sp f0) y -> pst f0.(cf_ssd) v y <> PG_FREE) ->
  okp (count_valid f (ppa_at v (fl fp c l 0))) (fun cnt =>
    cnt = zcount (is_st PG_VALID f0.(cf_ssd) v) (flash_coords (cf_sp f0) fp c l)).
Proof using.
  intros Hg Hv Hd Her Hnf. pose proof (gs_sp _ _ _ _ Hg) as Esp.
  pose proof (gs_ok _ _ _ _ _ _ _ Hg) as Hf. pose proof (cv_dev _ _ _ Hf) as Hdev.
  pose proof (do_params _ Hdev) as Hp. unfold cf_sp at 1 in Esp. rewrite Esp in Hp.
  unfold count_valid, flash_coords. unfold cf_sp at 1. rewrite Esp. pose proof (po_flash _ Hp).
  apply (rfold_range _ (fun i cnt => cnt = zcount (is_st PG_VALID f0.(cf_ssd) v) (fl fp c l <$> zrange 0 i)));
    [lia|done|].
  intros i cnt Hi ->. rewrite set_pg_at by done. pose proof (fl_in_line fp c l i Hp Hd Hi) as Hin.
  destruct (get_pg_ok f.(cf_ssd) v (fl fp c l i)) as (_ & g & _ & _ & _ & _ & -> & Est).
  { apply Hdev. } { apply in_dev_ppa_at; [done|by rewrite Esp..]. }
  rewrite bind_Ok. rewrite <- Est, (gs_pst _ _ _ _ _ _ _ Hg), decide_False by done.
  apply okp_bind, okp_assert; [apply negb_true_iff, Z.eqb_neq; by apply Hnf|]. simpl.
  rewrite zrange_snoc, fmap_app, zcount_app by lia. simpl.
  change (is_st PG_VALID f0.(cf_ssd) v (fl fp c l i)) with (pst f0.(cf_ssd) v (fl fp c l i) =? PG_VALID). case_match; simpl; lia.
Qed.

Lemma NoDup_fl fp c l n : NoDup (fl fp c l <$> zrange 0 n).
Proof using. apply NoDup_fmap_2, NoDup_zrange. intros ?? [=]. lia. Qed.

Lemma move_pages_ok moved er f h fp c l :
  gcs moved er f h -> 0 <= v < (cf_sp f0).(blks_per_pl) -> (fp, c, l) ∈ dies (cf_sp f0) -> (c, l) ∉ er ->
  (forall y, y ∈ flash_coords (cf_sp f0) fp c l -> y ∉ moved) ->
  (cf_sp f0).(pgs_per_line) + 1 + zcount (is_st PG_VALID f0.(cf_ssd) v) (flash_coords (cf_sp f0) fp c l)
    <= free_total f ->
  okp (rfold (move_page (ppa_at v (fl fp c l 0))) (zrange 0 (cf_sp f0).(pgs_per_flashpg)) (f, h))
    (fun '(f', h') => gcs (moved ++ flash_coords (cf_sp f0) fp c l) er f' h').
Proof using.
  intros Hg Hv Hd Her Hnm Hroom. pose proof (gs_ok _ _ _ _ _ _ _ Hg) as Hf.
  pose proof (gs_sp _ _ _ _ Hg) as Esp0. pose proof (do_params _ (cv_dev _ _ _ Hf)) as Hp.
  unfold cf_sp at 1 in Esp0. rewrite Esp0 in Hp. pose proof (po_flash _ Hp).
  assert (free_total f = free_total f0 - zcount (is_st PG_VALID f0.(cf_ssd) v) moved) as Eft by apply Hg.
  apply (rfold_range _ (fun i '(f, h) => gcs (moved ++ (fl fp c l <$> zrange 0 i)) er f h));
    [lia|by rewrite zrange_nil, app_nil_r by lia|].
  clear Hg Hf Esp0. intros i [f1 h1] Hi Hg. pose proof (gs_sp _ _ _ _ Hg) as Esp.
  pose proof (gs_ok _ _ _ _ _ _ _ Hg) as Hf. unfold cf_sp at 1 in Esp.
  pose proof (fl_in_line fp c l i Hp Hd Hi) as Hin.
  rewrite zrange_snoc, fmap_app, app_assoc by lia. unfold move_page. rewrite set_pg_at by done.
  destruct (get_pg_ok f1.(cf_ssd) v (fl fp c l i)) as (_ & g & _ & _ & _ & _ & -> & Est).
  { apply Hf. } { apply in_dev_ppa_at; [apply Hf|by rewrite Esp..]. }
  rewrite bind_Ok, <- Est, (gs_pst _ _ _ _ _ _ _ Hg), decide_False by done.
  destruct (Z.eqb_spec (pst f0.(cf_ssd) v (fl fp c l i)) PG_VALID) as [Ev|Ev]; simpl.
  2: { by apply gs_skip. }
  assert (fl fp c l i ∈ flash_coords (cf_sp f0) fp c l) as Hfl
    by (apply list_elem_of_fmap; exists i; split; [done|by apply elem_of_zrange]).
  apply gc_write_page_ok; try done.
  - intros [Hm|Hm]%elem_of_app; [by eapply Hnm|].
    apply list_elem_of_fmap in Hm as (j & E & Hj%elem_of_zrange). unfold fl in E.
    assert (i = j) by (injection E; lia). lia.
  - pose proof (gs_free _ _ _ _ _ _ _ Hg) as Eft1. rewrite zcount_app in Eft1.
    change (flash_coords (cf_sp f0) fp c l) with (fl fp c l <$> zrange 0 (pgs_per_flashpg (cf_sp f0))) in Hroom.
    assert (zcount (is_st PG_VALID f0.(cf_ssd) v) (fl fp c l <$> zrange 0 i) + 1 <=
      zcount (is_st PG_VALID f0.(cf_ssd) v) (fl fp c l <$> zrange 0 (pgs_per_flashpg (cf_sp f0)))) as Hle.
    { assert (zrange 0 (pgs_per_flashpg (cf_sp f0)) = zrange 0 i ++ i :: zrange (i + 1) (pgs_per_flashpg (cf_sp f0))) as ->.
      { rewrite <- (zrange_S i) by lia. apply zrange_app. lia. }
      rewrite fmap_app, fmap_cons, zcount_app. cbn [zcount].
      change (is_st PG_VALID f0.(cf_ssd) v (fl fp c l i)) with (pst f0.(cf_ssd) v (fl fp c l i) =? PG_VALID).
      rewrite (proj2 (Z.eqb_eq _ _) Ev). simpl.
      pose proof (zcount_range (is_st PG_VALID f0.(cf_ssd) v) (fl fp c l <$> zrange (i + 1) (pgs_per_flashpg (cf_sp f0)))).
      change (list_fmap Z coord (fl fp c l) ?k) with (fl fp c l <$> k) in *. lia. }
    lia.
Qed.

Lemma gs_skips er f h l moved :
  gcs moved er f h ->
  (forall y, y ∈ l -> at_page f0 v y /\ (c_ch y, c_lun y) ∉ er /\ pst f0.(cf_ssd) v y <> PG_VALID) ->
  gcs (moved ++ l) er f h.
Proof using.
  revert moved. induction l as [|y l IH]; intros moved Hg Hl; [by rewrite app_nil_r|].
  rewrite cons_middle, app_assoc. apply IH; [|intros z Hz; apply Hl; by right].
  destruct (Hl y) as (? & ? & ?); [by left|]. by apply gs_skip.
Qed.

Lemma clean_one_flashpg_ok moved er f h fp c l :
  gcs moved er f h -> 0 <= v < (cf_sp f0).(blks_per_pl) -> (fp, c, l) ∈ dies (cf_sp f0) -> (c, l) ∉ er ->
  (forall y, y ∈ flash_coords (cf_sp f0) fp c l -> y ∉ moved) ->
  (forall y, in_line (cf_sp f0) y -> pst f0.(cf_ssd) v y <> PG_FREE) ->
  (cf_sp f0).(pgs_per_line) + 1 + zcount (is_st PG_VALID f0.(cf_ssd) v) (flash_coords (cf_sp f0) fp c l)
    <= free_total f ->
  okp (clean_one_flashpg f (ppa_at v (fl fp c l 0)) h)
    (fun '(f', h') => gcs (moved ++ flash_coords (cf_sp f0) fp c l) er f' h').
Proof using.
  intros Hg Hv Hd Her Hnm Hnf Hroom. pose proof (gs_sp _ _ _ _ Hg) as Esp.
  pose proof (gs_ok _ _ _ _ _ _ _ Hg) as Hf. pose proof (cv_dev _ _ _ Hf) as Hdev.
  pose proof (do_params _ Hdev) as Hp. change (sd_sp (cf_ssd f)) with (cf_sp f) in Hp. rewrite Esp in Hp.
  pose proof (po_flash _ Hp) as Hfl. pose proof (po_flashes _ Hp). pose proof (po_blk_flash _ Hp).
  pose proof (po_pgs _ Hp).
  unfold clean_one_flashpg. apply okp_bind. eapply okp_mono; [by eapply count_valid_ok|].
  intros cnt Ecnt. cbv beta in Ecnt. pose proof (zcount_range (is_st PG_VALID f0.(cf_ssd) v) (flash_coords (cf_sp f0) fp c l)) as Hcnt.
  rewrite <- Ecnt in Hcnt. unfold flash_coords in Hcnt at 1. rewrite zlen_fmap, zlen_zrange in Hcnt by lia.
  assert (forall y, y ∈ flash_coords (cf_sp f0) fp c l -> in_line (cf_sp f0) y /\ (c_ch y, c_lun y) = (c, l)) as Hcoord.
  { intros y (i & -> & Hi%elem_of_zrange)%list_elem_of_fmap. split; [by apply fl_in_line|done]. }
  destruct (Z.leb_spec cnt 0) as [Hc0|Hc0]; simpl.
  { apply gs_skips; [done|]. intros y Hy. destruct (Hcoord y Hy) as [Hin ->].
    split; [done|]. split; [done|]. intros Ev.
    assert (0 < zcount (is_st PG_VALID f0.(cf_ssd) v) (flash_coords (cf_sp f0) fp c l)); [|lia].
    eapply zcount_pos; [exact Hy|]. by apply Z.eqb_eq. }
  rewrite Esp. assert (pgs_per_flashpg (cf_sp f0) <= 65536) by nia.
  destruct (enable_gc_delay (cf_cp f)); [|rewrite bind_Ok; by apply move_pages_ok].
  apply okp_bind. pose proof (po_pgsz _ Hp) as Esz. apply (advance_nand_ok (Some v) None); [done| | | |].
  { rewrite (gs_pcie _ _ _ _ Hg). apply Hg. }
  { apply in_dev_at; [done|]. unfold at_page. rewrite Esp. split; [done|]. apply fl_in_line; [done..|lia]. }
  { intros _. simpl. rewrite Esz. unwrap. lia. }
  intros f' h' t Ht Ha. simpl. pose proof (gs_ticked _ _ _ _ _ _ Hg Ht Ha) as Hg'.
  apply move_pages_ok; try done. by rewrite (ticked_free_total _ _ Ht).
Qed.

(** ** The erasure of a block *)

Lemma free_pages_ok sp b :
  blk_shape sp b -> 0 < sp.(pgs_per_blk) ->
  okp (free_pages sp b) (fun b' => blk_shape sp b' /\
    (forall i : Z, np_status <$> b'.(nb_pg) !! i = (fun _ => PG_FREE) <$> b.(nb_pg) !! i)).
Proof using.
  intros (Hl & Hn & HF) Hp. unfold free_pages. apply okp_bind. eapply okp_mono.
  { apply (rfold_range _ (fun i pgs => zlen pgs = sp.(pgs_per_blk) /\ Forall (page_shape sp) pgs /\
      forall j : Z, np_status <$> pgs !! j =
        if decide (j < i) then (fun _ => PG_FREE) <$> b.(nb_pg) !! j else np_status <$> b.(nb_pg) !! j));
      [lia| |].
    - split; [done|]. split; [done|]. intros j. case_decide; [|done].
      unfold lookup, zlookup. by rewrite decide_False by lia.
    - intros i pgs Hi (L & F & S). destruct (zlookup_lt pgs i) as [g Eg]; [lia|].
      eapply amod_okp; [exact Eg|]. pose proof (Forall_zlookup _ _ _ _ F Eg) as Hg.
      apply okp_bind, okp_assert; [by apply Z.eqb_eq|]. simpl.
      split; [by rewrite zlen_zinsert|]. split; [by apply Forall_zinsert|].
      intros j. rewrite zlookup_zinsert by lia. destruct (decide (i = j)) as [<-|Hij].
      + rewrite decide_True by lia. destruct (zlookup_lt b.(nb_pg) i) as [g0 ->]; [lia|done].
      + rewrite S. by repeat case_decide; try lia. }
  intros pgs (L & F & S). simpl. split; [done|]. intros i. rewrite S. case_decide; [done|].
  by rewrite (zlookup_ge_None b.(nb_pg)) by lia.
Qed.

Lemma mark_block_free_ok f x :
  dev_ok f.(cf_ssd) -> at_page f v x ->
  okp (mark_block_free f (ppa_at v x)) (fun f' => exists s', f' = with_ssd f s' /\
    ssd_shape s' /\ same_but f.(cf_ssd) s' /\
    (forall b y, in_line (cf_sp f) y -> pst s' b y =
       if decide (b = v /\ c_ch y = c_ch x /\ c_lun y = c_lun x) then PG_FREE else pst f.(cf_ssd) b y) /\
    forall c l b, bcnt s' c l b =
       if decide (c = c_ch x /\ l = c_lun x /\ b = v) then Some (0, 0) else bcnt f.(cf_ssd) c l b).
Proof using.
  intros Hd Hx. pose proof (in_dev_at f v x Hd Hx) as Hin. pose proof (do_params _ Hd) as Hp.
  destruct (get_pg_ok f.(cf_ssd) v x (do_shape _ Hd) Hin) as (b & _ & Ab & _ & Hbs & _).
  unfold mark_block_free. pose proof (po_pgs _ Hp).
  destruct (okp_inv _ _ (free_pages_ok _ b Hbs ltac:(lia))) as (b' & Eb & Hbs' & Hst).
  remember (NandBlock b'.(nb_pg) b'.(nb_npgs) 0 0 (s32 (b'.(nb_erase_cnt) + 1)) b'.(nb_wp)) as b2 eqn:E2.
  apply okp_bind. eapply okp_mono.
  { apply (mod_blk_ok _ (ppa_at v x) b b2); [apply Hd|exact Hin|exact Ab| |by subst b2].
    unfold cf_sp. rewrite Eb. simpl. pose proof Hbs' as (_ & En & _). by rewrite (proj2 (Z.eqb_eq _ _) En), E2. }
  intros s' (Hs' & (K1 & K2 & K3 & K4 & E)). exists s'. split; [done|]. split; [done|].
  split; [done|]. simpl in E. split.
  - intros k y Hy. unfold pst, pg_at. rewrite E.
    destruct (decide (k = v /\ c_ch y = c_ch x /\ c_lun y = c_lun x)) as [(-> & E1 & E3)|Hn].
    + rewrite decide_True by done. subst b2. simpl. pose proof (Hst (c_pg y)) as Hs.
      destruct Hbs as (Hl & _). destruct (zlookup_lt b.(nb_pg) (c_pg y)) as [g Eg].
      { rewrite Hl. apply Hy. }
      rewrite Eg in Hs. destruct (b'.(nb_pg) !! c_pg y) as [g'|]; simpl in *; congruence.
    + rewrite decide_False by tauto. done.
  - intros c l k. unfold bcnt. rewrite E.
    destruct (decide (c = c_ch x /\ l = c_lun x /\ k = v)) as [(-> & -> & ->)|Hn].
    + rewrite decide_True by done. by subst b2.
    + rewrite decide_False by tauto. done.
Qed.

Lemma vic_place f :
  conv_ok (Some v) None f ->
  v ∉ f.(cf_lm).(free_line_list) /\ v ∉ f.(cf_lm).(full_line_list) /\ ~ in_victims f.(cf_lm) v.
Proof using.
  intros Hf. pose proof (cv_mgmt _ _ _ Hf) as Hm. pose proof (mo_nodup _ _ _ Hm) as Hnd.
  assert (v ∈ held (Some v) f) as Hh by (unfold held; rewrite !elem_of_app; right; right; by left).
  unfold elsewhere in Hnd. apply NoDup_app in Hnd as (_ & Hd1 & Hnd). apply NoDup_app in Hnd as (_ & Hd2 & _).
  split; [intros Hin; apply (Hd1 v Hin), elem_of_app; by right|].
  split; [intros Hin; by apply (Hd2 v Hin)|].
  intros Hin. apply (mo_disj _ _ _ Hm v Hin). unfold elsewhere. rewrite !elem_of_app. by right; right.
Qed.

Section freed.
Context (f : conv_ftl) (s' : ssd) (c l : Z).
Context (Hf : conv_ok (Some v) None f) (Hv : 0 <= v < (cf_sp f).(blks_per_pl)).
Context (Hs : ssd_shape s') (Hsb : same_but f.(cf_ssd) s').
Context (Hp : forall b y, in_line (cf_sp f) y -> pst s' b y =
  if decide (b = v /\ c_ch y = c /\ c_lun y = l) then PG_FREE else pst f.(cf_ssd) b y).
Context (Hc : forall c' l' b, bcnt s' c' l' b =
  if decide (c' = c /\ l' = l /\ b = v) then Some (0, 0) else bcnt f.(cf_ssd) c' l' b).

Lemma freed_other b y : b <> v -> in_line (cf_sp f) y -> pst s' b y = pst f.(cf_ssd) b y.
Proof using All. intros Hb Hy. by rewrite Hp, decide_False by tauto. Qed.

Lemma freed_line_count st b : b <> v -> line_count st s' b = line_count st f.(cf_ssd) b.
Proof using All.
  intros Hb. pose proof Hsb as (Esp & _). unfold line_count. rewrite Esp. apply zcount_ext.
  intros y Hy. apply elem_of_coords in Hy; [|apply Hf]. unfold is_st. by rewrite freed_other.
Qed.

Lemma freed_dev : dev_ok s'.
Proof using All.
  pose proof Hsb as (Esp & _). pose proof (cv_dev _ _ _ Hf) as Hd.
  assert (forall c' l' b st, in_blk (sd_sp (cf_ssd f)) c' l' b -> st <> PG_FREE ->
    blk_count st s' c' l' b =
    if decide (c' = c /\ l' = l /\ b = v) then 0 else blk_count st f.(cf_ssd) c' l' b) as Hcount.
  { intros c' l' b st (Hc' & Hl' & Hb) Hst. unfold blk_count. rewrite Esp.
    assert (forall g, g ∈ zrange 0 (pgs_per_blk (sd_sp (cf_ssd f))) -> in_line (cf_sp f) (c', l', g)) as Hg.
    { intros g Hg%elem_of_zrange. done. }
    destruct (decide (c' = c /\ l' = l /\ b = v)) as [(-> & -> & ->)|Hn].
    - apply zcount_false. intros g Hgr. unfold is_st. rewrite Hp, decide_True by (done || by apply Hg).
      by apply Z.eqb_neq.
    - apply zcount_ext. intros g Hgr. unfold is_st. rewrite Hp by (by apply Hg). rewrite decide_False; [done|].
      unfold c_ch, c_lun; simpl. tauto. }
  split; rewrite ?Esp; try apply Hd; [done| |].
  - intros c' l' b Hin. rewrite Hc, !Hcount by done. case_decide; [done|by apply Hd].
  - intros b y Hb Hy. rewrite Hp by done. case_decide; [by left|by apply Hd].
Qed.

Lemma freed_conv_ok : conv_ok (Some v) None (with_ssd f s').
Proof using All.
  pose proof Hsb as (Esp & _). destruct (vic_place f Hf) as (P1 & P2 & P3).
  pose proof freed_dev as Hd'. pose proof Hf as [_ Hm Hwp Hline Hfree Hfull Hvic Hinv Hl1 Hl2].
  split; unfold cf_sp in *; simpl; rewrite ?Esp; try done.
  - intros io Hio. destruct (Hwp io Hio) as (b0 & K1 & K2 & K3 & K4 & K5). exists b0.
    unfold cf_sp in *; simpl. rewrite Esp. change (wp_of (with_ssd f s') io) with (wp_of f io).
    do 4 (split; [done|]). intros y Hy. rewrite freed_other; [by apply K5| |done].
    intros ->. by apply (held_not_vic (Some v) None f io v Hf Hio).
  - intros b l0 E Hb. assert (b <> v) by congruence. rewrite !freed_line_count by done. by apply Hline.
  - intros b y Hb Hy. rewrite freed_other; [by apply Hfree|by intros ->|done].
  - intros b y Hb Hy. rewrite freed_other; [by apply Hfull|by intros ->|done].
  - intros b y Hb Hy. rewrite freed_other; [by apply Hvic|by intros ->|done].
  - intros b Hb. destruct (Hinv b Hb) as (y & Hy & Ey). exists y. split; [done|].
    rewrite freed_other; [done|by intros ->|done].
Qed.

Lemma freed_maps_ok moved :
  maps_ok (Some v) moved None f ->
  (forall y, in_line (cf_sp f) y -> c_ch y = c -> c_lun y = l -> y ∈ moved) ->
  maps_ok (Some v) moved None (with_ssd f s').
Proof using All.
  intros [Hfwd Hbwd] Hall. pose proof Hsb as (Esp & _).
  assert (forall b y, at_page f b y -> live (Some v) moved (with_ssd f s') b y <-> live (Some v) moved f b y) as Hl.
  { intros b y [Hb Hy]. unfold live; simpl. rewrite Hp by done. case_decide as Hd; [|done].
    destruct Hd as (-> & E1 & E2). split; intros [_ Hn]; exfalso; apply Hn; (split; [done|by apply Hall]). }
  split; unfold at_page, rmap_at, cf_sp in *; simpl; rewrite ?Esp.
  - intros lpn p H1 H2 H3. destruct (Hfwd lpn p H1 H2 H3) as (b & y & Hb & ?). exists b, y. by rewrite Hl.
  - intros b y Hb Hlv. apply Hl in Hlv; [|done]. by apply Hbwd.
Qed.

Lemma freed_free_total : free_total (with_ssd f s') = free_total f.
Proof using All.
  pose proof Hsb as (Esp & _). unfold free_total. unfold cf_sp; simpl. rewrite Esp.
  assert (forall io, is_io io -> wp_free (with_ssd f s') io = wp_free f io) as E.
  { intros io Hio. unfold wp_free. change (wp_of (with_ssd f s') io) with (wp_of f io).
    case_match eqn:Eb; [|done]. apply freed_line_count. intros ->.
    by apply (held_not_vic (Some v) None f io v Hf Hio). }
  rewrite (E USER_IO), (E GC_IO); [done|by right|by left].
Qed.
End freed.

Lemma erase_block_ok moved er f h fp c l :
  gcs moved er f h -> 0 <= v < (cf_sp f0).(blks_per_pl) -> (fp, c, l) ∈ dies (cf_sp f0) ->
  (forall y, in_line (cf_sp f0) y -> c_ch y = c -> c_lun y = l -> y ∈ moved) ->
  okp (erase_block f (ppa_at v (fl fp c l 0)) h) (fun '(f', h') => gcs moved (er ++ [(c, l)]) f' h').
Proof using.
  intros Hg Hv Hd Hall. pose proof (gs_sp _ _ _ _ Hg) as Esp.
  pose proof (gs_ok _ _ _ _ _ _ _ Hg) as Hf. pose proof (cv_dev _ _ _ Hf) as Hdev.
  pose proof (do_params _ Hdev) as Hp. change (sd_sp (cf_ssd f)) with (cf_sp f) in Hp. rewrite Esp in Hp.
  assert (in_line (cf_sp f0) (fl fp c l 0)) as Hin by (apply fl_in_line; [done..|pose proof (po_flash _ Hp); lia]).
  assert (at_page f v (fl fp c l 0)) as Hx by (unfold at_page; by rewrite Esp).
  unfold erase_block. apply okp_bind. eapply okp_mono; [by apply mark_block_free_ok|].
  intros f1 (s' & -> & Hs' & Hsb & Hps & Hcs). unfold fl, c_ch, c_lun in Hps, Hcs; simpl in Hps, Hcs.
  assert (0 <= v < (cf_sp f).(blks_per_pl)) as Hvf by (by rewrite Esp).
  assert (gcs moved (er ++ [(c, l)]) (with_ssd f s') h) as Hg1.
  { destruct Hg as [G1 G2 (G3 & G4 & G5) G6 G7 G8 G9]. split; try done.
    - by apply (freed_conv_ok f s' c l).
    - apply (freed_maps_ok f s' c l); try done. intros y Hy. apply Hall. by rewrite <- Esp.
    - split; [by eapply same_but_trans|done].
    - intros y Hy. simpl. rewrite Hps, G6 by (done || by rewrite Esp).
      unfold c_ch, c_lun. destruct (decide (v = v /\ y.1.1 = c /\ y.1.2 = l)) as [(_ & -> & ->)|Hn].
      + rewrite decide_True; [done|]. apply elem_of_app. right. by left.
      + destruct (decide ((y.1.1, y.1.2) ∈ er)) as [He|He].
        * rewrite decide_True; [done|]. apply elem_of_app. by left.
        * rewrite decide_False; [done|]. intros [?|He']%elem_of_app; [done|].
          apply list_elem_of_singleton in He'. apply Hn. injection He'. done.
    - by rewrite (freed_free_total f s' c l). }
  clear Hps Hcs. remember (with_ssd f s') as f1 eqn:E1.
  assert (forall f2, same_but f1.(cf_ssd) f2.(cf_ssd) -> at_page f2 v (fl fp c l 0)) as Hat2.
  { intros f2 (E & _). pose proof (gs_sp _ _ _ _ Hg1) as E2. unfold at_page, cf_sp in *. by rewrite E, E2. }
  assert (forall f2 h2, gcs moved (er ++ [(c, l)]) f2 h2 -> at_page f2 v (fl fp c l 0) ->
    okp (lun ← get_lun f2.(cf_ssd) (ppa_at v (fl fp c l 0));
         s ← set_lun_gc_endtime (ppa_at v (fl fp c l 0)) lun.(nl_next_lun_avail_time) f2.(cf_ssd);
         Ok (with_ssd f2 s, h2)) (fun '(f', h') => gcs moved (er ++ [(c, l)]) f' h')) as Hend.
  { intros f2 h2 Hg2 Hx2. pose proof (cv_dev _ _ _ (gs_ok _ _ _ _ _ _ _ Hg2)) as Hd2.
    pose proof (in_dev_at f2 v _ Hd2 Hx2) as Hin2.
    destruct (path_lun f2.(cf_ssd) _ (do_shape _ Hd2) Hin2) as (_ & n & _ & _ & _ & _ & _ & -> & _).
    rewrite bind_Ok. apply okp_bind. eapply okp_mono; [apply set_lun_gc_endtime_ok; [apply Hd2|exact Hin2]|].
    intros s2 (Hs2 & Hn2). simpl. eapply gs_ticked; [exact Hg2|by exists s2|].
    apply hw_adv_refl. rewrite (gs_pcie _ _ _ _ Hg2). apply Hg2. }
  destruct (enable_gc_delay (cf_cp f1)); [|rewrite bind_Ok; by apply Hend, Hat2].
  apply okp_bind. apply (advance_nand_ok (Some v) None); [apply Hg1| |apply in_dev_at; [apply Hg1|by apply Hat2]|done|].
  { rewrite (gs_pcie _ _ _ _ Hg1). apply Hg1. }
  intros f2 h2 t Ht Ha. simpl. apply Hend; [by eapply gs_ticked|]. apply Hat2, (ticked_same _ _ Ht).
Qed.

(** ** The loops *)

Definition fc (d : Z * Z * Z) : list coord := flash_coords (cf_sp f0) d.1.1 d.1.2 d.2.

(** The dies whose block is erased once the dies [pre] are visited. *)
Definition ers (pre : list (Z * Z * Z)) : list (Z * Z) :=
  (fun d => (d.1.2, d.2)) <$> filter (fun d => d.1.1 = (cf_sp f0).(flashpgs_per_blk) - 1) pre.

Lemma elem_of_ers pre c l : (c, l) ∈ ers pre <-> ((cf_sp f0).(flashpgs_per_blk) - 1, c, l) ∈ pre.
Proof using.
  unfold ers. rewrite list_elem_of_fmap. setoid_rewrite list_elem_of_filter. split.
  - intros ([[a b] d] & [= -> ->] & Ha & Hin). simpl in Ha. by subst a.
  - intros Hin. by exists ((cf_sp f0).(flashpgs_per_blk) - 1, c, l).
Qed.

Lemma keyed_sorted {B} (g : Z -> list B) (key : B -> Z) lo n :
  (forall i y, y ∈ g i -> key y = i) ->
  StronglySorted (fun x y => key x <= key y) (zrange lo (lo + Z.of_nat n) ≫= g).
Proof using.
  intros Hkey. revert lo. induction n as [|n IH]; intros lo.
  { rewrite zrange_nil by lia. constructor. }
  rewrite zrange_S by lia. simpl.
  replace (lo + Z.of_nat (S n)) with (lo + 1 + Z.of_nat n) by lia. specialize (IH (lo + 1)).
  assert (forall y, y ∈ g lo -> key y = lo) as Hlo by (intros; by apply Hkey).
  induction (g lo) as [|y l IHl]; simpl; [done|]. constructor.
  - apply IHl. intros; apply Hlo. by right.
  - apply Forall_forall. intros z [Hz|Hz]%elem_of_app.
    + rewrite (Hlo y), (Hlo z); [lia|by right|by left].
    + apply elem_of_bind_intro in Hz as (i & Hz & Hi%elem_of_zrange).
      rewrite (Hlo y), (Hkey i z); [lia|done|by left].
Qed.

Lemma sorted_split {B} (R : B -> B -> Prop) pre d post :
  StronglySorted R (pre ++ d :: post) ->
  (forall x, x ∈ pre -> R x d) /\ (forall x, x ∈ post -> R d x).
Proof using.
  induction pre as [|y pre IH]; simpl; inversion 1 as [|? ? Hs Hall]; subst.
  - split; [by intros x ?%not_elem_of_nil|]. by apply Forall_forall.
  - destruct (IH Hs) as [H1 H2]. split; [|done]. intros x [->|Hx]%elem_of_cons; [|by apply H1].
    rewrite Forall_forall in Hall. apply Hall, elem_of_app. right. by left.
Qed.

Lemma dies_split pre d post :
  params_ok (cf_sp f0) -> dies (cf_sp f0) = pre ++ d :: post ->
  (forall x, x ∈ pre -> x.1.1 <= d.1.1) /\ (forall x, x ∈ post -> d.1.1 <= x.1.1) /\
  d ∉ pre /\ d ∉ post.
Proof using.
  intros Hp E. pose proof (NoDup_dies (cf_sp f0)) as Hnd. rewrite E in Hnd.
  apply NoDup_app in Hnd as (_ & Hd & Hnd). apply NoDup_cons in Hnd as [Hn2 _].
  destruct (sorted_split (fun x y : Z * Z * Z => x.1.1 <= y.1.1) pre d post) as [H1 H2].
  { rewrite <- E. unfold dies. pose proof (po_flashes _ Hp).
    replace (flashpgs_per_blk (cf_sp f0)) with (0 + Z.of_nat (Z.to_nat (flashpgs_per_blk (cf_sp f0)))) by lia.
    apply keyed_sorted. intros i y (c & (l & -> & _)%list_elem_of_fmap & _)%elem_of_bind_intro. done. }
  split; [done|]. split; [done|]. split; [|done]. intros Hin. apply (Hd d Hin). by left.
Qed.

Lemma gc_ppa_at fp c l :
  params_ok (cf_sp f0) -> 0 <= v < (cf_sp f0).(blks_per_pl) -> (fp, c, l) ∈ dies (cf_sp f0) ->
  gc_ppa v (s32 (fp * (cf_sp f0).(pgs_per_flashpg))) c l = ppa_at v (fl fp c l 0).
Proof using.
  intros Hp Hv Hd. pose proof (po_flash _ Hp).
  destruct (fl_in_line fp c l 0 Hp Hd ltac:(lia)) as (Hc & Hl & Hg).
  pose proof (po_pgs _ Hp). pose proof (po_blks _ Hp). pose proof (po_nchs _ Hp). pose proof (po_luns _ Hp).
  unfold fl, c_ch, c_lun, c_pg in *; simpl in *. rewrite Z.add_0_r in *. unwrap.
  unfold gc_ppa, set_pl, set_lun, set_ch, set_pg, set_blk, ppa_of_u64, ppa_at, c_ch, c_lun, c_pg; simpl.
  by rewrite !Z.mod_small by lia.
Qed.

Section loops.
Context (Hf0 : params_ok (cf_sp f0)) (Hv : 0 <= v < (cf_sp f0).(blks_per_pl)).
Context (Hnf : forall y, in_line (cf_sp f0) y -> pst f0.(cf_ssd) v y <> PG_FREE).
Context (Hroom : (cf_sp f0).(pgs_per_line) + 1 + line_count PG_VALID f0.(cf_ssd) v <= free_total f0).

Lemma zcount_prefix pre d post :
  dies (cf_sp f0) = pre ++ d :: post ->
  zcount (is_st PG_VALID f0.(cf_ssd) v) (pre ≫= fc) + zcount (is_st PG_VALID f0.(cf_ssd) v) (fc d)
    <= line_count PG_VALID f0.(cf_ssd) v.
Proof using.
  intros E. unfold line_count, coords. fold (cf_sp f0). rewrite E, bind_app, bind_cons, !zcount_app.
  pose proof (zcount_range (is_st PG_VALID f0.(cf_ssd) v) (post ≫= fc)). unfold fc in *. lia.
Qed.

Lemma fc_fresh pre d post y :
  dies (cf_sp f0) = pre ++ d :: post -> y ∈ fc d -> y ∉ pre ≫= fc.
Proof using Hf0.
  intros E Hy Hin. pose proof (NoDup_coords _ Hf0) as Hnd. unfold coords in Hnd.
  rewrite E, bind_app, bind_cons in Hnd. apply NoDup_app in Hnd as (_ & Hd & _).
  apply (Hd y Hin), elem_of_app. by left.
Qed.

Lemma gc_step_ok pre fp c l post f h :
  dies (cf_sp f0) = pre ++ (fp, c, l) :: post -> gcs (pre ≫= fc) (ers pre) f h ->
  okp (gc_step v fp c l (f, h)) (fun '(f', h') =>
    gcs ((pre ++ [(fp, c, l)]) ≫= fc) (ers (pre ++ [(fp, c, l)])) f' h').
Proof using All.
  intros E Hg. pose proof (gs_sp _ _ _ _ Hg) as Esp.
  assert ((fp, c, l) ∈ dies (cf_sp f0)) as Hd by (rewrite E; apply elem_of_app; right; by left).
  destruct (dies_split _ _ _ Hf0 E) as (Hpre & Hpost & Hn1 & Hn2). simpl in Hpre, Hpost.
  assert (forall pgs, in_dev (cf_sp f0) (ppa_at v (fl fp c l 0)) -> gcs pgs (ers pre) f h ->
    exists n, get_lun f.(cf_ssd) (ppa_at v (fl fp c l 0)) = Ok n) as Hlun.
  { intros pgs Hin Hg'. pose proof (cv_dev _ _ _ (gs_ok _ _ _ _ _ _ _ Hg')) as Hdev.
    rewrite <- Esp in Hin.
    destruct (path_lun f.(cf_ssd) _ (do_shape _ Hdev) Hin) as (_ & n & _ & _ & _ & _ & _ & En & _). by exists n. }
  assert (in_dev (cf_sp f0) (ppa_at v (fl fp c l 0))) as Hin.
  { rewrite <- Esp. apply in_dev_at; [apply Hg|]. unfold at_page. rewrite Esp. split; [done|].
    apply fl_in_line; [done..|]. pose proof (po_flash _ Hf0). lia. }
  unfold gc_step. rewrite Esp, gc_ppa_at by done. destruct (Hlun _ Hin Hg) as [n ->]. rewrite bind_Ok.
  assert ((c, l) ∉ ers pre) as Her.
  { rewrite elem_of_ers. intros Hin'. pose proof (Hpre _ Hin'). simpl in *.
    apply elem_of_dies in Hd as (Hfp & _). assert (fp = flashpgs_per_blk (cf_sp f0) - 1) as -> by lia. done. }
  pose proof (zcount_prefix _ _ _ E) as Hz.
  apply okp_bind. eapply okp_mono.
  { eapply clean_one_flashpg_ok; [exact Hg|done..| |done|].
    - intros y Hy. eapply fc_fresh; [exact E|exact Hy].
    - pose proof (gs_free _ _ _ _ _ _ _ Hg). unfold fc in *; simpl in *. lia. }
  intros [f1 h1] Hg1. rewrite bind_app. simpl. rewrite app_nil_r.
  unfold ers. rewrite filter_app, fmap_app. fold (ers pre).
  destruct (Z.eqb_spec fp (flashpgs_per_blk (cf_sp f0) - 1)) as [Efp|Efp].
  - rewrite filter_cons_True by done. simpl. apply erase_block_ok; try done.
    intros y Hy <- <-. apply elem_of_coords in Hy as Hc; [|done]. unfold coords in Hc. fold (cf_sp f0) in Hc.
    apply elem_of_bind_intro in Hc as (d & Hyd & Hdd). destruct d as [[fp' c'] l'].
    pose proof Hyd as (E1 & E2 & _)%elem_of_flash_coords. simpl in E1, E2. subst c' l'.
    rewrite E in Hdd. apply elem_of_app in Hdd as [Hdd|[Hdd|Hdd]%elem_of_cons]; apply elem_of_app.
    + left. apply elem_of_bind_intro. by exists (fp', c_ch y, c_lun y).
    + right. injection Hdd as ->. done.
    + pose proof (Hpost _ Hdd) as Hle. simpl in Hle.
      assert ((fp', c_ch y, c_lun y) ∈ dies (cf_sp f0)) as Hd'
        by (rewrite E; apply elem_of_app; right; by right).
      apply elem_of_dies in Hd' as (Hfp' & _). assert (fp' = fp) as -> by lia. done.
  - rewrite filter_cons_False by done. simpl. by rewrite app_nil_r.
Qed.

Lemma gc_loops_ok f h :
  gcs [] [] f h -> okp (gc_loops v f h) (fun '(f', h') => gcs (coords (cf_sp f0)) (ers (dies (cf_sp f0))) f' h').
Proof using All.
  intros Hg. unfold gc_loops. rewrite (gs_sp _ _ _ _ Hg).
  assert (forall s, rfold (fun flashpg => rfold (fun ch => rfold (fun lun => gc_step v flashpg ch lun)
      (zrange 0 (luns_per_ch (cf_sp f0)))) (zrange 0 (nchs (cf_sp f0))))
    (zrange 0 (flashpgs_per_blk (cf_sp f0))) s =
    rfold (fun d => gc_step v d.1.1 d.1.2 d.2) (dies (cf_sp f0)) s) as ->.
  { intros s. unfold dies. rewrite rfold_bind. apply rfold_ext. intros fp s1.
    rewrite rfold_bind. apply rfold_ext. intros c s2. by rewrite rfold_fmap. }
  apply (rfold_inv _ (fun pre '(f, h) => gcs (pre ≫= fc) (ers pre) f h)); [done|].
  intros pre [[fp c] l] post [f1 h1] E Hg1. simpl. by eapply gc_step_ok.
Qed.
End loops.
End gc.
