(* ===== verification/ConvWrite.v ===== *)
(** * Garbage collection as a whole, and the host write path

    [select_victim_line] and [do_gc] over the loops of ConvGc.v; [part_ok], the
    invariant of a partition between two host pages, with the write flow
    control: a collection always finds a victim as long as the mapped logical
    pages leave the over-provisioned lines free.  [write_lpn_ok]: a host page, with
    how far the host's pages fill their one-shot page, at whose end the write is
    programmed and the release of its buffer scheduled. *)

From stdpp Require Import prelude list list_tactics.
From Stdlib Require Import ZArith Lia.
From S2P Require Import Prelude ChannelModel Pqueue SsdConfig Ssd ConvFtl ConvInv ConvState ConvStep ConvMaps.
From S2P Require Import ConvGc.

Section select.
Context `{CC : ChanConfig, CK : Clock}.

(** Changes to the victim queue alone keep everything but the queue's facts. *)
Lemma conv_ok_taken f m v :
  conv_ok None None f -> mgmt_ok (cf_sp f).(blks_per_pl) (v :: held None f) m ->
  m.(free_line_list) = f.(cf_lm).(free_line_list) -> m.(full_line_list) = f.(cf_lm).(full_line_list) ->
  (forall b, unpos <$> m.(lm_lines) !! b = unpos <$> f.(cf_lm).(lm_lines) !! b) ->
  (forall b, in_victims m b -> in_victims f.(cf_lm) b) ->
  conv_ok (Some v) None (with_lm f m).
Proof.
  intros Hf Hm Efr Efl Hun Hvs. pose proof Hf as [Hd _ Hwp Hline Hfree Hfull Hvic Hinv Hl1 Hl2].
  split; unfold cf_sp in *; simpl; try done.
  - eapply mgmt_ok_perm; [|exact Hm]. unfold held; simpl. solve_Permutation.
  - intros b l E _. pose proof (Hun b) as Hu. rewrite E in Hu.
    destruct (lm_lines (cf_lm f) !! b) as [l0|] eqn:E0; [|done]. simpl in Hu. unfold unpos in Hu.
    injection Hu as _ -> ->. by apply Hline.
  - intros b x Hb Hx. apply Hfree; [by rewrite <- Efr|done].
  - intros b x Hb Hx. apply Hfull; [by rewrite <- Efl|done].
  - intros b x Hb Hx. apply Hvic; [by apply Hvs|done].
  - intros b Hb. apply Hinv. by apply Hvs.
Qed.

Lemma maps_ok_taken v f m : maps_ok None [] None f -> maps_ok (Some v) [] None (with_lm f m).
Proof.
  intros [Hfwd Hbwd].
  assert (forall b x, live (Some v) [] (with_lm f m) b x <-> live None [] f b x) as Hl.
  { intros b x. unfold live; simpl. split; intros [Hv _]; (split; [done|]); [by intros [? _]|].
    intros [_ Hin]. by apply not_elem_of_nil in Hin. }
  split.
  - intros lpn p H1 H2 H3. destruct (Hfwd lpn p H1 H2 H3) as (b & x & ?). exists b, x. by rewrite Hl.
  - intros b x Hb Hlv. apply Hl in Hlv. by apply Hbwd.
Qed.

Definition vpc_of (f : conv_ftl) (b : Z) : Z := line_vpc f.(cf_lm).(lm_lines) b.

Lemma select_victim_line_ok f force :
  conv_ok None None f ->
  okp (select_victim_line f force) (fun '(f', o) =>
    match o with
    | None => f' = f /\ ((forall b, ~ in_victims f.(cf_lm) b) \/
        (force = false /\ forall b, in_victims f.(cf_lm) b -> (cf_sp f).(pgs_per_line) `div` 8 < vpc_of f b))
    | Some v => exists m, f' = with_lm f m /\ in_victims f.(cf_lm) v /\
        (forall b, in_victims f.(cf_lm) b -> vpc_of f v <= vpc_of f b) /\
        (force = true \/ vpc_of f v <= (cf_sp f).(pgs_per_line) `div` 8) /\
        conv_ok (Some v) None f' /\ m.(free_line_list) = f.(cf_lm).(free_line_list) /\
        (forall b, unpos <$> m.(lm_lines) !! b = unpos <$> f.(cf_lm).(lm_lines) !! b) /\
        (forall b, in_victims m b <-> in_victims f.(cf_lm) b /\ b <> v)
    end).
Proof.
  intros Hf. pose proof (cv_mgmt _ _ _ Hf) as Hm. unfold select_victim_line.
  destruct (mo_pq _ _ _ Hm) as (q & Eq & Hq & _). rewrite Eq.
  destruct (decide (pq_size q = 1)) as [E1|E1].
  { unfold pqueue_peek. rewrite E1. simpl. split; [done|]. left. intros b. unfold in_victims. rewrite Eq.
    intros (j & Hj & _). lia. }
  pose proof (pq_range _ _ Hq). assert (1 < q.(pq_size)) as Hsz by lia.
  destruct (pqueue_peek_spec _ _ Hq Hsz) as (v & Ev & ->). rewrite bind_Ok.
  assert (in_pq q v) as Hin by (by exists 1).
  destruct (pq_index _ _ _ Hq Hin) as (_ & _ & (l & El & Hl)). rewrite (aget_Some _ _ _ El), bind_Ok.
  assert (vpc_of f v = ln_vpc l) as Evl by (unfold vpc_of, line_vpc; by rewrite El).
  unfold queueable in Hl. unwrap.
  destruct (negb force && (pgs_per_line (cf_sp f) `div` 8 <? ln_vpc l)) eqn:Eforce.
  { apply andb_true_iff in Eforce as [Ef El8%Z.ltb_lt]. split; [done|]. right. split; [by destruct force|].
    intros b Hb. unfold in_victims in Hb. rewrite Eq in Hb.
    pose proof (pq_first _ _ _ _ Hq Ev Hb) as Hle. apply Z.ltb_ge in Hle.
    change (vpc_of f v <= vpc_of f b) in Hle. lia. }
  apply okp_bind. eapply okp_mono.
  { rewrite <- Eq. eapply (dequeue_ok _ _ _ q v Hm); done. }
  intros [[o oq] ls1] Hok. apply okp_bind. eapply okp_mono; [exact Hok|].
  intros ls (Hm' & F1 & F2 & F3 & F4 & F5 & F6). simpl in *.
  eexists. split; [done|]. split; [done|]. split; [done|]. split.
  { apply andb_false_iff in Eforce as [Ef|Ef]; [left; by destruct force|right].
    rewrite Evl. apply Z.ltb_ge in Ef. done. }
  split; [|done]. eapply conv_ok_taken; [exact Hf|exact Hm'|done..|]. intros b Hb. by apply F5.
Qed.

(** The pages of a line without free pages are valid or invalid. *)
Lemma counts_full s b :
  dev_ok s -> 0 <= b < s.(sd_sp).(blks_per_pl) ->
  (forall x, in_line s.(sd_sp) x -> pst s b x <> PG_FREE) ->
  line_count PG_VALID s b + line_count PG_INVALID s b = s.(sd_sp).(pgs_per_line).
Proof.
  intros Hd Hb Hnf. unfold line_count. rewrite <- (zlen_coords _ (do_params _ Hd)).
  apply zcount_split. intros x Hx. apply elem_of_coords in Hx; [|apply Hd]. unfold is_st.
  destruct (do_st _ Hd b x Hb Hx) as [E|[E|E]]; [by apply Hnf in E|by rewrite E..].
Qed.

(** The end of [do_gc]: the erased victim goes to the free list. *)
Lemma mark_line_free_ok v f :
  conv_ok (Some v) None f -> 0 <= v < (cf_sp f).(blks_per_pl) ->
  (forall x, in_line (cf_sp f) x -> pst f.(cf_ssd) v x = PG_FREE) ->
  okp (mark_line_free f (gc_ppa v 0 0 0)) (fun f' => exists m, f' = with_lm f m /\
    conv_ok None None f' /\ m.(free_line_list) = f.(cf_lm).(free_line_list) ++ [v]).
Proof.
  intros Hf Hv Hfree. pose proof (cv_dev _ _ _ Hf) as Hd. pose proof (do_params _ Hd) as Hp.
  pose proof (cv_mgmt _ _ _ Hf) as Hm. pose proof (po_blks _ Hp). unfold cf_sp in Hv.
  destruct (mo_lookup _ _ _ v Hm Hv) as [l El]. unfold mark_line_free, get_line.
  replace (p_blk (gc_ppa v 0 0 0)) with v by (unfold gc_ppa; simpl; rewrite Z.mod_small; lia).
  rewrite (aget_Some _ _ _ El), bind_Ok. destruct (vic_place v f Hf) as (P1 & P2 & P3).
  destruct (mo_line _ _ _ Hm v l El) as (Eid & Hq & Hi & Hpos).
  assert (ln_pos l = 0) as Hpos0 by (destruct (decide (ln_pos l = 0)); [done|]; by apply Hpos in n).
  assert (mgmt_ok (blks_per_pl (cf_sp f)) (v :: held None f)
    (with_lines f.(cf_lm) (<[v := Line (ln_id l) 0 0 (ln_pos l)]> f.(cf_lm).(lm_lines)))) as Hm2.
  { eapply mgmt_ok_perm; [|eapply (mgmt_ok_upd _ (held (Some v) f)); [exact Hm|exact El|..]];
      unfold queueable; simpl; try done; try lia. unfold held; simpl. solve_Permutation. }
  destruct (release_free_ok _ _ _ _ Hm2) as (m' & Em' & Hm' & F1 & F2 & F3 & F4). simpl in F1, F2, F3, F4.
  destruct (list_add_tail_free _ v) as [m1|] eqn:E1; [|done]. simpl in Em'. injection Em' as Em'.
  simpl. rewrite Em'. exists m'. split; [done|]. split; [|done].
  pose proof Hf as [_ _ Hwp Hline Hfree0 Hfull Hvic Hinv Hl1 Hl2].
  assert (forall b, in_victims m' b <-> in_victims f.(cf_lm) b) as Hvs
    by (intros b; unfold in_victims; by rewrite F3).
  split; unfold cf_sp in *; simpl; try done.
  - intros b l' E _. rewrite F4 in E. rewrite zlookup_zinsert in E by (by eapply zlookup_Some_range).
    destruct (decide (v = b)) as [<-|Hb]; [|by apply Hline; [|congruence]].
    injection E as <-. simpl. rewrite !line_count_none; [done|done| |done|].
    + intros x Hx. by rewrite Hfree.
    + intros x Hx. by rewrite Hfree.
  - intros b x Hb Hx. rewrite F1 in Hb. apply elem_of_app in Hb as [Hb|Hb]; [by apply Hfree0|].
    apply list_elem_of_singleton in Hb as ->. by apply Hfree.
  - intros b x Hb Hx. apply Hfull; [by rewrite <- F2|done].
  - intros b x Hb Hx. apply Hvic; [by apply Hvs|done].
  - intros b Hb. apply Hinv. by apply Hvs.
Qed.
End select.

(** What a collection of the victim [v] does to [f]: its pages are free, and
    only logical pages that were in [v] moved. *)
Record collected (v : Z) (f f' : conv_ftl) : Prop := {
  cl_same : same_but f.(cf_ssd) f'.(cf_ssd) /\ f'.(cf_cp) = f.(cf_cp);
  cl_credits : f'.(cf_wfc).(write_credits) = f.(cf_wfc).(write_credits) /\
    f'.(cf_wfc).(credits_to_refill) = line_count PG_INVALID f.(cf_ssd) v;
  cl_invalid : 0 < line_count PG_INVALID f.(cf_ssd) v <= (cf_sp f).(pgs_per_line);
  cl_free : free_total f' = free_total f + line_count PG_INVALID f.(cf_ssd) v;
  cl_erased x : in_line (cf_sp f) x -> pst f'.(cf_ssd) v x = PG_FREE;
  cl_tbl lpn p : f.(maptbl) !! lpn = Some p ->
    exists p', f'.(maptbl) !! lpn = Some p' /\
      (p' = p \/ (p.(p_blk) = v /\ mapped_ppa p = true /\ mapped_ppa p' = true))
}.

Section do_gc.
Context `{CC : ChanConfig, CK : Clock}.

Lemma with_wfc_state v f h w :
  conv_ok (Some v) None f -> maps_ok (Some v) [] None f -> link_ok f.(cf_ssd).(sd_pcie) h ->
  gc_state v (with_wfc f w) h [] [] (with_wfc f w) h.
Proof.
  intros Hf Hm Hl. split; try done.
  - destruct Hf; by split.
  - destruct Hm; by split.
  - simpl. change (free_total (with_wfc f w)) with (free_total f). lia.
  - intros lpn p E. exists p. split; [done|]. by left.
Qed.

Lemma collect_ok v f h w :
  conv_ok (Some v) None f -> maps_ok (Some v) [] None f -> link_ok f.(cf_ssd).(sd_pcie) h ->
  0 <= v < (cf_sp f).(blks_per_pl) ->
  (forall y, in_line (cf_sp f) y -> pst f.(cf_ssd) v y <> PG_FREE) ->
  (cf_sp f).(pgs_per_line) + 1 + line_count PG_VALID f.(cf_ssd) v <= free_total f ->
  okp ('(f, h) ← gc_loops v (with_wfc f w) h; f ← mark_line_free f (gc_ppa v 0 0 0); Ok (f, h, 0))
    (fun '(f', h', rc) => rc = 0 /\ conv_ok None None f' /\ maps_ok None [] None f' /\
      same_but f.(cf_ssd) f'.(cf_ssd) /\ f'.(cf_cp) = f.(cf_cp) /\ f'.(cf_wfc) = w /\
      (forall x, in_line (cf_sp f) x -> pst f'.(cf_ssd) v x = PG_FREE) /\
      free_total f' = free_total f - line_count PG_VALID f.(cf_ssd) v + (cf_sp f).(pgs_per_line) /\
      (forall lpn p, f.(maptbl) !! lpn = Some p -> exists p', f'.(maptbl) !! lpn = Some p' /\
        (p' = p \/ (p.(p_blk) = v /\ mapped_ppa p = true /\ mapped_ppa p' = true))) /\
      hw_adv f.(cf_ssd).(sd_pcie) h h').
Proof.
  intros Hf Hm Hl Hv Hnf Hroom. pose proof (do_params _ (cv_dev _ _ _ Hf)) as Hp.
  apply okp_bind. eapply okp_mono.
  { apply (gc_loops_ok v (with_wfc f w) h); [done..|]. by apply with_wfc_state. }
  intros [f1 h1] Hg. pose proof (gs_sp _ _ _ _ _ _ _ Hg) as Esp. change (cf_sp (with_wfc f w)) with (cf_sp f) in *.
  assert (forall x, in_line (cf_sp f) x -> pst f1.(cf_ssd) v x = PG_FREE) as Hall.
  { intros x Hx. rewrite (gs_pst _ _ _ _ _ _ _ Hg) by done. rewrite decide_True; [done|].
    apply elem_of_ers. apply elem_of_dies. pose proof (po_flashes _ Hp). destruct Hx as (? & ? & ?).
    change (cf_sp (with_wfc f w)) with (cf_sp f). unfold cf_sp. split; [lia|done]. }
  apply okp_bind. eapply okp_mono.
  { apply mark_line_free_ok; [apply Hg|by rewrite Esp|by rewrite Esp]. }
  intros f2 (m & -> & Hf2 & Efl). simpl. destruct Hg as [G1 [Hfwd Hbwd] (G3 & G4 & G5) G6 G7 G8 G9].
  split; [done|]. split; [done|]. split; [|split; [done|split; [done|split; [done|split; [done|split]]]]].
  - assert (forall b x, at_page f1 b x -> live None [] (with_lm f1 m) b x <->
      live (Some v) (coords (cf_sp f)) f1 b x) as Hlv.
    { intros b x [_ Hx]. rewrite Esp in Hx. unfold live; simpl. split; intros [Hst _]; (split; [done|]).
      - intros [[= <-] _]. by rewrite Hall in Hst.
      - by intros [? _]. }
    split.
    + intros lpn p H1 H2 H3. destruct (Hfwd lpn p H1 H2 H3) as (b & x & Hb & ?). exists b, x. by rewrite Hlv.
    + intros b x Hb Hl'. apply Hlv in Hl'; [|done]. by apply Hbwd.
  - change (zcount (is_st PG_VALID (with_wfc f w).(cf_ssd) v) (coords (cf_sp f))) with (line_count PG_VALID f.(cf_ssd) v) in G7.
    change (free_total (with_wfc f w)) with (free_total f) in G7.
    rewrite <- G7. unfold free_total. simpl. rewrite Efl, zlen_app. unfold zlen at 2; simpl.
    change (cf_sp (with_lm f1 m)) with (cf_sp f1). rewrite Esp.
    assert (forall io, wp_free (with_lm f1 m) io = wp_free f1 io) as E by done. rewrite !E. lia.
  - split; [exact G8|exact G9].
Qed.

(** [do_gc] with [force], on a partition that has a victim and the room. *)
Lemma do_gc_ok f h :
  conv_ok None None f -> maps_ok None [] None f -> link_ok f.(cf_ssd).(sd_pcie) h ->
  2 * (cf_sp f).(pgs_per_line) <= free_total f -> (exists b, in_victims f.(cf_lm) b) ->
  okp (do_gc f true h) (fun '(f', h', rc) => rc = 0 /\ conv_ok None None f' /\ maps_ok None [] None f' /\
    hw_adv f.(cf_ssd).(sd_pcie) h h' /\
    exists v, in_victims f.(cf_lm) v /\ (forall b, in_victims f.(cf_lm) b -> vpc_of f v <= vpc_of f b) /\
      collected v f f').
Proof.
  intros Hf Hmaps Hl Hroom [b0 Hb0]. pose proof (cv_dev _ _ _ Hf) as Hd. pose proof (do_params _ Hd) as Hp.
  pose proof (pgs_per_line_ok _ Hd) as HP.
  unfold do_gc. apply okp_bind. eapply okp_mono; [by apply select_victim_line_ok|].
  intros [f1 [v|]]; [|intros [_ [Hno|[? _]]]; [by apply Hno in Hb0|done]].
  intros (m & -> & Hv & Hmin & _ & Hf1 & Efl & Hun & _). pose proof (mo_victim_range _ _ _ _ (cv_mgmt _ _ _ Hf) Hv) as Hvr.
  destruct (mo_lookup _ _ _ v (cv_mgmt _ _ _ Hf) Hvr) as [l0 El0].
  destruct (cv_line _ _ _ Hf v l0 El0) as [Ev Ei]; [done|].
  pose proof (Hun v) as Hu. rewrite El0 in Hu. destruct (lm_lines m !! v) as [l|] eqn:El; [|done].
  simpl in Hu. unfold unpos in Hu. injection Hu as Eid Eipc Evpc.
  destruct (mo_line _ _ _ (cv_mgmt _ _ _ Hf) v l0 El0) as (Eid0 & _).
  simpl. rewrite (aget_Some _ _ _ El), bind_Ok, Eid, Eid0.
  assert (forall y, in_line (cf_sp f) y -> pst f.(cf_ssd) v y <> PG_FREE) as Hnf
    by (intros y Hy; by apply (cv_victim _ _ _ Hf)).
  pose proof (counts_full _ v Hd Hvr Hnf) as Hsum. unfold cf_sp in HP, Hroom.
  destruct (cv_victim_inv _ _ _ Hf v Hv) as (y & Hy & Ey).
  pose proof (line_count_pos f.(cf_ssd) v y PG_INVALID Hp Hy Ey) as Hinv.
  pose proof (line_count_bound f.(cf_ssd) v PG_VALID Hp) as Hvb.
  assert (u32 (ln_ipc l) = line_count PG_INVALID f.(cf_ssd) v) as Ew by (rewrite Eipc, Ei; unwrap; done).
  eapply okp_mono.
  { apply (collect_ok v (with_lm f m) h (Wfc (write_credits (cf_wfc f)) (u32 (ln_ipc l)))); try done.
    - by apply maps_ok_taken.
    - unfold cf_sp; simpl. change (free_total (with_lm f m)) with
        (zlen m.(free_line_list) * (cf_sp f).(pgs_per_line) + wp_free f USER_IO + wp_free f GC_IO).
      rewrite Efl. fold (free_total f). lia. }
  intros [[f2 h2] rc] (-> & Hf2 & Hm2 & Hsb & Ec & Ewf & Her & Eft & Htbl & Hadv).
  split; [done|]. split; [done|]. split; [done|]. split; [done|]. exists v. split; [done|]. split; [done|].
  split; try done.
  - rewrite Ewf. simpl. by rewrite Ew.
  - unfold cf_sp. lia.
  - assert (free_total (with_lm f m) = free_total f) as E0.
    { unfold free_total. simpl. by rewrite Efl. }
    rewrite E0 in Eft. rewrite Eft. unfold cf_sp; simpl. lia.
Qed.
End do_gc.

(** ** The write flow control

    [L] bounds the logical pages that are ever mapped. *)
Definition mapped_at (f : conv_ftl) (lpn : Z) : Prop :=
  exists p, f.(maptbl) !! lpn = Some p /\ mapped_ppa p = true.

Record part_inv `{ChanConfig} (L : Z) (f : conv_ftl) : Prop := {
  pk_ok : conv_ok None None f;
  pk_maps : maps_ok None [] None f;
  pk_cap lpn : mapped_at f lpn -> lpn < L;
  pk_over : 0 <= L < ((cf_sp f).(blks_per_pl) - 4) * (cf_sp f).(pgs_per_line);
  pk_thres : f.(cf_cp).(gc_thres_lines_high) = 2;
  pk_credits : 0 <= f.(cf_wfc).(write_credits);
  pk_refill : 0 < f.(cf_wfc).(credits_to_refill) <= (cf_sp f).(pgs_per_line);
  pk_flow : 2 * (cf_sp f).(pgs_per_line) + f.(cf_wfc).(write_credits) <= free_total f
}.

(** Between two host pages there is a credit for the next one. *)
Definition part_ok `{ChanConfig} (L : Z) (f : conv_ftl) : Prop :=
  part_inv L f /\ 0 < f.(cf_wfc).(write_credits).

Section flow.
Context `{CC : ChanConfig, CK : Clock}.

(** The full lines hold different logical pages, all below [L]. *)
Lemma full_lines_bound L f :
  conv_ok None None f -> maps_ok None [] None f -> (forall lpn, mapped_at f lpn -> lpn < L) ->
  zlen f.(cf_lm).(full_line_list) * (cf_sp f).(pgs_per_line) <= Z.max 0 L.
Proof.
  intros Hf Hm Hcap. pose proof (cv_dev _ _ _ Hf) as Hd. pose proof (do_params _ Hd) as Hp.
  remember (b ← f.(cf_lm).(full_line_list); (fun x => (b, x)) <$> coords (cf_sp f)) as pl eqn:Epl.
  assert (zlen pl = zlen f.(cf_lm).(full_line_list) * (cf_sp f).(pgs_per_line)) as <-.
  { subst pl. apply zlen_bind_const. intros b _. rewrite zlen_fmap. by apply zlen_coords. }
  pose proof (cv_mgmt _ _ _ Hf) as Hmg. pose proof (mo_nodup _ _ _ Hmg) as Hnd. unfold elsewhere in Hnd.
  apply NoDup_app in Hnd as (_ & _ & Hnd). apply NoDup_app in Hnd as (Hnd & _ & _).
  assert (NoDup pl) as Hpl.
  { subst pl. apply NoDup_bind_disjoint; [done| |].
    - intros b _. apply NoDup_fmap_2; [by intros ?? [=]|]. by apply NoDup_coords.
    - intros b b' z _ _ (x & -> & _)%list_elem_of_fmap (x' & [=] & _)%list_elem_of_fmap. done. }
  assert (forall z, z ∈ pl -> exists lpn, rmap_at f z.1 z.2 = Some lpn /\ f.(maptbl) !! lpn = Some (ppa_at z.1 z.2) /\
    0 <= lpn < L) as Hlpn.
  { intros [b x] Hz. subst pl. apply elem_of_bind_intro in Hz as (b' & Hz & Hb).
    apply list_elem_of_fmap in Hz as (x' & [= <- <-] & Hx). apply elem_of_coords in Hx; [|done].
    assert (at_page f b x) as Hat.
    { split; [|done]. apply (mo_range _ _ _ Hmg). unfold elsewhere. rewrite !elem_of_app. right; by left. }
    destruct (mp_bwd _ _ _ _ Hm b x Hat) as (lpn & _ & Hr & E).
    { split; [by apply (cv_full _ _ _ Hf)|]. by intros [? _]. }
    exists lpn. simpl. split; [done|]. split; [done|]. pose proof (zlookup_Some_range _ _ _ E).
    split; [lia|]. apply Hcap. exists (ppa_at b x). split; [done|]. by eapply mapped_ppa_at. }
  rewrite <- (zlen_fmap (fun z => default 0 (rmap_at f z.1 z.2)) pl). apply zlen_lines.
  - apply NoDup_fmap_2_strong; [|done]. intros z z' Hz Hz'.
    destruct (Hlpn z Hz) as (l & -> & E & _). destruct (Hlpn z' Hz') as (l' & -> & E' & _). simpl. intros ->.
    rewrite E in E'. injection E' as E'.
    assert (z.1 = z'.1 /\ z.2 = z'.2) as [? ?].
    { apply ppa_at_inj. unfold ppa_at. congruence. }
    destruct z, z'; simpl in *; congruence.
  - intros lpn (z & -> & Hz)%list_elem_of_fmap. destruct (Hlpn z Hz) as (l & -> & _ & Hl). done.
Qed.

Lemma held_zlen f : conv_ok None None f -> zlen (held None f) = 2.
Proof.
  intros Hf. destruct (cv_wp _ _ _ Hf USER_IO) as (b & Eb & _); [by left|].
  destruct (cv_wp _ _ _ Hf GC_IO) as (b' & Eb' & _); [by right|].
  unfold held, wp_of in *; simpl in *. by rewrite Eb, Eb'.
Qed.

(** With at most two free lines, some line waits for collection. *)
Lemma conv_ok_victim L f :
  conv_ok None None f -> maps_ok None [] None f -> (forall lpn, mapped_at f lpn -> lpn < L) ->
  0 <= L < ((cf_sp f).(blks_per_pl) - 4) * (cf_sp f).(pgs_per_line) ->
  f.(cf_lm).(free_line_cnt) <= 2 -> exists b, in_victims f.(cf_lm) b.
Proof.
  intros Hf Hm Hcap Hover Hfree. pose proof (cv_mgmt _ _ _ Hf) as Hmg.
  destruct (mo_pq _ _ _ Hmg) as (q & Eq & Hq & _). pose proof (mo_count _ _ _ _ Hmg Eq) as Hc.
  rewrite (held_zlen f Hf), <- (mo_free_cnt _ _ _ Hmg) in Hc.
  pose proof (full_lines_bound L f Hf Hm Hcap) as Hb. pose proof (pgs_per_line_ok _ (cv_dev _ _ _ Hf)) as HP.
  change (sd_sp (cf_ssd f)) with (cf_sp f) in HP. pose proof (zlen_nonneg f.(cf_lm).(full_line_list)).
  assert (zlen f.(cf_lm).(full_line_list) <= blks_per_pl (cf_sp f) - 5) by nia.
  pose proof (pq_range _ _ Hq). pose proof (pq_len _ _ Hq).
  destruct (zlookup_lt q.(pq_d) 1) as [b Eb]; [lia|]. exists b. unfold in_victims. rewrite Eq.
  exists 1. split; [lia|done].
Qed.
Lemma free_total_range f : conv_ok None None f -> 0 <= free_total f <= (cf_sp f).(tt_pgs).
Proof.
  intros Hf. pose proof (cv_dev _ _ _ Hf) as Hd. pose proof (do_params _ Hd) as Hp.
  pose proof (mo_cnt_bounds _ _ _ (cv_mgmt _ _ _ Hf)) as (H1 & H2 & H3 & H4).
  rewrite (held_zlen f Hf), (mo_free_cnt _ _ _ (cv_mgmt _ _ _ Hf)) in *.
  pose proof (wp_free_range f USER_IO Hd). pose proof (wp_free_range f GC_IO Hd).
  unfold cf_sp in *. rewrite (tt_pgs_line _ Hp (do_pls _ Hd)). unfold free_total, cf_sp. nia.
Qed.

Lemma cap_collected L v f f' :
  conv_ok None None f -> conv_ok None None f' -> collected v f f' ->
  (forall lpn, mapped_at f lpn -> lpn < L) -> forall lpn, mapped_at f' lpn -> lpn < L.
Proof.
  intros Hf Hf' [[(Esp & _) _] _ _ _ _ Htbl] Hcap lpn (p' & E' & Hp').
  destruct (zlookup_lt f.(maptbl) lpn) as [p E].
  { pose proof (zlookup_Some_range _ _ _ E'). rewrite (cv_maptbl _ _ _ Hf') in *. unfold cf_sp in *.
    rewrite Esp in *. by rewrite (cv_maptbl _ _ _ Hf). }
  apply Hcap. exists p. split; [done|]. destruct (Htbl lpn p E) as (p2 & E2 & [->|(_ & ? & _)]); congruence.
Qed.

(** The same logical pages are mapped. *)
Definition same_mapped (f f' : conv_ftl) : Prop := forall lpn, mapped_at f' lpn <-> mapped_at f lpn.

Lemma collected_mapped v f f' :
  conv_ok None None f -> conv_ok None None f' -> collected v f f' -> same_mapped f f'.
Proof.
  intros Hf Hf' [[(Esp & _) _] _ _ _ _ Htbl] lpn. split.
  - intros (p' & E' & Hp'). destruct (zlookup_lt f.(maptbl) lpn) as [p E].
    { pose proof (zlookup_Some_range _ _ _ E'). rewrite (cv_maptbl _ _ _ Hf') in *. unfold cf_sp in *.
      rewrite Esp in *. by rewrite (cv_maptbl _ _ _ Hf). }
    exists p. split; [done|]. destruct (Htbl lpn p E) as (p2 & E2 & [->|(_ & ? & _)]); congruence.
  - intros (p & E & Hp). destruct (Htbl lpn p E) as (p2 & E2 & [->|(_ & _ & ?)]); by eexists.
Qed.

(** Out of credits, the partition collects if few lines are free, and has
    credits again. *)
Lemma check_and_refill_ok L f h :
  part_inv L f -> link_ok f.(cf_ssd).(sd_pcie) h ->
  okp (check_and_refill_write_credit f h) (fun '(f', h') => part_ok L f' /\
    same_but f.(cf_ssd) f'.(cf_ssd) /\ hw_adv f.(cf_ssd).(sd_pcie) h h' /\ same_mapped f f').
Proof.
  intros [Hf Hm Hcap Hover Hth Hcr Hrf Hflow] Hl. unfold check_and_refill_write_credit.
  pose proof (pgs_per_line_ok _ (cv_dev _ _ _ Hf)) as HP. change (sd_sp (cf_ssd f)) with (cf_sp f) in HP.
  pose proof (free_total_range f Hf) as Hft. pose proof (po_total _ (do_params _ (cv_dev _ _ _ Hf))) as Htt.
  change (sd_sp (cf_ssd f)) with (cf_sp f) in Htt. destruct (Z.leb_spec (write_credits (cf_wfc f)) 0) as [Hc0|Hc0].
  2: { simpl. split; [split; [by split|lia]|]. split; [done|]. split; [by apply hw_adv_refl|done]. }
  unfold foreground_gc, should_gc_high. rewrite Hth.
  destruct (Z.leb_spec (free_line_cnt (cf_lm f)) 2) as [Hfl|Hfl].
  - destruct (conv_ok_victim L f Hf Hm Hcap Hover Hfl) as [b Hb].
    apply okp_bind. eapply okp_bind, okp_mono; [apply do_gc_ok; try done; [lia|by exists b]|].
    intros [[f' h'] rc] (_ & Hf' & Hm' & Hadv & v & _ & _ & Hcol). simpl.
    pose proof (cap_collected L v f f' Hf Hf' Hcol Hcap) as Hcap'.
    pose proof (collected_mapped v f f' Hf Hf' Hcol) as Hmp.
    destruct Hcol as [[Hsb Ec] [E1 E2] Hinv Eft Her Htbl]. pose proof Hsb as (Esp & _).
    split; [|done]. rewrite E1, E2. unwrap. split; [|simpl; lia]. split; unfold cf_sp in *; simpl; rewrite ?Esp, ?Ec; try done; try lia.
    + destruct Hf'; by split.
    + destruct Hm'; by split.
    + change (free_total (with_wfc f' _)) with (free_total f'). lia.
  - rewrite bind_Ok. unwrap. simpl. split; [|split; [done|split; [by apply hw_adv_refl|done]]].
    split; [|simpl; lia]. split; simpl; try done; try lia.
    + destruct Hf; by split.
    + destruct Hm; by split.
    + change (free_total (with_wfc f _)) with (free_total f). change (cf_sp (with_wfc f _)) with (cf_sp f).
      unfold free_total. rewrite <- (mo_free_cnt _ _ _ (cv_mgmt _ _ _ Hf)).
      pose proof (wp_free_range f USER_IO (cv_dev _ _ _ Hf)). pose proof (wp_free_range f GC_IO (cv_dev _ _ _ Hf)).
      nia.
Qed.
End flow.

(** ** The write pointer of the host *)

(** Runs a function down to its results; what it returned before is kept by name. *)
Ltac retp_run := repeat first
  [ progress cbv zeta
  | apply retp_bind; intros ? ?
  | apply retp_Ok
  | apply retp_Fault
  | match goal with
    | |- retp (match ?x with _ => _ end) _ => destruct x
    end ].

Section cursor.
Context `{CC : ChanConfig, CK : Clock}.

(** The collector has a write pointer of its own. *)
Definition same_wp (f f' : conv_ftl) : Prop := f'.(cf_wp) = f.(cf_wp).

Lemma advance_gc_wp f : retp (advance_write_pointer f GC_IO) (same_wp f).
Proof using. unfold advance_write_pointer. retp_run; done. Qed.

Lemma advance_nand_wp f cmd h : retp (advance_nand f cmd h) (fun '(f', _, _) => same_wp f f').
Proof using. unfold advance_nand. retp_run. done. Qed.

Lemma mark_page_valid_wp f p : retp (mark_page_valid f p) (same_wp f).
Proof using. unfold mark_page_valid. retp_run. done. Qed.
Lemma mark_page_invalid_wp f p : retp (mark_page_invalid f p) (same_wp f).
Proof using. unfold mark_page_invalid. retp_run. done. Qed.
Lemma set_maptbl_wp f lpn p : retp (set_maptbl_ent f lpn p) (same_wp f).
Proof using. unfold set_maptbl_ent. retp_run. done. Qed.
Lemma set_rmap_wp f lpn p : retp (set_rmap_ent f lpn p) (same_wp f).
Proof using. unfold set_rmap_ent. retp_run. done. Qed.

(** Where a collection takes its time. *)
Lemma delayed_nand_wp (delay : bool) f cmd h :
  retp (if delay then '(f, h, _) ← advance_nand f cmd h; Ok (f, h) else Ok (f, h)) (fun '(f', _) => same_wp f f').
Proof using.
  destruct delay; [|by apply retp_Ok]. apply retp_bind. eapply retp_mono; [apply advance_nand_wp|]. intros [[f' h'] t] H. by apply retp_Ok.
Qed.

Lemma gc_write_page_wp f p h : retp (gc_write_page f p h) (fun '(f', _) => same_wp f f').
Proof using.
  unfold gc_write_page. cbv zeta. apply retp_bind. intros lpn _. apply retp_bind. intros _ _. apply retp_bind. intros q _.
  apply retp_bind. intros f1 E1%set_maptbl_wp. apply retp_bind. intros f2 E2%set_rmap_wp.
  apply retp_bind. intros f3 E3%mark_page_valid_wp. apply retp_bind. intros f4 E4%advance_gc_wp. unfold same_wp in *.
  destruct (enable_gc_delay _); [|apply retp_Ok; congruence]. apply retp_bind. intros lp _.
  apply retp_bind. intros [[f5 h5] t] E5%advance_nand_wp. apply retp_Ok. unfold same_wp in *. congruence.
Qed.

Lemma clean_one_flashpg_wp f p h : retp (clean_one_flashpg f p h) (fun '(f', _) => same_wp f f').
Proof using.
  unfold clean_one_flashpg. cbv zeta. apply retp_bind. intros cnt _. destruct (cnt <=? 0); [by apply retp_Ok|]. apply retp_bind.
  intros [f1 h1] E1. assert (same_wp f f1) as H1.
  { exact (delayed_nand_wp _ _ _ _ _ E1). }
  apply (retp_rfold _ (fun '(f', _) => same_wp f f')); [done|]. intros i [f2 h2] H2. unfold move_page.
  apply retp_bind. intros g _. destruct (_ =? PG_VALID); [|by apply retp_Ok].
  eapply retp_mono; [apply gc_write_page_wp|]. intros [f3 h3]. unfold same_wp in *. congruence.
Qed.

Lemma erase_block_wp f p h : retp (erase_block f p h) (fun '(f', _) => same_wp f f').
Proof using.
  unfold erase_block. apply retp_bind. intros f1 E1. assert (same_wp f f1) as H1.
  { revert f1 E1. change (retp (mark_block_free f p) (same_wp f)). unfold mark_block_free. retp_run. done. }
  apply retp_bind. intros [f2 h2] E2. assert (same_wp f f2) as H2.
  { pose proof (delayed_nand_wp _ _ _ _ _ E2) as H2. unfold same_wp in *. cbn in H2. congruence. }
  retp_run. done.
Qed.

Lemma gc_step_wp victim i ch lun f h : retp (gc_step victim i ch lun (f, h)) (fun '(f', _) => same_wp f f').
Proof using.
  unfold gc_step. cbv zeta. apply retp_bind. intros l _. apply retp_bind. intros [f1 h1] H1%clean_one_flashpg_wp.
  destruct (i =? _); [|by apply retp_Ok]. eapply retp_mono; [apply erase_block_wp|]. intros [f2 h2]. unfold same_wp in *. congruence.
Qed.

Lemma do_gc_wp f force h : retp (do_gc f force h) (fun '(f', _, _) => same_wp f f').
Proof using.
  unfold do_gc. apply retp_bind. intros [f1 victim] E1. assert (same_wp f f1) as H1.
  { assert (retp (select_victim_line f force) (fun '(f', _) => same_wp f f')) as H by (unfold select_victim_line; retp_run; done).
    exact (H _ E1). }
  destruct victim as [id|]; [|by apply retp_Ok]. apply retp_bind. intros l _. cbv zeta. apply retp_bind. intros [f2 h2] E2.
  assert (same_wp f f2) as H2.
  { assert (retp (gc_loops (ln_id l) (with_wfc f1 (Wfc (write_credits (cf_wfc f1)) (u32 (ln_ipc l)))) h) (fun '(f', _) => same_wp f f')) as H.
    { unfold gc_loops. cbv zeta. do 3 (apply (retp_rfold _ (fun '(f', _) => same_wp f f')); [done|intros ? [? ?] ?]).
      eapply retp_mono; [apply gc_step_wp|]. intros [f4 h4]. unfold same_wp in *. congruence. }
    exact (H _ E2). }
  apply retp_bind. intros f3 E3. apply retp_Ok. revert f3 E3. change (retp (mark_line_free f2 (gc_ppa (ln_id l) 0 0 0)) (same_wp f)).
  unfold mark_line_free. retp_run. done.
Qed.

Lemma refill_wp f h : retp (check_and_refill_write_credit f h) (fun '(f', _) => same_wp f f').
Proof using.
  unfold check_and_refill_write_credit, foreground_gc. destruct (_ <=? 0); [|by apply retp_Ok]. apply retp_bind. intros [f1 h1] E.
  apply retp_Ok. change (same_wp f f1). revert E. destruct (should_gc_high f); [|by intros [= <- <-]]. intros E.
  refine (retp_bind (do_gc _ _ _) _ (fun '(f', _) => same_wp f f') _ _ E). eapply retp_mono; [apply do_gc_wp|].
  intros [[f' h'] r] H. by apply retp_Ok.
Qed.

(** How many pages of its current one-shot page the host's write pointer has
    passed, and whether the next page is the last one. *)
Definition unfinished (f : conv_ftl) : Z := f.(cf_wp).(wp_pg) `mod` (cf_sp f).(pgs_per_oneshotpg).
Definition completes (sp : ssdparams) (u : Z) : bool := (u + 1) `mod` sp.(pgs_per_oneshotpg) =? 0.

Lemma advance_user_wp f : let o := (cf_sp f).(pgs_per_oneshotpg) in
  0 < o <= 65536 -> 0 <= f.(cf_wp).(wp_pg) < 65536 -> (o | (cf_sp f).(pgs_per_blk)) ->
  retp (advance_write_pointer f USER_IO) (fun f' => cf_sp f' = cf_sp f /\ unfinished f' = (unfinished f + 1) `mod` o).
Proof using.
  intros o Ho Hpg Hdiv. unfold unfinished. fold o. rewrite Zplus_mod_idemp_l. set (g := wp_pg (cf_wp f)) in *.
  assert (forall f', cf_sp f' = cf_sp f -> f'.(cf_wp).(wp_pg) `mod` o = (g + 1) `mod` o ->
    cf_sp f' = cf_sp f /\ (wp_pg (cf_wp f') `mod` pgs_per_oneshotpg (cf_sp f') = (g + 1) `mod` o)) as H by (intros f' E1 E2; rewrite E1; fold o; by rewrite E2).
  unfold advance_write_pointer. apply retp_bind. intros wp Ew. injection Ew as <-. cbv zeta. fold g.
  rewrite (u32_small (g + 1)) by lia. apply retp_bind. intros _ _. apply retp_bind. intros r Er.
  assert (r = (g + 1) `mod` o) as -> by (revert Er; unfold cmod; fold o; rewrite (proj2 (Z.eqb_neq o 0)) by lia; by intros [= <-]).
  destruct (Z.eqb_spec ((g + 1) `mod` o) 0) as [E|E]; cbn [negb]; [|by apply retp_Ok, H].
  fold o. assert (0 <= g + 1 - o) as Hge by (apply Z.mod_divide in E as [q Eq]; [|lia]; assert (0 < q) by nia; nia). rewrite (u32_small (g + 1 - o)) by lia.
  assert ((g + 1 - o) `mod` o = (g + 1) `mod` o) as Em by (rewrite <- (Z.mod_add (g + 1 - o) 1 o) by lia; f_equal; lia).
  apply retp_bind. intros _ _. destruct (negb _); [by apply retp_Ok, H|]. apply retp_bind. intros _ _. destruct (negb _); [by apply retp_Ok, H|].
  replace (g + 1 - o + o) with (g + 1) by lia. rewrite (u32_small (g + 1)) by lia. destruct (negb _); [by apply retp_Ok, H|].
  assert (0 `mod` o = (g + 1) `mod` o) as E0 by (by rewrite E, Z.mod_0_l by lia). retp_run; by apply H.
Qed.

Lemma write_page_wp f lpn : let o := (cf_sp f).(pgs_per_oneshotpg) in
  0 < o <= 65536 -> 0 <= f.(cf_wp).(wp_pg) < 65536 -> (o | (cf_sp f).(pgs_per_blk)) ->
  retp (write_page f lpn) (fun '(f', p) => cf_sp f' = cf_sp f ->
    unfinished f' = (unfinished f + 1) `mod` o /\ p.(p_pg) = f.(cf_wp).(wp_pg)).
Proof using.
  intros o Ho Hpg Hdiv. unfold write_page. apply retp_bind. intros q _. apply retp_bind. intros f0 E0.
  assert (same_wp f f0) as H0.
  { revert f0 E0. change (retp (if mapped_ppa q then f0 ← mark_page_invalid f q; set_rmap_ent f0 INVALID_LPN q else Ok f) (same_wp f)).
    destruct (mapped_ppa q); [|by apply retp_Ok]. apply retp_bind. intros f1 E1%mark_page_invalid_wp.
    eapply retp_mono; [apply set_rmap_wp|]. unfold same_wp in *. congruence. }
  apply retp_bind. intros p Ep. apply retp_bind. intros f1 E1%set_maptbl_wp. apply retp_bind. intros f2 E2%set_rmap_wp.
  apply retp_bind. intros f3 E3%mark_page_valid_wp. apply retp_bind. intros f4 E4. apply retp_Ok. intros Esp.
  assert (same_wp f f3) as Ew by (unfold same_wp in *; congruence). unfold same_wp in *.
  assert (p.(p_pg) = f.(cf_wp).(wp_pg)) as Hp.
  { revert Ep. unfold get_new_page. change (__get_wp f0 USER_IO) with (Ok f0.(cf_wp)). rewrite bind_Ok. cbv zeta. unfold nvmev_assert. destruct (_ =? 0); [|done].
    rewrite bind_Ok. intros [= <-]. simpl. rewrite H0. by apply Z.mod_small. }
  split; [|done]. assert (cf_sp f3 = cf_sp f) as Esp3.
  { rewrite <- Esp. symmetry. revert f4 E4 Esp. clear. intros f4 E4 _. revert f4 E4.
    change (retp (advance_write_pointer f3 USER_IO) (fun f' => cf_sp f' = cf_sp f3)). unfold advance_write_pointer. retp_run; done. }
  pose proof (advance_user_wp f3) as H. cbv zeta in H. rewrite Esp3, Ew in H. destruct (H Ho Hpg Hdiv _ E4) as [_ H4].
  rewrite H4. unfold unfinished. by rewrite Esp3, Ew.
Qed.

(** The write pointer is inside its block, and one-shot pages fill a block. *)
Lemma host_cursor f : conv_ok None None f -> let o := (cf_sp f).(pgs_per_oneshotpg) in
  0 < o <= 65536 /\ 0 <= f.(cf_wp).(wp_pg) < 65536 /\ (o | (cf_sp f).(pgs_per_blk)).
Proof using.
  intros Hf. pose proof (do_params _ (cv_dev _ _ _ Hf)) as Hp. destruct (cv_wp _ _ _ Hf USER_IO ltac:(by left)) as (b & _ & _ & _ & (_ & _ & Hg) & _).
  change (sd_sp (cf_ssd f)) with (cf_sp f) in *. change (wp_of f USER_IO) with (cf_wp f) in Hg. unfold cursor, c_pg in Hg. simpl in Hg.
  pose proof (po_pgs _ Hp). pose proof (po_oneshot _ Hp). pose proof (po_blk_oneshot _ Hp) as Eb. pose proof (po_oneshots _ Hp).
  change (sd_sp (cf_ssd f)) with (cf_sp f) in *. intros o. split; [unfold o; nia|]. split; [lia|]. exists (oneshotpgs_per_blk (cf_sp f)). unfold o. lia.
Qed.

Lemma last_pg_completes f f1 p : conv_ok None None f -> cf_sp f1 = cf_sp f -> p.(p_pg) = f.(cf_wp).(wp_pg) ->
  last_pg_in_wordline f1 p = Ok (completes (cf_sp f) (unfinished f)).
Proof using.
  intros Hf Esp Ep. destruct (host_cursor f Hf) as (Ho & _ & _). unfold last_pg_in_wordline, completes, unfinished. rewrite Esp, Ep.
  set (o := pgs_per_oneshotpg (cf_sp f)) in *. rewrite cmod_ok, bind_Ok by lia. f_equal.
  pose proof (Z.mod_pos_bound (wp_pg (cf_wp f)) o ltac:(lia)) as Hu. set (u := wp_pg (cf_wp f) `mod` o) in *.
  destruct (Z.eqb_spec u (o - 1)) as [->|Hne].
  - replace (o - 1 + 1) with o by lia. by rewrite Z.mod_same by lia.
  - rewrite Z.mod_small by lia. symmetry. apply Z.eqb_neq. lia.
Qed.
End cursor.

(** ** One page of a host write *)

(** The release of a one-shot page from the write buffer. *)
Definition releases (sp : ssdparams) (sqid : Z) (wbuf : option Z) (op : internal_op) : Prop :=
  op.(io_sqid) = sqid /\ op.(io_buffer) = wbuf /\ op.(io_buffs) = sp.(pgs_per_oneshotpg) * sp.(pgsz).

Section write.
Context `{CC : ChanConfig, CK : Clock}.

Lemma part_inv_ticked L f f' : part_inv L f -> ticked f f' -> part_inv L f'.
Proof.
  intros [H1 H2 H3 H4 H5 H6 H7 H8] Ht. pose proof (ticked_sp _ _ Ht) as Esp.
  destruct (ticked_same _ _ Ht) as (_ & Ec & Em & _ & Ew).
  split; rewrite ?Esp, ?Ec, ?Ew, ?(ticked_free_total _ _ Ht); try done.
  - by eapply ticked_conv_ok.
  - by eapply ticked_maps_ok.
  - intros lpn. unfold mapped_at. rewrite Em. apply H3.
Qed.

(** [lpn] is mapped, and the other logical pages are as they were. *)
Definition mapped_too (lpn : Z) (f f' : conv_ftl) : Prop :=
  forall l, mapped_at f' l <-> l = lpn \/ mapped_at f l.

Lemma write_page_inv L f lpn :
  part_ok L f -> 0 <= lpn < L ->
  okp (write_page f lpn) (fun '(f', p) => part_inv L (consume_write_credit f') /\
    same_but f.(cf_ssd) f'.(cf_ssd) /\ in_dev (cf_sp f) p /\ mapped_too lpn f f' /\ page_written f f' lpn p).
Proof.
  intros [[Hf Hm Hcap Hover Hth Hcr Hrf Hflow] Hpos] Hlpn. pose proof (cv_dev _ _ _ Hf) as Hd.
  pose proof (do_params _ Hd) as Hp. pose proof (pgs_per_line_ok _ Hd) as HP.
  change (sd_sp (cf_ssd f)) with (cf_sp f) in HP, Hp.
  assert ((cf_sp f).(tt_pgs) = blks_per_pl (cf_sp f) * pgs_per_line (cf_sp f)) as Ett
    by (apply tt_pgs_line; [done|apply (do_pls _ Hd)]).
  assert (0 <= lpn < (cf_sp f).(tt_pgs)) as Hlt by nia.
  eapply okp_mono; [apply write_page_ok; [done|done|done|lia]|].
  intros [f' p] (Hf' & Hm' & Hsb & Ec & Ew & Eft & Hpw & b & x & -> & Hbx). pose proof Hsb as (Esp & _).
  assert (mapped_too lpn f f') as Hmt.
  { intros l. destruct Hpw as (_ & _ & _ & _ & _ & Em & _). unfold mapped_at. rewrite Em. split.
    - intros (q & E & Hq). destruct (decide (l = lpn)) as [|Hl]; [by left|right].
      rewrite zlookup_zinsert_ne in E by congruence. by exists q.
    - intros Hl. destruct (decide (l = lpn)) as [->|Hne].
      + exists (ppa_at b x). split; [|by eapply mapped_ppa_at].
        apply zlookup_zinsert_eq. rewrite (cv_maptbl _ _ _ Hf). lia.
      + destruct Hl as [|(q & E & Hq)]; [done|]. exists q. by rewrite zlookup_zinsert_ne by congruence. }
  pose proof (free_total_range f Hf) as Hft. pose proof (po_total _ Hp).
  split; [|split; [done|split; [by apply in_dev_at|split; [exact Hmt|done]]]].
  unfold consume_write_credit. rewrite Ew. unwrap.
  split; unfold cf_sp in *; simpl; rewrite ?Esp, ?Ec; try done; try lia.
  - destruct Hf'; by split.
  - destruct Hm'; by split.
  - intros l Hl. destruct (proj1 (Hmt l) Hl) as [->|Hl']; [lia|by apply Hcap].
  - change (free_total (with_wfc f' _)) with (free_total f'). lia.
Qed.

Lemma write_lpn_ok L f h sqid wbuf stime lpn latest :
  part_ok L f -> 0 <= lpn < L -> link_ok f.(cf_ssd).(sd_pcie) h ->
  let n := if completes (cf_sp f) (unfinished f) then 1%nat else 0%nat in
  okp (write_lpn (cf_sp f) sqid wbuf stime lpn f h latest) (fun '(f', h', _) =>
    part_ok L f' /\ same_but f.(cf_ssd) f'.(cf_ssd) /\ mapped_too lpn f f' /\
    hw_wrote (releases (cf_sp f) sqid wbuf) n f.(cf_ssd).(sd_pcie) h h' /\
    unfinished f' = (unfinished f + 1) `mod` (cf_sp f).(pgs_per_oneshotpg)).
Proof.
  intros Hpk Hlpn Hl n. unfold write_lpn. pose proof (pk_ok _ _ (proj1 Hpk)) as Hf0. destruct (host_cursor f Hf0) as (Ho & Hg & Hdiv).
  apply okp_bind. eapply okp_mono; [apply okp_with; [by apply (write_page_inv L)|by apply (write_page_wp f lpn)]|].
  intros [f1 p] [(Hinv & Hsb & Hin & Hmt & _) Hcur]. pose proof Hsb as (Esp & Epc & _). destruct (Hcur Esp) as [Hun Hpp].
  pose proof (pk_ok _ _ Hinv) as Hf1. pose proof (cv_dev _ _ _ Hf1) as Hd1.
  change (cf_ssd (consume_write_credit f1)) with (cf_ssd f1) in Hd1.
  assert (conv_ok None None f1) as Hf1' by (destruct Hf1; by split).
  rewrite (last_pg_completes f f1 p Hf0 Esp Hpp), bind_Ok.
  assert (forall f2 h2 (t2 : Z), ticked f1 f2 -> hw_wrote (releases (cf_sp f) sqid wbuf) n f.(cf_ssd).(sd_pcie) h h2 ->
    okp ('(f, h) ← check_and_refill_write_credit (consume_write_credit f2) h2; Ok (f, h, t2))
      (fun '(f', h', _) => part_ok L f' /\ same_but f.(cf_ssd) f'.(cf_ssd) /\ mapped_too lpn f f' /\
        hw_wrote (releases (cf_sp f) sqid wbuf) n f.(cf_ssd).(sd_pcie) h h' /\
        unfinished f' = (unfinished f + 1) `mod` (cf_sp f).(pgs_per_oneshotpg))) as Hend.
  { intros f2 h2 t2 Ht Hw. destruct (ticked_same _ _ Ht) as (Hsb2 & _ & Em2 & _ & _).
    assert (part_inv L (consume_write_credit f2)) as Hinv2.
    { eapply part_inv_ticked; [exact Hinv|]. destruct Ht as (s & -> & Hs & Hn). by exists s. }
    assert (f2.(cf_ssd).(sd_pcie) = f.(cf_ssd).(sd_pcie)) as Epc2 by (destruct Hsb2 as (_ & -> & _); done).
    apply okp_bind. eapply okp_mono.
    { apply okp_with; [apply (check_and_refill_ok L); [exact Hinv2|]; simpl; rewrite Epc2; apply Hw|apply refill_wp]. }
    intros [f3 h3] [(Hpk3 & Hsb3 & Hadv & Hsm) Hwp]. simpl in *. split; [done|].
    assert (same_but f.(cf_ssd) f3.(cf_ssd)) as Hsb' by (by do 2 (eapply same_but_trans; [done|])). split; [done|]. split; [|split].
    - intros l. rewrite (Hsm l). unfold mapped_at; simpl. rewrite Em2. apply Hmt.
    - rewrite <- (Nat.add_0_r n). apply (hw_wrote_trans _ n 0 _ _ _ _ Hw). apply hw_adv_wrote. by rewrite <- Epc2.
    - rewrite <- Hun. destruct (ticked_same _ _ Ht) as (_ & _ & _ & _ & _). unfold unfinished, same_wp in *. simpl in Hwp.
      assert (cf_sp f3 = cf_sp f1) as -> by (unfold cf_sp; by rewrite (proj1 Hsb'), Esp). rewrite Hwp. f_equal.
      destruct Ht as (s & -> & _). done. }
  unfold n. destruct (completes (cf_sp f) (unfinished f)) eqn:Ec; fold n.
  2: { rewrite bind_Ok. apply Hend; [by apply ticked_refl|by apply hw_wrote_refl]. }
  apply okp_bind, (advance_nand_ok None None); [done|by rewrite Epc| |done|].
  { unfold cf_sp in *. simpl. by rewrite Esp. }
  intros f2 h2 t2 Ht Hadv. apply Hend; [done|]. rewrite Epc in Hadv.
  pose proof (hw_adv_wrote (releases (cf_sp f) sqid wbuf) _ _ _ Hadv) as (A1 & A2 & A3 & A4 & A5 & ops & A6 & A7 & A8).
  repeat split; simpl; try done. exists (ops ++ [InternalOp sqid t2 wbuf
    (u64 (s32 ((cf_sp f).(pgs_per_oneshotpg) * (cf_sp f).(pgsz))))]).
  rewrite A6, app_assoc, length_app. split; [done|]. split; [|simpl; lia]. apply Forall_app. split; [done|]. constructor; [|constructor].
  destruct Hpk as [[Hf _ _ _ _ _ _ _] _]. pose proof (do_params _ (cv_dev _ _ _ Hf)) as Hp.
  pose proof (po_pgs _ Hp). pose proof (po_blk_oneshot _ Hp). pose proof (po_oneshots _ Hp). pose proof (po_pgsz _ Hp).
  unfold cf_sp. rewrite (po_pgsz _ Hp). repeat split; simpl. unwrap. rewrite (po_pgsz _ Hp). nia.
Qed.
End write.
