(* ===== verification/ConvNs.v ===== *)
(** * The commands of the conventional namespace

    A namespace is [cn_nr_parts] partitions that share the link and the write
    buffer of partition 0; page [lpn] of the namespace is page [lpn / nr] of
    partition [lpn % nr].  [ns_ok L] is [part_ok L] on every partition; a write
    within [L * nr] pages keeps it and schedules a release for each one-shot page
    that it fills, a read and a flush only move clocks. *)

From stdpp Require Import prelude list list_tactics.
From Stdlib Require Import ZArith Lia.
From S2P Require Import Prelude ChannelModel Pqueue SsdConfig Ssd ConvFtl ConvInv ConvState ConvStep ConvMaps.
From S2P Require Import ConvGc ConvWrite.

Record ns_ok `{ChanConfig} (L : Z) (sp : ssdparams) (pc wb : option Z) (ns : conv_ns) : Prop := {
  no_nr : 0 < ns.(cn_nr_parts) /\ zlen ns.(cn_ftls) = ns.(cn_nr_parts);
  no_part i f : ns.(cn_ftls) !! i = Some f ->
    part_ok L f /\ cf_sp f = sp /\ f.(cf_ssd).(sd_pcie) = pc /\ f.(cf_ssd).(sd_write_buffer) = wb
}.

(** The page [lpn] of the namespace is mapped. *)
Definition ns_mapped (ns : conv_ns) (lpn : Z) : Prop :=
  exists f, ns.(cn_ftls) !! (lpn `mod` ns.(cn_nr_parts)) = Some f /\
    mapped_at f (lpn `div` ns.(cn_nr_parts)).

(** ** The releases of a write

    The pages of a write go to the partitions in turn; a partition gives a one-shot
    page of the write buffer back when its write pointer has passed all of its pages. *)

(** The pages that partition [p] has of a one-shot page that is not full yet. *)
Definition ns_unfinished (ns : conv_ns) (p : Z) : Z :=
  match ns.(cn_ftls) !! p with Some f => unfinished f | None => 0 end.

(** The pages [lo .. hi - 1] that go to partition [p]. *)
Definition pages_of (nr p lo hi : Z) : Z := zcount (fun l => l `mod` nr =? p) (zrange lo hi).

(** A write that starts at page [lo] fills a one-shot page with page [lpn]. *)
Definition finishes (sp : ssdparams) (ns : conv_ns) (lo lpn : Z) : bool :=
  let p := lpn `mod` ns.(cn_nr_parts) in
  completes sp (ns_unfinished ns p + pages_of ns.(cn_nr_parts) p lo lpn).

Lemma completes_mod sp u : completes sp (u `mod` sp.(pgs_per_oneshotpg)) = completes sp u.
Proof. unfold completes. by rewrite Zplus_mod_idemp_l. Qed.

Lemma pages_of_S nr p lo i : lo <= i -> pages_of nr p lo (i + 1) = pages_of nr p lo i + (if i `mod` nr =? p then 1 else 0).
Proof. intros Hi. unfold pages_of. rewrite zrange_snoc, zcount_app by done. simpl. destruct (_ =? p); simpl; lia. Qed.

(** The parts of a namespace other than its partitions. *)
Definition same_ns (ns ns' : conv_ns) : Prop :=
  ns'.(cn_id) = ns.(cn_id) /\ ns'.(cn_csi) = ns.(cn_csi) /\ ns'.(cn_size) = ns.(cn_size) /\
  ns'.(cn_nr_parts) = ns.(cn_nr_parts) /\ ns'.(cn_mapped) = ns.(cn_mapped).

Section ns.
Context `{SC : SsdConfig, CC : ChanConfig, CK : Clock}.
Context (L : Z) (sp : ssdparams) (pc wb : option Z).

Definition with_ftls (ns : conv_ns) (ftls : list conv_ftl) : conv_ns :=
  ConvNs ns.(cn_id) ns.(cn_csi) ns.(cn_size) ns.(cn_nr_parts) ftls ns.(cn_mapped).

(** Replacing one partition by one that is as good. *)
Lemma ns_ok_insert ns p f f' :
  ns_ok L sp pc wb ns -> ns.(cn_ftls) !! p = Some f -> part_ok L f' -> same_but f.(cf_ssd) f'.(cf_ssd) ->
  ns_ok L sp pc wb (with_ftls ns (<[p := f']> ns.(cn_ftls))).
Proof.
  intros [Hnr Hpart] Ef Hf' (Esp & Epc & Ewb & _). split; simpl; [by rewrite zlen_zinsert|].
  intros i g Eg. rewrite zlookup_zinsert in Eg by (by eapply zlookup_Some_range).
  case_decide as Hi; [|by apply Hpart in Eg]. injection Eg as <-.
  destruct (Hpart p f Ef) as (_ & E1 & E2 & E3). split; [done|]. unfold cf_sp in *. by rewrite Esp, Epc, Ewb.
Qed.

Lemma ns_part ns p : ns_ok L sp pc wb ns -> 0 <= p < ns.(cn_nr_parts) ->
  exists f, ns.(cn_ftls) !! p = Some f /\ part_ok L f /\ cf_sp f = sp /\ f.(cf_ssd).(sd_pcie) = pc /\
    f.(cf_ssd).(sd_write_buffer) = wb.
Proof.
  intros [[Hnr Hlen] Hpart] Hp. destruct (zlookup_lt ns.(cn_ftls) p) as [f Ef]; [lia|].
  exists f. split; [done|by eapply Hpart].
Qed.

Lemma ns_params ns : ns_ok L sp pc wb ns -> params_ok sp.
Proof.
  intros Hns. pose proof (no_nr _ _ _ _ _ Hns) as [Hnr _].
  destruct (ns_part ns 0 Hns) as (f & _ & [[Hf _ _ _ _ _ _ _] _] & <- & _); [lia|].
  apply (cv_dev _ _ _ Hf).
Qed.

(** ** Write *)

(** The body of the write loop for the pages of one command. *)
Definition write_body (sqid stime lpn : Z) (ns : conv_ns) : list conv_ftl * hw * Z -> res (list conv_ftl * hw * Z) :=
  fun '(ftls, h, latest) =>
    p ← cmod lpn ns.(cn_nr_parts);
    f ← aget ftls p;
    local_lpn ← cdiv lpn ns.(cn_nr_parts);
    '(f, h, latest) ← write_lpn sp sqid wb stime local_lpn f h latest;
    Ok (<[p := f]> ftls, h, latest).

Lemma write_body_ok ns sqid stime lpn ftls h latest :
  ns_ok L sp pc wb (with_ftls ns ftls) -> link_ok pc h ->
  0 <= lpn -> lpn `div` ns.(cn_nr_parts) < L ->
  okp (write_body sqid stime lpn ns (ftls, h, latest)) (fun '(ftls', h', _) =>
    ns_ok L sp pc wb (with_ftls ns ftls') /\
    let p := lpn `mod` ns.(cn_nr_parts) in let u := ns_unfinished (with_ftls ns ftls) in
    hw_wrote (releases sp sqid wb) (if completes sp (u p) then 1 else 0) pc h h' /\
    (forall q, ns_unfinished (with_ftls ns ftls') q = if decide (q = p) then (u p + 1) `mod` sp.(pgs_per_oneshotpg) else u q) /\
    forall l, 0 <= l -> ns_mapped (with_ftls ns ftls') l <-> l = lpn \/ ns_mapped (with_ftls ns ftls) l).
Proof.
  intros Hns Hl Hlpn HL. pose proof (no_nr _ _ _ _ _ Hns) as [Hnr Hlen]. simpl in Hnr, Hlen.
  pose proof (Z.mod_pos_bound lpn (cn_nr_parts ns) Hnr) as Hmod. unfold write_body.
  rewrite cmod_ok, bind_Ok by lia.
  destruct (ns_part _ (lpn `mod` cn_nr_parts ns) Hns Hmod) as (f & Ef & Hpk & Esp & Epc & Ewb). simpl in Ef.
  rewrite (aget_Some _ _ _ Ef), bind_Ok, cdiv_ok, bind_Ok by lia.
  assert (0 <= lpn `div` cn_nr_parts ns) by (apply Z.div_pos; lia).
  apply okp_bind. rewrite <- Esp. eapply okp_mono; [apply (write_lpn_ok L); [done|lia|by rewrite Epc]|].
  intros [[f' h'] t'] (Hpk' & Hsb & Hmt & Hw & Hu). cbv zeta. simpl. rewrite Epc in Hw. rewrite Esp in *.
  assert (ns_unfinished (with_ftls ns ftls) (lpn `mod` cn_nr_parts ns) = unfinished f) as Eu by (unfold ns_unfinished; simpl; by rewrite Ef).
  split; [by apply (ns_ok_insert (with_ftls ns ftls) _ f)|]. rewrite Eu. split; [done|]. split.
  { intros q. unfold ns_unfinished. simpl. rewrite zlookup_zinsert by (by eapply zlookup_Some_range).
    destruct (decide (lpn `mod` cn_nr_parts ns = q)) as [<-|]; [by rewrite decide_True|by rewrite decide_False by congruence]. }
  intros l Hl0. unfold ns_mapped; simpl.
  rewrite zlookup_zinsert by (by eapply zlookup_Some_range).
  pose proof (Z.div_mod l (cn_nr_parts ns) ltac:(lia)) as El.
  pose proof (Z.div_mod lpn (cn_nr_parts ns) ltac:(lia)) as Elpn.
  destruct (decide (lpn `mod` cn_nr_parts ns = l `mod` cn_nr_parts ns)) as [Em|Em].
  - rewrite <- Em, Ef. split.
    + intros (g & [= <-] & Hg). apply Hmt in Hg as [Hg|Hg]; [left; congruence|right; by exists f].
    + intros [->|(g & [= <-] & Hg)]; (eexists; split; [done|]); apply Hmt; [by left|by right].
  - split; [by right|]. intros [->|?]; done.
Qed.

(** The pages of a request. *)
Definition first_page (req : nvmev_request) : Z := req.(rq_cmd).(rw_slba) `div` sp.(secs_per_pg).
Definition last_page_of (req : nvmev_request) : Z :=
  (req.(rq_cmd).(rw_slba) + req.(rq_cmd).(rw_length)) `div` sp.(secs_per_pg).

(** A request whose blocks are numbered without wrap-around. *)
Definition req_ok (req : nvmev_request) : Prop :=
  0 <= req.(rq_cmd).(rw_slba) /\ 0 <= req.(rq_cmd).(rw_length) /\
  req.(rq_cmd).(rw_slba) + req.(rq_cmd).(rw_length) + 1 < 18446744073709551616.

Lemma req_last req : req_ok req ->
  u64 (u64 (rw_slba (rq_cmd req) + (rw_length (rq_cmd req) + 1)) - 1) =
  rw_slba (rq_cmd req) + rw_length (rq_cmd req).
Proof. intros (H1 & H2 & H3). unwrap. lia. Qed.

Lemma req_pages req : params_ok sp -> req_ok req -> 0 <= first_page req <= last_page_of req.
Proof.
  intros Hp (H1 & H2 & H3). pose proof (po_secs _ Hp) as [[Hs _] _]. unfold first_page, last_page_of.
  split; [apply Z.div_pos; lia|apply Z.div_le_mono; lia].
Qed.

(** The write of the pages from [lo] to before [i], from the namespace [ns] and the store [h]. *)
Record wrote (ns : conv_ns) (h : hw) (sqid lo i : Z) (ns' : conv_ns) (h' : hw) : Prop := {
  wr_ok : ns_ok L sp pc wb ns';
  wr_hw : hw_wrote (releases sp sqid wb) (Z.to_nat (zcount (finishes sp ns lo) (zrange lo i))) pc h h';
  wr_unfinished p : 0 <= p < ns.(cn_nr_parts) ->
    ns_unfinished ns' p = (ns_unfinished ns p + pages_of ns.(cn_nr_parts) p lo i) `mod` sp.(pgs_per_oneshotpg);
  wr_mapped l : 0 <= l -> ns_mapped ns' l <-> lo <= l < i \/ ns_mapped ns l
}.

Lemma wrote_nothing ns h sqid lo : ns_ok L sp pc wb ns -> link_ok pc h -> wrote ns h sqid lo lo ns h.
Proof.
  intros Hns Hl. split; [done| | |].
  - rewrite zrange_nil by lia. by apply hw_wrote_refl.
  - intros p Hp. unfold pages_of. rewrite zrange_nil by lia. simpl. rewrite Z.add_0_r. unfold ns_unfinished.
    destruct (ns_part ns p Hns Hp) as (f & -> & Hpk & Esp & _). unfold unfinished. rewrite Esp, Z.mod_mod; [done|].
    pose proof (po_oneshot _ (ns_params _ Hns)). lia.
  - intros l _. split; [by right|]. intros [?|?]; [lia|done].
Qed.

Lemma wrote_page ns ftls h h1 sqid lo i ftls' h' :
  let ns1 := with_ftls ns ftls in let ns2 := with_ftls ns ftls' in let p := i `mod` ns.(cn_nr_parts) in
  wrote ns h sqid lo i ns1 h1 -> 0 < ns.(cn_nr_parts) -> lo <= i -> ns_ok L sp pc wb ns2 ->
  hw_wrote (releases sp sqid wb) (if completes sp (ns_unfinished ns1 p) then 1 else 0) pc h1 h' ->
  (forall q, ns_unfinished ns2 q = if decide (q = p) then (ns_unfinished ns1 p + 1) `mod` sp.(pgs_per_oneshotpg) else ns_unfinished ns1 q) ->
  (forall l, 0 <= l -> ns_mapped ns2 l <-> l = i \/ ns_mapped ns1 l) ->
  wrote ns h sqid lo (i + 1) ns2 h'.
Proof.
  intros ns1 ns2 p [W1 W2 W3 W4] Hnr Hi Hns Hw Hu Hm. pose proof (Z.mod_pos_bound i (cn_nr_parts ns) Hnr) as Hp. split; [done| | |].
  - rewrite zrange_snoc, zcount_app by done. pose proof (zcount_range (finishes sp ns lo) (zrange lo i)).
    assert (finishes sp ns lo i = completes sp (ns_unfinished ns1 p)) as Ef by (by rewrite (W3 p Hp), completes_mod).
    simpl. rewrite Ef. replace (Z.to_nat _) with (Z.to_nat (zcount (finishes sp ns lo) (zrange lo i)) + if completes sp (ns_unfinished ns1 p) then 1 else 0)%nat
      by (destruct (completes _ _); simpl; lia).
    by eapply hw_wrote_trans.
  - intros q Hq. rewrite Hu, pages_of_S by done. fold p. destruct (decide (q = p)) as [->|Hne].
    + rewrite (W3 p Hp), Zplus_mod_idemp_l, Z.eqb_refl. f_equal. lia.
    + rewrite (W3 q Hq), (proj2 (Z.eqb_neq _ _)) by congruence. f_equal. lia.
  - intros l Hl. rewrite Hm, W4 by done. split; [intros [->|[?|?]]; [left; lia|left; lia|by right]|].
    intros [Hr|?]; [|right; by right]. destruct (decide (l = i)); [by left|right; left; lia].
Qed.

(** The write loop over the pages [lo..hi]. *)
Lemma write_loop_ok ns sqid stime lo hi h latest :
  ns_ok L sp pc wb ns -> link_ok pc h -> 0 <= lo <= hi + 1 -> hi `div` ns.(cn_nr_parts) < L ->
  okp (rfold (fun lpn => write_body sqid stime lpn ns) (zrange lo (hi + 1)) (ns.(cn_ftls), h, latest))
    (fun '(ftls', h', _) => wrote ns h sqid lo (hi + 1) (with_ftls ns ftls') h').
Proof.
  intros Hns Hl Hlo HL. pose proof (no_nr _ _ _ _ _ Hns) as [Hnr _].
  apply (rfold_range _ (fun i '(ftls', h', _) => wrote ns h sqid lo i (with_ftls ns ftls') h')); [lia| |].
  - destruct ns. by apply wrote_nothing.
  - intros i [[ftls' h'] t] Hi Hw. pose proof Hw as [W1 W2 _ _].
    assert (i `div` ns.(cn_nr_parts) < L) by (eapply Z.le_lt_trans; [|exact HL]; apply Z.div_le_mono; lia).
    eapply okp_mono; [apply write_body_ok; [exact W1|apply W2|lia|done]|].
    intros [[ftls2 h2] t2] (Hns2 & Hw2 & Hu2 & Hmap2). eapply wrote_page; try done. lia.
Qed.

Lemma conv_write_ok ns req ret h buf :
  ns_ok L sp pc wb ns -> link_ok pc h -> deref h.(hw_wbuf) wb = Ok buf -> req_ok req ->
  0 <= buf.(bf_remaining) < 18446744073709551616 ->
  LBA_TO_BYTE (req.(rq_cmd).(rw_length) + 1) <= buf.(bf_size) < 4294967296 ->
  last_page_of req `div` ns.(cn_nr_parts) < L ->
  okp (conv_write ns req ret h) (fun '(ns', h', ret', ok) =>
    link_ok pc h' /\ (ok = true <-> LBA_TO_BYTE (req.(rq_cmd).(rw_length) + 1) <= buf.(bf_remaining)) /\
    if ok : bool then
      ns_ok L sp pc wb ns' /\ same_ns ns ns' /\ ret'.(rs_status) = NVME_SC_SUCCESS /\
      deref h'.(hw_wbuf) wb = Ok (Buffer buf.(bf_size) (buf.(bf_remaining) - LBA_TO_BYTE (req.(rq_cmd).(rw_length) + 1))) /\
      (exists ops, h'.(hw_sched) = h.(hw_sched) ++ ops /\ Forall (releases sp req.(rq_sq_id) wb) ops /\
         zlen ops = zcount (finishes sp ns (first_page req)) (zrange (first_page req) (last_page_of req + 1))) /\
      (forall p, 0 <= p < ns.(cn_nr_parts) -> ns_unfinished ns' p =
         (ns_unfinished ns p + pages_of ns.(cn_nr_parts) p (first_page req) (last_page_of req + 1)) `mod` sp.(pgs_per_oneshotpg)) /\
      (forall l, 0 <= l -> ns_mapped ns' l <-> first_page req <= l <= last_page_of req \/ ns_mapped ns l)
    else ns' = ns /\ ret' = ret /\ h'.(hw_sched) = h.(hw_sched) /\ deref h'.(hw_wbuf) wb = Ok buf).
Proof.
  intros Hns Hl Hbuf Hreq Hrem Hsz HL. pose proof (no_nr _ _ _ _ _ Hns) as [Hnr Hlen].
  pose proof (ns_params _ Hns) as Hp. pose proof (po_secs _ Hp) as [[Hs _] _].
  destruct (ns_part ns 0 Hns) as (f0 & Ef0 & Hpk0 & Esp0 & Epc0 & Ewb0); [lia|].
  pose proof (req_pages req Hp Hreq) as Hpages.
  unfold conv_write. rewrite (aget_Some _ _ _ Ef0), bind_Ok, Esp0. cbv zeta.
  rewrite req_last, !(cdiv_ok _ (secs_per_pg sp)), !bind_Ok, !(cdiv_ok _ (cn_nr_parts ns)), bind_Ok by (done || lia).
  fold (first_page req) (last_page_of req).
  destruct (Z.leb_spec (tt_pgs sp) (last_page_of req `div` cn_nr_parts ns)) as [Hout|_].
  { exfalso. destruct (no_part _ _ _ _ _ Hns 0 f0 Ef0) as ([[Hf _ _ Hover _ _ _ _] _] & E0 & _).
    rewrite E0 in Hover. pose proof (tt_pgs_line sp Hp) as Ett.
    pose proof (do_pls _ (cv_dev _ _ _ Hf)) as Hpl. change (sd_sp (cf_ssd f0)) with (cf_sp f0) in Hpl.
    rewrite E0 in Hpl. pose proof (pgs_per_line_bounds sp Hp Hpl). specialize (Ett Hpl). nia. }
  rewrite Ewb0, Hbuf, bind_Ok. unfold buffer_allocate. remember (LBA_TO_BYTE _) as bytes eqn:Eb.
  apply okp_bind, okp_bind, okp_assert; [apply Z.leb_le; lia|].
  assert (0 <= bytes) by (subst bytes; apply u64_range).
  destruct (Z.ltb_spec (bf_remaining buf) bytes) as [Hno|Hyes]; cbv zeta.
  - rewrite Z.sub_0_r. unwrap. simpl okp. apply okp_bind. eapply okp_mono; [by eapply store_ok|].
    intros bufs (E1 & _). rewrite (proj2 (Z.ltb_lt _ _)) by lia. simpl. split; [done|].
    split; [split; [done|lia]|].
    do 3 (split; [done|]). rewrite E1. by destruct buf.
  - unwrap. simpl okp. apply okp_bind. eapply okp_mono; [by eapply store_ok|].
    intros bufs (E1 & _). remember (Hw h.(hw_tick) h.(hw_pcie) bufs h.(hw_sched)) as h1 eqn:Eh1.
    rewrite Z.ltb_irrefl. apply okp_bind. eapply okp_mono.
    { apply ssd_advance_write_buffer_ok. rewrite Epc0. by subst h1. }
    intros [h2 t2] Hadv. rewrite Epc0 in Hadv. apply okp_bind. eapply okp_mono.
    { apply (write_loop_ok ns (rq_sq_id req) t2 (first_page req) (last_page_of req)); [done|apply Hadv|lia|done]. }
    intros [[ftls' h'] t'] [Hns' Hw Hu Hmap]. destruct Hw as (A1 & A2 & _ & _ & _ & ops & A3 & A4 & A5).
    destruct Hadv as (_ & B2 & B3 & _). simpl. split; [done|]. split; [done|]. split; [exact Hns'|]. split; [done|].
    split; [done|]. split; [by rewrite A2, B2, Eh1|]. split.
    + exists ops. rewrite A3, B3, Eh1. split; [done|]. split; [done|]. unfold zlen. rewrite A5. apply Z2Nat.id, zcount_range.
    + split; [exact Hu|]. intros l Hl0. rewrite (Hmap l Hl0). split; (intros [?|?]; [left; lia|by right]).
Qed.

(** ** Read *)

Lemma part_ok_ticked f f' : part_ok L f -> ticked f f' -> part_ok L f'.
Proof.
  intros [H1 H2] Ht. split; [by eapply part_inv_ticked|]. by destruct (ticked_same _ _ Ht) as (_ & _ & _ & _ & ->).
Qed.

(** A read loop that began on the partition [f] and the store [h]. *)
Record reading_ok (f : conv_ftl) (h : hw) (r : reading) : Prop := {
  ro_ftl : ticked f r.(rd_ftl);
  ro_hw : hw_adv pc h r.(rd_hw);
  ro_xfer : 0 <= r.(rd_xfer_size) < 4294967296;
  ro_prev : mapped_ppa r.(rd_prev) = true -> in_dev sp r.(rd_prev);
  ro_mapped : 0 < r.(rd_xfer_size) -> mapped_ppa r.(rd_prev) = true
}.

Lemma issue_read_ok f h r stime :
  part_ok L f -> cf_sp f = sp -> f.(cf_ssd).(sd_pcie) = pc -> reading_ok f h r ->
  okp (issue_read stime r) (fun r' => ticked f r'.(rd_ftl) /\ hw_adv pc h r'.(rd_hw) /\
    r.(rd_latest) <= r'.(rd_latest)).
Proof.
  intros Hpk Esp Epc [R1 R2 R3 R4 R5]. unfold issue_read. destruct (Z.ltb_spec 0 (rd_xfer_size r)) as [Hx|Hx].
  2: { simpl. split; [done|]. split; [done|]. lia. }
  pose proof (part_ok_ticked _ _ Hpk R1) as [Hinv _]. destruct (ticked_same _ _ R1) as ((_ & Epc' & _) & _).
  apply (advance_nand_ok None None); [apply Hinv| | |simpl; lia|].
  { rewrite Epc', Epc. apply R2. } { rewrite (ticked_sp _ _ R1), Esp. by apply R4, R5. }
  intros f' h' t Ht Ha. simpl. rewrite Epc', Epc in Ha. split; [by eapply ticked_trans|].
  split; [by eapply hw_adv_trans|lia].
Qed.

Lemma mapped_in_dev f lpn p :
  part_ok L f -> f.(maptbl) !! lpn = Some p -> mapped_ppa p = true -> in_dev (cf_sp f) p.
Proof.
  intros [[Hf Hm _ _ _ _ _ _] _] E Hp. destruct (mp_fwd _ _ _ _ Hm lpn p) as (b & x & Hat & -> & _); [done..|].
  by apply in_dev_at; [apply Hf|].
Qed.

Lemma read_lpn_ok f h r stime nr lpn :
  part_ok L f -> cf_sp f = sp -> f.(cf_ssd).(sd_pcie) = pc -> reading_ok f h r ->
  0 < nr -> 0 <= lpn -> lpn `div` nr < sp.(tt_pgs) ->
  okp (read_lpn sp stime nr lpn r) (fun r' => reading_ok f h r' /\ r.(rd_latest) <= r'.(rd_latest)).
Proof.
  intros Hpk Esp Epc Hr Hnr Hlpn Hlt. pose proof Hr as [R1 R2 R3 R4 R5]. unfold read_lpn.
  rewrite cdiv_ok, bind_Ok by lia. assert (0 <= lpn `div` nr) by (apply Z.div_pos; lia).
  pose proof (part_ok_ticked _ _ Hpk R1) as Hpk'. pose proof Hpk' as [Hinv _].
  pose proof (do_params _ (cv_dev _ _ _ (pk_ok _ _ Hinv))) as Hp.
  change (sd_sp (cf_ssd (rd_ftl r))) with (cf_sp (rd_ftl r)) in Hp. rewrite (ticked_sp _ _ R1), Esp in Hp.
  destruct (zlookup_lt (rd_ftl r).(maptbl) (lpn `div` nr)) as [cur E].
  { rewrite (cv_maptbl _ _ _ (pk_ok _ _ Hinv)), (ticked_sp _ _ R1), Esp. done. }
  unfold get_maptbl_ent. rewrite (aget_Some _ _ _ E), bind_Ok.
  destruct (negb (mapped_ppa cur) || negb (valid_ppa (rd_ftl r) cur)) eqn:Ec.
  { simpl. split; [done|lia]. }
  apply orb_false_iff in Ec as [Ec _]. apply negb_false_iff in Ec.
  pose proof (mapped_in_dev _ _ _ Hpk' E Ec) as Hin. rewrite (ticked_sp _ _ R1), Esp in Hin.
  assert (exists same, (if mapped_ppa (rd_prev r) then is_same_flash_page (rd_ftl r) cur (rd_prev r) else Ok false)
    = Ok same /\ (same = true -> mapped_ppa (rd_prev r) = true)) as (same & -> & Hsame).
  { destruct (mapped_ppa (rd_prev r)); [|by exists false]. unfold is_same_flash_page.
    pose proof (po_flash _ Hp). rewrite !cdiv_ok by (rewrite (ticked_sp _ _ R1), Esp; lia). simpl. by eexists. }
  rewrite bind_Ok, (po_pgsz _ Hp). destruct same.
  - simpl. split; [|lia]. split; simpl; try done; [apply u32_range|]. intros _. by apply Hsame.
  - apply okp_bind. eapply okp_mono; [by apply (issue_read_ok f h)|]. intros r' (T1 & T2 & T3). simpl.
    split; [|done]. split; simpl; try done; unwrap; lia.
Qed.

(** The body of the outer read loop. *)
Definition read_body (stime start_lpn end_lpn i : Z) (ns : conv_ns) :
    list conv_ftl * hw * Z -> res (list conv_ftl * hw * Z) :=
  fun '(ftls, h, latest) =>
    let nr_parts := ns.(cn_nr_parts) in
    let start_lpn := start_lpn + i in
    if end_lpn <? start_lpn then Ok (ftls, h, latest) else
    p ← cmod start_lpn nr_parts;
    f ← aget ftls p;
    local_lpn ← cdiv start_lpn nr_parts;
    prev_ppa ← get_maptbl_ent f local_lpn;
    r ← rfold (read_lpn sp stime nr_parts) (zsteps start_lpn end_lpn nr_parts)
          (Reading f h prev_ppa 0 latest);
    r ← issue_read stime r;
    Ok (<[p := r.(rd_ftl)]> ftls, r.(rd_hw), r.(rd_latest)).

(** The partitions of [ftls'] are those of [ftls] with other clocks. *)
Definition all_ticked (ftls ftls' : list conv_ftl) : Prop :=
  zlen ftls' = zlen ftls /\
  forall (i : Z) f', ftls' !! i = Some f' -> exists f, ftls !! i = Some f /\ ticked f f'.

Lemma all_ticked_refl ns : ns_ok L sp pc wb ns -> all_ticked ns.(cn_ftls) ns.(cn_ftls).
Proof.
  intros Hns. split; [done|]. intros i f E. exists f. split; [done|]. apply ticked_refl.
  destruct (no_part _ _ _ _ _ Hns i f E) as ([[Hf _ _ _ _ _ _ _] _] & _). apply Hf.
Qed.

Lemma all_ticked_ns_ok ns ftls' : ns_ok L sp pc wb ns -> all_ticked ns.(cn_ftls) ftls' ->
  ns_ok L sp pc wb (with_ftls ns ftls').
Proof.
  intros [Hnr Hpart] [Hlen Hall]. split; simpl; [by rewrite Hlen|]. intros i f' E'.
  destruct (Hall i f' E') as (f & E & Ht). destruct (Hpart i f E) as (Hpk & E1 & E2 & E3).
  destruct (ticked_same _ _ Ht) as ((_ & Epc & Ewb & _) & _).
  split; [by eapply part_ok_ticked|]. rewrite (ticked_sp _ _ Ht), Epc, Ewb. done.
Qed.

Lemma all_ticked_insert ftls ftls' (p : Z) f f' f2 :
  all_ticked ftls ftls' -> ftls !! p = Some f -> ticked f f' -> ftls' !! p = Some f' -> ticked f' f2 ->
  all_ticked ftls (<[p := f2]> ftls').
Proof.
  intros [Hlen Hall] E Ht E' Ht2. split; [by rewrite zlen_zinsert|]. intros i g Eg.
  rewrite zlookup_zinsert in Eg by (by eapply zlookup_Some_range). case_decide as Hi; [|by apply Hall].
  subst i. injection Eg as <-. exists f. split; [done|]. by eapply ticked_trans.
Qed.

Lemma elem_of_zsteps lo hi step x : 0 < step -> lo <= hi -> x ∈ zsteps lo hi step -> lo <= x <= hi.
Proof.
  intros Hs Hle (k & -> & Hk%elem_of_zrange)%list_elem_of_fmap.
  pose proof (Z.mul_div_le (hi - lo) step Hs). nia.
Qed.

Lemma read_body_ok ns ftls h latest stime lo hi i :
  ns_ok L sp pc wb ns -> all_ticked ns.(cn_ftls) ftls -> link_ok pc h ->
  0 <= lo + i -> hi `div` ns.(cn_nr_parts) < sp.(tt_pgs) ->
  okp (read_body stime lo hi i ns (ftls, h, latest)) (fun '(ftls', h', latest') =>
    all_ticked ns.(cn_ftls) ftls' /\ hw_adv pc h h' /\ latest <= latest').
Proof.
  intros Hns Hall Hl Hlo Hhi. pose proof (no_nr _ _ _ _ _ Hns) as [Hnr Hlen]. unfold read_body. cbv zeta.
  destruct (Z.ltb_spec hi (lo + i)) as [Hlt|Hge]; [split; [done|]; split; [by apply hw_adv_refl|lia]|].
  pose proof (all_ticked_ns_ok _ _ Hns Hall) as Hns'.
  pose proof (Z.mod_pos_bound (lo + i) (cn_nr_parts ns) Hnr) as Hmod. rewrite cmod_ok, bind_Ok by lia.
  destruct (ns_part _ ((lo + i) `mod` cn_nr_parts ns) Hns' Hmod) as (f & Ef & Hpk & Esp & Epc & _). simpl in Ef.
  destruct (proj2 Hall _ _ Ef) as (f0 & Ef0 & Ht0).
  rewrite (aget_Some _ _ _ Ef), bind_Ok, cdiv_ok, bind_Ok by lia.
  assert (forall x, 0 <= x -> x <= hi -> 0 <= x `div` cn_nr_parts ns < sp.(tt_pgs)) as Hdiv.
  { intros x H0 H1. split; [apply Z.div_pos; lia|]. eapply Z.le_lt_trans; [|exact Hhi]. apply Z.div_le_mono; lia. }
  pose proof (pk_ok _ _ (proj1 Hpk)) as Hf.
  destruct (zlookup_lt f.(maptbl) ((lo + i) `div` cn_nr_parts ns)) as [prev Ep].
  { rewrite (cv_maptbl _ _ _ Hf), Esp. by apply Hdiv. }
  unfold get_maptbl_ent. rewrite (aget_Some _ _ _ Ep), bind_Ok.
  apply okp_bind. eapply okp_mono.
  { apply (rfold_inv_const _ (fun r => reading_ok f h r /\ latest <= r.(rd_latest))).
    - split; [|simpl; lia]. split; simpl; [apply ticked_refl, Hf|by apply hw_adv_refl|lia| |lia].
      intros Hm. rewrite <- Esp. by eapply mapped_in_dev.
    - intros x r Hx [Hr Hle]. apply elem_of_zsteps in Hx; [|lia|lia]. pose proof (Hdiv x ltac:(lia) ltac:(lia)).
      eapply okp_mono; [apply (read_lpn_ok f h); try done; lia|]. intros r' [Hr' Hle']. split; [done|lia]. }
  intros r [Hr Hle]. apply okp_bind. eapply okp_mono; [by apply (issue_read_ok f h)|].
  intros r' (T1 & T2 & T3). simpl. split; [by eapply all_ticked_insert|]. split; [done|lia].
Qed.

Lemma all_ticked_mapped ns ftls' l : ns_ok L sp pc wb ns ->
  all_ticked ns.(cn_ftls) ftls' -> ns_mapped (with_ftls ns ftls') l <-> ns_mapped ns l.
Proof.
  intros Hns [Hlen Hall]. unfold ns_mapped; simpl. split.
  - intros (f' & E' & Hm). destruct (Hall _ _ E') as (f & E & Ht). exists f. split; [done|].
    unfold mapped_at in *. destruct (ticked_same _ _ Ht) as (_ & _ & <- & _). done.
  - intros (f & E & Hm). destruct (zlookup_lt ftls' (l `mod` cn_nr_parts ns)) as [f' E'].
    { rewrite Hlen. by eapply zlookup_Some_range. }
    destruct (Hall _ _ E') as (f2 & E2 & Ht). exists f'. split; [done|]. assert (f2 = f) as -> by congruence.
    unfold mapped_at in *. destruct (ticked_same _ _ Ht) as (_ & _ & -> & _). done.
Qed.

(** A read changes nothing but clocks, whatever it addresses. *)
Lemma conv_read_ok ns req ret h :
  ns_ok L sp pc wb ns -> link_ok pc h -> req_ok req ->
  okp (conv_read ns req ret h) (fun '(ns', h', ret', ok) =>
    (ok = true <-> last_page_of req `div` ns.(cn_nr_parts) < sp.(tt_pgs)) /\
    (exists ftls', ns' = with_ftls ns ftls' /\ all_ticked ns.(cn_ftls) ftls') /\
    hw_adv pc h h' /\
    if ok : bool then ret'.(rs_status) = NVME_SC_SUCCESS /\ req.(rq_nsecs_start) <= ret'.(rs_nsecs_target)
    else ret' = ret).
Proof.
  intros Hns Hl Hreq. pose proof (no_nr _ _ _ _ _ Hns) as [Hnr Hlen].
  pose proof (ns_params _ Hns) as Hp. pose proof (po_secs _ Hp) as [[Hs _] _].
  destruct (ns_part ns 0 Hns) as (f0 & Ef0 & Hpk0 & Esp0 & Epc0 & Ewb0); [lia|].
  pose proof (req_pages req Hp Hreq) as Hpages.
  unfold conv_read. rewrite (aget_Some _ _ _ Ef0), bind_Ok, Esp0. cbv zeta.
  rewrite req_last, !(cdiv_ok _ (secs_per_pg sp)), !bind_Ok, !(cdiv_ok _ (cn_nr_parts ns)), bind_Ok by (done || lia).
  fold (first_page req) (last_page_of req).
  destruct (Z.leb_spec (tt_pgs sp) (last_page_of req `div` cn_nr_parts ns)) as [Hout|Hin].
  { simpl. split; [split; [done|lia]|]. split; [|split; [by apply hw_adv_refl|done]].
    exists ns.(cn_ftls). split; [by destruct ns|by apply all_ticked_refl]. }
  set (stime := if _ <=? _ then _ else _).
  apply okp_bind. eapply okp_mono.
  { apply (rfold_inv_const (fun i => read_body stime (first_page req) (last_page_of req) i ns)
      (fun '(ftls', h', t) => all_ticked ns.(cn_ftls) ftls' /\ hw_adv pc h h' /\ req.(rq_nsecs_start) <= t)).
    - split; [by apply all_ticked_refl|]. split; [by apply hw_adv_refl|lia].
    - intros i [[ftls' h'] t] Hi%elem_of_zrange (H1 & H2 & H3).
      eapply okp_mono; [apply read_body_ok; try done; [apply H2|lia]|].
      intros [[ftls2 h2] t2] (K1 & K2 & K3). split; [done|]. split; [by eapply hw_adv_trans|lia]. }
  intros [[ftls' h'] t] (H1 & H2 & H3). simpl. split; [done|]. split; [by exists ftls'|done].
Qed.
End ns.
