(* ===== verification/ConvInit.v ===== *)
(** * The initialisation of the conventional namespace

    [conv_init_ftl] on a new device gives a partition that satisfies
    [part_ok]; [conv_init_namespace] gives one that satisfies [ns_ok], with the
    link and the write buffer of partition 0 shared by all. *)

From stdpp Require Import prelude list list_tactics.
From Stdlib Require Import ZArith Lia.
From S2P Require Import Prelude ChannelModel Pqueue SsdConfig Ssd ConvFtl ConvInv ConvState ConvStep ConvMaps.
From S2P Require Import ConvGc ConvWrite ConvNs.

Section lines.

(** All lines are free: the state of the line manager in the loop of
    [init_lines], and at its end. *)
Record lines_upto (n i : Z) (m : line_mgmt) : Prop := {
  lu_len : zlen m.(lm_lines) = n /\ m.(lm_tt_lines) = n;
  lu_line b : 0 <= b < i -> m.(lm_lines) !! b = Some (Line b 0 0 0);
  lu_free : m.(free_line_list) = zrange 0 i;
  lu_full : m.(full_line_list) = [];
  lu_pq : m.(victim_line_pq) = pqueue_init true true n;
  lu_cnt : m.(free_line_cnt) = i /\ m.(full_line_cnt) = 0 /\ m.(victim_line_cnt) = 0
}.

Lemma init_lines_ok sp :
  params_ok sp -> sp.(pls_per_lun) = 1 -> okp (init_lines sp) (lines_upto sp.(blks_per_pl) sp.(blks_per_pl)).
Proof.
  intros Hp Hpl. pose proof (po_blks _ Hp). pose proof (po_tt_lines _ Hp) as Ett.
  rewrite Hpl, Z.mul_1_r in Ett. unfold init_lines. rewrite Ett. unwrap. cbv zeta.
  apply okp_bind, okp_assert; [by apply Z.eqb_eq|].
  apply okp_bind. eapply okp_mono.
  { apply (rfold_range _ (lines_upto sp.(blks_per_pl))); [lia| |].
    - split; simpl; try done; [split; [apply zlen_zrepeat; lia|done]|intros; lia].
    - intros i m Hi [[L1 L2] L3 L4 L5 L6 (L7 & L8 & L9)]. rewrite aset_Some, bind_Ok by lia.
      unfold list_add_tail_free.
      assert (linked (with_lines m (<[i := Line i 0 0 0]> (lm_lines m))) i = false) as ->.
      { unfold linked; simpl. rewrite L4, L5. apply orb_false_iff. split; apply bool_decide_eq_false.
        - rewrite elem_of_zrange. lia.
        - apply not_elem_of_nil. }
      simpl. rewrite L7, L8, L9. unwrap. split; simpl; try done.
      + by rewrite zlen_zinsert.
      + intros b Hb. rewrite zlookup_zinsert by lia. case_decide; [by subst|]. apply L3. lia.
      + rewrite L4. by rewrite zrange_snoc by lia.
      + unwrap. lia. }
  intros m Hm. apply okp_bind, okp_assert; [|done]. apply Z.eqb_eq, Hm.
Qed.

Lemma lines_mgmt_ok n m : 0 < n <= 65536 -> lines_upto n n m -> mgmt_ok n [] m.
Proof.
  intros Hn [[L1 L2] L3 L4 L5 L6 (L7 & L8 & L9)].
  assert (forall b, ~ in_victims m b) as Hv.
  { intros b. unfold in_victims. rewrite L6. simpl. intros (j & Hj & _). simpl in Hj. lia. }
  assert (u64 (n + 1) = n + 1) as Eu by (by unwrap).
  split; try done.
  - intros b l E. pose proof (zlookup_Some_range _ _ _ E) as Hb. rewrite L3 in E by lia. injection E as <-.
    simpl. unfold queueable; simpl. split; [done|]. split; [lia|]. split; [lia|]. split; [done|by intros ?%Hv].
  - rewrite L6. simpl. eexists. split; [done|]. split; [|simpl; lia]. split; simpl; rewrite ?Eu; try lia.
    + apply zlen_zrepeat. lia.
    + intros p j Hc Hj. exfalso. unfold child in Hc. lia.
  - unfold elsewhere. rewrite L4, L5, !app_nil_r. apply NoDup_zrange.
  - intros b Hb. by apply Hv in Hb.
  - intros b. unfold elsewhere. rewrite L4, L5, !app_nil_r. apply elem_of_zrange.
  - intros b Hb. left. unfold elsewhere. rewrite L4, L5, !app_nil_r. by apply elem_of_zrange.
  - rewrite L7, L4, zlen_zrange by lia. lia.
  - by rewrite L8, L5.
  - intros q. rewrite L6, L9. intros [= <-]. done.
Qed.
End lines.

Section fresh.
Context `{CC : ChanConfig}.

(** A device just initialised: every block is as [ssd_init_nand_blk] left it. *)
Record fresh (s : ssd) : Prop := {
  fr_params : params_ok s.(sd_sp);
  fr_pls : s.(sd_sp).(pls_per_lun) = 1;
  fr_shape : ssd_shape s;
  fr_blk c l b : in_blk s.(sd_sp) c l b -> blk_at s c l 0 b = Some (ssd_init_nand_blk s.(sd_sp))
}.

Lemma fresh_pst s b x :
  fresh s -> 0 <= b < s.(sd_sp).(blks_per_pl) -> in_line s.(sd_sp) x -> pst s b x = PG_FREE.
Proof.
  intros Hs Hb (Hc & Hl & Hg). unfold pst, pg_at. rewrite (fr_blk _ Hs) by done. simpl.
  by rewrite zlookup_zrepeat_lt.
Qed.

Lemma fresh_line_count s b st :
  fresh s -> 0 <= b < s.(sd_sp).(blks_per_pl) -> st <> PG_FREE -> line_count st s b = 0.
Proof.
  intros Hs Hb Hst. apply line_count_none; [apply Hs|]. intros x Hx. rewrite fresh_pst by done. done.
Qed.

Lemma fresh_dev s : fresh s -> dev_ok s.
Proof.
  intros Hs. split; try apply Hs.
  - intros c l b Hin. pose proof Hin as (Hc & Hl & Hb). unfold bcnt. rewrite (fr_blk _ Hs) by done. simpl.
    assert (forall st, st <> PG_FREE -> blk_count st s c l b = 0) as E; [|by rewrite !E].
    intros st Hst. apply zcount_false. intros g Hg%elem_of_zrange. unfold is_st. apply Z.eqb_neq.
    rewrite fresh_pst; done.
  - intros b x Hb Hx. left. by apply fresh_pst.
Qed.

Lemma not_before_origin sp x : params_ok sp -> in_line sp x -> ~ before sp x (0, 0, 0).
Proof.
  intros Hp Hx. destruct (quo_rem _ Hp x) as [_ Hr]. pose proof (quo_range _ Hp x Hx) as Hq.
  pose proof Hx as (Hc & Hl & _). pose proof (po_oneshot _ Hp). unfold before.
  fold (quo sp x) (rem sp x). unfold c_ch, c_lun, c_pg in *; simpl.
  rewrite Z.div_0_l, Z.mod_0_l by lia. lia.
Qed.

Lemma origin_in_line sp : params_ok sp -> in_line sp (0, 0, 0).
Proof.
  intros Hp. pose proof (po_nchs _ Hp). pose proof (po_luns _ Hp). pose proof (po_pgs _ Hp).
  unfold in_line, c_ch, c_lun, c_pg; simpl. lia.
Qed.

Definition new_wp (b : Z) : write_pointer := WritePointer (Some b) 0 0 0 b 0.

(** A partition with a fresh device whose write pointers took the lines 0 and 1. *)
Lemma fresh_conv_ok cpp s m w :
  fresh s -> 2 <= s.(sd_sp).(blks_per_pl) -> mgmt_ok s.(sd_sp).(blks_per_pl) [0; 1] m ->
  (forall b, 0 <= b < s.(sd_sp).(blks_per_pl) -> m.(lm_lines) !! b = Some (Line b 0 0 0)) ->
  m.(full_line_list) = [] -> (forall b, ~ in_victims m b) ->
  (forall b, b ∈ m.(free_line_list) -> 0 <= b < s.(sd_sp).(blks_per_pl)) ->
  let f := ConvFtl s cpp (init_maptbl s.(sd_sp)) (init_rmap s.(sd_sp)) (new_wp 0) (new_wp 1) m w in
  conv_ok None None f /\ maps_ok None [] None f /\ (forall lpn, ~ mapped_at f lpn).
Proof.
  intros Hs Hn Hm Hlines Hfull Hvic Hfree f. pose proof (fr_params _ Hs) as Hp.
  assert (forall lpn, ~ mapped_at f lpn) as Hunm.
  { intros lpn (p & E & Hmp). unfold f, init_maptbl in E; simpl in E. apply zlookup_zrepeat in E as ->.
    by vm_compute in Hmp. }
  assert (0 <= tt_pgs (sd_sp s)) as Htt by (pose proof (pgs_per_line_bounds _ Hp (fr_pls _ Hs)); lia).
  split; [|split; [|done]].
  - split; unfold cf_sp; simpl; try done.
    + by apply fresh_dev.
    + intros io Hio. exists (if io =? USER_IO then 0 else 1).
      assert (wp_of f io = new_wp (if io =? USER_IO then 0 else 1)) as -> by (destruct Hio as [->| ->]; done).
      simpl. do 3 (split; [done|]). split; [by apply origin_in_line|]. intros x Hx.
      unfold cf_sp in *; simpl in *. rewrite fresh_pst; [|done|by case_match; lia|done].
      split; [|done]. intros _. split; [by apply not_before_origin|]. by intros [? _].
    + intros b l E _. pose proof (zlookup_Some_range _ _ _ E) as Hb.
      rewrite (proj1 (mo_len _ _ _ Hm)) in Hb. rewrite Hlines in E by done. injection E as <-. simpl.
      by rewrite !fresh_line_count.
    + intros b x Hb Hx. apply fresh_pst; [done|by apply Hfree|done].
    + intros b x. rewrite Hfull. by intros ?%not_elem_of_nil.
    + intros b x Hb. by apply Hvic in Hb.
    + intros b Hb. by apply Hvic in Hb.
    + by apply zlen_zrepeat.
    + by apply zlen_zrepeat.
  - split.
    + intros lpn p _ E Hmp. exfalso. apply (Hunm lpn). by exists p.
    + intros b x [Hb Hx] [Hv _]. unfold f in Hv; simpl in Hv. rewrite fresh_pst in Hv by done. done.
Qed.

Lemma conv_init_ftl_ok L cpp s :
  fresh s -> cpp.(gc_thres_lines_high) = 2 ->
  0 <= L < (s.(sd_sp).(blks_per_pl) - 4) * s.(sd_sp).(pgs_per_line) ->
  okp (conv_init_ftl cpp s) (fun f => part_ok L f /\ f.(cf_ssd) = s /\ forall lpn, ~ mapped_at f lpn).
Proof.
  intros Hs Hth HL. pose proof (fr_params _ Hs) as Hp. pose proof (po_blks _ Hp) as Hblk.
  pose proof (pgs_per_line_bounds _ Hp (fr_pls _ Hs)) as HP. pose proof (po_total _ Hp).
  assert (5 <= s.(sd_sp).(blks_per_pl)) as Hn by nia.
  unfold conv_init_ftl. apply okp_bind. eapply okp_mono; [apply init_lines_ok; apply Hs|].
  intros m Hm. pose proof Hm as [[L1 L2] L3 L4 L5 L6 (L7 & L8 & L9)].
  assert (mgmt_ok s.(sd_sp).(blks_per_pl) [] m) as Hm0 by (apply lines_mgmt_ok; [lia|done]).
  rewrite (zrange_S 0), (zrange_S (0 + 1)) in L4 by lia. change (0 + 1) with 1 in L4. change (1 + 1) with 2 in L4.
  destruct (get_next_free_line_ok _ _ _ _ _ Hm0 L4) as (m1 & E1 & Hm1 & F1 & F2 & F3 & F4).
  destruct (get_next_free_line_ok _ _ _ _ _ Hm1 F1) as (m2 & E2 & Hm2 & G1 & G2 & G3 & G4).
  unfold prepare_write_pointer, __get_wp. simpl. rewrite E1. simpl.
  rewrite F4, (aget_Some _ _ _ (L3 0 ltac:(lia))). simpl. rewrite E2. simpl.
  rewrite G4, F4, (aget_Some _ _ _ (L3 1 ltac:(lia))). simpl. unwrap.
  destruct (fresh_conv_ok cpp s m2 (init_write_flow_control s.(sd_sp)) Hs) as (Hok & Hmaps & Hunm).
  { lia. } { eapply mgmt_ok_perm; [|exact Hm2]. solve_Permutation. }
  { intros b Hb. rewrite G4, F4. by apply L3. } { by rewrite G2, F2. }
  { intros b. unfold in_victims. rewrite G3, F3, L6. simpl. intros (j & Hj & _). simpl in Hj. lia. }
  { intros b Hb. rewrite G1 in Hb. apply elem_of_zrange in Hb. lia. }
  split; [|done]. split; [|unfold init_write_flow_control; simpl; unwrap; lia].
  assert (init_write_flow_control s.(sd_sp) = Wfc s.(sd_sp).(pgs_per_line) s.(sd_sp).(pgs_per_line)) as Ew
    by (unfold init_write_flow_control; by unwrap).
  rewrite Ew in *. split; try done; unfold cf_sp; simpl; try lia.
  - intros lpn Hl. by apply Hunm in Hl.
  - unfold free_total, wp_free, cf_sp; simpl. rewrite G1, zlen_zrange by lia.
    rewrite !line_count_all; [|done| |done|].
    + nia.
    + intros x Hx. apply fresh_pst; [done|lia|done].
    + intros x Hx. apply fresh_pst; [done|lia|done].
Qed.
End fresh.

Section store.
Context {A : Type}.
Implicit Types (l : list (option A)) (p : option Z).

Lemma deref_app l x i : 0 <= i < zlen l -> deref (l ++ [x]) (Some i) = deref l (Some i).
Proof.
  intros Hi. unfold deref, aget. simpl. rewrite !zlookup_to_nat by lia.
  by rewrite lookup_app_l by (unfold zlen in Hi; lia).
Qed.

Lemma deref_last l (x : A) : deref (l ++ [Some x]) (Some (zlen l)) = Ok x.
Proof.
  unfold deref, aget. simpl. rewrite zlookup_to_nat by apply zlen_nonneg. unfold zlen. rewrite Nat2Z.id.
  by rewrite lookup_app_r, Nat.sub_diag by lia.
Qed.

Lemma kfree_ok l i x : deref l (Some i) = Ok x ->
  okp (kfree l (Some i)) (fun l' => zlen l' = zlen l /\
    forall q, q <> Some i -> deref l' q = deref l q).
Proof.
  intros Hx. unfold kfree. rewrite Hx. simpl. split; [apply zlen_zinsert|].
  intros [j|] Hj; [|done]. unfold deref, aget. simpl. rewrite zlookup_zinsert_ne; [done|congruence].
Qed.
End store.

Section namespace.
Context `{SC : SsdConfig, CC : ChanConfig}.
Context (L : Z) (sp : ssdparams) (p0 w0 : Z) (buf : buffer).

(** The partitions [0..i-1] are initialised, each with its own link and write
    buffer. *)
Record built (i : Z) (ftls : list conv_ftl) (h : hw) : Prop := {
  bu_len : zlen ftls = i /\ zlen h.(hw_pcie) = p0 + i /\ zlen h.(hw_wbuf) = w0 + i;
  bu_part (k : Z) f : ftls !! k = Some f -> part_ok L f /\ cf_sp f = sp /\ (forall lpn, ~ mapped_at f lpn) /\
    f.(cf_ssd).(sd_pcie) = Some (p0 + k) /\ f.(cf_ssd).(sd_write_buffer) = Some (w0 + k);
  bu_store k : 0 <= k < i -> link_ok (Some (p0 + k)) h /\ deref h.(hw_wbuf) (Some (w0 + k)) = Ok buf
}.

(** The partitions [0..i-1] use the link and the write buffer of partition 0. *)
Record shared (n i : Z) (ftls : list conv_ftl) (h : hw) : Prop := {
  sh_len : zlen ftls = n;
  sh_part (k : Z) f : ftls !! k = Some f -> part_ok L f /\ cf_sp f = sp /\ (forall lpn, ~ mapped_at f lpn) /\
    f.(cf_ssd).(sd_pcie) = Some (if decide (k < i) then p0 else p0 + k) /\
    f.(cf_ssd).(sd_write_buffer) = Some (if decide (k < i) then w0 else w0 + k);
  sh_store k : k = 0 \/ i <= k < n -> link_ok (Some (p0 + k)) h /\ deref h.(hw_wbuf) (Some (w0 + k)) = Ok buf
}.

Lemma build_step i ftls h cpp cpu :
  0 <= p0 -> 0 <= w0 -> params_ok sp -> sp.(pls_per_lun) = 1 -> buf = buffer_init sp.(write_buffer_size) ->
  cpp.(gc_thres_lines_high) = 2 -> 0 <= L < (sp.(blks_per_pl) - 4) * sp.(pgs_per_line) ->
  0 <= i -> built i ftls h ->
  okp ('(s, h) ← ssd_init sp cpu h; f ← conv_init_ftl cpp s; Ok (ftls ++ [f], h))
    (fun '(ftls, h) => built (i + 1) ftls h).
Proof.
  intros Hp0 Hw0 Hp Hpl Hbuf Hth HL Hi [(B1 & B2 & B3) Bp Bs].
  apply okp_bind. eapply okp_mono; [by apply ssd_init_ok|].
  intros [s h'] (Hsh & Esp & Epc & Ewb & Hlk & Ewbl & (m & Hm & Epcl) & _ & _ & Hblk).
  assert (fresh s) as Hfr.
  { split; rewrite ?Esp; try done. intros c l b (Hc & Hl & Hb). apply Hblk; [done..|rewrite Hpl; lia|done]. }
  apply okp_bind. eapply okp_mono; [apply (conv_init_ftl_ok L); [done|done|by rewrite Esp]|].
  intros f (Hpk & Ef & Hun). simpl. rewrite B2 in Epc. rewrite B3 in Ewb. split.
  - rewrite zlen_app, B1, Epcl, Ewbl, !zlen_app, B2, B3. unfold zlen; simpl. lia.
  - intros k g Eg. assert (k < i \/ k = i) as [Hk| ->].
    { apply zlookup_Some_range in Eg. rewrite zlen_app, B1 in Eg. unfold zlen in Eg; simpl in Eg. lia. }
    + apply Bp. pose proof (zlookup_Some_range _ _ _ Eg). rewrite zlookup_to_nat in Eg |- * by lia.
      rewrite lookup_app_l in Eg; [done|]. unfold zlen in B1. lia.
    + assert (g = f) as ->.
      { rewrite zlookup_to_nat in Eg by lia. unfold zlen in B1.
        replace (Z.to_nat i) with (length ftls) in Eg by lia. rewrite lookup_app_r, Nat.sub_diag in Eg by lia.
        by injection Eg. }
      split; [done|]. split; [unfold cf_sp; by rewrite Ef|]. split; [done|]. by rewrite Ef.
  - intros k Hk. rewrite Ewbl, Hbuf. unfold link_ok. rewrite Epcl. destruct (decide (k = i)) as [->|Hne].
    + rewrite <- B2, <- B3, !deref_last. split; [by exists m|done].
    + rewrite !deref_app by lia. rewrite <- Hbuf. apply Bs. lia.
Qed.

(** The link and the write buffer of a partition are only pointers to it. *)
Lemma part_ok_repoint f pc wb :
  part_ok L f -> part_ok L (with_ssd f (Ssd f.(cf_ssd).(sd_sp) f.(cf_ssd).(sd_ch) pc wb f.(cf_ssd).(sd_cpu_nr_dispatcher))).
Proof.
  intros [[Hf Hm H1 H2 H3 H4 H5 H6] Hc]. split; [|exact Hc].
  split; try done; [|by destruct Hm; split].
  destruct Hf as [Hd Hmg Hwp Hline Hfree Hfull Hvic Hinv Hl1 Hl2]. split; try done. by destruct Hd.
Qed.

Lemma share_step n i ftls h :
  0 < i < n -> shared n i ftls h ->
  okp (f0 ← aget ftls 0; f ← aget ftls i; '(s, h) ← share_hw f0.(cf_ssd) f.(cf_ssd) h;
       Ok (<[i := with_ssd f s]> ftls, h))
    (fun '(ftls, h) => shared n (i + 1) ftls h).
Proof.
  intros Hi [S1 Sp Ss].
  destruct (zlookup_lt ftls 0) as [f0 E0]; [lia|]. destruct (zlookup_lt ftls i) as [f E]; [lia|].
  destruct (Sp 0 f0 E0) as (_ & _ & _ & Epc0 & Ewb0). destruct (Sp i f E) as (Hpk & Esp & Hun & Epc & Ewb).
  rewrite decide_True in Epc0, Ewb0 by lia. rewrite decide_False in Epc, Ewb by lia.
  rewrite (aget_Some _ _ _ E0), bind_Ok, (aget_Some _ _ _ E), bind_Ok. unfold share_hw. rewrite Epc, Ewb.
  destruct (Ss i) as [(m & Em & _) Eb]; [lia|].
  apply okp_bind, okp_bind. eapply okp_mono; [by eapply kfree_ok|]. intros pcs (P1 & P2).
  apply okp_bind. eapply okp_mono; [by eapply kfree_ok|]. intros wbs (W1 & W2). simpl. split.
  - by rewrite zlen_zinsert.
  - intros k g Eg. rewrite zlookup_zinsert in Eg by lia. destruct (decide (i = k)) as [<-|Hne].
    + injection Eg as <-. simpl. rewrite !decide_True by lia. split; [by apply part_ok_repoint|done].
    + destruct (Sp k g Eg) as (H1 & H2 & H3 & H4 & H5). do 3 (split; [done|]). rewrite H4, H5.
      destruct (decide (k < i)), (decide (k < i + 1)); try lia; done.
  - intros k Hk. unfold link_ok. simpl. rewrite P2, W2 by (intros [=]; lia). apply Ss. lia.
Qed.
End namespace.

Section init_namespace.
Context `{SC : SsdConfig, CC : ChanConfig}.

Lemma conv_init_namespace_ok L id size addr cpu h :
  config_ok -> fits size SSD_PARTITIONS -> PLNS_PER_LUN = 1 -> SSD_PARTITIONS < 4294967296 ->
  0 <= OP_AREA_HUNDREDTHS < 1000000 ->
  0 <= L < (part_blks size SSD_PARTITIONS - 4) *
    (LUNS_PER_NAND_CH * part_chs SSD_PARTITIONS * part_pgs size SSD_PARTITIONS) ->
  okp (conv_init_namespace id size addr cpu h) (fun '(ns, h') => exists sp p w,
    geometry_of size SSD_PARTITIONS sp /\ ns_ok L sp (Some p) (Some w) ns /\ link_ok (Some p) h' /\
    deref h'.(hw_wbuf) (Some w) = Ok (buffer_init GLOBAL_WB_SIZE) /\
    (forall lpn, ~ ns_mapped ns lpn) /\ ns.(cn_csi) = NVME_CSI_NVM /\ ns.(cn_nr_parts) = SSD_PARTITIONS /\
    ns.(cn_size) = u64 (size * 100) `div` (100 + OP_AREA_HUNDREDTHS)).
Proof.
  intros Hc Hfit Hpl1 Hparts Hop HL. destruct (ft_parts _ _ Hfit) as [Hn _].
  unfold conv_init_namespace. unwrap. apply okp_bind. eapply okp_mono; [by apply ssd_init_params_ok|].
  intros sp Hgeo. pose proof Hgeo as (Hp & G1 & G2 & G3 & G4 & G5 & _ & G6 & _).
  assert (0 <= L < (blks_per_pl sp - 4) * pgs_per_line sp) as HL'.
  { rewrite (po_pgs_per_line _ Hp), (po_tt_luns _ Hp), G1, G2, G4, G5. exact HL. }
  remember (zlen h.(hw_pcie)) as p0 eqn:Ep0. remember (zlen h.(hw_wbuf)) as w0 eqn:Ew0.
  pose proof (zlen_nonneg h.(hw_pcie)). pose proof (zlen_nonneg h.(hw_wbuf)).
  remember (buffer_init (write_buffer_size sp)) as buf eqn:Ebuf.
  apply okp_bind. eapply okp_mono.
  { apply (rfold_range _ (fun i '(ftls, h) => built L sp p0 w0 buf i ftls h)); [lia| |].
    - split; [unfold zlen at 1; simpl; lia| |intros; lia]. intros k f E. apply zlookup_Some_range in E.
      unfold zlen in E; simpl in E. lia.
    - intros i [ftls h1] Hi Hb. apply build_step; try done; lia. }
  intros [ftls h1] [(B1 & B2 & B3) Bp Bs]. apply okp_bind. eapply okp_mono.
  { apply (rfold_range _ (fun i '(ftls, h) => shared L sp p0 w0 buf SSD_PARTITIONS i ftls h)); [lia| |].
    - split; [done| |intros k Hk; apply Bs; lia]. intros k f E. destruct (Bp k f E) as (K1 & K2 & K3 & K4 & K5).
      do 3 (split; [done|]). rewrite K4, K5. apply zlookup_Some_range in E.
      destruct (decide (k < 1)); [|done]. replace k with 0 by lia. by rewrite !Z.add_0_r.
    - intros i [ftls' h'] Hi Hs. apply share_step; [lia|done]. }
  intros [ftls' h'] [S1 Sp Ss]. apply okp_bind. unfold conv_init_params; simpl. unwrap.
  apply okp_cdiv; [lia|]. simpl. exists sp, p0, w0. split; [done|]. split.
  { split; simpl; [lia|]. intros i f E. destruct (Sp i f E) as (K1 & K2 & K3 & K4 & K5).
    apply zlookup_Some_range in E. rewrite decide_True in K4, K5 by lia. done. }
  destruct (Ss 0) as [K1 K2]; [by left|]. rewrite Z.add_0_r in K1, K2. split; [done|].
  split; [by rewrite K2, Ebuf, G6|]. split; [|done]. intros lpn (f & E & Hm). simpl in E.
  destruct (Sp _ f E) as (_ & _ & Hun & _). by apply Hun in Hm.
Qed.
End init_namespace.
