(* ===== verification/ConvRun.v ===== *)
(** * Runs of the conventional namespace

    The flush command, the dispatch of [conv_proc_nvme_io_cmd], the removal of
    the namespace, and runs: any sequence of commands, interleaved with the
    releases of the write buffer by an I/O worker, from a new namespace.
    Then the invariant in the terms of the code's own functions. *)

From stdpp Require Import prelude list list_tactics.
From Stdlib Require Import ZArith Lia.
From S2P Require Import Prelude ChannelModel Pqueue SsdConfig Ssd ConvFtl ConvInv ConvState ConvStep ConvMaps ConvGc ConvWrite.
From S2P Require Import ConvNs ConvInit.

Inductive event :=
| Command (req : nvmev_request)
| Released (size : Z).

Definition wbuf_of (ns : conv_ns) : res (option Z) :=
  f ← aget ns.(cn_ftls) 0; Ok f.(cf_ssd).(sd_write_buffer).

(** [Released] is what a worker does with an internal operation:
    [buffer_release]. *)
Definition exec `{SsdConfig, ChanConfig, Clock} (ev : event) (st : conv_ns * hw) : res (conv_ns * hw) :=
  let '(ns, h) := st in
  match ev with
  | Command req =>
      '(ns, h, _, _) ← conv_proc_nvme_io_cmd ns req (Result 0 0) h; Ok (ns, h)
  | Released size =>
      wb ← wbuf_of ns;
      buf ← deref h.(hw_wbuf) wb;
      bufs ← store h.(hw_wbuf) wb (buffer_release buf size).1;
      Ok (ns, Hw h.(hw_tick) h.(hw_pcie) bufs h.(hw_sched))
  end.

Section run.
Context `{SC : SsdConfig, CC : ChanConfig, CK : Clock}.
Context (L : Z) (sp : ssdparams) (pc wb : option Z).

Lemma link_same h h' : h'.(hw_pcie) = h.(hw_pcie) -> link_ok pc h -> link_ok pc h'.
Proof using. unfold link_ok. by intros ->. Qed.

(** A flush reports a time at which every die is idle. *)
Lemma conv_flush_ok ns req h :
  ns_ok L sp pc wb ns -> link_ok pc h ->
  okp (conv_flush ns req h) (fun '(h', ret) => ret.(rs_status) = NVME_SC_SUCCESS /\
    hw_adv pc h h' /\ h'.(hw_pcie) = h.(hw_pcie) /\ local_clock h.(hw_tick) <= ret.(rs_nsecs_target) /\
    forall (i : Z) f c l n, ns.(cn_ftls) !! i = Some f -> lun_at f.(cf_ssd) c l = Some n ->
      n.(nl_next_lun_avail_time) <= ret.(rs_nsecs_target)).
Proof using.
  intros Hns Hl. pose proof (no_nr _ _ _ _ _ Hns) as [Hnr Hlen]. unfold conv_flush.
  apply okp_bind. eapply okp_mono.
  { apply (rfold_range _ (fun i '(h', t) => hw_adv pc h h' /\ h'.(hw_pcie) = h.(hw_pcie) /\
      local_clock h.(hw_tick) <= t /\
      forall (k : Z) f c l n, k < i -> ns.(cn_ftls) !! k = Some f -> lun_at f.(cf_ssd) c l = Some n ->
        n.(nl_next_lun_avail_time) <= t)); [lia| |].
    - split; [by apply hw_adv_refl|]. split; [done|]. split; [lia|]. intros k f c l n Hk Ek.
      apply zlookup_Some_range in Ek. lia.
    - intros i [h1 t] Hi (A1 & A2 & A3 & A4).
      destruct (ns_part L sp pc wb ns i Hns) as (f & Ef & [[Hf _ _ _ _ _ _ _] _] & _); [lia|].
      rewrite (aget_Some _ _ _ Ef), bind_Ok. apply okp_bind.
      eapply okp_mono; [apply ssd_next_idle_time_ok; apply (cv_dev _ _ _ Hf)|].
      intros [h2 t2] (-> & _ & B2 & _). simpl. split; [eapply hw_adv_trans; [exact A1|]|].
      { apply tick_adv. by eapply link_same. }
      split; [done|]. split; [lia|]. intros k g c l n Hk Ek En. destruct (decide (k = i)) as [->|].
      + assert (g = f) as -> by congruence. pose proof (B2 c l n En). lia.
      + assert (nl_next_lun_avail_time n <= t) by (eapply (A4 k); [lia|done..]). lia. }
  intros [h' t] (A1 & A2 & A3 & A4). simpl. split; [done|]. split; [done|]. split; [done|].
  split; [done|]. intros i f c l n Ei En. eapply A4; [|done|done]. apply zlookup_Some_range in Ei. lia.
Qed.

(** What a command needs: only a write has limits. *)
Definition within (nr : Z) (req : nvmev_request) : Prop :=
  req_ok req /\
  (req.(rq_cmd).(rw_opcode) = nvme_cmd_write ->
   LBA_TO_BYTE (req.(rq_cmd).(rw_length) + 1) <= GLOBAL_WB_SIZE /\ last_page_of sp req `div` nr < L).

Definition covers (ev : event) (lpn : Z) : Prop :=
  match ev with
  | Command req => req.(rq_cmd).(rw_opcode) = nvme_cmd_write /\ first_page sp req <= lpn <= last_page_of sp req
  | Released _ => False
  end.

(** A state of a run, in which the pages of [written] may be mapped. *)
Record run_ok (nr : Z) (written : Z -> Prop) (st : conv_ns * hw) : Prop := {
  ru_ns : ns_ok L sp pc wb st.1;
  ru_nr : st.1.(cn_nr_parts) = nr /\ st.1.(cn_csi) = NVME_CSI_NVM;
  ru_link : link_ok pc st.2;
  ru_buf : exists buf, deref st.2.(hw_wbuf) wb = Ok buf /\ buf.(bf_size) = GLOBAL_WB_SIZE /\
    0 <= buf.(bf_remaining) < 18446744073709551616;
  ru_mapped l : 0 <= l -> ns_mapped st.1 l -> written l
}.

Lemma run_ok_weaken nr (P Q : Z -> Prop) st : (forall l, P l -> Q l) -> run_ok nr P st -> run_ok nr Q st.
Proof using. intros Hpq [H1 H2 H3 H4 H5]. split; try done. intros l Hl Hm. by apply Hpq, H5. Qed.

(** What a command schedules: the releases of a write, at most one for a page;
    nothing when it is refused. *)
Definition scheduled (req : nvmev_request) (ok : bool) (h h' : hw) : Prop :=
  exists ops, h'.(hw_sched) = h.(hw_sched) ++ ops /\ Forall (releases sp req.(rq_sq_id) wb) ops /\
    (ok = false -> ops = []) /\
    (length ops <= if (rw_opcode (rq_cmd req) =? nvme_cmd_write)%Z then Z.to_nat (last_page_of sp req + 1 - first_page sp req) else 0)%nat.

Lemma scheduled_none req ok h h' : h'.(hw_sched) = h.(hw_sched) -> scheduled req ok h h'.
Proof using. intros E. exists []. rewrite app_nil_r. split; [done|]. split; [constructor|]. split; [done|simpl; lia]. Qed.

Lemma command_ok nr written req ret ns h :
  GLOBAL_WB_SIZE < 4294967296 -> run_ok nr written (ns, h) -> within nr req ->
  okp (conv_proc_nvme_io_cmd ns req ret h) (fun '(ns', h', _, ok) =>
    run_ok nr (fun l => written l \/ covers (Command req) l) (ns', h') /\ scheduled req ok h h').
Proof using.
  intros Hwb Hrun [Hreq Hwr]. pose proof Hrun as [Hns [Hnr Hcsi] Hl (buf & Hbuf & Hsz & Hrem) Hm].
  simpl in *. pose proof (no_nr _ _ _ _ _ Hns) as [Hnr0 Hlen]. unfold conv_proc_nvme_io_cmd.
  rewrite Hcsi. simpl. destruct (Z.eqb_spec (rw_opcode (rq_cmd req)) nvme_cmd_write) as [Ew|Ew].
  { destruct (Hwr Ew) as [Hfit Hlast]. eapply okp_mono.
    { eapply (conv_write_ok L sp pc wb); try done; [lia|]. by rewrite Hnr. }
    intros [[[ns' h'] ret'] [|]] (Hl' & Hok & Hpost); simpl.
    - destruct Hpost as (Hns' & (_ & E2 & _ & E4 & _) & _ & Hb' & (ops & O1 & O2 & O3) & _ & Hmap). split.
      + split; simpl; try done.
        * by rewrite E4, E2.
        * eexists. split; [exact Hb'|]. split; [done|]. simpl.
          pose proof (proj1 Hok eq_refl). pose proof (u64_range (Z.shiftl (rw_length (rq_cmd req) + 1) LBA_BITS)).
          unfold LBA_TO_BYTE in *. lia.
        * intros l Hl0 Hml. apply Hmap in Hml as [?|?]; [by right|left; by apply Hm|done].
      + exists ops. rewrite Ew. split; [done|]. split; [done|]. split; [done|].
        pose proof (zcount_range (finishes sp ns (first_page sp req)) (zrange (first_page sp req) (last_page_of sp req + 1))) as Hc.
        pose proof (req_pages sp req ltac:(by eapply ns_params) Hreq). rewrite zlen_zrange in Hc by lia. unfold zlen in O3. simpl. lia.
    - destruct Hpost as (-> & _ & Hs & Hb'). split; [|by apply scheduled_none].
      split; simpl; try done; [by exists buf|]. intros l Hl0 ?. left. by apply Hm. }
  destruct (Z.eqb_spec (rw_opcode (rq_cmd req)) nvme_cmd_read) as [Er|Er].
  { eapply okp_mono; [by eapply (conv_read_ok L sp pc wb)|].
    intros [[[ns' h'] ret'] ok] (_ & (ftls' & -> & Hat) & Hadv & _). simpl.
    destruct Hadv as (A1 & A2 & A3 & _). split; [|by apply scheduled_none]. split; simpl; try done.
    - by eapply all_ticked_ns_ok.
    - rewrite A2. by exists buf.
    - intros l Hl0 Hml. left. apply Hm; [done|]. by apply (all_ticked_mapped L sp pc wb ns ftls' l Hns Hat). }
  destruct (Z.eqb_spec (rw_opcode (rq_cmd req)) nvme_cmd_flush) as [Ef|Ef].
  { apply okp_bind. eapply okp_mono; [by apply conv_flush_ok|].
    intros [h' ret'] (_ & (A1 & A2 & A3 & _) & A4 & _). simpl. split; [|by apply scheduled_none]. split; simpl; try done.
    - rewrite A2. by exists buf.
    - intros l Hl0 Hml. left. by apply Hm. }
  simpl. split; [|by apply scheduled_none]. eapply run_ok_weaken; [|exact Hrun]. by left.
Qed.

Lemma exec_ok nr written ev st :
  GLOBAL_WB_SIZE < 4294967296 -> run_ok nr written st ->
  (forall req, ev = Command req -> within nr req) ->
  okp (exec ev st) (run_ok nr (fun l => written l \/ covers ev l)).
Proof using.
  intros Hwb Hrun Hev. destruct st as [ns h]. destruct ev as [req|size]; simpl.
  { apply okp_bind. eapply okp_mono; [by apply command_ok, Hev|]. by intros [[[ns' h'] ret'] ok] [H _]. }
  destruct Hrun as [Hns [Hnr Hcsi] Hl (buf & Hbuf & Hsz & Hrem) Hm]. simpl in *. pose proof (no_nr _ _ _ _ _ Hns) as [Hnr0 Hlen].
  unfold wbuf_of. destruct (ns_part L sp pc wb ns 0 Hns) as (f & Ef & _ & _ & _ & Ewb); [lia|].
  rewrite (aget_Some _ _ _ Ef). simpl. rewrite Ewb, Hbuf. simpl. apply okp_bind.
  eapply okp_mono; [by eapply store_ok|]. intros bufs (E1 & _). simpl.
  split; simpl; try done; [|by left; apply Hm]. eexists. split; [done|]. split; [done|]. apply u64_range.
Qed.

Lemma run_ok_all nr evs written st :
  GLOBAL_WB_SIZE < 4294967296 -> run_ok nr written st ->
  (forall req, Command req ∈ evs -> within nr req) ->
  okp (rfold exec evs st) (run_ok nr (fun l => written l \/ Exists (fun ev => covers ev l) evs)).
Proof using.
  intros Hwb. revert written st. induction evs as [|ev evs IH]; intros written st Hrun Hevs; simpl.
  { eapply run_ok_weaken; [|exact Hrun]. by left. }
  apply okp_bind. eapply okp_mono.
  { apply exec_ok; [done|exact Hrun|]. intros req ->. apply Hevs. by left. }
  intros st' Hst'. eapply okp_mono; [apply IH; [exact Hst'|]|].
  - intros req Hin. apply Hevs. by right.
  - intros st2 H2. eapply run_ok_weaken; [|exact H2]. intros l [[?|?]|?]; [by left|right; by left|right; by right].
Qed.
End run.

(** ** A session: a new namespace and what the host does with it *)

Section session.
Context `{SC : SsdConfig, CC : ChanConfig, CK : Clock}.

Definition session (id size addr cpu : Z) (h : hw) (evs : list event) : res (conv_ns * hw) :=
  '(ns, h) ← conv_init_namespace id size addr cpu h; rfold exec evs (ns, h).

(** The configuration and the size of the namespace are sound, and the host
    keeps to [L] pages of each partition: four lines of a partition and a page
    stay out of its reach. *)
Record session_ok (L size : Z) : Prop := {
  so_config : config_ok;
  so_fits : fits size SSD_PARTITIONS;
  so_planes : PLNS_PER_LUN = 1;
  so_parts : SSD_PARTITIONS < 4294967296;
  so_op : 0 <= OP_AREA_HUNDREDTHS < 1000000;
  so_wb : 0 <= GLOBAL_WB_SIZE < 4294967296;
  so_cap : 0 <= L < (part_blks size SSD_PARTITIONS - 4) *
    (LUNS_PER_NAND_CH * part_chs SSD_PARTITIONS * part_pgs size SSD_PARTITIONS)
}.

(** The page of a logical block, and the pages of a request. *)
Definition page_of (lba : Z) : Z := lba `div` (4096 `div` LBA_SIZE).

Definition is_write (req : nvmev_request) : Prop := req.(rq_cmd).(rw_opcode) = nvme_cmd_write.

Definition writes_page (req : nvmev_request) (lpn : Z) : Prop :=
  is_write req /\ page_of req.(rq_cmd).(rw_slba) <= lpn <=
    page_of (req.(rq_cmd).(rw_slba) + req.(rq_cmd).(rw_length)).

(** A request the host may send. *)
Definition host_ok (L : Z) (req : nvmev_request) : Prop :=
  req_ok req /\
  (is_write req -> LBA_TO_BYTE (req.(rq_cmd).(rw_length) + 1) <= GLOBAL_WB_SIZE /\
     page_of (req.(rq_cmd).(rw_slba) + req.(rq_cmd).(rw_length)) `div` SSD_PARTITIONS < L).

Lemma geometry_secs size n sp lba :
  config_ok -> geometry_of size n sp -> lba `div` sp.(secs_per_pg) = page_of lba.
Proof.
  intros Hc (Hp & _ & _ & _ & _ & _ & Hs & _). destruct (po_secs _ Hp) as [H1 H2].
  destruct (sector_split Hc) as (H3 & H4 & H5). unfold page_of. f_equal. rewrite Hs in H2. nia.
Qed.

(** A new namespace is in a state of a run, with no page written. *)
Lemma new_namespace_ok L id size addr cpu h :
  session_ok L size ->
  okp (conv_init_namespace id size addr cpu h) (fun st => exists sp p w,
    geometry_of size SSD_PARTITIONS sp /\ run_ok L sp (Some p) (Some w) SSD_PARTITIONS (fun _ => False) st).
Proof.
  intros [S1 S2 S3 S4 S5 S6 S7]. eapply okp_mono; [by apply (conv_init_namespace_ok L)|].
  intros [ns h'] (sp & p & w & Hgeo & Hns & Hl & Hb & Hun & Hcsi & Hnr & _). exists sp, p, w. split; [done|].
  split; simpl; try done; [|by intros l _ ?%Hun]. eexists. split; [exact Hb|]. split; [done|]. simpl. lia.
Qed.

Lemma session_spec L id size addr cpu h evs :
  session_ok L size -> (forall req, Command req ∈ evs -> host_ok L req) ->
  okp (session id size addr cpu h evs) (fun st => exists sp p w,
    geometry_of size SSD_PARTITIONS sp /\
    run_ok L sp (Some p) (Some w) SSD_PARTITIONS
      (fun l => exists req, Command req ∈ evs /\ writes_page req l) st).
Proof.
  intros Hs Hevs. pose proof (so_config _ _ Hs) as S1. pose proof (so_wb _ _ Hs) as S6. unfold session. apply okp_bind.
  eapply okp_mono; [by apply (new_namespace_ok L)|]. intros [ns h'] (sp & p & w & Hgeo & Hrun). eapply okp_mono.
  { apply (run_ok_all L sp (Some p) (Some w) SSD_PARTITIONS evs (fun _ => False)); [lia|exact Hrun|].
    intros req Hin. destruct (Hevs req Hin) as [Hr Hw]. split; [done|]. intros Ew.
    unfold last_page_of. rewrite (geometry_secs size SSD_PARTITIONS sp) by done. by apply Hw. }
  intros st Hst. exists sp, p, w. split; [done|]. eapply run_ok_weaken; [|exact Hst].
  intros l [[]|Hex]. apply Exists_exists in Hex as (ev & Hin & Hcov). destruct ev as [req|]; [|done].
  exists req. split; [done|]. destruct Hcov as [Hw Hpg]. split; [done|].
  unfold first_page, last_page_of in Hpg. by rewrite !(geometry_secs size SSD_PARTITIONS sp) in Hpg by done.
Qed.
End session.

Section remove.
Context `{SC : SsdConfig, CC : ChanConfig, CK : Clock}.

Lemma deref_kfree {A} (l l' : list (option A)) i x :
  deref l (Some i) = Ok x -> kfree l (Some i) = Ok l' -> deref l' (Some i) = Fault UseAfterFree.
Proof.
  intros Hx. unfold kfree. rewrite Hx. simpl. intros [= <-].
  apply deref_Some in Hx as (j & [= <-] & E). unfold deref, aget. simpl.
  by rewrite zlookup_zinsert_eq by (by eapply zlookup_Some_range).
Qed.

(** The removal frees the shared link and buffer once. *)
Lemma conv_remove_namespace_ok L sp p w ns h buf :
  ns_ok L sp (Some p) (Some w) ns -> link_ok (Some p) h -> deref h.(hw_wbuf) (Some w) = Ok buf ->
  ns.(cn_nr_parts) = SSD_PARTITIONS -> SSD_PARTITIONS < 4294967296 ->
  okp (conv_remove_namespace ns h) (fun h' =>
    deref h'.(hw_pcie) (Some p) = Fault UseAfterFree /\ deref h'.(hw_wbuf) (Some w) = Fault UseAfterFree /\
    (forall q, q <> Some p -> deref h'.(hw_pcie) q = deref h.(hw_pcie) q) /\
    (forall q, q <> Some w -> deref h'.(hw_wbuf) q = deref h.(hw_wbuf) q)).
Proof.
  intros Hns (m & Hm & _) Hbuf Enr Hlt. pose proof (no_nr _ _ _ _ _ Hns) as [Hnr Hlen].
  unfold conv_remove_namespace. unwrap. rewrite <- Enr. apply okp_bind. eapply okp_mono.
  { apply (rfold_range _ (fun i ftls => zlen ftls = ns.(cn_nr_parts) /\ forall (k : Z) f, ftls !! k = Some f ->
      if decide (1 <= k < i) then f.(cf_ssd).(sd_pcie) = None /\ f.(cf_ssd).(sd_write_buffer) = None
      else f.(cf_ssd).(sd_pcie) = Some p /\ f.(cf_ssd).(sd_write_buffer) = Some w)); [lia| |].
    - split; [done|]. intros k f E. rewrite decide_False by lia. by apply (no_part _ _ _ _ _ Hns k f).
    - intros i ftls Hi [S1 S2]. destruct (zlookup_lt ftls i) as [f E]; [lia|]. eapply amod_okp; [done|]. simpl.
      split; [by rewrite zlen_zinsert|]. intros k g. rewrite zlookup_zinsert by lia.
      destruct (decide (i = k)) as [<-|Hne].
      + intros [= <-]. by rewrite decide_True by lia.
      + intros Eg. pose proof (S2 k g Eg) as S3. destruct (decide (1 <= k < i)), (decide (1 <= k < i + 1)); (done || lia). }
  intros ftls [S1 S2]. rewrite zrange_S by lia. simpl.
  destruct (zlookup_lt ftls 0) as [f0 E0]; [lia|]. pose proof (S2 0 f0 E0) as S3. rewrite decide_False in S3 by lia.
  destruct S3 as [Epc Ewb]. rewrite (aget_Some _ _ _ E0), bind_Ok. unfold ssd_remove.
  destruct (okp_inv _ _ (kfree_ok h.(hw_wbuf) w buf Hbuf)) as (wbs & Ew & _ & W2).
  destruct (okp_inv _ _ (kfree_ok h.(hw_pcie) p m Hm)) as (pcs & Ep & _ & P2).
  rewrite Epc, Ewb, Ew, bind_Ok, Ep, !bind_Ok.
  apply (rfold_inv_const _ (fun h' => deref h'.(hw_pcie) (Some p) = Fault UseAfterFree /\
    deref h'.(hw_wbuf) (Some w) = Fault UseAfterFree /\
    (forall q, q <> Some p -> deref h'.(hw_pcie) q = deref h.(hw_pcie) q) /\
    (forall q, q <> Some w -> deref h'.(hw_wbuf) q = deref h.(hw_wbuf) q))).
  - split; [by eapply deref_kfree|]. split; [by eapply deref_kfree|]. done.
  - intros i h1 Hi%elem_of_zrange Hh1. destruct (zlookup_lt ftls i) as [f E]; [lia|].
    pose proof (S2 i f E) as S4. rewrite decide_True in S4 by lia. destruct S4 as [E1 E2].
    rewrite (aget_Some _ _ _ E). simpl. unfold ssd_remove. rewrite E1, E2. simpl. done.
Qed.
End remove.

(** ** The invariant of the conventional FTL, in the terms of its own functions

    [mapping_sound]: the two mapping tables are inverse to each other on the
    valid pages.  [lines_sound]: every line is in one place, the place says what
    its pages are, and the counters count.  Both follow from the invariant that
    every command keeps. *)

(** The status of the page at an address, as the code reads it. *)
Definition page_status (f : conv_ftl) (p : ppa) : res Z := g ← get_pg f.(cf_ssd) p; Ok g.(np_status).

Record mapping_sound (f : conv_ftl) : Prop := {
  ms_fwd lpn p : get_maptbl_ent f lpn = Ok p -> mapped_ppa p = true ->
    valid_ppa f p = true /\ page_status f p = Ok PG_VALID /\ get_rmap_ent f p = Ok lpn;
  ms_bwd p : in_dev (cf_sp f) p -> page_status f p = Ok PG_VALID ->
    exists lpn, get_rmap_ent f p = Ok lpn /\ get_maptbl_ent f lpn = Ok p
}.

#[global] Instance fault_eq_dec : EqDecision fault.
Proof. solve_decision. Defined.
#[global] Instance res_eq_dec {A} `{EqDecision A} : EqDecision (res A).
Proof. solve_decision. Defined.

(** The status of a page of a line. *)
Definition page_at (f : conv_ftl) (b : Z) (x : coord) : res Z := page_status f (ppa_at b x).

Record lines_sound (f : conv_ftl) : Prop := {
  ln_places : exists q, f.(cf_lm).(victim_line_pq) = Some q /\
    pqueue_is_valid q f.(cf_lm).(lm_lines) = Ok true /\
    f.(cf_lm).(free_line_list) ++ f.(cf_lm).(full_line_list) ++ pq_list q ++
      option_list f.(cf_wp).(wp_curline) ++ option_list f.(cf_gc_wp).(wp_curline)
      ≡ₚ zrange 0 (cf_sp f).(tt_lines) /\
    f.(cf_lm).(free_line_cnt) = zlen f.(cf_lm).(free_line_list) /\
    f.(cf_lm).(full_line_cnt) = zlen f.(cf_lm).(full_line_list) /\
    f.(cf_lm).(victim_line_cnt) = zlen (pq_list q) /\
    forall b x, b ∈ pq_list q -> in_line (cf_sp f) x ->
      page_at f b x = Ok PG_VALID \/ page_at f b x = Ok PG_INVALID;
  ln_counts b l : f.(cf_lm).(lm_lines) !! b = Some l ->
    l.(ln_vpc) = zcount (fun x => bool_decide (page_at f b x = Ok PG_VALID)) (coords (cf_sp f)) /\
    l.(ln_ipc) = zcount (fun x => bool_decide (page_at f b x = Ok PG_INVALID)) (coords (cf_sp f));
  ln_free b x : b ∈ f.(cf_lm).(free_line_list) -> in_line (cf_sp f) x -> page_at f b x = Ok PG_FREE;
  ln_full b x : b ∈ f.(cf_lm).(full_line_list) -> in_line (cf_sp f) x -> page_at f b x = Ok PG_VALID
}.

Section view.
Context `{CC : ChanConfig}.

Lemma page_status_at f b x :
  dev_ok f.(cf_ssd) -> at_page f b x -> page_status f (ppa_at b x) = Ok (pst f.(cf_ssd) b x).
Proof.
  intros Hd Hat. destruct (get_pg_ok f.(cf_ssd) b x) as (blk & g & _ & _ & _ & _ & Eg & Est);
    [apply Hd|by apply in_dev_at|]. unfold page_status. by rewrite Eg, Est.
Qed.

Lemma valid_ppa_in_dev f p : in_dev (cf_sp f) p -> valid_ppa f p = true.
Proof.
  intros (H1 & H2 & H3 & H4 & H5 & _). unfold valid_ppa.
  repeat (rewrite (proj2 (Z.ltb_ge _ _)) by lia; rewrite (proj2 (Z.leb_gt _ _)) by lia; simpl). done.
Qed.

Lemma in_dev_ppa_at_inv f p :
  dev_ok f.(cf_ssd) -> in_dev (cf_sp f) p ->
  exists b x, p = ppa_at b x /\ at_page f b x.
Proof.
  intros Hd (H1 & H2 & H3 & H4 & H5 & H6). pose proof (do_pls _ Hd) as Hpl. fold (cf_sp f) in Hpl.
  exists (p_blk p), (p_ch p, p_lun p, p_pg p). split; [|unfold at_page, in_line, c_ch, c_lun, c_pg; simpl; lia].
  destruct p; unfold ppa_at, c_ch, c_lun, c_pg; simpl in *. f_equal; lia.
Qed.

Lemma mapping_sound_ok f : conv_ok None None f -> maps_ok None [] None f -> mapping_sound f.
Proof.
  intros Hf Hm. pose proof (cv_dev _ _ _ Hf) as Hd. split.
  - intros lpn p Hp Hmap. unfold get_maptbl_ent, aget, of_opt in Hp.
    destruct (maptbl f !! lpn) as [p'|] eqn:E; [|done]. injection Hp as ->.
    destruct (mp_fwd _ _ _ _ Hm lpn p) as (b & x & Hat & -> & [Hlive _] & Hr); [done|done|done|].
    split; [by apply valid_ppa_in_dev, in_dev_at|]. rewrite page_status_at, Hlive by done.
    split; [done|]. by apply get_rmap_ent_ok.
  - intros p Hin Hst. destruct (in_dev_ppa_at_inv f p Hd Hin) as (b & x & -> & Hat).
    rewrite page_status_at in Hst by done. injection Hst as Hst.
    destruct (mp_bwd _ _ _ _ Hm b x Hat) as (lpn & _ & Hr & Et); [split; [done|by intros [? _]]|].
    exists lpn. split; [by apply get_rmap_ent_ok|by apply aget_Some].
Qed.

Lemma page_count_ok f b st :
  dev_ok f.(cf_ssd) -> 0 <= b < (cf_sp f).(blks_per_pl) ->
  zcount (fun x => bool_decide (page_at f b x = Ok st)) (coords (cf_sp f)) = line_count st f.(cf_ssd) b.
Proof.
  intros Hd Hb. apply zcount_ext. intros x Hx%elem_of_coords; [|apply Hd].
  unfold page_at. rewrite page_status_at by done. unfold is_st.
  destruct (Z.eqb_spec (pst (cf_ssd f) b x) st) as [->|Hne]; [by apply bool_decide_eq_true|].
  apply bool_decide_eq_false. congruence.
Qed.

Lemma lines_sound_ok f : conv_ok None None f -> lines_sound f.
Proof.
  intros Hf. pose proof (cv_dev _ _ _ Hf) as Hd. pose proof (cv_mgmt _ _ _ Hf) as Hm.
  destruct (mo_pq _ _ _ Hm) as (q & Eq & Hq & _).
  destruct (pq_list_spec _ _ Hq) as (Hnd & Hlen & Hin).
  assert (forall b, in_victims (cf_lm f) b <-> b ∈ pq_list q) as Hvic.
  { intros b. unfold in_victims. by rewrite Eq, Hin. }
  assert (forall b, in_victims (cf_lm f) b -> 0 <= b < (cf_sp f).(blks_per_pl)) as Hvr
    by (intros b; eapply mo_victim_range; done).
  assert (forall b x, 0 <= b < (cf_sp f).(blks_per_pl) -> in_line (cf_sp f) x ->
    page_at f b x = Ok (pst f.(cf_ssd) b x)) as Hpg by (intros; by apply page_status_at).
  assert (forall b, b ∈ elsewhere (held None f) (cf_lm f) -> 0 <= b < (cf_sp f).(blks_per_pl)) as Hre
    by apply Hm.
  split.
  - exists q. split; [done|]. split; [by apply pq_ok_valid|].
    split; [|split; [apply Hm|split; [apply Hm|split]]].
    + apply NoDup_Permutation.
      * pose proof (mo_nodup _ _ _ Hm) as Hn. unfold elsewhere, held in Hn. simpl in Hn. rewrite app_nil_r in Hn.
        rewrite (app_assoc (full_line_list _)), (Permutation_app_comm (full_line_list _)), <- app_assoc.
        rewrite (Permutation_app_swap_app (free_line_list _)). apply NoDup_app. split; [done|]. split; [|done].
        intros b Hb%Hvic. intros Hb2. eapply (mo_disj _ _ _ Hm b Hb). unfold elsewhere, held. simpl.
        by rewrite app_nil_r.
      * apply NoDup_zrange.
      * intros b. rewrite elem_of_zrange. 
        pose proof (po_tt_lines _ (do_params _ Hd)) as Htl. rewrite (do_pls _ Hd), Z.mul_1_r in Htl.
        fold (cf_sp f) in Htl. rewrite Htl.
        assert (b ∈ free_line_list (cf_lm f) ++ full_line_list (cf_lm f) ++ pq_list q ++
          option_list (wp_curline (cf_wp f)) ++ option_list (wp_curline (cf_gc_wp f)) <->
          b ∈ elsewhere (held None f) (cf_lm f) \/ in_victims (cf_lm f) b) as ->.
        { rewrite Hvic. unfold elsewhere, held. simpl. rewrite app_nil_r, !elem_of_app. tauto. }
        split; [intros [?|?]; auto|]. apply (mo_cover _ _ _ Hm).
    + by rewrite (mo_victim_cnt _ _ _ Hm q Eq), Hlen.
    + intros b x Hb Hx. apply Hvic in Hb. rewrite Hpg by auto.
      pose proof (cv_victim _ _ _ Hf b x Hb Hx). destruct (do_st _ Hd b x) as [?|[->| ->]]; [by auto|done|done|by right|by left].
  - intros b l E. destruct (cv_line _ _ _ Hf b l E) as [-> ->]; [done|].
    assert (0 <= b < blks_per_pl (cf_sp f)).
    { apply zlookup_Some_range in E. destruct (mo_len _ _ _ Hm) as [<- _]. done. }
    by rewrite !page_count_ok.
  - intros b x Hb Hx. rewrite Hpg; [|apply Hre; unfold elsewhere; rewrite !elem_of_app; by left|done].
    by rewrite (cv_free _ _ _ Hf b x Hb Hx).
  - intros b x Hb Hx. rewrite Hpg; [|apply Hre; unfold elsewhere; rewrite !elem_of_app; by right; left|done].
    by rewrite (cv_full _ _ _ Hf b x Hb Hx).
Qed.
End view.
