(* ===== verification/ZnsFtl.v ===== *)
(** * The zoned namespace: data and initialisation (zns_ftl.c, zns_ftl.h, nvme_zns.h)

    Zones, their descriptors, the counted zone resources, the parameters, and
    the conversions between blocks, pages, zones and dies, with the widths of
    the C expressions.  The zone write buffers and the ZRWA buffers are arrays
    of the store [hw_wbuf] of Ssd.v: element [i] of the array at [b] is the
    object [b + i].  [zf_storage] is the byte at each offset from
    [storage_base_addr].

    [ASSERT] is empty in nvmev.h, so [release_zone_resource] of a counter that
    is 0 wraps around. *)

From stdpp Require Import prelude list.
From Stdlib Require Import ZArith Lia.
From S2P Require Import Prelude Mem ChannelModel SsdConfig Ssd ConvFtl.

(** ** Configuration of the zoned targets *)

Class ZnsConfig := {
  ZONE_SIZE : Z;
  DIES_PER_ZONE : Z;
  ZONE_WB_SIZE : Z;
  MAX_ZRWA_ZONES : Z;
  ZRWAFG_SIZE : Z;
  ZRWA_SIZE : Z;
  ZRWA_BUFFER_SIZE : Z
}.

Definition zns_prototype_zones : ZnsConfig := {|
  ZONE_SIZE := MB 32; DIES_PER_ZONE := 1; ZONE_WB_SIZE := 0;
  MAX_ZRWA_ZONES := 0; ZRWAFG_SIZE := 0; ZRWA_SIZE := 0; ZRWA_BUFFER_SIZE := 0
|}.

Definition wd_zn540_zones : ZnsConfig := {|
  ZONE_SIZE := GB 2; DIES_PER_ZONE := 8 * 4; ZONE_WB_SIZE := 10 * (KB 32 * 3);
  MAX_ZRWA_ZONES := 0; ZRWAFG_SIZE := 0; ZRWA_SIZE := 0; ZRWA_BUFFER_SIZE := 0
|}.

(** ** Data *)

Inductive zone_state :=
| ZONE_STATE_EMPTY
| ZONE_STATE_OPENED_IMPL
| ZONE_STATE_OPENED_EXPL
| ZONE_STATE_CLOSED
| ZONE_STATE_READ_ONLY
| ZONE_STATE_FULL
| ZONE_STATE_OFFLINE.

#[global] Instance zone_state_eq_dec : EqDecision zone_state.
Proof. solve_decision. Defined.

Inductive zone_resource_type := ACTIVE_ZONE | OPEN_ZONE | ZRWA_ZONE.

#[global] Instance zone_resource_type_eq_dec : EqDecision zone_resource_type.
Proof. solve_decision. Defined.

Record zone_descriptor := ZoneDescriptor {
  zd_type : Z; zd_state : zone_state; zd_zrwav : Z;
  zd_zone_capacity : Z; zd_zslba : Z; zd_wp : Z
}.

Definition ZONE_TYPE_SEQ_WRITE_REQUIRED : Z := 2.

Definition zone_state_code (s : zone_state) : Z :=
  match s with
  | ZONE_STATE_EMPTY => 1 | ZONE_STATE_OPENED_IMPL => 2 | ZONE_STATE_OPENED_EXPL => 3 | ZONE_STATE_CLOSED => 4
  | ZONE_STATE_READ_ONLY => 13 | ZONE_STATE_FULL => 14 | ZONE_STATE_OFFLINE => 15
  end.

(** The 64 bytes of a descriptor: [type] and [state] are the halves of the first two
    bytes, [zrwav] is the bit 3 of [za], and what nothing sets is zero. *)
Definition descriptor_bytes (d : zone_descriptor) : list Z :=
  [d.(zd_type); 16 * zone_state_code d.(zd_state); 8 * d.(zd_zrwav); 0] ++ le_encode 4 0 ++
  le_encode 8 d.(zd_zone_capacity) ++ le_encode 8 d.(zd_zslba) ++ le_encode 8 d.(zd_wp) ++ zrepeat 32 0.

(** A descriptor that no report has written yet is [None]: the report buffer is not
    cleared when it is allocated.  [nr_zones] is written by every report. *)
Record zone_report := ZoneReport { zr_nr_zones : Z; zr_zd : list (option zone_descriptor) }.

Record znsparams := ZnsParams {
  nr_zones : Z;
  nr_active_zones : Z;
  nr_open_zones : Z;
  dies_per_zone : Z;
  zone_size : Z;
  zone_wb_size : Z;
  nr_zrwa_zones : Z;
  zrwafg_size : Z;
  zrwa_size : Z;
  zrwa_buffer_size : Z;
  lbas_per_zrwafg : Z;
  lbas_per_zrwa : Z
}.

Record zone_resource_info := ResInfo { acquired_cnt : Z; total_cnt : Z }.

Record res_table := ResTable { ri_active : zone_resource_info; ri_open : zone_resource_info; ri_zrwa : zone_resource_info }.

Definition get_res (t : zone_resource_type) (r : res_table) : zone_resource_info :=
  match t with ACTIVE_ZONE => r.(ri_active) | OPEN_ZONE => r.(ri_open) | ZRWA_ZONE => r.(ri_zrwa) end.

Definition set_res (t : zone_resource_type) (x : zone_resource_info) (r : res_table) : res_table :=
  match t with
  | ACTIVE_ZONE => ResTable x r.(ri_open) r.(ri_zrwa)
  | OPEN_ZONE => ResTable r.(ri_active) x r.(ri_zrwa)
  | ZRWA_ZONE => ResTable r.(ri_active) r.(ri_open) x
  end.

Record zns_ftl := ZnsFtl {
  zf_ssd : ssd;
  zp : znsparams;
  res_infos : res_table;
  zone_descs : list zone_descriptor;
  report_buffer : zone_report;
  zone_write_buffer : option Z;
  zrwa_buffer : option Z;
  zf_storage : Z -> Z
}.

Definition zf_sp (f : zns_ftl) : ssdparams := f.(zf_ssd).(sd_sp).

(** Assignments to one member. *)
Definition with_zssd (f : zns_ftl) (s : ssd) : zns_ftl :=
  ZnsFtl s f.(zp) f.(res_infos) f.(zone_descs) f.(report_buffer) f.(zone_write_buffer) f.(zrwa_buffer) f.(zf_storage).
Definition with_res (f : zns_ftl) (r : res_table) : zns_ftl :=
  ZnsFtl f.(zf_ssd) f.(zp) r f.(zone_descs) f.(report_buffer) f.(zone_write_buffer) f.(zrwa_buffer) f.(zf_storage).
Definition with_descs (f : zns_ftl) (d : list zone_descriptor) : zns_ftl :=
  ZnsFtl f.(zf_ssd) f.(zp) f.(res_infos) d f.(report_buffer) f.(zone_write_buffer) f.(zrwa_buffer) f.(zf_storage).
Definition with_report (f : zns_ftl) (r : zone_report) : zns_ftl :=
  ZnsFtl f.(zf_ssd) f.(zp) f.(res_infos) f.(zone_descs) r f.(zone_write_buffer) f.(zrwa_buffer) f.(zf_storage).
Definition with_storage (f : zns_ftl) (m : Z -> Z) : zns_ftl :=
  ZnsFtl f.(zf_ssd) f.(zp) f.(res_infos) f.(zone_descs) f.(report_buffer) f.(zone_write_buffer) f.(zrwa_buffer) m.

Definition set_state (st : zone_state) (d : zone_descriptor) : zone_descriptor :=
  ZoneDescriptor d.(zd_type) st d.(zd_zrwav) d.(zd_zone_capacity) d.(zd_zslba) d.(zd_wp).
Definition set_zrwav (z : Z) (d : zone_descriptor) : zone_descriptor :=
  ZoneDescriptor d.(zd_type) d.(zd_state) z d.(zd_zone_capacity) d.(zd_zslba) d.(zd_wp).
Definition set_wp_lba (wp : Z) (d : zone_descriptor) : zone_descriptor :=
  ZoneDescriptor d.(zd_type) d.(zd_state) d.(zd_zrwav) d.(zd_zone_capacity) d.(zd_zslba) wp.

Definition mod_desc (f : zns_ftl) (zid : Z) (g : zone_descriptor -> zone_descriptor) : res zns_ftl :=
  d ← amod f.(zone_descs) zid (fun d => Ok (g d)); Ok (with_descs f d).

(** ** Resources and states *)

Definition is_zone_resource_avail (f : zns_ftl) (t : zone_resource_type) : bool :=
  let r := get_res t f.(res_infos) in r.(acquired_cnt) <? r.(total_cnt).

Definition is_zone_resource_full (f : zns_ftl) (t : zone_resource_type) : bool :=
  let r := get_res t f.(res_infos) in r.(acquired_cnt) =? r.(total_cnt).

Definition acquire_zone_resource (f : zns_ftl) (t : zone_resource_type) : zns_ftl * bool :=
  if is_zone_resource_avail f t then
    let r := get_res t f.(res_infos) in
    (with_res f (set_res t (ResInfo (u32 (r.(acquired_cnt) + 1)) r.(total_cnt)) f.(res_infos)), true)
  else (f, false).

Definition release_zone_resource (f : zns_ftl) (t : zone_resource_type) : zns_ftl :=
  let r := get_res t f.(res_infos) in
  with_res f (set_res t (ResInfo (u32 (r.(acquired_cnt) - 1)) r.(total_cnt)) f.(res_infos)).

Definition change_zone_state (f : zns_ftl) (zid : Z) (st : zone_state) : res zns_ftl :=
  mod_desc f zid (set_state st).

(** ** Conversions *)

Definition get_storage_addr_from_zid (f : zns_ftl) (zid : Z) : Z := u64 (zid * f.(zp).(zone_size)).

Definition lpn_to_zone (f : zns_ftl) (lpn : Z) : res Z :=
  pgs ← cdiv f.(zp).(zone_size) (zf_sp f).(pgsz); z ← cdiv lpn pgs; Ok (u32 z).

Definition zone_to_slpn (f : zns_ftl) (zid : Z) : res Z :=
  pgs ← cdiv f.(zp).(zone_size) (zf_sp f).(pgsz); Ok (u32 (u32 zid * pgs)).

Definition lba_to_zone (f : zns_ftl) (lba : Z) : res Z :=
  lbas ← cdiv f.(zp).(zone_size) (zf_sp f).(secsz); z ← cdiv lba lbas; Ok (u32 z).

Definition zone_to_slba (f : zns_ftl) (zid : Z) : res Z :=
  lbas ← cdiv f.(zp).(zone_size) (zf_sp f).(secsz); Ok (u32 (u32 zid * lbas)).

Definition zone_to_elba (f : zns_ftl) (zid : Z) : res Z :=
  slba ← zone_to_slba f (u32 (zid + 1)); Ok (u64 (slba - 1)).

Definition zone_to_elpn (f : zns_ftl) (zid : Z) : res Z :=
  elba ← zone_to_elba f zid; cdiv elba (zf_sp f).(secs_per_pg).

Definition die_to_channel (f : zns_ftl) (die : Z) : res Z := cmod die (zf_sp f).(nchs).
Definition die_to_lun (f : zns_ftl) (die : Z) : res Z := cdiv die (zf_sp f).(nchs).
Definition lba_to_lpn (f : zns_ftl) (lba : Z) : res Z := cdiv lba (zf_sp f).(secs_per_pg).

(** ** Initialisation *)

Section init.
Context `{SsdConfig, ZnsConfig}.

(** [&array[i]] of an array of the store. *)
Definition elem_ptr (base : option Z) (i : Z) : option Z := (fun b => b + i) <$> base.

(** [kmalloc(sizeof(struct buffer) * n)], initialised by [buffer_init]. *)
Definition new_buffers (n size : Z) (h : hw) : option Z * hw :=
  (Some (zlen h.(hw_wbuf)),
   Hw h.(hw_tick) h.(hw_pcie) (h.(hw_wbuf) ++ zrepeat n (Some (buffer_init size))) h.(hw_sched)).

Definition kfree_buffers (base : option Z) (n : Z) (l : list (option buffer)) : res (list (option buffer)) :=
  rfold (fun i l => kfree l (elem_ptr base i)) (zrange 0 n) l.

Definition blank_descriptor : zone_descriptor := ZoneDescriptor 0 ZONE_STATE_EMPTY 0 0 0 0.

Definition __init_descriptor (f : zns_ftl) (h : hw) : res (zns_ftl * hw) :=
  let n := f.(zp).(nr_zones) in
  let '(zrwa, h) := if f.(zp).(zrwa_buffer_size) =? 0 then (f.(zrwa_buffer), h)
                    else new_buffers n f.(zp).(zrwa_buffer_size) h in
  let '(zwb, h) := if f.(zp).(zone_wb_size) =? 0 then (f.(zone_write_buffer), h)
                   else new_buffers n f.(zp).(zone_wb_size) h in
  '(descs, _) ← rfold (fun i '(descs, zslba) =>
      descs ← aset descs i (ZoneDescriptor ZONE_TYPE_SEQ_WRITE_REQUIRED ZONE_STATE_EMPTY 0
                              (BYTE_TO_LBA f.(zp).(zone_size)) zslba zslba);
      Ok (descs, u64 (zslba + BYTE_TO_LBA f.(zp).(zone_size))))
    (zrange 0 n) (zrepeat n blank_descriptor, 0);
  Ok (ZnsFtl f.(zf_ssd) f.(zp) f.(res_infos) descs (ZoneReport 0 (zrepeat (n + 1) None))
        zwb zrwa f.(zf_storage), h).

Definition __remove_descriptor (f : zns_ftl) (h : hw) : res hw :=
  l ← (if f.(zp).(zrwa_buffer_size) =? 0 then Ok h.(hw_wbuf)
       else kfree_buffers f.(zrwa_buffer) f.(zp).(nr_zones) h.(hw_wbuf));
  l ← (if f.(zp).(zone_wb_size) =? 0 then Ok l
       else kfree_buffers f.(zone_write_buffer) f.(zp).(nr_zones) l);
  Ok (Hw h.(hw_tick) h.(hw_pcie) l h.(hw_sched)).

Definition __init_resource (f : zns_ftl) : zns_ftl :=
  let all := ResInfo 0 f.(zp).(nr_zones) in with_res f (ResTable all all all).

Definition zns_init_params (spp : ssdparams) (capacity : Z) : res znsparams :=
  zones ← cdiv capacity ZONE_SIZE;
  zrwa ← cdiv ZRWA_SIZE spp.(secsz);
  zrwafg ← cdiv ZRWAFG_SIZE spp.(secsz);
  let zpp := {| zone_size := u32 ZONE_SIZE; nr_zones := u32 zones; dies_per_zone := u32 DIES_PER_ZONE;
    nr_active_zones := u32 zones; nr_open_zones := u32 zones; nr_zrwa_zones := u32 MAX_ZRWA_ZONES;
    zone_wb_size := u32 ZONE_WB_SIZE; zrwa_size := u32 ZRWA_SIZE; zrwafg_size := u32 ZRWAFG_SIZE;
    zrwa_buffer_size := u32 ZRWA_BUFFER_SIZE; lbas_per_zrwa := u32 zrwa; lbas_per_zrwafg := u32 zrwafg |} in
  r ← cmod capacity zpp.(zone_size);
  _ ← nvmev_assert (r =? 0);
  r ← cmod zpp.(zone_size) spp.(pgsz);
  _ ← nvmev_assert (r =? 0);
  Ok zpp.

Definition zns_init_ftl (zpp : znsparams) (s : ssd) (mapped : Z -> Z) (h : hw) : res (zns_ftl * hw) :=
  let none := ResInfo 0 0 in
  let f := ZnsFtl s zpp (ResTable none none none) [] (ZoneReport 0 []) None None mapped in
  '(f, h) ← __init_descriptor f h;
  Ok (__init_resource f, h).

Definition NVME_CSI_ZNS : Z := 2.

Record zns_ns := ZnsNs { zn_id : Z; zn_csi : Z; zn_size : Z; zn_nr_parts : Z; zn_ftl : zns_ftl }.

Definition with_ftl (ns : zns_ns) (f : zns_ftl) : zns_ns :=
  ZnsNs ns.(zn_id) ns.(zn_csi) ns.(zn_size) ns.(zn_nr_parts) f.

Definition zns_init_namespace `{ChanConfig} (id size : Z) (mapped : Z -> Z) (cpu_nr_dispatcher : Z) (h : hw) :
    res (zns_ns * hw) :=
  let nr_parts := 1 in
  spp ← ssd_init_params size nr_parts;
  '(s, h) ← ssd_init spp cpu_nr_dispatcher h;
  zpp ← zns_init_params spp size;
  '(f, h) ← zns_init_ftl zpp s mapped h;
  Ok ({| zn_id := id; zn_csi := NVME_CSI_ZNS; zn_nr_parts := nr_parts; zn_ftl := f; zn_size := size |}, h).

Definition zns_remove_namespace (ns : zns_ns) (h : hw) : res hw :=
  h ← ssd_remove ns.(zn_ftl).(zf_ssd) h;
  __remove_descriptor ns.(zn_ftl) h.
End init.
