(* ===== verification/ZnsMgmt.v ===== *)
(** * Zone management (zns_mgmt_send.c, zns_mgmt_recv.c)

    The state machine of a zone as the five actions and the explicit ZRWA flush
    implement it, and the zone report with its transfer to the pages that the
    command's PRP entries name.

    A command is its dwords: [DW12] and [DW13] with the fields of the structure
    that views them. *)

From stdpp Require Import prelude list.
From Stdlib Require Import ZArith Lia.
From S2P Require Import Prelude Mem Prp ChannelModel SsdConfig Ssd ConvFtl ZnsFtl.

(** ** Status codes *)

Definition NVME_SC_INVALID_FIELD : Z := 2.
Definition NVME_SC_ZNS_INVALID_ZONE_OPERATION : Z := 438.
Definition NVME_SC_ZNS_ZRWA_RSRC_UNAVAIL : Z := 439.
Definition NVME_SC_ZNS_ERR_BOUNDARY : Z := 440.
Definition NVME_SC_ZNS_ERR_FULL : Z := 441.
Definition NVME_SC_ZNS_ERR_READ_ONLY : Z := 442.
Definition NVME_SC_ZNS_ERR_OFFLINE : Z := 443.
Definition NVME_SC_ZNS_INVALID_WRITE : Z := 444.
Definition NVME_SC_ZNS_NO_ACTIVE_ZONE : Z := 445.
Definition NVME_SC_ZNS_NO_OPEN_ZONE : Z := 446.
Definition NVME_SC_ZNS_INVALID_TRANSITION : Z := 447.

(** ** Commands *)

Record zns_command := ZnsCommand {
  zc_opcode : Z; zc_prp1 : Z; zc_prp2 : Z; zc_slba : Z; zc_DW12 : Z; zc_DW13 : Z
}.

Record zns_request := ZnsRequest { zq_cmd : zns_command; zq_sq_id : Z; zq_nsecs_start : Z }.

Definition zc_length (c : zns_command) : Z := c.(zc_DW12) `mod` 65536.
Definition zc_control (c : zns_command) : Z := (c.(zc_DW12) `div` 65536) `mod` 65536.
Definition zc_zsa (c : zns_command) : Z := c.(zc_DW13) `mod` 256.
Definition zc_select_all (c : zns_command) : Z := (c.(zc_DW13) `div` 256) `mod` 2.
Definition zc_zsaso (c : zns_command) : Z := (c.(zc_DW13) `div` 512) `mod` 2.
Definition zc_nr_dw (c : zns_command) : Z := c.(zc_DW12).
Definition zc_zra (c : zns_command) : Z := c.(zc_DW13) `mod` 256.
Definition zc_zra_specific_field (c : zns_command) : Z := (c.(zc_DW13) `div` 256) `mod` 256.
Definition zc_zra_specific_features (c : zns_command) : Z := (c.(zc_DW13) `div` 65536) `mod` 2.

Definition ZSA_CLOSE_ZONE : Z := 1.
Definition ZSA_FINISH_ZONE : Z := 2.
Definition ZSA_OPEN_ZONE : Z := 3.
Definition ZSA_RESET_ZONE : Z := 4.
Definition ZSA_OFFLINE_ZONE : Z := 5.
Definition ZSA_FLUSH_EXPL_ZRWA : Z := 17.

(** ** The actions *)

Definition __zmgmt_send_close_zone (f : zns_ftl) (zid : Z) : res (zns_ftl * Z) :=
  d ← aget f.(zone_descs) zid;
  match d.(zd_state) with
  | ZONE_STATE_OPENED_IMPL | ZONE_STATE_OPENED_EXPL =>
      f ← change_zone_state f zid ZONE_STATE_CLOSED;
      Ok (release_zone_resource f OPEN_ZONE, NVME_SC_SUCCESS)
  | ZONE_STATE_CLOSED => Ok (f, NVME_SC_SUCCESS)
  | _ => Ok (f, NVME_SC_ZNS_INVALID_TRANSITION)
  end.

(** The resources of a zone that leaves the open and closed states: the labels
    OPENED and CLOSED that finish and reset share. *)
Definition release_opened (f : zns_ftl) (d : zone_descriptor) : zns_ftl :=
  match d.(zd_state) with
  | ZONE_STATE_OPENED_IMPL | ZONE_STATE_OPENED_EXPL => release_zone_resource f OPEN_ZONE
  | _ => f
  end.

Definition release_active (f : zns_ftl) (d : zone_descriptor) : zns_ftl :=
  match d.(zd_state) with
  | ZONE_STATE_OPENED_IMPL | ZONE_STATE_OPENED_EXPL | ZONE_STATE_CLOSED =>
      let f := release_zone_resource f ACTIVE_ZONE in
      if negb (d.(zd_zrwav) =? 0) then release_zone_resource f ZRWA_ZONE else f
  | _ => f
  end.

Definition __zmgmt_send_finish_zone (f : zns_ftl) (zid : Z) : res (zns_ftl * Z) :=
  d ← aget f.(zone_descs) zid;
  match d.(zd_state) with
  | ZONE_STATE_OPENED_IMPL | ZONE_STATE_OPENED_EXPL | ZONE_STATE_CLOSED | ZONE_STATE_EMPTY =>
      f ← change_zone_state (release_active (release_opened f d) d) zid ZONE_STATE_FULL;
      Ok (f, NVME_SC_SUCCESS)
  | ZONE_STATE_FULL => Ok (f, NVME_SC_SUCCESS)
  | _ => Ok (f, NVME_SC_ZNS_INVALID_TRANSITION)
  end.

(** The case [ZONE_STATE_CLOSED] of the open action, which [EMPTY] falls into. *)
Definition open_closed (f : zns_ftl) (zid : Z) : res (zns_ftl * Z) :=
  let '(f, got) := acquire_zone_resource f OPEN_ZONE in
  if negb got then Ok (f, NVME_SC_ZNS_NO_OPEN_ZONE) else
  f ← change_zone_state f zid ZONE_STATE_OPENED_EXPL;
  Ok (f, NVME_SC_SUCCESS).

Definition __zmgmt_send_open_zone (f : zns_ftl) (zid zrwa : Z) : res (zns_ftl * Z) :=
  d ← aget f.(zone_descs) zid;
  match d.(zd_state) with
  | ZONE_STATE_EMPTY =>
      if is_zone_resource_full f ACTIVE_ZONE then Ok (f, NVME_SC_ZNS_NO_ACTIVE_ZONE) else
      if is_zone_resource_full f OPEN_ZONE then Ok (f, NVME_SC_ZNS_NO_OPEN_ZONE) else
      if zrwa =? 0 then open_closed (acquire_zone_resource f ACTIVE_ZONE).1 zid
      else
        if is_zone_resource_full f ZRWA_ZONE then Ok (f, NVME_SC_ZNS_ZRWA_RSRC_UNAVAIL) else
        f ← mod_desc (acquire_zone_resource f ZRWA_ZONE).1 zid (set_zrwav 1);
        open_closed (acquire_zone_resource f ACTIVE_ZONE).1 zid
  | ZONE_STATE_CLOSED => open_closed f zid
  | ZONE_STATE_OPENED_IMPL =>
      f ← change_zone_state f zid ZONE_STATE_OPENED_EXPL; Ok (f, NVME_SC_SUCCESS)
  | ZONE_STATE_OPENED_EXPL => Ok (f, NVME_SC_SUCCESS)
  | _ => Ok (f, NVME_SC_ZNS_INVALID_TRANSITION)
  end.

Definition zero_range (from len : Z) (m : Z -> Z) : Z -> Z :=
  fun a => if decide (from <= a < from + len) then 0 else m a.

Definition __reset_zone (f : zns_ftl) (zid : Z) (h : hw) : res (zns_ftl * hw) :=
  let f := with_storage f (zero_range (get_storage_addr_from_zid f zid) f.(zp).(zone_size) f.(zf_storage)) in
  f ← mod_desc f zid (fun d => set_zrwav 0 (set_wp_lba d.(zd_zslba) d));
  if f.(zp).(zrwa_buffer_size) =? 0 then Ok (f, h) else
  let p := elem_ptr f.(zrwa_buffer) zid in
  buf ← deref h.(hw_wbuf) p;
  bufs ← store h.(hw_wbuf) p (buffer_refill buf);
  Ok (f, Hw h.(hw_tick) h.(hw_pcie) bufs h.(hw_sched)).

Definition __zmgmt_send_reset_zone (f : zns_ftl) (zid : Z) (h : hw) : res (zns_ftl * hw * Z) :=
  d ← aget f.(zone_descs) zid;
  match d.(zd_state) with
  | ZONE_STATE_OPENED_IMPL | ZONE_STATE_OPENED_EXPL | ZONE_STATE_CLOSED
  | ZONE_STATE_FULL | ZONE_STATE_EMPTY =>
      f ← change_zone_state (release_active (release_opened f d) d) zid ZONE_STATE_EMPTY;
      '(f, h) ← __reset_zone f zid h;
      Ok (f, h, NVME_SC_SUCCESS)
  | _ => Ok (f, h, NVME_SC_ZNS_INVALID_TRANSITION)
  end.

Definition __zmgmt_send_offline_zone (f : zns_ftl) (zid : Z) : res (zns_ftl * Z) :=
  d ← aget f.(zone_descs) zid;
  match d.(zd_state) with
  | ZONE_STATE_READ_ONLY =>
      f ← change_zone_state f zid ZONE_STATE_OFFLINE; Ok (f, NVME_SC_SUCCESS)
  | ZONE_STATE_OFFLINE => Ok (f, NVME_SC_SUCCESS)
  | _ => Ok (f, NVME_SC_ZNS_INVALID_TRANSITION)
  end.

Definition __zmgmt_send_flush_explicit_zrwa (f : zns_ftl) (slba : Z) : res (zns_ftl * Z) :=
  zid ← lba_to_zone f slba;
  d ← aget f.(zone_descs) zid;
  let wp := d.(zd_wp) in
  zslba ← zone_to_slba f zid;
  let zone_capacity := d.(zd_zone_capacity) in
  let lbas_per_zrwafg := f.(zp).(lbas_per_zrwafg) in
  let lbas_per_zrwa := f.(zp).(lbas_per_zrwa) in
  let zrwa_start := wp in
  let zrwa_end := Z.min (u64 (u64 (zrwa_start + lbas_per_zrwa) - 1)) (u64 (u64 (zslba + zone_capacity) - 1)) in
  let nr_lbas_flush := u64 (u64 (slba - wp) + 1) in
  if d.(zd_zrwav) =? 0 then Ok (f, NVME_SC_ZNS_INVALID_ZONE_OPERATION) else
  if negb ((zrwa_start <=? slba) && (slba <=? zrwa_end)) then Ok (f, NVME_SC_ZNS_INVALID_ZONE_OPERATION) else
  r ← cmod nr_lbas_flush lbas_per_zrwafg;
  if negb (r =? 0) then Ok (f, NVME_SC_INVALID_FIELD) else
  match d.(zd_state) with
  | ZONE_STATE_OPENED_EXPL | ZONE_STATE_OPENED_IMPL | ZONE_STATE_CLOSED =>
      let wp := u64 (slba + 1) in
      f ← mod_desc f zid (set_wp_lba wp);
      if wp =? u64 (zslba + zone_capacity) then
        let f := if decide (d.(zd_state) = ZONE_STATE_CLOSED) then f else release_zone_resource f OPEN_ZONE in
        let f := release_zone_resource (release_zone_resource f ACTIVE_ZONE) ZRWA_ZONE in
        f ← change_zone_state f zid ZONE_STATE_FULL;
        Ok (f, NVME_SC_SUCCESS)
      else Ok (f, NVME_SC_SUCCESS)
  | _ => Ok (f, NVME_SC_ZNS_INVALID_ZONE_OPERATION)
  end.

(** The status is [None], uninitialised, for an action the switch lacks. *)
Definition __zmgmt_send (f : zns_ftl) (slba action opt : Z) (h : hw) : res (zns_ftl * hw * option Z) :=
  zid ← lba_to_zone f slba;
  let with_hw (r : res (zns_ftl * Z)) : res (zns_ftl * hw * option Z) :=
    '(f, st) ← r; Ok (f, h, Some st) in
  if action =? ZSA_CLOSE_ZONE then with_hw (__zmgmt_send_close_zone f zid)
  else if action =? ZSA_FINISH_ZONE then with_hw (__zmgmt_send_finish_zone f zid)
  else if action =? ZSA_OPEN_ZONE then with_hw (__zmgmt_send_open_zone f zid opt)
  else if action =? ZSA_RESET_ZONE then
    '(f, h, st) ← __zmgmt_send_reset_zone f zid h; Ok (f, h, Some st)
  else if action =? ZSA_OFFLINE_ZONE then with_hw (__zmgmt_send_offline_zone f zid)
  else if action =? ZSA_FLUSH_EXPL_ZRWA then with_hw (__zmgmt_send_flush_explicit_zrwa f slba)
  else Ok (f, h, None).

Definition zns_zmgmt_send (ns : zns_ns) (req : zns_request) (h : hw) : res (zns_ns * hw * nvmev_result) :=
  let f := ns.(zn_ftl) in
  let cmd := req.(zq_cmd) in
  let action := zc_zsa cmd in
  let opt := zc_zsaso cmd in
  let slba := cmd.(zc_slba) in
  _ ← lba_to_zone f slba;
  '(f, h, status) ← (if negb (zc_select_all cmd =? 0) then
      '(f, h) ← rfold (fun zid '(f, h) =>
          zslba ← zone_to_slba f zid;
          '(f, h, _) ← __zmgmt_send f zslba action opt h;
          Ok (f, h)) (zrange 0 f.(zp).(nr_zones)) (f, h);
      Ok (f, h, NVME_SC_SUCCESS)
    else
      '(f, h, st) ← __zmgmt_send f slba action opt h;
      st ← of_opt Uninit st;
      Ok (f, h, st));
  Ok (with_ftl ns f, h, Result status req.(zq_nsecs_start)).

(** ** The zone report *)

Section recv.
(** [garbage] is what the memory of the report holds where it was never written. *)
Context (garbage : mem).

Definition sizeof_zone_descriptor : Z := 64.
Definition sizeof_zone_report : Z := 128.

Definition bytes_transfer (cmd : zns_command) : Z := u32 (zc_nr_dw cmd + 1) * 4.

(** The memory of the report: [nr_zones], 56 reserved bytes, and the descriptors. *)
Definition report_mem (r : zone_report) : mem := fun i =>
  if i <? 8 then default 0 (le_encode 8 r.(zr_nr_zones) !! i)
  else if i <? 64 then garbage i
  else match r.(zr_zd) !! ((i - 64) `div` 64) with
       | Some (Some d) => default 0 (descriptor_bytes d !! ((i - 64) `mod` 64))
       | _ => garbage i
       end.

(** The transfer of [length] bytes of [buffer], which has [size], to the memory of the
    host.  Every call is the output of a report, [io] is 0. *)
Definition __prp_transfer_data (prp1 prp2 : Z) (buffer : mem) (size length : Z) (m : mem) : res mem :=
  prp_walk kmap_list u64_at (fun paddr offset io_size m =>
    if size <? offset + io_size then Fault OutOfBounds else Ok (mcopy m paddr buffer offset io_size))
    prp1 prp2 length m.

(** [memcpy(&dst[0], &src[from], n)] on descriptors. *)
Definition copy_descs (src : list zone_descriptor) (from n : Z) (dst : list (option zone_descriptor)) :
    res (list (option zone_descriptor)) :=
  rfold (fun i dst => d ← aget src (from + i); aset dst i (Some d)) (zrange 0 n) dst.

Definition __fill_zone_report (f : zns_ftl) (cmd : zns_command) : res zone_report :=
  start_zid ← lba_to_zone f cmd.(zc_slba);
  let avail := u64 (f.(zp).(nr_zones) - start_zid) in
  let nr_zone_to_report :=
    if zc_zra_specific_features cmd =? 0 then avail
    else u64 (bytes_transfer cmd `div` sizeof_zone_descriptor - 1) in
  let nr_zone_to_report := if avail <? nr_zone_to_report then avail else nr_zone_to_report in
  zd ← copy_descs f.(zone_descs) start_zid nr_zone_to_report f.(report_buffer).(zr_zd);
  Ok (ZoneReport nr_zone_to_report zd).

Definition __check_zmgmt_rcv_option_supported (f : zns_ftl) (cmd : zns_command) : res bool :=
  zid ← lba_to_zone f cmd.(zc_slba);
  Ok (if f.(zp).(nr_zones) <=? zid then false
      else if negb (zc_zra cmd =? 0) then false
      else if negb (zc_zra_specific_field cmd =? 0) then false
      else true).

(** [m] is the memory of the host. *)
Definition zns_zmgmt_recv (ns : zns_ns) (req : zns_request) (m : mem) : res (zns_ns * nvmev_result * mem) :=
  let f := ns.(zn_ftl) in
  let cmd := req.(zq_cmd) in
  ok ← __check_zmgmt_rcv_option_supported f cmd;
  if ok : bool then
    report ← __fill_zone_report f cmd;
    m ← __prp_transfer_data cmd.(zc_prp1) cmd.(zc_prp2) (report_mem report)
      (sizeof_zone_report + sizeof_zone_descriptor * f.(zp).(nr_zones)) (bytes_transfer cmd) m;
    Ok (with_ftl ns (with_report f report), Result NVME_SC_SUCCESS req.(zq_nsecs_start), m)
  else Ok (ns, Result NVME_SC_INVALID_FIELD req.(zq_nsecs_start), m).
End recv.
