(* ===== verification/ZnsRw.v ===== *)
(** * Zoned reads and writes (zns_read_write.c, zns_ftl.c)

    Sequential writes and appends at the write pointer of a zone, random writes
    in its ZRWA, reads, the flush and the dispatch of the commands.  An append
    rewrites [slba] of the command, which the I/O worker reads later, so a
    write returns its request. *)

From stdpp Require Import prelude list.
From Stdlib Require Import ZArith Lia.
From S2P Require Import Prelude Mem ChannelModel SsdConfig Ssd ConvFtl ZnsFtl ZnsMgmt.

Definition nvme_cmd_zone_mgmt_send : Z := 121.
Definition nvme_cmd_zone_mgmt_recv : Z := 122.
Definition nvme_cmd_zone_append : Z := 125.

Definition __nr_lbas_from_rw_cmd (cmd : zns_command) : Z := zc_length cmd + 1.

Definition __check_boundary_error (f : zns_ftl) (slba nr_lba : Z) : res bool :=
  z1 ← lba_to_zone f slba;
  z2 ← lba_to_zone f (u64 (u64 (slba + u32 nr_lba) - 1));
  Ok (z1 =? z2).

Definition __increase_write_ptr (f : zns_ftl) (zid nr_lba : Z) : res zns_ftl :=
  d ← aget f.(zone_descs) zid;
  let zone_capacity := d.(zd_zone_capacity) in
  let cur_write_ptr := u64 (d.(zd_wp) + u32 nr_lba) in
  f ← mod_desc f zid (set_wp_lba cur_write_ptr);
  zslba ← zone_to_slba f zid;
  if cur_write_ptr =? u64 (zslba + zone_capacity) then
    let f := release_zone_resource (release_zone_resource f OPEN_ZONE) ACTIVE_ZONE in
    change_zone_state f zid ZONE_STATE_FULL
  else Ok f.

Definition __lpn_to_ppa (f : zns_ftl) (lpn : Z) : res ppa :=
  let spp := zf_sp f in
  let zpp := f.(zp) in
  zone ← lpn_to_zone f lpn;
  slpn ← zone_to_slpn f zone;
  let off := u64 (lpn - slpn) in
  sdie ← cmod (u64 (zone * zpp.(dies_per_zone))) spp.(tt_luns);
  os ← cdiv off spp.(pgs_per_oneshotpg);
  k ← cmod os zpp.(dies_per_zone);
  let die := u32 (u32 sdie + k) in
  channel ← die_to_channel f die;
  lun ← die_to_lun f die;
  pg ← cmod off spp.(pgs_per_oneshotpg);
  Ok (set_pg (set_ch (set_lun (ppa_of_u64 0) lun) channel) pg).

(** [cmd->slba = slba]. *)
Definition with_slba (req : zns_request) (slba : Z) : zns_request :=
  let c := req.(zq_cmd) in
  ZnsRequest (ZnsCommand c.(zc_opcode) c.(zc_prp1) c.(zc_prp2) slba c.(zc_DW12) c.(zc_DW13))
    req.(zq_sq_id) req.(zq_nsecs_start).

Section zns.
Context `{SsdConfig, ChanConfig, Clock}.

Definition zadvance_nand (f : zns_ftl) (cmd : nand_cmd) (h : hw) : res (zns_ftl * hw * Z) :=
  '(s, h, t) ← ssd_advance_nand f.(zf_ssd) cmd h; Ok (with_zssd f s, h, t).

(** [buffer_allocate(p, size)]. *)
Definition allocate (p : option Z) (size : Z) (h : hw) : res (hw * Z) :=
  buf ← deref h.(hw_wbuf) p;
  '(buf, n) ← buffer_allocate buf size;
  bufs ← store h.(hw_wbuf) p buf;
  Ok (Hw h.(hw_tick) h.(hw_pcie) bufs h.(hw_sched), n).

(** The end of a write, at the label [out]. *)
Definition write_result (spp : ssdparams) (cmd : zns_command) (status xfer_completed latest : Z) : nvmev_result :=
  Result status
    (if negb (Z.land (zc_control cmd) NVME_RW_FUA =? 0) || negb spp.(write_early_completion)
     then latest else xfer_completed).

(** The [switch] on the state in [__zns_write]: the status of a [goto out], or
    the zone opened. *)
Definition open_closed_impl (f : zns_ftl) (zid : Z) : res (zns_ftl * Z) :=
  let '(f, got) := acquire_zone_resource f OPEN_ZONE in
  if negb got then Ok (f, NVME_SC_ZNS_NO_OPEN_ZONE) else
  f ← change_zone_state f zid ZONE_STATE_OPENED_IMPL;
  Ok (f, NVME_SC_SUCCESS).

Definition open_for_write (f : zns_ftl) (zid slba : Z) (d : zone_descriptor) : res (zns_ftl * Z) :=
  match d.(zd_state) with
  | ZONE_STATE_EMPTY =>
      if negb (slba =? d.(zd_zslba)) then Ok (f, NVME_SC_ZNS_INVALID_WRITE) else
      if is_zone_resource_full f ACTIVE_ZONE then Ok (f, NVME_SC_ZNS_NO_ACTIVE_ZONE) else
      if is_zone_resource_full f OPEN_ZONE then Ok (f, NVME_SC_ZNS_NO_OPEN_ZONE) else
      open_closed_impl (acquire_zone_resource f ACTIVE_ZONE).1 zid
  | ZONE_STATE_CLOSED => open_closed_impl f zid
  | ZONE_STATE_OPENED_IMPL | ZONE_STATE_OPENED_EXPL => Ok (f, NVME_SC_SUCCESS)
  | ZONE_STATE_FULL => Ok (f, NVME_SC_ZNS_ERR_FULL)
  | ZONE_STATE_READ_ONLY => Ok (f, NVME_SC_ZNS_ERR_READ_ONLY)
  | ZONE_STATE_OFFLINE => Ok (f, NVME_SC_ZNS_ERR_OFFLINE)
  end.

(** One turn of the NAND loop of [__zns_write]. *)
Record zwriting := ZWriting { zw_ftl : zns_ftl; zw_hw : hw; zw_lpn : Z; zw_latest : Z }.

Definition zwrite_step (spp : ssdparams) (sq_id : Z) (wb : option Z) (stime elpn zone_elpn : Z) (w : zwriting) :
    res (zwriting + zwriting) :=
  let lpn := w.(zw_lpn) in
  let f := w.(zw_ftl) in
  if elpn <? lpn then Ok (inr w) else
  p ← __lpn_to_ppa f lpn;
  pg_off ← cmod p.(p_pg) spp.(pgs_per_oneshotpg);
  let pgs := Z.min (u64 (u64 (elpn - lpn) + 1)) (u64 (s32 (spp.(pgs_per_oneshotpg) - pg_off))) in
  let oneshot_size := u64 (s32 (spp.(pgs_per_oneshotpg) * spp.(pgsz))) in
  let at_end := u64 (u64 (lpn + pgs) - 1) =? zone_elpn in
  if (u64 (pg_off + pgs) =? u64 spp.(pgs_per_oneshotpg)) || at_end then
    unaligned ← cmod f.(zp).(zone_size) (u32 (spp.(pgs_per_oneshotpg) * spp.(pgsz)));
    '(f, h, t) ← zadvance_nand f (NandCmd USER_IO NAND_WRITE oneshot_size stime false p) w.(zw_hw);
    let bufs_to_release := if at_end && (0 <? unaligned) then unaligned else oneshot_size in
    Ok (inl (ZWriting f (schedule_internal_operation sq_id t wb bufs_to_release h) (u64 (lpn + pgs))
               (Z.max t w.(zw_latest))))
  else Ok (inl (ZWriting f w.(zw_hw) (u64 (lpn + pgs)) w.(zw_latest))).

(** What follows the opening of the zone: the write pointer moves and the time
    the NAND takes is accounted. *)
Definition zwrite_data (f : zns_ftl) (req : zns_request) (zid nr_lba slpn elpn zone_elpn : Z) (wb : option Z) (h : hw) :
    res (zns_ftl * hw * nvmev_result) :=
  let spp := zf_sp f in
  f ← __increase_write_ptr f zid nr_lba;
  '(h, xfer) ← ssd_advance_write_buffer f.(zf_ssd) req.(zq_nsecs_start) (LBA_TO_BYTE nr_lba) h;
  w ← rloop (S (S (Z.to_nat (elpn - slpn)))) (zwrite_step spp req.(zq_sq_id) wb xfer elpn zone_elpn)
        (ZWriting f h slpn xfer);
  Ok (w.(zw_ftl), w.(zw_hw), write_result spp req.(zq_cmd) NVME_SC_SUCCESS xfer w.(zw_latest)).

Definition __zns_write (f : zns_ftl) (req : zns_request) (ret : nvmev_result) (h : hw) :
    res (zns_ftl * hw * zns_request * nvmev_result * bool) :=
  let spp := zf_sp f in
  let cmd := req.(zq_cmd) in
  let nr_lba := __nr_lbas_from_rw_cmd cmd in
  let nsecs_start := req.(zq_nsecs_start) in
  zid ← lba_to_zone f cmd.(zc_slba);
  d ← aget f.(zone_descs) zid;
  let append := cmd.(zc_opcode) =? nvme_cmd_zone_append in
  let slba := if append then d.(zd_wp) else cmd.(zc_slba) in
  let req := if append then with_slba req slba else req in
  slpn ← lba_to_lpn f slba;
  elpn ← lba_to_lpn f (u64 (u64 (slba + nr_lba) - 1));
  zone_elpn ← zone_to_elpn f zid;
  let wb := if f.(zp).(zone_wb_size) =? 0 then f.(zf_ssd).(sd_write_buffer)
            else elem_ptr f.(zone_write_buffer) zid in
  '(h, allocated) ← allocate wb (LBA_TO_BYTE nr_lba) h;
  if allocated <? LBA_TO_BYTE nr_lba then Ok (f, h, req, ret, false) else
  let out f status := Ok (f, h, req, write_result spp cmd status nsecs_start nsecs_start, true) in
  r ← cmod (LBA_TO_BYTE nr_lba) (u64 spp.(write_unit_size));
  if negb (r =? 0) then out f NVME_SC_ZNS_INVALID_WRITE else
  same_zone ← __check_boundary_error f slba nr_lba;
  if negb same_zone then out f NVME_SC_ZNS_ERR_BOUNDARY else
  if negb (slba =? d.(zd_wp)) then out f NVME_SC_ZNS_INVALID_WRITE else
  '(f, status) ← open_for_write f zid slba d;
  if negb (status =? NVME_SC_SUCCESS) then out f status else
  '(f, h, ret) ← zwrite_data f req zid nr_lba slpn elpn zone_elpn wb h;
  Ok (f, h, req, ret, true).

(** One turn of the loop of [__zns_write_zrwa]. *)
Definition zrwa_step (spp : ssdparams) (sq_id : Z) (zb : option Z) (stime : Z) (wr : zwriting * Z) :
    res (zwriting * Z + zwriting * Z) :=
  let '(w, remaining) := wr in
  let lpn := w.(zw_lpn) in
  if remaining <=? 0 then Ok (inr wr) else
  p ← __lpn_to_ppa w.(zw_ftl) lpn;
  pg_off ← cmod p.(p_pg) spp.(pgs_per_oneshotpg);
  let pgs := Z.min remaining (u64 (s32 (spp.(pgs_per_oneshotpg) - pg_off))) in
  let oneshot_size := u64 (s32 (spp.(pgs_per_oneshotpg) * spp.(pgsz))) in
  '(f, h, latest) ← (if u64 (pg_off + pgs) =? u64 spp.(pgs_per_oneshotpg) then
      '(f, h, t) ← zadvance_nand w.(zw_ftl) (NandCmd USER_IO NAND_WRITE oneshot_size stime false p) w.(zw_hw);
      Ok (f, schedule_internal_operation sq_id t zb oneshot_size h, Z.max t w.(zw_latest))
    else Ok (w.(zw_ftl), w.(zw_hw), w.(zw_latest)));
  Ok (inl (ZWriting f h (u64 (lpn + pgs)) latest, u64 (remaining - pgs))).

Definition open_for_zrwa (f : zns_ftl) (zid : Z) (zb : option Z) (d : zone_descriptor) (h : hw) :
    res (zns_ftl * hw * Z) :=
  match d.(zd_state) with
  | ZONE_STATE_CLOSED | ZONE_STATE_EMPTY =>
      let '(f, got) := acquire_zone_resource f OPEN_ZONE in
      if negb got then Ok (f, h, NVME_SC_ZNS_NO_OPEN_ZONE) else
      '(h, n) ← allocate zb f.(zp).(zrwa_size) h;
      _ ← nvmev_assert (negb (n =? 0));
      f ← change_zone_state f zid ZONE_STATE_OPENED_IMPL;
      Ok (f, h, NVME_SC_SUCCESS)
  | ZONE_STATE_OPENED_IMPL | ZONE_STATE_OPENED_EXPL => Ok (f, h, NVME_SC_SUCCESS)
  | ZONE_STATE_FULL => Ok (f, h, NVME_SC_ZNS_ERR_FULL)
  | ZONE_STATE_READ_ONLY => Ok (f, h, NVME_SC_ZNS_ERR_READ_ONLY)
  | ZONE_STATE_OFFLINE => Ok (f, h, NVME_SC_ZNS_ERR_OFFLINE)
  end.

(** The blocks that an access ending at [elba] flushes implicitly. *)
Definition zrwa_flush_lbas (f : zns_ftl) (zid elba prev_wp : Z) : res Z :=
  let lbas_per_zrwafg := f.(zp).(lbas_per_zrwafg) in
  let zrwa_impl_start := u64 (prev_wp + f.(zp).(lbas_per_zrwa)) in
  if zrwa_impl_start <=? elba then
    n ← div_round_up64 (u64 (u64 (elba - zrwa_impl_start) + 1)) lbas_per_zrwafg;
    Ok (u64 (n * lbas_per_zrwafg))
  else
    zone_elba ← zone_to_elba f zid;
    if elba =? zone_elba then Ok (u64 (u64 (elba - prev_wp) + 1)) else Ok 0.

(** What follows in [__zns_write_zrwa] once the zone is open. *)
Definition zrwa_data (f : zns_ftl) (req : zns_request) (ret : nvmev_result) (zid nr_lba elba prev_wp : Z)
    (zb : option Z) (h : hw) : res (zns_ftl * hw * nvmev_result * bool) :=
  let spp := zf_sp f in
  nr_lbas_flush ← zrwa_flush_lbas f zid elba prev_wp;
  '(f, h, stop) ← (if 0 <? nr_lbas_flush then
      '(h, n) ← allocate zb (LBA_TO_BYTE nr_lbas_flush) h;
      if n =? 0 then Ok (f, h, true) else
      f ← __increase_write_ptr f zid nr_lbas_flush;
      Ok (f, h, false)
    else Ok (f, h, false));
  if stop : bool then Ok (f, h, ret, false) else
  '(h, xfer) ← ssd_advance_write_buffer f.(zf_ssd) req.(zq_nsecs_start) (LBA_TO_BYTE nr_lba) h;
  lpn ← lba_to_lpn f prev_wp;
  remaining ← cdiv nr_lbas_flush spp.(secs_per_pg);
  '(w, _) ← rloop (S (Z.to_nat remaining)) (zrwa_step spp req.(zq_sq_id) zb xfer)
              (ZWriting f h lpn xfer, remaining);
  Ok (w.(zw_ftl), w.(zw_hw), write_result spp req.(zq_cmd) NVME_SC_SUCCESS xfer w.(zw_latest), true).

Definition __zns_write_zrwa (f : zns_ftl) (req : zns_request) (ret : nvmev_result) (h : hw) :
    res (zns_ftl * hw * nvmev_result * bool) :=
  let spp := zf_sp f in
  let cmd := req.(zq_cmd) in
  let slba := cmd.(zc_slba) in
  let nr_lba := __nr_lbas_from_rw_cmd cmd in
  let elba := u64 (u64 (slba + nr_lba) - 1) in
  let nsecs_start := req.(zq_nsecs_start) in
  zid ← lba_to_zone f slba;
  d ← aget f.(zone_descs) zid;
  let prev_wp := d.(zd_wp) in
  let zrwa_impl_end := u64 (u64 (prev_wp + u32 (2 * f.(zp).(lbas_per_zrwa))) - 1) in
  let zb := elem_ptr f.(zrwa_buffer) zid in
  let out f h status := Ok (f, h, write_result spp cmd status nsecs_start nsecs_start, true) in
  r ← cmod (LBA_TO_BYTE nr_lba) (u64 spp.(write_unit_size));
  if negb (r =? 0) then out f h NVME_SC_ZNS_INVALID_WRITE else
  same_zone ← __check_boundary_error f slba nr_lba;
  if negb same_zone then out f h NVME_SC_ZNS_ERR_BOUNDARY else
  if (slba <? d.(zd_wp)) || (zrwa_impl_end <? elba) then out f h NVME_SC_ZNS_INVALID_WRITE else
  '(f, h, status) ← open_for_zrwa f zid zb d h;
  if negb (status =? NVME_SC_SUCCESS) then out f h status else
  zrwa_data f req ret zid nr_lba elba prev_wp zb h.

Definition zns_write (ns : zns_ns) (req : zns_request) (ret : nvmev_result) (h : hw) :
    res (zns_ns * hw * zns_request * nvmev_result * bool) :=
  let f := ns.(zn_ftl) in
  slpn ← lba_to_lpn f req.(zq_cmd).(zc_slba);
  zid ← lpn_to_zone f slpn;
  d ← aget f.(zone_descs) zid;
  if d.(zd_zrwav) =? 0 then
    '(f, h, req, ret, ok) ← __zns_write f req ret h; Ok (with_ftl ns f, h, req, ret, ok)
  else
    '(f, h, ret, ok) ← __zns_write_zrwa f req ret h; Ok (with_ftl ns f, h, req, ret, ok).

(** One turn of the loop of [zns_read]. *)
Definition zread_step (spp : ssdparams) (stime elpn : Z) (w : zwriting) : res (zwriting + zwriting) :=
  let lpn := w.(zw_lpn) in
  if elpn <? lpn then Ok (inr w) else
  p ← __lpn_to_ppa w.(zw_ftl) lpn;
  pg_off ← cmod p.(p_pg) spp.(pgs_per_flashpg);
  let pgs := Z.min (u64 (u64 (elpn - lpn) + 1)) (u64 (s32 (spp.(pgs_per_flashpg) - pg_off))) in
  '(f, h, t) ← zadvance_nand w.(zw_ftl)
    (NandCmd USER_IO NAND_READ (u64 (pgs * spp.(pgsz))) stime false p) w.(zw_hw);
  Ok (inl (ZWriting f h (u64 (lpn + pgs)) (if w.(zw_latest) <? t then t else w.(zw_latest)))).

Definition zns_read (ns : zns_ns) (req : zns_request) (h : hw) : res (zns_ns * hw * nvmev_result * bool) :=
  let f := ns.(zn_ftl) in
  let spp := zf_sp f in
  let cmd := req.(zq_cmd) in
  let slba := cmd.(zc_slba) in
  let nr_lba := __nr_lbas_from_rw_cmd cmd in
  slpn ← lba_to_lpn f slba;
  elpn ← lba_to_lpn f (u64 (u64 (slba + nr_lba) - 1));
  zid ← lpn_to_zone f slpn;
  d ← aget f.(zone_descs) zid;
  status ← (if decide (d.(zd_state) = ZONE_STATE_OFFLINE) then Ok NVME_SC_ZNS_ERR_OFFLINE else
            same_zone ← __check_boundary_error f slba nr_lba;
            Ok (if same_zone : bool then NVME_SC_SUCCESS else NVME_SC_ZNS_ERR_BOUNDARY));
  let stime := if LBA_TO_BYTE nr_lba <=? KB 4
    then u64 (req.(zq_nsecs_start) + spp.(fw_4kb_rd_lat))
    else u64 (req.(zq_nsecs_start) + spp.(fw_rd_lat)) in
  w ← rloop (S (S (Z.to_nat (elpn - slpn)))) (zread_step spp stime elpn) (ZWriting f h slpn stime);
  let f := w.(zw_ftl) in
  '(h, t) ← ssd_advance_pcie f.(zf_ssd) w.(zw_latest) (u64 (nr_lba * spp.(secsz))) w.(zw_hw);
  let latest := if w.(zw_latest) <? t then t else w.(zw_latest) in
  Ok (with_ftl ns f, h, Result status latest, true).

Definition zns_flush (ns : zns_ns) (req : zns_request) (h : hw) : res (hw * nvmev_result) :=
  let start := local_clock h.(hw_tick) in
  '(h, latest) ← rfold (fun i '(h, latest) =>
      f ← (if i =? 0 then Ok ns.(zn_ftl) else Fault OutOfBounds);
      '(h, t) ← ssd_next_idle_time f.(zf_ssd) h;
      Ok (h, Z.max latest t)) (zrange 0 ns.(zn_nr_parts)) (h, start);
  Ok (h, Result NVME_SC_SUCCESS latest).

(** [m] is the memory of the host. *)
Definition zns_proc_nvme_io_cmd (garbage : mem) (ns : zns_ns) (req : zns_request) (ret : nvmev_result) (m : mem) (h : hw) :
    res (zns_ns * hw * mem * zns_request * nvmev_result * bool) :=
  _ ← nvmev_assert (ns.(zn_csi) =? NVME_CSI_ZNS);
  _ ← nvmev_assert (ns.(zn_nr_parts) =? 1);
  let op := req.(zq_cmd).(zc_opcode) in
  if (op =? nvme_cmd_write) || (op =? nvme_cmd_zone_append) then
    '(ns, h, req, ret, ok) ← zns_write ns req ret h; Ok (ns, h, m, req, ret, ok)
  else if op =? nvme_cmd_read then
    '(ns, h, ret, ok) ← zns_read ns req h; Ok (ns, h, m, req, ret, ok)
  else if op =? nvme_cmd_flush then
    '(h, ret) ← zns_flush ns req h; Ok (ns, h, m, req, ret, true)
  else if op =? nvme_cmd_zone_mgmt_send then
    '(ns, h, ret) ← zns_zmgmt_send ns req h; Ok (ns, h, m, req, ret, true)
  else if op =? nvme_cmd_zone_mgmt_recv then
    '(ns, ret, m) ← zns_zmgmt_recv garbage ns req m; Ok (ns, h, m, req, ret, true)
  else Ok (ns, h, m, req, ret, true).
End zns.
