(* ===== verification/ZnsInv.v ===== *)
(** * The invariant of the zoned namespace

    [zone_ok]: what a zone descriptor promises in each state; [zns_ok]: the
    zones tile the namespace, and the counters of open and active resources are
    the numbers of zones in those states, so that no counter can wrap and no
    resource can be missing when an empty zone opens. *)

From stdpp Require Import prelude list.
From Stdlib Require Import ZArith Lia.
From S2P Require Import Prelude ChannelModel SsdConfig Ssd ConvFtl ZnsFtl ZnsMgmt ZnsRw.

Definition is_open (d : zone_descriptor) : bool :=
  match d.(zd_state) with ZONE_STATE_OPENED_IMPL | ZONE_STATE_OPENED_EXPL => true | _ => false end.

Definition is_active (d : zone_descriptor) : bool :=
  match d.(zd_state) with
  | ZONE_STATE_OPENED_IMPL | ZONE_STATE_OPENED_EXPL | ZONE_STATE_CLOSED => true | _ => false end.

Definition is_zrwa (d : zone_descriptor) : bool := is_active d && negb (d.(zd_zrwav) =? 0).

(** Blocks and pages of a zone. *)
Definition zone_lbas (f : zns_ftl) : Z := f.(zp).(zone_size) `div` (zf_sp f).(secsz).
Definition zone_pgs (f : zns_ftl) : Z := f.(zp).(zone_size) `div` (zf_sp f).(pgsz).

Record zone_ok (zl i : Z) (d : zone_descriptor) : Prop := {
  zk_cap : d.(zd_zone_capacity) = zl;
  zk_start : d.(zd_zslba) = i * zl;
  zk_wp : i * zl <= d.(zd_wp) <= (i + 1) * zl;
  zk_empty : d.(zd_state) = ZONE_STATE_EMPTY -> d.(zd_wp) = i * zl /\ d.(zd_zrwav) = 0;
  zk_active : is_active d = true -> d.(zd_wp) < (i + 1) * zl
}.

Record res_ok (n : Z) (descs : list zone_descriptor) (r : res_table) : Prop := {
  rs_open : r.(ri_open) = ResInfo (zcount is_open descs) n;
  rs_active : r.(ri_active) = ResInfo (zcount is_active descs) n;
  rs_zrwa : r.(ri_zrwa).(total_cnt) = n /\ zcount is_zrwa descs <= r.(ri_zrwa).(acquired_cnt) <= n
}.

(** Zones that fill the device exactly. *)
Record zns_geometry (f : zns_ftl) : Prop := {
  zg_nr : 0 < f.(zp).(nr_zones);
  zg_size : 0 < f.(zp).(zone_size) < 4294967296;
  zg_pages : f.(zp).(zone_size) = zone_pgs f * 4096;
  zg_fits : f.(zp).(nr_zones) * zone_lbas f + 65536 <= 4294967296;
  zg_unit : 0 < (zf_sp f).(write_unit_size) < 4294967296;
  zg_dies : 0 < f.(zp).(dies_per_zone) < 4294967296 /\ (f.(zp).(dies_per_zone) | (zf_sp f).(tt_luns))
}.

Record zns_ok `{ChanConfig} (f : zns_ftl) : Prop := {
  zo_params : params_ok (zf_sp f);
  zo_shape : ssd_shape f.(zf_ssd);
  zo_geo : zns_geometry f;
  zo_len : zlen f.(zone_descs) = f.(zp).(nr_zones);
  zo_zone (i : Z) d : f.(zone_descs) !! i = Some d -> zone_ok (zone_lbas f) i d;
  zo_res : res_ok f.(zp).(nr_zones) f.(zone_descs) f.(res_infos)
}.

(** Everything but the descriptors and the counters. *)
Definition same_device (f f' : zns_ftl) : Prop :=
  f'.(zf_ssd) = f.(zf_ssd) /\ f'.(zp) = f.(zp) /\ f'.(report_buffer) = f.(report_buffer) /\
  f'.(zone_write_buffer) = f.(zone_write_buffer) /\ f'.(zrwa_buffer) = f.(zrwa_buffer).

Section facts.
Context `{CC : ChanConfig}.

Lemma zone_units f : zns_ok f ->
  (zf_sp f).(secsz) * (zf_sp f).(secs_per_pg) = 4096 /\ 0 < (zf_sp f).(secs_per_pg) <= 4096 /\ 0 < (zf_sp f).(secsz) /\
  0 < zone_pgs f /\ zone_lbas f = zone_pgs f * (zf_sp f).(secs_per_pg).
Proof.
  intros Hf. destruct (po_secs _ (zo_params _ Hf)) as [Hs E]. pose proof (zo_geo _ Hf) as Hg.
  pose proof (zg_pages _ Hg) as Ep. pose proof (zg_size _ Hg).
  assert (0 < (zf_sp f).(secsz)) by nia. split; [done|]. split; [done|]. split; [done|]. split; [nia|].
  unfold zone_lbas. rewrite Ep, <- E. rewrite Z.mul_comm, <- Z.mul_assoc, (Z.mul_comm (secsz _)), Z.div_mul by lia. lia.
Qed.

Lemma zone_lbas_pos f : zns_ok f -> 0 < zone_lbas f.
Proof. intros Hf. destruct (zone_units f Hf) as (_ & ? & _ & ? & ->). nia. Qed.

(** The zone of a block, and the blocks of a zone. *)
Lemma lba_to_zone_ok f lba : zns_ok f -> 0 <= lba -> lba < f.(zp).(nr_zones) * zone_lbas f ->
  lba_to_zone f lba = Ok (lba `div` zone_lbas f) /\ 0 <= lba `div` zone_lbas f < f.(zp).(nr_zones).
Proof.
  intros Hf H0 Hlba. pose proof (zone_lbas_pos f Hf). destruct (zone_units f Hf) as (_ & _ & Hs & _).
  pose proof (zg_fits _ (zo_geo _ Hf)).
  assert (0 <= lba `div` zone_lbas f < f.(zp).(nr_zones)) as Hz.
  { split; [apply Z.div_pos; lia|apply Z.div_lt_upper_bound; lia]. }
  split; [|done]. unfold lba_to_zone. rewrite cdiv_ok, bind_Ok by lia. fold (zone_lbas f).
  rewrite cdiv_ok, bind_Ok by lia. assert (nr_zones (zp f) < 4294967296) by nia. by unwrap.
Qed.

Lemma zone_to_slba_ok f zid : zns_ok f -> 0 <= zid <= f.(zp).(nr_zones) -> zone_to_slba f zid = Ok (zid * zone_lbas f).
Proof.
  intros Hf Hz. destruct (zone_units f Hf) as (_ & _ & Hs & _). pose proof (zone_lbas_pos f Hf).
  pose proof (zg_fits _ (zo_geo _ Hf)). unfold zone_to_slba. rewrite cdiv_ok, bind_Ok by lia. fold (zone_lbas f).
  assert (0 <= zid < 4294967296) by nia. assert (0 <= zid * zone_lbas f < 4294967296) by nia. by unwrap.
Qed.

Lemma zone_lookup f zid : zns_ok f -> 0 <= zid < f.(zp).(nr_zones) ->
  exists d, f.(zone_descs) !! zid = Some d /\ aget f.(zone_descs) zid = Ok d /\ zone_ok (zone_lbas f) zid d.
Proof.
  intros Hf Hz. destruct (zlookup_lt f.(zone_descs) zid) as [d E]; [by rewrite (zo_len _ Hf)|].
  exists d. split; [done|]. split; [by apply aget_Some|by apply (zo_zone _ Hf)].
Qed.

(** ** A zone changes *)

(** [f'] is [f] with the descriptor [d'] at [zid]. *)
Definition zone_set (f f' : zns_ftl) (zid : Z) (d' : zone_descriptor) : Prop :=
  f'.(zone_descs) = <[zid := d']> f.(zone_descs) /\ same_device f f'.

Lemma zns_ok_set f f' zid d d' :
  zns_ok f -> f.(zone_descs) !! zid = Some d -> zone_set f f' zid d' ->
  zone_ok (zone_lbas f) zid d' ->
  f'.(res_infos).(ri_open) = ResInfo (acquired_cnt f.(res_infos).(ri_open) - b2z (is_open d) + b2z (is_open d')) f.(zp).(nr_zones) ->
  f'.(res_infos).(ri_active) = ResInfo (acquired_cnt f.(res_infos).(ri_active) - b2z (is_active d) + b2z (is_active d')) f.(zp).(nr_zones) ->
  total_cnt f'.(res_infos).(ri_zrwa) = f.(zp).(nr_zones) ->
  acquired_cnt f.(res_infos).(ri_zrwa) - b2z (is_zrwa d) + b2z (is_zrwa d')
    <= acquired_cnt f'.(res_infos).(ri_zrwa) <= f.(zp).(nr_zones) ->
  zns_ok f'.
Proof.
  intros [H1 H2 H3 H4 H5 [R1 R2 [R3 R4]]] E [Ed (Es & Ez & _)] Hd' Ho Ha Hz Hzr.
  assert (zf_sp f' = zf_sp f) as Esp by (unfold zf_sp; by rewrite Es).
  assert (zone_lbas f' = zone_lbas f /\ zone_pgs f' = zone_pgs f) as [El Ep]
    by (unfold zone_lbas, zone_pgs; by rewrite Esp, Ez).
  split; rewrite ?Esp, ?Es, ?Ez, ?Ed, ?El; try done.
  - destruct H3. split; rewrite ?Ez, ?El, ?Ep, ?Esp; done.
  - by rewrite zlen_zinsert.
  - intros i di. rewrite zlookup_zinsert by (by eapply zlookup_Some_range).
    case_decide; [intros [= <-]; by subst|apply H5].
  - rewrite R1, R2 in *. simpl in *. split; rewrite !(zcount_zinsert _ _ _ d) by done; try done.
    split; [done|lia].
Qed.

(** The zone [zid] is counted where it is. *)
Lemma count_bounds f zid d :
  zns_ok f -> f.(zone_descs) !! zid = Some d ->
  b2z (is_open d) <= acquired_cnt f.(res_infos).(ri_open) /\
  acquired_cnt f.(res_infos).(ri_open) + b2z (negb (is_open d)) <= f.(zp).(nr_zones) /\
  b2z (is_active d) <= acquired_cnt f.(res_infos).(ri_active) /\
  acquired_cnt f.(res_infos).(ri_active) + b2z (negb (is_active d)) <= f.(zp).(nr_zones) /\
  b2z (is_zrwa d) <= acquired_cnt f.(res_infos).(ri_zrwa) <= f.(zp).(nr_zones) /\
  f.(zp).(nr_zones) < 4294967296.
Proof.
  intros Hf E. destruct (zo_res _ Hf) as [-> -> [_ Hz]]. simpl.
  assert (forall P : zone_descriptor -> bool, b2z (P d) <= zcount P f.(zone_descs) /\
    zcount P f.(zone_descs) + b2z (negb (P d)) <= f.(zp).(nr_zones)) as Hcnt.
  { intros P. rewrite <- (zo_len _ Hf). pose proof (zcount_range P f.(zone_descs)).
    assert (d ∈ f.(zone_descs)) as Hin by (apply elem_of_zlookup; by exists zid).
    destruct (P d) eqn:EP; simpl; [pose proof (zcount_pos P _ d Hin EP)|pose proof (zcount_lt P _ d Hin EP)]; lia. }
  pose proof (Hcnt is_open). pose proof (Hcnt is_active). pose proof (Hcnt is_zrwa).
  pose proof (zg_fits _ (zo_geo _ Hf)). pose proof (zg_nr _ (zo_geo _ Hf)). pose proof (zone_lbas_pos f Hf).
  assert (nr_zones (zp f) < 4294967296) by nia. lia.
Qed.
End facts.
