(* ===== verification/ZnsStep.v ===== *)
(** * Zone management implements the zone state machine

    [zone_next] is the state machine of the zoned command set as a table; the
    five actions of zns_mgmt_send.c refine it on a sound namespace: an action is
    refused exactly where the table has no entry, changes its own zone only,
    and the counters of resources follow the states, so that no action is ever
    refused for want of an open or an active resource. *)

From stdpp Require Import prelude list.
From Stdlib Require Import ZArith Lia.
From S2P Require Import Prelude ChannelModel SsdConfig Ssd ConvFtl ZnsFtl ZnsMgmt ZnsRw ZnsInv.

(** ** The specification *)

Definition zone_next (action : Z) (s : zone_state) : option zone_state :=
  if action =? ZSA_CLOSE_ZONE then
    match s with
    | ZONE_STATE_OPENED_IMPL | ZONE_STATE_OPENED_EXPL | ZONE_STATE_CLOSED => Some ZONE_STATE_CLOSED
    | _ => None
    end
  else if action =? ZSA_FINISH_ZONE then
    match s with ZONE_STATE_READ_ONLY | ZONE_STATE_OFFLINE => None | _ => Some ZONE_STATE_FULL end
  else if action =? ZSA_OPEN_ZONE then
    match s with
    | ZONE_STATE_FULL | ZONE_STATE_READ_ONLY | ZONE_STATE_OFFLINE => None
    | _ => Some ZONE_STATE_OPENED_EXPL
    end
  else if action =? ZSA_RESET_ZONE then
    match s with ZONE_STATE_READ_ONLY | ZONE_STATE_OFFLINE => None | _ => Some ZONE_STATE_EMPTY end
  else if action =? ZSA_OFFLINE_ZONE then
    match s with ZONE_STATE_READ_ONLY | ZONE_STATE_OFFLINE => Some ZONE_STATE_OFFLINE | _ => None end
  else None.

Definition is_action (action : Z) : Prop := ZSA_CLOSE_ZONE <= action <= ZSA_OFFLINE_ZONE.

Definition reset_desc (d : zone_descriptor) : zone_descriptor :=
  set_zrwav 0 (set_wp_lba d.(zd_zslba) (set_state ZONE_STATE_EMPTY d)).

(** The descriptor an accepted action leaves in the state [s]. *)
Definition zone_after (action opt : Z) (s : zone_state) (d : zone_descriptor) : zone_descriptor :=
  if action =? ZSA_RESET_ZONE then reset_desc d
  else if (action =? ZSA_OPEN_ZONE) && negb (opt =? 0) && bool_decide (d.(zd_state) = ZONE_STATE_EMPTY)
  then set_state s (set_zrwav 1 d)
  else set_state s d.

(** The bytes a reset clears. *)
Definition in_zone_storage (f : zns_ftl) (zid a : Z) : Prop :=
  zid * f.(zp).(zone_size) <= a < (zid + 1) * f.(zp).(zone_size).

#[global] Instance in_zone_storage_dec f zid a : Decision (in_zone_storage f zid a).
Proof. unfold in_zone_storage. apply _. Defined.

(** ** The buffers of the zones *)

Definition zone_wb (f : zns_ftl) (zid : Z) : option Z :=
  if f.(zp).(zone_wb_size) =? 0 then f.(zf_ssd).(sd_write_buffer) else elem_ptr f.(zone_write_buffer) zid.

Definition zrwa_bufs_ok (f : zns_ftl) (h : hw) : Prop :=
  f.(zp).(zrwa_buffer_size) <> 0 -> forall i, 0 <= i < f.(zp).(nr_zones) ->
  exists b, deref h.(hw_wbuf) (elem_ptr f.(zrwa_buffer) i) = Ok b.

(** The device's hardware but for buffers that have been refilled. *)
Definition bufs_kept (h h' : hw) : Prop :=
  h'.(hw_tick) = h.(hw_tick) /\ h'.(hw_pcie) = h.(hw_pcie) /\ h'.(hw_sched) = h.(hw_sched) /\
  forall p b, deref h.(hw_wbuf) p = Ok b -> deref h'.(hw_wbuf) p = Ok b \/ deref h'.(hw_wbuf) p = Ok (buffer_refill b).

Lemma bufs_kept_refl h : bufs_kept h h.
Proof. repeat (split; [done|]). by left. Qed.

Lemma bufs_kept_trans h1 h2 h3 : bufs_kept h1 h2 -> bufs_kept h2 h3 -> bufs_kept h1 h3.
Proof.
  intros (A1 & A2 & A3 & A4) (B1 & B2 & B3 & B4). repeat (split; [congruence|]).
  intros p b Hb. destruct (A4 p b Hb) as [Hb'|Hb']; [by apply B4|].
  destruct (B4 _ _ Hb') as [E|E]; by right.
Qed.

(** ** One zone *)

Section one_zone.
Context `{CC : ChanConfig}.

(** [f'] is [f] with [d'] for the zone [zid], sound, the data untouched. *)
Record zstep (f f' : zns_ftl) (zid : Z) (d' : zone_descriptor) : Prop := {
  zs_set : zone_set f f' zid d';
  zs_ok : zns_ok f';
  zs_storage : f'.(zf_storage) = f.(zf_storage)
}.

Lemma zstep_id f zid d : zns_ok f -> f.(zone_descs) !! zid = Some d -> zstep f f zid d.
Proof.
  intros Hf E. split; [|done..]. split; [|by repeat split].
  pose proof (zlookup_Some_range _ _ _ E). apply zlist_eq; [by rewrite zlen_zinsert|].
  intros i Hi. rewrite zlookup_zinsert by done. case_decide; [by subst|done].
Qed.

Lemma mod_desc_ok f zid d g :
  f.(zone_descs) !! zid = Some d ->
  mod_desc f zid g = Ok (with_descs f (<[zid := g d]> f.(zone_descs))).
Proof. intros E. unfold mod_desc. by rewrite (amod_Ok _ _ d (g d)). Qed.

Lemma zinsert_twice (l : list zone_descriptor) (i : Z) x y : <[i := y]> (<[i := x]> l) = <[i := y]> l.
Proof. unfold insert, zinsert. case_decide; [apply list_insert_insert_eq|done]. Qed.

(** A change of state, with the counters that go with it. *)
Lemma zstep_intro f f' zid d d' :
  zns_ok f -> f.(zone_descs) !! zid = Some d ->
  f'.(zone_descs) = <[zid := d']> f.(zone_descs) -> same_device f f' -> f'.(zf_storage) = f.(zf_storage) ->
  zone_ok (zone_lbas f) zid d' ->
  (forall t, total_cnt (get_res t f'.(res_infos)) = f.(zp).(nr_zones)) ->
  acquired_cnt f'.(res_infos).(ri_open) = acquired_cnt f.(res_infos).(ri_open) - b2z (is_open d) + b2z (is_open d') ->
  acquired_cnt f'.(res_infos).(ri_active) =
    acquired_cnt f.(res_infos).(ri_active) - b2z (is_active d) + b2z (is_active d') ->
  acquired_cnt f.(res_infos).(ri_zrwa) - b2z (is_zrwa d) + b2z (is_zrwa d')
    <= acquired_cnt f'.(res_infos).(ri_zrwa) <= f.(zp).(nr_zones) ->
  zstep f f' zid d'.
Proof.
  intros Hf E Ed Hs Hst Hd Ht Ho Ha Hz. split; [done| |done].
  pose proof (Ht OPEN_ZONE) as T1. pose proof (Ht ACTIVE_ZONE) as T2. pose proof (Ht ZRWA_ZONE) as T3. simpl in *.
  eapply zns_ok_set; [done|exact E|done|done| | |done|done];
    destruct (ri_open _), (ri_active _); simpl in *; by subst.
Qed.

(** The counters, in one place. *)
Lemma res_totals f t : zns_ok f -> total_cnt (get_res t f.(res_infos)) = f.(zp).(nr_zones).
Proof. intros Hf. destruct (zo_res _ Hf) as [E1 E2 [E3 _]]. destruct t; simpl; by rewrite ?E1, ?E2. Qed.

(** A zone that changes its state keeps its write pointer in the zone. *)
Lemma zone_ok_state zl i d s :
  0 < zl -> zone_ok zl i d -> (s = ZONE_STATE_EMPTY -> False) ->
  (is_active (set_state s d) = true -> is_active d = true \/ d.(zd_state) = ZONE_STATE_EMPTY) ->
  zone_ok zl i (set_state s d).
Proof.
  intros Hl [H1 H2 H3 H4 H5] He Ha. split; [done..| |]; simpl.
  - intros ->. by destruct He.
  - intros [?|?]%Ha; [by apply H5|]. destruct (H4 H) as [-> _]. lia.
Qed.

Lemma zone_ok_zrwav zl i d z : d.(zd_state) <> ZONE_STATE_EMPTY -> zone_ok zl i d -> zone_ok zl i (set_zrwav z d).
Proof. intros He [H1 H2 H3 H4 H5]. split; [done..| |done]. by intros ?%He. Qed.

(** Taking a resource that is there. *)
Lemma acquire_ok f t :
  0 <= acquired_cnt (get_res t f.(res_infos)) < f.(zp).(nr_zones) -> f.(zp).(nr_zones) < 4294967296 ->
  total_cnt (get_res t f.(res_infos)) = f.(zp).(nr_zones) ->
  acquire_zone_resource f t =
    (with_res f (set_res t (ResInfo (acquired_cnt (get_res t f.(res_infos)) + 1) f.(zp).(nr_zones)) f.(res_infos)), true).
Proof.
  intros Ha Hn Ht. unfold acquire_zone_resource, is_zone_resource_avail. rewrite Ht.
  rewrite (proj2 (Z.ltb_lt _ _)) by lia. by unwrap.
Qed.

Lemma not_full f t :
  acquired_cnt (get_res t f.(res_infos)) < f.(zp).(nr_zones) -> total_cnt (get_res t f.(res_infos)) = f.(zp).(nr_zones) ->
  is_zone_resource_full f t = false.
Proof. intros Ha Ht. unfold is_zone_resource_full. rewrite Ht. apply Z.eqb_neq. lia. Qed.
End one_zone.

(** Goals about the counters of a zone whose state is known. *)
Ltac zcounts :=
  unfold is_zrwa, is_open, is_active in *; simpl in *;
  repeat match goal with H : zd_state _ = _ |- _ => progress (rewrite ?H in *; simpl in * ) end;
  repeat match goal with H : (zd_zrwav _ =? 0) = _ |- _ => progress (rewrite ?H in *; simpl in * ) end;
  unwrap; try done;
  try (intros []; simpl; first [done|match goal with H : forall t, total_cnt _ = _ |- _ =>
         first [exact (H ACTIVE_ZONE)|exact (H OPEN_ZONE)|exact (H ZRWA_ZONE)] end]);
  try lia; try (destruct (zd_zrwav _ =? 0); simpl in *; lia).

Ltac zstate :=
  unfold is_active; simpl; repeat match goal with H : zd_state _ = _ |- _ => rewrite H end; auto; done.

(** [zstep] by [zstep_intro], the descriptor by [zone_ok_state]. *)
Ltac zstep E :=
  eapply zstep_intro; [done|exact E|done|by repeat split|done|apply zone_ok_state; [by apply zone_lbas_pos|done|done|zstate]|..]; zcounts.

(** ** The actions *)

Section actions.
Context `{CC : ChanConfig}.

Lemma close_zone_ok f zid d :
  zns_ok f -> f.(zone_descs) !! zid = Some d ->
  okp (__zmgmt_send_close_zone f zid) (fun '(f', st) =>
    match zone_next ZSA_CLOSE_ZONE d.(zd_state) with
    | Some s => st = NVME_SC_SUCCESS /\ zstep f f' zid (set_state s d)
    | None => st = NVME_SC_ZNS_INVALID_TRANSITION /\ f' = f
    end).
Proof.
  intros Hf E. pose proof (count_bounds f zid d Hf E) as Hc. pose proof (fun t => res_totals f t Hf) as Ht.
  pose proof (zo_zone _ Hf _ _ E) as Hd. unfold __zmgmt_send_close_zone, change_zone_state.
  rewrite (aget_Some _ _ _ E), bind_Ok, (mod_desc_ok _ _ _ _ E).
  destruct (zd_state d) eqn:Es; simpl; try done; (split; [done|]); try solve [zstep E].
  replace (set_state ZONE_STATE_CLOSED d) with d by (destruct d; simpl in *; by subst). by apply zstep_id.
Qed.

(** The counters after a zone has left the open and active states. *)
Lemma released_ok f zid d :
  zns_ok f -> f.(zone_descs) !! zid = Some d ->
  exists r, release_active (release_opened f d) d = with_res f r /\
    (forall t, total_cnt (get_res t r) = f.(zp).(nr_zones)) /\
    acquired_cnt r.(ri_open) = acquired_cnt f.(res_infos).(ri_open) - b2z (is_open d) /\
    acquired_cnt r.(ri_active) = acquired_cnt f.(res_infos).(ri_active) - b2z (is_active d) /\
    acquired_cnt r.(ri_zrwa) = acquired_cnt f.(res_infos).(ri_zrwa) - b2z (is_zrwa d).
Proof.
  intros Hf E. pose proof (count_bounds f zid d Hf E) as Hc. pose proof (fun t => res_totals f t Hf) as Ht.
  unfold release_active, release_opened.
  assert (with_res f f.(res_infos) = f) as Ew by by destruct f.
  destruct (zd_state d) eqn:Es; destruct (zd_zrwav d =? 0) eqn:Ez; simpl; eexists;
    (split; [first [done|by rewrite Ew]|]); (split; [zcounts|split; [zcounts|split; zcounts]]).
Qed.

Lemma finish_zone_ok f zid d :
  zns_ok f -> f.(zone_descs) !! zid = Some d ->
  okp (__zmgmt_send_finish_zone f zid) (fun '(f', st) =>
    match zone_next ZSA_FINISH_ZONE d.(zd_state) with
    | Some s => st = NVME_SC_SUCCESS /\ zstep f f' zid (set_state s d)
    | None => st = NVME_SC_ZNS_INVALID_TRANSITION /\ f' = f
    end).
Proof.
  intros Hf E. pose proof (count_bounds f zid d Hf E) as Hc.
  pose proof (zo_zone _ Hf _ _ E) as Hd. unfold __zmgmt_send_finish_zone, change_zone_state.
  rewrite (aget_Some _ _ _ E), bind_Ok. destruct (released_ok f zid d Hf E) as (r & -> & Ht & Ho & Ha & Hz).
  rewrite (mod_desc_ok (with_res f r) _ _ _ E).
  destruct (zd_state d) eqn:Es; simpl; try done; (split; [done|]); try solve [zstep E].
  replace (set_state ZONE_STATE_FULL d) with d by (destruct d; simpl in *; by subst). by apply zstep_id.
Qed.

Lemma offline_zone_ok f zid d :
  zns_ok f -> f.(zone_descs) !! zid = Some d ->
  okp (__zmgmt_send_offline_zone f zid) (fun '(f', st) =>
    match zone_next ZSA_OFFLINE_ZONE d.(zd_state) with
    | Some s => st = NVME_SC_SUCCESS /\ zstep f f' zid (set_state s d)
    | None => st = NVME_SC_ZNS_INVALID_TRANSITION /\ f' = f
    end).
Proof.
  intros Hf E. pose proof (count_bounds f zid d Hf E) as Hc. pose proof (fun t => res_totals f t Hf) as Ht.
  pose proof (zo_zone _ Hf _ _ E) as Hd. unfold __zmgmt_send_offline_zone, change_zone_state.
  rewrite (aget_Some _ _ _ E), bind_Ok, (mod_desc_ok _ _ _ _ E).
  destruct (zd_state d) eqn:Es; simpl; try done; (split; [done|]); try solve [zstep E].
  replace (set_state ZONE_STATE_OFFLINE d) with d by (destruct d; simpl in *; by subst). by apply zstep_id.
Qed.

(** Opening a zone that is closed, or whose active resource is taken. *)
Lemma open_closed_ok f zid d :
  f.(zone_descs) !! zid = Some d ->
  0 <= acquired_cnt f.(res_infos).(ri_open) < f.(zp).(nr_zones) -> f.(zp).(nr_zones) < 4294967296 ->
  total_cnt f.(res_infos).(ri_open) = f.(zp).(nr_zones) ->
  open_closed f zid = Ok (with_descs (with_res f (set_res OPEN_ZONE
      (ResInfo (acquired_cnt f.(res_infos).(ri_open) + 1) f.(zp).(nr_zones)) f.(res_infos)))
    (<[zid := set_state ZONE_STATE_OPENED_EXPL d]> f.(zone_descs)), NVME_SC_SUCCESS).
Proof.
  intros E Ha Hn Ht. unfold open_closed. rewrite (acquire_ok f OPEN_ZONE) by done. simpl.
  unfold change_zone_state. by erewrite mod_desc_ok by exact E.
Qed.

Lemma zone_after_open opt s d :
  d.(zd_state) <> ZONE_STATE_EMPTY -> zone_after ZSA_OPEN_ZONE opt s d = set_state s d.
Proof. intros Hs. unfold zone_after. rewrite bool_decide_eq_false_2 by done. by rewrite andb_false_r. Qed.

(** An open is refused for want of a ZRWA only. *)
Lemma open_zone_ok f zid zrwa d :
  zns_ok f -> f.(zone_descs) !! zid = Some d ->
  okp (__zmgmt_send_open_zone f zid zrwa) (fun '(f', st) =>
    match zone_next ZSA_OPEN_ZONE d.(zd_state) with
    | Some s => (st = NVME_SC_SUCCESS /\ zstep f f' zid (zone_after ZSA_OPEN_ZONE zrwa s d)) \/
        (st = NVME_SC_ZNS_ZRWA_RSRC_UNAVAIL /\ f' = f /\ d.(zd_state) = ZONE_STATE_EMPTY /\ zrwa <> 0 /\
         acquired_cnt f.(res_infos).(ri_zrwa) = f.(zp).(nr_zones))
    | None => st = NVME_SC_ZNS_INVALID_TRANSITION /\ f' = f
    end).
Proof.
  intros Hf E. pose proof (count_bounds f zid d Hf E) as Hc. pose proof (fun t => res_totals f t Hf) as Ht.
  pose proof (Ht OPEN_ZONE) as T1. pose proof (Ht ACTIVE_ZONE) as T2. pose proof (Ht ZRWA_ZONE) as T3.
  pose proof (zo_zone _ Hf _ _ E) as Hd. unfold __zmgmt_send_open_zone.
  rewrite (aget_Some _ _ _ E), bind_Ok.
  destruct (zd_state d) eqn:Es; simpl; try done; try (rewrite (zone_after_open zrwa _ d) by (by rewrite Es)).
  - assert (is_open d = false /\ is_active d = false /\ is_zrwa d = false) as (Eo & Ea & Ez')
      by (unfold is_zrwa, is_open, is_active; by rewrite Es).
    unfold zone_after. rewrite Es. simpl.
    rewrite Eo, Ea, Ez' in Hc. simpl in Hc, T1, T2.
    assert ((zd_zrwav d =? 0) = true) as Ez by (destruct (zk_empty _ _ _ Hd Es) as [_ ->]; done).
    rewrite (not_full f ACTIVE_ZONE) by (simpl; lia). rewrite (not_full f OPEN_ZONE) by (simpl; lia).
    destruct (zrwa =? 0) eqn:Ew; simpl.
    + rewrite (acquire_ok f ACTIVE_ZONE) by (simpl; lia). simpl.
      erewrite open_closed_ok by first [exact E|simpl; lia]. simpl. left. split; [done|]. zstep E.
    + destruct (is_zone_resource_full f ZRWA_ZONE) eqn:Er.
      { apply Z.eqb_eq in Er. apply Z.eqb_neq in Ew. simpl in *. right. repeat split; try done. lia. }
      apply Z.eqb_neq in Er. simpl in Er, T3. rewrite (acquire_ok f ZRWA_ZONE) by (simpl; lia). simpl.
      erewrite mod_desc_ok by exact E. simpl. rewrite (acquire_ok _ ACTIVE_ZONE) by (simpl; lia). simpl.
      erewrite open_closed_ok; simpl; [|by apply zlookup_zinsert_eq, (zlookup_Some_range _ _ _ E)|lia..].
      simpl. left. split; [done|]. rewrite zinsert_twice.
      eapply zstep_intro; [done|exact E|done|by repeat split|done| |zcounts..].
      apply (zone_ok_zrwav _ _ (set_state ZONE_STATE_OPENED_EXPL d) 1); [done|].
      apply zone_ok_state; [by apply zone_lbas_pos|done|done|zstate].
  - unfold change_zone_state. erewrite mod_desc_ok by exact E. simpl. left. split; [done|]. zstep E.
  - left. split; [done|].
    replace (set_state ZONE_STATE_OPENED_EXPL d) with d by (destruct d; simpl in *; by subst). by apply zstep_id.
  - assert (is_open d = false) as Eo by (unfold is_open; by rewrite Es). rewrite Eo in Hc. simpl in Hc, T1.
    erewrite open_closed_ok by first [exact E|simpl; lia]. simpl. left. split; [done|]. zstep E.
Qed.

(** The reset of the data of a zone, after its state has changed. *)
Lemma reset_data_ok f zid d h :
  f.(zone_descs) !! zid = Some d -> 0 <= zid < f.(zp).(nr_zones) -> f.(zp).(nr_zones) < 4294967296 ->
  0 < f.(zp).(zone_size) < 4294967296 -> zrwa_bufs_ok f h ->
  okp (__reset_zone f zid h) (fun '(f', h') =>
    f'.(zone_descs) = <[zid := set_zrwav 0 (set_wp_lba d.(zd_zslba) d)]> f.(zone_descs) /\
    same_device f f' /\ f'.(res_infos) = f.(res_infos) /\ bufs_kept h h' /\
    forall a, f'.(zf_storage) a = if decide (in_zone_storage f zid a) then 0 else f.(zf_storage) a).
Proof.
  intros E Hz Hn Hs Hb. unfold __reset_zone, get_storage_addr_from_zid.
  assert (0 <= zid * zone_size (zp f) < 18446744073709551616) by nia. unwrap.
  erewrite mod_desc_ok by exact E. rewrite bind_Ok. simpl.
  assert (forall a, zero_range (zid * zone_size (zp f)) (zone_size (zp f)) (zf_storage f) a =
    if decide (in_zone_storage f zid a) then 0 else zf_storage f a) as Hst.
  { intros a. unfold zero_range, in_zone_storage. repeat case_decide; try done; lia. }
  destruct (zrwa_buffer_size (zp f) =? 0) eqn:Eb.
  { simpl. repeat (split; [done|]). split; [exact (bufs_kept_refl h)|done]. }
  apply Z.eqb_neq in Eb. destruct (Hb Eb zid Hz) as [b Hbuf]. rewrite Hbuf, bind_Ok.
  apply okp_bind. eapply okp_mono; [by eapply store_ok|]. intros l (L1 & L2 & L3). simpl.
  do 3 (split; [done|]). split; [|done]. do 3 (split; [done|]). simpl. intros p b' Hp.
  destruct (decide (p = elem_ptr (zrwa_buffer f) zid)) as [->|Hne]; [right; congruence|left; by rewrite L3].
Qed.

(** What an action does to its zone: [f'] and the status [st]. *)
Definition zone_sent (action opt zid : Z) (d : zone_descriptor) (f f' : zns_ftl) (st : Z) : Prop :=
  match zone_next action d.(zd_state) with
  | Some s =>
      (st = NVME_SC_SUCCESS /\ zone_set f f' zid (zone_after action opt s d) /\
       forall a, f'.(zf_storage) a =
         if decide (action = ZSA_RESET_ZONE /\ in_zone_storage f zid a) then 0 else f.(zf_storage) a) \/
      (st = NVME_SC_ZNS_ZRWA_RSRC_UNAVAIL /\ f' = f /\ action = ZSA_OPEN_ZONE /\ d.(zd_state) = ZONE_STATE_EMPTY /\
       opt <> 0 /\ acquired_cnt f.(res_infos).(ri_zrwa) = f.(zp).(nr_zones))
  | None => st = NVME_SC_ZNS_INVALID_TRANSITION /\ f' = f
  end.

Lemma reset_zone_ok f zid opt d h :
  zns_ok f -> f.(zone_descs) !! zid = Some d -> zrwa_bufs_ok f h ->
  okp (__zmgmt_send_reset_zone f zid h) (fun '(f', h', st) =>
    zone_sent ZSA_RESET_ZONE opt zid d f f' st /\ zns_ok f' /\ bufs_kept h h').
Proof.
  intros Hf E Hb. pose proof (count_bounds f zid d Hf E) as Hc. pose proof (zlookup_Some_range _ _ _ E) as Hz.
  rewrite (zo_len _ Hf) in Hz. pose proof (zo_zone _ Hf _ _ E) as Hd. pose proof (zg_size _ (zo_geo _ Hf)).
  unfold __zmgmt_send_reset_zone, zone_sent. rewrite (aget_Some _ _ _ E), bind_Ok.
  assert (zone_next ZSA_RESET_ZONE (zd_state d) = None \/ zone_next ZSA_RESET_ZONE (zd_state d) = Some ZONE_STATE_EMPTY)
    as [En|En] by (destruct (zd_state d); simpl; auto); rewrite En.
  { destruct (zd_state d); try done; simpl; (split; [done|split; [done|apply bufs_kept_refl]]). }
  assert (okp (f1 ← change_zone_state (release_active (release_opened f d) d) zid ZONE_STATE_EMPTY;
    '(f1, h) ← __reset_zone f1 zid h; Ok (f1, h, NVME_SC_SUCCESS)) (fun '(f', h', st) =>
      st = NVME_SC_SUCCESS /\ zone_set f f' zid (reset_desc d) /\ zns_ok f' /\ bufs_kept h h' /\
      forall a, f'.(zf_storage) a = if decide (in_zone_storage f zid a) then 0 else f.(zf_storage) a)) as Hr.
  { destruct (released_ok f zid d Hf E) as (r & -> & Ht & Ho & Ha & Hzr). unfold change_zone_state.
    erewrite mod_desc_ok by exact E. rewrite bind_Ok. simpl. apply okp_bind. eapply okp_mono.
    { eapply reset_data_ok; simpl; [by apply zlookup_zinsert_eq; eapply zlookup_Some_range|done|lia|done|exact Hb]. }
    intros [f' h'] (D & (S1 & S2 & S3 & S4 & S5) & R & B & St). simpl in *. rewrite zinsert_twice in D.
    split; [done|]. split; [by repeat split|]. split; [|by split]. destruct Hd as [H1 H2 H3 H4 H5].
    pose proof (zone_lbas_pos f Hf).
    eapply (zns_ok_set f f' zid d (reset_desc d)); [done|done|by repeat split|..]; rewrite ?R.
    - split; simpl; try done. lia.
    - pose proof (Ht OPEN_ZONE) as T. simpl in T. destruct (ri_open r) as [c t]. simpl in Ho, T. rewrite Ho, T.
      change (is_open (reset_desc d)) with false. f_equal. simpl. lia.
    - pose proof (Ht ACTIVE_ZONE) as T. simpl in T. destruct (ri_active r) as [c t]. simpl in Ha, T. rewrite Ha, T.
      change (is_active (reset_desc d)) with false. f_equal. simpl. lia.
    - exact (Ht ZRWA_ZONE).
    - change (is_zrwa (reset_desc d)) with false. destruct (is_zrwa d); simpl in *; lia. }
  destruct (zd_state d) eqn:Es; try done; (eapply okp_mono; [exact Hr|]);
    intros [[f' h'] st] (-> & A1 & A2 & A3 & A4); (split; [|done]); left; (split; [done|]); (split; [done|]);
    intros a; rewrite A4; repeat case_decide; try done; naive_solver.
Qed.

Lemma zstep_sent action opt zid s d f f' st :
  action <> ZSA_RESET_ZONE -> zone_next action d.(zd_state) = Some s -> st = NVME_SC_SUCCESS ->
  zstep f f' zid (zone_after action opt s d) -> zone_sent action opt zid d f f' st /\ zns_ok f'.
Proof.
  intros Ha En -> [H1 H2 H3]. split; [|done]. unfold zone_sent. rewrite En. left. split; [done|]. split; [done|].
  intros a. rewrite H3, decide_False; [done|]. by intros [? _].
Qed.

Lemma refused_sent action opt zid d f st :
  zns_ok f -> zone_next action d.(zd_state) = None -> st = NVME_SC_ZNS_INVALID_TRANSITION ->
  zone_sent action opt zid d f f st /\ zns_ok f.
Proof. intros Hf En ->. split; [|done]. unfold zone_sent. by rewrite En. Qed.

(** The five actions. *)
Lemma zmgmt_send_ok f slba action opt h :
  zns_ok f -> zrwa_bufs_ok f h -> is_action action -> 0 <= slba < f.(zp).(nr_zones) * zone_lbas f ->
  exists d, f.(zone_descs) !! (slba `div` zone_lbas f) = Some d /\
  okp (__zmgmt_send f slba action opt h) (fun '(f', h', st) => exists st', st = Some st' /\
    zone_sent action opt (slba `div` zone_lbas f) d f f' st' /\ zns_ok f' /\ bufs_kept h h').
Proof.
  intros Hf Hb Ha Hs. destruct (lba_to_zone_ok f slba Hf) as [Ez Hz]; [lia..|].
  destruct (zone_lookup f _ Hf Hz) as (d & Ed & _ & _). exists d. split; [done|].
  unfold __zmgmt_send. rewrite Ez, bind_Ok. set (zid := slba `div` zone_lbas f) in *. clearbody zid.
  assert (forall r : res (zns_ftl * Z), okp r (fun '(f', st) => zone_sent action opt zid d f f' st /\ zns_ok f') ->
    okp ('(f, st) ← r; Ok (f, h, Some st)) (fun '(f', h', st) => exists st', st = Some st' /\
      zone_sent action opt zid d f f' st' /\ zns_ok f' /\ bufs_kept h h')) as Hlift.
  { intros r Hr. apply okp_bind. eapply okp_mono; [exact Hr|]. intros [f' st] [? ?]. simpl. exists st.
    repeat (split; [done|]). apply bufs_kept_refl. }
  unfold is_action, ZSA_CLOSE_ZONE, ZSA_OFFLINE_ZONE in Ha.
  assert (action = 1 \/ action = 2 \/ action = 3 \/ action = 4 \/ action = 5) as Hcase by lia.
  destruct Hcase as [->|[->|[->|[->| ->]]]]; simpl.
  - apply Hlift. eapply okp_mono; [by eapply close_zone_ok|]. intros [f' st].
    destruct (zone_next _ _) eqn:En; intros [-> H]; [by eapply zstep_sent|subst; by apply refused_sent].
  - apply Hlift. eapply okp_mono; [by eapply finish_zone_ok|]. intros [f' st].
    destruct (zone_next _ _) eqn:En; intros [-> H]; [by eapply zstep_sent|subst; by apply refused_sent].
  - apply Hlift. eapply okp_mono; [by eapply (open_zone_ok f zid opt)|]. intros [f' st].
    destruct (zone_next _ _) eqn:En; [|intros [-> ->]; by apply refused_sent].
    intros [[-> H]|(-> & -> & ? & ? & ?)]; [by eapply zstep_sent|]. split; [|done]. unfold zone_sent.
    change (zone_next ZSA_OPEN_ZONE) with (zone_next 3) in En. rewrite En. by right.
  - apply okp_bind. eapply okp_mono; [by eapply (reset_zone_ok f zid opt)|]. intros [[f' h'] st] H. simpl. by exists st.
  - apply Hlift. eapply okp_mono; [by eapply offline_zone_ok|]. intros [f' st].
    destruct (zone_next _ _) eqn:En; intros [-> H]; [by eapply zstep_sent|subst; by apply refused_sent].
Qed.
End actions.
