(* ===== verification/ZnsSend.v ===== *)
(** * Zone management send, the command

    [zns_zmgmt_send] on one zone or on every zone, and the explicit flush of a
    ZRWA. *)

From stdpp Require Import prelude list.
From Stdlib Require Import ZArith Lia.
From S2P Require Import Prelude ChannelModel SsdConfig Ssd ConvFtl ZnsFtl ZnsMgmt ZnsRw ZnsInv ZnsStep.

(** The command is for the zone of [slba] alone. *)
Definition zone_moved (action opt : Z) (d d' : zone_descriptor) : Prop :=
  match zone_next action d.(zd_state) with
  | Some s => d' = zone_after action opt s d \/
      (d' = d /\ action = ZSA_OPEN_ZONE /\ opt <> 0 /\ d.(zd_state) = ZONE_STATE_EMPTY)
  | None => d' = d
  end.

(** The zone's bytes after the action: a reset that is accepted clears them. *)
Definition storage_moved (action : Z) (d : zone_descriptor) (f f' : zns_ftl) (zid : Z) : Prop :=
  forall a, in_zone_storage f zid a -> f'.(zf_storage) a =
    if decide (action = ZSA_RESET_ZONE /\ is_Some (zone_next action d.(zd_state))) then 0 else f.(zf_storage) a.

Record zns_ns_ok `{ChanConfig} (ns : zns_ns) : Prop := {
  nk_csi : ns.(zn_csi) = NVME_CSI_ZNS;
  nk_parts : ns.(zn_nr_parts) = 1;
  nk_ftl : zns_ok ns.(zn_ftl)
}.

Section send.
Context `{CC : ChanConfig}.

Lemma same_device_refl f : same_device f f.
Proof. by repeat split. Qed.

Lemma same_device_trans f g h : same_device f g -> same_device g h -> same_device f h.
Proof. intros (A1 & A2 & A3 & A4 & A5) (B1 & B2 & B3 & B4 & B5). repeat split; congruence. Qed.

Lemma same_device_lbas f f' : same_device f f' -> zone_lbas f' = zone_lbas f.
Proof. intros (E1 & E2 & _). unfold zone_lbas, zf_sp. by rewrite E1, E2. Qed.

Lemma same_device_bufs f f' h h' : same_device f f' -> bufs_kept h h' -> zrwa_bufs_ok f h -> zrwa_bufs_ok f' h'.
Proof.
  intros (_ & E2 & _ & _ & E5) (_ & _ & _ & Hk) Hb. unfold zrwa_bufs_ok. rewrite E2, E5. intros Hz i Hi.
  destruct (Hb Hz i Hi) as [b Hbuf]. destruct (Hk _ _ Hbuf); eauto.
Qed.

(** What the action did, zone by zone. *)
Lemma zone_sent_moved action opt zid d f f' st :
  zns_ok f -> f.(zone_descs) !! zid = Some d -> zone_sent action opt zid d f f' st ->
  same_device f f' /\ (exists d', f'.(zone_descs) = <[zid := d']> f.(zone_descs) /\ zone_moved action opt d d') /\
  storage_moved action d f f' zid /\
  forall a, ~ in_zone_storage f zid a -> f'.(zf_storage) a = f.(zf_storage) a.
Proof.
  intros Hf E. assert (f.(zone_descs) = <[zid := d]> f.(zone_descs)) as Hid
    by (pose proof (zstep_id f zid d Hf E) as [[H _] _ _]; exact H).
  unfold zone_sent, zone_moved, storage_moved. destruct (zone_next action (zd_state d)) as [s|] eqn:En.
  - intros [(-> & [Ed Hs] & St)|(-> & -> & -> & Ee & Ho & _)].
    + split; [done|]. split; [eauto|]. split; intros a Ha; rewrite St.
      * repeat case_decide; try done; naive_solver.
      * rewrite decide_False; [done|]. by intros [_ ?].
    + split; [apply same_device_refl|]. split; [exists d; split; [done|by right]|]. split; [|done].
      intros a _. by rewrite decide_False by (by intros [? _]).
  - intros [-> ->]. split; [apply same_device_refl|]. split; [by exists d|]. split; [|done].
    intros a _. rewrite decide_False; [done|]. by intros [_ [? ?]].
Qed.

(** Every zone in turn. *)
Definition all_moved (action opt hi : Z) (f f' : zns_ftl) : Prop :=
  same_device f f' /\ zns_ok f' /\
  (forall (i : Z) d, f.(zone_descs) !! i = Some d ->
     exists d', f'.(zone_descs) !! i = Some d' /\
       if decide (i < hi) then zone_moved action opt d d' /\ storage_moved action d f f' i
       else d' = d /\ forall a, in_zone_storage f i a -> f'.(zf_storage) a = f.(zf_storage) a) /\
  forall a, (forall i, 0 <= i < hi -> ~ in_zone_storage f i a) -> f'.(zf_storage) a = f.(zf_storage) a.

Lemma in_zone_unique f i j a :
  zns_ok f -> in_zone_storage f i a -> in_zone_storage f j a -> i = j.
Proof. intros Hf. pose proof (zg_size _ (zo_geo _ Hf)). unfold in_zone_storage. nia. Qed.

Lemma all_moved_step action opt i d f f1 f2 st :
  zns_ok f -> 0 <= i -> all_moved action opt i f f1 -> f1.(zone_descs) !! i = Some d ->
  zone_sent action opt i d f1 f2 st -> zns_ok f2 -> all_moved action opt (i + 1) f f2.
Proof.
  intros Hf Hi (Hs & Hf1 & Hz & Hst) Ed Hsent Hf2.
  destruct (zone_sent_moved _ _ _ _ _ _ _ Hf1 Ed Hsent) as (S1 & (d2 & E2 & M) & Sm & So).
  assert (forall j a, in_zone_storage f1 j a <-> in_zone_storage f j a) as Hin
    by (intros j a; unfold in_zone_storage; by rewrite (proj1 (proj2 Hs))).
  pose proof (zlookup_Some_range _ _ _ Ed).
  split; [by eapply same_device_trans|]. split; [done|]. split.
  - intros k dk Ek. destruct (Hz k dk Ek) as (d' & Ek' & Hk). rewrite E2, zlookup_zinsert by done.
    destruct (decide (i = k)) as [<-|Hne].
    + rewrite (decide_False (P := i < i)) in Hk by lia. destruct Hk as [-> Hk].
      assert (d = dk) as -> by congruence. exists d2. split; [done|]. rewrite decide_True by lia.
      split; [done|]. intros a Ha. rewrite Sm by by apply Hin. by rewrite Hk.
    + exists d'. split; [done|]. destruct (decide (k < i)) as [Hl|Hl].
      * rewrite decide_True by lia. destruct Hk as [Hk1 Hk2]. split; [done|]. intros a Ha.
        rewrite So; [by apply Hk2|]. intros Ha'%Hin. by pose proof (in_zone_unique f i k a Hf Ha' Ha).
      * rewrite decide_False by lia. destruct Hk as [-> Hk2]. split; [done|]. intros a Ha.
        rewrite So; [by apply Hk2|]. intros Ha'%Hin. by pose proof (in_zone_unique f i k a Hf Ha' Ha).
  - intros a Ha. rewrite So; [apply Hst; intros j Hj; apply Ha; lia|]. rewrite Hin. apply Ha. lia.
Qed.

(** The first block of a zone is in it. *)
Lemma slba_zone f i : zns_ok f -> 0 <= i < f.(zp).(nr_zones) ->
  0 <= i * zone_lbas f < f.(zp).(nr_zones) * zone_lbas f /\ (i * zone_lbas f) `div` zone_lbas f = i.
Proof. intros Hf Hi. pose proof (zone_lbas_pos f Hf). split; [nia|]. apply Z.div_mul. lia. Qed.

Lemma send_all_ok f action opt h :
  zns_ok f -> zrwa_bufs_ok f h -> is_action action ->
  okp (rfold (fun zid '(f, h) => zslba ← zone_to_slba f zid;
          '(f, h, _) ← __zmgmt_send f zslba action opt h; Ok (f, h)) (zrange 0 f.(zp).(nr_zones)) (f, h))
    (fun '(f', h') => all_moved action opt f.(zp).(nr_zones) f f' /\ bufs_kept h h').
Proof.
  intros Hf Hb Ha. pose proof (zg_nr _ (zo_geo _ Hf)).
  apply (rfold_range _ (fun i '(f', h') => all_moved action opt i f f' /\ bufs_kept h h')); [lia| |].
  - split; [|apply bufs_kept_refl]. split; [apply same_device_refl|]. split; [done|]. split; [|done].
    intros i d E. exists d. split; [done|]. pose proof (zlookup_Some_range _ _ _ E). by rewrite decide_False by lia.
  - intros i [f1 h1] Hi [Hm Hk]. pose proof Hm as (Hs & Hf1 & _).
    assert (zp f1 = zp f) as Ep by apply Hs. rewrite zone_to_slba_ok, bind_Ok by (done || rewrite Ep; lia).
    destruct (slba_zone f1 i Hf1) as [Hr Ez]; [by rewrite Ep|].
    destruct (zmgmt_send_ok f1 (i * zone_lbas f1) action opt h1 Hf1) as (d & Ed & Hsend); [|done|done|].
    { by eapply same_device_bufs. }
    rewrite Ez in *. apply okp_bind. eapply okp_mono; [exact Hsend|].
    intros [[f2 h2] st] (st' & _ & H1 & H2 & H3). split; [|by eapply bufs_kept_trans].
    eapply all_moved_step; [done|lia|done|done|done|done].
Qed.

(** The command. *)
Lemma zns_zmgmt_send_ok ns req h :
  zns_ns_ok ns -> zrwa_bufs_ok ns.(zn_ftl) h -> is_action (zc_zsa req.(zq_cmd)) ->
  0 <= req.(zq_cmd).(zc_slba) < ns.(zn_ftl).(zp).(nr_zones) * zone_lbas ns.(zn_ftl) ->
  let zid := req.(zq_cmd).(zc_slba) `div` zone_lbas ns.(zn_ftl) in
  okp (zns_zmgmt_send ns req h) (fun '(ns', h', ret) =>
    zns_ns_ok ns' /\ bufs_kept h h' /\ ret.(rs_nsecs_target) = req.(zq_nsecs_start) /\
    if zc_select_all req.(zq_cmd) =? 0 then
      exists d, ns.(zn_ftl).(zone_descs) !! zid = Some d /\
        zone_sent (zc_zsa req.(zq_cmd)) (zc_zsaso req.(zq_cmd)) zid d ns.(zn_ftl) ns'.(zn_ftl) ret.(rs_status)
    else ret.(rs_status) = NVME_SC_SUCCESS /\
      all_moved (zc_zsa req.(zq_cmd)) (zc_zsaso req.(zq_cmd)) ns.(zn_ftl).(zp).(nr_zones) ns.(zn_ftl) ns'.(zn_ftl)).
Proof.
  intros [Hc Hp Hf] Hb Ha Hs zid. unfold zns_zmgmt_send.
  rewrite (proj1 (lba_to_zone_ok _ _ Hf (proj1 Hs) (proj2 Hs))), bind_Ok.
  destruct (zc_select_all (zq_cmd req) =? 0) eqn:Es; simpl.
  - destruct (zmgmt_send_ok _ _ _ (zc_zsaso (zq_cmd req)) h Hf Hb Ha Hs) as (d & Ed & Hsend).
    apply okp_bind, okp_bind. eapply okp_mono; [exact Hsend|].
    intros [[f' h'] st] (st' & -> & H1 & H2 & H3). simpl. split; [by split|]. split; [done|]. split; [done|].
    by exists d.
  - apply okp_bind, okp_bind. eapply okp_mono; [by eapply send_all_ok|].
    intros [f' h'] [Hm Hk]. simpl. split; [split; [done|done|apply Hm]|]. by split.
Qed.
End send.

(** ** The explicit flush of a ZRWA *)

Record zrwa_params (f : zns_ftl) : Prop := {
  zr_lbas : 0 < f.(zp).(lbas_per_zrwa) < 4294967296;
  zr_group : 0 < f.(zp).(lbas_per_zrwafg) < 4294967296
}.

Definition zone_end (d : zone_descriptor) : Z := d.(zd_zslba) + d.(zd_zone_capacity).

(** The blocks that may be flushed: those of the ZRWA, in the zone. *)
Definition in_zrwa (f : zns_ftl) (d : zone_descriptor) (lba : Z) : bool :=
  (d.(zd_wp) <=? lba) && (lba <? Z.min (d.(zd_wp) + f.(zp).(lbas_per_zrwa)) (zone_end d)).

Definition flush_status (f : zns_ftl) (d : zone_descriptor) (slba : Z) : Z :=
  if (d.(zd_zrwav) =? 0) || negb (in_zrwa f d slba) then NVME_SC_ZNS_INVALID_ZONE_OPERATION
  else if negb ((slba + 1 - d.(zd_wp)) `mod` f.(zp).(lbas_per_zrwafg) =? 0) then NVME_SC_INVALID_FIELD
  else if is_active d then NVME_SC_SUCCESS else NVME_SC_ZNS_INVALID_ZONE_OPERATION.

Definition flush_zone (f : zns_ftl) (d : zone_descriptor) (slba : Z) : zone_descriptor :=
  if flush_status f d slba =? NVME_SC_SUCCESS then
    let d' := set_wp_lba (slba + 1) d in
    if slba + 1 =? zone_end d then set_state ZONE_STATE_FULL d' else d'
  else d.

Section flush.
Context `{CC : ChanConfig}.

(** The write pointer of an open or closed zone advances inside it. *)
Lemma advance_wp_ok f zid d wp :
  zns_ok f -> f.(zone_descs) !! zid = Some d -> is_active d = true ->
  d.(zd_wp) <= wp < zone_end d ->
  zstep f (with_descs f (<[zid := set_wp_lba wp d]> f.(zone_descs))) zid (set_wp_lba wp d).
Proof.
  intros Hf E Ha Hwp. pose proof (count_bounds f zid d Hf E) as Hc. pose proof (fun t => res_totals f t Hf) as Ht.
  pose proof (zo_zone _ Hf _ _ E) as [H1 H2 H3 H4 H5]. unfold zone_end in Hwp. rewrite H1, H2 in Hwp.
  eapply zstep_intro; [done|exact E|done|by repeat split|done| |done|..].
  - split; simpl; [done|done|lia| |intros _; lia]. intros Hs. unfold is_active in Ha. by rewrite Hs in Ha.
  - change (is_open (set_wp_lba wp d)) with (is_open d). cbn [with_descs res_infos]. lia.
  - change (is_active (set_wp_lba wp d)) with (is_active d). cbn [with_descs res_infos]. lia.
  - change (is_zrwa (set_wp_lba wp d)) with (is_zrwa d). cbn [with_descs res_infos]. lia.
Qed.

(** A zone whose last block is written becomes full. *)
Lemma fill_zone_ok f r zid d wp :
  zns_ok f -> f.(zone_descs) !! zid = Some d -> wp = zone_end d ->
  (forall t, total_cnt (get_res t r) = f.(zp).(nr_zones)) ->
  acquired_cnt r.(ri_open) = acquired_cnt f.(res_infos).(ri_open) - b2z (is_open d) ->
  acquired_cnt r.(ri_active) = acquired_cnt f.(res_infos).(ri_active) - b2z (is_active d) ->
  acquired_cnt f.(res_infos).(ri_zrwa) - b2z (is_zrwa d) <= acquired_cnt r.(ri_zrwa) <= f.(zp).(nr_zones) ->
  zstep f (with_descs (with_res f r) (<[zid := set_state ZONE_STATE_FULL (set_wp_lba wp d)]> f.(zone_descs))) zid
    (set_state ZONE_STATE_FULL (set_wp_lba wp d)).
Proof.
  intros Hf E -> Ht Ho Ha Hz. pose proof (zo_zone _ Hf _ _ E) as [H1 H2 H3 H4 H5].
  pose proof (zone_lbas_pos f Hf). unfold zone_end. rewrite H1, H2.
  eapply zstep_intro; [done|exact E|done|by repeat split|done| |done|..]; simpl; rewrite ?Z.add_0_r; try done.
  - split; simpl; try done. lia.
Qed.

(** The flush moves the write pointer behind [slba], or is refused. *)
Lemma flush_explicit_ok f slba :
  zns_ok f -> zrwa_params f -> 0 <= slba < f.(zp).(nr_zones) * zone_lbas f ->
  exists d, f.(zone_descs) !! (slba `div` zone_lbas f) = Some d /\
  okp (__zmgmt_send_flush_explicit_zrwa f slba) (fun '(f', st) =>
    st = flush_status f d slba /\ zstep f f' (slba `div` zone_lbas f) (flush_zone f d slba)).
Proof.
  intros Hf [Hz Hg] Hs. destruct (lba_to_zone_ok f slba Hf) as [Ezid Hzid]; [lia..|].
  set (zid := slba `div` zone_lbas f) in *. destruct (zone_lookup f zid Hf Hzid) as (d & Ed & Gd & Hd).
  exists d. split; [done|]. unfold __zmgmt_send_flush_explicit_zrwa. rewrite Ezid, bind_Ok, Gd, bind_Ok.
  rewrite zone_to_slba_ok, bind_Ok by (done || lia). pose proof Hd as [H1 H2 H3 H4 H5].
  pose proof (zg_fits _ (zo_geo _ Hf)). pose proof (zone_lbas_pos f Hf).
  assert (0 <= zid * zone_lbas f /\ (zid + 1) * zone_lbas f < 4294967296 /\ 0 <= zd_wp d) as (? & ? & ?) by nia.
  rewrite <- H2, H1. unwrap.
  replace (zd_zslba d + zone_lbas f) with (zone_end d) by (unfold zone_end; by rewrite H1).
  assert (zone_end d = (zid + 1) * zone_lbas f) as Ee by (unfold zone_end; rewrite H1, H2; lia).
  pose proof (zstep_id f zid d Hf Ed) as Hid. unfold flush_zone, flush_status. unwrap.
  destruct (zd_zrwav d =? 0) eqn:Ev; [by simpl|].
  assert ((zd_wp d <=? slba) && (slba <=? Z.min (zd_wp d + lbas_per_zrwa (zp f) - 1) (zone_end d - 1))
    = in_zrwa f d slba) as ->.
  { unfold in_zrwa. f_equal. destruct (slba <? _) eqn:El; [apply Z.leb_le|apply Z.leb_gt]; lia. }
  destruct (in_zrwa f d slba) eqn:Ein; [|by simpl]. simpl. unfold in_zrwa in Ein.
  apply andb_prop in Ein as [Hl1%Z.leb_le Hl2%Z.ltb_lt]. unwrap.
  replace (slba - zd_wp d + 1) with (slba + 1 - zd_wp d) by lia. rewrite cmod_ok, bind_Ok by lia.
  destruct (_ `mod` _ =? 0); [|by simpl]. simpl.
  assert (is_active d = match zd_state d with
    | ZONE_STATE_OPENED_EXPL | ZONE_STATE_OPENED_IMPL | ZONE_STATE_CLOSED => true | _ => false end) as Ea
    by (unfold is_active; by destruct (zd_state d)).
  destruct (is_active d) eqn:Eact; [|destruct (zd_state d); try done; by simpl]. simpl.
  pose proof (count_bounds f zid d Hf Ed) as Hc. pose proof (fun t => res_totals f t Hf) as Ht.
  destruct (zd_state d) eqn:Es; try done; (erewrite mod_desc_ok by exact Ed); rewrite bind_Ok;
    (destruct (slba + 1 =? zone_end d) eqn:Eend;
      [apply Z.eqb_eq in Eend|apply Z.eqb_neq in Eend; simpl; split; [done|]; apply advance_wp_ok; [done|done|done|lia]]);
    unfold change_zone_state; (erewrite mod_desc_ok by (simpl; by apply zlookup_zinsert_eq, (zlookup_Some_range _ _ _ Ed)));
    simpl; (split; [done|]); rewrite zinsert_twice.
  all: match goal with |- zstep _ ?g _ _ => apply (fill_zone_ok f g.(res_infos) zid d); [done|done|done|..] end; zcounts.

Qed.
End flush.
