(* ===== verification/ZnsWrite.v ===== *)
(** * Zoned writes and reads

    Where the pages of a zone lie ([__lpn_to_ppa]), what a write or an append
    does to its zone, to the write buffer and to the device, and that a read
    changes clocks only. *)

From stdpp Require Import prelude list.
From Stdlib Require Import ZArith Lia.
From S2P Require Import Prelude ChannelModel SsdConfig Ssd ConvFtl ZnsFtl ZnsMgmt ZnsRw ZnsInv ZnsStep ZnsSend.

(** ** The place of a page *)

(** The die of page [off] of a zone: its one-shot pages go round the dies of the
    zone. *)
Definition zone_die (f : zns_ftl) (zone off : Z) : Z :=
  let spp := zf_sp f in
  (zone * f.(zp).(dies_per_zone)) `mod` spp.(tt_luns) + (off `div` spp.(pgs_per_oneshotpg)) `mod` f.(zp).(dies_per_zone).

Definition zone_ppa (f : zns_ftl) (zone off : Z) : ppa :=
  let spp := zf_sp f in
  Ppa (off `mod` spp.(pgs_per_oneshotpg)) 0 0 (zone_die f zone off `div` spp.(nchs)) (zone_die f zone off `mod` spp.(nchs)) 0.

(** [f'] is [f] with other clocks. *)
Definition zticked `{ChanConfig} (f f' : zns_ftl) : Prop :=
  exists s, f' = with_zssd f s /\ same_nand f.(zf_ssd) s /\ ssd_shape s.

(** The bytes released by the time [x] of the [n] pages of a zone are written. *)
Definition released_bytes (os n x : Z) : Z := if x =? n then n * 4096 else (x `div` os) * (os * 4096).

Definition sched_bytes (ops : list internal_op) : Z := foldr (fun op n => op.(io_buffs) + n) 0 ops.

Lemma sched_bytes_app a b : sched_bytes (a ++ b) = sched_bytes a + sched_bytes b.
Proof. induction a as [|op a IH]; simpl; [done|]. rewrite IH. lia. Qed.

Lemma released_step os n x p :
  0 < os -> 0 <= x -> 0 < p <= os - x `mod` os -> x + p <= n ->
  released_bytes os n (x + p) - released_bytes os n x =
  if (x `mod` os + p =? os) || (x + p =? n)
  then if (x + p =? n) && (0 <? n `mod` os) then n `mod` os * 4096 else os * 4096 else 0.
Proof.
  intros Hos Hx Hp Hn. unfold released_bytes. rewrite (proj2 (Z.eqb_neq x n)) by lia.
  pose proof (Z.div_mod x os ltac:(lia)) as Ex. pose proof (Z.mod_pos_bound x os Hos) as Hm.
  set (q := x `div` os) in *. set (r := x `mod` os) in *. clearbody q r.
  destruct (r + p =? os) eqn:E1; simpl.
  - apply Z.eqb_eq in E1. assert (x + p = (q + 1) * os) as E by lia.
    destruct (x + p =? n) eqn:E2; simpl.
    + apply Z.eqb_eq in E2. rewrite <- E2, E, Z_mod_mult. simpl. lia.
    + rewrite E, Z.div_mul by lia. lia.
  - apply Z.eqb_neq in E1. assert (x + p = (r + p) + q * os) as E by lia.
    assert ((x + p) `div` os = q /\ (x + p) `mod` os = r + p) as [D M].
    { rewrite E, Z.div_add, Z.mod_add by lia. rewrite Z.div_small, Z.mod_small by lia. lia. }
    destruct (x + p =? n) eqn:E2; simpl; [|rewrite D; lia].
    apply Z.eqb_eq in E2. rewrite <- E2, M, (proj2 (Z.ltb_lt 0 (r + p))) by lia. lia.
Qed.

Section place.
Context `{CC : ChanConfig, CK : Clock}.

Lemma zticked_refl f : ssd_shape f.(zf_ssd) -> zticked f f.
Proof. intros Hs. exists f.(zf_ssd). split; [by destruct f|]. by split. Qed.

Lemma zticked_trans f g h : zticked f g -> zticked g h -> zticked f h.
Proof.
  intros (s & -> & S1 & S2) (t & -> & T1 & T2). exists t. split; [done|]. split; [|done].
  simpl in T1. by etrans.
Qed.

Lemma zticked_sp f f' : zticked f f' -> zf_sp f' = zf_sp f.
Proof. intros (s & -> & (E & _) & _). exact E. Qed.

Lemma zticked_ok f f' : zticked f f' -> zns_ok f -> zns_ok f'.
Proof.
  intros Ht [H1 H2 H3 H4 H5 H6]. pose proof (zticked_sp _ _ Ht) as Esp.
  destruct Ht as (s & -> & _ & Hs).
  assert (zone_lbas (with_zssd f s) = zone_lbas f /\ zone_pgs (with_zssd f s) = zone_pgs f) as [El Ep]
    by (unfold zone_lbas, zone_pgs; by rewrite Esp).
  split; rewrite ?Esp, ?El; try done. destruct H3. split; rewrite ?Esp, ?El, ?Ep; done.
Qed.

(** Every page of a zone is in the device. *)
Lemma zone_die_range f zone off :
  zns_ok f -> 0 <= zone -> 0 <= off -> 0 <= zone_die f zone off < (zf_sp f).(tt_luns).
Proof.
  intros Hf Hz Ho. destruct (zg_dies _ (zo_geo _ Hf)) as [Hd [k Hk]]. pose proof (zo_params _ Hf) as Hp.
  pose proof (po_oneshot _ Hp). pose proof (po_nchs _ Hp). pose proof (po_luns _ Hp). pose proof (po_tt_luns _ Hp) as Et.
  assert (0 < tt_luns (zf_sp f)) as Ht by (rewrite Et; nia). unfold zone_die.
  pose proof (Z.mod_pos_bound (off `div` pgs_per_oneshotpg (zf_sp f)) (dies_per_zone (zp f)) ltac:(lia)).
  rewrite Hk in *. set (D := dies_per_zone (zp f)) in *. assert (0 < k) by nia.
  rewrite Z.mul_mod_distr_r by lia. pose proof (Z.mod_pos_bound zone k ltac:(lia)). nia.
Qed.

Lemma zone_ppa_in_dev f zone off :
  zns_ok f -> 0 <= zone -> 0 <= off -> in_dev (zf_sp f) (zone_ppa f zone off).
Proof.
  intros Hf Hz Ho. pose proof (zone_die_range f zone off Hf Hz Ho). pose proof (zo_params _ Hf) as Hp.
  pose proof (po_oneshot _ Hp). pose proof (po_nchs _ Hp). pose proof (po_luns _ Hp). pose proof (po_tt_luns _ Hp) as Et.
  pose proof (po_pls _ Hp). pose proof (po_blks _ Hp). pose proof (po_blk_oneshot _ Hp). pose proof (po_oneshots _ Hp).
  pose proof (Z.mod_pos_bound off (pgs_per_oneshotpg (zf_sp f)) ltac:(lia)).
  pose proof (Z.mod_pos_bound (zone_die f zone off) (nchs (zf_sp f)) ltac:(lia)).
  unfold in_dev, zone_ppa; simpl. split; [lia|]. split; [|split; [lia|split; [lia|split; [nia|done]]]].
  split; [apply Z.div_pos; lia|]. apply Z.div_lt_upper_bound; [lia|]. rewrite Et in *. lia.
Qed.

Lemma lpn_to_ppa_ok f lpn :
  zns_ok f -> 0 <= lpn < 4294967296 ->
  __lpn_to_ppa f lpn = Ok (zone_ppa f (lpn `div` zone_pgs f) (lpn `mod` zone_pgs f)).
Proof.
  intros Hf Hl. destruct (zone_units f Hf) as (_ & _ & _ & Hpg & _). pose proof (zo_params _ Hf) as Hp.
  destruct (zg_dies _ (zo_geo _ Hf)) as [Hd _]. pose proof (po_pgsz _ Hp).
  pose proof (po_oneshot _ Hp). pose proof (po_nchs _ Hp). pose proof (po_luns _ Hp). pose proof (po_tt_luns _ Hp) as Et.
  pose proof (Z.div_mod lpn (zone_pgs f) ltac:(lia)) as E.
  pose proof (Z.mod_pos_bound lpn (zone_pgs f) ltac:(lia)).
  assert (0 <= lpn `div` zone_pgs f) as Hz by (apply Z.div_pos; lia).
  set (zone := lpn `div` zone_pgs f) in *. set (off := lpn `mod` zone_pgs f) in *.
  assert (0 <= zone < 4294967296 /\ 0 <= zone * zone_pgs f <= lpn) as [? ?] by nia.
  pose proof (zone_ppa_in_dev f zone off Hf Hz ltac:(lia)) as (I1 & I2 & _ & _ & I5 & _).
  pose proof (zone_die_range f zone off Hf Hz ltac:(lia)) as Hdie.
  unfold __lpn_to_ppa, lpn_to_zone, zone_to_slpn, die_to_channel, die_to_lun.
  rewrite !cdiv_ok, !bind_Ok by lia. fold (zone_pgs f). rewrite cdiv_ok, !bind_Ok by lia. fold zone.
  assert (0 <= zone * dies_per_zone (zp f) < 18446744073709551616) by nia. unwrap.
  replace (lpn - zone * zone_pgs f) with off by lia. unwrap.
  rewrite (cmod_ok (zone * _)), bind_Ok by nia. rewrite (cdiv_ok off), bind_Ok by lia.
  rewrite (cmod_ok (off `div` _)), bind_Ok by lia.
  pose proof (Z.mod_pos_bound (zone * dies_per_zone (zp f)) (tt_luns (zf_sp f)) ltac:(nia)).
  assert (tt_luns (zf_sp f) <= 65536) by nia. unwrap. fold (zone_die f zone off). unwrap.
  rewrite (cmod_ok (zone_die _ _ _)), bind_Ok by lia. rewrite cdiv_ok, bind_Ok by lia.
  rewrite cmod_ok, bind_Ok by lia.
  unfold zone_ppa in *. simpl in *. pose proof (po_pgs _ Hp).
  unfold set_pg, set_ch, set_lun. simpl.
  by rewrite (Z.mod_small (off `mod` _)), (Z.mod_small (_ `div` _)), (Z.mod_small (_ `mod` nchs _)) by lia.
Qed.
End place.

(** ** The zone of a write *)

Definition written_state (s : zone_state) : zone_state :=
  match s with ZONE_STATE_OPENED_EXPL => ZONE_STATE_OPENED_EXPL | _ => ZONE_STATE_OPENED_IMPL end.

(** The zone after [n] blocks at its write pointer. *)
Definition written_zone (n : Z) (d : zone_descriptor) : zone_descriptor :=
  set_state (if d.(zd_wp) + n =? zone_end d then ZONE_STATE_FULL else written_state d.(zd_state))
    (set_wp_lba (d.(zd_wp) + n) d).

Definition write_state_status (s : zone_state) : Z :=
  match s with
  | ZONE_STATE_FULL => NVME_SC_ZNS_ERR_FULL
  | ZONE_STATE_READ_ONLY => NVME_SC_ZNS_ERR_READ_ONLY
  | ZONE_STATE_OFFLINE => NVME_SC_ZNS_ERR_OFFLINE
  | _ => NVME_SC_SUCCESS
  end.

Section zone_write.
Context `{SC : SsdConfig, CC : ChanConfig, CK : Clock}.

Lemma zstep_trans f1 f2 f3 zid d2 d3 :
  zstep f1 f2 zid d2 -> zstep f2 f3 zid d3 -> zstep f1 f3 zid d3.
Proof.
  intros [[A1 A2] A3 A4] [[B1 B2] B3 B4]. split; [|done|congruence].
  split; [by rewrite B1, A1, zinsert_twice|by eapply same_device_trans].
Qed.

(** A write at the write pointer opens the zone if it is not open. *)
Lemma open_for_write_ok f zid d :
  zns_ok f -> f.(zone_descs) !! zid = Some d ->
  okp (open_for_write f zid d.(zd_wp) d) (fun '(f', st) => st = write_state_status d.(zd_state) /\
    if st =? NVME_SC_SUCCESS then zstep f f' zid (set_state (written_state d.(zd_state)) d) else f' = f).
Proof.
  intros Hf E. pose proof (count_bounds f zid d Hf E) as Hc. pose proof (fun t => res_totals f t Hf) as Ht.
  pose proof (Ht OPEN_ZONE) as T1. pose proof (Ht ACTIVE_ZONE) as T2. simpl in T1, T2.
  pose proof (zo_zone _ Hf _ _ E) as Hd. unfold open_for_write, open_closed_impl, change_zone_state.
  destruct (zd_state d) eqn:Es; simpl; try done; try (split; [done|]; simpl).
  - destruct (zk_empty _ _ _ Hd Es) as [Ewp Ez]. rewrite Ewp, (zk_start _ _ _ Hd), Z.eqb_refl. simpl.
    assert (is_open d = false /\ is_active d = false) as [Eo Ea] by (unfold is_open, is_active; by rewrite Es).
    rewrite Eo, Ea in Hc. simpl in Hc. apply Z.eqb_eq in Ez.
    rewrite (not_full f ACTIVE_ZONE) by (simpl; lia). rewrite (not_full f OPEN_ZONE) by (simpl; lia).
    rewrite (acquire_ok f ACTIVE_ZONE) by (simpl; lia). simpl. rewrite (acquire_ok _ OPEN_ZONE) by (simpl; lia). simpl.
    erewrite mod_desc_ok by exact E. simpl. split; [done|]. zstep E.
  - replace (set_state ZONE_STATE_OPENED_IMPL d) with d by (destruct d; simpl in *; by subst). by apply zstep_id.
  - replace (set_state ZONE_STATE_OPENED_EXPL d) with d by (destruct d; simpl in *; by subst). by apply zstep_id.
  - assert (is_open d = false) as Eo by (unfold is_open; by rewrite Es). rewrite Eo in Hc. simpl in Hc.
    rewrite (acquire_ok _ OPEN_ZONE) by (simpl; lia). simpl. erewrite mod_desc_ok by exact E. simpl.
    split; [done|]. zstep E.
Qed.

(** The write pointer of an open zone moves; at the end the zone is full. *)
Lemma increase_write_ptr_ok f zid d n :
  zns_ok f -> f.(zone_descs) !! zid = Some d -> is_open d = true -> 0 <= n -> d.(zd_wp) + n <= zone_end d ->
  okp (__increase_write_ptr f zid n) (fun f' => zstep f f' zid
    (if d.(zd_wp) + n =? zone_end d then set_state ZONE_STATE_FULL (set_wp_lba (d.(zd_wp) + n) d)
     else set_wp_lba (d.(zd_wp) + n) d)).
Proof.
  intros Hf E Ho Hn Hend. pose proof (count_bounds f zid d Hf E) as Hc. pose proof (fun t => res_totals f t Hf) as Ht.
  pose proof (zo_zone _ Hf _ _ E) as [H1 H2 H3 H4 H5]. pose proof (zlookup_Some_range _ _ _ E) as Hz.
  rewrite (zo_len _ Hf) in Hz. pose proof (zg_fits _ (zo_geo _ Hf)). pose proof (zone_lbas_pos f Hf).
  assert (zone_end d = (zid + 1) * zone_lbas f) as Ee by (unfold zone_end; rewrite H1, H2; lia).
  assert (0 <= zid * zone_lbas f /\ (zid + 1) * zone_lbas f < 4294967296) as [? ?] by nia.
  assert (is_active d = true) as Ha by (unfold is_open, is_active in *; by destruct (zd_state d)).
  unfold __increase_write_ptr. rewrite (aget_Some _ _ _ E), bind_Ok. unwrap.
  erewrite mod_desc_ok by exact E. rewrite bind_Ok.
  assert (zone_to_slba (with_descs f (<[zid:=set_wp_lba (zd_wp d + n) d]> (zone_descs f))) zid = Ok (zid * zone_lbas f))
    as -> by exact (zone_to_slba_ok f zid Hf ltac:(lia)).
  rewrite bind_Ok. replace (zid * zone_lbas f + zd_zone_capacity d) with (zone_end d) by lia. unwrap.
  destruct (zd_wp d + n =? zone_end d) eqn:Eend.
  - apply Z.eqb_eq in Eend. unfold change_zone_state.
    erewrite mod_desc_ok by (simpl; by apply zlookup_zinsert_eq, (zlookup_Some_range _ _ _ E)).
    simpl. rewrite zinsert_twice. rewrite Ho, Ha in Hc. simpl in Hc. unwrap.
    match goal with |- zstep _ ?g _ _ => apply (fill_zone_ok f g.(res_infos) zid d) end; simpl;
      rewrite ?Ho, ?Ha; simpl; unwrap; try done; try lia.
    + intros []; simpl; [exact (Ht ACTIVE_ZONE)|exact (Ht OPEN_ZONE)|exact (Ht ZRWA_ZONE)].
    + destruct (is_zrwa d); simpl in *; lia.
  - apply Z.eqb_neq in Eend. simpl. apply advance_wp_ok; [done|done|done|lia].
Qed.
End zone_write.

(** ** The device during a write *)

(** The link and the clock moved, and [ops] were scheduled. *)
Definition hw_scheduled `{ChanConfig} (pc : option Z) (h h' : hw) (ops : list internal_op) : Prop :=
  hw_adv pc h (Hw h'.(hw_tick) h'.(hw_pcie) h'.(hw_wbuf) h.(hw_sched)) /\ h'.(hw_sched) = h.(hw_sched) ++ ops.

(** A release into the buffer [wb] on behalf of the queue [sqid]. *)
Definition release_to (sqid : Z) (wb : option Z) (op : internal_op) : Prop :=
  op.(io_sqid) = sqid /\ op.(io_buffer) = wb.
Definition releases (sqid : Z) (wb : option Z) (n : Z) (ops : list internal_op) : Prop :=
  Forall (release_to sqid wb) ops /\ zlen ops <= n.

Lemma releases_more sqid wb n m ops : releases sqid wb n ops -> n <= m -> releases sqid wb m ops.
Proof. intros [H1 H2] ?. split; [done|lia]. Qed.
Lemma releases_snoc sqid wb n m ops op : releases sqid wb n ops -> release_to sqid wb op -> n < m -> releases sqid wb m (ops ++ [op]).
Proof. intros [H1 H2] Ho ?. split; [apply Forall_app; split; [done|by constructor]|]. rewrite zlen_app. change (zlen [op]) with 1. lia. Qed.

Section zone_nand.
Context `{SC : SsdConfig, CC : ChanConfig, CK : Clock}.

Lemma hw_scheduled_adv pc h h1 h2 ops :
  hw_scheduled pc h h1 ops -> hw_adv pc h1 h2 -> hw_scheduled pc h h2 ops.
Proof.
  intros ((A1 & A2 & A3 & A4 & A5 & A6) & A7) (B1 & B2 & B3 & B4 & B5 & B6). simpl in *.
  split; [|by rewrite B3]. unfold hw_adv. simpl. repeat split; try done; try congruence; [lia|].
  intros q Hq. by rewrite B6, A6.
Qed.

Lemma hw_scheduled_op pc h h1 ops sqid t wb n :
  hw_scheduled pc h h1 ops ->
  hw_scheduled pc h (schedule_internal_operation sqid t wb n h1) (ops ++ [InternalOp sqid t wb n]).
Proof.
  intros [A1 A2]. split; [exact A1|]. unfold schedule_internal_operation. simpl. by rewrite A2, app_assoc.
Qed.

Lemma hw_scheduled_link pc h h' ops : hw_scheduled pc h h' ops -> link_ok pc h'.
Proof. intros [(A1 & _) _]. exact A1. Qed.

Lemma zadvance_nand_ok f cmd h :
  zns_ok f -> link_ok f.(zf_ssd).(sd_pcie) h -> in_dev (zf_sp f) cmd.(nc_ppa) ->
  (cmd.(nc_cmd) = NAND_READ -> 0 < cmd.(nc_xfer_size) < 18446744073709551616) ->
  okp (zadvance_nand f cmd h) (fun '(f', h', _) => zticked f f' /\ hw_adv f.(zf_ssd).(sd_pcie) h h').
Proof.
  intros Hf Hl Hi Hx. unfold zadvance_nand. apply okp_bind.
  eapply okp_mono; [apply ssd_advance_nand_ok; [apply Hf|apply Hf|done|done|done]|].
  intros [[s h'] t] (H1 & H2 & H3). simpl. split; [by exists s|done].
Qed.

Lemma zticked_pc f f' : zticked f f' -> f'.(zf_ssd).(sd_pcie) = f.(zf_ssd).(sd_pcie) /\ f'.(zp) = f.(zp) /\
  zone_pgs f' = zone_pgs f.
Proof.
  intros Ht. pose proof (zticked_sp _ _ Ht) as Esp. destruct Ht as (s & -> & (_ & E & _) & _).
  split; [exact E|]. split; [done|]. unfold zone_pgs. by rewrite Esp.
Qed.

(** The state of the write loop before the page [lpn]. *)
Record writing_ok (f : zns_ftl) (h : hw) (sqid : Z) (wb : option Z) (zid slpn elpn : Z) (w : zwriting) : Prop := {
  wk_ftl : zticked f w.(zw_ftl);
  wk_lpn : slpn <= w.(zw_lpn) <= elpn + 1;
  wk_hw : exists ops, hw_scheduled f.(zf_ssd).(sd_pcie) h w.(zw_hw) ops /\ releases sqid wb (w.(zw_lpn) - slpn) ops /\
    sched_bytes ops = released_bytes (zf_sp f).(pgs_per_oneshotpg) (zone_pgs f) (w.(zw_lpn) - zid * zone_pgs f) -
      released_bytes (zf_sp f).(pgs_per_oneshotpg) (zone_pgs f) (slpn - zid * zone_pgs f)
}.

Lemma zwrite_step_ok f h sqid wb stime zid slpn elpn w :
  zns_ok f -> 0 <= zid < f.(zp).(nr_zones) -> zid * zone_pgs f <= slpn -> elpn < (zid + 1) * zone_pgs f ->
  writing_ok f h sqid wb zid slpn elpn w ->
  okp (zwrite_step (zf_sp f) sqid wb stime elpn ((zid + 1) * zone_pgs f - 1) w) (fun r =>
    match r with
    | inl w' => writing_ok f h sqid wb zid slpn elpn w' /\ w.(zw_lpn) < w'.(zw_lpn)
    | inr w' => w' = w /\ w.(zw_lpn) = elpn + 1
    end).
Proof.
  intros Hf Hz Hs He [Ht Hl (ops & Hh & Hops & Hsum)]. destruct (zone_units f Hf) as (_ & Hspp & _ & Hpg & El).
  pose proof (zo_params _ Hf) as Hp. pose proof (zg_fits _ (zo_geo _ Hf)) as Hfits. pose proof (zg_size _ (zo_geo _ Hf)).
  pose proof (zg_pages _ (zo_geo _ Hf)) as Esz.
  pose proof (po_oneshot _ Hp). pose proof (po_oneshots _ Hp). pose proof (po_blk_oneshot _ Hp). pose proof (po_pgs _ Hp).
  pose proof (po_pgsz _ Hp) as E4. pose proof (zticked_pc _ _ Ht) as (Epc & Ezp & Epg). pose proof (zticked_sp _ _ Ht) as Esp.
  pose proof (zticked_ok _ _ Ht Hf) as Hf'. unfold zwrite_step.
  destruct (elpn <? zw_lpn w) eqn:Eend; [apply Z.ltb_lt in Eend; simpl; split; [done|lia]|apply Z.ltb_ge in Eend].
  assert (nr_zones (zp f) * zone_pgs f < 4294967296) as Hnp by nia.
  assert (0 <= zid * zone_pgs f /\ (zid + 1) * zone_pgs f <= nr_zones (zp f) * zone_pgs f) as [Hz0 Hz1] by nia.
  set (lpn := zw_lpn w) in *. set (n := zone_pgs f) in *. set (os := pgs_per_oneshotpg (zf_sp f)) in *.
  set (x := lpn - zid * n). assert (0 <= x < n) as Hx by (unfold x; lia).
  rewrite lpn_to_ppa_ok, bind_Ok, Epg by (done || lia). fold n.
  assert (lpn `div` n = zid /\ lpn `mod` n = x) as [-> ->].
  { split; [symmetry; apply (Z.div_unique lpn n zid x); [by left|unfold x; lia]|].
    symmetry; apply (Z.mod_unique lpn n zid x); [by left|unfold x; lia]. }
  pose proof (zone_ppa_in_dev (zw_ftl w) zid x Hf' ltac:(lia) ltac:(lia)) as Hin.
  assert (os <= 65536) as Hos by nia.
  assert (p_pg (zone_ppa (zw_ftl w) zid x) = x `mod` os) as -> by (unfold zone_ppa; simpl; by rewrite Esp).
  cbv zeta. pose proof (Z.mod_pos_bound x os ltac:(lia)) as Hm.
  rewrite (cmod_ok (x `mod` os)), bind_Ok by lia. rewrite Z.mod_mod by lia. unwrap. rewrite E4.
  set (p := Z.min (elpn - lpn + 1) (os - x `mod` os)). assert (0 < p <= os - x `mod` os) as Hpp by (unfold p; lia).
  assert (lpn + p <= elpn + 1) as Hpe by (unfold p; lia). unwrap.
  assert ((lpn + p - 1 =? (zid + 1) * n - 1) = (x + p =? n)) as ->.
  { unfold x. destruct (_ =? n) eqn:E; [apply Z.eqb_eq in E|apply Z.eqb_neq in E]; [apply Z.eqb_eq|apply Z.eqb_neq]; lia. }
  pose proof (released_step os n x p ltac:(lia) ltac:(lia) Hpp ltac:(unfold x; lia)) as Hstep.
  replace (x + p) with (lpn + p - zid * n) in Hstep at 1 by (unfold x; lia).
  rewrite Ezp, Esz. fold n. unwrap. rewrite cmod_ok, bind_Ok by lia.
  destruct ((x `mod` os + p =? os) || (x + p =? n)) eqn:Erel.
  - apply okp_bind. eapply okp_mono.
    { apply zadvance_nand_ok; [done|by rewrite Epc; eapply hw_scheduled_link|done|done]. }
    intros [[f1 h1] t] [Ht1 Hh1]. simpl. split; [|lia].
    assert ((if (x + p =? n) && (0 <? (n * 4096) `mod` (os * 4096)) then (n * 4096) `mod` (os * 4096) else os * 4096) =
      (if (x + p =? n) && (0 <? n `mod` os) then n `mod` os * 4096 else os * 4096)) as ->.
    { rewrite Z.mul_mod_distr_r by lia. pose proof (Z.mod_pos_bound n os ltac:(lia)).
      destruct (0 <? n `mod` os) eqn:E0; [apply Z.ltb_lt in E0|apply Z.ltb_ge in E0];
        [rewrite (proj2 (Z.ltb_lt _ _)) by lia|rewrite (proj2 (Z.ltb_ge _ _)) by lia]; done. }
    split; simpl; [by eapply zticked_trans|lia|]. rewrite Epc in Hh1. eexists. split; [|split].
    + eapply hw_scheduled_op, hw_scheduled_adv; done.
    + eapply releases_snoc; [exact Hops|done|simpl; fold lpn; lia].
    + rewrite sched_bytes_app, Hsum. simpl. fold os n. unfold x in *. lia.
  - simpl. split; [|lia]. split; simpl; [done|lia|]. exists ops. split; [done|]. split; [eapply releases_more; [exact Hops|simpl; fold lpn; lia]|].
    rewrite Hsum. fold os n. unfold x in *. lia.
Qed.

(** The loop ends behind the last page. *)
Lemma zwrite_loop_ok f h sqid wb stime zid slpn elpn :
  zns_ok f -> link_ok f.(zf_ssd).(sd_pcie) h -> 0 <= zid < f.(zp).(nr_zones) ->
  zid * zone_pgs f <= slpn <= elpn -> elpn < (zid + 1) * zone_pgs f ->
  okp (rloop (S (S (Z.to_nat (elpn - slpn)))) (zwrite_step (zf_sp f) sqid wb stime elpn ((zid + 1) * zone_pgs f - 1))
    (ZWriting f h slpn stime)) (fun w => writing_ok f h sqid wb zid slpn elpn w /\ w.(zw_lpn) = elpn + 1).
Proof.
  intros Hf Hl Hz Hs He.
  apply (rloop_inv _ (writing_ok f h sqid wb zid slpn elpn) (fun w => elpn + 1 - w.(zw_lpn))).
  - intros w [_ ? _]. lia.
  - intros w Hw. eapply okp_mono; [apply (zwrite_step_ok f h sqid wb stime zid slpn elpn w); [done|done|lia|done|done]|].
    intros [w'|w']; [intros [? ?]; split; [done|lia]|]. intros [-> ?]. by split.
  - split; simpl; [apply zticked_refl, Hf|lia|]. exists []. split; [|split; [by split; [constructor|rewrite Z.sub_diag]|simpl; lia]].
    split; simpl; [|by rewrite app_nil_r]. destruct h. by apply hw_adv_refl.
  - simpl. lia.
Qed.
End zone_nand.

(** ** Writes and appends *)

(** The status of a write of [n] blocks at [slba] into the zone [d]. *)
Definition write_status `{SsdConfig} (f : zns_ftl) (d : zone_descriptor) (slba n : Z) : Z :=
  if negb (LBA_TO_BYTE n `mod` (zf_sp f).(write_unit_size) =? 0) then NVME_SC_ZNS_INVALID_WRITE
  else if negb (slba `div` zone_lbas f =? (slba + n - 1) `div` zone_lbas f) then NVME_SC_ZNS_ERR_BOUNDARY
  else if negb (slba =? d.(zd_wp)) then NVME_SC_ZNS_INVALID_WRITE
  else write_state_status d.(zd_state).

(** [f'] is [f] with [d'] for the zone [zid] and with other clocks. *)
Definition zone_changed (f f' : zns_ftl) (zid : Z) (d' : zone_descriptor) : Prop :=
  f'.(zone_descs) = <[zid := d']> f.(zone_descs) /\ f'.(zp) = f.(zp) /\ same_nand f.(zf_ssd) f'.(zf_ssd) /\
  f'.(report_buffer) = f.(report_buffer) /\ f'.(zone_write_buffer) = f.(zone_write_buffer) /\
  f'.(zrwa_buffer) = f.(zrwa_buffer) /\ f'.(zf_storage) = f.(zf_storage).

(** The first block of a write or an append, and the request it leaves. *)
Definition is_append (req : zns_request) : bool := req.(zq_cmd).(zc_opcode) =? nvme_cmd_zone_append.
Definition write_slba (req : zns_request) (d : zone_descriptor) : Z :=
  if is_append req then d.(zd_wp) else req.(zq_cmd).(zc_slba).
Definition write_req (req : zns_request) (d : zone_descriptor) : zns_request :=
  if is_append req then with_slba req d.(zd_wp) else req.

(** The bytes that the write of the blocks [slba .. slba + n - 1] gives back. *)
Definition write_releases (f : zns_ftl) (zid slba n : Z) : Z :=
  let spp := (zf_sp f).(secs_per_pg) in
  let rel := released_bytes (zf_sp f).(pgs_per_oneshotpg) (zone_pgs f) in
  rel ((slba + n - 1) `div` spp + 1 - zid * zone_pgs f) - rel (slba `div` spp - zid * zone_pgs f).

(** Conjunctions whose parts are at hand. *)
Ltac conj := repeat match goal with |- _ /\ _ => split; [done|] end; done.

Section seq_write.
Context `{SC : SsdConfig, CC : ChanConfig, CK : Clock}.
Context (Hlba : 0 <= LBA_BITS <= 12).

Lemma lba_bytes n : 0 <= n <= 65536 -> LBA_TO_BYTE n = n * 2 ^ LBA_BITS /\ 0 <= LBA_TO_BYTE n < 4294967296.
Proof using Hlba.
  intros Hn. assert (1 <= 2 ^ LBA_BITS <= 4096) as Hp.
  { split; [apply (Z.pow_le_mono_r 2 0); lia|]. change 4096 with (2 ^ 12). apply Z.pow_le_mono_r; lia. }
  unfold LBA_TO_BYTE. rewrite Z.shiftl_mul_pow2 by lia. rewrite u64_small by nia. split; [done|nia].
Qed.

Lemma lba_to_zone_any f lba : zns_ok f -> 0 <= lba < 4294967296 -> lba_to_zone f lba = Ok (lba `div` zone_lbas f).
Proof using.
  intros Hf Hl. pose proof (zone_lbas_pos f Hf). destruct (zone_units f Hf) as (_ & _ & Hs & _).
  unfold lba_to_zone. rewrite cdiv_ok, bind_Ok by lia. fold (zone_lbas f). rewrite cdiv_ok, bind_Ok by lia.
  assert (0 <= lba `div` zone_lbas f <= lba) by (split; [apply Z.div_pos|apply Z.div_le_upper_bound]; nia). by unwrap.
Qed.

Lemma zone_to_elpn_ok f zid : zns_ok f -> 0 <= zid < f.(zp).(nr_zones) ->
  zone_to_elpn f zid = Ok ((zid + 1) * zone_pgs f - 1).
Proof using.
  intros Hf Hz. destruct (zone_units f Hf) as (_ & Hs & _ & Hp & El). pose proof (zg_fits _ (zo_geo _ Hf)).
  assert (0 < (zid + 1) * zone_lbas f <= 4294967296) by nia. assert (zid + 1 < 4294967296) by nia.
  unfold zone_to_elpn, zone_to_elba. unwrap. rewrite zone_to_slba_ok, !bind_Ok by (done || lia). unwrap.
  rewrite cdiv_ok by lia. f_equal. rewrite El.
  replace ((zid + 1) * (zone_pgs f * secs_per_pg (zf_sp f)) - 1)
    with (secs_per_pg (zf_sp f) - 1 + ((zid + 1) * zone_pgs f - 1) * secs_per_pg (zf_sp f)) by ring.
  rewrite Z.div_add, Z.div_small by lia. done.
Qed.

(** Taking bytes from a buffer. *)
Lemma allocate_ok p n h buf :
  deref h.(hw_wbuf) p = Ok buf -> 0 <= n < 4294967296 -> n <= buf.(bf_size) ->
  0 <= buf.(bf_remaining) < 18446744073709551616 ->
  okp (allocate p n h) (fun '(h', got) => h'.(hw_tick) = h.(hw_tick) /\ h'.(hw_pcie) = h.(hw_pcie) /\
    h'.(hw_sched) = h.(hw_sched) /\ (forall q, q <> p -> deref h'.(hw_wbuf) q = deref h.(hw_wbuf) q) /\
    if buf.(bf_remaining) <? n then got = 0 /\ deref h'.(hw_wbuf) p = Ok buf
    else got = n /\ deref h'.(hw_wbuf) p = Ok (Buffer buf.(bf_size) (buf.(bf_remaining) - n))).
Proof using.
  intros Hp Hn Hs Hr. unfold allocate, buffer_allocate. rewrite Hp, bind_Ok.
  rewrite (proj2 (Z.leb_le _ _)) by lia. simpl. apply okp_bind. eapply okp_mono; [by eapply store_ok|].
  intros l (L1 & L2 & L3). simpl. repeat (split; [done|]).
  destruct (bf_remaining buf <? n) eqn:E; [apply Z.ltb_lt in E|apply Z.ltb_ge in E].
  - split; [by unwrap|]. rewrite L1. unwrap. rewrite Z.sub_0_r. by destruct buf.
  - split; [by unwrap|]. rewrite L1. by unwrap.
Qed.

(** Opening the zone, moving its write pointer and timing the NAND. *)
Lemma zwrite_data_ok f req zid d n h :
  zns_ok f -> link_ok f.(zf_ssd).(sd_pcie) h -> f.(zone_descs) !! zid = Some d ->
  is_open d = true -> 0 < n -> d.(zd_wp) + n <= zone_end d ->
  okp (zwrite_data f req zid n (d.(zd_wp) `div` (zf_sp f).(secs_per_pg))
    ((d.(zd_wp) + n - 1) `div` (zf_sp f).(secs_per_pg)) ((zid + 1) * zone_pgs f - 1) (zone_wb f zid) h)
    (fun '(f', h', ret) => ret.(rs_status) = NVME_SC_SUCCESS /\ zns_ok f' /\ zone_changed f f' zid (written_zone n d) /\
      exists ops, hw_scheduled f.(zf_ssd).(sd_pcie) h h' ops /\
        releases req.(zq_sq_id) (zone_wb f zid) n ops /\ sched_bytes ops = write_releases f zid d.(zd_wp) n).
Proof using.
  intros Hf Hl Ed Ho Hn Hend. destruct (zone_units f Hf) as (_ & Hs & _ & Hp & El).
  pose proof (zo_zone _ Hf _ _ Ed) as [H1 H2 H3 H4 H5]. pose proof (zlookup_Some_range _ _ _ Ed) as Hz.
  rewrite (zo_len _ Hf) in Hz. assert (zone_end d = (zid + 1) * zone_lbas f) as Ee by (unfold zone_end; rewrite H1, H2; lia).
  unfold zwrite_data. apply okp_bind. eapply okp_mono; [by apply increase_write_ptr_ok; [done|done|done|lia|done]|].
  intros f1 [[Z1 (Z2 & Z3 & Z4 & Z5 & Z6)] Hf1 Z7].
  assert (zf_sp f1 = zf_sp f /\ zone_pgs f1 = zone_pgs f) as [Esp Epg]
    by (unfold zone_pgs, zf_sp; by rewrite Z2, Z3).
  apply okp_bind. rewrite Z2. eapply okp_mono; [by apply ssd_advance_write_buffer_ok|]. intros [h1 xfer] Hh1.
  apply okp_bind. change (sd_sp (zf_ssd f)) with (zf_sp f).
  set (slpn := zd_wp d `div` secs_per_pg (zf_sp f)). set (elpn := (zd_wp d + n - 1) `div` secs_per_pg (zf_sp f)).
  assert (zid * zone_pgs f <= slpn <= elpn /\ elpn < (zid + 1) * zone_pgs f) as [Hsl Hel].
  { unfold slpn, elpn. repeat split; [apply Z.div_le_lower_bound|apply Z.div_le_mono|apply Z.div_lt_upper_bound]; nia. }
  rewrite <- Epg, <- Esp. eapply okp_mono.
  { eapply (zwrite_loop_ok f1 h1 _ _ xfer zid slpn elpn); [done| | |rewrite Epg; lia|rewrite Epg; lia].
    - rewrite Z2. by apply Hh1.
    - by rewrite Z3. }
  intros w [[W1 W2 (ops & W3 & W4 & W5)] W6]. simpl. split; [done|]. split; [by eapply zticked_ok|].
  destruct W1 as (s & -> & S1 & S2). split; [|exists ops; split; [|split; [eapply releases_more; [exact W4|]|]]].
  - unfold zone_changed. simpl. rewrite Z1, Z3, Z4, Z5, Z6, Z7. split; [|by rewrite <- Z2].
    f_equal. unfold written_zone. destruct (_ =? zone_end d); [done|].
    assert (written_state (zd_state d) = zd_state d) as -> by (unfold is_open in Ho; by destruct (zd_state d)).
    by destruct d.
  - rewrite Z2 in W3. destruct W3 as [A1 A2]. destruct Hh1 as (B1 & B2 & B3 & B4 & B5 & B6). rewrite B3 in *.
    split; [|done]. eapply hw_adv_trans; [|exact A1]. by repeat split.
  - rewrite W6. assert (elpn <= slpn + (n - 1)); [|lia]. unfold elpn, slpn.
    rewrite <- (Z.div_add _ (n - 1)) by lia. apply Z.div_le_mono; nia.
  - rewrite W5, W6, Epg, Esp. done.
Qed.

(** The same of a zone that the write has opened. *)
Lemma zwrite_data_opened f f1 req zid d n h :
  zns_ok f -> link_ok f.(zf_ssd).(sd_pcie) h -> f.(zone_descs) !! zid = Some d ->
  write_state_status d.(zd_state) = NVME_SC_SUCCESS ->
  zstep f f1 zid (set_state (written_state d.(zd_state)) d) -> 0 < n ->
  d.(zd_wp) `div` zone_lbas f = (d.(zd_wp) + n - 1) `div` zone_lbas f ->
  okp (zwrite_data f1 req zid n (d.(zd_wp) `div` (zf_sp f).(secs_per_pg))
    ((d.(zd_wp) + n - 1) `div` (zf_sp f).(secs_per_pg)) ((zid + 1) * zone_pgs f - 1) (zone_wb f zid) h)
    (fun '(f', h', ret) => ret.(rs_status) = NVME_SC_SUCCESS /\ zns_ok f' /\ zone_changed f f' zid (written_zone n d) /\
      exists ops, hw_scheduled f.(zf_ssd).(sd_pcie) h h' ops /\
        releases req.(zq_sq_id) (zone_wb f zid) n ops /\ sched_bytes ops = write_releases f zid d.(zd_wp) n).
Proof using Hlba.
  intros Hf Hl Ed Est Hst Hn Ezone. pose proof (zo_zone _ Hf _ _ Ed) as [H1 H2 H3 H4 H5]. pose proof (zone_lbas_pos f Hf).
  assert (zid * zone_lbas f <= zd_wp d < (zid + 1) * zone_lbas f) as Hwp.
  { destruct (zd_state d) eqn:Es; try done; [destruct (H4 eq_refl); lia|split; [lia|apply H5; unfold is_active; by rewrite Es]..]. }
  assert (zd_wp d + n <= zone_end d) as Hend.
  { unfold zone_end. rewrite H1, H2. assert (zd_wp d `div` zone_lbas f = zid) as E.
    { symmetry. apply (Z.div_unique _ _ zid (zd_wp d - zid * zone_lbas f)); [left|]; lia. }
    rewrite E in Ezone. pose proof (Z.mul_div_le (zd_wp d + n - 1) (zone_lbas f) ltac:(lia)).
    pose proof (Z.mul_succ_div_gt (zd_wp d + n - 1) (zone_lbas f) ltac:(lia)). nia. }
  set (d1 := set_state (written_state (zd_state d)) d) in *.
  assert (written_zone n d1 = written_zone n d) as Ew by (unfold written_zone, d1, zone_end; simpl; by destruct (zd_state d)).
  destruct Hst as [[Z1 (Z2 & Z3 & Z4 & Z5 & Z6)] Hf1 Z7].
  assert (f1.(zone_descs) !! zid = Some d1) as Ed1 by (rewrite Z1; by eapply zlookup_zinsert_eq, zlookup_Some_range).
  assert (zf_sp f1 = zf_sp f /\ zone_pgs f1 = zone_pgs f /\ zone_wb f1 zid = zone_wb f zid) as (Esp & Epg & Ewb)
    by (unfold zone_pgs, zone_wb, zf_sp; by rewrite Z2, Z3, Z5).
  rewrite <- Esp, <- Epg, <- Ewb. rewrite <- Z2 in Hl.
  eapply okp_mono; [apply (zwrite_data_ok f1 req zid d1 n h); try done|].
  { unfold is_open, d1. simpl. by destruct (zd_state d). }
  intros [[f2 h2] ret2] (C1 & C2 & (D1 & D2 & D3 & D4 & D5 & D6 & D7) & ops & O1 & O2 & O3).
  rewrite Ew in D1. rewrite Z2 in D3, O1. split; [done|]. split; [done|]. split.
  - unfold zone_changed. rewrite D1, Z1, zinsert_twice, D2, Z3, D4, Z4, D5, Z5, D6, Z6, D7, Z7. conj.
  - exists ops. split; [done|]. split; [done|]. rewrite O3. unfold write_releases. by rewrite Esp, Epg.
Qed.

(** What a write leaves, given the bytes of its buffer. *)
Definition written_ok (f f' : zns_ftl) (h h' : hw) (req : zns_request) (zid : Z) (d : zone_descriptor) (buf : buffer)
    (ret ret' : nvmev_result) (ok : bool) : Prop :=
  let slba := write_slba req d in
  let n := zc_length req.(zq_cmd) + 1 in
  let bytes := LBA_TO_BYTE n in
  let wb := zone_wb f zid in
  zns_ok f' /\ link_ok f.(zf_ssd).(sd_pcie) h' /\
  (forall q, q <> wb -> deref h'.(hw_wbuf) q = deref h.(hw_wbuf) q) /\
  if buf.(bf_remaining) <? bytes then
    ok = false /\ f' = f /\ ret' = ret /\ h'.(hw_sched) = h.(hw_sched) /\ deref h'.(hw_wbuf) wb = Ok buf
  else
    ok = true /\ deref h'.(hw_wbuf) wb = Ok (Buffer buf.(bf_size) (buf.(bf_remaining) - bytes)) /\
    ret'.(rs_status) = write_status f d slba n /\
    if write_status f d slba n =? NVME_SC_SUCCESS then
      zone_changed f f' zid (written_zone n d) /\
      exists ops, h'.(hw_sched) = h.(hw_sched) ++ ops /\ releases req.(zq_sq_id) wb n ops /\
        sched_bytes ops = write_releases f zid slba n
    else f' = f /\ h'.(hw_sched) = h.(hw_sched).

Lemma zns_write_seq_ok f req ret h buf zid d :
  zns_ok f -> link_ok f.(zf_ssd).(sd_pcie) h -> 0 <= req.(zq_cmd).(zc_slba) < f.(zp).(nr_zones) * zone_lbas f ->
  zid = req.(zq_cmd).(zc_slba) `div` zone_lbas f -> f.(zone_descs) !! zid = Some d ->
  0 <= zc_length req.(zq_cmd) < 65536 -> deref h.(hw_wbuf) (zone_wb f zid) = Ok buf ->
  LBA_TO_BYTE (zc_length req.(zq_cmd) + 1) <= buf.(bf_size) -> 0 <= buf.(bf_remaining) < 18446744073709551616 ->
  okp (__zns_write f req ret h) (fun '(f', h', req', ret', ok) =>
    req' = write_req req d /\ written_ok f f' h h' req zid d buf ret ret' ok).
Proof using Hlba.
  intros Hf Hl Hslba Ezid Ed Hlen Hbuf Hsz Hrem. destruct (zone_units f Hf) as (_ & Hs & _ & Hp & El).
  pose proof (zo_zone _ Hf _ _ Ed) as [H1 H2 H3 H4 H5]. pose proof (zlookup_Some_range _ _ _ Ed) as Hz.
  rewrite (zo_len _ Hf) in Hz. pose proof (zone_lbas_pos f Hf). pose proof (zg_fits _ (zo_geo _ Hf)).
  pose proof (zg_unit _ (zo_geo _ Hf)).
  unfold __zns_write, __nr_lbas_from_rw_cmd. rewrite (lba_to_zone_any f) by (done || lia). rewrite bind_Ok, <- Ezid.
  rewrite (aget_Some _ _ _ Ed), bind_Ok. fold (is_append req). 
  change (if is_append req then zd_wp d else zc_slba (zq_cmd req)) with (write_slba req d).
  assert ((if is_append req then with_slba req (write_slba req d) else req) = write_req req d) as ->
    by (unfold write_req, write_slba; by destruct (is_append req)).
  set (n := zc_length (zq_cmd req) + 1) in *. destruct (lba_bytes n ltac:(lia)) as [Eb Hb].
  assert (0 <= write_slba req d <= f.(zp).(nr_zones) * zone_lbas f) as Hws
    by (unfold write_slba; destruct (is_append req); nia).
  assert (zc_length (zq_cmd (write_req req d)) = zc_length (zq_cmd req)) as Elen
    by (unfold write_req; by destruct (is_append req)).
  unfold lba_to_lpn. unwrap. rewrite (cdiv_ok (write_slba req d)), bind_Ok by lia.
  rewrite (cdiv_ok (write_slba req d + n - 1)), bind_Ok by lia. rewrite (zone_to_elpn_ok f zid), bind_Ok by done.
  fold (zone_wb f zid). apply okp_bind. eapply okp_mono; [apply (allocate_ok _ _ h buf); [done|lia|done|done]|].
  intros [h1 got] (A1 & A2 & A3 & A4 & A5).
  assert (link_ok f.(zf_ssd).(sd_pcie) h1) as Hl1 by (unfold link_ok; by rewrite A2).
  unfold written_ok. fold n. destruct (bf_remaining buf <? LBA_TO_BYTE n) eqn:Erem; destruct A5 as [-> A5].
  { apply Z.ltb_lt in Erem. rewrite (proj2 (Z.ltb_lt _ _)) by lia. simpl. conj. }
  rewrite Z.ltb_irrefl. unfold write_status. unwrap. rewrite cmod_ok, bind_Ok by lia.
  destruct (LBA_TO_BYTE n `mod` _ =? 0) eqn:Eu; [|simpl; conj]. simpl.
  unfold __check_boundary_error. unwrap. rewrite !lba_to_zone_any, !bind_Ok by (done || lia).
  destruct (_ =? (write_slba req d + n - 1) `div` _) eqn:Ezone; [|simpl; conj]. simpl.
  destruct (write_slba req d =? zd_wp d) eqn:Ewp; [|simpl; conj]. simpl.
  apply Z.eqb_eq in Ewp, Ezone. rewrite Ewp in *. apply okp_bind.
  eapply okp_mono; [by apply open_for_write_ok|]. intros [f1 st] [-> Hst].
  destruct (write_state_status (zd_state d) =? NVME_SC_SUCCESS) eqn:Est; [|subst; simpl; conj]. simpl.
  apply Z.eqb_eq in Est.
  apply okp_bind. eapply okp_mono; [apply (zwrite_data_opened f f1 (write_req req d) zid d n h1); try done; lia|].
  intros [[f2 h2] ret2] (C1 & C2 & C3 & ops & O1 & O2 & O3). simpl.
  pose proof (hw_scheduled_link _ _ _ _ O1) as Hl2. destruct O1 as [(_ & B2 & _) O1]. simpl in B2.
  rewrite B2, O1, A3, Est. do 8 (split; [done|]).
  exists ops. split; [done|]. split; [by unfold write_req in O2; destruct (is_append req)|done].
Qed.
End seq_write.
