(* ===== verification/ZnsRead.v ===== *)
(** * Zoned reads, reports, flush and the life of the namespace

    Reads change clocks only and never fault; a report holds the descriptors
    from the zone of [slba] on and leaves every other state alone; the PRP
    transfer covers exactly the bytes asked for; initialisation yields a sound
    namespace. *)

From stdpp Require Import prelude list.
From Stdlib Require Import ZArith Lia.
From S2P Require Import Prelude Mem Prp ChannelModel SsdConfig Ssd ConvFtl ZnsFtl ZnsMgmt ZnsRw ZnsInv ZnsStep ZnsSend ZnsWrite.

(** ** Reads *)

Definition read_status (f : zns_ftl) (d : zone_descriptor) (slba n : Z) : Z :=
  if decide (d.(zd_state) = ZONE_STATE_OFFLINE) then NVME_SC_ZNS_ERR_OFFLINE
  else if slba `div` zone_lbas f =? (slba + n - 1) `div` zone_lbas f then NVME_SC_SUCCESS
  else NVME_SC_ZNS_ERR_BOUNDARY.

Section read.
Context `{SC : SsdConfig, CC : ChanConfig, CK : Clock}.

Record reading_ok (f : zns_ftl) (h : hw) (slpn elpn : Z) (w : zwriting) : Prop := {
  rk_ftl : zticked f w.(zw_ftl);
  rk_lpn : slpn <= w.(zw_lpn) <= elpn + 1;
  rk_hw : hw_adv f.(zf_ssd).(sd_pcie) h w.(zw_hw)
}.

Lemma zread_step_ok f h stime slpn elpn w :
  zns_ok f -> 0 <= slpn -> elpn < 4294967296 -> reading_ok f h slpn elpn w ->
  okp (zread_step (zf_sp f) stime elpn w) (fun r =>
    match r with
    | inl w' => reading_ok f h slpn elpn w' /\ w.(zw_lpn) < w'.(zw_lpn)
    | inr w' => w' = w
    end).
Proof.
  intros Hf Hs He [Ht Hl Hh]. pose proof (zo_params _ Hf) as Hp.
  pose proof (po_flash _ Hp). pose proof (po_flashes _ Hp). pose proof (po_blk_flash _ Hp). pose proof (po_pgs _ Hp).
  pose proof (po_pgsz _ Hp) as E4. pose proof (zticked_pc _ _ Ht) as (Epc & Ezp & Epg). pose proof (zticked_sp _ _ Ht) as Esp.
  pose proof (zticked_ok _ _ Ht Hf) as Hf'. destruct (zone_units _ Hf') as (_ & _ & _ & Hpg & _). unfold zread_step.
  destruct (elpn <? zw_lpn w) eqn:Eend; [done|apply Z.ltb_ge in Eend].
  rewrite lpn_to_ppa_ok, bind_Ok by (done || lia).
  pose proof (zone_ppa_in_dev (zw_ftl w) (zw_lpn w `div` zone_pgs (zw_ftl w)) (zw_lpn w `mod` zone_pgs (zw_ftl w)) Hf'
    ltac:(apply Z.div_pos; lia) ltac:(apply Z.mod_pos_bound; lia)) as Hin.
  set (p := zone_ppa _ _ _) in *. rewrite cmod_ok, bind_Ok by lia. set (fl := pgs_per_flashpg (zf_sp f)) in *.
  pose proof (Z.mod_pos_bound (p_pg p) fl ltac:(lia)). assert (fl <= 65536) by nia. cbv zeta. unwrap. rewrite E4.
  set (k := Z.min _ _). assert (0 < k <= 65536 /\ zw_lpn w + k <= elpn + 1) as [? ?] by (unfold k; lia). unwrap.
  apply okp_bind. eapply okp_mono; [apply zadvance_nand_ok; [done| |done|simpl; lia]|].
  { rewrite Epc. by apply Hh. }
  intros [[f1 h1] t] [Ht1 Hh1]. simpl. split; [|lia]. split; simpl; [by eapply zticked_trans|lia|].
  eapply hw_adv_trans; [done|]. by rewrite <- Epc.
Qed.

Lemma zread_loop_ok f h stime slpn elpn :
  zns_ok f -> link_ok f.(zf_ssd).(sd_pcie) h -> 0 <= slpn <= elpn -> elpn < 4294967296 ->
  okp (rloop (S (S (Z.to_nat (elpn - slpn)))) (zread_step (zf_sp f) stime elpn) (ZWriting f h slpn stime))
    (fun w => reading_ok f h slpn elpn w).
Proof.
  intros Hf Hl Hs He. apply (rloop_inv _ (reading_ok f h slpn elpn) (fun w => elpn + 1 - w.(zw_lpn))).
  - intros w [_ ? _]. lia.
  - intros w Hw. eapply okp_mono; [apply (zread_step_ok f h stime slpn elpn w); [done|lia|done|done]|].
    intros [w'|w']; [intros [? ?]; split; [done|lia]|]. by intros ->.
  - split; simpl; [apply zticked_refl, Hf|lia|by apply hw_adv_refl].
  - simpl. lia.
Qed.

(** A block address and its page lie in the same zone. *)
Lemma page_zone f slba : zns_ok f -> 0 <= slba < f.(zp).(nr_zones) * zone_lbas f ->
  lpn_to_zone f (slba `div` (zf_sp f).(secs_per_pg)) = Ok (slba `div` zone_lbas f).
Proof.
  intros Hf Hs. destruct (zone_units f Hf) as (_ & Hspp & _ & Hpg & El). pose proof (zg_fits _ (zo_geo _ Hf)).
  pose proof (po_pgsz _ (zo_params _ Hf)). pose proof (zone_lbas_pos f Hf).
  unfold lpn_to_zone. rewrite cdiv_ok, bind_Ok by lia. fold (zone_pgs f). rewrite cdiv_ok, bind_Ok by lia.
  rewrite Z.div_div, (Z.mul_comm (secs_per_pg _)), <- El by lia.
  assert (0 <= slba `div` zone_lbas f <= slba) by (split; [apply Z.div_pos|apply Z.div_le_upper_bound]; nia). by unwrap.
Qed.

Lemma zns_read_ok ns req h d :
  zns_ns_ok ns -> link_ok ns.(zn_ftl).(zf_ssd).(sd_pcie) h ->
  0 <= req.(zq_cmd).(zc_slba) < ns.(zn_ftl).(zp).(nr_zones) * zone_lbas ns.(zn_ftl) ->
  0 <= zc_length req.(zq_cmd) < 65536 ->
  ns.(zn_ftl).(zone_descs) !! (req.(zq_cmd).(zc_slba) `div` zone_lbas ns.(zn_ftl)) = Some d ->
  okp (zns_read ns req h) (fun '(ns', h', ret, ok) => ok = true /\ zns_ns_ok ns' /\
    zticked ns.(zn_ftl) ns'.(zn_ftl) /\ hw_adv ns.(zn_ftl).(zf_ssd).(sd_pcie) h h' /\
    ret.(rs_status) = read_status ns.(zn_ftl) d req.(zq_cmd).(zc_slba) (zc_length req.(zq_cmd) + 1)).
Proof.
  intros [Hc Hnp Hf] Hl Hs Hlen Ed. destruct (zone_units _ Hf) as (_ & Hspp & _ & Hpg & El).
  pose proof (zg_fits _ (zo_geo _ Hf)). pose proof (zone_lbas_pos _ Hf).
  unfold zns_read, __nr_lbas_from_rw_cmd, lba_to_lpn, read_status, __check_boundary_error. cbv zeta.
  set (f := zn_ftl ns) in *. set (slba := zc_slba (zq_cmd req)) in *. set (n := zc_length (zq_cmd req) + 1).
  unwrap. rewrite (cdiv_ok slba), bind_Ok, (cdiv_ok (slba + n - 1)), bind_Ok by lia.
  rewrite page_zone, bind_Ok, (aget_Some _ _ _ Ed), bind_Ok by done.
  set (status := if decide _ then NVME_SC_ZNS_ERR_OFFLINE else if _ =? _ then _ else _).
  assert ((if decide (zd_state d = ZONE_STATE_OFFLINE) then Ok NVME_SC_ZNS_ERR_OFFLINE
     else same_zone ← z1 ← lba_to_zone f slba; z2 ← lba_to_zone f (slba + n - 1); Ok (z1 =? z2);
       Ok (if same_zone : bool then NVME_SC_SUCCESS else NVME_SC_ZNS_ERR_BOUNDARY)) = Ok status) as ->.
  { unfold status. case_decide; [done|]. rewrite !lba_to_zone_any, !bind_Ok by (done || lia). done. }
  rewrite bind_Ok. apply okp_bind. change (sd_sp (zf_ssd f)) with (zf_sp f).
  eapply okp_mono; [apply zread_loop_ok; [done|done| |]|].
  { split; [apply Z.div_pos; lia|apply Z.div_le_mono; lia]. }
  { apply Z.div_lt_upper_bound; nia. }
  intros w [W1 W2 W3]. apply okp_bind. destruct (zticked_pc _ _ W1) as (Epc & _).
  eapply okp_mono; [apply ssd_advance_pcie_ok; rewrite Epc; apply W3|]. rewrite Epc. intros [h2 t] Hh2. simpl.
  split; [done|]. split; [split; [done|done|by eapply zticked_ok]|]. split; [done|]. split; [|done].
  by eapply hw_adv_trans.
Qed.
End read.

(** ** The PRP transfer *)

(** The transfer moves exactly [length] bytes. *)
Lemma prp_transfer_ok prp1 prp2 buffer size length m :
  prp_buffer_ok m prp1 prp2 length -> 0 <= length <= size ->
  okp (__prp_transfer_data prp1 prp2 buffer size length m) (delivered (prp_addr (u64_at m) prp1 prp2 length) buffer m length).
Proof.
  intros Hp Hs. eapply okp_mono.
  - apply (deliver_walk_ok (fun m => m) (fun _ => True) _ m prp1 prp2 length buffer 0 Hp); [lia| |done|done].
    intros a o n m' _ Ho Hn Hl. by rewrite (proj2 (Z.ltb_ge _ _)) by lia.
  - intros m' [_ Hd]. exact Hd.
Qed.

(** ** Reports *)

Lemma copy_descs_ok (src : list zone_descriptor) dst from n :
  0 <= from -> 0 <= n -> from + n <= zlen src -> n <= zlen dst ->
  okp (copy_descs src from n dst) (fun dst' => zlen dst' = zlen dst /\
    forall i, dst' !! i = if decide (0 <= i < n) then Some <$> src !! (from + i) else dst !! i).
Proof.
  intros Hf Hn Hs Hd. unfold copy_descs.
  apply (rfold_range _ (fun k dst' => zlen dst' = zlen dst /\
    forall i, dst' !! i = if decide (0 <= i < k) then Some <$> src !! (from + i) else dst !! i) 0 n); [done| |].
  - split; [done|]. intros i. by rewrite decide_False by lia.
  - intros k d Hk [Hl Hi]. destruct (zlookup_lt src (from + k)) as [x Ex]; [lia|].
    rewrite (aget_Some _ _ _ Ex), bind_Ok, aset_Some by lia. simpl. split; [by rewrite zlen_zinsert|].
    intros i. rewrite zlookup_zinsert by lia. rewrite Hi. destruct (decide (k = i)) as [<-|Hne].
    + by rewrite decide_True, Ex by lia.
    + destruct (decide (0 <= i < k)); [rewrite decide_True by lia; done|rewrite decide_False by lia; done].
Qed.

(** The number of descriptors a report returns. *)
Definition report_count (f : zns_ftl) (cmd : zns_command) (zid : Z) : Z :=
  let avail := f.(zp).(nr_zones) - zid in
  if zc_zra_specific_features cmd =? 0 then avail
  else Z.min avail (u64 (bytes_transfer cmd `div` sizeof_zone_descriptor - 1)).

Definition report_supported (f : zns_ftl) (cmd : zns_command) (zid : Z) : bool :=
  (zid <? f.(zp).(nr_zones)) && (zc_zra cmd =? 0) && (zc_zra_specific_field cmd =? 0).

Section recv.
Context `{SC : SsdConfig, CC : ChanConfig, CK : Clock}.

(** The report [r] has the [n] descriptors from the zone [zid] on. *)
Definition reports (f : zns_ftl) (zid n : Z) (r : zone_report) : Prop :=
  r.(zr_nr_zones) = n /\ zlen r.(zr_zd) = f.(zp).(nr_zones) + 1 /\
  forall i, 0 <= i < n -> r.(zr_zd) !! i = Some <$> f.(zone_descs) !! (zid + i).

Lemma fill_zone_report_ok f cmd zid :
  zns_ok f -> 0 <= zid < f.(zp).(nr_zones) -> lba_to_zone f cmd.(zc_slba) = Ok zid ->
  zlen f.(report_buffer).(zr_zd) = f.(zp).(nr_zones) + 1 ->
  okp (__fill_zone_report f cmd) (reports f zid (report_count f cmd zid)).
Proof using.
  intros Hf Hz Ez Hlen. unfold __fill_zone_report. rewrite Ez, bind_Ok.
  pose proof (zg_fits _ (zo_geo _ Hf)). pose proof (zone_lbas_pos f Hf).
  assert (nr_zones (zp f) < 4294967296) by nia. unwrap.
  set (avail := nr_zones (zp f) - zid) in *.
  assert ((if avail <? (if zc_zra_specific_features cmd =? 0 then avail
      else u64 (bytes_transfer cmd `div` sizeof_zone_descriptor - 1)) then avail
    else if zc_zra_specific_features cmd =? 0 then avail
      else u64 (bytes_transfer cmd `div` sizeof_zone_descriptor - 1)) = report_count f cmd zid) as ->.
  { unfold report_count. fold avail. destruct (zc_zra_specific_features cmd =? 0); [by rewrite Z.ltb_irrefl|].
    destruct (avail <? _) eqn:E; [apply Z.ltb_lt in E|apply Z.ltb_ge in E]; lia. }
  assert (0 <= report_count f cmd zid <= avail) as Hr.
  { unfold report_count. fold avail. pose proof (u64_range (bytes_transfer cmd `div` sizeof_zone_descriptor - 1)).
    destruct (zc_zra_specific_features cmd =? 0); lia. }
  apply okp_bind. eapply okp_mono; [apply copy_descs_ok; rewrite ?(zo_len _ Hf), ?Hlen; lia|].
  intros zd [Hl Hi]. split; [done|]. cbn. split; [lia|]. intros i Hin. by rewrite Hi, decide_True.
Qed.

(** What a host reads of a descriptor: its state, capacity, start and write pointer. *)
Definition seen_zone (m : mem) (a : Z) : Z * Z * Z * Z :=
  (m (a + 1) `div` 16, get_le m (a + 8) 8, get_le m (a + 16) 8, get_le m (a + 24) 8).
Definition zone_fields (d : zone_descriptor) : Z * Z * Z * Z :=
  (zone_state_code d.(zd_state), d.(zd_zone_capacity), d.(zd_zslba), d.(zd_wp)).

Lemma report_mem_bytes garbage r i d k b :
  0 <= i -> r.(zr_zd) !! i = Some (Some d) -> 0 <= k < 64 -> descriptor_bytes d !! k = Some b ->
  report_mem garbage r (64 + 64 * i + k) = b.
Proof using.
  intros Hi Hd Hk Hb. unfold report_mem. rewrite !(proj2 (Z.ltb_ge _ _)) by lia.
  replace (64 + 64 * i + k - 64) with (k + i * 64) by lia. rewrite Z.div_add, Z.mod_add, Z.div_small, Z.mod_small by lia.
  by rewrite Z.add_0_l, Hd, Hb.
Qed.

Lemma descriptor_word garbage r i d o pre x post :
  0 <= i -> r.(zr_zd) !! i = Some (Some d) -> descriptor_bytes d = pre ++ le_encode 8 x ++ post ->
  zlen pre = o -> 0 <= o <= 56 -> 0 <= x < 18446744073709551616 -> get_le (report_mem garbage r) (64 + 64 * i + o) 8 = x.
Proof using.
  intros Hi Hd Hb Hp Ho Hx. rewrite <- (le_decode_encode 8 x) by done.
  pose proof (zlen_le_encode 8 x : _ = 8) as Hl. rewrite <- Hl at 1. apply get_le_bytes. rewrite Hl.
  intros j Hj. destruct (zlookup_lt (le_encode 8 x) j ltac:(lia)) as [b Eb]. rewrite Eb, <- Z.add_assoc. f_equal.
  apply (report_mem_bytes _ _ _ d); [done|done|lia|]. rewrite Hb, <- Hp, <- Eb. apply zlookup_mid. lia.
Qed.

(** The host reads the count and the descriptors of the report. *)
Lemma report_seen garbage r i d :
  0 <= i -> r.(zr_zd) !! i = Some (Some d) -> 0 <= d.(zd_zone_capacity) < 18446744073709551616 ->
  0 <= d.(zd_zslba) < 18446744073709551616 -> 0 <= d.(zd_wp) < 18446744073709551616 ->
  seen_zone (report_mem garbage r) (64 + 64 * i) = zone_fields d.
Proof using.
  intros Hi Hd Hc Hs Hw. unfold seen_zone, zone_fields, descriptor_bytes in *.
  set (hd := [zd_type d; 16 * zone_state_code (zd_state d); 8 * zd_zrwav d; 0] ++ le_encode 4 0).
  rewrite (report_mem_bytes garbage r i d 1 (16 * zone_state_code (zd_state d)) Hi Hd ltac:(lia) eq_refl).
  rewrite (Z.mul_comm 16), Z.div_mul by done.
  rewrite (descriptor_word garbage r i d 8 hd (zd_zone_capacity d) _ Hi Hd eq_refl) by (done || lia).
  rewrite (descriptor_word garbage r i d 16 (hd ++ le_encode 8 (zd_zone_capacity d)) (zd_zslba d) _ Hi Hd eq_refl) by (done || lia).
  rewrite (descriptor_word garbage r i d 24 (hd ++ le_encode 8 (zd_zone_capacity d) ++ le_encode 8 (zd_zslba d)) (zd_wp d) _ Hi Hd eq_refl) by (done || lia).
  done.
Qed.

Lemma report_count_seen garbage r : 0 <= r.(zr_nr_zones) < 18446744073709551616 ->
  get_le (report_mem garbage r) 0 8 = r.(zr_nr_zones).
Proof using.
  intros Hr. rewrite <- (le_decode_encode 8 (zr_nr_zones r)) by done.
  pose proof (zlen_le_encode 8 (zr_nr_zones r) : _ = 8) as Hl. rewrite <- Hl at 1. apply get_le_bytes. rewrite Hl.
  intros j Hj. destruct (zlookup_lt (le_encode 8 (zr_nr_zones r)) j ltac:(lia)) as [b Eb]. unfold report_mem. rewrite Z.add_0_l.
  by rewrite (proj2 (Z.ltb_lt _ _)), Eb by lia.
Qed.

Lemma zns_zmgmt_recv_ok garbage ns req m :
  let cmd := req.(zq_cmd) in
  let f := ns.(zn_ftl) in
  let zid := cmd.(zc_slba) `div` zone_lbas f in
  let length := bytes_transfer cmd in
  zns_ns_ok ns -> 0 <= cmd.(zc_slba) < 4294967296 ->
  zlen f.(report_buffer).(zr_zd) = f.(zp).(nr_zones) + 1 ->
  prp_buffer_ok m cmd.(zc_prp1) cmd.(zc_prp2) length ->
  length <= sizeof_zone_report + sizeof_zone_descriptor * f.(zp).(nr_zones) ->
  okp (zns_zmgmt_recv garbage ns req m) (fun '(ns', ret, m') =>
    ret.(rs_nsecs_target) = req.(zq_nsecs_start) /\
    if report_supported f cmd zid then
      ret.(rs_status) = NVME_SC_SUCCESS /\
      exists r, ns' = with_ftl ns (with_report f r) /\ reports f zid (report_count f cmd zid) r /\
        delivered (prp_addr (u64_at m) cmd.(zc_prp1) cmd.(zc_prp2) length) (report_mem garbage r) m length m'
    else ret.(rs_status) = NVME_SC_INVALID_FIELD /\ ns' = ns /\ m' = m).
Proof using.
  intros cmd f zid length [Hc Hnp Hf] Hs Hlen Hprp Hb. fold f in Hf.
  pose proof (zone_lbas_pos f Hf). assert (0 <= zid) by (apply Z.div_pos; lia).
  pose proof (lba_to_zone_any f (zc_slba cmd) Hf ltac:(lia)) as Ez. fold zid in Ez.
  unfold zns_zmgmt_recv, __check_zmgmt_rcv_option_supported. fold cmd f. rewrite Ez, !bind_Ok.
  assert ((if nr_zones (zp f) <=? zid then false else if negb (zc_zra cmd =? 0) then false
    else if negb (zc_zra_specific_field cmd =? 0) then false else true) = report_supported f cmd zid) as ->.
  { unfold report_supported. destruct (nr_zones (zp f) <=? zid) eqn:E; [apply Z.leb_le in E|apply Z.leb_gt in E].
    - by rewrite (proj2 (Z.ltb_ge _ _)) by lia.
    - rewrite (proj2 (Z.ltb_lt _ _)) by lia. by destruct (zc_zra cmd =? 0), (zc_zra_specific_field cmd =? 0). }
  destruct (report_supported f cmd zid) eqn:Esup; [|done].
  unfold report_supported in Esup. apply andb_prop in Esup as [[Hz%Z.ltb_lt _]%andb_prop _].
  apply okp_bind. eapply okp_mono; [by apply (fill_zone_report_ok f cmd zid); [done|lia|done|done]|].
  intros r Hr. apply okp_bind. eapply okp_mono.
  { apply prp_transfer_ok; [done|]. split; [|done]. unfold length, bytes_transfer. pose proof (u32_range (zc_nr_dw cmd + 1)). lia. }
  intros m' Hd. simpl. split; [done|]. split; [done|]. by exists r.
Qed.

(** The memory of the host as the report's reader sees it. *)
Lemma report_read_back garbage ns req m :
  let cmd := req.(zq_cmd) in
  let f := ns.(zn_ftl) in
  let zid := cmd.(zc_slba) `div` zone_lbas f in
  let length := bytes_transfer cmd in
  let addr := prp_addr (u64_at m) cmd.(zc_prp1) cmd.(zc_prp2) length in
  zns_ns_ok ns -> 0 <= cmd.(zc_slba) < 4294967296 ->
  zlen f.(report_buffer).(zr_zd) = f.(zp).(nr_zones) + 1 ->
  prp_buffer_ok m cmd.(zc_prp1) cmd.(zc_prp2) length ->
  length <= sizeof_zone_report + sizeof_zone_descriptor * f.(zp).(nr_zones) ->
  okp (zns_zmgmt_recv garbage ns req m) (fun '(ns', ret, m') =>
    let seen := fun o => m' (addr o) in
    ret.(rs_nsecs_target) = req.(zq_nsecs_start) /\
    if report_supported f cmd zid then
      ret.(rs_status) = NVME_SC_SUCCESS /\ (exists r, ns' = with_ftl ns (with_report f r)) /\
      (8 <= length -> get_le seen 0 8 = report_count f cmd zid) /\
      (forall i d, 0 <= i < report_count f cmd zid -> 64 + 64 * (i + 1) <= length -> f.(zone_descs) !! (zid + i) = Some d ->
        seen_zone seen (64 + 64 * i) = zone_fields d) /\
      forall x, (forall o, 0 <= o < length -> x <> addr o) -> m' x = m x
    else ret.(rs_status) = NVME_SC_INVALID_FIELD /\ ns' = ns /\ m' = m).
Proof using.
  intros cmd f zid length addr Hn Hs Hlen Hb Hl. pose proof (nk_ftl _ Hn) as Hf. fold f in Hf.
  pose proof (zg_fits _ (zo_geo _ Hf)). pose proof (zone_lbas_pos f Hf).
  assert (0 <= zid) as Hz by (apply Z.div_pos; lia). assert (f.(zp).(nr_zones) < 4294967296) by nia.
  eapply okp_mono; [by apply zns_zmgmt_recv_ok|]. intros [[ns' ret] m'] [Ht Hok]. split; [done|]. revert Hok. fold cmd f zid length addr.
  destruct (report_supported f cmd zid) eqn:Esup; [|done]. intros (Hst & r & -> & (Hc & Hrl & Hd) & [Hdone Hother]).
  unfold report_supported in Esup. apply andb_prop in Esup as [[Hzn%Z.ltb_lt _]%andb_prop _].
  assert (forall a n, 0 <= a -> a + n <= length -> get_le (fun o => m' (addr o)) a n = get_le (report_mem garbage r) a n) as Hget.
  { intros a n Ha Hn'. unfold get_le. f_equal. apply mload_ext. intros i Hi. apply Hdone. lia. }
  split; [done|]. split; [by exists r|]. split; [|split; [|done]].
  - intros H8. rewrite Hget by lia. rewrite <- Hc. apply report_count_seen. rewrite Hc. unfold report_count.
    pose proof (u64_range (bytes_transfer cmd `div` sizeof_zone_descriptor - 1)). destruct (_ =? 0); lia.
  - intros i d Hi Hil Ed. assert (zr_zd r !! i = Some (Some d)) as Er by (by rewrite Hd, Ed).
    pose proof (zlookup_Some_range _ _ _ Ed) as Hr. rewrite (zo_len _ Hf) in Hr.
    destruct (zo_zone _ Hf _ _ Ed) as [Z1 Z2 Z3 _ _].
    assert (0 <= (zid + i) * zone_lbas f /\ (zid + i + 1) * zone_lbas f <= nr_zones (zp f) * zone_lbas f) by nia.
    assert (zone_lbas f <= (zid + i + 1) * zone_lbas f) by nia.
    rewrite <- (report_seen garbage r i d) by (done || lia). unfold seen_zone. rewrite !Hget by lia.
    by rewrite Hdone by lia.
Qed.

(** ** Flush *)

Lemma zns_flush_ok ns req h :
  zns_ns_ok ns ->
  okp (zns_flush ns req h) (fun '(h', ret) => ret.(rs_status) = NVME_SC_SUCCESS /\ h' = (tick h).1 /\
    local_clock h.(hw_tick) <= ret.(rs_nsecs_target) /\
    forall c l n, lun_at ns.(zn_ftl).(zf_ssd) c l = Some n -> n.(nl_next_lun_avail_time) <= ret.(rs_nsecs_target)).
Proof using.
  intros [_ Hnp Hf]. unfold zns_flush. rewrite Hnp. simpl. apply okp_bind, okp_bind, okp_bind.
  eapply okp_mono; [apply ssd_next_idle_time_ok; apply Hf|]. intros [h' t] (-> & H1 & H2 & _). simpl.
  split; [done|]. split; [done|]. split; [lia|]. intros c l n E. pose proof (H2 c l n E). lia.
Qed.
End recv.
