(* ===== verification/ZnsInit.v ===== *)
(** * Initialisation of the zoned namespace

    [zns_init_namespace] yields a sound namespace of empty zones with its
    buffers in the store, for a configuration whose zones tile the device. *)

From stdpp Require Import prelude list.
From Stdlib Require Import ZArith Lia.
From S2P Require Import Prelude ChannelModel SsdConfig Ssd ConvFtl ZnsFtl ZnsMgmt ZnsRw ZnsInv ZnsStep ZnsSend ZnsWrite.

(** What the constants of a zoned target and the size of the namespace promise. *)
Record zns_config_ok `{SsdConfig, ZnsConfig} (size : Z) : Prop := {
  zc_ssd : config_ok;
  zc_fits : fits size 1;
  zc_zone : 0 < ZONE_SIZE < 4294967296 /\ (4096 | ZONE_SIZE) /\ (ZONE_SIZE | size);
  zc_blocks : size `div` LBA_SIZE + 65536 <= 4294967296;
  zc_dies : 0 < DIES_PER_ZONE < 4294967296 /\ (DIES_PER_ZONE | LUNS_PER_NAND_CH * NAND_CHANNELS);
  zc_unit : 0 < WRITE_UNIT_SIZE < 4294967296;
  zc_wb : 0 <= ZONE_WB_SIZE < 4294967296;
  zc_zrwa : 0 <= ZRWA_SIZE < 4294967296 /\ 0 <= ZRWAFG_SIZE < 4294967296 /\ 0 <= ZRWA_BUFFER_SIZE < 4294967296
}.

Definition empty_zone (zl i : Z) : zone_descriptor :=
  ZoneDescriptor ZONE_TYPE_SEQ_WRITE_REQUIRED ZONE_STATE_EMPTY 0 zl (i * zl) (i * zl).

(** Every zone of [f] is empty. *)
Definition all_empty (f : zns_ftl) : Prop :=
  forall i, 0 <= i < f.(zp).(nr_zones) -> f.(zone_descs) !! i = Some (empty_zone (zone_lbas f) i).

(** Every zone has its write buffer and, where there are ZRWA buffers, its own. *)
Definition zone_bufs_ok (f : zns_ftl) (h : hw) : Prop :=
  forall i, 0 <= i < f.(zp).(nr_zones) ->
    deref h.(hw_wbuf) (zone_wb f i) = Ok (buffer_init
      (if f.(zp).(zone_wb_size) =? 0 then (zf_sp f).(write_buffer_size) else f.(zp).(zone_wb_size))) /\
    (f.(zp).(zrwa_buffer_size) <> 0 ->
     deref h.(hw_wbuf) (elem_ptr f.(zrwa_buffer) i) = Ok (buffer_init f.(zp).(zrwa_buffer_size))).

Section init.
Context `{SC : SsdConfig, ZC : ZnsConfig, CC : ChanConfig, CK : Clock}.

Lemma ssd_init_params_unit capacity nparts sp :
  ssd_init_params capacity nparts = Ok sp -> sp.(write_unit_size) = WRITE_UNIT_SIZE.
Proof using.
  unfold ssd_init_params. intros E.
  repeat match type of E with
  | context [mbind _ ?r] => destruct r as [?|?]; simpl in E; [|discriminate]
  | (if ?b then _ else _) = _ => destruct b; simpl in E
  end; by injection E as <-.
Qed.

Lemma zlookup_app_old {A} (l l' : list A) i x : l !! i = Some x -> (l ++ l') !! i = Some x.
Proof using.
  intros E. pose proof (zlookup_Some_range _ _ _ E). rewrite zlookup_to_nat in * by lia. by apply lookup_app_l_Some.
Qed.

Lemma zlookup_app_new {A} (l l' : list A) i : 0 <= i -> (l ++ l') !! (zlen l + i) = l' !! i.
Proof using.
  intros Hi. rewrite !zlookup_to_nat by (pose proof (zlen_nonneg l); lia). unfold zlen.
  rewrite lookup_app_r by lia. f_equal. lia.
Qed.

(** Arrays of buffers at the end of the store. *)
Lemma deref_old {A} (l l' : list (option A)) p x : deref l p = Ok x -> deref (l ++ l') p = Ok x.
Proof using. rewrite !deref_Some. intros (i & -> & E). exists i. split; [done|]. by apply zlookup_app_old. Qed.

Lemma deref_new (l : list (option buffer)) n b i : 0 <= i < n ->
  deref (l ++ zrepeat n (Some b)) (elem_ptr (Some (zlen l)) i) = Ok b.
Proof using.
  intros Hi. apply deref_Some. exists (zlen l + i). split; [done|].
  rewrite zlookup_app_new by lia. by apply zlookup_zrepeat_lt.
Qed.

(** The descriptors that the loop of [__init_descriptor] writes. *)
Lemma init_descs_ok n zl size :
  0 <= n -> 0 <= zl -> n * zl < 4294967296 -> BYTE_TO_LBA size = zl ->
  okp (rfold (fun i '(descs, zslba) =>
      descs ← aset descs i (ZoneDescriptor ZONE_TYPE_SEQ_WRITE_REQUIRED ZONE_STATE_EMPTY 0 (BYTE_TO_LBA size) zslba zslba);
      Ok (descs, u64 (zslba + BYTE_TO_LBA size))) (zrange 0 n) (zrepeat n blank_descriptor, 0))
    (fun '(descs, _) => zlen descs = n /\ forall i, 0 <= i < n -> descs !! i = Some (empty_zone zl i)).
Proof using.
  intros Hn Hzl Hb ->. eapply okp_mono.
  - apply (rfold_range _ (fun k '(descs, zslba) => zlen descs = n /\ zslba = k * zl /\
      forall i, 0 <= i < k -> descs !! i = Some (empty_zone zl i)) 0 n); [done| |].
    + split; [by apply zlen_zrepeat|]. split; [lia|]. intros i. lia.
    + intros k [descs zslba] Hk (Hl & -> & Hi). rewrite aset_Some, bind_Ok by lia.
      assert (0 <= k * zl + zl <= n * zl) by nia. unwrap. simpl. split; [by rewrite zlen_zinsert|].
      split; [lia|]. intros i Hik. rewrite zlookup_zinsert by lia. case_decide; [by subst|]. apply Hi. lia.
  - by intros [descs z] (H1 & _ & H2).
Qed.

(** [__init_descriptor] and [__init_resource]. *)
Lemma zns_init_ftl_ok zpp s mapped h zl :
  0 <= zpp.(nr_zones) -> 0 <= zl -> zpp.(nr_zones) * zl < 4294967296 -> BYTE_TO_LBA zpp.(zone_size) = zl ->
  zl = zpp.(zone_size) `div` s.(sd_sp).(secsz) -> deref h.(hw_wbuf) s.(sd_write_buffer) = Ok (buffer_init s.(sd_sp).(write_buffer_size)) ->
  okp (zns_init_ftl zpp s mapped h) (fun '(f, h') =>
    f.(zf_ssd) = s /\ f.(zp) = zpp /\ f.(zf_storage) = mapped /\ zlen f.(zone_descs) = zpp.(nr_zones) /\
    all_empty f /\ zone_bufs_ok f h' /\ f.(res_infos) = (let all := ResInfo 0 zpp.(nr_zones) in ResTable all all all) /\
    zlen f.(report_buffer).(zr_zd) = zpp.(nr_zones) + 1 /\ h'.(hw_pcie) = h.(hw_pcie) /\ h'.(hw_sched) = h.(hw_sched)).
Proof using.
  intros Hn Hz Hb Ezl Ezl' Hwb. unfold zns_init_ftl. apply okp_bind. unfold __init_descriptor. simpl.
  set (z1 := if zrwa_buffer_size zpp =? 0 then (None, h) else _).
  assert (exists l1, z1.2.(hw_wbuf) = h.(hw_wbuf) ++ l1 /\ z1.2.(hw_pcie) = h.(hw_pcie) /\ z1.2.(hw_sched) = h.(hw_sched) /\
    (zrwa_buffer_size zpp <> 0 -> forall i, 0 <= i < nr_zones zpp ->
      deref z1.2.(hw_wbuf) (elem_ptr z1.1 i) = Ok (buffer_init (zrwa_buffer_size zpp)))) as (l1 & L1 & L2 & L3 & L4).
  { unfold z1. destruct (zrwa_buffer_size zpp =? 0) eqn:E; simpl.
    - exists []. rewrite app_nil_r. apply Z.eqb_eq in E. by repeat split.
    - eexists. do 3 (split; [done|]). intros _ i Hi. by apply deref_new. }
  destruct z1 as [zrwa h1]. simpl in *.
  set (z2 := if zone_wb_size zpp =? 0 then (None, h1) else _).
  assert (exists l2, z2.2.(hw_wbuf) = h1.(hw_wbuf) ++ l2 /\ z2.2.(hw_pcie) = h1.(hw_pcie) /\ z2.2.(hw_sched) = h1.(hw_sched) /\
    (zone_wb_size zpp <> 0 -> forall i, 0 <= i < nr_zones zpp ->
      deref z2.2.(hw_wbuf) (elem_ptr z2.1 i) = Ok (buffer_init (zone_wb_size zpp)))) as (l2 & M1 & M2 & M3 & M4).
  { unfold z2. destruct (zone_wb_size zpp =? 0) eqn:E; simpl.
    - exists []. rewrite app_nil_r. apply Z.eqb_eq in E. by repeat split.
    - eexists. do 3 (split; [done|]). intros _ i Hi. by apply deref_new. }
  destruct z2 as [zwb h2]. simpl in *. apply okp_bind.
  eapply okp_mono; [by apply init_descs_ok|]. intros [descs z] [D1 D2]. simpl.
  do 3 (split; [done|]). split; [done|]. split; [|split; [|split; [done|split; [|by rewrite M2, M3, L2, L3]]]].
  - intros i Hi. unfold zone_lbas, zf_sp. simpl. rewrite <- Ezl'. by apply D2.
  - intros i Hi. unfold zone_wb. simpl in *. rewrite M1. split.
    + destruct (zone_wb_size zpp =? 0) eqn:E; [|apply Z.eqb_neq in E; rewrite <- M1; by apply M4].
      apply deref_old. rewrite L1. by apply deref_old.
    + intros Hne. apply deref_old. by apply L4.
  - apply zlen_zrepeat. lia.
Qed.

(** The parameters of the zones, for a sound configuration. *)
Lemma zns_init_params_ok size sp :
  zns_config_ok size -> params_ok sp -> sp.(secsz) = LBA_SIZE ->
  okp (zns_init_params sp size) (fun zpp => zpp.(nr_zones) = size `div` ZONE_SIZE /\ zpp.(zone_size) = ZONE_SIZE /\
    zpp.(dies_per_zone) = DIES_PER_ZONE /\ zpp.(zone_wb_size) = ZONE_WB_SIZE /\ zpp.(zrwa_buffer_size) = ZRWA_BUFFER_SIZE /\
    zpp.(lbas_per_zrwa) = ZRWA_SIZE `div` LBA_SIZE /\ zpp.(lbas_per_zrwafg) = ZRWAFG_SIZE `div` LBA_SIZE /\
    0 < zpp.(nr_zones) /\ zpp.(nr_zones) * ZONE_SIZE = size).
Proof using.
  intros [Hc Hf (Hz & [j Ej] & [k Ek]) Hb Hd Hu Hwb (Hr1 & Hr2 & Hr3)] Hp Esec.
  destruct (sector_split Hc) as (Hs & _ & _). pose proof (ft_capacity _ _ Hf) as Hcap. rewrite Z.div_1_r in Hcap.
  assert (0 < k) by nia. assert (size `div` ZONE_SIZE = k) as Ed by (rewrite Ek; apply Z.div_mul; lia).
  assert (ZONE_SIZE <= size) by nia. pose proof (po_pgsz _ Hp) as E4.
  assert (k < 4294967296) as Hk.
  { assert (k <= size `div` LBA_SIZE); [|lia]. apply Z.div_le_lower_bound; [lia|]. rewrite Ek, Z.mul_comm.
    apply Z.mul_le_mono_nonneg_l; lia. }
  assert (forall x, 0 <= x < 4294967296 -> 0 <= x `div` LBA_SIZE < 4294967296) as Hdv
    by (intros x Hx; split; [apply Z.div_pos; lia|apply (Z.le_lt_trans _ x); [apply Z.div_le_upper_bound; nia|lia]]).
  pose proof (Hdv _ Hr1). pose proof (Hdv _ Hr2).
  unfold zns_init_params. rewrite Esec, E4. rewrite !cdiv_ok, !bind_Ok by lia. simpl. rewrite Ed. unwrap.
  rewrite cmod_ok, bind_Ok by lia. rewrite Ek at 1. rewrite Z_mod_mult. simpl.
  rewrite Ej at 1. rewrite Z_mod_mult. simpl.
  rewrite ?u32_small by lia. by rewrite Ek.
Qed.

Lemma zns_init_namespace_ok id size mapped cpu h :
  zns_config_ok size ->
  okp (zns_init_namespace id size mapped cpu h) (fun '(ns, h') =>
    let f := ns.(zn_ftl) in
    zns_ns_ok ns /\ link_ok f.(zf_ssd).(sd_pcie) h' /\ ns.(zn_id) = id /\ ns.(zn_size) = size /\
    f.(zf_storage) = mapped /\ all_empty f /\ zone_bufs_ok f h' /\
    zlen f.(report_buffer).(zr_zd) = f.(zp).(nr_zones) + 1 /\
    f.(zp).(nr_zones) * f.(zp).(zone_size) = size /\ f.(zp).(zone_size) = ZONE_SIZE /\
    (zf_sp f).(write_buffer_size) = GLOBAL_WB_SIZE /\ f.(zp).(zone_wb_size) = ZONE_WB_SIZE /\
    f.(zp).(lbas_per_zrwa) = ZRWA_SIZE `div` LBA_SIZE /\ f.(zp).(lbas_per_zrwafg) = ZRWAFG_SIZE `div` LBA_SIZE /\
    f.(zp).(nr_zones) * zone_lbas f = size `div` LBA_SIZE /\ h'.(hw_sched) = h.(hw_sched)).
Proof using.
  intros Hz. pose proof Hz as [Hc Hf (Hzs & [j Ej] & _) Hb [Hd Hdd] Hu Hwb _].
  destruct (sector_split Hc) as (Hs & _ & Esz). unfold zns_init_namespace.
  destruct (okp_inv _ _ (ssd_init_params_ok size 1 Hc Hf)) as (sp & Esp & Hp & Ech & Elun & _ & _ & _ & Esec & Ewbs & _).
  pose proof (ssd_init_params_unit _ _ _ Esp) as Eun. rewrite Esp, bind_Ok.
  apply okp_bind. eapply okp_mono; [by apply ssd_init_ok|].
  intros [s h1] (S1 & S2 & S3 & S4 & S5 & S6 & _ & S8 & _).
  apply okp_bind. eapply okp_mono; [by apply zns_init_params_ok|].
  intros zpp (P1 & P2 & P3 & P4 & P5 & P6 & P7 & P8 & P9).
  pose proof (po_pgsz _ Hp) as E4. pose proof (po_secs _ Hp) as [Hspp Ess]. rewrite Esec in Ess.
  set (zl := ZONE_SIZE `div` LBA_SIZE).
  assert (zl * LBA_SIZE = ZONE_SIZE) as Ezl.
  { unfold zl. rewrite Ej, <- Ess, (Z.mul_comm LBA_SIZE), Z.mul_assoc, Z.div_mul by lia. lia. }
  assert (nr_zones zpp * zl = size `div` LBA_SIZE) as Efit.
  { rewrite <- P9, <- Ezl, Z.mul_assoc, Z.div_mul by lia. done. }
  apply okp_bind. eapply okp_mono.
  { apply (zns_init_ftl_ok zpp s mapped h1 zl); [lia|nia|lia| |by rewrite P2, S2, Esec|].
    - unfold BYTE_TO_LBA, zl, LBA_SIZE. rewrite P2, Z.shiftr_div_pow2, Z.shiftl_1_l by apply (co_lba Hc). done.
    - rewrite S2, S4, S6. apply deref_Some. eexists. split; [done|].
      pose proof (zlookup_app_new h.(hw_wbuf) [Some (buffer_init (write_buffer_size sp))] 0 ltac:(lia)) as E.
      by rewrite Z.add_0_r in E. }
  intros [f h2] (F1 & F2 & F3 & F4 & F5 & F6 & F7 & F8 & F9 & F10).
  assert (zf_sp f = sp) as Ef by (unfold zf_sp; by rewrite F1).
  assert (zone_lbas f = zl) as El by (unfold zone_lbas, zl; by rewrite Ef, F2, P2, Esec).
  assert (forall i, 0 <= i < nr_zones zpp -> zone_descs f !! i = Some (empty_zone zl i)) as Hall
    by (intros i Hi; rewrite <- El; apply F5; by rewrite F2).
  assert (forall P : zone_descriptor -> bool, (forall i, P (empty_zone zl i) = false) -> zcount P (zone_descs f) = 0) as Hcnt.
  { intros P HP. apply zcount_false. intros x (i & Ei)%elem_of_zlookup. pose proof (zlookup_Some_range _ _ _ Ei).
    rewrite Hall in Ei by lia. injection Ei as <-. apply HP. }
  simpl. split; [split; simpl; [done|done|]|].
  - split.
    + by rewrite Ef.
    + by rewrite F1.
    + split; rewrite ?Ef, ?F2, ?El, ?P2, ?P3, ?Eun, ?Efit; try done.
      * unfold zone_pgs. rewrite F2, P2, Ef, E4, Ej, Z.div_mul by lia. done.
      * split; [done|]. destruct Hdd as [m Em]. exists m. rewrite (po_tt_luns _ Hp), Ech, Elun, <- Em.
        unfold part_chs. by rewrite Z.div_1_r.
    + by rewrite F4, F2.
    + intros i d Ei. pose proof (zlookup_Some_range _ _ _ Ei). rewrite Hall in Ei by lia. injection Ei as <-.
      rewrite El. split; simpl; try done; nia.
    + rewrite F7, F2. split; simpl; try (by rewrite Hcnt). rewrite Hcnt by done. lia.
  - split; [rewrite F1; destruct S5 as (m & Em & Hm); exists m; by rewrite F9|]. do 3 (split; [done|]).
    split; [done|]. split; [done|]. rewrite El, Ef, F2, F10, P2. conj.
Qed.
End init.

