(* ===== verification/ZnsRun.v ===== *)
(** * Runs of the zoned namespace

    Any sequence of commands, interleaved with the releases of the write
    buffers by the I/O workers, from a new namespace, as long as the host opens
    no ZRWA. *)

From stdpp Require Import prelude list.
From Stdlib Require Import ZArith Lia.
From S2P Require Import Prelude Mem Prp ChannelModel SsdConfig Ssd ConvFtl ZnsFtl ZnsMgmt ZnsRw ZnsInv ZnsStep ZnsSend ZnsWrite.
From S2P Require Import ZnsRead ZnsInit.

(** [m] is the memory of the host when the command is carried out. *)
Inductive zevent :=
| ZCommand (req : zns_request) (m : mem)
| ZReleased (zid size : Z).

Section run.
Context `{SC : SsdConfig, ZC : ZnsConfig, CC : ChanConfig, CK : Clock}.
Context (garbage : mem).

Definition zexec (ev : zevent) (st : zns_ns * hw) : res (zns_ns * hw) :=
  let '(ns, h) := st in
  match ev with
  | ZCommand req m =>
      '(ns, h, _, _, _, _) ← zns_proc_nvme_io_cmd garbage ns req (Result 0 0) m h; Ok (ns, h)
  | ZReleased zid size =>
      let wb := zone_wb ns.(zn_ftl) zid in
      buf ← deref h.(hw_wbuf) wb;
      bufs ← store h.(hw_wbuf) wb (buffer_release buf size).1;
      Ok (ns, Hw h.(hw_tick) h.(hw_pcie) bufs h.(hw_sched))
  end.

Definition zns_session (id size : Z) (mapped : Z -> Z) (cpu : Z) (h : hw) (evs : list zevent) : res (zns_ns * hw) :=
  st ← zns_init_namespace id size mapped cpu h; rfold zexec evs st.

(** The size of the buffer that a write goes through. *)
Definition wb_bytes : Z := if ZONE_WB_SIZE =? 0 then GLOBAL_WB_SIZE else ZONE_WB_SIZE.

(** The host stays inside the namespace, writes no more than a write buffer at
    once, uses the five actions without ZRWA and asks for reports that exist. *)
Definition zhost_ok (size : Z) (req : zns_request) (m : mem) : Prop :=
  let cmd := req.(zq_cmd) in
  0 <= cmd.(zc_slba) < size `div` LBA_SIZE /\
  ((cmd.(zc_opcode) =? nvme_cmd_write) || (cmd.(zc_opcode) =? nvme_cmd_zone_append) = true ->
   LBA_TO_BYTE (zc_length cmd + 1) <= wb_bytes) /\
  (cmd.(zc_opcode) = nvme_cmd_zone_mgmt_send -> is_action (zc_zsa cmd) /\ zc_zsaso cmd = 0) /\
  (cmd.(zc_opcode) = nvme_cmd_zone_mgmt_recv ->
   prp_buffer_ok m cmd.(zc_prp1) cmd.(zc_prp2) (bytes_transfer cmd) /\
   bytes_transfer cmd <= sizeof_zone_report + sizeof_zone_descriptor * (size `div` ZONE_SIZE)).

Definition zevent_ok (size : Z) (ev : zevent) : Prop :=
  match ev with
  | ZCommand req m => zhost_ok size req m
  | ZReleased zid _ => 0 <= zid < size `div` ZONE_SIZE
  end.

Record zrun_ok (size : Z) (st : zns_ns * hw) : Prop := {
  zx_ns : zns_ns_ok st.1;
  zx_link : link_ok st.1.(zn_ftl).(zf_ssd).(sd_pcie) st.2;
  zx_nr : st.1.(zn_ftl).(zp).(nr_zones) = size `div` ZONE_SIZE;
  zx_size : st.1.(zn_ftl).(zp).(nr_zones) * zone_lbas st.1.(zn_ftl) = size `div` LBA_SIZE;
  zx_zrwa (i : Z) d : st.1.(zn_ftl).(zone_descs) !! i = Some d -> d.(zd_zrwav) = 0;
  zx_report : zlen st.1.(zn_ftl).(report_buffer).(zr_zd) = size `div` ZONE_SIZE + 1;
  zx_wb i : 0 <= i < size `div` ZONE_SIZE -> exists b, deref st.2.(hw_wbuf) (zone_wb st.1.(zn_ftl) i) = Ok b /\
    b.(bf_size) = wb_bytes /\ 0 <= b.(bf_remaining) < 18446744073709551616;
  zx_zrwa_bufs : zrwa_bufs_ok st.1.(zn_ftl) st.2
}.

Context (Hlba : 0 <= LBA_BITS <= 12).

Lemma zc_length_range cmd : 0 <= zc_length cmd < 65536.
Proof using. unfold zc_length. apply Z.mod_pos_bound. lia. Qed.

(** The buffer of one zone assigned. *)
Lemma zx_wb_set size f h h' p b :
  (forall i, 0 <= i < size `div` ZONE_SIZE -> exists b, deref h.(hw_wbuf) (zone_wb f i) = Ok b /\
    b.(bf_size) = wb_bytes /\ 0 <= b.(bf_remaining) < 18446744073709551616) ->
  deref h'.(hw_wbuf) p = Ok b -> b.(bf_size) = wb_bytes -> 0 <= b.(bf_remaining) < 18446744073709551616 ->
  (forall q, q <> p -> deref h'.(hw_wbuf) q = deref h.(hw_wbuf) q) ->
  forall i, 0 <= i < size `div` ZONE_SIZE -> exists b, deref h'.(hw_wbuf) (zone_wb f i) = Ok b /\
    b.(bf_size) = wb_bytes /\ 0 <= b.(bf_remaining) < 18446744073709551616.
Proof using.
  intros Hw Hb Hs Hr Hq i Hi. destruct (decide (zone_wb f i = p)) as [E|Hne].
  - exists b. by rewrite E.
  - rewrite Hq by done. by apply Hw.
Qed.

Lemma zrwa_bufs_set f h h' p b :
  zrwa_bufs_ok f h -> deref h'.(hw_wbuf) p = Ok b ->
  (forall q, q <> p -> deref h'.(hw_wbuf) q = deref h.(hw_wbuf) q) -> zrwa_bufs_ok f h'.
Proof using.
  intros Hz Hb Hq Hne i Hi. destruct (decide (elem_ptr (zrwa_buffer f) i = p)) as [->|H]; [by exists b|].
  rewrite Hq by done. by apply Hz.
Qed.

(** The zone of a block that the host may address. *)
Lemma zx_zone size ns h slba :
  zrun_ok size (ns, h) -> 0 <= slba < size `div` LBA_SIZE ->
  0 <= slba < ns.(zn_ftl).(zp).(nr_zones) * zone_lbas ns.(zn_ftl) /\
  0 <= slba `div` zone_lbas ns.(zn_ftl) < size `div` ZONE_SIZE /\
  exists d, ns.(zn_ftl).(zone_descs) !! (slba `div` zone_lbas ns.(zn_ftl)) = Some d /\ d.(zd_zrwav) = 0.
Proof using.
  intros [[_ _ Hf] _ Hnr Hsz Hz _ _ _] Hs. simpl in *. rewrite Hsz. split; [done|].
  destruct (lba_to_zone_ok _ slba Hf) as [_ Hzid]; [lia..|]. rewrite <- Hnr. split; [done|].
  destruct (zone_lookup _ _ Hf Hzid) as (d & Ed & _). exists d. split; [done|by eapply Hz].
Qed.

Lemma same_device_zone_wb f f' i : same_device f f' -> zone_wb f' i = zone_wb f i.
Proof using. intros (E1 & E2 & _ & E4 & _). unfold zone_wb. by rewrite E1, E2, E4. Qed.

(** The write buffers stay, and what is scheduled are at most [n] releases into the
    buffer of the zone, nothing if the command is refused. *)
Definition ztrace (n : Z) (ns : zns_ns) (h : hw) (req : zns_request) (ns' : zns_ns) (h' : hw) (ok : bool) : Prop :=
  (forall i, zone_wb ns'.(zn_ftl) i = zone_wb ns.(zn_ftl) i) /\
  exists ops, h'.(hw_sched) = h.(hw_sched) ++ ops /\ (ok = false -> ops = []) /\
    releases req.(zq_sq_id) (zone_wb ns.(zn_ftl) (req.(zq_cmd).(zc_slba) `div` zone_lbas ns.(zn_ftl))) n ops.

Lemma ztrace_quiet n ns h req ns' h' ok : 0 <= n ->
  (forall i, zone_wb ns'.(zn_ftl) i = zone_wb ns.(zn_ftl) i) -> h'.(hw_sched) = h.(hw_sched) -> ztrace n ns h req ns' h' ok.
Proof using.
  intros Hn Hw Hs. split; [done|]. exists []. rewrite app_nil_r. split; [done|]. split; [done|]. by split; [constructor|].
Qed.

(** A write or an append. *)
Lemma zexec_write size ns h req ret :
  zrun_ok size (ns, h) -> 0 <= req.(zq_cmd).(zc_slba) < size `div` LBA_SIZE ->
  LBA_TO_BYTE (zc_length req.(zq_cmd) + 1) <= wb_bytes ->
  okp (zns_write ns req ret h) (fun '(ns', h', _, _, ok) => zrun_ok size (ns', h') /\ ztrace (zc_length req.(zq_cmd) + 1) ns h req ns' h' ok).
Proof using Hlba.
  intros Hr Hs Hb. pose proof (zc_length_range (zq_cmd req)) as Hlr. destruct (zx_zone _ _ _ _ Hr Hs) as (Hcap & Hzid & d & Ed & Ez).
  pose proof Hr as [[Hc Hnp Hf] Hl Hnr Hsz Hz Hrep Hw Hzb]. simpl in *.
  destruct (zone_units _ Hf) as (_ & Hspp & _). set (f := zn_ftl ns) in *.
  destruct (Hw _ Hzid) as (buf & B1 & B2 & B3). unfold zns_write, lba_to_lpn. fold f.
  rewrite cdiv_ok, bind_Ok by lia. rewrite page_zone, bind_Ok, (aget_Some _ _ _ Ed), bind_Ok by done.
  rewrite Ez. simpl. apply okp_bind.
  eapply okp_mono; [eapply (zns_write_seq_ok Hlba f req ret h buf _ d); try done; lia|].
  intros [[[[f' h'] req'] ret'] ok] (_ & Hf' & Hl' & Hq & H). simpl.
  destruct (bf_remaining buf <? LBA_TO_BYTE (zc_length (zq_cmd req) + 1)) eqn:Er.
  - destruct H as (-> & -> & -> & Hsc & Hbuf). split; [|by apply ztrace_quiet; [lia|..]]. split; simpl; try done; [by eapply zx_wb_set|by eapply zrwa_bufs_set].
  - destruct H as (-> & Hbuf & _ & H). apply Z.ltb_ge in Er.
    destruct (lba_bytes Hlba (zc_length (zq_cmd req) + 1)) as [_ Hbytes]; [lia|].
    destruct (write_status _ _ _ _ =? NVME_SC_SUCCESS).
    + destruct H as ((D1 & D2 & (D3 & D3' & D3'' & _) & D4 & D5 & D6 & _) & ops & O1 & O2 & _).
      assert (zone_lbas f' = zone_lbas f) as El by (unfold zone_lbas, zf_sp; by rewrite D2, D3).
      assert (forall i, zone_wb f' i = zone_wb f i) as Ewb by (intros i; unfold zone_wb; by rewrite D2, D3'', D5).
      split; [|split; [exact Ewb|by exists ops]].
      split; simpl; rewrite ?D2, ?D3', ?D4, ?El; try done.
      * intros i di. rewrite D1, zlookup_zinsert by (by eapply zlookup_Some_range). case_decide; [|apply Hz].
        intros [= <-]. exact Ez.
      * intros i Hi. rewrite Ewb. eapply zx_wb_set; [exact Hw|exact Hbuf|done|simpl; lia|done|done].
      * unfold zrwa_bufs_ok. rewrite D2, D6. eapply zrwa_bufs_set; [exact Hzb|exact Hbuf|done].
    + destruct H as [-> Hsc]. split; [|by apply ztrace_quiet; [lia|..]]. split; simpl; try done; [|by eapply zrwa_bufs_set].
      eapply zx_wb_set; [exact Hw|exact Hbuf|done|simpl; lia|done].
Qed.

Lemma zexec_read size ns h req :
  zrun_ok size (ns, h) -> 0 <= req.(zq_cmd).(zc_slba) < size `div` LBA_SIZE ->
  okp (zns_read ns req h) (fun '(ns', h', _, ok) => zrun_ok size (ns', h') /\ ztrace 0 ns h req ns' h' ok).
Proof using.
  intros Hr Hs. destruct (zx_zone _ _ _ _ Hr Hs) as (Hcap & Hzid & d & Ed & Ez).
  pose proof Hr as [Hn Hl Hnr Hsz Hz Hrep Hw Hzb]. simpl in *.
  eapply okp_mono; [by apply (zns_read_ok ns req h d); [..|apply zc_length_range|]|].
  intros [[[ns' h'] ret] ok] (_ & Hn' & Ht & (A1 & A2 & A3 & A4 & A5 & A6) & _).
  destruct Ht as (s & Es & (S1 & S2 & S3 & _) & _).
  assert (forall i, zone_wb (zn_ftl ns') i = zone_wb (zn_ftl ns) i) as Ewb
    by (intros i; unfold zone_wb; rewrite Es; simpl; by rewrite S3).
  assert (zone_lbas (zn_ftl ns') = zone_lbas (zn_ftl ns)) as El by (unfold zone_lbas, zf_sp; rewrite Es; simpl; by rewrite S1).
  split; [|by apply ztrace_quiet]. split; simpl; rewrite ?El; rewrite ?Es; simpl; try done.
  - by rewrite S2.
  - intros i Hi. rewrite A2. rewrite <- Es, Ewb. by apply Hw.
  - unfold zrwa_bufs_ok. simpl. by rewrite A2.
Qed.

(** A report and a flush touch no zone. *)
Lemma zexec_recv size ns h req m :
  zrun_ok size (ns, h) -> 0 <= req.(zq_cmd).(zc_slba) < size `div` LBA_SIZE ->
  prp_buffer_ok m req.(zq_cmd).(zc_prp1) req.(zq_cmd).(zc_prp2) (bytes_transfer req.(zq_cmd)) ->
  bytes_transfer req.(zq_cmd) <= sizeof_zone_report + sizeof_zone_descriptor * (size `div` ZONE_SIZE) ->
  okp (zns_zmgmt_recv garbage ns req m) (fun '(ns', _, m') => zrun_ok size (ns', h) /\ ztrace 0 ns h req ns' h true /\
    forall x, (forall o, 0 <= o < bytes_transfer req.(zq_cmd) ->
      x <> prp_addr (u64_at m) req.(zq_cmd).(zc_prp1) req.(zq_cmd).(zc_prp2) (bytes_transfer req.(zq_cmd)) o) -> m' x = m x).
Proof using.
  intros Hr Hs Hp Hb. pose proof Hr as [Hn Hl Hnr Hsz Hz Hrep Hw Hzb]. simpl in *.
  pose proof (zg_fits _ (zo_geo _ (nk_ftl _ Hn))).
  eapply okp_mono; [apply zns_zmgmt_recv_ok; [done|lia|by rewrite Hnr|done|by rewrite Hnr]|].
  intros [[ns' ret] m'] (_ & H'). destruct (report_supported _ _ _); [|by destruct H' as (_ & -> & ->); split; [|split; [by apply ztrace_quiet|]]].
  destruct H' as (_ & r & -> & (_ & Hlen & _) & [_ Hother]). split; [|split; [by apply ztrace_quiet|exact Hother]].
  destruct Hn as [? ? [? ? [] ? ? ?]]. split; simpl; try done. by rewrite Hlen, Hnr.
Qed.

Lemma zone_moved_zrwav action d d' : zone_moved action 0 d d' -> d.(zd_zrwav) = 0 -> d'.(zd_zrwav) = 0.
Proof using.
  unfold zone_moved. intros Hm Hz. destruct (zone_next action (zd_state d)) as [s|]; [|by subst].
  destruct Hm as [->|(_ & _ & ? & _)]; [|done]. unfold zone_after.
  destruct (action =? ZSA_RESET_ZONE); [done|]. rewrite andb_false_r. exact Hz.
Qed.

Lemma zexec_send size ns h req :
  zrun_ok size (ns, h) -> 0 <= req.(zq_cmd).(zc_slba) < size `div` LBA_SIZE -> 0 <= wb_bytes < 18446744073709551616 ->
  is_action (zc_zsa req.(zq_cmd)) -> zc_zsaso req.(zq_cmd) = 0 ->
  okp (zns_zmgmt_send ns req h) (fun '(ns', h', _) => zrun_ok size (ns', h') /\ ztrace 0 ns h req ns' h' true).
Proof using.
  intros Hr Hs Hwb Ha Ho. destruct (zx_zone _ _ _ _ Hr Hs) as (Hcap & Hzid & d & Ed & Ez).
  pose proof Hr as [Hn Hl Hnr Hsz Hz Hrep Hw Hzb]. simpl in *.
  eapply okp_mono; [by apply zns_zmgmt_send_ok|]. rewrite Ho.
  intros [[ns' h'] ret] (Hn' & Hk & _ & H).
  assert (same_device ns.(zn_ftl) ns'.(zn_ftl) /\
    forall (i : Z) d', ns'.(zn_ftl).(zone_descs) !! i = Some d' -> d'.(zd_zrwav) = 0) as [Hsd Hz'].
  { destruct (zc_select_all (zq_cmd req) =? 0).
    - destruct H as (d0 & E0 & Hsent). rewrite Ed in E0. injection E0 as <-.
      destruct (zone_sent_moved _ _ _ _ _ _ _ (nk_ftl _ Hn) Ed Hsent) as (Hsd & (d1 & E1 & Hm) & _).
      split; [done|]. intros i di. rewrite E1, zlookup_zinsert by (by eapply zlookup_Some_range).
      case_decide; [|apply Hz]. intros [= <-]. by eapply zone_moved_zrwav.
    - destruct H as (_ & Hsd & Hf' & Hall & _). split; [done|]. intros i di Ei.
      pose proof (zlookup_Some_range _ _ _ Ei) as Hi. rewrite (zo_len _ Hf') in Hi.
      rewrite (proj1 (proj2 Hsd)) in Hi. destruct (zone_lookup _ _ (nk_ftl _ Hn) Hi) as (dk & Ek & _).
      destruct (Hall i dk Ek) as (d1 & E1 & H1). rewrite decide_True in H1 by lia. destruct H1 as [Hm _].
      assert (d1 = di) as -> by congruence. eapply zone_moved_zrwav; [done|by eapply Hz]. }
  pose proof (same_device_bufs _ _ _ _ Hsd Hk Hzb). pose proof Hsd as (E1 & E2 & E3 & E4 & E5).
  destruct Hk as (_ & K2 & K3 & K4).
  split; [|apply ztrace_quiet; [done|intros i; by apply same_device_zone_wb|done]]. split; simpl; rewrite ?(same_device_lbas _ _ Hsd), ?E1, ?E2, ?E3; try done.
  - unfold link_ok. by rewrite K2.
  - intros i Hi. rewrite (same_device_zone_wb _ _ _ Hsd). destruct (Hw i Hi) as (b & B1 & B2 & B3).
    destruct (K4 _ _ B1) as [E|E]; [by exists b|]. exists (buffer_refill b). rewrite E. simpl. by rewrite B2.
Qed.

(** The device with a later clock. *)
Lemma zrun_ok_tick size ns h : zrun_ok size (ns, h) -> zrun_ok size (ns, (tick h).1).
Proof using. by intros [H1 H2 H3 H4 H5 H6 H7 H8]. Qed.

(** The blocks that a command writes. *)
Definition zblocks (cmd : zns_command) : Z :=
  if (cmd.(zc_opcode) =? nvme_cmd_write) || (cmd.(zc_opcode) =? nvme_cmd_zone_append) then zc_length cmd + 1 else 0.

(** Every command of a host that keeps to its part; a report writes its buffer only. *)
Lemma zcommand_ok size ns h req ret m :
  0 <= wb_bytes < 18446744073709551616 -> zrun_ok size (ns, h) -> zhost_ok size req m ->
  okp (zns_proc_nvme_io_cmd garbage ns req ret m h) (fun '(ns', h', m', req', ret', ok) =>
    zrun_ok size (ns', h') /\ ztrace (zblocks req.(zq_cmd)) ns h req ns' h' ok /\
    forall x, (req.(zq_cmd).(zc_opcode) = nvme_cmd_zone_mgmt_recv -> forall o, 0 <= o < bytes_transfer req.(zq_cmd) ->
      x <> prp_addr (u64_at m) req.(zq_cmd).(zc_prp1) req.(zq_cmd).(zc_prp2) (bytes_transfer req.(zq_cmd)) o) -> m' x = m x).
Proof using Hlba.
  intros Hwb Hr (Hs & Hwr & Hsend & Hrecv). unfold zns_proc_nvme_io_cmd, zblocks.
  pose proof Hr as [[Hc Hnp Hf] _ _ _ _ _ _ _]. simpl in *. rewrite Hc, Hnp. simpl.
  destruct ((zc_opcode (zq_cmd req) =? nvme_cmd_write) || _) eqn:E1.
  { apply okp_bind. eapply okp_mono; [apply (zexec_write size ns h req); [done|done|by apply Hwr]|]. intros [[[[ns' h'] r'] ret'] ok] [H1 H2]. by simpl. }
  destruct (zc_opcode (zq_cmd req) =? nvme_cmd_read).
  { apply okp_bind. eapply okp_mono; [by apply (zexec_read size ns h req)|]. intros [[[ns' h'] ret'] ok] [H1 H2]. by simpl. }
  destruct (zc_opcode (zq_cmd req) =? nvme_cmd_flush).
  { apply okp_bind. eapply okp_mono; [apply zns_flush_ok; by split|]. intros [h' ret'] (_ & -> & _). simpl.
    split; [by apply zrun_ok_tick|]. split; [by apply ztrace_quiet|done]. }
  destruct (zc_opcode (zq_cmd req) =? nvme_cmd_zone_mgmt_send) eqn:E2.
  { apply Z.eqb_eq in E2. destruct (Hsend E2). apply okp_bind.
    eapply okp_mono; [by apply (zexec_send size ns h req)|]. intros [[ns' h'] ret'] [H1 H2]. by simpl. }
  destruct (zc_opcode (zq_cmd req) =? nvme_cmd_zone_mgmt_recv) eqn:E3; [|simpl; split; [done|split; [by apply ztrace_quiet|done]]].
  apply Z.eqb_eq in E3. destruct (Hrecv E3). apply okp_bind.
  eapply okp_mono; [by apply (zexec_recv size ns h req m)|]. intros [[ns' ret'] m'] (H1 & H2 & H3). simpl.
  split; [done|]. split; [done|]. intros x Hx. by apply H3, Hx.
Qed.

Lemma zexec_ok size ev st :
  0 <= wb_bytes < 18446744073709551616 -> zrun_ok size st -> zevent_ok size ev -> okp (zexec ev st) (zrun_ok size).
Proof using Hlba.
  intros Hwb Hr Hev. destruct st as [ns h], ev as [req m|zid n]; simpl in *.
  - apply okp_bind. eapply okp_mono; [by apply (zcommand_ok size ns h req _ m)|]. by intros [[[[[ns' h'] m'] req'] ret'] ok] [H _].
  - pose proof Hr as [Hn Hl Hnr Hsz Hz Hrep Hw Hzb]. simpl in *. destruct (Hw zid Hev) as (b & B1 & B2 & B3).
    rewrite B1, bind_Ok. apply okp_bind. eapply okp_mono; [by eapply store_ok|]. intros l (L1 & L2 & L3). simpl.
    split; simpl; try done.
    + eapply (zx_wb_set size (zn_ftl ns) h (Ssd.Hw h.(hw_tick) h.(hw_pcie) l h.(hw_sched))); simpl; [done|exact L1|done| |done].
      simpl. apply u64_range.
    + by eapply (zrwa_bufs_set (zn_ftl ns) h (Ssd.Hw h.(hw_tick) h.(hw_pcie) l h.(hw_sched))).
Qed.
(** What the configuration of a session promises. *)
Record zsession_ok (size : Z) : Prop := {
  zn_config : zns_config_ok size;
  zn_wb : 0 <= GLOBAL_WB_SIZE < 18446744073709551616
}.

Lemma zsession_wb size : zsession_ok size -> 0 <= wb_bytes < 18446744073709551616.
Proof using. intros [Hc ?]. pose proof (zc_wb _ Hc). unfold wb_bytes. destruct (ZONE_WB_SIZE =? 0); lia. Qed.

Lemma zsession_start id size mapped cpu h :
  zsession_ok size -> okp (zns_init_namespace id size mapped cpu h) (zrun_ok size).
Proof using.
  intros [Hc Hg]. pose proof (zc_zone _ Hc) as (Hz & _ & _). eapply okp_mono; [by apply zns_init_namespace_ok|].
  intros [ns h'] (Hn & Hl & _ & _ & _ & He & Hb & Hr & Hsz & Ez & Ew & Ezw & _ & _ & Ecap & _).
  assert (nr_zones (zp (zn_ftl ns)) = size `div` ZONE_SIZE) as En by (rewrite <- Hsz, Ez, Z.div_mul; lia).
  pose proof (zc_wb _ Hc).
  split; simpl; try done; try (by rewrite <- En).
  - intros i d E. pose proof (zlookup_Some_range _ _ _ E) as Hi. rewrite (zo_len _ (nk_ftl _ Hn)) in Hi.
    rewrite He in E by done. by injection E as <-.
  - intros i Hi. rewrite <- En in Hi. destruct (Hb i Hi) as [B _]. rewrite Ezw, Ew in B.
    eexists. split; [exact B|]. unfold wb_bytes. destruct (ZONE_WB_SIZE =? 0); simpl; (split; [done|lia]).
  - intros Hne i Hi. destruct (Hb i Hi) as [_ B]. eauto.
Qed.

(** A session never faults. *)
Lemma zsession_spec id size mapped cpu h evs :
  zsession_ok size -> (forall ev, ev ∈ evs -> zevent_ok size ev) ->
  okp (zns_session id size mapped cpu h evs) (zrun_ok size).
Proof using Hlba.
  intros Hs Hev. unfold zns_session. apply okp_bind. eapply okp_mono; [by apply zsession_start|].
  intros st Hst. apply (rfold_inv_const _ (zrun_ok size)); [done|]. intros ev st' Hin Hr.
  apply zexec_ok; [by eapply zsession_wb|done|by apply Hev].
Qed.
End run.
