(* ===== verification/IoUnits.v ===== *)
(** * I/O units: the timing model of the simple and key-value namespaces (simple_ftl.c)

    The storage is striped over [nr_io_units] units, each busy until
    [io_unit_stat].  A command is scheduled by [__schedule_io_units], which the
    key-value FTL has a copy of; a flush waits for every unit.

    The two builds that use these namespaces have 512-byte blocks. *)

From stdpp Require Import prelude list.
From Stdlib Require Import ZArith Lia.
From S2P Require Import Prelude ChannelModel SsdConfig Ssd ConvFtl.

Definition UNIT_LBA_BITS : Z := 9.

(** The part of [struct nvmev_config] that the namespaces read. *)
Record nvmev_config := NvmevConfig {
  cf_storage_start : Z; cf_storage_size : Z;
  cf_nr_io_units : Z; cf_io_unit_shift : Z;
  cf_read_delay : Z; cf_read_time : Z; cf_read_trailing : Z;
  cf_write_delay : Z; cf_write_time : Z; cf_write_trailing : Z
}.

(** ** Scheduling *)

(** The three delays of a command, by its direction. *)
Record io_timing := IoTiming { it_delay : Z; it_latency : Z; it_trailing : Z }.

Definition write_timing (cf : nvmev_config) : io_timing :=
  IoTiming cf.(cf_write_delay) cf.(cf_write_time) cf.(cf_write_trailing).
Definition read_timing (cf : nvmev_config) : io_timing :=
  IoTiming cf.(cf_read_delay) cf.(cf_read_time) cf.(cf_read_trailing).

Record unit_state := UnitState { us_stat : list Z; us_latest : Z; us_nr : Z; us_length : Z; us_unit : Z }.

(** One round of [do ... while (length > 0)]. *)
Definition unit_step (cf : nvmev_config) (tm : io_timing) (io_unit_size : Z) (s : unit_state) :
    res (unit_state + list Z * Z) :=
  let latest := u64 (s.(us_latest) + tm.(it_latency)) in
  stat ← aset s.(us_stat) s.(us_unit) latest;
  stat ← (if 0 <? s.(us_nr) then aset stat s.(us_unit) (u64 (latest + tm.(it_trailing))) else Ok stat);
  let length := s.(us_length) - Z.min s.(us_length) io_unit_size in
  let io_unit := u32 (s.(us_unit) + 1) in
  let io_unit := if cf.(cf_nr_io_units) <=? io_unit then 0 else io_unit in
  Ok (if 0 <? length then inl (UnitState stat latest (s32 (s.(us_nr) - 1)) length io_unit)
      else inr (stat, latest)).

(** Shifting a 64-bit word by its width or more is undefined. *)
Definition shr64 (x n : Z) : res Z := if n <? 64 then Ok (Z.shiftr x n) else Fault OutOfBounds.

(** [__schedule_io_units] after it has chosen the delays: the units' state and
    the time of completion. *)
Definition schedule_units (cf : nvmev_config) (tm : io_timing) (lba length nsecs_start : Z) (stat : list Z) :
    res (list Z * Z) :=
  let io_unit_size := u32 (Z.shiftl 1 cf.(cf_io_unit_shift)) in
  stripe ← shr64 lba (u32 (cf.(cf_io_unit_shift) - UNIT_LBA_BITS));
  io_unit ← cmod stripe cf.(cf_nr_io_units);
  rounded ← cdiv (u32 (u32 (length + io_unit_size) - 1)) io_unit_size;
  let nr_io_units := s32 (Z.min cf.(cf_nr_io_units) rounded) in
  busy ← aget stat io_unit;
  let latest := u64 (Z.max nsecs_start busy + tm.(it_delay)) in
  rloop (S (Z.to_nat length)) (unit_step cf tm io_unit_size) (UnitState stat latest nr_io_units length io_unit).

Definition __schedule_io_units (cf : nvmev_config) (opcode lba length nsecs_start : Z) (stat : list Z) :
    res (list Z * Z) :=
  let tm := if opcode =? nvme_cmd_write then write_timing cf
            else if opcode =? nvme_cmd_read then read_timing cf
            else IoTiming 0 0 0 in
  schedule_units cf tm lba length nsecs_start stat.

Definition __schedule_flush (cf : nvmev_config) (stat : list Z) : res Z :=
  rfold (fun i latest => t ← aget stat i; Ok (Z.max latest t)) (zrange 0 cf.(cf_nr_io_units)) 0.

(** [(cmd->length + 1) << LBA_BITS], then cut to [unsigned int] by the call. *)
Definition __cmd_io_size (length : Z) : Z := u64 (s32 (Z.shiftl (length + 1) UNIT_LBA_BITS)).

(** ** The simple namespace *)

Module Simple.

(** [nvmev_vdev->io_unit_stat] and the number of clock readings so far. *)
Record unit_dev := UnitDev { ud_stat : list Z; ud_tick : nat }.

Record simple_ns := SimpleNs { sn_id : Z; sn_csi : Z; sn_size : Z; sn_mapped : Z }.

Section ns.
Context `{CK : Clock} (cf : nvmev_config).

(** [optane]: whether the build is for [INTEL_OPTANE]. *)
Definition simple_proc_nvme_io_cmd (optane : bool) (ns : simple_ns) (req : nvmev_request) (ret : nvmev_result)
    (d : unit_dev) : res (unit_dev * nvmev_result * bool) :=
  let cmd := req.(rq_cmd) in
  _ ← nvmev_assert (ns.(sn_csi) =? NVME_CSI_NVM);
  _ ← nvmev_assert optane;
  if (cmd.(rw_opcode) =? nvme_cmd_write) || (cmd.(rw_opcode) =? nvme_cmd_read) then
    '(stat, t) ← __schedule_io_units cf cmd.(rw_opcode) cmd.(rw_slba) (u32 (__cmd_io_size cmd.(rw_length)))
                   (cpu_clock d.(ud_tick)) d.(ud_stat);
    Ok (UnitDev stat (S d.(ud_tick)), Result ret.(rs_status) t, true)
  else if cmd.(rw_opcode) =? nvme_cmd_flush then
    t ← __schedule_flush cf d.(ud_stat);
    Ok (d, Result ret.(rs_status) t, true)
  else Ok (d, ret, true).
End ns.

Definition simple_init_namespace (id size mapped_addr : Z) : simple_ns :=
  SimpleNs id NVME_CSI_NVM size mapped_addr.

Definition simple_remove_namespace (ns : simple_ns) : simple_ns := ns.

End Simple.

(** ** What a schedule does

    A command of [length] bytes is cut into chunks of a unit's size, at least
    one, that visit the units round robin from that of its address. *)

Definition unit_size (cf : nvmev_config) : Z := 2 ^ cf.(cf_io_unit_shift).
Definition unit_chunks (cf : nvmev_config) (length : Z) : Z := Z.max 1 (DIV_ROUND_UP length (unit_size cf)).
Definition first_unit (cf : nvmev_config) (lba : Z) : Z :=
  (lba `div` 2 ^ (cf.(cf_io_unit_shift) - UNIT_LBA_BITS)) `mod` cf.(cf_nr_io_units).
Definition nth_unit (cf : nvmev_config) (lba k : Z) : Z := (first_unit cf lba + k) `mod` cf.(cf_nr_io_units).

(** When the chunk [k] is done, and until when it keeps its unit: only the first
    round over the units has the trailing time. *)
Definition chunk_done (tm : io_timing) (base k : Z) : Z := base + (k + 1) * tm.(it_latency).
Definition unit_busy (cf : nvmev_config) (tm : io_timing) (base length k : Z) : Z :=
  chunk_done tm base k +
  (if k <? Z.min cf.(cf_nr_io_units) (DIV_ROUND_UP length (unit_size cf)) then tm.(it_trailing) else 0).

Record timing_ok (tm : io_timing) : Prop := {
  tk_delay : 0 <= tm.(it_delay) < 4294967296;
  tk_latency : 0 <= tm.(it_latency) < 4294967296;
  tk_trailing : 0 <= tm.(it_trailing) < 4294967296
}.

Record units_ok (cf : nvmev_config) : Prop := {
  uo_units : 0 < cf.(cf_nr_io_units) < 2147483648;
  uo_shift : UNIT_LBA_BITS <= cf.(cf_io_unit_shift) < 31
}.

(** The units after the first [k] chunks: a unit holds what its last visit left. *)
Definition visited (cf : nvmev_config) (tm : io_timing) (base lba length k : Z) (stat stat' : list Z) : Prop :=
  zlen stat' = zlen stat /\
  (forall i, 0 <= i < k -> k <= i + cf.(cf_nr_io_units) ->
     stat' !! nth_unit cf lba i = Some (unit_busy cf tm base length i)) /\
  (forall j, (forall i, 0 <= i < k -> j <> nth_unit cf lba i) -> stat' !! j = stat !! j).

Section schedule.
Context (cf : nvmev_config) (tm : io_timing) (Hcf : units_ok cf) (Htm : timing_ok tm).

Let U := cf.(cf_nr_io_units).
Let size := unit_size cf.

Lemma unit_size_range : 512 <= size <= 1073741824.
Proof using Hcf.
  clear Htm. unfold size, unit_size. destruct (uo_shift _ Hcf) as [H1 H2]. unfold UNIT_LBA_BITS in H1.
  split; [change 512 with (2 ^ 9)|change 1073741824 with (2 ^ 30)]; apply Z.pow_le_mono_r; lia.
Qed.

Lemma nth_unit_range lba k : 0 <= nth_unit cf lba k < U.
Proof using Hcf. apply Z.mod_pos_bound, Hcf. Qed.

(** The unit counter of the loop is the unit of the next chunk. *)
Lemma nth_unit_succ lba k :
  (if U <=? nth_unit cf lba k + 1 then 0 else nth_unit cf lba k + 1) = nth_unit cf lba (k + 1).
Proof using Hcf.
  clear Htm. pose proof (nth_unit_range lba k). pose proof (uo_units _ Hcf). fold U in H0.
  unfold nth_unit in *. fold U in H |- *. rewrite (Z.add_assoc _ k 1).
  rewrite <- (Zplus_mod_idemp_l (first_unit cf lba + k) 1 U).
  destruct (U <=? _) eqn:E; [apply Z.leb_le in E|apply Z.leb_gt in E].
  - replace ((first_unit cf lba + k) `mod` U + 1) with U by lia. by rewrite Z.mod_same by lia.
  - by rewrite (Z.mod_small (_ + 1)) by lia.
Qed.

(** Two chunks closer than a round fall in different units. *)
Lemma nth_unit_ne lba i k : i < k < i + U -> nth_unit cf lba i <> nth_unit cf lba k.
Proof using Hcf.
  clear Htm. intros Hik E. pose proof (uo_units _ Hcf). fold U in H. unfold nth_unit in E. fold U in E.
  pose proof (Z.div_mod (first_unit cf lba + i) U ltac:(lia)). pose proof (Z.div_mod (first_unit cf lba + k) U ltac:(lia)).
  rewrite E in H0. assert (U * ((first_unit cf lba + k) `div` U - (first_unit cf lba + i) `div` U) = k - i) by lia.
  set (q := _ - _) in H2. assert (0 < q) by nia. nia.
Qed.

Context (base lba length : Z) (stat : list Z).
Context (Hlen : 0 <= length /\ length + size < 4294967296) (Hstat : zlen stat = U).
Context (Hbase : 0 <= base < 2 ^ 62).

Let nr := Z.min U (DIV_ROUND_UP length size).
Let n := unit_chunks cf length.

Lemma chunks_range : 0 <= DIV_ROUND_UP length size /\ 1 <= n <= 8388608 /\ (n - 1) * size <= length <= n * size /\
  (0 < length -> (n - 1) * size < length).
Proof using Hcf Hlen.
  clear Hstat Hbase Htm. pose proof unit_size_range. pose proof (DIV_ROUND_UP_spec length size ltac:(lia) ltac:(lia)).
  unfold n, unit_chunks. fold size. set (q := DIV_ROUND_UP length size) in *. assert (0 <= q) by nia.
  assert (q <= 8388608) by nia. destruct (decide (q <= 0)); [replace q with 0 in * by lia|replace (Z.max 1 q) with q by lia]; nia.
Qed.

Definition unit_at (k : Z) (s : unit_state) : Prop :=
  0 <= k < n /\ visited cf tm base lba length k stat s.(us_stat) /\ s.(us_latest) = base + k * tm.(it_latency) /\
  s.(us_nr) = nr - k /\ s.(us_length) = length - k * size /\ s.(us_unit) = nth_unit cf lba k.

Lemma visited_step k stat' v :
  0 <= k -> visited cf tm base lba length k stat stat' -> v = unit_busy cf tm base length k ->
  visited cf tm base lba length (k + 1) stat (<[nth_unit cf lba k := v]> stat').
Proof using Hcf Hstat.
  clear Htm Hlen Hbase. intros Hk (Hl & Hv & Hu) ->. pose proof (nth_unit_range lba k).
  split; [by rewrite zlen_zinsert|]. split.
  - intros i Hi1 Hi2. destruct (decide (i = k)) as [->|Hne].
    + apply zlookup_zinsert_eq. lia.
    + rewrite zlookup_zinsert_ne by (apply not_eq_sym, nth_unit_ne; unfold U; lia). apply Hv; lia.
  - intros j Hj. rewrite zlookup_zinsert_ne by (apply not_eq_sym, Hj; lia). apply Hu. intros i Hi. apply Hj. lia.
Qed.

Lemma unit_step_ok k s :
  unit_at k s ->
  okp (unit_step cf tm size s) (fun r =>
    match r with
    | inl s' => unit_at (k + 1) s'
    | inr (stat', t) => k + 1 = n /\ visited cf tm base lba length n stat stat' /\ t = base + n * tm.(it_latency)
    end).
Proof using Hcf Htm Hlen Hstat Hbase.
  intros (Hk & Hv & Hl & Hnr & Hln & Hu). pose proof unit_size_range. destruct chunks_range as (Hq & Hn & Hb & Hb').
  destruct Htm as [_ Hlat Htr]. pose proof (nth_unit_range lba k) as Hr. pose proof (uo_units _ Hcf) as HU. fold U in HU.
  assert (0 <= k * it_latency tm <= 8388608 * 4294967296) by nia. change (2 ^ 62) with 4611686018427387904 in Hbase.
  pose proof Hv as (Hvl & _). unfold unit_step. cbv zeta. rewrite Hl, Hnr, Hln, Hu. unwrap.
  rewrite aset_Some by lia. rewrite bind_Ok. fold U. rewrite nth_unit_succ.
  replace (base + k * it_latency tm + it_latency tm) with (chunk_done tm base k) by (unfold chunk_done; lia).
  assert ((if 0 <? nr - k then aset (<[nth_unit cf lba k := chunk_done tm base k]> (us_stat s)) (nth_unit cf lba k)
      (chunk_done tm base k + it_trailing tm) else Ok (<[nth_unit cf lba k := chunk_done tm base k]> (us_stat s))) =
    Ok (<[nth_unit cf lba k := unit_busy cf tm base length k]> (us_stat s))) as ->.
  { unfold unit_busy. fold U size nr. destruct (0 <? nr - k) eqn:E; [apply Z.ltb_lt in E|apply Z.ltb_ge in E].
    - rewrite (proj2 (Z.ltb_lt k nr)), aset_Some by (rewrite ?zlen_zinsert; lia). 
      rewrite !zinsert_to_nat by lia. by rewrite list_insert_insert_eq.
    - rewrite (proj2 (Z.ltb_ge k nr)) by lia. by rewrite Z.add_0_r. }
  rewrite bind_Ok. assert (visited cf tm base lba length (k + 1) stat
    (<[nth_unit cf lba k := unit_busy cf tm base length k]> (us_stat s))) as Hv' by (apply visited_step; [lia|done|done]).
  simpl. destruct (0 <? _) eqn:E; [apply Z.ltb_lt in E|apply Z.ltb_ge in E].
  - assert (k + 1 < n) by nia. split; [lia|]. split; [done|]. simpl.
    unfold chunk_done. split; [lia|]. split; [lia|]. split; [lia|done].
  - assert (k + 1 = n) as En. { destruct (decide (length = 0)); nia. }
    split; [done|]. rewrite <- En. split; [done|]. unfold chunk_done. lia.
Qed.

Lemma unit_loop_ok :
  okp (rloop (S (Z.to_nat length)) (unit_step cf tm size) (UnitState stat base nr length (nth_unit cf lba 0)))
    (fun '(stat', t) => visited cf tm base lba length n stat stat' /\ t = base + n * tm.(it_latency)).
Proof using Hcf Htm Hlen Hstat Hbase.
  pose proof unit_size_range. destruct chunks_range as (Hq & Hn & Hb & Hb').
  apply (rloop_inv _ (fun s => exists k, unit_at k s) (fun s => Z.max 0 s.(us_length))).
  - intros s _. lia.
  - intros s [k Hs]. eapply okp_mono; [by apply unit_step_ok|]. intros [s'|[stat' t]]; [|tauto].
    intros Hs'. split; [by exists (k + 1)|]. destruct Hs as (? & _ & _ & _ & -> & _).
    destruct Hs' as (? & _ & _ & _ & -> & _). nia.
  - exists 0. split; [lia|]. split; [split; [done|]; split; [lia|done]|]. simpl. repeat split; lia.
  - simpl. lia.
Qed.
End schedule.

(** The schedule of a command: its completion, and every unit's new state. *)
Lemma schedule_units_ok cf tm lba length start stat :
  units_ok cf -> timing_ok tm -> 0 <= lba < 18446744073709551616 -> 0 <= length -> length + unit_size cf < 4294967296 ->
  zlen stat = cf.(cf_nr_io_units) -> 0 <= start < 2 ^ 61 ->
  (forall t, stat !! first_unit cf lba = Some t -> 0 <= t < 2 ^ 61) ->
  okp (schedule_units cf tm lba length start stat) (fun '(stat', t) => exists busy,
    stat !! first_unit cf lba = Some busy /\
    let base := Z.max start busy + tm.(it_delay) in
    t = base + unit_chunks cf length * tm.(it_latency) /\
    visited cf tm base lba length (unit_chunks cf length) stat stat').
Proof.
  intros Hcf Htm Hlba Hlen Hls Hst Hs Hb. pose proof (unit_size_range cf Hcf) as Hsz.
  pose proof (uo_units _ Hcf) as HU. pose proof (uo_shift _ Hcf) as [Hsh1 Hsh2]. unfold UNIT_LBA_BITS in Hsh1.
  unfold schedule_units, shr64, UNIT_LBA_BITS. cbv zeta. rewrite (u32_small (cf_io_unit_shift cf - 9)) by lia.
  rewrite (proj2 (Z.ltb_lt _ _)) by lia. rewrite bind_Ok, Z.shiftr_div_pow2 by lia.
  rewrite Z.shiftl_mul_pow2, Z.mul_1_l by lia. fold (unit_size cf). unwrap.
  rewrite cmod_ok, bind_Ok by lia. fold UNIT_LBA_BITS. fold (first_unit cf lba).
  rewrite cdiv_ok, bind_Ok by lia. fold (DIV_ROUND_UP length (unit_size cf)).
  pose proof (Z.mod_pos_bound (lba `div` 2 ^ (cf_io_unit_shift cf - UNIT_LBA_BITS)) (cf_nr_io_units cf) ltac:(lia)) as Hf.
  fold (first_unit cf lba) in Hf. destruct (zlookup_lt stat (first_unit cf lba)) as [busy Eb]; [lia|].
  specialize (Hb _ Eb). rewrite (aget_Some _ _ _ Eb), bind_Ok. destruct (tk_delay _ Htm).
  change (2 ^ 61) with 2305843009213693952 in *. unwrap.
  destruct (DIV_ROUND_UP_spec length (unit_size cf)) as [? ?]; [lia|done|].
  assert (0 <= DIV_ROUND_UP length (unit_size cf)) by nia. rewrite s32_small by lia.
  assert (first_unit cf lba = nth_unit cf lba 0) as Ef.
  { unfold nth_unit. rewrite Z.add_0_r. symmetry. apply Z.mod_small. lia. }
  rewrite Ef at 1. eapply okp_mono; [apply (unit_loop_ok cf tm Hcf Htm); [lia|done|change (2 ^ 62) with 4611686018427387904; lia]|].
  intros [stat' t] [Hv ->]. by exists busy.
Qed.

Lemma schedule_flush_ok cf stat :
  zlen stat = cf.(cf_nr_io_units) ->
  okp (__schedule_flush cf stat) (fun t => 0 <= t /\ (forall i x, stat !! i = Some x -> x <= t) /\
    (t = 0 \/ exists i, stat !! i = Some t)).
Proof.
  intros Hl. pose proof (zlen_nonneg stat). unfold __schedule_flush.
  eapply okp_mono; [apply (rfold_range _ (fun k t => 0 <= t /\ (forall i x, i < k -> stat !! i = Some x -> x <= t) /\
    (t = 0 \/ exists i, stat !! i = Some t)) 0); [lia| |]|].
  - split; [done|]. split; [|by left]. intros i x Hi Hx. apply zlookup_Some_range in Hx. lia.
  - intros i t Hi (H0 & H1 & H2). apply okp_bind, aget_okp; [lia|]. intros x Hx. simpl. split; [lia|]. split.
    + intros j y Hj Hy. destruct (decide (j = i)) as [->|]; [rewrite Hx in Hy; simplify_eq; lia|].
      specialize (H1 j y ltac:(lia) Hy). lia.
    + destruct (Z.max_spec t x) as [[? ->]|[? ->]]; [right; by exists i|done].
  - intros t (H0 & H1 & H2). split; [done|]. split; [|done]. intros i x Hx. apply (H1 i); [|done].
    apply zlookup_Some_range in Hx. lia.
Qed.
