(* ===== verification/IoQueue.v ===== *)
(** * The work queues of the I/O workers (io.c)

    The dispatcher hands a request to a worker through a table of
    [NR_MAX_PARALLEL_IO] entries that is never reallocated: the entries in use form
    a list sorted by target time and the others a free list, both chained through
    the indices [next] and [prev] of the entries.  [-1] ends a list.

    The definitions come first, then the invariant of a table and what each
    operation does to the two lists; IoRun.v has the runs that interleave the
    dispatcher and the worker. *)

From stdpp Require Import prelude list.
From Stdlib Require Import ZArith Lia.
From S2P Require Import Prelude Mem.

Class QueueConfig := {
  NR_MAX_PARALLEL_IO : Z;
  nr_parallel_ok : 1 < NR_MAX_PARALLEL_IO < 4294967295
}.

#[export, refine] Instance nvmev_queue : QueueConfig := {| NR_MAX_PARALLEL_IO := 16384 |}.
Proof. done. Defined.

(** [(unsigned int)-1]. *)
Definition NO_ENTRY : Z := 4294967295.

Record io_work := IoWork {
  iw_sqid : Z; iw_cqid : Z; iw_sq_entry : Z; iw_command_id : Z;
  iw_nsecs_start : Z; iw_nsecs_target : Z; iw_nsecs_enqueue : Z;
  iw_is_copied : bool; iw_is_completed : bool;
  iw_status : Z; iw_result0 : Z; iw_result1 : Z;
  iw_is_internal : bool; iw_write_buffer : option Z; iw_buffs_to_release : Z;
  iw_next : Z; iw_prev : Z
}.

Record io_worker := IoWorker {
  wk_work_queue : list io_work;
  wk_free_seq : Z; wk_free_seq_end : Z; wk_io_seq : Z; wk_io_seq_end : Z;
  wk_latest_nsecs : Z; wk_id : Z
}.

Definition with_links (next prev : Z) (w : io_work) : io_work :=
  IoWork w.(iw_sqid) w.(iw_cqid) w.(iw_sq_entry) w.(iw_command_id) w.(iw_nsecs_start) w.(iw_nsecs_target)
    w.(iw_nsecs_enqueue) w.(iw_is_copied) w.(iw_is_completed) w.(iw_status) w.(iw_result0) w.(iw_result1)
    w.(iw_is_internal) w.(iw_write_buffer) w.(iw_buffs_to_release) next prev.
Definition with_next (next : Z) (w : io_work) : io_work := with_links next w.(iw_prev) w.
Definition with_prev (prev : Z) (w : io_work) : io_work := with_links w.(iw_next) prev w.
Definition with_flags (copied completed : bool) (w : io_work) : io_work :=
  IoWork w.(iw_sqid) w.(iw_cqid) w.(iw_sq_entry) w.(iw_command_id) w.(iw_nsecs_start) w.(iw_nsecs_target)
    w.(iw_nsecs_enqueue) copied completed w.(iw_status) w.(iw_result0) w.(iw_result1)
    w.(iw_is_internal) w.(iw_write_buffer) w.(iw_buffs_to_release) w.(iw_next) w.(iw_prev).
Definition with_answer (status result0 : Z) (w : io_work) : io_work :=
  IoWork w.(iw_sqid) w.(iw_cqid) w.(iw_sq_entry) w.(iw_command_id) w.(iw_nsecs_start) w.(iw_nsecs_target)
    w.(iw_nsecs_enqueue) w.(iw_is_copied) w.(iw_is_completed) status result0 w.(iw_result1)
    w.(iw_is_internal) w.(iw_write_buffer) w.(iw_buffs_to_release) w.(iw_next) w.(iw_prev).

Definition with_queue (wq : list io_work) (k : io_worker) : io_worker :=
  IoWorker wq k.(wk_free_seq) k.(wk_free_seq_end) k.(wk_io_seq) k.(wk_io_seq_end) k.(wk_latest_nsecs) k.(wk_id).
Definition with_free (first last : Z) (k : io_worker) : io_worker :=
  IoWorker k.(wk_work_queue) first last k.(wk_io_seq) k.(wk_io_seq_end) k.(wk_latest_nsecs) k.(wk_id).
Definition with_io (first last : Z) (k : io_worker) : io_worker :=
  IoWorker k.(wk_work_queue) k.(wk_free_seq) k.(wk_free_seq_end) first last k.(wk_latest_nsecs) k.(wk_id).
Definition with_latest (nsecs : Z) (k : io_worker) : io_worker :=
  IoWorker k.(wk_work_queue) k.(wk_free_seq) k.(wk_free_seq_end) k.(wk_io_seq) k.(wk_io_seq_end) nsecs k.(wk_id).

(** [worker->work_queue[e]] and an update of it in place. *)
Definition get_work (k : io_worker) (e : Z) : res io_work := aget k.(wk_work_queue) e.
Definition upd_work (e : Z) (f : io_work -> io_work) (k : io_worker) : res io_worker :=
  wq ← amod k.(wk_work_queue) e (fun w => Ok (f w)); Ok (with_queue wq k).

(** ** Insertion *)

(** The search for the entry to insert after, backwards from the end. *)
Definition insert_step (k : io_worker) (nsecs_target : Z) (curr : Z) : res (Z + Z) :=
  if curr =? NO_ENTRY then Ok (inr curr) else
  w ← get_work k curr;
  if w.(iw_nsecs_target) <=? k.(wk_latest_nsecs) then Ok (inr curr)
  else if w.(iw_nsecs_target) <=? nsecs_target then Ok (inr curr)
  else Ok (inl w.(iw_prev)).

Definition __insert_req_sorted (entry : Z) (k : io_worker) (nsecs_target : Z) : res io_worker :=
  if k.(wk_io_seq) =? NO_ENTRY then Ok (with_io entry entry k) else
  curr ← rloop (S (length k.(wk_work_queue))) (insert_step k nsecs_target) k.(wk_io_seq_end);
  if curr =? NO_ENTRY then
    k ← upd_work k.(wk_io_seq) (with_prev entry) k;
    k ← upd_work entry (with_next k.(wk_io_seq)) k;
    Ok (with_io entry k.(wk_io_seq_end) k)
  else
    w ← get_work k curr;
    if w.(iw_next) =? NO_ENTRY then
      k ← upd_work entry (with_prev curr) k;
      upd_work curr (with_next entry) (with_io k.(wk_io_seq) entry k)
    else
      k ← upd_work entry (with_prev curr) k;
      w ← get_work k curr;
      k ← upd_work entry (with_next w.(iw_next)) k;
      w ← get_work k entry;
      k ← upd_work w.(iw_next) (with_prev entry) k;
      upd_work curr (with_next entry) k.

(** ** Allocation

    The part of the allocation that concerns the worker: [None] when the head of
    the free list is its last entry, which is then kept. *)
Definition allocate_entry `{QueueConfig} (k : io_worker) : res (option (io_worker * Z)) :=
  let e := k.(wk_free_seq) in
  w ← get_work k e;
  if NR_MAX_PARALLEL_IO <=? w.(iw_next) then Ok None else
  _ ← nvmev_assert (negb (NR_MAX_PARALLEL_IO <=? w.(iw_next)));
  Ok (Some (with_free w.(iw_next) k.(wk_free_seq_end) k, e)).

(** ** Reclaiming *)

(** The scan for the last entry of the done prefix; its state is [curr] and
    [last_entry]. *)
Definition reclaim_step (k : io_worker) (s : Z * Z) : res (Z * Z + Z) :=
  let '(curr, last_entry) := s in
  if curr =? NO_ENTRY then Ok (inr last_entry) else
  w ← get_work k curr;
  if w.(iw_is_completed) && w.(iw_is_copied) && (w.(iw_nsecs_target) <=? k.(wk_latest_nsecs))
  then Ok (inl (w.(iw_next), curr)) else Ok (inr last_entry).

Definition reclaim_worker (k : io_worker) : res io_worker :=
  let first_entry := k.(wk_io_seq) in
  last_entry ← rloop (S (S (length k.(wk_work_queue)))) (reclaim_step k) (first_entry, NO_ENTRY);
  if last_entry =? NO_ENTRY then Ok k else
  w ← get_work k last_entry;
  let k := with_io w.(iw_next) k.(wk_io_seq_end) k in
  k ← (if w.(iw_next) =? NO_ENTRY then Ok k else upd_work w.(iw_next) (with_prev NO_ENTRY) k);
  k ← upd_work last_entry (with_next NO_ENTRY) k;
  k ← upd_work first_entry (with_prev k.(wk_free_seq_end)) k;
  k ← upd_work k.(wk_free_seq_end) (with_next first_entry) k;
  Ok (with_free k.(wk_free_seq) last_entry k).

(** ** Initialisation *)

Definition zero_work : io_work := IoWork 0 0 0 0 0 0 0 false false 0 0 0 false None 0 0 0.

Definition init_worker `{QueueConfig} (id : Z) : res io_worker :=
  let wq := (fun i => with_links (u32 (i + 1)) (u32 (i - 1)) zero_work) <$> zrange 0 NR_MAX_PARALLEL_IO in
  wq ← amod wq (NR_MAX_PARALLEL_IO - 1) (fun w => Ok (with_next NO_ENTRY w));
  Ok (IoWorker wq 0 (NR_MAX_PARALLEL_IO - 1) NO_ENTRY NO_ENTRY 0 id).
