(* ===== verification/IoInv.v ===== *)
(** * The two lists of a work queue

    [queue_ok k fl il]: the entries of the worker [k] are split into the free list
    [fl] and the list [il] of the requests, both chained as the program walks
    them.  Each operation on a queue is described by what it does to the lists;
    the fields of a request are touched only where its entry is filled or its
    flags are set. *)

From stdpp Require Import prelude list sorting.
From Stdlib Require Import ZArith Lia.
From S2P Require Import Prelude Mem IoQueue.

(** ** Chains *)

Notation first_of l := (List.hd NO_ENTRY l).
Notation last_of l := (List.last l NO_ENTRY).

(** The links of a list of indices, forwards and backwards. *)
Fixpoint fwd (nx : Z -> Z) (l : list Z) (stop : Z) : Prop :=
  match l with [] => True | a :: l => nx a = List.hd stop l /\ fwd nx l stop end.
Fixpoint bwd (pv : Z -> Z) (start : Z) (l : list Z) : Prop :=
  match l with [] => True | a :: l => pv a = start /\ bwd pv a l end.

Lemma last_of_snoc (l : list Z) a d : List.last (l ++ [a]) d = a.
Proof. apply List.last_last. Qed.

Lemma last_cons_app (l : list Z) a l' d : List.last (l ++ a :: l') d = List.last l' a.
Proof.
  induction l' as [|b l' _] using rev_ind; [apply last_of_snoc|].
  by rewrite app_comm_cons, app_assoc, !last_of_snoc.
Qed.

Lemma fwd_app nx l1 l2 s : fwd nx (l1 ++ l2) s <-> fwd nx l1 (List.hd s l2) /\ fwd nx l2 s.
Proof.
  induction l1 as [|a l1 IH]; simpl; [tauto|]. rewrite IH.
  destruct l1; simpl; tauto.
Qed.

Lemma bwd_app pv s l1 l2 : bwd pv s (l1 ++ l2) <-> bwd pv s l1 /\ bwd pv (List.last l1 s) l2.
Proof.
  revert s. induction l1 as [|a l1 IH]; intros s; [simpl; tauto|].
  cbn [app bwd]. rewrite IH, (last_cons_app [] a l1 s : List.last (a :: l1) s = _). tauto.
Qed.

Lemma fwd_ext nx nx' l s : (forall a, a ∈ l -> nx' a = nx a) -> fwd nx l s -> fwd nx' l s.
Proof.
  induction l as [|a l IH]; simpl; intros Hx; [done|]. intros [H1 H2].
  rewrite Hx by set_solver. split; [done|]. apply IH; [set_solver|done].
Qed.

Lemma bwd_ext pv pv' s l : (forall a, a ∈ l -> pv' a = pv a) -> bwd pv s l -> bwd pv' s l.
Proof.
  revert s. induction l as [|a l IH]; simpl; intros s Hx; [done|]. intros [H1 H2].
  rewrite Hx by set_solver. split; [done|]. apply IH; [set_solver|done].
Qed.

(** A link to the middle of a list, and to its end. *)
Lemma fwd_at nx pre a post s : fwd nx (pre ++ a :: post) s -> nx a = List.hd s post.
Proof. rewrite fwd_app. simpl. tauto. Qed.

Lemma bwd_at pv s pre a post : bwd pv s (pre ++ a :: post) -> pv a = List.last pre s.
Proof. rewrite bwd_app. simpl. tauto. Qed.

(** [e] linked between [pre] and [post]: the links that change. *)
Record linked_in (nx pv nx' pv' : Z -> Z) (pre : list Z) (e : Z) (post : list Z) : Prop := {
  li_next : nx' e = first_of post;
  li_prev : pv' e = last_of pre;
  li_before c : last pre = Some c -> nx' c = e;
  li_after c : hd_error post = Some c -> pv' c = e;
  li_nx a : a <> e -> last pre <> Some a -> nx' a = nx a;
  li_pv a : a <> e -> hd_error post <> Some a -> pv' a = pv a
}.

Lemma fwd_linked nx pv nx' pv' pre e post :
  linked_in nx pv nx' pv' pre e post -> NoDup (pre ++ e :: post) ->
  fwd nx (pre ++ post) NO_ENTRY -> fwd nx' (pre ++ e :: post) NO_ENTRY.
Proof.
  intros [H1 H2 H3 H4 H5 H6] Hnd. rewrite !fwd_app. simpl. intros [Hf1 Hf2].
  apply NoDup_app in Hnd as (Hn1 & Hd & Hn2). apply NoDup_cons in Hn2 as [Hn2 Hn3].
  split; [|split; [done|]].
  - destruct pre as [|c pre _] using rev_ind; [done|]. rewrite fwd_app in Hf1 |- *. destruct Hf1 as [Hf1 _].
    split; [|split; [apply H3, last_snoc|done]].
    apply NoDup_app in Hn1 as (_ & Hd1 & _). apply (fwd_ext nx); [|done].
    intros a Ha. apply H5; [set_solver|]. rewrite last_snoc. set_solver.
  - apply (fwd_ext nx); [|done]. intros a Ha. apply H5; [set_solver|].
    intros E%last_Some_elem_of. set_solver.
Qed.

Lemma bwd_linked nx pv nx' pv' pre e post :
  linked_in nx pv nx' pv' pre e post -> NoDup (pre ++ e :: post) ->
  bwd pv NO_ENTRY (pre ++ post) -> bwd pv' NO_ENTRY (pre ++ e :: post).
Proof.
  intros [H1 H2 H3 H4 H5 H6] Hnd. rewrite !bwd_app. simpl. intros [Hb1 Hb2].
  apply NoDup_app in Hnd as (Hn1 & Hd & Hn2). apply NoDup_cons in Hn2 as [Hn2 Hn3].
  split; [|split; [done|]].
  - apply (bwd_ext pv); [|done]. intros a Ha. apply H6; [set_solver|].
    intros E%head_Some_elem_of. set_solver.
  - destruct post as [|c post]; [done|]. simpl in *. destruct Hb2 as [_ Hb2]. split; [by apply H4|].
    apply NoDup_cons in Hn3 as [Hn3 _]. apply (bwd_ext pv); [|done].
    intros a Ha. apply H6; [set_solver|]. intros [= ->]. done.
Qed.

(** ** A queue and its two lists *)

Definition workq (wq : list io_work) (e : Z) : io_work := default zero_work (wq !! e).
Definition work (k : io_worker) (e : Z) : io_work := workq k.(wk_work_queue) e.
Definition nx (k : io_worker) (e : Z) : Z := (work k e).(iw_next).
Definition pv (k : io_worker) (e : Z) : Z := (work k e).(iw_prev).
Definition tgt (k : io_worker) (e : Z) : Z := (work k e).(iw_nsecs_target).

(** The fields of a request without the links of its entry. *)
Definition fields (k : io_worker) (e : Z) : io_work := with_links 0 0 (work k e).

(** [a] may stand before [b]: it is due, or not later. *)
Definition before (k : io_worker) (a b : Z) : Prop := tgt k a <= k.(wk_latest_nsecs) \/ tgt k a <= tgt k b.
Definition late (k : io_worker) (t : Z) (e : Z) : Prop := k.(wk_latest_nsecs) < tgt k e /\ t < tgt k e.

Definition completed (k : io_worker) (e : Z) : bool := (work k e).(iw_is_completed).
Definition copied (k : io_worker) (e : Z) : bool := (work k e).(iw_is_copied).

Section queue.
Context `{QC : QueueConfig}.

Record queue_ok (k : io_worker) (fl il : list Z) : Prop := {
  qo_len : zlen k.(wk_work_queue) = NR_MAX_PARALLEL_IO;
  qo_perm : fl ++ il ≡ₚ zrange 0 NR_MAX_PARALLEL_IO;
  qo_some : fl <> [];
  qo_free_first : k.(wk_free_seq) = first_of fl;
  qo_free_last : k.(wk_free_seq_end) = last_of fl;
  qo_free_next : fwd (nx k) fl NO_ENTRY;
  qo_io_first : k.(wk_io_seq) = first_of il;
  qo_io_last : il <> [] -> k.(wk_io_seq_end) = last_of il;
  qo_io_next : fwd (nx k) il NO_ENTRY;
  qo_io_prev : bwd (pv k) NO_ENTRY il;
  qo_sorted : StronglySorted (before k) il;
  qo_copied e : e ∈ il -> completed k e = true -> copied k e = true;
  qo_used : StronglySorted (fun a b => completed k a = true -> completed k b = true) fl
}.

Lemma entry_range k fl il e : queue_ok k fl il -> e ∈ fl ++ il -> 0 <= e < NR_MAX_PARALLEL_IO.
Proof using. intros Hq He. apply elem_of_zrange. by rewrite <- (qo_perm _ _ _ Hq). Qed.

Lemma valid_entry a : 0 <= a < NR_MAX_PARALLEL_IO -> (a =? NO_ENTRY) = false.
Proof using. intros Ha. apply Z.eqb_neq. pose proof nr_parallel_ok. unfold NO_ENTRY. lia. Qed.

Lemma entries_NoDup k fl il : queue_ok k fl il -> NoDup (fl ++ il).
Proof using. intros Hq. rewrite (qo_perm _ _ _ Hq). apply NoDup_zrange. Qed.

Lemma work_lookup k e : 0 <= e < zlen k.(wk_work_queue) -> k.(wk_work_queue) !! e = Some (work k e).
Proof using. intros He. unfold work, workq. destruct (zlookup_lt _ _ He) as [w ->]. done. Qed.

Lemma get_work_ok k e : 0 <= e < zlen k.(wk_work_queue) -> get_work k e = Ok (work k e).
Proof using. intros He. unfold get_work. by rewrite (aget_Some _ _ _ (work_lookup _ _ He)). Qed.

(** An update of one entry. *)
Lemma upd_work_okp e f k (Q : io_worker -> Prop) :
  0 <= e < zlen k.(wk_work_queue) ->
  (forall wq', zlen wq' = zlen k.(wk_work_queue) ->
     (forall a, workq wq' a = if decide (a = e) then f (work k a) else work k a) -> Q (with_queue wq' k)) ->
  okp (upd_work e f k) Q.
Proof using.
  intros He HQ. unfold upd_work, amod. rewrite (aget_Some _ _ _ (work_lookup _ _ He)), !bind_Ok. apply HQ; [apply zlen_zinsert|].
  intros a. unfold work, workq at 1. rewrite zlookup_zinsert by done.
  destruct (decide (e = a)), (decide (a = e)); by subst.
Qed.

(** What an operation on the links leaves alone. *)
Record same_requests (k k' : io_worker) : Prop := {
  sr_len : zlen k'.(wk_work_queue) = zlen k.(wk_work_queue);
  sr_fields a : fields k' a = fields k a;
  sr_latest : k'.(wk_latest_nsecs) = k.(wk_latest_nsecs);
  sr_id : k'.(wk_id) = k.(wk_id)
}.

Lemma same_requests_tgt k k' a : same_requests k k' -> tgt k' a = tgt k a.
Proof using. intros H. exact (f_equal iw_nsecs_target (sr_fields _ _ H a)). Qed.
Lemma same_requests_completed k k' a : same_requests k k' -> completed k' a = completed k a.
Proof using. intros H. exact (f_equal iw_is_completed (sr_fields _ _ H a)). Qed.
Lemma same_requests_copied k k' a : same_requests k k' -> copied k' a = copied k a.
Proof using. intros H. exact (f_equal iw_is_copied (sr_fields _ _ H a)). Qed.

Lemma late_dec_spec k t e :
  ((tgt k e <=? k.(wk_latest_nsecs)) || (tgt k e <=? t) = false) <-> late k t e.
Proof using. unfold late. rewrite orb_false_iff, !Z.leb_gt. done. Qed.

(** The links after a sequence of updates. *)
Ltac links :=
  unfold nx, pv, fields, work in *; cbn [wk_work_queue with_queue with_io with_free] in *; try (intros *);
  repeat match goal with W : forall a, workq ?q a = _ |- context [workq ?q _] => rewrite W end;
  repeat case_decide; simpl; try (reflexivity || congruence).

(** ** Insertion *)

Section insertion.
Context (k : io_worker) (e t : Z) (il : list Z).
Context (Hlen : zlen k.(wk_work_queue) = NR_MAX_PARALLEL_IO).
Context (Hrange : forall a, a ∈ e :: il -> 0 <= a < NR_MAX_PARALLEL_IO).

Lemma entry_ne a : a ∈ e :: il -> (a =? NO_ENTRY) = false.
Proof using Hrange. intros Ha. by apply valid_entry, Hrange. Qed.

Lemma insert_step_at c : c ∈ e :: il ->
  insert_step k t c =
  Ok (if (tgt k c <=? k.(wk_latest_nsecs)) || (tgt k c <=? t) then inr c else inl (pv k c)).
Proof using Hlen Hrange.
  intros Hc. unfold insert_step. rewrite entry_ne by done. rewrite get_work_ok by (rewrite Hlen; by apply Hrange).
  rewrite bind_Ok. unfold tgt, pv. destruct (_ <=? wk_latest_nsecs k); [done|]. by destruct (_ <=? t).
Qed.

(** The search passes over the entries that are late. *)
Lemma insert_search pre post fuel :
  il = pre ++ post -> bwd (pv k) NO_ENTRY il -> (forall b, b ∈ post -> late k t b) ->
  (length pre < fuel)%nat ->
  okp (rloop fuel (insert_step k t) (last_of pre)) (fun curr => exists pre' post',
    il = pre' ++ post' /\ (forall b, b ∈ post' -> late k t b) /\
    curr = last_of pre' /\ (forall c, last pre' = Some c -> ~ late k t c)).
Proof using Hlen Hrange.
  revert post fuel. induction pre as [|c pre IH] using rev_ind; intros post fuel Hil Hb Hlate Hf.
  { destruct fuel; [simpl in Hf; lia|]. simpl. by exists [], post. }
  rewrite length_app in Hf. simpl in Hf. destruct fuel as [|fuel]; [lia|].
  assert (c ∈ e :: il) as Hc by (rewrite Hil; set_solver).
  rewrite last_of_snoc. cbn [rloop]. rewrite insert_step_at by done. rewrite bind_Ok.
  destruct ((tgt k c <=? wk_latest_nsecs k) || (tgt k c <=? t)) eqn:E.
  - simpl. exists (pre ++ [c]), post. split; [done|]. split; [done|]. split; [by rewrite last_of_snoc|].
    intros c'. rewrite last_snoc. intros [= <-]. rewrite <- late_dec_spec. by rewrite E.
  - apply late_dec_spec in E. rewrite <- app_assoc in Hil. simpl in Hil.
    pose proof Hb as Hb'. rewrite Hil in Hb'. apply bwd_at in Hb'. rewrite Hb'.
    apply (IH (c :: post)); [done|done| |lia].
    intros b [->|Hb2]%elem_of_cons; [done|by apply Hlate].
Qed.

Context (Hnd : NoDup (e :: il)) (Hsmall : (length il <= length k.(wk_work_queue))%nat).
Context (Hnx : nx k e = NO_ENTRY) (Hpv : pv k e = NO_ENTRY).
Context (Hfirst : k.(wk_io_seq) = first_of il) (Hlast : il <> [] -> k.(wk_io_seq_end) = last_of il).
Context (Hfwd : fwd (nx k) il NO_ENTRY) (Hbwd : bwd (pv k) NO_ENTRY il).

(** [e] is linked after the last request that is not late. *)
Definition inserted (pre post : list Z) (k' : io_worker) : Prop :=
  linked_in (nx k) (pv k) (nx k') (pv k') pre e post /\ same_requests k k' /\
  k'.(wk_free_seq) = k.(wk_free_seq) /\ k'.(wk_free_seq_end) = k.(wk_free_seq_end) /\
  k'.(wk_io_seq) = first_of (pre ++ e :: post) /\ k'.(wk_io_seq_end) = last_of (pre ++ e :: post).

Lemma insert_head : il <> [] ->
  okp (k1 ← upd_work k.(wk_io_seq) (with_prev e) k;
       k2 ← upd_work e (with_next k1.(wk_io_seq)) k1;
       Ok (with_io e k2.(wk_io_seq_end) k2)) (inserted [] il).
Proof using All.
  intros Hil. destruct il as [|h q]; [done|]. clear Hil.
  apply NoDup_cons in Hnd as [Hn1 _]. assert (e <> h) as Hne by set_solver.
  okstep. apply upd_work_okp; [rewrite Hlen, Hfirst; apply Hrange; set_solver|]. intros wq1 L1 W1.
  okstep. apply upd_work_okp; [simpl; rewrite L1, Hlen; apply Hrange; set_solver|]. intros wq2 L2 W2.
  rewrite Hfirst in *. unfold inserted. simpl in *. rewrite Hlast by done.
  split; [split; links|]. split; [split; simpl in *; [congruence|links|done..]|done].
Qed.

Lemma insert_tail pre c : il = pre ++ [c] ->
  okp (k1 ← upd_work e (with_prev c) k;
       upd_work c (with_next e) (with_io k1.(wk_io_seq) e k1)) (inserted il []).
Proof using All.
  intros Hil. assert (c ∈ il) as Hc by (rewrite Hil; set_solver).
  apply NoDup_cons in Hnd as [Hn1 _]. assert (e <> c) as Hne by set_solver.
  assert (last il = Some c) as Hl by (rewrite Hil; apply last_snoc).
  assert (last_of il = c) as Hl' by (rewrite Hil; apply last_of_snoc).
  assert (nx k c = NO_ENTRY) as Hnc by (rewrite Hil in Hfwd; by apply fwd_at in Hfwd).
  okstep. apply upd_work_okp; [rewrite Hlen; apply Hrange; set_solver|]. intros wq1 L1 W1.
  apply upd_work_okp; [simpl; rewrite L1, Hlen; apply Hrange; set_solver|]. intros wq2 L2 W2.
  unfold inserted. simpl. rewrite Hfirst.
  split; [split; rewrite ?Hl; links|]. split; [split; simpl in *; [congruence|links|done..]|].
  split; [done|]. split; [done|]. rewrite last_of_snoc, Hil. by destruct pre.
Qed.

Lemma insert_between pre c h q : il = (pre ++ [c]) ++ h :: q ->
  okp (k1 ← upd_work e (with_prev c) k;
       w1 ← get_work k1 c;
       k2 ← upd_work e (with_next w1.(iw_next)) k1;
       w2 ← get_work k2 e;
       k3 ← upd_work w2.(iw_next) (with_prev e) k2;
       upd_work c (with_next e) k3) (inserted (pre ++ [c]) (h :: q)).
Proof using All.
  intros Hil. assert (c ∈ il /\ h ∈ il) as [Hc Hh] by (rewrite Hil; set_solver).
  apply NoDup_cons in Hnd as [Hn1 Hn2]. rewrite Hil in Hn2.
  assert (e <> c /\ e <> h /\ c <> h) as (Hec & Heh & Hch).
  { apply NoDup_app in Hn2 as (_ & Hn2 & _). split; [set_solver|]. split; [set_solver|].
    intros ->. apply (Hn2 h); set_solver. }
  assert (last (pre ++ [c]) = Some c) as Hl by apply last_snoc.
  assert (nx k c = h) as Hnc by (rewrite Hil, <- app_assoc in Hfwd; by apply fwd_at in Hfwd).
  assert (forall a, a ∈ e :: il -> 0 <= a < zlen k.(wk_work_queue)) as Hr by (intros a Ha; rewrite Hlen; by apply Hrange).
  okstep. apply upd_work_okp; [apply Hr; set_solver|]. intros wq1 L1 W1.
  rewrite get_work_ok by (simpl; rewrite L1; apply Hr; set_solver). rewrite bind_Ok.
  assert (iw_next (work (with_queue wq1 k) c) = h) as E1 by (revert Hnc; links). rewrite E1.
  okstep. apply upd_work_okp; [simpl; rewrite L1; apply Hr; set_solver|]. intros wq2 L2 W2.
  rewrite get_work_ok by (simpl in *; rewrite L2, L1; apply Hr; set_solver). rewrite bind_Ok.
  assert (iw_next (work (with_queue wq2 (with_queue wq1 k)) e) = h) as E2 by links. rewrite E2.
  okstep. apply upd_work_okp; [simpl in *; rewrite L2, L1; apply Hr; set_solver|]. intros wq3 L3 W3.
  apply upd_work_okp; [simpl in *; rewrite L3, L2, L1; apply Hr; set_solver|]. intros wq4 L4 W4.
  unfold inserted. simpl. rewrite Hfirst.
  split; [split; rewrite ?Hl, ?last_of_snoc; links|].
  split; [split; simpl in *; [congruence|links|done..]|].
  split; [done|]. split; [done|]. rewrite Hlast by (rewrite Hil; by destruct pre). rewrite Hil.
  split; [by destruct pre|]. rewrite !last_cons_app. exact (eq_sym (last_cons_app [] h q e)).
Qed.

Lemma insert_ok :
  okp (__insert_req_sorted e k t) (fun k' => exists pre post,
    il = pre ++ post /\ (forall b, b ∈ post -> late k t b) /\
    (forall c, last pre = Some c -> ~ late k t c) /\ inserted pre post k').
Proof using All.
  unfold __insert_req_sorted. rewrite Hfirst. destruct (decide (il = [])) as [Hil|Hil].
  { rewrite Hil. simpl. exists [], []. split; [done|]. split; [set_solver|]. split; [done|].
    split; [|split; [by split|done]]. by split. }
  assert (first_of il ∈ e :: il) as Hf by (destruct il; set_solver). rewrite entry_ne by done. rewrite Hlast by done.
  okstep. eapply okp_mono; [apply (insert_search il []); [by rewrite app_nil_r|done|set_solver|lia]|].
  intros curr (pre & post & Hpp & Hl1 & -> & Hl2).
  destruct pre as [|c pre _] using rev_ind.
  { simpl in *. subst post. eapply okp_mono; [rewrite <- Hfirst; by apply insert_head|].
    intros k' Hk'. by exists [], il. }
  rewrite last_of_snoc in *. assert (c ∈ il) as Hc by (rewrite Hpp; set_solver).
  rewrite entry_ne by set_solver. rewrite get_work_ok by (rewrite Hlen; apply Hrange; set_solver). rewrite bind_Ok.
  fold (nx k c). assert (nx k c = first_of post) as -> by (rewrite Hpp, <- app_assoc in Hfwd; by apply fwd_at in Hfwd).
  destruct post as [|h q].
  - simpl. rewrite app_nil_r in Hpp. eapply okp_mono; [by eapply insert_tail|].
    intros k' Hk'. exists il, []. rewrite app_nil_r. split; [done|]. split; [done|]. split; [by rewrite Hpp|done].
  - rewrite entry_ne by (rewrite Hpp; set_solver). eapply okp_mono; [by eapply insert_between|]. eauto 10.
Qed.
End insertion.

(** ** A request is submitted *)

Lemma StronglySorted_ext {A} (R R' : A -> A -> Prop) (l : list A) :
  (forall a b, a ∈ l -> b ∈ l -> R a b -> R' a b) -> StronglySorted R l -> StronglySorted R' l.
Proof using.
  intros H. induction 1 as [|a l Hs IH Hf]; constructor; [apply IH; intros; apply H; set_solver|].
  rewrite Forall_forall in Hf |- *. intros b Hb. apply H; [set_solver..|by apply Hf].
Qed.

Lemma before_ext k k' a b : same_requests k k' -> before k a b -> before k' a b.
Proof using. intros H. unfold before. by rewrite !(same_requests_tgt _ _ _ H), (sr_latest _ _ H). Qed.

(** The list stays sorted around the new request. *)
Lemma sorted_insert k e t pre post :
  StronglySorted (before k) (pre ++ post) -> tgt k e = t -> (forall b, b ∈ post -> late k t b) ->
  (forall c, last pre = Some c -> ~ late k t c) -> StronglySorted (before k) (pre ++ e :: post).
Proof using.
  rewrite !StronglySorted_app. intros (H1 & H2 & H3) Ht Hl Hn. split; [|split; [done|]].
  - intros a b Ha [->|Hb]%elem_of_cons; [|by apply H1].
    destruct pre as [|c pre _] using rev_ind; [set_solver|]. specialize (Hn c (last_snoc _ _)).
    assert (tgt k c <= wk_latest_nsecs k \/ tgt k c <= t) as Hc by (unfold late in Hn; lia).
    apply StronglySorted_app in H2 as (H2 & _). unfold before.
    apply elem_of_app in Ha as [Ha|[->|Ha]%elem_of_cons]; [|lia|set_solver].
    destruct (H2 a c Ha ltac:(set_solver)); lia.
  - constructor; [done|]. apply Forall_forall. intros b Hb. right. destruct (Hl b Hb). lia.
Qed.

(** A request is put in the queue: the entry is taken from the free list, [fill]
    writes its fields, and it is inserted.  Without a free entry nothing is done. *)
Definition submit (fill : io_work -> io_work) (nsecs_target : Z) (k : io_worker) : res io_worker :=
  r ← allocate_entry k;
  match r with
  | None => Ok k
  | Some (k, e) => k ← upd_work e fill k; __insert_req_sorted e k nsecs_target
  end.

Definition filled (fill : io_work -> io_work) (t : Z) : Prop :=
  forall w, iw_next (fill w) = NO_ENTRY /\ iw_prev (fill w) = NO_ENTRY /\ iw_nsecs_target (fill w) = t /\
            iw_is_completed (fill w) = false.

(** The entry [e] is taken from the head of the free list and stands after the last
    request that is not late. *)
Definition submitted (k : io_worker) (fill : io_work -> io_work) (e : Z) (fl pre post : list Z) (k' : io_worker) : Prop :=
  queue_ok k' fl (pre ++ e :: post) /\
  fields k' e = with_links 0 0 (fill (work k e)) /\ (forall a, a <> e -> fields k' a = fields k a) /\
  k'.(wk_latest_nsecs) = k.(wk_latest_nsecs) /\ k'.(wk_id) = k.(wk_id).

Lemma take_entry_ok k e e' fl il :
  queue_ok k (e :: e' :: fl) il ->
  allocate_entry k = Ok (Some (with_free e' k.(wk_free_seq_end) k, e)).
Proof using.
  intros Hq. unfold allocate_entry. rewrite (qo_free_first _ _ _ Hq). simpl.
  rewrite get_work_ok by (rewrite (qo_len _ _ _ Hq); apply (entry_range _ _ _ _ Hq); set_solver).
  pose proof (qo_free_next _ _ _ Hq) as (E & _). simpl in E. unfold nx in E. rewrite bind_Ok, E.
  assert (0 <= e' < NR_MAX_PARALLEL_IO) by (apply (entry_range _ _ _ _ Hq); set_solver).
  by rewrite (proj2 (Z.leb_gt _ _)) by lia.
Qed.

Lemma allocate_full k e il : queue_ok k [e] il -> allocate_entry k = Ok None.
Proof using.
  intros Hq. unfold allocate_entry. rewrite (qo_free_first _ _ _ Hq). simpl.
  rewrite get_work_ok by (rewrite (qo_len _ _ _ Hq); apply (entry_range _ _ _ _ Hq); set_solver).
  pose proof (qo_free_next _ _ _ Hq) as (E & _). simpl in E. unfold nx in E. rewrite bind_Ok, E.
  pose proof nr_parallel_ok. by rewrite (proj2 (Z.leb_le _ _)) by (unfold NO_ENTRY; lia).
Qed.

Lemma queue_lengths k fl il : queue_ok k fl il -> (length fl + length il = length k.(wk_work_queue))%nat.
Proof using.
  intros Hq. pose proof (Permutation_length (qo_perm _ _ _ Hq)) as H. rewrite length_app in H. pose proof (qo_len _ _ _ Hq) as Hl.
  pose proof (zlen_zrange 0 NR_MAX_PARALLEL_IO) as Hz. pose proof nr_parallel_ok. unfold zlen in *. lia.
Qed.

(** The queue around an insertion: [k1] has the fields of [e] filled. *)
Lemma inserted_ok k k1 k' e t fl pre post :
  queue_ok k (e :: fl) (pre ++ post) -> fl <> [] ->
  (forall a, a <> e -> work k1 a = work k a) -> k1.(wk_latest_nsecs) = k.(wk_latest_nsecs) ->
  zlen k1.(wk_work_queue) = zlen k.(wk_work_queue) ->
  k1.(wk_free_seq) = first_of fl -> k1.(wk_free_seq_end) = k.(wk_free_seq_end) ->
  tgt k1 e = t -> completed k1 e = false ->
  (forall b, b ∈ post -> late k1 t b) -> (forall c, last pre = Some c -> ~ late k1 t c) ->
  inserted k1 e pre post k' -> queue_ok k' fl (pre ++ e :: post).
Proof using.
  intros Hq Hfl Hw Hlat Hlen Hf1 Hf2 Ht Hc Hl1 Hl2 (Hli & Hs & F1 & F2 & I1 & I2).
  pose proof (entries_NoDup _ _ _ Hq) as Hnd. apply NoDup_cons in Hnd as [He Hnd].
  assert (NoDup (pre ++ e :: post)) as Hnd2.
  { rewrite <- Permutation_middle. apply NoDup_cons. apply NoDup_app in Hnd as (_ & _ & ?). split; [set_solver|done]. }
  assert (forall a, a ∈ pre ++ post -> a <> e) as Hne by (intros a Ha ->; set_solver).
  assert (forall a, a ∈ fl -> a <> e) as Hne' by (intros a Ha ->; set_solver).
  assert (forall a, a ∈ fl -> nx k' a = nx k a) as Hnx.
  { intros a Ha. rewrite (li_nx _ _ _ _ _ _ _ Hli); [unfold nx; by rewrite Hw by auto|by apply Hne'|].
    intros E%last_Some_elem_of. apply NoDup_app in Hnd as (_ & Hd & _). apply (Hd a); set_solver. }
  destruct Hq as [Q1 Q2 Q3 Q4 Q5 Q6 Q7 Q8 Q9 Q10 Q11 Q12 Q13].
  split.
  - by rewrite (sr_len _ _ Hs), Hlen.
  - rewrite <- Q2. simpl. by rewrite <- Permutation_middle, <- Permutation_middle.
  - done.
  - by rewrite F1.
  - rewrite F2, Hf2, Q5. by destruct fl.
  - destruct Q6 as [_ Q6]. by apply (fwd_ext (nx k)).
  - done.
  - done.
  - eapply fwd_linked; [done|done|]. apply (fwd_ext (nx k)); [|done]. intros a Ha. unfold nx. by rewrite Hw by auto.
  - eapply bwd_linked; [done|done|]. apply (bwd_ext (pv k)); [|done]. intros a Ha. unfold pv. by rewrite Hw by auto.
  - eapply StronglySorted_ext; [intros a b _ _; by apply (before_ext k1)|]. apply (sorted_insert _ _ t); [|done..].
    eapply StronglySorted_ext; [|done]. intros a b Ha Hb. unfold before, tgt. by rewrite !Hw, Hlat by auto.
  - intros a Ha. rewrite (same_requests_completed _ _ _ Hs), (same_requests_copied _ _ _ Hs).
    destruct (decide (a = e)) as [->|Hae]; [congruence|]. unfold completed, copied. rewrite Hw by done. apply Q12. set_solver.
  - apply StronglySorted_inv in Q13 as [Q13 _]. eapply StronglySorted_ext; [|done]. intros a b Ha Hb.
    rewrite !(same_requests_completed _ _ _ Hs). unfold completed. by rewrite !Hw by auto.
Qed.

Lemma submit_ok k fill t e e' fl il :
  queue_ok k (e :: e' :: fl) il -> filled fill t ->
  okp (submit fill t k) (fun k' => exists pre post, il = pre ++ post /\
    (forall b, b ∈ post -> late k t b) /\ (forall c, last pre = Some c -> ~ late k t c) /\
    submitted k fill e (e' :: fl) pre post k').
Proof using.
  intros Hq Hfill. unfold submit. rewrite (take_entry_ok _ _ _ _ _ Hq), bind_Ok.
  pose proof (entries_NoDup _ _ _ Hq) as Hnd. rewrite <- app_comm_cons in Hnd.
  apply NoDup_cons in Hnd as [He Hnd].
  assert (forall a, a ∈ e :: il -> 0 <= a < NR_MAX_PARALLEL_IO) as Hr by (intros a Ha; apply (entry_range _ _ _ _ Hq); set_solver).
  pose proof (qo_len _ _ _ Hq) as Hlen. okstep. apply upd_work_okp; [simpl; rewrite Hlen; apply Hr; set_solver|].
  simpl. intros wq1 L1 W1. set (k1 := with_queue wq1 _).
  destruct (Hfill (work k e)) as (F1 & F2 & F3 & F4).
  assert (work k1 e = fill (work k e)) as We by (unfold work at 1; simpl; rewrite W1, decide_True by done; done).
  assert (forall a, a <> e -> work k1 a = work k a) as Wn by (intros a Ha; unfold work at 1; simpl; rewrite W1, decide_False by done; done).
  assert (forall a, a ∈ il -> a <> e) as Hne by (intros a Ha ->; set_solver).
  eapply okp_mono; [apply (insert_ok k1 e t il)|]; simpl; try (rewrite ?L1; done).
  - apply NoDup_cons. apply NoDup_app in Hnd as (_ & _ & ?). split; [set_solver|done].
  - pose proof (queue_lengths _ _ _ Hq). simpl in *. unfold zlen in L1. lia.
  - unfold nx. by rewrite We.
  - unfold pv. by rewrite We.
  - by apply (qo_io_first _ _ _ Hq).
  - by apply (qo_io_last _ _ _ Hq).
  - apply (fwd_ext (nx k)); [|by apply (qo_io_next _ _ _ Hq)]. intros a Ha. unfold nx. by rewrite Wn by auto.
  - apply (bwd_ext (pv k)); [|by apply (qo_io_prev _ _ _ Hq)]. intros a Ha. unfold pv. by rewrite Wn by auto.
  - intros k' (pre & post & -> & Hl1 & Hl2 & Hi). exists pre, post. split; [done|].
    assert (forall b, b ∈ pre ++ post -> late k1 t b <-> late k t b) as Hlate by (intros b Hb; unfold late, tgt; by rewrite Wn by auto).
    split; [intros b Hb; apply Hlate; [set_solver|by apply Hl1]|].
    split; [intros c E; rewrite <- Hlate; [by apply Hl2|]; apply last_Some_elem_of in E; set_solver|].
    pose proof Hi as (_ & Hs & _). split; [|split; [|split; [|split]]].
    + eapply (inserted_ok k k1 k' e t); try done; by (rewrite L1 || (unfold tgt; rewrite We) || (unfold completed; rewrite We)).
    + rewrite (sr_fields _ _ Hs). unfold fields. by rewrite We.
    + intros a Ha. rewrite (sr_fields _ _ Hs). unfold fields. by rewrite Wn.
    + by rewrite (sr_latest _ _ Hs).
    + by rewrite (sr_id _ _ Hs).
Qed.

(** ** Reclaiming *)

Definition reclaimable (k : io_worker) (e : Z) : bool :=
  completed k e && copied k e && (tgt k e <=? k.(wk_latest_nsecs)).

Lemma fwd_relink f g p c s s' :
  fwd f (p ++ [c]) s -> g c = s' -> (forall a, a ∈ p -> g a = f a) -> fwd g (p ++ [c]) s'.
Proof using. rewrite !fwd_app. simpl. intros [H _] Hc Hp. split; [|done]. by apply (fwd_ext f). Qed.

Section reclaim.
Context (k : io_worker) (fl il : list Z) (Hq : queue_ok k fl il).

Lemma reclaim_step_at e prev : e ∈ il ->
  reclaim_step k (e, prev) = Ok (if reclaimable k e then inl (nx k e, e) else inr prev).
Proof using Hq.
  intros He. unfold reclaim_step.
  assert (0 <= e < NR_MAX_PARALLEL_IO) as Hr by (apply (entry_range _ _ _ _ Hq); set_solver).
  rewrite valid_entry by done. rewrite get_work_ok by (by rewrite (qo_len _ _ _ Hq)).
  rewrite bind_Ok. unfold reclaimable, completed, copied, tgt, nx. by destruct (_ && _).
Qed.

(** The scan stops at the first request that is not done. *)
Lemma reclaim_scan pre suf fuel :
  il = pre ++ suf -> (forall a, a ∈ pre -> reclaimable k a = true) -> (length suf < fuel)%nat ->
  okp (rloop fuel (reclaim_step k) (first_of suf, last_of pre)) (fun l => exists pre' suf',
    il = pre' ++ suf' /\ l = last_of pre' /\ (forall a, a ∈ pre' -> reclaimable k a = true) /\
    (forall a, hd_error suf' = Some a -> reclaimable k a = false)).
Proof using Hq.
  revert pre fuel. induction suf as [|a suf IH]; intros pre fuel Hil Hp Hf; (destruct fuel as [|fuel]; [simpl in Hf; lia|]).
  { cbn [rloop]. unfold reclaim_step at 1. simpl. by exists pre, []. }
  assert (a ∈ il) as Ha by (rewrite Hil; set_solver). cbn [rloop List.hd]. rewrite reclaim_step_at, bind_Ok by done.
  destruct (reclaimable k a) eqn:E.
  - assert (nx k a = first_of suf) as -> by (pose proof (qo_io_next _ _ _ Hq) as H; rewrite Hil in H; by apply fwd_at in H).
    rewrite <- (last_of_snoc pre a NO_ENTRY). apply IH; [by rewrite <- app_assoc| |simpl in Hf; lia].
    intros b [Hb|[->|Hb]%elem_of_cons]%elem_of_app; [by apply Hp|done|set_solver].
  - simpl. exists pre, (a :: suf). split; [done|]. split; [done|]. split; [done|]. by intros b [= <-].
Qed.

(** The relinking of a done prefix that ends with [d]. *)
Definition unlink (d : Z) : res io_worker :=
  w ← get_work k d;
  let k0 := with_io w.(iw_next) k.(wk_io_seq_end) k in
  k1 ← (if w.(iw_next) =? NO_ENTRY then Ok k0 else upd_work w.(iw_next) (with_prev NO_ENTRY) k0);
  k2 ← upd_work d (with_next NO_ENTRY) k1;
  k3 ← upd_work k.(wk_io_seq) (with_prev k2.(wk_free_seq_end)) k2;
  k4 ← upd_work k3.(wk_free_seq_end) (with_next k.(wk_io_seq)) k3;
  Ok (with_free k4.(wk_free_seq) d k4).

(** What the relinking does to the links. *)
Record unlinked (f z d : Z) (rest : list Z) (k' : io_worker) : Prop := {
  ul_same : same_requests k k';
  ul_nx a : nx k' a = if decide (a = z) then f else if decide (a = d) then NO_ENTRY else nx k a;
  ul_pv a : a ∈ rest -> pv k' a = if decide (hd_error rest = Some a) then NO_ENTRY else pv k a;
  ul_free : k'.(wk_free_seq) = k.(wk_free_seq);
  ul_free_end : k'.(wk_free_seq_end) = d;
  ul_io : k'.(wk_io_seq) = first_of rest;
  ul_io_end : k'.(wk_io_seq_end) = k.(wk_io_seq_end)
}.

Lemma unlink_ok p d rest : il = (p ++ [d]) ++ rest ->
  okp (unlink d) (unlinked (first_of il) (last_of fl) d rest).
Proof using Hq.
  intros Hil. assert (forall a, a ∈ fl ++ il -> 0 <= a < zlen k.(wk_work_queue)) as Hr
    by (intros a Ha; rewrite (qo_len _ _ _ Hq); by apply (entry_range _ _ _ _ Hq)).
  assert (last_of fl ∈ fl) as Hz.
  { pose proof (qo_some _ _ _ Hq). destruct fl as [|z fl' _] using rev_ind; [done|]. rewrite last_of_snoc. set_solver. }
  assert (first_of il ∈ il) as Hf by (rewrite Hil; destruct p; set_solver).
  pose proof (entries_NoDup _ _ _ Hq) as Hnd. apply NoDup_app in Hnd as (_ & Hdis & Hnd).
  rewrite Hil in Hnd. apply NoDup_app in Hnd as (_ & Hdr & _).
  assert (d ∈ il) as Hd by (rewrite Hil; set_solver). unfold unlink. rewrite get_work_ok, bind_Ok by (apply Hr; set_solver).
  assert (nx k d = first_of rest) as E by (pose proof (qo_io_next _ _ _ Hq) as H; rewrite Hil, <- app_assoc in H; by apply fwd_at in H).
  fold (nx k d). rewrite E, (qo_io_first _ _ _ Hq). simpl. set (f := first_of il) in *. set (z := last_of fl) in *.
  assert (z <> d /\ z <> f) as [Hzd Hzf] by (split; intros Ez; apply (Hdis z); congruence).
  okstep. apply (okp_mono _ (fun k1 => exists wq1, k1 = with_queue wq1 (with_io (first_of rest) k.(wk_io_seq_end) k) /\
    zlen wq1 = zlen k.(wk_work_queue) /\
    forall a, workq wq1 a = if decide (hd_error rest = Some a) then with_prev NO_ENTRY (work k a) else work k a)).
  { destruct rest as [|h q]; simpl.
    - exists k.(wk_work_queue). by destruct k.
    - rewrite valid_entry by (rewrite <- (qo_len _ _ _ Hq); apply Hr; rewrite Hil; set_solver). apply upd_work_okp; [apply Hr; rewrite Hil; set_solver|]. intros wq1 L1 W1.
      exists wq1. split; [done|]. split; [done|]. intros a. rewrite W1. repeat case_decide; (reflexivity || congruence). }
  intros k1 (wq1 & -> & L1 & W1).
  okstep. apply upd_work_okp; [simpl; rewrite L1; apply Hr; set_solver|]. intros wq2 L2 W2.
  okstep. apply upd_work_okp; [simpl in *; rewrite L2, L1; apply Hr; set_solver|]. intros wq3 L3 W3.
  simpl wk_free_seq_end. rewrite (qo_free_last _ _ _ Hq). fold z.
  okstep. apply upd_work_okp; [simpl in *; rewrite L3, L2, L1; apply Hr; set_solver|]. intros wq4 L4 W4.
  assert (f ∈ p ++ [d]) as Hfp by (unfold f; rewrite Hil; destruct p; set_solver).
  assert (forall a, a ∈ rest -> a <> d /\ a <> f /\ a <> z) as Hrest.
  { intros a Ha. split; [intros ->; apply (Hdr d); set_solver|]. split; [intros ->; by apply (Hdr f)|].
    intros ->. apply (Hdis z); [done|]. rewrite Hil. set_solver. }
  split; simpl; try done; try (links; fail).
  - split; simpl in *; [congruence|links|done..].
  - intros a Ha. destruct (Hrest a Ha) as (? & ? & ?). links.
Qed.

(** The done prefix goes to the end of the free list. *)
Lemma unlinked_ok p d rest k' :
  il = (p ++ [d]) ++ rest -> (forall a, a ∈ p ++ [d] -> reclaimable k a = true) ->
  unlinked (first_of il) (last_of fl) d rest k' -> queue_ok k' (fl ++ p ++ [d]) rest.
Proof using Hq.
  intros Hil Hdone Hu. pose proof (entries_NoDup _ _ _ Hq) as Hnd.
  destruct Hq as [Q1 Q2 Q3 Q4 Q5 Q6 Q7 Q8 Q9 Q10 Q11 Q12 Q13]. destruct Hu as [Hs U1 U2 U3 U4 U5 U6].
  apply NoDup_app in Hnd as (Hn1 & Hdis & Hn2). pose proof Hn2 as Hn3. rewrite Hil in Hn3. apply NoDup_app in Hn3 as (Hn3 & Hdr & Hn4).
  assert (last_of fl ∈ fl) as Hz by (destruct fl as [|z fl' _] using rev_ind; [done|rewrite last_of_snoc; set_solver]).
  assert (forall a, a ∈ il -> a <> last_of fl) as Hzi by (intros a Ha ->; by apply (Hdis (last_of fl))).
  rewrite Hil in Q9, Q10, Q11, Q12. rewrite fwd_app in Q9. rewrite bwd_app in Q10. destruct Q9 as [Q9 Q9'], Q10 as [Q10 Q10'].
  apply StronglySorted_app in Q11 as (_ & Q11 & Q11').
  split.
  - by rewrite (sr_len _ _ Hs).
  - rewrite <- Q2, Hil, !(assoc_L (++)). done.
  - intros E. by apply app_eq_nil in E as [? _].
  - rewrite U3, Q4. by destruct fl.
  - by rewrite U4, (assoc_L (++)), last_of_snoc.
  - apply fwd_app. split.
    + destruct fl as [|z fl' _] using rev_ind; [done|]. rewrite last_of_snoc in *. eapply fwd_relink; [done| |].
      * rewrite U1, decide_True by done. rewrite Hil. by destruct p.
      * apply NoDup_app in Hn1 as (_ & Hn1 & _). intros a Ha. rewrite U1, !decide_False; [done| |set_solver].
        intros ->. apply (Hdis d); [set_solver|rewrite Hil; set_solver].
    + eapply fwd_relink; [done| |].
      * rewrite U1, decide_False, decide_True; [done..|]. apply Hzi. rewrite Hil. set_solver.
      * apply NoDup_app in Hn3 as (_ & Hn3 & _). intros a Ha. rewrite U1, !decide_False; [done|set_solver|].
        apply Hzi. rewrite Hil. set_solver.
  - done.
  - intros Hr. rewrite U6, Q8 by (rewrite Hil; by destruct p). rewrite Hil. destruct rest as [|h q]; [done|]. 
    rewrite last_cons_app. exact (eq_sym (last_cons_app [] h q NO_ENTRY)).
  - apply (fwd_ext (nx k)); [|done]. intros a Ha. rewrite U1, !decide_False; [done|set_solver|]. apply Hzi. rewrite Hil. set_solver.
  - destruct rest as [|h q]; [done|]. destruct Q10' as [_ Q10']. split; [rewrite U2, decide_True; set_solver|].
    apply NoDup_cons in Hn4 as [Hn4 _]. apply (bwd_ext (pv k)); [|done]. intros a Ha. rewrite U2, decide_False; [done|naive_solver|set_solver].
  - eapply StronglySorted_ext; [|done]. intros a b _ _. by apply before_ext.
  - intros a Ha. rewrite (same_requests_completed _ _ _ Hs), (same_requests_copied _ _ _ Hs). apply Q12. set_solver.
  - assert (forall b, b ∈ p ++ [d] -> completed k' b = true) as Hc.
    { intros b Hb. rewrite (same_requests_completed _ _ _ Hs). specialize (Hdone b Hb). unfold reclaimable in Hdone.
      by apply andb_true_iff in Hdone as [[? _]%andb_true_iff _]. }
    apply StronglySorted_app. split; [intros a b _ Hb _; by apply Hc|]. split.
    + eapply StronglySorted_ext; [|done]. intros a b _ _. by rewrite !(same_requests_completed _ _ _ Hs).
    + clear -Hc. induction (p ++ [d]) as [|a l IH]; constructor; [apply IH; intros; apply Hc; set_solver|].
      apply Forall_forall. intros b Hb _. apply Hc. set_solver.
Qed.

(** The longest prefix of the requests that is done is freed. *)
Lemma reclaim_ok :
  okp (reclaim_worker k) (fun k' => exists done rest,
    il = done ++ rest /\ (forall a, a ∈ done -> reclaimable k a = true) /\
    (forall a, hd_error rest = Some a -> reclaimable k a = false) /\
    queue_ok k' (fl ++ done) rest /\ same_requests k k').
Proof using Hq.
  unfold reclaim_worker. okstep. rewrite (qo_io_first _ _ _ Hq). 
  eapply okp_mono; [apply (reclaim_scan [] il); [done|set_solver|]|].
  { pose proof (queue_lengths _ _ _ Hq). lia. }
  intros l (done & rest & Hil & -> & H1 & H2). destruct done as [|d p _] using rev_ind.
  { simpl. exists [], rest. rewrite app_nil_r. simpl in Hil. subst rest. by repeat (split; [done|]). }
  rewrite last_of_snoc, valid_entry by (apply (entry_range _ _ _ _ Hq); rewrite Hil; set_solver).
  rewrite <- (qo_io_first _ _ _ Hq). eapply okp_mono; [exact (unlink_ok p d rest Hil)|].
  intros k' Hu. exists (p ++ [d]), rest. split; [done|]. split; [done|]. split; [done|].
  split; [by eapply unlinked_ok|by destruct Hu].
Qed.
End reclaim.

(** ** What a worker does to the queue *)

Lemma latest_ok k fl il now :
  queue_ok k fl il -> k.(wk_latest_nsecs) <= now -> queue_ok (with_latest now k) fl il.
Proof using.
  intros [Q1 Q2 Q3 Q4 Q5 Q6 Q7 Q8 Q9 Q10 Q11 Q12 Q13] Hn. split; try done.
  eapply StronglySorted_ext; [|done]. intros a b _ _ [H|H]; [left|right; exact H].
  change (tgt k a <= now). lia.
Qed.

(** The flags and the answer of a request are set in place. *)
Definition keeps (f : io_work -> io_work) : Prop :=
  forall w, iw_next (f w) = iw_next w /\ iw_prev (f w) = iw_prev w /\ iw_nsecs_target (f w) = iw_nsecs_target w /\
            iw_is_copied (f w) = true.

Lemma mark_ok k fl il e f :
  queue_ok k fl il -> e ∈ il -> keeps f ->
  okp (upd_work e f k) (fun k' => queue_ok k' fl il /\ k'.(wk_latest_nsecs) = k.(wk_latest_nsecs) /\
    k'.(wk_id) = k.(wk_id) /\
    forall a, work k' a = if decide (a = e) then f (work k a) else work k a).
Proof using.
  intros Hq He Hf. pose proof (entries_NoDup _ _ _ Hq) as Hnd. apply NoDup_app in Hnd as (_ & Hd & _).
  assert (0 <= e < zlen k.(wk_work_queue)) as Hr by (rewrite (qo_len _ _ _ Hq); apply (entry_range _ _ _ _ Hq); set_solver).
  apply upd_work_okp; [done|]. intros wq L W. split; [|done].
  assert (forall a, nx (with_queue wq k) a = nx k a /\ pv (with_queue wq k) a = pv k a /\ tgt (with_queue wq k) a = tgt k a) as Hw.
  { intros a. unfold nx, pv, tgt, work at 1 3 5. simpl. rewrite W. case_decide; [|done]. destruct (Hf (work k a)) as (? & ? & ? & _). done. }
  destruct Hq as [Q1 Q2 Q3 Q4 Q5 Q6 Q7 Q8 Q9 Q10 Q11 Q12 Q13]. split; try done.
  - by rewrite <- Q1.
  - eapply fwd_ext; [|done]. intros a _. apply Hw.
  - eapply fwd_ext; [|done]. intros a _. apply Hw.
  - eapply bwd_ext; [|done]. intros a _. apply Hw.
  - eapply StronglySorted_ext; [|done]. intros a b _ _. unfold before. destruct (Hw a) as (_ & _ & ->), (Hw b) as (_ & _ & ->). done.
  - intros a Ha. unfold completed, copied, work. simpl. rewrite W. case_decide; [intros _; apply Hf|by apply Q12].
  - eapply StronglySorted_ext; [|done]. intros a b Ha Hb. unfold completed, work. simpl.
    rewrite !W, !decide_False; [done|intros ->; by apply (Hd e)..].
Qed.

(** Where a worker may stand: at the end, at a request, or at an entry that was freed
    under it, which it passes over. *)
Definition cursor_ok (k : io_worker) (fl il : list Z) (curr : Z) : Prop :=
  curr = NO_ENTRY \/ curr ∈ il \/ (curr ∈ fl /\ completed k curr = true).

Lemma cursor_next k fl il curr :
  queue_ok k fl il -> cursor_ok k fl il curr -> curr <> NO_ENTRY -> cursor_ok k fl il (nx k curr).
Proof using.
  intros Hq [->|[H|[H Hc]]] Hn; [done|..]; apply list_elem_of_split in H as (pre & post & ->).
  - pose proof (qo_io_next _ _ _ Hq) as Hf. apply fwd_at in Hf. rewrite Hf. destruct post; [by left|right; left; set_solver].
  - pose proof (qo_free_next _ _ _ Hq) as Hf. apply fwd_at in Hf. rewrite Hf. destruct post as [|b post]; [by left|].
    right; right. split; [set_solver|]. pose proof (qo_used _ _ _ Hq) as Hu. apply StronglySorted_app in Hu as (_ & _ & Hu).
    apply StronglySorted_inv in Hu as [_ Hu]. rewrite Forall_forall in Hu. apply (Hu b); [set_solver|done].
Qed.

(** ** A new queue *)

Lemma fwd_range f lo hi s : lo <= hi -> (forall i, lo <= i < hi - 1 -> f i = i + 1) -> (lo < hi -> f (hi - 1) = s) ->
  fwd f (zrange lo hi) s.
Proof using.
  intros Hle. remember (Z.to_nat (hi - lo)) as n eqn:Hn. revert lo Hle Hn. induction n as [|n IH]; intros lo Hle Hn H1 H2.
  - by rewrite zrange_nil by lia.
  - rewrite zrange_S by lia. simpl. split; [|apply IH; [lia|lia| |intros; apply H2; lia]; intros; apply H1; lia].
    destruct (decide (lo = hi - 1)) as [->|Hne].
    + rewrite zrange_nil by lia. simpl. apply H2. lia.
    + rewrite (zrange_S (lo + 1)) by lia. simpl. apply H1. lia.
Qed.

Lemma init_ok id :
  okp (init_worker id) (fun k => queue_ok k (zrange 0 NR_MAX_PARALLEL_IO) [] /\ k.(wk_latest_nsecs) = 0 /\ k.(wk_id) = id).
Proof using.
  pose proof nr_parallel_ok as Hnr. unfold init_worker. okstep.
  set (wq := (fun i => _) <$> zrange 0 NR_MAX_PARALLEL_IO).
  assert (forall i, 0 <= i < NR_MAX_PARALLEL_IO -> wq !! i = Some (with_links (u32 (i + 1)) (u32 (i - 1)) zero_work)) as Hwq.
  { intros i Hi. unfold wq. rewrite zlookup_fmap, zlookup_zrange by lia. done. }
  assert (zlen wq = NR_MAX_PARALLEL_IO) as Hlen by (unfold wq, zlen; rewrite length_fmap; pose proof (zlen_zrange 0 NR_MAX_PARALLEL_IO); unfold zlen in *; lia).
  eapply amod_okp; [apply Hwq; lia|]. simpl. set (k := IoWorker _ _ _ _ _ _ _). split; [|done].
  assert (forall i, 0 <= i < NR_MAX_PARALLEL_IO - 1 -> nx k i = i + 1) as Hnx.
  { intros i Hi. unfold nx, work, workq, k. simpl. rewrite zlookup_zinsert_ne, Hwq by lia. simpl. apply u32_small. lia. }
  assert (nx k (NR_MAX_PARALLEL_IO - 1) = NO_ENTRY) as Hl.
  { unfold nx, work, workq, k. simpl. by rewrite zlookup_zinsert_eq by lia. }
  assert (forall i, completed k i = false) as Hc.
  { intros i. unfold completed, work, workq, k. simpl. destruct (_ !! i) as [w|] eqn:E; [|done].
    pose proof (zlookup_Some_range _ _ _ E) as Hr. rewrite zlen_zinsert, Hlen in Hr.
    rewrite zlookup_zinsert in E by lia. rewrite Hwq in E by lia. case_decide; by injection E as <-. }
  split; try done; simpl.
  - by rewrite zlen_zinsert.
  - by rewrite app_nil_r.
  - rewrite zrange_S by lia. done.
  - by rewrite zrange_S by lia.
  - replace NR_MAX_PARALLEL_IO with (NR_MAX_PARALLEL_IO - 1 + 1) at 2 by lia. by rewrite zrange_snoc, last_of_snoc by lia.
  - apply fwd_range; [lia|done|done].
  - constructor.
  - set_solver.
  - eapply (StronglySorted_ext (fun _ _ => True)); [intros a b _ _ _; by rewrite Hc|].
    clear. induction (zrange _ _); constructor; [done|by apply Forall_true].
Qed.
End queue.
