(* ===== verification/KvAlloc.v ===== *)
(** * Allocators of the value space (append_only.c, bitmap.c)

    The key-value FTL takes the space of a value from one of two allocators, by
    a table of operations.  [append_only.c] hands out consecutive extents;
    [bitmap.c] splits the storage into a half of small cells and a half of large
    ones and asks the kernel's bitmap library for a clear bit, which is a
    parameter with the library's documented behaviour. *)

From stdpp Require Import prelude list.
From Stdlib Require Import ZArith Lia.
From S2P Require Import Prelude.

Definition SMALL_LENGTH : Z := 1024.
Definition LARGE_LENGTH : Z := 4096.

(** ** append_only.c *)

Record append_pool := AppendPool { ap_latest : Z; ap_dev_size : Z; ap_total_written : Z }.

Definition append_only_allocator_init (size : Z) : append_pool := AppendPool 0 size 0.

Definition append_only_allocate (length : Z) (p : append_pool) : append_pool * Z :=
  (AppendPool (u64 (p.(ap_latest) + length)) p.(ap_dev_size) (u64 (p.(ap_total_written) + length)), p.(ap_latest)).

Definition append_only_kill (p : append_pool) : append_pool := p.

(** ** bitmap.c *)

(** One of the two bitmaps: its bits, how many of them are used, and the search
    position; [bs_words] is the size of the static array. *)
Record bit_space := BitSpace {
  bs_bits : Z -> bool; bs_nbits : Z; bs_last_pos : Z; bs_capacity : Z; bs_words : Z
}.

Record bitmap_pool := BitmapPool {
  bp_small : bit_space; bp_large : bit_space; bp_dev_size : Z; bp_total_written : Z
}.

Definition BITS_PER_LONG : Z := 64.

(** [bitmap_zero] and [bitmap_set] on the static array: the words that the bits
    fall in have to be there. *)
Definition in_array (s : bit_space) (nbits : Z) : bool := nbits <=? BITS_PER_LONG * s.(bs_words).

Definition bitmap_zero (s : bit_space) (nbits : Z) : res bit_space :=
  if in_array s nbits then
    Ok (BitSpace (fun i => if decide (0 <= i < DIV_ROUND_UP nbits BITS_PER_LONG * BITS_PER_LONG) then false else s.(bs_bits) i)
          nbits s.(bs_last_pos) s.(bs_capacity) s.(bs_words))
  else Fault OutOfBounds.

Definition bitmap_set (s : bit_space) (off : Z) : res bit_space :=
  if in_array s (off + 1) then
    Ok (BitSpace (fun i => if decide (i = off) then true else s.(bs_bits) i)
          s.(bs_nbits) s.(bs_last_pos) s.(bs_capacity) s.(bs_words))
  else Fault OutOfBounds.

Definition bitmap_allocator_init (size : Z) (p : bitmap_pool) : res bitmap_pool :=
  small ← bitmap_zero p.(bp_small) (size `div` 2 `div` SMALL_LENGTH);
  large ← bitmap_zero p.(bp_large) (size `div` 2 `div` LARGE_LENGTH);
  Ok (BitmapPool small large size p.(bp_total_written)).

Section bitmap.
(** [bitmap_find_next_zero_area map size start 1 0] of the kernel. *)
Context (find_next_zero : (Z -> bool) -> Z -> Z -> Z).

(** The branch of one space: the bit found, and the space after. *)
Definition space_allocate (s : bit_space) : res (bit_space * Z) :=
  let off := find_next_zero s.(bs_bits) s.(bs_nbits) s.(bs_last_pos) in
  s ← bitmap_set s off;
  let last_pos := u64 (off + 1) in
  let last_pos := if s.(bs_nbits) <? last_pos then 0 else last_pos in
  Ok (BitSpace s.(bs_bits) s.(bs_nbits) last_pos (s.(bs_capacity) + 1) s.(bs_words), off).

(** A length over [LARGE_LENGTH] is logged and served all the same. *)
Definition bitmap_allocate (length : Z) (p : bitmap_pool) : res (bitmap_pool * Z) :=
  let total := u64 (p.(bp_total_written) + length) in
  if SMALL_LENGTH <? length then
    '(large, off) ← space_allocate p.(bp_large);
    Ok (BitmapPool p.(bp_small) large p.(bp_dev_size) total,
        u64 (p.(bp_dev_size) `div` 2 + u64 (off * LARGE_LENGTH)))
  else
    '(small, off) ← space_allocate p.(bp_small);
    Ok (BitmapPool small p.(bp_large) p.(bp_dev_size) total, u64 (off * SMALL_LENGTH)).
End bitmap.

Definition bitmap_kill (p : bitmap_pool) : bitmap_pool := p.

(** ** The table of operations *)

Inductive allocator_ops := append_only_ops | bitmap_ops.

(** The static state of the two files. *)
Record pools := Pools { pl_append : append_pool; pl_bitmap : bitmap_pool }.

Definition alloc_init (ops : allocator_ops) (size : Z) (pl : pools) : res pools :=
  match ops with
  | append_only_ops => Ok (Pools (append_only_allocator_init size) pl.(pl_bitmap))
  | bitmap_ops => b ← bitmap_allocator_init size pl.(pl_bitmap); Ok (Pools pl.(pl_append) b)
  end.

Definition alloc_allocate (find_next_zero : (Z -> bool) -> Z -> Z -> Z) (ops : allocator_ops) (length : Z) (pl : pools) :
    res (pools * Z) :=
  match ops with
  | append_only_ops =>
      let '(a, off) := append_only_allocate length pl.(pl_append) in Ok (Pools a pl.(pl_bitmap), off)
  | bitmap_ops => '(b, off) ← bitmap_allocate find_next_zero length pl.(pl_bitmap); Ok (Pools pl.(pl_append) b, off)
  end.

(** ** The bitmap allocator never frees: it hands out its cells in order *)

(** The kernel's documentation: the first clear bit from [start] on, or a number
    past [size]. *)
Record zero_area_ok (find : (Z -> bool) -> Z -> Z -> Z) : Prop := {
  za_found m size start i : 0 <= start -> start <= i < size -> m i = false ->
    (forall j, start <= j < i -> m j = true) -> find m size start = i;
  za_none m size start : 0 <= start -> (forall j, start <= j < size -> m j = true) -> size < find m size start
}.

(** After [k] allocations the first [k] bits are set and the search starts there. *)
Record space_ok (s : bit_space) (k : Z) : Prop := {
  so_k : 0 <= k <= s.(bs_nbits);
  so_bits i : 0 <= i < s.(bs_nbits) -> s.(bs_bits) i = bool_decide (i < k);
  so_last : s.(bs_last_pos) = k;
  so_array : s.(bs_nbits) <= BITS_PER_LONG * s.(bs_words);
  so_word : s.(bs_nbits) < 2 ^ 52
}.

Lemma space_allocate_ok find s k :
  zero_area_ok find -> space_ok s k -> k < s.(bs_nbits) ->
  okp (space_allocate find s) (fun '(s', off) => off = k /\ space_ok s' (k + 1) /\ s'.(bs_nbits) = s.(bs_nbits)).
Proof.
  intros Hf [Hk Hb Hl Ha Hw] Hlt. unfold space_allocate. rewrite Hl.
  rewrite (za_found _ Hf _ _ k k); [|lia|lia|rewrite Hb by lia; by apply bool_decide_eq_false; lia|lia].
  unfold bitmap_set, in_array. rewrite (proj2 (Z.leb_le _ _)) by lia. rewrite bind_Ok. simpl.
  change (2 ^ 52) with 4503599627370496 in *. unwrap. rewrite (proj2 (Z.ltb_ge _ _)) by lia.
  split; [done|]. split; [|done]. split; simpl; [lia| |done|done|done].
  intros i Hi. case_decide as E; [subst; by rewrite bool_decide_eq_true_2 by lia|].
  rewrite Hb by done. apply bool_decide_ext. lia.
Qed.

(** ** A run of allocations *)

(** The extents handed out, in order. *)
Definition alloc_run (find_next_zero : (Z -> bool) -> Z -> Z -> Z) (ops : allocator_ops) (lens : list Z) (pl : pools) :
    res (pools * list (Z * Z)) :=
  rfold (fun len '(pl, exts) => '(pl, off) ← alloc_allocate find_next_zero ops len pl; Ok (pl, exts ++ [(off, len)]))
    lens (pl, []).

Definition is_small (len : Z) : bool := negb (SMALL_LENGTH <? len).
Definition is_large (len : Z) : bool := SMALL_LENGTH <? len.

(** What fits a device of [size] bytes. *)
Definition fits_space (ops : allocator_ops) (size : Z) (lens : list Z) : Prop :=
  match ops with
  | append_only_ops => foldr Z.add 0 lens <= size
  | bitmap_ops =>
      zcount is_small lens <= size `div` 2 `div` SMALL_LENGTH /\ zcount is_large lens <= size `div` 2 `div` LARGE_LENGTH /\
      forall len, len ∈ lens -> len <= LARGE_LENGTH
  end.

Definition extents_apart (a b : Z * Z) : Prop := a.1 + a.2 <= b.1 \/ b.1 + b.2 <= a.1.

Lemma ForallOrdPairs_snoc {A} (R : A -> A -> Prop) l x :
  ForallOrdPairs R l -> Forall (fun y => R y x) l -> ForallOrdPairs R (l ++ [x]).
Proof.
  induction 1 as [|y l Hy Hl IH]; intros HF; simpl; [repeat constructor|].
  apply Forall_cons in HF as [H1 H2]. constructor; [|by apply IH]. apply Forall_app. split; [done|by constructor].
Qed.

(** The extents so far are within the device and apart from one another. *)
Definition extents_ok (size : Z) (exts : list (Z * Z)) : Prop :=
  ForallOrdPairs extents_apart exts /\ Forall (fun e => 0 <= e.1 /\ e.1 + e.2 <= size) exts.

Lemma extents_snoc size exts off len :
  extents_ok size exts -> 0 <= off -> off + len <= size -> Forall (fun e => extents_apart e (off, len)) exts ->
  extents_ok size (exts ++ [(off, len)]).
Proof.
  intros [H1 H2] Ho Hl HF. split; [by apply ForallOrdPairs_snoc|]. apply Forall_app. split; [done|]. by constructor.
Qed.

Record appended (size : Z) (lens : list Z) (pl : pools) (exts : list (Z * Z)) : Prop := {
  ad_exts : extents_ok size exts;
  ad_latest : pl.(pl_append).(ap_latest) = foldr Z.add 0 lens;
  ad_below : Forall (fun e => e.1 + e.2 <= foldr Z.add 0 lens) exts
}.

Record celled (size : Z) (lens : list Z) (pl : pools) (exts : list (Z * Z)) : Prop := {
  ce_exts : extents_ok size exts;
  ce_dev : pl.(pl_bitmap).(bp_dev_size) = size;
  ce_small : space_ok pl.(pl_bitmap).(bp_small) (zcount is_small lens);
  ce_large : space_ok pl.(pl_bitmap).(bp_large) (zcount is_large lens);
  ce_nbits : pl.(pl_bitmap).(bp_small).(bs_nbits) = size `div` 2 `div` SMALL_LENGTH /\
    pl.(pl_bitmap).(bp_large).(bs_nbits) = size `div` 2 `div` LARGE_LENGTH;
  ce_cells : Forall (fun e =>
    e.1 + e.2 <= SMALL_LENGTH * zcount is_small lens \/
    (size `div` 2 <= e.1 /\ e.1 + e.2 <= size `div` 2 + LARGE_LENGTH * zcount is_large lens)) exts
}.

Lemma sum_snoc l x : foldr Z.add 0 (l ++ [x]) = foldr Z.add 0 l + x.
Proof. induction l as [|y l IH]; simpl; [lia|]. rewrite IH. lia. Qed.

Lemma sum_app l l' : foldr Z.add 0 (l ++ l') = foldr Z.add 0 l + foldr Z.add 0 l'.
Proof. induction l as [|y l IH]; simpl; [done|]. rewrite IH. lia. Qed.

Lemma sum_nonneg l : (forall x, x ∈ l -> 0 <= x) -> 0 <= foldr Z.add 0 l.
Proof. induction l as [|y l IH]; intros H; simpl; [done|]. pose proof (H y ltac:(set_solver)). specialize (IH ltac:(set_solver)). lia. Qed.

Lemma append_step_ok size lens pl exts len :
  appended size lens pl exts -> 0 <= foldr Z.add 0 lens -> 0 <= len -> foldr Z.add 0 lens + len <= size -> size < 2 ^ 63 ->
  appended size (lens ++ [len]) (Pools (append_only_allocate len pl.(pl_append)).1 pl.(pl_bitmap))
    (exts ++ [((append_only_allocate len pl.(pl_append)).2, len)]).
Proof.
  intros [H1 H2 H3] Hs Hl Hsz Hw. change (2 ^ 63) with 9223372036854775808 in Hw. unfold append_only_allocate. simpl. rewrite H2.
  split; simpl; rewrite ?sum_snoc; [|by unwrap|].
  - apply extents_snoc; [done|done|done|]. eapply Forall_impl; [exact H3|]. intros [o n] He. left. exact He.
  - apply Forall_app. split; [|by constructor]. eapply Forall_impl; [exact H3|]. intros [o n] He. simpl in *. lia.
Qed.

Lemma bitmap_step_ok find size lens pl exts len :
  zero_area_ok find -> celled size lens pl exts -> 0 <= len <= LARGE_LENGTH -> 0 <= size < 2 ^ 61 ->
  zcount is_small (lens ++ [len]) <= size `div` 2 `div` SMALL_LENGTH ->
  zcount is_large (lens ++ [len]) <= size `div` 2 `div` LARGE_LENGTH ->
  okp (bitmap_allocate find len pl.(pl_bitmap)) (fun '(b, off) => celled size (lens ++ [len]) (Pools pl.(pl_append) b) (exts ++ [(off, len)])).
Proof.
  intros Hfind [H1 H2 H3 H4 [N1 N2] H5] Hl Hsz Hs Hb. change (2 ^ 61) with 2305843009213693952 in Hsz.
  rewrite !zcount_app in Hs, Hb. simpl in Hs, Hb. unfold bitmap_allocate.
  destruct (so_k _ _ H3) as [K1 _]. destruct (so_k _ _ H4) as [K2 _].
  unfold LARGE_LENGTH, SMALL_LENGTH in *. pose proof (Z.div_mod size 2). pose proof (Z.mod_pos_bound size 2).
  pose proof (Z.mul_div_le (size `div` 2) 1024). pose proof (Z.mul_div_le (size `div` 2) 4096).
  unfold is_small at 2 in Hs. unfold is_large at 2 in Hb. unfold SMALL_LENGTH in Hs, Hb.
  assert (zcount is_small (lens ++ [len]) = zcount is_small lens + b2z (negb (1024 <? len))) as Zs.
  { rewrite zcount_app. simpl. unfold is_small at 2, SMALL_LENGTH. lia. }
  assert (zcount is_large (lens ++ [len]) = zcount is_large lens + b2z (1024 <? len)) as Zl.
  { rewrite zcount_app. simpl. unfold is_large at 2, SMALL_LENGTH. lia. }
  set (cs := zcount is_small lens) in *. set (cl := zcount is_large lens) in *.
  destruct (1024 <? len) eqn:El; [apply Z.ltb_lt in El|apply Z.ltb_ge in El]; simpl in Hs, Hb, Zs, Zl.
  - apply okp_bind. eapply okp_mono; [apply (space_allocate_ok find _ _ Hfind H4); lia|].
    intros [large off] (-> & Hsp & Hn). rewrite H2. unwrap. split; simpl; rewrite ?Zs, ?Zl, ?Z.add_0_r; try done.
    + apply extents_snoc; [done|lia|lia|]. eapply Forall_impl; [exact H5|]. intros [o n] He. unfold extents_apart. simpl in *. lia.
    + split; [done|rewrite Hn; exact N2].
    + apply Forall_app. split; [|constructor; [simpl; right; unfold LARGE_LENGTH; lia|done]]. eapply Forall_impl; [exact H5|]. intros [o n] He. unfold LARGE_LENGTH, SMALL_LENGTH. simpl in *. lia.
  - apply okp_bind. eapply okp_mono; [apply (space_allocate_ok find _ _ Hfind H3); lia|].
    intros [small off] (-> & Hsp & Hn). unwrap. split; simpl; rewrite ?Zs, ?Zl, ?Z.add_0_r; try done.
    + apply extents_snoc; [done|lia|lia|]. eapply Forall_impl; [exact H5|]. intros [o n] He. unfold extents_apart. simpl in *. lia.
    + split; [rewrite Hn; exact N1|done].
    + apply Forall_app. split; [|constructor; [simpl; left; unfold SMALL_LENGTH; lia|done]]. eapply Forall_impl; [exact H5|]. intros [o n] He. unfold LARGE_LENGTH, SMALL_LENGTH. simpl in *. lia.
Qed.

(** The static state of bitmap.c before it is initialised, with room for the
    device's cells. *)
Record bitmap_fresh (size : Z) (p : bitmap_pool) : Prop := {
  bf_last : p.(bp_small).(bs_last_pos) = 0 /\ p.(bp_large).(bs_last_pos) = 0;
  bf_small : size `div` 2 `div` SMALL_LENGTH <= BITS_PER_LONG * p.(bp_small).(bs_words);
  bf_large : size `div` 2 `div` LARGE_LENGTH <= BITS_PER_LONG * p.(bp_large).(bs_words)
}.

Lemma bitmap_zero_ok s nbits :
  0 <= nbits < 2 ^ 52 -> nbits <= BITS_PER_LONG * s.(bs_words) -> s.(bs_last_pos) = 0 ->
  okp (bitmap_zero s nbits) (fun s' => space_ok s' 0 /\ s'.(bs_nbits) = nbits).
Proof.
  intros Hn Hw Hl. unfold bitmap_zero, in_array. rewrite (proj2 (Z.leb_le _ _)) by done. simpl. split; [|done].
  split; simpl; [lia| |done|done|lia]. intros i Hi. destruct (DIV_ROUND_UP_spec nbits 64) as [Hu _]; [lia|lia|].
  unfold BITS_PER_LONG. rewrite decide_True by lia. symmetry. apply bool_decide_eq_false_2. lia.
Qed.

(** The extents of a run that fits. *)
Lemma alloc_run_ok find ops size lens pl :
  zero_area_ok find -> 0 <= size < 2 ^ 61 -> bitmap_fresh size pl.(pl_bitmap) -> (forall len, len ∈ lens -> 0 <= len) ->
  fits_space ops size lens ->
  okp (pl ← alloc_init ops size pl; alloc_run find ops lens pl) (fun '(_, exts) => exts.*2 = lens /\ extents_ok size exts).
Proof.
  intros Hfind Hsz [[L1 L2] B1 B2] Hlens Hfit. apply okp_bind.
  set (inv := fun pre (s : pools * list (Z * Z)) => s.2.*2 = pre /\
    match ops with append_only_ops => appended size pre s.1 s.2 | bitmap_ops => celled size pre s.1 s.2 end).
  apply (okp_mono _ (fun pl => inv [] (pl, []))).
  - destruct ops; simpl.
    + split; [done|]. split; simpl; [split; constructor|done|done].
    + unfold bitmap_allocator_init. change (2 ^ 61) with 2305843009213693952 in Hsz.
      assert (0 <= size `div` 2 `div` SMALL_LENGTH < 2 ^ 52 /\ 0 <= size `div` 2 `div` LARGE_LENGTH < 2 ^ 52) as [K1 K2].
      { unfold SMALL_LENGTH, LARGE_LENGTH. rewrite !Z.div_div by done.
        split; (split; [apply Z.div_pos; lia|apply Z.div_lt_upper_bound; [done|]; change (2 ^ 52) with 4503599627370496; lia]). }
      apply okp_bind, okp_bind. eapply okp_mono; [by apply bitmap_zero_ok|]. intros small [S1 S2].
      apply okp_bind. eapply okp_mono; [by apply bitmap_zero_ok|]. intros large [S3 S4]. simpl.
      split; [done|]. split; simpl; [split; constructor|done|done|done|done|done].
  - intros pl' Hinv. eapply okp_mono; [apply (rfold_inv _ inv lens (pl', []) Hinv)|].
    + intros pre len post [p exts] E [I1 I2]. simpl in I1, I2. rewrite E in Hlens, Hfit.
      pose proof (Hlens len ltac:(set_solver)). apply okp_bind. destruct ops; simpl in *.
      * rewrite sum_app in Hfit. simpl in Hfit.
        pose proof (sum_nonneg pre ltac:(intros; apply Hlens; set_solver)). pose proof (sum_nonneg post ltac:(intros; apply Hlens; set_solver)).
        split; [simpl; by rewrite fmap_app, I1|]. apply (append_step_ok size pre p exts len); [done|done|done|lia|].
        change (2 ^ 63) with 9223372036854775808. change (2 ^ 61) with 2305843009213693952 in Hsz. lia.
      * destruct Hfit as (F1 & F2 & F3). replace (pre ++ len :: post) with ((pre ++ [len]) ++ post) in F1, F2 by (by rewrite <- app_assoc).
        rewrite (zcount_app is_small (pre ++ [len])) in F1. rewrite (zcount_app is_large (pre ++ [len])) in F2.
        pose proof (zcount_range is_small post). pose proof (zcount_range is_large post). apply okp_bind.
        eapply okp_mono; [apply (bitmap_step_ok find size pre p exts len); [done|done| |done|lia|lia]|].
        { split; [done|]. apply F3. set_solver. }
        intros [b off] Hc. simpl. split; [simpl; by rewrite fmap_app, I1|done].
    + intros [p exts] [I1 I2]. split; [done|]. simpl in I2. by destruct ops; destruct I2.
Qed.
