(* ===== verification/KvFtl.v ===== *)
(** * The key-value FTL (kv_ftl.c, kv_ftl.h)

    A hash table of mapping entries, chained by slot numbers, maps keys to
    extents of the storage; values move between the storage and the pages that a
    command's PRP entries name.  All bits set stand for no offset and no slot.

    A command is the dwords that its views share: [kc_key_len] is also the byte
    of an iterator handle, and the key's bytes hold an iterator's prefix and
    mask.  The loop that looks a key up is written out four times in the source
    and once here ([find_mapping]). *)

From stdpp Require Import prelude list.
From Stdlib Require Import ZArith Lia.
From S2P Require Import Prelude Mem Prp ChannelModel SsdConfig Ssd ConvFtl IoUnits KvAlloc.

(** ** Commands *)

Definition nvme_cmd_kv_store : Z := 129.
Definition nvme_cmd_kv_append : Z := 131.
Definition nvme_cmd_kv_batch : Z := 133.
Definition nvme_cmd_kv_retrieve : Z := 144.
Definition nvme_cmd_kv_delete : Z := 161.
Definition nvme_cmd_kv_iter_req : Z := 177.
Definition nvme_cmd_kv_iter_read : Z := 178.
Definition nvme_cmd_kv_exist : Z := 179.

Definition is_kv_cmd (opcode : Z) : bool :=
  ((opcode =? nvme_cmd_kv_append) || (opcode =? nvme_cmd_kv_store) || (opcode =? nvme_cmd_kv_retrieve) ||
   (opcode =? nvme_cmd_kv_delete) || (opcode =? nvme_cmd_kv_iter_req) || (opcode =? nvme_cmd_kv_iter_read) ||
   (opcode =? nvme_cmd_kv_exist)) || (opcode =? nvme_cmd_kv_batch).

Definition is_kv_iter_cmd (opcode : Z) : bool :=
  (opcode =? nvme_cmd_kv_iter_req) || (opcode =? nvme_cmd_kv_iter_read).

Definition KV_SUCCESS : Z := 0.
Definition KV_ERR_KEY_NOT_EXIST : Z := 784.

Record kv_command := KvCommand {
  kc_opcode : Z; kc_prp1 : Z; kc_prp2 : Z; kc_value_len : Z;
  kc_key_len : Z; kc_option : Z; kc_rsvd4 : Z; kc_key : list Z
}.

Definition kc_iter_handle (c : kv_command) : Z := c.(kc_key_len).
Definition kc_iter_val (c : kv_command) : Z := le_decode (take 4 c.(kc_key)).
Definition kc_iter_bitmask (c : kv_command) : Z := le_decode (take 4 (drop 4 c.(kc_key))).

Definition cmd_key_length (c : kv_command) : Z := c.(kc_key_len) + 1.
Definition cmd_value_length (c : kv_command) : Z := u32 (Z.shiftl c.(kc_value_len) 2).

Definition kv_io_cmd_value_prp (c : kv_command) (prp_num : Z) : Z :=
  if negb (prp_num =? 1) && negb (prp_num =? 2) then 0
  else if prp_num =? 1 then c.(kc_prp1) else c.(kc_prp2).

(** ** State *)

Definition KEY_FIELD : Z := 18.
Definition NO_OFFSET : Z := 18446744073709551615.
Definition NO_SLOT : Z := 4294967295.

Record mapping_entry := MapEntry { me_key : list Z; me_mem_offset : Z; me_length : Z; me_next_slot : Z }.

#[global] Instance mapping_entry_eq_dec : EqDecision mapping_entry.
Proof. solve_decision. Defined.

(** [memset(&entry, -1, sizeof(entry))]. *)
Definition no_entry : mapping_entry := MapEntry (zrepeat KEY_FIELD 255) NO_OFFSET NO_OFFSET NO_SLOT.

Record kv_iter_context := IterContext {
  ki_prefix : Z; ki_bitmask : Z; ki_buf : mem; ki_byteswritten : Z; ki_bufoffset : Z; ki_end : bool; ki_current_pos : Z
}.

(** [iter_handle[i]]: [None] before it is assigned, then a pointer. *)
Record kv_ftl := KvFtl {
  kv_mapping_table : list mapping_entry; hash_slots : Z; kv_ops : allocator_ops;
  iter_handle : list (option (option kv_iter_context))
}.

(** What the operations reach: the FTL, the allocators, the mapped storage and
    the host's memory. *)
Record kv_dev := KvDev { kd_ftl : kv_ftl; kd_pools : pools; kd_storage : mem; kd_host : mem }.

Definition with_table (t : list mapping_entry) (f : kv_ftl) : kv_ftl :=
  KvFtl t f.(hash_slots) f.(kv_ops) f.(iter_handle).
Definition with_iters (l : list (option (option kv_iter_context))) (f : kv_ftl) : kv_ftl :=
  KvFtl f.(kv_mapping_table) f.(hash_slots) f.(kv_ops) l.
Definition dev_ftl (f : kv_ftl) (d : kv_dev) : kv_dev := KvDev f d.(kd_pools) d.(kd_storage) d.(kd_host).
Definition dev_table (t : list mapping_entry) (d : kv_dev) : kv_dev := dev_ftl (with_table t d.(kd_ftl)) d.
Definition dev_pools (p : pools) (d : kv_dev) : kv_dev := KvDev d.(kd_ftl) p d.(kd_storage) d.(kd_host).
Definition dev_storage (m : mem) (d : kv_dev) : kv_dev := KvDev d.(kd_ftl) d.(kd_pools) m d.(kd_host).
Definition dev_host (m : mem) (d : kv_dev) : kv_dev := KvDev d.(kd_ftl) d.(kd_pools) d.(kd_storage) m.

(** ** The hash table *)

Definition hash_function (key : list Z) (length : Z) : res Z :=
  rfold (fun i h => b ← aget key i; Ok (Z.lxor (u32 (h * 16777619)) b)) (zrange 0 length) 2166136261.

Definition get_hash_slot (slots : Z) (key : list Z) (key_len : Z) : res Z :=
  h ← hash_function key key_len; cmod h slots.

(** [memcmp(a, b, n) == 0]. *)
Definition memcmp_eq (a b : list Z) (n : Z) : res bool :=
  if (zlen a <? n) || (zlen b <? n) then Fault OutOfBounds
  else Ok (bool_decide (take (Z.to_nat n) a = take (Z.to_nat n) b)).

(** [memcpy(dst, src, n)] from the start of both. *)
Definition memcpy_head (dst src : list Z) (n : Z) : res (list Z) :=
  if (zlen dst <? n) || (zlen src <? n) then Fault OutOfBounds
  else Ok (take (Z.to_nat n) src ++ drop (Z.to_nat n) dst).

Definition chain_mapping (t : list mapping_entry) (prev slot : Z) : res (list mapping_entry) :=
  amod t prev (fun e => Ok (MapEntry e.(me_key) e.(me_mem_offset) e.(me_length) slot)).

(** The loop of [find_next_slot] that follows the links to the tail; its state is
    [tail] and [prevs]. *)
Definition tail_step (t : list mapping_entry) (s : Z * Z) : res (Z * Z + Z) :=
  let '(tail, prevs) := s in
  e ← aget t tail;
  if e.(me_mem_offset) =? NO_OFFSET then Ok (inr prevs)
  else if e.(me_next_slot) =? NO_SLOT then Ok (inr tail)
  else Ok (inl (e.(me_next_slot), tail)).

(** The loop that probes for a free slot. *)
Definition probe_step (t : list mapping_entry) (slots : Z) (ret_slot : Z) : res (Z + Z) :=
  e ← aget t ret_slot;
  if e.(me_mem_offset) =? NO_OFFSET then Ok (inr ret_slot)
  else
    let ret_slot := u32 (ret_slot + 1) in
    Ok (inl (if slots <=? ret_slot then 0 else ret_slot)).

(** The free slot, and the slot to link it to. *)
Definition find_next_slot (t : list mapping_entry) (slots original_slot : Z) : res (Z * Z) :=
  prevs ← rloop (S (length t)) (tail_step t) (original_slot, NO_SLOT);
  ret_slot ← rloop (S (length t)) (probe_step t slots) prevs;
  Ok (ret_slot, prevs).

(** The common part of the two functions that make an entry: the choice of the
    slot, the three fields, the link. *)
Definition place_mapping (t : list mapping_entry) (slots : Z) (key : list Z) (key_len val_len val_offset : Z) :
    res (list mapping_entry) :=
  slot ← get_hash_slot slots key key_len;
  e ← aget t slot;
  '(slot, prev_slot) ← (if e.(me_mem_offset) =? NO_OFFSET then Ok (slot, NO_SLOT) else find_next_slot t slots slot);
  t ← amod t slot (fun e =>
        k ← memcpy_head e.(me_key) key key_len;
        Ok (MapEntry k val_offset val_len e.(me_next_slot)));
  if prev_slot =? NO_SLOT then Ok t else chain_mapping t prev_slot slot.

Section kv.
Context (cf : nvmev_config).

Definition new_mapping_entry (f : kv_ftl) (cmd : kv_command) (val_offset : Z) : res kv_ftl :=
  _ ← nvmev_assert (negb (cf.(cf_storage_size) <=? val_offset));
  t ← place_mapping f.(kv_mapping_table) f.(hash_slots) cmd.(kc_key) (cmd_key_length cmd) (cmd_value_length cmd) val_offset;
  Ok (with_table t f).

Definition new_mapping_entry_by_key (f : kv_ftl) (key : list Z) (key_len val_len val_offset : Z) : res kv_ftl :=
  _ ← nvmev_assert (negb (cf.(cf_storage_size) <=? val_offset));
  t ← place_mapping f.(kv_mapping_table) f.(hash_slots) key key_len (u64 val_len) val_offset;
  Ok (with_table t f).

(** One round of the lookup loop. *)
Definition find_step (t : list mapping_entry) (key : list Z) (key_len slot : Z) : res (Z + option Z) :=
  e ← aget t slot;
  if e.(me_mem_offset) =? NO_OFFSET then Ok (inr None) else
  same ← memcmp_eq key e.(me_key) key_len;
  if same : bool then Ok (inr (Some slot))
  else if e.(me_next_slot) =? NO_SLOT then Ok (inr None) else Ok (inl e.(me_next_slot)).

(** The slot of a key. *)
Definition find_mapping (f : kv_ftl) (key : list Z) (key_len : Z) : res (option Z) :=
  slot ← get_hash_slot f.(hash_slots) key key_len;
  rloop (S (length f.(kv_mapping_table))) (find_step f.(kv_mapping_table) key key_len) slot.

(** The status is 1 when the key has no entry. *)
Definition update_mapping_entry (f : kv_ftl) (cmd : kv_command) : res (kv_ftl * Z) :=
  found ← find_mapping f cmd.(kc_key) (cmd_key_length cmd);
  match found with
  | Some slot =>
      t ← amod f.(kv_mapping_table) slot (fun e =>
            Ok (MapEntry e.(me_key) e.(me_mem_offset) (cmd_value_length cmd) e.(me_next_slot)));
      Ok (with_table t f, 0)
  | None => Ok (f, 1)
  end.

Definition get_mapping_entry_by_key (f : kv_ftl) (key : list Z) (key_len : Z) : res mapping_entry :=
  found ← find_mapping f key key_len;
  match found with
  | Some slot =>
      e ← aget f.(kv_mapping_table) slot;
      k ← memcpy_head no_entry.(me_key) e.(me_key) key_len;
      Ok (MapEntry k e.(me_mem_offset) e.(me_length) e.(me_next_slot))
  | None => Ok no_entry
  end.

Definition get_mapping_entry (f : kv_ftl) (cmd : kv_command) : res mapping_entry :=
  get_mapping_entry_by_key f cmd.(kc_key) (cmd_key_length cmd).

(** The entry returned is all ones whether or not the key was found. *)
Definition delete_mapping_entry (f : kv_ftl) (cmd : kv_command) : res (kv_ftl * mapping_entry) :=
  found ← find_mapping f cmd.(kc_key) (cmd_key_length cmd);
  match found with
  | Some slot => t ← aset f.(kv_mapping_table) slot no_entry; Ok (with_table t f, no_entry)
  | None => Ok (f, no_entry)
  end.

(** ** Allocation *)

Context (find_next_zero : (Z -> bool) -> Z -> Z -> Z).

Definition allocate_mem_offset_by_length (d : kv_dev) (val_len : Z) : res (kv_dev * Z) :=
  '(p, offset) ← alloc_allocate find_next_zero d.(kd_ftl).(kv_ops) (u64 val_len) d.(kd_pools);
  Ok (dev_pools p d, if offset =? NO_OFFSET then 0 else offset).

Definition allocate_mem_offset (d : kv_dev) (cmd : kv_command) : res (kv_dev * Z) :=
  if cmd.(kc_opcode) =? nvme_cmd_kv_store then allocate_mem_offset_by_length d (cmd_value_length cmd)
  else Ok (d, 0).

(** ** Transfers

    [memcpy] between the storage, whose mapping ends with it, and the host. *)

Definition store_chunk (offset : Z) (paddr o n : Z) (d : kv_dev) : res kv_dev :=
  if cf.(cf_storage_size) <? offset + o + n then Fault OutOfBounds
  else Ok (dev_storage (mcopy d.(kd_storage) (offset + o) d.(kd_host) paddr n) d).

Definition retrieve_chunk (offset : Z) (paddr o n : Z) (d : kv_dev) : res kv_dev :=
  if cf.(cf_storage_size) <? offset + o + n then Fault OutOfBounds
  else Ok (dev_host (mcopy d.(kd_host) paddr d.(kd_storage) (offset + o) n) d).

(** The PRP list is in the host's memory. *)
Definition host_u64 (d : kv_dev) : Z -> Z := u64_at d.(kd_host).

Definition kv_walk (cmd : kv_command) (chunk : Z -> Z -> Z -> kv_dev -> res kv_dev) (length : Z) (d : kv_dev) : res kv_dev :=
  prp_walk kmap_list host_u64 chunk (kv_io_cmd_value_prp cmd 1) (kv_io_cmd_value_prp cmd 2) length d.

(** The tail of [__do_perform_kv_io]: transfer, then the new or changed entry;
    [is_insert] is 1 for an insertion, 2 for an update with another length. *)
Definition kv_store_at (cmd : kv_command) (is_insert offset : Z) (d : kv_dev) : res kv_dev :=
  d ← kv_walk cmd (store_chunk offset) (cmd_value_length cmd) d;
  if is_insert =? 1 then f ← new_mapping_entry d.(kd_ftl) cmd offset; Ok (dev_ftl f d)
  else if is_insert =? 2 then '(f, _) ← update_mapping_entry d.(kd_ftl) cmd; Ok (dev_ftl f d)
  else Ok d.

(** The result is the dword of the completion, then [*status]. *)
Definition __do_perform_kv_io (cmd : kv_command) (status : Z) (d : kv_dev) : res (kv_dev * Z * Z) :=
  entry ← get_mapping_entry d.(kd_ftl) cmd;
  let offset := entry.(me_mem_offset) in
  let length := cmd_value_length cmd in
  if cmd.(kc_opcode) =? nvme_cmd_kv_store then
    if offset =? NO_OFFSET then
      '(d, offset) ← allocate_mem_offset d cmd;
      d ← kv_store_at cmd 1 offset d;
      Ok (d, 0, status)
    else
      let is_insert := if negb (length =? entry.(me_length)) &&
                          ((length <=? SMALL_LENGTH) && (entry.(me_length) <=? SMALL_LENGTH)) then 2 else 0 in
      d ← kv_store_at cmd is_insert offset d;
      Ok (d, 0, status)
  else if cmd.(kc_opcode) =? nvme_cmd_kv_retrieve then
    if offset =? NO_OFFSET then Ok (d, 0, KV_ERR_KEY_NOT_EXIST) else
    let length := Z.min entry.(me_length) length in
    d ← kv_walk cmd (retrieve_chunk offset) length d;
    Ok (d, u32 length, status)
  else if cmd.(kc_opcode) =? nvme_cmd_kv_exist then
    Ok (d, 0, if offset =? NO_OFFSET then KV_ERR_KEY_NOT_EXIST else status)
  else if cmd.(kc_opcode) =? nvme_cmd_kv_delete then
    if offset =? NO_OFFSET then Ok (d, 0, KV_ERR_KEY_NOT_EXIST) else
    '(f, _) ← delete_mapping_entry d.(kd_ftl) cmd;
    Ok (dev_ftl f d, 0, status)
  else Ok (d, 0, status).

(** ** Batches *)

(** What fresh memory of [kmalloc] holds. *)
Context (garbage : mem).

Definition ALIGN_LEN : Z := 64.
Definition sizeof_sub_cmd_attribute : Z := 16.
Definition sizeof_batch_cmd_head : Z := 512.
Definition BATCH_KEY : Z := 20.
Definition BATCH_VALUE : Z := 4097.

(** Reading [n] bytes at [a] of an object of [size] bytes. *)
Definition buf_read (buf : mem) (size a n : Z) : res (list Z) :=
  if (0 <=? n) && (a + n <=? size) then Ok (mload buf a n) else Fault OutOfBounds.

Definition __do_perform_kv_batched_io (opcode : Z) (key : list Z) (key_len : Z) (value : list Z) (val_len : Z)
    (d : kv_dev) : res kv_dev :=
  entry ← get_mapping_entry_by_key d.(kd_ftl) key key_len;
  if negb (opcode =? nvme_cmd_kv_store) then Ok d else
  '(d, offset, is_insert) ← (if entry.(me_mem_offset) =? NO_OFFSET then
      '(d, offset) ← allocate_mem_offset_by_length d val_len; Ok (d, offset, true)
    else Ok (d, entry.(me_mem_offset), false));
  if cf.(cf_storage_size) <? offset + val_len then Fault OutOfBounds else
  let d := dev_storage (mstore d.(kd_storage) offset (take (Z.to_nat val_len) value)) d in
  if is_insert : bool then
    f ← new_mapping_entry_by_key d.(kd_ftl) key key_len val_len offset; Ok (dev_ftl f d)
  else Ok d.

(** The length of a field of a sub-payload: C division cuts towards zero. *)
Definition aligned (len : Z) : Z := (Z.quot (len - 1) ALIGN_LEN + 1) * ALIGN_LEN.

(** One sub-command: the fields of [attr[i]], the copies of key and value, the
    operation. *)
Definition batch_step (buf : mem) (length i : Z) (s : kv_dev * Z) : res (kv_dev * Z) :=
  let '(d, payload_offset) := s in
  let at_ := i * sizeof_sub_cmd_attribute in
  opcode ← buf_read buf length at_ 1;
  key_len ← buf_read buf length (at_ + 1) 1;
  val_len ← buf_read buf length (at_ + 4) 4;
  let opcode := le_decode opcode in
  let key_len := le_decode key_len in
  let val_len := s32 (le_decode val_len) in
  k ← buf_read buf length (sizeof_batch_cmd_head + payload_offset) key_len;
  key ← memcpy_head (zrepeat BATCH_KEY 0) k key_len;
  v ← buf_read buf length (sizeof_batch_cmd_head + payload_offset + aligned key_len) val_len;
  value ← memcpy_head (zrepeat BATCH_VALUE 0) v val_len;
  d ← __do_perform_kv_batched_io opcode key key_len value val_len d;
  Ok (d, payload_offset + (aligned key_len + aligned val_len + ALIGN_LEN)).

Definition __do_perform_kv_batch (cmd : kv_command) (status : Z) (d : kv_dev) : res (kv_dev * Z * Z) :=
  let length := cmd_value_length cmd in
  buf ← prp_walk kmap_list (fun _ => host_u64 d) (fun paddr o n buf => Ok (mcopy buf o d.(kd_host) paddr n))
          (kv_io_cmd_value_prp cmd 1) (kv_io_cmd_value_prp cmd 2) length garbage;
  '(d, _) ← rfold (batch_step buf length) (zrange 0 cmd.(kc_rsvd4)) (d, ALIGN_LEN);
  Ok (d, 0, status).

(** ** Iterators *)

Definition NR_ITERS : Z := 16.
Definition ITER_OPTION_OPEN : Z := 1.
Definition ITER_OPTION_CLOSE : Z := 2.
Definition ITER_END : Z := 915.

(** [iter_handle[i]]. *)
Definition get_iter (f : kv_ftl) (i : Z) : res (option kv_iter_context) :=
  h ← aget f.(iter_handle) i; of_opt Uninit h.

(** The loop over the handles: [NR_ITERS + 1] when none is free. *)
Definition free_iter_step (f : kv_ftl) (iter : Z) : res (Z + Z) :=
  if NR_ITERS <? iter then Ok (inr iter) else
  h ← get_iter f iter;
  match h with None => Ok (inr iter) | Some _ => Ok (inl (iter + 1)) end.

Definition kv_iter_open (f : kv_ftl) (cmd : kv_command) (status : Z) : res (kv_ftl * Z * Z) :=
  iter ← rloop 18 (free_iter_step f) 1;
  if NR_ITERS <? iter then Ok (f, 1, status) else
  l ← aset f.(iter_handle) iter (Some (Some (IterContext (kc_iter_val cmd) (kc_iter_bitmask cmd) garbage 0 0 false 0)));
  Ok (with_iters l f, iter, 0).

Definition kv_iter_close (f : kv_ftl) (cmd : kv_command) (status : Z) : res (kv_ftl * Z * Z) :=
  let iter := kc_iter_handle cmd in
  h ← get_iter f iter;
  match h with
  | Some _ => l ← aset f.(iter_handle) iter (Some None); Ok (with_iters l f, 0, 0)
  | None => Ok (f, 0, 0)
  end.

Definition ITER_KEY : Z := 16.
Definition ITER_BUF : Z := 1024.

(** The scan: position, bytes in the buffer, keys in it, the buffer, the end. *)
Record scan := Scan { sc_pos : Z; sc_offset : Z; sc_nr : Z; sc_buf : mem; sc_end : bool }.

Definition iter_match (handle : kv_iter_context) (e : mapping_entry) : bool :=
  Z.land (le_decode (take 4 e.(me_key))) handle.(ki_bitmask) =? Z.land handle.(ki_prefix) handle.(ki_bitmask).

Definition scan_step (f : kv_ftl) (handle : kv_iter_context) (s : scan) : res (scan + scan) :=
  if f.(hash_slots) <=? s.(sc_pos) then Ok (inr s) else
  e ← aget f.(kv_mapping_table) s.(sc_pos);
  let hit := negb (e.(me_mem_offset) =? NO_OFFSET) && iter_match handle e in
  if hit && (ITER_BUF <? s.(sc_offset) + 4 + ITER_KEY) then Ok (inr s) else
  let s := if hit then
      let buf := mstore s.(sc_buf) s.(sc_offset) (le_encode 4 ITER_KEY) in
      let buf := mstore buf (s.(sc_offset) + 4) (take (Z.to_nat ITER_KEY) e.(me_key)) in
      Scan s.(sc_pos) (s.(sc_offset) + 4 + ITER_KEY) (s.(sc_nr) + 1) buf s.(sc_end)
    else s in
  let pos := s.(sc_pos) + 1 in
  if pos =? f.(hash_slots) then Ok (inr (Scan pos s.(sc_offset) s.(sc_nr) s.(sc_buf) true))
  else Ok (inl (Scan pos s.(sc_offset) s.(sc_nr) s.(sc_buf) s.(sc_end))).

Definition kv_iter_read (cmd : kv_command) (status : Z) (d : kv_dev) : res (kv_dev * Z * Z) :=
  let f := d.(kd_ftl) in
  let iter := kc_iter_handle cmd in
  h ← get_iter f iter;
  match h with
  | None => Ok (d, 0, status)
  | Some handle =>
      s ← rloop (S (length f.(kv_mapping_table))) (scan_step f handle)
            (Scan (s32 handle.(ki_current_pos)) 4 0 handle.(ki_buf) false);
      let buf := mstore s.(sc_buf) 0 (le_encode 4 s.(sc_nr)) in
      let handle := IterContext handle.(ki_prefix) handle.(ki_bitmask) buf handle.(ki_byteswritten)
                      handle.(ki_bufoffset) handle.(ki_end) s.(sc_pos) in
      l ← aset f.(iter_handle) iter (Some (Some handle));
      d ← kv_walk cmd (fun paddr o n d => Ok (dev_host (mcopy d.(kd_host) paddr buf o n) d)) s.(sc_offset)
            (dev_ftl (with_iters l f) d);
      Ok (d, s.(sc_offset), if s.(sc_end) then ITER_END else 0)
  end.

Definition __do_perform_kv_iter_io (cmd : kv_command) (status : Z) (d : kv_dev) : res (kv_dev * Z * Z) :=
  if cmd.(kc_opcode) =? nvme_cmd_kv_iter_req then
    if negb (Z.land cmd.(kc_option) ITER_OPTION_OPEN =? 0) then
      '(f, r, status) ← kv_iter_open d.(kd_ftl) cmd status; Ok (dev_ftl f d, r, status)
    else if negb (Z.land cmd.(kc_option) ITER_OPTION_CLOSE =? 0) then
      '(f, r, status) ← kv_iter_close d.(kd_ftl) cmd status; Ok (dev_ftl f d, r, status)
    else Ok (d, 0, status)
  else if cmd.(kc_opcode) =? nvme_cmd_kv_iter_read then kv_iter_read cmd status d
  else Ok (d, 0, status).

(** ** Handlers *)

Definition kv_identify_nvme_io_cmd (cmd : kv_command) : bool := is_kv_cmd cmd.(kc_opcode).

Definition kv_perform_nvme_io_cmd (cmd : kv_command) (status : Z) (d : kv_dev) : res (kv_dev * Z * Z) :=
  if cmd.(kc_opcode) =? nvme_cmd_kv_batch then __do_perform_kv_batch cmd status d
  else if is_kv_iter_cmd cmd.(kc_opcode) then __do_perform_kv_iter_io cmd status d
  else __do_perform_kv_io cmd status d.
End kv.

(** The copy of [__schedule_io_units] with the key-value opcodes. *)
Definition kv_schedule_io_units (cf : nvmev_config) (opcode lba length nsecs_start : Z) (stat : list Z) :
    res (list Z * Z) :=
  let tm := if (opcode =? nvme_cmd_write) || (opcode =? nvme_cmd_kv_store) || (opcode =? nvme_cmd_kv_batch)
            then write_timing cf
            else if (opcode =? nvme_cmd_read) || (opcode =? nvme_cmd_kv_retrieve) then read_timing cf
            else IoTiming 0 0 0 in
  schedule_units cf tm lba length nsecs_start stat.

(** A command as its block view or its key-value view; the clock is read at each
    call. *)
Definition kv_proc_nvme_io_cmd `{CK : Clock} (cf : nvmev_config) (rw : rw_command) (cmd : kv_command)
    (ret : nvmev_result) (d : Simple.unit_dev) : res (Simple.unit_dev * nvmev_result * bool) :=
  let opcode := cmd.(kc_opcode) in
  let now := cpu_clock d.(Simple.ud_tick) in
  if (opcode =? nvme_cmd_write) || (opcode =? nvme_cmd_read) then
    '(stat, t) ← kv_schedule_io_units cf opcode rw.(rw_slba) (u32 (__cmd_io_size rw.(rw_length))) now d.(Simple.ud_stat);
    Ok (Simple.UnitDev stat (S d.(Simple.ud_tick)), Result ret.(rs_status) t, true)
  else if opcode =? nvme_cmd_flush then
    t ← __schedule_flush cf d.(Simple.ud_stat);
    Ok (d, Result ret.(rs_status) t, true)
  else if (opcode =? nvme_cmd_kv_store) || (opcode =? nvme_cmd_kv_retrieve) || (opcode =? nvme_cmd_kv_batch) then
    '(stat, t) ← kv_schedule_io_units cf opcode 0 (cmd_value_length cmd) now d.(Simple.ud_stat);
    Ok (Simple.UnitDev stat (S d.(Simple.ud_tick)), Result ret.(rs_status) t, true)
  else Ok (d, ret, true).

(** ** Life of the namespace *)

Definition KV_MAPPING_TABLE_SIZE : Z := 1073741824.
Definition KV_MAPPING_ENTRY_SIZE : Z := 48.

(** The build's choice of [ALLOCATOR_TYPE]. *)
Definition ALLOCATOR_TYPE : allocator_ops := append_only_ops.

(** [ns->ftls]: the FTL is [None] once it is freed. *)
Record kv_ns := KvNs { kn_id : Z; kn_csi : Z; kn_size : Z; kn_mapped : Z }.

(** The table of [slots] entries after [memset] and the loop: the loop leaves the
    keys zero.  The loop over the iterator handles stops short of the last one,
    which [kmalloc] leaves uninitialised. *)
Definition kv_init_table (slots : Z) : list mapping_entry :=
  zrepeat slots (MapEntry (zrepeat KEY_FIELD 0) NO_OFFSET NO_OFFSET NO_SLOT).

Definition kv_init_namespace (cf : nvmev_config) (id size mapped_addr : Z) (pl : pools) : res (kv_ns * kv_ftl * pools) :=
  pl ← alloc_init ALLOCATOR_TYPE cf.(cf_storage_size) pl;
  let slots := KV_MAPPING_TABLE_SIZE `div` KV_MAPPING_ENTRY_SIZE in
  Ok (KvNs id NVME_CSI_NVM size mapped_addr,
      KvFtl (kv_init_table slots) slots ALLOCATOR_TYPE (zrepeat 16 (Some None) ++ [None]), pl).

Definition kv_remove_namespace (ftls : option kv_ftl) : res (option kv_ftl) :=
  _ ← of_opt UseAfterFree ftls; Ok None.
