(* ===== verification/NvmeCmd.v ===== *)
(** * Commands and completions in the host's memory (nvme.h, nvme_kv.h, nvme_zns.h)

    A submission queue entry is 64 bytes of the host's memory, which the program
    reads through a union of structures; a completion queue entry is 16 bytes that
    it writes.  [cmd_*] is a field of the command at an address, and the views are
    the records that the namespaces' models take. *)

From stdpp Require Import prelude list.
From Stdlib Require Import ZArith Lia.
From S2P Require Import Prelude Mem SsdConfig Ssd ConvFtl ZnsMgmt KvFtl.

Definition NVME_COMMAND_SIZE : Z := 64.
Definition NVME_COMPLETION_SIZE : Z := 16.

(** ** Fields *)

Definition cmd_opcode (h : mem) (a : Z) : Z := get_le h a 1.
Definition cmd_command_id (h : mem) (a : Z) : Z := get_le h (a + 2) 2.
Definition cmd_nsid (h : mem) (a : Z) : Z := get_le h (a + 4) 4.
Definition cmd_prp1 (h : mem) (a : Z) : Z := get_le h (a + 24) 8.
Definition cmd_prp2 (h : mem) (a : Z) : Z := get_le h (a + 32) 8.
Definition cmd_slba (h : mem) (a : Z) : Z := get_le h (a + 40) 8.
Definition cmd_length (h : mem) (a : Z) : Z := get_le h (a + 48) 2.
Definition cmd_control (h : mem) (a : Z) : Z := get_le h (a + 50) 2.

(** ** Views *)

Definition rw_view (h : mem) (a : Z) : rw_command :=
  RwCommand (cmd_opcode h a) (cmd_slba h a) (cmd_length h a) (cmd_control h a).

Definition zns_view (h : mem) (a : Z) : zns_command :=
  ZnsCommand (cmd_opcode h a) (cmd_prp1 h a) (cmd_prp2 h a) (cmd_slba h a) (get_le h (a + 48) 4) (get_le h (a + 52) 4).

(** The key is in the last sixteen bytes. *)
Definition kv_view (h : mem) (a : Z) : kv_command :=
  KvCommand (cmd_opcode h a) (cmd_prp1 h a) (cmd_prp2 h a) (get_le h (a + 40) 4)
    (get_le h (a + 44) 1) (get_le h (a + 45) 1) (get_le h (a + 47) 1) (mload h (a + 48) 16).

(** A field depends on its bytes. *)
Lemma get_le_ext h h' a n b : (forall x, b <= x < b + 64 -> h' x = h x) -> b <= a -> a + n <= b + 64 -> get_le h' a n = get_le h a n.
Proof. intros H H1 H2. unfold get_le. f_equal. apply mload_ext. intros i Hi. apply H. lia. Qed.

Lemma rw_view_ext h h' a : (forall x, a <= x < a + 64 -> h' x = h x) -> rw_view h' a = rw_view h a.
Proof. intros H. unfold rw_view. f_equal; apply (get_le_ext _ _ _ _ a); (done || lia). Qed.
Lemma zns_view_ext h h' a : (forall x, a <= x < a + 64 -> h' x = h x) -> zns_view h' a = zns_view h a.
Proof. intros H. unfold zns_view. f_equal; apply (get_le_ext _ _ _ _ a); (done || lia). Qed.

(** [cmd->slba = x], which a zone append does. *)
Definition set_slba (a x : Z) (h : mem) : mem := mstore h (a + 40) (le_encode 8 x).

(** ** Completions *)

Record nvme_completion := NvmeCompletion {
  cqe_result0 : Z; cqe_result1 : Z; cqe_sq_head : Z; cqe_sq_id : Z; cqe_command_id : Z; cqe_status : Z
}.

(** The fields are stored with the widths of the structure. *)
Definition put_cqe (a : Z) (c : nvme_completion) (h : mem) : mem :=
  mstore h a (le_encode 4 (u32 c.(cqe_result0)) ++ le_encode 4 (u32 c.(cqe_result1)) ++
              le_encode 2 (u16 c.(cqe_sq_head)) ++ le_encode 2 (u16 c.(cqe_sq_id)) ++
              le_encode 2 (u16 c.(cqe_command_id)) ++ le_encode 2 (u16 c.(cqe_status))).

Definition get_cqe (h : mem) (a : Z) : nvme_completion :=
  NvmeCompletion (get_le h a 4) (get_le h (a + 4) 4) (get_le h (a + 8) 2) (get_le h (a + 10) 2)
    (get_le h (a + 12) 2) (get_le h (a + 14) 2).

(** ** Storing and reading back *)

Lemma get_le_app h a pre bs post :
  get_le (mstore h a (pre ++ bs ++ post)) (a + zlen pre) (zlen bs) = le_decode bs.
Proof.
  unfold get_le. f_equal. pose proof (zlen_nonneg pre). pose proof (zlen_nonneg bs). pose proof (zlen_nonneg post).
  apply zlist_eq; [by rewrite zlen_mload|]. intros i Hi. rewrite zlen_mload in Hi by done.
  rewrite zlookup_mload by done. unfold mstore. replace (a + zlen pre + i - a) with (zlen pre + i) by lia.
  rewrite zlookup_mid by done. by destruct (zlookup_lt bs i Hi) as [x ->].
Qed.

Definition narrow (c : nvme_completion) : nvme_completion :=
  NvmeCompletion (u32 c.(cqe_result0)) (u32 c.(cqe_result1)) (u16 c.(cqe_sq_head)) (u16 c.(cqe_sq_id))
    (u16 c.(cqe_command_id)) (u16 c.(cqe_status)).

Lemma u16_range x : 0 <= u16 x < 65536.
Proof. Transparent u16. by apply Z.mod_pos_bound. Opaque u16. Qed.

(** What is posted is what the host reads, in the widths of the structure. *)
Lemma get_put_cqe h a c : get_cqe (put_cqe a c h) a = narrow c.
Proof.
  unfold get_cqe, put_cqe, narrow.
  set (b0 := le_encode 4 _). set (b1 := le_encode 4 (u32 (cqe_result1 c))). set (b2 := le_encode 2 (u16 (cqe_sq_head c))).
  set (b3 := le_encode 2 (u16 (cqe_sq_id c))). set (b4 := le_encode 2 (u16 (cqe_command_id c))). set (b5 := le_encode 2 _).
  assert (zlen b0 = 4 /\ zlen b1 = 4 /\ zlen b2 = 2 /\ zlen b3 = 2 /\ zlen b4 = 2 /\ zlen b5 = 2) as (L0 & L1 & L2 & L3 & L4 & L5)
    by (unfold b0, b1, b2, b3, b4, b5; rewrite !zlen_le_encode; done).
  assert (forall pre bs post n k, zlen pre = n -> zlen bs = k -> b0 ++ b1 ++ b2 ++ b3 ++ b4 ++ b5 = pre ++ bs ++ post ->
    get_le (mstore h a (b0 ++ b1 ++ b2 ++ b3 ++ b4 ++ b5)) (a + n) k = le_decode bs) as H.
  { intros pre bs post n k <- <- ->. apply get_le_app. }
  f_equal.
  - rewrite <- (Z.add_0_r a) at 2. rewrite (H [] b0 (b1 ++ b2 ++ b3 ++ b4 ++ b5)) by done. apply le_decode_encode, u32_range.
  - rewrite (H b0 b1 (b2 ++ b3 ++ b4 ++ b5)) by done. apply le_decode_encode, u32_range.
  - rewrite (H (b0 ++ b1) b2 (b3 ++ b4 ++ b5)) by (rewrite ?zlen_app, ?(assoc_L (++)); done || lia). apply le_decode_encode, u16_range.
  - rewrite (H (b0 ++ b1 ++ b2) b3 (b4 ++ b5)) by (rewrite ?zlen_app, ?(assoc_L (++)); done || lia). apply le_decode_encode, u16_range.
  - rewrite (H (b0 ++ b1 ++ b2 ++ b3) b4 b5) by (rewrite ?zlen_app, ?(assoc_L (++)); done || lia). apply le_decode_encode, u16_range.
  - rewrite (H (b0 ++ b1 ++ b2 ++ b3 ++ b4) b5 []) by (rewrite ?zlen_app, ?app_nil_r, ?(assoc_L (++)); done || lia). apply le_decode_encode, u16_range.
Qed.

Lemma put_cqe_out c h a x : ~ (a <= x < a + NVME_COMPLETION_SIZE) -> put_cqe a c h x = h x.
Proof. intros Hx. apply mstore_out. rewrite !zlen_app, !zlen_le_encode. exact Hx. Qed.
