(* ===== verification/IoCopy.v ===== *)
(** * The copy of a command's data (io.c)

    A worker moves the data of a block command between the host's memory and the
    mapped storage, either with [memcpy], page by page along the PRP entries, or
    with the DMA engine, which is given runs of contiguous pages.  The storage is
    addressed by the offset from its start, which stands for both the virtual
    address [storage_mapped + x] and the physical one [storage_start + x].

    [pfn_valid] is the kernel's: a page it does not know is mapped by [memremap]. *)

From stdpp Require Import prelude list.
From Stdlib Require Import ZArith Lia.
From S2P Require Import Prelude Mem Prp SsdConfig Ssd ConvFtl ZnsMgmt ZnsRw IoUnits KvFtl NvmeCmd.

Record io_mem := IoMem { im_host : mem; im_store : mem }.

Definition __cmd_io_offset (slba : Z) : Z := u64 (Z.shiftl slba UNIT_LBA_BITS).

Section copy.
Context (pfn_valid : Z -> bool) (store_size : Z).

(** The list of a command, mapped by [kmap_atomic_pfn] or by [memremap].  The
    pointer that [memremap] returns has the offset in the page already; it is
    added once more, in units of eight bytes. *)
Definition map_list (l i : Z) : option Z :=
  if pfn_valid (PRP_PFN l) then kmap_list l i
  else
    let a := l + 8 * Z.land l PAGE_OFFSET_MASK + 8 * i in
    if a + 8 <=? (PRP_PFN (l + PAGE_SIZE - 1) + 1) * PAGE_SIZE then Some a else None.

(** The address that the data of an entry is at: for a page that [memremap] maps
    the offset is counted twice. *)
Definition map_data (paddr : Z) : Z :=
  if pfn_valid (PRP_PFN paddr) then paddr else paddr + Z.land paddr PAGE_OFFSET_MASK.

Definition is_write_cmd (opcode : Z) : bool := (opcode =? nvme_cmd_write) || (opcode =? nvme_cmd_zone_append).

Definition has_data (opcode : Z) : bool := is_write_cmd opcode || (opcode =? nvme_cmd_read).

(** [n] bytes between the host's address [a] and the storage at [s]. *)
Definition move_data (opcode a s n : Z) (m : io_mem) : res io_mem :=
  if negb (has_data opcode) then Ok m
  else if store_size <? s + n then Fault OutOfBounds
  else if is_write_cmd opcode then Ok (IoMem m.(im_host) (mcopy m.(im_store) s m.(im_host) a n))
  else Ok (IoMem (mcopy m.(im_host) a m.(im_store) s n) m.(im_store)).

(** The command at the address [cmd]; [mapped] is where each namespace starts.  The
    fields of the command are read once. *)
Definition __do_perform_io (mapped : list Z) (cmd : Z) (m : io_mem) : res io_mem :=
  let h := m.(im_host) in
  let offset := __cmd_io_offset (cmd_slba h cmd) in
  let length := __cmd_io_size (cmd_length h cmd) in
  base ← (if has_data (cmd_opcode h cmd) then aget mapped (u32 (cmd_nsid h cmd - 1)) else Ok 0);
  prp_walk map_list (fun m => u64_at m.(im_host))
    (fun paddr o n m => move_data (cmd_opcode h cmd) (map_data paddr) (base + (offset + o)) n m)
    (cmd_prp1 h cmd) (cmd_prp2 h cmd) length m.

(** ** The DMA engine *)

(** [static u64 paddr_list[513]], of which the element 0 is not used. *)
Definition PADDR_LIST : Z := 513.

(** The first loop: the entries of the command and their number. *)
Definition collect_paddr (paddr o n : Z) (s : Z * list Z) : res (Z * list Z) :=
  let prp_offs := s.1 + 1 in
  l ← aset s.2 prp_offs paddr; Ok (prp_offs, l).

(** [for (prp_offs++; prp_offs <= num_prps; prp_offs++)]: a run is extended while the
    next page follows; the state is [prp_offs] and [page_size]. *)
Definition extend_step (num_prps : Z) (l : list Z) (s : Z * Z) : res (Z * Z + Z * Z) :=
  let '(prp_offs, page_size) := s in
  if prp_offs <=? num_prps then
    a ← aget l prp_offs; b ← aget l (prp_offs - 1);
    if a =? u64 (b + PAGE_SIZE) then Ok (inl (prp_offs + 1, page_size + PAGE_SIZE)) else Ok (inr s)
  else Ok (inr s).

Record dma_state := DmaState { dm_remaining : Z; dm_offset : Z; dm_prp_offs : Z; dm_mem : io_mem }.

(** One run.  [ioat_dma_submit] copies between two physical addresses; that of the
    storage does not depend on the namespace. *)
Definition dma_step (opcode num_prps : Z) (l : list Z) (s : dma_state) : res (dma_state + io_mem) :=
  if s.(dm_remaining) =? 0 then Ok (inr s.(dm_mem)) else
  paddr ← aget l s.(dm_prp_offs);
  let page_size := Z.min s.(dm_remaining) PAGE_SIZE in
  let mem_offs := Z.land paddr PAGE_OFFSET_MASK in
  let page_size := if negb (mem_offs =? 0) && (PAGE_SIZE <? page_size + mem_offs)
                   then PAGE_SIZE - mem_offs else page_size in
  '(prp_offs, page_size) ← rloop (S (S (Z.to_nat num_prps))) (extend_step num_prps l) (s.(dm_prp_offs) + 1, page_size);
  let io_size := Z.min s.(dm_remaining) page_size in
  m ← move_data opcode paddr s.(dm_offset) io_size s.(dm_mem);
  Ok (inl (DmaState (s.(dm_remaining) - io_size) (s.(dm_offset) + io_size) prp_offs m)).

Definition __do_perform_io_using_dma (cmd : Z) (m : io_mem) : res io_mem :=
  let h := m.(im_host) in
  let offset := __cmd_io_offset (cmd_slba h cmd) in
  let length := __cmd_io_size (cmd_length h cmd) in
  '(num_prps, l) ← prp_walk map_list (fun _ => u64_at h) collect_paddr
      (cmd_prp1 h cmd) (cmd_prp2 h cmd) length (0, zrepeat PADDR_LIST 0);
  rloop (S (Z.to_nat length)) (dma_step (cmd_opcode h cmd) num_prps l) (DmaState length offset 1 m).
End copy.

(** ** What a copy does *)

(** Pages that [memremap] maps have no offset. *)
Record mapping_ok (pfn_valid : Z -> bool) (prp1 prp2 : Z) : Prop := {
  mp_first : pfn_valid (PRP_PFN prp1) = true \/ prp1 `mod` PAGE_SIZE = 0;
  mp_list : pfn_valid (PRP_PFN prp2) = true \/ prp2 `mod` PAGE_SIZE = 0
}.

(** The memories after the first [o] bytes of a transfer between the buffer, whose
    byte [j] is at [addr j], and the storage from [s]. *)
Record moved (opcode : Z) (addr : Z -> Z) (s : Z) (m : io_mem) (o : Z) (m' : io_mem) : Prop := {
  mv_none : has_data opcode = false -> m' = m;
  mv_write : is_write_cmd opcode = true -> m'.(im_host) = m.(im_host) /\
    forall x, m'.(im_store) x = if decide (s <= x < s + o) then m.(im_host) (addr (x - s)) else m.(im_store) x;
  mv_read : is_write_cmd opcode = false -> opcode = nvme_cmd_read -> m'.(im_store) = m.(im_store) /\
    delivered addr (fun j => m.(im_store) (s + j)) m.(im_host) o m'.(im_host)
}.

Lemma moved_0 opcode addr s m : moved opcode addr s m 0 m.
Proof. split; [done| |]; intros; (split; [done|]); [|apply delivered_0]. intros x. by rewrite decide_False by lia. Qed.

(** Two transfers that moved the same bytes agree on both memories. *)
Lemma moved_agree opcode addr s m n m1 m2 :
  moved opcode addr s m n m1 -> moved opcode addr s m n m2 ->
  (forall x, m1.(im_host) x = m2.(im_host) x) /\ (forall x, m1.(im_store) x = m2.(im_store) x).
Proof.
  intros [A1 A2 A3] [B1 B2 B3]. destruct (has_data opcode) eqn:E; [|by rewrite A1, B1].
  unfold has_data in E. destruct (is_write_cmd opcode) eqn:Ew.
  - destruct (A2 eq_refl) as [-> Ha], (B2 eq_refl) as [-> Hb]. split; [done|]. intros x. by rewrite Ha, Hb.
  - apply Z.eqb_eq in E. destruct (A3 eq_refl E) as (-> & Ha), (B3 eq_refl E) as (-> & Hb). split; [|done]. by eapply delivered_agree.
Qed.

Section transfer.
Context (store_size opcode s length : Z) (addr : Z -> Z) (m : io_mem).
Context (Hs : s + length <= store_size).
Context (Hinj : forall o o', 0 <= o < length -> 0 <= o' < length -> addr o = addr o' -> o = o').

(** One more chunk of the buffer. *)
Lemma move_step o a n m' :
  moved opcode addr s m o m' -> 0 <= o -> 0 < n -> o + n <= length ->
  (forall j, 0 <= j < n -> addr (o + j) = a + j) ->
  okp (move_data store_size opcode a (s + o) n m') (moved opcode addr s m (o + n)).
Proof using Hs Hinj.
  intros [H1 H2 H3] Ho Hn Hl Ha. unfold move_data. destruct (has_data opcode) eqn:E; simpl; [|split; [by intros; apply H1| |]].
  2: { intros Hw. unfold has_data in E. by rewrite Hw in E. }
  2: { intros _ ->. by unfold has_data in E; rewrite Z.eqb_refl, orb_true_r in E. }
  rewrite (proj2 (Z.ltb_ge _ _)) by lia. destruct (is_write_cmd opcode) eqn:Ew; simpl.
  - destruct (H2 eq_refl) as [Eh Es]. split; [congruence| |congruence]. intros _. simpl. split; [done|]. intros x.
    unfold mcopy. rewrite Es, Eh. destruct (decide (s + o <= x < s + o + n)).
    + rewrite decide_True by lia. f_equal. rewrite <- Ha by lia. f_equal. lia.
    + destruct (decide (s <= x < s + o)), (decide (s <= x < s + (o + n))); (done || lia).
  - pose proof E as E'. unfold has_data in E. rewrite Ew in E. apply Z.eqb_eq in E. destruct (H3 eq_refl E) as (Es & Hd).
    split; [congruence..|]. intros _ _. simpl. rewrite Es. split; [done|].
    apply (deliver_copy _ length); try done. intros j Hj. f_equal. lia.
Qed.
End transfer.

(** ** The copy with [memcpy] *)

(** Where a command's data goes: the offset of its first byte in the storage, and
    the host's address of each byte. *)
Definition io_start (base : Z) (h : mem) (cmd : Z) : Z := base + __cmd_io_offset (cmd_slba h cmd).
Definition io_length (h : mem) (cmd : Z) : Z := __cmd_io_size (cmd_length h cmd).
Definition io_addr (h : mem) (cmd o : Z) : Z :=
  prp_addr (u64_at h) (cmd_prp1 h cmd) (cmd_prp2 h cmd) (io_length h cmd) o.

Lemma io_length_range h cmd : 0 <= io_length h cmd.
Proof. apply u64_range. Qed.

Section perform.
Context (pfn_valid : Z -> bool) (store_size base cmd : Z) (m : io_mem).
Let h := m.(im_host).
Let op := cmd_opcode h cmd.
Let prp1 := cmd_prp1 h cmd.
Let prp2 := cmd_prp2 h cmd.
Let length := io_length h cmd.
Let s := io_start base h cmd.
Context (Hb : prp_buffer_ok h prp1 prp2 length) (Hm : mapping_ok pfn_valid prp1 prp2).
Context (Hs : s + length <= store_size).

Lemma map_list_ok i : 0 <= i -> prp2 `mod` PAGE_SIZE + 8 * (i + 1) <= PAGE_SIZE ->
  map_list pfn_valid prp2 i = Some (prp2 + 8 * i).
Proof using Hm.
  clear s Hs. intros Hi Hp. unfold map_list. destruct (pfn_valid _) eqn:E; [by apply kmap_list_ok|].
  destruct (mp_list _ _ _ Hm) as [?|Ha]; [congruence|]. rewrite page_offset, Ha, Z.mul_0_r, Z.add_0_r.
  rewrite (proj2 (Z.leb_le _ _)); [done|].
  assert (PRP_PFN (prp2 + PAGE_SIZE - 1) * PAGE_SIZE = prp2) as E'.
  { pose proof (Z.div_mod prp2 PAGE_SIZE ltac:(done)) as Hd. rewrite Ha in Hd.
    pose proof (pfn_split (prp2 + PAGE_SIZE - 1)) as Hq.
    replace ((prp2 + PAGE_SIZE - 1) `mod` PAGE_SIZE) with (PAGE_SIZE - 1) in Hq; [lia|].
    replace (prp2 + PAGE_SIZE - 1) with (PAGE_SIZE - 1 + prp2 `div` PAGE_SIZE * PAGE_SIZE) by lia. by rewrite Z.mod_add. }
  unfold PAGE_SIZE in *. lia.
Qed.

(** The list is read as it was before the transfer. *)
Lemma list_kept o m' i :
  moved op (io_addr h cmd) s m o m' -> o <= length -> PAGE_SIZE < length - prp_first prp1 length ->
  0 <= i -> PAGE_SIZE * i < length - prp_first prp1 length ->
  u64_at m'.(im_host) (prp2 + 8 * i) = u64_at h (prp2 + 8 * i).
Proof using Hb.
  intros [H1 H2 H3] Ho Hg Hi1 Hi2. destruct (has_data op) eqn:E; [|by rewrite H1].
  unfold has_data in E. destruct (is_write_cmd op) eqn:Ew; [by destruct (H2 eq_refl) as [-> _]|].
  apply Z.eqb_eq in E. destruct (H3 eq_refl E) as (_ & Hd). by eapply list_delivered.
Qed.

Lemma io_addr_0 : 0 < length -> io_addr h cmd 0 = prp1.
Proof using.
  clear s Hs Hb Hm. intros Hl. unfold io_addr, prp_addr. fold prp1 length. unfold prp_first, PAGE_SIZE.
  pose proof (Z.mod_pos_bound prp1 4096 ltac:(done)). rewrite (proj2 (Z.ltb_lt _ _)) by lia. lia.
Qed.

Lemma perform_io_ok mapped :
  (has_data op = true -> mapped !! u32 (cmd_nsid h cmd - 1) = Some base) -> (has_data op = false -> base = 0) ->
  okp (__do_perform_io pfn_valid store_size mapped cmd m) (moved op (io_addr h cmd) s m length).
Proof using All.
  intros Hn Hn0. unfold __do_perform_io. fold h op. okstep. apply (okp_mono _ (fun b => b = base)).
  { destruct (has_data op) eqn:E; [by rewrite (aget_Some _ _ _ (Hn eq_refl))|by rewrite Hn0]. }
  intros ? ->. fold prp1 prp2. pose proof (io_length_range h cmd) as Hl. fold length in Hl.
  apply (okp_mono _ (fun m' => length <= length /\ moved op (io_addr h cmd) s m length m')); [|by intros ? [_ ?]].
  apply (walk_ok _ _ _ (u64_at h) prp1 prp2 length (fun o m' => o <= length /\ moved op (io_addr h cmd) s m o m')).
  - apply (pb_prp _ _ _ _ Hb).
  - done.
  - apply map_list_ok.
  - intros o m' i [Ho Hmv] Hg Hi1 Hi2. by eapply list_kept.
  - intros a o n m' [_ Hmv] Hn1 Ho Hol En Hal Ha. fold (io_addr h cmd) in Ha.
    assert (a = io_addr h cmd o) as Ea by (specialize (Ha 0 ltac:(lia)); unfold io_addr; fold prp1 prp2 length; rewrite Z.add_0_r in Ha; lia).
    assert (map_data pfn_valid a = a) as ->.
    { unfold map_data. destruct (pfn_valid (PRP_PFN a)) eqn:E; [done|]. rewrite page_offset.
      destruct Hal as [H0|H0]; [|lia]. rewrite H0 in Ea. rewrite Ea, io_addr_0 in E |- * by lia.
      destruct (mp_first _ _ _ Hm) as [?|H1]; [congruence|lia]. }
    replace (base + (__cmd_io_offset (cmd_slba h cmd) + o)) with (s + o) by (unfold s, io_start; lia).
    eapply okp_mono; [apply (move_step store_size op s length (io_addr h cmd) m); try done; apply (pb_inj _ _ _ _ Hb)|].
    intros m2 Hm2. split; [lia|done].
  - split; [done|apply moved_0].
Qed.

(** ** The copy with the DMA engine

    The entry [i] of the collected list is the page of the bytes from [entry_start i]. *)

Let n1 := PAGE_SIZE - prp1 `mod` PAGE_SIZE.
Definition entry_start (i : Z) : Z := if i =? 1 then 0 else n1 + (i - 2) * PAGE_SIZE.

Record entry_ok (i a : Z) : Prop := {
  en_start : entry_start i < length;
  en_first : i = 1 -> a = prp1;
  en_rest : i <> 1 -> a `mod` PAGE_SIZE = 0;
  en_addr j : 0 <= j < Z.min (length - entry_start i) (PAGE_SIZE - a `mod` PAGE_SIZE) ->
    io_addr h cmd (entry_start i + j) = a + j
}.

Definition collected (o : Z) (st : Z * list Z) : Prop :=
  0 <= st.1 /\ zlen st.2 = PADDR_LIST /\ o = Z.min length (entry_start (st.1 + 1)) /\
  forall i, 1 <= i <= st.1 -> exists a, st.2 !! i = Some a /\ entry_ok i a.

Lemma entry_start_S i : 1 <= i -> entry_start (i + 1) = n1 + (i - 1) * PAGE_SIZE.
Proof using. clear s Hs Hb Hm. intros Hi. unfold entry_start. rewrite (proj2 (Z.eqb_neq _ _)) by lia. f_equal. lia. Qed.

Context (Hfit : prp1 `mod` PAGE_SIZE + length <= (PADDR_LIST - 1) * PAGE_SIZE).

Lemma collect_paddr_ok :
  okp (prp_walk (map_list pfn_valid) (fun _ => u64_at h) collect_paddr prp1 prp2 length (0, zrepeat PADDR_LIST 0))
    (collected length).
Proof using Hb Hm Hfit.
  clear s Hs. pose proof (io_length_range h cmd) as Hl. fold length in Hl. pose proof (Z.mod_pos_bound prp1 PAGE_SIZE ltac:(done)) as Hm1.
  apply (walk_ok _ _ _ (u64_at h) prp1 prp2 length collected).
  - apply (pb_prp _ _ _ _ Hb).
  - done.
  - apply map_list_ok.
  - done.
  - intros a o n [cnt l] (Hc & Hlen & Ho & He) Hn Ho0 Hol En Hal Ha. simpl in *. fold (io_addr h cmd) in Ha.
    assert (a = io_addr h cmd o) as Ea by (specialize (Ha 0 ltac:(lia)); unfold io_addr; fold prp1 prp2 length; rewrite Z.add_0_r in Ha; lia).
    assert (entry_start (cnt + 1) = o) as Es by lia.
    assert (entry_ok (cnt + 1) a) as Hen.
    { split; [lia| | |].
      - intros E. rewrite Ea. rewrite <- (io_addr_0 ltac:(lia)). f_equal. rewrite <- Es. by rewrite E.
      - intros E. destruct Hal as [H0|H0]; [|done]. rewrite entry_start_S in Es by lia. unfold n1, PAGE_SIZE in *. lia.
      - rewrite Es, <- En. apply Ha. }
    assert (cnt + 1 < PADDR_LIST) as Hcnt.
    { destruct (decide (cnt = 0)) as [->|]; [done|]. rewrite entry_start_S in Es by lia. unfold n1, PADDR_LIST, PAGE_SIZE in *. lia. }
    unfold collect_paddr. simpl. rewrite aset_Some by lia. unfold collected; simpl. split; [lia|]. split; [by rewrite zlen_zinsert|]. split.
    + rewrite entry_start_S by lia. destruct (decide (cnt = 0)) as [->|Hc0].
      * simpl in Es. subst o. rewrite (en_first _ _ Hen eq_refl) in En. unfold n1, entry_start in *. simpl in En. simpl. lia.
      * rewrite (en_rest _ _ Hen) in En by lia. rewrite entry_start_S in Es by lia. lia.
    + intros i Hi. destruct (decide (i = cnt + 1)) as [->|Hne].
      * exists a. rewrite zlookup_zinsert_eq by lia. done.
      * rewrite zlookup_zinsert_ne by lia. apply He. lia.
  - split; [done|]. split; [done|]. split; [simpl; unfold entry_start; simpl; lia|]. simpl. intros i Hi. lia.
Qed.

Section runs.
Context (cnt : Z) (l : list Z) (Hc : collected length (cnt, l)).
Context (Hwide : forall i a, 1 <= i <= cnt -> l !! i = Some a -> 0 <= a < 2 ^ 64 - PAGE_SIZE).

Lemma entry_at i : 1 <= i <= cnt -> exists a, l !! i = Some a /\ entry_ok i a.
Proof using Hc. destruct Hc as (_ & _ & _ & H). apply H. Qed.

(** The inner loop stops at the first page that does not follow. *)
Lemma extend_ok p a sz :
  1 <= p <= cnt -> l !! p = Some a ->
  okp (rloop (S (S (Z.to_nat cnt))) (extend_step cnt l) (p + 1, sz)) (fun '(q, ps) =>
    p + 1 <= q <= cnt + 1 /\ ps = sz + (q - p - 1) * PAGE_SIZE /\
    forall i, p <= i < q -> l !! i = Some (a + (i - p) * PAGE_SIZE)).
Proof using Hc Hwide.
  clear s Hs. intros Hp Ha.
  apply (rloop_inv _ (fun '(q, ps) => p + 1 <= q <= cnt + 1 /\ ps = sz + (q - p - 1) * PAGE_SIZE /\
    forall i, p <= i < q -> l !! i = Some (a + (i - p) * PAGE_SIZE)) (fun '(q, _) => cnt + 1 - q)).
  - intros [q ps] (? & _). lia.
  - intros [q ps] (Hq & -> & Hl). unfold extend_step. destruct (q <=? cnt) eqn:E; [apply Z.leb_le in E|by simpl].
    destruct (entry_at q ltac:(lia)) as (x & Hx & _). rewrite (aget_Some _ _ _ Hx), bind_Ok.
    pose proof (Hl (q - 1) ltac:(lia)) as Hy. rewrite (aget_Some _ _ _ Hy), bind_Ok. pose proof (Hwide (q - 1) _ ltac:(lia) Hy) as Hw.
    rewrite u64_small by (unfold PAGE_SIZE in *; lia).
    destruct (_ =? _) eqn:Ex; [apply Z.eqb_eq in Ex|by simpl]. simpl. split; [|lia]. split; [lia|]. split; [lia|].
    intros i Hi. destruct (decide (i = q)) as [->|]; [|apply Hl; lia]. rewrite Hx. f_equal. lia.
  - split; [lia|]. split; [lia|]. intros i Hi. replace i with p by lia. rewrite Ha. f_equal. lia.
  - lia.
Qed.

(** A run of pages that follow each other is one piece of the buffer. *)
Lemma run_ok p a q :
  1 <= p <= cnt -> p + 1 <= q <= cnt + 1 -> (forall i, p <= i < q -> l !! i = Some (a + (i - p) * PAGE_SIZE)) ->
  let sz := Z.min (length - entry_start p) (PAGE_SIZE - a `mod` PAGE_SIZE) + (q - p - 1) * PAGE_SIZE in
  let n := Z.min (length - entry_start p) sz in
  0 < n /\ entry_start p + n = Z.min length (entry_start q) /\
  forall j, 0 <= j < n -> io_addr h cmd (entry_start p + j) = a + j.
Proof using Hc.
  clear s Hs. intros Hp Hq Hl sz n. pose proof (Hl p ltac:(lia)) as Ha. rewrite Z.sub_diag, Z.mul_0_l, Z.add_0_r in Ha.
  destruct (entry_at p Hp) as (a' & Ha' & Hen). rewrite Ha in Ha'. injection Ha' as <-.
  pose proof (Z.mod_pos_bound a PAGE_SIZE ltac:(done)) as Hma. pose proof (en_start _ _ Hen) as Hst.
  assert (entry_start (p + 1) = entry_start p + (PAGE_SIZE - a `mod` PAGE_SIZE)) as Hnext.
  { rewrite entry_start_S by lia. destruct (decide (p = 1)) as [->|Hp1].
    - rewrite (en_first _ _ Hen eq_refl). unfold entry_start, n1. simpl. lia.
    - rewrite (en_rest _ _ Hen Hp1). unfold entry_start. rewrite (proj2 (Z.eqb_neq _ _)) by done. lia. }
  destruct (decide (q = p + 1)) as [->|Hq1].
  { replace sz with (Z.min (length - entry_start p) (PAGE_SIZE - a `mod` PAGE_SIZE)) in n by (unfold sz; lia).
    split; [lia|]. split; [rewrite Hnext; lia|]. intros j Hj. apply (en_addr _ _ Hen). lia. }
  assert (a `mod` PAGE_SIZE = 0) as Ham.
  { destruct (entry_at (p + 1) ltac:(lia)) as (b & Hb' & Hen'). rewrite (Hl (p + 1)) in Hb' by lia. injection Hb' as <-.
    pose proof (en_rest _ _ Hen' ltac:(lia)) as H. replace (a + (p + 1 - p) * PAGE_SIZE) with (a + 1 * PAGE_SIZE) in H by lia.
    by rewrite Z.mod_add in H. }
  assert (forall i, p <= i <= cnt + 1 -> entry_start i = entry_start p + (i - p) * PAGE_SIZE) as Hsi.
  { intros i Hi. destruct (decide (i = p)) as [->|]; [lia|]. replace i with (i - 1 + 1) by lia.
    rewrite entry_start_S by lia. rewrite entry_start_S in Hnext by lia. lia. }
  assert (entry_start (p + 1) < length) as Hlt by (destruct (entry_at (p + 1) ltac:(lia)) as (b & _ & Hen'); apply (en_start _ _ Hen')).
  rewrite Ham in *. split; [unfold n, sz, PAGE_SIZE in *; lia|]. split; [rewrite (Hsi q) by lia; unfold n, sz; lia|]. intros j Hj.
  pose proof (Z.div_mod j PAGE_SIZE ltac:(done)) as Hdm. pose proof (Z.mod_pos_bound j PAGE_SIZE ltac:(done)) as Hjm.
  destruct (ex_intro (fun i => i = p + j `div` PAGE_SIZE) _ eq_refl) as [i Hi]. assert (0 <= j `div` PAGE_SIZE) by (apply Z.div_pos; done || lia).
  assert (i < q) as Hiq by (unfold n, sz, PAGE_SIZE in *; lia).
  destruct (entry_at i ltac:(lia)) as (b & Hb' & Hen'). rewrite (Hl i) in Hb' by lia. injection Hb' as <-.
  pose proof (en_addr _ _ Hen' (j `mod` PAGE_SIZE)) as Hj'. rewrite (Hsi i) in Hj' by lia.
  replace (entry_start p + j) with (entry_start p + (i - p) * PAGE_SIZE + j `mod` PAGE_SIZE) by lia. rewrite Hj'; [lia|].
  replace ((a + (i - p) * PAGE_SIZE) `mod` PAGE_SIZE) with 0 by (by rewrite Z.mod_add). lia.
Qed.
End runs.

(** The whole transfer, for the namespace at the start of the storage. *)
Context (Hbase : base = 0).
Context (Hrange : forall o, 0 <= o < length -> 0 <= io_addr h cmd o < 2 ^ 64 - PAGE_SIZE).

Definition dma_at (cnt : Z) (st : dma_state) : Prop :=
  exists o, st.(dm_remaining) = length - o /\ st.(dm_offset) = s + o /\ 1 <= st.(dm_prp_offs) <= cnt + 1 /\
    o = Z.min length (entry_start st.(dm_prp_offs)) /\ 0 <= o /\ moved op (io_addr h cmd) s m o st.(dm_mem).

Lemma dma_step_ok cnt l st :
  collected length (cnt, l) -> dma_at cnt st ->
  okp (dma_step store_size op cnt l st) (fun r =>
    match r with
    | inl st' => dma_at cnt st' /\ st'.(dm_remaining) < st.(dm_remaining)
    | inr m' => moved op (io_addr h cmd) s m length m'
    end).
Proof using All.
  intros Hc (o & Er & Eo & Hp & Ho & Ho0 & Hm'). unfold dma_step. rewrite Er.
  destruct (length - o =? 0) eqn:E0; [apply Z.eqb_eq in E0|apply Z.eqb_neq in E0].
  { simpl. by replace length with o by lia. }
  assert (o = entry_start (dm_prp_offs st)) as Es by lia.
  assert (dm_prp_offs st <= cnt) as Hp2.
  { destruct Hc as (_ & _ & Hl & _). simpl in Hl. destruct (decide (dm_prp_offs st = cnt + 1)) as [E|]; [|lia]. rewrite E in *. lia. }
  assert (forall i a, 1 <= i <= cnt -> l !! i = Some a -> 0 <= a < 2 ^ 64 - PAGE_SIZE) as Hwide.
  { intros i a Hi Ha. destruct (entry_at cnt l Hc i Hi) as (a' & Ha' & Hen). rewrite Ha in Ha'. injection Ha' as <-.
    pose proof (en_start _ _ Hen) as H1. pose proof (Z.mod_pos_bound a PAGE_SIZE ltac:(done)) as H2.
    pose proof (en_addr _ _ Hen 0 ltac:(lia)) as H3. rewrite !Z.add_0_r in H3. rewrite <- H3. apply Hrange. split; [|done].
    unfold entry_start, n1. destruct (i =? 1) eqn:E1; [done|apply Z.eqb_neq in E1]. pose proof (Z.mod_pos_bound prp1 PAGE_SIZE ltac:(done)). unfold PAGE_SIZE in *. lia. }
  destruct (entry_at cnt l Hc (dm_prp_offs st) ltac:(lia)) as (a & Ha & Hen).
  rewrite (aget_Some _ _ _ Ha), bind_Ok, page_offset. rewrite chunk_size by (by apply Z.mod_pos_bound).
  okstep. eapply okp_mono; [apply (extend_ok cnt l Hc Hwide (dm_prp_offs st) a); [lia|done]|].
  intros [q ps] (Hq & -> & Hrun). rewrite Es.
  destruct (run_ok cnt l Hc (dm_prp_offs st) a q ltac:(lia) Hq Hrun) as (Hn & Hend & Haddr).
  set (n := Z.min _ (_ + _)) in *. okstep. rewrite Eo, Es.
  eapply okp_mono; [apply (move_step store_size op s length (io_addr h cmd) m Hs (pb_inj _ _ _ _ Hb) _ a n); try (done || lia)|].
  { by rewrite <- Es. }
  intros m2 Hm2. simpl. split; [|lia]. exists (entry_start (dm_prp_offs st) + n). simpl.
  split; [lia|]. split; [lia|]. split; [lia|]. split; [done|]. split; [lia|done].
Qed.

Lemma using_dma_ok :
  okp (__do_perform_io_using_dma pfn_valid store_size cmd m) (moved op (io_addr h cmd) s m length).
Proof using All.
  pose proof (io_length_range h cmd) as Hl. fold length in Hl.
  unfold __do_perform_io_using_dma. okstep. eapply okp_mono; [apply collect_paddr_ok|]. intros [cnt l] Hc.
  apply (rloop_inv _ (dma_at cnt) (fun st => st.(dm_remaining))).
  - intros st (o & -> & _ & _ & -> & _). lia.
  - intros st Hst. by apply dma_step_ok.
  - exists 0. simpl. split; [unfold length, io_length; fold h; lia|]. split; [unfold s, io_start; rewrite Hbase; fold h; lia|].
    pose proof (proj1 Hc). simpl in *. split; [lia|]. split; [unfold entry_start; simpl; lia|]. split; [done|apply moved_0].
  - simpl. fold h. fold (io_length h cmd). fold length. lia.
Qed.
End perform.
