(* ===== verification/Dma.v ===== *)
(** * Copies by the DMA engine (dma.c)

    The module takes a channel of the kernel's DMA engine by name, asks it for copies
    and waits for each.  The engine is a parameter, the class [DmaEngine] of the
    kernel's functions that dma.c calls; [DmaLaws] is the documented behaviour that
    the properties rely on: a channel is given to one user at a time, and a copy that
    is complete has copied. *)

From stdpp Require Import prelude list strings.
From Stdlib Require Import ZArith Lia.
From S2P Require Import Prelude Mem.
Open Scope Z_scope.

(** ** The kernel *)

Definition ENOMEM : Z := 12.
Definition EBUSY : Z := 16.
Definition DMA_EINVAL : Z := 22.

Inductive dma_status := DMA_COMPLETE | DMA_IN_PROGRESS | DMA_PAUSED | DMA_ERROR | DMA_OUT_OF_ORDER.
#[global] Instance dma_status_eq_dec : EqDecision dma_status.
Proof. solve_decision. Defined.

(** What dma.c reads of [struct dma_chan] and of its device: [dma_chan_name],
    [dev_name], and the two capabilities. *)
Record dma_chan := DmaChan { dma_chan_name : string; chan_dev_name : string; has_memcpy : bool; has_no_order : bool }.
#[global] Instance dma_chan_eq_dec : EqDecision dma_chan.
Proof. solve_decision. Defined.

(** [available] are the channels that have no user, [phys] is what the engine copies in.
    [device_prep_dma_memcpy] and [tx_submit] are the functions of a channel's device;
    the descriptor between them is a number, and a cookie below zero is the error.
    [wait_event] is [wait_event_freezable_timeout]: whether the callback came before
    the timeout. *)
Class DmaEngine := {
  de_state : Type;
  available : de_state -> list dma_chan;
  phys : de_state -> mem;
  dma_request_channel : (dma_chan -> bool) -> de_state -> option dma_chan * de_state;
  dma_release_channel : dma_chan -> de_state -> de_state;
  device_prep_dma_memcpy : dma_chan -> Z -> Z -> Z -> bool -> de_state -> option Z * de_state;
  tx_submit : dma_chan -> Z -> de_state -> Z * de_state;
  dma_sync_wait : dma_chan -> Z -> de_state -> dma_status * de_state;
  dma_async_issue_pending : dma_chan -> de_state -> de_state;
  wait_event : dma_chan -> Z -> de_state -> bool * de_state;
  dma_async_is_tx_complete : dma_chan -> Z -> de_state -> dma_status * de_state;
  dmaengine_terminate_sync : dma_chan -> de_state -> de_state;
  strim : string -> string
}.

Definition CHANNEL_NAME_LEN : Z := 20.

(** ** The state *)

Record ioat_dma_params := DmaParams {
  pa_buf_size : Z; pa_channel : string; pa_device : string; pa_max_channels : Z; pa_timeout : Z; pa_transfer_size : Z; pa_polled : bool
}.
Record ioat_dma_info := DmaInfo { di_params : ioat_dma_params; di_channels : list dma_chan; di_nr_channels : Z; di_last_error : Z }.

(** [dma_thread]: the channel, [NULL] before one is added, and [test_done.done]. *)
Record ioat_dma_thread := DmaThread { dt_chan : option dma_chan; dt_done : bool }.

(** The variables of the file. *)
Record dma_dev `{DmaEngine} := DmaDev { dd_info : ioat_dma_info; dd_thread : ioat_dma_thread; test_channel : string; dd_engine : de_state }.

Section dma.
Context `{DE : DmaEngine}.

Definition test_buf_size : Z := 4096.
Definition test_device : string := "".
Definition max_channels : Z := 0.
Definition timeout : Z := 3000.
Definition transfer_size : Z := 1024.
Definition polled : bool := true.

Definition no_params : ioat_dma_params := DmaParams 0 "" "" 0 0 0 false.
Definition initial_dma (e : de_state) : dma_dev := DmaDev _ (DmaInfo no_params [] 0 0) (DmaThread None false) "" e.

Definition with_info (i : ioat_dma_info) (d : dma_dev) : dma_dev := DmaDev _ i d.(dd_thread) d.(test_channel) d.(dd_engine).
Definition with_thread (t : ioat_dma_thread) (d : dma_dev) : dma_dev := DmaDev _ d.(dd_info) t d.(test_channel) d.(dd_engine).
Definition with_engine (e : de_state) (d : dma_dev) : dma_dev := DmaDev _ d.(dd_info) d.(dd_thread) d.(test_channel) e.
Definition with_params (p : ioat_dma_params) (i : ioat_dma_info) : ioat_dma_info := DmaInfo p i.(di_channels) i.(di_nr_channels) i.(di_last_error).
Definition with_error (r : Z) (d : dma_dev) : dma_dev :=
  with_info (DmaInfo d.(dd_info).(di_params) d.(dd_info).(di_channels) d.(dd_info).(di_nr_channels) r) d.

(** ** A copy *)

(** The wait for the copy: its status, and whether it is done. *)
Definition submit_wait (p : bool) (chan : dma_chan) (cookie : Z) (e : de_state) : dma_status * bool * de_state :=
  if p then
    let '(status, e) := dma_sync_wait chan cookie e in
    (status, bool_decide (status = DMA_COMPLETE), dmaengine_terminate_sync chan e)
  else
    let '(d, e) := wait_event chan cookie (dma_async_issue_pending chan e) in
    let '(status, e) := dma_async_is_tx_complete chan cookie e in
    (status, d, e).

Definition ioat_dma_submit (src_addr dst_addr size : Z) (d : dma_dev) : res (dma_dev * Z) :=
  chan ← of_opt NullDeref d.(dd_thread).(dt_chan);
  let p := d.(dd_info).(di_params).(pa_polled) in
  let out d ret := Ok (with_engine (if ret =? 0 then d.(dd_engine) else dmaengine_terminate_sync chan d.(dd_engine)) d, ret) in
  let '(tx, e) := device_prep_dma_memcpy chan dst_addr src_addr (u32 size) (negb p) d.(dd_engine) in
  match tx with
  | None => out (with_engine e d) (- ENOMEM)
  | Some tx =>
      let '(cookie, e) := tx_submit chan tx e in
      if cookie <? 0 then out (with_thread (DmaThread (Some chan) false) (with_engine e d)) (- ENOMEM) else
      let '(status, dn, e) := submit_wait p chan cookie e in
      let d := with_thread (DmaThread (Some chan) dn) (with_engine e d) in
      if negb dn then out d (- ENOMEM)
      else if bool_decide (status <> DMA_COMPLETE) && negb (chan.(has_no_order) && bool_decide (status = DMA_OUT_OF_ORDER))
      then out d (- ENOMEM)
      else out d 0
  end.

(** ** Channels *)

Definition ioat_dma_match_channel (params : ioat_dma_params) (chan : dma_chan) : bool :=
  if decide (params.(pa_channel) = "") then true else bool_decide (chan.(dma_chan_name) = params.(pa_channel)).
Definition ioat_dma_match_device (params : ioat_dma_params) (chan : dma_chan) : bool :=
  if decide (params.(pa_device) = "") then true else bool_decide (chan.(chan_dev_name) = params.(pa_device)).
Definition filter_chan (params : ioat_dma_params) (chan : dma_chan) : bool :=
  ioat_dma_match_channel params chan && ioat_dma_match_device params chan.

Definition without_polling (p : ioat_dma_params) : ioat_dma_params :=
  DmaParams p.(pa_buf_size) p.(pa_channel) p.(pa_device) p.(pa_max_channels) p.(pa_timeout) p.(pa_transfer_size) false.

Definition ioat_dma_add_channel (chan : dma_chan) (d : dma_dev) : dma_dev * Z :=
  let i := d.(dd_info) in
  let p := i.(di_params) in
  let p := if chan.(has_no_order) && p.(pa_polled) then without_polling p else p in
  let t := if chan.(has_memcpy) then DmaThread (Some chan) d.(dd_thread).(dt_done) else d.(dd_thread) in
  (with_thread t (with_info (DmaInfo p (i.(di_channels) ++ [chan]) (u32 (i.(di_nr_channels) + 1)) i.(di_last_error)) d), 0).

(** The mask asks for [DMA_MEMCPY]. *)
Definition request_step (d : dma_dev) : res (dma_dev + dma_dev) :=
  let params := d.(dd_info).(di_params) in
  let '(chan, e) := dma_request_channel (fun c => c.(has_memcpy) && filter_chan params c) d.(dd_engine) in
  let d := with_engine e d in
  match chan with
  | None => Ok (inr d)
  | Some chan =>
      let '(d, r) := ioat_dma_add_channel chan d in
      if negb (r =? 0) then Ok (inr (with_engine (dma_release_channel chan d.(dd_engine)) d))
      else if negb (d.(dd_info).(di_params).(pa_max_channels) =? 0) &&
              (d.(dd_info).(di_params).(pa_max_channels) <=? d.(dd_info).(di_nr_channels)) then Ok (inr d)
      else Ok (inl d)
  end.

Definition request_channels (d : dma_dev) : res dma_dev := rloop (S (length (available d.(dd_engine)))) request_step d.

Definition add_threaded_dma (d : dma_dev) : res dma_dev :=
  let p := DmaParams test_buf_size (strim d.(test_channel)) (strim test_device) max_channels timeout transfer_size polled in
  request_channels (with_info (with_params p d.(dd_info)) d).

Definition ioat_dma_chan_set (val : string) (d : dma_dev) : res (dma_dev * Z) :=
  if CHANNEL_NAME_LEN <=? Z.of_nat (String.length val) then Fault BugOn else
  let d := DmaDev _ d.(dd_info) d.(dd_thread) val d.(dd_engine) in
  let name := strim val in
  let finish r d := Ok (with_error r d, r) in
  if existsb (fun c => bool_decide (c.(dma_chan_name) = name)) d.(dd_info).(di_channels) then finish (- EBUSY) d else
  d ← add_threaded_dma d;
  match last d.(dd_info).(di_channels) with
  | None => finish (- EBUSY) d
  | Some dtc => if bool_decide (dtc.(dma_chan_name) <> name) && bool_decide (name <> "") then finish (- DMA_EINVAL) d else finish 0 d
  end.

Definition ioat_dma_cleanup (d : dma_dev) : dma_dev :=
  let release chan e := dma_release_channel chan (dmaengine_terminate_sync chan e) in
  let e := foldl (fun e c => release c e) d.(dd_engine) d.(dd_info).(di_channels) in
  DmaDev _ (DmaInfo d.(dd_info).(di_params) [] 0 d.(dd_info).(di_last_error)) d.(dd_thread) d.(test_channel) e.
End dma.
