(* ===== verification/Io.v ===== *)
(** * Dispatch, completion and the I/O workers (io.c)

    The dispatcher takes the commands of a submission queue in the order of the
    ring, hands each to its namespace and puts it in the queue of a worker; a
    worker walks its queue, moves the data of each command and posts its
    completion when its time has come.  The functions are those of io.c; one pass
    of [nvmev_io_worker] is cut into steps (start, visit, next, interrupts), so that
    the dispatcher can run between them.

    What a namespace does with a command is behind the class [Backend], which
    IoBackends.v gives an instance of for each of the four. *)

From stdpp Require Import prelude list.
From Stdlib Require Import ZArith Lia.
From S2P Require Import Prelude Mem Prp SsdConfig Ssd ConvFtl IoUnits NvmeCmd IoQueue IoCopy.

(** ** The namespaces

    [proc_io_cmd], [identify_io_cmd] and [perform_io_cmd] are the pointers of
    [struct nvmev_ns], given the host's memory and the address of the command.
    [take_scheduled] takes the calls of [schedule_internal_operation] out of the
    state, which records them. *)

Class Backend := {
  bk_ns : Type;
  bk_world : Type;
  KV_PROTOTYPE_BUILD : bool;
  __get_wallclock : bk_world -> bk_world * Z;
  get_local_clock : bk_world -> bk_world * Z;
  proc_io_cmd : bk_ns -> mem -> Z -> Z -> Z -> nvmev_result -> bk_world ->
    res (bk_ns * bk_world * mem * nvmev_result * bool);
  take_scheduled : bk_world -> list internal_op * bk_world;
  release_buffer : option Z -> Z -> bk_world -> res bk_world;
  identify_io_cmd : bk_ns -> mem -> Z -> bool;
  perform_io_cmd : bk_ns -> Z -> Z -> bk_world -> io_mem -> res (bk_world * io_mem * Z * Z)
}.

(** ** The state *)

Record nvmev_sq_stat := SqStat {
  nr_dispatched : Z; nr_dispatch : Z; nr_in_flight : Z; max_nr_in_flight : Z; total_io : Z
}.

(** [sq_pages] and [cq_pages] are the addresses of the pages of a queue. *)
Record nvmev_submission_queue := SubmissionQueue {
  sq_cqid : Z; sq_queue_size : Z; sq_stat : nvmev_sq_stat; sq_pages : list Z
}.

Record nvmev_completion_queue := CompletionQueue {
  cq_irq_vector : Z; cq_irq_enabled : bool; cq_interrupt_ready : bool; cq_queue_size : Z;
  cq_phase : Z; cq_head : Z; cq_tail : Z; cq_pages : list Z
}.

(** The variables [curr] and [delta] of a worker. *)
Record io_thread := IoThread { th_curr : Z; th_delta : Z }.

(** [dv_mapped] is where each namespace starts in the storage; [dv_irqs] records the
    calls of [nvmev_signal_irq]. *)
Record io_dev `{Backend} := IoDev {
  dv_workers : list io_worker; dv_io_worker_turn : Z; dv_threads : list io_thread;
  dv_sqes : list (option nvmev_submission_queue); dv_cqes : list (option nvmev_completion_queue);
  dv_nr_cq : Z; dv_ns : list bk_ns; dv_mapped : list Z; dv_world : bk_world; dv_mem : io_mem; dv_irqs : list Z
}.

Section io.
Context `{BK : Backend} `{QC : QueueConfig}.

Definition dv_with_workers (l : list io_worker) (d : io_dev) : io_dev :=
  IoDev _ l d.(dv_io_worker_turn) d.(dv_threads) d.(dv_sqes) d.(dv_cqes) d.(dv_nr_cq) d.(dv_ns) d.(dv_mapped)
    d.(dv_world) d.(dv_mem) d.(dv_irqs).
Definition dv_with_turn (t : Z) (d : io_dev) : io_dev :=
  IoDev _ d.(dv_workers) t d.(dv_threads) d.(dv_sqes) d.(dv_cqes) d.(dv_nr_cq) d.(dv_ns) d.(dv_mapped)
    d.(dv_world) d.(dv_mem) d.(dv_irqs).
Definition dv_with_threads (l : list io_thread) (d : io_dev) : io_dev :=
  IoDev _ d.(dv_workers) d.(dv_io_worker_turn) l d.(dv_sqes) d.(dv_cqes) d.(dv_nr_cq) d.(dv_ns) d.(dv_mapped)
    d.(dv_world) d.(dv_mem) d.(dv_irqs).
Definition dv_with_sqes (l : list (option nvmev_submission_queue)) (d : io_dev) : io_dev :=
  IoDev _ d.(dv_workers) d.(dv_io_worker_turn) d.(dv_threads) l d.(dv_cqes) d.(dv_nr_cq) d.(dv_ns) d.(dv_mapped)
    d.(dv_world) d.(dv_mem) d.(dv_irqs).
Definition dv_with_cqes (l : list (option nvmev_completion_queue)) (d : io_dev) : io_dev :=
  IoDev _ d.(dv_workers) d.(dv_io_worker_turn) d.(dv_threads) d.(dv_sqes) l d.(dv_nr_cq) d.(dv_ns) d.(dv_mapped)
    d.(dv_world) d.(dv_mem) d.(dv_irqs).
Definition dv_with_ns (l : list bk_ns) (d : io_dev) : io_dev :=
  IoDev _ d.(dv_workers) d.(dv_io_worker_turn) d.(dv_threads) d.(dv_sqes) d.(dv_cqes) d.(dv_nr_cq) l d.(dv_mapped)
    d.(dv_world) d.(dv_mem) d.(dv_irqs).
Definition dv_with_world (w : bk_world) (d : io_dev) : io_dev :=
  IoDev _ d.(dv_workers) d.(dv_io_worker_turn) d.(dv_threads) d.(dv_sqes) d.(dv_cqes) d.(dv_nr_cq) d.(dv_ns) d.(dv_mapped)
    w d.(dv_mem) d.(dv_irqs).
Definition dv_with_mem (m : io_mem) (d : io_dev) : io_dev :=
  IoDev _ d.(dv_workers) d.(dv_io_worker_turn) d.(dv_threads) d.(dv_sqes) d.(dv_cqes) d.(dv_nr_cq) d.(dv_ns) d.(dv_mapped)
    d.(dv_world) m d.(dv_irqs).
Definition dv_with_irqs (l : list Z) (d : io_dev) : io_dev :=
  IoDev _ d.(dv_workers) d.(dv_io_worker_turn) d.(dv_threads) d.(dv_sqes) d.(dv_cqes) d.(dv_nr_cq) d.(dv_ns) d.(dv_mapped)
    d.(dv_world) d.(dv_mem) l.

Definition dv_host (d : io_dev) : mem := d.(dv_mem).(im_host).
Definition dv_with_host (h : mem) (d : io_dev) : io_dev := dv_with_mem (IoMem h d.(dv_mem).(im_store)) d.

Definition upd_worker (i : Z) (f : io_worker -> res io_worker) (d : io_dev) : res io_dev :=
  l ← amod d.(dv_workers) i f; Ok (dv_with_workers l d).

(** ** Queues in the host's memory *)

Definition NR_SQE_PER_PAGE : Z := PAGE_SIZE `div` NVME_COMMAND_SIZE.
Definition NR_CQE_PER_PAGE : Z := PAGE_SIZE `div` NVME_COMPLETION_SIZE.

(** The addresses of [sq_entry(i)] and [cq_entry(i)]. *)
Definition sq_entry (sq : nvmev_submission_queue) (i : Z) : res Z :=
  page ← aget sq.(sq_pages) (i `div` NR_SQE_PER_PAGE); Ok (page + NVME_COMMAND_SIZE * (i `mod` NR_SQE_PER_PAGE)).
Definition cq_entry (cq : nvmev_completion_queue) (i : Z) : res Z :=
  page ← aget cq.(cq_pages) (i `div` NR_CQE_PER_PAGE); Ok (page + NVME_COMPLETION_SIZE * (i `mod` NR_CQE_PER_PAGE)).

Definition get_sq (d : io_dev) (sqid : Z) : res nvmev_submission_queue :=
  q ← aget d.(dv_sqes) sqid; of_opt NullDeref q.
Definition get_cq (d : io_dev) (cqid : Z) : res nvmev_completion_queue :=
  q ← aget d.(dv_cqes) cqid; of_opt NullDeref q.
Definition set_sq (sqid : Z) (sq : nvmev_submission_queue) (d : io_dev) : res io_dev :=
  l ← aset d.(dv_sqes) sqid (Some sq); Ok (dv_with_sqes l d).
Definition set_cq (cqid : Z) (cq : nvmev_completion_queue) (d : io_dev) : res io_dev :=
  l ← aset d.(dv_cqes) cqid (Some cq); Ok (dv_with_cqes l d).

(** ** Requests *)

(** [config.nr_io_workers] is the number of workers. *)
Definition nr_io_workers (d : io_dev) : Z := zlen d.(dv_workers).

Definition __get_io_worker (d : io_dev) (sqid : Z) : res Z := cmod (u32 (sqid - 1)) (nr_io_workers d).

(** The worker and the entry, or [None] when the queue of the worker is full. *)
Definition __allocate_work_queue_entry (d : io_dev) (sqid : Z) : res (option (io_dev * Z * Z)) :=
  io_worker_turn ← __get_io_worker d sqid;
  worker ← aget d.(dv_workers) io_worker_turn;
  r ← allocate_entry worker;
  match r with
  | None => Ok None
  | Some (worker, e) =>
      let next := u32 (io_worker_turn + 1) in
      let next := if next =? nr_io_workers d then 0 else next in
      l ← aset d.(dv_workers) io_worker_turn worker;
      Ok (Some (dv_with_turn next (dv_with_workers l d), io_worker_turn, e))
  end.

(** The fields of a request.  What is not listed keeps the value of the entry's last
    use. *)
Definition fill_command (sqid cqid sq_entry command_id nsecs_start nsecs_enqueue : Z) (ret : nvmev_result)
    (w : io_work) : io_work :=
  IoWork sqid cqid sq_entry command_id nsecs_start ret.(rs_nsecs_target) nsecs_enqueue false false
    ret.(rs_status) w.(iw_result0) w.(iw_result1) false w.(iw_write_buffer) w.(iw_buffs_to_release) NO_ENTRY NO_ENTRY.

Definition fill_internal (sqid now nsecs_target : Z) (write_buffer : option Z) (buffs_to_release : Z) (w : io_work) : io_work :=
  IoWork sqid w.(iw_cqid) w.(iw_sq_entry) w.(iw_command_id) now nsecs_target now true false
    w.(iw_status) w.(iw_result0) w.(iw_result1) true write_buffer buffs_to_release NO_ENTRY NO_ENTRY.

Definition __enqueue_io_req (sqid cqid sq_entry_id nsecs_start : Z) (ret : nvmev_result) (d : io_dev) : res io_dev :=
  sq ← get_sq d sqid;
  r ← __allocate_work_queue_entry d sqid;
  match r with
  | None => Ok d
  | Some (d, worker, entry) =>
      a ← sq_entry sq sq_entry_id;
      let '(world, now) := get_local_clock d.(dv_world) in
      let fill := fill_command sqid cqid sq_entry_id (cmd_command_id (dv_host d) a) nsecs_start now ret in
      upd_worker worker (fun k => k ← upd_work entry fill k; __insert_req_sorted entry k ret.(rs_nsecs_target))
        (dv_with_world world d)
  end.

Definition schedule_internal_operation (op : internal_op) (d : io_dev) : res io_dev :=
  r ← __allocate_work_queue_entry d op.(io_sqid);
  match r with
  | None => Ok d
  | Some (d, worker, entry) =>
      let '(world, now) := get_local_clock d.(dv_world) in
      let fill := fill_internal op.(io_sqid) now op.(io_nsecs_target) op.(io_buffer) op.(io_buffs) in
      upd_worker worker (fun k => k ← upd_work entry fill k; __insert_req_sorted entry k op.(io_nsecs_target))
        (dv_with_world world d)
  end.

Definition __reclaim_completed_reqs (d : io_dev) : res io_dev :=
  rfold (fun turn => upd_worker turn reclaim_worker) (zrange 0 (nr_io_workers d)) d.

(** ** Dispatch *)

(** The size of the command, or [None] when the namespace refuses it.  The internal
    operations that the namespace schedules are put in the queue when it returns. *)
Definition __nvmev_proc_io (sqid sq_entry_id : Z) (d : io_dev) : res (io_dev * option Z) :=
  sq ← get_sq d sqid;
  let '(world, nsecs_start) := __get_wallclock d.(dv_world) in
  a ← sq_entry sq sq_entry_id;
  let nsid := if KV_PROTOTYPE_BUILD then 0 else u32 (cmd_nsid (dv_host d) a - 1) in
  ns ← aget d.(dv_ns) nsid;
  '(ns, world, h, ret, ok) ← proc_io_cmd ns (dv_host d) a sqid nsecs_start (Result NVME_SC_SUCCESS nsecs_start) world;
  let '(ops, world) := take_scheduled world in
  let d := dv_with_ns (<[nsid := ns]> d.(dv_ns)) (dv_with_world world (dv_with_host h d)) in
  d ← rfold schedule_internal_operation ops d;
  if negb ok then Ok (d, None) else
  let io_size := __cmd_io_size (cmd_length (dv_host d) a) in
  d ← __enqueue_io_req sqid sq.(sq_cqid) sq_entry_id nsecs_start ret d;
  d ← __reclaim_completed_reqs d;
  Ok (d, Some io_size).

Definition dispatched (io_size : Z) (st : nvmev_sq_stat) : nvmev_sq_stat :=
  SqStat (u32 (st.(nr_dispatched) + 1)) st.(nr_dispatch) (u32 (st.(nr_in_flight) + 1)) st.(max_nr_in_flight)
    (u64 (st.(total_io) + io_size)).

Definition sq_with_stat (st : nvmev_sq_stat) (sq : nvmev_submission_queue) : nvmev_submission_queue :=
  SubmissionQueue sq.(sq_cqid) sq.(sq_queue_size) st sq.(sq_pages).

Record sq_loop := SqLoop { sl_seq : Z; sl_entry : Z; sl_dev : io_dev }.

Definition sq_step (sqid num_proc : Z) (s : sq_loop) : res (sq_loop + sq_loop) :=
  if num_proc <=? s.(sl_seq) then Ok (inr s) else
  '(d, io_size) ← __nvmev_proc_io sqid s.(sl_entry) s.(sl_dev);
  match io_size with
  | None => Ok (inr (SqLoop s.(sl_seq) s.(sl_entry) d))
  | Some io_size =>
      sq ← get_sq d sqid;
      let entry := if s.(sl_entry) + 1 =? sq.(sq_queue_size) then 0 else s.(sl_entry) + 1 in
      d ← set_sq sqid (sq_with_stat (dispatched io_size sq.(sq_stat)) sq) d;
      Ok (inl (SqLoop (s.(sl_seq) + 1) entry d))
  end.

Definition nvmev_proc_io_sq (sqid new_db old_db : Z) (d : io_dev) : res (io_dev * Z) :=
  q ← aget d.(dv_sqes) sqid;
  match q with
  | None => Ok (d, old_db)
  | Some sq =>
      let num_proc := s32 (new_db - old_db) in
      let num_proc := if num_proc <? 0 then s32 (num_proc + sq.(sq_queue_size)) else num_proc in
      s ← rloop (S (Z.to_nat num_proc)) (sq_step sqid num_proc) (SqLoop 0 old_db d);
      let d := s.(sl_dev) in
      sq ← get_sq d sqid;
      let st := sq.(sq_stat) in
      let st := SqStat st.(nr_dispatched) (u32 (st.(nr_dispatch) + 1)) st.(nr_in_flight)
                  (u32 (Z.max (s32 st.(max_nr_in_flight)) (s32 st.(nr_in_flight)))) st.(total_io) in
      d ← set_sq sqid (sq_with_stat st sq) d;
      latest_db ← cmod (old_db + s.(sl_seq)) sq.(sq_queue_size);
      Ok (d, latest_db)
  end.

(** The loop over the entries that the host has consumed: the entry is read before
    the end of the ring is checked. *)
Definition cq_step (cq : nvmev_completion_queue) (new_db : Z) (s : Z * io_dev) : res (Z * io_dev + io_dev) :=
  let '(i, d) := s in
  if i =? new_db then Ok (inr d) else
  a ← cq_entry cq i;
  let sqid := get_le (dv_host d) (a + 10) 2 in
  if cq.(cq_queue_size) <=? i then Ok (inl (0, d)) else
  q ← aget d.(dv_sqes) sqid;
  match q with
  | None => Ok (inl (i + 1, d))
  | Some sq =>
      let st := sq.(sq_stat) in
      let st := SqStat st.(nr_dispatched) st.(nr_dispatch) (u32 (st.(nr_in_flight) - 1)) st.(max_nr_in_flight) st.(total_io) in
      d ← set_sq sqid (sq_with_stat st sq) d;
      Ok (inl (i + 1, d))
  end.

Definition cq_with_tail (tail : Z) (cq : nvmev_completion_queue) : nvmev_completion_queue :=
  CompletionQueue cq.(cq_irq_vector) cq.(cq_irq_enabled) cq.(cq_interrupt_ready) cq.(cq_queue_size)
    cq.(cq_phase) cq.(cq_head) tail cq.(cq_pages).

Definition nvmev_proc_io_cq (cqid new_db old_db : Z) (d : io_dev) : res io_dev :=
  cq ← get_cq d cqid;
  d ← rloop (S (S (S (Z.to_nat cq.(cq_queue_size))))) (cq_step cq new_db) (old_db, d);
  let tail := if new_db =? -1 then cq.(cq_queue_size) - 1 else new_db - 1 in
  set_cq cqid (cq_with_tail tail cq) d.

(** ** Completion *)

(** The entry is written at [cq_head], which then moves on; at the end of the ring
    the phase changes. *)
Definition fill_cq (cq : nvmev_completion_queue) (w : io_work) (h : mem) : res (nvmev_completion_queue * mem) :=
  a ← cq_entry cq cq.(cq_head);
  let status := Z.lor cq.(cq_phase) (u32 (Z.shiftl w.(iw_status) 1)) in
  let h := put_cqe a (NvmeCompletion w.(iw_result0) w.(iw_result1) w.(iw_sq_entry) w.(iw_sqid) w.(iw_command_id) status) h in
  let last := cq.(cq_head) + 1 =? cq.(cq_queue_size) in
  Ok (CompletionQueue cq.(cq_irq_vector) cq.(cq_irq_enabled) true cq.(cq_queue_size)
        (if last then (if cq.(cq_phase) =? 0 then 1 else 0) else cq.(cq_phase))
        (if last then 0 else cq.(cq_head) + 1) cq.(cq_tail) cq.(cq_pages), h).

Definition __fill_cq_result (w : io_work) (d : io_dev) : res io_dev :=
  cq ← get_cq d w.(iw_cqid);
  '(cq, h) ← fill_cq cq w (dv_host d);
  set_cq w.(iw_cqid) cq (dv_with_host h d).

(** ** The worker thread *)

Section worker.
Context (pfn_valid : Z -> bool) (store_size : Z) (io_using_dma : bool).

Definition upd_thread (i : Z) (f : io_thread -> io_thread) (d : io_dev) : res io_dev :=
  l ← amod d.(dv_threads) i (fun t => Ok (f t)); Ok (dv_with_threads l d).

(** The start of a pass: the two clocks are compared, and [curr] is the head of the
    queue. *)
Definition worker_start (i : Z) (d : io_dev) : res io_dev :=
  let '(world, wall) := __get_wallclock d.(dv_world) in
  let '(world, local) := get_local_clock world in
  k ← aget d.(dv_workers) i;
  upd_thread i (fun _ => IoThread k.(wk_io_seq) (wall - local)) (dv_with_world world d).

(** The data of a request.  In the key-value build a key-value command is carried
    out here, and sets the status and the result of the request. *)
Definition worker_copy (i curr : Z) (w : io_work) (d : io_dev) : res io_dev :=
  if w.(iw_is_internal) then Ok d else
  sq ← get_sq d w.(iw_sqid);
  a ← sq_entry sq w.(iw_sq_entry);
  if io_using_dma then m ← __do_perform_io_using_dma pfn_valid store_size a d.(dv_mem); Ok (dv_with_mem m d)
  else
    ns ← (if KV_PROTOTYPE_BUILD then n ← aget d.(dv_ns) 0; Ok (Some n) else Ok None);
    match ns with
    | Some ns =>
        if identify_io_cmd ns (dv_host d) a then
          '(world, m, result0, status) ← perform_io_cmd ns a w.(iw_status) d.(dv_world) d.(dv_mem);
          upd_worker i (upd_work curr (with_answer status result0)) (dv_with_mem m (dv_with_world world d))
        else m ← __do_perform_io pfn_valid store_size d.(dv_mapped) a d.(dv_mem); Ok (dv_with_mem m d)
    | None => m ← __do_perform_io pfn_valid store_size d.(dv_mapped) a d.(dv_mem); Ok (dv_with_mem m d)
    end.

Definition worker_work (i curr : Z) (d : io_dev) : res io_work :=
  k ← aget d.(dv_workers) i; get_work k curr.

(** The body of the walk, at the entry [curr]. *)
Definition worker_visit (i : Z) (d : io_dev) : res io_dev :=
  th ← aget d.(dv_threads) i;
  let curr := th.(th_curr) in
  let '(world, local) := get_local_clock d.(dv_world) in
  let curr_nsecs := u64 (local + th.(th_delta)) in
  d ← upd_worker i (fun k => Ok (with_latest curr_nsecs k)) (dv_with_world world d);
  w ← worker_work i curr d;
  if w.(iw_is_completed) then Ok d else
  d ← (if w.(iw_is_copied) then Ok d else
         d ← worker_copy i curr w d;
         upd_worker i (upd_work curr (fun w => with_flags true w.(iw_is_completed) w)) d);
  w ← worker_work i curr d;
  if w.(iw_nsecs_target) <=? curr_nsecs then
    d ← (if w.(iw_is_internal) then
           world ← release_buffer w.(iw_write_buffer) w.(iw_buffs_to_release) d.(dv_world); Ok (dv_with_world world d)
         else __fill_cq_result w d);
    upd_worker i (upd_work curr (fun w => with_flags w.(iw_is_copied) true w)) d
  else Ok d.

(** [curr = w->next]. *)
Definition worker_next (i : Z) (d : io_dev) : res io_dev :=
  th ← aget d.(dv_threads) i;
  w ← worker_work i th.(th_curr) d;
  upd_thread i (fun t => IoThread w.(iw_next) t.(th_delta)) d.

Definition worker_at_end (i : Z) (d : io_dev) : res bool :=
  th ← aget d.(dv_threads) i; Ok (th.(th_curr) =? NO_ENTRY).

Definition cq_without_interrupt (cq : nvmev_completion_queue) : nvmev_completion_queue :=
  CompletionQueue cq.(cq_irq_vector) cq.(cq_irq_enabled) false cq.(cq_queue_size)
    cq.(cq_phase) cq.(cq_head) cq.(cq_tail) cq.(cq_pages).

(** The interrupts of the completion queues that are the worker's.  The lock is
    free, since only this worker takes it. *)
Definition irq_step (i qidx : Z) (d : io_dev) : res io_dev :=
  k ← aget d.(dv_workers) i;
  q ← aget d.(dv_cqes) qidx;
  turn ← __get_io_worker d qidx;
  if negb (k.(wk_id) =? turn) then Ok d else
  match q with
  | Some cq =>
      if cq.(cq_irq_enabled) && cq.(cq_interrupt_ready) then
        d ← set_cq qidx (cq_without_interrupt cq) d;
        Ok (dv_with_irqs (d.(dv_irqs) ++ [cq.(cq_irq_vector)]) d)
      else Ok d
  | None => Ok d
  end.

Definition worker_irqs (i : Z) (d : io_dev) : res io_dev :=
  rfold (irq_step i) (zrange 1 (d.(dv_nr_cq) + 1)) d.

(** One iteration of the thread that nothing interrupts. *)
Definition walk_step (i : Z) (d : io_dev) : res (io_dev + io_dev) :=
  e ← worker_at_end i d;
  if (e : bool) then Ok (inr d) else d ← worker_visit i d; d ← worker_next i d; Ok (inl d).

Definition nvmev_io_worker (i : Z) (d : io_dev) : res io_dev :=
  d ← worker_start i d;
  d ← rloop (S (Z.to_nat NR_MAX_PARALLEL_IO)) (walk_step i) d;
  worker_irqs i d.
End worker.

(** ** Life of the workers *)

Definition NVMEV_IO_WORKER_INIT (nr : Z) (d : io_dev) : res io_dev :=
  l ← rfold (fun worker_id l => k ← init_worker worker_id; Ok (l ++ [k])) (zrange 0 nr) [];
  Ok (dv_with_turn 0 (dv_with_threads (zrepeat nr (IoThread NO_ENTRY 0)) (dv_with_workers l d))).

(** The release of the workers is that of the value. *)
Definition NVMEV_IO_WORKER_FINAL (d : io_dev) : io_dev :=
  dv_with_threads [] (dv_with_workers [] d).
End io.
