(* ===== verification/IoBackends.v ===== *)
(** * The namespaces behind the dispatcher

    Instances of [Backend]: what the function pointers of a namespace are in a
    build.  For the conventional FTL and the zoned namespace the state beside the
    namespaces is the shared hardware of Ssd.v; for the simple and the key-value namespaces it is that of
    the I/O units, with the key-value store itself. *)

From stdpp Require Import prelude list.
From Stdlib Require Import ZArith Lia.
From S2P Require Import Prelude Mem ChannelModel SsdConfig Ssd ConvFtl ZnsFtl ZnsMgmt ZnsRw IoUnits KvAlloc KvFtl NvmeCmd IoCopy Io.

(** A reading of the local clock of the device. *)
Definition local_tick `{Clock} (h : hw) : hw * Z :=
  (Hw (S h.(hw_tick)) h.(hw_pcie) h.(hw_wbuf) h.(hw_sched), local_clock h.(hw_tick)).

(** [buffer_release] of the buffer at [b]. *)
Definition release_wbuf (b : option Z) (size : Z) (h : hw) : res hw :=
  buf ← deref h.(hw_wbuf) b;
  bufs ← store h.(hw_wbuf) b (buffer_release buf size).1;
  Ok (Hw h.(hw_tick) h.(hw_pcie) bufs h.(hw_sched)).

#[export] Instance conv_backend `{SC : SsdConfig, CC : ChanConfig, CK : Clock} : Backend := {|
  bk_ns := conv_ns;
  bk_world := hw;
  KV_PROTOTYPE_BUILD := false;
  __get_wallclock := tick;
  get_local_clock := local_tick;
  proc_io_cmd := fun ns h a sqid nsecs_start ret w =>
    '(ns, w, ret, ok) ← conv_proc_nvme_io_cmd ns (Request (rw_view h a) sqid nsecs_start) ret w;
    Ok (ns, w, h, ret, ok);
  take_scheduled := fun w => (w.(hw_sched), Hw w.(hw_tick) w.(hw_pcie) w.(hw_wbuf) []);
  release_buffer := release_wbuf;
  identify_io_cmd := fun _ _ _ => false;
  perform_io_cmd := fun _ _ _ _ _ => Fault NullDeref
|}.

(** An append leaves the block that it was given in its command; [garbage] is memory
    that was never written. *)
Definition zns_backend `{SC : SsdConfig, CC : ChanConfig, CK : Clock} (garbage : mem) : Backend := {|
  bk_ns := zns_ns;
  bk_world := hw;
  KV_PROTOTYPE_BUILD := false;
  __get_wallclock := tick;
  get_local_clock := local_tick;
  proc_io_cmd := fun ns h a sqid nsecs_start ret w =>
    '(ns, w, m, req, ret, ok) ← zns_proc_nvme_io_cmd garbage ns (ZnsRequest (zns_view h a) sqid nsecs_start) ret h w;
    Ok (ns, w, if cmd_opcode h a =? nvme_cmd_zone_append then set_slba a req.(zq_cmd).(zc_slba) m else m, ret, ok);
  take_scheduled := fun w => (w.(hw_sched), Hw w.(hw_tick) w.(hw_pcie) w.(hw_wbuf) []);
  release_buffer := release_wbuf;
  identify_io_cmd := fun _ _ _ => false;
  perform_io_cmd := fun _ _ _ _ _ => Fault NullDeref
|}.

Definition unit_wallclock `{Clock} (d : Simple.unit_dev) : Simple.unit_dev * Z :=
  (Simple.UnitDev d.(Simple.ud_stat) (S d.(Simple.ud_tick)), cpu_clock d.(Simple.ud_tick)).
Definition unit_local `{Clock} (d : Simple.unit_dev) : Simple.unit_dev * Z :=
  (Simple.UnitDev d.(Simple.ud_stat) (S d.(Simple.ud_tick)), local_clock d.(Simple.ud_tick)).

Section units.
Context `{CK : Clock} (cf : nvmev_config).

(** The simple namespace schedules nothing internal. *)
Definition simple_backend : Backend := {|
  bk_ns := Simple.simple_ns;
  bk_world := Simple.unit_dev;
  KV_PROTOTYPE_BUILD := false;
  __get_wallclock := unit_wallclock;
  get_local_clock := unit_local;
  proc_io_cmd := fun ns h a sqid nsecs_start ret w =>
    '(w, ret, ok) ← Simple.simple_proc_nvme_io_cmd cf true ns (Request (rw_view h a) sqid nsecs_start) ret w;
    Ok (ns, w, h, ret, ok);
  take_scheduled := fun w => ([], w);
  release_buffer := fun _ _ w => Ok w;
  identify_io_cmd := fun _ _ _ => false;
  perform_io_cmd := fun _ _ _ _ _ => Fault NullDeref
|}.

Record kv_world := KvWorld { kw_units : Simple.unit_dev; kw_ftl : kv_ftl; kw_pools : pools }.

Context (find_next_zero : (Z -> bool) -> Z -> Z -> Z) (garbage : mem).

Definition kv_backend : Backend := {|
  bk_ns := kv_ns;
  bk_world := kv_world;
  KV_PROTOTYPE_BUILD := true;
  __get_wallclock := fun w => let '(u, t) := unit_wallclock w.(kw_units) in (KvWorld u w.(kw_ftl) w.(kw_pools), t);
  get_local_clock := fun w => let '(u, t) := unit_local w.(kw_units) in (KvWorld u w.(kw_ftl) w.(kw_pools), t);
  proc_io_cmd := fun ns h a sqid nsecs_start ret w =>
    '(u, ret, ok) ← kv_proc_nvme_io_cmd cf (rw_view h a) (kv_view h a) ret w.(kw_units);
    Ok (ns, KvWorld u w.(kw_ftl) w.(kw_pools), h, ret, ok);
  take_scheduled := fun w => ([], w);
  release_buffer := fun _ _ w => Ok w;
  identify_io_cmd := fun _ h a => kv_identify_nvme_io_cmd (kv_view h a);
  perform_io_cmd := fun _ a status w m =>
    '(d, result0, status) ← kv_perform_nvme_io_cmd cf find_next_zero garbage (kv_view m.(im_host) a) status
        (KvDev w.(kw_ftl) w.(kw_pools) m.(im_store) m.(im_host));
    Ok (KvWorld w.(kw_units) d.(kd_ftl) d.(kd_pools), IoMem d.(kd_host) d.(kd_storage), result0, status)
|}.
End units.
