(* ===== verification/IoRun.v ===== *)
(** * Runs of the work queues

    The dispatcher and the workers share the queues.  A run is a sequence of calls
    of the functions of io.c that touch them, in any order and with any arguments,
    with anything else happening to the rest of the device in between: this covers
    every interleaving of the dispatcher with the steps of the workers.

    [run_conserves]: in every run the queues stay well formed, a worker only stands
    at requests or at entries that it passes over, and the requests that were put
    in the queue of a worker are those it has posted and those that are pending,
    each once. *)

From stdpp Require Import prelude list sorting.
From Stdlib Require Import ZArith Lia.
From S2P Require Import Prelude Mem Prp SsdConfig Ssd ConvFtl IoUnits NvmeCmd IoQueue IoInv IoCopy Io.

(** ** What a queue holds *)

Fixpoint walk_queue (k : io_worker) (fuel : nat) (e : Z) : list Z :=
  match fuel with
  | O => []
  | S n => if e =? NO_ENTRY then [] else e :: walk_queue k n (nx k e)
  end.

Definition io_list (k : io_worker) : list Z := walk_queue k (length k.(wk_work_queue)) k.(wk_io_seq).

(** The length of the free list. *)
Definition free_entries (k : io_worker) : nat :=
  length (walk_queue k (length k.(wk_work_queue)) k.(wk_free_seq)).

Inductive request :=
| RqCommand (sqid cqid sq_entry command_id nsecs_start nsecs_target : Z)
| RqInternal (sqid nsecs_target : Z) (write_buffer : option Z) (buffs_to_release : Z).

Definition view (w : io_work) : request :=
  if w.(iw_is_internal) then RqInternal w.(iw_sqid) w.(iw_nsecs_target) w.(iw_write_buffer) w.(iw_buffs_to_release)
  else RqCommand w.(iw_sqid) w.(iw_cqid) w.(iw_sq_entry) w.(iw_command_id) w.(iw_nsecs_start) w.(iw_nsecs_target).

Definition rq_target (r : request) : Z :=
  match r with RqCommand _ _ _ _ _ t => t | RqInternal _ t _ _ => t end.

(** The requests of a queue that are not completed, in its order. *)
Definition pending (k : io_worker) : list request :=
  (fun e => view (work k e)) <$> filter (fun e => completed k e = false) (io_list k).

Section views.
Context `{QC : QueueConfig}.

Lemma walk_chain k l fuel :
  fwd (nx k) l NO_ENTRY -> (forall e, e ∈ l -> (e =? NO_ENTRY) = false) -> (length l <= fuel)%nat ->
  walk_queue k fuel (first_of l) = l.
Proof using.
  revert fuel. induction l as [|e l IH]; intros fuel Hf He Hl; (destruct fuel as [|fuel]; [simpl in Hl; try lia|]; simpl); [done..|].
  rewrite He by set_solver. f_equal. destruct Hf as [-> Hf]. apply IH; [done|set_solver|simpl in Hl; lia].
Qed.

Lemma io_list_ok k fl il : queue_ok k fl il -> io_list k = il.
Proof using.
  intros Hq. unfold io_list. rewrite (qo_io_first _ _ _ Hq). apply walk_chain; [by apply (qo_io_next _ _ _ Hq)| |].
  - intros e He. apply valid_entry, (entry_range _ _ _ _ Hq). set_solver.
  - pose proof (queue_lengths _ _ _ Hq). lia.
Qed.

Lemma free_entries_ok k fl il : queue_ok k fl il -> free_entries k = length fl.
Proof using.
  intros Hq. unfold free_entries. rewrite (qo_free_first _ _ _ Hq).
  rewrite (walk_chain k fl); [done|by apply (qo_free_next _ _ _ Hq)| |].
  - intros e He. apply valid_entry, (entry_range _ _ _ _ Hq). set_solver.
  - pose proof (queue_lengths _ _ _ Hq). lia.
Qed.

Definition pend (k : io_worker) (il : list Z) : list request :=
  (fun e => view (work k e)) <$> filter (fun e => completed k e = false) il.

Lemma pending_ok k fl il : queue_ok k fl il -> pending k = pend k il.
Proof using. intros Hq. unfold pending. by rewrite (io_list_ok _ _ _ Hq). Qed.

Lemma view_fields k k' e : fields k' e = fields k e -> view (work k' e) = view (work k e).
Proof using.
  intros H. change (view (fields k' e) = view (fields k e)). by rewrite H.
Qed.

Lemma completed_fields k k' e : fields k' e = fields k e -> completed k' e = completed k e.
Proof using. intros H. exact (f_equal iw_is_completed H). Qed.

Lemma pend_ext k k' il : (forall e, e ∈ il -> fields k' e = fields k e) -> pend k' il = pend k il.
Proof using.
  unfold pend. induction il as [|e il IH]; intros H; [done|]. rewrite !filter_cons.
  assert (fields k' e = fields k e) as He by (apply H; set_solver). pose proof (completed_fields _ _ _ He) as Hc.
  specialize (IH ltac:(intros; apply H; set_solver)).
  rewrite Hc. destruct (decide (completed k e = false)); cbn [fmap list_fmap]; by rewrite IH, ?(view_fields _ _ _ He).
Qed.

Lemma pend_app k l1 l2 : pend k (l1 ++ l2) = pend k l1 ++ pend k l2.
Proof using. unfold pend. by rewrite filter_app, fmap_app. Qed.

Lemma pend_done k l : (forall e, e ∈ l -> completed k e = true) -> pend k l = [].
Proof using.
  intros H. unfold pend. induction l as [|e l IH]; [done|]. rewrite filter_cons_False by (rewrite H by set_solver; done).
  apply IH. set_solver.
Qed.

(** A new request is pending. *)
Lemma pend_submitted k fill t e fl pre post k' :
  filled fill t -> submitted k fill e fl pre post k' ->
  pend k' (pre ++ e :: post) ≡ₚ pend k (pre ++ post) ++ [view (fill (work k e))].
Proof using.
  intros Hfill (Hq & He & Ho & _). pose proof (entries_NoDup _ _ _ Hq) as Hnd.
  apply NoDup_app in Hnd as (_ & _ & Hnd). rewrite <- Permutation_middle in Hnd. apply NoDup_cons in Hnd as [Hne _].
  assert (completed k' e = false) as Hc.
  { change (iw_is_completed (fields k' e) = false). rewrite He. destruct (Hfill (work k e)) as (_ & _ & _ & H). done. }
  assert (view (work k' e) = view (fill (work k e))) as Hv.
  { change (view (fields k' e) = view (with_links 0 0 (fill (work k e)))). by rewrite He. }
  change (e :: post) with ([e] ++ post). rewrite !pend_app.
  rewrite (pend_ext k k' pre) by (intros a Ha; apply Ho; intros ->; set_solver).
  rewrite (pend_ext k k' post) by (intros a Ha; apply Ho; intros ->; set_solver).
  unfold pend at 2. rewrite filter_cons_True by done. simpl. rewrite Hv.
  rewrite <- (assoc_L (++)). f_equiv. by rewrite (comm (++) (pend k post)).
Qed.

(** Reclaiming drops nothing that is pending. *)
Lemma pend_reclaimed k k' done rest :
  same_requests k k' -> (forall a, a ∈ done -> reclaimable k a = true) -> pend k' rest = pend k (done ++ rest).
Proof using.
  intros Hs Hd. rewrite pend_app, (pend_done k done).
  - apply pend_ext. intros e _. apply (sr_fields _ _ Hs).
  - intros e He. specialize (Hd e He). unfold reclaimable in Hd. by apply andb_true_iff in Hd as [[? _]%andb_true_iff _].
Qed.

(** A request is marked: what is posted is no longer pending. *)
Lemma pend_marked k k' fl il e :
  queue_ok k fl il -> e ∈ il -> completed k e = false -> view (work k' e) = view (work k e) ->
  (forall a, a <> e -> fields k' a = fields k a) ->
  pend k il ≡ₚ (if completed k' e then [view (work k e)] else []) ++ pend k' il.
Proof using.
  intros Hq He Hc Hv Ho. pose proof (entries_NoDup _ _ _ Hq) as Hnd. apply NoDup_app in Hnd as (_ & _ & Hnd).
  apply list_elem_of_split in He as (pre & post & ->). rewrite <- Permutation_middle in Hnd. apply NoDup_cons in Hnd as [Hne _].
  change (e :: post) with ([e] ++ post). rewrite !pend_app.
  rewrite (pend_ext k k' pre) by (intros a Ha; apply Ho; intros ->; set_solver).
  rewrite (pend_ext k k' post) by (intros a Ha; apply Ho; intros ->; set_solver).
  unfold pend at 2 5. rewrite !filter_cons, !filter_nil, (decide_True _ _ Hc). destruct (completed k' e).
  - rewrite decide_False by done. simpl. by rewrite <- Permutation_middle.
  - rewrite decide_True by done. simpl. by rewrite Hv.
Qed.
End views.

(** ** The invariant of the device *)

Lemma zinsert_zinsert {A} (l : list A) (i : Z) x y : <[i := x]> (<[i := y]> l) = <[i := x]> l.
Proof. unfold insert, zinsert. case_decide; [|done]. apply list_insert_insert_eq. Qed.

Lemma zinsert_id {A} (l : list A) (i : Z) x : l !! i = Some x -> <[i := x]> l = l.
Proof.
  intros E. pose proof (zlookup_Some_range _ _ _ E). rewrite zlookup_to_nat in E by lia. rewrite zinsert_to_nat by lia.
  by apply list_insert_id.
Qed.

Section run.
Context `{BK : Backend} `{QC : QueueConfig}.
Implicit Types (d : io_dev) (k : io_worker).

Record worker_ok (i : Z) (k : io_worker) (t : io_thread) (fl il : list Z) : Prop := {
  wo_queue : queue_ok k fl il;
  wo_cursor : cursor_ok k fl il t.(th_curr);
  wo_id : k.(wk_id) = i
}.

Record queues_ok (d : io_dev) : Prop := {
  qs_nr : 0 < nr_io_workers d < 4294967296;
  qs_threads : zlen d.(dv_threads) = nr_io_workers d;
  qs_worker i k t : d.(dv_workers) !! i = Some k -> d.(dv_threads) !! i = Some t -> exists fl il, worker_ok i k t fl il
}.

Definition worker_of (d : io_dev) (sqid : Z) : Z := u32 (sqid - 1) `mod` nr_io_workers d.

Lemma get_io_worker_ok d sqid : queues_ok d -> __get_io_worker d sqid = Ok (worker_of d sqid) /\
  exists k t, d.(dv_workers) !! worker_of d sqid = Some k /\ d.(dv_threads) !! worker_of d sqid = Some t.
Proof using.
  intros Hq. pose proof (qs_nr _ Hq) as Hn. unfold __get_io_worker. split.
  { unfold cmod. by rewrite (proj2 (Z.eqb_neq _ _)) by lia. }
  pose proof (Z.mod_pos_bound (u32 (sqid - 1)) (nr_io_workers d) ltac:(lia)) as Hr.
  destruct (zlookup_lt d.(dv_workers) (worker_of d sqid)) as [k Hk]; [done|].
  destruct (zlookup_lt d.(dv_threads) (worker_of d sqid)) as [t Ht]; [by rewrite (qs_threads _ Hq)|]. eauto.
Qed.

(** One worker changes, with its thread. *)
Lemma queues_upd d d' i k t :
  queues_ok d -> d'.(dv_workers) = <[i := k]> d.(dv_workers) -> d'.(dv_threads) = <[i := t]> d.(dv_threads) ->
  (exists fl il, worker_ok i k t fl il) -> queues_ok d'.
Proof using.
  intros [H1 H2 H3] Ew Et Hk. split.
  - unfold nr_io_workers. by rewrite Ew, zlen_zinsert.
  - unfold nr_io_workers. by rewrite Ew, Et, !zlen_zinsert.
  - intros j k' t'. rewrite Ew, Et. destruct (decide (i = j)) as [->|Hij].
    + intros E1 E2. pose proof (zlookup_Some_range _ _ _ E1) as R1. pose proof (zlookup_Some_range _ _ _ E2) as R2.
      rewrite !zlen_zinsert in R1. rewrite !zlen_zinsert in R2. rewrite zlookup_zinsert_eq in E1 by done. rewrite zlookup_zinsert_eq in E2 by done. by simplify_eq.
    + rewrite !zlookup_zinsert_ne by done. apply H3.
Qed.

(** The worker of a queue gets a request. *)
Definition gets (d : io_dev) (sqid : Z) (fill : io_work -> io_work) (t : Z) (d' : io_dev) : Prop :=
  d'.(dv_threads) = d.(dv_threads) /\
  exists k k', d.(dv_workers) !! worker_of d sqid = Some k /\ submit fill t k = Ok k' /\
    d'.(dv_workers) = <[worker_of d sqid := k']> d.(dv_workers).

Lemma allocate_gets d sqid : queues_ok d ->
  exists k, d.(dv_workers) !! worker_of d sqid = Some k /\
  __allocate_work_queue_entry d sqid =
    (r ← allocate_entry k;
     Ok (match r with
         | None => None
         | Some (k', e) =>
             Some (dv_with_turn (let next := u32 (worker_of d sqid + 1) in if next =? nr_io_workers d then 0 else next)
                     (dv_with_workers (<[worker_of d sqid := k']> d.(dv_workers)) d), worker_of d sqid, e)
         end)).
Proof using.
  intros Hq. destruct (get_io_worker_ok d sqid Hq) as (E & k & t & Hk & Ht). exists k. split; [done|].
  unfold __allocate_work_queue_entry. rewrite E, bind_Ok, (aget_Some _ _ _ Hk), bind_Ok.
  destruct (allocate_entry k) as [[[k' e]|]|]; [|done..]. simpl.
  rewrite aset_Some by (by eapply zlookup_Some_range). done.
Qed.

(** The entry that is taken is filled and inserted. *)
Lemma fill_gets d d0 sqid fill t k k1 e world next :
  d.(dv_workers) !! worker_of d sqid = Some k -> allocate_entry k = Ok (Some (k1, e)) ->
  d0 = dv_with_turn next (dv_with_workers (<[worker_of d sqid := k1]> d.(dv_workers)) d) ->
  retp (upd_worker (worker_of d sqid) (fun k => k ← upd_work e fill k; __insert_req_sorted e k t) (dv_with_world world d0))
    (gets d sqid fill t).
Proof using.
  intros Hk Ha ->. unfold upd_worker. apply retp_bind. simpl. apply retp_amod. intros x y Hx Hy. apply retp_Ok.
  rewrite zlookup_zinsert_eq in Hx by (by eapply zlookup_Some_range). injection Hx as <-.
  split; [done|]. exists k, y. split; [done|]. unfold submit. rewrite Ha, bind_Ok. split; [done|]. simpl. apply zinsert_zinsert.
Qed.

Lemma full_gets d sqid fill t k :
  d.(dv_workers) !! worker_of d sqid = Some k -> allocate_entry k = Ok None -> gets d sqid fill t d.
Proof using.
  intros Hk Ha. split; [done|]. exists k, k. split; [done|]. unfold submit. rewrite Ha. split; [done|]. by rewrite zinsert_id.
Qed.

Lemma enqueue_gets d sqid cqid e start ret : queues_ok d ->
  retp (__enqueue_io_req sqid cqid e start ret d) (fun d' => exists sq fill,
    get_sq d sqid = Ok sq /\ gets d sqid fill ret.(rs_nsecs_target) d' /\ filled fill ret.(rs_nsecs_target) /\
    forall a, sq_entry sq e = Ok a -> forall w,
      view (fill w) = RqCommand sqid cqid e (cmd_command_id (dv_host d) a) start ret.(rs_nsecs_target)).
Proof using.
  intros Hq. destruct (allocate_gets d sqid Hq) as (k & Hk & E). unfold __enqueue_io_req. rewrite E.
  apply retp_bind. intros sq Hsq. destruct (allocate_entry k) as [[[k1 e1]|]|] eqn:Ea; [| |done]; cbn [mbind res_bind].
  - apply retp_bind. intros a Ha. destruct (get_local_clock _) as [world now].
    eapply retp_mono; [by eapply fill_gets|]. intros d' Hg.
    exists sq, (fill_command sqid cqid e (cmd_command_id (dv_host d) a) start now ret).
    split; [done|]. split; [done|]. split; [done|]. intros a'. rewrite Ha. by intros [= <-].
  - apply retp_Ok. exists sq, (fun w => match sq_entry sq e with
      | Ok a => fill_command sqid cqid e (cmd_command_id (dv_host d) a) start 0 ret w | Fault _ => fill_command sqid cqid e 0 start 0 ret w end).
    split; [done|]. split; [by eapply full_gets|]. split; [intros w; by destruct (sq_entry sq e)|]. by intros a -> w.
Qed.

Lemma internal_gets d op : queues_ok d ->
  retp (schedule_internal_operation op d) (fun d' => exists fill,
    gets d op.(io_sqid) fill op.(io_nsecs_target) d' /\ filled fill op.(io_nsecs_target) /\
    forall w, view (fill w) = RqInternal op.(io_sqid) op.(io_nsecs_target) op.(io_buffer) op.(io_buffs)).
Proof using.
  intros Hq. destruct (allocate_gets d op.(io_sqid) Hq) as (k & Hk & E). unfold schedule_internal_operation. rewrite E.
  destruct (allocate_entry k) as [[[k1 e1]|]|] eqn:Ea; [| |done]; cbn [mbind res_bind].
  - destruct (get_local_clock _) as [world now]. eapply retp_mono; [by eapply fill_gets|]. intros d' Hg.
    exists (fill_internal op.(io_sqid) now op.(io_nsecs_target) op.(io_buffer) op.(io_buffs)). by split.
  - apply retp_Ok. exists (fill_internal op.(io_sqid) 0 op.(io_nsecs_target) op.(io_buffer) op.(io_buffs)).
    split; [by eapply full_gets|]. done.
Qed.

Definition has_room (k : io_worker) : bool :=
  match allocate_entry k with Ok (Some _) => true | _ => false end.

(** One worker gets a request: the entries that were passed over stay so. *)
Lemma submit_worker_ok i k t fl il fill tgt r :
  worker_ok i k t fl il -> filled fill tgt -> (forall w, view (fill w) = r) ->
  okp (submit fill tgt k) (fun k' => (exists fl' il', worker_ok i k' t fl' il') /\
    wk_latest_nsecs k' = wk_latest_nsecs k /\ pending k' ≡ₚ pending k ++ if has_room k then [r] else []).
Proof using.
  intros [Hq Hc Hid] Hf Hv. destruct fl as [|e [|e' fl]]; [by destruct (qo_some _ _ _ Hq)|..].
  { unfold submit, has_room. rewrite (allocate_full _ _ _ Hq). simpl. rewrite app_nil_r. split; [|done].
    by exists [e], il. }
  unfold has_room. rewrite (take_entry_ok _ _ _ _ _ Hq).
  eapply okp_mono; [by apply (submit_ok k fill tgt e e' fl il)|]. intros k' (pre & post & -> & _ & _ & Hs).
  pose proof Hs as (Hq' & He & Ho & Hlat & Hid'). split; [|split; [done|]].
  - exists (e' :: fl), (pre ++ e :: post). split; [done| |by rewrite Hid'].
    destruct (decide (th_curr t = e)) as [->|Hne]; [right; left; set_solver|].
    destruct Hc as [?|[?|[Hin Hco]]]; [by left|right; left; set_solver|right; right].
    split; [set_solver|]. by rewrite (completed_fields k k' _ (Ho _ Hne)).
  - rewrite (pending_ok _ _ _ Hq), (pending_ok _ _ _ Hq'), <- (Hv (work k e)). by eapply pend_submitted.
Qed.

Lemma gets_ok d sqid fill t r d' :
  queues_ok d -> gets d sqid fill t d' -> filled fill t -> (forall w, view (fill w) = r) ->
  queues_ok d' /\ forall i k k', d.(dv_workers) !! i = Some k -> d'.(dv_workers) !! i = Some k' ->
    wk_latest_nsecs k' = wk_latest_nsecs k /\
    pending k' ≡ₚ pending k ++ if (worker_of d sqid =? i) && has_room k then [r] else [].
Proof using.
  intros Hq (Et & k & k' & Hk & Hs & Ew) Hf Hv. destruct (get_io_worker_ok d sqid Hq) as (_ & k0 & th & Hk0 & Ht).
  rewrite Hk in Hk0. injection Hk0 as <-. destruct (qs_worker _ Hq _ _ _ Hk Ht) as (fl & il & Hw).
  pose proof (submit_worker_ok _ _ _ _ _ _ _ _ Hw Hf Hv) as H. rewrite Hs in H. destruct H as (Hw' & Hlat & Hp). split.
  - eapply queues_upd; [done|done| |done]. by rewrite Et, zinsert_id.
  - intros i k1 k2 H1 H2. rewrite Ew in H2. destruct (worker_of d sqid =? i) eqn:E; [apply Z.eqb_eq in E|apply Z.eqb_neq in E].
    + subst i. rewrite zlookup_zinsert_eq in H2 by (by eapply zlookup_Some_range). by simplify_eq.
    + rewrite zlookup_zinsert_ne in H2 by done. simplify_eq. by rewrite app_nil_r.
Qed.

(** ** Reclaiming *)

Lemma reclaim_worker_ok i k t fl il :
  worker_ok i k t fl il ->
  okp (reclaim_worker k) (fun k' => (exists fl' il', worker_ok i k' t fl' il') /\
    wk_latest_nsecs k' = wk_latest_nsecs k /\ (free_entries k <= free_entries k')%nat /\ pending k' = pending k).
Proof using.
  intros [Hq Hc Hid]. eapply okp_mono; [by eapply reclaim_ok|]. intros k' (done & rest & -> & Hd & _ & Hq' & Hs).
  split; [|split; [by apply (sr_latest _ _ Hs)|split]].
  - exists (fl ++ done), rest. split; [done| |by rewrite (sr_id _ _ Hs)].
    destruct Hc as [?|[[Hin|?]%elem_of_app|[Hin Hco]]]; [by left| |by right; left|]; right; right.
    + split; [set_solver|]. rewrite (same_requests_completed _ _ _ Hs). specialize (Hd _ Hin). unfold reclaimable in Hd.
      by apply andb_true_iff in Hd as [[? _]%andb_true_iff _].
    + split; [set_solver|]. by rewrite (same_requests_completed _ _ _ Hs).
  - rewrite (free_entries_ok _ _ _ Hq), (free_entries_ok _ _ _ Hq'), length_app. lia.
  - rewrite (pending_ok _ _ _ Hq), (pending_ok _ _ _ Hq'). by apply pend_reclaimed.
Qed.

(** Every worker is reclaimed from, and nothing else changes. *)
Lemma reclaim_reqs_ok d : queues_ok d ->
  okp (__reclaim_completed_reqs d) (fun d' => queues_ok d' /\ d'.(dv_threads) = d.(dv_threads) /\
    d' = dv_with_workers d'.(dv_workers) d /\ zlen d'.(dv_workers) = zlen d.(dv_workers) /\
    forall i k k', d.(dv_workers) !! i = Some k -> d'.(dv_workers) !! i = Some k' ->
      wk_latest_nsecs k' = wk_latest_nsecs k /\ (free_entries k <= free_entries k')%nat /\ pending k' = pending k).
Proof using.
  intros Hq. unfold __reclaim_completed_reqs.
  apply (rfold_inv_const _ (fun d' => queues_ok d' /\ d'.(dv_threads) = d.(dv_threads) /\
    d' = dv_with_workers d'.(dv_workers) d /\ zlen d'.(dv_workers) = zlen d.(dv_workers) /\
    forall i k k', d.(dv_workers) !! i = Some k -> d'.(dv_workers) !! i = Some k' ->
      wk_latest_nsecs k' = wk_latest_nsecs k /\ (free_entries k <= free_entries k')%nat /\ pending k' = pending k)).
  { split; [done|]. split; [done|]. split; [by destruct d|]. split; [done|]. intros i k k' -> [= <-]. done. }
  intros i d1 Hi%elem_of_zrange (Hq1 & Et & Ed & Hl & Hp). unfold nr_io_workers in Hi.
  destruct (zlookup_lt d1.(dv_workers) i ltac:(lia)) as [k Hk].
  destruct (zlookup_lt d1.(dv_threads) i) as [t Ht]; [rewrite (qs_threads _ Hq1); unfold nr_io_workers; lia|].
  destruct (qs_worker _ Hq1 _ _ _ Hk Ht) as (fl & il & Hw).
  unfold upd_worker. okstep. eapply amod_okp; [done|]. eapply okp_mono; [by eapply reclaim_worker_ok|].
  intros k' (Hw' & Hl' & Hr' & Hp'). simpl. split; [|split; [done|split; [by rewrite Ed|split; [by rewrite zlen_zinsert|]]]].
  - eapply (queues_upd d1 _ i k' t); [done|done|simpl; by rewrite zinsert_id|done].
  - intros j k1 k2 H1 H2. destruct (decide (i = j)) as [->|Hij].
    + rewrite zlookup_zinsert_eq in H2 by (by eapply zlookup_Some_range). injection H2 as <-. rewrite Hp', Hl'.
      destruct (Hp _ _ _ H1 Hk) as (? & ? & ?). split; [done|]. split; [lia|done].
    + rewrite zlookup_zinsert_ne in H2 by done. by eapply Hp.
Qed.

(** ** The account of a worker

    Between two states, the worker accepted [ins] and posted [outs]. *)

(** Whether a request of [sqid] is put in the queue of the worker [i]. *)
Definition accepts (d : io_dev) (i sqid : Z) : bool :=
  match d.(dv_workers) !! i with Some k => (worker_of d sqid =? i) && has_room k | None => false end.

Definition accounts (i : Z) (d d' : io_dev) (ins outs : list request) : Prop :=
  queues_ok d' /\ zlen d'.(dv_workers) = zlen d.(dv_workers) /\
  forall k k', d.(dv_workers) !! i = Some k -> d'.(dv_workers) !! i = Some k' ->
    pending k ++ ins ≡ₚ outs ++ pending k' /\
    wk_latest_nsecs k <= wk_latest_nsecs k' /\ Forall (fun r => rq_target r <= wk_latest_nsecs k') outs.

Lemma accounts_same i d d' : queues_ok d' -> d'.(dv_workers) = d.(dv_workers) -> accounts i d d' [] [].
Proof using.
  intros Hq E. split; [done|]. rewrite E. split; [done|]. intros k k' -> [= <-]. by rewrite app_nil_r.
Qed.

Lemma accounts_trans i d d1 d2 ins outs ins' outs' :
  accounts i d d1 ins outs -> accounts i d1 d2 ins' outs' -> accounts i d d2 (ins ++ ins') (outs ++ outs').
Proof using.
  intros (_ & L1 & H1) (Q & L2 & H2). split; [done|]. split; [by rewrite L2|]. intros k k' Hk Hk'.
  pose proof (zlookup_Some_range _ _ _ Hk) as Hr. destruct (zlookup_lt d1.(dv_workers) i ltac:(lia)) as [k1 Hk1].
  destruct (H1 _ _ Hk Hk1) as (P1 & A1 & B1), (H2 _ _ Hk1 Hk') as (P2 & A2 & B2). split; [|split; [lia|]].
  - by rewrite (assoc_L (++)), P1, <- !(assoc_L (++)), P2.
  - apply Forall_app. split; [|done]. eapply Forall_impl; [done|]. simpl. lia.
Qed.

Lemma gets_accepts d sqid fill t r d' i :
  queues_ok d -> gets d sqid fill t d' -> filled fill t -> (forall w, view (fill w) = r) ->
  accounts i d d' (if accepts d i sqid then [r] else []) [].
Proof using.
  intros Hq Hg Hf Hv. destruct (gets_ok _ _ _ _ _ _ Hq Hg Hf Hv) as [Hq' Hp]. split; [done|].
  destruct Hg as (_ & ? & ? & _ & _ & Ew). split; [by rewrite Ew, zlen_zinsert|].
  intros k k' Hk Hk'. unfold accepts. rewrite Hk. destruct (Hp _ _ _ Hk Hk') as [-> Hp']. by rewrite Hp'.
Qed.

(** ** A visit of a worker *)

Section visit.
Context (pfn_valid : Z -> bool) (store_size : Z) (io_using_dma : bool).

Definition set_work (e : Z) (w : io_work) (k : io_worker) : io_worker := with_queue (<[e := w]> k.(wk_work_queue)) k.

Lemma upd_work_set e f k k' : upd_work e f k = Ok k' -> k' = set_work e (f (work k e)) k /\ 0 <= e < zlen k.(wk_work_queue).
Proof using.
  unfold upd_work, amod, aget, work, workq. destruct (wk_work_queue k !! e) as [w|] eqn:E; [|done]. simpl. intros [= <-].
  split; [done|by eapply zlookup_Some_range].
Qed.

Lemma work_set e w k a : 0 <= e < zlen k.(wk_work_queue) -> work (set_work e w k) a = if decide (a = e) then w else work k a.
Proof using.
  intros He. unfold work, workq. simpl. rewrite zlookup_zinsert by done.
  destruct (decide (e = a)), (decide (a = e)); by subst.
Qed.

Lemma set_set e w1 w2 k : set_work e w2 (set_work e w1 k) = set_work e w2 k.
Proof using. unfold set_work. simpl. by rewrite zinsert_zinsert. Qed.

Lemma set_same e k : 0 <= e < zlen k.(wk_work_queue) -> set_work e (work k e) k = k.
Proof using.
  intros He. unfold set_work. rewrite zinsert_id by (by apply work_lookup). by destruct k.
Qed.

(** What the copy and the completion leave in an entry. *)
Definition mark (done : bool) (status result0 : Z) (w : io_work) : io_work :=
  with_flags true done (with_answer status result0 w).

(** The copy changes the answer of the request at most. *)
Lemma copy_effect i e w d k :
  d.(dv_workers) !! i = Some k -> 0 <= e < zlen k.(wk_work_queue) ->
  retp (worker_copy pfn_valid store_size io_using_dma i e w d) (fun d' => d'.(dv_threads) = d.(dv_threads) /\
    exists st r, d'.(dv_workers) = <[i := set_work e (with_answer st r (work k e)) k]> d.(dv_workers)).
Proof using.
  intros Hk He.
  assert (forall d', d'.(dv_threads) = d.(dv_threads) -> d'.(dv_workers) = d.(dv_workers) -> d'.(dv_threads) = d.(dv_threads) /\
    exists st r, d'.(dv_workers) = <[i := set_work e (with_answer st r (work k e)) k]> d.(dv_workers)) as Hsame.
  { intros d' E1 E2. split; [done|]. exists (iw_status (work k e)), (iw_result0 (work k e)).
    assert (with_answer (iw_status (work k e)) (iw_result0 (work k e)) (work k e) = work k e) as -> by (by destruct (work k e)).
    by rewrite set_same, zinsert_id, E2. }
  unfold worker_copy. destruct (iw_is_internal w); [apply retp_Ok; by apply Hsame|].
  apply retp_bind. intros sq _. apply retp_bind. intros a _.
  destruct io_using_dma; [apply retp_bind; intros m _; by apply retp_Ok, Hsame|].
  apply retp_bind. intros ns _. destruct ns as [ns|]; [|apply retp_bind; intros m _; by apply retp_Ok, Hsame].
  destruct (identify_io_cmd _ _ _); [|apply retp_bind; intros m _; by apply retp_Ok, Hsame].
  apply retp_bind. intros [[[world m] result0] status] _. unfold upd_worker. apply retp_bind. simpl.
  apply retp_amod. intros x y Hx Hy. rewrite Hk in Hx. injection Hx as <-.
  destruct (upd_work_set _ _ _ _ Hy) as [-> _]. apply retp_Ok. split; [done|]. by exists status, result0.
Qed.

(** The completion does not touch the queues. *)
Lemma fill_effect w d : retp (__fill_cq_result w d) (fun d' => d'.(dv_threads) = d.(dv_threads) /\ d'.(dv_workers) = d.(dv_workers)).
Proof using.
  unfold __fill_cq_result. apply retp_bind. intros cq _. apply retp_bind. intros [cq' h] _. unfold set_cq.
  apply retp_bind. intros l _. by apply retp_Ok.
Qed.

Definition visited (i : Z) (d d' : io_dev) : Prop :=
  d'.(dv_threads) = d.(dv_threads) /\
  exists k t now, d.(dv_workers) !! i = Some k /\ d.(dv_threads) !! i = Some t /\ 0 <= t.(th_curr) < zlen k.(wk_work_queue) /\
  let e := t.(th_curr) in
  ((completed k e = true /\ d'.(dv_workers) = <[i := with_latest now k]> d.(dv_workers)) \/
   (completed k e = false /\ exists st r,
      d'.(dv_workers) = <[i := set_work e (mark (tgt k e <=? now) st r (work k e)) (with_latest now k)]> d.(dv_workers))).

Lemma upd_worker_at i f d k : d.(dv_workers) !! i = Some k ->
  upd_worker i f d = (k' ← f k; Ok (dv_with_workers (<[i := k']> d.(dv_workers)) d)).
Proof using. intros Hk. unfold upd_worker, amod. rewrite (aget_Some _ _ _ Hk), bind_Ok. by destruct (f k). Qed.

Lemma worker_work_at i e d k : d.(dv_workers) !! i = Some k -> worker_work i e d = get_work k e.
Proof using. intros Hk. unfold worker_work. by rewrite (aget_Some _ _ _ Hk). Qed.

Lemma get_work_set e k w : get_work k e = Ok w -> w = work k e /\ 0 <= e < zlen k.(wk_work_queue).
Proof using.
  unfold get_work, aget, work, workq. destruct (wk_work_queue k !! e) as [x|] eqn:E; [|done]. simpl. intros [= <-].
  split; [done|by eapply zlookup_Some_range].
Qed.

(** The entry [e] of the worker [i] is [w], and all else of the queues as in [d]. *)
Definition entry_is (i e : Z) (k : io_worker) (w : io_work) (d d' : io_dev) : Prop :=
  d'.(dv_threads) = d.(dv_threads) /\ d'.(dv_workers) = <[i := set_work e w k]> d.(dv_workers).

Lemma entry_is_upd i e k w f d d' :
  0 <= i < zlen d.(dv_workers) -> 0 <= e < zlen k.(wk_work_queue) -> entry_is i e k w d d' ->
  retp (upd_worker i (upd_work e f) d') (entry_is i e k (f w) d).
Proof using.
  intros Hi He [E1 E2]. assert (d'.(dv_workers) !! i = Some (set_work e w k)) as Hk by (rewrite E2; by apply zlookup_zinsert_eq).
  rewrite (upd_worker_at _ _ _ _ Hk). apply retp_bind. intros k' Hk'. destruct (upd_work_set _ _ _ _ Hk') as [-> _].
  apply retp_Ok. split; [done|]. simpl. rewrite E2, zinsert_zinsert, set_set, work_set by done. by rewrite decide_True by done.
Qed.

(** The two halves of a visit: the copy, and the completion of what is due. *)
Lemma copy_half i e d k :
  d.(dv_workers) !! i = Some k -> 0 <= e < zlen k.(wk_work_queue) -> completed k e = false ->
  retp (if copied k e then Ok d else
          d ← worker_copy pfn_valid store_size io_using_dma i e (work k e) d;
          upd_worker i (upd_work e (fun w => with_flags true w.(iw_is_completed) w)) d)
    (fun d' => exists st r, entry_is i e k (mark false st r (work k e)) d d').
Proof using.
  intros Hk He Hc. pose proof (zlookup_Some_range _ _ _ Hk) as Hi. destruct (copied k e) eqn:Hco.
  - apply retp_Ok. exists (iw_status (work k e)), (iw_result0 (work k e)). split; [done|].
    assert (mark false (iw_status (work k e)) (iw_result0 (work k e)) (work k e) = work k e) as ->.
    { unfold completed, copied, mark in *. destruct (work k e); simpl in *; by subst. }
    by rewrite set_same, zinsert_id.
  - apply retp_bind. eapply retp_mono; [by apply copy_effect|]. intros d2 (E1 & st & r & E2).
    eapply retp_mono; [by apply (entry_is_upd i e k (with_answer st r (work k e)))|]. intros d3 H3. exists st, r.
    unfold mark. unfold completed in Hc. by rewrite <- Hc.
Qed.

Lemma due_half i e now d d2 k st r :
  d.(dv_workers) !! i = Some k -> 0 <= e < zlen k.(wk_work_queue) ->
  entry_is i e k (mark false st r (work k e)) d d2 ->
  retp (w ← worker_work i e d2;
        if w.(iw_nsecs_target) <=? now then
          d ← (if w.(iw_is_internal) then
                 world ← release_buffer w.(iw_write_buffer) w.(iw_buffs_to_release) d2.(dv_world); Ok (dv_with_world world d2)
               else __fill_cq_result w d2);
          upd_worker i (upd_work e (fun w => with_flags w.(iw_is_copied) true w)) d
        else Ok d2)
    (entry_is i e k (mark (tgt k e <=? now) st r (work k e)) d).
Proof using.
  intros Hk He Hen. pose proof (zlookup_Some_range _ _ _ Hk) as Hi. pose proof Hen as [E1 E2].
  rewrite (worker_work_at i e d2 (set_work e (mark false st r (work k e)) k)) by (rewrite E2; by apply zlookup_zinsert_eq).
  apply retp_bind. intros w Hw. destruct (get_work_set _ _ _ Hw) as [-> _]. rewrite work_set, decide_True by done.
  change (iw_nsecs_target (mark false st r (work k e))) with (tgt k e). destruct (tgt k e <=? now); [|by apply retp_Ok].
  apply retp_bind. apply (retp_mono _ (entry_is i e k (mark false st r (work k e)) d)).
  - destruct (iw_is_internal _); [apply retp_bind; intros world _; by apply retp_Ok|].
    eapply retp_mono; [apply fill_effect|]. intros d3 [F1 F2]. unfold entry_is. by rewrite F1, F2.
  - intros d3 H3. eapply retp_mono; [by apply (entry_is_upd i e k (mark false st r (work k e)))|]. by intros d4 H4.
Qed.

Lemma visit_effect i d : retp (worker_visit pfn_valid store_size io_using_dma i d) (visited i d).
Proof using.
  unfold worker_visit. apply retp_bind, retp_aget. intros t Ht. destruct (get_local_clock _) as [world local].
  set (now := u64 _). destruct (d.(dv_workers) !! i) as [k|] eqn:Hk.
  2: { unfold upd_worker, amod, aget. simpl. rewrite Hk. done. }
  pose proof (zlookup_Some_range _ _ _ Hk) as Hi. rewrite (upd_worker_at i _ _ k) by done. rewrite !bind_Ok.
  set (d1 := dv_with_workers _ _). set (k1 := with_latest now k). set (e := th_curr t).
  assert (d1.(dv_workers) !! i = Some k1) as Hk1 by (by apply zlookup_zinsert_eq).
  rewrite (worker_work_at _ _ _ _ Hk1). apply retp_bind. intros w Hw. destruct (get_work_set _ _ _ Hw) as [-> He].
  fold (completed k1 e). fold (copied k1 e). destruct (completed k1 e) eqn:Hc.
  { apply retp_Ok. split; [done|]. exists k, t, now. split; [done|]. split; [done|]. split; [done|]. by left. }
  apply retp_bind. eapply retp_mono; [by apply (copy_half i e d1 k1)|]. intros d2 (st & r & H2).
  eapply retp_mono; [by apply (due_half i e now d1 d2 k1 st r)|]. intros d3 [F1 F2]. split; [done|].
  exists k, t, now. split; [done|]. split; [done|]. split; [done|]. right. split; [done|]. exists st, r.
  rewrite F2. unfold d1. simpl. by rewrite zinsert_zinsert.
Qed.

(** The request that the visit of the worker posts, if it posts one. *)
Definition posted_by_visit (d d' : io_dev) (i : Z) : list request :=
  match d.(dv_workers) !! i, d.(dv_threads) !! i, d'.(dv_workers) !! i with
  | Some k, Some t, Some k' =>
      if negb (completed k t.(th_curr)) && completed k' t.(th_curr) then [view (work k t.(th_curr))] else []
  | _, _, _ => []
  end.

(** The clock of the worker did not go back. *)
Definition clock_forward (d d' : io_dev) (i : Z) : Prop :=
  forall k k', d.(dv_workers) !! i = Some k -> d'.(dv_workers) !! i = Some k' -> k.(wk_latest_nsecs) <= k'.(wk_latest_nsecs).

(** What one worker's visit does to its queue. *)
Lemma marked_worker_ok i k t fl il now st r :
  worker_ok i k t fl il -> 0 <= t.(th_curr) < zlen k.(wk_work_queue) -> k.(wk_latest_nsecs) <= now ->
  completed k t.(th_curr) = false ->
  let k' := set_work t.(th_curr) (mark (tgt k t.(th_curr) <=? now) st r (work k t.(th_curr))) (with_latest now k) in
  worker_ok i k' t fl il /\
  pending k ≡ₚ (if completed k' t.(th_curr) then [view (work k t.(th_curr))] else []) ++ pending k'.
Proof using.
  intros [Hq Hcur Hid] He Hnow Hc k'. set (e := th_curr t) in *.
  assert (e ∈ il) as Hin.
  { destruct Hcur as [Hn|[?|[_ ?]]]; [|done|congruence]. pose proof nr_parallel_ok. rewrite (qo_len _ _ _ Hq), Hn in He. unfold NO_ENTRY in He. lia. }
  pose proof (mark_ok (with_latest now k) fl il e (mark (tgt k e <=? now) st r) (latest_ok _ _ _ _ Hq Hnow) Hin) as H.
  destruct (okp_inv _ _ (H ltac:(done))) as (k1 & Hk1 & Hq1 & _ & Hid1 & Hw1).
  destruct (upd_work_set _ _ _ _ Hk1) as [-> _]. fold k' in Hq1, Hid1, Hw1. split.
  - split; [done|right; by left|done].
  - rewrite (pending_ok _ _ _ Hq), (pending_ok k' _ _ Hq1). apply (pend_marked k k' fl); [done|done|done|..].
    + rewrite Hw1, decide_True by done. done.
    + intros a Ha. unfold fields. rewrite Hw1, decide_False by done. done.
Qed.

Lemma visited_ok i d d' :
  queues_ok d -> visited i d d' -> clock_forward d d' i ->
  queues_ok d' /\ forall j k k', d.(dv_workers) !! j = Some k -> d'.(dv_workers) !! j = Some k' ->
    pending k ≡ₚ (if i =? j then posted_by_visit d d' i else []) ++ pending k' /\
    wk_latest_nsecs k <= wk_latest_nsecs k' /\
    Forall (fun r => rq_target r <= wk_latest_nsecs k') (if i =? j then posted_by_visit d d' i else []).
Proof using.
  intros Hq (Et & k & t & now & Hk & Ht & He & Hcase) Hclk. pose proof (zlookup_Some_range _ _ _ Hk) as Hi.
  destruct (qs_worker _ Hq _ _ _ Hk Ht) as (fl & il & Hw).
  assert (exists k1, d'.(dv_workers) = <[i := k1]> d.(dv_workers) /\ worker_ok i k1 t fl il /\
    pending k ≡ₚ (if negb (completed k (th_curr t)) && completed k1 (th_curr t) then [view (work k (th_curr t))] else []) ++ pending k1 /\
    wk_latest_nsecs k <= wk_latest_nsecs k1 /\
    Forall (fun r => rq_target r <= wk_latest_nsecs k1)
      (if negb (completed k (th_curr t)) && completed k1 (th_curr t) then [view (work k (th_curr t))] else []))
    as (k1 & Ew & Hw1 & Hp).
  { assert (forall k1, d'.(dv_workers) = <[i := k1]> d.(dv_workers) -> wk_latest_nsecs k <= wk_latest_nsecs k1) as Hlat
      by (intros k1 Ew; apply (Hclk k k1 Hk); rewrite Ew; by apply zlookup_zinsert_eq).
    destruct Hcase as [[Hc Ew]|(Hc & st & r & Ew)]; specialize (Hlat _ Ew); rewrite Hc.
    - exists (with_latest now k). destruct Hw as [Hwq Hcur Hid]. split; [done|]. split; [split; [by apply latest_ok|done|done]|].
      simpl. split; [|done]. by rewrite (pending_ok _ _ _ Hwq), (pending_ok (with_latest now k) _ _ (latest_ok _ _ _ _ Hwq Hlat)).
    - exists (set_work (th_curr t) (mark (tgt k (th_curr t) <=? now) st r (work k (th_curr t))) (with_latest now k)).
      destruct (marked_worker_ok _ _ _ _ _ now st r Hw He Hlat Hc) as [Hw1 Hp1].
      split; [done|]. split; [done|]. split; [done|]. split; [done|]. simpl. unfold completed at 1.
      rewrite work_set, decide_True by done. simpl. destruct (tgt k (th_curr t) <=? now) eqn:E; [|done].
      constructor; [|done]. apply Z.leb_le in E. unfold view. by destruct (iw_is_internal _). }
  split.
  - eapply (queues_upd d d' i k1 t); [done|done|by rewrite Et, zinsert_id|eauto].
  - intros j ka kb H1 H2. rewrite Ew in H2. destruct (i =? j) eqn:E; [apply Z.eqb_eq in E|apply Z.eqb_neq in E].
    + subst j. rewrite zlookup_zinsert_eq in H2 by done. rewrite Hk in H1. injection H1 as <-. injection H2 as <-.
      unfold posted_by_visit. by rewrite Hk, Ht, Ew, zlookup_zinsert_eq by done.
    + rewrite zlookup_zinsert_ne in H2 by done. simplify_eq. split; [done|]. split; [lia|done].
Qed.

(** ** Events and runs *)

(** A call of a function of io.c that reaches the queues; [QOther] is whatever the
    dispatcher, the workers or the host do to the rest of the device. *)
Inductive queue_event :=
| QEnqueue (sqid cqid sq_entry nsecs_start : Z) (ret : nvmev_result)
| QInternal (op : internal_op)
| QReclaim
| QStart (worker : Z)
| QVisit (worker : Z)
| QNext (worker : Z)
| QOther (d' : io_dev).

Definition queue_step (ev : queue_event) (d : io_dev) : res io_dev :=
  match ev with
  | QEnqueue sqid cqid e start ret => __enqueue_io_req sqid cqid e start ret d
  | QInternal op => schedule_internal_operation op d
  | QReclaim => __reclaim_completed_reqs d
  | QStart i => worker_start i d
  | QVisit i => worker_visit pfn_valid store_size io_using_dma i d
  | QNext i => worker_next i d
  | QOther d' => Ok (dv_with_threads d.(dv_threads) (dv_with_workers d.(dv_workers) d'))
  end.

(** The requests that an event puts in the queue of the worker [i]. *)
Definition accepted (i : Z) (ev : queue_event) (d : io_dev) : list request :=
  match ev with
  | QEnqueue sqid cqid e start ret =>
      match (sq ← get_sq d sqid; sq_entry sq e) with
      | Ok a => if accepts d i sqid
                then [RqCommand sqid cqid e (cmd_command_id (dv_host d) a) start ret.(rs_nsecs_target)] else []
      | Fault _ => []
      end
  | QInternal op =>
      if accepts d i op.(io_sqid)
      then [RqInternal op.(io_sqid) op.(io_nsecs_target) op.(io_buffer) op.(io_buffs)] else []
  | _ => []
  end.

Definition posted (i : Z) (ev : queue_event) (d d' : io_dev) : list request :=
  match ev with QVisit j => if j =? i then posted_by_visit d d' j else [] | _ => [] end.

Definition event_clock (ev : queue_event) (d d' : io_dev) : Prop :=
  match ev with QVisit i => clock_forward d d' i | _ => True end.

(** A run, with the requests that the worker [i] accepted and posted. *)
Inductive queue_run (i : Z) : io_dev -> list request -> list request -> io_dev -> Prop :=
| run_nil d : queue_run i d [] [] d
| run_step d ev d1 ins outs d2 :
    queue_step ev d = Ok d1 -> event_clock ev d d1 -> queue_run i d1 ins outs d2 ->
    queue_run i d (accepted i ev d ++ ins) (posted i ev d d1 ++ outs) d2.

(** The thread's own variables: [curr] follows the links. *)
Lemma start_ok i d : queues_ok d ->
  retp (worker_start i d) (fun d' => queues_ok d' /\ d'.(dv_workers) = d.(dv_workers)).
Proof.
  intros Hq. unfold worker_start. destruct (__get_wallclock _) as [w1 wall]. destruct (get_local_clock w1) as [w2 local].
  apply retp_bind, retp_aget. intros k Hk. unfold upd_thread. apply retp_bind, retp_amod. intros t y Ht [= <-].
  apply retp_Ok. split; [|done]. simpl in *. destruct (qs_worker _ Hq _ _ _ Hk Ht) as (fl & il & [H1 H2 H3]).
  eapply (queues_upd d _ i k); [done|simpl; by rewrite zinsert_id|done|]. exists fl, il. split; [done| |done].
  simpl. rewrite (qo_io_first _ _ _ H1). destruct il; [by left|right; left; set_solver].
Qed.

Lemma next_ok i d : queues_ok d ->
  retp (worker_next i d) (fun d' => queues_ok d' /\ d'.(dv_workers) = d.(dv_workers)).
Proof using.
  intros Hq. unfold worker_next. apply retp_bind, retp_aget. intros t Ht. apply retp_bind. unfold worker_work.
  apply retp_bind, retp_aget. intros k Hk w Hw. destruct (get_work_set _ _ _ Hw) as [-> He].
  unfold upd_thread. apply retp_bind, retp_amod. intros t' y Ht' [= <-]. rewrite Ht in Ht'. injection Ht' as <-.
  apply retp_Ok. split; [|done]. destruct (qs_worker _ Hq _ _ _ Hk Ht) as (fl & il & [H1 H2 H3]).
  eapply (queues_upd d _ i k); [done|simpl; by rewrite zinsert_id|done|]. exists fl, il. split; [done| |done].
  simpl. apply (cursor_next k fl il); [done|done|]. intros E. rewrite (qo_len _ _ _ H1), E in He.
  pose proof nr_parallel_ok. unfold NO_ENTRY in He. lia.
Qed.

(** ** Every event keeps the invariant and the account of requests *)

Lemma event_ok i ev d d1 :
  queues_ok d -> queue_step ev d = Ok d1 -> event_clock ev d d1 ->
  accounts i d d1 (accepted i ev d) (posted i ev d d1).
Proof using.
  intros Hq E Hclk. destruct ev as [sqid cqid e start ret|op| |j|j|j|d']; simpl in E, Hclk |- *.
  - destruct (enqueue_gets d sqid cqid e start ret Hq d1 E) as (sq & fill & Hsq & Hg & Hf & Hv).
    rewrite Hsq. simpl. unfold __enqueue_io_req in E. rewrite Hsq, bind_Ok in E.
    destruct (sq_entry sq e) as [a|f] eqn:Ea.
    + eapply gets_accepts; [done|done|done|by apply Hv].
    + destruct (allocate_gets d sqid Hq) as (ka & Hka & Eal). rewrite Eal in E.
      destruct (allocate_entry ka) as [[[? ?]|]|]; simpl in E; [done| |done]. injection E as <-. by apply accounts_same.
  - destruct (internal_gets d op Hq d1 E) as (fill & Hg & Hf & Hv). by eapply gets_accepts.
  - destruct (okp_inv _ _ (reclaim_reqs_ok d Hq)) as (d' & E' & Hq' & _ & _ & Hl & Hp). rewrite E in E'. injection E' as <-.
    split; [done|]. split; [done|]. intros k k1 Hk Hk1. rewrite app_nil_r. simpl. by destruct (Hp _ _ _ Hk Hk1) as (-> & _ & ->).
  - destruct (start_ok j d Hq d1 E). by apply accounts_same.
  - pose proof (visit_effect j d d1 E) as Hv. destruct (visited_ok j d d1 Hq Hv Hclk) as [Hq1 Hp]. split; [done|].
    destruct Hv as (_ & k & t & now & _ & _ & _ & Hcase).
    split; [by destruct Hcase as [[_ ->]|(_ & ? & ? & ->)]; rewrite zlen_zinsert|].
    intros k0 k1 Hk Hk1. rewrite app_nil_r. by apply Hp.
  - destruct (next_ok j d Hq d1 E). by apply accounts_same.
  - injection E as <-. apply accounts_same; [|done]. by destruct Hq.
Qed.

(** Runs: the requests accepted are those posted and those pending. *)
Lemma run_conserves i d ins outs d' : queue_run i d ins outs d' -> queues_ok d -> accounts i d d' ins outs.
Proof using.
  induction 1 as [d|d ev d1 ins outs d2 E Hclk Hrun IH]; intros Hq; [by apply accounts_same|].
  pose proof (event_ok i ev d d1 Hq E Hclk) as H1. eapply accounts_trans; [done|]. apply IH, H1.
Qed.

(** The runs by evaluation. *)
Definition event_clockb (ev : queue_event) (d d' : io_dev) : bool :=
  match ev with
  | QVisit i =>
      match d.(dv_workers) !! i, d'.(dv_workers) !! i with
      | Some k, Some k' => k.(wk_latest_nsecs) <=? k'.(wk_latest_nsecs)
      | _, _ => true
      end
  | _ => true
  end.

Fixpoint exec_events (i : Z) (evs : list queue_event) (d : io_dev) : res (io_dev * list request * list request) :=
  match evs with
  | [] => Ok (d, [], [])
  | ev :: evs =>
      d1 ← queue_step ev d;
      if event_clockb ev d d1 then
        '(d2, ins, outs) ← exec_events i evs d1;
        Ok (d2, accepted i ev d ++ ins, posted i ev d d1 ++ outs)
      else Fault OutOfFuel
  end.

Lemma exec_run i evs d : retp (exec_events i evs d) (fun '(d', ins, outs) => queue_run i d ins outs d').
Proof.
  revert d. induction evs as [|ev evs IH]; intros d; simpl; [apply retp_Ok; constructor|].
  apply retp_bind. intros d1 E. destruct (event_clockb ev d d1) eqn:Ec; [|done].
  apply retp_bind. eapply retp_mono; [apply IH|]. intros [[d2 ins] outs] H. apply retp_Ok. eapply run_step; [done| |done].
  destruct ev; try done. intros k k' Hk Hk'. simpl in Ec. rewrite Hk, Hk' in Ec. by apply Z.leb_le.
Qed.
End visit.

(** ** The start, and the functions that never fail *)

Lemma init_queues nr d : 0 < nr < 4294967296 ->
  okp (NVMEV_IO_WORKER_INIT nr d) (fun d' => queues_ok d' /\ zlen d'.(dv_workers) = nr /\
    forall i k, d'.(dv_workers) !! i = Some k -> pending k = []).
Proof.
  intros Hnr. unfold NVMEV_IO_WORKER_INIT. okstep.
  eapply okp_mono; [apply (rfold_range _ (fun n l => zlen l = n /\ forall i k, l !! i = Some k ->
    queue_ok k (zrange 0 NR_MAX_PARALLEL_IO) [] /\ k.(wk_id) = i) 0 nr []); [lia| |]|].
  - split; [done|]. intros i k E. apply zlookup_Some_range in E. unfold zlen in E. simpl in E. lia.
  - intros n l Hn [Hl Hk]. okstep. eapply okp_mono; [apply init_ok|]. intros k (Hq & _ & Hid). simpl. split.
    + rewrite zlen_app, Hl. done.
    + intros i k'. intros E. pose proof (zlookup_Some_range _ _ _ E) as Hr. rewrite zlen_app in Hr. unfold zlen in Hr at 2. simpl in Hr.
      rewrite zlookup_to_nat in E by lia. apply lookup_app_Some in E as [E|[Hi E]].
      * apply Hk. by rewrite zlookup_to_nat by lia.
      * apply list_lookup_singleton_Some in E as [H1 ->]. unfold zlen in *. split; [done|]. lia.
  - intros l [Hl Hk]. simpl. split; [|split; [done|]].
    + split; unfold nr_io_workers; simpl; [lia|by rewrite Hl, zlen_zrepeat by lia|]. intros i k t Hi Ht.
      destruct (Hk i k Hi) as [Hq Hid]. apply zlookup_zrepeat in Ht as ->. exists (zrange 0 NR_MAX_PARALLEL_IO), [].
      split; [done|by left|done].
    + intros i k Hi. destruct (Hk i k Hi) as [Hq _]. by rewrite (pending_ok _ _ _ Hq).
Qed.

Lemma submits_ok d sqid k : queues_ok d -> d.(dv_workers) !! worker_of d sqid = Some k ->
  forall fill t, filled fill t -> okp (submit fill t k) (fun _ => True).
Proof.
  intros Hq Hk fill t Hf. destruct (get_io_worker_ok d sqid Hq) as (_ & k0 & th & Hk0 & Ht). rewrite Hk in Hk0. injection Hk0 as <-.
  destruct (qs_worker _ Hq _ _ _ Hk Ht) as (fl & il & [H1 _ _]). destruct fl as [|e [|e' fl]]; [by destruct (qo_some _ _ _ H1)|..].
  - unfold submit. by rewrite (allocate_full _ _ _ H1).
  - eapply okp_mono; [by eapply submit_ok|done].
Qed.

(** The insertion of what was allocated never fails. *)
Lemma fill_total d sqid fill t k k1 e world next :
  queues_ok d -> d.(dv_workers) !! worker_of d sqid = Some k -> allocate_entry k = Ok (Some (k1, e)) -> filled fill t ->
  okp (upd_worker (worker_of d sqid) (fun k => k ← upd_work e fill k; __insert_req_sorted e k t)
        (dv_with_world world (dv_with_turn next (dv_with_workers (<[worker_of d sqid := k1]> d.(dv_workers)) d)))) (fun _ => True).
Proof.
  intros Hq Hk Ha Hf. unfold upd_worker. okstep. simpl.
  eapply amod_okp; [apply zlookup_zinsert_eq; by eapply zlookup_Some_range|].
  pose proof (submits_ok d sqid k Hq Hk fill t Hf) as H. unfold submit in H. rewrite Ha, bind_Ok in H.
  eapply okp_mono; [done|]. done.
Qed.

Lemma internal_total d op : queues_ok d -> okp (schedule_internal_operation op d) (fun _ => True).
Proof.
  intros Hq. destruct (allocate_gets d op.(io_sqid) Hq) as (k & Hk & E). unfold schedule_internal_operation. rewrite E.
  pose proof (submits_ok d _ k Hq Hk (fill_internal op.(io_sqid) 0 op.(io_nsecs_target) op.(io_buffer) op.(io_buffs)) op.(io_nsecs_target) ltac:(done)) as H.
  unfold submit in H. destruct (allocate_entry k) as [[[k1 e1]|]|f] eqn:Ea; cbn [mbind res_bind] in *; [|done|by destruct H].
  destruct (get_local_clock _) as [world now]. by eapply fill_total.
Qed.

Lemma enqueue_total d sqid cqid e start ret sq a :
  queues_ok d -> get_sq d sqid = Ok sq -> sq_entry sq e = Ok a -> okp (__enqueue_io_req sqid cqid e start ret d) (fun _ => True).
Proof.
  intros Hq Hsq Ha. destruct (allocate_gets d sqid Hq) as (k & Hk & E). unfold __enqueue_io_req. rewrite Hsq, bind_Ok, E.
  pose proof (submits_ok d _ k Hq Hk (fill_command sqid cqid e 0 start 0 ret) ret.(rs_nsecs_target) ltac:(done)) as H.
  unfold submit in H. destruct (allocate_entry k) as [[[k1 e1]|]|f] eqn:Ea; cbn [mbind res_bind] in *; [|done|by destruct H].
  rewrite Ha, bind_Ok. destruct (get_local_clock _) as [world now]. by eapply fill_total.
Qed.
End run.
