(* ===== verification/IoDispatch.v ===== *)
(** * The dispatcher over its namespaces

    [BackendLaws] is what the dispatcher relies on a namespace for: the handlers
    return for the commands that they allow, and schedule a bounded number of
    internal operations for the queue of the command, or refuse the command and
    schedule nothing.  Against it, [nvmev_proc_io_sq] puts the commands of a ring in
    the queue of their worker, each once and in the order of the ring, up to the
    first that its namespace refuses; the queues of the other workers are as they
    were. *)

From stdpp Require Import prelude list sorting.
From Stdlib Require Import ZArith Lia.
From S2P Require Import Prelude Mem Prp SsdConfig Ssd ConvFtl IoUnits KvAlloc KvFtl NvmeCmd IoQueue IoInv IoCopy Io IoBackends IoRun.

(** Outside of what [wr] says that the commands at the addresses [l] write. *)
Definition host_kept (wr : Z -> Z -> Prop) (l : list Z) (h h' : mem) : Prop :=
  forall x, (forall a, a ∈ l -> ~ wr a x) -> h' x = h x.

(** What the dispatcher reads of the command at [a]. *)
Definition same_command (h h' : mem) (a : Z) : Prop :=
  cmd_command_id h' a = cmd_command_id h a /\ cmd_nsid h' a = cmd_nsid h a /\ cmd_length h' a = cmd_length h a.

(** [W] is an invariant of the namespaces and the state beside them; [cmd_allowed]
    says which commands, at an address of the host's memory, are within what the
    namespaces rely on their host for, and [buffer_ok] which write buffers they
    schedule releases of.  The handler of the command at [a] writes at most the
    host's memory at [cmd_writes a], which leaves the commands that are [cmd_apart]
    from it as they were.
    The workers call the last two functions. *)
Class BackendLaws `(BK : Backend) (W : list bk_ns -> bk_world -> Prop) := {
  max_internal : nat;
  may_refuse : bool;
  cmd_allowed : mem -> Z -> Prop;
  buffer_ok : option Z -> Prop;
  cmd_writes : Z -> Z -> Prop;
  cmd_apart : Z -> Z -> Prop;
  law_wallclock nss w : W nss w -> W nss (__get_wallclock w).1;
  law_local nss w : W nss w -> W nss (get_local_clock w).1;
  law_proc nss i ns h a sqid t ret w :
    W nss w -> nss !! i = Some ns -> cmd_allowed h a ->
    okp (proc_io_cmd ns h a sqid t ret w) (fun '(ns', w', h', ret', ok) =>
      W (<[i := ns']> nss) (take_scheduled w').2 /\ host_kept cmd_writes [a] h h' /\
      (ok = true \/ may_refuse = true /\ (take_scheduled w').1 = []) /\
      (length (take_scheduled w').1 <= max_internal)%nat /\
      Forall (fun op => op.(io_sqid) = sqid /\ buffer_ok op.(io_buffer)) (take_scheduled w').1);
  law_same h h' a : cmd_allowed h a -> host_kept cmd_writes [a] h h' -> same_command h h' a;
  law_apart l h h' b : cmd_allowed h b -> (forall a, a ∈ l -> cmd_apart a b) -> host_kept cmd_writes l h h' ->
    cmd_allowed h' b /\ same_command h h' b;
  law_release b size nss w : W nss w -> buffer_ok b -> okp (release_buffer b size w) (W nss);
  law_perform ns a status nss w m : W nss w -> retp (perform_io_cmd ns a status w m) (fun '(w', _, _, _) => W nss w')
}.

Lemma kept_refl wr l h : host_kept wr l h h.
Proof. done. Qed.
Lemma kept_trans wr l1 l2 h1 h2 h3 : host_kept wr l1 h1 h2 -> host_kept wr l2 h2 h3 -> host_kept wr (l1 ++ l2) h1 h3.
Proof. intros H1 H2 x Hx. rewrite H2, H1; [done|..]; intros a Ha; apply Hx, elem_of_app; auto. Qed.
Lemma kept_weaken wr l l' h h' : host_kept wr l h h' -> (forall a, a ∈ l -> a ∈ l') -> host_kept wr l' h h'.
Proof. intros H Hl x Hx. apply H. auto. Qed.
Lemma kept_fields h h' a : (forall x, a <= x < a + 64 -> h' x = h x) -> same_command h h' a.
Proof.
  intros H. split; [|split]; apply (get_le_ext _ _ _ _ a); (done || lia).
Qed.

(** Namespaces that leave the host's memory alone. *)
Definition writes_nothing (a x : Z) : Prop := False.

Lemma nothing_written l h h' : host_kept writes_nothing l h h' -> forall x, h' x = h x.
Proof. intros H x. apply H. by intros a _ []. Qed.
Lemma nothing_same l h h' a : host_kept writes_nothing l h h' -> same_command h h' a.
Proof. intros H. apply kept_fields. intros x _. by eapply nothing_written. Qed.

(** The entries of a ring from [old] to before [new]. *)
Definition ring_distance (size new old : Z) : Z := (new - old) `mod` size.
Definition ring_entries (size new old : Z) : list Z :=
  (fun i => (old + i) `mod` size) <$> zrange 0 (ring_distance size new old).

(** ** Room in a queue *)

Section room.
Context `{QC : QueueConfig}.

Lemma has_room_ok k fl il : queue_ok k fl il -> has_room k = (2 <=? Z.of_nat (length fl)).
Proof using.
  intros Hq. unfold has_room. destruct fl as [|e [|e' fl]]; [by destruct (qo_some _ _ _ Hq)|..].
  - by rewrite (allocate_full _ _ _ Hq).
  - rewrite (take_entry_ok _ _ _ _ _ Hq). symmetry. apply Z.leb_le. simpl. lia.
Qed.

Lemma submit_room k fl il fill t k' :
  queue_ok k fl il -> filled fill t -> submit fill t k = Ok k' -> (free_entries k <= S (free_entries k'))%nat.
Proof using.
  intros Hq Hf E. rewrite (free_entries_ok _ _ _ Hq). destruct fl as [|e [|e' fl]]; [by destruct (qo_some _ _ _ Hq)|..].
  { simpl. lia. }
  pose proof (submit_ok k fill t e e' fl il Hq Hf) as H. rewrite E in H. destruct H as (pre & post & _ & _ & _ & Hs & _).
  rewrite (free_entries_ok _ _ _ Hs). done.
Qed.
End room.

Section dispatch.
Context `{BK : Backend} `{QC : QueueConfig} (W : list bk_ns -> bk_world -> Prop) `{LW : !BackendLaws BK W}.
Context (pfn_valid : Z -> bool) (store_size : Z) (io_using_dma : bool).

(** What the dispatcher leaves alone when it puts requests in the queues, besides the
    host's memory that the handlers do not write. *)
Record same_rest (d d' : io_dev) : Prop := {
  se_threads : d'.(dv_threads) = d.(dv_threads);
  se_sqes : d'.(dv_sqes) = d.(dv_sqes);
  se_cqes : d'.(dv_cqes) = d.(dv_cqes);
  se_store : d'.(dv_mem).(im_store) = d.(dv_mem).(im_store);
  se_mapped : d'.(dv_mapped) = d.(dv_mapped);
  se_irqs : d'.(dv_irqs) = d.(dv_irqs);
  se_nr_cq : d'.(dv_nr_cq) = d.(dv_nr_cq);
  se_ns : zlen d'.(dv_ns) = zlen d.(dv_ns);
  se_workers : zlen d'.(dv_workers) = zlen d.(dv_workers)
}.

Lemma same_rest_refl d : same_rest d d.
Proof using. by split. Qed.
Lemma same_rest_trans d1 d2 d3 : same_rest d1 d2 -> same_rest d2 d3 -> same_rest d1 d3.
Proof using. intros [] []. split; congruence. Qed.

Definition room (d : io_dev) (i : Z) : nat := match d.(dv_workers) !! i with Some k => free_entries k | None => 0 end.

(** A request that is put in a queue: the room it takes. *)
Lemma gets_room d sqid fill t d' :
  queues_ok d -> gets d sqid fill t d' -> filled fill t ->
  (room d (worker_of d sqid) <= S (room d' (worker_of d sqid)))%nat.
Proof using.
  intros Hq (_ & k & k' & Hk & Hs & Ew) Hf. destruct (get_io_worker_ok d sqid Hq) as (_ & k0 & th & Hk0 & Ht).
  rewrite Hk in Hk0. injection Hk0 as <-. destruct (qs_worker _ Hq _ _ _ Hk Ht) as (fl & il & [H1 _ _]).
  unfold room. rewrite Hk, Ew, zlookup_zinsert_eq by (by eapply zlookup_Some_range). by eapply submit_room.
Qed.

(** The queues of the other workers. *)
Lemma gets_others d sqid fill t d' w : gets d sqid fill t d' -> w <> worker_of d sqid -> room d' w = room d w.
Proof using. intros (_ & k & k' & _ & _ & Ew) Hne. unfold room. by rewrite Ew, zlookup_zinsert_ne. Qed.

Lemma accepts_others d w sqid : w <> worker_of d sqid -> accepts d w sqid = false.
Proof using. intros Hne. unfold accepts. destruct (_ !! w); [|done]. by rewrite (proj2 (Z.eqb_neq _ _)) by congruence. Qed.

Lemma accepts_room d sqid : queues_ok d -> (2 <= room d (worker_of d sqid))%nat -> accepts d (worker_of d sqid) sqid = true.
Proof using.
  intros Hq Hr. destruct (get_io_worker_ok d sqid Hq) as (_ & k & th & Hk & Ht).
  destruct (qs_worker _ Hq _ _ _ Hk Ht) as (fl & il & [H1 _ _]). unfold accepts, room in *. rewrite Hk in *.
  rewrite Z.eqb_refl, (has_room_ok _ _ _ H1). simpl. rewrite (free_entries_ok _ _ _ H1) in Hr. apply Z.leb_le. lia.
Qed.

Lemma worker_of_same d d' sqid : same_rest d d' -> worker_of d' sqid = worker_of d sqid.
Proof using. intros H. unfold worker_of, nr_io_workers. by rewrite (se_workers _ _ H). Qed.

(** The frame of the two functions that put a request in a queue. *)
Lemma internal_rest d op : retp (schedule_internal_operation op d) (fun d' =>
  same_rest d d' /\ d'.(dv_ns) = d.(dv_ns) /\ dv_host d' = dv_host d /\
  (d'.(dv_world) = d.(dv_world) \/ d'.(dv_world) = (get_local_clock d.(dv_world)).1)).
Proof using.
  unfold schedule_internal_operation, __allocate_work_queue_entry. apply retp_bind, retp_bind. intros turn _.
  apply retp_bind. intros worker _. apply retp_bind. intros [[k e]|] _; [|apply retp_Ok, retp_Ok; split; [apply same_rest_refl|by split; [|split; [|left]]]].
  apply retp_bind. intros l Hl. apply retp_Ok. destruct (get_local_clock _) as [world now]. unfold upd_worker.
  apply retp_bind, retp_amod. intros x y _ _. apply retp_Ok. simpl in *.
  unfold aset, aget in Hl. destruct (dv_workers d !! turn); [|done]. simpl in Hl. injection Hl as <-.
  split; [split; simpl; try done; by rewrite !zlen_zinsert|]. split; [done|]. split; [done|by right].
Qed.

Lemma enqueue_rest d sqid cqid e t ret : retp (__enqueue_io_req sqid cqid e t ret d) (fun d' =>
  same_rest d d' /\ d'.(dv_ns) = d.(dv_ns) /\ dv_host d' = dv_host d /\
  (d'.(dv_world) = d.(dv_world) \/ d'.(dv_world) = (get_local_clock d.(dv_world)).1)).
Proof using.
  unfold __enqueue_io_req, __allocate_work_queue_entry. apply retp_bind. intros sq _. apply retp_bind, retp_bind. intros turn _.
  apply retp_bind. intros worker _. apply retp_bind. intros [[k n]|] _; [|apply retp_Ok, retp_Ok; split; [apply same_rest_refl|by split; [|split; [|left]]]].
  apply retp_bind. intros l Hl. apply retp_Ok, retp_bind. intros a _. destruct (get_local_clock _) as [world now]. unfold upd_worker.
  apply retp_bind, retp_amod. intros x y _ _. apply retp_Ok. simpl in *.
  unfold aset, aget in Hl. destruct (dv_workers d !! turn); [|done]. simpl in Hl. injection Hl as <-.
  split; [split; simpl; try done; by rewrite !zlen_zinsert|]. split; [done|]. split; [done|by right].
Qed.

(** ** One command *)

Notation run := (queue_run pfn_valid store_size io_using_dma).

Lemma run_one i ev d d' :
  queue_step pfn_valid store_size io_using_dma ev d = Ok d' -> event_clock ev d d' ->
  run i d (accepted i ev d) (posted i ev d d') d'.
Proof using.
  intros E Hc. rewrite <- (app_nil_r (accepted i ev d)), <- (app_nil_r (posted i ev d d')).
  eapply run_step; [done|done|constructor].
Qed.

Lemma run_app i d1 ins1 outs1 d2 ins2 outs2 d3 :
  run i d1 ins1 outs1 d2 -> run i d2 ins2 outs2 d3 -> run i d1 (ins1 ++ ins2) (outs1 ++ outs2) d3.
Proof using.
  induction 1 as [|d ev d1 ins outs d2' E Hc Hr IH]; [done|]. intros H2. rewrite <- !(assoc_L (++)).
  eapply run_step; [done|done|by apply IH].
Qed.

Record dispatch_inv (d : io_dev) : Prop := {
  di_queues : queues_ok d;
  di_world : W d.(dv_ns) d.(dv_world)
}.

(** What the worker [w] gets of requests for the worker [i]. *)
Definition at_worker (i w : Z) (ins : list request) : list request := if w =? i then ins else [].

Lemma at_worker_app i w ins1 ins2 : at_worker i w (ins1 ++ ins2) = at_worker i w ins1 ++ at_worker i w ins2.
Proof using. unfold at_worker. by destruct (w =? i). Qed.
Lemma at_worker_nil i w : at_worker i w [] = [].
Proof using. unfold at_worker. by destruct (w =? i). Qed.

(** Requests put in the queue of the worker [i], with the room they take. *)
Record requested (i : Z) (d : io_dev) (ins : list request) (n : nat) (d' : io_dev) : Prop := {
  rq_inv : dispatch_inv d';
  rq_rest : same_rest d d';
  rq_room w : (room d w <= (if (w =? i)%Z then n else 0) + room d' w)%nat;
  rq_run w : run w d (at_worker i w ins) [] d'
}.

Lemma rq_room_at i d ins n d' : requested i d ins n d' -> (room d i <= n + room d' i)%nat.
Proof using. intros H. pose proof (rq_room _ _ _ _ _ H i) as R. by rewrite Z.eqb_refl in R. Qed.

Lemma requested_trans i d1 ins1 n1 d2 ins2 n2 d3 :
  requested i d1 ins1 n1 d2 -> requested i d2 ins2 n2 d3 -> requested i d1 (ins1 ++ ins2) (n1 + n2) d3.
Proof using.
  intros [I1 S1 R1 Q1] [I2 S2 R2 Q2]. split; [done|by eapply same_rest_trans|intros w; specialize (R1 w); specialize (R2 w); destruct (w =? i); lia|].
  intros w. rewrite at_worker_app. exact (run_app _ _ _ [] _ _ [] _ (Q1 w) (Q2 w)).
Qed.

Lemma world_after d d' : dispatch_inv d -> queues_ok d' -> d'.(dv_ns) = d.(dv_ns) ->
  (d'.(dv_world) = d.(dv_world) \/ d'.(dv_world) = (get_local_clock d.(dv_world)).1) -> dispatch_inv d'.
Proof using LW.
  intros [Hq HW] Hq' En Ew. split; [done|]. rewrite En. destruct Ew as [->| ->]; [done|by apply law_local].
Qed.

(** One event that puts one request in the queue of a worker. *)
Lemma got_requested d ev d' sqid fill t r :
  dispatch_inv d' -> same_rest d d' -> queues_ok d -> gets d sqid fill t d' -> filled fill t -> (2 <= room d (worker_of d sqid))%nat ->
  queue_step pfn_valid store_size io_using_dma ev d = Ok d' -> event_clock ev d d' ->
  (forall w, posted w ev d d' = [] /\ accepted w ev d = if accepts d w sqid then [r] else []) ->
  requested (worker_of d sqid) d [r] 1 d'.
Proof using.
  intros Hd' Hs Hq Hg Hf Hr E Hc Hev. split; [done|done|intros w|intros w].
  - destruct (w =? worker_of d sqid) eqn:Ew; [apply Z.eqb_eq in Ew as ->; by eapply gets_room|apply Z.eqb_neq in Ew].
    by rewrite (gets_others d sqid fill t d' w).
  - pose proof (run_one w ev d d' E Hc) as H. destruct (Hev w) as [Hp Ha]. rewrite Hp, Ha in H. unfold at_worker.
    destruct (w =? worker_of d sqid) eqn:Ew; [apply Z.eqb_eq in Ew as ->; by rewrite accepts_room in H|apply Z.eqb_neq in Ew].
    by rewrite accepts_others in H.
Qed.

Definition internal_request (op : internal_op) : request :=
  RqInternal op.(io_sqid) op.(io_nsecs_target) op.(io_buffer) op.(io_buffs).

Lemma internal_requested d op :
  dispatch_inv d -> (2 <= room d (worker_of d op.(io_sqid)))%nat ->
  okp (schedule_internal_operation op d) (fun d' => requested (worker_of d op.(io_sqid)) d [internal_request op] 1 d' /\ dv_host d' = dv_host d).
Proof using LW.
  intros Hd Hr. pose proof (di_queues _ Hd) as Hq.
  destruct (okp_inv _ _ (internal_total d op Hq)) as (d' & E & _). rewrite E. simpl.
  destruct (internal_rest d op d' E) as (Hs & En & Eh & Ew). split; [|done]. destruct (internal_gets d op Hq d' E) as (fill & Hg & Hf & Hv).
  pose proof (event_ok pfn_valid store_size io_using_dma (worker_of d op.(io_sqid)) (QInternal op) d d' Hq E I) as [Hq' _].
  apply (got_requested d (QInternal op) d' op.(io_sqid) fill op.(io_nsecs_target)); try done. by eapply world_after.
Qed.

Lemma internals_requested ops d i sqid :
  dispatch_inv d -> i = worker_of d sqid -> Forall (fun op => op.(io_sqid) = sqid) ops -> (length ops + 1 <= room d i)%nat ->
  okp (rfold schedule_internal_operation ops d) (fun d' => requested i d (internal_request <$> ops) (length ops) d' /\ dv_host d' = dv_host d).
Proof using LW.
  intros Hd -> Hops Hr. revert d Hd Hr. induction Hops as [|op ops Ho Hops IH]; intros d Hd Hr; simpl.
  { split; [|done]. split; [done|apply same_rest_refl|lia|]. intros w. rewrite at_worker_nil. constructor. }
  simpl in Hr. rewrite <- Ho in Hr |- *. okstep. eapply okp_mono; [apply internal_requested; [done|lia]|].
  intros d1 [H1 Eh1]. rewrite <- (worker_of_same d d1) by apply (rq_rest _ _ _ _ _ H1). rewrite <- Ho in IH.
  eapply okp_mono; [apply IH; [apply (rq_inv _ _ _ _ _ H1)|]|].
  - pose proof (rq_room_at _ _ _ _ _ H1). rewrite (worker_of_same d d1) by apply (rq_rest _ _ _ _ _ H1). lia.
  - intros d2 [H2 Eh2]. rewrite (worker_of_same d d1) in * by apply (rq_rest _ _ _ _ _ H1). split; [exact (requested_trans _ _ _ _ _ _ _ _ H1 H2)|congruence].
Qed.

Lemma enqueue_requested d sqid cqid e t ret sq a :
  dispatch_inv d -> (2 <= room d (worker_of d sqid))%nat -> get_sq d sqid = Ok sq -> sq_entry sq e = Ok a ->
  okp (__enqueue_io_req sqid cqid e t ret d) (fun d' => requested (worker_of d sqid) d
    [RqCommand sqid cqid e (cmd_command_id (dv_host d) a) t ret.(rs_nsecs_target)] 1 d' /\ dv_host d' = dv_host d).
Proof using LW.
  intros Hd Hr Hsq Ha. pose proof (di_queues _ Hd) as Hq.
  destruct (okp_inv _ _ (enqueue_total d sqid cqid e t ret sq a Hq Hsq Ha)) as (d' & E & _). rewrite E. simpl.
  destruct (enqueue_rest d sqid cqid e t ret d' E) as (Hs & En & Eh & Ew). split; [|done].
  destruct (enqueue_gets d sqid cqid e t ret Hq d' E) as (sq' & fill & Hsq' & Hg & Hf & Hv).
  pose proof (event_ok pfn_valid store_size io_using_dma (worker_of d sqid) (QEnqueue sqid cqid e t ret) d d' Hq E I) as [Hq' _].
  apply (got_requested d (QEnqueue sqid cqid e t ret) d' sqid fill ret.(rs_nsecs_target)); try done; [by eapply world_after|].
  intros w. simpl. by rewrite Hsq, bind_Ok, Ha.
Qed.

Lemma reclaim_requested d i : dispatch_inv d ->
  okp (__reclaim_completed_reqs d) (fun d' => requested i d [] 0 d' /\ dv_host d' = dv_host d).
Proof using LW.
  intros Hd. pose proof (di_queues _ Hd) as Hq.
  destruct (okp_inv _ _ (reclaim_reqs_ok d Hq)) as (d' & E & Hq' & Et & Ed & Hl & Hp). rewrite E. simpl.
  split; [|by rewrite Ed]. split; [split; [done|rewrite Ed; apply (di_world _ Hd)]|split; try (by rewrite Ed); done| |].
  - intros w. unfold room. destruct (d.(dv_workers) !! w) as [k|] eqn:Hk; [|lia]. pose proof (zlookup_Some_range _ _ _ Hk) as Hi.
    destruct (zlookup_lt d'.(dv_workers) w ltac:(lia)) as [k' Hk']. rewrite Hk'. pose proof (proj1 (proj2 (Hp _ _ _ Hk Hk'))). lia.
  - intros w. rewrite at_worker_nil. exact (run_one w QReclaim d d' E I).
Qed.

(** The state between the handler and its requests: only the namespace and the state
    beside it changed. *)
Lemma handled_requested i d world h nss : dispatch_inv d -> zlen nss = zlen d.(dv_ns) -> W nss world ->
  requested i d [] 0 (dv_with_ns nss (dv_with_world world (dv_with_host h d))).
Proof using.
  intros [[H1 H2 H3] HW] Hl HW'. split; [split; [by split|done]|by split|intros w; simpl; unfold room; simpl; lia|].
  assert (queue_step pfn_valid store_size io_using_dma (QOther (dv_with_ns nss (dv_with_world world (dv_with_host h d)))) d =
    Ok (dv_with_ns nss (dv_with_world world (dv_with_host h d)))) as E by done.
  intros w. rewrite at_worker_nil. exact (run_one w _ _ _ E I).
Qed.

(** Where a command of the ring is, and that its namespace exists. *)
Definition nsid_of (d : io_dev) (a : Z) : Z := if KV_PROTOTYPE_BUILD then 0 else u32 (cmd_nsid (dv_host d) a - 1).

(** What a command puts in the queue: the internal operations of its handler, then
    the command itself. *)
Definition command_request (d : io_dev) (sqid cqid e a t : Z) (ret : nvmev_result) : request :=
  RqCommand sqid cqid e (cmd_command_id (dv_host d) a) t ret.(rs_nsecs_target).

Definition command_size (d : io_dev) (a : Z) : Z := __cmd_io_size (cmd_length (dv_host d) a).

(** The namespace of the command at [a] does not take it, in the state [d]. *)
Definition refuses (sqid : Z) (d : io_dev) (a : Z) : Prop :=
  let '(w, t) := __get_wallclock d.(dv_world) in exists ns r, d.(dv_ns) !! nsid_of d a = Some ns /\
    proc_io_cmd ns (dv_host d) a sqid t (Result NVME_SC_SUCCESS t) w = Ok (r, false).

Lemma proc_requested d sqid e sq a :
  dispatch_inv d -> get_sq d sqid = Ok sq -> sq_entry sq e = Ok a -> 0 <= nsid_of d a < zlen d.(dv_ns) ->
  cmd_allowed (dv_host d) a -> (max_internal + 2 <= room d (worker_of d sqid))%nat ->
  okp (__nvmev_proc_io sqid e d) (fun '(d', size) => host_kept cmd_writes [a] (dv_host d) (dv_host d') /\
    match size with
    | Some z => z = command_size d a /\
        exists ops t ret, (length ops <= max_internal)%nat /\ Forall (fun op => buffer_ok op.(io_buffer)) ops /\
          requested (worker_of d sqid) d ((internal_request <$> ops) ++ [command_request d sqid sq.(sq_cqid) e a t ret])
            (S max_internal) d'
    | None => may_refuse = true /\ refuses sqid d a /\ requested (worker_of d sqid) d [] 0 d'
    end).
Proof using LW.
  intros Hd Hsq Ha Hn Hal Hr. set (i := worker_of d sqid) in *. unfold __nvmev_proc_io. rewrite Hsq, bind_Ok.
  destruct (__get_wallclock (dv_world d)) as [w t] eqn:Ew. rewrite Ha, bind_Ok. fold (nsid_of d a).
  destruct (zlookup_lt _ _ Hn) as [ns Hns]. rewrite (aget_Some _ _ _ Hns), bind_Ok.
  assert (W d.(dv_ns) w) as HW by (pose proof (law_wallclock _ _ (di_world _ Hd)) as H; by rewrite Ew in H).
  destruct (okp_inv _ _ (law_proc _ _ _ (dv_host d) a sqid t (Result NVME_SC_SUCCESS t) _ HW Hns Hal)) as
    ([[[[ns' w'] h'] ret] ok] & Epr & HW' & Hh & Hok & Hl & Hops).
  assert (ok = false -> refuses sqid d a) as Href by (intros ->; unfold refuses; rewrite Ew; by exists ns, (ns', w', h', ret)).
  rewrite Epr, bind_Ok. clear Epr. destruct (take_scheduled w') as [ops w2]. simpl in *.
  destruct (law_same _ _ _ Hal Hh) as (Hid & _ & Hlen).
  pose proof (handled_requested i d w2 h' (<[nsid_of d a := ns']> d.(dv_ns)) Hd ltac:(by rewrite zlen_zinsert) HW') as H1.
  set (d1 := dv_with_ns _ _) in *. assert (dv_host d1 = h') as Eh1 by done. clearbody d1. pose proof (rq_rest _ _ _ _ _ H1) as S1.
  okstep. eapply okp_mono; [apply (internals_requested ops d1 i sqid); [apply H1|by rewrite (worker_of_same d d1)|eapply Forall_impl; [exact Hops|]; by intros op []|]|].
  { pose proof (rq_room_at _ _ _ _ _ H1). lia. }
  intros d2 [H2 Eh2]. pose proof (requested_trans _ _ _ _ _ _ _ _ H1 H2) as H12. pose proof (rq_rest _ _ _ _ _ H12) as S2.
  destruct ok; cbn [negb]; [|destruct Hok as [?|[Hm ->]]; [done|]; cbn [okp]; split; [by rewrite Eh2, Eh1|]; split; [done|]; split; [by apply Href|done]]. clear Hok Href.
  assert (get_sq d2 sqid = Ok sq) as Hsq2 by (unfold get_sq; by rewrite (se_sqes _ _ S2)).
  okstep. eapply okp_mono; [apply (enqueue_requested d2 sqid (sq_cqid sq) e t ret sq a); [apply H12| |done|done]|].
  { rewrite (worker_of_same d d2) by done. fold i. pose proof (rq_room_at _ _ _ _ _ H12). lia. }
  rewrite (worker_of_same d d2) by done. fold i. intros d3 [H3 Eh3]. rewrite Eh2, Eh1 in *. rewrite Hid in H3. rewrite Hlen.
  pose proof (requested_trans _ _ _ _ _ _ _ _ H12 H3) as H13.
  okstep. eapply okp_mono; [apply (reclaim_requested d3 i), H13|]. intros d4 [H4 Eh4]. simpl.
  split; [by rewrite Eh4, Eh3|]. split; [done|].
  exists ops, t, ret. split; [done|]. split; [eapply Forall_impl; [exact Hops|]; by intros op []|]. pose proof (requested_trans _ _ _ _ _ _ _ _ H13 H4) as [K1 K2 K3 K4].
  split; [done|done|intros j; specialize (K3 j); destruct (j =? i); lia|]. rewrite app_nil_r in K4. exact K4.
Qed.

(** ** The ring *)

Lemma sq_eta q : sq_with_stat (SqStat q.(sq_stat).(nr_dispatched) q.(sq_stat).(nr_dispatch) q.(sq_stat).(nr_in_flight)
  q.(sq_stat).(max_nr_in_flight) q.(sq_stat).(total_io)) q = q.
Proof using. by destruct q as [? ? [] ?]. Qed.

Section ring.
Context (sqid : Z) (sq : nvmev_submission_queue) (d0 : io_dev) (new old : Z).
Let size := sq.(sq_queue_size).
Let i := worker_of d0 sqid.
Let n := ring_distance size new old.

(** The queue and the doorbells are in range, and the entries hold commands that are
    allowed and apart from each other, for namespaces that exist. *)
Definition entry_addr (e : Z) : Z := match sq_entry sq e with Ok a => a | Fault _ => 0 end.
Definition ring_addrs : list Z := entry_addr <$> ring_entries size new old.

Record ring_ok : Prop := {
  ro_sq : get_sq d0 sqid = Ok sq;
  ro_size : 0 < size < 2147483648;
  ro_old : 0 <= old < size;
  ro_new : 0 <= new < size;
  ro_entry e : e ∈ ring_entries size new old -> exists a, sq_entry sq e = Ok a /\ 0 <= nsid_of d0 a < zlen d0.(dv_ns) /\ cmd_allowed (dv_host d0) a;
  ro_apart e e' : e ∈ ring_entries size new old -> e' ∈ ring_entries size new old -> e <> e' -> cmd_apart (entry_addr e) (entry_addr e')
}.

(** The size of the command in the entry [e]. *)
Definition entry_size (e : Z) : Z := match sq_entry sq e with Ok a => command_size d0 a | Fault _ => 0 end.

(** The requests of the entry [e]. *)
Definition served (e : Z) (ins : list request) : Prop :=
  exists a ops t ret, sq_entry sq e = Ok a /\ (length ops <= max_internal)%nat /\ Forall (fun op => buffer_ok op.(io_buffer)) ops /\
    ins = (internal_request <$> ops) ++ [command_request d0 sqid sq.(sq_cqid) e a t ret].

Definition first_entries (j : Z) : list Z := (fun i => (old + i) `mod` size) <$> zrange 0 j.

Definition stat_after (j : Z) (st : nvmev_sq_stat) : nvmev_sq_stat :=
  SqStat (u32 (st.(nr_dispatched) + j)) st.(nr_dispatch) (u32 (st.(nr_in_flight) + j)) st.(max_nr_in_flight)
    (u64 (st.(total_io) + foldr (fun e x => entry_size e + x) 0 (first_entries j))).

Definition stat_ok (st : nvmev_sq_stat) : Prop :=
  0 <= st.(nr_dispatched) < 2 ^ 32 /\ 0 <= st.(nr_in_flight) < 2 ^ 32 /\ 0 <= st.(total_io) < 2 ^ 64.

(** [l] are the commands that were handled. *)
Record ring_at (l : list Z) (s : sq_loop) : Prop := {
  ra_seq : 0 <= s.(sl_seq) <= n;
  ra_entry : s.(sl_entry) = (old + s.(sl_seq)) `mod` size;
  ra_sq : get_sq s.(sl_dev) sqid = Ok (sq_with_stat (stat_after s.(sl_seq) sq.(sq_stat)) sq);
  ra_sqes : s.(sl_dev).(dv_sqes) = <[sqid := Some (sq_with_stat (stat_after s.(sl_seq) sq.(sq_stat)) sq)]> d0.(dv_sqes);
  ra_rest : same_rest (dv_with_sqes s.(sl_dev).(dv_sqes) d0) s.(sl_dev);
  ra_inv : dispatch_inv s.(sl_dev);
  ra_host : host_kept cmd_writes l (dv_host d0) (dv_host s.(sl_dev));
  ra_room : (Z.to_nat (n - s.(sl_seq)) * S max_internal < room s.(sl_dev) i)%nat;
  ra_left w : (room d0 w <= (if (w =? i)%Z then Z.to_nat s.(sl_seq) * S max_internal else 0) + room s.(sl_dev) w)%nat;
  ra_run : exists inss, Forall2 served (first_entries s.(sl_seq)) inss /\
    forall w, run w d0 (at_worker i w (concat inss)) [] s.(sl_dev)
}.

Lemma u32_add x y : u32 (u32 x + y) = u32 (x + y).
Proof using. Transparent u32. unfold u32. by rewrite Zplus_mod_idemp_l. Opaque u32. Qed.
Lemma u64_add x y : u64 (u64 x + y) = u64 (x + y).
Proof using. Transparent u64. unfold u64. by rewrite Zplus_mod_idemp_l. Opaque u64. Qed.

Lemma first_entries_S j : 0 <= j -> first_entries (j + 1) = first_entries j ++ [(old + j) `mod` size].
Proof using. clear i n. intros Hj. unfold first_entries. by rewrite zrange_snoc, fmap_app by lia. Qed.

Lemma stat_after_S j st : 0 <= j ->
  stat_after (j + 1) st = dispatched (entry_size ((old + j) `mod` size)) (stat_after j st).
Proof using.
  intros Hj. unfold stat_after, dispatched. simpl. rewrite first_entries_S by done. rewrite !u32_add, u64_add, !Z.add_assoc.
  f_equal. f_equal. rewrite foldr_app. simpl. clear. 
  assert (forall l x, foldr (fun e x => entry_size e + x) x l = foldr (fun e x => entry_size e + x) 0 l + x) as H.
  { intros l x. induction l as [|e l IH]; simpl; [lia|]. rewrite IH. lia. }
  rewrite (H _ (_ + 0)). by rewrite Z.add_0_r, Z.add_assoc.
Qed.

Lemma entry_next j : 0 < size -> 0 <= j -> 
  (if (old + j) `mod` size + 1 =? size then 0 else (old + j) `mod` size + 1) = (old + (j + 1)) `mod` size.
Proof using.
  clear i n. intros Hs Hj. pose proof (Z.mod_pos_bound (old + j) size Hs) as Hm. pose proof (Z.div_mod (old + j) size ltac:(lia)) as Hd.
  replace (old + (j + 1)) with ((old + j) `mod` size + 1 + (old + j) `div` size * size) by lia. rewrite Z.mod_add by lia.
  destruct (_ =? _) eqn:E; [apply Z.eqb_eq in E; by rewrite E, Z.mod_same by lia|apply Z.eqb_neq in E].
  symmetry. apply Z.mod_small. lia.
Qed.

Context (Hring : ring_ok) (Hd0 : dispatch_inv d0) (Hstat : stat_ok sq.(sq_stat)).
Context (Hroom : (Z.to_nat n * S max_internal < room d0 i)%nat).

Lemma distance_range : 0 <= n < size.
Proof using Hring. clear Hroom Hd0 Hstat. apply Z.mod_pos_bound. pose proof (ro_size Hring). lia. Qed.

Lemma set_sq_at d q st : get_sq d sqid = Ok q ->
  set_sq sqid (sq_with_stat st q) d = Ok (dv_with_sqes (<[sqid := Some (sq_with_stat st q)]> d.(dv_sqes)) d) /\
  get_sq (dv_with_sqes (<[sqid := Some (sq_with_stat st q)]> d.(dv_sqes)) d) sqid = Ok (sq_with_stat st q).
Proof using.
  unfold get_sq, set_sq, aset, aget. destruct (d.(dv_sqes) !! sqid) as [x|] eqn:E; [|done]. intros _. simpl. split; [done|].
  by rewrite zlookup_zinsert_eq by (by eapply zlookup_Some_range).
Qed.

Lemma sqes_run j d l : run j d [] [] (dv_with_sqes l d).
Proof using. exact (run_one j (QOther (dv_with_sqes l d)) d (dv_with_sqes l d) eq_refl I). Qed.

(** The commands of the entries before the [j]th. *)
Definition addrs_to (j : Z) : list Z := entry_addr <$> first_entries j.

(** An entry that is still to come is apart from those handled. *)
Lemma entries_differ j k : 0 < size -> 0 <= j < k -> k < size -> (old + j) `mod` size <> (old + k) `mod` size.
Proof using.
  clear Hroom Hd0 Hstat Hring i n. intros Hs Hj Hk E. pose proof (Z.div_mod (old + j) size ltac:(lia)) as D1. pose proof (Z.div_mod (old + k) size ltac:(lia)) as D2.
  rewrite E in D1. assert (k - j = size * ((old + k) `div` size - (old + j) `div` size)) as Hd by lia.
  assert ((old + k) `div` size - (old + j) `div` size <= 0 \/ 1 <= (old + k) `div` size - (old + j) `div` size) as [?|?] by lia; nia.
Qed.

Lemma later_entry h j :
  0 <= j < n -> host_kept cmd_writes (addrs_to j) (dv_host d0) h ->
  exists a, sq_entry sq ((old + j) `mod` size) = Ok a /\ entry_addr ((old + j) `mod` size) = a /\
    0 <= nsid_of d0 a < zlen d0.(dv_ns) /\ cmd_allowed (dv_host d0) a /\ cmd_allowed h a /\ same_command (dv_host d0) h a.
Proof using Hring LW.
  clear Hroom Hd0 Hstat. intros Hj Hk. pose proof (ro_size Hring) as Hsz. pose proof distance_range as Hn.
  assert (forall k, 0 <= k < n -> (old + k) `mod` size ∈ ring_entries size new old) as Hin.
  { intros k Hk'. apply list_elem_of_fmap. exists k. split; [done|]. by apply elem_of_zrange. }
  destruct (ro_entry Hring _ (Hin j Hj)) as (a & Ha & Hns & Hal). exists a. split; [done|].
  assert (entry_addr ((old + j) `mod` size) = a) as Ea by (unfold entry_addr; by rewrite Ha).
  do 2 (split; [done|]). split; [done|]. apply (law_apart (addrs_to j)); [done| |done].
  intros b Hb. unfold addrs_to, first_entries in Hb. rewrite <- list_fmap_compose in Hb.
  apply list_elem_of_fmap in Hb as (k & -> & Hk'%elem_of_zrange). simpl. rewrite <- Ea.
  apply (ro_apart Hring); [apply Hin; lia|by apply Hin|]. apply entries_differ; lia.
Qed.

(** The device after the first [m] entries, of which the next is refused. *)
Definition stopped (m : Z) : Prop := exists d inss,
  dispatch_inv d /\ same_rest (dv_with_sqes d.(dv_sqes) d0) d /\
  Forall2 served (first_entries m) inss /\ (forall w, run w d0 (at_worker i w (concat inss)) [] d) /\
  refuses sqid d (entry_addr ((old + m) `mod` size)).
Definition all_or_stopped (m : Z) : Prop := m = n \/ may_refuse = true /\ m < n /\ stopped m.

Lemma none_refused m : all_or_stopped m -> may_refuse = false -> m = n.
Proof using. by intros [?|(-> & _)]. Qed.

Lemma sq_step_ok s :
  ring_at (addrs_to s.(sl_seq)) s -> okp (sq_step sqid n s) (fun r =>
    match r with
    | inl s' => ring_at (addrs_to s'.(sl_seq)) s' /\ n - s'.(sl_seq) < n - s.(sl_seq)
    | inr s' => ring_at ring_addrs s' /\ all_or_stopped s'.(sl_seq)
    end).
Proof using Hring LW.
  clear Hroom Hd0 Hstat. intros Hs. pose proof Hs as [H1 H2 H3 Hsqes H4 H5 Hh H6 Hoth (inss & H7 & H8)]. unfold sq_step.
  pose proof (ro_size Hring) as Hsz. set (j := sl_seq s) in *. set (d := sl_dev s) in *.
  assert (forall k, k <= n -> forall a, a ∈ addrs_to k -> a ∈ ring_addrs) as Hsub.
  { intros k Hk a Ha. unfold addrs_to, ring_addrs in *. apply list_elem_of_fmap in Ha as (e & -> & He). apply list_elem_of_fmap_2.
    unfold first_entries in He. apply list_elem_of_fmap in He as (x & -> & Hx%elem_of_zrange). apply list_elem_of_fmap. exists x.
    split; [done|]. apply elem_of_zrange. fold n. lia. }
  destruct (n <=? j) eqn:E; [apply Z.leb_le in E; cbn [okp]; split; [|left; fold j; lia]|apply Z.leb_gt in E].
  { split; try done; [by eapply kept_weaken; [exact Hh|apply Hsub; lia]|by exists inss]. }
  destruct (later_entry _ j ltac:(lia) Hh) as (a & Ha & Ea & Hns & _ & Hal & Hid & Hnsid & Hlen). fold d in Hal, Hid, Hnsid, Hlen.
  assert (worker_of d sqid = i) as Ei by exact (worker_of_same _ _ sqid H4).
  replace (Z.to_nat (n - j)) with (S (Z.to_nat (n - (j + 1)))) in H6 by lia. rewrite Nat.mul_succ_l in H6.
  rewrite H2. okstep. eapply okp_mono; [apply (proc_requested d sqid ((old + j) `mod` size) (sq_with_stat (stat_after j (sq_stat sq)) sq) a)|].
  - done.
  - done.
  - done.
  - unfold nsid_of. rewrite Hnsid, (se_ns _ _ H4). done.
  - done.
  - rewrite Ei. lia.
  - intros [d1 [z|]]; rewrite Ei; [intros (Hh1 & -> & ops & t & ret & Hops & Hbuf & [R1 R2 R3 R4])|intros (Hh1 & Hm & Href & [R1 R2 R3 R4])];
      pose proof (kept_trans _ _ _ _ _ _ Hh Hh1) as Hh2.
    2: { cbn [okp]. split; [|right; split; [done|]; split; [cbn [sl_seq]; lia|]; exists d, inss; cbn [sl_seq]; rewrite Ea; by repeat (split; [done|])].
      split; cbn [sl_seq sl_entry sl_dev].
      - done.
      - done.
      - unfold get_sq. rewrite (se_sqes _ _ R2). exact H3.
      - rewrite (se_sqes _ _ R2). exact Hsqes.
      - destruct H4 as [], R2 as []. split; simpl in *; congruence.
      - done.
      - eapply kept_weaken; [exact Hh2|]. intros x [Hx|Hx]%elem_of_app; [by apply (Hsub j ltac:(lia))|].
        apply list_elem_of_singleton in Hx as ->. apply (Hsub (j + 1) ltac:(lia)). unfold addrs_to. rewrite first_entries_S by lia.
        rewrite fmap_app, elem_of_app. right. rewrite <- Ea. by apply list_elem_of_singleton.
      - specialize (R3 i). rewrite Z.eqb_refl in R3. fold j. replace (Z.to_nat (n - j)) with (S (Z.to_nat (n - (j + 1)))) by lia. lia.
      - intros w. specialize (R3 w). specialize (Hoth w). fold d j in Hoth. fold j. destruct (w =? i); lia.
      - exists inss. split; [done|]. intros w. specialize (R4 w). rewrite at_worker_nil in R4.
        rewrite <- (app_nil_r (at_worker _ _ _)). exact (run_app _ _ _ [] _ _ [] _ (H8 w) R4). }
    assert (get_sq d1 sqid = Ok (sq_with_stat (stat_after j (sq_stat sq)) sq)) as Hsq1 by (unfold get_sq; rewrite (se_sqes _ _ R2); exact H3).
    rewrite Hsq1, bind_Ok. cbv zeta.
    destruct (set_sq_at d1 _ (dispatched (command_size d a) (sq_stat (sq_with_stat (stat_after j (sq_stat sq)) sq))) Hsq1) as [E1 E2].
    rewrite E1, bind_Ok. cbn [okp]. split; [|cbn [sl_seq]; lia].
    assert (command_size d a = entry_size ((old + j) `mod` size)) as Ez by (unfold entry_size, command_size; by rewrite Ha, Hlen).
    split; cbn [sl_seq sl_entry sl_dev].
    + lia.
    + rewrite <- entry_next by lia. done.
    + rewrite E2, Ez, stat_after_S by lia. done.
    + cbn [dv_with_sqes dv_sqes]. rewrite (se_sqes _ _ R2). fold d in Hsqes. rewrite Hsqes, zinsert_zinsert, Ez, stat_after_S by lia. done.
    + destruct H4 as [], R2 as []. split; simpl in *; congruence.
    + destruct R1 as [[] ?]. split; [split|]; done.
    + unfold addrs_to. rewrite first_entries_S, fmap_app by lia. simpl. rewrite Ea. exact Hh2.
    + change (room (dv_with_sqes _ d1) i) with (room d1 i). specialize (R3 i). rewrite Z.eqb_refl in R3. lia.
    + intros w. change (room (dv_with_sqes _ d1) w) with (room d1 w). specialize (R3 w). specialize (Hoth w). fold d j in Hoth.
      replace (Z.to_nat (j + 1)) with (S (Z.to_nat j)) by lia. rewrite Nat.mul_succ_l. destruct (w =? i); lia.
    + exists (inss ++ [(internal_request <$> ops) ++ [command_request d sqid (sq_cqid sq) ((old + j) `mod` size) a t ret]]).
      split.
      * rewrite first_entries_S by lia. apply Forall2_app; [done|]. constructor; [|constructor].
        exists a, ops, t, ret. split; [done|]. split; [done|]. split; [done|]. unfold command_request. by rewrite Hid.
      * intros w. rewrite concat_app, at_worker_app. simpl. rewrite app_nil_r. eapply (run_app _ _ _ [] _ _ []); [exact (H8 w)|].
        rewrite <- (app_nil_r (at_worker _ _ _)). exact (run_app _ _ _ [] _ _ [] _ (R4 w) (sqes_run w d1 _)).
Qed.

(** The entries up to some point are the first of the ring's; the point after all of
    them is the new doorbell. *)
Lemma first_entries_take m : 0 <= m <= n -> first_entries m = take (Z.to_nat m) (ring_entries size new old).
Proof using.
  clear Hroom Hd0 Hstat Hring i. intros Hm. unfold ring_entries, first_entries. fold n. rewrite <- fmap_take. f_equal. unfold zrange. rewrite !Z.sub_0_r, <- fmap_take. f_equal.
  rewrite take_seq. f_equal. lia.
Qed.

Lemma last_entry : (old + n) `mod` size = new.
Proof using Hring.
  clear Hroom Hd0 Hstat. pose proof (ro_new Hring). pose proof (ro_size Hring). unfold n, ring_distance. rewrite Zplus_mod_idemp_r.
  replace (old + (new - old)) with new by lia. apply Z.mod_small. lia.
Qed.

(** The start of the loop. *)
Lemma ring_start : ring_at (addrs_to 0) (SqLoop 0 old d0).
Proof using All.
  pose proof distance_range as Hn. pose proof (ro_old Hring). pose proof (ro_sq Hring) as Hsq.
  assert (sq_with_stat (stat_after 0 (sq_stat sq)) sq = sq) as E.
  { unfold stat_after. simpl. destruct Hstat as (? & ? & ?). rewrite !Z.add_0_r, !u32_small, u64_small by lia. apply sq_eta. }
  split; cbn [sl_seq sl_entry sl_dev]; rewrite ?E; [lia|rewrite Z.add_0_r, Z.mod_small; lia|done| |by destruct d0|done|done|by rewrite Z.sub_0_r|intros w; lia|].
  - unfold get_sq, aget in Hsq. destruct (d0.(dv_sqes) !! sqid) as [q|] eqn:Eq; [|done]. simpl in Hsq. destruct q as [q|]; [|done].
    injection Hsq as ->. by rewrite zinsert_id.
  - exists []. split; [constructor|]. intros w. rewrite at_worker_nil. constructor.
Qed.

Lemma dispatch_ok :
  okp (nvmev_proc_io_sq sqid new old d0) (fun '(d', latest_db) => exists m, 0 <= m <= n /\ all_or_stopped m /\
    latest_db = (old + m) `mod` size /\ dispatch_inv d' /\ same_rest (dv_with_sqes d'.(dv_sqes) d0) d' /\ host_kept cmd_writes ring_addrs (dv_host d0) (dv_host d') /\
    (exists st, d'.(dv_sqes) = <[sqid := Some (sq_with_stat st sq)]> d0.(dv_sqes) /\ stat_ok st /\
       st.(nr_dispatched) = u32 (sq.(sq_stat).(nr_dispatched) + m) /\
       st.(nr_dispatch) = u32 (sq.(sq_stat).(nr_dispatch) + 1) /\
       st.(nr_in_flight) = u32 (sq.(sq_stat).(nr_in_flight) + m) /\
       st.(total_io) = u64 (sq.(sq_stat).(total_io) + foldr (fun e x => entry_size e + x) 0 (first_entries m))) /\
    (forall w, (room d0 w <= (if (w =? i)%Z then Z.to_nat m * S max_internal else 0) + room d' w)%nat) /\
    exists inss, Forall2 served (first_entries m) inss /\ forall w, run w d0 (at_worker i w (concat inss)) [] d').
Proof using All.
  pose proof distance_range as Hn. pose proof (ro_size Hring) as Hsz. pose proof (ro_old Hring). pose proof (ro_new Hring).
  unfold nvmev_proc_io_sq. pose proof (ro_sq Hring) as Hsq. unfold get_sq in Hsq.
  destruct (aget d0.(dv_sqes) sqid) as [q|] eqn:Eq; [|done]. simpl in Hsq. destruct q as [q|]; [|done]. simpl in Hsq.
  injection Hsq as ->. rewrite bind_Ok. cbv zeta. fold size.
  assert ((if s32 (new - old) <? 0 then s32 (s32 (new - old) + size) else s32 (new - old)) = n) as ->.
  { unfold n, ring_distance. rewrite (s32_small (new - old)) by lia. destruct (new - old <? 0) eqn:E; [apply Z.ltb_lt in E|apply Z.ltb_ge in E].
    - rewrite s32_small by lia. rewrite <- (Z.mod_add _ 1) by lia. rewrite Z.mod_small; lia.
    - rewrite Z.mod_small; lia. }
  okstep. apply (okp_mono _ (fun s => ring_at ring_addrs s /\ all_or_stopped (sl_seq s))).
  { apply (rloop_inv _ (fun s => ring_at (addrs_to s.(sl_seq)) s) (fun s => n - sl_seq s)); [intros s []; lia|by apply sq_step_ok|apply ring_start; done|simpl; lia]. }
  intros s [[H1 H2 H3 Hsqes H4 H5 Hh H6 Hoth (inss & H7 & H8)] Hseq]. rewrite H3, bind_Ok.
  set (st := SqStat _ _ _ _ _). destruct (set_sq_at (sl_dev s) _ st H3) as [E1 E2]. rewrite E1, bind_Ok.
  okstep. apply okp_cmod; [simpl; fold size; lia|]. simpl. exists (sl_seq s). split; [lia|]. split; [done|]. split; [done|].
  split; [destruct H5 as [[] ?]; by split|]. split; [destruct H4; split; simpl in *; congruence|]. split; [exact Hh|].
  split; [exists st|split; [exact Hoth|exists inss]].
  - rewrite Hsqes, zinsert_zinsert. split; [done|]. split; [|by unfold st].
    unfold st, stat_ok. cbn. pose proof (u32_range (nr_dispatched (sq_stat sq) + sl_seq s)). pose proof (u32_range (nr_in_flight (sq_stat sq) + sl_seq s)).
    match goal with |- context [u64 ?x] => pose proof (u64_range x) end. lia.
  - split; [done|]. intros w. rewrite <- (app_nil_r (at_worker _ _ _)). exact (run_app _ _ _ [] _ _ [] _ (H8 w) (sqes_run w _ _)).
Qed.

End ring.
End dispatch.
