(* ===== verification/IoConsume.v ===== *)
(** * The doorbell of a completion queue

    [nvmev_proc_io_cq] walks over the completions that the host has consumed, from
    the old doorbell to before the new one, over the end of the ring, and takes each
    off the number in flight of its submission queue.  At the end of the ring it
    reads one entry more than the ring has. *)

From stdpp Require Import prelude list.
From Stdlib Require Import ZArith Lia.
From S2P Require Import Prelude Mem NvmeCmd IoQueue IoCopy Io IoRun IoDispatch.

Section consume.
Context `{BK : Backend} `{QC : QueueConfig}.

(** The submission queue of a completion. *)
Definition sqid_at (cq : nvmev_completion_queue) (h : mem) (i : Z) : Z :=
  match cq_entry cq i with Ok a => get_le h (a + 10) 2 | Fault _ => 0 end.

Definition consumed (st : nvmev_sq_stat) : nvmev_sq_stat :=
  SqStat st.(nr_dispatched) st.(nr_dispatch) (u32 (st.(nr_in_flight) - 1)) st.(max_nr_in_flight) st.(total_io).

(** One consumed completion; the queue may be deleted. *)
Definition consume_one (l : list (option nvmev_submission_queue)) (sqid : Z) : list (option nvmev_submission_queue) :=
  match l !! sqid with Some (Some sq) => <[sqid := Some (sq_with_stat (consumed sq.(sq_stat)) sq)]> l | _ => l end.

Lemma consume_len l i : zlen (consume_one l i) = zlen l.
Proof. unfold consume_one. destruct (l !! i) as [[sq|]|]; [by rewrite zlen_zinsert|done|done]. Qed.
Lemma consumes_len ids l : zlen (foldl consume_one l ids) = zlen l.
Proof. revert l. induction ids as [|i ids IH]; intros l; simpl; [done|]. by rewrite IH, consume_len. Qed.

Section ring.
Context (cqid : Z) (cq : nvmev_completion_queue) (d0 : io_dev) (new old : Z).
Let size := cq.(cq_queue_size).
Let n := ring_distance size new old.

(** The doorbells are in the ring, and its entries, with the one after the last when
    the walk goes over the end, are in the pages and name queues of the table. *)
Record consume_ok : Prop := {
  cm_cq : get_cq d0 cqid = Ok cq;
  cm_size : 0 < size < 2147483648;
  cm_old : 0 <= old < size;
  cm_new : 0 <= new < size;
  cm_entry i : 0 <= i < size -> exists a, cq_entry cq i = Ok a /\ 0 <= get_le (dv_host d0) (a + 10) 2 < zlen d0.(dv_sqes);
  cm_last : new < old -> exists a, cq_entry cq size = Ok a
}.

Definition first_ids (k : Z) : list Z := (fun i => sqid_at cq (dv_host d0) ((old + i) `mod` size)) <$> zrange 0 k.
Definition after (k : Z) : io_dev := dv_with_sqes (foldl consume_one d0.(dv_sqes) (first_ids k)) d0.

Record walking (s : Z * io_dev) (k : Z) : Prop := {
  wk_range : 0 <= k <= n;
  wk_at : s.1 = (old + k) `mod` size \/ (s.1 = size /\ old + k = size /\ new < old);
  wk_dev : s.2 = after k
}.

Context (Hok : consume_ok).

Lemma distance_in : 0 <= n < size.
Proof using Hok. apply Z.mod_pos_bound. pose proof (cm_size Hok). lia. Qed.

Lemma distance_cases : (old <= new /\ n = new - old) \/ (new < old /\ n = new - old + size).
Proof using Hok.
  pose proof (cm_old Hok). pose proof (cm_new Hok). unfold n, ring_distance. destruct (Z.le_gt_cases old new); [left|right]; (split; [lia|]).
  - apply Z.mod_small. lia.
  - rewrite <- (Z.mod_add _ 1), Z.mod_small by lia. lia.
Qed.

Lemma first_ids_S k : 0 <= k -> first_ids (k + 1) = first_ids k ++ [sqid_at cq (dv_host d0) ((old + k) `mod` size)].
Proof using. clear Hok n. intros Hk. unfold first_ids. by rewrite zrange_snoc, fmap_app by lia. Qed.

Lemma after_S k : 0 <= k -> after (k + 1) = dv_with_sqes (consume_one (after k).(dv_sqes) (sqid_at cq (dv_host d0) ((old + k) `mod` size))) (after k).
Proof using. clear Hok n. intros Hk. unfold after. by rewrite first_ids_S, foldl_app by done. Qed.

(** What is left: the entries, and the entry after the last if it is still to come. *)
Definition left_to_do (s : Z * io_dev) (k : Z) : Z := (n - k) + (if old + k <? size then 1 else if s.1 =? size then 1 else 0).

Lemma step_in i d k : 0 <= i < size -> walking (i, d) k -> i <> new ->
  okp (cq_step cq new (i, d)) (fun r => match r with
    | inl s' => walking s' (k + 1) /\ left_to_do s' (k + 1) < left_to_do (i, d) k
    | inr d' => False end).
Proof using Hok.
  intros Hi [Hk Hat Hd] Hne. cbn [fst snd] in *. pose proof (cm_size Hok) as Hsz. pose proof distance_cases as Hn. pose proof (cm_old Hok). pose proof (cm_new Hok).
  destruct Hat as [Hat|[? _]]; [|lia]. unfold cq_step. rewrite (proj2 (Z.eqb_neq i new) Hne).
  destruct (cm_entry Hok i Hi) as (a & Ea & Hs). rewrite Ea, bind_Ok. cbv zeta. fold size. rewrite (proj2 (Z.leb_gt _ _)) by lia.
  assert (dv_host d = dv_host d0) as Eh by (by rewrite Hd). rewrite Eh. 
  assert (get_le (dv_host d0) (a + 10) 2 = sqid_at cq (dv_host d0) i) as Es by (unfold sqid_at; by rewrite Ea). rewrite Es in Hs |- *.
  assert (k < n) as Hkn.
  { destruct (Z.eq_dec k n) as [->|]; [|lia]. exfalso. apply Hne. rewrite Hat. destruct Hn as [[? ->]|[? ->]].
    - replace (old + (new - old)) with new by lia. apply Z.mod_small. lia.
    - replace (old + (new - old + size)) with (new + 1 * size) by lia. rewrite Z.mod_add by lia. apply Z.mod_small. lia. }
  assert (zlen d.(dv_sqes) = zlen d0.(dv_sqes)) as El by (rewrite Hd; apply consumes_len).
  assert (okp (q ← aget d.(dv_sqes) (sqid_at cq (dv_host d0) i);
    match q with
    | None => Ok (inl (i + 1, d))
    | Some sq => d ← set_sq (sqid_at cq (dv_host d0) i) (sq_with_stat (consumed (sq_stat sq)) sq) d; Ok (inl (i + 1, d))
    end) (fun r => r = inl (A := Z * io_dev) (B := io_dev) (i + 1, after (k + 1)))) as H1.
  { destruct (zlookup_lt d.(dv_sqes) (sqid_at cq (dv_host d0) i) ltac:(lia)) as [q Eq]. rewrite (aget_Some _ _ _ Eq), bind_Ok.
    rewrite after_S, <- Hat, <- Hd by lia. unfold consume_one. rewrite Eq. destruct q as [sq|]; [|simpl; by destruct d].
    unfold set_sq. rewrite aset_Some by lia. by simpl. }
  destruct (okp_inv _ _ H1) as (r & Er & ->). unfold consumed in Er. rewrite Er. cbn [okp].
  assert (i + 1 = (old + (k + 1)) `mod` size \/ (i + 1 = size /\ old + (k + 1) = size /\ new < old)) as Hat'.
  { destruct (Z.lt_ge_cases (old + k) size) as [Hw|Hw].
    - rewrite Z.mod_small in Hat by lia. destruct (Z.eq_dec (old + (k + 1)) size); [right; lia|left; rewrite Z.mod_small; lia].
    - left. rewrite <- (Z.mod_add _ (-1)), Z.mod_small in Hat by lia. rewrite <- (Z.mod_add _ (-1)), Z.mod_small by lia. lia. }
  split; [split; cbn [fst snd]; [lia|exact Hat'|done]|]. unfold left_to_do. cbn [fst].
  destruct (old + k <? size) eqn:E1; [apply Z.ltb_lt in E1|apply Z.ltb_ge in E1].
  - destruct (old + (k + 1) <? size); [lia|]. destruct (i + 1 =? size); lia.
  - rewrite (proj2 (Z.ltb_ge _ _)) by lia. rewrite (proj2 (Z.eqb_neq i size)) by lia.
    rewrite <- (Z.mod_add _ (-1)), Z.mod_small in Hat by lia. rewrite (proj2 (Z.eqb_neq (i + 1) size)) by lia. lia.
Qed.

Lemma cq_walk_ok s k : walking s k -> okp (cq_step cq new s) (fun r =>
  match r with
  | inl s' => exists k', walking s' k' /\ left_to_do s' k' < left_to_do s k
  | inr d' => d' = after n
  end).
Proof using Hok.
  intros Hw. pose proof Hw as [Hk Hat Hd]. destruct s as [i d]. cbn [fst snd] in *. pose proof (cm_size Hok) as Hsz.
  pose proof distance_cases as Hn. pose proof (cm_old Hok). pose proof (cm_new Hok).
  destruct (Z.eq_dec i new) as [->|Hne].
  - unfold cq_step. rewrite Z.eqb_refl. cbn [okp]. rewrite Hd. f_equal. destruct Hat as [Hat|[? _]]; [|lia].
    destruct Hn as [[? Hn]|[? Hn]]; destruct (Z.lt_ge_cases (old + k) size).
    + rewrite Z.mod_small in Hat; lia.
    + lia.
    + rewrite Z.mod_small in Hat by lia. lia.
    + rewrite <- (Z.mod_add _ (-1)), Z.mod_small in Hat by lia. lia.
  - destruct Hat as [Hat|(Hi & Hk2 & Hlt)].
    + assert (0 <= i < size) as Hi by (rewrite Hat; apply Z.mod_pos_bound; lia).
      eapply okp_mono; [by apply (step_in i d k)|]. intros [s'|d'] H1; [|done]. exists (k + 1). exact H1.
    + unfold cq_step. rewrite (proj2 (Z.eqb_neq i new) Hne). destruct (cm_last Hok Hlt) as [a Ea]. rewrite Hi, Ea, bind_Ok. cbv zeta. fold size.
      rewrite Z.leb_refl. cbn [okp]. exists k. split; [split; cbn [fst snd]; [done| |done]|].
      * left. by rewrite Hk2, Z.mod_same by lia.
      * unfold left_to_do. cbn [fst]. rewrite Hk2, Z.ltb_irrefl, Z.eqb_refl. rewrite (proj2 (Z.eqb_neq 0 size)) by lia. lia.
Qed.

Lemma proc_io_cq_ok : okp (nvmev_proc_io_cq cqid new old d0) (fun d' =>
  d'.(dv_sqes) = foldl consume_one d0.(dv_sqes) (sqid_at cq (dv_host d0) <$> ring_entries size new old) /\
  d'.(dv_cqes) = <[cqid := Some (cq_with_tail (new - 1) cq)]> d0.(dv_cqes) /\
  d' = dv_with_sqes d'.(dv_sqes) (dv_with_cqes d'.(dv_cqes) d0)).
Proof using Hok.
  pose proof (cm_size Hok) as Hsz. pose proof distance_in as Hn. pose proof (cm_old Hok). pose proof (cm_new Hok).
  unfold nvmev_proc_io_cq. rewrite (cm_cq Hok), bind_Ok. fold size. okstep. apply (okp_mono _ (fun d' => d' = after n)).
  { assert (forall fuel s k, walking s k -> left_to_do s k < Z.of_nat fuel -> okp (rloop fuel (cq_step cq new) s) (fun d' => d' = after n)) as Hloop.
    { induction fuel as [|fuel IH]; intros s k Hw Hm; simpl.
      - exfalso. unfold left_to_do in Hm. pose proof (wk_range _ _ Hw). repeat case_match; lia.
      - okstep. eapply okp_mono; [by apply (cq_walk_ok s k)|]. intros [s'|d'] Hr; [|done]. destruct Hr as (k' & Hw' & Hm'). apply (IH s' k'); [done|lia]. }
    apply (Hloop _ _ 0); [split; cbn [fst snd]|unfold left_to_do; cbn [fst]; rewrite Z.sub_0_r; repeat case_match; lia].
    - lia.
    - left. rewrite Z.add_0_r, Z.mod_small; lia.
    - unfold after, first_ids. simpl. by destruct d0. }
  intros d' ->. rewrite (proj2 (Z.eqb_neq new (-1))) by lia. unfold set_cq. pose proof (cm_cq Hok) as Hcq. unfold get_cq in Hcq.
  assert (0 <= cqid < zlen d0.(dv_cqes)) as Hr.
  { unfold aget in Hcq. destruct (d0.(dv_cqes) !! cqid) as [x|] eqn:E; [by eapply zlookup_Some_range|done]. }
  cbn [after dv_with_sqes dv_cqes]. rewrite aset_Some by done. simpl. split; [|done]. f_equal.
  unfold first_ids, ring_entries. rewrite <- list_fmap_compose. done.
Qed.
End ring.
End consume.
