(* ===== verification/IoLaws.v ===== *)
(** * The namespaces that the dispatcher can rely on

    The namespaces satisfy [BackendLaws].  The handlers of the simple and the key-value
    namespaces return for every command, whatever its fields, refuse none and schedule
    nothing internal; the conventional and the zoned namespace follow. *)

From stdpp Require Import prelude list.
From Stdlib Require Import ZArith Lia.
From S2P Require Import Prelude Mem Prp ChannelModel SsdConfig Ssd ConvFtl ConvInv ConvState ConvWrite ConvNs ConvRun ZnsFtl.
From S2P Require Import ZnsMgmt ZnsRw ZnsInv ZnsStep ZnsSend ZnsWrite ZnsRead ZnsRun IoUnits IoQueue IoInv KvAlloc KvFtl NvmeCmd.
From S2P Require Import IoCopy Io IoBackends IoRun IoDispatch.

Section units.
Context `{CK : Clock} (cf : nvmev_config) (Hcf : units_ok cf).

Definition stat_len (stat : list Z) : Prop := zlen stat = cf.(cf_nr_io_units).

(** A schedule returns for every address, length and time. *)
Lemma schedule_total tm lba len start stat :
  0 <= len < 4294967296 -> stat_len stat ->
  okp (schedule_units cf tm lba len start stat) (fun '(stat', _) => stat_len stat').
Proof using Hcf.
  intros Hlen Hst. pose proof (uo_units _ Hcf) as HU. pose proof (uo_shift _ Hcf) as Hsh. unfold UNIT_LBA_BITS in Hsh.
  unfold schedule_units, shr64, UNIT_LBA_BITS. rewrite (u32_small (_ - 9)) by lia. rewrite (proj2 (Z.ltb_lt _ _)) by lia.
  assert (0 < Z.shiftl 1 (cf_io_unit_shift cf) < 4294967296) as Hsz.
  { rewrite Z.shiftl_1_l. split; [apply Z.pow_pos_nonneg; lia|]. change 4294967296 with (2 ^ 32). apply Z.pow_lt_mono_r; lia. }
  rewrite (u32_small (Z.shiftl 1 _)) by lia. rewrite bind_Ok. okstep. apply okp_cmod; [lia|]. okstep. apply okp_cdiv; [lia|].
  pose proof (Z.mod_pos_bound (Z.shiftr lba (cf_io_unit_shift cf - 9)) (cf_nr_io_units cf) ltac:(lia)) as Hm.
  unfold stat_len in *. okstep. apply aget_okp; [lia|]. intros busy _.
  apply (rloop_inv _ (fun s => zlen s.(us_stat) = cf_nr_io_units cf /\ 0 <= s.(us_unit) < cf_nr_io_units cf /\ 0 <= s.(us_length))
    (fun s => s.(us_length))).
  - by intros s (_ & _ & ?).
  - intros s (H1 & H2 & H3). unfold unit_step. rewrite aset_Some by lia. rewrite bind_Ok.
    okstep. apply (okp_mono _ (fun l => zlen l = cf_nr_io_units cf)).
    { destruct (0 <? us_nr s); [rewrite aset_Some by (rewrite zlen_zinsert; lia)|]; simpl; by rewrite !zlen_zinsert. }
    intros l Hl. set (len' := us_length s - _). cbv zeta. destruct (0 <? len') eqn:E; [apply Z.ltb_lt in E|by simpl]. simpl.
    split; [|lia]. split; [done|]. split; [|lia]. rewrite u32_small by lia.
    destruct (cf_nr_io_units cf <=? _) eqn:E2; [lia|apply Z.leb_gt in E2; lia].
  - simpl. split; [done|]. lia.
  - simpl. lia.
Qed.

Lemma flush_total stat : stat_len stat -> okp (__schedule_flush cf stat) (fun _ => True).
Proof using Hcf.
  intros Hst. unfold __schedule_flush, stat_len in *. pose proof (uo_units _ Hcf).
  apply (rfold_inv_const _ (fun _ => True)); [done|]. intros i t Hi%elem_of_zrange _. okstep. apply aget_okp; [lia|done].
Qed.

(** The handler of the simple namespace returns for every command and refuses none. *)
Lemma simple_cmd_total ns req ret w : ns.(Simple.sn_csi) = NVME_CSI_NVM -> stat_len w.(Simple.ud_stat) ->
  okp (Simple.simple_proc_nvme_io_cmd cf true ns req ret w) (fun '(w', _, ok) => stat_len w'.(Simple.ud_stat) /\ ok = true).
Proof using Hcf.
  intros Hc Hw. unfold Simple.simple_proc_nvme_io_cmd. rewrite Hc. simpl. destruct (_ || _).
  - okstep. eapply okp_mono; [apply schedule_total; [apply u32_range|done]|]. intros [stat' t'] Hs. by simpl.
  - destruct (_ =? nvme_cmd_flush); [|by simpl]. okstep. eapply okp_mono; [by apply flush_total|]. intros t' _. by simpl.
Qed.

Definition simple_world (nss : list Simple.simple_ns) (w : Simple.unit_dev) : Prop :=
  stat_len w.(Simple.ud_stat) /\ Forall (fun ns => ns.(Simple.sn_csi) = NVME_CSI_NVM) nss.

#[export, refine] Instance simple_laws : BackendLaws (simple_backend cf) simple_world := {| max_internal := 0; may_refuse := false; cmd_allowed := fun _ _ => True; buffer_ok := fun _ => True;
  cmd_writes := writes_nothing; cmd_apart := fun _ _ => True |}.
Proof using Hcf.
  - by intros nss w [H1 H2].
  - by intros nss w [H1 H2].
  - intros nss i ns h a sqid t ret w [H1 H2] Hns _. simpl in *. pose proof (Forall_zlookup _ _ _ _ H2 Hns) as Hc.
    okstep. eapply okp_mono; [by apply simple_cmd_total|].
    intros [[w' ret'] ok] [Hw ->]. simpl. split; [split; [done|by apply Forall_zinsert]|].
    split; [done|]. split; [by left|]. split; [lia|constructor].
  - intros h h' a _. apply nothing_same.
  - intros l h h' b _ _ H. split; [done|by eapply nothing_same].
  - by intros b size nss w H _.
  - done.
Defined.

Context (find_next_zero : (Z -> bool) -> Z -> Z -> Z) (garbage : mem).

Definition kv_world_ok (nss : list kv_ns) (w : kv_world) : Prop := stat_len w.(kw_units).(Simple.ud_stat).

#[export, refine] Instance kv_laws : BackendLaws (kv_backend cf find_next_zero garbage) kv_world_ok := {| max_internal := 0; may_refuse := false; cmd_allowed := fun _ _ => True; buffer_ok := fun _ => True;
  cmd_writes := writes_nothing; cmd_apart := fun _ _ => True |}.
Proof using Hcf.
  - done.
  - done.
  - intros nss i ns h a sqid t ret w H Hns _. simpl in *.
    okstep. apply (okp_mono _ (fun '(u, _, ok) => stat_len u.(Simple.ud_stat) /\ ok = true)).
    + unfold kv_proc_nvme_io_cmd. destruct (_ || _); [|destruct (_ =? nvme_cmd_flush); [|destruct (_ || _); [|by simpl]]]; okstep.
      * eapply okp_mono; [apply schedule_total; [apply u32_range|done]|]. intros [stat' t'] Hs. by simpl.
      * eapply okp_mono; [by apply flush_total|]. intros t' _. by simpl.
      * eapply okp_mono; [apply schedule_total; [apply u32_range|done]|]. intros [stat' t'] Hs. by simpl.
    + intros [[u ret'] ok] [Hw ->]. simpl. split; [done|]. split; [done|]. split; [by left|]. split; [lia|constructor].
  - intros h h' a _. apply nothing_same.
  - intros l h h' b _ _ H. split; [done|by eapply nothing_same].
  - by intros b size nss w H _.
  - intros ns a status nss w m H. simpl. apply retp_bind. intros [[d result0] st] _. by apply retp_Ok.
Defined.
End units.

(** ** The conventional FTL behind the dispatcher

    The conventional namespace satisfies [BackendLaws]: for the commands that keep
    to the exported pages, its handler keeps the invariant of the FTL, and schedules
    a bounded number of releases of its own write buffer, which the workers then
    carry out; a command for which the buffer has no room is refused. *)

Section conv.
Context `{SC : SsdConfig, CC : ChanConfig, CK : Clock}.
Context (Hwb : GLOBAL_WB_SIZE < 4294967296) (L : Z) (sp : ssdparams) (pc wb : option Z) (nr : Z) (pages : nat).

(** One namespace, in a state that a run reaches, with nothing left to schedule. *)
Definition conv_world (nss : list conv_ns) (w : hw) : Prop :=
  exists ns, nss = [ns] /\ ConvRun.run_ok L sp pc wb nr (fun _ => True) (ns, w) /\ w.(hw_sched) = [].

(** A command within the limits of the FTL, that covers at most [pages] pages. *)
Definition conv_allowed (h : mem) (a : Z) : Prop :=
  let req := Request (rw_view h a) 0 0 in
  ConvRun.within L sp nr req /\
  (rw_opcode (rq_cmd req) = nvme_cmd_write -> (Z.to_nat (last_page_of sp req + 1 - first_page sp req) <= pages)%nat).

Lemma run_tick P ns w w' :
  w'.(hw_pcie) = w.(hw_pcie) -> w'.(hw_wbuf) = w.(hw_wbuf) ->
  ConvRun.run_ok L sp pc wb nr P (ns, w) -> ConvRun.run_ok L sp pc wb nr P (ns, w').
Proof using.
  intros E1 E2 [H1 H2 H3 H4 H5]. simpl in *. split; simpl; try done; [by eapply link_same|by rewrite E2].
Qed.

Lemma world_tick nss w w' :
  w'.(hw_pcie) = w.(hw_pcie) -> w'.(hw_wbuf) = w.(hw_wbuf) -> w'.(hw_sched) = w.(hw_sched) ->
  conv_world nss w -> conv_world nss w'.
Proof using. intros E1 E2 E3 (ns & -> & H & Hs). exists ns. split; [done|]. split; [by apply (run_tick _ _ w)|congruence]. Qed.

Lemma conv_release_ok b size nss w : conv_world nss w -> b = wb -> okp (release_wbuf b size w) (conv_world nss).
Proof using.
  intros (ns & -> & [H1 H2 H3 (buf & Hb & Hsz & Hrem) H5] & Hs) ->. simpl in *. unfold release_wbuf. rewrite Hb, bind_Ok.
  apply okp_bind. eapply okp_mono; [by eapply store_ok|]. intros bufs (E & _). simpl. exists ns. split; [done|]. split; [|done].
  split; simpl; try done. eexists. split; [exact E|]. split; [done|apply u64_range].
Qed.

#[export, refine] Instance conv_laws : BackendLaws conv_backend conv_world :=
  {| max_internal := pages; may_refuse := true; cmd_allowed := conv_allowed; buffer_ok := fun b => b = wb;
     cmd_writes := writes_nothing; cmd_apart := fun _ _ => True |}.
Proof using Hwb pages.
  - intros nss w. by apply world_tick.
  - intros nss w. by apply world_tick.
  - intros nss i ns h a sqid t ret w (ns0 & -> & Hrun & Hs) Hns [Hal Hpg]. simpl.
    assert (i = 0 /\ ns = ns0) as [-> ->].
    { pose proof (zlookup_Some_range _ _ _ Hns) as Hi. change (zlen [ns0]) with 1 in Hi. assert (i = 0) as -> by lia. by injection Hns. }
    apply okp_bind. eapply okp_mono; [by apply (command_ok L sp pc wb nr (fun _ => True) (Request (rw_view h a) sqid t) ret ns0 w)|].
    intros [[[ns' w'] ret'] ok] [Hrun' (ops & E & Hops & Hno & Hlen)]. rewrite Hs in E. simpl in E, Hops. cbn [okp fst snd take_scheduled conv_backend].
    rewrite E. split; [|split; [done|split; [|split]]].
    + exists ns'. split; [done|]. split; [|done]. eapply run_tick, run_ok_weaken; [| |..|exact Hrun']; done.
    + destruct ok; [by left|right]. by split; [|apply Hno].
    + etransitivity; [exact Hlen|]. destruct (_ =? nvme_cmd_write) eqn:Ew; [|lia]. apply Z.eqb_eq in Ew. by apply Hpg.
    + eapply Forall_impl; [exact Hops|]. by intros op (A1 & A2 & _).
  - intros h h' a _. apply nothing_same.
  - intros l h h' b Hal _ H. split; [|by eapply nothing_same]. unfold conv_allowed. by rewrite (rw_view_ext h h' b) by (intros x _; by eapply nothing_written).
  - intros b size nss w H E. by apply conv_release_ok.
  - done.
Defined.
End conv.

(** The commands that a host may send, by their logical blocks. *)
Lemma host_allowed `{SC : SsdConfig} L size sp pages h a :
  session_ok L size -> geometry_of size SSD_PARTITIONS sp ->
  let req := Request (rw_view h a) 0 0 in
  host_ok L req ->
  (is_write req -> (Z.to_nat (page_of (rw_slba (rq_cmd req) + rw_length (rq_cmd req)) + 1 - page_of (rw_slba (rq_cmd req))) <= pages)%nat) ->
  conv_allowed L sp SSD_PARTITIONS pages h a.
Proof.
  intros Hs Hgeo req [H1 H2] H3. pose proof (geometry_secs size SSD_PARTITIONS sp) as Hg.
  pose proof (so_config _ _ Hs) as Hc. unfold conv_allowed. fold req. split.
  - split; [exact H1|]. intros Hw. destruct (H2 Hw) as [H4 H5]. split; [exact H4|]. unfold last_page_of. by rewrite Hg.
  - intros Hw. unfold last_page_of, first_page. rewrite !Hg by done. by apply H3.
Qed.

(** ** The zoned namespace behind the dispatcher

    The zoned namespace satisfies [BackendLaws].  It is the one that writes the memory
    of its host while it handles a command: an append stores the block that it was
    given in the command, and a report goes to its buffer.  The host keeps its
    commands, and the buffers of its reports, apart; [data] is where those buffers
    are. *)

Section zoned.
Context `{SC : SsdConfig, ZC : ZnsConfig, CC : ChanConfig, CK : Clock}.
Context (Hlba : 0 <= LBA_BITS <= 12) (Hwb : 0 <= wb_bytes < 18446744073709551616).
Context (garbage : mem) (size : Z) (wbs : Z -> option Z) (blocks : nat) (data : Z -> Prop).

(** One namespace, in a state that a session reaches, with the write buffer [wbs i]
    for the zone [i] and with nothing left to schedule. *)
Definition zns_world (nss : list zns_ns) (w : hw) : Prop :=
  exists ns, nss = [ns] /\ zrun_ok size (ns, w) /\ w.(hw_sched) = [] /\
    forall i, 0 <= i < size `div` ZONE_SIZE -> zone_wb ns.(zn_ftl) i = wbs i.

(** A command within what [zrun_ok] relies on, which writes at most [blocks] blocks; a report
    has a buffer of at most two pages. *)
Definition zns_allowed (h : mem) (a : Z) : Prop :=
  let cmd := zns_view h a in
  zhost_ok size (ZnsRequest cmd 0 0) h /\ zblocks cmd <= Z.of_nat blocks /\
  (forall x, a <= x < a + NVME_COMMAND_SIZE -> ~ data x) /\
  (cmd.(zc_opcode) = nvme_cmd_zone_mgmt_recv ->
   bytes_transfer cmd - prp_first cmd.(zc_prp1) (bytes_transfer cmd) <= PAGE_SIZE /\
   forall o, 0 <= o < bytes_transfer cmd -> data (prp_addr (u64_at h) cmd.(zc_prp1) cmd.(zc_prp2) (bytes_transfer cmd) o)).

Definition zns_writes (a x : Z) : Prop := a + 40 <= x < a + 48 \/ data x.
Definition zns_apart (a b : Z) : Prop := a + NVME_COMMAND_SIZE <= b \/ b + NVME_COMMAND_SIZE <= a.

Lemma zrun_same ns w w' :
  w'.(hw_pcie) = w.(hw_pcie) -> w'.(hw_wbuf) = w.(hw_wbuf) -> zrun_ok size (ns, w) -> zrun_ok size (ns, w').
Proof using.
  intros E1 E2 [H1 H2 H3 H4 H5 H6 H7 H8]. split; simpl in *; try done; [unfold link_ok in *; by rewrite E1|by rewrite E2|].
  unfold zrwa_bufs_ok. by rewrite E2.
Qed.

Lemma zns_world_tick nss w w' :
  w'.(hw_pcie) = w.(hw_pcie) -> w'.(hw_wbuf) = w.(hw_wbuf) -> w'.(hw_sched) = w.(hw_sched) ->
  zns_world nss w -> zns_world nss w'.
Proof using.
  intros E1 E2 E3 (ns & -> & Hr & Hs & Hb). exists ns. split; [done|]. split; [by eapply zrun_same|]. split; [congruence|done].
Qed.

Lemma zns_release_ok b n nss w :
  zns_world nss w -> (exists i, 0 <= i < size `div` ZONE_SIZE /\ b = wbs i) -> okp (release_wbuf b n w) (zns_world nss).
Proof using Hlba Hwb CK garbage.
  intros (ns & -> & Hr & Hs & Hb) (i & Hi & ->). pose proof (zexec_ok garbage Hlba size (ZReleased i n) (ns, w) Hwb Hr Hi) as H.
  unfold zexec in H. rewrite (Hb i Hi) in H. unfold release_wbuf. revert H. destruct (deref (hw_wbuf w) (wbs i)) as [buf|]; [|done].
  rewrite !bind_Ok. destruct (store (hw_wbuf w) (wbs i) (buffer_release buf n).1) as [bufs|]; [|done].
  simpl. intros H. by exists ns.
Qed.

Lemma zns_kept h h' l b : (forall a, a ∈ l -> zns_apart a b) -> (forall x, b <= x < b + NVME_COMMAND_SIZE -> ~ data x) ->
  host_kept zns_writes l h h' -> forall x, b <= x < b + 64 -> h' x = h x.
Proof using.
  intros Ha Hd Hk x Hx. apply Hk. intros a Hin [Hw|Hw]; [|by apply (Hd x)].
  pose proof (Ha a Hin) as Hap. unfold zns_apart, NVME_COMMAND_SIZE in Hap. lia.
Qed.

Lemma zns_allowed_kept h h' b : (forall x, b <= x < b + 64 -> h' x = h x) -> zns_allowed h b -> zns_allowed h' b.
Proof using.
  intros Hx. unfold zns_allowed. rewrite (zns_view_ext h h' b Hx). intros ((H1 & H2 & H3 & H4) & H5 & H6 & H7). simpl in *.
  split; [|split; [done|split; [done|]]].
  - split; [done|]. split; [done|]. split; [done|]. intros E. destruct (H4 E) as [Hb Hl]. split; [|done].
    eapply short_buffer; [by apply H7|exact Hb].
  - intros E. destruct (H7 E) as [Hs Hd]. split; [done|]. intros o Ho. rewrite (short_addr (u64_at h)) by done. by apply Hd.
Qed.

Lemma zns_same_command h h' a : (forall x, a <= x < a + NVME_COMMAND_SIZE -> ~ data x) ->
  host_kept zns_writes [a] h h' -> same_command h h' a.
Proof using.
  intros Hd Hk. assert (forall x, a <= x < a + 64 -> ~ (a + 40 <= x < a + 48) -> h' x = h x) as Hx.
  { intros x H1 H2. apply Hk. intros b ->%list_elem_of_singleton [?|?]; [done|by apply (Hd x)]. }
  unfold same_command, cmd_command_id, cmd_nsid, cmd_length, get_le.
  split; [|split]; f_equal; apply mload_ext; intros k Hk'; apply Hx; lia.
Qed.

#[export, refine] Instance zns_laws : BackendLaws (zns_backend garbage) zns_world :=
  {| max_internal := blocks; may_refuse := true; cmd_allowed := zns_allowed;
     buffer_ok := fun b => exists i, 0 <= i < size `div` ZONE_SIZE /\ b = wbs i;
     cmd_writes := zns_writes; cmd_apart := zns_apart |}.
Proof using Hlba Hwb blocks data.
  - intros nss w. by apply zns_world_tick.
  - intros nss w. by apply zns_world_tick.
  - intros nss i ns h a sqid t ret w (ns0 & -> & Hr & Hs & Hb) Hns (Hok & Hn & Hd & Hrecv). simpl.
    assert (i = 0 /\ ns = ns0) as [-> ->].
    { pose proof (zlookup_Some_range _ _ _ Hns) as Hi. change (zlen [ns0]) with 1 in Hi. assert (i = 0) as -> by lia. by injection Hns. }
    apply okp_bind. eapply okp_mono; [by apply (zcommand_ok garbage Hlba size ns0 w (ZnsRequest (zns_view h a) sqid t) ret h)|].
    intros [[[[[ns' w'] m'] req'] ret'] ok] (Hr' & (Hwbs & ops & Eops & Hno & Hrel & Hlen) & Hm). rewrite Hs in Eops. simpl in Eops, Hm, Hlen.
    cbn [okp fst snd take_scheduled zns_backend]. rewrite Eops. split; [|split; [|split; [|split]]].
    + exists ns'. split; [done|]. split; [by eapply zrun_same; [| |exact Hr']|]. split; [done|]. intros i Hi. rewrite Hwbs. by apply Hb.
    + intros x Hx. specialize (Hx a ltac:(by apply list_elem_of_singleton)). assert (m' x = h x) as Em.
      { apply Hm. intros E o Ho ->. apply Hx. right. by apply Hrecv. }
      destruct (_ =? _); [|done]. unfold set_slba. rewrite mstore_out; [done|]. rewrite zlen_le_encode. intros ?. apply Hx. left. lia.
    + destruct ok; [by left|right]. split; [done|by apply Hno].
    + unfold zlen in Hlen. lia.
    + destruct Hok as [Hslba _]. destruct (zx_zone _ _ _ _ Hr Hslba) as (_ & Hz & _). simpl in Hz.
      eapply Forall_impl; [exact Hrel|]. intros op [E1 E2]. split; [done|]. eexists. split; [exact Hz|]. rewrite E2. by apply Hb.
  - intros h h' a (_ & _ & Hd & _). by apply zns_same_command.
  - intros l h h' b Hal Hap Hk. destruct Hal as (H1 & H2 & Hd & H3). pose proof (zns_kept _ _ _ _ Hap Hd Hk) as Hx.
    split; [by apply (zns_allowed_kept h)|by apply kept_fields].
  - intros b n nss w H Hb. by apply zns_release_ok.
  - done.
Defined.
End zoned.
