(* ===== verification/IoDevice.v ===== *)
(** * The device: dispatcher, workers and host together

    The calls of the dispatcher and the steps of the workers, in any order, with the
    host writing its memory and the queues being made and deleted between them, are
    a relation on the state of the device.  What a namespace keeps by the laws of
    its interface, and what the queues of the workers keep, holds in every state
    that is reached; what a worker accepted is what it completed and what is pending
    ([conserved]). *)

From stdpp Require Import prelude list relations.
From Stdlib Require Import ZArith Lia.
From S2P Require Import Prelude Mem Ssd ConvFtl NvmeCmd IoQueue IoInv IoCopy Io IoBackends IoRun IoDispatch.

Section device.
Context `{BK : Backend} `{QC : QueueConfig} (W : list bk_ns -> bk_world -> Prop) `{LW : !BackendLaws BK W}.
Context (pfn_valid : Z -> bool) (store_size : Z) (io_using_dma : bool).

(** A release in a queue names a buffer that the namespaces gave. *)
Definition good_request (r : request) : Prop := match r with RqInternal _ _ b _ => buffer_ok b | RqCommand _ _ _ _ _ _ => True end.

Record device_ok (d : io_dev) : Prop := {
  dk_inv : dispatch_inv W d;
  dk_good i k : d.(dv_workers) !! i = Some k -> Forall good_request (pending k)
}.

(** ** What changes neither the queues nor the namespaces *)

Definition keeps_world (d d' : io_dev) : Prop :=
  d'.(dv_ns) = d.(dv_ns) /\ (W d.(dv_ns) d.(dv_world) -> W d'.(dv_ns) d'.(dv_world)).

Lemma keeps_refl d : keeps_world d d.
Proof using. by split. Qed.
Lemma keeps_trans d1 d2 d3 : keeps_world d1 d2 -> keeps_world d2 d3 -> keeps_world d1 d3.
Proof using. intros [A1 A2] [B1 B2]. split; [congruence|auto]. Qed.
Lemma keeps_same d d' : d'.(dv_ns) = d.(dv_ns) -> d'.(dv_world) = d.(dv_world) -> keeps_world d d'.
Proof using. intros E1 E2. split; [done|]. by rewrite E1, E2. Qed.
Lemma keeps_local d : keeps_world d (dv_with_world (get_local_clock d.(dv_world)).1 d).
Proof using LW. split; [done|]. apply law_local. Qed.

Lemma upd_worker_keeps i f d : retp (upd_worker i f d) (keeps_world d).
Proof using. unfold upd_worker. apply retp_bind. intros l _. apply retp_Ok. by apply keeps_same. Qed.

Lemma copy_keeps i e w d : retp (worker_copy pfn_valid store_size io_using_dma i e w d) (keeps_world d).
Proof using LW.
  unfold worker_copy. destruct (iw_is_internal w); [apply retp_Ok, keeps_refl|].
  apply retp_bind. intros sq _. apply retp_bind. intros a _.
  destruct io_using_dma; [apply retp_bind; intros m _; by apply retp_Ok, keeps_same|].
  apply retp_bind. intros ns _. destruct ns as [ns|]; [|apply retp_bind; intros m _; by apply retp_Ok, keeps_same].
  destruct (identify_io_cmd _ _ _); [|apply retp_bind; intros m _; by apply retp_Ok, keeps_same].
  apply retp_bind. intros [[[world m] result0] status] E. eapply retp_mono; [apply upd_worker_keeps|].
  intros d' H. eapply keeps_trans; [|exact H]. split; [done|]. intros HW.
  pose proof (law_perform ns a (iw_status w) _ _ (dv_mem d) HW) as Hp. specialize (Hp _ E). exact Hp.
Qed.

Lemma fill_keeps w d : retp (__fill_cq_result w d) (keeps_world d).
Proof using.
  unfold __fill_cq_result. apply retp_bind. intros cq _. apply retp_bind. intros [cq' h] _. unfold set_cq.
  apply retp_bind. intros l _. apply retp_Ok. by apply keeps_same.
Qed.

(** The completion of an entry whose release is of a good buffer. *)
Lemma due_keeps i e now k w d :
  d.(dv_workers) !! i = Some k -> work k e = w -> (w.(iw_is_internal) = true -> buffer_ok w.(iw_write_buffer)) ->
  retp (w ← worker_work i e d;
        if w.(iw_nsecs_target) <=? now then
          d ← (if w.(iw_is_internal) then
                 world ← release_buffer w.(iw_write_buffer) w.(iw_buffs_to_release) d.(dv_world); Ok (dv_with_world world d)
               else __fill_cq_result w d);
          upd_worker i (upd_work e (fun w => with_flags w.(iw_is_copied) true w)) d
        else Ok d) (keeps_world d).
Proof using LW.
  intros Hk Ew Hb. rewrite (worker_work_at i e d k Hk). apply retp_bind. intros w' Hw. destruct (get_work_set _ _ _ Hw) as [-> _]. rewrite Ew.
  destruct (_ <=? now); [|apply retp_Ok, keeps_refl]. apply retp_bind.
  apply (retp_mono _ (keeps_world d)); [|intros d' H; eapply retp_mono; [apply upd_worker_keeps|]; intros d2 H2; by eapply keeps_trans].
  destruct (iw_is_internal w) eqn:Ei; [|apply fill_keeps]. apply retp_bind. intros world E. apply retp_Ok. split; [done|]. intros HW.
  pose proof (law_release _ (iw_buffs_to_release w) _ _ HW (Hb eq_refl)) as Hr. by rewrite E in Hr.
Qed.

(** The entry that a worker looks at is pending when it is not completed. *)
Lemma curr_pending i d k t :
  queues_ok d -> d.(dv_workers) !! i = Some k -> d.(dv_threads) !! i = Some t -> 0 <= t.(th_curr) < zlen k.(wk_work_queue) ->
  completed k t.(th_curr) = false -> view (work k t.(th_curr)) ∈ pending k.
Proof using.
  intros Hq Hk Ht He Hc. destruct (qs_worker _ Hq _ _ _ Hk Ht) as (fl & il & [Hw Hcur _]).
  unfold pending. rewrite (io_list_ok _ _ _ Hw). apply list_elem_of_fmap. exists (th_curr t). split; [done|].
  apply list_elem_of_filter. split; [done|]. destruct Hcur as [Hn|[?|[_ ?]]]; [|done|congruence].
  pose proof nr_parallel_ok. rewrite Hn in He. unfold NO_ENTRY in He. rewrite (qo_len _ _ _ Hw) in He. lia.
Qed.

Lemma visit_keeps i d : device_ok d -> retp (worker_visit pfn_valid store_size io_using_dma i d) (keeps_world d).
Proof using LW.
  intros Hd. unfold worker_visit. apply retp_bind, retp_aget. intros t Ht. pose proof (keeps_local d) as K0.
  destruct (get_local_clock _) as [world local]. cbn [fst] in K0. set (now := u64 _).
  destruct (d.(dv_workers) !! i) as [k|] eqn:Hk; [|unfold upd_worker, amod, aget; simpl; by rewrite Hk].
  pose proof (zlookup_Some_range _ _ _ Hk) as Hi. rewrite (upd_worker_at i _ _ k) by done. rewrite !bind_Ok.
  set (d1 := dv_with_workers _ _). set (k1 := with_latest now k). set (e := th_curr t).
  assert (keeps_world d d1) as K1 by exact K0. assert (d1.(dv_workers) !! i = Some k1) as Hk1 by (by apply zlookup_zinsert_eq). clearbody d1.
  rewrite (worker_work_at _ _ _ _ Hk1). apply retp_bind. intros w Hw. destruct (get_work_set _ _ _ Hw) as [-> He].
  fold (completed k1 e) (copied k1 e). destruct (completed k1 e) eqn:Hc; [by apply retp_Ok|].
  assert (good_request (view (work k e))) as Hg.
  { eapply Forall_forall; [exact (dk_good _ Hd i k Hk)|]. apply (curr_pending i d k t); [apply (di_queues _ _ (dk_inv _ Hd))|done..]. }
  apply retp_bind. intros d2 E2. pose proof (copy_half pfn_valid store_size io_using_dma i e d1 k1 Hk1 He Hc d2 E2) as (st & r & Hen).
  assert (keeps_world d1 d2) as K2.
  { revert E2. destruct (copied k1 e); [intros [= <-]; apply keeps_refl|]. intros E2. 
    refine (retp_bind (worker_copy _ _ _ _ _ _ _) _ _ _ d2 E2). eapply retp_mono; [apply copy_keeps|].
    intros d3 K3. eapply retp_mono; [apply upd_worker_keeps|]. intros d4 K4. by eapply keeps_trans. }
  destruct Hen as [_ Ew2]. assert (d2.(dv_workers) !! i = Some (set_work e (mark false st r (work k1 e)) k1)) as Hk2.
  { rewrite Ew2. apply zlookup_zinsert_eq. by eapply zlookup_Some_range. }
  eapply retp_mono; [eapply (due_keeps i e now _ (mark false st r (work k1 e)) d2 Hk2)|].
  - rewrite work_set by done. by rewrite decide_True.
  - intros Ei. change (iw_is_internal (work k e) = true) in Ei. unfold good_request, view in Hg. by rewrite Ei in Hg.
  - intros d3 K3. eapply keeps_trans; [exact K1|]. by eapply keeps_trans.
Qed.

(** ** The steps *)

(** All but the queues of the workers and the namespaces: the host's memory, the
    tables of queues, the interrupts. *)
Definition untouched (d d' : io_dev) : Prop :=
  d'.(dv_workers) = d.(dv_workers) /\ d'.(dv_threads) = d.(dv_threads) /\ d'.(dv_ns) = d.(dv_ns) /\ d'.(dv_world) = d.(dv_world).

Lemma untouched_refl d : untouched d d.
Proof using. done. Qed.
Lemma untouched_trans d1 d2 d3 : untouched d1 d2 -> untouched d2 d3 -> untouched d1 d3.
Proof using. intros (?&?&?&?) (?&?&?&?). repeat split; congruence. Qed.

Inductive dev_step : io_dev -> io_dev -> Prop :=
| ds_dispatch sqid sq new old d d' db :
    ring_ok W sqid sq d new old -> stat_ok sq.(sq_stat) ->
    (Z.to_nat (ring_distance sq.(sq_queue_size) new old) * S max_internal < room d (worker_of d sqid))%nat ->
    nvmev_proc_io_sq sqid new old d = Ok (d', db) -> dev_step d d'
| ds_consume cqid new old d d' : nvmev_proc_io_cq cqid new old d = Ok d' -> dev_step d d'
| ds_start i d d' : worker_start i d = Ok d' -> dev_step d d'
| ds_visit i d d' : worker_visit pfn_valid store_size io_using_dma i d = Ok d' -> clock_forward d d' i -> dev_step d d'
| ds_next i d d' : worker_next i d = Ok d' -> dev_step d d'
| ds_irqs i d d' : worker_irqs i d = Ok d' -> dev_step d d'
| ds_other d d' : untouched d d' -> dev_step d d'.

Lemma device_after d d' ins outs :
  device_ok d -> (forall w, accounts w d d' (ins w) (outs w)) -> (forall w, Forall good_request (ins w)) ->
  W d'.(dv_ns) d'.(dv_world) -> device_ok d'.
Proof using.
  intros Hd Hacc Hins HW. destruct (Hacc 0) as (Hq & Hl & _). split; [by split|]. intros i k' Hk'.
  pose proof (zlookup_Some_range _ _ _ Hk') as Hi. destruct (zlookup_lt d.(dv_workers) i ltac:(lia)) as [k Hk].
  destruct (Hacc i) as (_ & _ & Hp). destruct (Hp k k' Hk Hk') as [P _].
  assert (Forall good_request (pending k ++ ins i)) as H by (apply Forall_app; split; [by apply (dk_good _ Hd i k)|apply Hins]).
  rewrite P in H. apply Forall_app in H as [_ H]. exact H.
Qed.

(** An event that puts nothing in a queue. *)
Lemma event_device ev d d' :
  device_ok d -> queue_step pfn_valid store_size io_using_dma ev d = Ok d' -> event_clock ev d d' ->
  (forall w, accepted w ev d = []) -> keeps_world d d' -> device_ok d'.
Proof using.
  intros Hd E Hc Ha [_ K]. apply (device_after d d' (fun w => accepted w ev d) (fun w => posted w ev d d')); [done| | |].
  - intros w. apply (event_ok pfn_valid store_size io_using_dma w ev d d'); [apply (di_queues _ _ (dk_inv _ Hd))|done|done].
  - intros w. rewrite Ha. constructor.
  - apply K, (di_world _ _ (dk_inv _ Hd)).
Qed.

Lemma start_keeps i d : retp (worker_start i d) (keeps_world d).
Proof using LW.
  unfold worker_start. destruct (__get_wallclock (dv_world d)) as [w1 wall] eqn:E1. destruct (get_local_clock w1) as [w2 local] eqn:E2.
  apply retp_bind. intros k _. unfold upd_thread. apply retp_bind. intros l _. apply retp_Ok. split; [done|]. intros HW. simpl.
  pose proof (law_wallclock _ _ HW) as H1. rewrite E1 in H1. cbn [fst] in H1. pose proof (law_local _ _ H1) as H2. by rewrite E2 in H2.
Qed.

Lemma next_keeps i d : retp (worker_next i d) (keeps_world d).
Proof using.
  unfold worker_next. apply retp_bind. intros th _. apply retp_bind. intros w _. unfold upd_thread. apply retp_bind. intros l _.
  apply retp_Ok. by apply keeps_same.
Qed.

Lemma set_sq_untouched sqid sq d : retp (set_sq sqid sq d) (untouched d).
Proof using. unfold set_sq. apply retp_bind. intros l _. by apply retp_Ok. Qed.
Lemma set_cq_untouched cqid cq d : retp (set_cq cqid cq d) (untouched d).
Proof using. unfold set_cq. apply retp_bind. intros l _. by apply retp_Ok. Qed.

Lemma irqs_untouched i d : retp (worker_irqs i d) (untouched d).
Proof using.
  unfold worker_irqs. generalize (zrange 1 (dv_nr_cq d + 1)). intros qs. revert d.
  induction qs as [|qidx qs IH]; intros d; simpl; [apply retp_Ok, untouched_refl|]. apply retp_bind.
  apply (retp_mono _ (untouched d)); [|intros d' H; eapply retp_mono; [apply IH|]; intros d2 H2; by eapply untouched_trans].
  unfold irq_step. apply retp_bind. intros k _. apply retp_bind. intros q _. apply retp_bind. intros turn _.
  destruct (negb _); [by apply retp_Ok|]. destruct q as [cq|]; [|by apply retp_Ok]. destruct (_ && _); [|by apply retp_Ok].
  apply retp_bind. eapply retp_mono; [apply set_cq_untouched|]. intros d1 H1. by apply retp_Ok.
Qed.

Lemma cq_loop_untouched cq new fuel s : retp (rloop fuel (cq_step cq new) s) (untouched s.2).
Proof using.
  revert s. induction fuel as [|n IH]; intros [i d]; simpl; [done|]. apply retp_bind.
  apply (retp_mono _ (fun r => match r with inl s' => untouched d s'.2 | inr d' => untouched d d' end)).
  - unfold cq_step. destruct (i =? new); [by apply retp_Ok|]. apply retp_bind. intros a _. cbv zeta. destruct (_ <=? i); [by apply retp_Ok|].
    apply retp_bind. intros q _. destruct q as [sq|]; [|by apply retp_Ok].
    apply retp_bind. eapply retp_mono; [apply set_sq_untouched|]. intros d1 H1. by apply retp_Ok.
  - intros [s'|d'] H; [|by apply retp_Ok]. eapply retp_mono; [apply IH|]. intros d2 H2. by eapply untouched_trans.
Qed.

Lemma consume_untouched cqid new old d : retp (nvmev_proc_io_cq cqid new old d) (untouched d).
Proof using.
  unfold nvmev_proc_io_cq. apply retp_bind. intros cq _. apply retp_bind.
  eapply retp_mono; [apply cq_loop_untouched|]. intros d1 H1. cbn [snd] in H1. cbv zeta.
  eapply retp_mono; [apply set_cq_untouched|]. intros d2 H2. by eapply untouched_trans.
Qed.

Lemma untouched_device d d' : device_ok d -> untouched d d' -> device_ok d'.
Proof using.
  intros [[Hq HW] Hg] (E1 & E2 & E3 & E4). split; [split; [|by rewrite E3, E4]|by rewrite E1].
  destruct Hq as [Q1 Q2 Q3]. split; unfold nr_io_workers in *; rewrite ?E1, ?E2; done.
Qed.

Lemma served_good sqid sq d e ins : served W sqid sq d e ins -> Forall good_request ins.
Proof using.
  intros (a & ops & t & ret & _ & _ & Hb & ->). apply Forall_app. split; [|by repeat constructor].
  apply Forall_fmap. eapply Forall_impl; [exact Hb|]. done.
Qed.

Lemma step_device d d' : dev_step d d' -> device_ok d -> device_ok d'.
Proof using LW.
  intros [sqid sq new old d0 d1 db Hr Hs Hroom E|cqid new old d0 d1 E|i d0 d1 E|i d0 d1 E Hc|i d0 d1 E|i d0 d1 E|d0 d1 E] Hd.
  - pose proof (dispatch_ok W pfn_valid store_size io_using_dma sqid sq d0 new old Hr (dk_inv _ Hd) Hs Hroom) as H. rewrite E in H.
    destruct H as (m & _ & _ & _ & Hd' & _ & _ & _ & _ & inss & Hf & Hrun).
    apply (device_after d0 d1 (fun w => at_worker (worker_of d0 sqid) w (concat inss)) (fun _ => [])); [done| | |apply (di_world _ _ Hd')].
    + intros w. apply (run_conserves pfn_valid store_size io_using_dma); [apply Hrun|apply (di_queues _ _ (dk_inv _ Hd))].
    + intros w. unfold at_worker. destruct (_ =? _); [|constructor]. apply Forall_concat. clear Hrun.
      induction Hf as [|e ins es inss Hsv Hf IH]; constructor; [by eapply served_good|done].
  - eapply untouched_device; [done|by eapply consume_untouched].
  - apply (event_device (QStart i) d0 d1); [done|done|done|done|by apply (start_keeps i d0)].
  - apply (event_device (QVisit i) d0 d1); [done|done|done|done|by apply (visit_keeps i d0 Hd)].
  - apply (event_device (QNext i) d0 d1); [done|done|done|done|by apply (next_keeps i d0)].
  - eapply untouched_device; [done|by eapply irqs_untouched].
  - by eapply untouched_device.
Qed.

(** New workers, with namespaces in the invariant. *)
Lemma device_start nr d d1 :
  0 < nr < 4294967296 -> W d.(dv_ns) d.(dv_world) -> NVMEV_IO_WORKER_INIT nr d = Ok d1 -> device_ok d1.
Proof using.
  intros Hnr HW Ed. pose proof (init_queues nr d Hnr) as H. rewrite Ed in H. destruct H as (Hq & _ & Hp).
  assert (d1.(dv_ns) = d.(dv_ns) /\ d1.(dv_world) = d.(dv_world)) as [En Ew].
  { revert Ed. unfold NVMEV_IO_WORKER_INIT. destruct (rfold _ _ _); simpl; [|done]. by intros [= <-]. }
  split; [split; [done|by rewrite En, Ew]|]. intros i k Hk. rewrite (Hp _ _ Hk). constructor.
Qed.

(** Every reached state keeps the invariant, and what is pending are releases of good
    buffers; a ring that is in order is taken without a fault. *)
Lemma steps_device d d' : rtc dev_step d d' -> device_ok d -> device_ok d'.
Proof using LW. induction 1 as [|d d1 d2 H1 _ IH]; [done|]. intros Hd. by apply IH, (step_device d d1). Qed.

(** ** What the queues of the workers went through *)

Lemma untouched_run i d d' : untouched d d' -> queue_run pfn_valid store_size io_using_dma i d [] [] d'.
Proof using.
  intros (E1 & E2 & _). apply (run_one pfn_valid store_size io_using_dma i (QOther d') d d'); [|done].
  simpl. rewrite <- E1, <- E2. by destruct d'.
Qed.

Lemma step_run i d d' : dev_step d d' -> device_ok d -> exists ins outs, queue_run pfn_valid store_size io_using_dma i d ins outs d'.
Proof using LW.
  intros [sqid sq new old d0 d1 db Hr Hs Hroom E|cqid new old d0 d1 E|j d0 d1 E|j d0 d1 E Hc|j d0 d1 E|j d0 d1 E|d0 d1 E] Hd.
  - pose proof (dispatch_ok W pfn_valid store_size io_using_dma sqid sq d0 new old Hr (dk_inv _ Hd) Hs Hroom) as H. rewrite E in H.
    destruct H as (m & _ & _ & _ & _ & _ & _ & _ & _ & inss & _ & Hrun). eexists _, _. apply Hrun.
  - eexists _, _. eapply untouched_run, consume_untouched, E.
  - eexists _, _. by apply (run_one _ _ _ i (QStart j) d0 d1).
  - eexists _, _. by apply (run_one _ _ _ i (QVisit j) d0 d1).
  - eexists _, _. by apply (run_one _ _ _ i (QNext j) d0 d1).
  - eexists _, _. eapply untouched_run, irqs_untouched, E.
  - eexists _, _. by apply untouched_run.
Qed.

Lemma steps_run i d d' : rtc dev_step d d' -> device_ok d -> exists ins outs, queue_run pfn_valid store_size io_using_dma i d ins outs d'.
Proof using LW.
  induction 1 as [d|d d1 d2 H1 _ IH]; intros Hd; [eexists _, _; constructor|].
  destruct (step_run i d d1 H1 Hd) as (in1 & out1 & R1), (IH (step_device d d1 H1 Hd)) as (in2 & out2 & R2).
  exists (in1 ++ in2), (out1 ++ out2). by eapply run_app.
Qed.

(** From the state [d1], whose queues are empty, to [d2]: what a worker accepted are the
    requests that it completed, none before its time, and those that it still has. *)
Definition conserved (d1 d2 : io_dev) : Prop :=
  forall i k, d2.(dv_workers) !! i = Some k -> exists ins outs, queue_run pfn_valid store_size io_using_dma i d1 ins outs d2 /\
    ins ≡ₚ outs ++ pending k /\ Forall (fun r => rq_target r <= k.(wk_latest_nsecs)) outs.

Lemma steps_conserve nr d0 d1 d2 : 0 < nr < 4294967296 -> NVMEV_IO_WORKER_INIT nr d0 = Ok d1 -> device_ok d1 ->
  rtc dev_step d1 d2 -> conserved d1 d2.
Proof using LW.
  intros Hnr Ed Hd Hs i k Hk. destruct (steps_run i d1 d2 Hs Hd) as (ins & outs & Hrun). exists ins, outs. split; [done|].
  pose proof (init_queues nr d0 Hnr) as H. rewrite Ed in H. destruct H as (Hq & _ & Hp).
  destruct (run_conserves _ _ _ _ _ _ _ _ Hrun Hq) as (_ & Hl & Hacc). pose proof (zlookup_Some_range _ _ _ Hk).
  destruct (zlookup_lt d1.(dv_workers) i ltac:(lia)) as [k1 Hk1]. destruct (Hacc _ _ Hk1 Hk) as (P & _ & F). by rewrite (Hp _ _ Hk1) in P.
Qed.
End device.
