(* ===== verification/IoRing.v ===== *)
(** * The completion ring

    The device writes a completion at the head of the ring with the phase of the
    lap; the host reads from where it stopped while the phase of the entry is the
    one it expects.  [post_scan]: the host finds exactly what was posted since it
    last read, in order, as long as the ring does not overflow.
    The last part is a command as the worker finds it. *)

From stdpp Require Import prelude list.
From Stdlib Require Import ZArith Lia.
From S2P Require Import Prelude Mem Prp SsdConfig Ssd ConvFtl IoUnits IoQueue IoInv NvmeCmd IoCopy Io IoBackends IoRun.

Section ring.
Implicit Types cq : nvmev_completion_queue.

(** The completions of a list of requests, one after the other. *)
Fixpoint post_all (cq : nvmev_completion_queue) (ws : list io_work) (h : mem) : res (nvmev_completion_queue * mem) :=
  match ws with
  | [] => Ok (cq, h)
  | w :: ws => '(cq, h) ← fill_cq cq w h; post_all cq ws h
  end.

(** The host: [pos] and [phase] are what it keeps between two readings. *)
Fixpoint host_scan (fuel : nat) (cq : nvmev_completion_queue) (h : mem) (pos phase : Z) : list nvme_completion :=
  match fuel with
  | O => []
  | S n =>
      match cq_entry cq pos with
      | Ok a =>
          let c := get_cqe h a in
          if c.(cqe_status) `mod` 2 =? phase then
            c :: (if pos + 1 =? cq.(cq_queue_size) then host_scan n cq h 0 (1 - phase) else host_scan n cq h (pos + 1) phase)
          else []
      | Fault _ => []
      end
  end.

(** The completion of a request in the lap [phase]. *)
Definition completion (phase : Z) (w : io_work) : nvme_completion :=
  narrow (NvmeCompletion w.(iw_result0) w.(iw_result1) w.(iw_sq_entry) w.(iw_sqid) w.(iw_command_id)
            (Z.lor phase (u32 (Z.shiftl w.(iw_status) 1)))).

(** A ring whose entries are separate. *)
Record cq_ok (cq : nvmev_completion_queue) : Prop := {
  co_size : 0 < cq.(cq_queue_size);
  co_head : 0 <= cq.(cq_head) < cq.(cq_queue_size);
  co_phase : cq.(cq_phase) = 0 \/ cq.(cq_phase) = 1;
  co_entry i : 0 <= i < cq.(cq_queue_size) -> exists a, cq_entry cq i = Ok a;
  co_apart i j a b : 0 <= i < cq.(cq_queue_size) -> 0 <= j < cq.(cq_queue_size) -> i <> j ->
    cq_entry cq i = Ok a -> cq_entry cq j = Ok b -> a + NVME_COMPLETION_SIZE <= b \/ b + NVME_COMPLETION_SIZE <= a
}.

(** Pages that are pages make such a ring. *)
Lemma pages_apart cq :
  0 < cq.(cq_queue_size) <= NR_CQE_PER_PAGE * zlen cq.(cq_pages) -> 0 <= cq.(cq_head) < cq.(cq_queue_size) ->
  (cq.(cq_phase) = 0 \/ cq.(cq_phase) = 1) -> NoDup cq.(cq_pages) -> Forall (fun p => p `mod` PAGE_SIZE = 0) cq.(cq_pages) -> cq_ok cq.
Proof.
  intros Hs Hh Hp Hnd Ha. change NR_CQE_PER_PAGE with 256 in *.
  assert (forall i, 0 <= i < cq_queue_size cq -> exists p, cq.(cq_pages) !! (i `div` 256) = Some p /\ p `mod` PAGE_SIZE = 0 /\
    cq_entry cq i = Ok (p + 16 * (i `mod` 256))) as He.
  { intros i Hi. destruct (zlookup_lt cq.(cq_pages) (i `div` 256)) as [p E].
    { split; [apply Z.div_pos; lia|apply Z.div_lt_upper_bound; lia]. }
    exists p. split; [done|]. split; [rewrite Forall_forall in Ha; apply Ha, elem_of_zlookup; eauto|].
    unfold cq_entry. change NR_CQE_PER_PAGE with 256. by rewrite (aget_Some _ _ _ E). }
  split; [lia|done|done|intros i Hi; destruct (He i Hi) as (p & _ & _ & E); eauto|].
  intros i j a b Hi Hj Hij Ei Ej. destruct (He i Hi) as (p & E1 & Hp1 & E1'). destruct (He j Hj) as (q & E2 & Hq1 & E2').
  rewrite E1' in Ei. rewrite E2' in Ej. injection Ei as <-. injection Ej as <-. unfold NVME_COMPLETION_SIZE.
  pose proof (Z.div_mod i 256 ltac:(lia)). pose proof (Z.div_mod j 256 ltac:(lia)).
  pose proof (Z.mod_pos_bound i 256 ltac:(lia)). pose proof (Z.mod_pos_bound j 256 ltac:(lia)).
  destruct (decide (i `div` 256 = j `div` 256)) as [E|E].
  - rewrite E, E2 in E1. injection E1 as ->. lia.
  - assert (p <> q) as Hpq.
    { intros ->. apply E. rewrite zlookup_to_nat in E1, E2 by (apply Z.div_pos; lia).
      pose proof (NoDup_lookup _ _ _ _ Hnd E1 E2). lia. }
    pose proof (Z.div_mod p PAGE_SIZE ltac:(done)). pose proof (Z.div_mod q PAGE_SIZE ltac:(done)). unfold PAGE_SIZE in *. lia.
Qed.

(** The phase of the entries: those before the head are of this lap. *)
Definition phases (cq : nvmev_completion_queue) (h : mem) : Prop :=
  forall i a, 0 <= i < cq.(cq_queue_size) -> cq_entry cq i = Ok a ->
    (get_cqe h a).(cqe_status) `mod` 2 = if i <? cq.(cq_head) then cq.(cq_phase) else 1 - cq.(cq_phase).

Lemma completion_phase phase w : phase = 0 \/ phase = 1 -> (completion phase w).(cqe_status) `mod` 2 = phase.
Proof.
  intros Hp. unfold completion, narrow. cbn [cqe_status]. Transparent u16 u32. unfold u16, u32. Opaque u16 u32.
  rewrite <- !Z.bit0_mod. change 65536 with (2 ^ 16). rewrite Z.mod_pow2_bits_low by lia. rewrite Z.lor_spec.
  change 4294967296 with (2 ^ 32). rewrite Z.mod_pow2_bits_low by lia. rewrite Z.shiftl_spec_low by lia.
  by destruct Hp as [-> | ->].
Qed.

Lemma get_cqe_ext h h' a : (forall x, a <= x < a + NVME_COMPLETION_SIZE -> h' x = h x) -> get_cqe h' a = get_cqe h a.
Proof.
  intros H. unfold NVME_COMPLETION_SIZE in H. unfold get_cqe, get_le.
  f_equal; f_equal; apply mload_ext; intros i Hi; apply H; lia.
Qed.

(** One completion. *)
Definition next_cq (cq cq' : nvmev_completion_queue) : Prop :=
  cq'.(cq_queue_size) = cq.(cq_queue_size) /\ cq'.(cq_pages) = cq.(cq_pages) /\ cq'.(cq_interrupt_ready) = true /\
  if cq.(cq_head) + 1 =? cq.(cq_queue_size) then cq'.(cq_head) = 0 /\ cq'.(cq_phase) = 1 - cq.(cq_phase)
  else cq'.(cq_head) = cq.(cq_head) + 1 /\ cq'.(cq_phase) = cq.(cq_phase).

Lemma fill_frame cq w h cq' h' : cq_ok cq -> fill_cq cq w h = Ok (cq', h') -> cq_ok cq' /\ next_cq cq cq' /\
  exists a, cq_entry cq cq.(cq_head) = Ok a /\ get_cqe h' a = completion cq.(cq_phase) w /\
    forall x, ~ (a <= x < a + NVME_COMPLETION_SIZE) -> h' x = h x.
Proof.
  intros Hc. destruct (co_entry _ Hc _ (co_head _ Hc)) as [a Ea]. unfold fill_cq. rewrite Ea, bind_Ok.
  set (c := NvmeCompletion _ _ _ _ _ _). intros [= <- <-].
  assert (get_cqe (put_cqe a c h) a = completion (cq_phase cq) w) as Eg by apply get_put_cqe.
  assert (forall x, ~ (a <= x < a + NVME_COMPLETION_SIZE) -> put_cqe a c h x = h x) as Hx by (intros x; apply put_cqe_out).
  destruct Hc as [C1 C2 C3 C4 C5]. split; [|split; [|eauto]].
  - split; try done; cbn.
    + destruct (_ =? cq_queue_size cq) eqn:E; [apply Z.eqb_eq in E|apply Z.eqb_neq in E]; lia.
    + destruct (_ =? cq_queue_size cq); [|done]. destruct C3 as [-> | ->]; auto.
  - split; [done|]. split; [done|]. split; [done|]. cbn. destruct (_ =? cq_queue_size cq); split; try done.
    destruct C3 as [-> | ->]; done.
Qed.

Lemma fill_ok cq w h : cq_ok cq -> phases cq h ->
  okp (fill_cq cq w h) (fun '(cq', h') => cq_ok cq' /\ phases cq' h' /\ next_cq cq cq' /\
    exists a, cq_entry cq cq.(cq_head) = Ok a /\ get_cqe h' a = completion cq.(cq_phase) w /\
      forall x, ~ (a <= x < a + NVME_COMPLETION_SIZE) -> h' x = h x).
Proof.
  intros Hc Hph. assert (exists cq' h', fill_cq cq w h = Ok (cq', h') /\ forall i, cq_entry cq' i = cq_entry cq i) as (cq' & h' & Ef & He).
  { destruct (co_entry _ Hc _ (co_head _ Hc)) as [a Ea]. unfold fill_cq. rewrite Ea, bind_Ok. eauto. }
  destruct (fill_frame _ _ _ _ _ Hc Ef) as (Hc' & Hn & a & Ea & Eg & Hx). rewrite Ef. simpl. split; [done|]. split; [|eauto].
  destruct Hc as [C1 C2 C3 C4 C5]. destruct Hn as (N1 & N2 & N3 & N4).
  intros i b Hi Eb. rewrite N1 in Hi. rewrite He in Eb. destruct (decide (i = cq_head cq)) as [->|Hne].
  - rewrite Ea in Eb. injection Eb as <-. rewrite Eg, completion_phase by done.
    destruct (_ =? _) eqn:E; [apply Z.eqb_eq in E|apply Z.eqb_neq in E]; destruct N4 as [-> ->].
    + rewrite (proj2 (Z.ltb_ge _ _)) by lia. lia.
    + by rewrite (proj2 (Z.ltb_lt _ _)) by lia.
  - rewrite (get_cqe_ext h h' b).
    + rewrite (Hph i b Hi Eb). destruct (_ =? _) eqn:E; [apply Z.eqb_eq in E|apply Z.eqb_neq in E]; destruct N4 as [-> ->].
      * rewrite (proj2 (Z.ltb_lt i _)), (proj2 (Z.ltb_ge i 0)) by lia. lia.
      * destruct (i <? cq_head cq) eqn:Ei; [apply Z.ltb_lt in Ei|apply Z.ltb_ge in Ei].
        -- by rewrite (proj2 (Z.ltb_lt _ _)) by lia.
        -- by rewrite (proj2 (Z.ltb_ge _ _)) by lia.
    + intros x Hxr. apply Hx. specialize (C5 i (cq_head cq) b a Hi C2 Hne Eb Ea). lia.
Qed.

(** ** A batch of completions *)

(** Where the [k]-th completion from now goes. *)
Definition slot (cq : nvmev_completion_queue) (k : Z) : Z := (cq.(cq_head) + k) `mod` cq.(cq_queue_size).

Lemma next_slot cq cq' k : cq_ok cq -> next_cq cq cq' -> 0 <= k -> slot cq' k = slot cq (k + 1).
Proof.
  intros Hc (N1 & _ & _ & N4) Hk. unfold slot. rewrite N1. pose proof (co_size _ Hc).
  destruct (_ =? _) eqn:E; [apply Z.eqb_eq in E|apply Z.eqb_neq in E]; destruct N4 as [-> _].
  - replace (cq_head cq + (k + 1)) with (k + 1 * cq_queue_size cq) by lia. by rewrite Z.mod_add by lia.
  - f_equal. lia.
Qed.

(** The completions of a list of requests, with the phase of their lap. *)
Fixpoint completions (size pos phase : Z) (ws : list io_work) : list nvme_completion :=
  match ws with
  | [] => []
  | w :: ws => completion phase w ::
      (if pos + 1 =? size then completions size 0 (1 - phase) ws else completions size (pos + 1) phase ws)
  end.

Lemma entry_same cq cq' i : cq'.(cq_pages) = cq.(cq_pages) -> cq_entry cq' i = cq_entry cq i.
Proof. intros E. unfold cq_entry. by rewrite E. Qed.

Lemma scan_same cq cq' h fuel : cq'.(cq_pages) = cq.(cq_pages) -> cq'.(cq_queue_size) = cq.(cq_queue_size) ->
  forall pos phase, host_scan fuel cq' h pos phase = host_scan fuel cq h pos phase.
Proof.
  intros E1 E2. induction fuel as [|n IH]; intros pos phase; simpl; [done|]. rewrite (entry_same cq cq') by done.
  destruct (cq_entry cq pos); [|done]. rewrite E2. case_match; [|done]. by rewrite !IH.
Qed.

(** An entry that is [0 < k < size] places ahead is another one. *)
Lemma slot_ne cq k : cq_ok cq -> 0 < k < cq.(cq_queue_size) -> slot cq k <> cq.(cq_head).
Proof.
  intros Hc Hk E. unfold slot in E. pose proof (co_head _ Hc) as Hh.
  destruct (decide (cq_head cq + k < cq_queue_size cq)).
  - rewrite Z.mod_small in E; lia.
  - rewrite <- (Z.mod_add _ (-1)) in E by lia. rewrite Z.mod_small in E; lia.
Qed.

(** Completions of a list of requests, with other writes of the device or the host
    between them that leave the ring alone. *)
Definition same_ring (cq : nvmev_completion_queue) (h h' : mem) : Prop :=
  forall i a, 0 <= i < cq.(cq_queue_size) -> cq_entry cq i = Ok a -> get_cqe h' a = get_cqe h a.

Inductive posts : nvmev_completion_queue -> mem -> list io_work -> nvmev_completion_queue -> mem -> Prop :=
| posts_nil cq h h' : same_ring cq h h' -> posts cq h [] cq h'
| posts_cons cq h h1 w cq1 h2 ws cq' h' :
    same_ring cq h h1 -> fill_cq cq w h1 = Ok (cq1, h2) -> posts cq1 h2 ws cq' h' -> posts cq h (w :: ws) cq' h'.

Lemma same_ring_refl cq h : same_ring cq h h.
Proof. done. Qed.
Lemma same_ring_trans cq h h1 h2 : same_ring cq h h1 -> same_ring cq h1 h2 -> same_ring cq h h2.
Proof. intros A B i a Hi E. by rewrite (B i a Hi E), (A i a Hi E). Qed.
Lemma same_ring_next cq cq1 h h' : next_cq cq cq1 -> same_ring cq1 h h' -> same_ring cq h h'.
Proof.
  intros (N1 & N2 & _) H i a Hi E. apply (H i); [by rewrite N1|by rewrite (entry_same cq cq1)].
Qed.
Lemma phases_same cq h h' : phases cq h -> same_ring cq h h' -> phases cq h'.
Proof. intros Hp H i a Hi E. by rewrite (H i a Hi E), (Hp i a Hi E). Qed.

Lemma posts_snoc cq h ws cq1 h1 h2 w cq2 h3 :
  posts cq h ws cq1 h1 -> same_ring cq1 h1 h2 -> fill_cq cq1 w h2 = Ok (cq2, h3) -> posts cq h (ws ++ [w]) cq2 h3.
Proof.
  induction 1 as [cq h h1 H|cq h h1' w' cq1' h2' ws cq1 h1 H E P IH]; intros H2 E2; simpl.
  - eapply posts_cons; [by eapply same_ring_trans|done|by apply posts_nil, same_ring_refl].
  - eapply posts_cons; [done|done|by apply IH].
Qed.

Lemma posts_after cq h ws cq1 h1 h2 : posts cq h ws cq1 h1 -> same_ring cq1 h1 h2 -> posts cq h ws cq1 h2.
Proof.
  induction 1 as [cq h h1 H|cq h h1' w' cq1' h2' ws cq1 h1 H E P IH]; intros H2.
  - apply posts_nil. by eapply same_ring_trans.
  - eapply posts_cons; [done|done|by apply IH].
Qed.

(** The ring itself. *)
Lemma posts_frame cq h ws cq' h' : posts cq h ws cq' h' -> cq_ok cq ->
  cq_ok cq' /\ cq'.(cq_queue_size) = cq.(cq_queue_size) /\ cq'.(cq_pages) = cq.(cq_pages).
Proof.
  induction 1 as [|cq h h0 w cq1 h1 ws cq2 h2 _ E _ IH]; intros Hc; [done|].
  destruct (fill_frame _ _ _ _ _ Hc E) as (Hc1 & (N1 & N2 & _) & _). destruct (IH Hc1) as (H1 & -> & ->). done.
Qed.

(** The interrupt of the ring. *)
Lemma posts_irq cq h ws cq' h' : posts cq h ws cq' h' ->
  cq'.(cq_irq_vector) = cq.(cq_irq_vector) /\ cq'.(cq_irq_enabled) = cq.(cq_irq_enabled) /\
  (ws <> [] \/ cq.(cq_interrupt_ready) = true -> cq'.(cq_interrupt_ready) = true).
Proof.
  induction 1 as [|cq h h0 w cq1 h1 ws cq2 h2 _ E _ IH]; [naive_solver|]. unfold fill_cq in E. destruct (cq_entry cq (cq_head cq)); [|done].
  simpl in E. injection E as <- <-. cbn in IH. destruct IH as (-> & -> & H). naive_solver.
Qed.

(** What the host finds after them. *)
Record scanned (cq : nvmev_completion_queue) (h : mem) (ws : list io_work) (cq' : nvmev_completion_queue) (h' : mem) : Prop := {
  sc_ok : cq_ok cq';
  sc_phases : phases cq' h';
  sc_size : cq'.(cq_queue_size) = cq.(cq_queue_size);
  sc_pages : cq'.(cq_pages) = cq.(cq_pages);
  sc_ready : cq'.(cq_interrupt_ready) = (if ws is [] then cq.(cq_interrupt_ready) else true);
  sc_rest i a : 0 <= i < cq.(cq_queue_size) -> cq_entry cq i = Ok a -> (forall k, 0 <= k < zlen ws -> i <> slot cq k) ->
    get_cqe h' a = get_cqe h a;
  sc_scan : host_scan (S (length ws)) cq h' cq.(cq_head) cq.(cq_phase) = completions cq.(cq_queue_size) cq.(cq_head) cq.(cq_phase) ws
}.

Lemma zlen_cons {A} (x : A) l : zlen (x :: l) = zlen l + 1.
Proof. unfold zlen. simpl. lia. Qed.

Lemma posts_scan cq h ws cq' h' :
  posts cq h ws cq' h' -> cq_ok cq -> phases cq h -> zlen ws <= cq.(cq_queue_size) -> scanned cq h ws cq' h'.
Proof.
  induction 1 as [cq h h' H|cq h h0 w cq1 h1 ws cq2 h2 H0 E P IH]; intros Hc Hph Hl.
  { split; try done.
    - by eapply phases_same.
    - intros i a Hi Ea _. by apply (H i).
    - destruct (co_entry _ Hc _ (co_head _ Hc)) as [a Ea]. cbn [host_scan completions length]. rewrite Ea. cbv zeta.
      rewrite (phases_same _ _ _ Hph H _ a (co_head _ Hc) Ea), (proj2 (Z.ltb_ge _ _)) by lia.
      destruct (co_phase _ Hc) as [-> | ->]; done. }
  rewrite zlen_cons in *. pose proof (zlen_nonneg ws) as Hz.
  pose proof (fill_ok cq w h0 Hc (phases_same _ _ _ Hph H0)) as Hf. rewrite E in Hf. destruct Hf as (Hc1 & Hph1 & Hn & a & Ea & Ega & Hx).
  pose proof Hn as (N1 & N2 & N3 & N4). destruct (IH Hc1 Hph1 ltac:(lia)) as [Hc2 Hph2 S1 S2 Hirq Hout Hscan]. rewrite N1 in *.
  split; try done; [congruence|rewrite Hirq; by destruct ws|..].
  - intros i b Hi Eb Hne. rewrite zlen_cons in Hne. rewrite (Hout i b Hi), <- (H0 i b Hi Eb).
    + apply get_cqe_ext. intros x Hxr. apply Hx. assert (i <> cq_head cq) as Hih.
      { specialize (Hne 0 ltac:(lia)). unfold slot in Hne. rewrite Z.add_0_r, Z.mod_small in Hne; [done|apply (co_head _ Hc)]. }
      destruct (co_apart _ Hc i (cq_head cq) b a Hi (co_head _ Hc) Hih Eb Ea); lia.
    + by rewrite (entry_same cq cq1).
    + intros k Hk. rewrite (next_slot cq cq1) by (done || lia). apply Hne. lia.
  - cbn [host_scan completions length]. rewrite Ea. assert (get_cqe h2 a = completion (cq_phase cq) w) as ->.
    { rewrite (Hout (cq_head cq) a); [done|apply (co_head _ Hc)|by rewrite (entry_same cq cq1)|].
      intros k Hk E'. rewrite (next_slot cq cq1) in E' by (done || lia). symmetry in E'. revert E'. apply slot_ne; [done|lia]. }
    rewrite completion_phase, Z.eqb_refl by apply (co_phase _ Hc). f_equal.
    rewrite (scan_same cq cq1) in Hscan by done.
    destruct (_ =? _); destruct N4 as [E1 E2]; rewrite E1, E2 in Hscan; exact Hscan.
Qed.

Lemma post_all_posts ws cq h : cq_ok cq -> phases cq h -> okp (post_all cq ws h) (fun '(cq', h') => posts cq h ws cq' h').
Proof.
  revert cq h. induction ws as [|w ws IH]; intros cq h Hc Hph; cbn [post_all]; [by apply posts_nil|].
  destruct (okp_inv _ _ (fill_ok cq w h Hc Hph)) as ([cq1 h1] & E & Hc1 & Hph1 & _). rewrite E, bind_Ok.
  eapply okp_mono; [by apply IH|]. intros [cq2 h2] P. by eapply posts_cons.
Qed.
End ring.

(** ** What the host reads *)

(** What the host reads of a completion, and what the request says, in the widths
    of the entry. *)
Definition host_view (c : nvme_completion) : Z * Z * Z * Z * Z * Z :=
  (c.(cqe_command_id), c.(cqe_sq_id), c.(cqe_sq_head), c.(cqe_result0), c.(cqe_result1), c.(cqe_status) `div` 2).
Definition work_view (w : io_work) : Z * Z * Z * Z * Z * Z :=
  (u16 w.(iw_command_id), u16 w.(iw_sqid), u16 w.(iw_sq_entry), u32 w.(iw_result0), u32 w.(iw_result1), w.(iw_status) `mod` 32768).

Lemma status_div phase s : phase = 0 \/ phase = 1 -> u16 (Z.lor phase (u32 (Z.shiftl s 1))) `div` 2 = s `mod` 32768.
Proof.
  intros Hp. Transparent u16 u32. unfold u16, u32. Opaque u16 u32.
  apply Z.bits_inj'. intros n Hn. change 65536 with (2 ^ 16). change 4294967296 with (2 ^ 32). change 32768 with (2 ^ 15).
  match goal with |- Z.testbit (?a `div` 2) _ = _ => change (a `div` 2) with (a `div` 2 ^ 1) end. rewrite Z.div_pow2_bits by lia.
  destruct (Z.lt_ge_cases n 15) as [H|H].
  - rewrite !Z.mod_pow2_bits_low by lia. rewrite Z.lor_spec, Z.mod_pow2_bits_low, Z.shiftl_spec by lia.
    replace (n + 1 - 1) with n by lia. destruct Hp as [-> | ->]; [by rewrite Z.bits_0|].
    by rewrite (Z.bits_above_log2 1 (n + 1)) by (simpl; lia).
  - by rewrite !Z.mod_pow2_bits_high by lia.
Qed.

Lemma completions_view size ws : forall pos phase, (phase = 0 \/ phase = 1) ->
  host_view <$> completions size pos phase ws = work_view <$> ws.
Proof.
  induction ws as [|w ws IH]; intros pos phase Hp; [done|]. cbn [completions fmap list_fmap]. f_equal.
  - unfold host_view, work_view, completion, narrow. cbn -[Z.div Z.modulo u16 u32]. by rewrite status_div.
  - destruct (_ =? _); apply IH; [|done]. destruct Hp as [-> | ->]; auto.
Qed.

(** ** A command as the worker finds it

    [transfer_ok] is what a worker relies on a host for when it moves the data of the
    command at an address: a buffer as NVMe has them, in pages that the kernel maps,
    and blocks inside the storage.  [cmd_reads] and [cmd_fills] are the bytes of the
    host's memory that the transfer reads to find the data, and those that it
    writes: as long as the first are left alone, the transfer is the same one.  *)

Section transfer.
Context (pfn_valid : Z -> bool) (store_size : Z) (dma : bool).

(** Where the storage of the command starts. *)
Definition cmd_base (mapped : list Z) (h : mem) (a : Z) : option Z :=
  if dma || negb (has_data (cmd_opcode h a)) then Some 0 else mapped !! u32 (cmd_nsid h a - 1).

(** With the DMA engine the entries fit its list and no address wraps. *)
Record transfer_ok (mapped : list Z) (h : mem) (a : Z) : Prop := {
  to_buffer : prp_buffer_ok h (cmd_prp1 h a) (cmd_prp2 h a) (io_length h a);
  to_mapping : mapping_ok pfn_valid (cmd_prp1 h a) (cmd_prp2 h a);
  to_store : exists base, cmd_base mapped h a = Some base /\ io_start base h a + io_length h a <= store_size;
  to_dma : dma = true -> cmd_prp1 h a `mod` PAGE_SIZE + io_length h a <= (PADDR_LIST - 1) * PAGE_SIZE /\
    forall o, 0 <= o < io_length h a -> 0 <= io_addr h a o < 2 ^ 64 - PAGE_SIZE
}.

(** The command, and the list of its entries where there is one. *)
Definition list_use (h : mem) (a : Z) : Z := io_length h a - prp_first (cmd_prp1 h a) (io_length h a).
Definition cmd_reads (h : mem) (a x : Z) : Prop :=
  a <= x < a + NVME_COMMAND_SIZE \/
  exists i, 0 <= i /\ PAGE_SIZE < list_use h a /\ PAGE_SIZE * i < list_use h a /\ cmd_prp2 h a + 8 * i <= x < cmd_prp2 h a + 8 * i + 8.
Definition cmd_fills (h : mem) (a x : Z) : Prop :=
  cmd_opcode h a = nvme_cmd_read /\ exists o, 0 <= o < io_length h a /\ x = io_addr h a o.

Section kept.
Context (h h' : mem) (a : Z) (Hk : forall x, cmd_reads h a x -> h' x = h x).

Lemma kept_command x : a <= x < a + 64 -> h' x = h x.
Proof using Hk. intros Hx. apply Hk. by left. Qed.

Lemma kept_command_fields : cmd_opcode h' a = cmd_opcode h a /\ cmd_command_id h' a = cmd_command_id h a /\ cmd_nsid h' a = cmd_nsid h a /\
  cmd_prp1 h' a = cmd_prp1 h a /\ cmd_prp2 h' a = cmd_prp2 h a /\ cmd_slba h' a = cmd_slba h a /\ io_length h' a = io_length h a.
Proof using Hk.
  pose proof kept_command as H. assert (forall b n, a <= b -> b + n <= a + 64 -> get_le h' b n = get_le h b n) as Hg
    by (intros b n H1 H2; by apply (get_le_ext _ _ _ _ a)).
  unfold io_length, cmd_length. repeat split; try (apply Hg; lia). by rewrite Hg by lia.
Qed.

Lemma kept_list i : 0 <= i -> PAGE_SIZE < list_use h a -> PAGE_SIZE * i < list_use h a ->
  u64_at h' (cmd_prp2 h a + 8 * i) = u64_at h (cmd_prp2 h a + 8 * i).
Proof using Hk.
  intros H1 H2 H3. unfold u64_at, get_le. f_equal. apply mload_ext. intros j Hj. apply Hk. right. exists i. repeat split; lia.
Qed.

Lemma kept_addr o : 0 <= o < io_length h a -> io_addr h' a o = io_addr h a o.
Proof using Hk.
  intros Ho. destruct kept_command_fields as (_ & _ & _ & E1 & E2 & _ & E3). unfold io_addr. rewrite E1, E2, E3. unfold prp_addr.
  set (first := prp_first _ _). destruct (o <? first) eqn:E; [done|apply Z.ltb_ge in E]. f_equal.
  destruct (PAGE_SIZE <? _) eqn:El; [apply Z.ltb_lt in El|done]. apply kept_list; unfold list_use; fold first.
  - apply Z.div_pos; [lia|done].
  - done.
  - pose proof (Z.mul_div_le (o - first) PAGE_SIZE ltac:(done)). lia.
Qed.

Lemma kept_transfer mapped : transfer_ok mapped h a -> transfer_ok mapped h' a.
Proof using Hk.
  intros [[[P1 P2 P3] I L] M S D]. pose proof kept_command_fields as (E0 & _ & En & E1 & E2 & Es & E3).
  unfold io_addr in *. assert (forall o, 0 <= o < io_length h a ->
    prp_addr (u64_at h') (cmd_prp1 h a) (cmd_prp2 h a) (io_length h a) o = prp_addr (u64_at h) (cmd_prp1 h a) (cmd_prp2 h a) (io_length h a) o) as Ha.
  { intros o Ho. pose proof (kept_addr o Ho) as H. unfold io_addr in H. by rewrite E1, E2, E3 in H. }
  split; rewrite ?E1, ?E2, ?E3.
  - split; [split; [done| |done]| |].
    + intros i Hg Hi1 Hi2. rewrite kept_list by done. by apply P2.
    + intros o o' Ho Ho'. rewrite !Ha by done. by apply I.
    + intros i o j H1 H2 H3 Ho Hj. rewrite Ha by done. by apply L.
  - done.
  - destruct S as (base & Hb & Hs). exists base. unfold cmd_base, io_start in *. by rewrite E0, En, Es.
  - intros Ed. destruct (D Ed) as [D1 D2]. split; [done|]. intros o Ho. unfold io_addr. rewrite E1, E2, E3, Ha by done. by apply D2.
Qed.

Lemma kept_reads x : cmd_reads h' a x <-> cmd_reads h a x.
Proof using Hk. destruct kept_command_fields as (_ & _ & _ & E1 & E2 & _ & E3). unfold cmd_reads, list_use. by rewrite E1, E2, E3. Qed.
Lemma kept_fills x : cmd_fills h' a x <-> cmd_fills h a x.
Proof using Hk.
  destruct kept_command_fields as (E0 & _ & _ & E1 & E2 & _ & E3). unfold cmd_fills. rewrite E0, E3.
  split; (intros [? (o & Ho & ->)]; split; [done|]; exists o; split; [done|]); [|symmetry]; by apply kept_addr.
Qed.
End kept.

(** A transfer leaves all of the host's memory that it does not fill. *)
Lemma moved_outside s m n m' h a : h = m.(im_host) -> n = io_length h a ->
  moved (cmd_opcode h a) (io_addr h a) s m n m' -> forall x, ~ cmd_fills h a x -> m'.(im_host) x = h x.
Proof.
  intros -> -> [H1 H2 H3] x Hx. destruct (has_data (cmd_opcode (im_host m) a)) eqn:E; [|by rewrite H1]. unfold has_data in E.
  destruct (is_write_cmd (cmd_opcode (im_host m) a)) eqn:Ew; [by destruct (H2 eq_refl) as [-> _]|]. apply Z.eqb_eq in E.
  destruct (H3 eq_refl E) as [_ [_ Hd]]. apply Hd. intros j Hj Ej. apply Hx. split; [done|]. by exists j.
Qed.
End transfer.

(** ** The copy of a request *)

Section copy.
Context `{BK : Backend} (pfn_valid : Z -> bool) (store_size : Z) (dma : bool) (HKV : KV_PROTOTYPE_BUILD = false).

(** The data of the command at [a] after the copy. *)
Definition carried (a : Z) (mapped : list Z) (m m' : io_mem) : Prop :=
  exists base, cmd_base dma mapped m.(im_host) a = Some base /\
    moved (cmd_opcode m.(im_host) a) (io_addr m.(im_host) a) (io_start base m.(im_host) a) m (io_length m.(im_host) a) m'.

Lemma worker_copy_ok i curr w d sq a :
  iw_is_internal w = false -> get_sq d w.(iw_sqid) = Ok sq -> sq_entry sq w.(iw_sq_entry) = Ok a ->
  transfer_ok pfn_valid store_size dma d.(dv_mapped) (dv_host d) a ->
  okp (worker_copy pfn_valid store_size dma i curr w d) (fun d' => exists m, d' = dv_with_mem m d /\ carried a d.(dv_mapped) d.(dv_mem) m).
Proof using HKV.
  intros Hi Hsq Ha [Hb Hm (base & Hbase & Hs) Hd]. unfold worker_copy. rewrite Hi, Hsq, bind_Ok, Ha, bind_Ok.
  unfold carried. fold (dv_host d). unfold cmd_base in *. destruct dma; simpl orb in *.
  - injection Hbase as <-. destruct (Hd eq_refl) as [H1 H2]. okstep.
    eapply okp_mono; [by apply (using_dma_ok pfn_valid store_size 0 a d.(dv_mem) Hb Hm Hs H1)|]. intros m Hmv. simpl. exists m. eauto.
  - rewrite HKV, bind_Ok. okstep.
    eapply okp_mono; [apply (perform_io_ok pfn_valid store_size base a d.(dv_mem) Hb Hm Hs)|].
    + intros E. by fold (dv_host d) in E |- *; rewrite E in Hbase.
    + intros E. fold (dv_host d) in E. rewrite E in Hbase. by injection Hbase.
    + intros m Hmv. simpl. exists m. eauto.
Qed.
End copy.
