(* ===== verification/IoPass.v ===== *)
(** * A pass of a worker

    A worker that nothing interrupts walks its queue once, moves the data of the
    requests that it finds for the first time and posts the completions of those
    whose time has come.  [visit_returns]: one visit, what it needs and what it
    changes.  [device_returns]: between other steps, the next step of a worker
    returns. *)

From stdpp Require Import prelude list sorting.
From Stdlib Require Import ZArith Lia.
From S2P Require Import Prelude Mem Prp SsdConfig Ssd ConvFtl IoUnits IoQueue IoInv NvmeCmd IoCopy Io IoBackends IoRun IoDispatch IoDevice IoRing.

(** A filter depends on the elements. *)
Lemma filter_same {A} (f g : A -> bool) (l : list A) : (forall x, x ∈ l -> f x = g x) ->
  filter (fun x => f x = true) l = filter (fun x => g x = true) l.
Proof.
  induction l as [|x l IH]; intros H; [done|]. rewrite !filter_cons, H by set_solver. rewrite IH by set_solver. done.
Qed.

Section pass.
Context `{BK : Backend} `{QC : QueueConfig} (W : list bk_ns -> bk_world -> Prop) `{LW : !BackendLaws BK W}.
Context (pfn_valid : Z -> bool) (store_size : Z) (dma : bool) (HKV : KV_PROTOTYPE_BUILD = false).
Implicit Types (d : io_dev) (k : io_worker) (w : io_work).

(** ** A visit *)

(** The command of a request. *)
Definition command_at d w (a : Z) : Prop := exists sq, get_sq d w.(iw_sqid) = Ok sq /\ sq_entry sq w.(iw_sq_entry) = Ok a.

Record serviceable d w : Prop := {
  sv_command : exists a, command_at d w a /\ transfer_ok pfn_valid store_size dma d.(dv_mapped) (dv_host d) a;
  sv_ring : exists cq c, get_cq d w.(iw_cqid) = Ok cq /\ cq_entry cq cq.(cq_head) = Ok c
}.

(** What a visit leaves alone. *)
Record visit_same d d' : Prop := {
  vs_threads : d'.(dv_threads) = d.(dv_threads);
  vs_sqes : d'.(dv_sqes) = d.(dv_sqes);
  vs_mapped : d'.(dv_mapped) = d.(dv_mapped);
  vs_nr_cq : d'.(dv_nr_cq) = d.(dv_nr_cq);
  vs_irqs : d'.(dv_irqs) = d.(dv_irqs)
}.

Definition reading d (t : io_thread) : Z := u64 ((get_local_clock d.(dv_world)).2 + t.(th_delta)).

Definition visited_worker k (e now : Z) : io_worker :=
  if completed k e then with_latest now k else set_work e (with_flags true (tgt k e <=? now) (work k e)) (with_latest now k).

(** The memory after the copy of a visit, and whether the visit posts. *)
Definition copy_of d k (e : Z) (m : io_mem) : Prop :=
  if completed k e || copied k e || iw_is_internal (work k e) then m = d.(dv_mem)
  else exists a, command_at d (work k e) a /\ carried dma a d.(dv_mapped) d.(dv_mem) m.
Definition posts_now k (e now : Z) : bool := negb (completed k e) && (tgt k e <=? now) && negb (iw_is_internal (work k e)).

Definition post_of d d' k (e now : Z) (m : io_mem) : Prop :=
  if posts_now k e now then
    exists cq cq' h, get_cq d (work k e).(iw_cqid) = Ok cq /\ fill_cq cq (with_flags true false (work k e)) m.(im_host) = Ok (cq', h) /\
      d'.(dv_cqes) = <[(work k e).(iw_cqid) := Some cq']> d.(dv_cqes) /\ d'.(dv_mem) = IoMem h m.(im_store)
  else d'.(dv_cqes) = d.(dv_cqes) /\ d'.(dv_mem) = m.

Lemma upd_work_at e f k : 0 <= e < zlen k.(wk_work_queue) -> upd_work e f k = Ok (set_work e (f (work k e)) k).
Proof using. intros He. unfold upd_work, amod. rewrite (aget_Some _ _ _ (work_lookup _ _ He)), bind_Ok. done. Qed.

Lemma get_cq_set d c cq x : get_cq d c = Ok cq -> set_cq c x d = Ok (IoDev _ d.(dv_workers) d.(dv_io_worker_turn) d.(dv_threads) d.(dv_sqes)
  (<[c := Some x]> d.(dv_cqes)) d.(dv_nr_cq) d.(dv_ns) d.(dv_mapped) d.(dv_world) d.(dv_mem) d.(dv_irqs)).
Proof using.
  unfold get_cq, set_cq, aset, aget. destruct (dv_cqes d !! c); done.
Qed.

(** The entry, once its data is moved. *)
Lemma due_returns i e now d k :
  d.(dv_workers) !! i = Some k -> 0 <= e < zlen k.(wk_work_queue) -> completed k e = false -> copied k e = true ->
  W d.(dv_ns) d.(dv_world) -> good_request W (view (work k e)) ->
  (iw_is_internal (work k e) = false -> exists cq c, get_cq d (work k e).(iw_cqid) = Ok cq /\ cq_entry cq cq.(cq_head) = Ok c) ->
  okp (w ← worker_work i e d;
       if w.(iw_nsecs_target) <=? now then
         d ← (if w.(iw_is_internal) then
                world ← release_buffer w.(iw_write_buffer) w.(iw_buffs_to_release) d.(dv_world); Ok (dv_with_world world d)
              else __fill_cq_result w d);
         upd_worker i (upd_work e (fun w => with_flags w.(iw_is_copied) true w)) d
       else Ok d)
    (fun d' => visit_same d d' /\ d'.(dv_workers) = <[i := set_work e (with_flags true (tgt k e <=? now) (work k e)) k]> d.(dv_workers) /\
       post_of d d' k e now d.(dv_mem)).
Proof using LW.
  intros Hk He Hc Hco HW Hg Hcq. rewrite (worker_work_at i e d k Hk), get_work_ok, bind_Ok by done.
  assert (with_flags true false (work k e) = work k e) as Ew by (unfold completed, copied in *; destruct (work k e); simpl in *; by subst).
  change (iw_nsecs_target (work k e)) with (tgt k e). unfold post_of, posts_now. rewrite Hc. simpl.
  destruct (tgt k e <=? now) eqn:Ed; simpl.
  2: { split; [done|]. split; [|done]. rewrite Ew, set_same, zinsert_id by done. done. }
  assert (forall d2, d2.(dv_workers) = d.(dv_workers) ->
    upd_worker i (upd_work e (fun w => with_flags w.(iw_is_copied) true w)) d2 =
    Ok (dv_with_workers (<[i := set_work e (with_flags true true (work k e)) k]> d.(dv_workers)) d2)) as Hup.
  { intros d2 E2. rewrite (upd_worker_at i _ d2 k) by (by rewrite E2). rewrite upd_work_at, bind_Ok, E2 by done.
    unfold copied in Hco. by rewrite Hco. }
  destruct (iw_is_internal (work k e)) eqn:Ei.
  - unfold good_request, view in Hg. rewrite Ei in Hg. okstep. okstep.
    eapply okp_mono; [by apply (law_release _ (iw_buffs_to_release (work k e)) _ _ HW Hg)|]. intros world _. simpl. by rewrite Hup.
  - destruct (Hcq eq_refl) as (cq & c & Ecq & Ec). unfold __fill_cq_result. rewrite Ecq, bind_Ok.
    assert (exists cq' h, fill_cq cq (work k e) (dv_host d) = Ok (cq', h)) as (cq' & h & Ef) by (unfold fill_cq; rewrite Ec; eauto).
    rewrite Ef, bind_Ok, (get_cq_set (dv_with_host h d) _ cq) by done. rewrite bind_Ok. simpl. rewrite Hup by done. split; [done|]. split; [done|].
    exists cq, cq', h. by rewrite Ew.
Qed.

Lemma visit_returns i d k t :
  let e := t.(th_curr) in let now := reading d t in
  d.(dv_workers) !! i = Some k -> d.(dv_threads) !! i = Some t -> 0 <= e < zlen k.(wk_work_queue) -> W d.(dv_ns) d.(dv_world) ->
  (completed k e = false -> good_request W (view (work k e)) /\ (iw_is_internal (work k e) = false -> serviceable d (work k e))) ->
  okp (worker_visit pfn_valid store_size dma i d) (fun d' => visit_same d d' /\
    d'.(dv_workers) = <[i := visited_worker k e now]> d.(dv_workers) /\
    exists m, copy_of d k e m /\ post_of d d' k e now m).
Proof using LW HKV.
  intros e now Hk Ht He HW Hsv. pose proof (zlookup_Some_range _ _ _ Hk) as Hi. unfold worker_visit, visited_worker, copy_of.
  rewrite (aget_Some _ _ _ Ht), bind_Ok. pose proof (law_local _ _ HW) as HW'. subst now. unfold reading.
  destruct (get_local_clock (dv_world d)) as [world local]. cbn [fst snd] in *. fold e. set (now := u64 _).
  rewrite (upd_worker_at i _ _ k) by done. rewrite !bind_Ok. set (d1 := dv_with_workers _ _). set (k1 := with_latest now k).
  assert (d1.(dv_workers) !! i = Some k1) as Hk1 by (by apply zlookup_zinsert_eq).
  rewrite (worker_work_at _ _ _ _ Hk1), get_work_ok, bind_Ok by done. fold (completed k1 e) (copied k1 e).
  change (work k1 e) with (work k e). change (completed k1 e) with (completed k e). change (copied k1 e) with (copied k e).
  unfold post_of, posts_now. destruct (completed k e) eqn:Hc; simpl.
  { split; [done|]. split; [done|]. by exists d.(dv_mem). }
  destruct (Hsv eq_refl) as [Hg Hs]. clear Hsv. set (k2 := set_work e (with_flags true false (work k e)) k1).
  assert (0 <= e < zlen k2.(wk_work_queue)) as He2 by (simpl; by rewrite zlen_zinsert).
  assert (work k2 e = with_flags true false (work k e)) as Ew2 by (unfold k2; rewrite work_set by done; by rewrite decide_True by done).
  okstep. apply (okp_mono _ (fun d2 => exists m, d2 = dv_with_workers (<[i := k2]> d1.(dv_workers)) (dv_with_mem m d1) /\
    if copied k e || iw_is_internal (work k e) then m = d.(dv_mem) else exists a, command_at d (work k e) a /\ carried dma a d.(dv_mapped) d.(dv_mem) m)).
  { assert (forall m, upd_worker i (upd_work e (fun w => with_flags true w.(iw_is_completed) w)) (dv_with_mem m d1) =
      Ok (dv_with_workers (<[i := k2]> d1.(dv_workers)) (dv_with_mem m d1))) as Hup.
    { intros m. rewrite (upd_worker_at i _ _ k1) by done. rewrite upd_work_at, bind_Ok by done. unfold k2. change (work k1 e) with (work k e). unfold completed in Hc. by rewrite Hc. }
    assert (forall d2 m, m = d2.(dv_mem) -> d2 = dv_with_mem m d2) as Hm by (by intros [] m ->).
    destruct (copied k e) eqn:Hco; simpl.
    - exists d.(dv_mem). split; [|done]. unfold k2, completed, copied in *.
      assert (with_flags true false (work k e) = work k e) as -> by (destruct (work k e); simpl in *; by subst).
      change (work k e) with (work k1 e). rewrite set_same, zinsert_id by done. by rewrite <- Hm by done.
    - destruct (iw_is_internal (work k e)) eqn:Ei.
      + unfold worker_copy. rewrite Ei, bind_Ok. rewrite (Hm d1 d.(dv_mem)) by done. rewrite Hup. exists d.(dv_mem). done.
      + destruct (Hs eq_refl) as [(a & (sq & Hsq & Ha) & Hto) _]. okstep.
        eapply okp_mono; [by apply (worker_copy_ok pfn_valid store_size dma HKV i e (work k e) d1 sq a Ei Hsq Ha Hto)|].
        intros d2 (m & -> & Hca). rewrite Hup. exists m. split; [done|]. exists a. split; [by exists sq|done]. }
  intros d2 (m & -> & Hcopy). set (d2 := dv_with_workers _ _).
  assert (d2.(dv_workers) !! i = Some k2) as Hk2 by (apply zlookup_zinsert_eq; simpl; by rewrite zlen_zinsert).
  eapply okp_mono; [apply (due_returns i e now d2 k2 Hk2 He2)|].
  - unfold completed. by rewrite Ew2.
  - unfold copied. by rewrite Ew2.
  - exact HW'.
  - rewrite Ew2. exact Hg.
  - rewrite Ew2. intros Ei. destruct (Hs Ei) as [_ Hr]. exact Hr.
  - intros d3 (Hv & Ew & Hp). split; [destruct Hv; by split|]. split.
    + rewrite Ew. unfold d2, d1. simpl. rewrite !zinsert_zinsert. unfold tgt. rewrite Ew2. unfold k2. rewrite set_set. done.
    + exists m. split; [exact Hcopy|]. unfold post_of, posts_now, completed, tgt in Hp. rewrite Ew2 in Hp. simpl in Hp. exact Hp.
Qed.
(** ** What a pass needs *)

(** The commands whose data a pass may move. *)
Definition pending_at d k (a : Z) : Prop :=
  exists e, e ∈ io_list k /\ completed k e = false /\ iw_is_internal (work k e) = false /\ command_at d (work k e) a.

(** The bytes of a completion ring. *)
Definition ring_byte d (c x : Z) : Prop :=
  exists cq j b, get_cq d c = Ok cq /\ 0 <= j < cq.(cq_queue_size) /\ cq_entry cq j = Ok b /\ b <= x < b + NVME_COMPLETION_SIZE.

(** What is relied on the host for: the commands that wait are still in their
    entries and name data that can be moved, the completion queues that they name
    exist, and no data is read over a command, a list of entries or a ring. *)
Record pass_ready d k : Prop := {
  pr_command e : e ∈ io_list k -> completed k e = false -> iw_is_internal (work k e) = false ->
    (exists a, command_at d (work k e) a /\ transfer_ok pfn_valid store_size dma d.(dv_mapped) (dv_host d) a) /\
    exists cq, get_cq d (work k e).(iw_cqid) = Ok cq;
  pr_ring c cq : get_cq d c = Ok cq -> cq_ok cq;
  pr_rings c c' x : c <> c' -> ring_byte d c x -> ~ ring_byte d c' x;
  pr_reads a b x : pending_at d k a -> pending_at d k b -> cmd_reads (dv_host d) a x -> ~ cmd_fills (dv_host d) b x;
  pr_posts a c x : pending_at d k a -> ring_byte d c x -> ~ cmd_reads (dv_host d) a x /\ ~ cmd_fills (dv_host d) a x
}.

(** ** The walk *)

(** The readings of the clock in a walk, one for each entry. *)
Definition latest i d : Z := match d.(dv_workers) !! i with Some k => k.(wk_latest_nsecs) | None => 0 end.
Fixpoint walk_clocks (fuel : nat) (i : Z) d : list Z :=
  match fuel with
  | O => []
  | S n =>
      match worker_at_end i d with
      | Ok false =>
          match worker_visit pfn_valid store_size dma i d with
          | Ok d1 => latest i d1 :: match worker_next i d1 with Ok d2 => walk_clocks n i d2 | Fault _ => [] end
          | Fault _ => []
          end
      | _ => []
      end
  end.

(** The request of an entry, when its completion is posted. *)
Definition post_work k (e : Z) : io_work := with_flags true false (work k e).
Definition posted_entry k k' (c e : Z) : bool :=
  negb (completed k e) && completed k' e && negb (iw_is_internal (work k e)) && (iw_cqid (work k e) =? c).
Definition posted_to k k' (c : Z) (l : list Z) : list io_work := post_work k <$> filter (fun e => posted_entry k k' c e = true) l.

Lemma visited_work k e now a : 0 <= e < zlen k.(wk_work_queue) ->
  work (visited_worker k e now) a =
  if decide (a = e /\ completed k e = false) then with_flags true (tgt k e <=? now) (work k e) else work k a.
Proof using.
  intros He. unfold visited_worker. destruct (completed k e) eqn:Hc.
  - by rewrite decide_False by (by intros [_ ?]).
  - rewrite work_set by done. destruct (decide (a = e)) as [->|Hne]; [by rewrite decide_True|by rewrite decide_False by (by intros [? _])].
Qed.

(** A visit keeps the queue. *)
Lemma visited_queue i k t fl il now : worker_ok i k t fl il -> t.(th_curr) ∈ il -> k.(wk_latest_nsecs) <= now ->
  queue_ok (visited_worker k t.(th_curr) now) fl il.
Proof using BK QC pfn_valid.
  clear HKV.
  intros Hw He Hn. unfold visited_worker. destruct (completed k (th_curr t)) eqn:Hc; [by apply latest_ok; [apply Hw|]|].
  assert (0 <= th_curr t < zlen k.(wk_work_queue)) as Hr.
  { rewrite (qo_len _ _ _ (wo_queue _ _ _ _ _ Hw)). apply (entry_range _ _ _ _ (wo_queue _ _ _ _ _ Hw)). set_solver. }
  destruct (marked_worker_ok i k t fl il now (iw_status (work k (th_curr t))) (iw_result0 (work k (th_curr t))) Hw Hr Hn Hc) as [Hm _].
  assert (mark (tgt k (th_curr t) <=? now) (iw_status (work k (th_curr t))) (iw_result0 (work k (th_curr t))) (work k (th_curr t)) =
    with_flags true (tgt k (th_curr t) <=? now) (work k (th_curr t))) as <- by done. apply Hm.
Qed.

(** A ring outside of which the memory changed. *)
Lemma ring_kept d c cq cq' h h' : get_cq d c = Ok cq -> cq'.(cq_queue_size) = cq.(cq_queue_size) -> cq'.(cq_pages) = cq.(cq_pages) ->
  (forall x, ring_byte d c x -> h' x = h x) -> same_ring cq' h h'.
Proof using.
  intros Hcq E1 E2 H j b Hj Hb. rewrite E1 in Hj. rewrite (entry_same cq cq') in Hb by done. apply get_cqe_ext.
  intros x Hx. apply H. by exists cq, j, b.
Qed.

Section walk.
Context (i : Z) (d0 : io_dev) (k0 : io_worker) (t0 : io_thread) (fl il : list Z) (c0 : Z).
Context (Hk0 : d0.(dv_workers) !! i = Some k0) (Ht0 : d0.(dv_threads) !! i = Some t0) (Hw0 : worker_ok i k0 t0 fl il).
Context (Hready : pass_ready d0 k0).
Let h0 := dv_host d0.

(** After the entries [pre], before the entries [suf]. *)
Record walk_at (pre suf : list Z) d k : Prop := {
  wa_split : il = pre ++ suf;
  wa_device : device_ok W d;
  wa_workers : d.(dv_workers) = <[i := k]> d0.(dv_workers);
  wa_threads : d.(dv_threads) = <[i := IoThread (List.hd NO_ENTRY suf) t0.(th_delta)]> d0.(dv_threads);
  wa_same : d.(dv_sqes) = d0.(dv_sqes) /\ d.(dv_mapped) = d0.(dv_mapped) /\ d.(dv_nr_cq) = d0.(dv_nr_cq) /\ d.(dv_irqs) = d0.(dv_irqs) /\
    d.(dv_ns) = d0.(dv_ns);
  wa_queue : queue_ok k fl il;
  wa_id : k.(wk_id) = i;
  wa_later e : e ∉ pre -> work k e = work k0 e;
  wa_fields e : with_flags false false (work k e) = with_flags false false (work k0 e);
  wa_done e : e ∈ pre -> completed k e = true \/ completed k e = false /\ completed k0 e = false /\ c0 < tgt k0 e;
  wa_time e : completed k e = true -> completed k0 e = false -> tgt k0 e <= k.(wk_latest_nsecs);
  wa_kept e : completed k0 e = true -> completed k e = true;
  wa_host a x : pending_at d0 k0 a -> cmd_reads h0 a x -> dv_host d x = h0 x;
  wa_cqes : zlen d.(dv_cqes) = zlen d0.(dv_cqes);
  wa_rings c cq : get_cq d0 c = Ok cq -> exists cq', get_cq d c = Ok cq' /\ posts cq h0 (posted_to k0 k c pre) cq' (dv_host d)
}.

Lemma il_list : io_list k0 = il.
Proof using Hw0. exact (io_list_ok _ _ _ (wo_queue _ _ _ _ _ Hw0)). Qed.
Lemma il_NoDup : NoDup il.
Proof using Hw0. pose proof (entries_NoDup _ _ _ (wo_queue _ _ _ _ _ Hw0)) as H. apply NoDup_app in H. apply H. Qed.
Section at_entry.
Context (pre suf : list Z) (e : Z) (d : io_dev) (k : io_worker) (Hat : walk_at pre (e :: suf) d k).

Lemma at_fresh : e ∉ pre /\ e ∈ il /\ work k e = work k0 e.
Proof using All.
  pose proof il_NoDup as Hnd. rewrite (wa_split _ _ _ _ Hat) in Hnd. apply NoDup_app in Hnd as (_ & H & _).
  assert (e ∉ pre) as Hne by (intros He; apply (H e He); set_solver).
  split; [done|]. split; [rewrite (wa_split _ _ _ _ Hat); set_solver|by apply (wa_later _ _ _ _ Hat)].
Qed.

Lemma at_range : 0 <= e < zlen k.(wk_work_queue).
Proof using All.
  destruct at_fresh as (_ & He & _). pose proof (wa_queue _ _ _ _ Hat) as Hq. rewrite (qo_len _ _ _ Hq). apply (entry_range _ _ _ _ Hq). set_solver.
Qed.

Lemma at_command a : command_at d (work k e) a -> command_at d0 (work k0 e) a.
Proof using All.
  destruct at_fresh as (_ & _ & ->). unfold command_at, get_sq. by destruct (wa_same _ _ _ _ Hat) as (-> & _).
Qed.

Lemma at_pending a : completed k e = false -> iw_is_internal (work k e) = false -> command_at d (work k e) a -> pending_at d0 k0 a.
Proof using All.
  intros Hc Hi Ha. apply at_command in Ha. destruct at_fresh as (_ & He & E). unfold completed in Hc. rewrite E in Hc, Hi.
  exists e. by rewrite il_list.
Qed.

Lemma at_serviceable : completed k e = false -> iw_is_internal (work k e) = false -> serviceable d (work k e).
Proof using All.
  intros Hc Hi. destruct at_fresh as (_ & He & E). unfold completed in Hc. rewrite E in *.
  destruct (pr_command _ _ Hready e ltac:(by rewrite il_list) Hc Hi) as [(a & Ha & Hto) (cq & Hcq)].
  destruct (wa_same _ _ _ _ Hat) as (E1 & E2 & _). split.
  - exists a. split; [unfold command_at, get_sq; by rewrite E1|]. rewrite E2. apply (kept_transfer _ _ _ h0); [|done].
    intros x Hx. apply (wa_host _ _ _ _ Hat a); [|done]. exists e. by rewrite il_list.
  - destruct (wa_rings _ _ _ _ Hat _ _ Hcq) as (cq' & Hcq' & P). destruct (posts_frame _ _ _ _ _ P) as (Hok & _); [by eapply pr_ring|].
    destruct (co_entry _ Hok _ (co_head _ Hok)) as [c Ec]. by exists cq', c.
Qed.

(** What the copy of the entry writes. *)
Lemma copy_outside m a0 x : copy_of d k e m ->
  (forall a, pending_at d0 k0 a -> ~ cmd_fills h0 a x) -> a0 = dv_host d x -> m.(im_host) x = a0.
Proof using All.
  intros Hcp Hx ->. unfold copy_of in Hcp. destruct (completed k e) eqn:Hc; [by simpl in Hcp; subst|].
  destruct (copied k e); [by simpl in Hcp; subst|]. destruct (iw_is_internal (work k e)) eqn:Hi; simpl in Hcp; [by subst|].
  destruct Hcp as (a & Ha & base & _ & Hm). pose proof (at_pending a Hc Hi Ha) as Hp. fold (dv_host d) in Hm.
  apply (moved_outside _ _ _ _ (dv_host d) a eq_refl eq_refl Hm). rewrite (kept_fills h0); [by apply Hx|].
  intros y Hy. by apply (wa_host _ _ _ _ Hat a).
Qed.

Lemma copy_reads m a x : copy_of d k e m -> pending_at d0 k0 a -> cmd_reads h0 a x -> m.(im_host) x = h0 x.
Proof using All.
  intros Hcp Ha Hx. apply (copy_outside m _ x Hcp); [|by rewrite (wa_host _ _ _ _ Hat a)]. intros b Hb. by eapply (pr_reads _ _ Hready a b).
Qed.

Lemma copy_rings m c x : copy_of d k e m -> ring_byte d0 c x -> m.(im_host) x = dv_host d x.
Proof using All.
  intros Hcp Hx. apply (copy_outside m _ x Hcp); [|done]. intros b Hb. by apply (pr_posts _ _ Hready b c x).
Qed.

(** The rings after the copy. *)
Lemma copied_ring m c cq : copy_of d k e m -> get_cq d0 c = Ok cq ->
  exists cq', get_cq d c = Ok cq' /\ posts cq h0 (posted_to k0 k c pre) cq' m.(im_host) /\
    cq_ok cq' /\ cq'.(cq_queue_size) = cq.(cq_queue_size) /\ cq'.(cq_pages) = cq.(cq_pages).
Proof using All.
  intros Hcp Hcq. destruct (wa_rings _ _ _ _ Hat _ _ Hcq) as (cq' & Hcq' & P). pose proof (pr_ring _ _ Hready _ _ Hcq) as Hok.
  destruct (posts_frame _ _ _ _ _ P Hok) as (Hok' & E1 & E2). exists cq'. split; [done|]. split; [|done].
  eapply posts_after; [done|]. apply (ring_kept d0 c cq); [done..|]. intros x Hx. by apply (copy_rings m c).
Qed.

(** The works posted, with the entry. *)
Lemma posted_snoc now c : let k' := visited_worker k e now in
  posted_to k0 k' c (pre ++ [e]) = posted_to k0 k c pre ++
    (if posts_now k e now && (iw_cqid (work k e) =? c) then [post_work k0 e] else []).
Proof using All.
  intros k'. destruct at_fresh as (Hne & _ & E). pose proof at_range as Hr. unfold posted_to. rewrite filter_app, fmap_app. f_equal.
  - f_equal. apply filter_same. intros a Ha. unfold posted_entry, completed at 2. unfold k'. rewrite visited_work by done.
    rewrite decide_False; [done|]. intros [-> _]. done.
  - rewrite filter_cons, filter_nil. unfold posts_now, posted_entry, completed, tgt. unfold k'. rewrite visited_work by done. unfold completed, tgt. rewrite <- E.
    destruct (iw_is_completed (work k e)) eqn:Hc.
    + simpl. done.
    + rewrite (decide_True (P := e = e /\ false = false)) by done. cbn. destruct (_ <=? now), (iw_is_internal (work k e)), (_ =? c); done.
Qed.
(** The memory and the rings after the visit. *)
Lemma visit_memory now m d1 : copy_of d k e m -> post_of d d1 k e now m -> let k' := visited_worker k e now in
  (forall a x, pending_at d0 k0 a -> cmd_reads h0 a x -> dv_host d1 x = h0 x) /\ zlen d1.(dv_cqes) = zlen d.(dv_cqes) /\
  forall c cq, get_cq d0 c = Ok cq -> exists cq', get_cq d1 c = Ok cq' /\ posts cq h0 (posted_to k0 k' c (pre ++ [e])) cq' (dv_host d1).
Proof using All.
  intros Hcp Hpost k'. unfold post_of in Hpost. destruct at_fresh as (_ & He & E).
  assert (forall c cq, get_cq d0 c = Ok cq -> iw_cqid (work k e) <> c \/ posts_now k e now = false ->
    exists cq', get_cq d c = Ok cq' /\ posts cq h0 (posted_to k0 k' c (pre ++ [e])) cq' m.(im_host) /\ cq_ok cq' /\
      cq'.(cq_queue_size) = cq.(cq_queue_size) /\ cq'.(cq_pages) = cq.(cq_pages)) as Hkeep.
  { intros c cq Hcq Hc. destruct (copied_ring m c cq Hcp Hcq) as (cq' & H1 & H2 & H3). exists cq'. split; [done|]. split; [|done].
    unfold k'. rewrite posted_snoc. replace (posts_now k e now && (iw_cqid (work k e) =? c)) with false; [by rewrite app_nil_r|].
    destruct Hc as [Hc| ->]; [rewrite (proj2 (Z.eqb_neq _ _) Hc); by rewrite andb_false_r|done]. }
  destruct (posts_now k e now) eqn:Ep.
  - destruct Hpost as (cq0 & cq1 & h & Hcq0 & Hf & Ec & Em).
    assert (completed k e = false /\ iw_is_internal (work k e) = false) as [Hc Hi].
    { unfold posts_now in Ep. apply andb_prop in Ep as [Ep Hi]. apply andb_prop in Ep as [Hc _]. by apply negb_true_iff in Hc, Hi. }
    set (c1 := iw_cqid (work k e)) in *. assert (exists cq, get_cq d0 c1 = Ok cq) as [cqi Hcqi].
    { unfold completed in Hc. rewrite E in Hc, Hi. unfold c1. rewrite E. by apply (pr_command _ _ Hready e); [rewrite il_list|..]. }
    destruct (copied_ring m c1 cqi Hcp Hcqi) as (cq' & H1 & H2 & Hok & Es & Epg). rewrite Hcq0 in H1. injection H1 as <-.
    destruct (fill_frame _ _ _ _ _ Hok Hf) as (Hok1 & Hn & a & Ea & _ & Hout).
    assert (forall x, a <= x < a + NVME_COMPLETION_SIZE -> ring_byte d0 c1 x) as Hring.
    { intros x Hx. exists cqi, cq0.(cq_head), a. split; [done|]. split; [rewrite <- Es; apply (co_head _ Hok)|]. split; [|done].
      by rewrite <- (entry_same cqi cq0). }
    assert (dv_host d1 = h) as Eh by (unfold dv_host; by rewrite Em).
    assert (forall x, ~ ring_byte d0 c1 x -> dv_host d1 x = m.(im_host) x) as Hh.
    { intros x Hx. rewrite Eh. apply Hout. intros Hr. by apply Hx, Hring. }
    split; [|split; [by rewrite Ec, zlen_zinsert|]].
    + intros b x Hb Hx. rewrite Hh; [by eapply copy_reads|]. intros Hr. by destruct (pr_posts _ _ Hready b c1 x Hb Hr).
    + intros c cq Hcq. destruct (decide (c1 = c)) as [<-|Hne].
      * assert (cq = cqi) as -> by congruence. exists cq1. split.
        { unfold get_cq in Hcq0 |- *. unfold aget in *. rewrite Ec. destruct (dv_cqes d !! c1) eqn:El; [|done]. by rewrite zlookup_zinsert_eq by (by eapply zlookup_Some_range). }
        unfold k'. rewrite posted_snoc, Ep. fold c1. rewrite Z.eqb_refl. simpl. rewrite Eh. unfold post_work. rewrite <- E. eapply posts_snoc; [done|apply same_ring_refl|done].
      * destruct (Hkeep c cq Hcq ltac:(by left)) as (cq' & H3 & H4 & Hok' & E3 & E4). exists cq'. split.
        { unfold get_cq, aget in *. rewrite Ec. by rewrite zlookup_zinsert_ne. }
        eapply posts_after; [done|]. apply (ring_kept d0 c cq); [done..|]. intros x Hx. apply Hh. by apply (pr_rings _ _ Hready c c1).
  - destruct Hpost as [Ec Em]. assert (dv_host d1 = m.(im_host)) as Eh by (unfold dv_host; by rewrite Em).
    split; [|split; [by rewrite Ec|]].
    + intros b x Hb Hx. rewrite Eh. by eapply copy_reads.
    + intros c cq Hcq. destruct (Hkeep c cq Hcq ltac:(by right)) as (cq' & H3 & H4 & _). exists cq'. rewrite Eh. split; [|done].
      unfold get_cq. by rewrite Ec.
Qed.

Lemma at_thread : d.(dv_threads) !! i = Some (IoThread e t0.(th_delta)).
Proof using All. rewrite (wa_threads _ _ _ _ Hat). apply zlookup_zinsert_eq. by eapply zlookup_Some_range. Qed.
Lemma at_worker_is : d.(dv_workers) !! i = Some k.
Proof using All. rewrite (wa_workers _ _ _ _ Hat). apply zlookup_zinsert_eq. by eapply zlookup_Some_range. Qed.

Lemma next_returns now d1 : visit_same d d1 -> d1.(dv_workers) = <[i := visited_worker k e now]> d.(dv_workers) ->
  k.(wk_latest_nsecs) <= now ->
  worker_next i d1 = Ok (dv_with_threads (<[i := IoThread (List.hd NO_ENTRY suf) t0.(th_delta)]> d0.(dv_threads)) d1).
Proof using All.
  intros Hv Ew Hn. pose proof at_thread as Ht. pose proof at_worker_is as Hk. pose proof at_range as Hr.
  assert (d1.(dv_threads) !! i = Some (IoThread e t0.(th_delta))) as Ht1 by (by rewrite (vs_threads _ _ Hv)).
  unfold worker_next. rewrite (aget_Some _ _ _ Ht1), bind_Ok.
  set (k' := visited_worker k e now) in *. assert (d1.(dv_workers) !! i = Some k') as Hk1 by (rewrite Ew; apply zlookup_zinsert_eq; by eapply zlookup_Some_range).
  assert (worker_ok i k (IoThread e t0.(th_delta)) fl il) as Hwk.
  { destruct at_fresh as (_ & He & _). split; [apply (wa_queue _ _ _ _ Hat)|right; by left|apply (wa_id _ _ _ _ Hat)]. }
  pose proof (visited_queue i k _ fl il now Hwk (proj1 (proj2 at_fresh)) Hn) as Hq. cbn [th_curr] in *. fold k' in Hq.
  rewrite (worker_work_at _ _ _ _ Hk1), get_work_ok, bind_Ok; [|rewrite (qo_len _ _ _ Hq), <- (qo_len _ _ _ (wa_queue _ _ _ _ Hat)); exact Hr].
  unfold upd_thread, amod. rewrite (aget_Some _ _ _ Ht1), !bind_Ok. cbn [th_delta]. do 2 f_equal.
  pose proof (qo_io_next _ _ _ Hq) as Hf. rewrite (wa_split _ _ _ _ Hat) in Hf. apply fwd_at in Hf. fold (nx k' e). rewrite Hf.
  rewrite (vs_threads _ _ Hv), (wa_threads _ _ _ _ Hat), zinsert_zinsert. done.
Qed.
End at_entry.
Lemma at_step pre suf e d k : walk_at pre (e :: suf) d k ->
  okp (worker_visit pfn_valid store_size dma i d) (fun d1 => k.(wk_latest_nsecs) <= latest i d1 -> c0 <= latest i d1 ->
    okp (worker_next i d1) (fun d2 => exists k2, walk_at (pre ++ [e]) suf d2 k2 /\ latest i d1 = k2.(wk_latest_nsecs))).
Proof using All.
  intros Hat. pose proof (at_thread _ _ _ _ _ Hat) as Ht. pose proof (at_worker_is _ _ _ _ _ Hat) as Hk. pose proof (at_range _ _ _ _ _ Hat) as Hr.
  destruct (at_fresh _ _ _ _ _ Hat) as (Hne & He & Ew0). pose proof (wa_device _ _ _ _ Hat) as Hd. pose proof (dk_inv _ _ Hd) as Hdi.
  destruct (okp_inv _ _ (visit_returns i d k _ Hk Ht Hr (di_world _ _ Hdi) ltac:(intros Hc; split;
    [exact (proj1 (Forall_forall _ _) (dk_good _ _ Hd i k Hk) _ (curr_pending i d k _ (di_queues _ _ Hdi) Hk Ht Hr Hc))
    |intros Hi; by apply (at_serviceable _ _ _ _ _ Hat)]))) as (d1 & E1 & Hv & Ew & m & Hcp & Hpost).
  cbn [th_curr] in *. set (now := reading _ _) in *. rewrite E1. simpl. set (k' := visited_worker k e now) in *.
  pose proof (zlookup_Some_range _ _ _ Hk) as Hi.
  assert (latest i d1 = now) as El.
  { unfold latest. rewrite Ew, zlookup_zinsert_eq by done. unfold k', visited_worker. by destruct (completed k e). }
  rewrite El. intros Hn Hc0. rewrite (next_returns _ _ _ _ _ Hat now d1 Hv Ew Hn). cbn [okp]. exists k'.
  split; [|unfold k', visited_worker; by destruct (completed k e)].
  set (d2 := dv_with_threads _ _). destruct (visit_memory _ _ _ _ _ Hat now m d1 Hcp Hpost) as (Hh & Hz & Hrings).
  assert (worker_ok i k (IoThread e t0.(th_delta)) fl il) as Hwk by (split; [apply (wa_queue _ _ _ _ Hat)|right; by left|apply (wa_id _ _ _ _ Hat)]).
  pose proof (visited_queue i k _ fl il now Hwk He Hn) as Hq. cbn [th_curr] in Hq. fold k' in Hq.
  assert (forall a, work k' a = if decide (a = e /\ completed k e = false) then with_flags true (tgt k e <=? now) (work k e) else work k a) as Hwork
    by (intros a; by apply visited_work).
  destruct (wa_same _ _ _ _ Hat) as (S1 & S2 & S3 & S4 & S5).
  assert (keeps_world W d d1) as Hkw by (by apply (visit_keeps W pfn_valid store_size dma i d Hd)).
  split.
  - rewrite (wa_split _ _ _ _ Hat). by rewrite <- (assoc_L (++)).
  - apply (step_device W pfn_valid store_size dma d1 d2).
    + apply (ds_next W pfn_valid store_size dma i). apply (next_returns _ _ _ _ _ Hat now d1 Hv Ew Hn).
    + apply (step_device W pfn_valid store_size dma d d1); [|done]. apply (ds_visit W pfn_valid store_size dma i); [done|].
      intros ka kb Ha Hb. rewrite Hk in Ha. injection Ha as <-. unfold latest in El. rewrite Hb in El. lia.
  - cbn. rewrite Ew, (wa_workers _ _ _ _ Hat), zinsert_zinsert. done.
  - done.
  - cbn. rewrite (vs_sqes _ _ Hv), (vs_mapped _ _ Hv), (vs_nr_cq _ _ Hv), (vs_irqs _ _ Hv). repeat split; try done.
    rewrite (proj1 Hkw). done.
  - done.
  - unfold k', visited_worker. destruct (completed k e); apply (wa_id _ _ _ _ Hat).
  - intros a Ha. rewrite Hwork, decide_False by set_solver. apply (wa_later _ _ _ _ Hat). set_solver.
  - intros a. rewrite Hwork. pose proof (wa_fields _ _ _ _ Hat a) as Hf. destruct (decide (a = e /\ completed k e = false)) as [[-> _]|]; exact Hf.
  - intros a [Ha|Ha%list_elem_of_singleton]%elem_of_app.
    + unfold completed at 1 2. rewrite Hwork, decide_False by (intros [-> _]; done). by apply (wa_done _ _ _ _ Hat).
    + subst a. unfold completed at 1 2. rewrite Hwork. destruct (decide (e = e /\ completed k e = false)) as [Hd2|Hd2].
      * cbn. unfold tgt in *. rewrite Ew0 in *. destruct Hd2 as [_ Hd2]. unfold completed in Hd2 |- *. rewrite Ew0 in Hd2. destruct (_ <=? now) eqn:Et; [by left|apply Z.leb_gt in Et]. right. split; [done|]. split; [done|lia].
      * left. fold (completed k e). destruct (completed k e); [done|]. exfalso. by apply Hd2.
  - intros a Ha Ha0. unfold completed at 1 in Ha. rewrite Hwork in Ha. 
    assert (wk_latest_nsecs k' = now) as -> by (unfold k', visited_worker; by destruct (completed k e)). destruct (decide (a = e /\ completed k e = false)) as [Hd2|Hd2].
    + destruct Hd2 as [-> _]. unfold tgt in *. rewrite Ew0 in Ha. cbn in Ha. by apply Z.leb_le in Ha.
    + pose proof (wa_time _ _ _ _ Hat a Ha Ha0). lia.
  - intros a Ha. pose proof (wa_kept _ _ _ _ Hat a Ha) as Hka. unfold completed. rewrite Hwork. destruct (decide (a = e /\ completed k e = false)) as [Hd2|Hd2]; [|exact Hka].
    destruct Hd2 as [-> Hd2]. congruence.
  - exact Hh.
  - cbn. by rewrite Hz, (wa_cqes _ _ _ _ Hat).
  - exact Hrings.
Qed.

(** The walk ends, with every entry visited. *)
Lemma walk_returns fuel : forall pre suf d k, walk_at pre suf d k -> (length suf < fuel)%nat ->
  Sorted Z.le (k.(wk_latest_nsecs) :: walk_clocks fuel i d) -> Forall (Z.le c0) (walk_clocks fuel i d) ->
  okp (rloop fuel (walk_step pfn_valid store_size dma i) d) (fun d' => exists k', walk_at il [] d' k').
Proof using All.
  induction fuel as [|n IH]; intros pre suf d k Hat Hl Hs Hc; [lia|]. cbn [rloop walk_clocks] in Hs, Hc |- *.
  pose proof (wa_threads _ _ _ _ Hat) as Eth. pose proof (zlookup_Some_range _ _ _ Ht0) as Hi.
  assert (worker_at_end i d = Ok (List.hd NO_ENTRY suf =? NO_ENTRY)) as Hend.
  { unfold worker_at_end, aget. rewrite Eth, zlookup_zinsert_eq by done. done. }
  assert (walk_step pfn_valid store_size dma i d = if List.hd NO_ENTRY suf =? NO_ENTRY then Ok (inr d)
    else d1 ← worker_visit pfn_valid store_size dma i d; d2 ← worker_next i d1; Ok (inl d2)) as -> by (unfold walk_step; by rewrite Hend).
  rewrite Hend in Hs, Hc. destruct suf as [|e suf].
  - simpl. exists k. pose proof (wa_split _ _ _ _ Hat) as E. rewrite app_nil_r in E. by rewrite E.
  - destruct (at_fresh _ _ _ _ _ Hat) as (_ & He & _). cbn [List.hd] in Hs, Hc |- *.
    assert (0 <= e < NR_MAX_PARALLEL_IO) as Hr by (apply (entry_range _ _ _ _ (wo_queue _ _ _ _ _ Hw0)); set_solver).
    rewrite valid_entry in Hs, Hc |- * by done. destruct (okp_inv _ _ (at_step _ _ _ _ _ Hat)) as (d1 & E1 & H1). rewrite E1 in Hs, Hc |- *.
    apply Sorted_inv in Hs as [Hs Hh]. apply HdRel_inv in Hh. apply Forall_cons in Hc as [Hc1 Hc].
    destruct (okp_inv _ _ (H1 Hh Hc1)) as (d2 & E2 & k2 & Hat2 & El). rewrite bind_Ok, E2, !bind_Ok. rewrite E2, El in Hs. rewrite E2 in Hc.
    apply (IH (pre ++ [e]) suf d2 k2); [done|simpl in Hl; lia|done|done].
Qed.
End walk.
(** ** The interrupts *)

(** The interrupt that is due for the queue [q], and the queue after it. *)
Definition irq_due i d (q : Z) (cq : nvmev_completion_queue) : bool :=
  (worker_of d q =? i) && cq.(cq_irq_enabled) && cq.(cq_interrupt_ready).
Definition irq_vectors i d (q : Z) : list Z :=
  match d.(dv_cqes) !! q with Some (Some cq) => if irq_due i d q cq then [cq.(cq_irq_vector)] else [] | _ => [] end.
Definition quiet i d (q : Z) (cq : nvmev_completion_queue) : nvmev_completion_queue :=
  if irq_due i d q cq then cq_without_interrupt cq else cq.

(** After the queues below [j]. *)
Record irqs_at i d (j : Z) d' : Prop := {
  ia_frame : d' = IoDev _ d.(dv_workers) d.(dv_io_worker_turn) d.(dv_threads) d.(dv_sqes) d'.(dv_cqes) d.(dv_nr_cq) d.(dv_ns) d.(dv_mapped)
    d.(dv_world) d.(dv_mem) d'.(dv_irqs);
  ia_len : zlen d'.(dv_cqes) = zlen d.(dv_cqes);
  ia_irqs : d'.(dv_irqs) = d.(dv_irqs) ++ concat (irq_vectors i d <$> zrange 1 j);
  ia_cqes q : d'.(dv_cqes) !! q = if decide (1 <= q < j) then (fmap (quiet i d q)) <$> d.(dv_cqes) !! q else d.(dv_cqes) !! q
}.

Lemma irqs_return i d k t fl il : d.(dv_workers) !! i = Some k -> worker_ok i k t fl il -> 0 < nr_io_workers d ->
  0 <= d.(dv_nr_cq) < zlen d.(dv_cqes) -> okp (worker_irqs i d) (irqs_at i d (d.(dv_nr_cq) + 1)).
Proof using All.
  intros Hk Hw Hnr Hcq. unfold worker_irqs.
  apply (rfold_range (irq_step i) (irqs_at i d)); [lia| |].
  { split; [by destruct d|done|by rewrite zrange_nil, app_nil_r by lia|]. intros q. by rewrite decide_False by lia. }
  - intros j d' Hj [F L I C]. unfold irq_step. 
    assert (d'.(dv_workers) !! i = Some k) as Hk' by (by rewrite F). rewrite (aget_Some _ _ _ Hk'), bind_Ok.
    destruct (zlookup_lt d'.(dv_cqes) j ltac:(lia)) as [q Eq]. rewrite (aget_Some _ _ _ Eq), bind_Ok.
    assert (__get_io_worker d' j = Ok (worker_of d j)) as ->.
    { unfold __get_io_worker, worker_of, nr_io_workers in *. rewrite F. cbn. unfold cmod. by rewrite (proj2 (Z.eqb_neq _ _)) by lia. }
    rewrite bind_Ok, (wo_id _ _ _ _ _ Hw), Z.eqb_sym. 
    assert (d.(dv_cqes) !! j = Some q) as Eq0 by (rewrite <- Eq, C, decide_False by lia; done).
    assert (irq_vectors i d j = match q with Some cq => if irq_due i d j cq then [cq.(cq_irq_vector)] else [] | None => [] end) as Hvec
      by (unfold irq_vectors; by rewrite Eq0).
    assert (forall b, q = None \/ (exists cq, q = Some cq /\ irq_due i d j cq = false) -> b = d' -> irqs_at i d (j + 1) b) as Hsame.
    { intros b Hq ->. split; [exact F|exact L| |].
      - rewrite I, zrange_snoc, fmap_app, concat_app by lia. cbn. rewrite Hvec.
        destruct Hq as [->|(cq & -> & ->)]; by rewrite !app_nil_r.
      - intros p. rewrite C. destruct (decide (p = j)) as [->|Hp].
        + rewrite decide_False, decide_True by lia. rewrite Eq0. destruct Hq as [->|(cq & -> & E)]; [done|]. cbn. unfold quiet. by rewrite E.
        + destruct (decide (1 <= p < j)), (decide (1 <= p < j + 1)); (done || lia). }
    destruct (worker_of d j =? i) eqn:Ew; cbn [negb]; [|cbn [okp]; apply Hsame; [|done]; destruct q as [cq|]; [right|by left]; exists cq; split; [done|]; unfold irq_due; by rewrite Ew].
    destruct q as [cq|]; [|cbn [okp]; apply Hsame; auto].
    destruct (cq_irq_enabled cq && cq_interrupt_ready cq) eqn:Ed; [|cbn [okp]; apply Hsame; [|done]; right; exists cq; split; [done|]; unfold irq_due; by rewrite Ew, <- andb_assoc, Ed].
    assert (get_cq d' j = Ok cq) as Hg by (unfold get_cq; by rewrite (aget_Some _ _ _ Eq)).
    rewrite (get_cq_set _ _ cq _ Hg), bind_Ok. cbn [okp]. assert (irq_due i d j cq = true) as Hdue by (unfold irq_due; by rewrite Ew, <- andb_assoc, Ed).
    destruct d' as [w1 r1 t1 s1 c1 n1 ns1 m1 o1 e1 v1]. cbn in F, L, I, C, Eq |- *. injection F as -> -> -> -> -> -> -> -> ->.
    split; cbn; [done|..].
    + by rewrite zlen_zinsert.
    + rewrite I, zrange_snoc, fmap_app, concat_app by lia. cbn. rewrite Hvec, Hdue, app_nil_r, (assoc_L (++)). done.
    + intros p. destruct (decide (p = j)) as [->|Hp].
      * rewrite zlookup_zinsert_eq by lia. rewrite decide_True by lia. rewrite Eq0. cbn. unfold quiet. by rewrite Hdue.
      * rewrite zlookup_zinsert_ne by done. rewrite C. destruct (decide (1 <= p < j)), (decide (1 <= p < j + 1)); (done || lia).
Qed.
(** ** The pass *)

Definition pass_clocks (i : Z) d : list Z :=
  match worker_start i d with Ok d1 => walk_clocks (S (Z.to_nat NR_MAX_PARALLEL_IO)) i d1 | Fault _ => [] end.

(** The ring of the queue [c]: the completions of [ws], and the interrupt. *)
Definition ring_after i d d' (c : Z) (cq : nvmev_completion_queue) (ws : list io_work) (irqs : list Z) : Prop :=
  exists cq1 cq', posts cq (dv_host d) ws cq1 (dv_host d') /\ get_cq d' c = Ok cq' /\ (cq' = cq1 \/ cq' = cq_without_interrupt cq1) /\
    (1 <= c <= d.(dv_nr_cq) -> worker_of d c = i -> cq.(cq_irq_enabled) = true -> ws <> [] -> cq.(cq_irq_vector) ∈ irqs).

(** After a pass: which requests are completed, and what the rings hold. *)
Record passed i d k d' k' (irqs : list Z) : Prop := {
  pd_device : device_ok W d';
  pd_workers : d'.(dv_workers) = <[i := k']> d.(dv_workers);
  pd_list : io_list k' = io_list k;
  pd_done e : e ∈ io_list k -> completed k' e = true \/
    completed k' e = false /\ completed k e = false /\ forall c, head (pass_clocks i d) = Some c -> c < tgt k e;
  pd_time e : completed k' e = true -> completed k e = false -> tgt k e <= k'.(wk_latest_nsecs);
  pd_same : d'.(dv_sqes) = d.(dv_sqes) /\ d'.(dv_mapped) = d.(dv_mapped) /\ d'.(dv_nr_cq) = d.(dv_nr_cq) /\ d'.(dv_ns) = d.(dv_ns);
  pd_view e : view (work k' e) = view (work k e);
  pd_irqs : d'.(dv_irqs) = d.(dv_irqs) ++ irqs;
  pd_rings c cq : get_cq d c = Ok cq -> ring_after i d d' c cq (posted_to k k' c (io_list k)) irqs
}.

Lemma view_flags w w' : with_flags false false w = with_flags false false w' -> view w = view w'.
Proof using. destruct w, w'. by intros [=]; subst. Qed.

Lemma pass_returns i d k : device_ok W d -> d.(dv_workers) !! i = Some k -> pass_ready d k -> 0 <= d.(dv_nr_cq) < zlen d.(dv_cqes) ->
  Sorted Z.le (k.(wk_latest_nsecs) :: pass_clocks i d) ->
  okp (nvmev_io_worker pfn_valid store_size dma i d) (fun d' => exists k' irqs, passed i d k d' k' irqs).
Proof using All.
  intros Hd Hk Hr Hcq Hs. pose proof (di_queues _ _ (dk_inv _ _ Hd)) as Hq. pose proof (zlookup_Some_range _ _ _ Hk) as Hi.
  destruct (zlookup_lt d.(dv_threads) i ltac:(by rewrite (qs_threads _ Hq))) as [t Ht]. destruct (qs_worker _ Hq _ _ _ Hk Ht) as (fl & il & Hw).
  assert (exists wd delta, worker_start i d = Ok (dv_with_threads (<[i := IoThread (List.hd NO_ENTRY il) delta]> d.(dv_threads)) (dv_with_world wd d))) as (wd & delta & Es).
  { unfold worker_start. destruct (__get_wallclock _) as [w1 wall]. destruct (get_local_clock w1) as [w2 local]. exists w2, (wall - local).
    rewrite (aget_Some _ _ _ Hk), bind_Ok. unfold upd_thread, amod. change (dv_threads (dv_with_world w2 d)) with (dv_threads d).
    rewrite (aget_Some _ _ _ Ht), !bind_Ok.
    by rewrite (qo_io_first _ _ _ (wo_queue _ _ _ _ _ Hw)). }
  unfold nvmev_io_worker, pass_clocks in *. rewrite Es in *. rewrite bind_Ok. set (d1 := dv_with_threads _ _) in *.
  set (rs := walk_clocks _ i d1) in *. set (c0 := default 0 (head rs)). pose proof (zlookup_Some_range _ _ _ Ht) as Hti.
  assert (d1.(dv_threads) !! i = Some (IoThread (List.hd NO_ENTRY il) delta)) as Ht1 by (by apply zlookup_zinsert_eq).
  assert (worker_ok i k (IoThread (List.hd NO_ENTRY il) delta) fl il) as Hw1.
  { split; [apply Hw|destruct il; [by left|right; left; set_solver]|apply Hw]. }
  assert (walk_at i d1 k (IoThread (List.hd NO_ENTRY il) delta) fl il c0 [] il d1 k) as Hat.
  { split; try done; try by (rewrite zinsert_id); try (intros e He; by apply not_elem_of_nil in He); try by (intros e -> ).
    - by apply (step_device W pfn_valid store_size dma d d1); [apply (ds_start W pfn_valid store_size dma i)|].
    - apply Hw.
    - apply Hw.
    - by intros e He%not_elem_of_nil.
    - intros e H1 H2. congruence.
    - intros c cq Hc. exists cq. split; [done|]. apply posts_nil, same_ring_refl. }
  assert (Forall (Z.le c0) rs) as Hc0.
  { apply Sorted_inv in Hs as [Hs _]. apply Sorted_StronglySorted in Hs; [|intros x y z; lia]. unfold c0. destruct rs as [|c rs']; [constructor|]. cbn.
    apply StronglySorted_inv in Hs as [_ Hs]. by constructor. }
  assert (length il < S (Z.to_nat NR_MAX_PARALLEL_IO))%nat as Hlen.
  { pose proof (queue_lengths _ _ _ (wo_queue _ _ _ _ _ Hw)) as H1. pose proof (qo_len _ _ _ (wo_queue _ _ _ _ _ Hw)) as H2. unfold zlen in H2. lia. }
  assert (pass_ready d1 k) as Hr1 by (destruct Hr; by split).
  okstep. eapply okp_mono; [apply (walk_returns i d1 k _ fl il c0 Hk Ht1 Hw1 Hr1 _ [] il d1 k Hat Hlen Hs Hc0)|].
  intros d2 (k' & [_ D Ew _ (S1 & S2 & S3 & S4 & S5) Q Id _ Fi Dn Tm _ _ Z2 Rg]).
  assert (io_list k = il) as Eil by exact (io_list_ok _ _ _ (wo_queue _ _ _ _ _ Hw)).
  pose proof (di_queues _ _ (dk_inv _ _ D)) as Hq2.
  assert (d2.(dv_workers) !! i = Some k') as Hk' by (rewrite Ew; by apply zlookup_zinsert_eq).
  destruct (zlookup_lt d2.(dv_threads) i ltac:(rewrite (qs_threads _ Hq2); unfold nr_io_workers; rewrite Ew; by rewrite zlen_zinsert)) as [t2 Ht2].
  destruct (qs_worker _ Hq2 _ _ _ Hk' Ht2) as (fl2 & il2 & Hw2). pose proof (qs_nr _ Hq2) as Hnr2.
  assert (worker_of d2 = worker_of d) as Ewo by (unfold worker_of, nr_io_workers; rewrite Ew; by rewrite zlen_zinsert).
  destruct (okp_inv _ _ (irqs_return i d2 k' t2 fl2 il2 Hk' Hw2 ltac:(lia) ltac:(rewrite S3, Z2; exact Hcq))) as (d3 & E3 & [F3 L3 I3 C3]).
  rewrite E3. cbn [okp]. exists k', (concat (irq_vectors i d2 <$> zrange 1 (dv_nr_cq d2 + 1))). split.
  - apply (step_device W pfn_valid store_size dma d2 d3); [by apply (ds_irqs W pfn_valid store_size dma i)|done].
  - rewrite F3. exact Ew.
  - rewrite Eil. exact (io_list_ok _ _ _ Q).
  - rewrite Eil. intros e He. destruct (Dn e He) as [H|(H1 & H2 & H3)]; [by left|]. right. split; [done|]. split; [done|].
    intros c Hc. unfold pass_clocks in Hc. rewrite Es in Hc. fold rs in Hc. unfold c0 in H3. by rewrite Hc in H3.
  - exact Tm.
  - rewrite F3. done.
  - intros e. apply view_flags, Fi.
  - by rewrite I3, S4.
  - intros c cq Hc. destruct (Rg c cq Hc) as (cq1 & Hc1 & P). rewrite Eil. exists cq1, (if decide (1 <= c < dv_nr_cq d2 + 1) then quiet i d2 c cq1 else cq1).
    assert (dv_cqes d2 !! c = Some (Some cq1)) as El.
    { unfold get_cq, aget in Hc1. destruct (dv_cqes d2 !! c) as [[x|]|]; simpl in Hc1; [by injection Hc1 as ->|done..]. }
    split; [by rewrite F3|]. split; [unfold get_cq, aget; rewrite C3, El; by case_decide|]. split; [case_decide; [|by left]; unfold quiet; case_match; auto|].
    intros Hc2 Hwc Hen Hne. destruct (posts_irq _ _ _ _ _ P) as (Ev & Ee & Er). apply list_elem_of_In, in_concat. exists (irq_vectors i d2 c).
    split; apply list_elem_of_In; [apply list_elem_of_fmap_2, elem_of_zrange; change (dv_nr_cq d1) with (dv_nr_cq d) in S3; lia|]. unfold irq_vectors. rewrite El. unfold irq_due.
    rewrite Ewo, Hwc, Z.eqb_refl, Ee, Hen, Er by auto. rewrite Ev. set_solver.
Qed.

(** ** The steps of a worker return *)

(** Each of them in the state [d]; a visit needs the queues, the buffer and the ring of
    the command that it stands at, if it is one that is not completed. *)
Record workers_return d : Prop := {
  ret_start i : 0 <= i < nr_io_workers d -> okp (worker_start i d) (fun _ => True);
  ret_visit i k t : let e := t.(th_curr) in d.(dv_workers) !! i = Some k -> d.(dv_threads) !! i = Some t -> e <> NO_ENTRY ->
    (completed k e = false -> iw_is_internal (work k e) = false -> serviceable d (work k e)) ->
    okp (worker_visit pfn_valid store_size dma i d) (fun _ => True);
  ret_next i k t : d.(dv_workers) !! i = Some k -> d.(dv_threads) !! i = Some t -> t.(th_curr) <> NO_ENTRY ->
    okp (worker_next i d) (fun _ => True);
  ret_irqs i : 0 <= i < nr_io_workers d -> 0 <= d.(dv_nr_cq) < zlen d.(dv_cqes) -> okp (worker_irqs i d) (fun _ => True)
}.

Lemma device_returns d : device_ok W d -> workers_return d.
Proof using All.
  intros Hd. pose proof (di_queues _ _ (dk_inv _ _ Hd)) as Hq.
  assert (forall i, 0 <= i < nr_io_workers d -> exists k t, d.(dv_workers) !! i = Some k /\ d.(dv_threads) !! i = Some t) as Hat.
  { intros i Hi. destruct (zlookup_lt d.(dv_workers) i Hi) as [k Hk]. destruct (zlookup_lt d.(dv_threads) i ltac:(by rewrite (qs_threads _ Hq))) as [t Ht].
    by exists k, t. }
  assert (forall i k t, d.(dv_workers) !! i = Some k -> d.(dv_threads) !! i = Some t -> t.(th_curr) <> NO_ENTRY ->
    0 <= t.(th_curr) < zlen k.(wk_work_queue)) as Hrange.
  { intros i k t Hk Ht He. destruct (qs_worker _ Hq _ _ _ Hk Ht) as (fl & il & [Hw Hcur _]). rewrite (qo_len _ _ _ Hw).
    apply (entry_range _ _ _ _ Hw). destruct Hcur as [?|[?|[? _]]]; set_solver. }
  split.
  - intros i Hi. destruct (Hat i Hi) as (k & t & Hk & Ht). unfold worker_start. destruct (__get_wallclock _) as [w1 wall].
    destruct (get_local_clock w1) as [w2 local]. rewrite (aget_Some _ _ _ Hk), bind_Ok. unfold upd_thread, amod.
    change (dv_threads (dv_with_world w2 d)) with (dv_threads d). by rewrite (aget_Some _ _ _ Ht).
  - intros i k t e Hk Ht He Hs. eapply okp_mono; [apply (visit_returns i d k t Hk Ht); [by eapply Hrange|apply (di_world _ _ (dk_inv _ _ Hd))|]|done].
    intros Hc. split; [|by apply Hs]. pose proof (dk_good _ _ Hd i k Hk) as Hg. rewrite Forall_forall in Hg.
    apply Hg, (curr_pending i d k t); [done..|by eapply Hrange|done].
  - intros i k t Hk Ht He. unfold worker_next. rewrite (aget_Some _ _ _ Ht), bind_Ok. rewrite (worker_work_at i _ d k Hk).
    rewrite get_work_ok, bind_Ok by (by eapply Hrange). unfold upd_thread, amod. by rewrite (aget_Some _ _ _ Ht).
  - intros i Hi Hc. destruct (Hat i Hi) as (k & t & Hk & Ht). destruct (qs_worker _ Hq _ _ _ Hk Ht) as (fl & il & Hw).
    eapply okp_mono; [apply (irqs_return i d k t fl il Hk Hw); [by apply qs_nr|done]|done].
Qed.
End pass.
