(* ===== verification/IoComplete.v ===== *)
(** * From the ring to the completions

    The dispatcher and the worker put together: the commands of a ring that the
    dispatcher took, once the worker found their time come, are the completions
    that the host reads ([ring_completes]). *)

From stdpp Require Import prelude list sorting.
From Stdlib Require Import ZArith Lia.
From S2P Require Import Prelude Mem Prp SsdConfig Ssd ConvFtl IoUnits IoQueue IoInv NvmeCmd IoCopy Io IoBackends IoRun IoDispatch IoDevice IoRing IoPass.

(** ** The requests of a list that complete in a queue *)

(** What the host is told of a command: identifier, queue and entry. *)
Definition command_of (c : Z) (r : request) : option (Z * Z * Z) :=
  match r with RqCommand sqid cqid e id _ _ => if cqid =? c then Some (id, sqid, e) else None | RqInternal _ _ _ _ => None end.

(** The commands of the entries that complete in the queue [c]. *)
Definition commands_in (k : io_worker) (c : Z) (l : list Z) : list (Z * Z * Z) :=
  omap (fun e => command_of c (view (work k e))) (filter (fun e => completed k e = false) l).

Lemma pending_commands k c : omap (command_of c) (pending k) = commands_in k c (io_list k).
Proof. unfold pending, commands_in. induction (filter _ _) as [|e l IH]; [done|]. cbn. destruct (command_of c _); by rewrite IH. Qed.

Definition told (w : io_work) : Z * Z * Z := (w.(iw_command_id), w.(iw_sqid), w.(iw_sq_entry)).

(** When all is completed, what was posted is what was pending. *)
Lemma posted_commands k k' c l : (forall e, e ∈ l -> completed k' e = true) -> told <$> posted_to k k' c l = commands_in k c l.
Proof.
  intros H. unfold posted_to, commands_in. induction l as [|e l IH]; [done|]. rewrite !filter_cons. specialize (IH ltac:(set_solver)).
  assert (posted_entry k k' c e = negb (completed k e) && negb (iw_is_internal (work k e)) && (iw_cqid (work k e) =? c)) as E
    by (unfold posted_entry; rewrite (H e) by set_solver; by rewrite andb_true_r).
  assert (command_of c (view (work k e)) = if negb (iw_is_internal (work k e)) && (iw_cqid (work k e) =? c) then Some (told (post_work k e)) else None) as Ec
    by (unfold view; destruct (iw_is_internal (work k e)); done).
  rewrite <- andb_assoc in E. destruct (decide (completed k e = false)) as [Hc|Hc], (decide (posted_entry k k' c e = true)) as [Hp|Hp]; rewrite E in Hp.
  - rewrite Hc in Hp. cbn in Hp |- *. rewrite Ec, Hp. cbn. by rewrite <- IH.
  - rewrite Hc in Hp. cbn in Hp |- *. rewrite Ec. apply not_true_is_false in Hp. by rewrite Hp, IH.
  - apply not_false_is_true in Hc. by rewrite Hc in Hp.
  - exact IH.
Qed.

Section complete.
Context `{BK : Backend} `{QC : QueueConfig} (W : list bk_ns -> bk_world -> Prop) `{LW : !BackendLaws BK W}.
Context (pfn_valid : Z -> bool) (store_size : Z) (dma : bool) (HKV : KV_PROTOTYPE_BUILD = false).
Context (sqid new old : Z) (sq : nvmev_submission_queue) (cq : nvmev_completion_queue) (d : io_dev) (k : io_worker).
Let i := worker_of d sqid.
Let h := dv_host d.
Let n := ring_distance sq.(sq_queue_size) new old.
Let addrs := ring_addrs sq new old.

(** What is relied on the host for, and that the worker of the queue is idle: each
    command of the ring names a buffer for its data, apart from the commands, the
    lists of entries and the completion rings, and the completion queue has room
    for all of them. *)
Record ring_ready : Prop := {
  rr_device : device_ok W d;
  rr_ring : ring_ok W sqid sq d new old;
  rr_stat : stat_ok sq.(sq_stat);
  rr_worker : d.(dv_workers) !! i = Some k;
  rr_idle : pending k = [];
  rr_room : (Z.to_nat n * S max_internal < room d i)%nat;
  rr_cq : get_cq d sq.(sq_cqid) = Ok cq;
  rr_fits : n <= cq.(cq_queue_size);
  rr_phases : phases cq h;
  rr_nr : 0 <= d.(dv_nr_cq) < zlen d.(dv_cqes);
  rr_cqs c q : get_cq d c = Ok q -> cq_ok q;
  rr_rings c c' x : c <> c' -> ring_byte d c x -> ~ ring_byte d c' x;
  rr_data a : a ∈ addrs -> transfer_ok pfn_valid store_size dma d.(dv_mapped) h a;
  rr_reads a b x : a ∈ addrs -> b ∈ addrs -> cmd_reads h a x -> ~ cmd_fills h b x;
  rr_posts a c x : a ∈ addrs -> ring_byte d c x -> ~ cmd_reads h a x /\ ~ cmd_fills h a x;
  rr_writes a b x : a ∈ addrs -> cmd_writes a x -> b ∈ addrs -> ~ cmd_reads h b x;
  rr_writes_ring a c x : a ∈ addrs -> cmd_writes a x -> ~ ring_byte d c x
}.

Context (Hr : ring_ready).

(** What the host put in the ring. *)
Definition offered : list (Z * Z * Z) := (fun e => (cmd_command_id h (entry_addr sq e), sqid, e)) <$> ring_entries sq.(sq_queue_size) new old.

(** After the dispatcher took the first [m] entries of the ring. *)
Definition first_of (m : Z) {A} (l : list A) : list A := take (Z.to_nat m) l.
Record taken (m : Z) (d1 : io_dev) (k1 : io_worker) (inss : list (list request)) : Prop := {
  tk_range : 0 <= m <= n;
  tk_device : device_ok W d1;
  tk_worker : d1.(dv_workers) !! i = Some k1;
  tk_sqes : exists st, d1.(dv_sqes) = <[sqid := Some (sq_with_stat st sq)]> d.(dv_sqes);
  tk_rest : same_rest (dv_with_sqes d1.(dv_sqes) d) d1;
  tk_host : host_kept cmd_writes addrs h (dv_host d1);
  tk_served : Forall2 (served W sqid sq d) (first_of m (ring_entries sq.(sq_queue_size) new old)) inss;
  tk_pending : pending k1 ≡ₚ concat inss
}.

Lemma dispatch_takes : okp (nvmev_proc_io_sq sqid new old d) (fun '(d1, db) => exists m k1 inss,
  (may_refuse = false -> m = n /\ db = new) /\ all_or_stopped W pfn_valid store_size dma sqid sq d new old m /\ db = (old + m) `mod` sq.(sq_queue_size) /\ taken m d1 k1 inss).
Proof using All.
  destruct Hr. pose proof (dk_inv _ _ rr_device0) as Hd. pose proof (ro_size _ _ _ _ _ _ rr_ring0) as Hsz.
  destruct (okp_inv _ _ (dispatch_ok W pfn_valid store_size dma sqid sq d new old rr_ring0 Hd rr_stat0 rr_room0)) as
    ([d1 db] & E & m & Hm & Hst0 & Hdb & Hd1 & Hrest & Hkept & (st & Esq & _) & _ & inss & Hf & Hrun).
  rewrite E. cbn [okp]. pose proof (none_refused _ _ _ _ _ _ _ _ _ _ Hst0) as Hall.
  assert (zlen d1.(dv_workers) = zlen d.(dv_workers)) as Hz by exact (se_workers _ _ Hrest). pose proof (zlookup_Some_range _ _ _ rr_worker0) as Hi.
  destruct (zlookup_lt d1.(dv_workers) i ltac:(lia)) as [k1 Hk1]. exists m, k1, inss.
  split; [intros Hno; split; [by apply Hall|rewrite Hdb, (Hall Hno); eapply last_entry; exact rr_ring0]|]. split; [exact Hst0|]. split; [exact Hdb|].
  pose proof (run_conserves pfn_valid store_size dma i _ _ _ _ (Hrun i) (di_queues _ _ Hd)) as (_ & _ & Hp).
  destruct (Hp _ _ rr_worker0 Hk1) as [P _]. rewrite rr_idle0 in P. unfold at_worker in P. fold i in P. rewrite Z.eqb_refl in P. cbn in P.
  split; try done; [|by exists st|unfold first_of; by rewrite <- first_entries_take].
  apply (step_device W pfn_valid store_size dma d d1); [|done]. by apply (ds_dispatch W pfn_valid store_size dma sqid sq new old d d1 _ rr_ring0 rr_stat0 rr_room0 E).
Qed.

(** A request of the ring that waits, with its command. *)
Lemma taken_command m d1 k1 inss e : taken m d1 k1 inss -> e ∈ io_list k1 -> completed k1 e = false -> iw_is_internal (work k1 e) = false ->
  exists en a, en ∈ ring_entries sq.(sq_queue_size) new old /\ sq_entry sq en = Ok a /\ entry_addr sq en = a /\ a ∈ addrs /\
    view (work k1 e) = RqCommand sqid sq.(sq_cqid) en (cmd_command_id h a) (iw_nsecs_start (work k1 e)) (tgt k1 e).
Proof using All.
  intros Ht He Hc Hi. assert (view (work k1 e) ∈ concat inss) as Hin.
  { rewrite <- (tk_pending _ _ _ _ Ht). apply list_elem_of_fmap. exists e. split; [done|]. by apply list_elem_of_filter. }
  apply list_elem_of_In, in_concat in Hin as (ins & Hins%list_elem_of_In & Hv%list_elem_of_In).
  pose proof (tk_served _ _ _ _ Ht) as Hf. apply list_elem_of_lookup in Hins as [j Hj].
  destruct (Forall2_lookup_r _ _ _ _ _ Hf Hj) as (en & Hen & a & ops & t & ret & Ha & _ & _ & ->).
  apply list_elem_of_lookup_2 in Hen. apply elem_of_take in Hen as (j' & Hen & _). apply list_elem_of_lookup_2 in Hen.
  assert (entry_addr sq en = a) as Ea by (unfold entry_addr; by rewrite Ha).
  exists en, a. do 3 (split; [done|]). split; [unfold addrs, ring_addrs; rewrite <- Ea; by apply list_elem_of_fmap_2|].
  apply elem_of_app in Hv as [Hv|Hv].
  - apply list_elem_of_fmap in Hv as (op & Hv & _). unfold view in Hv. by rewrite Hi in Hv.
  - apply list_elem_of_singleton in Hv. unfold view in Hv |- *. rewrite Hi in Hv |- *. unfold command_request in Hv.
    injection Hv as -> -> -> -> H1 H2. done.
Qed.

Lemma taken_ready m d1 k1 inss : taken m d1 k1 inss -> pass_ready pfn_valid store_size dma d1 k1.
Proof using All.
  intros Ht. pose proof (tk_rest _ _ _ _ Ht) as Hrest. destruct (tk_sqes _ _ _ _ Ht) as [st Esq]. pose proof Hr as [].
  pose proof (zlookup_Some_range d.(dv_sqes) sqid) as Hsr.
  assert (get_sq d1 sqid = Ok (sq_with_stat st sq)) as Hsq1.
  { pose proof (ro_sq _ _ _ _ _ _ rr_ring0) as Hsq. unfold get_sq, aget in *. rewrite Esq. destruct (dv_sqes d !! sqid) eqn:El; [|done].
    by rewrite zlookup_zinsert_eq by (by eapply zlookup_Some_range). }
  assert (forall c, get_cq d1 c = get_cq d c) as Ecq by (intros c; unfold get_cq; by rewrite (se_cqes _ _ Hrest)).
  assert (forall c x, ring_byte d1 c x <-> ring_byte d c x) as Erb by (intros c x; unfold ring_byte; by rewrite Ecq).
  assert (forall a x, a ∈ addrs -> cmd_reads h a x -> dv_host d1 x = h x) as Hh.
  { intros a x Ha Hx. apply (tk_host _ _ _ _ Ht). intros b Hb Hw. by apply (rr_writes0 b a x). }
  assert (forall a, pending_at d1 k1 a -> a ∈ addrs) as Hpa.
  { intros a (e & He & Hc & Hi & sq' & Hsq' & Ha'). destruct (taken_command _ _ _ _ e Ht He Hc Hi) as (en & b & _ & Hb & _ & Hin & Hv).
    unfold view in Hv. rewrite Hi in Hv. injection Hv as E1 _ E3 _. rewrite E1, Hsq1 in Hsq'. rewrite E3 in Ha'. injection Hsq' as <-.
    change (sq_entry (sq_with_stat st sq) en) with (sq_entry sq en) in Ha'. rewrite Hb in Ha'. by injection Ha' as <-. }
  split.
  - intros e He Hc Hi. destruct (taken_command _ _ _ _ e Ht He Hc Hi) as (en & a & _ & Ha & _ & Hin & Hv).
    unfold view in Hv. rewrite Hi in Hv. injection Hv as E1 E2 E3 _. split; [|rewrite E2; exists cq; by rewrite Ecq].
    exists a. split; [exists (sq_with_stat st sq); by rewrite E1, E3|]. rewrite (se_mapped _ _ Hrest).
    apply (kept_transfer _ _ _ h); [intros x; by apply Hh|by apply rr_data0].
  - intros c q. rewrite Ecq. apply rr_cqs0.
  - intros c c' x Hcc. rewrite !Erb. by apply rr_rings0.
  - intros a b x Ha%Hpa Hb%Hpa. rewrite (kept_reads h), (kept_fills h); [by apply rr_reads0|intros y; by apply Hh..].
  - intros a c x Ha%Hpa. rewrite Erb, (kept_reads h), (kept_fills h); [by apply rr_posts0|intros y; by apply Hh..].
Qed.

(** Each entry of the ring is one command of the requests. *)
Lemma offered_commands m inss : Forall2 (served W sqid sq d) (first_of m (ring_entries sq.(sq_queue_size) new old)) inss ->
  omap (command_of sq.(sq_cqid)) (concat inss) = first_of m offered.
Proof using.
  clear Hr. unfold offered, first_of. rewrite <- fmap_take. induction 1 as [|e ins es inss (a & ops & t & ret & Ha & _ & _ & ->) _ IH]; [done|].
  cbn. rewrite !omap_app, IH. assert (omap (command_of (sq_cqid sq)) (internal_request <$> ops) = []) as -> by (clear; induction ops; done).
  cbn. rewrite Z.eqb_refl. cbn. unfold entry_addr. by rewrite Ha.
Qed.
Lemma offered_length m : 0 <= m <= n -> zlen (first_of m offered) = m.
Proof using Hr.
  intros Hm. unfold first_of, offered, ring_entries, zlen. rewrite length_take, !length_fmap. fold n. pose proof (ro_size _ _ _ _ _ _ (rr_ring Hr)).
  pose proof (zlen_zrange 0 n ltac:(lia)) as Hz. unfold zlen in Hz. lia.
Qed.

(** What the host reads of a completion, in the widths of its fields. *)
Definition answer (c : nvme_completion) : Z * Z * Z := (c.(cqe_command_id), c.(cqe_sq_id), c.(cqe_sq_head)).
Definition narrowed (t : Z * Z * Z) : Z * Z * Z := (u16 t.1.1, u16 t.1.2, u16 t.2).

Lemma completions_answers size ws pos phase : answer <$> completions size pos phase ws = (fun w => narrowed (told w)) <$> ws.
Proof using.
  clear. revert pos phase. induction ws as [|w ws IH]; intros pos phase; [done|]. cbn. f_equal. destruct (_ =? _); apply IH.
Qed.

(** The pass of the worker over what the dispatcher took. *)
Lemma pass_completes m d1 k1 inss : taken m d1 k1 inss -> Sorted Z.le (k1.(wk_latest_nsecs) :: pass_clocks pfn_valid store_size dma i d1) ->
  Forall (fun r => exists c, head (pass_clocks pfn_valid store_size dma i d1) = Some c /\ rq_target r <= c) (pending k1) ->
  okp (nvmev_io_worker pfn_valid store_size dma i d1) (fun d2 =>
    answer <$> host_scan (S (Z.to_nat m)) cq (dv_host d2) cq.(cq_head) cq.(cq_phase) ≡ₚ narrowed <$> first_of m offered /\
    (forall k2, d2.(dv_workers) !! i = Some k2 -> pending k2 = []) /\ device_ok W d2 /\
    (0 < m -> cq.(cq_irq_enabled) = true -> 1 <= sq.(sq_cqid) <= d.(dv_nr_cq) -> worker_of d sq.(sq_cqid) = i ->
     exists l, d2.(dv_irqs) = d.(dv_irqs) ++ l /\ cq.(cq_irq_vector) ∈ l)).
Proof using All.
  intros Ht Hs Hdue. pose proof (tk_rest _ _ _ _ Ht) as Hrest. pose proof (tk_worker _ _ _ _ Ht) as Hk1. pose proof Hr as [].
  destruct (okp_inv _ _ (pass_returns W pfn_valid store_size dma HKV i d1 k1 (tk_device _ _ _ _ Ht) Hk1 (taken_ready _ _ _ _ Ht)
    ltac:(rewrite (se_nr_cq _ _ Hrest), (se_cqes _ _ Hrest); done) Hs)) as (d2 & E & k2 & irqs & [P1 P2 P3 P4 _ _ P6 P7 P8]).
  rewrite E. cbn [okp]. assert (forall e, e ∈ io_list k1 -> completed k2 e = true) as Hall.
  { intros e He. destruct (P4 e He) as [H|(_ & Hc & Hlt)]; [done|]. rewrite Forall_forall in Hdue.
    destruct (Hdue (view (work k1 e))) as (c & Hc1 & Hc2); [apply list_elem_of_fmap; exists e; split; [done|]; by apply list_elem_of_filter|].
    specialize (Hlt c Hc1). assert (rq_target (view (work k1 e)) = tgt k1 e) as Et by (unfold view, tgt; by destruct (iw_is_internal _)). lia. }
  assert (get_cq d1 sq.(sq_cqid) = Ok cq) as Hcq1 by (unfold get_cq; by rewrite (se_cqes _ _ Hrest)).
  destruct (P8 _ _ Hcq1) as (cq1 & cq' & P & _ & _ & Hirq). set (ws := posted_to k1 k2 (sq_cqid sq) (io_list k1)) in *.
  pose proof (tk_range _ _ _ _ Ht) as Hm. assert (told <$> ws ≡ₚ first_of m offered) as Htold.
  { unfold ws. rewrite posted_commands, <- pending_commands by done. rewrite (tk_pending _ _ _ _ Ht). by rewrite (offered_commands m) by apply (tk_served _ _ _ _ Ht). }
  assert (zlen ws = m) as Hlen by (rewrite <- (offered_length m Hm); unfold zlen; f_equal; rewrite <- Htold; by rewrite length_fmap).
  assert (phases cq (dv_host d1)) as Hph.
  { eapply phases_same; [exact rr_phases0|]. apply (ring_kept d sq.(sq_cqid) cq); [done..|]. intros x Hx. apply (tk_host _ _ _ _ Ht).
    intros a Ha Hw. by apply (rr_writes_ring0 a (sq_cqid sq) x). }
  split; [|split; [|split; [done|]]].
  - destruct (posts_scan _ _ _ _ _ P (rr_cqs0 _ _ rr_cq0) Hph ltac:(lia)) as [_ _ _ _ _ _ Hsc].
    assert (Z.to_nat m = length ws) as -> by (unfold zlen in Hlen; lia). rewrite Hsc, completions_answers.
    rewrite <- Htold, <- list_fmap_compose. done.
  - intros k3 Hk3. rewrite P2, zlookup_zinsert_eq in Hk3 by (by eapply zlookup_Some_range). injection Hk3 as <-. unfold pending. rewrite P3.
    clear -Hall. induction (io_list k1) as [|e l IH]; [done|]. rewrite filter_cons. rewrite decide_False by (rewrite Hall by set_solver; done).
    apply IH. intros e' He'. apply Hall. set_solver.
  - intros Hn Hen Hc1 Hw1. exists irqs. rewrite P7, (se_irqs _ _ Hrest). split; [done|]. apply Hirq; [by rewrite (se_nr_cq _ _ Hrest)| |done|].
    + rewrite (worker_of_same _ _ _ Hrest). exact Hw1.
    + intros Ew. rewrite Ew in Hlen. unfold zlen in Hlen. simpl in Hlen. lia.
Qed.
End complete.
