(* ===== verification/Vdev.v ===== *)
(** * The device and its build (nvmev.h, ssd_config.h)

    The rest of [struct nvmev_dev]: the admin queue, the controller registers, the
    doorbells, beside the queues and namespaces of Io.v; and what a build fixes of
    its namespaces. *)

From stdpp Require Import prelude list.
From Stdlib Require Import ZArith Lia.
From S2P Require Import Prelude Mem SsdConfig ConvFtl ZnsFtl IoUnits KvFtl IoCopy Io IoBackends.

(** ** The build *)

Definition SSD_TYPE_NVM : Z := 0.
Definition SSD_TYPE_CONV : Z := 1.
Definition SSD_TYPE_ZNS : Z := 2.
Definition SSD_TYPE_KV : Z := 3.

(** The two types and capacities that a build names, of which it uses
    [NR_NAMESPACES]; [BUILD_LBA_BITS] is [LBA_BITS]. *)
Class Build := {
  NR_NAMESPACES : Z;
  NS_SSD_TYPE_0 : Z; NS_SSD_TYPE_1 : Z;
  NS_CAPACITY_0 : Z; NS_CAPACITY_1 : Z;
  BUILD_MDTS : Z;
  BUILD_LBA_BITS : Z
}.

Definition intel_optane : Build := {| NR_NAMESPACES := 1; NS_SSD_TYPE_0 := SSD_TYPE_NVM; NS_SSD_TYPE_1 := SSD_TYPE_NVM;
  NS_CAPACITY_0 := 0; NS_CAPACITY_1 := 0; BUILD_MDTS := 5; BUILD_LBA_BITS := 9 |}.
Definition kv_prototype : Build := {| NR_NAMESPACES := 1; NS_SSD_TYPE_0 := SSD_TYPE_KV; NS_SSD_TYPE_1 := SSD_TYPE_KV;
  NS_CAPACITY_0 := 0; NS_CAPACITY_1 := 0; BUILD_MDTS := 5; BUILD_LBA_BITS := 9 |}.
Definition samsung_970pro_build : Build := {| NR_NAMESPACES := 1; NS_SSD_TYPE_0 := SSD_TYPE_CONV; NS_SSD_TYPE_1 := SSD_TYPE_CONV;
  NS_CAPACITY_0 := 0; NS_CAPACITY_1 := 0; BUILD_MDTS := 6; BUILD_LBA_BITS := 9 |}.
Definition zns_prototype_build : Build := {| NR_NAMESPACES := 1; NS_SSD_TYPE_0 := SSD_TYPE_ZNS; NS_SSD_TYPE_1 := SSD_TYPE_ZNS;
  NS_CAPACITY_0 := 0; NS_CAPACITY_1 := 0; BUILD_MDTS := 6; BUILD_LBA_BITS := 9 |}.

Definition wd_zn540_build : Build := {| NR_NAMESPACES := 1; NS_SSD_TYPE_0 := SSD_TYPE_ZNS; NS_SSD_TYPE_1 := SSD_TYPE_ZNS;
  NS_CAPACITY_0 := 0; NS_CAPACITY_1 := 0; BUILD_MDTS := 6; BUILD_LBA_BITS := 9 |}.

Definition ns_ssd_type `{Build} : list Z := [NS_SSD_TYPE_0; NS_SSD_TYPE_1].
Definition ns_capacity `{Build} : list Z := [NS_CAPACITY_0; NS_CAPACITY_1].
Definition NS_SSD_TYPE `{Build} (ns : Z) : res Z := aget ns_ssd_type ns.
Definition NS_CAPACITY `{Build} (ns : Z) : res Z := aget ns_capacity ns.
Definition SUPPORTED_SSD_TYPE `{Build} (t : Z) : bool := (NS_SSD_TYPE_0 =? t) || (NS_SSD_TYPE_1 =? t).

Definition NR_MAX_IO_QUEUE : Z := 72.

(** ** The fields of a namespace that the admin commands read *)

(** [ns_zp] is [&((struct zns_ftl * )ns->ftls)->zp], of a zoned namespace. *)
Class NsFields (BK : Backend) := {
  ns_csi : bk_ns -> Z;
  ns_size : bk_ns -> Z;
  ns_zp : bk_ns -> option znsparams
}.

#[export] Instance conv_fields `{SC : SsdConfig, CC : ChannelModel.ChanConfig, CK : Ssd.Clock} : NsFields conv_backend :=
  Build_NsFields conv_backend cn_csi cn_size (fun _ => None).
Definition simple_fields `{CK : Ssd.Clock} cf : NsFields (simple_backend cf) :=
  Build_NsFields (simple_backend cf) Simple.sn_csi Simple.sn_size (fun _ => None).
Definition kv_fields `{CK : Ssd.Clock} cf fnz garbage : NsFields (kv_backend cf fnz garbage) :=
  Build_NsFields (kv_backend cf fnz garbage) kn_csi kn_size (fun _ => None).

(** ** The state *)

(** [nvme_sq] and [nvme_cq] are the addresses of the pages, [None] for [NULL]. *)
Record nvmev_admin_queue := AdminQueue {
  aq_phase : Z; aq_sq_depth : Z; aq_cq_depth : Z; aq_cq_head : Z;
  aq_sq : option (list Z); aq_cq : option (list Z)
}.

(** The controller registers that the code reads or writes, as the words of the
    unions of [struct nvme_ctrl_regs], which [struct __nvme_bar] names too. *)
Record nvme_ctrl_regs := CtrlRegs {
  u_cap : Z; u_vs : Z; u_cc : Z; u_csts : Z; u_aqa : Z; u_asq : Z; u_acq : Z
}.

Definition cc_en (cc : Z) : Z := Z.land cc 1.
Definition cc_shn (cc : Z) : Z := Z.land (Z.shiftr cc 14) 3.
Definition aqa_asqs (aqa : Z) : Z := Z.land aqa 4095.
Definition aqa_acqs (aqa : Z) : Z := Z.land (Z.shiftr aqa 16) 4095.
Definition set_rdy (rdy csts : Z) : Z := Z.lor (Z.ldiff csts 1) rdy.
Definition set_shst (shst csts : Z) : Z := Z.lor (Z.ldiff csts 12) (Z.shiftl shst 2).

(** [dbs] is the page of doorbells that the host writes. *)
Record vdev `{BK : Backend} := Vdev {
  vd_io : io_dev; vd_nr_sq : Z; vd_admin_q : option nvmev_admin_queue;
  vd_dbs : list Z; vd_old_dbs : list Z;
  vd_bar : nvme_ctrl_regs; vd_old_bar : nvme_ctrl_regs; vd_mdts : Z
}.

Section vdev.
Context `{BK : Backend}.

Definition vd_with_io (d : io_dev) (v : vdev) : vdev :=
  Vdev _ d v.(vd_nr_sq) v.(vd_admin_q) v.(vd_dbs) v.(vd_old_dbs) v.(vd_bar) v.(vd_old_bar) v.(vd_mdts).
Definition vd_with_nr (nr_sq nr_cq : Z) (v : vdev) : vdev :=
  let d := v.(vd_io) in
  Vdev _ (IoDev _ d.(dv_workers) d.(dv_io_worker_turn) d.(dv_threads) d.(dv_sqes) d.(dv_cqes) nr_cq d.(dv_ns) d.(dv_mapped)
            d.(dv_world) d.(dv_mem) d.(dv_irqs))
    nr_sq v.(vd_admin_q) v.(vd_dbs) v.(vd_old_dbs) v.(vd_bar) v.(vd_old_bar) v.(vd_mdts).
Definition vd_with_admin_q (q : option nvmev_admin_queue) (v : vdev) : vdev :=
  Vdev _ v.(vd_io) v.(vd_nr_sq) q v.(vd_dbs) v.(vd_old_dbs) v.(vd_bar) v.(vd_old_bar) v.(vd_mdts).
Definition vd_with_dbs (dbs old_dbs : list Z) (v : vdev) : vdev :=
  Vdev _ v.(vd_io) v.(vd_nr_sq) v.(vd_admin_q) dbs old_dbs v.(vd_bar) v.(vd_old_bar) v.(vd_mdts).
Definition vd_with_bars (bar old_bar : nvme_ctrl_regs) (v : vdev) : vdev :=
  Vdev _ v.(vd_io) v.(vd_nr_sq) v.(vd_admin_q) v.(vd_dbs) v.(vd_old_dbs) bar old_bar v.(vd_mdts).

Definition vd_host (v : vdev) : mem := dv_host v.(vd_io).
Definition vd_with_host (h : mem) (v : vdev) : vdev := vd_with_io (dv_with_host h v.(vd_io)) v.

(** [nvmev_vdev->dbs[i] = nvmev_vdev->old_dbs[i] = x]. *)
Definition set_dbs (i x : Z) (v : vdev) : res vdev :=
  dbs ← aset v.(vd_dbs) i x; old ← aset v.(vd_old_dbs) i x; Ok (vd_with_dbs dbs old v).

Definition get_admin_q (v : vdev) : res nvmev_admin_queue := of_opt NullDeref v.(vd_admin_q).
End vdev.
