(* ===== verification/Admin.v ===== *)
(** * Admin commands (admin.c)

    The dispatcher carries out the commands of the admin queue one after the other:
    it creates and deletes the I/O queues, answers the identify and log page
    commands in the host's memory, and posts a completion for each. *)

From stdpp Require Import prelude list.
From Stdlib Require Import ZArith Lia.
From S2P Require Import Prelude Mem Prp SsdConfig ConvFtl ZnsFtl ZnsMgmt ZnsRw NvmeCmd IoCopy Io Vdev.

(** ** Constants and fields (nvme.h, nvme_zns.h) *)

Definition nvme_admin_delete_sq : Z := 0.
Definition nvme_admin_create_sq : Z := 1.
Definition nvme_admin_get_log_page : Z := 2.
Definition nvme_admin_delete_cq : Z := 4.
Definition nvme_admin_create_cq : Z := 5.
Definition nvme_admin_identify : Z := 6.
Definition nvme_admin_abort_cmd : Z := 8.
Definition nvme_admin_set_features : Z := 9.
Definition nvme_admin_get_features : Z := 10.
Definition nvme_admin_async_event : Z := 12.

Definition NVME_SC_INVALID_OPCODE : Z := 1.
Definition NVME_CQ_IRQ_ENABLED : Z := 2.
Definition NVME_FEAT_NUM_QUEUES : Z := 7.
Definition NVME_LOG_SMART : Z := 2.
Definition NVME_LOG_CMD_EFFECTS : Z := 5.
Definition NVME_CMD_EFFECTS_CSUPP : Z := 1.
Definition NVME_CMD_EFFECTS_LBCC : Z := 2.
Definition NVME_LBAF_RP_BEST : Z := 0.
Definition NVME_LBAF_RP_GOOD : Z := 2.
Definition NVME_NIDT_CSI : Z := 4.
Definition OZCS_ZRWA : Z := 2.
Definition ZRWACAP_EXPFLUSHSUP : Z := 1.

(** The fields of the commands at an address. *)
Definition id_cns (h : mem) (a : Z) : Z := get_le h (a + 40) 4.
Definition ft_fid (h : mem) (a : Z) : Z := get_le h (a + 40) 4.
Definition ft_dword11 (h : mem) (a : Z) : Z := get_le h (a + 44) 4.
(** [cqid] of [struct nvme_create_cq], [sqid] of [struct nvme_create_sq], and [qid]
    of [struct nvme_delete_queue]. *)
Definition q_id (h : mem) (a : Z) : Z := get_le h (a + 40) 2.
Definition q_size (h : mem) (a : Z) : Z := get_le h (a + 42) 2.
Definition q_flags (h : mem) (a : Z) : Z := get_le h (a + 44) 2.
(** [irq_vector] of [struct nvme_create_cq], [cqid] of [struct nvme_create_sq]. *)
Definition q_last (h : mem) (a : Z) : Z := get_le h (a + 46) 2.
Definition log_lid (h : mem) (a : Z) : Z := get_le h (a + 40) 1.
Definition log_numdl (h : mem) (a : Z) : Z := get_le h (a + 42) 2.
Definition log_numdu (h : mem) (a : Z) : Z := get_le h (a + 44) 2.

(** [n] bytes of [x] at [a]. *)
Definition put_le (n : nat) (a x : Z) (h : mem) : mem := mstore h a (le_encode n x).
Definition put_bytes (a : Z) (bs : list Z) (h : mem) : mem := mstore h a bs.

Section admin.
Context `{BK : Backend} `{BD : Build} `{NF : !NsFields BK}.

(** ** Completions *)

Definition admin_sq_entry (q : nvmev_admin_queue) (i : Z) : res Z :=
  pages ← of_opt NullDeref q.(aq_sq);
  p ← aget pages (i `div` NR_SQE_PER_PAGE); Ok (p + NVME_COMMAND_SIZE * (i `mod` NR_SQE_PER_PAGE)).
Definition admin_cq_entry (q : nvmev_admin_queue) (i : Z) : res Z :=
  pages ← of_opt NullDeref q.(aq_cq);
  p ← aget pages (i `div` NR_CQE_PER_PAGE); Ok (p + NVME_COMPLETION_SIZE * (i `mod` NR_CQE_PER_PAGE)).

Definition admin_advance (q : nvmev_admin_queue) : nvmev_admin_queue :=
  let last := q.(aq_cq_head) + 1 =? q.(aq_cq_depth) in
  AdminQueue (if last then (if q.(aq_phase) =? 0 then 1 else 0) else q.(aq_phase)) q.(aq_sq_depth) q.(aq_cq_depth)
    (if last then 0 else q.(aq_cq_head) + 1) q.(aq_sq) q.(aq_cq).

Definition __make_cq_entry_results (eid ret result0 result1 : Z) (v : vdev) : res vdev :=
  q ← get_admin_q v;
  cmd ← admin_sq_entry q eid;
  a ← admin_cq_entry q q.(aq_cq_head);
  let h := vd_host v in
  let c := NvmeCompletion result0 result1 eid 0 (cmd_command_id h cmd) (Z.lor q.(aq_phase) (Z.shiftl ret 1)) in
  Ok (vd_with_admin_q (Some (admin_advance q)) (vd_with_host (put_cqe a c h) v)).

Definition __make_cq_entry (eid ret : Z) (v : vdev) : res vdev := __make_cq_entry_results eid ret 0 0 v.

(** The address of the command in the entry [eid]. *)
Definition admin_cmd (eid : Z) (v : vdev) : res Z := q ← get_admin_q v; admin_sq_entry q eid.

(** ** Queues *)

(** The pages of a queue of [size] entries of [width] bytes.  Both mappings give the
    pages that follow each other from [prp1]. *)
Definition queue_pages (prp1 size width : Z) : list Z :=
  (fun i => prp1 + i * PAGE_SIZE) <$> zrange 0 (DIV_ROUND_UP (size * width) PAGE_SIZE).

Definition __nvmev_admin_create_cq (eid : Z) (v : vdev) : res vdev :=
  cmd ← admin_cmd eid v;
  let h := vd_host v in
  let qid := q_id h cmd in
  let irq_enabled := negb (Z.land (q_flags h cmd) NVME_CQ_IRQ_ENABLED =? 0) in
  let size := q_size h cmd + 1 in
  let cq := CompletionQueue (if irq_enabled then q_last h cmd else 0) irq_enabled false size 1 0 (-1)
              (queue_pages (cmd_prp1 h cmd) size NVME_COMPLETION_SIZE) in
  let d := v.(vd_io) in
  l ← aset d.(dv_cqes) qid (Some cq);
  v ← set_dbs (qid * 2 + 1) 0 (vd_with_io (dv_with_cqes l d) v);
  __make_cq_entry eid NVME_SC_SUCCESS v.

Definition __nvmev_admin_delete_cq (eid : Z) (v : vdev) : res vdev :=
  cmd ← admin_cmd eid v;
  let d := v.(vd_io) in
  l ← aset d.(dv_cqes) (q_id (vd_host v) cmd) None;
  __make_cq_entry eid NVME_SC_SUCCESS (vd_with_io (dv_with_cqes l d) v).

Definition __nvmev_admin_create_sq (eid : Z) (v : vdev) : res vdev :=
  cmd ← admin_cmd eid v;
  let h := vd_host v in
  let qid := q_id h cmd in
  let size := q_size h cmd + 1 in
  let sq := SubmissionQueue (q_last h cmd) size (SqStat 0 0 0 0 0) (queue_pages (cmd_prp1 h cmd) size NVME_COMMAND_SIZE) in
  let d := v.(vd_io) in
  l ← aset d.(dv_sqes) qid (Some sq);
  v ← set_dbs (qid * 2) 0 (vd_with_io (dv_with_sqes l d) v);
  __make_cq_entry eid NVME_SC_SUCCESS v.

Definition __nvmev_admin_delete_sq (eid : Z) (v : vdev) : res vdev :=
  cmd ← admin_cmd eid v;
  let d := v.(vd_io) in
  l ← aset d.(dv_sqes) (q_id (vd_host v) cmd) None;
  __make_cq_entry eid NVME_SC_SUCCESS (vd_with_io (dv_with_sqes l d) v).

(** ** Log pages *)

(** [smart_log]: 512 bytes, of which [spare_thresh] is 20. *)
Definition smart_log : list Z := zrepeat 4 0 ++ [20] ++ zrepeat 507 0.

(** [effects_log]: a word for each admin and each I/O opcode. *)
Definition effects_acs (op : Z) : Z :=
  if existsb (Z.eqb op) [nvme_admin_get_log_page; nvme_admin_identify; nvme_admin_set_features; nvme_admin_get_features;
                         nvme_admin_async_event] then NVME_CMD_EFFECTS_CSUPP else 0.
Definition effects_iocs (op : Z) : Z :=
  if negb (SUPPORTED_SSD_TYPE SSD_TYPE_ZNS) then 0
  else if (op =? nvme_cmd_zone_append) || (op =? nvme_cmd_zone_mgmt_recv) then NVME_CMD_EFFECTS_CSUPP
  else if op =? nvme_cmd_zone_mgmt_send then Z.lor NVME_CMD_EFFECTS_CSUPP NVME_CMD_EFFECTS_LBCC else 0.
Definition effects_log : list Z :=
  (zrange 0 256 ≫= fun op => le_encode 4 (effects_acs op)) ++ (zrange 0 256 ≫= fun op => le_encode 4 (effects_iocs op)) ++
  zrepeat 2048 0.

(** [__memcpy(page, &log, len)] of a log that has [zlen log] bytes. *)
Definition copy_log (log : list Z) (page len : Z) (h : mem) : res mem :=
  if len <=? zlen log then Ok (mstore h page (take (Z.to_nat len) log)) else Fault OutOfBounds.

Definition log_len (h : mem) (cmd : Z) : Z :=
  u32 (Z.shiftl (u32 (Z.lor (u32 (Z.shiftl (log_numdu h cmd) 16)) (log_numdl h cmd) + 1)) 2).

Definition __nvmev_admin_get_log_page (eid : Z) (v : vdev) : res vdev :=
  cmd ← admin_cmd eid v;
  let h := vd_host v in
  let page := cmd_prp1 h cmd in
  let len := log_len h cmd in
  h ← (if log_lid h cmd =? NVME_LOG_SMART then copy_log smart_log page len h
       else if log_lid h cmd =? NVME_LOG_CMD_EFFECTS then copy_log effects_log page len h
       else Ok (put_bytes page (zrepeat len 0) h));
  __make_cq_entry eid NVME_SC_SUCCESS (vd_with_host h v).

(** ** Identify *)

(** [ns->lbaf[i] = { ms, ds, rp }]. *)
Definition put_lbaf (ns i ms ds rp : Z) (h : mem) : mem :=
  let a := ns + 128 + 4 * i in put_le 1 (a + 3) rp (put_le 1 (a + 2) ds (put_le 2 a ms h)).

Definition id_ns_formats (ns : Z) (h : mem) : mem :=
  let h := put_bytes ns (zrepeat PAGE_SIZE 0) h in
  let h := put_lbaf ns 0 0 9 NVME_LBAF_RP_GOOD h in
  let h := put_lbaf ns 1 8 9 NVME_LBAF_RP_GOOD h in
  let h := put_lbaf ns 2 16 9 NVME_LBAF_RP_GOOD h in
  let h := put_lbaf ns 3 0 12 NVME_LBAF_RP_BEST h in
  let h := put_lbaf ns 4 8 12 NVME_LBAF_RP_BEST h in
  let h := put_lbaf ns 5 64 12 NVME_LBAF_RP_BEST h in
  put_lbaf ns 6 128 12 NVME_LBAF_RP_BEST h.

Definition __nvmev_admin_identify_namespace (eid : Z) (v : vdev) : res vdev :=
  cmd ← admin_cmd eid v;
  let nsid := u32 (cmd_nsid (vd_host v) cmd - 1) in
  let ns := cmd_prp1 (vd_host v) cmd in
  let h := id_ns_formats ns (vd_host v) in
  flbas ← (if BUILD_LBA_BITS =? 9 then Ok 0 else if BUILD_LBA_BITS =? 12 then Ok 3 else Fault BugOn);
  let h := put_le 1 (ns + 26) flbas h in
  let h := put_le 1 (ns + 25) 6 h in
  let h := put_le 1 (ns + 29) 0 h in
  n ← aget v.(vd_io).(dv_ns) nsid;
  let nsze := Z.shiftr (ns_size n) (get_le h (ns + 128 + 4 * get_le h (ns + 26) 1 + 2) 1) in
  let h := put_le 8 ns nsze h in
  let h := put_le 8 (ns + 8) (get_le h ns 8) h in
  let h := put_le 8 (ns + 16) (get_le h ns 8) h in
  __make_cq_entry eid NVME_SC_SUCCESS (vd_with_host h v).

(** The identifiers above the one that is given, from the pointer [p]. *)
Definition list_ns_step (nsid : Z) (i : Z) (s : Z * mem) : res (Z * mem) :=
  let '(p, h) := s in
  if nsid <? i then Ok (p + 4, put_le 4 p i h) else Ok s.

Definition __nvmev_admin_identify_namespaces (eid : Z) (v : vdev) : res vdev :=
  cmd ← admin_cmd eid v;
  let nsid := cmd_nsid (vd_host v) cmd in
  let ns := cmd_prp1 (vd_host v) cmd in
  let h := put_bytes ns (zrepeat (PAGE_SIZE * 2) 0) (vd_host v) in
  '(_, h) ← rfold (list_ns_step nsid) (zrange 1 (zlen v.(vd_io).(dv_ns) + 1)) (ns, h);
  __make_cq_entry eid NVME_SC_SUCCESS (vd_with_host h v).

Definition __nvmev_admin_identify_namespace_desc (eid : Z) (v : vdev) : res vdev :=
  cmd ← admin_cmd eid v;
  let nsid := s32 (cmd_nsid (vd_host v) cmd - 1) in
  let desc := cmd_prp1 (vd_host v) cmd in
  let h := put_bytes desc (zrepeat 4096 0) (vd_host v) in
  let h := put_le 1 desc NVME_NIDT_CSI h in
  let h := put_le 1 (desc + 1) 1 h in
  n ← aget v.(vd_io).(dv_ns) nsid;
  let h := put_le 1 (desc + 4) (ns_csi n) h in
  __make_cq_entry eid NVME_SC_SUCCESS (vd_with_host h v).

(** What is written of a zoned namespace, whose parameters are [zp]. *)
Definition id_zns_ns (ns : Z) (zp : znsparams) (h : mem) : mem :=
  let h := put_bytes ns (zrepeat 4096 0) h in
  let h := put_le 4 (ns + 8) (zp.(nr_open_zones) - 1) (put_le 4 (ns + 4) (zp.(nr_active_zones) - 1) h) in
  let h := if 0 <? zp.(nr_zrwa_zones)
           then put_le 1 (ns + 52) ZRWACAP_EXPFLUSHSUP
                 (put_le 2 (ns + 50) zp.(zrwa_size)
                   (put_le 2 (ns + 48) zp.(zrwafg_size)
                     (put_le 4 (ns + 44) (zp.(nr_zrwa_zones) - 1) (put_le 2 (ns + 2) OZCS_ZRWA h))))
           else h in
  put_le 1 (ns + 2824) 0 (put_le 8 (ns + 2816) (Z.shiftr zp.(zone_size) BUILD_LBA_BITS) h).

Definition __nvmev_admin_identify_zns_namespace (eid : Z) (v : vdev) : res vdev :=
  cmd ← admin_cmd eid v;
  let nsid := s32 (cmd_nsid (vd_host v) cmd - 1) in
  n ← aget v.(vd_io).(dv_ns) nsid;
  t ← NS_SSD_TYPE nsid;
  if negb (t =? SSD_TYPE_ZNS) then __make_cq_entry eid NVME_SC_SUCCESS v else
  if negb (ns_csi n =? NVME_CSI_ZNS) then Fault BugOn else
  zp ← of_opt NullDeref (ns_zp n);
  let h := id_zns_ns (cmd_prp1 (vd_host v) cmd) zp (vd_host v) in
  __make_cq_entry eid NVME_SC_SUCCESS (vd_with_host h v).

Definition __nvmev_admin_identify_zns_ctrl (eid : Z) (v : vdev) : res vdev :=
  cmd ← admin_cmd eid v;
  __make_cq_entry eid NVME_SC_SUCCESS (vd_with_host (put_le 1 (cmd_prp1 (vd_host v) cmd) 0 (vd_host v)) v).

(** The strings "CSL_Virt_SN_01", "CSL_Virt_MN_01" and "CSL_002", each with the zero
    that [snprintf] writes after it. *)
Definition ctrl_sn : list Z := [67; 83; 76; 95; 86; 105; 114; 116; 95; 83; 78; 95; 48; 49; 0].
Definition ctrl_mn : list Z := [67; 83; 76; 95; 86; 105; 114; 116; 95; 77; 78; 95; 48; 49; 0].
Definition ctrl_fr : list Z := [67; 83; 76; 95; 48; 48; 50; 0].

Definition __nvmev_admin_identify_ctrl (eid : Z) (v : vdev) : res vdev :=
  cmd ← admin_cmd eid v;
  let ctrl := cmd_prp1 (vd_host v) cmd in
  let h := put_bytes ctrl (zrepeat 4096 0) (vd_host v) in
  let h := put_le 4 (ctrl + 516) (zlen v.(vd_io).(dv_ns)) h in
  let h := put_le 2 (ctrl + 520) 0 h in
  let h := put_le 1 (ctrl + 258) 3 h in
  let h := put_le 1 (ctrl + 525) 0 h in
  let h := put_bytes (ctrl + 4) ctrl_sn h in
  let h := put_bytes (ctrl + 24) ctrl_mn h in
  let h := put_bytes (ctrl + 64) ctrl_fr h in
  let h := put_le 1 (ctrl + 77) v.(vd_mdts) h in
  let h := put_le 1 (ctrl + 512) 102 h in
  let h := put_le 1 (ctrl + 513) 68 h in
  __make_cq_entry eid NVME_SC_SUCCESS (vd_with_host h v).

Definition __nvmev_admin_identify (eid : Z) (v : vdev) : res vdev :=
  cmd ← admin_cmd eid v;
  let cns := id_cns (vd_host v) cmd in
  if cns =? 0 then __nvmev_admin_identify_namespace eid v
  else if cns =? 1 then __nvmev_admin_identify_ctrl eid v
  else if cns =? 2 then __nvmev_admin_identify_namespaces eid v
  else if cns =? 3 then __nvmev_admin_identify_namespace_desc eid v
  else if cns =? 5 then __nvmev_admin_identify_zns_namespace eid v
  else if cns =? 6 then __nvmev_admin_identify_zns_ctrl eid v
  else __make_cq_entry eid NVME_SC_INVALID_OPCODE v.

(** ** Features *)

(** [(nr_cq - 1) << 16 | (nr_sq - 1)] in 32 bits. *)
Definition num_queues (v : vdev) : Z :=
  Z.lor (u32 (Z.shiftl (u32 (v.(vd_io).(dv_nr_cq) - 1)) 16)) (u32 (v.(vd_nr_sq) - 1)).

Definition __nvmev_admin_set_features (eid : Z) (v : vdev) : res vdev :=
  cmd ← admin_cmd eid v;
  let h := vd_host v in
  if ft_fid h cmd =? NVME_FEAT_NUM_QUEUES then
    let nr_sq := Z.min (Z.land (ft_dword11 h cmd) 65535 + 1) NR_MAX_IO_QUEUE in
    let nr_cq := Z.min (Z.land (Z.shiftr (ft_dword11 h cmd) 16) 65535 + 1) NR_MAX_IO_QUEUE in
    let v := vd_with_nr nr_sq nr_cq v in
    __make_cq_entry_results eid NVME_SC_SUCCESS (num_queues v) 0 v
  else __make_cq_entry_results eid NVME_SC_SUCCESS 0 0 v.

Definition __nvmev_admin_get_features (eid : Z) (v : vdev) : res vdev :=
  cmd ← admin_cmd eid v;
  if ft_fid (vd_host v) cmd =? NVME_FEAT_NUM_QUEUES
  then __make_cq_entry_results eid NVME_SC_SUCCESS (num_queues v) 0 v
  else __make_cq_entry_results eid NVME_SC_SUCCESS 0 0 v.

Definition __nvmev_admin_async_event (eid : Z) (v : vdev) : res vdev := __make_cq_entry eid NVME_SC_SUCCESS v.

(** ** Dispatch *)

Definition __nvmev_proc_admin_req (entry_id : Z) (v : vdev) : res vdev :=
  cmd ← admin_cmd entry_id v;
  let op := cmd_opcode (vd_host v) cmd in
  if op =? nvme_admin_delete_sq then __nvmev_admin_delete_sq entry_id v
  else if op =? nvme_admin_create_sq then __nvmev_admin_create_sq entry_id v
  else if op =? nvme_admin_get_log_page then __nvmev_admin_get_log_page entry_id v
  else if op =? nvme_admin_delete_cq then __nvmev_admin_delete_cq entry_id v
  else if op =? nvme_admin_create_cq then __nvmev_admin_create_cq entry_id v
  else if op =? nvme_admin_identify then __nvmev_admin_identify entry_id v
  else if op =? nvme_admin_abort_cmd then Ok v
  else if op =? nvme_admin_set_features then __nvmev_admin_set_features entry_id v
  else if op =? nvme_admin_get_features then __nvmev_admin_get_features entry_id v
  else if op =? nvme_admin_async_event then __nvmev_admin_async_event entry_id v
  else __make_cq_entry entry_id NVME_SC_INVALID_OPCODE v.

(** [curr] moves along with the device. *)
Definition admin_sq_step (s : Z * vdev) : res (Z * vdev) :=
  let '(curr, v) := s in
  v ← __nvmev_proc_admin_req curr v;
  q ← get_admin_q v;
  Ok (if curr + 1 =? q.(aq_sq_depth) then 0 else curr + 1, v).

Definition admin_irq (v : vdev) : vdev :=
  vd_with_io (dv_with_irqs (v.(vd_io).(dv_irqs) ++ [0]) v.(vd_io)) v.

Definition nvmev_proc_admin_sq (new_db old_db : Z) (v : vdev) : res vdev :=
  q ← get_admin_q v;
  let num_proc := s32 (new_db - old_db) in
  let num_proc := if num_proc <? 0 then s32 (num_proc + q.(aq_sq_depth)) else num_proc in
  '(_, v) ← rfold (fun _ => admin_sq_step) (zrange 0 num_proc) (old_db, v);
  Ok (admin_irq v).

Definition nvmev_proc_admin_cq (new_db old_db : Z) (v : vdev) : vdev := v.
End admin.
