(* ===== verification/AdminInv.v ===== *)
(** * The admin queue against its specification

    An abstract machine over the tables of queues, which an admin command moves and
    which says the answer of each; every handler of Admin.v carries it out, writes
    the host's memory only where the command says, and posts the answer. *)

From stdpp Require Import prelude list gmap.
From Stdlib Require Import ZArith Lia.
From S2P Require Import Prelude Mem Prp SsdConfig ConvFtl ZnsFtl ZnsMgmt ZnsRw NvmeCmd IoQueue IoCopy Io IoRing Vdev Admin.

(** ** The specification *)

Record admin_abs := AdminAbs {
  ab_sqs : gmap Z nvmev_submission_queue; ab_cqs : gmap Z nvmev_completion_queue;
  ab_nr_sq : Z; ab_nr_cq : Z; ab_dbs : list Z; ab_old_dbs : list Z
}.

Inductive admin_op :=
| AdmCreateSq (qid : Z) (sq : nvmev_submission_queue)
| AdmDeleteSq (qid : Z)
| AdmCreateCq (qid : Z) (cq : nvmev_completion_queue)
| AdmDeleteCq (qid : Z)
| AdmSetQueues (nr_sq nr_cq : Z)
| AdmGetQueues
| AdmAbort
| AdmData
| AdmInvalid.

(** The answer to the number of queues: both numbers, less one; before they are set,
    all ones. *)
Definition queues_answer (nr_sq nr_cq : Z) : Z :=
  if nr_sq =? 0 then 4294967295 else (nr_cq - 1) * 65536 + (nr_sq - 1).

Definition reset_db (i : Z) (s : admin_abs) : admin_abs :=
  AdminAbs s.(ab_sqs) s.(ab_cqs) s.(ab_nr_sq) s.(ab_nr_cq) (<[i := 0]> s.(ab_dbs)) (<[i := 0]> s.(ab_old_dbs)).

(** The next tables, and the status and result of the completion, if there is one. *)
Definition admin_spec (op : admin_op) (s : admin_abs) : admin_abs * option (Z * Z) :=
  match op with
  | AdmCreateSq qid sq =>
      (reset_db (qid * 2) (AdminAbs (<[qid := sq]> s.(ab_sqs)) s.(ab_cqs) s.(ab_nr_sq) s.(ab_nr_cq) s.(ab_dbs) s.(ab_old_dbs)),
       Some (NVME_SC_SUCCESS, 0))
  | AdmDeleteSq qid =>
      (AdminAbs (delete qid s.(ab_sqs)) s.(ab_cqs) s.(ab_nr_sq) s.(ab_nr_cq) s.(ab_dbs) s.(ab_old_dbs), Some (NVME_SC_SUCCESS, 0))
  | AdmCreateCq qid cq =>
      (reset_db (qid * 2 + 1) (AdminAbs s.(ab_sqs) (<[qid := cq]> s.(ab_cqs)) s.(ab_nr_sq) s.(ab_nr_cq) s.(ab_dbs) s.(ab_old_dbs)),
       Some (NVME_SC_SUCCESS, 0))
  | AdmDeleteCq qid =>
      (AdminAbs s.(ab_sqs) (delete qid s.(ab_cqs)) s.(ab_nr_sq) s.(ab_nr_cq) s.(ab_dbs) s.(ab_old_dbs), Some (NVME_SC_SUCCESS, 0))
  | AdmSetQueues nr_sq nr_cq =>
      (AdminAbs s.(ab_sqs) s.(ab_cqs) nr_sq nr_cq s.(ab_dbs) s.(ab_old_dbs), Some (NVME_SC_SUCCESS, queues_answer nr_sq nr_cq))
  | AdmGetQueues => (s, Some (NVME_SC_SUCCESS, queues_answer s.(ab_nr_sq) s.(ab_nr_cq)))
  | AdmAbort => (s, None)
  | AdmData => (s, Some (NVME_SC_SUCCESS, 0))
  | AdmInvalid => (s, Some (NVME_SC_INVALID_OPCODE, 0))
  end.

Lemma lor_shifted x y n : 0 <= n -> 0 <= y < 2 ^ n -> Z.lor (x * 2 ^ n) y = x * 2 ^ n + y.
Proof.
  intros Hn Hy. rewrite <- Z.add_lor_land. assert (Z.land (x * 2 ^ n) y = 0) as ->; [|lia].
  apply Z.bits_inj'. intros k Hk. rewrite Z.land_spec, Z.bits_0, <- Z.shiftl_mul_pow2 by done.
  destruct (Z.lt_ge_cases k n).
  - by rewrite Z.shiftl_spec_low by done.
  - rewrite <- (Z.mod_small y (2 ^ n)), Z.mod_pow2_bits_high by lia. apply andb_false_r.
Qed.

(** The queues that a command describes. *)
Definition described_cq (h : mem) (a : Z) : nvmev_completion_queue :=
  let irq := negb (Z.land (q_flags h a) 2 =? 0) in
  CompletionQueue (if irq then q_last h a else 0) irq false (q_size h a + 1) 1 0 (-1) (queue_pages (cmd_prp1 h a) (q_size h a + 1) 16).
Definition described_sq (h : mem) (a : Z) : nvmev_submission_queue :=
  SubmissionQueue (q_last h a) (q_size h a + 1) (SqStat 0 0 0 0 0) (queue_pages (cmd_prp1 h a) (q_size h a + 1) 64).

Definition decode_admin (h : mem) (a : Z) : admin_op :=
  let op := cmd_opcode h a in
  if op =? 0 then AdmDeleteSq (q_id h a)
  else if op =? 1 then AdmCreateSq (q_id h a) (described_sq h a)
  else if op =? 2 then AdmData
  else if op =? 4 then AdmDeleteCq (q_id h a)
  else if op =? 5 then AdmCreateCq (q_id h a) (described_cq h a)
  else if op =? 6 then (if existsb (Z.eqb (id_cns h a)) [0; 1; 2; 3; 5; 6] then AdmData else AdmInvalid)
  else if op =? 8 then AdmAbort
  else if op =? 9 then
    (if ft_fid h a =? 7 then AdmSetQueues (Z.min (ft_dword11 h a `mod` 65536 + 1) 72) (Z.min ((ft_dword11 h a `div` 65536) `mod` 65536 + 1) 72)
     else AdmData)
  else if op =? 10 then (if ft_fid h a =? 7 then AdmGetQueues else AdmData)
  else if op =? 12 then AdmData
  else AdmInvalid.

(** The bytes from [prp1] that the command may write. *)
Definition admin_data (h : mem) (a : Z) : Z :=
  let op := cmd_opcode h a in
  if op =? 2 then log_len h a
  else if op =? 6 then (if id_cns h a =? 2 then 8192 else 4096)
  else 0.

Section allowed.
Context `{BK : Backend} `{BD : Build} `{NF : !NsFields BK}.

(** What the code relies on a host for. *)
Definition admin_allowed (nss : list bk_ns) (h : mem) (a : Z) : Prop :=
  let op := cmd_opcode h a in
  zlen nss < 2147483648 /\
  (op = 0 \/ op = 1 \/ op = 4 \/ op = 5 -> 0 <= q_id h a <= NR_MAX_IO_QUEUE /\ 0 <= q_size h a < 65536) /\
  (op = 2 -> (log_lid h a = 2 -> log_len h a <= 512) /\ (log_lid h a = 5 -> log_len h a <= 4096)) /\
  (op = 6 -> id_cns h a = 0 \/ id_cns h a = 3 \/ id_cns h a = 5 -> 0 < cmd_nsid h a <= zlen nss) /\
  (op = 6 -> id_cns h a = 5 -> exists n t, nss !! (cmd_nsid h a - 1) = Some n /\ NS_SSD_TYPE (cmd_nsid h a - 1) = Ok t /\
     (t = SSD_TYPE_ZNS -> ns_csi n = NVME_CSI_ZNS /\ is_Some (ns_zp n))).

(** ** The state against the specification *)

Definition table_rel {A} (l : list (option A)) (m : gmap Z A) : Prop :=
  zlen l = NR_MAX_IO_QUEUE + 1 /\ forall i, 0 <= i < NR_MAX_IO_QUEUE + 1 -> l !! i = Some (m !! i).

Record admin_rel (v : vdev) (s : admin_abs) : Prop := {
  ar_sqs : table_rel v.(vd_io).(dv_sqes) s.(ab_sqs);
  ar_cqs : table_rel v.(vd_io).(dv_cqes) s.(ab_cqs);
  ar_nr_sq : v.(vd_nr_sq) = s.(ab_nr_sq);
  ar_nr_cq : v.(vd_io).(dv_nr_cq) = s.(ab_nr_cq);
  ar_nr : (s.(ab_nr_sq) = 0 /\ s.(ab_nr_cq) = 0) \/ (1 <= s.(ab_nr_sq) <= NR_MAX_IO_QUEUE /\ 1 <= s.(ab_nr_cq) <= NR_MAX_IO_QUEUE);
  ar_dbs : v.(vd_dbs) = s.(ab_dbs) /\ zlen v.(vd_dbs) = 1024;
  ar_old : v.(vd_old_dbs) = s.(ab_old_dbs) /\ zlen v.(vd_old_dbs) = 1024
}.

(** What admin commands leave alone. *)
Record admin_same (v v' : vdev) : Prop := {
  as_bars : v'.(vd_bar) = v.(vd_bar) /\ v'.(vd_old_bar) = v.(vd_old_bar) /\ v'.(vd_mdts) = v.(vd_mdts);
  as_workers : v'.(vd_io).(dv_workers) = v.(vd_io).(dv_workers) /\ v'.(vd_io).(dv_threads) = v.(vd_io).(dv_threads) /\
    v'.(vd_io).(dv_io_worker_turn) = v.(vd_io).(dv_io_worker_turn);
  as_ns : v'.(vd_io).(dv_ns) = v.(vd_io).(dv_ns) /\ v'.(vd_io).(dv_mapped) = v.(vd_io).(dv_mapped) /\
    v'.(vd_io).(dv_world) = v.(vd_io).(dv_world);
  as_store : v'.(vd_io).(dv_mem).(im_store) = v.(vd_io).(dv_mem).(im_store);
  as_irqs : v'.(vd_io).(dv_irqs) = v.(vd_io).(dv_irqs)
}.

Lemma admin_same_refl v : admin_same v v.
Proof. by split. Qed.
Lemma admin_same_trans v1 v2 v3 : admin_same v1 v2 -> admin_same v2 v3 -> admin_same v1 v3.
Proof. intros [A1 A2 A3 A4 A5] [B1 B2 B3 B4 B5]. split; intuition congruence. Qed.

Lemma table_insert {A} (l : list (option A)) m i x : table_rel l m -> table_rel (<[i := Some x]> l) (<[i := x]> m).
Proof.
  intros [H1 H2]. split; [by rewrite zlen_zinsert|]. intros j Hj. destruct (decide (i = j)) as [->|Hij].
  - by rewrite zlookup_zinsert_eq, lookup_insert_eq by lia.
  - rewrite zlookup_zinsert_ne, lookup_insert_ne by done. by apply H2.
Qed.
Lemma table_delete {A} (l : list (option A)) (m : gmap Z A) i : table_rel l m -> table_rel (<[i := None]> l) (delete i m).
Proof.
  intros [H1 H2]. split; [by rewrite zlen_zinsert|]. intros j Hj. destruct (decide (i = j)) as [->|Hij].
  - by rewrite zlookup_zinsert_eq, lookup_delete_eq by lia.
  - rewrite zlookup_zinsert_ne, lookup_delete_ne by done. by apply H2.
Qed.

(** ** Writes to the host's memory *)

(** [h'] differs from [h] only in the [n] bytes from [a]. *)
Definition within (a n : Z) (h h' : mem) : Prop := forall x, ~ (a <= x < a + n) -> h' x = h x.

Lemma within_refl a n h : within a n h h.
Proof. done. Qed.
Lemma within_trans a n h1 h2 h3 : within a n h1 h2 -> within a n h2 h3 -> within a n h1 h3.
Proof. intros H1 H2 x Hx. by rewrite (H2 x Hx), (H1 x Hx). Qed.
Lemma within_store a n b bs h h' : within a n h h' -> a <= b -> b + zlen bs <= a + n -> within a n h (mstore h' b bs).
Proof. intros H H1 H2 x Hx. rewrite mstore_out by lia. by apply H. Qed.
Lemma within_put a n k b x h h' : within a n h h' -> a <= b -> b + Z.of_nat k <= a + n -> within a n h (put_le k b x h').
Proof. intros H H1 H2. apply within_store; [done..|]. by rewrite zlen_le_encode. Qed.
Lemma within_bytes a n b bs h h' : within a n h h' -> a <= b -> b + zlen bs <= a + n -> within a n h (put_bytes b bs h').
Proof. apply within_store. Qed.
Lemma within_lbaf a n i ms ds rp h h' : within a n h h' -> 0 <= i <= 63 -> 4096 <= n -> within a n h (put_lbaf a i ms ds rp h').
Proof. intros H H1 H2. unfold put_lbaf. cbv zeta. repeat apply within_put; first [done|lia]. Qed.

Ltac within_tac :=
  repeat first [ apply within_lbaf | apply within_put | apply within_bytes ];
  first [ apply within_refl | assumption | (rewrite ?zlen_zrepeat by lia; unfold PAGE_SIZE; lia)
    | (unfold zlen, ctrl_sn, ctrl_mn, ctrl_fr; simpl length; lia) ].

(** ** The handlers *)

(** The command did its work: what is left is to post its completion. *)
Record admin_worked (h : mem) (cmd : Z) (s' : admin_abs) (v v1 : vdev) : Prop := {
  aw_same : admin_same v v1;
  aw_q : v1.(vd_admin_q) = v.(vd_admin_q);
  aw_host : within (cmd_prp1 h cmd) (admin_data h cmd) h (vd_host v1);
  aw_rel : admin_rel v1 s'
}.

Lemma rel_host v s h : admin_rel v s -> admin_rel (vd_with_host h v) s.
Proof. intros [R1 R2 R3 R4 R5 R6 R7]. by split. Qed.

(** A command that only writes data. *)
Lemma worked_data v s cmd h' :
  admin_rel v s -> within (cmd_prp1 (vd_host v) cmd) (admin_data (vd_host v) cmd) (vd_host v) h' ->
  admin_worked (vd_host v) cmd s v (vd_with_host h' v).
Proof. intros Hr Hw. split; [by split|done|done|by apply rel_host]. Qed.

Lemma worked_none v s cmd : admin_rel v s -> admin_worked (vd_host v) cmd s v v.
Proof. intros Hr. split; [by split|done|done|done]. Qed.

Lemma num_queues_ok v s : admin_rel v s -> num_queues v = queues_answer s.(ab_nr_sq) s.(ab_nr_cq).
Proof.
  intros [_ _ R3 R4 R5 _ _]. unfold num_queues, queues_answer. rewrite R3, R4. unfold NR_MAX_IO_QUEUE in R5.
  destruct R5 as [[-> ->]|[H1 H2]]; [vm_compute; reflexivity|].
  rewrite (proj2 (Z.eqb_neq _ _)) by lia. rewrite (u32_small (ab_nr_cq s - 1)), (u32_small (ab_nr_sq s - 1)) by lia.
  rewrite Z.shiftl_mul_pow2 by lia. rewrite u32_small by lia. by rewrite lor_shifted by lia.
Qed.

Lemma set_dbs_ok i x v s : admin_rel v s -> 0 <= i < 1024 ->
  set_dbs i x v = Ok (vd_with_dbs (<[i := x]> v.(vd_dbs)) (<[i := x]> v.(vd_old_dbs)) v).
Proof. intros Hr Hi. unfold set_dbs. destruct (ar_dbs _ _ Hr), (ar_old _ _ Hr). by rewrite !aset_Some by lia. Qed.

(** What is left to show of a handler. *)
Definition handles (f : Z -> vdev -> res vdev) (op : admin_op) (eid cmd : Z) (v : vdev) (s : admin_abs) : Prop :=
  match (admin_spec op s).2 with
  | Some (st, r0) => exists v1, admin_worked (vd_host v) cmd (admin_spec op s).1 v v1 /\ f eid v = __make_cq_entry_results eid st r0 0 v1
  | None => f eid v = Ok v /\ (admin_spec op s).1 = s
  end.


Section handlers.
Context (eid cmd : Z) (v : vdev) (s : admin_abs).
Context (Hc : admin_cmd eid v = Ok cmd) (Hr : admin_rel v s).
Let h := vd_host v.
Let nss := v.(vd_io).(dv_ns).

Lemma delete_sq_ok : cmd_opcode h cmd = 0 -> admin_allowed nss h cmd ->
  handles __nvmev_admin_delete_sq (AdmDeleteSq (q_id h cmd)) eid cmd v s.
Proof using Hc Hr.
  intros Ho (_ & Hq & _). destruct (Hq ltac:(auto)) as [Hi _]. unfold handles, __nvmev_admin_delete_sq. rewrite Hc, bind_Ok. fold h. cbv zeta.
  rewrite aset_Some, bind_Ok by (rewrite (proj1 (ar_sqs _ _ Hr)); lia). eexists. split; [|reflexivity].
  destruct Hr as [R1 R2 R3 R4 R5 R6 R7]. split; [by split|done|apply within_refl|]. split; try done. by apply table_delete.
Qed.

Lemma delete_cq_ok : cmd_opcode h cmd = 4 -> admin_allowed nss h cmd ->
  handles __nvmev_admin_delete_cq (AdmDeleteCq (q_id h cmd)) eid cmd v s.
Proof using Hc Hr.
  intros Ho (_ & Hq & _). destruct (Hq ltac:(auto)) as [Hi _]. unfold handles, __nvmev_admin_delete_cq. rewrite Hc, bind_Ok. fold h. cbv zeta.
  rewrite aset_Some, bind_Ok by (rewrite (proj1 (ar_cqs _ _ Hr)); lia). eexists. split; [|reflexivity].
  destruct Hr as [R1 R2 R3 R4 R5 R6 R7]. split; [by split|done|apply within_refl|]. split; try done. by apply table_delete.
Qed.

Lemma create_sq_ok : cmd_opcode h cmd = 1 -> admin_allowed nss h cmd ->
  handles __nvmev_admin_create_sq (AdmCreateSq (q_id h cmd) (described_sq h cmd)) eid cmd v s.
Proof using Hc Hr.
  intros Ho (_ & Hq & _). destruct (Hq ltac:(auto)) as [Hi _]. unfold handles, __nvmev_admin_create_sq. rewrite Hc, bind_Ok. fold h. cbv zeta.
  rewrite aset_Some, bind_Ok by (rewrite (proj1 (ar_sqs _ _ Hr)); lia). unfold NR_MAX_IO_QUEUE in Hi.
  destruct Hr as [R1 R2 R3 R4 R5 [R6 R6'] [R7 R7']]. unfold set_dbs. cbn [vd_with_io vd_dbs vd_old_dbs].
  rewrite !aset_Some, !bind_Ok by lia. eexists. split; [|reflexivity].
  split; [by split|done|apply within_refl|]. split; try done; cbn; [by apply table_insert|by rewrite zlen_zinsert, <- R6|by rewrite zlen_zinsert, <- R7].
Qed.

Lemma create_cq_ok : cmd_opcode h cmd = 5 -> admin_allowed nss h cmd ->
  handles __nvmev_admin_create_cq (AdmCreateCq (q_id h cmd) (described_cq h cmd)) eid cmd v s.
Proof using Hc Hr.
  intros Ho (_ & Hq & _). destruct (Hq ltac:(auto)) as [Hi _]. unfold handles, __nvmev_admin_create_cq. rewrite Hc, bind_Ok. fold h. cbv zeta.
  rewrite aset_Some, bind_Ok by (rewrite (proj1 (ar_cqs _ _ Hr)); lia). unfold NR_MAX_IO_QUEUE in Hi.
  destruct Hr as [R1 R2 R3 R4 R5 [R6 R6'] [R7 R7']]. unfold set_dbs. cbn [vd_with_io vd_dbs vd_old_dbs].
  rewrite !aset_Some, !bind_Ok by lia. eexists. split; [|reflexivity].
  split; [by split|done|apply within_refl|]. split; try done; cbn; [by apply table_insert|by rewrite zlen_zinsert, <- R6|by rewrite zlen_zinsert, <- R7].
Qed.

Lemma effects_log_len : zlen effects_log = 4096.
Proof using. unfold effects_log, effects_iocs. destruct (SUPPORTED_SSD_TYPE SSD_TYPE_ZNS); vm_compute; reflexivity. Qed.

Lemma log_page_ok : cmd_opcode h cmd = 2 -> admin_allowed nss h cmd -> handles __nvmev_admin_get_log_page AdmData eid cmd v s.
Proof using Hc Hr.
  intros Ho (_ & _ & Hl & _). destruct (Hl Ho) as [H1 H2]. unfold handles, __nvmev_admin_get_log_page. rewrite Hc, bind_Ok. fold h. cbv zeta.
  assert (0 <= log_len h cmd) as Hp by apply u32_range.
  assert (admin_data h cmd = log_len h cmd) as Ed by (unfold admin_data; by rewrite Ho).
  assert (forall log, log_len h cmd <= zlen log ->
    copy_log log (cmd_prp1 h cmd) (log_len h cmd) h = Ok (mstore h (cmd_prp1 h cmd) (take (Z.to_nat (log_len h cmd)) log)) /\
    within (cmd_prp1 h cmd) (admin_data h cmd) h (mstore h (cmd_prp1 h cmd) (take (Z.to_nat (log_len h cmd)) log))) as Hcopy.
  { intros log Hlog. split; [unfold copy_log; by rewrite (proj2 (Z.leb_le _ _))|].
    apply within_store; [apply within_refl|lia|]. unfold zlen. rewrite length_take. lia. }
  destruct (log_lid h cmd =? NVME_LOG_SMART) eqn:E1; [apply Z.eqb_eq in E1|].
  { destruct (Hcopy smart_log) as [E Hw]; [apply H1, E1|]. rewrite E, bind_Ok. eexists. split; [|reflexivity]. by apply worked_data. }
  destruct (log_lid h cmd =? NVME_LOG_CMD_EFFECTS) eqn:E2; [apply Z.eqb_eq in E2|].
  { destruct (Hcopy effects_log) as [E Hw]; [rewrite effects_log_len; apply H2, E2|]. rewrite E, bind_Ok.
    eexists. split; [|reflexivity]. by apply worked_data. }
  rewrite bind_Ok. eexists. split; [|reflexivity]. apply worked_data; [done|]. fold h.
  apply within_bytes; [apply within_refl|lia|]. rewrite zlen_zrepeat by lia. lia.
Qed.

(** The identify commands write within their page, or two of them. *)
Lemma data_page : cmd_opcode h cmd = 6 -> id_cns h cmd <> 2 -> admin_data h cmd = 4096.
Proof using. intros Ho H2. unfold admin_data. rewrite Ho. simpl. by rewrite (proj2 (Z.eqb_neq _ _)) by done. Qed.

Lemma ctrl_ok : cmd_opcode h cmd = 6 -> id_cns h cmd = 1 -> handles __nvmev_admin_identify_ctrl AdmData eid cmd v s.
Proof using Hc Hr.
  intros Ho H1. unfold handles, __nvmev_admin_identify_ctrl. rewrite Hc, bind_Ok. fold h. cbv zeta.
  eexists. split; [|reflexivity]. apply worked_data; [done|]. fold h. rewrite data_page by (done || lia). within_tac.
Qed.

Lemma zns_ctrl_ok : cmd_opcode h cmd = 6 -> id_cns h cmd = 6 -> handles __nvmev_admin_identify_zns_ctrl AdmData eid cmd v s.
Proof using Hc Hr.
  intros Ho H1. unfold handles, __nvmev_admin_identify_zns_ctrl. rewrite Hc, bind_Ok. fold h.
  eexists. split; [|reflexivity]. apply worked_data; [done|]. fold h. rewrite data_page by (done || lia). within_tac.
Qed.

Lemma nsid_ok : cmd_opcode h cmd = 6 -> (id_cns h cmd = 0 \/ id_cns h cmd = 3 \/ id_cns h cmd = 5) -> admin_allowed nss h cmd ->
  u32 (cmd_nsid h cmd - 1) = cmd_nsid h cmd - 1 /\ s32 (cmd_nsid h cmd - 1) = cmd_nsid h cmd - 1 /\
  exists n, aget nss (cmd_nsid h cmd - 1) = Ok n.
Proof using.
  intros Ho Hid (Hn & _ & _ & H & _). specialize (H Ho Hid). split; [apply u32_small; lia|]. split; [apply s32_small; lia|].
  destruct (zlookup_lt nss (cmd_nsid h cmd - 1) ltac:(lia)) as [n E]. exists n. by apply aget_Some.
Qed.

Lemma identify_ns_ok : cmd_opcode h cmd = 6 -> id_cns h cmd = 0 -> admin_allowed nss h cmd ->
  BUILD_LBA_BITS = 9 \/ BUILD_LBA_BITS = 12 -> handles __nvmev_admin_identify_namespace AdmData eid cmd v s.
Proof using Hc Hr.
  intros Ho H0 Ha Hb. unfold handles, __nvmev_admin_identify_namespace. rewrite Hc, bind_Ok. fold h nss. cbv zeta.
  destruct (nsid_ok Ho (or_introl H0) Ha) as (-> & _ & n & En).
  assert (exists f, (if BUILD_LBA_BITS =? 9 then Ok 0 else if BUILD_LBA_BITS =? 12 then Ok 3 else Fault BugOn) = Ok f) as [f ->]
    by (destruct Hb as [-> | ->]; simpl; eauto).
  rewrite bind_Ok, En, bind_Ok. eexists. split; [|reflexivity]. apply worked_data; [done|]. fold h. rewrite data_page by (done || lia).
  unfold id_ns_formats. within_tac.
Qed.

Lemma desc_ok : cmd_opcode h cmd = 6 -> id_cns h cmd = 3 -> admin_allowed nss h cmd ->
  handles __nvmev_admin_identify_namespace_desc AdmData eid cmd v s.
Proof using Hc Hr.
  intros Ho H0 Ha. unfold handles, __nvmev_admin_identify_namespace_desc. rewrite Hc, bind_Ok. fold h nss. cbv zeta.
  destruct (nsid_ok Ho ltac:(auto) Ha) as (_ & -> & n & En). rewrite En, bind_Ok. eexists. split; [|reflexivity].
  apply worked_data; [done|]. fold h. rewrite data_page by (done || lia). within_tac.
Qed.

Lemma zns_ns_ok : cmd_opcode h cmd = 6 -> id_cns h cmd = 5 -> admin_allowed nss h cmd ->
  handles __nvmev_admin_identify_zns_namespace AdmData eid cmd v s.
Proof using Hc Hr.
  intros Ho H0 Ha. unfold handles, __nvmev_admin_identify_zns_namespace. rewrite Hc, bind_Ok. fold h nss. cbv zeta.
  destruct (nsid_ok Ho ltac:(auto) Ha) as (_ & -> & n & En). rewrite En, bind_Ok.
  destruct Ha as (_ & _ & _ & _ & H5). destruct (H5 Ho H0) as (n' & t & En' & Et & Ht). rewrite (aget_Some _ _ _ En') in En. injection En as ->.
  rewrite Et, bind_Ok. destruct (t =? SSD_TYPE_ZNS) eqn:E; simpl.
  - apply Z.eqb_eq in E. destruct (Ht E) as [-> [zp ->]]. simpl. eexists. split; [|reflexivity].
    apply worked_data; [done|]. fold h. rewrite data_page by (done || lia). unfold id_zns_ns.
    destruct (0 <? nr_zrwa_zones zp); within_tac.
  - eexists. split; [|reflexivity]. by apply worked_none.
Qed.

(** The list of namespaces fits the two pages that are cleared. *)
Lemma list_ns_ok : cmd_opcode h cmd = 6 -> id_cns h cmd = 2 -> zlen nss <= 2048 ->
  handles __nvmev_admin_identify_namespaces AdmData eid cmd v s.
Proof using Hc Hr.
  intros Ho H0 Hn. unfold handles, __nvmev_admin_identify_namespaces. rewrite Hc, bind_Ok. fold h nss. cbv zeta.
  assert (admin_data h cmd = 8192) as Ed by (unfold admin_data; by rewrite Ho, H0). set (p := cmd_prp1 h cmd). pose proof (zlen_nonneg nss) as Hz.
  assert (okp (rfold (list_ns_step (cmd_nsid h cmd)) (zrange 1 (zlen nss + 1)) (p, put_bytes p (zrepeat (PAGE_SIZE * 2) 0) h))
    (fun '(q, h') => p <= q <= p + 4 * zlen nss /\ within p 8192 h h')) as H.
  { replace (4 * zlen nss) with (4 * (zlen nss + 1 - 1)) by lia.
    apply (rfold_range _ (fun i '(q, h') => p <= q <= p + 4 * (i - 1) /\ within p 8192 h h')); [lia|split; [lia|within_tac]|].
    intros i [q h'] Hi [Hq Hw]. unfold list_ns_step. destruct (_ <? i); simpl; (split; [lia|]); [|done]. apply within_put; [done|lia|lia]. }
  destruct (okp_inv _ _ H) as ([q h'] & E & _ & Hw).
  rewrite E, bind_Ok. eexists. split; [|reflexivity]. apply worked_data; [done|]. fold h. by rewrite Ed.
Qed.

Lemma invalid_ok eid' : eid' = eid -> handles (fun e => __make_cq_entry e NVME_SC_INVALID_OPCODE) AdmInvalid eid' cmd v s.
Proof using Hr. intros ->. eexists. split; [by apply worked_none|reflexivity]. Qed.

Lemma identify_ok : cmd_opcode h cmd = 6 -> admin_allowed nss h cmd -> zlen nss <= 2048 -> BUILD_LBA_BITS = 9 \/ BUILD_LBA_BITS = 12 ->
  handles __nvmev_admin_identify (if existsb (Z.eqb (id_cns h cmd)) [0; 1; 2; 3; 5; 6] then AdmData else AdmInvalid) eid cmd v s.
Proof using Hc Hr.
  intros Ho Ha Hn Hb. unfold handles, __nvmev_admin_identify. rewrite Hc, !bind_Ok. fold h. cbv zeta. simpl existsb.
  destruct (id_cns h cmd =? 0) eqn:E0; [apply Z.eqb_eq in E0; by apply identify_ns_ok|].
  destruct (id_cns h cmd =? 1) eqn:E1; [apply Z.eqb_eq in E1; by apply ctrl_ok|].
  destruct (id_cns h cmd =? 2) eqn:E2; [apply Z.eqb_eq in E2; by apply list_ns_ok|].
  destruct (id_cns h cmd =? 3) eqn:E3; [apply Z.eqb_eq in E3; by apply desc_ok|].
  destruct (id_cns h cmd =? 5) eqn:E5; [apply Z.eqb_eq in E5; by apply zns_ns_ok|].
  destruct (id_cns h cmd =? 6) eqn:E6; [apply Z.eqb_eq in E6; by apply zns_ctrl_ok|].
  by apply invalid_ok.
Qed.

Lemma dword_halves : Z.land (ft_dword11 h cmd) 65535 = ft_dword11 h cmd `mod` 65536 /\
  Z.land (Z.shiftr (ft_dword11 h cmd) 16) 65535 = (ft_dword11 h cmd `div` 65536) `mod` 65536.
Proof using.
  change 65535 with (Z.ones 16). rewrite !Z.land_ones, Z.shiftr_div_pow2 by lia. done.
Qed.

Lemma set_features_ok : cmd_opcode h cmd = 9 -> handles __nvmev_admin_set_features
  (if ft_fid h cmd =? 7 then AdmSetQueues (Z.min (ft_dword11 h cmd `mod` 65536 + 1) 72) (Z.min ((ft_dword11 h cmd `div` 65536) `mod` 65536 + 1) 72)
   else AdmData) eid cmd v s.
Proof using Hc Hr.
  intros Ho. unfold handles, __nvmev_admin_set_features. rewrite Hc, !bind_Ok. fold h. cbv zeta. change NVME_FEAT_NUM_QUEUES with 7.
  destruct (ft_fid h cmd =? 7); [|eexists; split; [by apply worked_none|reflexivity]].
  destruct dword_halves as [-> ->]. pose proof (Z.mod_pos_bound (ft_dword11 h cmd) 65536 ltac:(lia)).
  pose proof (Z.mod_pos_bound (ft_dword11 h cmd `div` 65536) 65536 ltac:(lia)). change NR_MAX_IO_QUEUE with 72.
  set (nr_sq := Z.min _ 72). set (nr_cq := Z.min _ 72). assert (1 <= nr_sq <= 72 /\ 1 <= nr_cq <= 72) as Hnr by lia.
  assert (admin_rel (vd_with_nr nr_sq nr_cq v) (admin_spec (AdmSetQueues nr_sq nr_cq) s).1) as Hr'.
  { destruct Hr as [R1 R2 R3 R4 R5 R6 R7]. split; try done. right. exact Hnr. }
  rewrite (num_queues_ok _ _ Hr'). eexists. split; [|reflexivity]. split; [by split|done|apply within_refl|done].
Qed.

Lemma get_features_ok : cmd_opcode h cmd = 10 -> handles __nvmev_admin_get_features
  (if ft_fid h cmd =? 7 then AdmGetQueues else AdmData) eid cmd v s.
Proof using Hc Hr.
  intros Ho. unfold handles, __nvmev_admin_get_features. rewrite Hc, !bind_Ok. fold h. change NVME_FEAT_NUM_QUEUES with 7.
  destruct (ft_fid h cmd =? 7); [|eexists; split; [by apply worked_none|reflexivity]].
  rewrite (num_queues_ok _ _ Hr). eexists. split; [by apply worked_none|reflexivity].
Qed.

(** Every command of the queue. *)
Lemma req_ok : admin_allowed nss h cmd -> zlen nss <= 2048 -> BUILD_LBA_BITS = 9 \/ BUILD_LBA_BITS = 12 ->
  handles __nvmev_proc_admin_req (decode_admin h cmd) eid cmd v s.
Proof using Hc Hr.
  intros Ha Hn Hb. unfold handles, __nvmev_proc_admin_req, decode_admin. rewrite Hc, !bind_Ok. fold h. cbv zeta.
  unfold nvme_admin_delete_sq, nvme_admin_create_sq, nvme_admin_get_log_page, nvme_admin_delete_cq, nvme_admin_create_cq,
    nvme_admin_identify, nvme_admin_abort_cmd, nvme_admin_set_features, nvme_admin_get_features, nvme_admin_async_event.
  destruct (cmd_opcode h cmd =? 0) eqn:E0; [apply Z.eqb_eq in E0; by apply delete_sq_ok|].
  destruct (cmd_opcode h cmd =? 1) eqn:E1; [apply Z.eqb_eq in E1; by apply create_sq_ok|].
  destruct (cmd_opcode h cmd =? 2) eqn:E2; [apply Z.eqb_eq in E2; by apply log_page_ok|].
  destruct (cmd_opcode h cmd =? 4) eqn:E4; [apply Z.eqb_eq in E4; by apply delete_cq_ok|].
  destruct (cmd_opcode h cmd =? 5) eqn:E5; [apply Z.eqb_eq in E5; by apply create_cq_ok|].
  destruct (cmd_opcode h cmd =? 6) eqn:E6; [apply Z.eqb_eq in E6; by apply identify_ok|].
  destruct (cmd_opcode h cmd =? 8) eqn:E8; [done|].
  destruct (cmd_opcode h cmd =? 9) eqn:E9; [apply Z.eqb_eq in E9; by apply set_features_ok|].
  destruct (cmd_opcode h cmd =? 10) eqn:E10; [apply Z.eqb_eq in E10; by apply get_features_ok|].
  destruct (cmd_opcode h cmd =? 12) eqn:E12; [eexists; split; [by apply worked_none|reflexivity]|].
  by apply invalid_ok.
Qed.
End handlers.

(** ** The completion ring of the admin queue

    It is posted to as the rings of io.c are. *)

Definition admin_ring (q : nvmev_admin_queue) : nvmev_completion_queue :=
  CompletionQueue 0 true true q.(aq_cq_depth) q.(aq_phase) q.(aq_cq_head) (-1) (default [] q.(aq_cq)).
Definition with_ring (cq : nvmev_completion_queue) (q : nvmev_admin_queue) : nvmev_admin_queue :=
  AdminQueue cq.(cq_phase) q.(aq_sq_depth) q.(aq_cq_depth) cq.(cq_head) q.(aq_sq) q.(aq_cq).

(** The completion of a command, as a request of a worker has it. *)
Definition admin_work (eid command_id st r0 : Z) : io_work :=
  IoWork 0 0 eid command_id 0 0 0 true true st r0 0 false None 0 0 0.

Lemma ring_id q : with_ring (admin_ring q) q = q.
Proof. by destruct q. Qed.
Lemma ring_with_ring q w h cq' h' : fill_cq (admin_ring q) w h = Ok (cq', h') -> admin_ring (with_ring cq' q) = cq'.
Proof. unfold fill_cq. destruct (cq_entry _ _); [|done]. simpl. intros [= <- <-]. done. Qed.

Lemma make_entry_fill eid st r0 v q cmd :
  v.(vd_admin_q) = Some q -> is_Some q.(aq_cq) -> admin_sq_entry q eid = Ok cmd -> 0 <= st < 2147483648 ->
  __make_cq_entry_results eid st r0 0 v =
  '(cq', h') ← fill_cq (admin_ring q) (admin_work eid (cmd_command_id (vd_host v) cmd) st r0) (vd_host v);
  Ok (vd_with_admin_q (Some (with_ring cq' q)) (vd_with_host h' v)).
Proof.
  intros Eq [cp Ecp] Ec Hst. unfold __make_cq_entry_results, get_admin_q. rewrite Eq. cbn [of_opt]. rewrite bind_Ok, Ec, bind_Ok.
  assert (admin_cq_entry q (aq_cq_head q) = cq_entry (admin_ring q) (cq_head (admin_ring q))) as ->.
  { unfold admin_cq_entry, cq_entry, admin_ring. simpl. by rewrite Ecp. }
  unfold fill_cq. destruct (cq_entry _ _); [|done]. simpl. rewrite (u32_small (Z.shiftl st 1)); [|rewrite Z.shiftl_mul_pow2 by lia; lia].
  unfold admin_advance, with_ring. simpl. destruct (_ =? aq_cq_depth q); done.
Qed.

(** ** The commands of the ring *)

Record admin_q_ok (q : nvmev_admin_queue) : Prop := {
  ak_ring : cq_ok (admin_ring q);
  ak_cq : is_Some q.(aq_cq);
  ak_depth : 0 < q.(aq_sq_depth) < 2147483648;
  ak_entry i : 0 <= i < q.(aq_sq_depth) -> exists a, admin_sq_entry q i = Ok a;
  ak_apart i j a b : 0 <= i < q.(aq_sq_depth) -> 0 <= j < q.(aq_cq_depth) -> admin_sq_entry q i = Ok a -> cq_entry (admin_ring q) j = Ok b ->
    a + NVME_COMMAND_SIZE <= b \/ b + NVME_COMPLETION_SIZE <= a
}.

Definition addr (q : nvmev_admin_queue) (i : Z) : Z := match admin_sq_entry q i with Ok a => a | Fault _ => 0 end.

(** The data of a command is apart from both rings. *)
Record data_ok (q : nvmev_admin_queue) (h : mem) (a : Z) : Prop := {
  dk_sq i b : 0 <= i < q.(aq_sq_depth) -> admin_sq_entry q i = Ok b ->
    b + NVME_COMMAND_SIZE <= cmd_prp1 h a \/ cmd_prp1 h a + admin_data h a <= b;
  dk_cq j b : 0 <= j < q.(aq_cq_depth) -> cq_entry (admin_ring q) j = Ok b ->
    b + NVME_COMPLETION_SIZE <= cmd_prp1 h a \/ cmd_prp1 h a + admin_data h a <= b
}.

(** The tables and the completions after the entries of a list. *)
Fixpoint admin_spec_run (q : nvmev_admin_queue) (h : mem) (es : list Z) (s : admin_abs) : admin_abs * list io_work :=
  match es with
  | [] => (s, [])
  | e :: es =>
      let '(s1, ans) := admin_spec (decode_admin h (addr q e)) s in
      let '(s2, ws) := admin_spec_run q h es s1 in
      (s2, match ans with Some (st, r0) => admin_work e (cmd_command_id h (addr q e)) st r0 :: ws | None => ws end)
  end.

Lemma spec_run_snoc q h es e s s1 ws :
  admin_spec_run q h es s = (s1, ws) ->
  admin_spec_run q h (es ++ [e]) s = ((admin_spec (decode_admin h (addr q e)) s1).1,
    ws ++ match (admin_spec (decode_admin h (addr q e)) s1).2 with
          | Some (st, r0) => [admin_work e (cmd_command_id h (addr q e)) st r0] | None => [] end).
Proof.
  revert s s1 ws. induction es as [|e' es IH]; intros s s1 ws; simpl.
  - intros [= <- <-]. destruct (admin_spec _ s) as [s2 ans]. simpl. by destruct ans as [[st r0]|].
  - destruct (admin_spec _ s) as [s2 ans]. destruct (admin_spec_run q h es s2) as [s3 ws3] eqn:E. intros [= <- <-].
    rewrite (IH _ _ _ E). destruct ans as [[st r0]|]; done.
Qed.

(** A command in memory that did not change is the same command. *)
Section same_cmd.
Context (h h' : mem) (a : Z) (Hh : forall x, a <= x < a + NVME_COMMAND_SIZE -> h' x = h x).

Lemma field_same b n : a <= b -> b + n <= a + 64 -> get_le h' b n = get_le h b n.
Proof using Hh. intros H1 H2. unfold get_le. f_equal. apply mload_ext. intros i Hi. apply Hh. unfold NVME_COMMAND_SIZE. lia. Qed.

Ltac fields_same :=
  unfold cmd_opcode, q_id, q_size, q_flags, q_last, cmd_prp1, id_cns, ft_fid, ft_dword11, log_len, log_lid, log_numdl, log_numdu,
    cmd_command_id, cmd_nsid in *; rewrite !field_same by lia.

Lemma decode_same : decode_admin h' a = decode_admin h a.
Proof using Hh. unfold decode_admin, described_sq, described_cq. fields_same. done. Qed.
Lemma data_same : admin_data h' a = admin_data h a /\ cmd_prp1 h' a = cmd_prp1 h a /\ cmd_command_id h' a = cmd_command_id h a.
Proof using Hh. unfold admin_data. fields_same. done. Qed.
Lemma allowed_same nss : admin_allowed nss h a -> admin_allowed nss h' a.
Proof using Hh. unfold admin_allowed. cbv zeta. fields_same. done. Qed.
End same_cmd.

(** ** The whole ring *)

Section ring.
Context (v0 : vdev) (q0 : nvmev_admin_queue) (s0 : admin_abs) (old : Z).
Let h0 := vd_host v0.
Let depth := q0.(aq_sq_depth).
Let nss := v0.(vd_io).(dv_ns).

Definition admin_entries (n : Z) : list Z := (fun i => (old + i) `mod` depth) <$> zrange 0 n.

Record admin_host_ok (n : Z) : Prop := {
  hk_q : v0.(vd_admin_q) = Some q0;
  hk_ok : admin_q_ok q0;
  hk_rel : admin_rel v0 s0;
  hk_phases : phases (admin_ring q0) h0;
  hk_ns : zlen nss <= 2048;
  hk_lba : BUILD_LBA_BITS = 9 \/ BUILD_LBA_BITS = 12;
  hk_cmd e : e ∈ admin_entries n -> admin_allowed nss h0 (addr q0 e) /\ data_ok q0 h0 (addr q0 e)
}.

Record admin_at (j : Z) (c : Z * vdev) : Prop := {
  at_curr : c.1 = (old + j) `mod` depth;
  at_same : admin_same v0 c.2;
  at_sq i a x : 0 <= i < depth -> admin_sq_entry q0 i = Ok a -> a <= x < a + NVME_COMMAND_SIZE -> vd_host c.2 x = h0 x;
  at_run : exists s ws q, admin_spec_run q0 h0 (admin_entries j) s0 = (s, ws) /\ admin_rel c.2 s /\
    c.2.(vd_admin_q) = Some q /\ q = with_ring (admin_ring q) q0 /\ cq_ok (admin_ring q) /\ phases (admin_ring q) (vd_host c.2) /\
    posts (admin_ring q0) h0 ws (admin_ring q) (vd_host c.2)
}.

Context (n : Z) (Hh : admin_host_ok n).

Lemma depth_range : 0 < depth < 2147483648.
Proof using Hh. apply (ak_depth _ (hk_ok _ Hh)). Qed.

Lemma entry_mod x : 0 <= x `mod` depth < depth.
Proof using Hh. apply Z.mod_pos_bound. pose proof depth_range. lia. Qed.

Lemma entries_S j : 0 <= j -> admin_entries (j + 1) = admin_entries j ++ [(old + j) `mod` depth].
Proof using. clear Hh h0 nss. intros Hj. unfold admin_entries. by rewrite zrange_snoc, fmap_app by lia. Qed.

Lemma next_entry x : (if x `mod` depth + 1 =? depth then 0 else x `mod` depth + 1) = (x + 1) `mod` depth.
Proof using Hh.
  pose proof depth_range as Hd. pose proof (entry_mod x) as Hm. pose proof (Z.div_mod x depth ltac:(lia)) as Hx.
  replace (x + 1) with (x `mod` depth + 1 + x `div` depth * depth) by lia. rewrite Z.mod_add by lia.
  destruct (_ =? depth) eqn:E; [apply Z.eqb_eq in E; by rewrite E, Z.mod_same by lia|apply Z.eqb_neq in E].
  symmetry. apply Z.mod_small. lia.
Qed.

(** Data that is written elsewhere leaves both rings alone. *)
Lemma data_sq h h1 a i b x : data_ok q0 h0 a -> within (cmd_prp1 h0 a) (admin_data h0 a) h h1 ->
  0 <= i < depth -> admin_sq_entry q0 i = Ok b -> b <= x < b + NVME_COMMAND_SIZE -> h1 x = h x.
Proof using.
  clear Hh. intros Hd Hw Hi Eb Hx. apply Hw. destruct (dk_sq _ _ _ Hd i b Hi Eb); lia.
Qed.
Lemma data_ring h h1 a cq : data_ok q0 h0 a -> within (cmd_prp1 h0 a) (admin_data h0 a) h h1 ->
  cq.(cq_pages) = (admin_ring q0).(cq_pages) -> cq.(cq_queue_size) = q0.(aq_cq_depth) -> same_ring cq h h1.
Proof using.
  clear Hh. intros Hd Hw E1 E2 i b Hi Eb. rewrite E2 in Hi. rewrite (entry_same (admin_ring q0) cq) in Eb by done.
  apply get_cqe_ext. intros x Hx. apply Hw. destruct (dk_cq _ _ _ Hd i b Hi Eb); lia.
Qed.

Lemma admin_step j c : 0 <= j < n -> admin_at j c -> okp (admin_sq_step c) (admin_at (j + 1)).
Proof using Hh.
  intros Hj [Hcur Hsame Hsq (s & ws & q & Hrun & Hrel & Hq & Ew & Hcq & Hph & Hposts)]. destruct c as [curr v]. cbn [fst snd] in *. subst curr.
  set (e := (old + j) `mod` depth) in *. assert (0 <= e < depth) as He by apply entry_mod.
  pose proof (hk_ok _ Hh) as Hk. destruct (ak_entry _ Hk e He) as [a Ea].
  assert (addr q0 e = a) as Eaddr by (unfold addr; by rewrite Ea).
  assert (e ∈ admin_entries n) as Hin by (apply list_elem_of_fmap; exists j; split; [done|by apply elem_of_zrange]).
  destruct (hk_cmd _ Hh e Hin) as [Hall Hdata]. rewrite Eaddr in Hall, Hdata.
  assert (forall x, a <= x < a + NVME_COMMAND_SIZE -> vd_host v x = h0 x) as Hcmd by (intros x Hx; by apply (Hsq e a x)).
  pose proof (decode_same h0 (vd_host v) a Hcmd) as Edec. destruct (data_same h0 (vd_host v) a Hcmd) as (Edat & Eprp & Ecid).
  assert (admin_sq_entry q e = Ok a) as Eqa by (rewrite Ew; exact Ea).
  assert (admin_cmd e v = Ok a) as Hca by (unfold admin_cmd, get_admin_q; rewrite Hq; cbn [of_opt]; by rewrite bind_Ok).
  assert (v.(vd_io).(dv_ns) = nss) as Ens by apply (as_ns _ _ Hsame).
  pose proof (req_ok e a v s Hca Hrel) as Hreq. rewrite Ens in Hreq.
  specialize (Hreq (allowed_same h0 (vd_host v) a Hcmd nss Hall) (hk_ns _ Hh) (hk_lba _ Hh)). unfold handles in Hreq. rewrite Edec in Hreq.
  pose proof (spec_run_snoc q0 h0 (admin_entries j) e s0 s ws Hrun) as Hrun'. rewrite <- entries_S, Eaddr in Hrun' by lia.
  assert ((if e + 1 =? depth then 0 else e + 1) = (old + (j + 1)) `mod` depth) as Enext by (unfold e; rewrite next_entry; f_equal; lia).
  assert (aq_sq_depth q = depth) as Edep by (by rewrite Ew). assert (aq_cq_depth q = aq_cq_depth q0) as Edepc by (by rewrite Ew).
  unfold admin_sq_step.
  destruct (admin_spec (decode_admin h0 a) s).2 as [[st r0]|] eqn:Es.
  - destruct Hreq as (v1 & [W1 W2 W3 W4] & ->). rewrite Edat, Eprp in W3.
    assert (0 <= st < 2147483648) as Hst.
    { revert Es. destruct (decode_admin h0 a); simpl; intros [= <- <-]; unfold NVME_SC_SUCCESS, NVME_SC_INVALID_OPCODE; lia. }
    assert (forall x, a <= x < a + NVME_COMMAND_SIZE -> vd_host v1 x = vd_host v x) as Hcmd1 by (intros x Hx; by apply (data_sq _ _ a e a x)).
    destruct (data_same (vd_host v) (vd_host v1) a Hcmd1) as (_ & _ & Ecid1).
    rewrite (make_entry_fill e st r0 v1 q a); [|by rewrite W2|rewrite Ew; apply (ak_cq _ Hk)|done|done]. rewrite Ecid1, Ecid.
    assert (same_ring (admin_ring q) (vd_host v) (vd_host v1)) as Hring by (apply (data_ring _ _ a); [done|done|by rewrite Ew..]).
    pose proof (fill_ok (admin_ring q) (admin_work e (cmd_command_id h0 a) st r0) (vd_host v1) Hcq (phases_same _ _ _ Hph Hring)) as Hf.
    destruct (okp_inv _ _ Hf) as ([cq' h'] & Ef & Hcq' & Hph' & Hn' & b & Eb & _ & Hx). rewrite Ef, bind_Ok.
    pose proof (ring_with_ring _ _ _ _ _ Ef) as Er. rewrite bind_Ok. cbn [get_admin_q vd_with_admin_q vd_admin_q of_opt].
    unfold get_admin_q. cbn [vd_with_admin_q vd_admin_q of_opt]. rewrite bind_Ok. cbn [okp]. split; cbn [fst snd].
    + cbn [with_ring aq_sq_depth]. by rewrite Edep.
    + eapply admin_same_trans; [exact Hsame|]. eapply admin_same_trans; [exact W1|]. by split.
    + intros i a' x Hi Ea' Hxr. change (vd_host (vd_with_admin_q (Some (with_ring cq' q)) (vd_with_host h' v1)) x) with (h' x).
      rewrite Hx.
      * rewrite (data_sq _ _ a i a' x Hdata W3 Hi Ea' Hxr). by apply (Hsq i a' x).
      * intros Hb. assert (cq_entry (admin_ring q0) (cq_head (admin_ring q)) = Ok b) as Eb' by (rewrite <- Eb; symmetry; apply entry_same; by rewrite Ew).
        assert (0 <= cq_head (admin_ring q) < aq_cq_depth q0) as Hhd by (rewrite <- Edepc; apply (co_head _ Hcq)).
        destruct (ak_apart _ Hk i _ a' b Hi Hhd Ea' Eb'); lia.
    + exists (admin_spec (decode_admin h0 a) s).1, (ws ++ [admin_work e (cmd_command_id h0 a) st r0]), (with_ring cq' q).
      split; [exact Hrun'|]. split; [destruct W4 as [K1 K2 K3 K4 K5 K6 K7]; by split|]. split; [done|].
      rewrite Er. split; [rewrite Ew; f_equal; by rewrite <- Er, Ew|]. split; [done|]. split; [done|].
      eapply posts_snoc; [exact Hposts|exact Hring|exact Ef].
  - destruct Hreq as [-> Hs]. rewrite bind_Ok. unfold get_admin_q. rewrite Hq. cbn [of_opt]. rewrite bind_Ok. cbn [okp]. split; cbn [fst snd].
    + by rewrite Edep.
    + done.
    + done.
    + exists s, ws, q. rewrite Hs in Hrun'. rewrite app_nil_r in Hrun'. done.
Qed.

Lemma proc_admin_ok new :
  0 <= old < depth -> 0 <= new < depth -> n = (new - old) `mod` depth ->
  okp (nvmev_proc_admin_sq new old v0) (fun v' => exists s ws q,
    admin_spec_run q0 h0 (admin_entries n) s0 = (s, ws) /\ admin_rel v' s /\ v'.(vd_admin_q) = Some q /\
    q = with_ring (admin_ring q) q0 /\ cq_ok (admin_ring q) /\ phases (admin_ring q) (vd_host v') /\
    posts (admin_ring q0) h0 ws (admin_ring q) (vd_host v') /\ admin_same (admin_irq v0) v').
Proof using Hh.
  intros Hold Hnew Hn. pose proof depth_range as Hd. unfold nvmev_proc_admin_sq, get_admin_q. rewrite (hk_q _ Hh). cbn [of_opt]. rewrite bind_Ok.
  cbv zeta. fold depth. rewrite !(s32_small (new - old)) by lia.
  assert ((if new - old <? 0 then s32 (new - old + depth) else new - old) = n) as ->.
  { subst n. destruct (new - old <? 0) eqn:E; [apply Z.ltb_lt in E|apply Z.ltb_ge in E].
    - rewrite s32_small by lia. rewrite <- (Z.mod_add _ 1) by lia. rewrite Z.mod_small; lia.
    - by rewrite Z.mod_small by lia. }
  assert (0 <= n < depth) as Hnr by (subst n; apply Z.mod_pos_bound; lia).
  assert (okp (rfold (fun _ => admin_sq_step) (zrange 0 n) (old, v0)) (admin_at n)) as H.
  { apply (rfold_range _ admin_at 0 n); [lia| |intros i c Hi Hc; by apply admin_step].
    split; cbn [fst snd]; [by rewrite Z.add_0_r, Z.mod_small|done|done|]. exists s0, [], q0. split; [done|]. split; [apply (hk_rel _ Hh)|].
    split; [apply (hk_q _ Hh)|]. split; [by rewrite ring_id|]. split; [apply (ak_ring _ (hk_ok _ Hh))|]. split; [apply (hk_phases _ Hh)|].
    apply posts_nil, same_ring_refl. }
  destruct (okp_inv _ _ H) as ([c v] & E & [_ Hs _ (s & ws & q & H1 & H2 & H3 & H4 & H5 & H6 & H7)]). rewrite E, bind_Ok. cbn [okp fst snd] in *.
  exists s, ws, q. split; [done|]. split; [by destruct H2|]. split; [done|]. split; [done|]. split; [done|]. split; [done|].
  split; [done|]. destruct Hs as [S1 S2 S3 S4 S5]. split; try done. cbn. by rewrite S5.
Qed.
End ring.
End allowed.
