(* ===== verification/Bars.v ===== *)
(** * The controller registers (pci.c)

    The host configures the controller by writing registers; the dispatcher notices
    what changed since it last looked, one register at a call, in an order of its
    own: the admin queue first, its two addresses, then the configuration.

    [handshake_ok]: a host that writes the three registers of the admin queue in
    any order and then the configuration, with calls of the dispatcher anywhere
    between, finds the controller ready after at most four more calls, with the
    admin queue that the registers describe. *)

From stdpp Require Import prelude list.
From Stdlib Require Import ZArith Lia.
From S2P Require Import Prelude Mem Prp SsdConfig NvmeCmd IoCopy Io Vdev Admin.

Section bars.
Context `{BK : Backend}.

(** The pages of an admin queue, from the page of the register. *)
Definition admin_pages (addr depth width : Z) : list Z :=
  (fun i => Z.shiftr addr PAGE_SHIFT * PAGE_SIZE + i * PAGE_SIZE) <$> zrange 0 (DIV_ROUND_UP (depth * width) PAGE_SIZE).

Definition regs_with_aqa (x : Z) (r : nvme_ctrl_regs) : nvme_ctrl_regs :=
  CtrlRegs r.(u_cap) r.(u_vs) r.(u_cc) r.(u_csts) x r.(u_asq) r.(u_acq).
Definition regs_with_asq (x : Z) (r : nvme_ctrl_regs) : nvme_ctrl_regs :=
  CtrlRegs r.(u_cap) r.(u_vs) r.(u_cc) r.(u_csts) r.(u_aqa) x r.(u_acq).
Definition regs_with_acq (x : Z) (r : nvme_ctrl_regs) : nvme_ctrl_regs :=
  CtrlRegs r.(u_cap) r.(u_vs) r.(u_cc) r.(u_csts) r.(u_aqa) r.(u_asq) x.
Definition regs_with_cc (x : Z) (r : nvme_ctrl_regs) : nvme_ctrl_regs :=
  CtrlRegs r.(u_cap) r.(u_vs) x r.(u_csts) r.(u_aqa) r.(u_asq) r.(u_acq).
Definition regs_with_csts (x : Z) (r : nvme_ctrl_regs) : nvme_ctrl_regs :=
  CtrlRegs r.(u_cap) r.(u_vs) r.(u_cc) x r.(u_aqa) r.(u_asq) r.(u_acq).

(** [u_aqa] changed: the admin queue is made, or made anew but for its pages. *)
Definition bars_aqa (v : vdev) : res vdev :=
  let bar := v.(vd_bar) in
  let '(sq, cq) := match v.(vd_admin_q) with Some q => (q.(aq_sq), q.(aq_cq)) | None => (None, None) end in
  let q := AdminQueue 1 (aqa_asqs bar.(u_aqa) + 1) (aqa_acqs bar.(u_aqa) + 1) 0 sq cq in
  let v := vd_with_admin_q (Some q) (vd_with_bars bar (regs_with_aqa bar.(u_aqa) v.(vd_old_bar)) v) in
  v ← set_dbs 0 0 v; set_dbs 1 0 v.

Definition bars_asq (q : nvmev_admin_queue) (v : vdev) : res vdev :=
  let bar := v.(vd_bar) in
  let depth := aqa_asqs bar.(u_aqa) + 1 in
  let q := AdminQueue q.(aq_phase) depth q.(aq_cq_depth) q.(aq_cq_head) (Some (admin_pages bar.(u_asq) depth NVME_COMMAND_SIZE)) q.(aq_cq) in
  set_dbs 0 0 (vd_with_admin_q (Some q) (vd_with_bars bar (regs_with_asq bar.(u_asq) v.(vd_old_bar)) v)).

Definition bars_acq (q : nvmev_admin_queue) (v : vdev) : res vdev :=
  let bar := v.(vd_bar) in
  let depth := aqa_acqs bar.(u_aqa) + 1 in
  let q := AdminQueue 1 q.(aq_sq_depth) depth 0 q.(aq_sq) (Some (admin_pages bar.(u_acq) depth NVME_COMPLETION_SIZE)) in
  set_dbs 1 0 (vd_with_admin_q (Some q) (vd_with_bars bar (regs_with_acq bar.(u_acq) v.(vd_old_bar)) v)).

(** [u_cc] changed: enable or disable, then shutdown. *)
Definition bars_cc (v : vdev) : res vdev :=
  let bar := v.(vd_bar) in
  let csts := if cc_en bar.(u_cc) =? 1
              then (match v.(vd_admin_q) with Some _ => set_rdy 1 bar.(u_csts) | None => bar.(u_csts) end)
              else set_rdy 0 bar.(u_csts) in
  v ← (if cc_shn bar.(u_cc) =? 1 then
         let v := vd_with_bars (regs_with_csts (set_shst 2 csts) bar) v.(vd_old_bar) v in
         v ← set_dbs 0 0 v; v ← set_dbs 1 0 v;
         q ← get_admin_q v;
         Ok (vd_with_admin_q (Some (AdminQueue q.(aq_phase) q.(aq_sq_depth) q.(aq_cq_depth) 0 q.(aq_sq) q.(aq_cq))) v)
       else Ok (vd_with_bars (regs_with_csts csts bar) v.(vd_old_bar) v));
  Ok (vd_with_bars v.(vd_bar) (regs_with_cc v.(vd_bar).(u_cc) v.(vd_old_bar)) v).

(** One call.  The registers do not change during it. *)
Definition nvmev_proc_bars (v : vdev) : res (vdev * bool) :=
  let bar := v.(vd_bar) in
  let old_bar := v.(vd_old_bar) in
  if negb (old_bar.(u_aqa) =? bar.(u_aqa)) then v ← bars_aqa v; Ok (v, true)
  else if negb (old_bar.(u_asq) =? bar.(u_asq)) then
    match v.(vd_admin_q) with None => Ok (v, true) | Some q => v ← bars_asq q v; Ok (v, true) end
  else if negb (old_bar.(u_acq) =? bar.(u_acq)) then
    match v.(vd_admin_q) with None => Ok (v, true) | Some q => v ← bars_acq q v; Ok (v, true) end
  else if negb (old_bar.(u_cc) =? bar.(u_cc)) then v ← bars_cc v; Ok (v, true)
  else Ok (v, false).

(** [__init_nvme_ctrl_regs]: the capabilities and the version. *)
Definition CAP_CSS_BIT_SPECIFIC : Z := 64.
Definition __init_nvme_ctrl_regs `{BD : Build} : nvme_ctrl_regs :=
  let css := if SUPPORTED_SSD_TYPE SSD_TYPE_ZNS then CAP_CSS_BIT_SPECIFIC else 0 in
  CtrlRegs (1024 - 1 + Z.shiftl 1 24 + Z.shiftl css 37) (Z.shiftl 1 16) 0 0 0 0 0.

(** The device before the host touches it. *)
Definition reset_vdev `{BD : Build} (d : io_dev) : vdev :=
  Vdev _ d 0 None (zrepeat 1024 0) (zrepeat 1024 0) __init_nvme_ctrl_regs __init_nvme_ctrl_regs BUILD_MDTS.

(** ** What the host writes, with the calls of the dispatcher between *)

Inductive bar_event := WriteAqa (x : Z) | WriteAsq (x : Z) | WriteAcq (x : Z) | WriteCc (x : Z) | Dispatch.

#[global] Instance bar_event_eq_dec : EqDecision bar_event.
Proof. solve_decision. Defined.

Definition bar_exec (ev : bar_event) (v : vdev) : res vdev :=
  let write f := Ok (vd_with_bars (f v.(vd_bar)) v.(vd_old_bar) v) in
  match ev with
  | WriteAqa x => write (regs_with_aqa x)
  | WriteAsq x => write (regs_with_asq x)
  | WriteAcq x => write (regs_with_acq x)
  | WriteCc x => write (regs_with_cc x)
  | Dispatch => '(v, _) ← nvmev_proc_bars v; Ok v
  end.

(** ** The handshake *)

Section handshake.
Context `{BD : Build} (d : io_dev) (a s c e : Z).
Context (Ha : a <> 0) (Hs : s <> 0) (Hc : c <> 0) (He : cc_en e = 1) (Hshn : cc_shn e <> 1).

Definition sq_pages_of : list Z := admin_pages s (aqa_asqs a + 1) NVME_COMMAND_SIZE.
Definition cq_pages_of : list Z := admin_pages c (aqa_acqs a + 1) NVME_COMPLETION_SIZE.

(** The queue when [asq] and [acq] were noticed, or not. *)
Definition queue_seen (asq acq : bool) : nvmev_admin_queue :=
  AdminQueue 1 (aqa_asqs a + 1) (aqa_acqs a + 1) 0 (if asq then Some sq_pages_of else None) (if acq then Some cq_pages_of else None).

(** A register: not written, written, or written and noticed. *)
Inductive reg_state := Unwritten | Written | Noticed.
Definition reg_new (x : Z) (r : reg_state) : Z := match r with Unwritten => 0 | _ => x end.
Definition reg_old (x : Z) (r : reg_state) : Z := match r with Noticed => x | _ => 0 end.
Definition noticed (r : reg_state) : bool := match r with Noticed => true | _ => false end.
Definition written (r : reg_state) : bool := match r with Unwritten => false | _ => true end.

Record shaking := Shaking { sh_aqa : reg_state; sh_asq : reg_state; sh_acq : reg_state; sh_cc : reg_state }.

Definition shake_vdev (t : shaking) : vdev :=
  let r := __init_nvme_ctrl_regs in
  Vdev _ d 0 (if noticed t.(sh_aqa) then Some (queue_seen (noticed t.(sh_asq)) (noticed t.(sh_acq))) else None)
    (zrepeat 1024 0) (zrepeat 1024 0)
    (CtrlRegs r.(u_cap) r.(u_vs) (reg_new e t.(sh_cc)) (if noticed t.(sh_cc) then 1 else 0)
       (reg_new a t.(sh_aqa)) (reg_new s t.(sh_asq)) (reg_new c t.(sh_acq)))
    (CtrlRegs r.(u_cap) r.(u_vs) (reg_old e t.(sh_cc)) 0 (reg_old a t.(sh_aqa)) (reg_old s t.(sh_asq)) (reg_old c t.(sh_acq)))
    BUILD_MDTS.

(** A call of the dispatcher on the states of the registers. *)
Definition notice (t : shaking) : shaking * bool :=
  match t with
  | Shaking Written q p n => (Shaking Noticed q p n, true)
  | Shaking Noticed Written p n => (Shaking Noticed Noticed p n, true)
  | Shaking Unwritten Written p n => (t, true)
  | Shaking Noticed q Written n => (Shaking Noticed q Noticed n, true)
  | Shaking Unwritten q Written n => (t, true)
  | Shaking r q p Written => (Shaking r q p Noticed, true)
  | _ => (t, false)
  end.

(** Nothing is noticed before the queue; the configuration is written last. *)
Definition shake_ok (t : shaking) : Prop :=
  (noticed t.(sh_aqa) = false -> noticed t.(sh_asq) = false /\ noticed t.(sh_acq) = false /\ noticed t.(sh_cc) = false) /\
  (written t.(sh_cc) = true -> written t.(sh_aqa) && written t.(sh_asq) && written t.(sh_acq) = true).

Lemma set_db_zero i v : v.(vd_dbs) = zrepeat 1024 0 -> v.(vd_old_dbs) = zrepeat 1024 0 -> 0 <= i < 1024 -> set_dbs i 0 v = Ok v.
Proof.
  intros E1 E2 Hi. unfold set_dbs. rewrite E1, E2, aset_Some by done. rewrite !bind_Ok. 
  assert (<[i := 0]> (zrepeat 1024 0) = zrepeat 1024 0) as ->.
  { apply zlist_eq; [by rewrite zlen_zinsert|]. intros j Hj. destruct (decide (i = j)) as [->|H].
    - rewrite zlookup_zinsert_eq by done. symmetry. unfold zrepeat. rewrite zlookup_to_nat by lia. apply lookup_replicate_2. lia.
    - by rewrite zlookup_zinsert_ne. }
  rewrite <- E1 at 1. rewrite <- E2 at 1. by destruct v.
Qed.

Lemma unchanged x r : x <> 0 -> negb (reg_old x r =? reg_new x r) = match r with Written => true | _ => false end.
Proof. intros Hx. destruct r; cbn [reg_old reg_new]; [done|by rewrite (proj2 (Z.eqb_neq 0 x)) by congruence|by rewrite Z.eqb_refl]. Qed.

Lemma e_nonzero : e <> 0.
Proof using He. intros E. rewrite E in He. done. Qed.

Lemma proc_bars_notice t : shake_ok t ->
  nvmev_proc_bars (shake_vdev t) = Ok (shake_vdev (notice t).1, (notice t).2) /\ shake_ok (notice t).1.
Proof using Ha Hs Hc He Hshn.
  intros Ht. assert (shake_ok (notice t).1) as Ht'.
  { destruct Ht as [H1 H2], t as [[] [] [] []]; simpl in *; split; simpl; naive_solver. }
  split; [|done]. unfold nvmev_proc_bars. cbn [shake_vdev vd_bar vd_old_bar u_aqa u_asq u_acq u_cc].
  rewrite (unchanged a _ Ha), (unchanged s _ Hs), (unchanged c _ Hc), (unchanged e _ e_nonzero). destruct Ht as [H1 H2].
  destruct t as [[] [] [] []]; simpl in H1, H2; try (by destruct (H1 eq_refl) as (? & ? & ?)); try (by specialize (H2 eq_refl)); cbn [sh_aqa sh_asq sh_acq sh_cc notice fst snd]; try done.
  all: first [ unfold bars_aqa | idtac ].
  all: unfold bars_asq, bars_acq, bars_cc; cbn [shake_vdev noticed sh_aqa sh_asq sh_acq sh_cc vd_admin_q vd_bar vd_old_bar u_cc u_aqa u_asq u_acq reg_new queue_seen].
  all: try (rewrite !set_db_zero by done; done).
  all: rewrite ?He, ?(proj2 (Z.eqb_neq _ _) Hshn); done.
Qed.

(** ** The host's program *)

(** A write of the host: each register once. *)
Definition write_of (ev : bar_event) (t : shaking) : option shaking :=
  match ev, t with
  | WriteAqa x, Shaking Unwritten q p n => if x =? a then Some (Shaking Written q p n) else None
  | WriteAsq x, Shaking r Unwritten p n => if x =? s then Some (Shaking r Written p n) else None
  | WriteAcq x, Shaking r q Unwritten n => if x =? c then Some (Shaking r q Written n) else None
  | WriteCc x, Shaking r q p Unwritten => if (x =? e) && (written r && written q && written p) then Some (Shaking r q p Written) else None
  | Dispatch, _ => Some (notice t).1
  | _, _ => None
  end.

Lemma exec_shake ev t t' : shake_ok t -> write_of ev t = Some t' -> bar_exec ev (shake_vdev t) = Ok (shake_vdev t') /\ shake_ok t'.
Proof using Ha Hs Hc He Hshn.
  intros Ht. destruct ev; simpl.
  1-4: destruct t as [r q p n]; try (destruct r); try (destruct q); try (destruct p); try (destruct n); try done;
    cbn; (case_match eqn:E; [|done]); intros [= <-]; simpl in E;
    (apply andb_true_iff in E as [E E2] || idtac); apply Z.eqb_eq in E as ->; (split; [done|]);
    destruct Ht as [H1 H2]; split; simpl in *; naive_solver.
  intros [= <-]. destruct (proc_bars_notice t Ht) as [-> Hn]. by rewrite bind_Ok.
Qed.

Fixpoint shake_run (evs : list bar_event) (t : shaking) : option shaking :=
  match evs with [] => Some t | ev :: evs => t ← write_of ev t; shake_run evs t end.

Lemma run_shake evs t t' : shake_ok t -> shake_run evs t = Some t' ->
  rfold bar_exec evs (shake_vdev t) = Ok (shake_vdev t') /\ shake_ok t'.
Proof using Ha Hs Hc He Hshn.
  revert t. induction evs as [|ev evs IH]; intros t Ht; simpl; [by intros [= <-]|].
  destruct (write_of ev t) as [t1|] eqn:E; [|done]. simpl. destruct (exec_shake ev t t1 Ht E) as [-> Ht1]. apply IH, Ht1.
Qed.

(** The writes of the host: the queue and its addresses in any order, then the
    configuration; calls of the dispatcher anywhere. *)
Definition host_program (evs : list bar_event) : Prop :=
  exists p, filter (fun ev => ev <> Dispatch) evs = p ++ [WriteCc e] /\ p ≡ₚ [WriteAqa a; WriteAsq s; WriteAcq c].

Definition remaining (t : shaking) : list bar_event :=
  (if written t.(sh_aqa) then [] else [WriteAqa a]) ++ (if written t.(sh_asq) then [] else [WriteAsq s]) ++
  (if written t.(sh_acq) then [] else [WriteAcq c]).

Definition all_written (t : shaking) : Prop :=
  written t.(sh_aqa) = true /\ written t.(sh_asq) = true /\ written t.(sh_acq) = true /\ written t.(sh_cc) = true.

Lemma notice_keeps t : remaining (notice t).1 = remaining t /\ written (notice t).1.(sh_cc) = written t.(sh_cc).
Proof. by destruct t as [[] [] [] []]. Qed.

Lemma remaining_none t : [] ≡ₚ remaining t -> written t.(sh_aqa) = true /\ written t.(sh_asq) = true /\ written t.(sh_acq) = true.
Proof. intros H%Permutation_nil_l. by destruct t as [[] [] [] []]. Qed.

Lemma write_remaining ev p t : ev :: p ≡ₚ remaining t -> exists t', write_of ev t = Some t' /\ p ≡ₚ remaining t' /\ sh_cc t' = sh_cc t.
Proof using.
  clear Ha Hs Hc He Hshn. intros H. assert (ev ∈ remaining t) as Hin by (rewrite <- H; set_solver).
  assert (forall l1 l2, remaining t = l1 ++ ev :: l2 -> p ≡ₚ l1 ++ l2) as Hp.
  { intros l1 l2 E. rewrite E, <- Permutation_middle in H. by apply Permutation_cons_inv in H. }
  destruct t as [r q p' n]. unfold remaining in *. cbn [sh_aqa sh_asq sh_acq] in *.
  rewrite !elem_of_app in Hin. destruct Hin as [Hin|[Hin|Hin]].
  - destruct r; simpl in Hin; [|set_solver..]. apply list_elem_of_singleton in Hin as ->. cbn. rewrite Z.eqb_refl.
    eexists. split; [done|]. split; [|done]. apply (Hp []). done.
  - destruct q; simpl in Hin; [|set_solver..]. apply list_elem_of_singleton in Hin as ->. cbn. rewrite Z.eqb_refl.
    eexists. split; [destruct r; done|]. split; [|done]. apply Hp. done.
  - destruct p'; simpl in Hin; [|set_solver..]. apply list_elem_of_singleton in Hin as ->. cbn. rewrite Z.eqb_refl.
    eexists. split; [destruct r, q; done|]. split; [|done]. cbn [sh_aqa sh_asq sh_acq remaining written]. rewrite (assoc_L (++)). apply Hp. by rewrite (assoc_L (++)).
Qed.

Lemma idle_run evs t : filter (fun ev => ev <> Dispatch) evs = [] -> all_written t -> exists t', shake_run evs t = Some t' /\ all_written t'.
Proof using.
  revert t. induction evs as [|ev evs IH]; intros t Hf Ht; simpl; [eauto|]. rewrite filter_cons in Hf. destruct (decide (ev <> Dispatch)); [done|].
  assert (ev = Dispatch) as -> by (by destruct (decide (ev = Dispatch))). cbn. apply IH; [done|].
  destruct Ht as (H1 & H2 & H3 & H4). destruct t as [[] [] [] []]; try done.
Qed.

Lemma program_run evs p t :
  filter (fun ev => ev <> Dispatch) evs = p ++ [WriteCc e] -> p ≡ₚ remaining t -> t.(sh_cc) = Unwritten ->
  exists t', shake_run evs t = Some t' /\ all_written t'.
Proof using.
  revert p t. induction evs as [|ev evs IH]; intros p t Hf Hp Hcc; [by destruct p|]. cbn [shake_run].
  rewrite filter_cons in Hf. destruct (decide (ev <> Dispatch)) as [Hd|Hd].
  - destruct p as [|w p]; simpl in Hf; injection Hf as -> Hf.
    + destruct (remaining_none t Hp) as (H1 & H2 & H3). destruct t as [r q p n]. cbn [sh_aqa sh_asq sh_acq sh_cc] in *. subst n. cbn [write_of]. rewrite Z.eqb_refl, H1, H2, H3.
      simpl in H1, H2, H3. assert (all_written (Shaking r q p Written)) as Ht by done.
      destruct r; [done|..]; (destruct q; [done|..]); (destruct p; [done|..]); by apply idle_run.
    + destruct (write_remaining w p t Hp) as (t' & -> & Hp' & Hcc'). cbn. apply (IH p t'); [done|done|by rewrite Hcc'].
  - assert (ev = Dispatch) as -> by (by destruct (decide (ev = Dispatch))). cbn. destruct (notice_keeps t) as [E1 E2].
    apply (IH p); [done|by rewrite E1|]. rewrite Hcc in E2. by destruct (sh_cc (notice t).1).
Qed.

Lemma all_noticed t : all_written t -> shake_run (replicate 4 Dispatch) t = Some (Shaking Noticed Noticed Noticed Noticed).
Proof using. intros (H1 & H2 & H3 & H4). destruct t as [[] [] [] []]; done. Qed.

Lemma shake_run_app evs1 evs2 t : shake_run (evs1 ++ evs2) t = t ← shake_run evs1 t; shake_run evs2 t.
Proof using. revert t. induction evs1 as [|ev evs1 IH]; intros t; [done|]. cbn. destruct (write_of ev t); [apply IH|done]. Qed.

Lemma handshake_ok evs : host_program evs ->
  rfold bar_exec (evs ++ replicate 4 Dispatch) (reset_vdev d) = Ok (shake_vdev (Shaking Noticed Noticed Noticed Noticed)) /\
  nvmev_proc_bars (shake_vdev (Shaking Noticed Noticed Noticed Noticed)) = Ok (shake_vdev (Shaking Noticed Noticed Noticed Noticed), false).
Proof using Ha Hs Hc He Hshn.
  intros (p & Hf & Hp). change (reset_vdev d) with (shake_vdev (Shaking Unwritten Unwritten Unwritten Unwritten)).
  destruct (program_run evs p (Shaking Unwritten Unwritten Unwritten Unwritten) Hf Hp eq_refl) as (t' & Ht & Hw). split.
  - apply run_shake; [done|]. rewrite shake_run_app, Ht. cbn. by apply all_noticed.
  - apply proc_bars_notice. done.
Qed.
End handshake.
End bars.
