(* ===== verification/AdminQueues.v ===== *)
(** * Queues as the host lays them out

    The pages of a queue follow each other, so that its entries are where the host
    puts them, one after the other from the address it gives; such queues are those
    that the dispatch of a ring and the completion ring rely on. *)

From stdpp Require Import prelude list gmap.
From Stdlib Require Import ZArith Lia.
From S2P Require Import Prelude Mem Prp SsdConfig NvmeCmd IoCopy Io IoRing Vdev Admin AdminInv Bars.

(** The entry [i] of pages that follow each other. *)
Lemma page_entry base width per size i :
  0 < per -> width * per = PAGE_SIZE -> 0 <= i < size ->
  aget ((fun i => base + i * PAGE_SIZE) <$> zrange 0 (DIV_ROUND_UP (size * width) PAGE_SIZE)) (i `div` per) = Ok (base + i `div` per * PAGE_SIZE) /\
  base + i `div` per * PAGE_SIZE + width * (i `mod` per) = base + width * i.
Proof.
  intros Hp Hw Hi. assert (0 < width) as Hwp by (unfold PAGE_SIZE in Hw; nia).
  pose proof (Z.div_mod i per ltac:(lia)) as Hd. pose proof (Z.mod_pos_bound i per Hp) as Hm. pose proof (Z.div_pos i per ltac:(lia) Hp) as Hdp.
  split; [|rewrite <- Hw; nia]. apply aget_Some. rewrite zlookup_fmap, zlookup_zrange; [done|].
  split; [done|]. unfold DIV_ROUND_UP. rewrite Z.sub_0_r. apply Z.lt_le_trans with (i `div` per + 1); [lia|].
  apply Z.div_le_lower_bound; [done|]. unfold PAGE_SIZE in *. nia.
Qed.

Lemma sq_pages_entry sq base i :
  sq.(sq_pages) = (fun i => base + i * PAGE_SIZE) <$> zrange 0 (DIV_ROUND_UP (sq.(sq_queue_size) * 64) PAGE_SIZE) ->
  0 <= i < sq.(sq_queue_size) -> sq_entry sq i = Ok (base + 64 * i).
Proof.
  intros E Hi. destruct (page_entry base 64 64 sq.(sq_queue_size) i) as [H1 H2]; [lia|done|done|].
  unfold sq_entry. change NR_SQE_PER_PAGE with 64. rewrite E, H1, bind_Ok. change NVME_COMMAND_SIZE with 64. by rewrite H2.
Qed.

Lemma cq_pages_entry cq base i :
  cq.(cq_pages) = (fun i => base + i * PAGE_SIZE) <$> zrange 0 (DIV_ROUND_UP (cq.(cq_queue_size) * 16) PAGE_SIZE) ->
  0 <= i < cq.(cq_queue_size) -> cq_entry cq i = Ok (base + 16 * i).
Proof.
  intros E Hi. destruct (page_entry base 16 256 cq.(cq_queue_size) i) as [H1 H2]; [lia|done|done|].
  unfold cq_entry. change NR_CQE_PER_PAGE with 256. rewrite E, H1, bind_Ok. change NVME_COMPLETION_SIZE with 16. by rewrite H2.
Qed.

(** A ring of entries one after the other is a ring of separate entries. *)
Lemma contiguous_ring cq base :
  0 < cq.(cq_queue_size) -> 0 <= cq.(cq_head) < cq.(cq_queue_size) -> (cq.(cq_phase) = 0 \/ cq.(cq_phase) = 1) ->
  cq.(cq_pages) = (fun i => base + i * PAGE_SIZE) <$> zrange 0 (DIV_ROUND_UP (cq.(cq_queue_size) * 16) PAGE_SIZE) -> cq_ok cq.
Proof.
  intros Hs Hh Hp E. split; [done|done|done|intros i Hi; eexists; by eapply cq_pages_entry|].
  intros i j a b Hi Hj Hij. rewrite !(cq_pages_entry cq base) by done. intros [= <-] [= <-]. unfold NVME_COMPLETION_SIZE. lia.
Qed.

(** A ring that the host cleared holds no completion of the first lap. *)
Lemma cleared_phases cq h :
  cq.(cq_head) = 0 -> cq.(cq_phase) = 1 -> (forall i a, 0 <= i < cq.(cq_queue_size) -> cq_entry cq i = Ok a ->
    forall x, a <= x < a + NVME_COMPLETION_SIZE -> h x = 0) -> phases cq h.
Proof.
  intros Hh Hp Hz i a Hi Ea. rewrite Hh, Hp, (proj2 (Z.ltb_ge i 0)) by lia. unfold get_cqe. cbn [cqe_status]. unfold get_le.
  rewrite (mload_ext h (fun _ => 0)); [done|]. intros k Hk. apply (Hz i a Hi Ea). unfold NVME_COMPLETION_SIZE. lia.
Qed.

(** ** The queues of the tables *)

Record sq_wf (sq : nvmev_submission_queue) : Prop := {
  sw_size : 0 < sq.(sq_queue_size) <= 65536;
  sw_entries : exists base, forall i, 0 <= i < sq.(sq_queue_size) -> sq_entry sq i = Ok (base + 64 * i)
}.
Record cq_wf (cq : nvmev_completion_queue) : Prop := {
  cw_size : cq.(cq_queue_size) <= 65536;
  cw_ok : cq_ok cq;
  cw_entries : exists base, forall i, 0 <= i < cq.(cq_queue_size) -> cq_entry cq i = Ok (base + 16 * i)
}.

Definition tables_wf `{BK : Backend} (v : vdev) : Prop :=
  zlen v.(vd_io).(dv_sqes) = NR_MAX_IO_QUEUE + 1 /\ zlen v.(vd_io).(dv_cqes) = NR_MAX_IO_QUEUE + 1 /\
  0 <= v.(vd_nr_sq) <= NR_MAX_IO_QUEUE /\ 0 <= v.(vd_io).(dv_nr_cq) <= NR_MAX_IO_QUEUE /\
  (forall i sq, v.(vd_io).(dv_sqes) !! i = Some (Some sq) -> sq_wf sq) /\
  (forall i cq, v.(vd_io).(dv_cqes) !! i = Some (Some cq) -> cq_wf cq).

Definition abs_wf (s : admin_abs) : Prop :=
  (forall i sq, s.(ab_sqs) !! i = Some sq -> sq_wf sq) /\ (forall i cq, s.(ab_cqs) !! i = Some cq -> cq_wf cq).

Lemma described_sq_wf h a : 0 <= q_size h a < 65536 -> sq_wf (described_sq h a).
Proof.
  intros Hq. split; [simpl; lia|]. exists (cmd_prp1 h a). intros i Hi. by apply sq_pages_entry.
Qed.
Lemma described_cq_wf h a : 0 <= q_size h a < 65536 -> cq_wf (described_cq h a).
Proof.
  intros Hq. split; [simpl; lia| |exists (cmd_prp1 h a); intros i Hi; by apply cq_pages_entry].
  apply (contiguous_ring _ (cmd_prp1 h a)); simpl; try lia. done.
Qed.

Section wf.
Context `{BK : Backend} `{BD : Build} `{NF : !NsFields BK}.

Lemma spec_wf nss h a s : admin_allowed nss h a -> abs_wf s -> abs_wf (admin_spec (decode_admin h a) s).1.
Proof using.
  intros (_ & Hq & _) [H1 H2]. unfold decode_admin.
  destruct (cmd_opcode h a =? 0) eqn:E0.
  { split; [|done]. intros i sq. simpl. intros [_ E]%lookup_delete_Some. by eapply H1. }
  destruct (cmd_opcode h a =? 1) eqn:E1.
  { apply Z.eqb_eq in E1. split; [|done]. intros i sq. simpl. intros [[_ <-]|[_ E]]%lookup_insert_Some; [|by eapply H1].
    apply described_sq_wf. apply Hq. auto. }
  destruct (cmd_opcode h a =? 2); [done|].
  destruct (cmd_opcode h a =? 4) eqn:E4.
  { split; [done|]. intros i cq. simpl. intros [_ E]%lookup_delete_Some. by eapply H2. }
  destruct (cmd_opcode h a =? 5) eqn:E5.
  { apply Z.eqb_eq in E5. split; [done|]. intros i cq. simpl. intros [[_ <-]|[_ E]]%lookup_insert_Some; [|by eapply H2].
    apply described_cq_wf. apply Hq. auto. }
  repeat case_match; done.
Qed.

Lemma spec_run_wf nss q h es s s' ws :
  (forall e, e ∈ es -> admin_allowed nss h (addr q e)) -> abs_wf s -> admin_spec_run q h es s = (s', ws) -> abs_wf s'.
Proof using.
  revert s s' ws. induction es as [|e es IH]; intros s s' ws Hall Hs; simpl; [by intros [= <- <-]|].
  destruct (admin_spec _ s) as [s1 ans] eqn:E1. destruct (admin_spec_run q h es s1) as [s2 ws2] eqn:E2. intros [= <- _].
  eapply (IH s1); [intros e' He'; apply Hall; set_solver| |done].
  pose proof (spec_wf nss h (addr q e) s ltac:(apply Hall; set_solver) Hs) as H. by rewrite E1 in H.
Qed.

(** The tables and the specification's, both ways. *)
Lemma rel_wf v s : admin_rel v s -> abs_wf s -> tables_wf v.
Proof using.
  intros [[R1 R1'] [R2 R2'] R3 R4 R5 _ _] [H1 H2]. unfold NR_MAX_IO_QUEUE in R1, R2, R1', R2', R5.
  unfold tables_wf, NR_MAX_IO_QUEUE.
  split; [done|]. split; [done|]. split; [lia|]. split; [lia|]. split.
  - intros i sq E. pose proof (zlookup_Some_range _ _ _ E). rewrite R1' in E by lia. injection E as E. by eapply H1.
  - intros i cq E. pose proof (zlookup_Some_range _ _ _ E). rewrite R2' in E by lia. injection E as E. by eapply H2.
Qed.


Definition table_map {A} (l : list (option A)) : gmap Z A := omap id (map_seqZ 0 l : gmap Z (option A)).

Lemma table_map_lookup {A} (l : list (option A)) i : table_map l !! i = (l !! i) ≫= id.
Proof using.
  unfold table_map. rewrite lookup_omap. f_equal. destruct (decide (0 <= i)) as [Hi|Hi].
  - rewrite lookup_map_seqZ_0 by done. by rewrite zlookup_to_nat.
  - rewrite (proj2 (lookup_map_seqZ_None _ _ _)) by lia. symmetry. unfold lookup, zlookup. by rewrite decide_False.
Qed.

Lemma table_map_rel {A} (l : list (option A)) : zlen l = NR_MAX_IO_QUEUE + 1 -> table_rel l (table_map l).
Proof using.
  intros Hl. split; [done|]. intros i Hi. rewrite table_map_lookup. destruct (zlookup_lt l i) as [o ->]; [lia|]. by destruct o.
Qed.

(** The tables of a device, as the specification has them. *)
Definition abs_of (v : vdev) : admin_abs :=
  AdminAbs (table_map v.(vd_io).(dv_sqes)) (table_map v.(vd_io).(dv_cqes)) v.(vd_nr_sq) v.(vd_io).(dv_nr_cq) v.(vd_dbs) v.(vd_old_dbs).

Lemma abs_of_rel v : tables_wf v -> zlen v.(vd_dbs) = 1024 -> zlen v.(vd_old_dbs) = 1024 ->
  (v.(vd_nr_sq) = 0 <-> v.(vd_io).(dv_nr_cq) = 0) -> admin_rel v (abs_of v).
Proof using.
  intros (L1 & L2 & N1 & N2 & W1 & W2) D1 D2 Hz. split; try done; try (by apply table_map_rel); cbn; lia.
Qed.

Lemma abs_of_wf v : tables_wf v -> abs_wf (abs_of v).
Proof using.
  intros (_ & _ & _ & _ & W1 & W2). split; intros i q; cbn [abs_of ab_sqs ab_cqs]; rewrite table_map_lookup;
    intros (o & E & Ho)%bind_Some; cbn in Ho; subst o; eauto.
Qed.

(** At most one completion for a command. *)
Lemma spec_run_length q h es s s' ws : admin_spec_run q h es s = (s', ws) -> (length ws <= length es)%nat.
Proof using.
  revert s s' ws. induction es as [|e es IH]; intros s s' ws; simpl; [by intros [= <- <-]|].
  destruct (admin_spec _ s) as [s1 ans]. destruct (admin_spec_run q h es s1) as [s2 ws2] eqn:E2. intros [= <- <-].
  apply IH in E2. destruct ans as [[st r0]|]; simpl; lia.
Qed.

(** The queue of the last answer is as good as that of the first. *)
Lemma with_ring_ok q0 q : admin_q_ok q0 -> q = with_ring (admin_ring q) q0 -> cq_ok (admin_ring q) -> admin_q_ok q.
Proof using.
  intros [K1 K2 K3 K4 K5] E Hc. rewrite E. split; try done. by rewrite <- E.
Qed.
End wf.

(** ** The admin queue that the registers describe *)

Lemma land_bound x n : 0 <= n -> 0 <= Z.land x (Z.ones n) < 2 ^ n.
Proof. intros Hn. rewrite Z.land_ones by done. apply Z.mod_pos_bound, Z.pow_pos_nonneg; lia. Qed.

Lemma depths_range aqa : 0 <= aqa_asqs aqa <= 4095 /\ 0 <= aqa_acqs aqa <= 4095.
Proof.
  pose proof (land_bound aqa 12 ltac:(lia)). pose proof (land_bound (Z.shiftr aqa 16) 12 ltac:(lia)).
  unfold aqa_asqs, aqa_acqs. change (2 ^ 12) with 4096 in *. change (Z.ones 12) with 4095 in *. lia.
Qed.

(** The base of a ring: the page of the register. *)
Definition ring_base (reg : Z) : Z := Z.shiftr reg PAGE_SHIFT * PAGE_SIZE.

Section seen.
Context (a s c : Z).
Let nsq := aqa_asqs a + 1.
Let ncq := aqa_acqs a + 1.
Let q := queue_seen a s c true true.

Lemma seen_sq_entry i : 0 <= i < nsq -> admin_sq_entry q i = Ok (ring_base s + 64 * i).
Proof.
  intros Hi. destruct (page_entry (ring_base s) 64 64 nsq i) as [H1 H2]; [lia|done|done|].
  unfold admin_sq_entry. cbn [q queue_seen aq_sq of_opt]. rewrite bind_Ok. change NR_SQE_PER_PAGE with 64. unfold sq_pages_of, admin_pages.
  change NVME_COMMAND_SIZE with 64. fold nsq (ring_base s). rewrite H1, bind_Ok. by rewrite H2.
Qed.

Lemma seen_cq_entry i : 0 <= i < ncq -> cq_entry (admin_ring q) i = Ok (ring_base c + 16 * i).
Proof. intros Hi. by apply cq_pages_entry. Qed.

Lemma seen_admin_q_ok :
  ring_base s + 64 * nsq <= ring_base c \/ ring_base c + 16 * ncq <= ring_base s -> admin_q_ok q.
Proof.
  intros Hd. destruct (depths_range a) as [Ha1 Ha2]. split.
  - apply (contiguous_ring _ (ring_base c)); cbn; try lia. done.
  - by eexists.
  - cbn. lia.
  - intros i Hi. eexists. by apply seen_sq_entry.
  - intros i j x y Hi Hj. rewrite seen_sq_entry, seen_cq_entry by done. intros [= <-] [= <-].
    unfold NVME_COMMAND_SIZE, NVME_COMPLETION_SIZE. cbn in Hi, Hj. fold nsq in Hi. fold ncq in Hj. lia.
Qed.

Lemma seen_data_ok h cmd :
  let lo := cmd_prp1 h cmd in
  let hi := lo + admin_data h cmd in
  hi <= ring_base s \/ ring_base s + 64 * nsq <= lo -> hi <= ring_base c \/ ring_base c + 16 * ncq <= lo -> data_ok q h cmd.
Proof.
  intros lo hi Hs Hc. split; intros i b Hi; cbn in Hi; fold nsq ncq in Hi; [rewrite seen_sq_entry|rewrite seen_cq_entry]; try done;
    intros [= <-]; unfold NVME_COMMAND_SIZE, NVME_COMPLETION_SIZE; fold lo hi; lia.
Qed.
End seen.
