(* ===== verification/PciCfg.v ===== *)
(** * The configuration space of the emulated PCI device (pci.c, pci.h)

    A page of memory that the kernel reads and writes for the host through
    [nvmev_pci_read] and [nvmev_pci_write]; the latter lets a write change only some
    bits of the header and of the MSI-X capability.  [nvmev_signal_irq] raises an
    interrupt by MSI-X or by the pin.

    A field of a structure is a range of bits of a word of the page, in the layout
    that the compiler gives to bit-fields on a little-endian machine.  The constants
    of the PCI standard that the kernel's headers define have its values.  The
    number of an interrupt that [msi_get_virq] finds is a parameter. *)

From stdpp Require Import prelude list.
From Stdlib Require Import ZArith Lia.
From S2P Require Import Prelude Mem.

(** ** Constants *)

Definition OFFS_PCI_HDR : Z := 0.
Definition OFFS_PCI_PM_CAP : Z := 64.
Definition OFFS_PCI_MSIX_CAP : Z := 80.
Definition OFFS_PCIE_CAP : Z := 96.
Definition PCI_CFG_SPACE_SIZE : Z := 256.
Definition OFFS_PCI_EXT_CAP : Z := PCI_CFG_SPACE_SIZE.

Definition NVMEV_DEVICE_ID : Z := 272.
Definition NVMEV_VENDOR_ID : Z := 3153.
Definition NVMEV_SUBSYSTEM_ID : Z := 14093.
Definition NVMEV_SUBSYSTEM_VENDOR_ID : Z := NVMEV_VENDOR_ID.
Definition NVMEV_INTX_IRQ : Z := 15.

Definition PCI_COMMAND : Z := 4.
Definition PCI_COMMAND_INTX_DISABLE : Z := 1024.
Definition PCI_STATUS : Z := 6.
Definition PCI_BIST : Z := 15.
Definition PCI_BIST_START : Z := 64.
Definition PCI_BASE_ADDRESS_0 : Z := 16.
Definition PCI_BASE_ADDRESS_MEM_TYPE_64 : Z := 4.
Definition PCI_INTERRUPT_LINE : Z := 60.
Definition PCI_MSIX_FLAGS : Z := 2.
Definition PCI_MSIX_FLAGS_MASKALL : Z := 16384.
Definition PCI_MSIX_FLAGS_ENABLE : Z := 32768.
Definition PCI_HEADER_TYPE_NORMAL : Z := 0.
Definition PCI_BASE_CLASS_STORAGE : Z := 1.
Definition PCI_CAP_ID_PM : Z := 1.
Definition PCI_CAP_ID_MSIX : Z := 17.
Definition PCI_CAP_ID_EXP : Z := 16.
Definition PCI_PM_CAP_PME_D0 : Z := 2048.
Definition PCI_EXP_FLAGS : Z := 2.
Definition PCI_EXP_TYPE_ENDPOINT : Z := 0.
Definition PCI_EXT_CAP_ID_ERR : Z := 1.
Definition PCI_EXT_CAP_ID_VC : Z := 2.
Definition PCI_EXT_CAP_ID_DSN : Z := 3.
Definition PCI_EXT_CAP_ID_PWR : Z := 4.
Definition PCI_EXT_CAP_ID_ARI : Z := 14.
Definition PCI_EXT_CAP_ID_SECPCI : Z := 25.

(** ** The state *)

(** What is read of [struct pci_dev] of the kernel. *)
Record pci_dev := PciDev { msix_enabled : bool; pd_irq : Z }.

(** An interrupt that was raised: the kernel's number of an MSI-X vector, or of the pin. *)
Inductive irq := IrqMsi (virq : Z) | IrqLine (n : Z).

(** [pc_space] is [virtDev], a page of bytes. *)
Record pci_cfg := PciCfg { pc_space : mem; pc_pdev : option pci_dev; pc_intx_disabled : bool; pc_irqs : list irq }.

Definition with_space (m : mem) (s : pci_cfg) : pci_cfg := PciCfg m s.(pc_pdev) s.(pc_intx_disabled) s.(pc_irqs).
Definition with_pdev (d : option pci_dev) (s : pci_cfg) : pci_cfg := PciCfg s.(pc_space) d s.(pc_intx_disabled) s.(pc_irqs).
Definition with_intx (b : bool) (s : pci_cfg) : pci_cfg := PciCfg s.(pc_space) s.(pc_pdev) b s.(pc_irqs).

(** [memcpy(virtDev + a, &x, n)]. *)
Definition put_word (n : nat) (a x : Z) (m : mem) : mem := mstore m a (le_encode n x).

(** The bits from [lo] on, [width] of them, of the word of [n] bytes at [a]. *)
Definition set_field (a n lo width x : Z) (m : mem) : mem :=
  put_word (Z.to_nat n) a (Z.lor (Z.ldiff (get_le m a n) (Z.shiftl (Z.ones width) lo)) (Z.shiftl (x mod 2 ^ width) lo)) m.

(** [pcihdr->sts.is = x]. *)
Definition set_is (x : Z) (s : pci_cfg) : pci_cfg := with_space (set_field 6 1 3 1 x s.(pc_space)) s.

(** ** Interrupts *)

Section irq.
Context (msi_get_virq : Z -> Z).

Definition __signal_irq (i : irq) (s : pci_cfg) : pci_cfg := PciCfg s.(pc_space) s.(pc_pdev) s.(pc_intx_disabled) (s.(pc_irqs) ++ [i]).

Definition __process_msi_irq (msi_index : Z) (s : pci_cfg) : res pci_cfg :=
  let virq := msi_get_virq msi_index in
  if virq =? 0 then Fault BugOn else Ok (__signal_irq (IrqMsi virq) s).

Definition nvmev_signal_irq (msi_index : Z) (s : pci_cfg) : res pci_cfg :=
  d ← of_opt NullDeref s.(pc_pdev);
  if d.(msix_enabled) then __process_msi_irq msi_index s
  else Ok (__signal_irq (IrqLine d.(pd_irq)) (set_is 1 s)).
End irq.

(** ** Reads and writes *)

(** A copy of [size] bytes at [where] stays in the page and in the word of 32 bits. *)
Definition in_space (where_ size : Z) : bool := (0 <=? where_) && (0 <=? size) && (size <=? 4) && (where_ + size <=? 4096).

(** [None] is the error that another function of the device gets. *)
Definition nvmev_pci_read (devfn where_ size : Z) (s : pci_cfg) : res (option Z) :=
  if negb (devfn =? 0) then Ok None else
  if negb (in_space where_ size) then Fault OutOfBounds else
  Ok (Some (get_le s.(pc_space) where_ size)).

(** The mask of the bits that change, and what else the write does. *)
Definition pci_write_mask (where_ val _val : Z) (s : pci_cfg) : Z * pci_cfg :=
  let all := u32 (Z.lnot 0) in
  if where_ <? OFFS_PCI_PM_CAP then
    if where_ =? PCI_COMMAND then
      (PCI_COMMAND_INTX_DISABLE,
       if negb (Z.land (Z.lxor val _val) PCI_COMMAND_INTX_DISABLE =? 0)
       then let s := with_intx (negb (Z.land _val PCI_COMMAND_INTX_DISABLE =? 0)) s in
            if s.(pc_intx_disabled) then s else set_is 0 s
       else s)
    else if where_ =? PCI_STATUS then (61952, s)
    else if where_ =? PCI_BIST then (PCI_BIST_START, s)
    else if where_ =? PCI_BASE_ADDRESS_0 then (4294950912, s)
    else if where_ =? PCI_INTERRUPT_LINE then (255, s)
    else (0, s)
  else if where_ <? OFFS_PCI_MSIX_CAP then (all, s)
  else if where_ <? OFFS_PCIE_CAP then
    if where_ - OFFS_PCI_MSIX_CAP =? PCI_MSIX_FLAGS then
      (Z.lor PCI_MSIX_FLAGS_MASKALL PCI_MSIX_FLAGS_ENABLE,
       match s.(pc_pdev) with
       | Some d => if negb (Z.land (Z.lxor val _val) PCI_MSIX_FLAGS_ENABLE =? 0)
                   then with_pdev (Some (PciDev (negb (Z.land _val PCI_MSIX_FLAGS_ENABLE =? 0)) d.(pd_irq))) s else s
       | None => s
       end)
    else (0, s)
  else (all, s).

Definition nvmev_pci_write (where_ size _val : Z) (s : pci_cfg) : res pci_cfg :=
  if negb (in_space where_ size) then Fault OutOfBounds else
  let val := get_le s.(pc_space) where_ size in
  let '(mask, s) := pci_write_mask where_ val _val s in
  let val := Z.lor (Z.land val (u32 (Z.lnot mask))) (Z.land _val mask) in
  Ok (with_space (put_word (Z.to_nat size) where_ val s.(pc_space)) s).

(** ** The start *)

Definition PCI_HEADER_SETTINGS (base_pa : Z) (m : mem) : mem :=
  let m := set_field 2 2 0 16 NVMEV_DEVICE_ID m in
  let m := set_field 0 2 0 16 NVMEV_VENDOR_ID m in
  let m := set_field 4 1 1 1 1 m in
  let m := set_field 6 1 4 1 1 m in
  let m := set_field 14 1 7 1 0 m in
  let m := set_field 14 1 0 7 PCI_HEADER_TYPE_NORMAL m in
  let m := set_field 8 1 0 8 1 m in
  let m := set_field 11 1 0 8 PCI_BASE_CLASS_STORAGE m in
  let m := set_field 10 1 0 8 8 m in
  let m := set_field 9 1 0 8 2 m in
  let m := set_field 16 4 1 2 (Z.shiftr PCI_BASE_ADDRESS_MEM_TYPE_64 1) m in
  let m := set_field 16 4 14 18 (Z.shiftr (Z.land base_pa 4294967295) 14) m in
  let m := set_field 20 4 0 32 (Z.shiftr base_pa 32) m in
  let m := set_field 46 2 0 16 NVMEV_SUBSYSTEM_ID m in
  let m := set_field 44 2 0 16 NVMEV_SUBSYSTEM_VENDOR_ID m in
  let m := set_field 48 4 0 32 0 m in
  let m := set_field 52 1 0 8 OFFS_PCI_PM_CAP m in
  let m := set_field 61 1 0 8 0 m in
  set_field 60 1 0 8 NVMEV_INTX_IRQ m.

Definition PCI_PMCAP_SETTINGS (m : mem) : mem :=
  let p := OFFS_PCI_PM_CAP in
  let m := set_field p 1 0 8 PCI_CAP_ID_PM m in
  let m := set_field (p + 1) 1 0 8 OFFS_PCI_MSIX_CAP m in
  let m := set_field (p + 2) 2 0 3 3 m in
  let m := set_field (p + 4) 2 3 1 1 m in
  set_field (p + 4) 2 0 2 (Z.shiftr PCI_PM_CAP_PME_D0 16) m.

Definition PCI_MSIXCAP_SETTINGS (m : mem) : mem :=
  let p := OFFS_PCI_MSIX_CAP in
  let m := set_field p 1 0 8 PCI_CAP_ID_MSIX m in
  let m := set_field (p + 1) 1 0 8 OFFS_PCIE_CAP m in
  let m := set_field (p + 2) 2 15 1 1 m in
  let m := set_field (p + 2) 2 0 11 127 m in
  let m := set_field (p + 4) 4 0 3 0 m in
  let m := set_field (p + 4) 4 3 29 1024 m in
  let m := set_field (p + 8) 4 3 29 4096 m in
  set_field (p + 8) 4 0 3 0 m.

Definition PCI_PCIECAP_SETTINGS (m : mem) : mem :=
  let p := OFFS_PCIE_CAP in
  let m := set_field p 1 0 8 PCI_CAP_ID_EXP m in
  let m := set_field (p + 1) 1 0 8 0 m in
  let m := set_field (p + 2) 1 0 4 PCI_EXP_FLAGS m in
  let m := set_field (p + 3) 1 1 5 0 m in
  let m := set_field (p + 2) 1 4 4 PCI_EXP_TYPE_ENDPOINT m in
  let m := set_field (p + 4) 4 0 3 1 m in
  let m := set_field (p + 4) 4 3 2 0 m in
  let m := set_field (p + 4) 4 5 1 1 m in
  let m := set_field (p + 4) 4 6 3 6 m in
  let m := set_field (p + 4) 4 9 3 2 m in
  let m := set_field (p + 4) 4 15 1 1 m in
  let m := set_field (p + 4) 4 18 8 0 m in
  let m := set_field (p + 4) 4 26 2 0 m in
  set_field (p + 4) 4 28 1 1 m.

(** The header of an extended capability: [cid], [cver] and [next]. *)
Definition set_ext_cap (a cid next : Z) (m : mem) : mem :=
  set_field (a + 2) 2 4 12 next (set_field (a + 2) 2 0 4 1 (set_field a 2 0 16 cid m)).

Definition PCI_EXTCAP_SETTINGS (m : mem) : mem :=
  let base := OFFS_PCI_EXT_CAP in
  let m := set_ext_cap base PCI_EXT_CAP_ID_ERR (PCI_CFG_SPACE_SIZE + 80) m in
  let m := set_ext_cap (base + 80) PCI_EXT_CAP_ID_VC (PCI_CFG_SPACE_SIZE + 128) m in
  let m := set_ext_cap (base + 128) PCI_EXT_CAP_ID_PWR (PCI_CFG_SPACE_SIZE + 144) m in
  let m := set_ext_cap (base + 144) PCI_EXT_CAP_ID_ARI (PCI_CFG_SPACE_SIZE + 368) m in
  let m := set_ext_cap (base + 368) PCI_EXT_CAP_ID_DSN (PCI_CFG_SPACE_SIZE + 416) m in
  set_ext_cap (base + 416) PCI_EXT_CAP_ID_SECPCI 0 m.

(** [VDEV_INIT]: the page is zero and there is no device of the kernel yet. *)
Definition VDEV_INIT : pci_cfg := PciCfg (fun _ => 0) None false [].

Record cfg_write := CfgWrite { cw_where : Z; cw_size : Z; cw_val : Z }.

(** [NVMEV_PCI_INIT]; [scan] is what the kernel writes while it looks for devices on
    the new bus, at the end of which it has made one. *)
Definition __create_pci_bus (scan : list cfg_write) (s : pci_cfg) : res pci_cfg :=
  s ← rfold (fun w => nvmev_pci_write w.(cw_where) w.(cw_size) w.(cw_val)) scan s;
  Ok (with_pdev (Some (PciDev false (get_le s.(pc_space) 60 1))) s).

Definition NVMEV_PCI_INIT (base_pa : Z) (scan : list cfg_write) (s : pci_cfg) : res pci_cfg :=
  let m := PCI_HEADER_SETTINGS base_pa s.(pc_space) in
  let m := PCI_EXTCAP_SETTINGS (PCI_PCIECAP_SETTINGS (PCI_MSIXCAP_SETTINGS (PCI_PMCAP_SETTINGS m))) in
  __create_pci_bus scan (with_intx false (with_space m s)).
