(* ===== verification/PciInv.v ===== *)
(** * What the host can change in the configuration space

    [changeable] lists the bits of the page that may change: those that the masks of
    [nvmev_pci_write] let through, and the interrupt status.  Every other bit keeps
    its value under any sequence of writes and interrupts ([cfg_run_ok]), and the
    flags that the device keeps beside the page agree with it. *)

From stdpp Require Import prelude list.
From Stdlib Require Import ZArith Lia.
From S2P Require Import Prelude Mem PciCfg.

(** ** Bytes and bits *)

Definition bytes_ok (m : mem) : Prop := forall x, 0 <= m x < 256.

Lemma zlookup_le_encode n x k : 0 <= k < Z.of_nat n -> le_encode n x !! k = Some ((x / 256 ^ k) mod 256).
Proof.
  intros Hk. rewrite zlookup_to_nat by lia. rewrite <- (Z2Nat.id k) at 2 by lia.
  assert (Z.to_nat k < n)%nat as Hn by lia. revert Hn. generalize (Z.to_nat k) as i. clear. intros i Hn.
  revert x i Hn. induction n as [|n IH]; intros x [|i] Hn; [lia..| |].
  - change (256 ^ Z.of_nat 0) with 1. rewrite Z.div_1_r. done.
  - change (le_encode (S n) x !! S i) with (le_encode n (x `div` 256) !! i). rewrite IH by lia.
    rewrite Nat2Z.inj_succ, Z.pow_succ_r by lia. by rewrite Z.div_div by lia.
Qed.

Lemma put_word_in n a x m y : a <= y < a + Z.of_nat n -> put_word n a x m y = (x / 256 ^ (y - a)) mod 256.
Proof. intros Hy. unfold put_word, mstore. by rewrite zlookup_le_encode by lia. Qed.

Lemma put_word_out n a x m y : ~ (a <= y < a + Z.of_nat n) -> put_word n a x m y = m y.
Proof. intros Hy. apply mstore_out. by rewrite zlen_le_encode. Qed.

Lemma put_word_bytes n a x m : bytes_ok m -> bytes_ok (put_word n a x m).
Proof.
  intros Hm y. destruct (decide (a <= y < a + Z.of_nat n)) as [H|H]; [|by rewrite put_word_out].
  rewrite put_word_in by done. by apply Z.mod_pos_bound.
Qed.

(** Bit [i] of byte [k] of a word. *)
Lemma testbit_byte x k i : 0 <= k -> 0 <= i < 8 -> Z.testbit ((x / 256 ^ k) mod 256) i = Z.testbit x (8 * k + i).
Proof.
  intros Hk Hi. change 256 with (2 ^ 8) at 2. rewrite Z.mod_pow2_bits_low by lia.
  change 256 with (2 ^ 8). rewrite <- Z.pow_mul_r by lia. rewrite Z.div_pow2_bits by lia. f_equal. lia.
Qed.

Lemma le_decode_byte bs k b : Forall (fun b => 0 <= b < 256) bs -> bs !! k = Some b -> (le_decode bs / 256 ^ k) mod 256 = b.
Proof.
  intros Hbs Hb. pose proof (zlookup_Some_range _ _ _ Hb) as Hk. rewrite zlookup_to_nat in Hb by lia.
  rewrite <- (Z2Nat.id k) by lia. revert Hb. generalize (Z.to_nat k) as i. clear Hk k. intros i. revert i.
  induction Hbs as [|c bs Hc Hbs IH]; intros i Hb; [done|]. destruct i as [|i]; cbn [le_decode].
  - injection Hb as <-. change (256 ^ Z.of_nat 0) with 1. rewrite Z.div_1_r. replace (c + 256 * le_decode bs) with (c + le_decode bs * 256) by lia. rewrite Z.mod_add by lia. by apply Z.mod_small.
  - rewrite Nat2Z.inj_succ, Z.pow_succ_r by lia. rewrite <- Z.div_div by lia.
    replace (c + 256 * le_decode bs) with (le_decode bs * 256 + c) by lia. rewrite Z.div_add_l, (Z.div_small c), Z.add_0_r by lia. by apply IH.
Qed.

Lemma mload_bytes m a n : bytes_ok m -> Forall (fun b => 0 <= b < 256) (mload m a n).
Proof. intros Hm. unfold mload. rewrite Forall_fmap. apply Forall_true. intros i. apply Hm. Qed.

Lemma testbit_get_le m a n x i : bytes_ok m -> a <= x < a + n -> 0 <= i < 8 ->
  Z.testbit (get_le m a n) (8 * (x - a) + i) = Z.testbit (m x) i.
Proof.
  intros Hm Hx Hi. rewrite <- testbit_byte by lia. unfold get_le.
  rewrite (le_decode_byte _ (x - a) (m x)); [done|by apply mload_bytes|]. rewrite zlookup_mload by lia. do 2 f_equal. lia.
Qed.

Lemma le_decode_bound bs : Forall (fun b => 0 <= b < 256) bs -> 0 <= le_decode bs < 256 ^ zlen bs.
Proof.
  induction 1 as [|b bs Hb Hbs IH]; [done|]. cbn [le_decode]. unfold zlen in *. cbn [length]. rewrite Nat2Z.inj_succ, Z.pow_succ_r by lia. lia.
Qed.

Lemma get_le_bound m a n : bytes_ok m -> 0 <= n -> 0 <= get_le m a n < 256 ^ n.
Proof. intros Hm Hn. pose proof (le_decode_bound _ (mload_bytes m a n Hm)) as H. by rewrite zlen_mload in H. Qed.

(** Bits of a number below a power of 256 end there. *)
Lemma testbit_above x n j : 0 <= n -> 0 <= x < 256 ^ n -> 8 * n <= j -> Z.testbit x j = false.
Proof.
  intros Hn Hx Hj. destruct (decide (x = 0)) as [->|H0]; [apply Z.bits_0|]. apply Z.bits_above_log2; [lia|].
  apply Z.log2_lt_pow2; [lia|]. apply Z.lt_le_trans with (256 ^ n); [lia|]. change 256 with (2 ^ 8). rewrite <- Z.pow_mul_r by lia.
  apply Z.pow_le_mono_r; lia.
Qed.

(** ** A write, bit by bit *)

Lemma testbit_not32 mask j : 0 <= j < 32 -> Z.testbit (u32 (Z.lnot mask)) j = negb (Z.testbit mask j).
Proof.
  Transparent u32. unfold u32. intros Hj. change 4294967296 with (2 ^ 32). rewrite Z.mod_pow2_bits_low by lia. apply Z.lnot_spec. lia.
  Opaque u32.
Qed.

Lemma testbit_masked val _val mask j : 0 <= j < 32 ->
  Z.testbit (Z.lor (Z.land val (u32 (Z.lnot mask))) (Z.land _val mask)) j = if Z.testbit mask j then Z.testbit _val j else Z.testbit val j.
Proof.
  intros Hj. rewrite Z.lor_spec, !Z.land_spec, testbit_not32 by done. destruct (Z.testbit mask j), (Z.testbit val j), (Z.testbit _val j); done.
Qed.

Definition bit (s : pci_cfg) (x i : Z) : bool := Z.testbit (s.(pc_space) x) i.

(** The bit of a write that lands on bit [i] of byte [x]. *)
Lemma write_bit where_ size _val s s' x i :
  bytes_ok s.(pc_space) -> nvmev_pci_write where_ size _val s = Ok s' -> 0 <= i < 8 ->
  let val := get_le s.(pc_space) where_ size in
  let '(mask, s1) := pci_write_mask where_ val _val s in
  let j := 8 * (x - where_) + i in
  s' = with_space s'.(pc_space) s1 /\
  bit s' x i = if decide (where_ <= x < where_ + size) then (if Z.testbit mask j then Z.testbit _val j else bit s x i) else bit s1 x i.
Proof.
  intros Hm. unfold nvmev_pci_write. destruct (in_space where_ size) eqn:Ein; [|done]. cbn [negb].
  unfold in_space in Ein. rewrite !andb_true_iff, !Z.leb_le in Ein. destruct Ein as [[[E1 E2] E3] E4].
  cbv zeta. destruct (pci_write_mask _ _ _ _) as [mask s1]. intros [= <-] Hi. split; [done|]. unfold bit. cbn [with_space pc_space].
  case_decide as Hx.
  - rewrite put_word_in by lia. rewrite testbit_byte, testbit_masked by lia. by rewrite testbit_get_le by (done || lia).
  - rewrite put_word_out by lia. done.
Qed.

(** ** What may change *)

(** Bit 2 of byte 5 is [PCI_COMMAND_INTX_DISABLE], bit 3 of byte 6 the interrupt
    status; then the status word, the start of the built-in test, the address of the
    registers above 16 KiB, the interrupt line, the power management capability, the
    enable and mask bits of MSI-X, and all that is behind it. *)
Definition changeable (x i : Z) : bool :=
  if x <? 64 then
    (x =? 5) && (i =? 2) || (x =? 6) && (i =? 3) || (x =? 7) && ((i =? 1) || (4 <=? i)) || (x =? 15) && (i =? 6) ||
    (x =? 17) && (6 <=? i) || (x =? 18) || (x =? 19) || (x =? 60)
  else if x <? 80 then true
  else if x <? 96 then (x =? 83) && (6 <=? i)
  else true.

(** An access that the kernel makes: one, two or four bytes, aligned, in the page. *)
Record aligned (w : cfg_write) : Prop := {
  al_size : w.(cw_size) = 1 \/ w.(cw_size) = 2 \/ w.(cw_size) = 4;
  al_mod : w.(cw_where) mod w.(cw_size) = 0;
  al_where : 0 <= w.(cw_where) /\ w.(cw_where) + w.(cw_size) <= 4096;
  al_val : 0 <= w.(cw_val) < 256 ^ w.(cw_size)
}.

Lemma aligned_in_space w : aligned w -> in_space w.(cw_where) w.(cw_size) = true.
Proof. intros [H1 H2 H3 H4]. unfold in_space. rewrite !andb_true_iff, !Z.leb_le. lia. Qed.

(** An access below a multiple of four does not reach over it. *)
Lemma aligned_below w b : aligned w -> b mod 4 = 0 -> w.(cw_where) < b -> w.(cw_where) + w.(cw_size) <= b.
Proof.
  intros [H1 H2 H3 H4] Hb Hw. destruct H1 as [E|[E|E]]; rewrite E in *; [lia|..]; Z.div_mod_to_equations; lia.
Qed.

Ltac bit_cases x i lo :=
  let Hx := fresh in assert (x = lo \/ x = lo + 1 \/ x = lo + 2 \/ x = lo + 3) as Hx by lia; simpl in Hx;
  let Hi := fresh in assert (i = 0 \/ i = 1 \/ i = 2 \/ i = 3 \/ i = 4 \/ i = 5 \/ i = 6 \/ i = 7) as Hi by lia;
  destruct Hx as [->|[->|[->| ->]]]; destruct Hi as [->|[->|[->|[->|[->|[->|[->| ->]]]]]]].

Lemma mask_changeable w val s x i : aligned w -> w.(cw_where) <= x < w.(cw_where) + w.(cw_size) -> 0 <= i < 8 ->
  Z.testbit (pci_write_mask w.(cw_where) val w.(cw_val) s).1 (8 * (x - w.(cw_where)) + i) = true -> changeable x i = true.
Proof.
  intros Hw Hx Hi. pose proof (al_size _ Hw) as Hsz. destruct w as [a n v]. cbn [cw_where cw_size cw_val] in *. unfold pci_write_mask. cbv zeta.
  destruct (Z.ltb_spec a OFFS_PCI_PM_CAP) as [H1|H1].
  { repeat (match goal with |- context [a =? ?c] => destruct (Z.eqb_spec a c) as [->|] end;
      [cbn [fst]; unfold PCI_COMMAND, PCI_STATUS, PCI_BIST, PCI_BASE_ADDRESS_0, PCI_INTERRUPT_LINE in *;
       match type of Hx with ?b <= x < _ => bit_cases x i b end; vm_compute; congruence|]).
    cbn [fst]. by rewrite Z.bits_0. }
  destruct (Z.ltb_spec a OFFS_PCI_MSIX_CAP) as [H2|H2].
  { intros _. pose proof (aligned_below _ 80 Hw eq_refl H2) as H. cbn in H. unfold changeable, OFFS_PCI_PM_CAP, OFFS_PCI_MSIX_CAP in *.
    by rewrite (proj2 (Z.ltb_ge x 64)), (proj2 (Z.ltb_lt x 80)) by lia. }
  destruct (Z.ltb_spec a OFFS_PCIE_CAP) as [H3|H3].
  { destruct (Z.eqb_spec (a - OFFS_PCI_MSIX_CAP) PCI_MSIX_FLAGS) as [E|E]; cbn [fst]; [|by rewrite Z.bits_0].
    unfold OFFS_PCI_MSIX_CAP, PCI_MSIX_FLAGS in *. assert (a = 82) as -> by lia. bit_cases x i 82; vm_compute; congruence. }
  intros _. unfold changeable, OFFS_PCIE_CAP in *. by rewrite (proj2 (Z.ltb_ge x 64)), (proj2 (Z.ltb_ge x 80)), (proj2 (Z.ltb_ge x 96)) by lia.
Qed.

(** The interrupt status. *)
Lemma set_is_bit b s x i : bytes_ok s.(pc_space) -> 0 <= i < 8 ->
  bit (set_is (b2z b) s) x i = if decide (x = 6 /\ i = 3) then b else bit s x i.
Proof.
  intros Hm Hi. unfold bit, set_is, set_field. cbn [with_space pc_space]. destruct (decide (x = 6)) as [->|Hx].
  - rewrite put_word_in by done. rewrite testbit_byte by done. change (8 * (6 - 6) + i) with i.
    assert (i = 0 \/ i = 1 \/ i = 2 \/ i = 3 \/ i = 4 \/ i = 5 \/ i = 6 \/ i = 7) as Hc by lia.
    rewrite Z.lor_spec, Z.ldiff_spec, <- (testbit_get_le _ 6 1 6 i Hm) by lia. change (8 * (6 - 6) + i) with i.
    by destruct Hc as [->|[->|[->|[->|[->|[->|[->| ->]]]]]]], b, (Z.testbit (get_le _ _ _) _).
  - rewrite put_word_out by lia. by rewrite decide_False by tauto.
Qed.

Lemma set_is_bytes x s : bytes_ok s.(pc_space) -> bytes_ok (set_is x s).(pc_space).
Proof. apply put_word_bytes. Qed.

(** ** The invariant *)

(** What the device keeps beside the page agrees with it. *)
Record cfg_ok (s : pci_cfg) : Prop := {
  ck_bytes : bytes_ok s.(pc_space);
  ck_intx : s.(pc_intx_disabled) = bit s 5 2;
  ck_msix d : s.(pc_pdev) = Some d -> d.(msix_enabled) = bit s 83 7
}.

Definition kept (s s' : pci_cfg) : Prop := forall x i, 0 <= i < 8 -> changeable x i = false -> bit s' x i = bit s x i.

#[global] Instance kept_preorder : PreOrder kept.
Proof. split; [by intros s x i|]. intros s1 s2 s3 H1 H2 x i Hi Hc. by rewrite (H2 x i Hi Hc), (H1 x i Hi Hc). Qed.

(** The registers that the device follows: bit [n] of the word [v] that is written
    over [val] changed or not. *)
Lemma flag_changed val v n : 0 <= n -> negb (Z.land (Z.lxor val v) (2 ^ n) =? 0) = xorb (Z.testbit val n) (Z.testbit v n).
Proof.
  intros Hn. rewrite <- Z.lxor_spec. generalize (Z.lxor val v) as z. intros z.
  destruct (Z.eqb_spec (Z.land z (2 ^ n)) 0) as [E|E]; cbn [negb].
  - apply (f_equal (fun y => Z.testbit y n)) in E. rewrite Z.land_spec, Z.bits_0, Z.pow2_bits_true, andb_true_r in E by done. done.
  - destruct (Z.testbit z n) eqn:Ez; [done|]. exfalso. apply E. apply Z.bits_inj_0. intros j. rewrite Z.land_spec.
    destruct (decide (n = j)) as [<-|Hj]; [by rewrite Ez|]. by rewrite Z.pow2_bits_false, andb_false_r.
Qed.

Lemma flag_set v n : 0 <= n -> negb (Z.land v (2 ^ n) =? 0) = Z.testbit v n.
Proof.
  intros Hn. pose proof (flag_changed 0 v n Hn) as H. rewrite Z.lxor_0_l, Z.bits_0 in H. by rewrite xorb_false_l in H.
Qed.

Definition intx_written (val v : Z) (s : pci_cfg) : pci_cfg :=
  if xorb (Z.testbit val 10) (Z.testbit v 10)
  then (if Z.testbit v 10 then with_intx true s else set_is 0 (with_intx false s)) else s.
Definition msix_written (val v : Z) (s : pci_cfg) : pci_cfg :=
  match s.(pc_pdev) with
  | Some d => if xorb (Z.testbit val 15) (Z.testbit v 15) then with_pdev (Some (PciDev (Z.testbit v 15) d.(pd_irq))) s else s
  | None => s
  end.

Lemma write_mask_command val v s : pci_write_mask 4 val v s = (1024, intx_written val v s).
Proof.
  unfold pci_write_mask, intx_written. cbn [Z.ltb Z.eqb Z.compare Pos.compare Pos.compare_cont Pos.eqb OFFS_PCI_PM_CAP PCI_COMMAND].
  change PCI_COMMAND_INTX_DISABLE with (2 ^ 10). rewrite flag_changed, flag_set by done.
  destruct (xorb _ _); [|done]. by destruct (Z.testbit v 10).
Qed.

Lemma write_mask_flags val v s : pci_write_mask 82 val v s = (49152, msix_written val v s).
Proof.
  unfold pci_write_mask, msix_written. change (82 <? OFFS_PCI_PM_CAP) with false. change (82 <? OFFS_PCI_MSIX_CAP) with false.
  change (82 <? OFFS_PCIE_CAP) with true. change (82 - OFFS_PCI_MSIX_CAP =? PCI_MSIX_FLAGS) with true. cbv iota.
  change PCI_MSIX_FLAGS_ENABLE with (2 ^ 15). f_equal. destruct (pc_pdev s); [|done]. by rewrite flag_changed, flag_set.
Qed.

Lemma write_mask_other a val v s : a <> 4 -> a <> 82 -> (pci_write_mask a val v s).2 = s.
Proof.
  intros H4 H82. unfold pci_write_mask. cbv zeta. rewrite (proj2 (Z.eqb_neq a PCI_COMMAND)) by done.
  rewrite (proj2 (Z.eqb_neq (a - OFFS_PCI_MSIX_CAP) PCI_MSIX_FLAGS)) by (unfold OFFS_PCI_MSIX_CAP, PCI_MSIX_FLAGS; lia).
  by repeat case_match.
Qed.

(** The page behind the flags. *)
Lemma intx_written_bit val v s x i : bytes_ok s.(pc_space) -> 0 <= i < 8 -> (x, i) <> (6, 3) -> bit (intx_written val v s) x i = bit s x i.
Proof.
  intros Hm Hi Hx. unfold intx_written. destruct (xorb _ _); [|done]. destruct (Z.testbit v 10); [done|].
  rewrite (set_is_bit false) by done. rewrite decide_False; [done|]. intros [-> ->]. done.
Qed.

Lemma msix_written_space val v s : (msix_written val v s).(pc_space) = s.(pc_space).
Proof. unfold msix_written. by repeat case_match. Qed.

Lemma mask_side a val v s : bytes_ok s.(pc_space) ->
  let s1 := (pci_write_mask a val v s).2 in
  bytes_ok s1.(pc_space) /\ forall x i, 0 <= i < 8 -> (x, i) <> (6, 3) -> bit s1 x i = bit s x i.
Proof.
  intros Hm. cbv zeta. destruct (decide (a = 4)) as [->|H4]; [|destruct (decide (a = 82)) as [->|H82]; [|by rewrite write_mask_other]].
  - rewrite write_mask_command. split; [|intros x i; by apply intx_written_bit]. unfold intx_written. cbn [snd].
    repeat case_match; [done|by apply set_is_bytes|done].
  - rewrite write_mask_flags. split; [|intros x i _ _; unfold bit]; cbn [snd]; by rewrite msix_written_space.
Qed.

(** A write within the page returns and keeps all that is not changeable. *)
Lemma write_kept w s : aligned w -> bytes_ok s.(pc_space) ->
  okp (nvmev_pci_write w.(cw_where) w.(cw_size) w.(cw_val) s) (fun s' => bytes_ok s'.(pc_space) /\ kept s s').
Proof.
  intros Hw Hm. destruct (nvmev_pci_write _ _ _ s) as [s'|] eqn:E.
  - destruct (mask_side (cw_where w) (get_le (pc_space s) (cw_where w) (cw_size w)) (cw_val w) s Hm) as [Hm1 Hs1].
    split.
    + revert E. unfold nvmev_pci_write. destruct (in_space _ _); [|done]. cbn [negb]. cbv zeta.
      destruct (pci_write_mask _ _ _ s) as [mask s1]. intros [= <-]. by apply put_word_bytes.
    + intros x i Hi Hc. pose proof (write_bit _ _ _ _ _ x i Hm E Hi) as H. cbv zeta in H.
      pose proof (mask_changeable w (get_le (pc_space s) (cw_where w) (cw_size w)) s x i Hw) as Hch.
      destruct (pci_write_mask _ _ _ s) as [mask s1]. destruct H as [_ ->]. cbn [fst snd] in *. case_decide as Hx.
      * destruct (Z.testbit mask _) eqn:Et; [|done]. rewrite (Hch Hx Hi eq_refl) in Hc. done.
      * apply Hs1; [done|]. intros [= -> ->]. done.
  - exfalso. revert E. unfold nvmev_pci_write. rewrite aligned_in_space by done. cbn [negb]. cbv zeta. by destruct (pci_write_mask _ _ _ s).
Qed.

(** The bit behind a flag: a write of the register's word sets it, no other write
    touches it. *)
Lemma write_flag_bit w s s' a n b : aligned w -> bytes_ok s.(pc_space) ->
  nvmev_pci_write w.(cw_where) w.(cw_size) w.(cw_val) s = Ok s' ->
  (a = 4 /\ n = 10 /\ b = 2 \/ a = 82 /\ n = 15 /\ b = 7) ->
  bit s' (a + 1) b = if decide (w.(cw_where) = a) then (if decide (w.(cw_size) = 1) then bit s (a + 1) b else Z.testbit w.(cw_val) n) else bit s (a + 1) b.
Proof.
  intros Hw Hm E Ha. assert (0 <= b < 8) as Hb by lia. pose proof (write_bit _ _ _ _ _ (a + 1) b Hm E Hb) as H. cbv zeta in H.
  destruct (mask_side (cw_where w) (get_le (pc_space s) (cw_where w) (cw_size w)) (cw_val w) s Hm) as [_ Hs1].
  assert ((a + 1, b) <> (6, 3)) as Hne by (intros [= ? ?]; lia). specialize (Hs1 (a + 1) b Hb Hne).
  destruct w as [wh sz v]. cbn [cw_where cw_size cw_val] in *. destruct Hw as [Z1 Z2 Z3 Z4]. cbn [cw_where cw_size cw_val] in *.
  destruct (pci_write_mask _ _ _ s) as [mask s1] eqn:Em. cbn [snd] in Hs1. destruct H as [_ ->]. destruct (decide (wh = a)) as [->|Hwh].
  - destruct (decide (sz = 1)) as [->|Hsz]; [by rewrite decide_False by lia|]. rewrite decide_True by lia.
    replace (8 * (a + 1 - a) + b) with n by lia.
    destruct Ha as [(-> & -> & ->)|(-> & -> & ->)]; [rewrite write_mask_command in Em|rewrite write_mask_flags in Em]; by injection Em as <- _.
  - case_decide as Hr; [|done]. assert (Z.testbit mask (8 * (a + 1 - wh) + b) = false) as ->; [|done].
    assert (wh = a + 1 \/ wh = 80 /\ a = 82) as Hc by (destruct Z1 as [->|[->| ->]]; destruct Ha as [(-> & _)|(-> & _)]; Z.div_mod_to_equations; lia).
    destruct Ha as [(-> & -> & ->)|(-> & -> & ->)], Hc as [->|[-> ?]]; try lia; unfold pci_write_mask in Em; vm_compute in Em; injection Em as <- _; apply Z.bits_0.
Qed.

(** The flag of the device after the write. *)
Lemma flag_followed (old val v : bool) : old = val -> (if xorb val v then v else old) = v.
Proof. intros ->. by destruct val, v. Qed.

Section write.
Context (w : cfg_write) (s s' : pci_cfg) (Hw : aligned w) (Hm : bytes_ok s.(pc_space)).
Context (E : nvmev_pci_write w.(cw_where) w.(cw_size) w.(cw_val) s = Ok s').

Lemma write_beside : let s1 := (pci_write_mask w.(cw_where) (get_le s.(pc_space) w.(cw_where) w.(cw_size)) w.(cw_val) s).2 in
  s'.(pc_intx_disabled) = s1.(pc_intx_disabled) /\ s'.(pc_pdev) = s1.(pc_pdev).
Proof using E Hm.
  pose proof (write_bit _ _ _ _ _ 0 0 Hm E ltac:(lia)) as H. cbv zeta in *. destruct (pci_write_mask _ _ _ s) as [mask s1].
  destruct H as [-> _]. done.
Qed.

(** A byte has no bits of the flags. *)
Lemma byte_write n : 8 <= n -> w.(cw_size) = 1 ->
  Z.testbit (get_le s.(pc_space) w.(cw_where) w.(cw_size)) n = false /\ Z.testbit w.(cw_val) n = false.
Proof using Hw Hm.
  intros Hn Es. split; eapply (testbit_above _ (cw_size w)); try lia; [|by apply al_val]. apply get_le_bound; [done|lia].
Qed.

Lemma intx_follows : s.(pc_intx_disabled) = bit s 5 2 -> s'.(pc_intx_disabled) = bit s' 5 2.
Proof using Hw Hm E.
  intros Hx. destruct write_beside as [-> _]. pose proof (write_flag_bit w s s' 4 10 2 Hw Hm E ltac:(lia)) as B. change (4 + 1) with 5 in B. rewrite B.
  pose proof (byte_write 10 ltac:(lia)) as H1. pose proof (al_size _ Hw) as Hsz.
  case_decide as Ea; [|destruct (decide (cw_where w = 82)) as [E82|E82]; [|by rewrite write_mask_other]].
  - rewrite Ea in *. rewrite write_mask_command. cbn [snd].
    assert ((intx_written (get_le (pc_space s) 4 (cw_size w)) (cw_val w) s).(pc_intx_disabled) =
      if xorb (Z.testbit (get_le (pc_space s) 4 (cw_size w)) 10) (Z.testbit (cw_val w) 10) then Z.testbit (cw_val w) 10 else pc_intx_disabled s) as ->
      by (unfold intx_written; by destruct (xorb _ _), (Z.testbit (cw_val w) 10)).
    case_decide as Es; [by destruct (H1 Es) as [-> ->]|]. apply flag_followed. rewrite Hx. symmetry.
    apply (testbit_get_le _ 4 (cw_size w) 5 2 Hm); lia.
  - rewrite E82, write_mask_flags. unfold msix_written. by repeat case_match.
Qed.

Lemma msix_follows : (forall d, s.(pc_pdev) = Some d -> d.(msix_enabled) = bit s 83 7) ->
  forall d, s'.(pc_pdev) = Some d -> d.(msix_enabled) = bit s' 83 7.
Proof using Hw Hm E.
  intros Hd d. destruct write_beside as [_ ->]. pose proof (write_flag_bit w s s' 82 15 7 Hw Hm E ltac:(lia)) as B. change (82 + 1) with 83 in B. rewrite B.
  pose proof (byte_write 15 ltac:(lia)) as H1. pose proof (al_size _ Hw) as Hsz.
  case_decide as Ea; [|destruct (decide (cw_where w = 4)) as [E4|E4]; [|rewrite write_mask_other by done; apply Hd]].
  - rewrite Ea in *. rewrite write_mask_flags. cbn [snd]. unfold msix_written.
    destruct (pc_pdev s) as [d0|] eqn:Ed; [|by rewrite Ed]. specialize (Hd _ eq_refl). intros Hd'.
    assert (d.(msix_enabled) = if xorb (Z.testbit (get_le (pc_space s) 82 (cw_size w)) 15) (Z.testbit (cw_val w) 15) then Z.testbit (cw_val w) 15 else d0.(msix_enabled)) as ->.
    { revert Hd'. destruct (xorb _ _); [by intros [= <-]|]. rewrite Ed. by intros [= <-]. }
    case_decide as Es; [by destruct (H1 Es) as [-> ->]|]. apply flag_followed. rewrite Hd. symmetry.
    apply (testbit_get_le _ 82 (cw_size w) 83 7 Hm); lia.
  - rewrite E4, write_mask_command. unfold intx_written. cbn [snd]. repeat case_match; apply Hd.
Qed.
End write.

Lemma write_ok w s : aligned w -> cfg_ok s ->
  okp (nvmev_pci_write w.(cw_where) w.(cw_size) w.(cw_val) s) (fun s' => cfg_ok s' /\ kept s s').
Proof.
  intros Hw [Hm Hx Hd]. destruct (okp_inv _ _ (write_kept w s Hw Hm)) as (s' & E & Hm' & Hk). rewrite E. split; [|done].
  split; [done|by apply (intx_follows w s)|by apply (msix_follows w s)].
Qed.

(** ** Interrupts *)

Section irq.
Context (virq : Z -> Z).

(** An interrupt goes by MSI-X when the host has enabled it, or by the pin, with
    its status set. *)
Definition raised (s : pci_cfg) (d : pci_dev) (msi_index : Z) : irq :=
  if bit s 83 7 then IrqMsi (virq msi_index) else IrqLine d.(pd_irq).

Lemma signal_ok s d msi_index : cfg_ok s -> s.(pc_pdev) = Some d -> virq msi_index <> 0 ->
  okp (nvmev_signal_irq virq msi_index s) (fun s' => cfg_ok s' /\ kept s s' /\ s'.(pc_pdev) = Some d /\
    s'.(pc_irqs) = s.(pc_irqs) ++ [raised s d msi_index] /\ (bit s 83 7 = false -> bit s' 6 3 = true)).
Proof.
  intros [Hm Hx Hd] Ed Hv. specialize (Hd _ Ed). unfold nvmev_signal_irq, raised. rewrite Ed. cbn [of_opt]. rewrite bind_Ok, Hd.
  destruct (bit s 83 7) eqn:Eb.
  - unfold __process_msi_irq. cbv zeta. rewrite (proj2 (Z.eqb_neq _ _) Hv). cbn [okp __signal_irq pc_pdev pc_irqs]. split; [|split; [done|split; [done|done]]].
    split; [done|done|]. intros d' Hd'. change (pc_pdev s = Some d') in Hd'. rewrite Ed in Hd'. injection Hd' as <-. by rewrite Hd.
  - assert (forall x i, 0 <= i < 8 -> bit (set_is 1 s) x i = if decide (x = 6 /\ i = 3) then true else bit s x i) as Hb by (intros x i; by apply (set_is_bit true)).
    cbn [okp __signal_irq pc_pdev pc_irqs]. split; [|split; [|split; [done|split; [done|intros _; by apply (Hb 6 3)]]]].
    + split; [by apply set_is_bytes|change (pc_intx_disabled s = bit (set_is 1 s) 5 2); rewrite Hx; symmetry; by apply (Hb 5 2)|]. intros d' Hd'. change (pc_pdev s = Some d') in Hd'. rewrite Ed in Hd'. injection Hd' as <-.
      rewrite Hd. symmetry. etransitivity; [by apply (Hb 83 7)|]. done.
    + intros x i Hi Hc. etransitivity; [by apply (Hb x i)|]. case_decide as Hxi; [|done]. destruct Hxi as [-> ->]. done.
Qed.

(** ** Runs *)

Inductive cfg_event := EvWrite (w : cfg_write) | EvSignal (msi_index : Z).

Definition cfg_exec (ev : cfg_event) (s : pci_cfg) : res pci_cfg :=
  match ev with
  | EvWrite w => nvmev_pci_write w.(cw_where) w.(cw_size) w.(cw_val) s
  | EvSignal msi_index => nvmev_signal_irq virq msi_index s
  end.

Definition cfg_event_ok (ev : cfg_event) : Prop :=
  match ev with EvWrite w => aligned w | EvSignal msi_index => virq msi_index <> 0 end.

Lemma write_pdev w s s' : nvmev_pci_write w.(cw_where) w.(cw_size) w.(cw_val) s = Ok s' ->
  pd_irq <$> s'.(pc_pdev) = pd_irq <$> s.(pc_pdev).
Proof.
  unfold nvmev_pci_write. destruct (in_space _ _); [|done]. cbn [negb]. cbv zeta.
  assert (forall a val v, pd_irq <$> (pci_write_mask a val v s).2.(pc_pdev) = pd_irq <$> s.(pc_pdev)) as H.
  { intros a val v. unfold pci_write_mask. cbv zeta. repeat case_match; cbn [snd]; try done; cbn [with_pdev pc_pdev]; congruence. }
  specialize (H (cw_where w) (get_le (pc_space s) (cw_where w) (cw_size w)) (cw_val w)).
  destruct (pci_write_mask _ _ _ s) as [mask s1]. by intros [= <-].
Qed.

Lemma cfg_exec_ok ev s n : cfg_event_ok ev -> cfg_ok s -> pd_irq <$> s.(pc_pdev) = Some n ->
  okp (cfg_exec ev s) (fun s' => cfg_ok s' /\ kept s s' /\ pd_irq <$> s'.(pc_pdev) = Some n).
Proof.
  intros He Hs Hn. destruct ev as [w|msi_index]; simpl in *.
  - destruct (okp_inv _ _ (write_ok w s He Hs)) as (s' & E & H1 & H2). rewrite E. split; [done|]. split; [done|]. by rewrite (write_pdev _ _ _ E).
  - destruct (pc_pdev s) as [d|] eqn:Ed; [|done]. eapply okp_mono; [by apply (signal_ok s d)|]. intros s' (H1 & H2 & H3 & _).
    split; [done|]. split; [done|]. by rewrite H3.
Qed.

Lemma cfg_run_ok evs s n : Forall cfg_event_ok evs -> cfg_ok s -> pd_irq <$> s.(pc_pdev) = Some n ->
  okp (rfold cfg_exec evs s) (fun s' => cfg_ok s' /\ kept s s' /\ pd_irq <$> s'.(pc_pdev) = Some n).
Proof.
  intros He Hs Hn. apply rfold_inv_const; [by split|].
  intros ev t Hin (H1 & H2 & H3). rewrite Forall_forall in He. eapply okp_mono; [by apply (cfg_exec_ok ev t n); [apply He|..]|].
  intros t' (K1 & K2 & K3). split; [done|]. split; [by transitivity t|done].
Qed.
End irq.

(** ** The address of the registers *)

Lemma get_put_word n a x m : 0 <= x < 256 ^ Z.of_nat n -> get_le (put_word n a x m) a (Z.of_nat n) = x.
Proof.
  intros Hx. unfold get_le, put_word. rewrite <- (zlen_le_encode n x), mload_mstore. by apply le_decode_encode.
Qed.

(** What a host takes for the size of the region of a base address register that
    reads [v] after it wrote ones. *)
Definition bar_size (v : Z) : Z := u32 (Z.lnot (Z.land v (Z.lnot 15)) + 1).

Definition set_bar0 (x : Z) : pci_cfg -> res pci_cfg := nvmev_pci_write PCI_BASE_ADDRESS_0 4 x.

Lemma bar0_written x s : set_bar0 x s =
  Ok (with_space (put_word 4 16 (Z.lor (Z.land (get_le s.(pc_space) 16 4) 16383) (Z.land x 4294950912)) s.(pc_space)) s).
Proof. reflexivity. Qed.

Lemma word32 x : 0 <= x < 4294967296 -> Z.lor (Z.land x 16383) (Z.land x 4294950912) = x.
Proof.
  intros Hx. rewrite <- Z.land_lor_distr_r. change (Z.lor 16383 4294950912) with (Z.ones 32). rewrite Z.land_ones by done.
  by apply Z.mod_small.
Qed.

(** The host writes ones, reads the size, and writes the old address back. *)
Lemma bar0_sized s : bytes_ok s.(pc_space) -> Z.land (get_le s.(pc_space) 16 4) 16383 = 4 ->
  okp (set_bar0 4294967295 s) (fun s1 => bar_size (get_le s1.(pc_space) 16 4) = 16384 /\
    okp (set_bar0 (get_le s.(pc_space) 16 4) s1) (fun s2 => forall x, s2.(pc_space) x = s.(pc_space) x)).
Proof.
  intros Hm Hl. rewrite bar0_written, Hl. change (Z.lor 4 _) with 4294950916. cbn [okp with_space pc_space].
  assert (get_le (put_word 4 16 4294950916 (pc_space s)) 16 4 = 4294950916) as E by (apply (get_put_word 4); lia).
  rewrite E. split; [reflexivity|]. rewrite bar0_written. cbn [okp with_space pc_space]. rewrite E.
  change (Z.land 4294950916 16383) with 4. pose proof (word32 _ (get_le_bound (pc_space s) 16 4 Hm ltac:(lia))) as W. rewrite Hl in W.
  rewrite W. intros x. destruct (decide (16 <= x < 20)) as [Hx|Hx].
  - rewrite put_word_in by lia. unfold get_le. apply le_decode_byte; [by apply mload_bytes|]. rewrite zlookup_mload by lia. do 2 f_equal. lia.
  - by rewrite !put_word_out by lia.
Qed.

(** ** The start *)

Lemma rfold_writes_ok scan s : Forall aligned scan -> bytes_ok s.(pc_space) ->
  okp (rfold (fun w => nvmev_pci_write w.(cw_where) w.(cw_size) w.(cw_val)) scan s) (fun s' => bytes_ok s'.(pc_space) /\ kept s s').
Proof.
  intros Hs Hm. apply rfold_inv_const; [by split|]. intros w t Hin (H1 & H2). rewrite Forall_forall in Hs.
  eapply okp_mono; [by apply write_kept; [apply Hs|]|]. intros t' (K1 & K2). split; [done|by transitivity t].
Qed.

Lemma set_field_bytes a n lo width x m : bytes_ok m -> bytes_ok (set_field a n lo width x m).
Proof. apply put_word_bytes. Qed.

(** The page that the settings make. *)
Definition settings (base_pa : Z) : mem :=
  PCI_EXTCAP_SETTINGS (PCI_PCIECAP_SETTINGS (PCI_MSIXCAP_SETTINGS (PCI_PMCAP_SETTINGS (PCI_HEADER_SETTINGS base_pa (fun _ => 0))))).

Lemma settings_bytes base_pa : bytes_ok (settings base_pa).
Proof.
  unfold settings, PCI_EXTCAP_SETTINGS, PCI_PCIECAP_SETTINGS, PCI_MSIXCAP_SETTINGS, PCI_PMCAP_SETTINGS, PCI_HEADER_SETTINGS, set_ext_cap.
  cbv zeta. repeat apply set_field_bytes. done.
Qed.

(** What the host reads of a page whose fixed bits are those of the settings. *)
Record described (m : mem) : Prop := {
  de_ids : mload m 0 4 = [81; 12; 16; 1];
  de_class : mload m 8 4 = [1; 2; 8; 1];
  de_bar : Z.land (get_le m 16 4) 16383 = 4;
  de_caps : m 52 = OFFS_PCI_PM_CAP
}.

(** Bytes of which no bit is changeable. *)
Lemma kept_byte s s' x : bytes_ok s.(pc_space) -> bytes_ok s'.(pc_space) -> kept s s' ->
  forallb (fun i => negb (changeable x i)) (zrange 0 8) = true -> s'.(pc_space) x = s.(pc_space) x.
Proof.
  intros Hm Hm' Hk Hc. apply Z.bits_inj'. intros i Hi. destruct (decide (i < 8)) as [H8|H8].
  - apply (Hk x i); [lia|]. rewrite forallb_forall in Hc. specialize (Hc i). rewrite <- list_elem_of_In, elem_of_zrange in Hc.
    specialize (Hc ltac:(lia)). by destruct (changeable x i).
  - rewrite !(testbit_above _ 1); try done; try lia.
Qed.

Lemma kept_described s s' : bytes_ok s.(pc_space) -> bytes_ok s'.(pc_space) -> kept s s' -> described s.(pc_space) -> described s'.(pc_space).
Proof.
  intros Hm Hm' Hk [D1 D2 D3 D4]. assert (forall x, forallb (fun i => negb (changeable x i)) (zrange 0 8) = true -> s'.(pc_space) x = s.(pc_space) x) as Hb
    by (intros x; by apply kept_byte).
  split.
  - rewrite <- D1. apply mload_ext. intros i Hi. apply Hb. assert (i = 0 \/ i = 1 \/ i = 2 \/ i = 3) as [->|[->|[->| ->]]] by lia; reflexivity.
  - rewrite <- D2. apply mload_ext. intros i Hi. apply Hb. assert (i = 0 \/ i = 1 \/ i = 2 \/ i = 3) as [->|[->|[->| ->]]] by lia; reflexivity.
  - refine (eq_trans _ D3). apply Z.bits_inj'. intros j Hj. rewrite !Z.land_spec. destruct (Z.testbit 16383 j) eqn:Ej; [|by rewrite !andb_false_r].
    assert (j < 14) as Hj14 by (destruct (decide (j < 14)); [done|]; change 16383 with (Z.ones 14) in Ej; rewrite Z.ones_spec_high in Ej by lia; done).
    rewrite !andb_true_r. pose proof (testbit_get_le (pc_space s) 16 4 (16 + j / 8) (j mod 8) Hm) as T. pose proof (testbit_get_le (pc_space s') 16 4 (16 + j / 8) (j mod 8) Hm') as T'.
    pose proof (Z.div_mod j 8 ltac:(lia)) as E. pose proof (Z.mod_pos_bound j 8 ltac:(lia)). 
    replace (8 * (16 + j / 8 - 16) + j mod 8) with j in T, T' by lia. rewrite T, T' by lia. apply Hk; [done|].
    assert (j / 8 = 0 \/ j / 8 = 1) as [Ed|Ed] by lia; rewrite Ed; [reflexivity|]. unfold changeable. simpl. destruct (Z.leb_spec 6 (j mod 8)); [lia|done].
  - rewrite <- D4. apply Hb. reflexivity.
Qed.

Lemma set_field_out a n lo width x m y : 0 <= n -> ~ (a <= y < a + n) -> set_field a n lo width x m y = m y.
Proof. intros Hn Hy. apply put_word_out. lia. Qed.

(** The bits below a field. *)
Lemma set_field_below a n lo width x m k : bytes_ok m -> 0 <= n -> 0 <= width -> 0 <= k <= lo -> lo + width <= 8 * n ->
  Z.land (get_le (set_field a n lo width x m) a n) (Z.ones k) = Z.land (get_le m a n) (Z.ones k).
Proof.
  intros Hm Hn Hw Hk Hlo. unfold set_field. pose proof (get_le_bound m a n Hm Hn) as Hg. set (g := get_le m a n) in *.
  set (v := Z.lor _ _). assert (0 <= v) as Hv0.
  { unfold v. apply Z.lor_nonneg. split; [apply Z.ldiff_nonneg; lia|]. apply Z.shiftl_nonneg. by apply Z.mod_pos_bound, Z.pow_pos_nonneg. }
  assert (v < 256 ^ n) as Hv1.
  { change 256 with (2 ^ 8). rewrite <- Z.pow_mul_r by lia. destruct (decide (v = 0)) as [->|Hv]; [by apply Z.pow_pos_nonneg; lia|].
    apply Z.log2_lt_pow2; [lia|]. destruct (decide (Z.log2 v < 8 * n)) as [|Hl]; [done|]. exfalso.
    assert (Z.testbit v (Z.log2 v) = true) as Hb by (apply Z.bit_log2; lia). revert Hb. unfold v at 1.
    rewrite Z.lor_spec, Z.ldiff_spec, (testbit_above g n) by lia. rewrite andb_false_l, orb_false_l, Z.shiftl_spec by lia.
    rewrite Z.mod_pow2_bits_high by lia. done. }
  pose proof (get_put_word (Z.to_nat n) a v m) as E. rewrite Z2Nat.id in E by lia. rewrite E by done.
  apply Z.bits_inj'. intros j Hj. rewrite !Z.land_spec. destruct (decide (j < k)) as [Hjk|Hjk].
  - f_equal. unfold v. rewrite Z.lor_spec, Z.ldiff_spec, !Z.shiftl_spec by lia. rewrite !(Z.testbit_neg_r _ (j - lo)) by lia. by rewrite andb_true_r, orb_false_r.
  - rewrite Z.ones_spec_high by lia. by rewrite !andb_false_r.
Qed.

Ltac skip_fields := repeat (rewrite set_field_out; [|lia|unfold OFFS_PCI_EXT_CAP, PCI_CFG_SPACE_SIZE, OFFS_PCIE_CAP, OFFS_PCI_MSIX_CAP, OFFS_PCI_PM_CAP; lia]).

Lemma settings_bar base_pa : Z.land (get_le (settings base_pa) 16 4) 16383 = 4.
Proof.
  unfold settings, PCI_EXTCAP_SETTINGS, PCI_PCIECAP_SETTINGS, PCI_MSIXCAP_SETTINGS, PCI_PMCAP_SETTINGS, set_ext_cap. cbv zeta.
  unfold get_le. rewrite (mload_ext _ (PCI_HEADER_SETTINGS base_pa (fun _ => 0))) by (intros i Hi; by skip_fields).
  unfold PCI_HEADER_SETTINGS. cbv zeta. set (m := set_field 16 4 1 2 _ _).
  rewrite (mload_ext _ (set_field 16 4 14 18 (Z.shiftr (Z.land base_pa 4294967295) 14) m)) by (intros i Hi; by skip_fields).
  fold (get_le (set_field 16 4 14 18 (Z.shiftr (Z.land base_pa 4294967295) 14) m) 16 4). change 16383 with (Z.ones 14).
  rewrite set_field_below; [vm_compute; reflexivity| |lia..]. unfold m. repeat apply set_field_bytes. done.
Qed.

Lemma settings_described base_pa : described (settings base_pa).
Proof. split; [vm_compute; reflexivity|vm_compute; reflexivity|apply settings_bar|vm_compute; reflexivity]. Qed.

(** The start returns, whatever the kernel writes while it looks for the device. *)
Lemma pci_init_ok base_pa scan : Forall aligned scan ->
  okp (NVMEV_PCI_INIT base_pa scan VDEV_INIT) (fun s => bytes_ok s.(pc_space) /\ described s.(pc_space) /\
    s.(pc_intx_disabled) = bit s 5 2 /\ s.(pc_pdev) = Some (PciDev false (get_le s.(pc_space) 60 1)) /\ s.(pc_irqs) = []).
Proof.
  intros Hs. unfold NVMEV_PCI_INIT, __create_pci_bus. cbv zeta. change (PCI_EXTCAP_SETTINGS _) with (settings base_pa).
  set (s0 := with_intx _ _). assert (cfg_ok s0) as H0.
  { split; [apply settings_bytes|vm_compute; reflexivity|done]. }
  assert (pc_irqs s0 = []) as Ei by done. apply okp_bind. 
  eapply okp_mono; [apply (rfold_inv_const _ (fun s => cfg_ok s /\ kept s0 s /\ s.(pc_irqs) = [])); [by split|]|].
  - intros w t Hin (H1 & H2 & H3). rewrite Forall_forall in Hs. destruct (okp_inv _ _ (write_ok w t (Hs w Hin) H1)) as (t' & E & K1 & K2).
    rewrite E. split; [done|]. split; [by transitivity t|]. rewrite <- H3. revert E. unfold nvmev_pci_write. destruct (in_space _ _); [|done]. cbn [negb]. cbv zeta.
    assert (forall a val v, (pci_write_mask a val v t).2.(pc_irqs) = t.(pc_irqs)) as H.
    { intros a val v. unfold pci_write_mask. cbv zeta. by repeat case_match. }
    specialize (H (cw_where w) (get_le (pc_space t) (cw_where w) (cw_size w)) (cw_val w)). destruct (pci_write_mask _ _ _ t). by intros [= <-].
  - intros s ([K1 K2 K3] & K4 & K5). cbn [okp with_pdev pc_space pc_pdev pc_intx_disabled pc_irqs]. split; [done|]. split; [|done].
    apply (kept_described s0 s); [apply settings_bytes|done|done|apply settings_described].
Qed.
