(* ===== verification/Config.v ===== *)
(** * The module's parameters (main.c)

    [__validate_configs] refuses parameters that the device cannot run with;
    [__load_configs] turns the others into the configuration: the storage after the
    first megabyte of the reserved memory, and the processors of the dispatcher and
    of the workers from the list in [cpus].

    The memory map of the machine, [e820__mapped_any], and the kernel's
    [simple_strtol] are parameters. *)

From stdpp Require Import prelude list strings.
From Stdlib Require Import ZArith Lia Ascii.
From S2P Require Import Prelude Mem IoUnits.
Open Scope Z_scope.

Definition KV_MAPPING_TABLE_BYTES : Z := GB 1.

Definition EPERM : Z := 1.
Definition EINVAL : Z := 22.

Inductive e820_type := E820_TYPE_RAM | E820_TYPE_RESERVED | E820_TYPE_RESERVED_KERN.

(** The variables that the module's parameters set. *)
Record module_params := ModuleParams {
  memmap_start : Z; memmap_size : Z;
  read_time : Z; read_delay : Z; read_trailing : Z;
  write_time : Z; write_delay : Z; write_trailing : Z;
  nr_io_units : Z; io_unit_shift : Z;
  cpus : option string
}.

(** [struct nvmev_config]: [fc_units] is the part that the namespaces read. *)
Record full_config := FullConfig {
  fc_memmap_start : Z; fc_memmap_size : Z; fc_units : nvmev_config;
  fc_cpu_nr_dispatcher : Z; fc_nr_io_workers : Z; fc_cpu_nr_io_workers : list Z
}.

(** The text before the first comma, and the rest when there is a comma. *)
Fixpoint strsep (s : string) : string * option string :=
  match s with
  | EmptyString => (EmptyString, None)
  | String c s => if Ascii.eqb c "," then (EmptyString, Some s) else let '(t, r) := strsep s in (String c t, r)
  end.

Section config.
Context (KV_BUILD : bool) (e820__mapped_any : Z -> Z -> e820_type -> bool) (simple_strtol : string -> Z).

Definition __validate_configs_arch (p : module_params) : Z :=
  let resv_start_bytes := p.(memmap_start) in
  let resv_end_bytes := u64 (resv_start_bytes + p.(memmap_size) - 1) in
  if e820__mapped_any resv_start_bytes resv_end_bytes E820_TYPE_RAM ||
     e820__mapped_any resv_start_bytes resv_end_bytes E820_TYPE_RESERVED_KERN then - EPERM
  else if negb (e820__mapped_any resv_start_bytes resv_end_bytes E820_TYPE_RESERVED) then - EPERM
  else 0.

Definition __validate_configs (p : module_params) : Z :=
  if p.(memmap_start) =? 0 then - EINVAL
  else if p.(memmap_size) =? 0 then - EINVAL
  else if p.(memmap_size) <=? MB 1 then - EINVAL
  else if negb (__validate_configs_arch p =? 0) then - EPERM
  else if (p.(nr_io_units) =? 0) || (p.(io_unit_shift) =? 0) then - EINVAL
  else if p.(read_time) =? 0 then - EINVAL
  else if p.(write_time) =? 0 then - EINVAL
  else 0.

(** The loop over [cpus]: the first number is the dispatcher's, the others those of
    the workers, for 32 of whom there is room. *)
Record cpu_state := CpuState { cs_cpus : option string; cs_first : bool; cs_dispatcher : Z; cs_nr : Z; cs_workers : list Z }.

Definition cpu_step (s : cpu_state) : res (cpu_state + cpu_state) :=
  match s.(cs_cpus) with
  | None => Ok (inr s)
  | Some text =>
      let '(cpu, rest) := strsep text in
      let cpu_nr := u32 (simple_strtol cpu) in
      if s.(cs_first) then Ok (inl (CpuState rest false cpu_nr s.(cs_nr) s.(cs_workers)))
      else l ← aset s.(cs_workers) s.(cs_nr) cpu_nr;
           Ok (inl (CpuState rest false s.(cs_dispatcher) (u32 (s.(cs_nr) + 1)) l))
  end.

Definition cpu_fuel (c : option string) : nat := match c with Some t => S (S (String.length t)) | None => 1 end.

(** [old] is what [config] held: the entries of workers that are not named stay. *)
Definition __load_configs (old : list Z) (p : module_params) : res (option full_config) :=
  if __validate_configs p <? 0 then Ok None else
  let size := if KV_BUILD then u64 (p.(memmap_size) - KV_MAPPING_TABLE_BYTES) else p.(memmap_size) in
  s ← rloop (cpu_fuel p.(cpus)) cpu_step (CpuState p.(cpus) true (u32 (-1)) 0 old);
  Ok (Some (FullConfig p.(memmap_start) size
    (NvmevConfig (u64 (p.(memmap_start) + MB 1)) (u64 (size - MB 1)) p.(nr_io_units) p.(io_unit_shift)
       p.(read_delay) p.(read_time) p.(read_trailing) p.(write_delay) p.(write_time) p.(write_trailing))
    s.(cs_dispatcher) s.(cs_nr) s.(cs_workers))).

(** ** What is accepted *)

Record acceptable (p : module_params) : Prop := {
  ac_start : p.(memmap_start) <> 0;
  ac_size : MB 1 < p.(memmap_size);
  ac_reserved : let stop := u64 (p.(memmap_start) + p.(memmap_size) - 1) in
    e820__mapped_any p.(memmap_start) stop E820_TYPE_RAM = false /\
    e820__mapped_any p.(memmap_start) stop E820_TYPE_RESERVED_KERN = false /\
    e820__mapped_any p.(memmap_start) stop E820_TYPE_RESERVED = true;
  ac_units : p.(nr_io_units) <> 0 /\ p.(io_unit_shift) <> 0;
  ac_times : p.(read_time) <> 0 /\ p.(write_time) <> 0
}.

Lemma arch_ok p : __validate_configs_arch p = 0 \/ __validate_configs_arch p = - EPERM.
Proof. unfold __validate_configs_arch. repeat case_match; auto. Qed.

Lemma validate_ok p : 
  (acceptable p -> __validate_configs p = 0) /\ (~ acceptable p -> __validate_configs p < 0).
Proof.
  unfold __validate_configs, EINVAL, EPERM. split.
  - intros [H1 H2 (H3 & H4 & H5) [H6 H7] [H8 H9]]. assert (MB 1 = 1048576) as EM by reflexivity.
    assert (__validate_configs_arch p = 0) as -> by (unfold __validate_configs_arch; cbv zeta; by rewrite H3, H4, H5).
    rewrite (proj2 (Z.eqb_neq _ _) H1), (proj2 (Z.eqb_neq (memmap_size p) 0)), (proj2 (Z.leb_gt _ _) H2) by lia.
    by rewrite (proj2 (Z.eqb_neq _ _) H6), (proj2 (Z.eqb_neq _ _) H7), (proj2 (Z.eqb_neq _ _) H8), (proj2 (Z.eqb_neq _ _) H9).
  - intros H. destruct (memmap_start p =? 0) eqn:E1; [lia|]. destruct (memmap_size p =? 0) eqn:E2; [lia|].
    destruct (memmap_size p <=? MB 1) eqn:E3; [lia|]. destruct (negb (__validate_configs_arch p =? 0)) eqn:E4; [lia|].
    destruct ((nr_io_units p =? 0) || (io_unit_shift p =? 0)) eqn:E5; [lia|]. destruct (read_time p =? 0) eqn:E6; [lia|].
    destruct (write_time p =? 0) eqn:E7; [lia|]. exfalso. apply H. apply orb_false_iff in E5 as [E5 E5'].
    apply Z.eqb_neq in E1, E5, E5', E6, E7. apply Z.leb_gt in E3. apply negb_false_iff, Z.eqb_eq in E4.
    split; try done. unfold __validate_configs_arch, EPERM in E4. cbv zeta in *.
    destruct (_ || _) eqn:E8 in E4; [done|]. apply orb_false_iff in E8 as [-> ->]. by destruct (e820__mapped_any _ _ E820_TYPE_RESERVED).
Qed.

(** ** The list of processors *)

Definition no_comma (s : string) : Prop := forall t r, strsep s = (t, r) -> r = None.

Lemma strsep_none s : no_comma s -> strsep s = (s, None).
Proof.
  induction s as [|c s IH]; [done|]. intros H. unfold no_comma in *. simpl in *. destruct (Ascii.eqb c ","); [by specialize (H _ _ eq_refl)|].
  destruct (strsep s) as [t r]. pose proof (H _ _ eq_refl) as ->. assert ((t, @None string) = (s, None)) as [= ->] by (apply IH; by intros t' r' [= <- <-]). done.
Qed.

Lemma strsep_app s r : no_comma s -> strsep (s ++ String "," r)%string = (s, Some r).
Proof.
  induction s as [|c s IH]; [done|]. intros H. unfold no_comma in *. simpl in *. destruct (Ascii.eqb c ","); [by specialize (H _ _ eq_refl)|].
  rewrite IH; [done|]. intros t r' E. by specialize (H (String c t) r' ltac:(by rewrite E)).
Qed.

(** What is left of the list: texts without commas. *)
Definition joined (ts : list string) : option string :=
  match ts with [] => None | _ => Some (String.concat "," ts) end.

Lemma strsep_joined t ts : no_comma t -> 
  exists text, joined (t :: ts) = Some text /\ strsep text = (t, joined ts) /\
    (cpu_fuel (joined ts) < cpu_fuel (Some text))%nat.
Proof.
  intros H. destruct ts as [|t2 ts].
  - exists t. split; [done|]. split; [by apply strsep_none|simpl; lia].
  - exists (t ++ String "," (String.concat "," (t2 :: ts)))%string. split; [done|]. split; [by apply strsep_app|].
    unfold joined. remember (String.concat "," (t2 :: ts)) as r. simpl.
    assert (forall a b, String.length (a ++ b)%string = (String.length a + String.length b)%nat) as Hl.
    { intros a b. induction a as [|c a IH]; simpl; [done|by rewrite IH]. }
    rewrite Hl. simpl. lia.
Qed.

Lemma step_first text t r d n l : strsep text = (t, r) ->
  cpu_step (CpuState (Some text) true d n l) = Ok (inl (CpuState r false (u32 (simple_strtol t)) n l)).
Proof. intros E. unfold cpu_step. simpl. by rewrite E. Qed.

Lemma step_worker text t r d n l : strsep text = (t, r) -> 0 <= n < zlen l -> zlen l < 4294967296 ->
  cpu_step (CpuState (Some text) false d n l) = Ok (inl (CpuState r false d (n + 1) (<[n := u32 (simple_strtol t)]> l))).
Proof. intros E Hn Hl. unfold cpu_step. simpl. rewrite E, aset_Some, bind_Ok, u32_small by lia. done. Qed.

(** The workers' part of the loop. *)
Lemma cpu_workers ts : forall fuel disp nr l,
  Forall no_comma ts -> 0 <= nr -> nr + zlen ts <= zlen l -> zlen l < 4294967296 -> (cpu_fuel (joined ts) <= fuel)%nat ->
  rloop fuel cpu_step (CpuState (joined ts) false disp nr l) =
  Ok (CpuState None false disp (nr + zlen ts)
        (take (Z.to_nat nr) l ++ ((fun t => u32 (simple_strtol t)) <$> ts) ++ drop (Z.to_nat (nr + zlen ts)) l)).
Proof.
  induction ts as [|t ts IH]; intros fuel disp nr l Hts Hnr Hl Hl2 Hf.
  - destruct fuel; [simpl in Hf; lia|]. simpl. change (zlen []) with 0. rewrite Z.add_0_r. by rewrite take_drop.
  - apply Forall_cons in Hts as [Ht Hts]. destruct (strsep_joined t ts Ht) as (text & E1 & E2 & E3).
    rewrite E1 in Hf |- *. destruct fuel as [|fuel]; [lia|]. cbn [rloop].
    assert (zlen (t :: ts) = zlen ts + 1) as Ez by (unfold zlen; simpl; lia). pose proof (zlen_nonneg ts).
    rewrite (step_worker text t (joined ts)), bind_Ok by (done || lia).
    rewrite IH by (rewrite ?zlen_zinsert; (done || lia)). rewrite Ez. f_equal. f_equal; [lia|].
    replace (nr + 1 + zlen ts) with (nr + (zlen ts + 1)) by lia. rewrite zinsert_to_nat by done.
    replace (Z.to_nat (nr + 1)) with (S (Z.to_nat nr)) by lia.
    assert (Z.to_nat nr < length l)%nat by (unfold zlen in *; lia).
    rewrite (take_S_r _ _ (u32 (simple_strtol t))) by (by apply list_lookup_insert_eq).
    rewrite take_insert_ge by lia. rewrite drop_insert_lt by lia. by rewrite <- (assoc_L (++)).
Qed.

(** The whole list. *)
Lemma cpus_ok old t ts :
  Forall no_comma (t :: ts) -> zlen ts <= zlen old < 4294967296 ->
  rloop (cpu_fuel (joined (t :: ts))) cpu_step (CpuState (joined (t :: ts)) true (u32 (-1)) 0 old) =
  Ok (CpuState None false (u32 (simple_strtol t)) (zlen ts)
        (((fun t => u32 (simple_strtol t)) <$> ts) ++ drop (length ts) old)).
Proof.
  intros [Ht Hts]%Forall_cons Hl. destruct (strsep_joined t ts Ht) as (text & E1 & E2 & E3). rewrite E1.
  destruct (cpu_fuel (Some text)) as [|fuel]; [lia|]. cbn [rloop].
  rewrite (step_first text t (joined ts)), bind_Ok by done. rewrite cpu_workers by (done || lia). rewrite Z.add_0_l. unfold zlen at 2. by rewrite Nat2Z.id.
Qed.

(** More workers than the array has entries: the first that is too many is written
    past its end. *)
Lemma workers_overflow ts : forall fuel disp nr l,
  Forall no_comma ts -> 0 <= nr <= zlen l -> zlen l < nr + zlen ts -> zlen l < 4294967296 -> (cpu_fuel (joined ts) <= fuel)%nat ->
  rloop fuel cpu_step (CpuState (joined ts) false disp nr l) = Fault OutOfBounds.
Proof.
  induction ts as [|t ts IH]; intros fuel disp nr l Hts Hnr Hover Hl Hf; [unfold zlen in *; simpl in *; lia|].
  apply Forall_cons in Hts as [Ht Hts]. destruct (strsep_joined t ts Ht) as (text & E1 & E2 & E3).
  rewrite E1 in Hf |- *. destruct fuel as [|fuel]; [lia|]. cbn [rloop].
  assert (zlen (t :: ts) = zlen ts + 1) as Ez by (unfold zlen; simpl; lia). destruct (decide (nr = zlen l)) as [->|Hne].
  - assert (l !! zlen l = None) as El by (rewrite zlookup_to_nat by lia; apply lookup_ge_None; unfold zlen; lia).
    unfold cpu_step. cbn [cs_cpus cs_first cs_workers cs_nr]. rewrite E2. unfold aset, aget. by rewrite El.
  - rewrite (step_worker text t (joined ts)), bind_Ok by (done || lia). apply IH; rewrite ?zlen_zinsert; (done || lia).
Qed.

Lemma cpus_overflow old t ts :
  Forall no_comma (t :: ts) -> zlen old < zlen ts -> zlen old < 4294967296 ->
  rloop (cpu_fuel (joined (t :: ts))) cpu_step (CpuState (joined (t :: ts)) true (u32 (-1)) 0 old) = Fault OutOfBounds.
Proof.
  intros [Ht Hts]%Forall_cons Ho Hl. destruct (strsep_joined t ts Ht) as (text & E1 & E2 & E3). rewrite E1.
  destruct (cpu_fuel (Some text)) as [|fuel]; [lia|]. cbn [rloop]. pose proof (zlen_nonneg old).
  rewrite (step_first text t (joined ts)), bind_Ok by done. apply workers_overflow; (done || lia).
Qed.
End config.
