(* ===== verification/Main.v ===== *)
(** * The dispatcher (main.c)

    [nvmev_proc_dbs] serves the doorbells that moved: the admin queue, then the
    submission queues and then the completion queues in use, in the order of their
    identifiers.  With [nvmev_proc_bars] it is an iteration of the dispatcher.

    The rest of main.c that changes the device is here too: the statistics that the
    proc files show and reset, and the namespaces that a build lays out one after the
    other in the storage. *)

From stdpp Require Import prelude list.
From Stdlib Require Import ZArith Lia.
From S2P Require Import Prelude Mem SsdConfig ConvFtl ZnsFtl IoUnits KvFtl NvmeCmd IoQueue IoCopy Io IoBackends Vdev Admin Bars.

Section main.
Context `{BK : Backend} `{BD : Build} `{NF : !NsFields BK} `{QC : QueueConfig}.

(** [nvmev_vdev->old_dbs[i] = x]. *)
Definition set_old_db (i x : Z) (v : vdev) : res vdev :=
  old ← aset v.(vd_old_dbs) i (u32 x); Ok (vd_with_dbs v.(vd_dbs) old v).

(** The body for each kind of doorbell; the flag is [updated]. *)
Definition proc_admin_sq_db (st : vdev * bool) : res (vdev * bool) :=
  let '(v, updated) := st in
  db ← aget v.(vd_dbs) 0; old ← aget v.(vd_old_dbs) 0;
  let new_db := s32 db in
  if u32 new_db =? old then Ok (v, updated) else
  v ← nvmev_proc_admin_sq new_db (s32 old) v;
  v ← set_old_db 0 new_db v; Ok (v, true).

Definition proc_admin_cq_db (st : vdev * bool) : res (vdev * bool) :=
  let '(v, updated) := st in
  db ← aget v.(vd_dbs) 1; old ← aget v.(vd_old_dbs) 1;
  let new_db := s32 db in
  if u32 new_db =? old then Ok (v, updated) else
  v ← set_old_db 1 new_db (nvmev_proc_admin_cq new_db (s32 old) v); Ok (v, true).

Definition proc_sq_db (qid : Z) (st : vdev * bool) : res (vdev * bool) :=
  let '(v, updated) := st in
  q ← aget v.(vd_io).(dv_sqes) qid;
  match q with
  | None => Ok (v, updated)
  | Some _ =>
      let dbs_idx := qid * 2 in
      db ← aget v.(vd_dbs) dbs_idx; old ← aget v.(vd_old_dbs) dbs_idx;
      let new_db := s32 db in
      let old_db := s32 old in
      if new_db =? old_db then Ok (v, updated) else
      '(d, latest_db) ← nvmev_proc_io_sq qid new_db old_db v.(vd_io);
      v ← set_old_db dbs_idx latest_db (vd_with_io d v); Ok (v, true)
  end.

Definition proc_cq_db (qid : Z) (st : vdev * bool) : res (vdev * bool) :=
  let '(v, updated) := st in
  q ← aget v.(vd_io).(dv_cqes) qid;
  match q with
  | None => Ok (v, updated)
  | Some _ =>
      let dbs_idx := qid * 2 + 1 in
      db ← aget v.(vd_dbs) dbs_idx; old ← aget v.(vd_old_dbs) dbs_idx;
      let new_db := s32 db in
      let old_db := s32 old in
      if new_db =? old_db then Ok (v, updated) else
      d ← nvmev_proc_io_cq qid new_db old_db v.(vd_io);
      v ← set_old_db dbs_idx new_db (vd_with_io d v); Ok (v, true)
  end.

Definition nvmev_proc_dbs (v : vdev) : res (vdev * bool) :=
  st ← proc_admin_sq_db (v, false);
  st ← proc_admin_cq_db st;
  st ← rfold proc_sq_db (zrange 1 (st.1.(vd_nr_sq) + 1)) st;
  rfold proc_cq_db (zrange 1 (st.1.(vd_io).(dv_nr_cq) + 1)) st.

(** An iteration of the loop, without the sleep of an idle device. *)
Definition nvmev_dispatcher (v : vdev) : res (vdev * bool) :=
  '(v, bars) ← nvmev_proc_bars v;
  '(v, dbs) ← nvmev_proc_dbs v;
  Ok (v, bars || dbs).

(** ** Statistics *)

Definition __get_nr_entries (dbs_idx queue_size : Z) (v : vdev) : res Z :=
  db ← aget v.(vd_dbs) dbs_idx; old ← aget v.(vd_old_dbs) dbs_idx;
  let diff := s32 (db - old) in
  Ok (if diff <? 0 then s32 (diff + queue_size) else diff).

(** A line of the file, and the sums at its end. *)
Record stat_line := StatLine { sl_queue : Z; sl_entries : Z; sl_stat : nvmev_sq_stat }.
Record stat_sums := StatSums { ss_in_flight : Z; ss_dispatch : Z; ss_dispatched : Z; ss_total_io : Z }.

Definition stat_with_max (m : Z) (st : nvmev_sq_stat) : nvmev_sq_stat :=
  SqStat st.(nr_dispatched) st.(nr_dispatch) st.(nr_in_flight) m st.(total_io).

Definition proc_stat_step (i : Z) (s : list stat_line * stat_sums * vdev) : res (list stat_line * stat_sums * vdev) :=
  let '(lines, sums, v) := s in
  q ← aget v.(vd_io).(dv_sqes) i;
  match q with
  | None => Ok s
  | Some sq =>
      entries ← __get_nr_entries (i * 2) sq.(sq_queue_size) v;
      let st := sq.(sq_stat) in
      let sums := StatSums (u32 (sums.(ss_in_flight) + st.(nr_in_flight))) (u32 (sums.(ss_dispatch) + st.(nr_dispatch)))
                    (u32 (sums.(ss_dispatched) + st.(nr_dispatched))) (u64 (sums.(ss_total_io) + st.(total_io))) in
      d ← set_sq i (sq_with_stat (stat_with_max 0 st) sq) v.(vd_io);
      Ok (lines ++ [StatLine i entries st], sums, vd_with_io d v)
  end.

(** Reading "stat" clears the largest number in flight of each queue. *)
Definition __proc_file_read_stat (v : vdev) : res (list stat_line * stat_sums * vdev) :=
  rfold proc_stat_step (zrange 1 (v.(vd_nr_sq) + 1)) ([], StatSums 0 0 0 0, v).

(** Writing "stat" clears the statistics. *)
Definition __proc_file_write_stat (v : vdev) : res vdev :=
  rfold (fun i v =>
    q ← aget v.(vd_io).(dv_sqes) i;
    match q with
    | None => Ok v
    | Some sq => d ← set_sq i (sq_with_stat (SqStat 0 0 0 0 0) sq) v.(vd_io); Ok (vd_with_io d v)
    end) (zrange 1 (v.(vd_nr_sq) + 1)) v.

(** ** Namespaces *)

(** The initialisation functions of the kinds of namespaces, in a build: identifier,
    size, address and processor. *)
Class NsInit := {
  ns_init_nvm : Z -> Z -> Z -> Z -> bk_world -> res (bk_ns * bk_world);
  ns_init_conv : Z -> Z -> Z -> Z -> bk_world -> res (bk_ns * bk_world);
  ns_init_zns : Z -> Z -> Z -> Z -> bk_world -> res (bk_ns * bk_world);
  ns_init_kv : Z -> Z -> Z -> Z -> bk_world -> res (bk_ns * bk_world)
}.

(** [nst_mapped] are the addresses of the namespaces that are made. *)
Record ns_state := NsState { nst_ns : list bk_ns; nst_mapped : list Z; nst_remaining : Z; nst_addr : Z; nst_world : bk_world }.

Definition ns_step `{NI : NsInit} (disp_no i : Z) (s : ns_state) : res ns_state :=
  capacity ← NS_CAPACITY i;
  let size := if capacity =? 0 then s.(nst_remaining) else Z.min capacity s.(nst_remaining) in
  type ← NS_SSD_TYPE i;
  '(ns, world) ←
    (if type =? SSD_TYPE_NVM then ns_init_nvm i size s.(nst_addr) disp_no s.(nst_world)
     else if type =? SSD_TYPE_CONV then ns_init_conv i size s.(nst_addr) disp_no s.(nst_world)
     else if type =? SSD_TYPE_ZNS then ns_init_zns i size s.(nst_addr) disp_no s.(nst_world)
     else if type =? SSD_TYPE_KV then ns_init_kv i size s.(nst_addr) disp_no s.(nst_world)
     else Fault BugOn);
  Ok (NsState (s.(nst_ns) ++ [ns]) (s.(nst_mapped) ++ [s.(nst_addr)]) (u64 (s.(nst_remaining) - size)) (u64 (s.(nst_addr) + size)) world).

(** Where the namespaces start in the storage. *)
Definition dv_with_mapped (l : list Z) (d : io_dev) : io_dev :=
  IoDev _ d.(dv_workers) d.(dv_io_worker_turn) d.(dv_threads) d.(dv_sqes) d.(dv_cqes) d.(dv_nr_cq) d.(dv_ns) l d.(dv_world) d.(dv_mem) d.(dv_irqs).

Definition NVMEV_NAMESPACE_INIT `{NI : NsInit} (storage_size storage_mapped disp_no : Z) (v : vdev) : res vdev :=
  s ← rfold (ns_step disp_no) (zrange 0 NR_NAMESPACES) (NsState [] [] storage_size storage_mapped v.(vd_io).(dv_world));
  let v := vd_with_io (dv_with_mapped ((fun a => a - storage_mapped) <$> s.(nst_mapped)) (dv_with_ns s.(nst_ns) (dv_with_world s.(nst_world) v.(vd_io)))) v in
  Ok (Vdev _ v.(vd_io) v.(vd_nr_sq) v.(vd_admin_q) v.(vd_dbs) v.(vd_old_dbs) v.(vd_bar) v.(vd_old_bar) BUILD_MDTS).
End main.

(** The initialisers of a build with one kind of namespaces; those of the other
    kinds are not in the build. *)
Definition no_init {A B} : Z -> Z -> Z -> Z -> B -> res (A * B) := fun _ _ _ _ _ => Fault BugOn.
Definition simple_init `{CK : Ssd.Clock} (cf : nvmev_config) : NsInit (BK := simple_backend cf) :=
  @Build_NsInit (simple_backend cf) (fun id size addr _ w => Ok (Simple.simple_init_namespace id size addr, w)) no_init no_init no_init.
Definition conv_init `{SC : SsdConfig, CC : ChannelModel.ChanConfig, CK : Ssd.Clock} : NsInit (BK := conv_backend) :=
  @Build_NsInit conv_backend no_init (fun id size addr cpu w => conv_init_namespace id size addr cpu w) no_init no_init.
(** A zoned namespace sees its part of what the storage holds. *)
Definition zns_init `{SC : SsdConfig, ZC : ZnsConfig, CC : ChannelModel.ChanConfig, CK : Ssd.Clock} garbage (storage : mem) :
    NsInit (BK := zns_backend garbage) :=
  @Build_NsInit (zns_backend garbage) no_init no_init
    (fun id size addr cpu w => zns_init_namespace id size (fun x => storage (addr + x)) cpu w) no_init.
Definition kv_init `{CK : Ssd.Clock} (cf : nvmev_config) fnz garbage : NsInit (BK := kv_backend cf fnz garbage) :=
  @Build_NsInit (kv_backend cf fnz garbage) no_init no_init no_init (fun id size addr _ w =>
    '(ns, ftl, pl) ← kv_init_namespace cf id size addr w.(kw_pools); Ok (ns, KvWorld w.(kw_units) ftl pl)).
