(* ===== verification/ProcFs.v ===== *)
(** * The proc files (main.c)

    Under /proc/nvmev the files "read_times", "write_times" and "io_units" show the
    timing of the device and change it, "stat" shows the statistics of the queues and
    resets them, and "debug" does nothing.

    A text is the list of its bytes.  [sscanf] and [seq_printf] are those of the C
    library for the conversions that the files use; as in the kernel a number that is
    too large wraps around.  [input] is the whole array on the stack: the bytes after
    the text are those that were there, and a read past the array is a fault.  The
    table of the I/O units is [None] when its allocation was refused. *)

From Stdlib Require Import ZArith Lia Ascii String.
From stdpp Require Import prelude list strings.
From S2P Require Import Prelude Mem SsdConfig ConvFtl IoUnits IoQueue IoCopy Io Vdev Admin Bars Main.
Open Scope Z_scope.

(** ** Text *)

Definition text (s : string) : list Z := (fun c => Z.of_nat (nat_of_ascii c)) <$> String.list_ascii_of_string s.

Definition isdigit (c : Z) : bool := (48 <=? c) && (c <=? 57).
Definition isspace (c : Z) : bool := ((9 <=? c) && (c <=? 13)) || (c =? 32) || (c =? 160).

(** A number of at most 64 bits in decimal, and in a field of some width. *)
Fixpoint digits (fuel : nat) (n : Z) : list Z :=
  match fuel with
  | O => []
  | S fuel => (if n <? 10 then [] else digits fuel (n `div` 10)) ++ [48 + n `mod` 10]
  end.
Definition decimal (n : Z) : list Z := digits 20 n.
Definition field (width : Z) (t : list Z) : list Z := zrepeat (width - zlen t) 32 ++ t.

(** The conversions: [Num w] is %<w>u of a number that has its type's range. *)
Inductive item := Lit (s : string) | Num (width n : Z).
Definition print_item (i : item) : list Z :=
  match i with Lit s => text s | Num w n => field w (decimal n) end.
Definition seq_printf (l : list item) : list Z := l ≫= print_item.

(** Reading: the conversions are %d and %u, separated by spaces in the format. *)
Inductive conv := Conv_d | Conv_u.
#[global] Instance conv_eq_dec : EqDecision conv.
Proof. solve_decision. Defined.

Fixpoint skip_spaces (l : list Z) : list Z :=
  match l with c :: l' => if isspace c then skip_spaces l' else l | [] => [] end.

(** [simple_strtoull], with what follows the number. *)
Fixpoint scan_digits (n : Z) (l : list Z) : res (Z * list Z) :=
  match l with
  | [] => Fault OutOfBounds
  | c :: l' => if isdigit c then scan_digits (u64 (n * 10 + (c - 48))) l' else Ok (n, l)
  end.

(** A conversion: none when there is no number here. *)
Definition scan_conv (cv : conv) (l : list Z) : res (option (Z * list Z)) :=
  let l := skip_spaces l in
  c ← aget l 0;
  let minus := bool_decide (cv = Conv_d) && (c =? 45) in
  let l := if minus then tail l else l in
  c ← aget l 0;
  if isdigit c then '(n, l) ← scan_digits 0 l; Ok (Some (u32 (if minus then - n else n), l))
  else Ok None.

(** The numbers that were converted, up to the first that was not. *)
Fixpoint sscanf (fmt : list conv) (l : list Z) : res (list Z) :=
  match fmt with
  | [] => Ok []
  | cv :: fmt =>
      r ← scan_conv cv l;
      match r with
      | None => Ok []
      | Some (n, l) => ns ← sscanf fmt l; Ok (n :: ns)
      end
  end.

(** The variables that [sscanf] is given: those it has no number for stay. *)
Definition assigned (ns : list Z) (i old : Z) : Z := default old (ns !! i).

(** ** The files *)

Section proc.
Context `{BK : Backend}.
Context (kzalloc : Z -> bool).

(** [nvmev_vdev->config], [nvmev_vdev->io_unit_stat] and the device. *)
Record proc_state := ProcState { ps_config : nvmev_config; ps_unit_stat : option (list Z); ps_vdev : vdev }.

Definition cfg_with_read_times (delay time trailing : Z) (c : nvmev_config) : nvmev_config :=
  NvmevConfig c.(cf_storage_start) c.(cf_storage_size) c.(cf_nr_io_units) c.(cf_io_unit_shift)
    delay time trailing c.(cf_write_delay) c.(cf_write_time) c.(cf_write_trailing).
Definition cfg_with_write_times (delay time trailing : Z) (c : nvmev_config) : nvmev_config :=
  NvmevConfig c.(cf_storage_start) c.(cf_storage_size) c.(cf_nr_io_units) c.(cf_io_unit_shift)
    c.(cf_read_delay) c.(cf_read_time) c.(cf_read_trailing) delay time trailing.
Definition cfg_with_units (nr shift : Z) (c : nvmev_config) : nvmev_config :=
  NvmevConfig c.(cf_storage_start) c.(cf_storage_size) nr shift
    c.(cf_read_delay) c.(cf_read_time) c.(cf_read_trailing) c.(cf_write_delay) c.(cf_write_time) c.(cf_write_trailing).

Definition ps_with_config (c : nvmev_config) (s : proc_state) : proc_state := ProcState c s.(ps_unit_stat) s.(ps_vdev).

(** A line of "stat", and its last line. *)
Definition stat_line_text (l : stat_line) : list Z :=
  seq_printf [Num 2 l.(sl_queue); Lit ": "; Num 2 (u32 l.(sl_entries)); Lit " "; Num 4 l.(sl_stat).(nr_in_flight); Lit " ";
    Num 4 l.(sl_stat).(max_nr_in_flight); Lit " "; Num 4 l.(sl_stat).(nr_dispatch); Lit " "; Num 4 l.(sl_stat).(nr_dispatched);
    Lit " "; Num 0 l.(sl_stat).(total_io)] ++ [10].
Definition stat_total_text (t : stat_sums) : list Z :=
  seq_printf [Lit "total: "; Num 0 t.(ss_in_flight); Lit " "; Num 0 t.(ss_dispatch); Lit " "; Num 0 t.(ss_dispatched); Lit " ";
    Num 0 t.(ss_total_io)] ++ [10].

(** The text, with the device after it. *)
Definition __proc_file_read (filename : string) (s : proc_state) : res (list Z * proc_state) :=
  let cfg := s.(ps_config) in
  if decide (filename = "read_times"%string) then
    Ok (seq_printf [Num 0 cfg.(cf_read_delay); Lit " + "; Num 0 cfg.(cf_read_time); Lit " x + "; Num 0 cfg.(cf_read_trailing)], s)
  else if decide (filename = "write_times"%string) then
    Ok (seq_printf [Num 0 cfg.(cf_write_delay); Lit " + "; Num 0 cfg.(cf_write_time); Lit " x + "; Num 0 cfg.(cf_write_trailing)], s)
  else if decide (filename = "io_units"%string) then
    Ok (seq_printf [Num 0 cfg.(cf_nr_io_units); Lit " x "; Num 0 cfg.(cf_io_unit_shift)], s)
  else if decide (filename = "stat"%string) then
    '(lines, sums, v) ← __proc_file_read_stat s.(ps_vdev);
    Ok ((lines ≫= stat_line_text) ++ stat_total_text sums, ProcState cfg s.(ps_unit_stat) v)
  else Ok ([], s).

(** [char input[128]] after [copy_from_user]. *)
Definition INPUT_SIZE : Z := 128.
Definition copy_input (stack buf : list Z) : list Z :=
  let n := Z.to_nat (Z.min (zlen buf) INPUT_SIZE) in take n buf ++ drop n stack.

(** [stack] is what [input] holds before; the result is the count that is returned
    with the device after it. *)
Definition __proc_file_write (stack : list Z) (filename : string) (buf : list Z) (s : proc_state) : res (Z * proc_state) :=
  let count := zlen buf in
  let cfg := s.(ps_config) in
  let input := copy_input stack buf in
  if decide (filename = "read_times"%string) then
    ns ← sscanf [Conv_u; Conv_u; Conv_u] input;
    Ok (count, ps_with_config (cfg_with_read_times (assigned ns 0 cfg.(cf_read_delay)) (assigned ns 1 cfg.(cf_read_time))
                                (assigned ns 2 cfg.(cf_read_trailing)) cfg) s)
  else if decide (filename = "write_times"%string) then
    ns ← sscanf [Conv_u; Conv_u; Conv_u] input;
    Ok (count, ps_with_config (cfg_with_write_times (assigned ns 0 cfg.(cf_write_delay)) (assigned ns 1 cfg.(cf_write_time))
                                (assigned ns 2 cfg.(cf_write_trailing)) cfg) s)
  else if decide (filename = "io_units"%string) then
    ns ← sscanf [Conv_d; Conv_d] input;
    let cfg := cfg_with_units (assigned ns 0 cfg.(cf_nr_io_units)) (assigned ns 1 cfg.(cf_io_unit_shift)) cfg in
    if zlen ns <? 1 then Ok (count, ps_with_config cfg s) else
    let size := u64 (8 * cfg.(cf_nr_io_units)) in
    let stat := if kzalloc size then Some (zrepeat cfg.(cf_nr_io_units) 0) else None in
    Ok (count, ProcState cfg stat s.(ps_vdev))
  else if decide (filename = "stat"%string) then
    v ← __proc_file_write_stat s.(ps_vdev);
    Ok (count, ProcState cfg s.(ps_unit_stat) v)
  else Ok (count, s).
End proc.

(** ** Numbers in a text *)

Lemma digit_range d : 0 <= d < 10 -> isdigit (48 + d) = true.
Proof. intros H. unfold isdigit. by rewrite !(proj2 (Z.leb_le _ _)) by lia. Qed.

Lemma digits_digits fuel n : Forall (fun c => isdigit c = true) (digits fuel n).
Proof.
  revert n. induction fuel as [|fuel IH]; intros n; simpl; [constructor|]. apply Forall_app. split.
  - destruct (n <? 10); [constructor|apply IH].
  - constructor; [|constructor]. apply digit_range, Z.mod_pos_bound. lia.
Qed.

Lemma decimal_cons n : exists c l, decimal n = c :: l /\ isdigit c = true.
Proof.
  pose proof (digits_digits 20 n) as H. unfold decimal. destruct (digits 20 n) as [|c l] eqn:E; [by apply app_nil in E as [_ ?]|].
  apply Forall_cons in H as [Hc _]. by exists c, l.
Qed.

(** The value of a list of digits, read from the left. *)
Definition value (n : Z) (ds : list Z) : Z := foldl (fun n c => u64 (n * 10 + (c - 48))) n ds.

Lemma value_digits fuel n : (0 < fuel)%nat -> 0 <= n < 10 ^ Z.of_nat fuel -> n < 18446744073709551616 -> value 0 (digits fuel n) = n.
Proof.
  revert n. induction fuel as [|fuel IH]; intros n Hf Hn H64; [lia|]. simpl. unfold value in *. rewrite foldl_app. simpl.
  replace (48 + n `mod` 10 - 48) with (n `mod` 10) by lia. pose proof (Z.div_mod n 10). pose proof (Z.mod_pos_bound n 10).
  destruct (n <? 10) eqn:E; [apply Z.ltb_lt in E|apply Z.ltb_ge in E].
  - simpl. rewrite Z.mod_small by lia. by rewrite u64_small by lia.
  - assert (n < 10 ^ Z.of_nat fuel * 10) by (replace (Z.of_nat (S fuel)) with (Z.of_nat fuel + 1) in Hn by lia; rewrite Z.pow_add_r in Hn by lia; lia).
    rewrite IH; [rewrite u64_small; lia| |split; [apply Z.div_pos; lia|apply Z.div_lt_upper_bound; lia]|apply Z.div_lt_upper_bound; lia].
    destruct fuel; [|lia]. change (10 ^ Z.of_nat 0) with 1 in *. lia.
Qed.

Lemma value_decimal n : 0 <= n < 18446744073709551616 -> value 0 (decimal n) = n.
Proof. intros H. apply value_digits; [lia| |lia]. change (10 ^ Z.of_nat 20) with 100000000000000000000. lia. Qed.

Definition digit_free (t : list Z) : Prop := exists c t', t = c :: t' /\ isdigit c = false.

Lemma scan_digits_app ds t n : Forall (fun c => isdigit c = true) ds -> digit_free t -> scan_digits n (ds ++ t) = Ok (value n ds, t).
Proof.
  intros Hd (c & t' & -> & Hc). revert n. induction Hd as [|d ds Hd _ IH]; intros n; simpl; [by rewrite Hc|]. by rewrite Hd, IH.
Qed.

Definition spaces (sp : list Z) : Prop := Forall (fun c => isspace c = true) sp.

Lemma digit_not_space c : isdigit c = true -> isspace c = false.
Proof.
  unfold isdigit, isspace. intros [H1%Z.leb_le H2%Z.leb_le]%andb_true_iff.
  rewrite (proj2 (Z.eqb_neq c 32)), (proj2 (Z.eqb_neq c 160)), (proj2 (Z.leb_gt c 13)) by lia. by rewrite andb_false_r.
Qed.

Lemma space_not_digit c : isspace c = true -> isdigit c = false.
Proof. intros H. destruct (isdigit c) eqn:E; [|done]. apply digit_not_space in E. congruence. Qed.

Lemma skip_spaces_app sp c t : spaces sp -> isspace c = false -> skip_spaces (sp ++ c :: t) = c :: t.
Proof. intros Hs Hc. induction Hs as [|d sp Hd _ IH]; simpl; [by rewrite Hc|by rewrite Hd]. Qed.

Lemma aget_head (c : Z) l : aget (c :: l) 0 = Ok c.
Proof. done. Qed.

(** A number of 32 bits is read by either conversion. *)
Lemma scan_conv_decimal cv sp n t : spaces sp -> 0 <= n < 4294967296 -> digit_free t ->
  scan_conv cv (sp ++ decimal n ++ t) = Ok (Some (n, t)).
Proof.
  intros Hs Hn Ht. destruct (decimal_cons n) as (c & l & Ed & Hc). unfold scan_conv. rewrite Ed. cbn [app].
  rewrite skip_spaces_app by (done || by apply digit_not_space). rewrite aget_head, bind_Ok.
  assert ((c =? 45) = false) as -> by (apply Z.eqb_neq; intros ->; done). rewrite andb_false_r, aget_head, bind_Ok, Hc.
  change (c :: l ++ t) with ((c :: l) ++ t). rewrite <- Ed. rewrite scan_digits_app by (apply digits_digits || done). rewrite bind_Ok.
  rewrite value_decimal by lia. by rewrite u32_small by lia.
Qed.

(** Something that is no number ends the conversions. *)
Lemma scan_conv_other cv sp c t : spaces sp -> isspace c = false -> isdigit c = false -> c <> 45 ->
  scan_conv cv (sp ++ c :: t) = Ok None.
Proof.
  intros Hs Hc Hd H45. unfold scan_conv. rewrite skip_spaces_app by done. rewrite aget_head, bind_Ok.
  rewrite (proj2 (Z.eqb_neq c 45)) by done. by rewrite andb_false_r, aget_head, bind_Ok, Hd.
Qed.

(** [t] goes on with the numbers [ns], each after spaces. *)
Inductive listing : list Z -> list Z -> Prop :=
| listing_end t : digit_free t -> listing t []
| listing_more sp n t ns : sp <> [] -> spaces sp -> 0 <= n < 4294967296 -> listing t ns -> listing (sp ++ decimal n ++ t) (n :: ns).

(** A text that a user writes: the numbers, with spaces between them. *)
Definition written (t : list Z) (ns : list Z) : Prop :=
  match ns with
  | [] => True
  | n :: ns => exists sp t', t = sp ++ decimal n ++ t' /\ spaces sp /\ 0 <= n < 4294967296 /\ listing t' ns
  end.

Lemma listing_free t ns : listing t ns -> digit_free t.
Proof.
  intros [t' Ht|sp n t' ns' Hne Hs _ _]; [done|]. destruct sp as [|c sp]; [done|]. exists c, (sp ++ decimal n ++ t').
  split; [done|]. apply space_not_digit. by apply Forall_cons in Hs as [? _].
Qed.

Lemma listing_app t ns u : listing t ns -> listing (t ++ u) ns.
Proof.
  induction 1 as [t (c & t' & -> & Hc)|sp n t ns Hne Hs Hn _ IH]; [constructor; by exists c, (t' ++ u)|].
  rewrite <- !(assoc_L (++)). by constructor.
Qed.

Lemma sscanf_listing fmt t ns : length fmt = length ns -> listing t ns -> sscanf fmt t = Ok ns.
Proof.
  intros El H. revert fmt El. induction H as [t Ht|sp n t ns Hne Hs Hn Ht IH]; intros [|cv fmt] El; try done.
  simpl. rewrite scan_conv_decimal by (done || by eapply listing_free). rewrite bind_Ok. rewrite IH by (simpl in El; lia). done.
Qed.

(** The numbers that were written are those that are scanned. *)
Lemma sscanf_written fmt stack buf ns : length fmt = length ns -> zlen buf <= INPUT_SIZE -> written buf ns ->
  sscanf fmt (copy_input stack buf) = Ok ns.
Proof.
  intros El Hb Hw. unfold copy_input. rewrite take_ge by (unfold zlen in *; lia). destruct ns as [|n ns], fmt as [|cv fmt]; try done.
  destruct Hw as (sp & t & -> & Hs & Hn & Ht). rewrite <- !(assoc_L (++)). simpl.
  pose proof (listing_app _ _ (drop (Z.to_nat (zlen (sp ++ decimal n ++ t) `min` INPUT_SIZE)) stack) Ht) as Ha.
  rewrite scan_conv_decimal by (done || by eapply listing_free). rewrite bind_Ok.
  rewrite (sscanf_listing fmt _ ns); [done|simpl in El; lia|done].
Qed.

(** What is shown is not what is scanned: the scan ends at the first word. *)
Lemma sscanf_first cv fmt n c t : 0 <= n < 4294967296 -> isspace c = false -> isdigit c = false -> c <> 45 ->
  sscanf (cv :: fmt) (decimal n ++ 32 :: c :: t) = Ok [n].
Proof.
  intros Hn Hs Hd H45. cbn [sscanf]. assert (scan_conv cv (decimal n ++ 32 :: c :: t) = Ok (Some (n, 32 :: c :: t))) as -> by (apply (scan_conv_decimal cv []); [constructor|done|by eexists _, _]).
  rewrite bind_Ok. destruct fmt as [|cv2 fmt]; [done|]. cbn [sscanf].
  assert (scan_conv cv2 (32 :: c :: t) = Ok None) as -> by (apply (scan_conv_other cv2 [32]); [by constructor|done..]). done.
Qed.

(** ** Numbers in any text *)

(** The numbers of a text: its longest runs of digits. *)
Fixpoint numbers_in (cur : option Z) (t : list Z) : list Z :=
  match t with
  | [] => option_list cur
  | c :: t => if isdigit c then numbers_in (Some (value (default 0 cur) [c])) t else option_list cur ++ numbers_in None t
  end.

Lemma numbers_run ds v t : Forall (fun c => isdigit c = true) ds -> numbers_in (Some v) (ds ++ t) = numbers_in (Some (value v ds)) t.
Proof. intros H. revert v. induction H as [|d ds Hd _ IH]; intros v; [done|]. simpl. rewrite Hd. by rewrite IH. Qed.

Lemma numbers_decimal n t : 0 <= n < 4294967296 -> t = [] \/ digit_free t -> numbers_in None (decimal n ++ t) = n :: numbers_in None t.
Proof.
  intros Hn Ht. destruct (decimal_cons n) as (c & l & Ed & Hc). pose proof (digits_digits 20 n) as Hd. fold (decimal n) in Hd.
  pose proof (value_decimal n ltac:(lia)) as Hv. rewrite Ed in *. apply Forall_cons in Hd as [_ Hd]. cbn [app numbers_in default]. rewrite Hc.
  rewrite numbers_run by done. change (value (value 0 [c]) l) with (value 0 (c :: l)). rewrite Hv.
  destruct Ht as [->|(c' & t' & -> & Hc')]; [done|]. simpl. by rewrite Hc'.
Qed.

Lemma length_digits fuel n : (length (digits fuel n) <= fuel)%nat.
Proof.
  revert n. induction fuel as [|fuel IH]; intros n; simpl; [lia|]. rewrite length_app. simpl. destruct (n <? 10); [simpl; lia|].
  specialize (IH (n `div` 10)). lia.
Qed.

Lemma zlen_decimal n : zlen (decimal n) <= 20.
Proof. pose proof (length_digits 20 n). unfold zlen, decimal. lia. Qed.

Lemma field_0 t : field 0 t = t.
Proof. unfold field, zrepeat. pose proof (zlen_nonneg t). by replace (Z.to_nat (0 - zlen t)) with 0%nat by lia. Qed.

Lemma copy_input_short stack buf : zlen buf <= INPUT_SIZE -> copy_input stack buf = buf ++ drop (length buf) stack.
Proof.
  intros H. unfold copy_input. rewrite Z.min_l by done. unfold zlen. rewrite Nat2Z.id. by rewrite take_ge by lia.
Qed.
