(* ===== verification/Threads.v ===== *)
(** * Threads, idle time and proc entries (main.c, io.c)

    The dispatcher and the workers are kernel threads, made at the start of the module
    and bound to the processors of the configuration; a round of a thread ends with a
    sleep when nothing has happened for a minute.  Beside them are the entries under
    /proc/nvmev.

    Whether the kernel makes a thread is a parameter: for one that it does not make it
    returns an error as a pointer, which is used without a check.  [jiffies] is any
    word at each reading. *)

From Stdlib Require Import ZArith Lia Ascii String.
From stdpp Require Import prelude list strings.
From S2P Require Import Prelude Mem SsdConfig ConvFtl IoUnits IoQueue IoCopy Io Vdev Admin Bars Main ProcFs.
Open Scope Z_scope.

(** ** Threads *)

Record kthread := KThread { kt_name : list Z; kt_cpu : option Z; kt_awake : bool }.

Definition thread_name (worker_id : Z) : list Z := text "nvmev_io_worker_" ++ decimal worker_id.

Section threads.
Context (created : list Z -> bool).

(** [kthread_create], [kthread_bind] when there is a processor, [wake_up_process]. *)
Definition start_thread (name : list Z) (cpu : option Z) : res kthread :=
  if created name then Ok (KThread name cpu true) else Fault NullDeref.

Definition NVMEV_DISPATCHER_INIT (cpu_nr_dispatcher : Z) : res kthread :=
  start_thread (text "nvmev_dispatcher") (if cpu_nr_dispatcher =? u32 (-1) then None else Some cpu_nr_dispatcher).

Definition start_worker (cpu_nr_io_workers : list Z) (worker_id : Z) (l : list kthread) : res (list kthread) :=
  cpu ← aget cpu_nr_io_workers worker_id;
  t ← start_thread (thread_name worker_id) (Some cpu);
  Ok (l ++ [t]).
Definition start_workers (nr_io_workers : Z) (cpu_nr_io_workers : list Z) : res (list kthread) :=
  rfold (start_worker cpu_nr_io_workers) (zrange 0 nr_io_workers) [].
End threads.

(** [kthread_stop] returns when the thread has ended. *)
Definition NVMEV_DISPATCHER_FINAL (t : option kthread) : option kthread := match t with Some _ => None | None => None end.

(** ** Idle time *)

Definition CONFIG_NVMEVIRT_IDLE_TIMEOUT : Z := 60.
Definition s64 (x : Z) : Z := (x + 9223372036854775808) `mod` 18446744073709551616 - 9223372036854775808.
Definition time_after (a b : Z) : bool := s64 (b - a) <? 0.

(** Whether the thread sleeps for a jiffie, rather than only letting others run. *)
Definition thread_sleeps (HZ jiffies last : Z) : bool :=
  negb (CONFIG_NVMEVIRT_IDLE_TIMEOUT =? 0) && time_after jiffies (u64 (last + CONFIG_NVMEVIRT_IDLE_TIMEOUT * HZ)).

(** A round of the dispatcher: [j1], [j2] and [j3] are the three readings. *)
Definition dispatcher_round `{BK : Backend} `{BD : Build} `{NF : !NsFields BK} `{QC : QueueConfig} (HZ j1 j2 j3 last_dispatched_time : Z) (v : vdev) :
    res (vdev * Z * bool) :=
  '(v, bars) ← nvmev_proc_bars v;
  let last := if bars : bool then j1 else last_dispatched_time in
  '(v, dbs) ← nvmev_proc_dbs v;
  let last := if dbs : bool then j2 else last in
  Ok (v, last, thread_sleeps HZ j3 last).

(** ** Proc entries *)

Definition proc_init : list string := ["nvmev"; "read_times"; "write_times"; "io_units"; "stat"; "debug"]%string.
Definition remove_proc_entry (name : string) (l : list string) : list string := filter (fun n => n <> name) l.
Definition proc_final (l : list string) : list string :=
  let l := remove_proc_entry "read_times" l in
  let l := remove_proc_entry "write_times" l in
  let l := remove_proc_entry "io_units" l in
  let l := remove_proc_entry "stat" l in
  let l := remove_proc_entry "debug" l in
  remove_proc_entry "nvmev" l.

(** ** What they do *)

Lemma proc_entries_removed : proc_final proc_init = [].
Proof. reflexivity. Qed.

Lemma length_digits_lt k fuel n : (0 < k)%nat -> 0 <= n < 10 ^ Z.of_nat k -> (length (digits fuel n) <= k)%nat.
Proof.
  revert k n. induction fuel as [|fuel IH]; intros k n Hk Hn; simpl; [lia|]. rewrite length_app. simpl.
  destruct (n <? 10) eqn:E; [simpl; lia|]. apply Z.ltb_ge in E. destruct k as [|[|k]]; [lia|change (10 ^ Z.of_nat 1) with 10 in Hn; lia|].
  specialize (IH (S k) (n `div` 10) ltac:(lia)). replace (Z.of_nat (S (S k))) with (Z.of_nat (S k) + 1) in Hn by lia. rewrite Z.pow_add_r in Hn by lia.
  assert (0 <= n `div` 10 < 10 ^ Z.of_nat (S k)) as Hq by (split; [apply Z.div_pos; lia|apply Z.div_lt_upper_bound; lia]). specialize (IH Hq). lia.
Qed.

(** The names of the workers' threads fit the 32 bytes that they have, and differ. *)
Lemma thread_name_fits i : 0 <= i < 4294967296 -> zlen (thread_name i) < 32.
Proof.
  intros Hi. unfold thread_name. rewrite zlen_app. change (zlen (text "nvmev_io_worker_")) with 16.
  pose proof (length_digits_lt 10 20 i ltac:(lia)) as H. change (10 ^ Z.of_nat 10) with 10000000000 in H. unfold zlen, decimal. lia.
Qed.

Lemma thread_names_differ i j : 0 <= i < 4294967296 -> 0 <= j < 4294967296 -> thread_name i = thread_name j -> i = j.
Proof.
  unfold thread_name. intros Hi Hj E. apply app_inv_head in E. rewrite <- (value_decimal i), <- (value_decimal j) by lia. by rewrite E.
Qed.

(** Every worker has its thread, awake and on its processor. *)
Lemma workers_started created nr cpus : (forall i, 0 <= i < nr -> created (thread_name i) = true) -> 0 <= nr <= zlen cpus ->
  okp (start_workers created nr cpus) (fun l => zlen l = nr /\
    forall i, 0 <= i < nr -> exists cpu, cpus !! i = Some cpu /\ l !! i = Some (KThread (thread_name i) (Some cpu) true)).
Proof.
  intros Hc Hn. unfold start_workers.
  apply (rfold_range _ (fun k l => zlen l = k /\ forall i, 0 <= i < k -> exists cpu, cpus !! i = Some cpu /\ l !! i = Some (KThread (thread_name i) (Some cpu) true))).
  - lia.
  - split; [done|lia].
  - intros k l Hk [Hl Hi]. unfold start_worker, start_thread. okstep. apply aget_okp; [lia|]. intros cpu Ecpu. rewrite Hc by lia. rewrite bind_Ok. simpl.
    split; [rewrite zlen_app; unfold zlen in *; simpl; lia|]. intros i Hi2. destruct (decide (i = k)) as [->|].
    + exists cpu. split; [done|]. rewrite zlookup_to_nat by lia. rewrite lookup_app_r by (unfold zlen in *; lia).
      replace (Z.to_nat k - length l)%nat with 0%nat by (unfold zlen in *; lia). done.
    + destruct (Hi i ltac:(lia)) as (c & E1 & E2). exists c. split; [done|]. rewrite zlookup_to_nat in E2 |- * by lia. by rewrite lookup_app_l by (unfold zlen in *; lia).
Qed.

(** A thread sleeps when more than the timeout has gone by, as long as fewer than
    2^63 jiffies have. *)
Lemma thread_sleeps_spec HZ j last : 0 <= last -> 0 <= HZ -> last + CONFIG_NVMEVIRT_IDLE_TIMEOUT * HZ < 18446744073709551616 ->
  0 <= j < 18446744073709551616 -> - 9223372036854775808 < j - (last + CONFIG_NVMEVIRT_IDLE_TIMEOUT * HZ) < 9223372036854775808 ->
  (thread_sleeps HZ j last = true <-> last + CONFIG_NVMEVIRT_IDLE_TIMEOUT * HZ < j).
Proof.
  intros Hl Hz Hs Hj Hd. unfold thread_sleeps, time_after, s64. change (CONFIG_NVMEVIRT_IDLE_TIMEOUT =? 0) with false. cbn [negb andb].
  rewrite u64_small by (unfold CONFIG_NVMEVIRT_IDLE_TIMEOUT in *; lia). rewrite Z.ltb_lt.
  set (d := last + CONFIG_NVMEVIRT_IDLE_TIMEOUT * HZ) in *. clearbody d.
  destruct (Z.eq_dec (d - j) 9223372036854775808) as [E|E]; [lia|]. rewrite Z.mod_small by lia. lia.
Qed.
