(* ===== verification/MainInv.v ===== *)
(** * A pass of the dispatcher

    What a call of [nvmev_proc_dbs] does with all the queues together: each
    submission queue in use is served as if it were alone, because the others leave
    its entries, its doorbell and, where the room of its worker is enough for all
    the queues of the worker, its room alone.  Then the layout of the namespaces in the
    storage, over the class [NsInitLaws] of the initialisation functions, of which the
    four kinds are instances. *)

From stdpp Require Import prelude list.
From Stdlib Require Import ZArith Lia.
From S2P Require Import Prelude Mem ChannelModel SsdConfig Ssd ConvFtl ConvNs ConvInit ConvRun ZnsFtl ZnsSend ZnsInit IoUnits KvAlloc KvFtl IoQueue IoInv NvmeCmd.
From S2P Require Import IoCopy Io IoBackends IoRun IoDispatch IoConsume Vdev Admin Bars Main.

Section pass.
Context `{BK : Backend} `{BD : Build} `{NF : !NsFields BK} `{QC : QueueConfig} (W : list bk_ns -> bk_world -> Prop) `{LW : !BackendLaws BK W}.
Context (pfn_valid : Z -> bool) (store_size : Z) (dma : bool).

Notation run := (queue_run pfn_valid store_size dma).

Definition db_at (l : list Z) (i : Z) : Z := default 0 (l !! i).
Definition new_sq (v : vdev) (q : Z) : Z := db_at v.(vd_dbs) (q * 2).
Definition old_sq (v : vdev) (q : Z) : Z := db_at v.(vd_old_dbs) (q * 2).
Definition new_cq (v : vdev) (q : Z) : Z := db_at v.(vd_dbs) (q * 2 + 1).
Definition old_cq (v : vdev) (q : Z) : Z := db_at v.(vd_old_dbs) (q * 2 + 1).

(** The entries of the queue of the worker [w] that the submission queue [q] may
    take, and those that all of a list may take. *)
Definition need (v : vdev) (w q : Z) : nat :=
  match v.(vd_io).(dv_sqes) !! q with
  | Some (Some sq) => if worker_of v.(vd_io) q =? w then Z.to_nat (ring_distance sq.(sq_queue_size) (new_sq v q) (old_sq v q)) * S max_internal else 0
  | _ => 0
  end.
Definition needs (v : vdev) (w : Z) (qs : list Z) : nat := sum_list (need v w <$> qs).

(** Where the commands are that the submission queue [q] offers. *)
Definition queue_addrs (v : vdev) (q : Z) : list Z :=
  match v.(vd_io).(dv_sqes) !! q with Some (Some sq) => ring_addrs sq (new_sq v q) (old_sq v q) | _ => [] end.

(** The commands of different queues are apart, and the completions are not where the
    handling of a command writes. *)
Record pass_ok (v : vdev) : Prop := {
  pk_inv : dispatch_inv W v.(vd_io);
  pk_nr : 0 <= v.(vd_nr_sq) < zlen v.(vd_io).(dv_sqes) /\ 0 <= v.(vd_io).(dv_nr_cq) < zlen v.(vd_io).(dv_cqes);
  pk_len : zlen v.(vd_io).(dv_sqes) = NR_MAX_IO_QUEUE + 1 /\ zlen v.(vd_io).(dv_cqes) = NR_MAX_IO_QUEUE + 1 /\
    zlen v.(vd_dbs) = 1024 /\ zlen v.(vd_old_dbs) = 1024;
  pk_sq q sq : 1 <= q <= v.(vd_nr_sq) -> v.(vd_io).(dv_sqes) !! q = Some (Some sq) ->
    ring_ok W q sq v.(vd_io) (new_sq v q) (old_sq v q) /\ stat_ok sq.(sq_stat) /\
    (needs v (worker_of v.(vd_io) q) (zrange 1 (v.(vd_nr_sq) + 1)) < room v.(vd_io) (worker_of v.(vd_io) q))%nat;
  pk_cq q cq : 1 <= q <= v.(vd_io).(dv_nr_cq) -> v.(vd_io).(dv_cqes) !! q = Some (Some cq) ->
    consume_ok q cq v.(vd_io) (new_cq v q) (old_cq v q);
  pk_apart q q' a b : 1 <= q <= v.(vd_nr_sq) -> 1 <= q' <= v.(vd_nr_sq) -> q <> q' ->
    a ∈ queue_addrs v q -> b ∈ queue_addrs v q' -> cmd_apart a b;
  pk_cqe q cq i c a x : 1 <= q <= v.(vd_io).(dv_nr_cq) -> v.(vd_io).(dv_cqes) !! q = Some (Some cq) ->
    0 <= i < cq.(cq_queue_size) -> cq_entry cq i = Ok c -> a ∈ concat (queue_addrs v <$> zrange 1 (v.(vd_nr_sq) + 1)) ->
    c <= x < c + NVME_COMPLETION_SIZE -> ~ cmd_writes a x
}.

(** The requests that the queue [q] gave, and what is left of it. *)
Definition sq_taken (v0 v : vdev) (q : Z) (reqs : list request) : Prop :=
  match v0.(vd_io).(dv_sqes) !! q with
  | Some (Some sq) => exists m st inss,
      0 <= m <= ring_distance sq.(sq_queue_size) (new_sq v0 q) (old_sq v0 q) /\
      (may_refuse = false -> m = ring_distance sq.(sq_queue_size) (new_sq v0 q) (old_sq v0 q)) /\
      v.(vd_old_dbs) !! (q * 2) = Some ((old_sq v0 q + m) `mod` sq.(sq_queue_size)) /\
      v.(vd_io).(dv_sqes) !! q = Some (Some (sq_with_stat st sq)) /\
      st.(nr_in_flight) = u32 (sq.(sq_stat).(nr_in_flight) + m) /\
      Forall2 (served W q sq v0.(vd_io)) (first_entries sq (old_sq v0 q) m) inss /\ reqs = concat inss
  | _ => reqs = []
  end.

Lemma vdev_eta (v : vdev) : v = vd_with_dbs v.(vd_dbs) v.(vd_old_dbs) (vd_with_io v.(vd_io) v).
Proof using. by destruct v. Qed.
Lemma sqes_eta (d : io_dev) : same_rest (dv_with_sqes d.(dv_sqes) d) d.
Proof using. by destruct d. Qed.

Section sqs.
Context (v0 : vdev) (Hv : pass_ok v0).
Notation d0 := v0.(vd_io).

(** After the submission queues below [j]. *)
Record sqs_at (j : Z) (v : vdev) : Prop := {
  sa_frame : v = vd_with_dbs v0.(vd_dbs) v.(vd_old_dbs) (vd_with_io v.(vd_io) v0);
  sa_rest : same_rest (dv_with_sqes v.(vd_io).(dv_sqes) d0) v.(vd_io);
  sa_nr : v.(vd_io).(dv_nr_cq) = d0.(dv_nr_cq);
  sa_inv : dispatch_inv W v.(vd_io);
  sa_host : host_kept cmd_writes (concat (queue_addrs v0 <$> zrange 1 j)) (dv_host d0) (dv_host v.(vd_io));
  sa_len : zlen v.(vd_io).(dv_sqes) = NR_MAX_IO_QUEUE + 1 /\ zlen v.(vd_old_dbs) = 1024;
  sa_later q : j <= q -> v.(vd_io).(dv_sqes) !! q = d0.(dv_sqes) !! q /\ v.(vd_old_dbs) !! (q * 2) = v0.(vd_old_dbs) !! (q * 2);
  sa_odd q : v.(vd_old_dbs) !! (q * 2 + 1) = v0.(vd_old_dbs) !! (q * 2 + 1);
  sa_room w : (room d0 w <= needs v0 w (zrange 1 j) + room v.(vd_io) w)%nat;
  sa_taken : exists reqs, (forall q, 1 <= q < j -> sq_taken v0 v q (reqs q)) /\
    forall w, run w d0 (concat ((fun q => at_worker (worker_of d0 q) w (reqs q)) <$> zrange 1 j)) [] v.(vd_io)
}.

Lemma needs_snoc w j : 1 <= j -> needs v0 w (zrange 1 (j + 1)) = (needs v0 w (zrange 1 j) + need v0 w j)%nat.
Proof using. clear Hv. intros Hj. unfold needs. rewrite zrange_snoc, fmap_app, sum_list_with_app by lia. simpl. lia. Qed.

Lemma needs_mono w j k : 1 <= j <= k -> (needs v0 w (zrange 1 j) <= needs v0 w (zrange 1 k))%nat.
Proof using.
  clear Hv. intros Hjk. replace k with (j + Z.of_nat (Z.to_nat (k - j))) by lia. induction (Z.to_nat (k - j)) as [|n IH]; [by rewrite Z.add_0_r|].
  replace (j + Z.of_nat (S n)) with (j + Z.of_nat n + 1) by lia. rewrite needs_snoc by lia. lia.
Qed.
(** One submission queue. *)
Lemma addrs_before j a : a ∈ concat (queue_addrs v0 <$> zrange 1 j) <-> exists q, 1 <= q < j /\ a ∈ queue_addrs v0 q.
Proof using.
  clear Hv. split.
  - intros H%list_elem_of_In. apply in_concat in H as (l & Hl%list_elem_of_In & Ha%list_elem_of_In).
    apply list_elem_of_fmap in Hl as (q & -> & Hq%elem_of_zrange). by exists q.
  - intros (q & Hq & Ha). apply list_elem_of_In, in_concat. exists (queue_addrs v0 q).
    split; apply list_elem_of_In; [by apply list_elem_of_fmap_2, elem_of_zrange|done].
Qed.

Lemma addrs_snoc j : 1 <= j -> concat (queue_addrs v0 <$> zrange 1 (j + 1)) = concat (queue_addrs v0 <$> zrange 1 j) ++ queue_addrs v0 j.
Proof using. clear Hv. intros Hj. rewrite zrange_snoc, fmap_app, concat_app by done. simpl. by rewrite app_nil_r. Qed.

Lemma entry_later j v q sq e a : sqs_at j v -> j <= q <= v0.(vd_nr_sq) -> d0.(dv_sqes) !! q = Some (Some sq) ->
  ring_ok W q sq d0 (new_sq v0 q) (old_sq v0 q) -> e ∈ ring_entries sq.(sq_queue_size) (new_sq v0 q) (old_sq v0 q) -> sq_entry sq e = Ok a ->
  cmd_allowed (dv_host v.(vd_io)) a /\ same_command (dv_host d0) (dv_host v.(vd_io)) a.
Proof using Hv LW.
  intros Hs Hq Esq Hr He Ha. destruct (ro_entry _ _ _ _ _ _ Hr e He) as (a' & Ha' & _ & Hal). rewrite Ha in Ha'. injection Ha' as <-.
  assert (a ∈ queue_addrs v0 q) as Hin.
  { unfold queue_addrs. rewrite Esq. apply list_elem_of_fmap. exists e. split; [|done]. unfold entry_addr. by rewrite Ha. }
  destruct (Z_le_gt_dec 1 j) as [Hj|Hj].
  - eapply law_apart; [done| |exact (sa_host _ _ Hs)]. intros b Hb. apply addrs_before in Hb as (q' & Hq' & Hb).
    apply (pk_apart _ Hv q' q b a); (done || lia).
  - eapply (law_apart []); [done|by intros b Hb%not_elem_of_nil|]. eapply kept_weaken; [exact (sa_host _ _ Hs)|].
    intros b Hb. apply addrs_before in Hb as (q' & Hq' & _). lia.
Qed.

Lemma ring_later j v q sq :
  sqs_at j v -> j <= q <= v0.(vd_nr_sq) -> d0.(dv_sqes) !! q = Some (Some sq) -> ring_ok W q sq d0 (new_sq v0 q) (old_sq v0 q) ->
  ring_ok W q sq v.(vd_io) (new_sq v0 q) (old_sq v0 q).
Proof using Hv LW.
  intros Hs Hq Esq Hr. pose proof Hr as [R1 R2 R3 R4 R5 R6]. destruct (sa_later _ _ Hs q ltac:(lia)) as [E _].
  split; [|done|done|done| |done].
  - unfold get_sq, aget in *. by rewrite E.
  - intros e He. destruct (R5 e He) as (a & Ea & Hn & _). exists a.
    destruct (entry_later _ _ _ _ _ _ Hs Hq Esq Hr He Ea) as [Hal (_ & Hid & _)]. split; [done|]. split; [|done].
    unfold nsid_of in *. rewrite Hid, (se_ns _ _ (sa_rest _ _ Hs)). done.
Qed.

Lemma served_back j v q sq e ins :
  sqs_at j v -> j <= q <= v0.(vd_nr_sq) -> d0.(dv_sqes) !! q = Some (Some sq) -> ring_ok W q sq d0 (new_sq v0 q) (old_sq v0 q) ->
  e ∈ ring_entries sq.(sq_queue_size) (new_sq v0 q) (old_sq v0 q) -> served W q sq v.(vd_io) e ins -> served W q sq d0 e ins.
Proof using Hv LW.
  intros Hs Hq Esq Hr He (a & ops & t & ret & Ha & Hl & Hb & ->). exists a, ops, t, ret. unfold command_request.
  by destruct (entry_later _ _ _ _ _ _ Hs Hq Esq Hr He Ha) as [_ (-> & _ & _)].
Qed.

Lemma worker_back j v q : sqs_at j v -> worker_of v.(vd_io) q = worker_of d0 q.
Proof using. intros Hs. exact (worker_of_same _ _ q (sa_rest _ _ Hs)). Qed.

(** The requests of one queue more. *)
Definition extend (reqs : Z -> list request) (j : Z) (l : list request) : Z -> list request :=
  fun q => if q =? j then l else reqs q.

Lemma runs_snoc j v d' reqs l :
  1 <= j -> (forall w, run w d0 (concat ((fun q => at_worker (worker_of d0 q) w (reqs q)) <$> zrange 1 j)) [] v.(vd_io)) ->
  (forall w, run w v.(vd_io) (at_worker (worker_of d0 j) w l) [] d') ->
  forall w, run w d0 (concat ((fun q => at_worker (worker_of d0 q) w (extend reqs j l q)) <$> zrange 1 (j + 1))) [] d'.
Proof using.
  clear Hv. intros Hj H1 H2 w. rewrite zrange_snoc, fmap_app, concat_app by done. cbn [fmap list_fmap concat]. rewrite app_nil_r.
  unfold extend at 2. rewrite Z.eqb_refl. eapply (run_app _ _ _ _ _ _ []); [|exact (H2 w)].
  assert ((fun q => at_worker (worker_of d0 q) w (extend reqs j l q)) <$> zrange 1 j =
          (fun q => at_worker (worker_of d0 q) w (reqs q)) <$> zrange 1 j) as ->; [|exact (H1 w)].
  apply list_fmap_ext. intros i q Hq. apply list_elem_of_lookup_2, elem_of_zrange in Hq. unfold extend. by rewrite (proj2 (Z.eqb_neq _ _)) by lia.
Qed.

(** What was taken of the queues before is not touched. *)
Lemma taken_frame v v' q j reqs l :
  q < j -> v'.(vd_old_dbs) !! (q * 2) = v.(vd_old_dbs) !! (q * 2) -> v'.(vd_io).(dv_sqes) !! q = v.(vd_io).(dv_sqes) !! q ->
  sq_taken v0 v q (reqs q) -> sq_taken v0 v' q (extend reqs j l q).
Proof using.
  intros Hq E1 E2. unfold extend. rewrite (proj2 (Z.eqb_neq _ _)) by lia. unfold sq_taken. rewrite E1, E2. done.
Qed.

(** A queue of which nothing is taken. *)
Lemma taken_none j v l : sqs_at j v -> 1 <= j -> sq_taken v0 v j l -> l = [] -> sqs_at (j + 1) v.
Proof using.
  clear Hv. intros [S1 S2 S3 S4 Sh S5 S6 S7 S8 (reqs & T & R)] Hj Ht ->. split; try done.
  - eapply kept_weaken; [exact Sh|]. intros a Ha. rewrite addrs_snoc, elem_of_app by done. by left.
  - intros q Hq. apply S6. lia.
  - intros w. specialize (S8 w). rewrite needs_snoc by done. lia.
  - exists (extend reqs j []). split.
    + intros q Hq. destruct (Z.eq_dec q j) as [->|]; [unfold extend; by rewrite Z.eqb_refl|]. apply (taken_frame v v); [lia|done|done|apply T; lia].
    + apply (runs_snoc j v); [done|done|]. intros w. rewrite at_worker_nil. constructor.
Qed.

(** A doorbell that did not move. *)
Lemma taken_still j v sq : sqs_at j v -> d0.(dv_sqes) !! j = Some (Some sq) -> stat_ok sq.(sq_stat) ->
  0 <= old_sq v0 j < sq.(sq_queue_size) -> new_sq v0 j = old_sq v0 j -> 1 <= j < NR_MAX_IO_QUEUE + 1 -> sq_taken v0 v j [].
Proof using Hv.
  intros Hs Esq (_ & Hst & _) Ho E Hj. unfold sq_taken. rewrite Esq. unfold ring_distance. rewrite E, Z.sub_diag, Z.mod_0_l by lia.
  destruct (sa_later _ _ Hs j ltac:(lia)) as [E1 E2]. exists 0, (sq_stat sq), []. split; [lia|]. split; [done|].
  rewrite Z.add_0_r, Z.mod_small by lia. split; [|split; [|split; [|split]]].
  - rewrite E2. unfold old_sq, db_at in *. destruct (pk_len _ Hv) as (_ & _ & _ & Hl). unfold NR_MAX_IO_QUEUE in Hj.
    destruct (zlookup_lt v0.(vd_old_dbs) (j * 2) ltac:(lia)) as [x ->]. done.
  - rewrite E1, Esq. by destruct sq.
  - by rewrite Z.add_0_r, u32_small.
  - constructor.
  - done.
Qed.

Lemma db_lookup l i : 0 <= i < zlen l -> aget l i = Ok (db_at l i).
Proof using. intros Hi. unfold aget, db_at. destruct (zlookup_lt l i Hi) as [x ->]. done. Qed.

Lemma sq_pass_step j v u : 1 <= j <= v0.(vd_nr_sq) -> sqs_at j v ->
  okp (proc_sq_db j (v, u)) (fun '(v', _) => sqs_at (j + 1) v').
Proof using Hv LW.
  intros Hj Hs. destruct (pk_nr _ Hv) as [Hnr _]. destruct (pk_len _ Hv) as (L1 & L2 & L3 & L4). unfold NR_MAX_IO_QUEUE in *.
  destruct (sa_later _ _ Hs j ltac:(lia)) as [E1 E2]. pose proof (sa_frame _ _ Hs) as Ev.
  assert (v.(vd_dbs) = v0.(vd_dbs)) as Edb by (rewrite Ev; done). destruct (sa_len _ _ Hs) as [L5 L6].
  unfold proc_sq_db. destruct (zlookup_lt d0.(dv_sqes) j ltac:(lia)) as [q Eq]. rewrite (aget_Some v.(vd_io).(dv_sqes) j q) by (by rewrite E1, Eq).
  rewrite bind_Ok. destruct q as [sq|].
  2: { cbn [okp]. apply (taken_none j v []); [done|lia| |done]. unfold sq_taken. by rewrite Eq. }
  destruct (pk_sq _ Hv j sq Hj Eq) as (Hring & Hst & Hroom). pose proof (ro_old _ _ _ _ _ _ Hring) as Ho. pose proof (ro_new _ _ _ _ _ _ Hring) as Hn.
  pose proof (ro_size _ _ _ _ _ _ Hring) as Hsz. cbv zeta. rewrite Edb, (db_lookup v0.(vd_dbs)), bind_Ok by lia.
  rewrite (db_lookup v.(vd_old_dbs)), bind_Ok by lia. 
  assert (db_at v.(vd_old_dbs) (j * 2) = old_sq v0 j) as -> by (unfold old_sq, db_at; by rewrite E2).
  change (db_at v0.(vd_dbs) (j * 2)) with (new_sq v0 j). rewrite !s32_small by lia.
  destruct (new_sq v0 j =? old_sq v0 j) eqn:E; [apply Z.eqb_eq in E|apply Z.eqb_neq in E].
  { cbn [okp]. apply (taken_none j v []); [done|lia| |done]. apply (taken_still j v sq); unfold NR_MAX_IO_QUEUE; (done || lia). }
  assert (needs v0 (worker_of d0 j) (zrange 1 j) + Z.to_nat (ring_distance (sq_queue_size sq) (new_sq v0 j) (old_sq v0 j)) * S max_internal <=
    needs v0 (worker_of d0 j) (zrange 1 (vd_nr_sq v0 + 1)))%nat as Hneed.
  { etransitivity; [|apply (needs_mono _ (j + 1)); lia]. rewrite needs_snoc by lia. unfold need. by rewrite Eq, Z.eqb_refl. }
  pose proof (sa_room _ _ Hs (worker_of d0 j)) as Hsr.
  okstep. eapply okp_mono; [apply (dispatch_ok W pfn_valid store_size dma j sq v.(vd_io) (new_sq v0 j) (old_sq v0 j))|].
  - eapply ring_later; (done || lia).
  - apply (sa_inv _ _ Hs).
  - done.
  - rewrite (worker_back j v j Hs). lia.
  - intros [d' db] (m & Hm & Hst0 & -> & Hd' & Hrest & Hkept & (st & Esq & _ & _ & _ & Hfl & _) & Hoth & inss & Hf & Hrun).
    pose proof (none_refused _ _ _ _ _ _ _ _ _ _ Hst0) as Hall.
    unfold set_old_db. pose proof (Z.mod_pos_bound (old_sq v0 j + m) (sq_queue_size sq) ltac:(lia)) as Hmb.
    rewrite aset_Some by (cbn; lia). rewrite !bind_Ok. rewrite u32_small by lia. cbn [okp].
    pose proof Hs as [S1 S2 S3 S4 Sh S5 S6 S7 S8 (reqs & T & R)].
    rewrite (worker_of_same _ _ j S2) in *. change (worker_of (dv_with_sqes (dv_sqes (vd_io v)) d0) j) with (worker_of d0 j) in *.
    cbn [vd_with_io vd_with_dbs vd_io vd_old_dbs vd_dbs] in *. split; cbn [vd_with_io vd_with_dbs vd_io vd_old_dbs vd_dbs].
    + rewrite Ev. done.
    + destruct S2, Hrest. split; simpl in *; congruence.
    + rewrite (se_nr_cq _ _ Hrest). exact S3.
    + done.
    + rewrite addrs_snoc by lia. eapply kept_trans; [exact Sh|]. unfold queue_addrs. by rewrite Eq.
    + rewrite Esq, !zlen_zinsert. done.
    + intros q Hq. rewrite Esq, !zlookup_zinsert_ne by lia. apply S6. lia.
    + intros q. rewrite zlookup_zinsert_ne by lia. apply S7.
    + intros w. specialize (Hoth w). rewrite needs_snoc by lia. specialize (S8 w). unfold need. rewrite Eq.
      rewrite (Z.eqb_sym (worker_of d0 j) w). destruct (w =? worker_of d0 j); [|lia].
      assert (Z.to_nat m * S max_internal <= Z.to_nat (ring_distance (sq_queue_size sq) (new_sq v0 j) (old_sq v0 j)) * S max_internal)%nat
        by (apply Nat.mul_le_mono_r; lia). lia.
    + exists (extend reqs j (concat inss)). split.
      * intros q Hq. destruct (Z.eq_dec q j) as [->|].
        -- unfold extend. rewrite Z.eqb_refl. unfold sq_taken. rewrite Eq. cbn [vd_with_io vd_with_dbs vd_io vd_old_dbs]. exists m, st, inss.
           rewrite Esq, (zlookup_zinsert_eq (vd_old_dbs v)) by lia. rewrite (zlookup_zinsert_eq (dv_sqes (vd_io v))) by (rewrite L5; unfold NR_MAX_IO_QUEUE; lia). split; [done|]. split; [done|]. split; [done|]. split; [done|]. split; [done|]. split; [|done].
           apply Forall2_same_length_lookup. apply Forall2_same_length_lookup in Hf as [Hlf Hf]. split; [done|]. intros k e ins He Hi.
           apply (served_back j v); try (done || lia); [|by eapply Hf].
           apply list_elem_of_lookup_2 in He. rewrite (first_entries_take sq (new_sq v0 j)) in He by done. apply elem_of_take in He as (k' & He & _). by eapply list_elem_of_lookup_2.
        -- eapply (taken_frame v); [lia| | |apply T; lia]; cbn; [by rewrite zlookup_zinsert_ne by lia|by rewrite Esq, zlookup_zinsert_ne by lia].
      * apply (runs_snoc j v); [lia|done|]. exact Hrun.
Qed.

(** All of them. *)
Lemma sqs_start : sqs_at 1 v0.
Proof using Hv.
  destruct (pk_len _ Hv) as (L1 & _ & _ & L4). split; try done.
  - apply vdev_eta.
  - apply (pk_inv _ Hv).
  - exists (fun _ => []). split; [lia|]. intros w. constructor.
Qed.

Lemma sqs_pass u : okp (rfold proc_sq_db (zrange 1 (v0.(vd_nr_sq) + 1)) (v0, u)) (fun '(v, _) => sqs_at (v0.(vd_nr_sq) + 1) v).
Proof using Hv LW.
  destruct (pk_nr _ Hv) as [Hnr _]. apply (rfold_range _ (fun j '(v, _) => sqs_at j v)); [lia|apply sqs_start|].
  intros j [v u'] Hj Hs. apply sq_pass_step; [lia|done].
Qed.
End sqs.

(** ** The completion queues *)

Section cqs.
Context (v0 vs : vdev) (Hv : pass_ok v0) (Hs : sqs_at v0 (v0.(vd_nr_sq) + 1) vs).
Notation h0 := (dv_host v0.(vd_io)).

(** The submission queues of the completions that the host consumed of the queue
    [q]. *)
Definition consumed_ids (q : Z) : list Z :=
  match v0.(vd_io).(dv_cqes) !! q with
  | Some (Some cq) => sqid_at cq h0 <$> ring_entries cq.(cq_queue_size) (new_cq v0 q) (old_cq v0 q)
  | _ => []
  end.

Record cqs_at (j : Z) (v : vdev) : Prop := {
  ca_frame : v = vd_with_dbs v0.(vd_dbs) v.(vd_old_dbs) (vd_with_io v.(vd_io) vs);
  ca_io : v.(vd_io) = dv_with_sqes v.(vd_io).(dv_sqes) (dv_with_cqes v.(vd_io).(dv_cqes) vs.(vd_io));
  ca_sqes : v.(vd_io).(dv_sqes) = foldl consume_one vs.(vd_io).(dv_sqes) (concat (consumed_ids <$> zrange 1 j));
  ca_len : zlen v.(vd_io).(dv_cqes) = NR_MAX_IO_QUEUE + 1 /\ zlen v.(vd_old_dbs) = 1024;
  ca_later q : j <= q -> v.(vd_io).(dv_cqes) !! q = v0.(vd_io).(dv_cqes) !! q /\ v.(vd_old_dbs) !! (q * 2 + 1) = v0.(vd_old_dbs) !! (q * 2 + 1);
  ca_even q : v.(vd_old_dbs) !! (q * 2) = vs.(vd_old_dbs) !! (q * 2);
  ca_done q cq : 1 <= q < j -> v0.(vd_io).(dv_cqes) !! q = Some (Some cq) -> v.(vd_old_dbs) !! (q * 2 + 1) = Some (new_cq v0 q)
}.

Lemma ids_snoc j : 1 <= j -> concat (consumed_ids <$> zrange 1 (j + 1)) = concat (consumed_ids <$> zrange 1 j) ++ consumed_ids j.
Proof using. clear Hv Hs. intros Hj. rewrite zrange_snoc, fmap_app, concat_app by done. simpl. by rewrite app_nil_r. Qed.

(** A queue that does not move the state. *)
Lemma cqs_skip j v : 1 <= j -> cqs_at j v -> consumed_ids j = [] ->
  (forall cq, v0.(vd_io).(dv_cqes) !! j = Some (Some cq) -> v.(vd_old_dbs) !! (j * 2 + 1) = Some (new_cq v0 j)) -> cqs_at (j + 1) v.
Proof using.
  clear Hv Hs. intros Hj [C1 C2 C3 C4 C5 C6 C7] Hids Hdb. split; try done.
  - by rewrite ids_snoc, Hids, app_nil_r by done.
  - intros q Hq. apply C5. lia.
  - intros q cq Hq E. destruct (Z.eq_dec q j) as [->|]; [by eapply Hdb|by apply (C7 q cq); [lia|]].
Qed.

(** The completions are as they were before the commands were handled. *)
Lemma cqe_same j v q cq i c : cqs_at j v -> 1 <= q <= v0.(vd_io).(dv_nr_cq) -> v0.(vd_io).(dv_cqes) !! q = Some (Some cq) ->
  0 <= i < cq.(cq_queue_size) -> cq_entry cq i = Ok c -> get_le (dv_host v.(vd_io)) (c + 10) 2 = get_le h0 (c + 10) 2.
Proof using Hs Hv.
  intros Hc Hq Ecq Hi Ec. rewrite (ca_io _ _ Hc). unfold get_le. f_equal. apply mload_ext. intros k Hk. apply (sa_host _ _ _ Hs).
  intros a Ha. apply (pk_cqe _ Hv q cq i c); try done. unfold NVME_COMPLETION_SIZE. lia.
Qed.

Lemma ids_same j v q cq : cqs_at j v -> 1 <= q <= v0.(vd_io).(dv_nr_cq) -> v0.(vd_io).(dv_cqes) !! q = Some (Some cq) ->
  0 < cq.(cq_queue_size) ->
  sqid_at cq (dv_host v.(vd_io)) <$> ring_entries cq.(cq_queue_size) (new_cq v0 q) (old_cq v0 q) =
  sqid_at cq h0 <$> ring_entries cq.(cq_queue_size) (new_cq v0 q) (old_cq v0 q).
Proof using Hs Hv.
  intros Hc Hq Ecq Hsz. apply list_fmap_ext. intros k i Hi. unfold sqid_at. destruct (cq_entry cq i) as [c|] eqn:Ec; [|done].
  apply (cqe_same j v q cq i c); try done. apply list_elem_of_lookup_2, list_elem_of_fmap in Hi as (x & -> & _). by apply Z.mod_pos_bound.
Qed.

Lemma consume_later j v cq : 1 <= j <= v0.(vd_io).(dv_nr_cq) -> cqs_at j v -> v0.(vd_io).(dv_cqes) !! j = Some (Some cq) ->
  consume_ok j cq v0.(vd_io) (new_cq v0 j) (old_cq v0 j) -> consume_ok j cq v.(vd_io) (new_cq v0 j) (old_cq v0 j).
Proof using Hs Hv.
  intros Hj Hc Ecq [M1 M2 M3 M4 M5 M6]. destruct (ca_later _ _ Hc j ltac:(lia)) as [E _]. split; try done.
  - unfold get_cq, aget in *. by rewrite E.
  - intros i Hi. destruct (M5 i Hi) as (a & Ea & Hr). exists a. split; [done|]. rewrite (ca_sqes _ _ Hc), consumes_len.
    destruct (sa_len _ _ _ Hs) as [-> _]. destruct (pk_len _ Hv) as [<- _].
    by rewrite (cqe_same j v j cq i a).
Qed.

Lemma cq_pass_step j v u : 1 <= j <= v0.(vd_io).(dv_nr_cq) -> cqs_at j v ->
  okp (proc_cq_db j (v, u)) (fun '(v', _) => cqs_at (j + 1) v').
Proof using Hv Hs.
  intros Hj Hc. destruct (pk_nr _ Hv) as [_ Hnr]. destruct (pk_len _ Hv) as (L1 & L2 & L3 & L4). unfold NR_MAX_IO_QUEUE in *.
  destruct (ca_later _ _ Hc j ltac:(lia)) as [E1 E2]. pose proof (ca_frame _ _ Hc) as Ev. destruct (ca_len _ _ Hc) as [L5 L6]. unfold NR_MAX_IO_QUEUE in *.
  assert (v.(vd_dbs) = v0.(vd_dbs)) as Edb by (rewrite Ev; done). unfold proc_cq_db.
  destruct (zlookup_lt v0.(vd_io).(dv_cqes) j ltac:(lia)) as [q Eq]. rewrite (aget_Some v.(vd_io).(dv_cqes) j q) by (by rewrite E1, Eq).
  rewrite bind_Ok. destruct q as [cq|].
  2: { cbn [okp]. apply (cqs_skip j v); [lia|done|unfold consumed_ids; by rewrite Eq|by rewrite Eq]. }
  pose proof (pk_cq _ Hv j cq Hj Eq) as Hok. pose proof (cm_old _ _ _ _ _ Hok) as Ho. pose proof (cm_new _ _ _ _ _ Hok) as Hn.
  pose proof (cm_size _ _ _ _ _ Hok) as Hsz. cbv zeta. rewrite Edb, (db_lookup v0.(vd_dbs)), bind_Ok by lia.
  rewrite (db_lookup v.(vd_old_dbs)), bind_Ok by lia.
  assert (db_at v.(vd_old_dbs) (j * 2 + 1) = old_cq v0 j) as -> by (unfold old_cq, db_at; by rewrite E2).
  change (db_at v0.(vd_dbs) (j * 2 + 1)) with (new_cq v0 j). rewrite !s32_small by lia.
  assert (consumed_ids j = sqid_at cq h0 <$> ring_entries (cq_queue_size cq) (new_cq v0 j) (old_cq v0 j)) as Hids by (unfold consumed_ids; by rewrite Eq).
  destruct (new_cq v0 j =? old_cq v0 j) eqn:E; [apply Z.eqb_eq in E|apply Z.eqb_neq in E].
  { cbn [okp]. apply (cqs_skip j v); [lia|done| |].
    - rewrite Hids, E. unfold ring_entries, ring_distance. by rewrite Z.sub_diag, Z.mod_0_l by lia.
    - intros _ _. rewrite E2, E. unfold old_cq, db_at. destruct (zlookup_lt v0.(vd_old_dbs) (j * 2 + 1) ltac:(lia)) as [x ->]. done. }
  okstep. eapply okp_mono; [apply (proc_io_cq_ok j cq v.(vd_io) (new_cq v0 j) (old_cq v0 j)); by apply consume_later|].
  intros d' (D1 & D2 & D3). unfold set_old_db. rewrite aset_Some by (cbn; lia). rewrite bind_Ok, u32_small by lia. cbn [okp].
  pose proof (ids_same j v j cq Hc Hj Eq ltac:(lia)) as Eids. destruct Hc as [C1 C2 C3 C4 C5 C6 C7].
  split; cbn [vd_with_io vd_with_dbs vd_io vd_old_dbs vd_dbs].
  - rewrite Ev. done.
  - rewrite D3, C2. done.
  - rewrite D1, Eids, C3, ids_snoc, foldl_app, Hids by lia. done.
  - rewrite D2, !zlen_zinsert. done.
  - intros q Hq. rewrite D2, !zlookup_zinsert_ne by lia. apply C5. lia.
  - intros q. rewrite zlookup_zinsert_ne by lia. apply C6.
  - intros q cq' Hq E'. destruct (Z.eq_dec q j) as [->|]; [by rewrite zlookup_zinsert_eq by lia|].
    rewrite zlookup_zinsert_ne by lia. apply (C7 q cq'); [lia|done].
Qed.

Lemma cqs_start : cqs_at 1 vs.
Proof using Hs Hv.
  destruct (pk_len _ Hv) as (_ & L2 & _ & _). destruct (sa_len _ _ _ Hs) as [_ L]. destruct (sa_rest _ _ _ Hs) as [_ _ Ec _ _ _ _ _ _]. simpl in Ec.
  split; try done.
  - assert (vs.(vd_dbs) = v0.(vd_dbs)) as <- by (by rewrite (sa_frame _ _ _ Hs)). apply vdev_eta.
  - by destruct (vd_io vs).
  - by rewrite Ec.
  - intros q Hq. by rewrite Ec, (sa_odd _ _ _ Hs).
  - lia.
Qed.

Lemma cqs_pass u : okp (rfold proc_cq_db (zrange 1 (v0.(vd_io).(dv_nr_cq) + 1)) (vs, u)) (fun '(v, _) => cqs_at (v0.(vd_io).(dv_nr_cq) + 1) v).
Proof using Hv Hs.
  destruct (pk_nr _ Hv) as [_ Hnr]. apply (rfold_range _ (fun j '(v, _) => cqs_at j v)); [lia|apply cqs_start|].
  intros j [v u'] Hj Hc. apply cq_pass_step; [lia|done].
Qed.

(** The completion queues leave the workers and the namespaces alone. *)
Lemma cqs_run j v w ins : cqs_at j v -> run w v0.(vd_io) ins [] vs.(vd_io) -> run w v0.(vd_io) ins [] v.(vd_io).
Proof using.
  clear Hv Hs. intros Hc H. rewrite <- (app_nil_r ins). eapply (run_app _ _ _ w _ ins [] _ [] []); [exact H|].
  assert (queue_step pfn_valid store_size dma (QOther v.(vd_io)) vs.(vd_io) = Ok v.(vd_io)) as E.
  { simpl. rewrite (ca_io _ _ Hc). done. }
  exact (run_one pfn_valid store_size dma w (QOther v.(vd_io)) vs.(vd_io) v.(vd_io) E I).
Qed.
End cqs.
End pass.

(** ** The namespaces in the storage

    [NVMEV_NAMESPACE_INIT] gives each namespace what its build asks for, or what is
    left, one after the other.  [layout] is where they are; its extents do not
    overlap and are inside the storage. *)

(** Address and size of each, from the capacities that are asked for; [0] is all that
    is left. *)
Fixpoint layout (capacities : list Z) (addr remaining : Z) : list (Z * Z) :=
  match capacities with
  | [] => []
  | c :: cs => let size := if c =? 0 then remaining else Z.min c remaining in
               (addr, size) :: layout cs (addr + size) (remaining - size)
  end.

Lemma layout_inside cs : forall addr rem, Forall (fun c => 0 <= c) cs -> 0 <= rem ->
  Forall (fun '(a, s) => addr <= a /\ 0 <= s /\ a + s <= addr + rem) (layout cs addr rem).
Proof.
  induction cs as [|c cs IH]; intros addr rem Hcs Hr; simpl; [constructor|]. apply Forall_cons in Hcs as [Hc Hcs].
  set (size := if c =? 0 then rem else Z.min c rem). assert (0 <= size <= rem) as Hs by (unfold size; destruct (c =? 0); lia).
  constructor; [lia|]. eapply Forall_impl; [apply IH; [done|lia]|]. intros [a s]. lia.
Qed.

Definition apart_extents (e1 e2 : Z * Z) : Prop := e1.1 + e1.2 <= e2.1 \/ e2.1 + e2.2 <= e1.1.

Lemma layout_apart_nat cs : forall addr rem, Forall (fun c => 0 <= c) cs -> 0 <= rem ->
  forall (i j : nat) e1 e2, i <> j -> layout cs addr rem !! i = Some e1 -> layout cs addr rem !! j = Some e2 -> apart_extents e1 e2.
Proof.
  induction cs as [|c cs IH]; intros addr rem Hcs Hr i j e1 e2 Hij; [done|]. apply Forall_cons in Hcs as [Hc Hcs]. simpl.
  set (size := if c =? 0 then rem else Z.min c rem). assert (0 <= size <= rem) as Hs by (unfold size; destruct (c =? 0); lia).
  pose proof (layout_inside cs (addr + size) (rem - size) Hcs ltac:(lia)) as Hin. rewrite Forall_forall in Hin.
  destruct i as [|i], j as [|j]; simpl; [done|intros [= <-] H2|intros H1 [= <-]|by apply IH; [done|lia|congruence]].
  - apply list_elem_of_lookup_2, Hin in H2. destruct e2 as [a s]. left. simpl. lia.
  - apply list_elem_of_lookup_2, Hin in H1. destruct e1 as [a s]. right. simpl. lia.
Qed.

Lemma layout_apart cs addr rem i j e1 e2 : Forall (fun c => 0 <= c) cs -> 0 <= rem ->
  i <> j -> layout cs addr rem !! i = Some e1 -> layout cs addr rem !! j = Some e2 -> apart_extents e1 e2.
Proof.
  intros Hc Hr Hij H1 H2. pose proof (zlookup_Some_range _ _ _ H1). pose proof (zlookup_Some_range _ _ _ H2).
  rewrite zlookup_to_nat in H1, H2 by lia. eapply (layout_apart_nat cs addr rem Hc Hr (Z.to_nat i) (Z.to_nat j)); [lia|done..].
Qed.

(** What the layout relies on the initialisation functions for: they return, for the
    sizes that they support, a namespace that is [made] as asked. *)
Class NsInitLaws `{BK : Backend} (NI : NsInit) (made : Z -> Z -> Z -> Z -> bk_ns -> Prop) (size_ok : Z -> Z -> Prop) := {
  law_nvm id size addr disp w : size_ok SSD_TYPE_NVM size -> okp (ns_init_nvm id size addr disp w) (fun '(ns, _) => made SSD_TYPE_NVM id size addr ns);
  law_conv id size addr disp w : size_ok SSD_TYPE_CONV size -> okp (ns_init_conv id size addr disp w) (fun '(ns, _) => made SSD_TYPE_CONV id size addr ns);
  law_zns id size addr disp w : size_ok SSD_TYPE_ZNS size -> okp (ns_init_zns id size addr disp w) (fun '(ns, _) => made SSD_TYPE_ZNS id size addr ns);
  law_kv id size addr disp w : size_ok SSD_TYPE_KV size -> okp (ns_init_kv id size addr disp w) (fun '(ns, _) => made SSD_TYPE_KV id size addr ns)
}.

Definition simple_made (type id size addr : Z) (ns : Simple.simple_ns) : Prop :=
  ns = Simple.SimpleNs id NVME_CSI_NVM size addr.
#[export, refine] Instance simple_init_laws `{CK : Clock} cf :
  NsInitLaws (BK := simple_backend cf) (simple_init cf) simple_made (fun t _ => t = SSD_TYPE_NVM) := {}.
Proof. all: done. Defined.

Lemma conv_init_made `{SC : SsdConfig, CC : ChanConfig} id size addr disp w : retp (conv_init_namespace id size addr disp w) (fun '(ns, _) =>
  ns.(cn_id) = id /\ ns.(cn_mapped) = addr).
Proof.
  unfold conv_init_namespace. cbv zeta. apply retp_bind. intros spp _. apply retp_bind. intros [ftls h] _. apply retp_bind. intros [ftls' h'] _.
  apply retp_bind. intros n _. by apply retp_Ok.
Qed.

Definition conv_made `{SC : SsdConfig, CC : ChanConfig} L (type id size addr : Z) (ns : conv_ns) : Prop :=
  ns.(cn_id) = id /\ ns.(cn_mapped) = addr /\ ns.(cn_size) = u64 (size * 100) `div` (100 + OP_AREA_HUNDREDTHS) /\
  exists sp p w, geometry_of size SSD_PARTITIONS sp /\ ns_ok L sp (Some p) (Some w) ns.
#[export, refine] Instance conv_init_laws `{SC : SsdConfig, CC : ChanConfig, CK : Clock} L :
  NsInitLaws (BK := conv_backend) conv_init (conv_made L) (fun t size => t = SSD_TYPE_CONV /\ session_ok L size) := {}.
Proof.
  all: intros id size addr disp w [Ht Hs]; try done. destruct Hs as [S1 S2 S3 S4 S5 S6 S7]. simpl.
  destruct (okp_inv _ _ (conv_init_namespace_ok L id size addr disp w S1 S2 S3 S4 S5 S7)) as
    ([ns h'] & E & sp & p & w' & H1 & H2 & H3 & H4 & H5 & _ & H6 & H7).
  destruct (conv_init_made id size addr disp w _ E) as [E1 E2]. rewrite E. split; [done|]. split; [done|]. split; [done|]. by exists sp, p, w'.
Defined.

Definition zns_made `{SC : SsdConfig, ZC : ZnsConfig, CC : ChanConfig} (storage : mem) (type id size addr : Z) (ns : zns_ns) : Prop :=
  ns.(zn_id) = id /\ ns.(zn_size) = size /\ ns.(zn_ftl).(zf_storage) = (fun x => storage (addr + x)) /\
  zns_ns_ok ns /\ all_empty ns.(zn_ftl) /\ ns.(zn_ftl).(zp).(nr_zones) * ZONE_SIZE = size.
#[export, refine] Instance zns_init_laws `{SC : SsdConfig, ZC : ZnsConfig, CC : ChanConfig, CK : Clock} garbage storage :
  NsInitLaws (BK := zns_backend garbage) (zns_init garbage storage) (zns_made storage)
    (fun t size => t = SSD_TYPE_ZNS /\ zns_config_ok size) := {}.
Proof.
  all: intros id size addr disp w [Ht Hs]; try done. eapply okp_mono; [by apply zns_init_namespace_ok|].
  intros [ns h'] (H1 & _ & H2 & H3 & H4 & H5 & _ & _ & H6 & H7 & _). rewrite H7 in H6. done.
Defined.

Definition kv_made (type id size addr : Z) (ns : kv_ns) : Prop := ns = KvNs id NVME_CSI_NVM size addr.
#[export, refine] Instance kv_init_laws `{CK : Clock} cf fnz garbage :
  NsInitLaws (BK := kv_backend cf fnz garbage) (kv_init cf fnz garbage) kv_made (fun t _ => t = SSD_TYPE_KV) := {}.
Proof. all: done. Defined.

Section layout.
Context `{BK : Backend} `{BD : Build} (NI : NsInit) (made : Z -> Z -> Z -> Z -> bk_ns -> Prop) (size_ok : Z -> Z -> Prop).
Context `{LI : !NsInitLaws NI made size_ok}.

(** The types and capacities that are used. *)
Definition types : list Z := take (Z.to_nat NR_NAMESPACES) ns_ssd_type.
Definition capacities : list Z := take (Z.to_nat NR_NAMESPACES) ns_capacity.

Record build_ok (storage_size storage_mapped : Z) : Prop := {
  bo_nr : 0 <= NR_NAMESPACES <= 2;
  bo_caps : Forall (fun c => 0 <= c) ns_capacity;
  bo_storage : 0 <= storage_size /\ 0 <= storage_mapped /\ storage_mapped + storage_size < 18446744073709551616;
  bo_types i t e : types !! i = Some t -> layout capacities storage_mapped storage_size !! i = Some e ->
    size_ok t e.2 /\ (t = SSD_TYPE_NVM \/ t = SSD_TYPE_CONV \/ t = SSD_TYPE_ZNS \/ t = SSD_TYPE_KV)
}.

Lemma ns_step_ok disp i s c t :
  ns_capacity !! i = Some c -> ns_ssd_type !! i = Some t -> 
  let size := if c =? 0 then s.(nst_remaining) else Z.min c s.(nst_remaining) in
  0 <= c -> 0 <= s.(nst_remaining) -> 0 <= s.(nst_addr) -> s.(nst_addr) + s.(nst_remaining) < 18446744073709551616 ->
  size_ok t size -> (t = SSD_TYPE_NVM \/ t = SSD_TYPE_CONV \/ t = SSD_TYPE_ZNS \/ t = SSD_TYPE_KV) ->
  okp (ns_step disp i s) (fun s' => exists ns, s'.(nst_ns) = s.(nst_ns) ++ [ns] /\ made t i size s.(nst_addr) ns /\
    s'.(nst_remaining) = s.(nst_remaining) - size /\ s'.(nst_addr) = s.(nst_addr) + size /\ s'.(nst_mapped) = s.(nst_mapped) ++ [s.(nst_addr)]).
Proof using LI.
  intros Ec Et size Hc Hr Ha Hb Hs Ht. unfold ns_step, NS_CAPACITY, NS_SSD_TYPE. rewrite (aget_Some _ _ _ Ec), bind_Ok. fold size.
  rewrite (aget_Some _ _ _ Et), bind_Ok. assert (0 <= size <= s.(nst_remaining)) as Hsz by (unfold size; destruct (c =? 0); lia).
  assert (forall r : res (bk_ns * bk_world), okp r (fun '(ns, _) => made t i size s.(nst_addr) ns) ->
    okp ('(ns, world) ← r; Ok (NsState (s.(nst_ns) ++ [ns]) (s.(nst_mapped) ++ [s.(nst_addr)]) (u64 (s.(nst_remaining) - size)) (u64 (s.(nst_addr) + size)) world))
      (fun s' => exists ns, s'.(nst_ns) = s.(nst_ns) ++ [ns] /\ made t i size s.(nst_addr) ns /\
        s'.(nst_remaining) = s.(nst_remaining) - size /\ s'.(nst_addr) = s.(nst_addr) + size /\ s'.(nst_mapped) = s.(nst_mapped) ++ [s.(nst_addr)])) as H.
  { intros r Hr'. apply okp_bind. eapply okp_mono; [exact Hr'|]. intros [ns w] Hm. cbn [okp nst_ns nst_mapped nst_remaining nst_addr].
    exists ns. rewrite !u64_small by lia. done. }
  destruct Ht as [->|[->|[->| ->]]]; simpl; apply H; [by apply law_nvm|by apply law_conv|by apply law_zns|by apply law_kv].
Qed.

(** The namespaces of the layout. *)
Definition placed (storage_size storage_mapped i : Z) (ns : bk_ns) : Prop :=
  exists t e, types !! i = Some t /\ layout capacities storage_mapped storage_size !! i = Some e /\ made t i e.2 e.1 ns.

Lemma namespace_init_ok storage_size storage_mapped disp v :
  build_ok storage_size storage_mapped ->
  okp (NVMEV_NAMESPACE_INIT storage_size storage_mapped disp v) (fun v' =>
    zlen v'.(vd_io).(dv_ns) = NR_NAMESPACES /\ v'.(vd_mdts) = BUILD_MDTS /\
    v'.(vd_io).(dv_mapped) = (fun e => e.1 - storage_mapped) <$> layout capacities storage_mapped storage_size /\
    forall i ns, v'.(vd_io).(dv_ns) !! i = Some ns -> placed storage_size storage_mapped i ns).
Proof using LI.
  intros [Hn Hc (Hs1 & Hs2 & Hs3) Ht]. unfold NVMEV_NAMESPACE_INIT, placed in *. unfold types, capacities in *. unfold ns_ssd_type, ns_capacity in *.
  apply Forall_cons in Hc as [Hc0 Hc1]. apply Forall_cons in Hc1 as [Hc1 _].
  assert (NR_NAMESPACES = 0 \/ NR_NAMESPACES = 1 \/ NR_NAMESPACES = 2) as Hcases by lia.
  assert (0 <= (if NS_CAPACITY_0 =? 0 then storage_size else Z.min NS_CAPACITY_0 storage_size) <= storage_size) as Hsz by (destruct (NS_CAPACITY_0 =? 0); lia).
  destruct Hcases as [En|[En|En]]; rewrite En in *.
  - simpl. split; [done|]. split; [done|]. split; [done|]. intros i ns H. by apply zlookup_Some_range in H; simpl in H; unfold zlen in H; simpl in H; lia.
  - change (zrange 0 1) with [0]. cbn [rfold]. destruct (Ht 0 _ _ eq_refl eq_refl) as [T1 T2]. okstep. okstep.
    eapply okp_mono; [apply (ns_step_ok disp 0 _ NS_CAPACITY_0 NS_SSD_TYPE_0); simpl; (done || lia)|].
    intros s1 (ns1 & E1 & M1 & _ & _ & P1). simpl in E1, P1. cbn [okp rfold]. rewrite E1. split; [done|]. split; [done|]. split; [simpl; by rewrite P1|].
    intros i ns H. assert (i = 0) as -> by (apply zlookup_Some_range in H; unfold zlen in H; simpl in H; lia). injection H as <-. eexists _, _. split; [reflexivity|]. split; [reflexivity|]. exact M1.
  - change (zrange 0 2) with [0; 1]. cbn [rfold]. destruct (Ht 0 _ _ eq_refl eq_refl) as [T1 T2]. destruct (Ht 1 _ _ eq_refl eq_refl) as [U1 U2].
    okstep. okstep.
    eapply okp_mono; [apply (ns_step_ok disp 0 _ NS_CAPACITY_0 NS_SSD_TYPE_0); simpl; (done || lia)|].
    intros s1 (ns1 & E1 & M1 & R1 & A1 & P1). simpl in E1, M1, R1, A1, P1. okstep.
    eapply okp_mono; [apply (ns_step_ok disp 1 _ NS_CAPACITY_1 NS_SSD_TYPE_1); rewrite ?R1, ?A1; simpl; (done || lia)|].
    intros s2 (ns2 & E2 & M2 & _ & _ & P2). rewrite R1, A1 in M2. cbn [okp rfold]. rewrite E2, E1. split; [done|]. split; [done|]. split; [simpl; by rewrite P2, P1, A1|].
    intros i ns H. assert (i = 0 \/ i = 1) as [->| ->] by (apply zlookup_Some_range in H; unfold zlen in H; simpl in H; lia); injection H as <-; eexists _, _; (split; [reflexivity|]); (split; [reflexivity|]); [exact M1|exact M2].
Qed.
End layout.
