(* ===== verification/Start.v ===== *)
(** * The start and the end of the module (main.c)

    [NVMeV_init] puts the parts together: the configuration, the namespaces in the
    storage, the copies by the DMA engine, the PCI device, the registers and the
    workers.  [NVMeV_exit] takes the namespaces and the queues away again.

    The device is built of its two states: [vdev], and the configuration space of
    PciCfg.v.  The memory of the machine that [memremap] gives and the bus that the
    kernel makes are parameters; the threads start with the workers. *)

From stdpp Require Import prelude list strings.
From Stdlib Require Import ZArith Lia.
From S2P Require Import Prelude Mem SsdConfig ConvFtl ZnsFtl IoUnits KvFtl NvmeCmd IoQueue IoCopy Io IoBackends Vdev Admin Bars.
From S2P Require Import PciCfg Dma Config Main.

Definition EIO : Z := 5.

(** What a build adds to the namespaces: the statistics of the I/O units, which the
    storage comes with, and the removal of each kind. *)
Class NsModule `{BK : Backend} := {
  units_init : Z -> bk_world -> bk_world;
  ns_remove_nvm : bk_ns -> bk_world -> res bk_world;
  ns_remove_conv : bk_ns -> bk_world -> res bk_world;
  ns_remove_zns : bk_ns -> bk_world -> res bk_world;
  ns_remove_kv : bk_ns -> bk_world -> res bk_world
}.

(** The module with its device, or the error. *)
Inductive started `{BK : Backend, DE : DmaEngine} :=
| Started (v : vdev) (s : pci_cfg) (c : full_config) (dma : dma_dev) (using_dma : bool)
| Refused (e : Z).

Section start.
Context `{BK : Backend} `{BD : Build} `{QC : QueueConfig} `{NI : !NsInit} `{NM : !NsModule} `{DE : DmaEngine}.

(** [VDEV_INIT]: all is zero. *)
Definition vdev_zeroed (w : bk_world) (m : io_mem) : vdev :=
  let no_regs := CtrlRegs 0 0 0 0 0 0 0 in
  Vdev _ (IoDev _ [] 0 [] (zrepeat (NR_MAX_IO_QUEUE + 1) None) (zrepeat (NR_MAX_IO_QUEUE + 1) None) 0 [] [] w m [])
    0 None [] [] no_regs no_regs 0.

Definition NVMEV_STORAGE_INIT (c : full_config) (v : vdev) : vdev :=
  vd_with_io (dv_with_world (units_init c.(fc_units).(cf_nr_io_units) v.(vd_io).(dv_world)) v.(vd_io)) v.

(** The registers and doorbells of the device that was found on the bus. *)
Definition map_registers (v : vdev) : vdev :=
  Vdev _ v.(vd_io) v.(vd_nr_sq) v.(vd_admin_q) (zrepeat 1024 0) (zrepeat 1024 0) __init_nvme_ctrl_regs __init_nvme_ctrl_regs v.(vd_mdts).

Definition dma_setup (using_dma : bool) (dma : dma_dev) : res (dma_dev * bool) :=
  if using_dma then '(dma, r) ← ioat_dma_chan_set "dma7chan0" dma; Ok (dma, r =? 0) else Ok (dma, false).

(** [bus]: what the kernel writes while it scans the new bus, or no bus. *)
Definition NVMeV_init (KV_BUILD : bool) (e820 : Z -> Z -> e820_type -> bool) (strtol : string -> Z) (memremap : Z -> Z -> Z)
    (bus : option (list cfg_write)) (old_cpus : list Z) (p : module_params) (io_using_dma : bool)
    (w : bk_world) (m : io_mem) (dma : dma_dev) : res started :=
  let v := vdev_zeroed w m in
  c ← __load_configs KV_BUILD e820 strtol old_cpus p;
  match c with
  | None => Ok (Refused (- EIO))
  | Some c =>
      let u := c.(fc_units) in
      let v := NVMEV_STORAGE_INIT c v in
      v ← NVMEV_NAMESPACE_INIT u.(cf_storage_size) (memremap u.(cf_storage_start) u.(cf_storage_size)) c.(fc_cpu_nr_dispatcher) v;
      '(dma, using_dma) ← dma_setup io_using_dma dma;
      match bus with
      | None => Ok (Refused (- EIO))
      | Some scan =>
          s ← NVMEV_PCI_INIT c.(fc_memmap_start) scan VDEV_INIT;
          let v := map_registers v in
          d ← NVMEV_IO_WORKER_INIT c.(fc_nr_io_workers) v.(vd_io);
          Ok (Started (vd_with_io d v) s c dma using_dma)
      end
  end.

(** ** The end *)

Definition ns_final_step (nss : list bk_ns) (i : Z) (w : bk_world) : res bk_world :=
  ns ← aget nss i;
  type ← NS_SSD_TYPE i;
  if type =? SSD_TYPE_NVM then ns_remove_nvm ns w
  else if type =? SSD_TYPE_CONV then ns_remove_conv ns w
  else if type =? SSD_TYPE_ZNS then ns_remove_zns ns w
  else if type =? SSD_TYPE_KV then ns_remove_kv ns w
  else Fault BugOn.

Definition NVMEV_NAMESPACE_FINAL (v : vdev) : res vdev :=
  w ← rfold (ns_final_step v.(vd_io).(dv_ns)) (zrange 0 NR_NAMESPACES) v.(vd_io).(dv_world);
  Ok (vd_with_io (dv_with_ns [] (dv_with_world w v.(vd_io))) v).

(** The queues from [0] to before [nr] are freed; what is left in the table is lost
    with it. *)
Definition free_queues {A} (nr : Z) (l : list (option A)) : res (list (option A)) :=
  rfold (fun i l => _ ← aget l i; aset l i None) (zrange 0 nr) l.

Definition NVMeV_exit (using_dma : bool) (v : vdev) (dma : dma_dev) : res (vdev * dma_dev) :=
  let v := vd_with_io (NVMEV_IO_WORKER_FINAL v.(vd_io)) v in
  v ← NVMEV_NAMESPACE_FINAL v;
  let dma := if using_dma then ioat_dma_cleanup dma else dma in
  sqes ← free_queues v.(vd_nr_sq) v.(vd_io).(dv_sqes);
  cqes ← free_queues v.(vd_io).(dv_nr_cq) v.(vd_io).(dv_cqes);
  Ok (vd_with_io (dv_with_cqes cqes (dv_with_sqes sqes v.(vd_io))) v, dma).
End start.

(** The modules of the builds with one kind of namespaces. *)
Definition no_remove {A B} : A -> B -> res B := fun _ _ => Fault BugOn.
Definition simple_module `{CK : Ssd.Clock} (cf : nvmev_config) : NsModule (BK := simple_backend cf) :=
  @Build_NsModule (simple_backend cf) (fun nr w => Simple.UnitDev (zrepeat nr 0) w.(Simple.ud_tick))
    (fun _ w => Ok w) no_remove no_remove no_remove.
Definition conv_module `{SC : SsdConfig, CC : ChannelModel.ChanConfig, CK : Ssd.Clock} : NsModule (BK := conv_backend) :=
  @Build_NsModule conv_backend (fun _ w => w) no_remove conv_remove_namespace no_remove no_remove.
