(* ===== verification/KvTable.v ===== *)
(** * The hash table of the key-value FTL

    A chain is what the lookup loop walks: occupied slots joined by their links,
    up to an entry without a link or a link to a free slot (what a deletion
    leaves behind).  Insertion only ever links to a slot it has just filled,
    whose own link is empty, so chains stay acyclic even where they merge; the
    invariant says so with a rank.

    [insert_ok] and [delete_ok] say what becomes of every chain. *)

From stdpp Require Import prelude list.
From Stdlib Require Import ZArith Lia.
From S2P Require Import Prelude Mem Prp ChannelModel SsdConfig Ssd ConvFtl IoUnits KvAlloc KvFtl.

Definition occupied (e : mapping_entry) : Prop := e.(me_mem_offset) <> NO_OFFSET.

#[global] Instance occupied_dec e : Decision (occupied e).
Proof. unfold occupied. apply _. Defined.

Lemma free_iff e : ~ occupied e <-> e.(me_mem_offset) = NO_OFFSET.
Proof. unfold occupied. destruct (decide (me_mem_offset e = NO_OFFSET)); tauto. Qed.

Record entry_ok (slots : Z) (e : mapping_entry) : Prop := {
  eo_key : zlen e.(me_key) = KEY_FIELD;
  eo_next : e.(me_next_slot) = NO_SLOT \/ 0 <= e.(me_next_slot) < slots;
  eo_free : ~ occupied e -> e.(me_next_slot) = NO_SLOT
}.

(** The rank of a slot is above that of the slot it links to. *)
Record table_ok (t : list mapping_entry) : Prop := {
  to_slots : 0 < zlen t < NO_SLOT;
  to_entry i e : t !! i = Some e -> entry_ok (zlen t) e;
  to_rank : exists rk : Z -> nat, forall i e, t !! i = Some e -> e.(me_next_slot) <> NO_SLOT ->
    (rk e.(me_next_slot) < rk i)%nat
}.

Inductive chain (t : list mapping_entry) : Z -> list Z -> option Z -> Prop :=
| chain_free i e : t !! i = Some e -> ~ occupied e -> chain t i [] (Some i)
| chain_last i e : t !! i = Some e -> occupied e -> e.(me_next_slot) = NO_SLOT -> chain t i [i] None
| chain_link i e l o : t !! i = Some e -> occupied e -> e.(me_next_slot) <> NO_SLOT ->
    chain t e.(me_next_slot) l o -> chain t i (i :: l) o.

Lemma chain_occupied t i l o j : chain t i l o -> j ∈ l -> exists e, t !! j = Some e /\ occupied e.
Proof. induction 1; rewrite ?elem_of_nil, ?elem_of_cons, ?elem_of_nil; [done|intros [->|[]]; eauto|intros [->|?]; eauto]. Qed.

Lemma chain_end t i l o s : chain t i l o -> o = Some s -> exists e, t !! s = Some e /\ ~ occupied e.
Proof. induction 1; intros [=]; subst; eauto. Qed.

(** Every slot starts a chain, which visits no slot twice. *)
Lemma chain_total t i : table_ok t -> 0 <= i < zlen t -> exists l o, chain t i l o /\ NoDup l.
Proof.
  intros [Hs He [rk Hrk]].
  enough (forall n i, (rk i < n)%nat -> 0 <= i < zlen t ->
    exists l o, chain t i l o /\ NoDup l /\ forall j, j ∈ l -> (rk j <= rk i)%nat) as H.
  { intros Hi. destruct (H (S (rk i)) i ltac:(lia) Hi) as (l & o & ? & ? & _). by exists l, o. }
  clear i. induction n as [|n IH]; intros i Hn Hi; [lia|].
  destruct (zlookup_lt t i Hi) as [e E]. destruct (decide (occupied e)) as [Ho|Ho].
  - destruct (decide (e.(me_next_slot) = NO_SLOT)) as [Hl|Hl].
    + exists [i], None. split; [by eapply chain_last|]. split; [apply NoDup_singleton|]. set_solver by lia.
    + pose proof (Hrk _ _ E Hl). destruct (eo_next _ _ (He _ _ E)) as [?|Hr]; [done|].
      destruct (IH (me_next_slot e) ltac:(lia) Hr) as (l & o & Hc & Hd & Hle). exists (i :: l), o.
      split; [by eapply chain_link|]. split.
      * apply NoDup_cons. split; [|done]. intros Hin. specialize (Hle _ Hin). lia.
      * intros j [->|Hj]%elem_of_cons; [lia|]. specialize (Hle _ Hj). lia.
  - exists [], (Some i). split; [by eapply chain_free|]. split; [constructor|]. set_solver.
Qed.

Lemma chain_short t i l o : chain t i l o -> NoDup l -> (length l <= length t)%nat.
Proof.
  intros Hc Hd. replace (length t) with (length (zrange 0 (zlen t))).
  - apply submseteq_length, NoDup_submseteq; [done|]. intros j Hj.
    destruct (chain_occupied _ _ _ _ _ Hc Hj) as (e & He & _). apply elem_of_zrange. by eapply zlookup_Some_range.
  - pose proof (zlen_zrange 0 (zlen t) (zlen_nonneg t)) as H. unfold zlen in *. lia.
Qed.

Lemma rloop_S {S R} (body : S -> res (S + R)) n s :
  rloop (Datatypes.S n) body s = (r ← body s; match r with inl s' => rloop n body s' | inr x => Ok x end).
Proof. done. Qed.

(** ** Lookup *)

Definition matches (t : list mapping_entry) (key : list Z) (klen i : Z) : bool :=
  match t !! i with
  | Some e => bool_decide (take (Z.to_nat klen) key = take (Z.to_nat klen) e.(me_key))
  | None => false
  end.

Definition first_match (t : list mapping_entry) (key : list Z) (klen : Z) (l : list Z) : option Z :=
  hd_error (filter (fun i => matches t key klen i = true) l).

Lemma find_step_at t key klen i e : t !! i = Some e ->
  find_step t key klen i =
  if e.(me_mem_offset) =? NO_OFFSET then Ok (inr None) else
  same ← memcmp_eq key e.(me_key) klen;
  if same : bool then Ok (inr (Some i))
  else if e.(me_next_slot) =? NO_SLOT then Ok (inr None) else Ok (inl e.(me_next_slot)).
Proof. intros E. unfold find_step. by rewrite (aget_Some _ _ _ E). Qed.

Lemma tail_step_at t i p e : t !! i = Some e ->
  tail_step t (i, p) =
  if e.(me_mem_offset) =? NO_OFFSET then Ok (inr p)
  else if e.(me_next_slot) =? NO_SLOT then Ok (inr i) else Ok (inl (e.(me_next_slot), i)).
Proof. intros E. unfold tail_step. by rewrite (aget_Some _ _ _ E). Qed.

Lemma find_step_ok t key klen i l o :
  table_ok t -> klen <= zlen key -> klen <= KEY_FIELD -> chain t i l o -> forall fuel, (length l < fuel)%nat ->
  rloop fuel (find_step t key klen) i = Ok (first_match t key klen l).
Proof.
  intros Ht Hk1 Hk2. assert (forall j e, t !! j = Some e -> memcmp_eq key (me_key e) klen = Ok (matches t key klen j)) as Hcmp.
  { intros j e E. unfold memcmp_eq, matches. rewrite E, (eo_key _ _ (to_entry _ Ht _ _ E)).
    rewrite !(proj2 (Z.ltb_ge _ _)) by lia. done. }
  induction 1 as [i e E Hf|i e E Ho Hn|i e l o E Ho Hn Hc IH]; intros [|fuel] Hfuel; simpl in Hfuel; try lia;
    rewrite rloop_S, (find_step_at _ _ _ _ _ E).
  - apply free_iff in Hf. by rewrite (proj2 (Z.eqb_eq _ _)) by done.
  - rewrite (proj2 (Z.eqb_neq _ _)) by done. rewrite (Hcmp _ _ E), bind_Ok. unfold first_match. simpl.
    destruct (matches t key klen i) eqn:Em; [rewrite filter_cons_True by done; done|].
    rewrite filter_cons_False by congruence. by rewrite (proj2 (Z.eqb_eq _ _)) by done.
  - rewrite (proj2 (Z.eqb_neq _ NO_OFFSET)) by done. rewrite (Hcmp _ _ E), bind_Ok. unfold first_match.
    destruct (matches t key klen i) eqn:Em; [rewrite filter_cons_True by done; done|].
    rewrite filter_cons_False by congruence. rewrite (proj2 (Z.eqb_neq _ _)) by done. simpl. apply IH. lia.
Qed.

Lemma tail_step_ok t i l o p : chain t i l o -> forall fuel, (length l < fuel)%nat ->
  rloop fuel (tail_step t) (i, p) = Ok (default p (last l)).
Proof.
  intros Hc. revert p. induction Hc as [i e E Hf|i e E Ho Hn|i e l o E Ho Hn Hc IH];
    intros p [|fuel] Hfuel; simpl in Hfuel; try lia; rewrite rloop_S, (tail_step_at _ _ _ _ E).
  - apply free_iff in Hf. by rewrite (proj2 (Z.eqb_eq _ _)) by done.
  - rewrite (proj2 (Z.eqb_neq _ _)) by done. by rewrite (proj2 (Z.eqb_eq _ _)) by done.
  - rewrite (proj2 (Z.eqb_neq _ NO_OFFSET)) by done. rewrite (proj2 (Z.eqb_neq _ NO_SLOT)) by done. simpl.
    rewrite IH by lia. f_equal. destruct l as [|x l]; [done|]. rewrite last_cons_cons.
    destruct (last (x :: l)) eqn:El; [done|]. by apply last_None in El.
Qed.

(** Probing ends at a free slot, if there is one. *)
Lemma probe_ok t s f ef :
  0 < zlen t < NO_SLOT -> t !! f = Some ef -> ~ occupied ef -> 0 <= s < zlen t ->
  okp (rloop (S (length t)) (probe_step t (zlen t)) s) (fun r => exists e, t !! r = Some e /\ ~ occupied e).
Proof.
  intros Ht Ef Hf Hs. pose proof (zlookup_Some_range _ _ _ Ef) as Hfr.
  apply (rloop_inv _ (fun r => 0 <= r < zlen t) (fun r => if r <=? f then f - r else f - r + zlen t)).
  - intros r Hr. destruct (r <=? f) eqn:E; [apply Z.leb_le in E|]; lia.
  - intros r Hr. unfold probe_step. destruct (zlookup_lt t r Hr) as [e E]. rewrite (aget_Some _ _ _ E), bind_Ok.
    destruct (me_mem_offset e =? NO_OFFSET) eqn:Eo; [apply Z.eqb_eq in Eo; simpl; exists e; by rewrite free_iff|apply Z.eqb_neq in Eo].
    assert (r <> f) by (intros ->; simplify_eq; by apply Hf). unfold NO_SLOT in Ht. simpl. unwrap.
    destruct (zlen t <=? r + 1) eqn:E1; [apply Z.leb_le in E1|apply Z.leb_gt in E1].
    + split; [lia|]. rewrite (proj2 (Z.leb_le 0 f)), (proj2 (Z.leb_gt r f)) by lia. lia.
    + split; [lia|]. destruct (r <=? f) eqn:E2; [apply Z.leb_le in E2|apply Z.leb_gt in E2].
      * rewrite (proj2 (Z.leb_le (r + 1) f)) by lia. lia.
      * rewrite (proj2 (Z.leb_gt (r + 1) f)) by lia. lia.
  - done.
  - unfold zlen in *. destruct (s <=? f) eqn:E; [apply Z.leb_le in E|apply Z.leb_gt in E]; lia.
Qed.

Lemma filter_in_ext {A} (P Q : A -> Prop) `{!forall x, Decision (P x), !forall x, Decision (Q x)} (l : list A) :
  (forall x, x ∈ l -> P x <-> Q x) -> filter P l = filter Q l.
Proof.
  induction l as [|x l IH]; intros Hl; [done|]. specialize (IH ltac:(set_solver)).
  destruct (decide (P x)) as [HP|HP].
  - rewrite !filter_cons_True; [by f_equal| |done]. apply Hl; [set_solver|done].
  - rewrite !filter_cons_False; [done| |done]. rewrite <- Hl by set_solver. done.
Qed.

(** ** Insertion *)

(** A slot where chains end: without a link, or linked to a free slot. *)
Definition tail_slot (t : list mapping_entry) (p : Z) : Prop :=
  exists e, t !! p = Some e /\ occupied e /\
    (e.(me_next_slot) = NO_SLOT \/ exists e', t !! e.(me_next_slot) = Some e' /\ ~ occupied e').

Definition relink (s : Z) (e : mapping_entry) : mapping_entry :=
  MapEntry e.(me_key) e.(me_mem_offset) e.(me_length) s.

(** [t'] is [t] with [e] in the free slot [s], and [prev] linked to it. *)
Record inserted (t t' : list mapping_entry) (s : Z) (prev : option Z) (e : mapping_entry) : Prop := {
  in_len : zlen t' = zlen t;
  in_free : exists e0, t !! s = Some e0 /\ ~ occupied e0;
  in_new : t' !! s = Some e /\ occupied e /\ e.(me_next_slot) = NO_SLOT /\ zlen e.(me_key) = KEY_FIELD;
  in_prev p : prev = Some p -> tail_slot t p /\ exists ep, t !! p = Some ep /\ t' !! p = Some (relink s ep);
  in_other j : j <> s -> prev <> Some j -> t' !! j = t !! j
}.

(** The last slot of a chain is a tail. *)
Lemma chain_tail t i l o p : chain t i l o -> last l = Some p -> tail_slot t p.
Proof.
  induction 1 as [i e E Hf|i e E Ho Hn|i e l o E Ho Hn Hc IH]; [done|intros [= <-]; exists e; auto|].
  destruct l as [|x l]; [|intros Hl; apply IH; by rewrite last_cons_cons in Hl].
  intros [= <-]. exists e. split; [done|]. split; [done|]. right. inversion Hc; subst; eauto.
Qed.

Lemma tail_chain t p l o e : tail_slot t p -> t !! p = Some e -> chain t p (p :: l) o -> l = [].
Proof.
  intros (e0 & E & _ & Hn) E' Hc. simplify_eq. inversion Hc as [| |? e1 ? ? E1 _ Hn1 Hc1]; subst; [done|].
  simplify_eq. destruct Hn as [?|(e2 & E2 & Hf)]; [done|]. inversion Hc1; subst; [done|by simplify_eq..].
Qed.

(** The chains that [s] extends. *)
Definition extends (s : Z) (prev : option Z) (l : list Z) (o : option Z) : Prop :=
  o = Some s \/ exists p, prev = Some p /\ last l = Some p.

#[global] Instance extends_dec s prev l o : Decision (extends s prev l o).
Proof.
  unfold extends. apply or_dec; [apply _|]. destruct prev as [p|]; [|right; by intros (p & ? & _)].
  destruct (decide (last l = Some p)) as [E|E]; [left; by exists p|right; by intros (? & [= <-] & ?)].
Defined.

Section inserted.
Context (t t' : list mapping_entry) (s : Z) (prev : option Z) (e : mapping_entry).
Context (Hin : inserted t t' s prev e) (Ht : table_ok t).

Lemma slot_in_range : 0 <= s < zlen t.
Proof using Hin. destruct (in_free _ _ _ _ _ Hin) as (e0 & E & _). by eapply zlookup_Some_range. Qed.

Lemma chain_new : chain t' s [s] None.
Proof using Hin. destruct (in_new _ _ _ _ _ Hin) as (E & ? & ? & _). by eapply chain_last. Qed.

Lemma chain_relink p ep : prev = Some p -> t !! p = Some ep -> chain t' p [p; s] None.
Proof using Hin Ht.
  intros Hp E. destruct (in_prev _ _ _ _ _ Hin p Hp) as (_ & e2 & E2 & E2').
  rewrite E in E2. injection E2 as <-. assert (occupied ep) as Ho by (destruct (in_prev _ _ _ _ _ Hin p Hp) as ((e1 & E1 & Ho & _) & _); congruence).
  eapply chain_link; [exact E2'|done| |exact chain_new].
  pose proof slot_in_range. pose proof (to_slots _ Ht). simpl. unfold NO_SLOT in *. lia.
Qed.

Lemma chain_insert j l o : chain t j l o ->
  if decide (extends s prev l o) then chain t' j (l ++ [s]) None else chain t' j l o.
Proof using Hin Ht.
  destruct (in_free _ _ _ _ _ Hin) as (e0 & E0 & Hf0).
  assert (forall i ei, t !! i = Some ei -> occupied ei -> i <> s) as Hne by (intros i ei Ei Hi ->; simplify_eq; done).
  assert (forall i ei, t !! i = Some ei -> ~ occupied ei -> prev <> Some i) as Hnp.
  { intros i ei Ei Hi ->. destruct (in_prev _ _ _ _ _ Hin i eq_refl) as ((? & ? & ? & _) & _). by simplify_eq. }
  induction 1 as [i ei E Hf|i ei E Ho Hn|i ei l o E Ho Hn Hc IH].
  - case_decide as Hx.
    + destruct Hx as [Hx|(p & _ & [=])]. injection Hx as Hx. rewrite Hx. exact chain_new.
    + eapply chain_free; [|done]. rewrite (in_other _ _ _ _ _ Hin); [done|intros Heq; apply Hx; left; by f_equal|by eapply Hnp].
  - case_decide as Hx.
    + destruct Hx as [[=]|(p & Hp & [= <-])]. by eapply chain_relink.
    + eapply chain_last; [|done|done]. rewrite (in_other _ _ _ _ _ Hin); [done|by eapply Hne|].
      intros Hp. apply Hx. right. by exists i.
  - destruct (decide (prev = Some i)) as [Hp|Hp].
    + destruct (in_prev _ _ _ _ _ Hin i Hp) as (Htl & _).
      assert (l = []) as -> by (eapply (tail_chain t i); [done|done|by eapply chain_link]).
      rewrite decide_True by (right; by exists i). by eapply chain_relink.
    + assert (t' !! i = Some ei) as E' by (rewrite (in_other _ _ _ _ _ Hin); [done|by eapply Hne|done]).
      assert (extends s prev (i :: l) o <-> extends s prev l o) as Hiff.
      { unfold extends. destruct l as [|x l]; [|by rewrite last_cons_cons]. simpl. naive_solver. }
      rewrite (decide_ext (extends s prev (i :: l) o) (extends s prev l o)) by done. case_decide; by eapply chain_link.
Qed.

Lemma inserted_table_ok : table_ok t'.
Proof using Hin Ht.
  destruct Ht as [Hs He [rk Hrk]]. destruct (in_free _ _ _ _ _ Hin) as (e0 & E0 & Hf0).
  destruct (in_new _ _ _ _ _ Hin) as (E1 & Ho1 & Hn1 & Hk1). pose proof slot_in_range as Hr.
  assert (forall i ei, t' !! i = Some ei -> i = s /\ ei = e \/ prev = Some i /\ (exists ep, t !! i = Some ep /\ ei = relink s ep) \/
    i <> s /\ t !! i = Some ei) as Hcase.
  { intros i ei Ei. destruct (decide (i = s)) as [->|Hne]; [left; by simplify_eq|].
    destruct (decide (prev = Some i)) as [Hp|Hp]; [|rewrite (in_other _ _ _ _ _ Hin) in Ei by done; auto].
    destruct (in_prev _ _ _ _ _ Hin i Hp) as (_ & ep & Ep & Ep'). right. left. split; [done|]. exists ep. by simplify_eq. }
  split; [by rewrite (in_len _ _ _ _ _ Hin)| |].
  - rewrite (in_len _ _ _ _ _ Hin). intros i ei Ei. destruct (Hcase _ _ Ei) as [[-> ->]|[(Hp & ep & Ep & ->)|[_ Ei']]]; [| |by eapply He].
    + split; [done|by left|done].
    + destruct (in_prev _ _ _ _ _ Hin i Hp) as ((e2 & E2 & Ho2 & _) & _). simplify_eq.
      split; [apply (eo_key _ _ (He _ _ Ep))|by right|done].
  - exists (fun i => if decide (i = s) then O else S (rk i)). intros i ei Ei Hne.
    destruct (Hcase _ _ Ei) as [[-> ->]|[(Hp & ep & Ep & ->)|[His Ei']]]; [done| |].
    + simpl. rewrite decide_True by done. rewrite decide_False; [lia|]. intros ->.
      destruct (in_prev _ _ _ _ _ Hin s Hp) as ((e2 & E2 & Ho2 & _) & _). by simplify_eq.
    + rewrite (decide_False (P := i = s)) by done. pose proof (Hrk _ _ Ei' Hne). case_decide; lia.
Qed.

(** Slots but [s] keep their key. *)
Lemma inserted_matches key klen j : j <> s -> matches t' key klen j = matches t key klen j.
Proof using Hin.
  intros Hj. unfold matches. destruct (decide (prev = Some j)) as [Hp|Hp]; [|by rewrite (in_other _ _ _ _ _ Hin)].
  destruct (in_prev _ _ _ _ _ Hin j Hp) as (_ & ep & -> & ->). done.
Qed.

(** What an insertion does to a lookup that starts at [j]. *)
Lemma first_match_insert key klen j l o : chain t j l o ->
  exists l' o', chain t' j l' o' /\
    first_match t' key klen l' =
      match first_match t key klen l with
      | Some x => Some x
      | None => if decide (extends s prev l o) then if matches t' key klen s then Some s else None else None
      end.
Proof using Hin Ht.
  intros Hc. pose proof (chain_insert _ _ _ Hc) as Hc'. destruct (in_free _ _ _ _ _ Hin) as (e0 & E0 & Hf0).
  assert (first_match t' key klen l = first_match t key klen l) as El.
  { unfold first_match. f_equal. apply filter_in_ext. intros i Hi.
    destruct (chain_occupied _ _ _ _ _ Hc Hi) as (ei & Ei & Hoi). rewrite inserted_matches; [done|]. intros ->. by simplify_eq. }
  case_decide.
  - exists (l ++ [s]), None. split; [done|]. rewrite <- El. unfold first_match. rewrite filter_app.
    destruct (filter (fun i => matches t' key klen i = true) l); [|done]. simpl.
    destruct (matches t' key klen s) eqn:Em; [by rewrite filter_cons_True|by rewrite filter_cons_False by congruence].
  - exists l, o. split; [done|]. rewrite El. by destruct (first_match t key klen l).
Qed.
End inserted.

(** ** The operations on the table *)

Record ftl_ok (f : kv_ftl) : Prop := {
  fo_table : table_ok f.(kv_mapping_table);
  fo_slots : f.(hash_slots) = zlen f.(kv_mapping_table)
}.

Lemma hash_ok key klen : klen <= zlen key -> okp (hash_function key klen) (fun _ => True).
Proof.
  intros Hk. unfold hash_function. apply rfold_inv_const; [done|]. intros i h Hi%elem_of_zrange _.
  apply okp_bind, aget_okp; [lia|]. by intros b _.
Qed.

Lemma hash_slot_ok slots key klen : 0 < slots -> klen <= zlen key ->
  exists h, get_hash_slot slots key klen = Ok h /\ 0 <= h < slots.
Proof.
  intros Hs Hk. destruct (okp_inv _ _ (hash_ok key klen Hk)) as (h & E & _). exists (h `mod` slots).
  unfold get_hash_slot. rewrite E, bind_Ok, cmod_ok by lia. split; [done|]. by apply Z.mod_pos_bound.
Qed.

Record key_ok (key : list Z) (klen : Z) : Prop := {
  ko_len : klen <= zlen key;
  ko_field : 0 <= klen <= KEY_FIELD
}.

(** The lookup is the first match of the chain of the key's slot. *)
Lemma find_mapping_ok f key klen : ftl_ok f -> key_ok key klen ->
  exists h l o, get_hash_slot f.(hash_slots) key klen = Ok h /\ chain f.(kv_mapping_table) h l o /\
    (length l <= length f.(kv_mapping_table))%nat /\
    find_mapping f key klen = Ok (first_match f.(kv_mapping_table) key klen l).
Proof.
  intros [Ht Hs] [Hk Hf]. destruct (hash_slot_ok (hash_slots f) key klen) as (h & Eh & Hh).
  { rewrite Hs. apply (to_slots _ Ht). } { done. }
  destruct (chain_total _ h Ht) as (l & o & Hc & Hd); [lia|]. exists h, l, o.
  pose proof (chain_short _ _ _ _ Hc Hd). split; [done|]. split; [done|]. split; [done|].
  unfold find_mapping. rewrite Eh, bind_Ok. apply (find_step_ok _ _ _ _ _ o); [done|done|lia|done|lia].
Qed.

Lemma first_match_Some t key klen l s : first_match t key klen l = Some s ->
  s ∈ l /\ exists e, t !! s = Some e /\ take (Z.to_nat klen) key = take (Z.to_nat klen) e.(me_key).
Proof.
  unfold first_match. destruct (filter _ l) as [|x xs] eqn:E; [done|]. intros [= ->].
  assert (s ∈ s :: xs) as Hs by set_solver. rewrite <- E in Hs. apply list_elem_of_filter in Hs as [Hm Hs].
  split; [done|]. unfold matches in Hm. destruct (t !! s) as [e|]; [|done]. exists e. by apply bool_decide_eq_true in Hm.
Qed.

Lemma find_mapping_Some f key klen s : ftl_ok f -> key_ok key klen -> find_mapping f key klen = Ok (Some s) ->
  exists e, f.(kv_mapping_table) !! s = Some e /\ occupied e /\ take (Z.to_nat klen) key = take (Z.to_nat klen) e.(me_key).
Proof.
  intros Hf Hk E. destruct (find_mapping_ok f key klen Hf Hk) as (h & l & o & _ & Hc & _ & E').
  rewrite E in E'. injection E' as E'. symmetry in E'. apply first_match_Some in E' as (Hs & e & Ee & Hm).
  destruct (chain_occupied _ _ _ _ _ Hc Hs) as (e' & Ee' & Ho). exists e. by simplify_eq.
Qed.

(** The contents of a slot but its link. *)
Definition same_value (t t' : list mapping_entry) (j : Z) : Prop :=
  forall e, t !! j = Some e -> exists e', t' !! j = Some e' /\ e'.(me_key) = e.(me_key) /\
    e'.(me_mem_offset) = e.(me_mem_offset) /\ e'.(me_length) = e.(me_length).

Lemma inserted_same t t' s prev e j : inserted t t' s prev e -> j <> s -> same_value t t' j.
Proof.
  intros Hin Hj ej Ej. destruct (decide (prev = Some j)) as [Hp|Hp].
  - destruct (in_prev _ _ _ _ _ Hin j Hp) as (_ & e2 & E2 & E2'). simplify_eq. by exists (relink s ej).
  - exists ej. by rewrite (in_other _ _ _ _ _ Hin).
Qed.

(** Where a new entry goes: into the key's slot if that is free, else into a free
    slot linked to the last of the chain. *)
Lemma choose_slot_ok t h l o :
  table_ok t -> chain t h l o -> (length l <= length t)%nat -> (exists i e, t !! i = Some e /\ ~ occupied e) ->
  okp (e ← aget t h; if e.(me_mem_offset) =? NO_OFFSET then Ok (h, NO_SLOT) else find_next_slot t (zlen t) h)
    (fun '(s, p) => (exists e, t !! s = Some e /\ ~ occupied e) /\
       ((l = [] /\ s = h /\ p = NO_SLOT) \/ last l = Some p)).
Proof.
  intros Ht Hc Hl (fr & ef & Ef & Hfr). pose proof (to_slots _ Ht).
  assert (forall e, t !! h = Some e -> occupied e -> l <> []) as Hocc.
  { intros e E Ho ->. inversion Hc; subst. by simplify_eq. }
  assert (exists e, t !! h = Some e) as [e E] by (inversion Hc; eauto). rewrite (aget_Some _ _ _ E), bind_Ok.
  destruct (me_mem_offset e =? NO_OFFSET) eqn:Eo; [apply Z.eqb_eq, free_iff in Eo|apply Z.eqb_neq in Eo].
  { simpl. split; [by exists e|]. left. split; [|done]. inversion Hc; subst; [done|by simplify_eq..]. }
  unfold find_next_slot. rewrite (tail_step_ok _ _ _ _ NO_SLOT Hc), bind_Ok by lia.
  destruct (last l) as [p|] eqn:El; [|apply last_None in El; by apply (Hocc e) in El]. simpl.
  destruct (chain_tail _ _ _ _ _ Hc El) as (ep & Ep & _). apply okp_bind.
  eapply okp_mono; [apply (probe_ok t p fr ef); [done|done|done|by eapply zlookup_Some_range]|].
  intros r Hr. simpl. split; [done|]. by right.
Qed.

Lemma memcpy_head_ok dst src n : 0 <= n -> n <= zlen dst -> n <= zlen src ->
  memcpy_head dst src n = Ok (take (Z.to_nat n) src ++ drop (Z.to_nat n) dst).
Proof. intros. unfold memcpy_head. by rewrite !(proj2 (Z.ltb_ge _ _)) by lia. Qed.

Lemma zlen_overwrite (dst src : list Z) n : 0 <= n -> n <= zlen dst -> n <= zlen src ->
  zlen (take (Z.to_nat n) src ++ drop (Z.to_nat n) dst) = zlen dst.
Proof. intros. unfold zlen in *. rewrite length_app, length_take, length_drop. lia. Qed.

Lemma take_overwrite (dst src : list Z) n : n <= zlen src ->
  take (Z.to_nat n) (take (Z.to_nat n) src ++ drop (Z.to_nat n) dst) = take (Z.to_nat n) src.
Proof. intros. unfold zlen in *. rewrite take_app_le, take_take by (rewrite length_take; lia). f_equal. lia. Qed.

(** The entry made, in its slot. *)
Lemma place_mapping_inserted t key klen len off h l o :
  table_ok t -> key_ok key klen -> off <> NO_OFFSET -> get_hash_slot (zlen t) key klen = Ok h ->
  chain t h l o -> (length l <= length t)%nat -> (exists i e, t !! i = Some e /\ ~ occupied e) ->
  okp (place_mapping t (zlen t) key klen len off) (fun t' => exists s prev e0,
    t !! s = Some e0 /\
    inserted t t' s prev (MapEntry (take (Z.to_nat klen) key ++ drop (Z.to_nat klen) e0.(me_key)) off len NO_SLOT) /\
    extends s prev l o).
Proof.
  intros Ht [Hk Hf] Hoff Eh Hc Hl Hfree. unfold place_mapping. rewrite Eh, bind_Ok.
  pose proof (choose_slot_ok t h l o Ht Hc Hl Hfree) as Hch.
  destruct (aget t h) as [eh|] eqn:Ea in Hch |- *; [|done]. clear Ea. rewrite bind_Ok in Hch. rewrite bind_Ok.
  apply okp_bind. eapply okp_mono; [exact Hch|]. clear Hch Hfree. intros [s p] ((e0 & E0 & Hf0) & Hcase). simpl in Hcase.
  pose proof (zlookup_Some_range _ _ _ E0) as Hs. destruct (to_entry _ Ht _ _ E0) as [Hkey _ Hnext].
  unfold amod at 1. rewrite (aget_Some _ _ _ E0), bind_Ok, memcpy_head_ok, !bind_Ok by lia. rewrite (Hnext Hf0).
  set (e1 := MapEntry _ off len NO_SLOT).
  assert (occupied e1 /\ me_next_slot e1 = NO_SLOT /\ zlen (me_key e1) = KEY_FIELD) as Hnew.
  { split; [done|]. split; [done|]. simpl. rewrite zlen_overwrite; lia. }
  destruct Hcase as [(-> & -> & ->)|El].
  - simpl. exists h, None, e0. split; [done|]. split; [|inversion Hc; subst; by left].
    split; [by rewrite zlen_zinsert|by exists e0|split; [by apply zlookup_zinsert_eq|done]|done|].
    intros j Hj _. by apply zlookup_zinsert_ne.
  - pose proof (chain_tail _ _ _ _ _ Hc El) as Htl. pose proof Htl as (ep & Ep & Hop & _).
    pose proof (zlookup_Some_range _ _ _ Ep) as Hp. assert (p <> s) as Hps by (intros ->; by simplify_eq).
    pose proof (to_slots _ Ht). rewrite (proj2 (Z.eqb_neq _ _)) by lia.
    unfold chain_mapping, amod. rewrite (aget_Some _ _ ep), !bind_Ok by (by rewrite zlookup_zinsert_ne).
    simpl. exists s, (Some p), e0. split; [done|]. split; [|right; by exists p].
    split; [by rewrite !zlen_zinsert|by exists e0| | |].
    + split; [|done]. rewrite zlookup_zinsert_ne by done. by apply zlookup_zinsert_eq.
    + intros p' [= <-]. split; [done|]. exists ep. split; [done|]. apply zlookup_zinsert_eq. by rewrite zlen_zinsert.
    + intros j Hj Hpj. rewrite !zlookup_zinsert_ne by congruence. done.
Qed.

Lemma chain_det t i l o l' o' : chain t i l o -> chain t i l' o' -> l' = l /\ o' = o.
Proof.
  intros Hc. revert l' o'. induction Hc as [i e E Hf|i e E Ho Hn|i e l o E Ho Hn Hc IH]; intros l' o' Hc';
    inversion Hc' as [|? e'|? e' ? ? ? ? ? Hc2]; subst; simplify_eq; try done.
  by destruct (IH _ _ Hc2) as [-> ->].
Qed.

(** How many slots are in use. *)
Definition in_use (o : Z) : bool := negb (o =? NO_OFFSET).
Definition used (t : list mapping_entry) : Z := zcount in_use (me_mem_offset <$> t).

Lemma used_range t : 0 <= used t <= zlen t.
Proof. unfold used. rewrite <- (zlen_fmap me_mem_offset). apply zcount_range. Qed.

Lemma free_slot t : used t < zlen t -> exists i e, t !! i = Some e /\ ~ occupied e.
Proof.
  intros Hu. destruct (decide (Exists (fun e => ~ occupied e) t)) as [Hex|Hn].
  - apply Exists_exists in Hex as (e & He & Hf). apply elem_of_zlookup in He as [i Hi]. eauto.
  - exfalso. apply not_Exists_Forall in Hn; [|apply _]. unfold used in Hu. rewrite zcount_true, zlen_fmap in Hu; [lia|].
    intros o (e & -> & He)%list_elem_of_fmap. rewrite Forall_forall in Hn. specialize (Hn _ He).
    unfold in_use. apply negb_true_iff, Z.eqb_neq. destruct (decide (occupied e)) as [Ho|]; [exact Ho|exfalso; by apply Hn].
Qed.

Lemma used_change t t' s o o' :
  zlen t' = zlen t -> (me_mem_offset <$> t) !! s = Some o -> (me_mem_offset <$> t') !! s = Some o' ->
  (forall j, j <> s -> same_value t t' j) -> used t' = used t - b2z (in_use o) + b2z (in_use o').
Proof.
  intros Hl Eo Eo' Hs. unfold used.
  assert (me_mem_offset <$> t' = <[s := o']> (me_mem_offset <$> t)) as ->; [|by apply zcount_zinsert].
  apply zlist_eq; [by rewrite zlen_zinsert, !zlen_fmap|]. intros j Hj. rewrite zlen_fmap in Hj.
  destruct (decide (s = j)) as [->|Hne].
  - rewrite zlookup_zinsert_eq; [done|]. by eapply zlookup_Some_range.
  - rewrite zlookup_zinsert_ne, !zlookup_fmap by done. destruct (zlookup_lt t j) as [e Ee]; [lia|].
    destruct (Hs j ltac:(congruence) e Ee) as (e' & Ee' & _ & Hoff & _). rewrite Ee, Ee'. simpl. by rewrite Hoff.
Qed.

(** Making an entry for a key that has none: it is found, in a slot that was
    free, and every lookup of another key is as before. *)
Lemma place_ok f key klen len off :
  ftl_ok f -> key_ok key klen -> off <> NO_OFFSET -> find_mapping f key klen = Ok None ->
  used f.(kv_mapping_table) < zlen f.(kv_mapping_table) ->
  okp (place_mapping f.(kv_mapping_table) f.(hash_slots) key klen len off) (fun t' =>
    let t := f.(kv_mapping_table) in let f' := with_table t' f in
    ftl_ok f' /\ used t' = used t + 1 /\
    exists s e0, t !! s = Some e0 /\ ~ occupied e0 /\
      t' !! s = Some (MapEntry (take (Z.to_nat klen) key ++ drop (Z.to_nat klen) e0.(me_key)) off len NO_SLOT) /\
      (forall j, j <> s -> same_value t t' j) /\ find_mapping f' key klen = Ok (Some s) /\
      forall key', key_ok key' klen -> take (Z.to_nat klen) key' <> take (Z.to_nat klen) key ->
        find_mapping f' key' klen = find_mapping f key' klen).
Proof.
  intros Hf Hk Hoff Hnone Hu. destruct (find_mapping_ok f key klen Hf Hk) as (h & l & o & Eh & Hc & Hl & Ef).
  pose proof Hf as [Ht Hs]. rewrite Hs in Eh |- *.
  eapply okp_mono; [apply (place_mapping_inserted _ _ _ _ _ h l o); try done; by apply free_slot|].
  intros t' (s & prev & e0 & E0 & Hin & Hext). simpl. set (t := kv_mapping_table f) in *.
  destruct (in_free _ _ _ _ _ Hin) as (e0' & E0' & Hf0). assert (e0' = e0) as -> by congruence.
  assert (ftl_ok (with_table t' f)) as Hf'.
  { split; simpl; [by eapply inserted_table_ok|]. by rewrite (in_len _ _ _ _ _ Hin). }
  pose proof (in_new _ _ _ _ _ Hin) as (En & _).
  assert (forall key', key_ok key' klen -> exists h' l' o', chain t h' l' o' /\
    find_mapping f key' klen = Ok (first_match t key' klen l') /\ (h' = h -> l' = l /\ o' = o) /\
    (key' = key -> h' = h) /\
    find_mapping (with_table t' f) key' klen = Ok (match first_match t key' klen l' with Some x => Some x
      | None => if decide (extends s prev l' o') then if matches t' key' klen s then Some s else None else None end)) as Hfind.
  { intros key' Hk'. destruct (find_mapping_ok f key' klen Hf Hk') as (h' & l' & o' & Eh' & Hc' & _ & Ef').
    destruct (find_mapping_ok _ key' klen Hf' Hk') as (h2 & l2 & o2 & Eh2 & Hc2 & _ & Ef2). simpl in *.
    destruct (first_match_insert _ _ _ _ _ Hin Ht key' klen _ _ _ Hc') as (l3 & o3 & Hc3 & Em).
    assert (h2 = h') as -> by congruence. destruct (chain_det _ _ _ _ _ _ Hc2 Hc3) as [-> ->].
    exists h', l', o'. split; [done|]. split; [done|]. split; [intros ->; by eapply chain_det|].
    split; [intros ->; congruence|]. by rewrite Ef2, Em. }
  split; [done|]. split.
  { rewrite (used_change t t' s NO_OFFSET off); [unfold in_use; rewrite Z.eqb_refl, (proj2 (Z.eqb_neq _ _)) by done; simpl; lia|..].
    - apply (in_len _ _ _ _ _ Hin).
    - rewrite zlookup_fmap, E0. simpl. f_equal. by apply free_iff.
    - by rewrite zlookup_fmap, En.
    - intros j Hj. by eapply inserted_same. }
  exists s, e0. split; [done|]. split; [done|]. split; [done|]. split; [intros j Hj; by eapply inserted_same|]. split.
  - destruct (Hfind key Hk) as (h' & l' & o' & _ & Ef' & Hdet & Hh & ->). destruct (Hdet (Hh eq_refl)) as [-> ->].
    rewrite Ef in Hnone. injection Hnone as ->. rewrite decide_True by done. unfold matches. rewrite En. simpl.
    rewrite take_overwrite by apply Hk. by rewrite bool_decide_eq_true_2.
  - intros key' Hk' Hne. destruct (Hfind key' Hk') as (h' & l' & o' & _ & -> & _ & _ & ->).
    destruct (first_match t key' klen l'); [done|]. case_decide; [|done]. unfold matches. rewrite En. simpl.
    rewrite take_overwrite by apply Hk. by rewrite bool_decide_eq_false_2.
Qed.

(** ** Deletion

    The chains through the slot of the deleted key end there: the keys behind it
    are lost. *)

Lemma chain_delete t s es j l o :
  t !! s = Some es -> occupied es -> chain t j l o ->
  let t' := <[s := no_entry]> t in
  if decide (s ∈ l) then exists l1 l2, l = l1 ++ s :: l2 /\ s ∉ l1 /\ chain t' j l1 (Some s) else chain t' j l o.
Proof.
  intros Es Hos Hc t'. pose proof (zlookup_Some_range _ _ _ Es) as Hr.
  assert (t' !! s = Some no_entry) as Es' by (by apply zlookup_zinsert_eq).
  assert (forall i, i <> s -> t' !! i = t !! i) as Hne by (intros i Hi; by apply zlookup_zinsert_ne).
  assert (chain t' s [] (Some s)) as Hend by (eapply chain_free; [done|by rewrite free_iff]).
  induction Hc as [i e E Hf|i e E Ho Hn|i e l o E Ho Hn Hc IH].
  - rewrite decide_False by set_solver. eapply chain_free; [|done]. rewrite Hne; [done|]. intros ->. by simplify_eq.
  - case_decide as Hx.
    + exists [], []. apply list_elem_of_singleton in Hx as ->. split; [done|]. split; [set_solver|done].
    + eapply chain_last; [|done|done]. rewrite Hne; [done|]. set_solver.
  - destruct (decide (i = s)) as [Heq|Hni].
    + rewrite decide_True by set_solver. exists [], l. rewrite Heq. split; [done|]. split; [set_solver|done].
    + destruct (decide (s ∈ l)) as [Hx|Hx].
      * rewrite decide_True by set_solver. destruct IH as (l1 & l2 & -> & Hn1 & Hc1). exists (i :: l1), l2.
        split; [done|]. split; [set_solver|]. eapply chain_link; [by rewrite Hne|done..].
      * rewrite decide_False by set_solver. eapply chain_link; [by rewrite Hne|done..].
Qed.

Lemma delete_table_ok t s es : table_ok t -> t !! s = Some es -> table_ok (<[s := no_entry]> t).
Proof.
  intros [Hs He [rk Hrk]] Es. pose proof (zlookup_Some_range _ _ _ Es).
  split; [by rewrite zlen_zinsert|..].
  - intros i e Hi. rewrite zlen_zinsert. rewrite zlookup_zinsert in Hi by done. case_decide; simplify_eq; [|by eapply He].
    split; [done|by left|done].
  - exists rk. intros i e Hi. rewrite zlookup_zinsert in Hi by done. case_decide; simplify_eq; [done|by apply Hrk].
Qed.

Lemma first_match_app t key klen l1 l2 :
  first_match t key klen (l1 ++ l2) =
  match first_match t key klen l1 with Some x => Some x | None => first_match t key klen l2 end.
Proof. unfold first_match. rewrite filter_app. by destruct (filter _ l1). Qed.

Lemma first_match_ext t t' key klen l :
  (forall i, i ∈ l -> matches t' key klen i = matches t key klen i) -> first_match t' key klen l = first_match t key klen l.
Proof. intros H. unfold first_match. f_equal. apply filter_in_ext. intros i Hi. by rewrite H. Qed.


(** What a deletion does to the lookup of a key. *)
Lemma find_delete f key klen s es :
  ftl_ok f -> key_ok key klen -> f.(kv_mapping_table) !! s = Some es -> occupied es ->
  let t := f.(kv_mapping_table) in
  let f' := with_table (<[s := no_entry]> t) f in
  exists h l o, get_hash_slot f.(hash_slots) key klen = Ok h /\ chain t h l o /\
    find_mapping f key klen = Ok (first_match t key klen l) /\
    ((s ∉ l /\ find_mapping f' key klen = Ok (first_match t key klen l)) \/
     exists l1 l2, l = l1 ++ s :: l2 /\ s ∉ l1 /\ find_mapping f' key klen = Ok (first_match t key klen l1)).
Proof.
  intros Hf Hk Es Hos t f'. pose proof Hf as [Ht Hs]. fold t in Es, Ht. pose proof (zlookup_Some_range _ _ _ Es) as Hr.
  assert (ftl_ok f') as Hf'. { split; simpl; [by eapply delete_table_ok|by rewrite zlen_zinsert]. }
  destruct (find_mapping_ok f key klen Hf Hk) as (h & l & o & Eh & Hc & _ & Ef).
  destruct (find_mapping_ok f' key klen Hf' Hk) as (h2 & l2 & o2 & Eh2 & Hc2 & _ & Ef2).
  simpl in Eh2, Hc2, Ef2. fold t in Hc, Ef, Hc2, Ef2. assert (h2 = h) as -> by congruence.
  assert (forall l1, s ∉ l1 -> first_match (<[s := no_entry]> t) key klen l1 = first_match t key klen l1) as Hfm.
  { intros l1 Hn. apply first_match_ext. intros i Hi. unfold matches. rewrite zlookup_zinsert_ne; [done|]. by intros ->. }
  exists h, l, o. split; [done|]. split; [done|]. split; [done|].
  pose proof (chain_delete t s es h l o Es Hos Hc) as Hd. cbv zeta in Hd. case_decide as Hin.
  - destruct Hd as (l1 & l3 & E & Hn1 & Hc1). destruct (chain_det _ _ _ _ _ _ Hc1 Hc2) as [-> _].
    right. exists l1, l3. split; [done|]. split; [done|]. by rewrite Ef2, Hfm.
  - destruct (chain_det _ _ _ _ _ _ Hd Hc2) as [-> _]. left. split; [done|]. by rewrite Ef2, Hfm.
Qed.

Lemma tail_end t h l1 s l2 o : chain t h (l1 ++ s :: l2) o -> tail_slot t s -> l2 = [].
Proof.
  revert h. induction l1 as [|x l1 IH]; intros h Hc Htl; simpl in Hc.
  - destruct Htl as (e & E & Ho & Hn). inversion Hc; subst; [done|]. eapply (tail_chain t s); [by exists e|exact E|exact Hc].
  - inversion Hc; subst; [by destruct l1|]. by eapply IH.
Qed.

(** Deleting the entry of a key: the key is gone, every other key keeps its slot
    or is lost, and none is lost when nothing is linked behind the deleted slot. *)
Lemma delete_ok f key klen s :
  ftl_ok f -> key_ok key klen -> find_mapping f key klen = Ok (Some s) ->
  let t := f.(kv_mapping_table) in
  let f' := with_table (<[s := no_entry]> t) f in
  ftl_ok f' /\ used (<[s := no_entry]> t) = used t - 1 /\ find_mapping f' key klen = Ok None /\
  (forall j, j <> s -> <[s := no_entry]> t !! j = t !! j) /\
  forall key', key_ok key' klen -> take (Z.to_nat klen) key' <> take (Z.to_nat klen) key ->
    find_mapping f' key' klen = find_mapping f key' klen \/
    (find_mapping f' key' klen = Ok None /\ ~ tail_slot t s).
Proof.
  intros Hf Hk Es t f'. destruct (find_mapping_Some f key klen s Hf Hk Es) as (es & Ee & Ho & Hm).
  pose proof Hf as [Ht Hs]. pose proof (zlookup_Some_range _ _ _ Ee) as Hr. fold t in Ee, Ht, Hr.
  assert (ftl_ok f') as Hf'. { split; simpl; [by eapply delete_table_ok|by rewrite zlen_zinsert]. }
  assert (forall j, j <> s -> <[s := no_entry]> t !! j = t !! j) as Hne by (intros; by apply zlookup_zinsert_ne).
  split; [done|]. split.
  { rewrite (used_change t _ s (me_mem_offset es) NO_OFFSET); [|by rewrite zlen_zinsert|by rewrite zlookup_fmap, Ee| |].
    - unfold in_use. rewrite Z.eqb_refl, (proj2 (Z.eqb_neq _ _)) by done. simpl. lia.
    - rewrite zlookup_fmap, zlookup_zinsert_eq by done. done.
    - intros j Hj e' E'. exists e'. by rewrite Hne. }
  assert (forall key' l, first_match t key' klen l = Some s -> take (Z.to_nat klen) key' = take (Z.to_nat klen) es.(me_key)) as Hkey.
  { intros key' l (_ & e & E & Em)%first_match_Some. congruence. }
  assert (forall l1 l2, s ∉ l1 -> first_match t key klen (l1 ++ l2) = Some s -> first_match t key klen l1 = None) as Hhead.
  { intros l1 l2 Hn E. rewrite first_match_app in E. destruct (first_match t key klen l1) as [x|] eqn:E1; [|done].
    injection E as ->. by apply first_match_Some in E1 as [? _]. }
  split; [|split; [done|]].
  - unfold f', t. destruct (find_delete f key klen s es Hf Hk Ee Ho) as (h & l & o & _ & _ & Ef & [[Hn ->]|(l1 & l2 & -> & Hn & ->)]); fold t in Ef |- *.
    + rewrite Es in Ef. injection Ef as Ef. symmetry in Ef. by apply first_match_Some in Ef as [? _].
    + rewrite Es in Ef. injection Ef as Ef. by rewrite (Hhead l1 (s :: l2)).
  - intros key' Hk' Hneq. unfold f', t. destruct (find_delete f key' klen s es Hf Hk' Ee Ho)
      as (h & l & o & _ & Hc & -> & [[Hn ->]|(l1 & l2 & -> & Hn & ->)]); fold t in Hc |- *; [by left|].
    rewrite first_match_app. destruct (first_match t key' klen l1) as [x|]; [by left|].
    destruct (first_match t key' klen (s :: l2)) as [x|] eqn:Ex; [|by left]. right. split; [done|]. intros Htl.
    assert (l2 = []) as -> by (by eapply tail_end). pose proof (first_match_Some _ _ _ _ _ Ex) as [Hx _].
    apply list_elem_of_singleton in Hx as ->. apply Hkey in Ex. congruence.
Qed.

(** Changing lengths changes no lookup. *)
Lemma find_same_keys f t' key klen :
  ftl_ok f -> key_ok key klen -> zlen t' = zlen f.(kv_mapping_table) ->
  (forall j e, f.(kv_mapping_table) !! j = Some e -> exists len, t' !! j = Some (MapEntry e.(me_key) e.(me_mem_offset) len e.(me_next_slot))) ->
  ftl_ok (with_table t' f) /\ find_mapping (with_table t' f) key klen = find_mapping f key klen.
Proof.
  intros Hf Hk Hl Hs. pose proof Hf as [Ht Hsl]. set (t := kv_mapping_table f) in *.
  assert (forall j e, t' !! j = Some e -> exists len, t !! j = Some (MapEntry e.(me_key) e.(me_mem_offset) len e.(me_next_slot))) as Hs'.
  { intros j e' E'. destruct (zlookup_lt t j) as [e E]; [rewrite <- Hl; by eapply zlookup_Some_range|].
    destruct (Hs j e E) as (len & E2). simplify_eq. simpl. exists (me_length e). rewrite E. by destruct e. }
  assert (table_ok t') as Ht'.
  { destruct Ht as [H1 He [rk Hrk]]. split; [by rewrite Hl| |].
    - intros i e E. destruct (Hs' i e E) as (len & E2). destruct (He _ _ E2) as [K1 K2 K3]. rewrite Hl. by split.
    - exists rk. intros i e E. destruct (Hs' i e E) as (len & E2). by apply (Hrk _ _ E2). }
  assert (ftl_ok (with_table t' f)) as Hf'. { split; simpl; [done|by rewrite Hl]. }
  split; [done|].
  destruct (find_mapping_ok f key klen Hf Hk) as (h & l & o & Eh & Hc & _ & ->).
  destruct (find_mapping_ok _ key klen Hf' Hk) as (h2 & l2 & o2 & Eh2 & Hc2 & _ & ->). simpl in *. fold t in Hc |- *.
  assert (h2 = h) as -> by congruence.
  assert (chain t' h l o) as Hc'.
  { clear Eh Eh2 Hc2. induction Hc as [i e E Hfr|i e E Ho Hn|i e l o E Ho Hn Hc IH]; destruct (Hs i e E) as (len & E2).
    - by eapply chain_free.
    - by eapply chain_last.
    - by eapply chain_link. }
  destruct (chain_det _ _ _ _ _ _ Hc' Hc2) as [-> _]. f_equal. apply first_match_ext. intros i Hi.
  destruct (chain_occupied _ _ _ _ _ Hc Hi) as (e & E & _). destruct (Hs i e E) as (len & E2). unfold matches. by rewrite E, E2.
Qed.
