(* ===== verification/KvInv.v ===== *)
(** * The key-value FTL against a finite map

    The specification keeps, for each key, its value and the room it was given
    when it was first stored, and counts the slots and bytes in use.  Deleting a
    key may forget others.  [kv_rel] relates a device to a specification state;
    the lemmas take the operations of kv_ftl.c one by one. *)

From stdpp Require Import prelude list gmap.
From Stdlib Require Import ZArith Lia.
From S2P Require Import Prelude Mem Prp ChannelModel SsdConfig Ssd ConvFtl IoUnits KvAlloc KvFtl KvTable.

(** ** The specification *)

Inductive kv_op :=
| KvStore (k v : list Z)
| KvRetrieve (k : list Z) (n : Z)
| KvExist (k : list Z)
| KvDelete (k : list Z).

Inductive kv_outcome :=
| KvDone (result : Z) (data : list Z)
| KvNoKey.

Record kv_state := KvState { ks_map : gmap (list Z) (Z * list Z); ks_used : Z; ks_bytes : Z }.

(** What a store may ask for: a free slot and space, or the room of the old
    value; the length of a value of more than [SMALL_LENGTH] is fixed. *)
Definition allowed (slots size : Z) (st : kv_state) (op : kv_op) : Prop :=
  match op with
  | KvStore k v =>
      match st.(ks_map) !! k with
      | None => st.(ks_used) < slots /\ st.(ks_bytes) + zlen v <= size /\ st.(ks_bytes) < size
      | Some (room, w) => zlen v <= room /\ (zlen v = zlen w \/ (zlen v <= SMALL_LENGTH /\ zlen w <= SMALL_LENGTH))
      end
  | _ => True
  end.

Inductive kv_spec : kv_state -> kv_op -> kv_outcome -> kv_state -> Prop :=
| spec_insert m u b k v : m !! k = None ->
    kv_spec (KvState m u b) (KvStore k v) (KvDone 0 []) (KvState (<[k := (zlen v, v)]> m) (u + 1) (b + zlen v))
| spec_update m u b k v room w : m !! k = Some (room, w) ->
    kv_spec (KvState m u b) (KvStore k v) (KvDone 0 []) (KvState (<[k := (room, v)]> m) u b)
| spec_retrieve m u b k n room v : m !! k = Some (room, v) ->
    kv_spec (KvState m u b) (KvRetrieve k n) (KvDone (Z.min (zlen v) n) (take (Z.to_nat n) v)) (KvState m u b)
| spec_exist m u b k room v : m !! k = Some (room, v) ->
    kv_spec (KvState m u b) (KvExist k) (KvDone 0 []) (KvState m u b)
| spec_delete m u b k room v m' : m !! k = Some (room, v) -> m' ⊆ delete k m ->
    kv_spec (KvState m u b) (KvDelete k) (KvDone 0 []) (KvState m' (u - 1) b)
| spec_no_key m u b op k : m !! k = None ->
    (op = KvExist k \/ op = KvDelete k \/ exists n, op = KvRetrieve k n) ->
    kv_spec (KvState m u b) op KvNoKey (KvState m u b).

(** ** Transfers *)

Section transfer.
Context (cf : nvmev_config) (cmd : kv_command).

Definition value_addr (h : mem) (length o : Z) : Z :=
  prp_addr (u64_at h) cmd.(kc_prp1) cmd.(kc_prp2) length o.

(** The bytes of the host's buffer: its addresses are read in [h], its contents
    in [h']. *)
Definition host_bytes (h : mem) (length : Z) (h' : mem) : list Z :=
  (fun o => h' (value_addr h length o)) <$> zrange 0 length.

(** A buffer to write to. *)
Definition buffer_ok (h : mem) (length : Z) : Prop := prp_buffer_ok h cmd.(kc_prp1) cmd.(kc_prp2) length.

Lemma store_walk_ok offset length d :
  prp_ok (host_u64 d) cmd.(kc_prp1) cmd.(kc_prp2) length -> 0 <= offset -> 0 <= length ->
  offset + length <= cf.(cf_storage_size) ->
  okp (kv_walk cmd (store_chunk cf offset) length d) (fun d' =>
    d'.(kd_ftl) = d.(kd_ftl) /\ d'.(kd_pools) = d.(kd_pools) /\ d'.(kd_host) = d.(kd_host) /\
    (forall a, ~ (offset <= a < offset + length) -> d'.(kd_storage) a = d.(kd_storage) a) /\
    mload d'.(kd_storage) offset length = host_bytes d.(kd_host) length d.(kd_host)).
Proof.
  intros Hp Ho Hl Hs. unfold kv_walk.
  apply (okp_mono _ (fun d' => d'.(kd_ftl) = d.(kd_ftl) /\ d'.(kd_pools) = d.(kd_pools) /\ d'.(kd_host) = d.(kd_host) /\
    forall a, d'.(kd_storage) a = if decide (offset <= a < offset + length)
      then d.(kd_host) (value_addr d.(kd_host) length (a - offset)) else d.(kd_storage) a)).
  2: { intros d' (E1 & E2 & E3 & Ha). split; [done|]. split; [done|]. split; [done|]. split.
    - intros a Hna. by rewrite Ha, decide_False.
    - apply list_fmap_ext. intros k o Hk. assert (0 <= o < length) as Hok by (by apply elem_of_zrange, list_elem_of_lookup_2 with k).
      rewrite Ha, decide_True by lia. do 2 f_equal. lia. }
  apply (walk_ok _ _ _ (host_u64 d) _ _ length (fun o d' =>
    d'.(kd_ftl) = d.(kd_ftl) /\ d'.(kd_pools) = d.(kd_pools) /\ d'.(kd_host) = d.(kd_host) /\
    forall a, d'.(kd_storage) a = if decide (offset <= a < offset + o)
      then d.(kd_host) (value_addr d.(kd_host) length (a - offset)) else d.(kd_storage) a)); [done|done|by intros; apply kmap_list_ok| | |].
  - intros o d' i (_ & _ & E & _) _ _ _. unfold host_u64. by rewrite E.
  - intros a o n d' (E1 & E2 & E3 & Ha) Hn Ho' Hlen _ _ Hj. unfold store_chunk. rewrite (proj2 (Z.ltb_ge _ _)) by lia.
    simpl. split; [done|]. split; [done|]. split; [done|]. intros x. unfold mcopy. rewrite E3.
    destruct (decide (offset + o <= x < offset + o + n)).
    + rewrite decide_True by lia. f_equal. unfold value_addr.
      replace (x - offset) with (o + (x - (offset + o))) by lia. rewrite Hj by lia. done.
    + rewrite Ha. destruct (decide (offset <= x < offset + o)); [by rewrite decide_True by lia|by rewrite decide_False by lia].
  - split; [done|]. split; [done|]. split; [done|]. intros a. by rewrite decide_False by lia.
Qed.

(** After a transfer of [src] to the host. *)
Record retrieved (d : kv_dev) (src : mem) (offset length : Z) (d' : kv_dev) : Prop := {
  rt_ftl : d'.(kd_ftl) = d.(kd_ftl) /\ d'.(kd_pools) = d.(kd_pools) /\ d'.(kd_storage) = d.(kd_storage);
  rt_host : delivered (value_addr d.(kd_host) length) (fun j => src (offset + j)) d.(kd_host) length d'.(kd_host)
}.

Lemma kv_deliver_ok (chunk : Z -> Z -> Z -> kv_dev -> res kv_dev) src offset length d :
  buffer_ok d.(kd_host) length -> 0 <= length ->
  (forall a o n d', d'.(kd_storage) = d.(kd_storage) -> 0 <= o -> o + n <= length ->
     chunk a o n d' = Ok (dev_host (mcopy d'.(kd_host) a src (offset + o) n) d')) ->
  okp (kv_walk cmd chunk length d) (retrieved d src offset length).
Proof.
  intros Hb Hl Hchunk. unfold kv_walk. eapply okp_mono.
  - apply (deliver_walk_ok kd_host (fun d' => d'.(kd_ftl) = d.(kd_ftl) /\ d'.(kd_pools) = d.(kd_pools) /\ d'.(kd_storage) = d.(kd_storage))
      chunk d.(kd_host) _ _ length src offset Hb Hl); [|done|done].
    intros a o n d' (E1 & E2 & E3) Ho Hn Hon. by rewrite Hchunk.
  - intros d' [E Hd]. by split.
Qed.

Lemma retrieve_walk_ok offset length d :
  buffer_ok d.(kd_host) length -> 0 <= offset -> 0 <= length -> offset + length <= cf.(cf_storage_size) ->
  okp (kv_walk cmd (retrieve_chunk cf offset) length d) (retrieved d d.(kd_storage) offset length).
Proof.
  intros Hb Ho Hl Hs. apply kv_deliver_ok; [done|done|]. intros a o n d' E Ho' Hlen.
  unfold retrieve_chunk. rewrite (proj2 (Z.ltb_ge _ _)) by lia. by rewrite E.
Qed.

Lemma retrieved_bytes d src offset length d' :
  retrieved d src offset length d' -> host_bytes d.(kd_host) length d'.(kd_host) = mload src offset length.
Proof.
  intros Hr. apply list_fmap_ext. intros k o Hk. apply (dl_done _ _ _ _ _ (rt_host _ _ _ _ _ Hr)).
  by apply elem_of_zrange, list_elem_of_lookup_2 with k.
Qed.
End transfer.

(** ** The relation *)

(** The key [k] has an entry at [off] with the value [v]. *)
Definition stored (klen : Z) (d : kv_dev) (k : list Z) (off : Z) (v : list Z) : Prop :=
  exists s e, find_mapping d.(kd_ftl) k klen = Ok (Some s) /\ d.(kd_ftl).(kv_mapping_table) !! s = Some e /\
    e.(me_mem_offset) = off /\ e.(me_length) = zlen v /\ mload d.(kd_storage) off (zlen v) = v.

Definition apart (o1 n1 o2 n2 : Z) : Prop := o1 + n1 <= o2 \/ o2 + n2 <= o1.

(** [place] gives the offset of each key's extent. *)
Record placed (klen bytes : Z) (d : kv_dev) (m : gmap (list Z) (Z * list Z)) (place : list Z -> Z) : Prop := {
  pl_stored k room v : m !! k = Some (room, v) -> stored klen d k (place k) v;
  pl_room k room v : m !! k = Some (room, v) ->
    zlen k = klen /\ 0 <= place k /\ place k + room <= bytes /\ zlen v <= room;
  pl_apart k1 k2 r1 r2 v1 v2 : m !! k1 = Some (r1, v1) -> m !! k2 = Some (r2, v2) -> k1 <> k2 ->
    apart (place k1) r1 (place k2) r2
}.

Record kv_rel (cf : nvmev_config) (slots klen : Z) (d : kv_dev) (st : kv_state) : Prop := {
  kr_ftl : ftl_ok d.(kd_ftl);
  kr_klen : 0 < klen <= 16;
  kr_slots : d.(kd_ftl).(hash_slots) = slots;
  kr_ops : d.(kd_ftl).(kv_ops) = append_only_ops;
  kr_latest : d.(kd_pools).(pl_append).(ap_latest) = st.(ks_bytes);
  kr_bytes : 0 <= st.(ks_bytes) <= cf.(cf_storage_size);
  kr_size : cf.(cf_storage_size) < 9223372036854775808;
  kr_used : used d.(kd_ftl).(kv_mapping_table) = st.(ks_used);
  kr_place : exists place, placed klen st.(ks_bytes) d st.(ks_map) place;
  kr_none k : zlen k = klen -> st.(ks_map) !! k = None -> find_mapping d.(kd_ftl) k klen = Ok None
}.

(** A command with a key of [klen] bytes. *)
Record cmd_ok (klen : Z) (cmd : kv_command) : Prop := {
  co_field : zlen cmd.(kc_key) = 16;
  co_klen : cmd_key_length cmd = klen
}.

Definition cmd_key (cmd : kv_command) : list Z := take (Z.to_nat (cmd_key_length cmd)) cmd.(kc_key).

(** The operation of a command, with the value that the host has in its buffer. *)
Definition op_of (cmd : kv_command) (h : mem) : option kv_op :=
  let k := cmd_key cmd in
  let n := cmd_value_length cmd in
  if cmd.(kc_opcode) =? nvme_cmd_kv_store then Some (KvStore k (host_bytes cmd h n h))
  else if cmd.(kc_opcode) =? nvme_cmd_kv_retrieve then Some (KvRetrieve k n)
  else if cmd.(kc_opcode) =? nvme_cmd_kv_exist then Some (KvExist k)
  else if cmd.(kc_opcode) =? nvme_cmd_kv_delete then Some (KvDelete k)
  else None.

(** The buffers the command needs: that of the value to store, or that of the
    bytes that will be returned. *)
Definition buffers_ok (cmd : kv_command) (h : mem) (st : kv_state) : Prop :=
  let n := cmd_value_length cmd in
  if cmd.(kc_opcode) =? nvme_cmd_kv_store then prp_ok (u64_at h) cmd.(kc_prp1) cmd.(kc_prp2) n
  else if cmd.(kc_opcode) =? nvme_cmd_kv_retrieve then
    forall room v, st.(ks_map) !! cmd_key cmd = Some (room, v) -> buffer_ok cmd h (Z.min (zlen v) n)
  else True.

(** What the host sees of a command: the result, the status when one was set, and
    the bytes returned. *)
Definition observe (cmd : kv_command) (h h' : mem) (result status : Z) : kv_outcome :=
  if status =? KV_ERR_KEY_NOT_EXIST then KvNoKey
  else KvDone result (if cmd.(kc_opcode) =? nvme_cmd_kv_retrieve then host_bytes cmd h result h' else []).

Lemma zlen_cmd_key klen cmd : cmd_ok klen cmd -> 0 < klen <= 16 -> zlen (cmd_key cmd) = klen.
Proof. intros [H1 H2] Hk. unfold cmd_key. rewrite H2. unfold zlen in *. rewrite length_take. lia. Qed.

Lemma take_cmd_key klen cmd : cmd_ok klen cmd -> 0 < klen <= 16 ->
  take (Z.to_nat klen) (cmd_key cmd) = take (Z.to_nat klen) cmd.(kc_key) /\ take (Z.to_nat klen) (cmd_key cmd) = cmd_key cmd.
Proof. intros [H1 H2] Hk. unfold cmd_key. rewrite H2, take_take, Nat.min_id. done. Qed.

Lemma cmd_key_ok klen cmd : cmd_ok klen cmd -> 0 < klen <= 16 -> key_ok cmd.(kc_key) klen.
Proof. intros [H1 H2] Hk. split; unfold KEY_FIELD; lia. Qed.

Lemma map_key_ok k klen : zlen k = klen -> 0 < klen <= 16 -> key_ok k klen.
Proof. intros H1 Hk. split; unfold KEY_FIELD; lia. Qed.

(** Only the first [klen] bytes of a key count. *)
Lemma hash_take key klen : klen <= zlen key -> hash_function (take (Z.to_nat klen) key) klen = hash_function key klen.
Proof.
  intros Hk. unfold hash_function. generalize 2166136261.
  assert (forall i, i ∈ zrange 0 klen -> aget (take (Z.to_nat klen) key) i = aget key i) as Hi.
  { intros i Hi%elem_of_zrange. unfold aget. f_equal. rewrite !zlookup_to_nat by lia. apply lookup_take_lt. lia. }
  revert Hi. generalize (zrange 0 klen). induction l as [|x l IH]; intros Hi h; simpl; [done|].
  rewrite Hi by set_solver. destruct (aget key x); simpl; [|done]. apply IH. intros i Hin. apply Hi. set_solver.
Qed.

Lemma find_take f key klen : ftl_ok f -> key_ok key klen ->
  find_mapping f (take (Z.to_nat klen) key) klen = find_mapping f key klen.
Proof.
  intros Hf [Hk Hfl]. assert (key_ok (take (Z.to_nat klen) key) klen) as Hk'.
  { split; [|done]. unfold zlen in *. rewrite length_take. lia. }
  destruct (find_mapping_ok f key klen Hf ltac:(by split)) as (h & l & o & Eh & Hc & _ & ->).
  destruct (find_mapping_ok f _ klen Hf Hk') as (h' & l' & o' & Eh' & Hc' & _ & ->).
  unfold get_hash_slot in *. rewrite hash_take in Eh' by done. assert (h' = h) as -> by congruence.
  destruct (chain_det _ _ _ _ _ _ Hc Hc') as [-> ->]. f_equal. unfold first_match. f_equal. apply filter_in_ext.
  intros i _. unfold matches. rewrite take_take, Nat.min_id. done.
Qed.

Lemma find_cmd_key f klen cmd : ftl_ok f -> cmd_ok klen cmd -> 0 < klen <= 16 ->
  find_mapping f cmd.(kc_key) klen = find_mapping f (cmd_key cmd) klen.
Proof.
  intros Hf Hc Hk. rewrite <- (find_take f (kc_key cmd)) by (done || by apply cmd_key_ok).
  unfold cmd_key. by rewrite (co_klen _ _ Hc).
Qed.

(** The entry that an operation starts from. *)
Lemma get_entry_ok cf slots klen d st cmd :
  kv_rel cf slots klen d st -> cmd_ok klen cmd ->
  okp (get_mapping_entry d.(kd_ftl) cmd) (fun e =>
    match st.(ks_map) !! cmd_key cmd with
    | None => (e.(me_mem_offset) =? NO_OFFSET) = true
    | Some (room, v) => (e.(me_mem_offset) =? NO_OFFSET) = false /\ 0 <= e.(me_mem_offset) /\ e.(me_mem_offset) + room <= st.(ks_bytes) /\ zlen v <= room /\
        e.(me_length) = zlen v /\ stored klen d (cmd_key cmd) e.(me_mem_offset) v
    end).
Proof.
  intros Hr Hc. pose proof (kr_klen _ _ _ _ _ Hr) as Hk. pose proof (kr_ftl _ _ _ _ _ Hr) as Hf.
  unfold get_mapping_entry, get_mapping_entry_by_key. rewrite (co_klen _ _ Hc), (find_cmd_key _ klen) by done.
  destruct (ks_map st !! cmd_key cmd) as [[room v]|] eqn:Em.
  - destruct (kr_place _ _ _ _ _ Hr) as [place Hp]. pose proof (pl_stored _ _ _ _ _ Hp _ _ _ Em) as Hst.
    pose proof Hst as (s & e & Ef & Ee & Eo & El & Ev). destruct (pl_room _ _ _ _ _ Hp _ _ _ Em) as (_ & H1 & H2 & H3).
    rewrite Ef, bind_Ok, (aget_Some _ _ _ Ee), bind_Ok.
    pose proof (eo_key _ _ (to_entry _ (fo_table _ Hf) _ _ Ee)) as Hkey.
    change (me_key no_entry) with (zrepeat KEY_FIELD 255). unfold KEY_FIELD in *.
    rewrite memcpy_head_ok, bind_Ok by (rewrite ?zlen_zrepeat; lia). simpl. rewrite Eo.
    pose proof (kr_bytes _ _ _ _ _ Hr). pose proof (kr_size _ _ _ _ _ Hr). pose proof (zlen_nonneg v).
    split; [apply Z.eqb_neq; unfold NO_OFFSET; lia|auto].
  - rewrite (kr_none _ _ _ _ _ Hr); [done|by apply (zlen_cmd_key klen)|done].
Qed.

(** ** The relation is preserved *)

Lemma stored_mono klen d d' k off v :
  stored klen d k off v -> find_mapping d'.(kd_ftl) k klen = find_mapping d.(kd_ftl) k klen ->
  (forall s, find_mapping d.(kd_ftl) k klen = Ok (Some s) ->
     same_value d.(kd_ftl).(kv_mapping_table) d'.(kd_ftl).(kv_mapping_table) s) ->
  (forall a, off <= a < off + zlen v -> d'.(kd_storage) a = d.(kd_storage) a) -> stored klen d' k off v.
Proof.
  intros (s & e & Ef & Ee & Eo & El & Ev) Hfind Hsame Hst.
  destruct (Hsame s Ef e Ee) as (e' & Ee' & _ & Eo' & El'). exists s, e'.
  split; [by rewrite Hfind|]. split; [done|]. split; [by rewrite Eo'|]. split; [by rewrite El'|].
  rewrite <- Ev at 2. apply mload_ext. intros i Hi. apply Hst. lia.
Qed.

Lemma same_refl t j : same_value t t j.
Proof. intros e E. by exists e. Qed.

Lemma rel_frame cf slots klen d d' st :
  d'.(kd_ftl) = d.(kd_ftl) -> d'.(kd_pools) = d.(kd_pools) -> d'.(kd_storage) = d.(kd_storage) ->
  kv_rel cf slots klen d st -> kv_rel cf slots klen d' st.
Proof.
  intros E1 E2 E3 [H1 H2 Hsl H3 H4 H5 H6 H7 [place [P1 P2 P3]] H9].
  split; rewrite ?E1, ?E2; [done..| |done]. exists place. split; [|done|done].
  intros k room v Em. eapply stored_mono; [by apply (P1 k room v)|by rewrite E1| |by rewrite E3].
  intros s _. rewrite E1. apply same_refl.
Qed.

(** A new entry in the slot [s]. *)
Record entry_added (f f' : kv_ftl) (klen : Z) (k : list Z) (off n s : Z) : Prop := {
  ea_ftl : ftl_ok f';
  ea_slots : f'.(hash_slots) = f.(hash_slots);
  ea_ops : f'.(kv_ops) = f.(kv_ops);
  ea_used : used f'.(kv_mapping_table) = used f.(kv_mapping_table) + 1;
  ea_free : exists e, f.(kv_mapping_table) !! s = Some e /\ ~ occupied e;
  ea_new : exists e, f'.(kv_mapping_table) !! s = Some e /\ e.(me_mem_offset) = off /\ e.(me_length) = n;
  ea_same j : j <> s -> same_value f.(kv_mapping_table) f'.(kv_mapping_table) j;
  ea_find : find_mapping f' k klen = Ok (Some s);
  ea_others k' : zlen k' = klen -> k' <> k -> find_mapping f' k' klen = find_mapping f k' klen
}.

Lemma new_entry_ok cf klen f cmd off :
  ftl_ok f -> cmd_ok klen cmd -> 0 < klen <= 16 -> off < cf.(cf_storage_size) -> off <> NO_OFFSET ->
  find_mapping f (cmd_key cmd) klen = Ok None -> used f.(kv_mapping_table) < zlen f.(kv_mapping_table) ->
  okp (new_mapping_entry cf f cmd off) (fun f' => exists s, entry_added f f' klen (cmd_key cmd) off (cmd_value_length cmd) s).
Proof.
  intros Hf Hc Hk Hoff Hno Hnone Hu. unfold new_mapping_entry. rewrite (proj2 (Z.leb_gt _ _)) by done.
  rewrite (co_klen _ _ Hc). simpl. apply okp_bind.
  eapply okp_mono; [apply (place_ok f); [done|by apply cmd_key_ok|done|by rewrite (find_cmd_key _ klen)|done]|].
  intros t' (H1 & H2 & s & e0 & H3 & H4 & H5 & H6 & H7 & H8). simpl in H1, H2, H7, H8. simpl.
  destruct (take_cmd_key klen cmd Hc Hk) as [T1 T2].
  exists s. split; simpl; try done.
  - by exists e0.
  - by eexists.
  - by rewrite <- (find_cmd_key _ klen).
  - intros k' Hk' Hne. apply H8; [by apply map_key_ok|]. rewrite <- T1, T2. unfold zlen in Hk'.
    rewrite take_ge by lia. done.
Qed.

Lemma rel_insert cf slots klen d d' m u b k v s :
  kv_rel cf slots klen d (KvState m u b) -> m !! k = None -> zlen k = klen -> b + zlen v <= cf.(cf_storage_size) ->
  entry_added d.(kd_ftl) d'.(kd_ftl) klen k b (zlen v) s ->
  d'.(kd_pools).(pl_append).(ap_latest) = b + zlen v ->
  (forall a, ~ (b <= a < b + zlen v) -> d'.(kd_storage) a = d.(kd_storage) a) ->
  mload d'.(kd_storage) b (zlen v) = v ->
  kv_rel cf slots klen d' (KvState (<[k := (zlen v, v)]> m) (u + 1) (b + zlen v)).
Proof.
  intros [H1 H2 Hsl H3 H4 H5 H6 H7 [place [P1 P2 P3]] H9] Em Hk Hb [A1 A0 A2 A3 (e0 & A4 & A4') A5 A6 A7 A8] Hlat Hst Hv.
  simpl in *. pose proof (zlen_nonneg v).
  assert (forall k' room w, m !! k' = Some (room, w) -> k' <> k) as Hne by (intros k' room w E ->; congruence).
  split; simpl; [done|done|congruence|congruence|done|lia|done|lia| |].
  - exists (fun k' => if decide (k' = k) then b else place k'). split.
    + intros k' room w. rewrite lookup_insert_Some. intros [[<- [= <- <-]]|[Hn E]].
      * rewrite decide_True by done. destruct A5 as (e & E1 & E2 & E3). by exists s, e.
      * rewrite decide_False by done. destruct (P2 _ _ _ E) as (K1 & K2 & K3 & K4).
        eapply stored_mono; [by eapply P1|by apply A8| |].
        -- intros s' Es'. apply A6. intros ->. destruct (P1 _ _ _ E) as (s2 & e2 & F1 & F2 & F3 & _).
           assert (s2 = s) as -> by congruence. apply A4'. assert (e2 = e0) as -> by congruence. pose proof (zlen_nonneg w). unfold occupied, NO_OFFSET. lia.
        -- intros a Ha. apply Hst. lia.
    + intros k' room w. rewrite lookup_insert_Some. intros [[<- [= <- <-]]|[Hn E]].
      * rewrite decide_True by done. lia.
      * rewrite decide_False by done. destruct (P2 _ _ _ E) as (K1 & K2 & K3 & K4). lia.
    + intros k1 k2 r1 r2 v1 v2. rewrite !lookup_insert_Some. unfold apart.
      intros [[<- [= <- <-]]|[Hn1 E1]] [[<- [= <- <-]]|[Hn2 E2]] Hne12; [done|..].
      * rewrite decide_True, decide_False by done. destruct (P2 _ _ _ E2) as (_ & K2 & K3 & K4). lia.
      * rewrite decide_False, decide_True by done. destruct (P2 _ _ _ E1) as (_ & K2 & K3 & K4). lia.
      * rewrite !decide_False by done. by eapply P3.
  - intros k' Hk'. rewrite lookup_insert_None. intros [E Hn]. rewrite A8 by done. by apply H9.
Qed.

(** A new value in the place of the old one. *)
Lemma rel_update cf slots klen d d' m u b k v room w off :
  kv_rel cf slots klen d (KvState m u b) -> m !! k = Some (room, w) -> stored klen d k off w -> zlen v <= room ->
  ftl_ok d'.(kd_ftl) -> d'.(kd_ftl).(hash_slots) = slots -> d'.(kd_ftl).(kv_ops) = append_only_ops -> d'.(kd_pools) = d.(kd_pools) ->
  used d'.(kd_ftl).(kv_mapping_table) = used d.(kd_ftl).(kv_mapping_table) ->
  (forall k', zlen k' = klen -> find_mapping d'.(kd_ftl) k' klen = find_mapping d.(kd_ftl) k' klen) ->
  (forall k' s, zlen k' = klen -> k' <> k -> find_mapping d.(kd_ftl) k' klen = Ok (Some s) ->
     same_value d.(kd_ftl).(kv_mapping_table) d'.(kd_ftl).(kv_mapping_table) s) ->
  (forall a, ~ (off <= a < off + zlen v) -> d'.(kd_storage) a = d.(kd_storage) a) ->
  stored klen d' k off v ->
  kv_rel cf slots klen d' (KvState (<[k := (room, v)]> m) u b).
Proof.
  intros [H1 H2 Hsl H3 H4 H5 H6 H7 [place [P1 P2 P3]] H9] Em Hoff Hv Hf Hsl' Hops Hp Hu Hfind Hsame Hst Hnew. simpl in *.
  assert (off = place k) as ->.
  { destruct Hoff as (s & e & F1 & F2 & <- & _). destruct (P1 _ _ _ Em) as (s2 & e2 & G1 & G2 & <- & _). congruence. }
  split; simpl; [done|done|done|done|by rewrite Hp|done|done|lia| |].
  - exists place. split.
    + intros k' r x. rewrite lookup_insert_Some. intros [[<- [= <- <-]]|[Hn E]]; [done|].
      destruct (P2 _ _ _ E) as (K1 & K2 & K3 & K4). eapply stored_mono; [by eapply P1|by apply Hfind|intros s' Es'; apply (Hsame k' s'); [done|congruence|done]|].
      intros a Ha. apply Hst. destruct (P3 _ _ _ _ _ _ Em E Hn); lia.
    + intros k' r x. rewrite lookup_insert_Some. intros [[<- [= <- <-]]|[Hn E]]; [|by eapply P2].
      destruct (P2 _ _ _ Em). lia.
    + intros k1 k2 r1 r2 v1 v2. rewrite !lookup_insert_Some.
      intros [[<- [= <- <-]]|[Hn1 E1]] [[<- [= <- <-]]|[Hn2 E2]] Hne12; [done|by eapply P3..].
  - intros k' Hk'. rewrite lookup_insert_None. intros [E Hn]. rewrite Hfind by done. by apply H9.
Qed.

(** Two keys of the same length never share an entry. *)
Lemma same_slot f k1 k2 klen s :
  ftl_ok f -> zlen k1 = klen -> zlen k2 = klen -> 0 < klen <= 16 ->
  find_mapping f k1 klen = Ok (Some s) -> find_mapping f k2 klen = Ok (Some s) -> k1 = k2.
Proof.
  intros Hf Hk1 Hk2 Hk E1 E2.
  destruct (find_mapping_Some _ _ _ _ Hf (map_key_ok _ _ Hk1 Hk) E1) as (e1 & F1 & _ & G1).
  destruct (find_mapping_Some _ _ _ _ Hf (map_key_ok _ _ Hk2 Hk) E2) as (e2 & F2 & _ & G2).
  assert (e2 = e1) as -> by congruence. rewrite <- G1 in G2. unfold zlen in Hk1, Hk2. by rewrite !take_ge in G2 by lia.
Qed.

Lemma rel_delete cf slots klen d d' m u b k room v s :
  kv_rel cf slots klen d (KvState m u b) -> m !! k = Some (room, v) -> zlen k = klen ->
  find_mapping d.(kd_ftl) k klen = Ok (Some s) ->
  d'.(kd_ftl) = with_table (<[s := no_entry]> d.(kd_ftl).(kv_mapping_table)) d.(kd_ftl) ->
  d'.(kd_pools) = d.(kd_pools) -> d'.(kd_storage) = d.(kd_storage) ->
  exists m', m' ⊆ delete k m /\ kv_rel cf slots klen d' (KvState m' (u - 1) b) /\
    (tail_slot d.(kd_ftl).(kv_mapping_table) s -> m' = delete k m).
Proof.
  intros [H1 H2 Hsl H3 H4 H5 H6 H7 [place [P1 P2 P3]] H9] Em Hk Es Ef' Ep' Es'. simpl in *.
  pose proof (delete_ok (kd_ftl d) k klen s H1 (map_key_ok _ _ Hk H2) Es) as (D1 & D2 & D3 & D4 & D5).
  rewrite <- Ef' in D1, D3, D5.
  assert (forall k', zlen k' = klen -> k' <> k -> find_mapping (kd_ftl d') k' klen = find_mapping (kd_ftl d) k' klen \/
    (find_mapping (kd_ftl d') k' klen = Ok None /\ ~ tail_slot (kv_mapping_table (kd_ftl d)) s)) as D6.
  { intros k' Hk' Hne. apply D5; [by apply map_key_ok|]. unfold zlen in *. rewrite !take_ge by lia. done. }
  set (kept := fun k' => match find_mapping (kd_ftl d') k' klen with Ok (Some _) => true | _ => false end).
  exists (filter (fun kv => kept kv.1 = true) (delete k m)). split; [apply map_filter_subseteq|]. split.
  - split; simpl; [done|done|by rewrite Ef'|by rewrite Ef'|by rewrite Ep'|done|done|rewrite Ef'; simpl; lia| |].
    + exists place. split.
      * intros k' r x [[Hn E]%lookup_delete_Some Hkept]%map_lookup_filter_Some. simpl in Hkept.
        destruct (P2 _ _ _ E) as (K1 & _). destruct (D6 k' K1 ltac:(congruence)) as [Ef|[Ef _]]; [|unfold kept in Hkept; by rewrite Ef in Hkept].
        eapply stored_mono; [by eapply P1|done| |by rewrite Es'].
        intros s' Es2. rewrite Ef'. simpl. intros e2 E2. exists e2. split; [|done]. rewrite D4; [done|]. intros ->.
        apply Hn. by apply (same_slot (kd_ftl d) k k' klen s).
      * intros k' r x [[Hn E]%lookup_delete_Some _]%map_lookup_filter_Some. by eapply P2.
      * intros k1 k2 r1 r2 v1 v2 [[_ E1]%lookup_delete_Some _]%map_lookup_filter_Some
          [[_ E2]%lookup_delete_Some _]%map_lookup_filter_Some. by eapply P3.
    + intros k' Hk' Hn. destruct (decide (k' = k)) as [->|Hne]; [done|].
      destruct (D6 k' Hk' Hne) as [Ef|[Ef _]]; [|done]. rewrite Ef. destruct (m !! k') as [[r x]|] eqn:E; [|by apply H9].
      exfalso. apply map_lookup_filter_None in Hn as [Hn|Hn]; [rewrite lookup_delete_ne in Hn by done; congruence|].
      apply (Hn (r, x)); [by rewrite lookup_delete_ne|]. simpl. unfold kept. rewrite Ef.
      destruct (P1 _ _ _ E) as (s2 & e2 & -> & _). done.
  - intros Htl. apply map_filter_id. intros k' [r x] [Hn E]%lookup_delete_Some. simpl. destruct (P2 _ _ _ E) as (K1 & _).
    destruct (D6 k' K1 ltac:(congruence)) as [Ef|[_ ?]]; [|done]. unfold kept. rewrite Ef.
    destruct (P1 _ _ _ E) as (s2 & e2 & -> & _). done.
Qed.

(** ** The operations *)

Section ops.
Context (cf : nvmev_config) (find_next_zero : (Z -> bool) -> Z -> Z -> Z) (slots klen : Z).

Lemma value_length_range cmd : 0 <= cmd_value_length cmd < 4294967296.
Proof using. apply u32_range. Qed.

Lemma zlen_host_bytes cmd H n H' : 0 <= n -> zlen (host_bytes cmd H n H') = n.
Proof using. intros. unfold host_bytes. rewrite zlen_fmap, zlen_zrange; lia. Qed.

Lemma store_insert_ok d m u b cmd :
  let n := cmd_value_length cmd in let v := host_bytes cmd d.(kd_host) n d.(kd_host) in
  kv_rel cf slots klen d (KvState m u b) -> cmd_ok klen cmd -> cmd.(kc_opcode) = nvme_cmd_kv_store ->
  m !! cmd_key cmd = None -> u < zlen d.(kd_ftl).(kv_mapping_table) -> b + n <= cf.(cf_storage_size) -> b < cf.(cf_storage_size) ->
  prp_ok (host_u64 d) cmd.(kc_prp1) cmd.(kc_prp2) n ->
  okp ('(d, offset) ← allocate_mem_offset find_next_zero d cmd; kv_store_at cf cmd 1 offset d) (fun d' =>
    kv_rel cf slots klen d' (KvState (<[cmd_key cmd := (zlen v, v)]> m) (u + 1) (b + zlen v))).
Proof using.
  intros n v Hr Hc Hop Em Hu Hb Hb' Hp. pose proof Hr as [H1 H2 Hsl H3 H4 H5 H6 H7 H8 H9]. simpl in *.
  pose proof (value_length_range cmd) as Hn. fold n in Hn. assert (zlen v = n) as Hv by (unfold v; rewrite zlen_host_bytes; lia).
  pose proof (zlen_cmd_key klen cmd Hc H2) as Hk.
  unfold allocate_mem_offset, allocate_mem_offset_by_length. rewrite Hop, Z.eqb_refl, H3. simpl. fold n. rewrite H4. unwrap.
  rewrite (proj2 (Z.eqb_neq _ _)) by (unfold NO_OFFSET; lia).
  set (d1 := dev_pools _ d). unfold kv_store_at. fold n.
  apply okp_bind. eapply okp_mono; [apply (store_walk_ok cf cmd b n d1); [done|lia|lia|done]|].
  intros d2 (E1 & E2 & E3 & E4 & E5). rewrite E1. simpl. apply okp_bind.
  eapply okp_mono; [apply (new_entry_ok cf klen); [done|done|done|done|unfold NO_OFFSET; lia|by apply H9|]|].
  { simpl. rewrite H7. done. }
  intros f' [s Ha]. simpl. fold n in Ha. rewrite <- Hv in Ha. eapply (rel_insert cf slots klen d); [done|done|done|lia|exact Ha| | |].
  - simpl. rewrite E2. simpl. lia.
  - rewrite Hv. exact E4.
  - rewrite Hv. exact E5.
Qed.

(** The table after an update, whose length is that of the value. *)
Lemma update_entry_ok f cmd s e :
  ftl_ok f -> cmd_ok klen cmd -> 0 < klen <= 16 -> find_mapping f (cmd_key cmd) klen = Ok (Some s) ->
  f.(kv_mapping_table) !! s = Some e ->
  okp (update_mapping_entry f cmd) (fun '(f', r) => r = 0 /\ ftl_ok f' /\ f'.(hash_slots) = f.(hash_slots) /\ f'.(kv_ops) = f.(kv_ops) /\
    used f'.(kv_mapping_table) = used f.(kv_mapping_table) /\
    f'.(kv_mapping_table) !! s = Some (MapEntry e.(me_key) e.(me_mem_offset) (cmd_value_length cmd) e.(me_next_slot)) /\
    (forall j, j <> s -> same_value f.(kv_mapping_table) f'.(kv_mapping_table) j) /\
    forall k, zlen k = klen -> find_mapping f' k klen = find_mapping f k klen).
Proof using.
  intros Hf Hc Hk Es Ee. unfold update_mapping_entry. rewrite (co_klen _ _ Hc), (find_cmd_key _ klen), Es, bind_Ok by done.
  set (t := kv_mapping_table f) in *. pose proof (zlookup_Some_range _ _ _ Ee) as Hs.
  unfold amod. rewrite (aget_Some _ _ _ Ee), !bind_Ok. simpl. set (e' := MapEntry _ _ (cmd_value_length cmd) _).
  assert (forall j x, t !! j = Some x -> exists len, <[s := e']> t !! j = Some (MapEntry x.(me_key) x.(me_mem_offset) len x.(me_next_slot))) as Hl.
  { intros j x E. rewrite zlookup_zinsert by done. case_decide; [|exists (me_length x); rewrite E; by destruct x].
    exists (cmd_value_length cmd). simplify_eq. done. }
  destruct (find_same_keys f (<[s := e']> t) _ klen Hf (cmd_key_ok _ _ Hc Hk) (zlen_zinsert _ _ _) Hl) as [Hf' _].
  split; [done|]. split; [done|]. split; [done|]. split; [done|].
  assert (forall j, j <> s -> same_value t (<[s := e']> t) j) as Hsame.
  { intros j Hj x E. exists x. by rewrite zlookup_zinsert_ne. }
  split.
  { rewrite (used_change t _ s (me_mem_offset e) (me_mem_offset e)); [lia|by rewrite zlen_zinsert|..|done].
    - by rewrite zlookup_fmap, Ee.
    - by rewrite zlookup_fmap, zlookup_zinsert_eq. }
  split; [by apply zlookup_zinsert_eq|]. split; [done|]. intros k Hkl.
  apply (find_same_keys f (<[s := e']> t) k klen); [done|by apply map_key_ok|by rewrite zlen_zinsert|done].
Qed.

Lemma store_update_ok d m u b cmd room w entry :
  let n := cmd_value_length cmd in let v := host_bytes cmd d.(kd_host) n d.(kd_host) in
  kv_rel cf slots klen d (KvState m u b) -> cmd_ok klen cmd -> m !! cmd_key cmd = Some (room, w) ->
  stored klen d (cmd_key cmd) entry.(me_mem_offset) w -> entry.(me_length) = zlen w ->
  0 <= entry.(me_mem_offset) -> entry.(me_mem_offset) + room <= b -> n <= room ->
  (n = zlen w \/ (n <= SMALL_LENGTH /\ zlen w <= SMALL_LENGTH)) ->
  prp_ok (host_u64 d) cmd.(kc_prp1) cmd.(kc_prp2) n ->
  okp (kv_store_at cf cmd (if negb (n =? entry.(me_length)) &&
         ((n <=? SMALL_LENGTH) && (entry.(me_length) <=? SMALL_LENGTH)) then 2 else 0) entry.(me_mem_offset) d)
    (fun d' => kv_rel cf slots klen d' (KvState (<[cmd_key cmd := (room, v)]> m) u b)).
Proof using.
  intros n v Hr Hc Em Hst El Ho Hob Hroom Hlen Hp. pose proof Hr as [H1 H2 Hsl H3 H4 H5 H6 H7 H8 H9]. simpl in *.
  pose proof (value_length_range cmd) as Hn. fold n in Hn. assert (zlen v = n) as Hv by (unfold v; rewrite zlen_host_bytes; lia).
  rewrite El. unfold kv_store_at. fold n. set (off := me_mem_offset entry) in *.
  apply okp_bind. eapply okp_mono; [apply (store_walk_ok cf cmd off n d); [done|done|lia|lia]|].
  intros d2 (E1 & E2 & E3 & E4 & E5). fold v in E5. pose proof Hst as (s & e & F1 & F2 & F3 & F4 & F5).
  destruct (Z.eqb_spec n (zlen w)) as [Enw|Enw]; simpl.
  - eapply (rel_update cf slots klen d d2 m u b (cmd_key cmd) v room w off); rewrite ?E1, ?Hv; try done.
    + intros k' s' _ _ _. apply same_refl.
    + exists s, e. rewrite E1, Hv. split; [done|]. split; [done|]. split; [done|]. split; [by rewrite F4|exact E5].
  - destruct Hlen as [?|[Hl1 Hl2]]; [done|]. rewrite !(proj2 (Z.leb_le _ _)) by done. simpl. rewrite E1. apply okp_bind.
    eapply okp_mono; [apply (update_entry_ok (kd_ftl d) cmd s e); done|].
    intros [f' r] (-> & U1 & U0 & U2 & U3 & U4 & U5 & U6). simpl.
    eapply (rel_update cf slots klen d _ m u b (cmd_key cmd) v room w off); simpl; rewrite ?Hv; try done; [congruence|congruence| |].
    + intros k' s' Hk' Hne Es'. apply U5. intros ->. apply Hne.
      apply (same_slot (kd_ftl d) k' (cmd_key cmd) klen s); [done|done|by apply zlen_cmd_key|done..].
    + exists s. eexists. split; [by rewrite U6 by (by apply zlen_cmd_key)|]. split; [exact U4|]. simpl. rewrite Hv. done.
Qed.

Lemma retrieve_ok d m u b cmd room w off :
  let n := Z.min (zlen w) (cmd_value_length cmd) in
  kv_rel cf slots klen d (KvState m u b) -> m !! cmd_key cmd = Some (room, w) -> stored klen d (cmd_key cmd) off w ->
  0 <= off -> off + room <= b -> zlen w <= room -> buffer_ok cmd d.(kd_host) n ->
  okp (kv_walk cmd (retrieve_chunk cf off) n d) (fun d' =>
    kv_rel cf slots klen d' (KvState m u b) /\ host_bytes cmd d.(kd_host) n d'.(kd_host) = take (Z.to_nat (cmd_value_length cmd)) w).
Proof using.
  intros n Hr Em (s & e & F1 & F2 & F3 & F4 & F5) Ho Hb Hw Hbuf. pose proof (kr_bytes _ _ _ _ _ Hr) as Hby. simpl in Hby.
  pose proof (value_length_range cmd). pose proof (zlen_nonneg w).
  eapply okp_mono; [apply (retrieve_walk_ok cf cmd off n d); [done|done|lia|lia]|].
  intros d' Hret. pose proof (rt_ftl _ _ _ _ _ _ Hret) as (E1 & E2 & E3). split; [by apply (rel_frame cf slots klen d)|].
  rewrite (retrieved_bytes _ _ _ _ _ _ Hret). rewrite <- F5 at 1.
  apply zlist_eq; [rewrite zlen_mload by lia; unfold zlen; rewrite length_take; fold (zlen (mload (kd_storage d) off (zlen w)));
    pose proof (zlen_mload (kd_storage d) off (zlen w) ltac:(lia)) as Hl; unfold n, zlen in *; lia|].
  intros i Hi. rewrite zlen_mload in Hi by lia. rewrite zlookup_mload by done.
  rewrite (zlookup_to_nat (take _ _)), lookup_take_lt, <- zlookup_to_nat by lia. by rewrite zlookup_mload by lia.
Qed.

(** One command refines the specification. *)
Lemma kv_step_ok garbage d st cmd op :
  kv_rel cf slots klen d st -> cmd_ok klen cmd -> op_of cmd d.(kd_host) = Some op ->
  allowed slots cf.(cf_storage_size) st op -> buffers_ok cmd d.(kd_host) st ->
  okp (kv_perform_nvme_io_cmd cf find_next_zero garbage cmd 0 d) (fun '(d', r, status) =>
    exists st', kv_spec st op (observe cmd d.(kd_host) d'.(kd_host) r status) st' /\ kv_rel cf slots klen d' st').
Proof using.
  intros Hr Hc Hop Hal Hbuf. destruct st as [m u b]. pose proof (kr_klen _ _ _ _ _ Hr) as Hk.
  unfold op_of in Hop. unfold buffers_ok in Hbuf.
  assert (kv_perform_nvme_io_cmd cf find_next_zero garbage cmd 0 d = __do_perform_kv_io cf find_next_zero cmd 0 d) as ->.
  { unfold kv_perform_nvme_io_cmd, is_kv_iter_cmd, nvme_cmd_kv_store, nvme_cmd_kv_retrieve, nvme_cmd_kv_exist, nvme_cmd_kv_delete in *.
    repeat (case_match; [match goal with E : (_ =? _) = true |- _ => apply Z.eqb_eq in E; rewrite E end; done|]). done. }
  unfold __do_perform_kv_io. apply okp_bind. eapply okp_mono; [by eapply get_entry_ok|]. intros e He. simpl in He.
  destruct (kc_opcode cmd =? nvme_cmd_kv_store) eqn:Es; [|destruct (kc_opcode cmd =? nvme_cmd_kv_retrieve) eqn:Et;
    [|destruct (kc_opcode cmd =? nvme_cmd_kv_exist) eqn:Ex; [|destruct (kc_opcode cmd =? nvme_cmd_kv_delete) eqn:Ed; [|done]]]];
    injection Hop as <-; simpl in Hal, Hbuf.
  - apply Z.eqb_eq in Es. destruct (m !! cmd_key cmd) as [[room w]|] eqn:Em.
    + destruct He as (E0 & E1 & E2 & E3 & E4 & E5). rewrite E0.
      pose proof (value_length_range cmd). rewrite zlen_host_bytes in Hal by lia. destruct Hal as [Hl1 Hl2].
      apply okp_bind. eapply okp_mono; [by apply (store_update_ok d m u b cmd room w e)|]. intros d' Hr'. simpl.
      eexists. split; [|exact Hr']. unfold observe. rewrite Es. by eapply spec_update.
    + rewrite He. pose proof (value_length_range cmd). rewrite zlen_host_bytes in Hal by lia.
      destruct Hal as (Hl1 & Hl2 & Hl3).
      pose proof (store_insert_ok d m u b cmd Hr Hc Es Em) as Hins. rewrite <- (fo_slots _ (kr_ftl _ _ _ _ _ Hr)), (kr_slots _ _ _ _ _ Hr) in Hins.
      specialize (Hins Hl1 Hl2 Hl3 Hbuf). destruct (allocate_mem_offset find_next_zero d cmd) as [[d1 off]|]; [|done].
      rewrite bind_Ok in Hins. rewrite bind_Ok. apply okp_bind. eapply okp_mono; [exact Hins|]. intros d' Hr'. simpl.
      eexists. split; [|exact Hr']. unfold observe. rewrite Es. by apply spec_insert.
  - apply Z.eqb_eq in Et. destruct (m !! cmd_key cmd) as [[room w]|] eqn:Em.
    + destruct He as (E0 & E1 & E2 & E3 & E4 & E5). rewrite E0, E4.
      pose proof (value_length_range cmd). apply okp_bind.
      eapply okp_mono; [apply (retrieve_ok d m u b cmd room w); [done..|by eapply Hbuf]|].
      intros d' [Hr' Hb]. simpl. exists (KvState m u b). split; [|done]. unfold observe. rewrite Et. simpl. pose proof (zlen_nonneg w). unwrap. rewrite Hb.
      by eapply spec_retrieve.
    + rewrite He. exists (KvState m u b). split; [|done]. eapply spec_no_key; [done|]. right. right. by eexists.
  - apply Z.eqb_eq in Ex. destruct (m !! cmd_key cmd) as [[room w]|] eqn:Em.
    + destruct He as (E0 & E1 & E2 & E3 & _). rewrite E0.
      exists (KvState m u b). split; [|done]. unfold observe. rewrite Ex. by eapply spec_exist.
    + rewrite He. exists (KvState m u b). split; [|done]. eapply spec_no_key; [done|]. by left.
  - apply Z.eqb_eq in Ed. destruct (m !! cmd_key cmd) as [[room w]|] eqn:Em.
    + destruct He as (E0 & E1 & E2 & E3 & _ & (s & es & F1 & _)). rewrite E0. pose proof (kr_ftl _ _ _ _ _ Hr) as Hf.
      unfold delete_mapping_entry. rewrite (co_klen _ _ Hc), (find_cmd_key _ klen), F1, bind_Ok by done.
      destruct (find_mapping_Some _ _ _ _ Hf (map_key_ok _ _ (zlen_cmd_key _ _ Hc Hk) Hk) F1) as (e2 & F2 & _).
      rewrite aset_Some by (by eapply zlookup_Some_range). simpl.
      destruct (rel_delete cf slots klen d (dev_ftl (with_table (<[s:=no_entry]> (kv_mapping_table (kd_ftl d))) (kd_ftl d)) d)
        m u b (cmd_key cmd) room w s Hr Em (zlen_cmd_key _ _ Hc Hk) F1 eq_refl eq_refl eq_refl) as (m' & Hsub & Hr' & _).
      exists (KvState m' (u - 1) b). split; [|done]. unfold observe. rewrite Ed. by eapply spec_delete.
    + rewrite He. exists (KvState m u b). split; [|done]. eapply spec_no_key; [done|]. right. by left.
Qed.
End ops.
