(* ===== verification/KvRun.v ===== *)
(** * Sessions and iterators of the key-value FTL

    A new namespace under a sequence of commands, each with what the host has in
    its memory when the command is carried out; and the reads of an iterator
    until it reports its end. *)

From stdpp Require Import prelude list gmap.
From Stdlib Require Import ZArith Lia.
From S2P Require Import Prelude Mem Prp ChannelModel SsdConfig Ssd ConvFtl IoUnits KvAlloc KvFtl KvTable KvInv.

(** ** Initialisation *)

Lemma init_table_ok slots : 0 < slots < NO_SLOT ->
  table_ok (kv_init_table slots) /\ used (kv_init_table slots) = 0 /\
  forall i e, kv_init_table slots !! i = Some e -> ~ occupied e.
Proof.
  intros Hs. unfold kv_init_table. set (e0 := MapEntry _ _ _ _).
  assert (forall i e, zrepeat slots e0 !! i = Some e -> e = e0) as He by (intros i e Hi; by apply zlookup_zrepeat in Hi).
  split; [|split].
  - split; rewrite ?zlen_zrepeat by lia; [done| |].
    + intros i e Hi. rewrite (He _ _ Hi). split; [done|by left|done].
    + exists (fun _ => O). intros i e Hi Hn. by rewrite (He _ _ Hi) in Hn.
  - unfold used. apply zcount_false. intros o (e & -> & Hi)%list_elem_of_fmap. apply elem_of_zlookup in Hi as [i Hi].
    by rewrite (He _ _ Hi).
  - intros i e Hi. rewrite (He _ _ Hi). by apply free_iff.
Qed.

Definition fresh_ftl (slots : Z) : kv_ftl :=
  KvFtl (kv_init_table slots) slots append_only_ops (zrepeat 16 (Some None) ++ [None]).

Lemma fresh_rel cf slots klen p storage host :
  0 < slots < NO_SLOT -> 0 < klen <= 16 -> 0 <= cf.(cf_storage_size) < 9223372036854775808 -> p.(pl_append).(ap_latest) = 0 ->
  kv_rel cf slots klen (KvDev (fresh_ftl slots) p storage host) (KvState ∅ 0 0).
Proof.
  intros Hs Hk Hsz Hp. destruct (init_table_ok slots Hs) as (Ht & Hu & Hfree).
  assert (ftl_ok (fresh_ftl slots)) as Hf. { split; simpl; [done|]. unfold kv_init_table. by rewrite zlen_zrepeat by lia. }
  split; simpl; [done|done|done|done|done|lia|lia|done| |].
  - exists (fun _ => 0). split; intros *; by rewrite ?lookup_empty.
  - intros k Hkl _. destruct (find_mapping_ok _ k klen Hf (map_key_ok _ _ Hkl Hk)) as (h & l & o & _ & Hc & _ & ->).
    destruct l as [|x l]; [done|]. destruct (chain_occupied _ _ _ _ x Hc ltac:(set_solver)) as (e & E & Ho).
    by apply Hfree in E.
Qed.

(** ** Sessions *)

Record kv_event := KvEvent { ke_cmd : kv_command; ke_host : mem }.

Section session.
Context (cf : nvmev_config) (find_next_zero : (Z -> bool) -> Z -> Z -> Z) (garbage : mem).

Definition kv_exec (ev : kv_event) (s : kv_dev * list kv_outcome) : res (kv_dev * list kv_outcome) :=
  let '(d, outs) := s in
  '(d, r, status) ← kv_perform_nvme_io_cmd cf find_next_zero garbage ev.(ke_cmd) 0 (dev_host ev.(ke_host) d);
  Ok (d, outs ++ [observe ev.(ke_cmd) ev.(ke_host) d.(kd_host) r status]).

Definition kv_session (id size addr : Z) (pl : pools) (storage host : mem) (evs : list kv_event) :
    res (kv_dev * list kv_outcome) :=
  '(_, f, pl) ← kv_init_namespace cf id size addr pl;
  rfold kv_exec evs (KvDev f pl storage host, []).

(** The commands keep to what the specification allows, whatever it forgot. *)
Fixpoint session_allowed (slots klen : Z) (st : kv_state) (evs : list kv_event) : Prop :=
  match evs with
  | [] => True
  | ev :: evs =>
      cmd_ok klen ev.(ke_cmd) /\ exists op, op_of ev.(ke_cmd) ev.(ke_host) = Some op /\
        allowed slots cf.(cf_storage_size) st op /\ buffers_ok ev.(ke_cmd) ev.(ke_host) st /\
        forall out st', kv_spec st op out st' -> session_allowed slots klen st' evs
  end.

Inductive spec_run : kv_state -> list kv_event -> list kv_outcome -> kv_state -> Prop :=
| run_nil st : spec_run st [] [] st
| run_cons st ev evs op out outs st1 st2 : op_of ev.(ke_cmd) ev.(ke_host) = Some op -> kv_spec st op out st1 ->
    spec_run st1 evs outs st2 -> spec_run st (ev :: evs) (out :: outs) st2.

Lemma run_spec slots klen evs st d outs :
  kv_rel cf slots klen d st -> session_allowed slots klen st evs ->
  okp (rfold kv_exec evs (d, outs)) (fun '(d', outs') => exists new st',
    outs' = outs ++ new /\ spec_run st evs new st' /\ kv_rel cf slots klen d' st').
Proof.
  revert st d outs. induction evs as [|ev evs IH]; intros st d outs Hr Hal; simpl.
  - exists [], st. split; [by rewrite app_nil_r|]. split; [constructor|done].
  - destruct Hal as (Hc & op & Hop & Hal & Hb & Hnext). apply okp_bind, okp_bind.
    eapply okp_mono; [apply (kv_step_ok cf find_next_zero slots klen garbage (dev_host (ke_host ev) d) st _ op); [|done..]|].
    { by apply (rel_frame cf slots klen d). }
    intros [[d1 r] status] (st1 & Hsp & Hr1). simpl.
    eapply okp_mono; [apply (IH st1); [done|by eapply Hnext]|]. intros [d2 outs2] (new & st2 & -> & Hrun & Hr2).
    eexists (_ :: new), st2. split; [by rewrite <- app_assoc|]. split; [by eapply run_cons|done].
Qed.

Lemma kv_session_ok klen id size addr pl storage host evs :
  0 < klen <= 16 -> 0 <= cf.(cf_storage_size) < 9223372036854775808 ->
  session_allowed (KV_MAPPING_TABLE_SIZE `div` KV_MAPPING_ENTRY_SIZE) klen (KvState ∅ 0 0) evs ->
  okp (kv_session id size addr pl storage host evs) (fun '(d, outs) =>
    exists st', spec_run (KvState ∅ 0 0) evs outs st' /\ kv_rel cf (KV_MAPPING_TABLE_SIZE `div` KV_MAPPING_ENTRY_SIZE) klen d st').
Proof.
  intros Hk Hsz Hal. unfold kv_session, kv_init_namespace, ALLOCATOR_TYPE, alloc_init. rewrite !bind_Ok.
  assert (0 < KV_MAPPING_TABLE_SIZE `div` KV_MAPPING_ENTRY_SIZE < NO_SLOT) as Hslots by (vm_compute; split; congruence).
  revert Hal Hslots. generalize (KV_MAPPING_TABLE_SIZE `div` KV_MAPPING_ENTRY_SIZE). intros slots Hal Hslots.
  fold (fresh_ftl slots). eapply okp_mono; [apply (run_spec slots klen evs (KvState ∅ 0 0)); [by apply fresh_rel|done]|].
  intros [d outs] (new & st' & -> & Hrun & Hr). by exists st'.
Qed.
End session.

(** ** Iterators *)

(** The keys that the slots [lo .. hi - 1] hold for an iterator. *)
Definition slot_hit (t : list mapping_entry) (h : kv_iter_context) (i : Z) : list (list Z) :=
  match t !! i with
  | Some e => if negb (e.(me_mem_offset) =? NO_OFFSET) && iter_match h e then [take (Z.to_nat ITER_KEY) e.(me_key)] else []
  | None => []
  end.

Definition hits (t : list mapping_entry) (h : kv_iter_context) (lo hi : Z) : list (list Z) := zrange lo hi ≫= slot_hit t h.

(** The buffer of a read: the number of keys, then each with its length. *)
Definition key_record (k : list Z) : list Z := le_encode 4 ITER_KEY ++ k.
Definition report (ks : list (list Z)) : list Z := le_encode 4 (zlen ks) ++ (ks ≫= key_record).

(** The keys that fit the 1024 bytes of a read. *)
Definition ITER_MAX : Z := 51.

Lemma hits_snoc t h lo i : lo <= i -> hits t h lo (i + 1) = hits t h lo i ++ slot_hit t h i.
Proof. intros Hi. unfold hits. rewrite zrange_snoc, bind_app by done. simpl. by rewrite app_nil_r. Qed.

Lemma hits_app t h lo mid hi : lo <= mid <= hi -> hits t h lo hi = hits t h lo mid ++ hits t h mid hi.
Proof. intros Hm. unfold hits. by rewrite (zrange_app lo mid hi), bind_app. Qed.

Lemma slot_hit_len t h i k : table_ok t -> k ∈ slot_hit t h i -> zlen k = ITER_KEY.
Proof.
  intros Ht. unfold slot_hit. destruct (t !! i) as [e|] eqn:E; [|set_solver]. case_match; [|set_solver].
  intros ->%list_elem_of_singleton. pose proof (eo_key _ _ (to_entry _ Ht _ _ E)) as Hk.
  unfold zlen, ITER_KEY, KEY_FIELD in *. rewrite length_take. lia.
Qed.

Lemma zlen_records ks : (forall k, k ∈ ks -> zlen k = ITER_KEY) -> zlen (ks ≫= key_record) = 20 * zlen ks.
Proof.
  intros Hk. rewrite (zlen_bind_const _ _ 20); [lia|]. intros k Hin. unfold key_record.
  by rewrite zlen_app, zlen_le_encode, Hk.
Qed.

Lemma records_snoc ks k : (ks ++ [k]) ≫= key_record = (ks ≫= key_record) ++ le_encode 4 16 ++ k.
Proof. rewrite bind_app. f_equal. apply app_nil_r. Qed.

Section iter.
Context (f : kv_ftl) (Hf : ftl_ok f) (handle : kv_iter_context) (p : Z).
Let t := f.(kv_mapping_table).
Let slots := f.(hash_slots).

Record scanned (s : scan) : Prop := {
  sn_pos : p <= s.(sc_pos) <= slots;
  sn_nr : s.(sc_nr) = zlen (hits t handle p s.(sc_pos));
  sn_offset : s.(sc_offset) = 4 + 20 * s.(sc_nr);
  sn_max : s.(sc_nr) <= ITER_MAX;
  sn_buf : mload s.(sc_buf) 4 (20 * s.(sc_nr)) = (hits t handle p s.(sc_pos) ≫= key_record)
}.

Lemma scan_step_ok s : 0 <= p -> scanned s -> s.(sc_end) = false -> (s.(sc_pos) < slots \/ p = slots) ->
  okp (scan_step f handle s) (fun r =>
    match r with
    | inl s' => scanned s' /\ s'.(sc_end) = false /\ s'.(sc_pos) = s.(sc_pos) + 1 /\ s'.(sc_pos) < slots
    | inr s' => scanned s' /\ s'.(sc_end) = bool_decide (p < slots /\ s'.(sc_pos) = slots) /\
        (s'.(sc_pos) < slots -> s'.(sc_nr) = ITER_MAX)
    end).
Proof using Hf.
  intros Hp0 [[Hp1 Hp2] Hn Ho Hm Hb] He Hpos. unfold scan_step. fold slots. pose proof (zlen_nonneg (hits t handle p (sc_pos s))).
  destruct (slots <=? sc_pos s) eqn:El; [apply Z.leb_le in El|apply Z.leb_gt in El].
  { simpl. split; [by split|]. split; [|lia]. rewrite He. symmetry. apply bool_decide_eq_false_2. lia. }
  pose proof (fo_slots _ Hf) as Hsl. fold t slots in Hsl. destruct (zlookup_lt t (sc_pos s)) as [e E]; [lia|].
  fold t. rewrite (aget_Some _ _ _ E), bind_Ok. set (hit := negb _ && _).
  assert (slot_hit t handle (sc_pos s) = if hit then [take (Z.to_nat ITER_KEY) (me_key e)] else []) as Eh.
  { unfold slot_hit. by rewrite E. }
  pose proof (hits_snoc t handle p (sc_pos s) Hp1) as Hs. rewrite Eh in Hs. unfold ITER_KEY, ITER_BUF, ITER_MAX in *.
  destruct hit; simpl.
  - destruct (1024 <? sc_offset s + 4 + 16) eqn:Ef; [apply Z.ltb_lt in Ef|apply Z.ltb_ge in Ef]; simpl.
    { split; [by split|]. split; [|unfold ITER_MAX; lia]. rewrite He. symmetry. apply bool_decide_eq_false_2. lia. }
    set (s1 := mstore _ _ _). set (k := take _ _) in *.
    assert (zlen k = 16) as Hk by (apply (slot_hit_len t handle (sc_pos s)); [apply Hf|rewrite Eh; set_solver]).
    assert (scanned (Scan (sc_pos s + 1) (sc_offset s + 4 + 16) (sc_nr s + 1) s1 (sc_end s))) as Hsc.
    { split; simpl; [lia|rewrite Hs, zlen_app, <- Hn; done|lia|unfold ITER_MAX; lia|]. rewrite Hs, records_snoc.
      replace (20 * (sc_nr s + 1)) with (20 * sc_nr s + (4 + 16)) by lia.
      rewrite mload_app, (mload_app _ _ 4 16) by lia. f_equal; [|f_equal].
      - unfold s1. rewrite !mload_mstore_out; [done|change (zlen (le_encode 4 16)) with 4; lia|lia].
      - unfold s1. rewrite mload_mstore_out by lia. rewrite Ho. apply (mload_mstore _ _ (le_encode 4 16)).
      - unfold s1. replace (4 + 20 * sc_nr s + 4) with (sc_offset s + 4) by lia. rewrite <- Hk. apply mload_mstore. }
    rewrite Z.eqb_sym. destruct (Z.eqb_spec slots (sc_pos s + 1)) as [Es|Es].
    + destruct Hsc. split; [by split|]. simpl in *. split; [|lia]. symmetry. apply bool_decide_eq_true_2. lia.
    + split; [done|]. simpl. split; [done|]. lia.
  - assert (scanned (Scan (sc_pos s + 1) (sc_offset s) (sc_nr s) (sc_buf s) (sc_end s))) as Hsc.
    { rewrite app_nil_r in Hs. split; simpl; [lia|by rewrite Hs|done|done|by rewrite Hs]. }
    rewrite Z.eqb_sym. destruct (Z.eqb_spec slots (sc_pos s + 1)) as [Es|Es].
    + destruct Hsc. split; [by split|]. simpl in *. split; [|lia]. symmetry. apply bool_decide_eq_true_2. lia.
    + split; [done|]. simpl. split; [done|]. lia.
Qed.

Lemma scan_ok buf : 0 <= p <= slots ->
  okp (rloop (S (length t)) (scan_step f handle) (Scan p 4 0 buf false)) (fun s =>
    scanned s /\ s.(sc_end) = bool_decide (p < slots /\ s.(sc_pos) = slots) /\ (s.(sc_pos) < slots -> s.(sc_nr) = ITER_MAX)).
Proof using Hf.
  intros Hp. apply (rloop_inv _ (fun s => scanned s /\ s.(sc_end) = false /\ (s.(sc_pos) < slots \/ p = slots)) (fun s => slots - s.(sc_pos))).
  - intros s [[? _ _ _ _] _]. lia.
  - intros s (Hs & He & Hpos). eapply okp_mono; [by apply scan_step_ok; [lia|..]|].
    intros [s'|s']; [|done]. intros (H1 & H2 & H3 & H4). split; [|lia]. split; [done|]. split; [done|]. by left.
  - split; [|split; [done|simpl; lia]]. assert (hits t handle p p = []) as E by (unfold hits; by rewrite zrange_nil).
    split; simpl; rewrite ?E; [lia|done|done|done|done].
  - simpl. pose proof (fo_slots _ Hf) as Hs. fold t slots in Hs. unfold zlen in Hs. lia.
Qed.
End iter.

(** A buffer for the replies of an iterator: what is written there is not read
    again as a PRP entry. *)
Definition reply_buffer (cmd : kv_command) : Prop := forall h n, 0 <= n <= ITER_BUF -> buffer_ok cmd h n.

Definition iter_at (f : kv_ftl) (i : Z) (h : kv_iter_context) : Prop := f.(iter_handle) !! i = Some (Some (Some h)).

(** One read: the keys from the position on, as many as fit; the position moves
    past them, and the end is reported with the last of them. *)
Lemma iter_read_ok cmd status d handle p :
  ftl_ok d.(kd_ftl) -> d.(kd_ftl).(hash_slots) < 2147483648 -> reply_buffer cmd ->
  iter_at d.(kd_ftl) (kc_iter_handle cmd) handle -> handle.(ki_current_pos) = p -> 0 <= p <= d.(kd_ftl).(hash_slots) ->
  okp (kv_iter_read cmd status d) (fun '(d', r, status') => exists hi handle',
    let f := d.(kd_ftl) in let ks := hits f.(kv_mapping_table) handle p hi in
    p <= hi <= f.(hash_slots) /\ zlen ks <= ITER_MAX /\ r = zlen (report ks) /\
    host_bytes cmd d.(kd_host) r d'.(kd_host) = report ks /\
    status' = (if bool_decide (p < f.(hash_slots) /\ hi = f.(hash_slots)) then ITER_END else 0) /\
    (hi < f.(hash_slots) -> zlen ks = ITER_MAX) /\
    iter_at d'.(kd_ftl) (kc_iter_handle cmd) handle' /\ handle'.(ki_current_pos) = hi /\
    (handle'.(ki_prefix) = handle.(ki_prefix) /\ handle'.(ki_bitmask) = handle.(ki_bitmask)) /\
    d'.(kd_ftl).(kv_mapping_table) = f.(kv_mapping_table) /\ d'.(kd_ftl).(hash_slots) = f.(hash_slots) /\
    d'.(kd_storage) = d.(kd_storage)).
Proof.
  intros Hf Hsl Hbuf Hit Hpos Hp. unfold kv_iter_read, get_iter. rewrite (aget_Some _ _ _ Hit). simpl.
  rewrite Hpos, s32_small by lia. apply okp_bind. eapply okp_mono; [by apply (scan_ok (kd_ftl d) Hf handle p)|].
  intros s ([S1 S2 S3 S4 S5] & Hend & Hmax). pose proof (zlookup_Some_range _ _ _ Hit) as Hir.
  set (ks := hits (kv_mapping_table (kd_ftl d)) handle p (sc_pos s)) in *.
  assert (forall k, k ∈ ks -> zlen k = ITER_KEY) as Hk.
  { intros k (i & Hi & _)%elem_of_bind_intro. by apply (slot_hit_len _ _ _ _ (fo_table _ Hf) Hi). }
  assert (zlen (report ks) = sc_offset s) as Hrep.
  { unfold report. rewrite zlen_app, zlen_le_encode, zlen_records by done. lia. }
  rewrite aset_Some, bind_Ok by done. set (buf := mstore _ 0 _). set (h' := IterContext _ _ _ _ _ _ _). set (d1 := dev_ftl _ d).
  pose proof (zlen_nonneg ks). unfold ITER_MAX in *. apply okp_bind.
  eapply okp_mono; [apply (kv_deliver_ok cmd _ buf 0 (sc_offset s) d1)|].
  - apply Hbuf. unfold ITER_BUF. lia.
  - lia.
  - intros a o n d' _ _ _. by rewrite Z.add_0_l.
  - intros d' Hret. simpl. exists (sc_pos s), h'. fold ks. destruct (rt_ftl _ _ _ _ _ _ Hret) as (E1 & E2 & E3).
    rewrite E1. split; [done|]. split; [lia|]. split; [done|]. split.
    { pose proof (retrieved_bytes _ _ _ _ _ _ Hret) as Hb. simpl in Hb. rewrite Hb. unfold report. rewrite <- S2.
      rewrite S3, mload_app by lia. apply f_equal2; [apply (mload_mstore _ 0 (le_encode 4 (sc_nr s)))|].
      unfold buf. rewrite mload_mstore_out; [done|]. change (zlen (le_encode 4 (sc_nr s))) with 4. lia. }
    split; [rewrite Hend; done|]. split; [intros Hlt; rewrite <- S2; by apply Hmax|]. split; [by apply zlookup_zinsert_eq|].
    done.
Qed.

(** Reading until the end is reported. *)
Definition iter_round (cmd : kv_command) (s : kv_dev * list (list Z)) :
    res (kv_dev * list (list Z) + kv_dev * list (list Z)) :=
  let '(d, outs) := s in
  '(d', r, status) ← kv_iter_read cmd 0 d;
  let s' := (d', outs ++ [host_bytes cmd d.(kd_host) r d'.(kd_host)]) in
  Ok (if status =? ITER_END then inr s' else inl s').

Lemma hits_handle t h h' lo hi :
  h'.(ki_prefix) = h.(ki_prefix) -> h'.(ki_bitmask) = h.(ki_bitmask) -> hits t h' lo hi = hits t h lo hi.
Proof.
  intros E1 E2. unfold hits. apply list_bind_ext; [|done]. intros i. unfold slot_hit, iter_match. by rewrite E1, E2.
Qed.

Record iterating (d : kv_dev) (cmd : kv_command) (h0 : kv_iter_context) (s : kv_dev * list (list Z)) (q : Z) : Prop := {
  ig_table : s.1.(kd_ftl).(kv_mapping_table) = d.(kd_ftl).(kv_mapping_table);
  ig_slots : s.1.(kd_ftl).(hash_slots) = d.(kd_ftl).(hash_slots);
  ig_at : exists h, iter_at s.1.(kd_ftl) (kc_iter_handle cmd) h /\ h.(ki_current_pos) = q /\
    h.(ki_prefix) = h0.(ki_prefix) /\ h.(ki_bitmask) = h0.(ki_bitmask);
  ig_outs : exists kss, s.2 = report <$> kss /\ mjoin kss = hits d.(kd_ftl).(kv_mapping_table) h0 0 q
}.

Lemma iter_round_ok d cmd h0 s q :
  ftl_ok d.(kd_ftl) -> d.(kd_ftl).(hash_slots) < 2147483648 -> reply_buffer cmd ->
  iterating d cmd h0 s q -> 0 <= q < d.(kd_ftl).(hash_slots) ->
  okp (iter_round cmd s) (fun r =>
    match r with
    | inl s' => exists q', iterating d cmd h0 s' q' /\ q < q' < d.(kd_ftl).(hash_slots)
    | inr s' => iterating d cmd h0 s' d.(kd_ftl).(hash_slots)
    end).
Proof.
  intros Hf Hsl Hbuf [I1 I2 (h & I3 & I4 & I5 & I6) (kss & I7 & I8)] Hq. destruct s as [ds outs]. simpl in *.
  apply okp_bind. assert (ftl_ok (kd_ftl ds)) as Hfs. { destruct Hf. split; rewrite I1, ?I2; done. }
  eapply okp_mono; [apply (iter_read_ok cmd 0 ds h q); [done|lia|done|done|done|lia]|].
  intros [[d' r] status] (hi & h' & H1 & H2 & H3 & H4 & H5 & H6 & H7 & H8 & (H9 & H10) & H11 & H12 & _).
  rewrite I2 in H1, H5, H6, H12. rewrite I1 in H2, H3, H4, H6, H11. set (slots := hash_slots (kd_ftl d)) in *. set (t := kv_mapping_table (kd_ftl d)) in *.
  assert (iterating d cmd h0 (d', outs ++ [host_bytes cmd (kd_host ds) r (kd_host d')]) hi) as Hi.
  { split; simpl; [exact H11|exact H12|exists h'; rewrite H9, H10; done|]. exists (kss ++ [hits t h q hi]).
    rewrite fmap_app, <- I7, H4. split; [done|]. rewrite join_app. simpl. rewrite app_nil_r, I8.
    fold t. rewrite (hits_app t h0 0 q hi) by lia. f_equal. by apply hits_handle. }
  rewrite H5. destruct (decide (hi = slots)) as [->|Hne].
  - rewrite bool_decide_eq_true_2 by lia. done.
  - rewrite bool_decide_eq_false_2 by lia. simpl. exists hi. split; [done|]. split; [|lia].
    destruct (decide (hi = q)) as [->|]; [|lia]. specialize (H6 ltac:(lia)). unfold hits in H6. by rewrite zrange_nil in H6.
Qed.

(** The reads end and return every key that matches, once per slot, in order. *)
Lemma iter_all_ok d cmd h :
  ftl_ok d.(kd_ftl) -> d.(kd_ftl).(hash_slots) < 2147483648 -> reply_buffer cmd ->
  iter_at d.(kd_ftl) (kc_iter_handle cmd) h -> h.(ki_current_pos) = 0 ->
  okp (rloop (S (Z.to_nat d.(kd_ftl).(hash_slots))) (iter_round cmd) (d, [])) (fun '(_, outs) => exists kss,
    outs = report <$> kss /\ mjoin kss = hits d.(kd_ftl).(kv_mapping_table) h 0 d.(kd_ftl).(hash_slots)).
Proof.
  intros Hf Hsl Hbuf Hit Hpos. pose proof (to_slots _ (fo_table _ Hf)) as Hs. rewrite <- (fo_slots _ Hf) in Hs.
  apply (okp_mono _ (fun s => iterating d cmd h s (hash_slots (kd_ftl d)))).
  - set (pos := fun s : kv_dev * list (list Z) => match s.1.(kd_ftl).(iter_handle) !! kc_iter_handle cmd with
      | Some (Some (Some h)) => h.(ki_current_pos) | _ => 0 end).
    assert (forall s q, iterating d cmd h s q -> pos s = q) as Hq.
    { intros s q [_ _ (h' & E & Ep & _) _]. unfold pos. unfold iter_at in E. by rewrite E. }
    apply (rloop_inv _ (fun s => exists q, iterating d cmd h s q /\ 0 <= q < hash_slots (kd_ftl d))
      (fun s => hash_slots (kd_ftl d) - pos s)).
    + intros s (q & Hi & Hr). rewrite (Hq _ _ Hi). lia.
    + intros s (q & Hi & Hr). eapply okp_mono; [by apply (iter_round_ok d cmd h s q)|]. intros [s'|s']; [|done].
      intros (q' & Hi' & Hr'). rewrite (Hq _ _ Hi), (Hq _ _ Hi'). split; [|lia]. exists q'. split; [done|lia].
    + exists 0. split; [|lia]. split; simpl; [done|done|by exists h|]. exists []. split; [done|]. unfold hits. by rewrite zrange_nil.
    + assert (0 <= pos (d, [])); [|lia]. unfold pos. simpl. unfold iter_at in Hit. by rewrite Hit, Hpos.
  - intros [d' outs] [_ _ _ Ho]. exact Ho.
Qed.
