(* ===== verification/Heap.v ===== *)
(** * The memory that the module owns: allocations and a small separation logic

    The other files take what [kmalloc] gives as values.  Here is the other side of
    them: which allocations are live, which structure owns which, and that each is
    released once.  A heap is the multiset of the live allocations, each a number
    with the allocator that it is from; releasing one that is not live, or with the
    function of another allocator, is a fault, and so is touching it.

    [mm] is the monad of the functions that allocate and release.  [triple P m Q] says
    that from a heap that holds [P], whatever else it holds, [m] returns, and the heap
    then holds [Q] of its result and the rest as it was: what is not in [Q] is not
    leaked but released. *)

From stdpp Require Import prelude list gmultiset.
From Stdlib Require Import ZArith Lia.
From S2P Require Import Prelude.

Inductive region := Kmalloc | Vmalloc | Mapped.
#[global] Instance region_eq_dec : EqDecision region.
Proof. solve_decision. Defined.
#[global] Instance region_countable : Countable region.
Proof.
  apply (inj_countable' (fun r => match r with Kmalloc => 0%nat | Vmalloc => 1%nat | Mapped => 2%nat end)
    (fun n => match n with 0%nat => Kmalloc | 1%nat => Vmalloc | _ => Mapped end)). by intros [].
Defined.

Notation own := (gmultiset (Z * region)%type).

Record heap := Heap { hp_next : Z; hp_live : own }.

Definition mm (A : Type) : Type := heap -> res (A * heap).
#[global] Instance mm_ret : MRet mm := fun A x h => Ok (x, h).
#[global] Instance mm_bind : MBind mm := fun A B k m h => '(x, h') ← m h; k x h'.
#[global] Instance mm_fmap : FMap mm := fun A B f m => x ← m; mret (f x).

(** [kmalloc], [kzalloc], [kcalloc] are [alloc Kmalloc], [vmalloc] is [alloc Vmalloc],
    [memremap] is [alloc Mapped]; [release] is [kfree], [vfree], [memunmap]. *)
Definition alloc (r : region) : mm Z := fun h => Ok (h.(hp_next), Heap (h.(hp_next) + 1) ({[+ (h.(hp_next), r) +]} ⊎ h.(hp_live))).
Definition release (r : region) (p : Z) : mm unit := fun h =>
  if decide ((p, r) ∈ h.(hp_live)) then Ok ((), Heap h.(hp_next) (h.(hp_live) ∖ {[+ (p, r) +]})) else Fault UseAfterFree.
Definition touch (r : region) (p : Z) : mm unit := fun h =>
  if decide ((p, r) ∈ h.(hp_live)) then Ok ((), h) else Fault UseAfterFree.

(** [kfree(NULL)] does nothing. *)
Definition release_opt (r : region) (o : option Z) : mm unit :=
  match o with Some p => release r p | None => mret () end.
Definition mm_fault {A} (f : fault) : mm A := fun _ => Fault f.

(** What a structure owns. *)
Class Owns (A : Type) := owns : A -> own.
#[global] Instance owns_none : Owns () := fun _ => ∅.
#[global] Instance owns_list `{Owns A} : Owns (list A) := fun l => ⋃+ (owns <$> l).
#[global] Instance owns_option `{Owns A} : Owns (option A) := fun o => match o with Some x => owns x | None => ∅ end.
#[global] Instance owns_pair `{Owns A, Owns B} : Owns (A * B) := fun '(x, y) => owns x ⊎ owns y.

(** A pointer of one of the allocators. *)
Record ptr (r : region) := Ptr { at_ : Z }.
Arguments Ptr {_} _.
Arguments at_ {_} _.
#[global] Instance owns_ptr r : Owns (ptr r) := fun p => {[+ (p.(at_), r) +]}.

Definition new (r : region) : mm (ptr r) := p ← alloc r; mret (Ptr p).
Definition free {r} (p : ptr r) : mm unit := release r p.(at_).
Definition free_opt {r} (o : option (ptr r)) : mm unit := match o with Some p => free p | None => mret () end.
Definition use {r} (p : ptr r) : mm unit := touch r p.(at_).
Definition use_opt {r} (o : option (ptr r)) : mm unit := match o with Some p => use p | None => mm_fault NullDeref end.

(** ** Triples *)

Definition triple {A : Type} (P : own) (m : mm A) (Q : A -> own) : Prop :=
  forall h F, h.(hp_live) = P ⊎ F -> okp (m h) (fun '(x, h') => h'.(hp_live) = Q x ⊎ F).

Section rules.
Context {A B : Type}.
Implicit Types (P R : own) (m : mm A).

Lemma triple_done P (x : A) (Q : A -> own) : P = Q x -> triple P (mret x) Q.
Proof. intros -> h F Hh. exact Hh. Qed.

Lemma triple_bind P m (k : A -> mm B) Q Q' :
  triple P m Q -> (forall x, triple (Q x) (k x) Q') -> triple P (x ← m; k x) Q'.
Proof.
  intros Hm Hk h F Hh. unfold mbind, mm_bind. okstep. eapply okp_mono; [by apply Hm|]. intros [x h'] Hx. by apply Hk.
Qed.

Lemma triple_frame P m Q R : triple P m Q -> triple (P ⊎ R) m (fun x => Q x ⊎ R).
Proof.
  intros Hm h F Hh. eapply okp_mono; [apply (Hm h (R ⊎ F)); by rewrite Hh, (assoc_L (⊎))|]. intros [x h'] ->. by rewrite (assoc_L (⊎)).
Qed.

Lemma triple_eq P P' m Q Q' : triple P m Q -> P' = P -> (forall x, Q x = Q' x) -> triple P' m Q'.
Proof. intros Hm -> HQ h F Hh. eapply okp_mono; [by apply Hm|]. intros [x h'] Hx. by rewrite <- HQ. Qed.

(** One step in a frame: what it needs is found in what there is. *)
Lemma triple_step P P' m Q R (k : A -> mm B) Q' :
  triple P' m Q -> P = P' ⊎ R -> (forall x, triple (Q x ⊎ R) (k x) Q') -> triple P (x ← m; k x) Q'.
Proof. intros Hm -> Hk. eapply triple_bind; [by apply triple_frame|done]. Qed.
End rules.

(** What holds of the result whenever there is one. *)
Definition always {A : Type} (m : mm A) (phi : A -> Prop) : Prop := forall h x h', m h = Ok (x, h') -> phi x.

Lemma mm_bind_inv {A B : Type} (m : mm A) (k : A -> mm B) h y h' :
  (x ← m; k x) h = Ok (y, h') -> exists x h1, m h = Ok (x, h1) /\ k x h1 = Ok (y, h').
Proof. unfold mbind at 1, mm_bind. destruct (m h) as [[x h1]|f]; [|done]. intros E. by exists x, h1. Qed.

Lemma always_bind {A B : Type} (m : mm A) (k : A -> mm B) phi : (forall x, always (k x) phi) -> always (x ← m; k x) phi.
Proof. intros Hk h y h' (x & h1 & _ & E)%mm_bind_inv. by eapply Hk. Qed.

Lemma always_bind_with {A B : Type} (m : mm A) (k : A -> mm B) psi phi :
  always m psi -> (forall x, psi x -> always (k x) phi) -> always (x ← m; k x) phi.
Proof. intros Hm Hk h y h' (x & h1 & E1 & E)%mm_bind_inv. eapply Hk; [by eapply Hm|done]. Qed.

Lemma always_ret {A : Type} (x : A) (phi : A -> Prop) : phi x -> always (mret x) phi.
Proof. by intros Hx h y h' [= <- <-]. Qed.

Lemma triple_with {A B : Type} P (m : mm A) (k : A -> mm B) phi Q Q' :
  triple P m Q -> always m phi -> (forall x, phi x -> triple (Q x) (k x) Q') -> triple P (x ← m; k x) Q'.
Proof.
  intros Hm Ha Hk h F Hh. unfold mbind, mm_bind. okstep. destruct (okp_inv _ _ (Hm h F Hh)) as ([x h1] & E & Hx).
  rewrite E. simpl. apply Hk; [by eapply Ha|done].
Qed.

Lemma alloc_live r : triple ∅ (alloc r) (fun p => {[+ (p, r) +]}).
Proof. intros h F Hh. simpl. rewrite Hh. multiset_solver. Qed.

Lemma release_ok r p : triple {[+ (p, r) +]} (release r p) (fun _ => ∅).
Proof.
  intros h F Hh. unfold release. rewrite decide_True by (rewrite Hh; multiset_solver). simpl. rewrite Hh. multiset_solver.
Qed.

Lemma touch_ok r p : triple {[+ (p, r) +]} (touch r p) (fun _ => {[+ (p, r) +]}).
Proof. intros h F Hh. unfold touch. destruct (decide _) as [_|[]]; [done|rewrite Hh; multiset_solver]. Qed.

Lemma new_ok r : triple ∅ (new r) owns.
Proof. eapply triple_bind; [apply alloc_live|]. intros p. by apply triple_done. Qed.

Lemma free_ok {r} (p : ptr r) : triple (owns p) (free p) (fun _ => ∅).
Proof. apply release_ok. Qed.

Lemma free_opt_ok {r} (o : option (ptr r)) : triple (owns o) (free_opt o) (fun _ => ∅).
Proof. destruct o; [apply free_ok|by apply triple_done]. Qed.

Lemma use_ok {r} (p : ptr r) : triple (owns p) (use p) (fun _ => owns p).
Proof. apply touch_ok. Qed.

(** An allocation is none that was live before. *)
Lemma alloc_fresh r h p h' : (forall q r', (q, r') ∈ h.(hp_live) -> q < h.(hp_next)) -> alloc r h = Ok (p, h') ->
  (forall r', (p, r') ∉ h.(hp_live)) /\ (forall q r', (q, r') ∈ h'.(hp_live) -> q < h'.(hp_next)).
Proof.
  intros Hf [= <- <-]. split; [intros r' Hp; specialize (Hf _ _ Hp); lia|]. simpl. intros q r' [[= -> ->]%gmultiset_elem_of_singleton|Hq]%gmultiset_elem_of_disj_union; [lia|].
  specialize (Hf _ _ Hq). lia.
Qed.

(** ** Loops *)

Definition each {A B : Type} (f : A -> mm B) (l : list A) : mm (list B) := mapM f l.
Definition repeatm {A : Type} (n : Z) (m : mm A) : mm (list A) := each (fun _ => m) (zrange 0 n).
Definition each_ {A : Type} (f : A -> mm unit) (l : list A) : mm unit := _ ← each f l; mret ().

Lemma owns_cons `{Owns A} x (l : list A) : owns (x :: l) = owns x ⊎ owns l.
Proof. done. Qed.

Lemma owns_nil `{Owns A} : owns (@nil A) = ∅.
Proof. done. Qed.

Lemma owns_app `{Owns A} (l l' : list A) : owns (l ++ l') = owns l ⊎ owns l'.
Proof. induction l as [|x l IH]; [cbn [app]; rewrite owns_nil; multiset_solver|]. cbn [app]. rewrite !owns_cons, IH. multiset_solver. Qed.

(** A loop over elements of which each step turns what the element has into what
    the result has, and shares [R] with the others. *)
Lemma each_ok {A B : Type} (f : A -> mm B) (P : A -> own) (Q : B -> own) R l :
  (forall x, x ∈ l -> triple (P x ⊎ R) (f x) (fun y => Q y ⊎ R)) ->
  triple (⋃+ (P <$> l) ⊎ R) (each f l) (fun l' => ⋃+ (Q <$> l') ⊎ R).
Proof.
  unfold each. induction l as [|x l IH]; intros Hf.
  - by apply triple_done.
  - eapply (triple_step _ (P x ⊎ R) _ (fun y => Q y ⊎ R) (⋃+ (P <$> l))); [apply Hf; by left|cbn; multiset_solver|].
    intros y. eapply (triple_step _ (⋃+ (P <$> l) ⊎ R) _ (fun l' => ⋃+ (Q <$> l') ⊎ R) (Q y)); [apply IH; intros z Hz; apply Hf; by right|multiset_solver|].
    intros l'. apply triple_done. cbn. multiset_solver.
Qed.

(** A loop of which each step leaves what the element says. *)
Lemma each_leaves_with {A B : Type} (f : A -> mm B) (P Q : A -> own) R l :
  (forall x, x ∈ l -> triple (P x ⊎ R) (f x) (fun _ => Q x ⊎ R)) -> triple (⋃+ (P <$> l) ⊎ R) (each f l) (fun _ => ⋃+ (Q <$> l) ⊎ R).
Proof.
  unfold each. induction l as [|x l IH]; intros Hf; [by apply triple_done|].
  eapply (triple_step _ (P x ⊎ R) _ (fun _ => Q x ⊎ R) (⋃+ (P <$> l))); [apply Hf; by left|cbn; multiset_solver|].
  intros y. eapply (triple_step _ (⋃+ (P <$> l) ⊎ R) _ (fun _ => ⋃+ (Q <$> l) ⊎ R) (Q x)); [apply IH; intros z Hz; apply Hf; by right|multiset_solver|].
  intros l'. apply triple_done. cbn. multiset_solver.
Qed.

Lemma each_leaves `{Owns A} (f : A -> mm unit) (Q : A -> own) l :
  (forall x, x ∈ l -> triple (owns x) (f x) (fun _ => Q x)) -> triple (owns l) (each_ f l) (fun _ => ⋃+ (Q <$> l)).
Proof.
  intros Hf. unfold each_. eapply (triple_step _ _ _ (fun _ => ⋃+ (Q <$> l) ⊎ ∅) ∅ _ _ (each_leaves_with f owns Q ∅ l _)).
  - change (owns l) with (⋃+ (owns <$> l)). multiset_solver.
  - intros _. apply triple_done. multiset_solver.
  Unshelve. intros x Hx. eapply triple_eq; [by apply Hf|multiset_solver|intros; multiset_solver].
Qed.

Lemma each_always {A B : Type} (f : A -> mm B) phi l : (forall x, always (f x) phi) -> always (each f l) (Forall phi).
Proof.
  intros Hf. unfold each. induction l as [|x l IH]; [by apply always_ret|]. simpl. apply (always_bind_with _ _ phi); [apply Hf|].
  intros y Hy. apply (always_bind_with _ _ (Forall phi)); [done|]. intros l' Hl. apply always_ret. by constructor.
Qed.

(** ** Arrays of structures *)

Record arr (A : Type) := Arr { ar_ptr : ptr Kmalloc; ar_elems : list A }.
Arguments Arr {_} _ _.
Arguments ar_ptr {_} _.
Arguments ar_elems {_} _.
#[global] Instance owns_arr `{Owns A} : Owns (arr A) := fun a => owns a.(ar_ptr) ⊎ owns a.(ar_elems).

Definition new_arr {A : Type} (n : Z) (init : mm A) : mm (arr A) :=
  p ← new Kmalloc; l ← repeatm n (_ ← use p; init); mret (Arr p l).
Definition each_elem {A B : Type} (f : A -> mm B) (a : arr A) : mm (list B) := each (fun x => _ ← use a.(ar_ptr); f x) a.(ar_elems).
Definition free_arr {A : Type} (remove : A -> mm unit) (a : arr A) : mm unit := _ ← each_elem remove a; free a.(ar_ptr).

(** The next step of a function: what it takes is looked for in what there is. *)
Ltac without P X :=
  lazymatch X with
  | ∅ => P
  | _ =>
      match P with
      | X => constr:(∅ : own)
      | ?L ⊎ ?R => let L' := without L X in constr:(L' ⊎ R)
      | ?L ⊎ ?R => let R' := without R X in constr:(L ⊎ R')
      | _ => lazymatch X with ?X1 ⊎ ?X2 => let P' := without P X1 in without P' X2 end
      end
  end.
(** Equations of disjoint unions, also with equations in the context. *)
Ltac own_eq_fast :=
  cbn beta in *; apply gmultiset_eq; let x := fresh "x" in intros x;
  repeat match goal with E : @eq own ?A ?B |- _ => apply (f_equal (multiplicity x)) in E end;
  rewrite ?multiplicity_disj_union, ?multiplicity_empty in *; lia.
Ltac own_eq := first [own_eq_fast | multiset_solver].
Ltac mstep lem :=
  let H := fresh "H" in
  pose proof lem as H; cbn beta;
  lazymatch goal with
  | |- triple ?P (_ ≫= _) _ =>
      lazymatch type of H with
      | triple ?X _ _ => let R := without P X in apply (triple_step _ _ _ _ R _ _ H); [clear H; own_eq|clear H]
      end
  end.
Ltac mlast lem :=
  let H := fresh "H" in
  pose proof lem as H; cbn beta;
  lazymatch goal with
  | |- triple ?P _ _ =>
      lazymatch type of H with
      | triple ?X _ _ => let R := without P X in
          refine (triple_eq _ _ _ _ _ (triple_frame _ _ _ R H) _ _); clear H; [own_eq|intros; cbn beta; own_eq]
      end
  end.

Lemma nothing_owned {A} (l : list A) : ⋃+ ((fun _ => ∅) <$> l) = (∅ : own).
Proof. induction l as [|x l IH]; [done|]. cbn in *. rewrite IH. multiset_solver. Qed.

Lemma new_arr_ok `{Owns A} n (init : mm A) : triple ∅ init owns -> triple ∅ (new_arr n init) owns.
Proof.
  intros Hi. unfold new_arr. mstep (new_ok Kmalloc). intros p.
  eapply (triple_step _ (⋃+ ((fun _ : Z => ∅) <$> zrange 0 n) ⊎ owns p) _ (fun l => ⋃+ (owns <$> l) ⊎ owns p) ∅).
  - apply each_ok. intros i _. mstep (use_ok p). intros _. mlast Hi.
  - rewrite nothing_owned. own_eq.
  - intros l. apply triple_done. change (owns (Arr p l)) with (owns p ⊎ ⋃+ (owns <$> l)). own_eq.
Qed.

Lemma each_elem_ok {A B : Type} (P : A -> own) (Q : B -> own) (f : A -> mm B) a :
  (forall x, x ∈ a.(ar_elems) -> triple (P x) (f x) Q) ->
  triple (owns a.(ar_ptr) ⊎ ⋃+ (P <$> a.(ar_elems))) (each_elem f a) (fun l => owns a.(ar_ptr) ⊎ ⋃+ (Q <$> l)).
Proof.
  intros Hf. unfold each_elem. eapply triple_eq; [apply (each_ok _ P Q (owns a.(ar_ptr)))|own_eq|intros; cbn beta; own_eq].
  intros x Hx. mstep (use_ok a.(ar_ptr)). intros _. mlast (Hf x Hx).
Qed.

(** Removing the elements of an array leaves what each removal leaves. *)
Lemma free_arr_leaves `{Owns A} (Q : A -> own) (remove : A -> mm unit) a :
  (forall x, x ∈ a.(ar_elems) -> triple (owns x) (remove x) (fun _ => Q x)) ->
  triple (owns a.(ar_ptr) ⊎ ⋃+ (owns <$> a.(ar_elems))) (free_arr remove a) (fun _ => ⋃+ (Q <$> a.(ar_elems))).
Proof.
  intros Hr. unfold free_arr, each_elem. eapply (triple_step _ _ _ (fun _ => ⋃+ (Q <$> a.(ar_elems)) ⊎ owns a.(ar_ptr)) ∅ _ _ (each_leaves_with _ owns Q (owns a.(ar_ptr)) _ _)); [own_eq|].
  intros _. mlast (free_ok a.(ar_ptr)).
  Unshelve. intros x Hx. mstep (use_ok a.(ar_ptr)). intros _. mlast (Hr x Hx).
Qed.

Lemma free_arr_ok `{Owns A} (remove : A -> mm unit) a :
  (forall x, triple (owns x) (remove x) (fun _ => ∅)) -> triple (owns a) (free_arr remove a) (fun _ => ∅).
Proof.
  intros Hr. eapply triple_eq; [apply (free_arr_leaves (fun _ => ∅)); intros x _; apply Hr|done|]. intros []. apply nothing_owned.
Qed.

Lemma new_arr_always {A : Type} n (init : mm A) phi : always init phi -> always (new_arr n init) (fun a => Forall phi a.(ar_elems)).
Proof.
  intros Hi. apply always_bind. intros p. apply (always_bind_with _ _ (Forall phi)); [|intros l Hl; by apply always_ret].
  apply each_always. intros i. by apply always_bind.
Qed.

Lemma owns_insert `{Owns A} (l : list A) (i : Z) x y : l !! i = Some x -> owns (<[i := y]> l) ⊎ owns x = owns l ⊎ owns y.
Proof.
  intros Hi. pose proof (zlookup_Some_range _ _ _ Hi) as Hr. rewrite zlookup_to_nat in Hi by lia. rewrite zinsert_to_nat by lia.
  revert Hi. generalize (Z.to_nat i). clear Hr. intros k. revert k. induction l as [|z l IH]; intros [|k] Hk; [done..| |]; simpl in Hk |- *.
  - injection Hk as ->. rewrite !owns_cons. own_eq.
  - specialize (IH k Hk). rewrite !owns_cons. rewrite <- (assoc_L (⊎)), IH. own_eq.
Qed.

Lemma owns_nulls `{Owns A} n : owns (zrepeat n (@None A)) = ∅.
Proof. unfold zrepeat. induction (Z.to_nat n) as [|k IH]; [done|]. cbn [replicate]. rewrite owns_cons, IH. change (owns (@None A)) with (∅ : own). own_eq. Qed.

(** What is left beside an element of a list. *)
Lemma owns_remove `{Owns A} (l : list A) (i : Z) x : l !! i = Some x ->
  exists F, owns l = owns x ⊎ F /\ forall y, owns (<[i := y]> l) = owns y ⊎ F.
Proof.
  intros Hi. exists (owns l ∖ owns x). assert (owns x ⊆ owns l) as Hs.
  { clear -Hi. rewrite zlookup_to_nat in Hi by (apply zlookup_Some_range in Hi; lia). revert Hi. generalize (Z.to_nat i). induction l as [|z l IH]; intros [|k] Hk; [done..| |]; simpl in Hk.
    - injection Hk as ->. rewrite owns_cons. multiset_solver.
    - specialize (IH k Hk). rewrite owns_cons. multiset_solver. }
  split; [multiset_solver|]. intros y. pose proof (owns_insert l i x y Hi) as E. multiset_solver.
Qed.
