(* ===== verification/NsMem.v ===== *)
(** * What the namespaces own (ssd.c, conv_ftl.c, zns_ftl.c, kv_ftl.c, pqueue.c)

    The functions that initialise and remove a device and a namespace, as they
    allocate and release: each has the name of its function and "_mem".  What the
    structures hold besides pointers is in Ssd.v, ConvFtl.v, ZnsFtl.v and KvFtl.v. *)

From stdpp Require Import prelude list gmultiset.
From Stdlib Require Import ZArith Lia.
From S2P Require Import Prelude SsdConfig Heap.

(** ** The device (ssd.c) *)

Section ssd.
Context (spp : ssdparams).

Definition nand_page_mem := ptr Kmalloc.
Definition nand_blk_mem := arr nand_page_mem.
Definition nand_plane_mem := arr nand_blk_mem.
Definition nand_lun_mem := arr nand_plane_mem.

Definition ssd_init_nand_page_mem : mm nand_page_mem := new Kmalloc.
Definition ssd_remove_nand_page_mem (pg : nand_page_mem) : mm unit := free pg.
Definition ssd_init_nand_blk_mem : mm nand_blk_mem := new_arr spp.(pgs_per_blk) ssd_init_nand_page_mem.
Definition ssd_remove_nand_blk_mem : nand_blk_mem -> mm unit := free_arr ssd_remove_nand_page_mem.
Definition ssd_init_nand_plane_mem : mm nand_plane_mem := new_arr spp.(blks_per_pl) ssd_init_nand_blk_mem.
Definition ssd_remove_nand_plane_mem : nand_plane_mem -> mm unit := free_arr ssd_remove_nand_blk_mem.
Definition ssd_init_nand_lun_mem : mm nand_lun_mem := new_arr spp.(pls_per_lun) ssd_init_nand_plane_mem.
Definition ssd_remove_nand_lun_mem : nand_lun_mem -> mm unit := free_arr ssd_remove_nand_plane_mem.

(** A channel with its luns and its model. *)
Record ssd_channel_mem := ChannelMem { chm_lun : arr nand_lun_mem; chm_perf_model : ptr Kmalloc }.

Definition ssd_init_ch_mem : mm ssd_channel_mem :=
  lun ← new_arr spp.(luns_per_ch) ssd_init_nand_lun_mem;
  perf_model ← new Kmalloc;
  mret (ChannelMem lun perf_model).
Definition ssd_remove_ch_mem (ch : ssd_channel_mem) : mm unit :=
  _ ← free ch.(chm_perf_model);
  free_arr ssd_remove_nand_lun_mem ch.(chm_lun).

(** The PCIe link and its model; the link and the write buffer are pointers that a
    partition may not have. *)
Record ssd_pcie_mem := PcieMem { pm_self : ptr Kmalloc; pm_perf_model : ptr Kmalloc }.
Record ssd_mem := SsdMem { sm_ch : arr ssd_channel_mem; sm_pcie : option ssd_pcie_mem; sm_write_buffer : option (ptr Kmalloc) }.

Definition ssd_init_pcie_mem (pcie : ptr Kmalloc) : mm ssd_pcie_mem := perf_model ← new Kmalloc; mret (PcieMem pcie perf_model).
Definition ssd_remove_pcie_mem (pcie : ssd_pcie_mem) : mm unit := _ ← use pcie.(pm_self); free pcie.(pm_perf_model).

Definition ssd_init_mem : mm ssd_mem :=
  ch ← new_arr spp.(nchs) ssd_init_ch_mem;
  p ← new Kmalloc;
  pcie ← ssd_init_pcie_mem p;
  write_buffer ← new Kmalloc;
  mret (SsdMem ch (Some pcie) (Some write_buffer)).

Definition ssd_remove_mem (ssd : ssd_mem) : mm unit :=
  _ ← free_opt ssd.(sm_write_buffer);
  _ ← match ssd.(sm_pcie) with
      | Some pcie => _ ← ssd_remove_pcie_mem pcie; free pcie.(pm_self)
      | None => mret ()
      end;
  free_arr ssd_remove_ch_mem ssd.(sm_ch).
End ssd.

(** ** The conventional namespace (conv_ftl.c, pqueue.c) *)

Record pqueue_mem := PqueueMem { pqm_self : ptr Kmalloc; pqm_d : ptr Kmalloc }.
Definition pqueue_init_mem : mm pqueue_mem := q ← new Kmalloc; d ← new Kmalloc; mret (PqueueMem q d).
Definition pqueue_free_mem (q : pqueue_mem) : mm unit := _ ← use q.(pqm_self); _ ← free q.(pqm_d); free q.(pqm_self).

Record conv_ftl_mem := ConvFtlMem {
  cfm_ssd : ptr Kmalloc; cfm_sm : ssd_mem;
  cfm_maptbl : ptr Vmalloc; cfm_rmap : ptr Vmalloc; cfm_lines : ptr Vmalloc; cfm_victim_line_pq : pqueue_mem
}.

Definition init_lines_mem : mm (ptr Vmalloc * pqueue_mem) := lines ← new Vmalloc; pq ← pqueue_init_mem; mret (lines, pq).
Definition remove_lines_mem (f : conv_ftl_mem) : mm unit := _ ← pqueue_free_mem f.(cfm_victim_line_pq); free f.(cfm_lines).
Definition conv_init_ftl_mem (ssd : ptr Kmalloc) (sm : ssd_mem) : mm conv_ftl_mem :=
  maptbl ← new Vmalloc; rmap ← new Vmalloc; '(lines, pq) ← init_lines_mem;
  mret (ConvFtlMem ssd sm maptbl rmap lines pq).
Definition conv_remove_ftl_mem (f : conv_ftl_mem) : mm unit :=
  _ ← remove_lines_mem f; _ ← free f.(cfm_rmap); free f.(cfm_maptbl).

(** The link and the write buffer of a partition. *)
Definition with_link (pcie : option ssd_pcie_mem) (write_buffer : option (ptr Kmalloc)) (f : conv_ftl_mem) : conv_ftl_mem :=
  ConvFtlMem f.(cfm_ssd) (SsdMem f.(cfm_sm).(sm_ch) pcie write_buffer) f.(cfm_maptbl) f.(cfm_rmap) f.(cfm_lines) f.(cfm_victim_line_pq).

(** A partition gives up its own link and write buffer for those of the first. *)
Definition share_link (f0 f : conv_ftl_mem) : mm conv_ftl_mem :=
  _ ← match f.(cfm_sm).(sm_pcie) with
      | Some pcie => _ ← ssd_remove_pcie_mem pcie; free pcie.(pm_self)
      | None => mm_fault NullDeref
      end;
  _ ← free_opt f.(cfm_sm).(sm_write_buffer);
  mret (with_link f0.(cfm_sm).(sm_pcie) f0.(cfm_sm).(sm_write_buffer) f).

Definition conv_init_namespace_mem (spp : ssdparams) (nr_parts : Z) : mm (arr conv_ftl_mem) :=
  ftls ← new_arr nr_parts (ssd ← new Kmalloc; sm ← ssd_init_mem spp; conv_init_ftl_mem ssd sm);
  match ftls.(ar_elems) with
  | [] => mret ftls
  | f0 :: fs => fs ← each_elem (share_link f0) (Arr ftls.(ar_ptr) fs); mret (Arr ftls.(ar_ptr) (f0 :: fs))
  end.

Definition conv_remove_namespace_mem (ftls : arr conv_ftl_mem) : mm unit :=
  let unlinked := match ftls.(ar_elems) with [] => [] | f0 :: fs => f0 :: (with_link None None <$> fs) end in
  free_arr (fun f => _ ← conv_remove_ftl_mem f; _ ← ssd_remove_mem f.(cfm_sm); free f.(cfm_ssd)) (Arr ftls.(ar_ptr) unlinked).

(** ** The zoned namespace (zns_ftl.c) *)

(** The buffers are there when the parameters give them a size. *)
Record zns_ftl_mem := ZnsFtlMem {
  zfm_self : ptr Kmalloc; zfm_ssd : ptr Kmalloc; zfm_sm : ssd_mem;
  zfm_zone_descs : ptr Kmalloc; zfm_report_buffer : ptr Kmalloc;
  zfm_zrwa_buffer : option (ptr Kmalloc); zfm_zone_write_buffer : option (ptr Kmalloc)
}.

Definition new_if (b : bool) : mm (option (ptr Kmalloc)) := if b then Some <$> new Kmalloc else mret None.
Definition free_if (b : bool) (o : option (ptr Kmalloc)) : mm unit := if b then free_opt o else mret ().

Section zns.
Context (spp : ssdparams) (zrwa_buffer_size zone_wb_size : Z).

Definition __init_descriptor_mem (self ssd : ptr Kmalloc) (sm : ssd_mem) : mm zns_ftl_mem :=
  zone_descs ← new Kmalloc; report_buffer ← new Kmalloc;
  zrwa_buffer ← new_if (negb (zrwa_buffer_size =? 0));
  zone_write_buffer ← new_if (negb (zone_wb_size =? 0));
  mret (ZnsFtlMem self ssd sm zone_descs report_buffer zrwa_buffer zone_write_buffer).

Definition __remove_descriptor_mem (f : zns_ftl_mem) : mm unit :=
  _ ← free_if (negb (zrwa_buffer_size =? 0)) f.(zfm_zrwa_buffer);
  _ ← free_if (negb (zone_wb_size =? 0)) f.(zfm_zone_write_buffer);
  _ ← free f.(zfm_report_buffer);
  free f.(zfm_zone_descs).

Definition zns_init_namespace_mem : mm zns_ftl_mem :=
  ssd ← new Kmalloc; sm ← ssd_init_mem spp;
  self ← new Kmalloc;
  __init_descriptor_mem self ssd sm.

Definition zns_remove_namespace_mem (f : zns_ftl_mem) : mm unit :=
  _ ← use f.(zfm_self);
  _ ← ssd_remove_mem f.(zfm_sm);
  _ ← __remove_descriptor_mem f;
  _ ← free f.(zfm_ssd);
  free f.(zfm_self).
End zns.

(** ** The key-value namespace (kv_ftl.c) *)

Record kv_iter_mem := KvIterMem { kim_self : ptr Kmalloc; kim_buf : ptr Kmalloc }.
Record kv_ftl_mem := KvFtlMem { kfm_self : ptr Kmalloc; kfm_table : ptr Mapped; kfm_iter_handle : list (option kv_iter_mem) }.

(** [last] is the handle that is not initialised. *)
Definition kv_init_namespace_mem (last : option kv_iter_mem) : mm kv_ftl_mem :=
  self ← new Kmalloc; table ← new Mapped;
  mret (KvFtlMem self table (zrepeat 16 None ++ [last])).

Definition with_handle (i : Z) (h : option kv_iter_mem) (f : kv_ftl_mem) : kv_ftl_mem :=
  KvFtlMem f.(kfm_self) f.(kfm_table) (<[i := h]> f.(kfm_iter_handle)).

Definition iter_is_free (f : kv_ftl_mem) (i : Z) : bool := match f.(kfm_iter_handle) !! i with Some None => true | _ => false end.

Definition kv_iter_open_mem (f : kv_ftl_mem) : mm kv_ftl_mem :=
  match head (filter (fun i => iter_is_free f i = true) (zrange 1 17)) with
  | None => mret f
  | Some i => self ← new Kmalloc; buf ← new Kmalloc; mret (with_handle i (Some (KvIterMem self buf)) f)
  end.

Definition kv_iter_close_mem (i : Z) (f : kv_ftl_mem) : mm kv_ftl_mem :=
  match f.(kfm_iter_handle) !! i with
  | None => mm_fault OutOfBounds
  | Some None => mret f
  | Some (Some h) => _ ← use h.(kim_self); _ ← free h.(kim_buf); _ ← free h.(kim_self); mret (with_handle i None f)
  end.

(** A batch has a buffer for a value and one for its payload. *)
Definition __do_perform_kv_batch_mem : mm unit := value ← new Kmalloc; buffer ← new Kmalloc; _ ← free value; free buffer.

Definition kv_remove_namespace_mem (f : kv_ftl_mem) : mm unit := free f.(kfm_self).

(** ** Who owns what *)

#[global] Instance owns_channel : Owns ssd_channel_mem := fun ch => owns ch.(chm_lun) ⊎ owns ch.(chm_perf_model).
#[global] Instance owns_pcie : Owns ssd_pcie_mem := fun p => owns p.(pm_self) ⊎ owns p.(pm_perf_model).
#[global] Instance owns_ssd : Owns ssd_mem := fun s => owns s.(sm_ch) ⊎ owns s.(sm_pcie) ⊎ owns s.(sm_write_buffer).
#[global] Instance owns_pqueue : Owns pqueue_mem := fun q => owns q.(pqm_self) ⊎ owns q.(pqm_d).
#[global] Instance owns_conv_ftl : Owns conv_ftl_mem := fun f =>
  owns f.(cfm_ssd) ⊎ owns f.(cfm_sm) ⊎ owns f.(cfm_maptbl) ⊎ owns f.(cfm_rmap) ⊎ owns f.(cfm_lines) ⊎ owns f.(cfm_victim_line_pq).
#[global] Instance owns_zns_ftl : Owns zns_ftl_mem := fun f =>
  owns f.(zfm_self) ⊎ owns f.(zfm_ssd) ⊎ owns f.(zfm_sm) ⊎ owns f.(zfm_zone_descs) ⊎ owns f.(zfm_report_buffer) ⊎
  owns f.(zfm_zrwa_buffer) ⊎ owns f.(zfm_zone_write_buffer).
#[global] Instance owns_kv_iter : Owns kv_iter_mem := fun h => owns h.(kim_self) ⊎ owns h.(kim_buf).
#[global] Instance owns_kv_ftl : Owns kv_ftl_mem := fun f => owns f.(kfm_self) ⊎ owns f.(kfm_table) ⊎ owns f.(kfm_iter_handle).

(** The partitions of a namespace: those after the first own neither link nor write
    buffer, whatever they point to. *)
Definition unlinked (l : list conv_ftl_mem) : list conv_ftl_mem :=
  match l with [] => [] | f0 :: fs => f0 :: (with_link None None <$> fs) end.
Definition owns_conv (ftls : arr conv_ftl_mem) : own := owns ftls.(ar_ptr) ⊎ owns (unlinked ftls.(ar_elems)).

(** What the parts of a structure own together. *)
Lemma owns_channel_eq ch : owns ch = owns ch.(chm_lun) ⊎ owns ch.(chm_perf_model).
Proof. done. Qed.
Lemma owns_pcie_eq p : owns p = owns p.(pm_self) ⊎ owns p.(pm_perf_model).
Proof. done. Qed.
Lemma owns_ssd_eq s : owns s = owns s.(sm_ch) ⊎ owns s.(sm_pcie) ⊎ owns s.(sm_write_buffer).
Proof. done. Qed.
Lemma owns_pqueue_eq q : owns q = owns q.(pqm_self) ⊎ owns q.(pqm_d).
Proof. done. Qed.
Lemma owns_conv_ftl_eq f :
  owns f = owns f.(cfm_ssd) ⊎ owns f.(cfm_sm) ⊎ owns f.(cfm_maptbl) ⊎ owns f.(cfm_rmap) ⊎ owns f.(cfm_lines) ⊎ owns f.(cfm_victim_line_pq).
Proof. done. Qed.
Lemma owns_zns_ftl_eq f :
  owns f = owns f.(zfm_self) ⊎ owns f.(zfm_ssd) ⊎ owns f.(zfm_sm) ⊎ owns f.(zfm_zone_descs) ⊎ owns f.(zfm_report_buffer) ⊎
    owns f.(zfm_zrwa_buffer) ⊎ owns f.(zfm_zone_write_buffer).
Proof. done. Qed.
Lemma owns_kv_iter_eq h : owns h = owns h.(kim_self) ⊎ owns h.(kim_buf).
Proof. done. Qed.
Lemma owns_kv_ftl_eq f : owns f = owns f.(kfm_self) ⊎ owns f.(kfm_table) ⊎ owns f.(kfm_iter_handle).
Proof. done. Qed.
Lemma owns_Some `{Owns A} (x : A) : owns (Some x) = owns x.
Proof. done. Qed.
Lemma owns_None `{Owns A} : owns (@None A) = ∅.
Proof. done. Qed.
#[export] Hint Rewrite owns_channel_eq owns_pcie_eq owns_ssd_eq owns_pqueue_eq owns_conv_ftl_eq owns_zns_ftl_eq owns_kv_iter_eq owns_kv_ftl_eq
  @owns_Some @owns_None @owns_cons @owns_nil : owns.
Ltac own_solve := repeat (progress (autorewrite with owns; simpl)); own_eq.

Lemma nand_page_made : triple ∅ ssd_init_nand_page_mem owns.
Proof. apply new_ok. Qed.
Lemma nand_page_removed pg : triple (owns pg) (ssd_remove_nand_page_mem pg) (fun _ => ∅).
Proof. apply free_ok. Qed.

Lemma nand_lun_made spp : triple ∅ (ssd_init_nand_lun_mem spp) owns.
Proof. do 3 apply new_arr_ok. apply nand_page_made. Qed.
Lemma nand_lun_removed (lun : nand_lun_mem) : triple (owns lun) (ssd_remove_nand_lun_mem lun) (fun _ => ∅).
Proof. do 3 (apply free_arr_ok; intros ?). apply nand_page_removed. Qed.

Lemma channel_made spp : triple ∅ (ssd_init_ch_mem spp) owns.
Proof.
  unfold ssd_init_ch_mem. mstep (new_arr_ok spp.(luns_per_ch) _ (nand_lun_made spp)). intros lun. mstep (new_ok Kmalloc). intros pm.
  apply triple_done. own_solve.
Qed.
Lemma channel_removed ch : triple (owns ch) (ssd_remove_ch_mem ch) (fun _ => ∅).
Proof.
  unfold ssd_remove_ch_mem. rewrite owns_channel_eq. mstep (free_ok ch.(chm_perf_model)). intros _.
  mlast (free_arr_ok _ ch.(chm_lun) nand_lun_removed).
Qed.

Lemma pcie_made p : triple (owns p) (ssd_init_pcie_mem p) owns.
Proof. unfold ssd_init_pcie_mem. mstep (new_ok Kmalloc). intros pm. apply triple_done. own_solve. Qed.
Lemma pcie_removed pcie : triple (owns pcie) (_ ← ssd_remove_pcie_mem pcie; free pcie.(pm_self)) (fun _ => ∅).
Proof.
  rewrite owns_pcie_eq. eapply (triple_bind _ _ _ (fun _ => owns pcie.(pm_self))); [|intros _; apply free_ok].
  unfold ssd_remove_pcie_mem. mstep (use_ok pcie.(pm_self)). intros _. mlast (free_ok pcie.(pm_perf_model)).
Qed.

Lemma ssd_made spp : triple ∅ (ssd_init_mem spp) owns.
Proof.
  unfold ssd_init_mem. mstep (new_arr_ok spp.(nchs) _ (channel_made spp)). intros ch. mstep (new_ok Kmalloc). intros p.
  mstep (pcie_made p). intros pcie. mstep (new_ok Kmalloc). intros wb. apply triple_done. own_solve.
Qed.
Lemma ssd_removed s : triple (owns s) (ssd_remove_mem s) (fun _ => ∅).
Proof.
  unfold ssd_remove_mem. rewrite owns_ssd_eq. mstep (free_opt_ok s.(sm_write_buffer)). intros _.
  assert (triple (owns s.(sm_pcie)) (match s.(sm_pcie) with Some pcie => _ ← ssd_remove_pcie_mem pcie; free pcie.(pm_self) | None => mret () end)
    (fun _ => ∅)) as Hp by (destruct s.(sm_pcie); [apply pcie_removed|by apply triple_done]).
  mstep Hp. intros _. mlast (free_arr_ok _ s.(sm_ch) channel_removed).
Qed.

(** *** The conventional namespace *)

Lemma pqueue_made : triple ∅ pqueue_init_mem owns.
Proof. unfold pqueue_init_mem. mstep (new_ok Kmalloc). intros q. mstep (new_ok Kmalloc). intros d. apply triple_done. own_solve. Qed.
Lemma pqueue_freed q : triple (owns q) (pqueue_free_mem q) (fun _ => ∅).
Proof.
  unfold pqueue_free_mem. rewrite owns_pqueue_eq. mstep (use_ok q.(pqm_self)). intros _. mstep (free_ok q.(pqm_d)). intros _.
  mlast (free_ok q.(pqm_self)).
Qed.

Lemma lines_made : triple ∅ init_lines_mem owns.
Proof. unfold init_lines_mem. mstep (new_ok Vmalloc). intros l. mstep pqueue_made. intros pq. apply triple_done. change (owns (l, pq)) with (owns l ⊎ owns pq). own_eq. Qed.

Lemma conv_ftl_made ssd sm : triple (owns ssd ⊎ owns sm) (conv_init_ftl_mem ssd sm) owns.
Proof.
  unfold conv_init_ftl_mem. mstep (new_ok Vmalloc). intros m. mstep (new_ok Vmalloc). intros r. mstep lines_made. intros [l pq].
  apply triple_done. change (owns (l, pq)) with (owns l ⊎ owns pq). own_solve.
Qed.

Definition remove_partition (f : conv_ftl_mem) : mm unit := _ ← conv_remove_ftl_mem f; _ ← ssd_remove_mem f.(cfm_sm); free f.(cfm_ssd).

Lemma conv_ftl_removed f : triple (owns f.(cfm_maptbl) ⊎ owns f.(cfm_rmap) ⊎ owns f.(cfm_lines) ⊎ owns f.(cfm_victim_line_pq)) (conv_remove_ftl_mem f) (fun _ => ∅).
Proof.
  unfold conv_remove_ftl_mem. eapply (triple_bind _ _ _ (fun _ => owns f.(cfm_maptbl) ⊎ owns f.(cfm_rmap))).
  - unfold remove_lines_mem. mstep (pqueue_freed f.(cfm_victim_line_pq)). intros _. mlast (free_ok f.(cfm_lines)).
  - intros _. mstep (free_ok f.(cfm_rmap)). intros _. mlast (free_ok f.(cfm_maptbl)).
Qed.

Lemma partition_removed f : triple (owns f) (remove_partition f) (fun _ => ∅).
Proof.
  unfold remove_partition. eapply (triple_step _ _ _ _ (owns f.(cfm_ssd) ⊎ owns f.(cfm_sm)) _ _ (conv_ftl_removed f)); [own_solve|].
  intros _. mstep (ssd_removed f.(cfm_sm)). intros _. mlast (free_ok f.(cfm_ssd)).
Qed.

(** Giving up the link leaves a partition with what it owns without one. *)
Lemma link_shared f0 f : is_Some f.(cfm_sm).(sm_pcie) ->
  triple (owns f) (share_link f0 f) (fun f' => owns (with_link None None f')).
Proof.
  intros [pcie Ep]. unfold share_link. rewrite Ep.
  eapply (triple_step _ _ _ _ (owns (with_link None (sm_write_buffer (cfm_sm f)) f)) _ _ (pcie_removed pcie)).
  - rewrite !owns_conv_ftl_eq, !owns_ssd_eq, Ep. own_solve.
  - intros _. eapply (triple_step _ _ _ _ (owns (with_link None None f)) _ _ (free_opt_ok (sm_write_buffer (cfm_sm f)))); [own_solve|].
    intros _. apply triple_done. own_solve.
Qed.

(** A new partition has a link of its own. *)
Lemma new_partition_linked spp :
  always (ssd ← new Kmalloc; sm ← ssd_init_mem spp; conv_init_ftl_mem ssd sm) (fun f => is_Some f.(cfm_sm).(sm_pcie)).
Proof.
  apply always_bind. intros ssd. apply (always_bind_with _ _ (fun sm => is_Some sm.(sm_pcie))).
  - repeat (apply always_bind; intros ?). by apply always_ret.
  - intros sm Hsm. do 2 (apply always_bind; intros ?). apply always_bind. intros [lines pq]. by apply always_ret.
Qed.

Lemma new_partition_made spp : triple ∅ (ssd ← new Kmalloc; sm ← ssd_init_mem spp; conv_init_ftl_mem ssd sm) owns.
Proof. mstep (new_ok Kmalloc). intros ssd. mstep (ssd_made spp). intros sm. mlast (conv_ftl_made ssd sm). Qed.

(** *** The namespaces *)

Lemma conv_namespace_made spp nr_parts : triple ∅ (conv_init_namespace_mem spp nr_parts) owns_conv.
Proof.
  unfold conv_init_namespace_mem. eapply (triple_with _ _ _ _ _ _ (new_arr_ok nr_parts _ (new_partition_made spp)) (new_arr_always nr_parts _ _ (new_partition_linked spp))).
  intros [p [|f0 fs]] Hl; cbn [ar_elems ar_ptr] in *; [by apply triple_done|]. apply list.Forall_cons in Hl as [_ Hl].
  eapply (triple_step _ _ _ _ (owns f0) _ _ (each_elem_ok owns (fun f' => owns (with_link None None f')) (share_link f0) (Arr p fs) _)).
  - change (owns (Arr p (f0 :: fs))) with (owns p ⊎ (owns f0 ⊎ owns fs)). change (⋃+ (owns <$> ar_elems (Arr p fs))) with (owns fs). cbn [ar_ptr]. own_eq.
  - intros fs'. apply triple_done. unfold owns_conv. cbn [ar_ptr ar_elems unlinked]. rewrite owns_cons.
    change (owns (with_link None None <$> fs')) with (⋃+ (owns <$> (with_link None None <$> fs'))). rewrite <- list_fmap_compose.
    unfold compose. own_eq.
  Unshelve. intros x Hx. apply link_shared. clear -Hl Hx. revert x Hx. by apply list.Forall_forall.
Qed.

Lemma conv_namespace_removed ftls : triple (owns_conv ftls) (conv_remove_namespace_mem ftls) (fun _ => ∅).
Proof. exact (free_arr_ok remove_partition (Arr ftls.(ar_ptr) (unlinked ftls.(ar_elems))) partition_removed). Qed.

Lemma new_if_ok b : triple ∅ (new_if b) owns.
Proof. destruct b; [|by apply triple_done]. unfold new_if. eapply triple_bind; [apply new_ok|]. intros p. by apply triple_done. Qed.
Lemma free_if_ok b o : (b = false -> o = None) -> triple (owns o) (free_if b o) (fun _ => ∅).
Proof. intros Hb. destruct b; [apply free_opt_ok|]. rewrite (Hb eq_refl). by apply triple_done. Qed.

Section zns.
Context (spp : ssdparams) (zrwa_buffer_size zone_wb_size : Z).

(** The buffers that a namespace has are those of its parameters. *)
Definition buffers_fit (f : zns_ftl_mem) : Prop :=
  (negb (zrwa_buffer_size =? 0) = false -> f.(zfm_zrwa_buffer) = None) /\ (negb (zone_wb_size =? 0) = false -> f.(zfm_zone_write_buffer) = None).

Lemma zns_namespace_made : triple ∅ (zns_init_namespace_mem spp zrwa_buffer_size zone_wb_size) owns.
Proof.
  unfold zns_init_namespace_mem, __init_descriptor_mem. mstep (new_ok Kmalloc). intros ssd. mstep (ssd_made spp). intros sm.
  do 3 (mstep (new_ok Kmalloc); intros ?). mstep (new_if_ok (negb (zrwa_buffer_size =? 0))). intros b1. mstep (new_if_ok (negb (zone_wb_size =? 0))). intros b2.
  apply triple_done. own_solve.
Qed.

Lemma new_if_always b : always (new_if b) (fun o => b = false -> o = None).
Proof. destruct b; [intros h x h' _; done|by apply always_ret]. Qed.

Lemma zns_namespace_fits : always (zns_init_namespace_mem spp zrwa_buffer_size zone_wb_size) buffers_fit.
Proof.
  do 5 (apply always_bind; intros ?). eapply always_bind_with; [apply new_if_always|]. intros b1 H1.
  eapply always_bind_with; [apply new_if_always|]. intros b2 H2. by apply always_ret.
Qed.

Lemma zns_namespace_removed f : buffers_fit f -> triple (owns f) (zns_remove_namespace_mem zrwa_buffer_size zone_wb_size f) (fun _ => ∅).
Proof.
  intros [H1 H2]. unfold zns_remove_namespace_mem. rewrite owns_zns_ftl_eq. mstep (use_ok f.(zfm_self)). intros _. mstep (ssd_removed f.(zfm_sm)). intros _.
  assert (triple (owns f.(zfm_zone_descs) ⊎ owns f.(zfm_report_buffer) ⊎ owns f.(zfm_zrwa_buffer) ⊎ owns f.(zfm_zone_write_buffer))
    (__remove_descriptor_mem zrwa_buffer_size zone_wb_size f) (fun _ => ∅)) as Hd.
  { unfold __remove_descriptor_mem. mstep (free_if_ok _ f.(zfm_zrwa_buffer) H1). intros _. mstep (free_if_ok _ f.(zfm_zone_write_buffer) H2). intros _.
    mstep (free_ok f.(zfm_report_buffer)). intros _. mlast (free_ok f.(zfm_zone_descs)). }
  eapply (triple_step _ _ _ _ (owns f.(zfm_self) ⊎ owns f.(zfm_ssd)) _ _ Hd); [own_eq|]. intros _.
  mstep (free_ok f.(zfm_ssd)). intros _. mlast (free_ok f.(zfm_self)).
Qed.
End zns.

(** *** The key-value namespace *)

Lemma kv_namespace_made last : triple (owns last) (kv_init_namespace_mem last) owns.
Proof.
  unfold kv_init_namespace_mem. mstep (new_ok Kmalloc). intros self. mstep (new_ok Mapped). intros table. apply triple_done.
  rewrite owns_kv_ftl_eq. cbn [kfm_self kfm_table kfm_iter_handle].
  assert (owns (zrepeat 16 (@None kv_iter_mem) ++ [last]) = owns last) as ->; [|own_eq].
  rewrite owns_app, owns_nulls. change (owns [last]) with (owns last ⊎ ∅). own_eq.
Qed.

Lemma with_handle_owns f (i : Z) h h' : f.(kfm_iter_handle) !! i = Some h -> owns (with_handle i h' f) ⊎ owns h = owns f ⊎ owns h'.
Proof.
  intros Hi. pose proof (owns_insert _ _ _ h' Hi) as E. rewrite !owns_kv_ftl_eq. cbn [with_handle kfm_self kfm_table kfm_iter_handle].
  rewrite <- !(assoc_L (⊎)), E. own_eq.
Qed.

Lemma kv_iter_opened f : triple (owns f) (kv_iter_open_mem f) owns.
Proof.
  unfold kv_iter_open_mem. destruct (head _) as [i|] eqn:Eh; [|by apply triple_done].
  assert (f.(kfm_iter_handle) !! i = Some None) as Hi.
  { apply head_Some_elem_of, list_elem_of_filter in Eh as [Hf _]. unfold iter_is_free in Hf. by destruct (kfm_iter_handle f !! i) as [[]|]. }
  mstep (new_ok Kmalloc). intros self. mstep (new_ok Kmalloc). intros buf. apply triple_done.
  pose proof (with_handle_owns f i None (Some (KvIterMem self buf)) Hi) as E. rewrite owns_None, owns_Some, owns_kv_iter_eq in E. cbn [kim_self kim_buf] in E. own_eq.
Qed.

Lemma kv_iter_closed f (i : Z) : 0 <= i < zlen f.(kfm_iter_handle) -> triple (owns f) (kv_iter_close_mem i f) owns.
Proof.
  intros Hi. unfold kv_iter_close_mem. destruct (zlookup_lt _ _ Hi) as [[h|] Eh]; rewrite Eh; [|by apply triple_done].
  pose proof (with_handle_owns f i (Some h) None Eh) as E. rewrite owns_None, owns_Some, owns_kv_iter_eq in E.
  assert (owns f = owns (with_handle i None f) ⊎ owns (kim_self h) ⊎ owns (kim_buf h)) as -> by own_eq.
  mstep (use_ok h.(kim_self)). intros _. mstep (free_ok h.(kim_buf)). intros _. mstep (free_ok h.(kim_self)). intros _. apply triple_done. own_eq.
Qed.

Lemma kv_batch_keeps : triple ∅ __do_perform_kv_batch_mem (fun _ => ∅).
Proof. unfold __do_perform_kv_batch_mem. mstep (new_ok Kmalloc). intros v. mstep (new_ok Kmalloc). intros b. mstep (free_ok v). intros _. mlast (free_ok b). Qed.

(** The table and the iterators that are open stay. *)
Lemma kv_namespace_removed f : triple (owns f) (kv_remove_namespace_mem f) (fun _ => owns f.(kfm_table) ⊎ owns f.(kfm_iter_handle)).
Proof. rewrite owns_kv_ftl_eq. mlast (free_ok f.(kfm_self)). Qed.
