(* ===== verification/Life.v ===== *)
(** * The life of the module, as it allocates and releases (main.c, pci.c, admin.c, io.c)

    The functions that start and end the module and those that create and delete
    queues, write the registers of the admin queue or the number of units, and open
    and close iterators, on the memory that the device owns.  As in NsMem.v each has
    the name of its function and "_mem".  The channels of the DMA engine are not here. *)

From stdpp Require Import prelude list gmultiset.
From Stdlib Require Import ZArith Lia.
From S2P Require Import Prelude SsdConfig Heap NsMem.

Definition NR_QUEUE_SLOTS : Z := 73.

(** The kinds of namespaces, with what their size depends on, and their memory. *)
Inductive ns_kind := SimpleKind | ConvKind (spp : ssdparams) (nr_parts : Z) | ZnsKind (spp : ssdparams) (zrwa_buffer_size zone_wb_size : Z) | KvKind.
Inductive ns_mem := SimpleMem | ConvMem (ftls : arr conv_ftl_mem) | ZnsMem (zrwa_buffer_size zone_wb_size : Z) (f : zns_ftl_mem) | KvMem (f : kv_ftl_mem).

Definition ns_init_mem (k : ns_kind) : mm ns_mem :=
  match k with
  | SimpleKind => mret SimpleMem
  | ConvKind spp n => ftls ← conv_init_namespace_mem spp n; mret (ConvMem ftls)
  | ZnsKind spp z w => f ← zns_init_namespace_mem spp z w; mret (ZnsMem z w f)
  | KvKind => f ← kv_init_namespace_mem None; mret (KvMem f)
  end.
Definition ns_remove_mem (ns : ns_mem) : mm unit :=
  match ns with
  | SimpleMem => mret ()
  | ConvMem ftls => conv_remove_namespace_mem ftls
  | ZnsMem z w f => zns_remove_namespace_mem z w f
  | KvMem f => kv_remove_namespace_mem f
  end.

(** An I/O queue with the array of its pages, and the mapping of memory without a
    page frame; the admin queue with its two arrays. *)
Record queue_mem := QueueMem { qm_self : ptr Kmalloc; qm_pages : ptr Kmalloc; qm_mapped : option (ptr Mapped) }.
Record admin_queue_mem := AdminQueueMem { aqm_self : ptr Kmalloc; aqm_nvme_sq : option (ptr Kmalloc); aqm_nvme_cq : option (ptr Kmalloc) }.

Record vdev_mem := VdevMem {
  vm_self : ptr Kmalloc; vm_virtDev : ptr Kmalloc;
  vm_msix_table : option (ptr Mapped); vm_bar : option (ptr Mapped);
  vm_old_bar : option (ptr Kmalloc); vm_old_dbs : option (ptr Kmalloc);
  vm_admin_q : option admin_queue_mem;
  vm_io_unit_stat : option (ptr Kmalloc); vm_storage_mapped : option (ptr Mapped);
  vm_ns : option (arr ns_mem); vm_io_workers : option (arr (ptr Kmalloc));
  vm_nr_sq : Z; vm_nr_cq : Z; vm_sqes : list (option queue_mem); vm_cqes : list (option queue_mem)
}.

Definition vm_with_regs (msix bar : option (ptr Mapped)) (old_bar old_dbs : option (ptr Kmalloc)) (v : vdev_mem) : vdev_mem :=
  VdevMem v.(vm_self) v.(vm_virtDev) msix bar old_bar old_dbs v.(vm_admin_q) v.(vm_io_unit_stat) v.(vm_storage_mapped)
    v.(vm_ns) v.(vm_io_workers) v.(vm_nr_sq) v.(vm_nr_cq) v.(vm_sqes) v.(vm_cqes).
Definition vm_with_admin (q : option admin_queue_mem) (v : vdev_mem) : vdev_mem :=
  VdevMem v.(vm_self) v.(vm_virtDev) v.(vm_msix_table) v.(vm_bar) v.(vm_old_bar) v.(vm_old_dbs) q v.(vm_io_unit_stat) v.(vm_storage_mapped)
    v.(vm_ns) v.(vm_io_workers) v.(vm_nr_sq) v.(vm_nr_cq) v.(vm_sqes) v.(vm_cqes).
Definition vm_with_storage (stat : option (ptr Kmalloc)) (mapped : option (ptr Mapped)) (v : vdev_mem) : vdev_mem :=
  VdevMem v.(vm_self) v.(vm_virtDev) v.(vm_msix_table) v.(vm_bar) v.(vm_old_bar) v.(vm_old_dbs) v.(vm_admin_q) stat mapped
    v.(vm_ns) v.(vm_io_workers) v.(vm_nr_sq) v.(vm_nr_cq) v.(vm_sqes) v.(vm_cqes).
Definition vm_with_ns (ns : option (arr ns_mem)) (v : vdev_mem) : vdev_mem :=
  VdevMem v.(vm_self) v.(vm_virtDev) v.(vm_msix_table) v.(vm_bar) v.(vm_old_bar) v.(vm_old_dbs) v.(vm_admin_q) v.(vm_io_unit_stat) v.(vm_storage_mapped)
    ns v.(vm_io_workers) v.(vm_nr_sq) v.(vm_nr_cq) v.(vm_sqes) v.(vm_cqes).
Definition vm_with_workers (w : option (arr (ptr Kmalloc))) (v : vdev_mem) : vdev_mem :=
  VdevMem v.(vm_self) v.(vm_virtDev) v.(vm_msix_table) v.(vm_bar) v.(vm_old_bar) v.(vm_old_dbs) v.(vm_admin_q) v.(vm_io_unit_stat) v.(vm_storage_mapped)
    v.(vm_ns) w v.(vm_nr_sq) v.(vm_nr_cq) v.(vm_sqes) v.(vm_cqes).
Definition vm_with_queues (nr_sq nr_cq : Z) (sqes cqes : list (option queue_mem)) (v : vdev_mem) : vdev_mem :=
  VdevMem v.(vm_self) v.(vm_virtDev) v.(vm_msix_table) v.(vm_bar) v.(vm_old_bar) v.(vm_old_dbs) v.(vm_admin_q) v.(vm_io_unit_stat) v.(vm_storage_mapped)
    v.(vm_ns) v.(vm_io_workers) nr_sq nr_cq sqes cqes.

(** ** The start *)

Definition VDEV_INIT_mem : mm vdev_mem :=
  self ← new Kmalloc; virtDev ← new Kmalloc;
  mret (VdevMem self virtDev None None None None None None None None None 0 0 (zrepeat NR_QUEUE_SLOTS None) (zrepeat NR_QUEUE_SLOTS None)).

Definition VDEV_FINALIZE_mem (v : vdev_mem) : mm unit :=
  _ ← free_opt v.(vm_msix_table); _ ← free_opt v.(vm_bar);
  _ ← free_opt v.(vm_old_bar); _ ← free_opt v.(vm_old_dbs);
  _ ← match v.(vm_admin_q) with
      | Some q => _ ← free_opt q.(aqm_nvme_cq); _ ← free_opt q.(aqm_nvme_sq); free q.(aqm_self)
      | None => mret ()
      end;
  _ ← free v.(vm_virtDev);
  free v.(vm_self).

Definition NVMEV_STORAGE_INIT_mem (v : vdev_mem) : mm vdev_mem :=
  stat ← new Kmalloc; mapped ← new Mapped; mret (vm_with_storage (Some stat) (Some mapped) v).
Definition NVMEV_STORAGE_FINAL_mem (v : vdev_mem) : mm vdev_mem :=
  _ ← free_opt v.(vm_storage_mapped); _ ← free_opt v.(vm_io_unit_stat); mret (vm_with_storage None None v).

Definition NVMEV_NAMESPACE_INIT_mem (kinds : list ns_kind) (v : vdev_mem) : mm vdev_mem :=
  p ← new Kmalloc; l ← each (fun k => _ ← use p; ns_init_mem k) kinds; mret (vm_with_ns (Some (Arr p l)) v).
Definition NVMEV_NAMESPACE_FINAL_mem (v : vdev_mem) : mm vdev_mem :=
  match v.(vm_ns) with
  | Some nss => _ ← free_arr ns_remove_mem nss; mret (vm_with_ns None v)
  | None => mm_fault NullDeref
  end.

(** The bus that the kernel makes has one device. *)
Definition __create_pci_bus_mem (v : vdev_mem) : mm vdev_mem :=
  bar ← new Mapped; old_dbs ← new Kmalloc; old_bar ← new Kmalloc; msix ← new Mapped;
  mret (vm_with_regs (Some msix) (Some bar) (Some old_bar) (Some old_dbs) v).

Definition NVMEV_IO_WORKER_INIT_mem (nr_io_workers : Z) (v : vdev_mem) : mm vdev_mem :=
  w ← new_arr nr_io_workers (new Kmalloc); mret (vm_with_workers (Some w) v).
Definition NVMEV_IO_WORKER_FINAL_mem (v : vdev_mem) : mm vdev_mem :=
  match v.(vm_io_workers) with
  | Some w => _ ← free_arr free w; mret (vm_with_workers None v)
  | None => mm_fault NullDeref
  end.

(** [configs]: whether the parameters are accepted; [bus]: whether there is a bus.
    The device, or none and what it is left with. *)
Definition NVMeV_init_mem (configs bus : bool) (kinds : list ns_kind) (nr_io_workers : Z) : mm (option vdev_mem * option vdev_mem) :=
  v ← VDEV_INIT_mem;
  if negb configs then _ ← VDEV_FINALIZE_mem v; mret (None, None) else
  v ← NVMEV_STORAGE_INIT_mem v;
  v ← NVMEV_NAMESPACE_INIT_mem kinds v;
  if negb bus then _ ← VDEV_FINALIZE_mem v; mret (None, Some v) else
  v ← __create_pci_bus_mem v;
  v ← NVMEV_IO_WORKER_INIT_mem nr_io_workers v;
  mret (Some v, None).

(** ** The end *)

Definition free_queue_structs (nr : Z) (l : list (option queue_mem)) : mm unit :=
  if zlen l <? nr then mm_fault OutOfBounds else
  each_ (fun q => match q with Some q => free q.(qm_self) | None => mret () end) (take (Z.to_nat nr) l).

Definition NVMeV_exit_mem (v : vdev_mem) : mm unit :=
  v ← NVMEV_IO_WORKER_FINAL_mem v;
  v ← NVMEV_NAMESPACE_FINAL_mem v;
  v ← NVMEV_STORAGE_FINAL_mem v;
  _ ← free_queue_structs v.(vm_nr_sq) v.(vm_sqes);
  _ ← free_queue_structs v.(vm_nr_cq) v.(vm_cqes);
  VDEV_FINALIZE_mem v.

(** ** Between them *)

(** [mapped]: the memory of the queue has no page frame. *)
Definition new_queue (mapped : bool) : mm queue_mem :=
  q ← new Kmalloc; pages ← new Kmalloc;
  m ← (if mapped then Some <$> new Mapped else mret None);
  mret (QueueMem q pages m).
Definition free_queue (o : option queue_mem) : mm unit :=
  match o with
  | Some q => _ ← use q.(qm_self); _ ← free q.(qm_pages); _ ← free_opt q.(qm_mapped); free q.(qm_self)
  | None => mret ()
  end.

(** A queue is put in its place in the table, with what was there; or it is taken
    from there. *)
Definition put_queue (qid : Z) (q : queue_mem) (l : list (option queue_mem)) : mm (list (option queue_mem) * option queue_mem) :=
  match l !! qid with Some old => mret (<[qid := Some q]> l, old) | None => mm_fault OutOfBounds end.
Definition take_queue (qid : Z) (l : list (option queue_mem)) : mm (list (option queue_mem)) :=
  match l !! qid with Some old => _ ← free_queue old; mret (<[qid := None]> l) | None => mm_fault OutOfBounds end.

(** The queue that was in the place of a new one is the second result. *)
Definition __nvmev_admin_create_cq_mem (qid : Z) (mapped : bool) (v : vdev_mem) : mm (vdev_mem * option queue_mem) :=
  cq ← new_queue mapped; '(l, old) ← put_queue qid cq v.(vm_cqes);
  mret (vm_with_queues v.(vm_nr_sq) v.(vm_nr_cq) v.(vm_sqes) l v, old).
Definition __nvmev_admin_create_sq_mem (qid : Z) (mapped : bool) (v : vdev_mem) : mm (vdev_mem * option queue_mem) :=
  sq ← new_queue mapped; '(l, old) ← put_queue qid sq v.(vm_sqes);
  mret (vm_with_queues v.(vm_nr_sq) v.(vm_nr_cq) l v.(vm_cqes) v, old).
Definition __nvmev_admin_delete_cq_mem (qid : Z) (v : vdev_mem) : mm vdev_mem :=
  l ← take_queue qid v.(vm_cqes); mret (vm_with_queues v.(vm_nr_sq) v.(vm_nr_cq) v.(vm_sqes) l v).
Definition __nvmev_admin_delete_sq_mem (qid : Z) (v : vdev_mem) : mm vdev_mem :=
  l ← take_queue qid v.(vm_sqes); mret (vm_with_queues v.(vm_nr_sq) v.(vm_nr_cq) l v.(vm_cqes) v).

(** The registers of the admin queue change. *)
Definition aqa_changed_mem (v : vdev_mem) : mm vdev_mem :=
  match v.(vm_admin_q) with
  | None => q ← new Kmalloc; mret (vm_with_admin (Some (AdminQueueMem q None None)) v)
  | Some _ => mret v
  end.
Definition asq_changed_mem (v : vdev_mem) : mm vdev_mem :=
  match v.(vm_admin_q) with
  | None => mret v
  | Some q => _ ← free_opt q.(aqm_nvme_sq); sq ← new Kmalloc; mret (vm_with_admin (Some (AdminQueueMem q.(aqm_self) (Some sq) q.(aqm_nvme_cq))) v)
  end.
Definition acq_changed_mem (v : vdev_mem) : mm vdev_mem :=
  match v.(vm_admin_q) with
  | None => mret v
  | Some q => _ ← free_opt q.(aqm_nvme_cq); cq ← new Kmalloc; mret (vm_with_admin (Some (AdminQueueMem q.(aqm_self) q.(aqm_nvme_sq) (Some cq))) v)
  end.

(** A write to "io_units". *)
Definition io_units_written_mem (v : vdev_mem) : mm vdev_mem :=
  stat ← new Kmalloc; _ ← free_opt v.(vm_io_unit_stat); mret (vm_with_storage (Some stat) v.(vm_storage_mapped) v).

(** A command for the key-value namespace [i]. *)
Definition kv_command_mem (i : Z) (f : kv_ftl_mem -> mm kv_ftl_mem) (v : vdev_mem) : mm vdev_mem :=
  match v.(vm_ns) with
  | Some nss =>
      match nss.(ar_elems) !! i with
      | Some (KvMem kv) => kv ← f kv; mret (vm_with_ns (Some (Arr nss.(ar_ptr) (<[i := KvMem kv]> nss.(ar_elems)))) v)
      | _ => mret v
      end
  | None => mm_fault NullDeref
  end.

Inductive life_event :=
| CreateCq (qid : Z) (mapped : bool) | CreateSq (qid : Z) (mapped : bool) | DeleteCq (qid : Z) | DeleteSq (qid : Z)
| SetQueueCount (nr_sq nr_cq : Z) | AqaChanged | AsqChanged | AcqChanged | UnitsWritten
| IterOpen (ns : Z) | IterClose (ns iter : Z) | KvBatch (ns : Z).

(** The device after an event, and the queue that it lost. *)
Definition life_step (e : life_event) (v : vdev_mem) : mm (vdev_mem * option queue_mem) :=
  let keep (m : mm vdev_mem) : mm (vdev_mem * option queue_mem) := v ← m; mret (v, None) in
  match e with
  | CreateCq qid mapped => __nvmev_admin_create_cq_mem qid mapped v
  | CreateSq qid mapped => __nvmev_admin_create_sq_mem qid mapped v
  | DeleteCq qid => keep (__nvmev_admin_delete_cq_mem qid v)
  | DeleteSq qid => keep (__nvmev_admin_delete_sq_mem qid v)
  | SetQueueCount nr_sq nr_cq => mret (vm_with_queues nr_sq nr_cq v.(vm_sqes) v.(vm_cqes) v, None)
  | AqaChanged => keep (aqa_changed_mem v)
  | AsqChanged => keep (asq_changed_mem v)
  | AcqChanged => keep (acq_changed_mem v)
  | UnitsWritten => keep (io_units_written_mem v)
  | IterOpen i => keep (kv_command_mem i kv_iter_open_mem v)
  | IterClose i iter => keep (kv_command_mem i (kv_iter_close_mem iter) v)
  | KvBatch i => keep (kv_command_mem i (fun f => _ ← __do_perform_kv_batch_mem; mret f) v)
  end.

(** A life: the device after the events with the queues that were lost. *)
Fixpoint life_run (es : list life_event) (v : vdev_mem) (lost : list (option queue_mem)) : mm (vdev_mem * list (option queue_mem)) :=
  match es with
  | [] => mret (v, lost)
  | e :: es => '(v, q) ← life_step e v; life_run es v (q :: lost)
  end.
