(* ===== verification/LifeInv.v ===== *)
(** * The memory of the device is its own

    What each function of Life.v takes and gives: the structures of the device own
    disjoint allocations before and after every event. *)

From stdpp Require Import prelude list gmultiset.
From Stdlib Require Import ZArith Lia.
From S2P Require Import Prelude SsdConfig Ssd Heap NsMem Life.

#[global] Instance owns_ns_mem : Owns ns_mem := fun ns =>
  match ns with SimpleMem => ∅ | ConvMem ftls => owns_conv ftls | ZnsMem _ _ f => owns f | KvMem f => owns f end.
#[global] Instance owns_queue : Owns queue_mem := fun q => owns q.(qm_self) ⊎ owns q.(qm_pages) ⊎ owns q.(qm_mapped).
#[global] Instance owns_admin_queue : Owns admin_queue_mem := fun q => owns q.(aqm_self) ⊎ owns q.(aqm_nvme_sq) ⊎ owns q.(aqm_nvme_cq).
#[global] Instance owns_vdev : Owns vdev_mem := fun v =>
  owns v.(vm_self) ⊎ owns v.(vm_virtDev) ⊎ owns v.(vm_msix_table) ⊎ owns v.(vm_bar) ⊎ owns v.(vm_old_bar) ⊎ owns v.(vm_old_dbs) ⊎
  owns v.(vm_admin_q) ⊎ owns v.(vm_io_unit_stat) ⊎ owns v.(vm_storage_mapped) ⊎ owns v.(vm_ns) ⊎ owns v.(vm_io_workers) ⊎
  owns v.(vm_sqes) ⊎ owns v.(vm_cqes).

(** What stays when the namespaces are removed. *)
Definition ns_left (ns : ns_mem) : own := match ns with KvMem f => owns f.(kfm_table) ⊎ owns f.(kfm_iter_handle) | _ => ∅ end.

Definition ns_fits (ns : ns_mem) : Prop :=
  match ns with ZnsMem z w f => buffers_fit z w f | KvMem f => zlen f.(kfm_iter_handle) = 17 | _ => True end.

(** ** Namespaces *)

Lemma namespace_made k : triple ∅ (ns_init_mem k) owns.
Proof.
  destruct k; simpl.
  - by apply triple_done.
  - eapply triple_bind; [apply conv_namespace_made|]. intros f. by apply triple_done.
  - eapply triple_bind; [apply zns_namespace_made|]. intros f. by apply triple_done.
  - eapply triple_bind; [apply (kv_namespace_made None)|]. intros f. by apply triple_done.
Qed.

Lemma namespace_fits k : always (ns_init_mem k) ns_fits.
Proof.
  destruct k; simpl.
  - by apply always_ret.
  - apply always_bind. intros f. by apply always_ret.
  - eapply always_bind_with; [apply zns_namespace_fits|]. intros f Hf. by apply always_ret.
  - apply (always_bind_with _ _ (fun f => zlen f.(kfm_iter_handle) = 17)); [|intros f Hf; by apply always_ret].
    do 2 (apply always_bind; intros ?). by apply always_ret.
Qed.

Lemma namespace_removed ns : ns_fits ns -> triple (owns ns) (ns_remove_mem ns) (fun _ => ns_left ns).
Proof.
  destruct ns as [|ftls|z w f|f]; simpl; intros Hf.
  - by apply triple_done.
  - apply conv_namespace_removed.
  - by apply zns_namespace_removed.
  - apply kv_namespace_removed.
Qed.

(** ** The fields of the device *)

Section fields.
Implicit Types v : vdev_mem.

Lemma owns_vdev_eq v :
  owns v = owns v.(vm_self) ⊎ owns v.(vm_virtDev) ⊎ owns v.(vm_msix_table) ⊎ owns v.(vm_bar) ⊎ owns v.(vm_old_bar) ⊎ owns v.(vm_old_dbs) ⊎
    owns v.(vm_admin_q) ⊎ owns v.(vm_io_unit_stat) ⊎ owns v.(vm_storage_mapped) ⊎ owns v.(vm_ns) ⊎ owns v.(vm_io_workers) ⊎
    owns v.(vm_sqes) ⊎ owns v.(vm_cqes).
Proof. done. Qed.

Ltac fields := rewrite !owns_vdev_eq;
  cbn [vm_with_regs vm_with_admin vm_with_storage vm_with_ns vm_with_workers vm_with_queues vm_self vm_virtDev vm_msix_table vm_bar vm_old_bar vm_old_dbs
    vm_admin_q vm_io_unit_stat vm_storage_mapped vm_ns vm_io_workers vm_sqes vm_cqes]; own_eq.

Lemma owns_with_admin q v : owns (vm_with_admin q v) ⊎ owns v.(vm_admin_q) = owns v ⊎ owns q.
Proof. fields. Qed.
Lemma owns_with_ns q v : owns (vm_with_ns q v) ⊎ owns v.(vm_ns) = owns v ⊎ owns q.
Proof. fields. Qed.
Lemma owns_with_workers q v : owns (vm_with_workers q v) ⊎ owns v.(vm_io_workers) = owns v ⊎ owns q.
Proof. fields. Qed.
Lemma owns_with_storage a b v : owns (vm_with_storage a b v) ⊎ owns v.(vm_io_unit_stat) ⊎ owns v.(vm_storage_mapped) = owns v ⊎ owns a ⊎ owns b.
Proof. fields. Qed.
Lemma owns_with_queues n m a b v : owns (vm_with_queues n m a b v) ⊎ owns v.(vm_sqes) ⊎ owns v.(vm_cqes) = owns v ⊎ owns a ⊎ owns b.
Proof. fields. Qed.
Lemma owns_with_regs a b c d v :
  owns (vm_with_regs a b c d v) ⊎ owns v.(vm_msix_table) ⊎ owns v.(vm_bar) ⊎ owns v.(vm_old_bar) ⊎ owns v.(vm_old_dbs) =
  owns v ⊎ owns a ⊎ owns b ⊎ owns c ⊎ owns d.
Proof. fields. Qed.
End fields.

Ltac none_owns := repeat change (@owns (option _) (@owns_option _ _) None) with (∅ : own) in *.

(** ** The start *)

Lemma vdev_made : triple ∅ VDEV_INIT_mem owns.
Proof.
  unfold VDEV_INIT_mem. mstep (new_ok Kmalloc). intros a. mstep (new_ok Kmalloc). intros b. apply triple_done.
  rewrite owns_vdev_eq. cbn [vm_self vm_virtDev vm_msix_table vm_bar vm_old_bar vm_old_dbs vm_admin_q vm_io_unit_stat vm_storage_mapped vm_ns vm_io_workers vm_sqes vm_cqes].
  rewrite !owns_nulls. none_owns. own_eq.
Qed.

Lemma storage_made v : v.(vm_io_unit_stat) = None -> v.(vm_storage_mapped) = None -> triple (owns v) (NVMEV_STORAGE_INIT_mem v) owns.
Proof.
  intros E1 E2. unfold NVMEV_STORAGE_INIT_mem. mstep (new_ok Kmalloc). intros a. mstep (new_ok Mapped). intros b. apply triple_done.
  pose proof (owns_with_storage (Some a) (Some b) v) as E. rewrite E1, E2 in E. none_owns. rewrite !owns_Some in E. own_eq.
Qed.

Lemma namespaces_made kinds v : v.(vm_ns) = None -> triple (owns v) (NVMEV_NAMESPACE_INIT_mem kinds v) owns.
Proof.
  intros E1. unfold NVMEV_NAMESPACE_INIT_mem. mstep (new_ok Kmalloc). intros p.
  eapply (triple_step _ _ _ _ (owns v) _ _ (each_ok _ (fun _ => ∅) owns (owns p) kinds _)); [rewrite nothing_owned; own_eq|].
  intros l. apply triple_done. pose proof (owns_with_ns (Some (Arr p l)) v) as E. rewrite E1, owns_None, owns_Some in E.
  change (owns (Arr p l)) with (owns p ⊎ ⋃+ (owns <$> l)) in E. own_eq.
  Unshelve. intros k _. mstep (use_ok p). intros _. mlast (namespace_made k).
Qed.

Lemma registers_made v : v.(vm_msix_table) = None -> v.(vm_bar) = None -> v.(vm_old_bar) = None -> v.(vm_old_dbs) = None ->
  triple (owns v) (__create_pci_bus_mem v) owns.
Proof.
  intros E1 E2 E3 E4. unfold __create_pci_bus_mem. mstep (new_ok Mapped). intros a. mstep (new_ok Kmalloc). intros b. mstep (new_ok Kmalloc). intros c.
  mstep (new_ok Mapped). intros d. apply triple_done. pose proof (owns_with_regs (Some d) (Some a) (Some c) (Some b) v) as E.
  rewrite E1, E2, E3, E4 in E. none_owns. rewrite !owns_Some in E. own_eq.
Qed.

Lemma workers_made n v : v.(vm_io_workers) = None -> triple (owns v) (NVMEV_IO_WORKER_INIT_mem n v) owns.
Proof.
  intros E1. unfold NVMEV_IO_WORKER_INIT_mem. mstep (new_arr_ok n _ (new_ok Kmalloc)). intros w. apply triple_done.
  pose proof (owns_with_workers (Some w) v) as E. rewrite E1, owns_None, owns_Some in E. own_eq.
Qed.

(** ** The events *)

Lemma owns_queue_eq q : owns q = owns q.(qm_self) ⊎ owns q.(qm_pages) ⊎ owns q.(qm_mapped).
Proof. done. Qed.
Lemma owns_admin_eq q : owns q = owns q.(aqm_self) ⊎ owns q.(aqm_nvme_sq) ⊎ owns q.(aqm_nvme_cq).
Proof. done. Qed.

Lemma queue_made mapped : triple ∅ (new_queue mapped) owns.
Proof.
  unfold new_queue. mstep (new_ok Kmalloc). intros q. mstep (new_ok Kmalloc). intros pages.
  assert (triple ∅ (if mapped then Some <$> new Mapped else mret None) owns) as Hm.
  { destruct mapped; [|by apply triple_done]. eapply triple_bind; [apply new_ok|]. intros p. by apply triple_done. }
  mstep Hm. intros m. apply triple_done. rewrite owns_queue_eq. cbn [qm_self qm_pages qm_mapped]. own_eq.
Qed.

Lemma queue_freed o : triple (owns o) (free_queue o) (fun _ => ∅).
Proof.
  destruct o as [q|]; [|by apply triple_done]. unfold free_queue. rewrite owns_Some, owns_queue_eq. mstep (use_ok q.(qm_self)). intros _.
  mstep (free_ok q.(qm_pages)). intros _. mstep (free_opt_ok q.(qm_mapped)). intros _. mlast (free_ok q.(qm_self)).
Qed.

Lemma queue_put (qid : Z) q l : 0 <= qid < zlen l -> triple (owns l ⊎ owns q) (put_queue qid q l) owns.
Proof.
  intros Hq. unfold put_queue. destruct (zlookup_lt _ _ Hq) as [old E]. rewrite E. apply triple_done.
  pose proof (owns_insert l qid old (Some q) E) as Eo. rewrite owns_Some in Eo.
  change (owns (<[qid:=Some q]> l, old)) with (owns (<[qid:=Some q]> l) ⊎ owns old). own_eq.
Qed.

Lemma queue_taken (qid : Z) l : 0 <= qid < zlen l -> triple (owns l) (take_queue qid l) owns.
Proof.
  intros Hq. unfold take_queue. destruct (zlookup_lt _ _ Hq) as [old E]. rewrite E.
  pose proof (owns_insert l qid old None E) as Eo. none_owns.
  eapply (triple_step _ _ _ _ (owns (<[qid:=None]> l)) _ _ (queue_freed old)); [own_eq|]. intros _. apply triple_done. own_eq.
Qed.

Definition event_ok (e : life_event) : Prop :=
  match e with
  | CreateCq qid _ | CreateSq qid _ | DeleteCq qid | DeleteSq qid => 0 <= qid < NR_QUEUE_SLOTS
  | SetQueueCount nr_sq nr_cq => 0 <= nr_sq < NR_QUEUE_SLOTS /\ 0 <= nr_cq < NR_QUEUE_SLOTS
  | IterClose _ iter => 0 <= iter < 17
  | _ => True
  end.

(** The device runs: the tables have their size, and the namespaces are whole. *)
Record running (v : vdev_mem) : Prop := {
  rn_tables : zlen v.(vm_sqes) = NR_QUEUE_SLOTS /\ zlen v.(vm_cqes) = NR_QUEUE_SLOTS;
  rn_counts : 0 <= v.(vm_nr_sq) < NR_QUEUE_SLOTS /\ 0 <= v.(vm_nr_cq) < NR_QUEUE_SLOTS;
  rn_ns : exists nss, v.(vm_ns) = Some nss /\ Forall ns_fits nss.(ar_elems);
  rn_workers : is_Some v.(vm_io_workers)
}.

(** The device without its queues, and without its admin queue. *)
Lemma owns_queues n m a b v :
  owns (vm_with_queues n m a b v) = owns (vm_with_queues 0 0 [] [] v) ⊎ owns a ⊎ owns b /\
  owns v = owns (vm_with_queues 0 0 [] [] v) ⊎ owns v.(vm_sqes) ⊎ owns v.(vm_cqes).
Proof.
  pose proof (owns_with_queues n m a b v) as E1. pose proof (owns_with_queues 0 0 [] [] v) as E2.
  change (owns (@nil (option queue_mem))) with (∅ : own) in E2. split; own_eq.
Qed.

Lemma owns_admin q v :
  owns (vm_with_admin q v) = owns (vm_with_admin None v) ⊎ owns q /\ owns v = owns (vm_with_admin None v) ⊎ owns v.(vm_admin_q).
Proof. pose proof (owns_with_admin q v) as E1. pose proof (owns_with_admin None v) as E2. none_owns. split; own_eq. Qed.

Lemma owns_pair_eq `{Owns A, Owns B} (x : A) (y : B) : owns (x, y) = owns x ⊎ owns y.
Proof. done. Qed.
Ltac pair_owns := repeat match goal with |- context [owns (?x, ?y)] => rewrite (owns_pair_eq x y) end.

Lemma create_cq_mem_ok qid mapped v : running v -> 0 <= qid < NR_QUEUE_SLOTS -> triple (owns v) (__nvmev_admin_create_cq_mem qid mapped v) owns.
Proof.
  intros Hv Hq. destruct (rn_tables _ Hv) as [_ Hc]. unfold __nvmev_admin_create_cq_mem. mstep (queue_made mapped). intros q.
  rewrite (proj2 (owns_queues 0 0 [] [] v)). mstep (queue_put qid q v.(vm_cqes) ltac:(lia)). intros [l old]. apply triple_done.
  pair_owns. rewrite (proj1 (owns_queues v.(vm_nr_sq) v.(vm_nr_cq) v.(vm_sqes) l v)). own_eq.
Qed.

Lemma create_sq_mem_ok qid mapped v : running v -> 0 <= qid < NR_QUEUE_SLOTS -> triple (owns v) (__nvmev_admin_create_sq_mem qid mapped v) owns.
Proof.
  intros Hv Hq. destruct (rn_tables _ Hv) as [Hs _]. unfold __nvmev_admin_create_sq_mem. mstep (queue_made mapped). intros q.
  rewrite (proj2 (owns_queues 0 0 [] [] v)). mstep (queue_put qid q v.(vm_sqes) ltac:(lia)). intros [l old]. apply triple_done.
  pair_owns. rewrite (proj1 (owns_queues v.(vm_nr_sq) v.(vm_nr_cq) l v.(vm_cqes) v)). own_eq.
Qed.

Lemma delete_cq_mem_ok qid v : running v -> 0 <= qid < NR_QUEUE_SLOTS -> triple (owns v) (__nvmev_admin_delete_cq_mem qid v) owns.
Proof.
  intros Hv Hq. destruct (rn_tables _ Hv) as [_ Hc]. unfold __nvmev_admin_delete_cq_mem. rewrite (proj2 (owns_queues 0 0 [] [] v)).
  mstep (queue_taken qid v.(vm_cqes) ltac:(lia)). intros l. apply triple_done. rewrite (proj1 (owns_queues v.(vm_nr_sq) v.(vm_nr_cq) v.(vm_sqes) l v)). own_eq.
Qed.

Lemma delete_sq_mem_ok qid v : running v -> 0 <= qid < NR_QUEUE_SLOTS -> triple (owns v) (__nvmev_admin_delete_sq_mem qid v) owns.
Proof.
  intros Hv Hq. destruct (rn_tables _ Hv) as [Hs _]. unfold __nvmev_admin_delete_sq_mem. rewrite (proj2 (owns_queues 0 0 [] [] v)).
  mstep (queue_taken qid v.(vm_sqes) ltac:(lia)). intros l. apply triple_done. rewrite (proj1 (owns_queues v.(vm_nr_sq) v.(vm_nr_cq) l v.(vm_cqes) v)). own_eq.
Qed.

Lemma aqa_mem_ok v : triple (owns v) (aqa_changed_mem v) owns.
Proof.
  unfold aqa_changed_mem. destruct (vm_admin_q v) eqn:Ea; [by apply triple_done|]. mstep (new_ok Kmalloc). intros q. apply triple_done.
  destruct (owns_admin (Some (AdminQueueMem q None None)) v) as [E1 E2]. rewrite E1, E2. rewrite Ea, owns_Some, owns_admin_eq. cbn [aqm_self aqm_nvme_sq aqm_nvme_cq]. none_owns. own_eq.
Qed.

Lemma asq_mem_ok v : triple (owns v) (asq_changed_mem v) owns.
Proof.
  unfold asq_changed_mem. destruct (vm_admin_q v) as [q|] eqn:Ea; [|by apply triple_done].
  rewrite (proj2 (owns_admin None v)), Ea, owns_Some, owns_admin_eq. mstep (free_opt_ok q.(aqm_nvme_sq)). intros _. mstep (new_ok Kmalloc). intros sq.
  apply triple_done. rewrite (proj1 (owns_admin (Some (AdminQueueMem q.(aqm_self) (Some sq) q.(aqm_nvme_cq))) v)), owns_Some, owns_admin_eq. cbn [aqm_self aqm_nvme_sq aqm_nvme_cq]. rewrite owns_Some. own_eq.
Qed.

Lemma acq_mem_ok v : triple (owns v) (acq_changed_mem v) owns.
Proof.
  unfold acq_changed_mem. destruct (vm_admin_q v) as [q|] eqn:Ea; [|by apply triple_done].
  rewrite (proj2 (owns_admin None v)), Ea, owns_Some, owns_admin_eq. mstep (free_opt_ok q.(aqm_nvme_cq)). intros _. mstep (new_ok Kmalloc). intros cq.
  apply triple_done. rewrite (proj1 (owns_admin (Some (AdminQueueMem q.(aqm_self) q.(aqm_nvme_sq) (Some cq))) v)), owns_Some, owns_admin_eq. cbn [aqm_self aqm_nvme_sq aqm_nvme_cq]. rewrite owns_Some. own_eq.
Qed.

Lemma units_mem_ok v : triple (owns v) (io_units_written_mem v) owns.
Proof.
  unfold io_units_written_mem. pose proof (owns_with_storage None v.(vm_storage_mapped) v) as E. none_owns.
  mstep (new_ok Kmalloc). intros stat.
  eapply (triple_step _ _ _ _ (owns (vm_with_storage None v.(vm_storage_mapped) v) ⊎ owns stat) _ _ (free_opt_ok v.(vm_io_unit_stat))); [own_eq|].
  intros _. apply triple_done. pose proof (owns_with_storage (Some stat) v.(vm_storage_mapped) v) as E2. rewrite owns_Some in E2. own_eq.
Qed.

(** A command of a key-value namespace works on its own memory. *)
Lemma kv_mem_ok i f v : (forall kv, zlen kv.(kfm_iter_handle) = 17 -> triple (owns kv) (f kv) owns) -> running v ->
  triple (owns v) (kv_command_mem i f v) owns.
Proof.
  intros Hf Hv. destruct (rn_ns _ Hv) as ([p l] & En & Hns). unfold kv_command_mem. rewrite En. cbn [ar_elems ar_ptr] in *.
  destruct (l !! i) as [[| | |kv]|] eqn:Ei; try by apply triple_done.
  pose proof (owns_with_ns None v) as E. none_owns. rewrite En, owns_Some in E. change (owns (Arr p l)) with (owns p ⊎ owns l) in E.
  assert (zlen kv.(kfm_iter_handle) = 17) as Hkv by exact (Forall_zlookup _ _ _ _ Hns Ei).
  assert (exists F, owns l = owns kv ⊎ F /\ forall kv', owns (<[i := KvMem kv']> l) = owns kv' ⊎ F) as (F & E1 & E2).
  { destruct (owns_remove l i _ Ei) as (F & H1 & H2). exists F. split; [exact H1|]. intros kv'. apply (H2 (KvMem kv')). }
  eapply (triple_step _ _ _ _ (owns (vm_with_ns None v) ⊎ owns p ⊎ F) _ _ (Hf kv Hkv)); [own_eq|].
  intros kv'. apply triple_done. pose proof (owns_with_ns (Some (Arr p (<[i := KvMem kv']> l))) v) as E3. rewrite En, !owns_Some in E3.
  change (owns (Arr p (<[i := KvMem kv']> l))) with (owns p ⊎ owns (<[i := KvMem kv']> l)) in E3. change (owns (Arr p l)) with (owns p ⊎ owns l) in E3.
  specialize (E2 kv'). own_eq.
Qed.

(** ** The device goes on running *)

Lemma put_queue_len (qid : Z) q l : always (put_queue qid q l) (fun '(l', _) => zlen l' = zlen l).
Proof. unfold put_queue. destruct (l !! qid); [|by intros h x h' E]. apply always_ret. apply zlen_zinsert. Qed.
Lemma take_queue_len (qid : Z) l : always (take_queue qid l) (fun l' => zlen l' = zlen l).
Proof. unfold take_queue. destruct (l !! qid); [|by intros h x h' E]. apply always_bind. intros _. apply always_ret. apply zlen_zinsert. Qed.

Lemma running_queues v n m a b : running v -> zlen a = NR_QUEUE_SLOTS -> zlen b = NR_QUEUE_SLOTS ->
  0 <= n < NR_QUEUE_SLOTS -> 0 <= m < NR_QUEUE_SLOTS -> running (vm_with_queues n m a b v).
Proof. intros [_ _ H3 H4] Ha Hb Hn Hm. by split. Qed.

Lemma admin_kept v q : running v -> running (vm_with_admin q v).
Proof. intros [H1 H2 H3 H4]. by split. Qed.
Lemma storage_kept v a b : running v -> running (vm_with_storage a b v).
Proof. intros [H1 H2 H3 H4]. by split. Qed.

Lemma kv_kept i f v : (forall kv, zlen kv.(kfm_iter_handle) = 17 -> always (f kv) (fun kv' => zlen kv'.(kfm_iter_handle) = 17)) -> running v ->
  always (kv_command_mem i f v) running.
Proof.
  intros Hf Hv. pose proof Hv as [H1 H2 ([p l] & En & Hl) H4]. unfold kv_command_mem. rewrite En. cbn [ar_elems ar_ptr] in *.
  destruct (l !! i) as [[| | |kv]|] eqn:Ei; try by apply always_ret.
  eapply always_bind_with; [apply Hf, (Forall_zlookup _ _ _ _ Hl Ei)|]. intros kv' Hkv. apply always_ret. split; [done..| |done].
  exists (Arr p (<[i := KvMem kv']> l)). split; [done|]. by apply Forall_zinsert.
Qed.

Lemma iter_open_kept kv : zlen kv.(kfm_iter_handle) = 17 -> always (kv_iter_open_mem kv) (fun kv' => zlen kv'.(kfm_iter_handle) = 17).
Proof.
  intros Hk. unfold kv_iter_open_mem. destruct (head _); [|by apply always_ret]. do 2 (apply always_bind; intros ?). apply always_ret.
  cbn [with_handle kfm_iter_handle]. by rewrite zlen_zinsert.
Qed.
Lemma iter_close_kept (i : Z) kv : zlen kv.(kfm_iter_handle) = 17 -> always (kv_iter_close_mem i kv) (fun kv' => zlen kv'.(kfm_iter_handle) = 17).
Proof.
  intros Hk. unfold kv_iter_close_mem. destruct (_ !! i) as [[h|]|]; [|by apply always_ret|by intros h x h' E].
  do 3 (apply always_bind; intros ?). apply always_ret. cbn [with_handle kfm_iter_handle]. by rewrite zlen_zinsert.
Qed.

Lemma life_step_kept e v : running v -> event_ok e -> always (life_step e v) (fun '(v', _) => running v').
Proof.
  intros Hv He. pose proof Hv as [[Hs Hc] [Hns Hnc] Hn Hw].
  assert (forall m, always m running -> always (v ← m; mret (v, @None queue_mem)) (fun '(v', _) => running v')) as Hkeep.
  { intros m Hm. eapply always_bind_with; [exact Hm|]. intros v' Hv'. by apply always_ret. }
  destruct e as [qid mp|qid mp|qid|qid|n m| | | | |i|i iter|i]; cbn [life_step event_ok] in *.
  - apply always_bind. intros q. eapply always_bind_with; [apply put_queue_len|]. intros [l old] Hl. cbn in Hl. apply always_ret. apply running_queues; (done || lia).
  - apply always_bind. intros q. eapply always_bind_with; [apply put_queue_len|]. intros [l old] Hl. cbn in Hl. apply always_ret. apply running_queues; (done || lia).
  - apply Hkeep. eapply always_bind_with; [apply take_queue_len|]. intros l Hl. cbn in Hl. apply always_ret. apply running_queues; (done || lia).
  - apply Hkeep. eapply always_bind_with; [apply take_queue_len|]. intros l Hl. cbn in Hl. apply always_ret. apply running_queues; (done || lia).
  - apply always_ret. apply running_queues; (done || lia).
  - apply Hkeep. unfold aqa_changed_mem. destruct (vm_admin_q v); [by apply always_ret|]. apply always_bind. intros q. apply always_ret. by apply admin_kept.
  - apply Hkeep. unfold asq_changed_mem. destruct (vm_admin_q v); [|by apply always_ret]. do 2 (apply always_bind; intros ?). apply always_ret. by apply admin_kept.
  - apply Hkeep. unfold acq_changed_mem. destruct (vm_admin_q v); [|by apply always_ret]. do 2 (apply always_bind; intros ?). apply always_ret. by apply admin_kept.
  - apply Hkeep. do 2 (apply always_bind; intros ?). apply always_ret. by apply storage_kept.
  - apply Hkeep, kv_kept; [apply iter_open_kept|done].
  - apply Hkeep, kv_kept; [apply iter_close_kept|done].
  - apply Hkeep, kv_kept; [|done]. intros kv Hk. apply always_bind. intros _. by apply always_ret.
Qed.

Lemma life_step_ok e v : running v -> event_ok e -> triple (owns v) (life_step e v) owns.
Proof.
  intros Hv He. 
  assert (forall m, triple (owns v) m owns -> triple (owns v) (v ← m; mret (v, @None queue_mem)) owns) as Hkeep.
  { intros m Hm. eapply triple_bind; [exact Hm|]. intros v'. apply triple_done. pair_owns. none_owns. own_eq. }
  destruct e as [qid mp|qid mp|qid|qid|n m| | | | |i|i iter|i]; cbn [life_step event_ok] in *.
  - by apply create_cq_mem_ok.
  - by apply create_sq_mem_ok.
  - by apply Hkeep, delete_cq_mem_ok.
  - by apply Hkeep, delete_sq_mem_ok.
  - apply triple_done. pair_owns. none_owns. destruct (owns_queues n m v.(vm_sqes) v.(vm_cqes) v) as [E1 E2]. own_eq.
  - apply Hkeep, aqa_mem_ok.
  - apply Hkeep, asq_mem_ok.
  - apply Hkeep, acq_mem_ok.
  - apply Hkeep, units_mem_ok.
  - apply Hkeep, kv_mem_ok; [|done]. intros kv _. apply kv_iter_opened.
  - apply Hkeep, kv_mem_ok; [|done]. intros kv Hk. apply kv_iter_closed. lia.
  - apply Hkeep, kv_mem_ok; [|done]. intros kv _. mstep kv_batch_keeps. intros _. apply triple_done. own_eq.
Qed.

Lemma life_run_kept es v lost : running v -> Forall event_ok es -> always (life_run es v lost) (fun '(v', _) => running v').
Proof.
  intros Hv Hes. revert v lost Hv. induction Hes as [|e es He _ IH]; intros v lost Hv; cbn [life_run]; [by apply always_ret|].
  eapply always_bind_with; [by apply life_step_kept|]. intros [v' q] Hv'. by apply IH.
Qed.

Lemma life_run_ok es v lost : running v -> Forall event_ok es -> triple (owns v ⊎ owns lost) (life_run es v lost) owns.
Proof.
  intros Hv Hes. revert v lost Hv. induction Hes as [|e es He _ IH]; intros v lost Hv; cbn [life_run]; [by apply triple_done|].
  eapply (triple_with _ _ _ _ _ _ (triple_frame _ _ _ (owns lost) (life_step_ok e v Hv He)) (life_step_kept e v Hv He)).
  intros [v' q] Hv'. eapply triple_eq; [apply (IH v' (q :: lost) Hv')|pair_owns; rewrite owns_cons; own_eq|done].
Qed.

(** ** The end *)

(** The device without what is released before it. *)
Definition owns_body (v : vdev_mem) : own :=
  owns v.(vm_self) ⊎ owns v.(vm_virtDev) ⊎ owns v.(vm_msix_table) ⊎ owns v.(vm_bar) ⊎ owns v.(vm_old_bar) ⊎ owns v.(vm_old_dbs) ⊎ owns v.(vm_admin_q).

Lemma owns_parts v :
  owns v = owns_body v ⊎ owns v.(vm_io_unit_stat) ⊎ owns v.(vm_storage_mapped) ⊎ owns v.(vm_ns) ⊎ owns v.(vm_io_workers) ⊎ owns v.(vm_sqes) ⊎ owns v.(vm_cqes).
Proof. done. Qed.

Lemma vdev_finalized v : triple (owns_body v) (VDEV_FINALIZE_mem v) (fun _ => ∅).
Proof.
  unfold VDEV_FINALIZE_mem, owns_body. mstep (free_opt_ok v.(vm_msix_table)). intros _. mstep (free_opt_ok v.(vm_bar)). intros _.
  mstep (free_opt_ok v.(vm_old_bar)). intros _. mstep (free_opt_ok v.(vm_old_dbs)). intros _.
  assert (triple (owns v.(vm_admin_q)) (match v.(vm_admin_q) with
      | Some q => _ ← free_opt q.(aqm_nvme_cq); _ ← free_opt q.(aqm_nvme_sq); free q.(aqm_self) | None => mret () end) (fun _ => ∅)) as Ha.
  { destruct (vm_admin_q v) as [q|]; [|by apply triple_done]. rewrite owns_Some, owns_admin_eq. mstep (free_opt_ok q.(aqm_nvme_cq)). intros _.
    mstep (free_opt_ok q.(aqm_nvme_sq)). intros _. mlast (free_ok q.(aqm_self)). }
  mstep Ha. intros _. mstep (free_ok v.(vm_virtDev)). intros _. mlast (free_ok v.(vm_self)).
Qed.

(** What the removal of the namespaces leaves, and what is left of the queues: the
    pages of those whose structure is freed, and all of the others. *)
Definition namespaces_left (v : vdev_mem) : own := match v.(vm_ns) with Some nss => ⋃+ (ns_left <$> nss.(ar_elems)) | None => ∅ end.
Definition queue_left (o : option queue_mem) : own := match o with Some q => owns q.(qm_pages) ⊎ owns q.(qm_mapped) | None => ∅ end.
Definition queues_left (nr : Z) (l : list (option queue_mem)) : own := ⋃+ (queue_left <$> take (Z.to_nat nr) l) ⊎ owns (drop (Z.to_nat nr) l).
Definition left_behind (v : vdev_mem) : own :=
  namespaces_left v ⊎ queues_left v.(vm_nr_sq) v.(vm_sqes) ⊎ queues_left v.(vm_nr_cq) v.(vm_cqes).

Lemma workers_final v : is_Some v.(vm_io_workers) ->
  triple (owns v) (NVMEV_IO_WORKER_FINAL_mem v) owns /\ always (NVMEV_IO_WORKER_FINAL_mem v) (fun v' => v' = vm_with_workers None v).
Proof.
  intros [w Ew]. unfold NVMEV_IO_WORKER_FINAL_mem. rewrite Ew. split; [|apply always_bind; intros _; by apply always_ret].
  pose proof (owns_with_workers None v) as E. none_owns. rewrite Ew, owns_Some in E.
  eapply (triple_step _ _ _ _ (owns (vm_with_workers None v)) _ _ (free_arr_ok free w (fun p => free_ok p))); [own_eq|]. intros _. apply triple_done. own_eq.
Qed.

Lemma namespaces_final v : (exists nss, v.(vm_ns) = Some nss /\ Forall ns_fits nss.(ar_elems)) ->
  triple (owns v) (NVMEV_NAMESPACE_FINAL_mem v) (fun v' => owns v' ⊎ namespaces_left v) /\ always (NVMEV_NAMESPACE_FINAL_mem v) (fun v' => v' = vm_with_ns None v).
Proof.
  intros (nss & En & Hf). unfold NVMEV_NAMESPACE_FINAL_mem, namespaces_left. rewrite En. split; [|apply always_bind; intros _; by apply always_ret].
  pose proof (owns_with_ns None v) as E. none_owns. rewrite En, owns_Some in E. change (owns nss) with (owns nss.(ar_ptr) ⊎ ⋃+ (owns <$> nss.(ar_elems))) in E.
  assert (triple (owns nss.(ar_ptr) ⊎ ⋃+ (owns <$> nss.(ar_elems))) (free_arr ns_remove_mem nss) (fun _ => ⋃+ (ns_left <$> nss.(ar_elems)))) as Hr.
  { apply free_arr_leaves. intros ns Hns. apply namespace_removed. revert ns Hns. by apply list.Forall_forall. }
  eapply (triple_step _ _ _ _ (owns (vm_with_ns None v)) _ _ Hr); [own_eq|]. intros _. apply triple_done. own_eq.
Qed.

Lemma storage_final v : triple (owns v) (NVMEV_STORAGE_FINAL_mem v) owns /\ always (NVMEV_STORAGE_FINAL_mem v) (fun v' => v' = vm_with_storage None None v).
Proof.
  unfold NVMEV_STORAGE_FINAL_mem. split; [|do 2 (apply always_bind; intros _); by apply always_ret]. pose proof (owns_with_storage None None v) as E. none_owns.
  eapply (triple_step _ _ _ _ (owns (vm_with_storage None None v) ⊎ owns v.(vm_io_unit_stat)) _ _ (free_opt_ok v.(vm_storage_mapped))); [own_eq|]. intros _.
  eapply (triple_step _ _ _ _ (owns (vm_with_storage None None v)) _ _ (free_opt_ok v.(vm_io_unit_stat))); [own_eq|]. intros _. apply triple_done. own_eq.
Qed.

Lemma queue_structs_freed nr l : 0 <= nr <= zlen l -> triple (owns l) (free_queue_structs nr l) (fun _ => queues_left nr l).
Proof.
  intros Hn. unfold free_queue_structs, queues_left. rewrite (proj2 (Z.ltb_ge _ _)) by lia.
  rewrite <- (take_drop (Z.to_nat nr) l) at 1. rewrite owns_app. apply triple_frame, each_leaves.
  intros [q|] _; [|by apply triple_done]. rewrite owns_Some, owns_queue_eq. cbn [queue_left]. mlast (free_ok q.(qm_self)).
Qed.

Lemma exit_ok v : running v -> triple (owns v) (NVMeV_exit_mem v) (fun _ => left_behind v).
Proof.
  intros Hv. pose proof Hv as [[Hs Hc] [Hns Hnc] Hn Hw]. unfold NVMeV_exit_mem.
  destruct (workers_final v Hw) as [T1 A1]. eapply (triple_with _ _ _ _ _ _ T1 A1). intros v1 ->.
  destruct (namespaces_final (vm_with_workers None v) Hn) as [T2 A2]. eapply (triple_with _ _ _ _ _ _ T2 A2). intros v2 ->.
  destruct (storage_final (vm_with_ns None (vm_with_workers None v))) as [T3 A3].
  eapply (triple_with _ _ _ _ _ _ (triple_frame _ _ _ _ T3) A3). intros v3 ->. cbn beta.
  change (vm_nr_sq _) with v.(vm_nr_sq). change (vm_nr_cq _) with v.(vm_nr_cq). change (vm_sqes _) with v.(vm_sqes). change (vm_cqes _) with v.(vm_cqes).
  set (v3 := vm_with_storage None None _). change (namespaces_left (vm_with_workers None v)) with (namespaces_left v).
  assert (owns v3 = owns_body v3 ⊎ owns v.(vm_sqes) ⊎ owns v.(vm_cqes)) as ->.
  { rewrite owns_parts. change (vm_sqes v3) with v.(vm_sqes). change (vm_cqes v3) with v.(vm_cqes). change (vm_io_unit_stat v3) with (@None (ptr Kmalloc)).
    change (vm_storage_mapped v3) with (@None (ptr Mapped)). change (vm_ns v3) with (@None (arr ns_mem)). change (vm_io_workers v3) with (@None (arr (ptr Kmalloc))).
    none_owns. own_eq. }
  mstep (queue_structs_freed v.(vm_nr_sq) v.(vm_sqes) ltac:(lia)). intros _. mstep (queue_structs_freed v.(vm_nr_cq) v.(vm_cqes) ltac:(lia)). intros _.
  unfold left_behind. mlast (vdev_finalized v3).
Qed.
