(* ===== verification/Toy.v ===== *)
(** * A small device

    A device small enough to be evaluated: two partitions of two channels, with
    eight blocks of four pages on each die.  The properties of the library are
    instantiated at it, and it is run: enough writes for garbage collection to
    start. *)

From stdpp Require Import prelude list.
From Stdlib Require Import ZArith Lia.
From S2P Require Import Prelude ChannelModel Pqueue SsdConfig Ssd ConvFtl ConvInv ConvState ConvStep ConvMaps.
From S2P Require Import ConvGc ConvWrite ConvNs ConvInit ConvRun.

#[export, refine] Instance toy_chan : ChanConfig := {| NR_CREDIT_ENTRIES := 16 |}.
Proof. lia. Defined.

#[export] Instance toy_ssd : SsdConfig := {|
  MDTS := 6; CELL_MODE := CELL_MODE_MLC; SSD_PARTITIONS := 2;
  NAND_CHANNELS := 4; LUNS_PER_NAND_CH := 1; PLNS_PER_LUN := 1;
  FLASH_PAGE_SIZE := 4096; ONESHOT_PAGE_SIZE := 8192;
  BLKS_PER_PLN := 8; BLK_SIZE := 0;
  MAX_CH_XFER_SIZE := 16384; WRITE_UNIT_SIZE := 512;
  NAND_CHANNEL_BANDWIDTH := 800; PCIE_BANDWIDTH := 3360;
  NAND_4KB_READ_LATENCY := [29760; 41760; 0];
  NAND_READ_LATENCY := [30013; 42013; 0];
  NAND_PROG_LATENCY := 185000; NAND_ERASE_LATENCY := 0;
  FW_4KB_READ_LATENCY := 21500; FW_READ_LATENCY := 30490;
  FW_WBUF_LATENCY0 := 4000; FW_WBUF_LATENCY1 := 460; FW_CH_XFER_LATENCY := 0;
  OP_AREA_HUNDREDTHS := 7;
  GLOBAL_WB_SIZE := 65536; WRITE_EARLY_COMPLETION := true;
  LBA_BITS := 9
|}.

(** A clock that moves a microsecond at every reading. *)
#[export, refine] Instance toy_clock : Clock := {|
  cpu_clock := fun n => (Z.of_nat n * 1000) `mod` 4294967296;
  local_clock := fun n => (Z.of_nat n * 1000) `mod` 4294967296
|}.
Proof.
  - intros n. pose proof (Z.mod_pos_bound (Z.of_nat n * 1000) 4294967296). lia.
  - intros n. pose proof (Z.mod_pos_bound (Z.of_nat n * 1000) 4294967296). lia.
Defined.

Definition toy_size : Z := 524288.
Definition toy_hw : hw := Hw 0 [] [] [].

(** The logical pages of a partition that the host uses. *)
Definition toy_L : Z := 31.

Lemma toy_config_ok : config_ok.
Proof.
  split; try (vm_compute; split; congruence).
  - split; [reflexivity|by exists 1].
  - split; [vm_compute; split; congruence|by exists 2].
  - split; [vm_compute; split; congruence|done].
  - done.
Qed.

Lemma toy_fits : fits toy_size SSD_PARTITIONS.
Proof.
  split; try (vm_compute; congruence).
  - split; [done|by exists 2].
  - vm_compute; split; congruence.
Qed.

Lemma toy_session_ok : session_ok toy_L toy_size.
Proof.
  split; [apply toy_config_ok|apply toy_fits|done|done|vm_compute; split; congruence..].
Qed.

(** A result that is one, by evaluation. *)
Definition is_Ok {A} (r : res A) : bool := match r with Ok _ => true | Fault _ => false end.
Definition fault_of {A} (r : res A) : option fault := match r with Ok _ => None | Fault f => Some f end.
Definition get_Ok {A} (a : A) (r : res A) : A := match r with Ok x => x | Fault _ => a end.
Lemma get_Ok_eq {A} (a : A) r : is_Ok r = true -> r = Ok (get_Ok a r).
Proof. by destruct r. Qed.

(** Writes of one page each, at the logical blocks [lbas]. *)
Definition toy_write (lba : Z) : event := Command (Request (RwCommand nvme_cmd_write lba 7 0) 1 1000).
Definition toy_read (lba : Z) : event := Command (Request (RwCommand nvme_cmd_read lba 7 0) 1 1000).

(** Every page of the first sixty, then the even ones again, each write
    followed by the release of its buffer. *)
Definition toy_events : list event :=
  ((fun k => k * 8) <$> (zrange 0 60 ++ ((fun k => k * 2) <$> zrange 0 30) ++ zrange 0 60)) ≫=
    (fun lba => [toy_write lba; Released 4096]).

Definition toy_run : res (conv_ns * hw) :=
  '(ns, h) ← conv_init_namespace 0 toy_size 0 0 toy_hw; rfold exec toy_events (ns, h).

(** What is left of a run: the free lines of each partition and the number of
    internal operations. *)
Definition toy_summary (r : res (conv_ns * hw)) : option (list Z * Z) :=
  match r with
  | Ok (ns, h) => Some ((fun f => f.(cf_lm).(free_line_cnt)) <$> ns.(cn_ftls), zlen h.(hw_sched))
  | Fault _ => None
  end.

(** A partition has 64 pages and 75 page writes went to each; every second
    page completes a one-shot page and schedules the release of its buffer. *)
Example toy_run_collects : toy_summary toy_run = Some ([2; 2], 75).
Proof. vm_compute. reflexivity. Qed.
