(* ===== verification/BaseProps.v ===== *)
(** * Properties of the priority queue, the channel model and the device

    The theorems about pqueue.c, channel_model.c and ssd.c, each followed by an
    instance: for the queue, the lines of an FTL ordered by their valid pages. *)

From stdpp Require Import prelude list.
From Stdlib Require Import ZArith Lia.
From S2P Require Import Prelude ChannelModel Pqueue SsdConfig Ssd ConvFtl ConvInv Toy.

(** ** The priority queue *)

Definition toy_lines : list line := [Line 0 0 9 0; Line 1 0 4 0; Line 2 0 7 0; Line 3 0 4 0].
Definition toy_empty : pqueue := Pqueue 1 5 5 (zrepeat 5 0).

Lemma toy_empty_ok : pq_ok toy_lines toy_empty.
Proof.
  split; try done; simpl; try lia. intros p j Hc Hj. unfold child in Hc. simpl in *. lia.
Qed.

Lemma toy_node x : 0 <= x < 4 -> line_node toy_lines x.
Proof.
  intros Hx. assert (x = 0 \/ x = 1 \/ x = 2 \/ x = 3) as [->|[->|[->| ->]]] by lia;
    eexists; (split; [reflexivity|]); unfold queueable; simpl; lia.
Qed.

(** The queue of the four lines. *)
Lemma toy_full :
  exists st q, pq_ok st q /\ frame toy_lines st /\ q.(pq_size) = 5 /\ forall y, in_pq q y <-> 0 <= y < 4.
Proof.
  enough (forall n, 0 <= n <= 4 -> exists st q, pq_ok st q /\ frame toy_lines st /\
    q.(pq_size) = n + 1 /\ q.(pq_avail) = 5 /\ forall y, in_pq q y <-> 0 <= y < n) as Hn.
  { destruct (Hn 4) as (st & q & ? & ? & ? & _ & ?); [lia|]. by exists st, q. }
  intros n [Hn0 Hn4]. revert Hn4. pattern n. apply natlike_ind; [| |done]; clear n Hn0.
  - intros _. exists toy_lines, toy_empty. split; [apply toy_empty_ok|]. do 3 (split; [done|]).
    intros y. split; [intros (j & Hj & _); simpl in Hj; lia|lia].
  - intros n Hn IH Hn4. destruct IH as (st & q & Hq & Hfr & Hsz & Hav & Hin); [lia|].
    destruct (okp_inv _ _ (pqueue_insert_spec st q n Hq ltac:(apply (frame_node _ _ n Hfr), toy_node; lia)
      ltac:(rewrite Hin; lia) ltac:(lia))) as ([[rc oq] st'] & _ & _ & q' & _ & (H1 & H2 & H3) & _ & H4 & H5).
    exists st', q'. split; [done|]. split; [by etrans|]. split; [lia|]. split; [lia|].
    intros y. rewrite H3, Hin. lia.
Qed.

(** An insertion into a queue with room succeeds: the queue holds the old
    elements and the new one, is a heap again with its positions right, and
    touches nothing but positions of its elements. *)
Theorem pqueue_insert_correct `{CB : PqCallbacks St, LW : !PqLaws St} (st : St) q x :
  pq_ok st q -> node_ok st x -> ~ in_pq q x -> q.(pq_size) < q.(pq_avail) ->
  okp (pqueue_insert (Some q) x st) (fun '(rc, oq, st') =>
    rc = 0 /\ exists q', oq = Some q' /\ pq_upd st (fun y => y = x \/ in_pq q y) st' q' /\
    pos_kept st st' (fun y => y = x \/ in_pq q y) /\
    q'.(pq_size) = q.(pq_size) + 1 /\ q'.(pq_avail) = q.(pq_avail)).
Proof. apply pqueue_insert_spec. Qed.

Lemma pqueue_insert_correct_witness :
  okp (pqueue_insert (Some toy_empty) 2 toy_lines) (fun '(rc, oq, st') =>
    rc = 0 /\ exists q', oq = Some q' /\ pq_upd toy_lines (fun y => y = 2 \/ in_pq toy_empty y) st' q' /\
    pos_kept toy_lines st' (fun y => y = 2 \/ in_pq toy_empty y) /\ q'.(pq_size) = 2 /\ q'.(pq_avail) = 5).
Proof.
  apply (pqueue_insert_correct toy_lines toy_empty 2); [apply toy_empty_ok|apply toy_node; lia| |simpl; lia].
  intros (j & Hj & _). simpl in Hj. lia.
Defined.

(** C15: a pop of a queue that holds something takes out an element that no
    other beats, and leaves a heap of the others. *)
Theorem pqueue_pop_correct `{CB : PqCallbacks St, LW : !PqLaws St} (st : St) q :
  pq_ok st q -> 1 < q.(pq_size) ->
  okp (pqueue_pop (Some q) st) (fun '(o, oq, st') =>
    exists x q', o = Some x /\ oq = Some q' /\ in_pq q x /\
    (forall y, in_pq q y -> cmppri (pri_of st x) (pri_of st y) = false) /\
    pq_upd st (fun y => in_pq q y /\ y <> x) st' q' /\ pos_kept st st' (in_pq q) /\
    q'.(pq_size) = q.(pq_size) - 1).
Proof.
  intros. eapply okp_mono; [by apply pqueue_pop_spec|].
  intros [[o oq] st'] (x & q' & ? & ? & ? & _ & ? & ? & ? & ? & _). by exists x, q'.
Qed.

Lemma pqueue_pop_correct_witness :
  exists st q, q.(pq_size) = 5 /\ okp (pqueue_pop (Some q) st) (fun '(o, oq, st') =>
    exists x q', o = Some x /\ oq = Some q' /\ in_pq q x /\
    (forall y, in_pq q y -> cmppri (pri_of st x) (pri_of st y) = false) /\
    pq_upd st (fun y => in_pq q y /\ y <> x) st' q' /\ pos_kept st st' (in_pq q) /\
    q'.(pq_size) = q.(pq_size) - 1).
Proof.
  destruct toy_full as (st & q & Hq & _ & Hsz & _). exists st, q. split; [exact Hsz|].
  apply (pqueue_pop_correct st q Hq). rewrite Hsz. lia.
Defined.

(** The removal of an element of the queue leaves a heap of the others. *)
Theorem pqueue_remove_correct `{CB : PqCallbacks St, LW : !PqLaws St} (st : St) q x :
  pq_ok st q -> in_pq q x ->
  okp (pqueue_remove (Some q) x st) (fun '(rc, oq, st') =>
    rc = 0 /\ exists q', oq = Some q' /\ pq_upd st (fun y => in_pq q y /\ y <> x) st' q' /\
    pos_kept st st' (in_pq q) /\ q'.(pq_size) = q.(pq_size) - 1).
Proof.
  intros. eapply okp_mono; [by apply pqueue_remove_spec|].
  intros [[rc oq] st'] (? & q' & ? & ? & ? & ? & _). split; [done|]. by exists q'.
Qed.

Lemma pqueue_remove_correct_witness :
  exists st q, okp (pqueue_remove (Some q) 1 st) (fun '(rc, oq, st') =>
    rc = 0 /\ exists q', oq = Some q' /\ pq_upd st (fun y => in_pq q y /\ y <> 1) st' q' /\
    pos_kept st st' (in_pq q) /\ q'.(pq_size) = q.(pq_size) - 1).
Proof.
  destruct toy_full as (st & q & Hq & _ & Hsz & Hin). exists st, q.
  apply (pqueue_remove_correct st q 1 Hq). apply Hin. lia.
Defined.

(** A change of priority gives the element its new priority and restores
    the heap of the same elements, up or down. *)
Theorem pqueue_change_priority_correct `{CB : PqCallbacks St, LW : !PqLaws St} (st : St) q v x :
  pq_ok st q -> in_pq q x -> pri_ok v ->
  okp (pqueue_change_priority (Some q) v x st) (fun '(oq, st') =>
    exists q', oq = Some q' /\ pq_upd (put_pri st x v) (in_pq q) st' q' /\
    pri_of st' x = v /\ pos_kept st st' (in_pq q) /\ q'.(pq_size) = q.(pq_size)).
Proof.
  intros Hq Hx Hv. eapply okp_mono; [by apply pqueue_change_priority_spec|].
  intros [oq st'] (q' & ? & Hu & ? & ? & _). exists q'. split; [done|]. split; [done|]. split; [|done].
  destruct Hu as (_ & Hfr & _). rewrite (frame_pri _ _ x Hfr).
  apply put_pri_law; [|done]. by apply (pq_index st q x Hq Hx).
Qed.

Lemma pqueue_change_priority_correct_witness :
  exists st q, okp (pqueue_change_priority (Some q) 8 1 st) (fun '(oq, st') =>
    exists q', oq = Some q' /\ pq_upd (put_pri st 1 8) (in_pq q) st' q' /\
    pri_of st' 1 = 8 /\ pos_kept st st' (in_pq q) /\ q'.(pq_size) = q.(pq_size)).
Proof.
  destruct toy_full as (st & q & Hq & _ & Hsz & Hin). exists st, q.
  apply (pqueue_change_priority_correct st q 8 1 Hq); [apply Hin; lia|simpl; lia].
Defined.

(** C18: [pqueue_is_valid] terminates on any array whose elements can be read,
    and answers whether it is a heap. *)
Theorem pqueue_is_valid_correct `{CB : PqCallbacks St, LW : !PqLaws St} (st : St) q :
  readable st q ->
  okp (pqueue_is_valid q st) (fun b => b = true <-> heap (prio st q.(pq_d)) q.(pq_size)).
Proof. apply pqueue_is_valid_spec. Qed.

Lemma pqueue_is_valid_correct_witness :
  exists st q, okp (pqueue_is_valid q st) (fun b => b = true <-> heap (prio st q.(pq_d)) q.(pq_size)).
Proof.
  destruct toy_full as (st & q & Hq & _). exists st, q.
  exact (pqueue_is_valid_correct st q (pq_ok_readable st q Hq)).
Defined.

(** ** The channel model *)

(** C19: a request never faults on a sound channel, and is characterised: a
    late one, or one beyond the ring, moves the clock only; any other draws
    its credits greedily from the slot of its arrival on, and completes after
    the bare transfer time and the slots it waited beyond the minimum. *)
Theorem chmodel_request_correct `{CC : ChanConfig} ch now request_time len :
  chan_ok ch ->
  okp (chmodel_request now ch request_time len) (fun '(ch', tdone) =>
    chan_ok ch' /\ requested ch now request_time len ch' tdone).
Proof. apply chmodel_request_spec. Qed.

Definition toy_channel : channel_model := Channel 0 0 0 26 0 152 (zrepeat 16 26).

Lemma toy_channel_ok : chan_ok toy_channel.
Proof.
  split; try done; simpl.
  - intros i c ->%zlookup_zrepeat. lia.
  - intros k Hk. unfold slot; simpl. apply zlookup_zrepeat_lt.
    exact (slot_idx_range (H := toy_chan) 0 k).
Qed.

Lemma chmodel_request_correct_witness :
  okp (chmodel_request 9000 toy_channel 17000 16384) (fun '(ch', tdone) =>
    chan_ok ch' /\ requested toy_channel 9000 17000 16384 ch' tdone).
Proof. exact (chmodel_request_correct toy_channel 9000 17000 16384 toy_channel_ok). Defined.

(** For a bandwidth of 31 to 7811 MB/s the initialisation gives a sound
    channel whose slots hold the credits of that bandwidth. *)
Theorem chmodel_init_correct `{CC : ChanConfig} bandwidth :
  31 <= bandwidth <= 7811 ->
  okp (chmodel_init bandwidth) (fun ch => chan_ok ch /\ ch.(cur_time) = 0 /\
    ch.(max_credits) = ((bandwidth * 1048576 * 4000) `div` 1000000000) `div` 128).
Proof. apply chmodel_init_ok. Qed.

Lemma chmodel_init_correct_witness :
  okp (chmodel_init 800) (fun ch => chan_ok ch /\ ch.(cur_time) = 0 /\
    ch.(max_credits) = ((800 * 1048576 * 4000) `div` 1000000000) `div` 128).
Proof. apply (chmodel_init_correct 800). lia. Defined.

(** ** The device *)

(** C21: on a sound configuration [ssd_init_params] returns, with no division
    by zero and no failed assertion, a geometry whose derived sizes are the
    exact products of the base ones, fit the fields of a physical address, and
    whose pages cover the capacity of the partition. *)
Theorem ssd_init_params_correct `{SC : SsdConfig} capacity nparts :
  config_ok -> fits capacity nparts ->
  okp (ssd_init_params capacity nparts) (geometry_of capacity nparts).
Proof. apply ssd_init_params_ok. Qed.

(** A 970 PRO of 60 GB in four partitions. *)
Lemma samsung_fits : fits (H := samsung_970pro) (GB 60) 4.
Proof.
  split; try (vm_compute; congruence).
  - split; [done|by exists 2].
  - vm_compute; split; congruence.
Qed.

Lemma ssd_init_params_correct_witness :
  okp (ssd_init_params (H := samsung_970pro) (GB 60) 4) (geometry_of (H := samsung_970pro) (GB 60) 4).
Proof. exact (ssd_init_params_correct (SC := samsung_970pro) (GB 60) 4 samsung_970pro_ok samsung_fits). Defined.

(** A NAND command on a page of a sound device never faults; it changes no
    page, block or table, advances the time of its own die only, and that die
    is busy until the command ends (an erase or a no-op ends exactly its
    latency after the later of its start and the time the die is free). *)
Theorem ssd_advance_nand_correct `{CC : ChanConfig, CK : Clock} s ncmd h :
  params_ok s.(sd_sp) -> ssd_shape s -> link_ok s.(sd_pcie) h -> in_dev s.(sd_sp) ncmd.(nc_ppa) ->
  (ncmd.(nc_cmd) = NAND_READ -> 0 < ncmd.(nc_xfer_size) < 18446744073709551616) ->
  okp (ssd_advance_nand s ncmd h) (fun '(s', h', t) =>
    ssd_shape s' /\ same_nand s s' /\ hw_adv s.(sd_pcie) h h' /\ nand_timed s s' ncmd h t).
Proof. apply ssd_advance_nand_timed. Qed.

(** A new device of the size of Toy.v. *)
Lemma toy_device :
  exists s h, params_ok s.(sd_sp) /\ ssd_shape s /\ link_ok s.(sd_pcie) h.
Proof.
  destruct (okp_inv _ _ (ssd_init_params_ok toy_size 2 toy_config_ok toy_fits)) as (sp & _ & Hp & _).
  destruct (okp_inv _ _ (ssd_init_ok sp 0 toy_hw Hp)) as ([s h] & _ & H1 & H2 & _ & _ & H3 & _).
  exists s, h. rewrite H2. done.
Qed.

Lemma ssd_advance_nand_correct_witness :
  exists s h, let cmd := NandCmd USER_IO NAND_READ 4096 1000 true (Ppa 0 0 0 0 0 0) in
  okp (ssd_advance_nand s cmd h) (fun '(s', h', t) =>
    ssd_shape s' /\ same_nand s s' /\ hw_adv s.(sd_pcie) h h' /\ nand_timed s s' cmd h t).
Proof.
  destruct toy_device as (s & h & Hp & Hs & Hl). exists s, h. intros cmd.
  apply (ssd_advance_nand_correct s cmd h Hp Hs Hl); [|simpl; lia].
  destruct Hp. unfold in_dev. simpl. repeat split; lia.
Defined.

(** A new device is erased: every block of it has free pages only and zero
    counters, and its link and write buffer are new objects of the store, full
    and idle. *)
Theorem ssd_init_correct `{CC : ChanConfig} sp cpu h :
  params_ok sp ->
  okp (ssd_init sp cpu h) (fun '(s, h') =>
    ssd_shape s /\ s.(sd_sp) = sp /\ link_ok s.(sd_pcie) h' /\
    s.(sd_pcie) = Some (zlen h.(hw_pcie)) /\ s.(sd_write_buffer) = Some (zlen h.(hw_wbuf)) /\
    h'.(hw_wbuf) = h.(hw_wbuf) ++ [Some (buffer_init sp.(write_buffer_size))] /\
    (forall c l pl b, 0 <= c < sp.(nchs) -> 0 <= l < sp.(luns_per_ch) -> 0 <= pl < sp.(pls_per_lun) ->
       0 <= b < sp.(blks_per_pl) -> exists blk, blk_at s c l pl b = Some blk /\
         blk.(nb_ipc) = 0 /\ blk.(nb_vpc) = 0 /\ zlen blk.(nb_pg) = sp.(pgs_per_blk) /\
         Forall (fun g => g.(np_status) = PG_FREE) blk.(nb_pg))).
Proof.
  intros Hp. eapply okp_mono; [by apply ssd_init_ok|].
  intros [s h'] (H1 & H2 & H3 & H4 & H5 & H6 & _ & _ & _ & H7). do 6 (split; [done|]).
  intros c l pl b Hc Hl Hpl Hb. eexists. split; [by apply H7|]. pose proof (po_pgs _ Hp).
  do 2 (split; [done|]). simpl. split; [apply zlen_zrepeat; lia|by apply Forall_zrepeat].
Qed.

Lemma ssd_init_correct_witness :
  exists sp, okp (ssd_init sp 0 toy_hw) (fun '(s, h') =>
    ssd_shape s /\ s.(sd_sp) = sp /\ link_ok s.(sd_pcie) h' /\
    s.(sd_pcie) = Some 0 /\ s.(sd_write_buffer) = Some 0 /\
    h'.(hw_wbuf) = [Some (buffer_init sp.(write_buffer_size))] /\
    (forall c l pl b, 0 <= c < sp.(nchs) -> 0 <= l < sp.(luns_per_ch) -> 0 <= pl < sp.(pls_per_lun) ->
       0 <= b < sp.(blks_per_pl) -> exists blk, blk_at s c l pl b = Some blk /\
         blk.(nb_ipc) = 0 /\ blk.(nb_vpc) = 0 /\ zlen blk.(nb_pg) = sp.(pgs_per_blk) /\
         Forall (fun g => g.(np_status) = PG_FREE) blk.(nb_pg))).
Proof.
  destruct toy_device as (s & h & Hp & _). exists s.(sd_sp).
  exact (ssd_init_correct s.(sd_sp) 0 toy_hw Hp).
Defined.
