(* ===== verification/ConvProps.v ===== *)
(** * Properties of the conventional FTL

    The theorems about conv_ftl.c, each followed by its instance at the small
    device of Toy.v. *)

From stdpp Require Import prelude list list_tactics.
From Stdlib Require Import ZArith Lia.
From S2P Require Import Prelude ChannelModel Pqueue SsdConfig Ssd ConvFtl ConvInv ConvState ConvStep ConvMaps.
From S2P Require Import ConvGc ConvWrite ConvNs ConvInit ConvRun Toy.

(** ** The small device satisfies the hypotheses *)

Lemma toy_hosts req : Command req ∈ toy_events -> host_ok toy_L req.
Proof.
  assert (Forall (fun ev => match ev with Command req => host_ok toy_L req | _ => True end) toy_events) as HF.
  { unfold toy_events. apply Forall_bind, Forall_forall. intros lba Hin.
    assert (0 <= lba <= 472) as Hl.
    { apply list_elem_of_fmap in Hin as (k & -> & Hk). rewrite !elem_of_app, !elem_of_zrange in Hk.
      destruct Hk as [?|[Hk|?]]; [lia| |lia]. apply list_elem_of_fmap in Hk as (j & -> & ?%elem_of_zrange). lia. }
    constructor; [|by constructor]. split; [unfold req_ok; simpl; lia|]. intros _. simpl. split; [done|].
    change (page_of (lba + 7)) with ((lba + 7) `div` 8). unfold toy_L.
    assert ((lba + 7) `div` 8 < 60) by (apply Z.div_lt_upper_bound; lia).
    apply Z.div_lt_upper_bound; [done|]. change SSD_PARTITIONS with 2. lia. }
  intros Hin. rewrite Forall_forall in HF. by apply HF in Hin.
Qed.

(** A sound namespace, reached by a session. *)
Lemma toy_reached :
  exists sp p w ns h, session 0 toy_size 0 0 toy_hw toy_events = Ok (ns, h) /\ geometry_of toy_size SSD_PARTITIONS sp /\
    run_ok toy_L sp (Some p) (Some w) SSD_PARTITIONS
      (fun l => exists req, Command req ∈ toy_events /\ writes_page req l) (ns, h).
Proof.
  destruct (okp_inv _ _ (session_spec toy_L 0 toy_size 0 0 toy_hw toy_events toy_session_ok toy_hosts))
    as ([ns h] & E & sp & p & w & Hgeo & Hrun).
  exists sp, p, w, ns, h. split; [exact E|]. split; [exact Hgeo|exact Hrun].
Qed.

(** ** Sessions *)

(** C1: a new conventional namespace executes every sequence of commands and
    buffer releases, garbage collection included, without a failed assertion, a
    bad dereference, an index out of bounds or a division by zero, provided the
    host stays below [L] pages of each partition; and only pages that a write
    command covered are ever mapped. *)
Theorem conv_session_safe `{SC : SsdConfig, CC : ChanConfig, CK : Clock} L id size addr cpu h evs :
  session_ok L size -> (forall req, Command req ∈ evs -> host_ok L req) ->
  okp (session id size addr cpu h evs) (fun '(ns, h') =>
    ns.(cn_nr_parts) = SSD_PARTITIONS /\
    forall lpn, 0 <= lpn -> ns_mapped ns lpn -> exists req, Command req ∈ evs /\ writes_page req lpn).
Proof.
  intros Hs Hevs. eapply okp_mono; [by apply session_spec|].
  intros [ns h'] (sp & p & w & _ & [_ [Hnr _] _ _ Hm]). split; [done|]. intros lpn. by apply Hm.
Qed.

Lemma conv_session_safe_witness :
  okp (session 0 toy_size 0 0 toy_hw toy_events) (fun '(ns, h') =>
    ns.(cn_nr_parts) = SSD_PARTITIONS /\
    forall lpn, 0 <= lpn -> ns_mapped ns lpn -> exists req, Command req ∈ toy_events /\ writes_page req lpn).
Proof. exact (conv_session_safe toy_L 0 toy_size 0 0 toy_hw toy_events toy_session_ok toy_hosts). Defined.

(** C2: in every state that a session reaches, the mapping table and the reverse
    mapping table of each partition are inverse to each other: a mapped logical
    page leads to a valid physical page that leads back to it, and every valid
    physical page belongs to a logical page. *)
Theorem conv_session_mapping `{SC : SsdConfig, CC : ChanConfig, CK : Clock} L id size addr cpu h evs :
  session_ok L size -> (forall req, Command req ∈ evs -> host_ok L req) ->
  okp (session id size addr cpu h evs) (fun '(ns, h') => Forall mapping_sound ns.(cn_ftls)).
Proof.
  intros Hs Hevs. eapply okp_mono; [by apply session_spec|].
  intros [ns h'] (sp & p & w & _ & [Hns _ _ _ _]). apply Forall_forall. intros f [i Ef]%elem_of_zlookup.
  destruct (no_part _ _ _ _ _ Hns i f Ef) as ([[] _] & _). by apply mapping_sound_ok.
Qed.

Lemma conv_session_mapping_witness :
  okp (session 0 toy_size 0 0 toy_hw toy_events) (fun '(ns, h') => Forall mapping_sound ns.(cn_ftls)).
Proof. exact (conv_session_mapping toy_L 0 toy_size 0 0 toy_hw toy_events toy_session_ok toy_hosts). Defined.

(** C3: in every state that a session reaches, each line of a partition is in
    exactly one place (free list, full list, victim queue, or under a write
    pointer), the counters of the lists are their lengths, the victim queue is
    a valid heap, the counters of a line are the numbers of its valid and
    invalid pages, a free line has free pages only, a full line valid pages
    only and a queued line no free page. *)
Theorem conv_session_lines `{SC : SsdConfig, CC : ChanConfig, CK : Clock} L id size addr cpu h evs :
  session_ok L size -> (forall req, Command req ∈ evs -> host_ok L req) ->
  okp (session id size addr cpu h evs) (fun '(ns, h') => Forall lines_sound ns.(cn_ftls)).
Proof.
  intros Hs Hevs. eapply okp_mono; [by apply session_spec|].
  intros [ns h'] (sp & p & w & _ & [Hns _ _ _ _]). apply Forall_forall. intros f [i Ef]%elem_of_zlookup.
  destruct (no_part _ _ _ _ _ Hns i f Ef) as ([[] _] & _). by apply lines_sound_ok.
Qed.

Lemma conv_session_lines_witness :
  okp (session 0 toy_size 0 0 toy_hw toy_events) (fun '(ns, h') => Forall lines_sound ns.(cn_ftls)).
Proof. exact (conv_session_lines toy_L 0 toy_size 0 0 toy_hw toy_events toy_session_ok toy_hosts). Defined.

(** ** Commands *)

(** C4: a write either fits in the write buffer and succeeds, or is refused
    and changes nothing.  A successful write takes its bytes from the buffer,
    maps exactly the pages it covers and keeps all others, keeps the invariant
    of the namespace, and schedules exactly one release, of the bytes of a one-shot
    page to the buffer, for each of its pages that fills a one-shot page of its
    partition; every partition is left with the pages of the one-shot page that it
    has not filled, so that the next write goes on from there. *)
Theorem conv_write_correct `{SC : SsdConfig, CC : ChanConfig, CK : Clock} L sp pc wb ns req ret h buf :
  ns_ok L sp pc wb ns -> link_ok pc h -> deref h.(hw_wbuf) wb = Ok buf -> req_ok req ->
  0 <= buf.(bf_remaining) < 18446744073709551616 ->
  LBA_TO_BYTE (req.(rq_cmd).(rw_length) + 1) <= buf.(bf_size) < 4294967296 ->
  last_page_of sp req `div` ns.(cn_nr_parts) < L ->
  okp (conv_write ns req ret h) (fun '(ns', h', ret', ok) =>
    (ok = true <-> LBA_TO_BYTE (req.(rq_cmd).(rw_length) + 1) <= buf.(bf_remaining)) /\
    if ok : bool then
      ns_ok L sp pc wb ns' /\ same_ns ns ns' /\ ret'.(rs_status) = NVME_SC_SUCCESS /\
      deref h'.(hw_wbuf) wb = Ok (Buffer buf.(bf_size)
        (buf.(bf_remaining) - LBA_TO_BYTE (req.(rq_cmd).(rw_length) + 1))) /\
      (exists ops, h'.(hw_sched) = h.(hw_sched) ++ ops /\ Forall (releases sp req.(rq_sq_id) wb) ops /\
         zlen ops = zcount (finishes sp ns (first_page sp req)) (zrange (first_page sp req) (last_page_of sp req + 1))) /\
      (forall p, 0 <= p < ns.(cn_nr_parts) -> ns_unfinished ns' p =
         (ns_unfinished ns p + pages_of ns.(cn_nr_parts) p (first_page sp req) (last_page_of sp req + 1)) `mod` sp.(pgs_per_oneshotpg)) /\
      (forall l, 0 <= l -> ns_mapped ns' l <-> first_page sp req <= l <= last_page_of sp req \/ ns_mapped ns l)
    else ns' = ns /\ ret' = ret /\ h'.(hw_sched) = h.(hw_sched) /\ deref h'.(hw_wbuf) wb = Ok buf).
Proof.
  intros. eapply okp_mono; [by apply (conv_write_ok L sp pc wb ns req ret h buf)|].
  intros [[[ns' h'] ret'] ok] (_ & Hok & Hpost). done.
Qed.

Definition toy_req (lba : Z) : nvmev_request := Request (RwCommand nvme_cmd_write lba 15 0) 1 1000.

Lemma conv_write_correct_witness :
  exists sp p w ns h buf, deref h.(hw_wbuf) (Some w) = Ok buf /\
  okp (conv_write ns (toy_req 100) (Result 0 0) h) (fun '(ns', h', ret', ok) =>
    (ok = true <-> LBA_TO_BYTE 16 <= buf.(bf_remaining)) /\
    if ok : bool then
      ns_ok toy_L sp (Some p) (Some w) ns' /\ same_ns ns ns' /\ ret'.(rs_status) = NVME_SC_SUCCESS /\
      deref h'.(hw_wbuf) (Some w) = Ok (Buffer buf.(bf_size) (buf.(bf_remaining) - LBA_TO_BYTE 16)) /\
      (exists ops, h'.(hw_sched) = h.(hw_sched) ++ ops /\ Forall (releases sp 1 (Some w)) ops /\
         zlen ops = zcount (finishes sp ns (first_page sp (toy_req 100))) (zrange (first_page sp (toy_req 100)) (last_page_of sp (toy_req 100) + 1))) /\
      (forall p, 0 <= p < ns.(cn_nr_parts) -> ns_unfinished ns' p = (ns_unfinished ns p +
         pages_of ns.(cn_nr_parts) p (first_page sp (toy_req 100)) (last_page_of sp (toy_req 100) + 1)) `mod` sp.(pgs_per_oneshotpg)) /\
      (forall l, 0 <= l -> ns_mapped ns' l <->
         first_page sp (toy_req 100) <= l <= last_page_of sp (toy_req 100) \/ ns_mapped ns l)
    else ns' = ns /\ ret' = Result 0 0 /\ h'.(hw_sched) = h.(hw_sched) /\ deref h'.(hw_wbuf) (Some w) = Ok buf).
Proof.
  destruct toy_reached as (sp & p & w & ns & h & _ & Hgeo & [Hns [Hnr _] Hl (buf & Hb & Hsz & Hrem) _]).
  simpl in *. exists sp, p, w, ns, h, buf. split; [exact Hb|].
  refine (conv_write_correct toy_L sp (Some p) (Some w) ns (toy_req 100) (Result 0 0) h buf Hns Hl Hb _ Hrem _ _).
  - unfold req_ok; simpl; lia.
  - rewrite Hsz. vm_compute. split; congruence.
  - unfold last_page_of. rewrite (geometry_secs _ _ _ _ toy_config_ok Hgeo), Hnr. vm_compute. reflexivity.
Defined.

(** Two writes of three pages on two partitions with one-shot pages of two: the first
    completes one of them, the second the other one and one more, and nothing is
    left over. *)
Example writes_release_oneshots :
  ('(ns, h) ← conv_init_namespace 0 toy_size 0 0 toy_hw;
   '(ns, h1, _, _) ← conv_write ns (Request (RwCommand nvme_cmd_write 0 23 0) 1 1000) (Result 0 0) h;
   '(ns2, h2, _, _) ← conv_write ns (Request (RwCommand nvme_cmd_write 0 23 0) 1 1000) (Result 0 0) h1;
   Ok (io_buffs <$> h1.(hw_sched), ns_unfinished ns <$> [0; 1], io_buffs <$> h2.(hw_sched), ns_unfinished ns2 <$> [0; 1])) =
  Ok ([8192], [0; 1], [8192; 8192; 8192], [0; 0]).
Proof. vm_compute. reflexivity. Qed.

(** C5: a read faults nowhere, whatever it addresses: it is refused exactly
    when its last page is beyond the physical pages of its partition, it
    completes no earlier than it was issued, and it changes only clocks, the
    blocks and the tables of every partition staying as they were. *)
Theorem conv_read_correct `{SC : SsdConfig, CC : ChanConfig, CK : Clock} L sp pc wb ns req ret h :
  ns_ok L sp pc wb ns -> link_ok pc h -> req_ok req ->
  okp (conv_read ns req ret h) (fun '(ns', h', ret', ok) =>
    (ok = true <-> last_page_of sp req `div` ns.(cn_nr_parts) < sp.(tt_pgs)) /\
    (exists ftls', ns' = with_ftls ns ftls' /\ all_ticked ns.(cn_ftls) ftls') /\
    hw_adv pc h h' /\
    if ok : bool then ret'.(rs_status) = NVME_SC_SUCCESS /\ req.(rq_nsecs_start) <= ret'.(rs_nsecs_target)
    else ret' = ret).
Proof. intros. by apply (conv_read_ok L sp pc wb). Qed.

Definition toy_read_req (lba : Z) : nvmev_request := Request (RwCommand nvme_cmd_read lba 63 0) 1 1000.

Lemma conv_read_correct_witness :
  exists sp p ns h,
  okp (conv_read ns (toy_read_req 100) (Result 0 0) h) (fun '(ns', h', ret', ok) =>
    (ok = true <-> last_page_of sp (toy_read_req 100) `div` ns.(cn_nr_parts) < sp.(tt_pgs)) /\
    (exists ftls', ns' = with_ftls ns ftls' /\ all_ticked ns.(cn_ftls) ftls') /\
    hw_adv (Some p) h h' /\
    if ok : bool then ret'.(rs_status) = NVME_SC_SUCCESS /\ 1000 <= ret'.(rs_nsecs_target)
    else ret' = Result 0 0).
Proof.
  destruct toy_reached as (sp & p & w & ns & h & _ & Hgeo & [Hns _ Hl _ _]).
  exists sp, p, ns, h.
  refine (conv_read_correct toy_L sp (Some p) (Some w) ns (toy_read_req 100) (Result 0 0) h Hns Hl _).
  unfold req_ok; simpl; lia.
Defined.

(** A flush completes at a time at which every die of every partition is
    idle, and not before the flush was issued. *)
Theorem conv_flush_correct `{SC : SsdConfig, CC : ChanConfig, CK : Clock} L sp pc wb ns req h :
  ns_ok L sp pc wb ns -> link_ok pc h ->
  okp (conv_flush ns req h) (fun '(h', ret) => ret.(rs_status) = NVME_SC_SUCCESS /\
    local_clock h.(hw_tick) <= ret.(rs_nsecs_target) /\
    (forall (i : Z) f c l n, ns.(cn_ftls) !! i = Some f -> lun_at f.(cf_ssd) c l = Some n ->
      n.(nl_next_lun_avail_time) <= ret.(rs_nsecs_target)) /\
    h'.(hw_pcie) = h.(hw_pcie) /\ h'.(hw_wbuf) = h.(hw_wbuf) /\ h'.(hw_sched) = h.(hw_sched)).
Proof.
  intros Hns Hl. eapply okp_mono; [by apply (conv_flush_ok L sp pc wb ns req h)|].
  intros [h' ret] (H1 & (_ & H2 & H3 & _) & H4 & H5 & H6). repeat (split; [done|]). done.
Qed.

Lemma conv_flush_correct_witness :
  exists ns h, okp (conv_flush ns (toy_read_req 0) h) (fun '(h', ret) => ret.(rs_status) = NVME_SC_SUCCESS /\
    local_clock h.(hw_tick) <= ret.(rs_nsecs_target) /\
    (forall (i : Z) f c l n, ns.(cn_ftls) !! i = Some f -> lun_at f.(cf_ssd) c l = Some n ->
      n.(nl_next_lun_avail_time) <= ret.(rs_nsecs_target)) /\
    h'.(hw_pcie) = h.(hw_pcie) /\ h'.(hw_wbuf) = h.(hw_wbuf) /\ h'.(hw_sched) = h.(hw_sched)).
Proof.
  destruct toy_reached as (sp & p & w & ns & h & _ & Hgeo & [Hns _ Hl _ _]). exists ns, h.
  exact (conv_flush_correct toy_L sp (Some p) (Some w) ns (toy_read_req 0) h Hns Hl).
Defined.

(** ** Writing a page, and garbage collection *)

(** The first partition after the session: it has two free lines left. *)
Lemma toy_part :
  exists f h, part_ok toy_L f /\ link_ok f.(cf_ssd).(sd_pcie) h /\ f.(cf_lm).(free_line_cnt) <= 2 /\
    (exists sp, geometry_of toy_size SSD_PARTITIONS sp /\ cf_sp f = sp).
Proof.
  destruct toy_reached as (sp & p & w & ns & h & E & Hgeo & [Hns [Hnr _] Hl _ _]).
  destruct (ns_part _ _ _ _ ns 0 Hns) as (f & Ef & Hf & Esp & Epc & _).
  { simpl in Hnr. rewrite Hnr. vm_compute. split; congruence. }
  exists f, h. split; [exact Hf|]. split; [rewrite Epc; exact Hl|].
  split; [|exists sp; split; [exact Hgeo|exact Esp]].
  pose proof toy_run_collects as Hc. change toy_run with (session 0 toy_size 0 0 toy_hw toy_events) in Hc.
  rewrite E in Hc.
  unfold toy_summary in Hc. injection Hc as Hfree _. rewrite zlookup_to_nat in Ef by lia.
  destruct (cn_ftls ns) as [|f0 l]; [discriminate Ef|]. injection Ef as ->. injection Hfree as -> _. lia.
Qed.

Lemma toy_victim f : part_ok toy_L f -> f.(cf_lm).(free_line_cnt) <= 2 -> exists b, in_victims f.(cf_lm) b.
Proof. intros [[H1 H2 H3 H4 _ _ _ _] _] Hc. by apply (conv_ok_victim toy_L f H1 H2 H3 H4). Qed.

Lemma part_flow `{CC : ChanConfig} L f :
  part_ok L f -> conv_ok None None f /\ maps_ok None [] None f /\ 2 * (cf_sp f).(pgs_per_line) < free_total f.
Proof. intros [[H1 H2 _ _ _ H5 _ H6] Hc]. split; [done|]. split; [done|]. lia. Qed.

(** C7: a host page is written out of place: it gets a page that was free, the
    page that held it, if any, becomes invalid, every other page keeps its
    status, exactly its entry of the mapping table changes, and the number of
    free pages drops by one. *)
Theorem write_page_out_of_place `{CC : ChanConfig} f lpn :
  conv_ok None None f -> maps_ok None [] None f -> 0 <= lpn < (cf_sp f).(tt_pgs) ->
  (cf_sp f).(pgs_per_line) + 2 <= free_total f ->
  okp (write_page f lpn) (fun '(f', p) =>
    conv_ok None None f' /\ maps_ok None [] None f' /\ page_written f f' lpn p /\
    free_total f' = free_total f - 1).
Proof.
  intros. eapply okp_mono; [by apply write_page_ok|]. intros [f' p] (? & ? & _ & _ & _ & ? & ? & _). done.
Qed.

Lemma toy_geometry sp : geometry_of toy_size SSD_PARTITIONS sp -> sp.(tt_pgs) = 64 /\ sp.(pgs_per_line) = 8.
Proof.
  intros (Hp & G1 & G2 & G3 & G4 & G5 & _).
  rewrite (po_tt_pgs _ Hp), (po_pgs_per_ch _ Hp), (po_pgs_per_lun _ Hp), (po_pgs_per_pl _ Hp),
    (po_pgs_per_line _ Hp), (po_tt_luns _ Hp), G1, G2, G3, G4, G5. done.
Qed.

Lemma write_page_out_of_place_witness :
  exists f, okp (write_page f 5) (fun '(f', p) =>
    conv_ok None None f' /\ maps_ok None [] None f' /\ page_written f f' 5 p /\
    free_total f' = free_total f - 1).
Proof.
  destruct toy_part as (f & h & Hf & _ & _ & sp & Hgeo & Esp). exists f.
  destruct (part_flow _ _ Hf) as (H1 & H2 & H3). destruct (toy_geometry _ Hgeo) as [H4 H5].
  apply (write_page_out_of_place f 5 H1 H2); rewrite Esp in *; lia.
Defined.

(** C8: a forced collection returns 0; it takes a victim with the fewest valid
    pages of all queued lines, moves its live pages, erases it and frees it:
    the entries of the mapping table that change are those of pages of the
    victim, they stay mapped, and the free pages grow by the invalid pages of
    the victim, which is at least one. *)
Theorem do_gc_collects `{CC : ChanConfig, CK : Clock} f h :
  conv_ok None None f -> maps_ok None [] None f -> link_ok f.(cf_ssd).(sd_pcie) h ->
  2 * (cf_sp f).(pgs_per_line) <= free_total f -> (exists b, in_victims f.(cf_lm) b) ->
  okp (do_gc f true h) (fun '(f', h', rc) => rc = 0 /\ conv_ok None None f' /\ maps_ok None [] None f' /\
    hw_adv f.(cf_ssd).(sd_pcie) h h' /\
    exists v, in_victims f.(cf_lm) v /\ (forall b, in_victims f.(cf_lm) b -> vpc_of f v <= vpc_of f b) /\
      collected v f f').
Proof. intros. by apply do_gc_ok. Qed.

Lemma do_gc_collects_witness :
  exists f h, okp (do_gc f true h) (fun '(f', h', rc) => rc = 0 /\ conv_ok None None f' /\ maps_ok None [] None f' /\
    hw_adv f.(cf_ssd).(sd_pcie) h h' /\
    exists v, in_victims f.(cf_lm) v /\ (forall b, in_victims f.(cf_lm) b -> vpc_of f v <= vpc_of f b) /\
      collected v f f').
Proof.
  destruct toy_part as (f & h & Hf & Hl & Hc & _). exists f, h.
  destruct (part_flow _ _ Hf) as (H1 & H2 & H3).
  exact (do_gc_collects f h H1 H2 Hl (Z.lt_le_incl _ _ H3) (toy_victim f Hf Hc)).
Defined.

(** The choice of the victim: nothing when no line is queued, and, unless
    it is forced, nothing when every queued line holds more than an eighth of
    valid pages; else a queued line with the fewest valid pages, which leaves
    the queue. *)
Theorem select_victim_line_correct `{CC : ChanConfig} f force :
  conv_ok None None f ->
  okp (select_victim_line f force) (fun '(f', o) =>
    match o with
    | None => f' = f /\ ((forall b, ~ in_victims f.(cf_lm) b) \/
        (force = false /\ forall b, in_victims f.(cf_lm) b -> (cf_sp f).(pgs_per_line) `div` 8 < vpc_of f b))
    | Some v => in_victims f.(cf_lm) v /\ (forall b, in_victims f.(cf_lm) b -> vpc_of f v <= vpc_of f b) /\
        (force = true \/ vpc_of f v <= (cf_sp f).(pgs_per_line) `div` 8) /\
        (forall b, in_victims f'.(cf_lm) b <-> in_victims f.(cf_lm) b /\ b <> v) /\
        conv_ok (Some v) None f'
    end).
Proof.
  intros Hf. eapply okp_mono; [by apply select_victim_line_ok|]. intros [f' [v|]]; [|done].
  intros (m & -> & H1 & H2 & H3 & H4 & _ & _ & H5). repeat (split; [done|]). done.
Qed.

Lemma select_victim_line_correct_witness :
  exists f, okp (select_victim_line f false) (fun '(f', o) =>
    match o with
    | None => f' = f /\ ((forall b, ~ in_victims f.(cf_lm) b) \/
        (false = false /\ forall b, in_victims f.(cf_lm) b -> (cf_sp f).(pgs_per_line) `div` 8 < vpc_of f b))
    | Some v => in_victims f.(cf_lm) v /\ (forall b, in_victims f.(cf_lm) b -> vpc_of f v <= vpc_of f b) /\
        (false = true \/ vpc_of f v <= (cf_sp f).(pgs_per_line) `div` 8) /\
        (forall b, in_victims f'.(cf_lm) b <-> in_victims f.(cf_lm) b /\ b <> v) /\
        conv_ok (Some v) None f'
    end).
Proof.
  destruct toy_part as (f & h & Hf & Hl & Hc & _). exists f.
  destruct (part_flow _ _ Hf) as (H1 & H2 & H3). exact (select_victim_line_correct f false H1).
Defined.

(** C10: with no credit left, a partition collects garbage if few lines are
    free and then has a credit for the next page; the pages that are mapped
    stay the same, and the invariant of the write flow holds again. *)
Theorem refill_gives_credit `{CC : ChanConfig, CK : Clock} L f h :
  part_inv L f -> link_ok f.(cf_ssd).(sd_pcie) h ->
  okp (check_and_refill_write_credit f h) (fun '(f', h') =>
    0 < f'.(cf_wfc).(write_credits) /\ part_inv L f' /\ same_mapped f f' /\
    hw_adv f.(cf_ssd).(sd_pcie) h h').
Proof.
  intros. eapply okp_mono; [by apply (check_and_refill_ok L)|]. intros [f' h'] ([? ?] & _ & ? & ?). done.
Qed.

(** The same partition with its credits used up. *)
Definition toy_broke (f : conv_ftl) : conv_ftl := with_wfc f (Wfc 0 f.(cf_wfc).(credits_to_refill)).

Lemma toy_broke_inv f : part_ok toy_L f -> part_inv toy_L (toy_broke f).
Proof.
  intros [[H1 H2 H3 H4 H5 H6 H7 H8] Hc]. split; simpl; try done.
  - destruct H1 as [Hd ? ? ? ? ? ? ? ? ?]. by split.
  - by destruct H2; split.
  - change (2 * pgs_per_line (cf_sp f) + 0 <= free_total f). lia.
Qed.

Lemma refill_gives_credit_witness :
  exists f h, f.(cf_wfc).(write_credits) = 0 /\
    okp (check_and_refill_write_credit f h) (fun '(f', h') =>
    0 < f'.(cf_wfc).(write_credits) /\ part_inv toy_L f' /\ same_mapped f f' /\
    hw_adv f.(cf_ssd).(sd_pcie) h h').
Proof.
  destruct toy_part as (f & h & Hf & Hl & _). exists (toy_broke f), h. split; [reflexivity|].
  exact (refill_gives_credit toy_L (toy_broke f) h (toy_broke_inv f Hf) Hl).
Defined.

(** A write pointer stripes its line: the page it hands out is free, and
    the free pages of its line are exactly this page and those after it, in the
    order one-shot page, die, channel, page of the one-shot page. *)
Theorem get_new_page_in_order `{CC : ChanConfig} f io :
  conv_ok None None f -> is_io io ->
  exists b x, get_new_page f io = Ok (ppa_at b x) /\ at_page f b x /\
    (wp_of f io).(wp_curline) = Some b /\
    forall y, in_line (cf_sp f) y ->
      page_at f b y = Ok PG_FREE <-> y = x \/ before (cf_sp f) x y.
Proof.
  intros Hf Hio. destruct (get_new_page_ok None None f io Hf Hio) as (b & Eb & Hb & Hx & E).
  exists b, (cursor (wp_of f io)). split; [done|]. split; [done|]. split; [done|]. intros y Hy.
  unfold page_at. rewrite page_status_at by (done || apply (cv_dev _ _ _ Hf)).
  destruct (cv_wp _ _ _ Hf io Hio) as (b' & Eb' & _ & _ & _ & Hfree).
  assert (b' = b) as -> by congruence. transitivity (pst (cf_ssd f) b y = PG_FREE); [split; congruence|].
  rewrite (Hfree y Hy). pose proof (before_total (cf_sp f) (do_params _ (cv_dev _ _ _ Hf)) y (cursor (wp_of f io))).
  pose proof (before_irrefl (cf_sp f) y). split; [intros [? _]; naive_solver|].
  intros Hor. split; [|by intros [? _]]. destruct Hor as [->|Hb']; [done|]. intros Hb2.
  by eapply before_irrefl, before_trans.
Qed.

Lemma get_new_page_in_order_witness :
  exists f b x, get_new_page f USER_IO = Ok (ppa_at b x) /\ at_page f b x /\
    (wp_of f USER_IO).(wp_curline) = Some b /\
    forall y, in_line (cf_sp f) y ->
      page_at f b y = Ok PG_FREE <-> y = x \/ before (cf_sp f) x y.
Proof.
  destruct toy_part as (f & h & Hf & _). destruct (part_flow _ _ Hf) as (H1 & _).
  exists f. exact (get_new_page_in_order f USER_IO H1 (or_introl eq_refl)).
Defined.

(** ** Life cycle *)

(** C12: the initialisation of the namespace succeeds on a sound configuration:
    nothing is mapped, the partitions share one live link and one write buffer
    of the configured size, and each partition satisfies its invariant; the
    reported size leaves the over-provisioned share out. *)
Theorem conv_init_namespace_correct `{SC : SsdConfig, CC : ChanConfig} L id size addr cpu h :
  session_ok L size ->
  okp (conv_init_namespace id size addr cpu h) (fun '(ns, h') => exists sp p w,
    geometry_of size SSD_PARTITIONS sp /\ ns_ok L sp (Some p) (Some w) ns /\ link_ok (Some p) h' /\
    deref h'.(hw_wbuf) (Some w) = Ok (buffer_init GLOBAL_WB_SIZE) /\
    (forall lpn, ~ ns_mapped ns lpn) /\ ns.(cn_nr_parts) = SSD_PARTITIONS /\
    ns.(cn_size) = u64 (size * 100) `div` (100 + OP_AREA_HUNDREDTHS)).
Proof.
  intros [S1 S2 S3 S4 S5 S6 S7]. eapply okp_mono; [by apply (conv_init_namespace_ok L)|].
  intros [ns h'] (sp & p & w & H1 & H2 & H3 & H4 & H5 & _ & H6 & H7). by exists sp, p, w.
Qed.

Lemma conv_init_namespace_correct_witness :
  okp (conv_init_namespace 0 toy_size 0 0 toy_hw) (fun '(ns, h') => exists sp p w,
    geometry_of toy_size SSD_PARTITIONS sp /\ ns_ok toy_L sp (Some p) (Some w) ns /\ link_ok (Some p) h' /\
    deref h'.(hw_wbuf) (Some w) = Ok (buffer_init GLOBAL_WB_SIZE) /\
    (forall lpn, ~ ns_mapped ns lpn) /\ ns.(cn_nr_parts) = SSD_PARTITIONS /\
    ns.(cn_size) = u64 (toy_size * 100) `div` (100 + OP_AREA_HUNDREDTHS)).
Proof. exact (conv_init_namespace_correct toy_L 0 toy_size 0 0 toy_hw toy_session_ok). Defined.

(** After any session the namespace can be removed: the link and the
    write buffer that its partitions share are freed, each exactly once, and no
    other object of the device is touched. *)
Theorem conv_remove_after_session `{SC : SsdConfig, CC : ChanConfig, CK : Clock} L id size addr cpu h evs :
  session_ok L size -> (forall req, Command req ∈ evs -> host_ok L req) ->
  okp ('(ns, h) ← session id size addr cpu h evs; h' ← conv_remove_namespace ns h; Ok (ns, h, h'))
    (fun '(ns, h1, h2) => exists pc wb,
      (forall (i : Z) f, ns.(cn_ftls) !! i = Some f ->
         f.(cf_ssd).(sd_pcie) = pc /\ f.(cf_ssd).(sd_write_buffer) = wb) /\
      deref h2.(hw_pcie) pc = Fault UseAfterFree /\ deref h2.(hw_wbuf) wb = Fault UseAfterFree /\
      (forall q, q <> pc -> deref h2.(hw_pcie) q = deref h1.(hw_pcie) q) /\
      (forall q, q <> wb -> deref h2.(hw_wbuf) q = deref h1.(hw_wbuf) q)).
Proof.
  intros Hs Hevs. apply okp_bind. eapply okp_mono; [by apply session_spec|].
  intros [ns h'] (sp & p & w & _ & [Hns [Hnr _] Hl (buf & Hb & _) _]). simpl in *. apply okp_bind.
  eapply okp_mono; [eapply conv_remove_namespace_ok; [exact Hns|exact Hl|exact Hb|exact Hnr|apply Hs]|].
  intros h2 (K1 & K2 & K3 & K4). simpl. exists (Some p), (Some w). split; [|done].
  intros i f E. by destruct (no_part _ _ _ _ _ Hns i f E) as (_ & _ & ? & ?).
Qed.

Lemma conv_remove_after_session_witness :
  okp ('(ns, h) ← session 0 toy_size 0 0 toy_hw toy_events; h' ← conv_remove_namespace ns h; Ok (ns, h, h'))
    (fun '(ns, h1, h2) => exists pc wb,
      (forall (i : Z) f, ns.(cn_ftls) !! i = Some f ->
         f.(cf_ssd).(sd_pcie) = pc /\ f.(cf_ssd).(sd_write_buffer) = wb) /\
      deref h2.(hw_pcie) pc = Fault UseAfterFree /\ deref h2.(hw_wbuf) wb = Fault UseAfterFree /\
      (forall q, q <> pc -> deref h2.(hw_pcie) q = deref h1.(hw_pcie) q) /\
      (forall q, q <> wb -> deref h2.(hw_wbuf) q = deref h1.(hw_wbuf) q)).
Proof. exact (conv_remove_after_session toy_L 0 toy_size 0 0 toy_hw toy_events toy_session_ok toy_hosts). Defined.
