(* ===== verification/ZnsProps.v ===== *)
(** * Properties of the zoned namespace

    The theorems about zns_ftl.c, zns_mgmt_send.c, zns_mgmt_recv.c and
    zns_read_write.c, each followed by its instance at a small zoned device:
    eight zones of sixteen pages, striped over two dies each. *)

From stdpp Require Import prelude list.
From Stdlib Require Import ZArith Lia.
From S2P Require Import Prelude Mem Prp ChannelModel SsdConfig Ssd ConvFtl ZnsFtl ZnsMgmt ZnsRw ZnsInv ZnsStep ZnsSend ZnsWrite.
From S2P Require Import ZnsRead ZnsInit ZnsRun Toy.

(** ** A small zoned device *)

#[export] Instance toy_zones : ZnsConfig := {|
  ZONE_SIZE := 65536; DIES_PER_ZONE := 2; ZONE_WB_SIZE := 0;
  MAX_ZRWA_ZONES := 0; ZRWAFG_SIZE := 0; ZRWA_SIZE := 0; ZRWA_BUFFER_SIZE := 0
|}.

(** The host's memory, and what memory holds that was not written. *)
Definition zhost : mem := fun _ => 0.
Definition zgarbage : mem := fun _ => 165.

Definition zcmd (opcode slba dw12 dw13 : Z) : zevent :=
  ZCommand (ZnsRequest (ZnsCommand opcode 0 0 slba dw12 dw13) 1 1000) zhost.

(** A write, an append, an explicit open, a close, a finish and a reset of all
    zones, with reads, reports and releases between them. *)
Definition toy_zevents : list zevent :=
  [zcmd nvme_cmd_write 0 15 0; zcmd nvme_cmd_zone_append 128 31 0; ZReleased 0 8192;
   zcmd nvme_cmd_zone_mgmt_send 256 0 ZSA_OPEN_ZONE; zcmd nvme_cmd_read 0 15 0;
   zcmd nvme_cmd_zone_mgmt_send 256 0 ZSA_CLOSE_ZONE; zcmd nvme_cmd_write 384 31 0;
   zcmd nvme_cmd_zone_mgmt_send 128 0 ZSA_FINISH_ZONE; zcmd nvme_cmd_zone_mgmt_recv 0 63 0;
   zcmd nvme_cmd_flush 0 0 0; zcmd nvme_cmd_zone_append 0 31 0;
   zcmd nvme_cmd_zone_mgmt_send 0 0 (256 + ZSA_RESET_ZONE)].

Definition toy_zrun (n : nat) : res (zns_ns * hw) :=
  zns_session zgarbage 0 toy_size (fun _ => 7) 0 toy_hw (take n toy_zevents).

Definition zsummary (r : res (zns_ns * hw)) : option (list (zone_state * Z) * Z) :=
  match r with
  | Ok (ns, h) => Some ((fun d => (d.(zd_state), d.(zd_wp) - d.(zd_zslba))) <$> ns.(zn_ftl).(zone_descs), zlen h.(hw_sched))
  | Fault _ => None
  end.

Lemma toy_zrun_states :
  zsummary (toy_zrun 11) =
    Some ([(ZONE_STATE_OPENED_IMPL, 48); (ZONE_STATE_FULL, 32); (ZONE_STATE_CLOSED, 0); (ZONE_STATE_OPENED_IMPL, 32);
           (ZONE_STATE_EMPTY, 0); (ZONE_STATE_EMPTY, 0); (ZONE_STATE_EMPTY, 0); (ZONE_STATE_EMPTY, 0)], 7) /\
  zsummary (toy_zrun 12) = Some (replicate 8 (ZONE_STATE_EMPTY, 0), 7).
Proof. vm_compute. split; reflexivity. Qed.

Lemma toy_zsession_ok : zsession_ok toy_size.
Proof.
  split; [split|vm_compute; split; congruence].
  - apply toy_config_ok.
  - split; try (vm_compute; congruence); [split; [done|by exists 4]|vm_compute; split; congruence].
  - split; [vm_compute; split; congruence|]. split; [by exists 16|by exists 8].
  - vm_compute. congruence.
  - split; [vm_compute; split; congruence|by exists 2].
  - vm_compute. split; congruence.
  - vm_compute. split; congruence.
  - vm_compute. repeat split; congruence.
Qed.

Lemma zhost_buffer length : 0 <= length <= 4096 -> prp_buffer_ok zhost 0 0 length.
Proof.
  intros Hl. assert (prp_first 0 length = length) as Hf by (unfold prp_first, PAGE_SIZE; change (0 `mod` 4096) with 0; lia).
  assert (forall o, 0 <= o < length -> prp_addr (u64_at zhost) 0 0 length o = o) as Ha.
  { intros o Ho. unfold prp_addr. rewrite Hf. by rewrite (proj2 (Z.ltb_lt _ _)) by lia. }
  split; [split|..]; rewrite ?Hf; try (unfold PAGE_SIZE; lia). intros o o' Ho Ho'. rewrite !Ha by done. done.
Qed.

Lemma toy_zevents_ok ev : ev ∈ toy_zevents -> zevent_ok toy_size ev.
Proof.
  assert (Forall (zevent_ok toy_size) toy_zevents) as HF; [|intros; by eapply Forall_forall].
  repeat (constructor; [first [vm_compute; split; congruence|split; [vm_compute; split; congruence|]]|]); [..|constructor];
    (split; [vm_compute; congruence|]); (split; [vm_compute; intros; first [congruence|repeat split; congruence]|]);
    first [by intros [=]|intros _; split; [apply zhost_buffer; vm_compute; split; congruence|vm_compute; congruence]].
Qed.

Lemma toy_zreached n : exists ns h, toy_zrun n = Ok (ns, h) /\ zrun_ok toy_size (ns, h).
Proof.
  assert (forall ev, ev ∈ take n toy_zevents -> zevent_ok toy_size ev) as Hev.
  { intros ev Hin. apply toy_zevents_ok. rewrite <- (take_drop n toy_zevents). apply elem_of_app. by left. }
  destruct (okp_inv _ _ (zsession_spec zgarbage (co_lba (zc_ssd _ (zn_config _ toy_zsession_ok))) 0 toy_size
    (fun _ => 7) 0 toy_hw _ toy_zsession_ok Hev)) as ([ns h] & E & Hr).
  exists ns, h. split; [exact E|exact Hr].
Qed.

(** The request of the command [ev]. *)
Definition zreq (opcode slba dw12 dw13 : Z) : zns_request :=
  ZnsRequest (ZnsCommand opcode 0 0 slba dw12 dw13) 1 1000.

(** ** Sessions *)

(** C24: a new zoned namespace executes every sequence of writes, appends,
    reads, flushes, zone actions, reports and buffer releases without a failed
    assertion, a bad dereference, an index out of bounds or a division by zero;
    in every reached state the zones tile the namespace with their write
    pointers inside them and the open and active counters are the numbers of
    zones in those states.  The host stays inside the namespace, writes no more
    than a write buffer at once and opens no ZRWA. *)
Theorem zns_session_safe `{SC : SsdConfig, ZC : ZnsConfig, CC : ChanConfig, CK : Clock}
    garbage id size mapped cpu h evs :
  zsession_ok size -> (forall ev, ev ∈ evs -> zevent_ok size ev) ->
  okp (zns_session garbage id size mapped cpu h evs) (fun '(ns, _) =>
    let f := ns.(zn_ftl) in
    zlen f.(zone_descs) = size `div` ZONE_SIZE /\
    acquired_cnt f.(res_infos).(ri_open) = zcount is_open f.(zone_descs) /\
    acquired_cnt f.(res_infos).(ri_active) = zcount is_active f.(zone_descs) /\
    forall (i : Z) d, f.(zone_descs) !! i = Some d ->
      zone_ok (zone_lbas f) i d /\ d.(zd_zrwav) = 0).
Proof.
  intros Hs Hev. eapply okp_mono; [apply zsession_spec; [apply (co_lba (zc_ssd _ (zn_config _ Hs)))|done|done]|].
  intros [ns h'] [[_ _ Hf] _ Hnr _ Hz _ _ _]. simpl in *. destruct (zo_res _ Hf) as [E1 E2 _].
  rewrite (zo_len _ Hf), E1, E2. do 3 (split; [done|]). intros i d E. split; [by apply (zo_zone _ Hf)|by eapply Hz].
Qed.

Lemma zns_session_safe_witness :
  zsession_ok toy_size /\ okp (toy_zrun 12) (fun '(ns, _) =>
    let f := ns.(zn_ftl) in
    zlen f.(zone_descs) = toy_size `div` ZONE_SIZE /\
    acquired_cnt f.(res_infos).(ri_open) = zcount is_open f.(zone_descs) /\
    acquired_cnt f.(res_infos).(ri_active) = zcount is_active f.(zone_descs) /\
    forall (i : Z) d, f.(zone_descs) !! i = Some d ->
      zone_ok (zone_lbas f) i d /\ d.(zd_zrwav) = 0).
Proof.
  split; [exact toy_zsession_ok|].
  exact (zns_session_safe zgarbage 0 toy_size (fun _ => 7) 0 toy_hw toy_zevents toy_zsession_ok toy_zevents_ok).
Defined.

(** ** The state machine of a zone *)

(** C25: the zone management command refines the state machine [zone_next].  On
    one zone an action is refused with "invalid transition", and changes
    nothing, exactly where the machine has no transition; otherwise it moves
    that zone to the machine's next state, an open of an empty zone with a ZRWA
    alone being refused when no ZRWA is left; a reset moves the write pointer
    back and clears exactly the bytes of the zone.  With "select all" every zone
    moves as the machine says.  No other zone, and no time, changes. *)
Theorem zmgmt_send_refines `{SC : SsdConfig, CC : ChanConfig} ns req h :
  zns_ns_ok ns -> zrwa_bufs_ok ns.(zn_ftl) h -> is_action (zc_zsa req.(zq_cmd)) ->
  0 <= req.(zq_cmd).(zc_slba) < ns.(zn_ftl).(zp).(nr_zones) * zone_lbas ns.(zn_ftl) ->
  let zid := req.(zq_cmd).(zc_slba) `div` zone_lbas ns.(zn_ftl) in
  okp (zns_zmgmt_send ns req h) (fun '(ns', h', ret) =>
    zns_ns_ok ns' /\ bufs_kept h h' /\ ret.(rs_nsecs_target) = req.(zq_nsecs_start) /\
    if zc_select_all req.(zq_cmd) =? 0 then
      exists d, ns.(zn_ftl).(zone_descs) !! zid = Some d /\
        zone_sent (zc_zsa req.(zq_cmd)) (zc_zsaso req.(zq_cmd)) zid d ns.(zn_ftl) ns'.(zn_ftl) ret.(rs_status)
    else ret.(rs_status) = NVME_SC_SUCCESS /\
      all_moved (zc_zsa req.(zq_cmd)) (zc_zsaso req.(zq_cmd)) ns.(zn_ftl).(zp).(nr_zones) ns.(zn_ftl) ns'.(zn_ftl)).
Proof. apply zns_zmgmt_send_ok. Qed.

Lemma zmgmt_send_refines_witness :
  exists ns h, toy_zrun 4 = Ok (ns, h) /\
  okp (zns_zmgmt_send ns (zreq nvme_cmd_zone_mgmt_send 256 0 ZSA_CLOSE_ZONE) h) (fun '(ns', h', ret) =>
    zns_ns_ok ns' /\ bufs_kept h h' /\ ret.(rs_nsecs_target) = 1000 /\
    if 0 =? 0 then
      exists d, ns.(zn_ftl).(zone_descs) !! (256 `div` zone_lbas ns.(zn_ftl)) = Some d /\
        zone_sent ZSA_CLOSE_ZONE 0 (256 `div` zone_lbas ns.(zn_ftl)) d ns.(zn_ftl) ns'.(zn_ftl) ret.(rs_status)
    else ret.(rs_status) = NVME_SC_SUCCESS /\
      all_moved ZSA_CLOSE_ZONE 0 ns.(zn_ftl).(zp).(nr_zones) ns.(zn_ftl) ns'.(zn_ftl)).
Proof.
  destruct (toy_zreached 4) as (ns & h & E & Hr). exists ns, h. split; [exact E|].
  assert (0 <= 256 < toy_size `div` LBA_SIZE) as Hs by (vm_compute; split; congruence).
  destruct (zx_zone toy_size ns h 256 Hr Hs) as [Hcap _]. destruct Hr as [Hn _ _ _ _ _ _ Hb].
  refine (zmgmt_send_refines ns (zreq nvme_cmd_zone_mgmt_send 256 0 ZSA_CLOSE_ZONE) h Hn Hb _ Hcap).
  vm_compute. split; congruence.
Defined.

(** ** Writes and reads *)

(** C26: a sequential write or an append is turned away unchanged when the write
    buffer lacks its bytes; otherwise its bytes are taken and its status is
    "invalid write" for a size that is no multiple of the write unit or a block
    other than the write pointer, "boundary error" across zones, the error of
    a full, read-only or offline zone, or success.  A success moves the write
    pointer by the blocks written, makes the zone full at its end and opened
    before it, leaves every other zone and every byte alone and schedules
    releases of its buffer: as many bytes as the one-shot pages it completes
    and, at the end of the zone, the remainder.  An append is such a write at
    the write pointer, which it stores in the request. *)
Theorem zns_write_correct `{SC : SsdConfig, CC : ChanConfig, CK : Clock} f req ret h buf zid d :
  0 <= LBA_BITS <= 12 ->
  zns_ok f -> link_ok f.(zf_ssd).(sd_pcie) h -> 0 <= req.(zq_cmd).(zc_slba) < f.(zp).(nr_zones) * zone_lbas f ->
  zid = req.(zq_cmd).(zc_slba) `div` zone_lbas f -> f.(zone_descs) !! zid = Some d ->
  deref h.(hw_wbuf) (zone_wb f zid) = Ok buf ->
  LBA_TO_BYTE (zc_length req.(zq_cmd) + 1) <= buf.(bf_size) -> 0 <= buf.(bf_remaining) < 18446744073709551616 ->
  okp (__zns_write f req ret h) (fun '(f', h', req', ret', ok) =>
    req' = write_req req d /\ written_ok f f' h h' req zid d buf ret ret' ok).
Proof. intros Hlba Hf Hl Hs Ez Ed Hb Hsz Hr. by apply zns_write_seq_ok; try apply zc_length_range. Qed.

Lemma zns_write_correct_witness :
  exists ns h d buf, toy_zrun 1 = Ok (ns, h) /\
  okp (__zns_write ns.(zn_ftl) (zreq nvme_cmd_zone_append 5 15 0) (Result 0 0) h) (fun '(f', h', req', ret', ok) =>
    req' = write_req (zreq nvme_cmd_zone_append 5 15 0) d /\
    written_ok ns.(zn_ftl) f' h h' (zreq nvme_cmd_zone_append 5 15 0) (5 `div` zone_lbas ns.(zn_ftl)) d buf
      (Result 0 0) ret' ok).
Proof.
  destruct (toy_zreached 1) as (ns & h & E & Hr).
  assert (0 <= 5 < toy_size `div` LBA_SIZE) as Hs by (vm_compute; split; congruence).
  destruct (zx_zone toy_size ns h 5 Hr Hs) as (Hcap & Hzid & d & Ed & _).
  destruct Hr as [[_ _ Hf] Hl _ _ _ _ Hw _]. destruct (Hw _ Hzid) as (buf & B1 & B2 & B3).
  exists ns, h, d, buf. split; [exact E|].
  refine (zns_write_correct ns.(zn_ftl) (zreq nvme_cmd_zone_append 5 15 0) (Result 0 0) h buf _ d _ Hf Hl Hcap eq_refl Ed
    B1 _ B3).
  - vm_compute. split; congruence.
  - rewrite B2. vm_compute. congruence.
Defined.

(** A read is never refused and never faults, even across the end of its
    zone; it reports an offline zone and a boundary crossing, and changes
    nothing but the clocks of the dies, the channels and the link. *)
Theorem zns_read_correct `{SC : SsdConfig, CC : ChanConfig, CK : Clock} ns req h d :
  zns_ns_ok ns -> link_ok ns.(zn_ftl).(zf_ssd).(sd_pcie) h ->
  0 <= req.(zq_cmd).(zc_slba) < ns.(zn_ftl).(zp).(nr_zones) * zone_lbas ns.(zn_ftl) ->
  ns.(zn_ftl).(zone_descs) !! (req.(zq_cmd).(zc_slba) `div` zone_lbas ns.(zn_ftl)) = Some d ->
  okp (zns_read ns req h) (fun '(ns', h', ret, ok) => ok = true /\ zns_ns_ok ns' /\
    zticked ns.(zn_ftl) ns'.(zn_ftl) /\ hw_adv ns.(zn_ftl).(zf_ssd).(sd_pcie) h h' /\
    ret.(rs_status) = read_status ns.(zn_ftl) d req.(zq_cmd).(zc_slba) (zc_length req.(zq_cmd) + 1)).
Proof. intros Hn Hl Hs Ed. by apply zns_read_ok; [..|apply zc_length_range|]. Qed.

Lemma zns_read_correct_witness :
  exists ns h d, toy_zrun 7 = Ok (ns, h) /\
  okp (zns_read ns (zreq nvme_cmd_read 120 15 0) h) (fun '(ns', h', ret, ok) => ok = true /\ zns_ns_ok ns' /\
    zticked ns.(zn_ftl) ns'.(zn_ftl) /\ hw_adv ns.(zn_ftl).(zf_ssd).(sd_pcie) h h' /\
    ret.(rs_status) = read_status ns.(zn_ftl) d 120 16).
Proof.
  destruct (toy_zreached 7) as (ns & h & E & Hr).
  assert (0 <= 120 < toy_size `div` LBA_SIZE) as Hs by (vm_compute; split; congruence).
  destruct (zx_zone toy_size ns h 120 Hr Hs) as (Hcap & Hzid & d & Ed & _).
  destruct Hr as [Hn Hl _ _ _ _ _ _]. exists ns, h, d. split; [exact E|].
  exact (zns_read_correct ns (zreq nvme_cmd_read 120 15 0) h d Hn Hl Hcap Ed).
Defined.

(** C28: the pages of a zone are striped over exactly its dies, one one-shot
    page after the other; every page of the namespace has a place in the
    device. *)
Theorem lpn_to_ppa_striped `{SC : SsdConfig, CC : ChanConfig, CK : Clock} f zone off :
  zns_ok f -> 0 <= zone < f.(zp).(nr_zones) -> 0 <= off < zone_pgs f ->
  exists p, __lpn_to_ppa f (zone * zone_pgs f + off) = Ok p /\ in_dev (zf_sp f) p /\
    p.(p_lun) * (zf_sp f).(nchs) + p.(p_ch) =
      (zone * f.(zp).(dies_per_zone)) `mod` (zf_sp f).(tt_luns) +
      (off `div` (zf_sp f).(pgs_per_oneshotpg)) `mod` f.(zp).(dies_per_zone) /\
    p.(p_pg) = off `mod` (zf_sp f).(pgs_per_oneshotpg).
Proof.
  intros Hf Hz Ho. destruct (zone_units f Hf) as (_ & Hs & _ & Hp & El). pose proof (zg_fits _ (zo_geo _ Hf)).
  exists (zone_ppa f zone off). split; [|split; [apply zone_ppa_in_dev; [done|lia|lia]|split; [|done]]].
  - assert (zone * zone_pgs f + off < f.(zp).(nr_zones) * zone_pgs f) by nia.
    assert (f.(zp).(nr_zones) * zone_pgs f <= f.(zp).(nr_zones) * zone_lbas f)
      by (apply Z.mul_le_mono_nonneg_l; [lia|rewrite El; nia]).
    assert (0 <= zone * zone_pgs f) by nia. rewrite lpn_to_ppa_ok by (done || lia). f_equal. rewrite Z.add_comm, Z.div_add, Z.mod_add by lia.
    by rewrite Z.div_small, Z.mod_small by lia.
  - simpl. fold (zone_die f zone off). pose proof (po_nchs _ (zo_params _ Hf)).
    pose proof (Z.div_mod (zone_die f zone off) (nchs (zf_sp f)) ltac:(lia)). lia.
Qed.

Lemma lpn_to_ppa_striped_witness :
  exists ns h, toy_zrun 3 = Ok (ns, h) /\
  let f := ns.(zn_ftl) in
  let off := zone_pgs f - 1 in
  exists p, __lpn_to_ppa f (5 * zone_pgs f + off) = Ok p /\ in_dev (zf_sp f) p /\
    p.(p_lun) * (zf_sp f).(nchs) + p.(p_ch) =
      (5 * f.(zp).(dies_per_zone)) `mod` (zf_sp f).(tt_luns) +
      (off `div` (zf_sp f).(pgs_per_oneshotpg)) `mod` f.(zp).(dies_per_zone) /\
    p.(p_pg) = off `mod` (zf_sp f).(pgs_per_oneshotpg).
Proof.
  destruct (toy_zreached 3) as (ns & h & E & [[_ _ Hf] _ Hnr _ _ _ _ _]). exists ns, h. split; [exact E|].
  cbn [fst] in Hf, Hnr. destruct (zone_units _ Hf) as (_ & _ & _ & Hp & _).
  change (toy_size `div` ZONE_SIZE) with 8 in Hnr.
  assert (0 <= 5 < nr_zones (zp (zn_ftl ns))) as H5 by lia.
  assert (0 <= zone_pgs (zn_ftl ns) - 1 < zone_pgs (zn_ftl ns)) as H7 by lia.
  exact (lpn_to_ppa_striped ns.(zn_ftl) 5 (zone_pgs ns.(zn_ftl) - 1) Hf H5 H7).
Defined.

(** ** Reports, ZRWA flushes and initialisation *)

(** C29: a report with unsupported options, or from beyond the last zone, is
    refused and writes nothing.  Otherwise the host finds in its buffer the number of
    zones from the zone of [slba] on, at most as many as a partial report has room
    for, and of each of those that the transfer reaches its state, capacity, start and
    write pointer as the device has them; no other memory is written. *)
Theorem zone_report_correct `{SC : SsdConfig, CC : ChanConfig, CK : Clock} garbage ns req m :
  let cmd := req.(zq_cmd) in
  let f := ns.(zn_ftl) in
  let zid := cmd.(zc_slba) `div` zone_lbas f in
  let length := bytes_transfer cmd in
  let addr := prp_addr (u64_at m) cmd.(zc_prp1) cmd.(zc_prp2) length in
  zns_ns_ok ns -> 0 <= cmd.(zc_slba) < 4294967296 ->
  zlen f.(report_buffer).(zr_zd) = f.(zp).(nr_zones) + 1 ->
  prp_buffer_ok m cmd.(zc_prp1) cmd.(zc_prp2) length ->
  length <= sizeof_zone_report + sizeof_zone_descriptor * f.(zp).(nr_zones) ->
  okp (zns_zmgmt_recv garbage ns req m) (fun '(ns', ret, m') =>
    let seen := fun o => m' (addr o) in
    ret.(rs_nsecs_target) = req.(zq_nsecs_start) /\
    if report_supported f cmd zid then
      ret.(rs_status) = NVME_SC_SUCCESS /\ (exists r, ns' = with_ftl ns (with_report f r)) /\
      (8 <= length -> get_le seen 0 8 = report_count f cmd zid) /\
      (forall i d, 0 <= i < report_count f cmd zid -> 64 + 64 * (i + 1) <= length -> f.(zone_descs) !! (zid + i) = Some d ->
        seen_zone seen (64 + 64 * i) = zone_fields d) /\
      forall x, (forall o, 0 <= o < length -> x <> addr o) -> m' x = m x
    else ret.(rs_status) = NVME_SC_INVALID_FIELD /\ ns' = ns /\ m' = m).
Proof. intros cmd f zid length addr Hn Hs Hlen Hb Hl. by apply report_read_back. Qed.

Lemma zone_report_correct_witness :
  exists ns h, toy_zrun 7 = Ok (ns, h) /\
  let req := zreq nvme_cmd_zone_mgmt_recv 256 63 65536 in
  let f := ns.(zn_ftl) in
  let zid := 256 `div` zone_lbas f in
  let addr := prp_addr (u64_at zhost) 0 0 256 in
  okp (zns_zmgmt_recv zgarbage ns req zhost) (fun '(ns', ret, m') =>
    let seen := fun o => m' (addr o) in
    ret.(rs_nsecs_target) = 1000 /\
    if report_supported f req.(zq_cmd) zid then
      ret.(rs_status) = NVME_SC_SUCCESS /\ (exists r, ns' = with_ftl ns (with_report f r)) /\
      (8 <= 256 -> get_le seen 0 8 = report_count f req.(zq_cmd) zid) /\
      (forall i d, 0 <= i < report_count f req.(zq_cmd) zid -> 64 + 64 * (i + 1) <= 256 -> f.(zone_descs) !! (zid + i) = Some d ->
        seen_zone seen (64 + 64 * i) = zone_fields d) /\
      forall x, (forall o, 0 <= o < 256 -> x <> addr o) -> m' x = zhost x
    else ret.(rs_status) = NVME_SC_INVALID_FIELD /\ ns' = ns /\ m' = zhost).
Proof.
  destruct (toy_zreached 7) as (ns & h & E & [Hn _ Hnr _ _ Hrep _ _]). exists ns, h. split; [exact E|].
  cbn [fst] in Hn, Hnr, Hrep. rewrite <- Hnr in Hrep.
  refine (zone_report_correct zgarbage ns (zreq nvme_cmd_zone_mgmt_recv 256 63 65536) zhost Hn _ Hrep _ _).
  - simpl. lia.
  - apply zhost_buffer. vm_compute. split; congruence.
  - rewrite Hnr. vm_compute. congruence.
Defined.

(** The state and write pointer of the first zones, as a host finds them. *)
Example report_of_zones :
  ('(ns, h) ← toy_zrun 7; '(_, _, m) ← zns_zmgmt_recv zgarbage ns (zreq nvme_cmd_zone_mgmt_recv 0 127 0) zhost;
   Ok (get_le m 0 8, seen_zone m 64, seen_zone m 192, seen_zone m 256)) =
  Ok (8, (2, 128, 0, 16), (4, 128, 256, 256), (2, 128, 384, 416)).
Proof. vm_compute. reflexivity. Qed.

(** The reserved bytes of a report are those of memory that was never cleared. *)
Example report_leaks_memory :
  ('(ns, h) ← toy_zrun 7; '(_, _, m) ← zns_zmgmt_recv zgarbage ns (zreq nvme_cmd_zone_mgmt_recv 0 127 0) zhost;
   Ok (mload m 8 56)) = Ok (zrepeat 56 165).
Proof. vm_compute. reflexivity. Qed.

(** C30: an explicit flush of a ZRWA is refused outside a ZRWA zone, outside the
    window at the write pointer and in a zone that is not active ("invalid zone
    operation"), and when it covers no whole number of flush groups ("invalid
    field"); otherwise the write pointer moves behind [slba] and the zone is
    full when that is its end.  Nothing else changes. *)
Theorem flush_explicit_zrwa_correct `{CC : ChanConfig} f slba :
  zns_ok f -> zrwa_params f -> 0 <= slba < f.(zp).(nr_zones) * zone_lbas f ->
  exists d, f.(zone_descs) !! (slba `div` zone_lbas f) = Some d /\
  okp (__zmgmt_send_flush_explicit_zrwa f slba) (fun '(f', st) =>
    st = flush_status f d slba /\ zstep f f' (slba `div` zone_lbas f) (flush_zone f d slba)).
Proof. apply flush_explicit_ok. Qed.

(** The same device with a ZRWA of 64 blocks, flushed by 32. *)
Definition toy_zrwa : ZnsConfig := {|
  ZONE_SIZE := 65536; DIES_PER_ZONE := 2; ZONE_WB_SIZE := 0;
  MAX_ZRWA_ZONES := 8; ZRWAFG_SIZE := 16384; ZRWA_SIZE := 32768; ZRWA_BUFFER_SIZE := 65536
|}.

Lemma toy_zrwa_ok : zsession_ok (ZC := toy_zrwa) toy_size.
Proof.
  destruct toy_zsession_ok as [[H1 H2 H3 H4 H5 H6 H7 H8] Hg].
  split; [split; try done|exact Hg].
Qed.

Lemma flush_explicit_zrwa_correct_witness :
  exists ns h, zns_init_namespace (H0 := toy_zrwa) 0 toy_size (fun _ => 7) 0 toy_hw = Ok (ns, h) /\
  exists d, ns.(zn_ftl).(zone_descs) !! (31 `div` zone_lbas ns.(zn_ftl)) = Some d /\
  okp (__zmgmt_send_flush_explicit_zrwa ns.(zn_ftl) 31) (fun '(f', st) =>
    st = flush_status ns.(zn_ftl) d 31 /\
    zstep ns.(zn_ftl) f' (31 `div` zone_lbas ns.(zn_ftl)) (flush_zone ns.(zn_ftl) d 31)).
Proof.
  destruct (okp_inv _ _ (zns_init_namespace_ok (ZC := toy_zrwa) 0 toy_size (fun _ => 7) 0 toy_hw (zn_config _ toy_zrwa_ok)))
    as ([ns h] & E & Hn & _ & _ & _ & _ & _ & _ & _ & Hsz & Ez & _ & _ & Er & Eg & Ecap & _).
  exists ns, h. split; [exact E|]. assert (zrwa_params ns.(zn_ftl)) as Hp.
  { split; rewrite ?Er, ?Eg; vm_compute; split; congruence. }
  refine (flush_explicit_zrwa_correct ns.(zn_ftl) 31 (nk_ftl _ Hn) Hp _).
  rewrite Ecap. vm_compute. split; congruence.
Defined.

(** For a configuration whose zones tile the device, initialisation returns
    a sound namespace whose zones are all empty, with their write and ZRWA
    buffers full of room in the store, and leaves the host's memory alone. *)
Theorem zns_init_namespace_correct `{SC : SsdConfig, ZC : ZnsConfig, CC : ChanConfig, CK : Clock} id size mapped cpu h :
  zns_config_ok size ->
  okp (zns_init_namespace id size mapped cpu h) (fun '(ns, h') =>
    let f := ns.(zn_ftl) in
    zns_ns_ok ns /\ link_ok f.(zf_ssd).(sd_pcie) h' /\ ns.(zn_id) = id /\ ns.(zn_size) = size /\
    f.(zf_storage) = mapped /\ all_empty f /\ zone_bufs_ok f h' /\
    f.(zp).(nr_zones) * f.(zp).(zone_size) = size /\ f.(zp).(zone_size) = ZONE_SIZE /\
    h'.(hw_sched) = h.(hw_sched)).
Proof.
  intros Hc. eapply okp_mono; [by apply zns_init_namespace_ok|].
  intros [ns h'] (H1 & H2 & H3 & H4 & H5 & H6 & H7 & _ & H9 & H10 & _ & _ & _ & _ & _ & H11). conj.
Qed.

Lemma zns_init_namespace_correct_witness :
  zns_config_ok toy_size /\
  okp (zns_init_namespace 3 toy_size (fun _ => 7) 0 toy_hw) (fun '(ns, h') =>
    let f := ns.(zn_ftl) in
    zns_ns_ok ns /\ link_ok f.(zf_ssd).(sd_pcie) h' /\ ns.(zn_id) = 3 /\ ns.(zn_size) = toy_size /\
    f.(zf_storage) = (fun _ => 7) /\ all_empty f /\ zone_bufs_ok f h' /\
    f.(zp).(nr_zones) * f.(zp).(zone_size) = toy_size /\ f.(zp).(zone_size) = ZONE_SIZE /\
    h'.(hw_sched) = []).
Proof.
  pose proof (zn_config _ toy_zsession_ok) as Hc. split; [exact Hc|].
  exact (zns_init_namespace_correct 3 toy_size (fun _ => 7) 0 toy_hw Hc).
Defined.

(** ** What a host can provoke *)

(** Commands on a new namespace, and what they leave of the first zone. *)
Definition after_commands (ZC : ZnsConfig) (evs : list zevent) : res (zone_state * Z) :=
  '(ns, _) ← zns_session (ZC := ZC) zgarbage 0 toy_size (fun _ => 7) 0 toy_hw evs;
  d ← aget ns.(zn_ftl).(zone_descs) 0; Ok (d.(zd_state), d.(zd_wp)).

Definition open_with_zrwa : zevent := zcmd nvme_cmd_zone_mgmt_send 0 0 (512 + ZSA_OPEN_ZONE).
Definition flush_zrwa (slba : Z) : zevent := zcmd nvme_cmd_zone_mgmt_send slba 0 ZSA_FLUSH_EXPL_ZRWA.

(** On a device with a ZRWA the flush moves the write pointer. *)
Example zrwa_flush_moves : after_commands toy_zrwa [open_with_zrwa; flush_zrwa 31] = Ok (ZONE_STATE_OPENED_EXPL, 32).
Proof. vm_compute. reflexivity. Qed.

(** Without one, the open is accepted all the same and the flush divides by 0. *)
Example zrwa_flush_without_zrwa :
  after_commands toy_zones [open_with_zrwa] = Ok (ZONE_STATE_OPENED_EXPL, 0) /\
  after_commands toy_zones [open_with_zrwa; flush_zrwa 31] = Fault DivByZero.
Proof. vm_compute. split; reflexivity. Qed.

(** A command beyond the last zone reads outside the array of descriptors. *)
Example send_beyond_last_zone :
  after_commands toy_zones [zcmd nvme_cmd_zone_mgmt_send 1024 0 ZSA_OPEN_ZONE] = Fault OutOfBounds.
Proof. vm_compute. reflexivity. Qed.

(** A write that is refused keeps its bytes of the write buffer: after enough
    of them a write at the write pointer finds no room. *)
Example refused_writes_leak :
  (r ← zns_session zgarbage 0 toy_size (fun _ => 7) 0 toy_hw (replicate 8 (zcmd nvme_cmd_write 5 15 0));
   '(_, _, _, _, ok) ← zns_write r.1 (zreq nvme_cmd_write 0 15 0) (Result 0 0) r.2; Ok ok) = Ok false.
Proof. vm_compute. reflexivity. Qed.
