(* ===== verification/KvProps.v ===== *)
(** * Properties of the simple and key-value namespaces

    The theorems about kv_ftl.c, simple_ftl.c and the allocators, each followed by
    its instance at a small device, and examples of what the code does where it
    does not keep to them. *)

From stdpp Require Import prelude list gmap.
From Stdlib Require Import ZArith Lia.
From S2P Require Import Prelude Mem Prp ChannelModel SsdConfig Ssd ConvFtl IoUnits KvAlloc KvFtl KvTable KvInv KvRun Toy.

(** ** A small key-value device *)

Definition toy_cf : nvmev_config := NvmevConfig 0 1048576 4 12 10 100 1000 20 200 2000.

(** The first clear bit, or a number past the end. *)
Definition first_clear (m : Z -> bool) (size start : Z) : Z :=
  match filter (fun i => m i = false) (zrange start size) with i :: _ => i | [] => size + 1 end.

Lemma first_clear_ok : zero_area_ok first_clear.
Proof.
  assert (forall m size start i x l, filter (fun i => m i = false) (zrange start size) = x :: l ->
    start <= i < size -> m i = false -> (forall j, start <= j < i -> m j = true) -> x = i) as Hfirst.
  { intros m size start i x l E Hi Hm Hj. rewrite (zrange_app start i size), filter_app in E by lia.
    rewrite (zrange_S i) in E by lia. rewrite (filter_cons_True _ i) in E by done.
    destruct (filter _ (zrange start i)) as [|y l'] eqn:E2; [by injection E|].
    assert (y ∈ filter (fun i => m i = false) (zrange start i)) as [Hy Hr]%list_elem_of_filter by (rewrite E2; set_solver).
    apply elem_of_zrange, Hj in Hr. congruence. }
  split.
  - intros m size start i Hs Hi Hm Hj. unfold first_clear. destruct (filter _ _) as [|x l] eqn:E; [|by eapply Hfirst].
    assert (i ∈ filter (fun i => m i = false) (zrange start size)) as H; [|rewrite E in H; set_solver].
    apply list_elem_of_filter. split; [done|]. apply elem_of_zrange. lia.
  - intros m size start Hs Hj. unfold first_clear. destruct (filter _ _) as [|x l] eqn:E; [lia|].
    assert (x ∈ filter (fun i => m i = false) (zrange start size)) as [Hx Hr]%list_elem_of_filter by (rewrite E; set_solver).
    apply elem_of_zrange, Hj in Hr. congruence.
Qed.

Definition toy_pools : pools :=
  Pools (append_only_allocator_init 1048576)
    (BitmapPool (BitSpace (fun _ => false) 0 0 0 16) (BitSpace (fun _ => false) 0 0 0 16) 0 0).

Definition toy_kv (slots : Z) : kv_dev := KvDev (fresh_ftl slots) toy_pools (fun _ => 0) (fun _ => 0).

(** A key of four bytes in the command's field, and the host's memory: each byte
    its address modulo 251. *)
Definition toy_key (a b c e : Z) : list Z := [a; b; c; e] ++ zrepeat 12 0.
Definition toy_host : mem := fun a => a `mod` 251.
Definition toy_cmd (opcode n : Z) (key : list Z) : kv_command := KvCommand opcode 4096 0 n 3 0 0 key.

(** A buffer within one page. *)
Lemma one_page_ok cmd h n : cmd.(kc_prp1) = 4096 -> 0 <= n <= 4096 -> buffer_ok cmd h n.
Proof.
  intros Hp Hn. assert (prp_first 4096 n = n) as Hf.
  { unfold prp_first. change (4096 `mod` PAGE_SIZE) with 0. unfold PAGE_SIZE. lia. }
  assert (forall o, 0 <= o < n -> value_addr cmd h n o = 4096 + o) as Ha.
  { intros o Ho. unfold value_addr, prp_addr. rewrite Hp, Hf. by rewrite (proj2 (Z.ltb_lt _ _)) by lia. }
  split.
  - split; rewrite Hp, Hf; unfold PAGE_SIZE; lia.
  - intros o o' Ho Ho'. fold (value_addr cmd h n o) (value_addr cmd h n o'). rewrite !Ha by done. lia.
  - intros i o j. rewrite Hp, Hf. unfold PAGE_SIZE. lia.
Qed.

(** ** Sessions *)

(** C32: a new key-value namespace, under any sequence of store, retrieve, exist
    and delete commands that keeps to what the specification allows (a free slot
    and space for a new key, the room of the first value for a known one), answers
    as a finite map from keys to values does, except that deleting a key may also
    forget others; no command faults or loops. *)
Theorem kv_session_refines cf find_next_zero garbage klen id size addr pl storage host evs :
  0 < klen <= 16 -> 0 <= cf.(cf_storage_size) < 9223372036854775808 ->
  session_allowed cf (KV_MAPPING_TABLE_SIZE `div` KV_MAPPING_ENTRY_SIZE) klen (KvState ∅ 0 0) evs ->
  okp (kv_session cf find_next_zero garbage id size addr pl storage host evs) (fun '(_, outs) =>
    exists st', spec_run (KvState ∅ 0 0) evs outs st').
Proof.
  intros Hk Hsz Hal. eapply okp_mono; [by apply (kv_session_ok cf find_next_zero garbage klen)|].
  intros [d outs] (st' & Hrun & _). by exists st'.
Qed.

Definition toy_kv_events : list kv_event :=
  [KvEvent (toy_cmd nvme_cmd_kv_store 2 (toy_key 1 2 3 4)) toy_host;
   KvEvent (toy_cmd nvme_cmd_kv_delete 0 (toy_key 1 2 3 4)) toy_host;
   KvEvent (toy_cmd nvme_cmd_kv_retrieve 4 (toy_key 1 2 3 4)) toy_host].

Lemma kv_session_refines_witness :
  (0 < 4 <= 16 /\ session_allowed toy_cf (KV_MAPPING_TABLE_SIZE `div` KV_MAPPING_ENTRY_SIZE) 4 (KvState ∅ 0 0) toy_kv_events) /\
  okp (kv_session toy_cf first_clear (fun _ => 0) 1 1048576 0 toy_pools (fun _ => 0) toy_host toy_kv_events) (fun '(_, outs) =>
    exists st', spec_run (KvState ∅ 0 0) toy_kv_events outs st').
Proof.
  assert (session_allowed toy_cf (KV_MAPPING_TABLE_SIZE `div` KV_MAPPING_ENTRY_SIZE) 4 (KvState ∅ 0 0) toy_kv_events) as Hal.
  { split; [done|]. eexists. split; [reflexivity|]. split; [cbn [allowed ks_map]; rewrite lookup_empty; vm_compute; intuition congruence|].
    split; [apply one_page_ok; [reflexivity|vm_compute; intuition congruence]|]. intros out st1 Hs1.
    inversion Hs1; subst; [|by simplify_map_eq|by naive_solver].
    split; [done|]. eexists. split; [reflexivity|]. split; [exact I|]. split; [exact I|]. intros out2 st2 Hs2.
    split; [done|]. eexists. split; [reflexivity|]. split; [exact I|]. split; [|done].
    intros room v _. apply one_page_ok; [reflexivity|]. pose proof (zlen_nonneg v).
    change (cmd_value_length _) with 16. lia. }
  split; [split; [lia|exact Hal]|]. refine (kv_session_refines _ _ _ 4 _ _ _ _ _ _ _ _ _ Hal); [lia|vm_compute; intuition congruence].
Defined.

(** ** Store and retrieve *)

(** C33: a value that was stored comes back: whatever the sound device held
    before, a store followed by a retrieve of the same key with a large enough
    buffer returns the value's length and puts exactly its bytes, in order, in the
    host's buffer, over pages and PRP lists. *)
Theorem kv_store_retrieve cf find_next_zero garbage slots klen d st c1 h1 c2 h2 :
  let v := host_bytes c1 h1 (cmd_value_length c1) h1 in
  kv_rel cf slots klen d st -> cmd_ok klen c1 -> cmd_ok klen c2 ->
  c1.(kc_opcode) = nvme_cmd_kv_store -> c2.(kc_opcode) = nvme_cmd_kv_retrieve -> cmd_key c2 = cmd_key c1 ->
  allowed slots cf.(cf_storage_size) st (KvStore (cmd_key c1) v) ->
  prp_ok (u64_at h1) c1.(kc_prp1) c1.(kc_prp2) (cmd_value_length c1) ->
  cmd_value_length c1 <= cmd_value_length c2 -> buffer_ok c2 h2 (cmd_value_length c1) ->
  okp ('(d, _, _) ← kv_perform_nvme_io_cmd cf find_next_zero garbage c1 0 (dev_host h1 d);
       kv_perform_nvme_io_cmd cf find_next_zero garbage c2 0 (dev_host h2 d)) (fun '(d', r, status) =>
    status <> KV_ERR_KEY_NOT_EXIST /\ r = cmd_value_length c1 /\ host_bytes c2 h2 r d'.(kd_host) = v).
Proof.
  intros v Hr Hc1 Hc2 Ho1 Ho2 Hkey Hal Hp Hlen Hbuf. pose proof (value_length_range c1).
  assert (zlen v = cmd_value_length c1) as Hv by (unfold v; rewrite zlen_host_bytes; lia). apply okp_bind.
  eapply okp_mono; [apply (kv_step_ok cf find_next_zero slots klen garbage (dev_host h1 d) st c1 (KvStore (cmd_key c1) v))|].
  - by apply (rel_frame cf slots klen d). - done. - unfold op_of. by rewrite Ho1. - done. - unfold buffers_ok. by rewrite Ho1.
  - intros [[d1 r1] s1] (st1 & Hs1 & Hr1). assert (exists room, ks_map st1 !! cmd_key c1 = Some (room, v)) as [room Em].
    { inversion Hs1; subst; [| |by naive_solver]; eexists; apply lookup_insert_eq. }
    eapply okp_mono; [apply (kv_step_ok cf find_next_zero slots klen garbage (dev_host h2 d1) st1 c2 (KvRetrieve (cmd_key c2) (cmd_value_length c2)))|].
    + by apply (rel_frame cf slots klen d1). + done. + unfold op_of. by rewrite Ho2. + done.
    + unfold buffers_ok. rewrite Ho2. simpl. rewrite Hkey. intros room' w Ew. simplify_eq. by rewrite Hv, Z.min_l by lia.
    + intros [[d2 r] s2] (st2 & Hs2 & _). simpl in Hs2. unfold observe in Hs2. rewrite Ho2 in Hs2. simpl in Hs2. rewrite Hkey in Hs2.
      destruct (Z.eqb_spec s2 KV_ERR_KEY_NOT_EXIST) as [->|Hs]; inversion Hs2; subst; simpl in Em; [naive_solver|].
      simplify_eq. split; [done|]. rewrite Hv, Z.min_l by lia. split; [done|]. rewrite take_ge; [done|]. unfold zlen in Hv. lia.
Qed.

Lemma kv_store_retrieve_witness :
  let c1 := toy_cmd nvme_cmd_kv_store 100 (toy_key 1 2 3 4) in
  let c2 := toy_cmd nvme_cmd_kv_retrieve 200 (toy_key 1 2 3 4) in
  kv_rel toy_cf 4 4 (toy_kv 4) (KvState ∅ 0 0) /\
  okp ('(d, _, _) ← kv_perform_nvme_io_cmd toy_cf first_clear (fun _ => 0) c1 0 (dev_host toy_host (toy_kv 4));
       kv_perform_nvme_io_cmd toy_cf first_clear (fun _ => 0) c2 0 (dev_host toy_host d)) (fun '(d', r, status) =>
    status <> KV_ERR_KEY_NOT_EXIST /\ r = cmd_value_length c1 /\
    host_bytes c2 toy_host r d'.(kd_host) = host_bytes c1 toy_host (cmd_value_length c1) toy_host).
Proof.
  intros c1 c2. assert (kv_rel toy_cf 4 4 (toy_kv 4) (KvState ∅ 0 0)) as Hr by (apply fresh_rel; vm_compute; intuition congruence).
  split; [exact Hr|]. apply (kv_store_retrieve toy_cf first_clear (fun _ => 0) 4 4 (toy_kv 4) (KvState ∅ 0 0) c1 toy_host c2 toy_host Hr);
    [split; reflexivity|split; reflexivity|reflexivity|reflexivity|reflexivity| | | |].
  - cbn [allowed ks_map]. rewrite lookup_empty. vm_compute. intuition congruence.
  - apply one_page_ok; [reflexivity|vm_compute; intuition congruence].
  - vm_compute. congruence.
  - apply one_page_ok; [reflexivity|vm_compute; intuition congruence].
Defined.

(** ** Iterators *)

(** C34: reading an open iterator until the device reports its end terminates,
    and the replies hold, in slot order, the key of every slot in use that
    matches the iterator's prefix and mask, each slot once: the number of keys,
    then each key after its length. *)
Theorem kv_iterator_enumerates d cmd h :
  ftl_ok d.(kd_ftl) -> d.(kd_ftl).(hash_slots) < 2147483648 -> reply_buffer cmd ->
  iter_at d.(kd_ftl) (kc_iter_handle cmd) h -> h.(ki_current_pos) = 0 ->
  okp (rloop (S (Z.to_nat d.(kd_ftl).(hash_slots))) (iter_round cmd) (d, [])) (fun '(_, outs) => exists kss,
    outs = report <$> kss /\ mjoin kss = hits d.(kd_ftl).(kv_mapping_table) h 0 d.(kd_ftl).(hash_slots)).
Proof. apply iter_all_ok. Qed.

(** A table with keys in three of its four slots, and an iterator over those whose
    first byte is one, open at the handle 1. *)
Definition toy_slot (key : list Z) (off : Z) : mapping_entry := MapEntry (key ++ [0; 0]) off 2 NO_SLOT.
Definition toy_table : list mapping_entry :=
  [toy_slot (toy_key 1 2 3 4) 0; no_entry; toy_slot (toy_key 9 2 3 4) 1024; toy_slot (toy_key 1 7 3 4) 2048].
Definition toy_iter : kv_iter_context := IterContext 1 255 (fun _ => 0) 0 0 false 0.
Definition toy_iter_dev : kv_dev :=
  KvDev (with_table toy_table (with_iters (zrepeat 1 (Some None) ++ Some (Some toy_iter) :: zrepeat 14 (Some None) ++ [None]) (fresh_ftl 4)))
    toy_pools (fun _ => 0) (fun _ => 0).
Definition toy_read_iter : kv_command := KvCommand nvme_cmd_kv_iter_read 4096 0 256 1 0 0 (zrepeat 16 0).

Lemma toy_table_ok : table_ok toy_table.
Proof.
  assert (forall i e, toy_table !! i = Some e -> zlen e.(me_key) = KEY_FIELD /\ e.(me_next_slot) = NO_SLOT) as H.
  { intros i e He. assert (e ∈ toy_table) as Hin by (apply elem_of_zlookup; by exists i). clear He. unfold toy_table in Hin.
    rewrite !elem_of_cons, elem_of_nil in Hin. destruct Hin as [->|[->|[->|[->|[]]]]]; split; reflexivity. }
  split; [vm_compute; intuition congruence|intros i e [H1 H2]%H; split; auto|].
  exists (fun _ => O). by intros i e [_ H2]%H.
Qed.

Lemma kv_iterator_enumerates_witness :
  iter_at toy_iter_dev.(kd_ftl) 1 toy_iter /\
  okp (rloop 5 (iter_round toy_read_iter) (toy_iter_dev, [])) (fun '(_, outs) => exists kss,
    outs = report <$> kss /\ mjoin kss = [toy_key 1 2 3 4; toy_key 1 7 3 4]).
Proof.
  split; [reflexivity|]. apply (kv_iterator_enumerates toy_iter_dev toy_read_iter toy_iter);
    [split; [exact toy_table_ok|reflexivity]|reflexivity| |reflexivity|reflexivity].
  intros h n Hn. apply one_page_ok; [reflexivity|]. unfold ITER_BUF in Hn. lia.
Defined.

(** ** I/O units *)

(** C35: the schedule of a block command on the striped I/O units returns, with
    the completion time of its last chunk, and every unit the command visited is
    busy until its last chunk is done, with the trailing time only if that chunk
    is in the first round; the other units are untouched. *)
Theorem schedule_io_units_spec cf opcode lba length start stat :
  let tm := if opcode =? nvme_cmd_write then write_timing cf
            else if opcode =? nvme_cmd_read then read_timing cf else IoTiming 0 0 0 in
  units_ok cf -> timing_ok tm -> 0 <= lba < 18446744073709551616 -> 0 <= length -> length + unit_size cf < 4294967296 ->
  zlen stat = cf.(cf_nr_io_units) -> 0 <= start < 2 ^ 61 ->
  (forall t, stat !! first_unit cf lba = Some t -> 0 <= t < 2 ^ 61) ->
  okp (__schedule_io_units cf opcode lba length start stat) (fun '(stat', t) => exists busy,
    stat !! first_unit cf lba = Some busy /\
    let base := Z.max start busy + tm.(it_delay) in
    t = base + unit_chunks cf length * tm.(it_latency) /\
    visited cf tm base lba length (unit_chunks cf length) stat stat').
Proof. intros tm Hcf Htm. unfold __schedule_io_units. fold tm. by apply schedule_units_ok. Qed.

Lemma schedule_io_units_spec_witness :
  units_ok toy_cf /\
  okp (__schedule_io_units toy_cf nvme_cmd_write 8 24576 1000 [0; 5000; 0; 0]) (fun '(stat', t) => exists busy,
    [0; 5000; 0; 0] !! first_unit toy_cf 8 = Some busy /\
    let base := Z.max 1000 busy + 20 in
    t = base + unit_chunks toy_cf 24576 * 200 /\
    visited toy_cf (write_timing toy_cf) base 8 24576 (unit_chunks toy_cf 24576) [0; 5000; 0; 0] stat').
Proof.
  assert (units_ok toy_cf) as Hcf by (split; vm_compute; intuition congruence).
  split; [exact Hcf|]. apply (schedule_io_units_spec toy_cf nvme_cmd_write 8 24576 1000 [0; 5000; 0; 0] Hcf);
    [split; vm_compute; intuition congruence|lia|lia|vm_compute; reflexivity|reflexivity|lia|].
  intros t Ht. vm_compute in Ht. injection Ht as <-. lia.
Defined.

(** ** Allocators *)

(** C36: from initialisation on, either allocator serves every sequence of
    lengths that fits (for append_only.c their sum in the device, for bitmap.c as
    many small and large values as there are cells, none over the large length)
    with extents inside the device that do not overlap. *)
Theorem alloc_extents_disjoint find_next_zero ops size lens pl :
  zero_area_ok find_next_zero -> 0 <= size < 2 ^ 61 -> bitmap_fresh size pl.(pl_bitmap) ->
  (forall len, len ∈ lens -> 0 <= len) -> fits_space ops size lens ->
  okp (pl ← alloc_init ops size pl; alloc_run find_next_zero ops lens pl) (fun '(_, exts) =>
    exts.*2 = lens /\ ForallOrdPairs extents_apart exts /\ Forall (fun e => 0 <= e.1 /\ e.1 + e.2 <= size) exts).
Proof. intros Hf Hs Hb Hl Hfit. by apply alloc_run_ok. Qed.

Lemma alloc_extents_disjoint_witness :
  (zero_area_ok first_clear /\ fits_space bitmap_ops 1048576 [100; 2000; 1024; 4096]) /\
  okp (pl ← alloc_init bitmap_ops 1048576 toy_pools; alloc_run first_clear bitmap_ops [100; 2000; 1024; 4096] pl) (fun '(_, exts) =>
    exts.*2 = [100; 2000; 1024; 4096] /\ ForallOrdPairs extents_apart exts /\
    Forall (fun e => 0 <= e.1 /\ e.1 + e.2 <= 1048576) exts).
Proof.
  assert (forall len, len ∈ [100; 2000; 1024; 4096] -> 0 <= len <= 4096) as Hlens.
  { intros len Hin. rewrite !elem_of_cons, elem_of_nil in Hin. lia. }
  assert (fits_space bitmap_ops 1048576 [100; 2000; 1024; 4096]) as Hfit.
  { split; [vm_compute; congruence|]. split; [vm_compute; congruence|]. intros len Hin. by apply Hlens. }
  split; [split; [exact first_clear_ok|exact Hfit]|].
  apply (alloc_extents_disjoint first_clear bitmap_ops 1048576 [100; 2000; 1024; 4096] toy_pools first_clear_ok);
    [vm_compute; intuition congruence|split; vm_compute; intuition congruence| |exact Hfit].
  intros len Hin. by apply Hlens.
Defined.

(** ** Where the code does not keep to the map *)

(** The outcomes of commands on a device of the small configuration. *)
Definition toy_run (d : kv_dev) (evs : list kv_event) : res (list kv_outcome) :=
  snd <$> rfold (kv_exec toy_cf first_clear (fun _ => 0)) evs (d, []).

Definition ev (opcode n : Z) (key : list Z) : kv_event := KvEvent (toy_cmd opcode n key) toy_host.

(** Deleting a key loses the keys that collided with it. *)
Example delete_forgets :
  toy_run (toy_kv 2)
    [ev nvme_cmd_kv_store 1 (toy_key 0 0 0 0); ev nvme_cmd_kv_store 1 (toy_key 2 0 0 0);
     ev nvme_cmd_kv_exist 0 (toy_key 2 0 0 0); ev nvme_cmd_kv_delete 0 (toy_key 0 0 0 0);
     ev nvme_cmd_kv_exist 0 (toy_key 2 0 0 0)] =
  Ok [KvDone 0 []; KvDone 0 []; KvDone 0 []; KvDone 0 []; KvNoKey].
Proof. vm_compute. reflexivity. Qed.

(** A longer value written in the place of a short one runs into its neighbour:
    the second key, stored as the bytes 80 to 83, reads back as 84 to 87. *)
Example update_overwrites_neighbour :
  toy_run (toy_kv 4)
    [ev nvme_cmd_kv_store 1 (toy_key 1 0 0 0); ev nvme_cmd_kv_store 1 (toy_key 2 0 0 0);
     ev nvme_cmd_kv_retrieve 1 (toy_key 2 0 0 0); ev nvme_cmd_kv_store 2 (toy_key 1 0 0 0);
     ev nvme_cmd_kv_retrieve 1 (toy_key 2 0 0 0)] =
  Ok [KvDone 0 []; KvDone 0 []; KvDone 4 [80; 81; 82; 83]; KvDone 0 []; KvDone 4 [84; 85; 86; 87]].
Proof. vm_compute. reflexivity. Qed.

(** Keys have no recorded length: the first half of a stored key is found. *)
Example prefix_is_found :
  toy_run (toy_kv 1)
    [KvEvent (KvCommand nvme_cmd_kv_store 4096 0 1 7 0 0 (toy_key 1 2 3 4)) toy_host;
     ev nvme_cmd_kv_exist 0 (toy_key 1 2 3 4)] = Ok [KvDone 0 []; KvDone 0 []].
Proof. vm_compute. reflexivity. Qed.

(** A key of more than 16 bytes is read past the end of the command. *)
Example long_key_reads_past :
  toy_run (toy_kv 4) [KvEvent (KvCommand nvme_cmd_kv_store 4096 0 1 16 0 0 (toy_key 1 2 3 4)) toy_host] = Fault OutOfBounds.
Proof. vm_compute. reflexivity. Qed.

(** Storing into a full table never ends: the probe loop finds no free slot. *)
Example full_table_loops :
  toy_run (toy_kv 1) [ev nvme_cmd_kv_store 1 (toy_key 1 0 0 0); ev nvme_cmd_kv_store 1 (toy_key 2 0 0 0)] = Fault OutOfFuel.
Proof. vm_compute. reflexivity. Qed.

(** A buffer of three pages, of which the value fills two: the second address of
    the command is a list, but what is left of the value fits a page, so the device
    takes the list for the second page and writes the value over it. *)
Definition list_host : mem := mstore toy_host 8192 (le_encode 8 12288 ++ le_encode 8 16384).

Example retrieve_overwrites_list :
  let store := KvCommand nvme_cmd_kv_store 4096 12288 1500 3 0 0 (toy_key 1 2 3 4) in
  let retrieve := KvCommand nvme_cmd_kv_retrieve 4096 8192 3072 3 0 0 (toy_key 1 2 3 4) in
  (u64_at list_host 8192, u64_at list_host 8200) = (12288, 16384) /\
  match ('(d, _, _) ← kv_perform_nvme_io_cmd toy_cf first_clear (fun _ => 0) store 0 (dev_host toy_host (toy_kv 4));
         kv_perform_nvme_io_cmd toy_cf first_clear (fun _ => 0) retrieve 0 (dev_host list_host d)) with
  | Ok (d, r, _) => r = 6000 /\ mload d.(kd_host) 8192 16 = mload toy_host 12288 16 /\ d.(kd_host) 12288 = list_host 12288
  | Fault _ => False
  end.
Proof. vm_compute. intuition congruence. Qed.

(** The sixteenth iterator is looked up in a handle that was never initialised. *)
Example open_reads_uninitialised :
  let cmd := KvCommand nvme_cmd_kv_iter_req 0 0 0 0 1 0 (zrepeat 16 0) in
  let opens n := rfold (fun _ f => '(f, _, _) ← kv_iter_open (fun _ => 0) f cmd 0; Ok f) (zrange 0 n) (fresh_ftl 4) in
  match opens 15 with Ok _ => True | Fault _ => False end /\ opens 16 = Fault Uninit.
Proof. vm_compute. intuition congruence. Qed.

(** A full bitmap hands out an extent outside its half of the device, and the same
    one again. *)
Example full_bitmap_overflows :
  snd <$> (pl ← alloc_init bitmap_ops 4096 toy_pools; alloc_run first_clear bitmap_ops [1000; 1000; 1000; 1000] pl) =
  Ok [(0, 1000); (1024, 1000); (3072, 1000); (3072, 1000)].
Proof. vm_compute. reflexivity. Qed.
