(* ===== verification/IoProps.v ===== *)
(** * Properties of the I/O path

    The theorems about io.c, each followed by its instance at a small device: the
    requests of a worker, the dispatch of a ring, the completion ring and the two
    ways of copying data; then examples of what the code does where it does not
    keep to them. *)

From stdpp Require Import prelude list sorting.
From Stdlib Require Import ZArith Lia.
From S2P Require Import Prelude Mem Prp ChannelModel SsdConfig Ssd ConvFtl IoUnits IoQueue IoInv NvmeCmd IoCopy Io IoBackends IoRun.
From S2P Require Import IoDispatch IoLaws IoRing Toy.

(** ** A small device

    Queues of four entries, a simple namespace, a submission queue of eight entries
    and a completion queue of four in the pages at 4096 and 8192. *)

Definition small_cf : nvmev_config := NvmevConfig 0 1048576 4 12 10 100 1000 20 200 2000.

#[local, refine] Instance small_queue : QueueConfig := {| NR_MAX_PARALLEL_IO := 4 |}.
Proof. lia. Defined.
#[local] Instance small_backend : Backend := simple_backend small_cf.

Lemma small_units_ok : units_ok small_cf.
Proof. split; vm_compute; intuition congruence. Qed.
#[local] Instance small_laws : BackendLaws small_backend (simple_world small_cf) := simple_laws small_cf small_units_ok.

(** A command of the host in its entry: one page at 65536, [n] blocks. *)
Definition small_cmd (opcode id slba nlb : Z) : list Z :=
  le_encode 1 opcode ++ [0] ++ le_encode 2 id ++ le_encode 4 1 ++ zrepeat 16 0 ++
  le_encode 8 65536 ++ le_encode 8 69632 ++ le_encode 8 slba ++ le_encode 2 nlb ++ zrepeat 14 0.

Definition small_host (cmds : list (list Z)) : mem :=
  mstore (fun a => if 65536 <=? a then a `mod` 251 else 0) 4096 (concat cmds).

Definition small_dev (cmds : list (list Z)) : io_dev := IoDev small_backend [] 0 []
  [None; Some (SubmissionQueue 1 8 (SqStat 0 0 0 0 0) [4096])]
  [None; Some (CompletionQueue 3 true false 4 1 0 (-1) [8192])]
  1 [Simple.SimpleNs 0 NVME_CSI_NVM 1048576 0] [0] (Simple.UnitDev [0; 0; 0; 0] 0)
  (IoMem (small_host cmds) (fun _ => 7)) [].

(** ** The requests of a worker *)

(** C37: no request is lost, duplicated or invented.  From the start of the
    workers, whatever calls of io.c follow in whatever order, with the rest of the
    device changing in any way between them, the requests that a worker accepted
    are those it completed and those pending in its queue, each as often; none was
    completed before its time; the queue is in the order of the target times,
    apart from those whose time has come, holds no entry twice and with the free
    list makes all the entries, of which one is always free; the thread's cursor
    stays in the table; and neither the insertion nor the reclaim can fail. *)
Theorem io_requests_conserved `{BK : Backend} `{QC : QueueConfig} pfn_valid store_size dma nr d0 d1 i ins outs d2 k :
  0 < nr < 4294967296 -> NVMEV_IO_WORKER_INIT nr d0 = Ok d1 ->
  queue_run pfn_valid store_size dma i d1 ins outs d2 -> d2.(dv_workers) !! i = Some k ->
  ins ≡ₚ outs ++ pending k /\ Forall (fun r => rq_target r <= k.(wk_latest_nsecs)) outs /\
  StronglySorted (before k) (io_list k) /\ NoDup (io_list k) /\ k.(wk_id) = i /\
  Z.of_nat (free_entries k + length (io_list k)) = NR_MAX_PARALLEL_IO /\ (0 < free_entries k)%nat /\
  (exists t, d2.(dv_threads) !! i = Some t /\ (t.(th_curr) = NO_ENTRY \/ 0 <= t.(th_curr) < NR_MAX_PARALLEL_IO)) /\
  (forall op, okp (schedule_internal_operation op d2) (fun _ => True)) /\ okp (__reclaim_completed_reqs d2) (fun _ => True).
Proof.
  intros Hnr Hi Hrun Hk. pose proof (init_queues nr d0 Hnr) as H. rewrite Hi in H. destruct H as (Hq & Hl & Hp).
  destruct (run_conserves _ _ _ _ _ _ _ _ Hrun Hq) as (Hq2 & Hl2 & Hacc). pose proof (zlookup_Some_range _ _ _ Hk) as Hr.
  destruct (zlookup_lt d1.(dv_workers) i ltac:(lia)) as [k1 Hk1]. destruct (Hacc _ _ Hk1 Hk) as (P & _ & F).
  rewrite (Hp _ _ Hk1) in P. destruct (zlookup_lt d2.(dv_threads) i) as [t Ht]; [rewrite (qs_threads _ Hq2); exact Hr|].
  destruct (qs_worker _ Hq2 _ _ _ Hk Ht) as (fl & il & [Hwq Hcur Hid]).
  rewrite (io_list_ok _ _ _ Hwq), (free_entries_ok _ _ _ Hwq). pose proof (queue_lengths _ _ _ Hwq). pose proof (qo_len _ _ _ Hwq) as Hlen.
  pose proof (entries_NoDup _ _ _ Hwq) as Hnd. rewrite NoDup_app in Hnd.
  split; [exact P|]. split; [done|]. split; [apply (qo_sorted _ _ _ Hwq)|]. split; [apply Hnd|]. split; [done|].
  split; [unfold zlen in Hlen; lia|]. split; [pose proof (qo_some _ _ _ Hwq); destruct fl; simpl; [done|lia]|].
  split; [|split; [intros op; by apply internal_total|eapply okp_mono; [by apply reclaim_reqs_ok|done]]].
  exists t. split; [done|]. destruct Hcur as [?|[Hc|[Hc _]]]; [by left|right..]; apply (entry_range _ _ _ _ Hwq); set_solver.
Qed.

(** Two writes, the second due first, with the release of a buffer between them,
    and a pass of the worker that completes the last two. *)
Definition small_start : io_dev :=
  get_Ok (small_dev []) (NVMEV_IO_WORKER_INIT 2 (small_dev [small_cmd nvme_cmd_write 11 0 0; small_cmd nvme_cmd_write 12 1 0])).
Definition small_events : list queue_event :=
  [QEnqueue 1 1 0 100 (Result 0 90000); QInternal (InternalOp 1 3000 (Some 5) 4096); QEnqueue 1 1 1 200 (Result 0 2000);
   QStart 0; QVisit 0; QNext 0; QVisit 0; QNext 0; QVisit 0; QNext 0; QReclaim].
Definition small_end : io_dev * list request * list request :=
  get_Ok (small_start, [], []) (exec_events (fun _ => true) 1048576 false 0 small_events small_start).

Lemma io_requests_conserved_witness :
  0 < 2 < 4294967296 /\
  let '(d2, ins, outs) := small_end in
  exists k, d2.(dv_workers) !! 0 = Some k /\
  ins = [RqCommand 1 1 0 11 100 90000; RqInternal 1 3000 (Some 5) 4096; RqCommand 1 1 1 12 200 2000] /\
  outs = [RqCommand 1 1 1 12 200 2000; RqInternal 1 3000 (Some 5) 4096] /\ pending k = [RqCommand 1 1 0 11 100 90000] /\
  ins ≡ₚ outs ++ pending k.
Proof.
  split; [lia|]. 
  assert (exec_events (fun _ => true) 1048576 false 0 small_events small_start = Ok small_end) as E
    by (apply get_Ok_eq; vm_compute; reflexivity).
  pose proof (exec_run _ _ _ _ _ _ _ E) as Hrun.
  assert (exists k, small_end.1.1.(dv_workers) !! 0 = Some k /\ pending k = [RqCommand 1 1 0 11 100 90000]) as (k & Hk & Hp)
    by (eexists; split; vm_compute; reflexivity).
  assert (small_end.1.2 = [RqCommand 1 1 0 11 100 90000; RqInternal 1 3000 (Some 5) 4096; RqCommand 1 1 1 12 200 2000]) as Hi
    by (vm_compute; reflexivity).
  assert (small_end.2 = [RqCommand 1 1 1 12 200 2000; RqInternal 1 3000 (Some 5) 4096]) as Ho by (vm_compute; reflexivity).
  destruct small_end as [[d2 ins] outs]. exists k. split; [exact Hk|]. split; [exact Hi|]. split; [exact Ho|]. split; [exact Hp|].
  refine (proj1 (io_requests_conserved _ _ _ 2 _ small_start 0 ins outs d2 k _ _ Hrun Hk)); [lia|].
  apply (get_Ok_eq (small_dev [])). vm_compute. reflexivity.
Defined.

(** ** The dispatch of a ring *)

(** C38: the doorbell of a submission queue.  Against any namespaces that keep the
    laws of the interface, a call of the dispatcher takes the entries of the ring
    from the old doorbell to before the new one, each once and in the order of the
    ring, over its end, up to the first that its namespace refuses, if it may refuse
    any; puts the internal operations of each command and then the command itself,
    with its identifier and its completion queue, in the queue of the worker of the
    submission queue, and nothing in those of the others; returns the doorbell of
    the entry it stopped at; counts the commands and their bytes; and changes the
    host's memory only where the handlers of these commands write, provided that the
    queue of the worker has the room for all of them. *)
Theorem proc_io_sq_in_order `{BK : Backend} `{QC : QueueConfig} W `{LW : !BackendLaws BK W}
    pfn_valid store_size dma sqid sq d new old :
  let i := worker_of d sqid in
  let n := ring_distance sq.(sq_queue_size) new old in
  ring_ok W sqid sq d new old -> dispatch_inv W d -> stat_ok sq.(sq_stat) ->
  (Z.to_nat n * S max_internal < room d i)%nat ->
  okp (nvmev_proc_io_sq sqid new old d) (fun '(d', latest_db) => exists m entries,
    0 <= m <= n /\ entries = take (Z.to_nat m) (ring_entries sq.(sq_queue_size) new old) /\
    (may_refuse = false -> entries = ring_entries sq.(sq_queue_size) new old /\ latest_db = new) /\
    all_or_stopped W pfn_valid store_size dma sqid sq d new old m /\
    latest_db = (old + m) `mod` sq.(sq_queue_size) /\ dispatch_inv W d' /\ same_rest (dv_with_sqes d'.(dv_sqes) d) d' /\
    host_kept cmd_writes (ring_addrs sq new old) (dv_host d) (dv_host d') /\
    (exists st, d'.(dv_sqes) = <[sqid := Some (sq_with_stat st sq)]> d.(dv_sqes) /\
       st.(nr_dispatched) = u32 (sq.(sq_stat).(nr_dispatched) + m) /\
       st.(nr_dispatch) = u32 (sq.(sq_stat).(nr_dispatch) + 1) /\
       st.(nr_in_flight) = u32 (sq.(sq_stat).(nr_in_flight) + m) /\
       st.(total_io) = u64 (sq.(sq_stat).(total_io) + foldr (fun e x => entry_size sq d e + x) 0 entries)) /\
    exists inss, Forall2 (served W sqid sq d) entries inss /\
      queue_run pfn_valid store_size dma i d (concat inss) [] d' /\
      forall w, w <> i -> queue_run pfn_valid store_size dma w d [] [] d').
Proof.
  intros i n Hr Hd Hs Hroom. eapply okp_mono; [by apply (dispatch_ok W pfn_valid store_size dma)|].
  intros [d' l] (m & Hm & Hst0 & Hl & Hd' & Hrest & Hkept & (st & E & _ & Hst) & _ & inss & Hf & Hrun).
  exists m, (first_entries sq old m). split; [done|]. split; [by apply first_entries_take|].
  pose proof (none_refused _ _ _ _ _ _ _ _ _ _ Hst0) as Hall.
  split; [intros Hno; split; [by rewrite (Hall Hno)|rewrite Hl, (Hall Hno); by eapply last_entry]|]. split; [done|].
  do 4 (split; [done|]). split; [by exists st|]. exists inss. split; [done|].
  split; [specialize (Hrun i); unfold at_worker in Hrun; by rewrite Z.eqb_refl in Hrun|].
  intros w Hw. specialize (Hrun w). unfold at_worker in Hrun. by rewrite (proj2 (Z.eqb_neq w (worker_of d sqid)) Hw) in Hrun.
Qed.

(** The ring from the entry 7 over its end to before the entry 1. *)
Definition small_ring : io_dev :=
  get_Ok (small_dev []) (NVMEV_IO_WORKER_INIT 2 (small_dev (zrepeat 8 (small_cmd nvme_cmd_write 7 0 0)))).
Definition small_sq : nvmev_submission_queue := SubmissionQueue 1 8 (SqStat 0 0 0 0 0) [4096].

Lemma proc_io_sq_in_order_witness :
  ring_ok (simple_world small_cf) 1 small_sq small_ring 1 7 /\ dispatch_inv (simple_world small_cf) small_ring /\
  okp (nvmev_proc_io_sq 1 1 7 small_ring) (fun '(d', latest_db) => latest_db = 1 /\
    exists inss, Forall2 (served (simple_world small_cf) 1 small_sq small_ring) [7; 0] inss).
Proof.
  assert (ring_ok (simple_world small_cf) 1 small_sq small_ring 1 7) as Hr.
  { split; [vm_compute; reflexivity|vm_compute; intuition congruence..| |done].
    assert (ring_entries (sq_queue_size small_sq) 1 7 = [7; 0]) as -> by reflexivity.
    intros e He. rewrite !elem_of_cons, elem_of_nil in He. destruct He as [->|[->|[]]]; eexists; (split; [reflexivity|]);
      vm_compute; intuition congruence. }
  assert (NVMEV_IO_WORKER_INIT 2 (small_dev (zrepeat 8 (small_cmd nvme_cmd_write 7 0 0))) = Ok small_ring) as Ei
    by (apply get_Ok_eq; vm_compute; reflexivity).
  assert (dispatch_inv (simple_world small_cf) small_ring) as Hd.
  { pose proof (init_queues 2 (small_dev (zrepeat 8 (small_cmd nvme_cmd_write 7 0 0))) ltac:(lia)) as H.
    rewrite Ei in H. split; [apply H|]. split; [reflexivity|]. constructor; [reflexivity|constructor]. }
  split; [exact Hr|]. split; [exact Hd|].
  eapply okp_mono; [apply (proc_io_sq_in_order (BK := small_backend) (simple_world small_cf) (fun _ => true) 1048576 false 1 small_sq small_ring 1 7 Hr Hd)|].
  - vm_compute. intuition congruence.
  - vm_compute. lia.
  - intros [d' l] (m & es & _ & _ & Hall & _ & _ & _ & _ & _ & _ & inss & Hf & _). destruct (Hall eq_refl) as [-> ->].
    split; [reflexivity|]. exists inss. exact Hf.
Defined.

(** ** The completion ring *)

(** C39: what the device posts is what the host reads.  A batch of at most as many
    completions as the ring has entries, posted from any position over the end of
    the ring and the change of the phase, is read by a host that scans from where
    the device stood, entry after entry while the phase is the one it expects: it
    finds exactly the batch, in order, each with its identifier, queue, entry,
    result and status, and stops after it; the device is then ready for the next
    batch, and no other entry changed. *)
Theorem completions_reach_host ws cq h :
  0 < cq.(cq_queue_size) <= NR_CQE_PER_PAGE * zlen cq.(cq_pages) -> 0 <= cq.(cq_head) < cq.(cq_queue_size) ->
  (cq.(cq_phase) = 0 \/ cq.(cq_phase) = 1) -> NoDup cq.(cq_pages) -> Forall (fun p => p `mod` PAGE_SIZE = 0) cq.(cq_pages) ->
  phases cq h -> zlen ws <= cq.(cq_queue_size) ->
  okp (post_all cq ws h) (fun '(cq', h') =>
    host_view <$> host_scan (S (length ws)) cq h' cq.(cq_head) cq.(cq_phase) = work_view <$> ws /\
    cq_ok cq' /\ phases cq' h' /\ cq'.(cq_pages) = cq.(cq_pages) /\ (ws <> [] -> cq'.(cq_interrupt_ready) = true) /\
    forall i a, 0 <= i < cq.(cq_queue_size) -> cq_entry cq i = Ok a -> (forall k, 0 <= k < zlen ws -> i <> slot cq k) ->
      get_cqe h' a = get_cqe h a).
Proof.
  intros Hs Hh Hp Hnd Ha Hph Hl. pose proof (pages_apart cq Hs Hh Hp Hnd Ha) as Hc.
  eapply okp_mono; [by apply post_all_posts|]. intros [cq' h'] P.
  destruct (posts_scan _ _ _ _ _ P Hc Hph Hl) as [H1 H2 _ H3 H4 H5 H6]. rewrite H6. split; [by apply completions_view|].
  split; [done|]. split; [done|]. split; [done|]. split; [|done]. intros Hne. rewrite H4. by destruct ws.
Qed.

(** Three completions from the last entry of a ring of four, in the second lap. *)
Definition small_work (id status : Z) : io_work := IoWork 1 1 5 id 0 0 0 true true status 9 0 false None 0 0 0.
Definition small_cq : nvmev_completion_queue := CompletionQueue 3 true false 4 0 3 (-1) [8192].
Definition small_cq_host : mem := put_cqe 8240 (NvmeCompletion 0 0 0 0 0 1) (fun _ => 0).

Lemma completions_reach_host_witness :
  phases small_cq small_cq_host /\
  okp (post_all small_cq [small_work 21 0; small_work 22 129; small_work 23 0] small_cq_host) (fun '(cq', h') =>
    host_view <$> host_scan 4 small_cq h' 3 0 = [(21, 1, 5, 9, 0, 0); (22, 1, 5, 9, 0, 129); (23, 1, 5, 9, 0, 0)]).
Proof.
  assert (phases small_cq small_cq_host) as Hp.
  { intros i a Hi. change (cq_queue_size small_cq) with 4 in Hi.
    assert (i = 0 \/ i = 1 \/ i = 2 \/ i = 3) as [->|[->|[->| ->]]] by lia; intros [= <-]; vm_compute; reflexivity. }
  split; [exact Hp|].
  eapply okp_mono; [apply (completions_reach_host [small_work 21 0; small_work 22 129; small_work 23 0] small_cq small_cq_host)|].
  - vm_compute. intuition congruence.
  - vm_compute. intuition congruence.
  - left. reflexivity.
  - apply NoDup_singleton.
  - constructor; [reflexivity|constructor].
  - exact Hp.
  - vm_compute. congruence.
  - intros [cq' h'] [H _]. exact H.
Defined.

(** ** Copies *)

(** C40: the two ways of copying agree.  For a buffer as NVMe has them and a
    namespace at the start of the storage, the copy page by page and the copy by
    the DMA engine, which joins the pages that follow each other, both return, give
    the same host memory and the same storage, byte for byte, and move exactly the
    bytes of the command: from the host to the storage for a write or an append, the
    other way for a read, and nothing for the other commands. *)
Theorem dma_copies_as_memcpy pfn_valid store_size mapped cmd m :
  let h := m.(im_host) in
  let prp1 := cmd_prp1 h cmd in
  let length := io_length h cmd in
  prp_buffer_ok h prp1 (cmd_prp2 h cmd) length -> mapping_ok pfn_valid prp1 (cmd_prp2 h cmd) ->
  io_start 0 h cmd + length <= store_size ->
  (has_data (cmd_opcode h cmd) = true -> mapped !! u32 (cmd_nsid h cmd - 1) = Some 0) ->
  prp1 `mod` PAGE_SIZE + length <= (PADDR_LIST - 1) * PAGE_SIZE ->
  (forall o, 0 <= o < length -> 0 <= io_addr h cmd o < 2 ^ 64 - PAGE_SIZE) ->
  exists m1 m2, __do_perform_io pfn_valid store_size mapped cmd m = Ok m1 /\
    __do_perform_io_using_dma pfn_valid store_size cmd m = Ok m2 /\
    (forall x, m1.(im_host) x = m2.(im_host) x) /\ (forall x, m1.(im_store) x = m2.(im_store) x) /\
    moved (cmd_opcode h cmd) (io_addr h cmd) (io_start 0 h cmd) m length m1.
Proof.
  intros h prp1 length Hb Hm Hs Hn Hfit Hr.
  destruct (okp_inv _ _ (perform_io_ok pfn_valid store_size 0 cmd m Hb Hm Hs mapped Hn ltac:(done))) as (m1 & E1 & H1).
  destruct (okp_inv _ _ (using_dma_ok pfn_valid store_size 0 cmd m Hb Hm Hs Hfit eq_refl Hr)) as (m2 & E2 & H2).
  exists m1, m2. destruct (moved_agree _ _ _ _ _ _ _ H1 H2) as [A B]. done.
Qed.

(** A write of two pages that follow each other. *)
Definition small_mem : io_mem := IoMem (small_host [small_cmd nvme_cmd_write 7 2 15]) (fun _ => 7).

Lemma small_buffer_ok : io_length small_mem.(im_host) 4096 = 8192 /\
  (forall o, 0 <= o < 8192 -> io_addr small_mem.(im_host) 4096 o = 65536 + o) /\
  prp_buffer_ok small_mem.(im_host) 65536 69632 8192.
Proof.
  assert (forall rd o, 0 <= o < 8192 -> prp_addr rd 65536 69632 8192 o = 65536 + o) as Ha.
  { intros rd o Ho. unfold prp_addr. change (prp_first 65536 8192) with 4096. cbv zeta. destruct (o <? 4096) eqn:E; [done|].
    apply Z.ltb_ge in E. change (PAGE_SIZE <? 8192 - 4096) with false. cbn iota. unfold PAGE_SIZE. rewrite Z.mod_small by lia. lia. }
  split; [vm_compute; reflexivity|]. split.
  - intros o Ho. unfold io_addr. assert (io_length (im_host small_mem) 4096 = 8192) as -> by (vm_compute; reflexivity).
    assert (cmd_prp1 (im_host small_mem) 4096 = 65536) as -> by (vm_compute; reflexivity).
    assert (cmd_prp2 (im_host small_mem) 4096 = 69632) as -> by (vm_compute; reflexivity). by apply Ha.
  - split.
    + split; change (prp_first 65536 8192) with 4096; unfold PAGE_SIZE; [done|lia|lia].
    + intros o o' Ho Ho'. rewrite !Ha by done. lia.
    + intros i o j. change (prp_first 65536 8192) with 4096. unfold PAGE_SIZE. lia.
Qed.

Lemma dma_copies_as_memcpy_witness :
  prp_buffer_ok small_mem.(im_host) 65536 69632 8192 /\
  exists m1 m2, __do_perform_io (fun _ => true) 1048576 [0] 4096 small_mem = Ok m1 /\
    __do_perform_io_using_dma (fun _ => true) 1048576 4096 small_mem = Ok m2 /\
    (forall x, m1.(im_host) x = m2.(im_host) x) /\ (forall x, m1.(im_store) x = m2.(im_store) x).
Proof.
  destruct small_buffer_ok as (Hl & Ha & Hb). split; [exact Hb|].
  destruct (dma_copies_as_memcpy (fun _ => true) 1048576 [0] 4096 small_mem) as (m1 & m2 & E1 & E2 & H1 & H2 & _).
  - rewrite Hl. exact Hb.
  - split; left; reflexivity.
  - vm_compute. congruence.
  - intros _. vm_compute. reflexivity.
  - rewrite Hl. vm_compute. congruence.
  - rewrite Hl. intros o Ho. rewrite Ha by done. unfold PAGE_SIZE. lia.
  - exists m1, m2. split; [exact E1|]. split; [exact E2|]. split; [exact H1|exact H2].
Defined.

(** ** What the code does elsewhere *)

(** A command for which the queue has no room is dropped: the dispatcher goes on as
    if it were queued, and the host never sees its completion. *)
Example full_queue_drops_command :
  match exec_events (fun _ => true) 1048576 false 0
    (zrepeat 4 (QEnqueue 1 1 0 100 (Result 0 90000))) small_start with
  | Ok (d, ins, _) => (length ins, (fun k => length (pending k)) <$> d.(dv_workers))
  | Fault _ => (O, [])
  end = (3%nat, [3%nat; 0%nat]).
Proof. vm_compute. reflexivity. Qed.

(** A completion doorbell that the ring never reaches is a loop without end. *)
Example completion_doorbell_beyond_loops :
  match nvmev_proc_io_cq 1 9 0 (small_dev []) with Ok _ => None | Fault f => Some f end = Some OutOfFuel.
Proof. vm_compute. reflexivity. Qed.

(** A request whose completion queue was deleted has nowhere to go. *)
Example deleted_queue_faults :
  match (d ← NVMEV_IO_WORKER_INIT 2 (small_dev [small_cmd nvme_cmd_write 11 0 0]);
         d ← __enqueue_io_req 1 1 0 100 (Result 0 0) d;
         nvmev_io_worker (fun _ => true) 1048576 false 0 (dv_with_cqes [None; None] d)) with
  | Ok _ => None
  | Fault f => Some f
  end = Some NullDeref.
Proof. vm_compute. reflexivity. Qed.

(** An entry keeps the results of its last use: a command that sets none posts
    those of another. *)
Example results_of_last_use w ret : (fill_command 1 1 0 0 0 0 ret w).(iw_result0) = w.(iw_result0).
Proof. reflexivity. Qed.

(** On a page that [memremap] maps, the data is taken beside the address given, and
    the list is read as many times eight bytes away. *)
Example memremap_offset_twice :
  map_data (fun _ => false) 65636 = 65736 /\ map_list (fun _ => false) 65636 0 = Some 66436.
Proof. vm_compute. done. Qed.

(** The DMA engine ignores where the namespace starts: a write to the second
    namespace goes over the first. *)
Example dma_ignores_namespace :
  let m := IoMem (small_host [small_cmd nvme_cmd_write 7 0 0]) (fun _ => 7) in
  (fun r => match r with Ok m' => (m'.(im_store) 0, m'.(im_store) 524288) | Fault _ => (-1, -1) end) <$>
    [__do_perform_io (fun _ => true) 1048576 [524288] 4096 m; __do_perform_io_using_dma (fun _ => true) 1048576 4096 m]
  = [(7, 25); (25, 7)].
Proof. vm_compute. reflexivity. Qed.

(** The data is moved whatever the status of the command. *)
Example refused_command_moves_data :
  match (d ← NVMEV_IO_WORKER_INIT 2 (small_dev [small_cmd nvme_cmd_write 11 0 0]);
         d ← __enqueue_io_req 1 1 0 100 (Result 128 0) d;
         nvmev_io_worker (fun _ => true) 1048576 false 0 d) with
  | Ok d => (d.(dv_mem).(im_store) 0, host_view (get_cqe (dv_host d) 8192), d.(dv_irqs))
  | Fault _ => (-1, (0, 0, 0, 0, 0, 0), [])
  end = (25, (11, 1, 0, 0, 0, 128), [3]).
Proof. vm_compute. reflexivity. Qed.
