(* ===== verification/RingProps.v ===== *)
(** * From the host's ring to the host's completions

    The theorem that puts the dispatcher, the queue of a worker, the copy and the
    completion ring together, with its instance at a small device. *)

From stdpp Require Import prelude list sorting.
From Stdlib Require Import ZArith Lia.
From S2P Require Import Prelude Mem Prp SsdConfig Ssd ConvFtl IoUnits IoQueue IoInv NvmeCmd IoCopy Io IoBackends IoRun IoDispatch IoLaws IoDevice.
From S2P Require Import IoRing IoPass IoComplete Toy.

(** C13: every command that is taken is answered.  Against any namespaces that keep the
    laws of the interface, but in a build for key-value commands, let a host put
    commands in a ring whose worker is idle, each with a buffer for its data that no
    ring overlaps.  The dispatcher takes the first of them, without a fault: all of
    them, or those before the first that its namespace refuses, as a namespace with a
    write buffer may; where none may refuse, all of them.  If by the time that the
    worker next walks its queue the clock has reached the target times, and does not
    go back, then after that one walk a host that scans its completion ring finds
    exactly one completion for each command that was taken, with its identifier, queue
    and entry, nothing is left in the queue, and the interrupt is raised when the ring
    is one of the worker's with interrupts enabled. *)
Theorem commands_complete `{BK : Backend} `{QC : QueueConfig} W `{LW : !BackendLaws BK W} pfn_valid store_size dma sqid new old sq cq d k :
  let i := worker_of d sqid in
  let n := ring_distance sq.(sq_queue_size) new old in
  let clocks := pass_clocks pfn_valid store_size dma i in
  KV_PROTOTYPE_BUILD = false -> ring_ready W pfn_valid store_size dma sqid new old sq cq d k ->
  okp (nvmev_proc_io_sq sqid new old d) (fun '(d1, db) => exists m k1,
    0 <= m <= n /\ db = (old + m) `mod` sq.(sq_queue_size) /\ (may_refuse = false -> m = n /\ db = new) /\
    all_or_stopped W pfn_valid store_size dma sqid sq d new old m /\ d1.(dv_workers) !! i = Some k1 /\
    (Sorted Z.le (k1.(wk_latest_nsecs) :: clocks d1) ->
     Forall (fun r => exists c, head (clocks d1) = Some c /\ rq_target r <= c) (pending k1) ->
     okp (nvmev_io_worker pfn_valid store_size dma i d1) (fun d2 =>
       answer <$> host_scan (S (Z.to_nat m)) cq (dv_host d2) cq.(cq_head) cq.(cq_phase) ≡ₚ narrowed <$> first_of m (offered sqid new old sq d) /\
       (forall k2, d2.(dv_workers) !! i = Some k2 -> pending k2 = []) /\ device_ok W d2 /\
       (0 < m -> cq.(cq_irq_enabled) = true -> 1 <= sq.(sq_cqid) <= d.(dv_nr_cq) -> worker_of d sq.(sq_cqid) = i ->
        exists l, d2.(dv_irqs) = d.(dv_irqs) ++ l /\ cq.(cq_irq_vector) ∈ l)))).
Proof.
  intros i n clocks HKV Hr.
  eapply okp_mono; [by apply (dispatch_takes W pfn_valid store_size dma HKV sqid new old sq cq d k Hr)|].
  intros [d1 db] (m & k1 & inss & Hall & Hst & Hdb & Ht). exists m, k1. split; [by apply Ht|]. do 3 (split; [done|]).
  split; [by apply Ht|]. intros Hs Hdue.
  by apply (pass_completes W pfn_valid store_size dma HKV sqid new old sq cq d k Hr m d1 k1 inss).
Qed.

(** ** A small device

    A simple namespace, queues of eight entries, a write and a read of a page at
    65536 in the ring at 4096, completions at 8192; the clock moves a millisecond at
    every reading. *)

#[local, refine] Instance quick_clock : Clock := {|
  cpu_clock := fun n => (Z.of_nat n * 1000000) `mod` 4294967296;
  local_clock := fun n => (Z.of_nat n * 1000000) `mod` 4294967296
|}.
Proof.
  - intros n. pose proof (Z.mod_pos_bound (Z.of_nat n * 1000000) 4294967296). lia.
  - intros n. pose proof (Z.mod_pos_bound (Z.of_nat n * 1000000) 4294967296). lia.
Defined.

Definition pair_cf : nvmev_config := NvmevConfig 0 1048576 4 12 10 100 1000 20 200 2000.
Lemma pair_units_ok : units_ok pair_cf.
Proof. split; vm_compute; intuition congruence. Qed.

#[local, refine] Instance pair_queue : QueueConfig := {| NR_MAX_PARALLEL_IO := 8 |}.
Proof. lia. Defined.
#[local] Instance pair_backend : Backend := simple_backend pair_cf.
#[local] Instance pair_laws : BackendLaws pair_backend (simple_world pair_cf) := simple_laws pair_cf pair_units_ok.

Definition pair_cmd (opcode id : Z) : list Z :=
  le_encode 1 opcode ++ [0] ++ le_encode 2 id ++ le_encode 4 1 ++ zrepeat 16 0 ++
  le_encode 8 65536 ++ le_encode 8 69632 ++ le_encode 8 0 ++ le_encode 2 7 ++ zrepeat 14 0.
Definition pair_host : mem :=
  mstore (fun a => if 65536 <=? a then a `mod` 251 else 0) 4096 (pair_cmd nvme_cmd_write 11 ++ pair_cmd nvme_cmd_read 12).
Definition pair_sq : nvmev_submission_queue := SubmissionQueue 1 8 (SqStat 0 0 0 0 0) [4096].
Definition pair_cq : nvmev_completion_queue := CompletionQueue 3 true false 4 1 0 (-1) [8192].
Definition pair_new : io_dev := IoDev pair_backend [] 0 [] [None; Some pair_sq] [None; Some pair_cq]
  1 [Simple.SimpleNs 0 NVME_CSI_NVM 1048576 0] [0] (Simple.UnitDev [0; 0; 0; 0] 0) (IoMem pair_host (fun _ => 7)) [].
Definition pair_dev : io_dev := get_Ok pair_new (NVMEV_IO_WORKER_INIT 2 pair_new).
Definition pair_worker : io_worker := default (get_Ok (IoWorker [] 0 0 0 0 0 0) (init_worker 0)) (pair_dev.(dv_workers) !! 0).

Definition pair_addr (a : Z) : Prop := a = 4096 \/ a = 4160.

(** What the two commands name. *)
Lemma pair_fields a : pair_addr a -> cmd_prp1 pair_host a = 65536 /\ cmd_prp2 pair_host a = 69632 /\ io_length pair_host a = 4096 /\
  list_use pair_host a = 0 /\ cmd_nsid pair_host a = 1 /\ cmd_slba pair_host a = 0.
Proof. intros [->| ->]; vm_compute; intuition congruence. Qed.

Lemma pair_io_addr a o : pair_addr a -> 0 <= o < 4096 -> io_addr pair_host a o = 65536 + o.
Proof.
  intros Ha Ho. destruct (pair_fields a Ha) as (E1 & E2 & E3 & _). unfold io_addr, prp_addr. rewrite E1, E2, E3.
  change (prp_first 65536 4096) with 4096. cbv zeta. by rewrite (proj2 (Z.ltb_lt _ _)) by lia.
Qed.

Lemma pair_reads a x : pair_addr a -> cmd_reads pair_host a x -> 4096 <= x < 4224.
Proof.
  intros Ha [H|(i & _ & H & _)]; [unfold NVME_COMMAND_SIZE in H; destruct Ha; lia|].
  destruct (pair_fields a Ha) as (_ & _ & _ & E & _). rewrite E in H. unfold PAGE_SIZE in H. lia.
Qed.
Lemma pair_fills a x : pair_addr a -> cmd_fills pair_host a x -> 65536 <= x < 69632.
Proof.
  intros Ha [_ (o & Ho & ->)]. destruct (pair_fields a Ha) as (_ & _ & E & _). rewrite E in Ho. rewrite pair_io_addr by done. lia.
Qed.

Lemma pair_rings c q : get_cq pair_dev c = Ok q -> c = 1 /\ q = pair_cq.
Proof.
  unfold get_cq, aget. change (dv_cqes pair_dev) with [None; Some pair_cq]. destruct (decide (c = 1)) as [->|H1]; [by intros [= <-]|].
  destruct ([None; Some pair_cq] !! c) as [y|] eqn:E; [|done]. pose proof (zlookup_Some_range _ _ _ E) as Hr. assert (zlen [None; Some pair_cq] = 2) as El by reflexivity. rewrite El in Hr.
  assert (c = 0) as -> by lia. injection E as <-. done.
Qed.

Lemma pair_cq_ok : cq_ok pair_cq.
Proof.
  apply pages_apart; try (vm_compute; intuition congruence).
  - apply NoDup_singleton.
  - by constructor.
Qed.

Lemma pair_ring_byte c x : ring_byte pair_dev c x -> c = 1 /\ 8192 <= x < 8256.
Proof.
  intros (q & j & b & Hq & Hj & Hb & Hx). destruct (pair_rings c q Hq) as [-> ->]. split; [done|]. change (cq_queue_size pair_cq) with 4 in Hj.
  assert (j = 0 \/ j = 1 \/ j = 2 \/ j = 3) as Hc by lia. unfold NVME_COMPLETION_SIZE in Hx.
  destruct Hc as [->|[->|[->| ->]]]; vm_compute in Hb; injection Hb as <-; lia.
Qed.

Lemma pair_phases : phases pair_cq pair_host.
Proof.
  intros j a Hj Ha. change (cq_queue_size pair_cq) with 4 in Hj. assert (j = 0 \/ j = 1 \/ j = 2 \/ j = 3) as Hc by lia.
  destruct Hc as [->|[->|[->| ->]]]; vm_compute in Ha; injection Ha as <-; vm_compute; reflexivity.
Qed.

Lemma pair_transfer a : pair_addr a -> transfer_ok (fun _ => true) 1048576 false [0] pair_host a.
Proof.
  intros Ha. pose proof (pair_fields a Ha) as (E1 & E2 & E3 & _ & En & Es). pose proof (pair_io_addr a) as Hio. unfold io_addr in Hio. rewrite E1, E2, E3 in Hio.
  split; rewrite ?E1, ?E2, ?E3.
  - split; [split|..]; change (prp_first 65536 4096) with 4096; unfold PAGE_SIZE; try lia.
    intros o o' Ho Ho'. rewrite !Hio by done. lia.
  - split; by left.
  - exists 0. unfold cmd_base, io_start. rewrite En, Es. split; [by destruct (_ || _)|vm_compute; congruence].
  - done.
Qed.

Lemma pair_addrs a : a ∈ ring_addrs pair_sq 2 0 -> pair_addr a.
Proof.
  assert (ring_addrs pair_sq 2 0 = [4096; 4160]) as -> by reflexivity. rewrite !elem_of_cons, elem_of_nil. unfold pair_addr. tauto.
Qed.

Lemma pair_started : NVMEV_IO_WORKER_INIT 2 pair_new = Ok pair_dev.
Proof. apply get_Ok_eq. vm_compute. reflexivity. Qed.

Lemma pair_ready : ring_ready (simple_world pair_cf) (fun _ => true) 1048576 false 1 2 0 pair_sq pair_cq pair_dev pair_worker.
Proof.
  assert (dv_host pair_dev = pair_host) as Eh by reflexivity. assert (dv_mapped pair_dev = [0]) as Em by reflexivity.
  split; rewrite ?Eh, ?Em.
  - apply (device_start (BK := pair_backend) (simple_world pair_cf) 2 pair_new); [done| |exact pair_started].
    split; [reflexivity|]. constructor; [reflexivity|constructor].
  - split; [vm_compute; reflexivity|vm_compute; intuition congruence..| |done].
    assert (ring_entries (sq_queue_size pair_sq) 2 0 = [0; 1]) as -> by reflexivity.
    intros e He. rewrite !elem_of_cons, elem_of_nil in He. destruct He as [->|[->|[]]]; eexists; (split; [reflexivity|]);
      vm_compute; intuition congruence.
  - vm_compute. intuition congruence.
  - vm_compute. reflexivity.
  - vm_compute. reflexivity.
  - vm_compute. lia.
  - reflexivity.
  - vm_compute. congruence.
  - exact pair_phases.
  - vm_compute. intuition congruence.
  - intros c q Hq. destruct (pair_rings c q Hq) as [_ ->]. exact pair_cq_ok.
  - intros c c' x Hne H1 H2. destruct (pair_ring_byte c x H1), (pair_ring_byte c' x H2). congruence.
  - intros a Ha. apply pair_transfer, pair_addrs, Ha.
  - intros a b x Ha%pair_addrs Hb%pair_addrs H1%pair_reads H2%pair_fills; [lia|done..].
  - intros a c x Ha%pair_addrs Hx%pair_ring_byte. split; [intros H%pair_reads|intros H%pair_fills]; (done || lia).
  - intros a b x _ [].
  - intros a c x _ [].
Qed.

Definition pair_taken : io_dev * Z := get_Ok (pair_dev, 0) (nvmev_proc_io_sq 1 2 0 pair_dev).
Definition pair_end : io_dev := get_Ok pair_dev (nvmev_io_worker (fun _ => true) 1048576 false 0 pair_taken.1).

Lemma commands_complete_witness :
  ring_ready (simple_world pair_cf) (fun _ => true) 1048576 false 1 2 0 pair_sq pair_cq pair_dev pair_worker /\
  answer <$> host_scan 3 pair_cq (dv_host pair_end) 0 1 = [(11, 1, 0); (12, 1, 1)] /\
  answer <$> host_scan 3 pair_cq (dv_host pair_end) 0 1 ≡ₚ [(11, 1, 0); (12, 1, 1)] /\ pair_end.(dv_irqs) = [3].
Proof.
  split; [exact pair_ready|]. split; [vm_compute; reflexivity|]. split; [|vm_compute; reflexivity].
  assert (nvmev_proc_io_sq 1 2 0 pair_dev = Ok pair_taken) as E1 by (apply get_Ok_eq; vm_compute; reflexivity).
  assert (nvmev_io_worker (fun _ => true) 1048576 false 0 pair_taken.1 = Ok pair_end) as E2 by (apply get_Ok_eq; vm_compute; reflexivity).
  pose proof (commands_complete (BK := pair_backend) (simple_world pair_cf) (fun _ => true) 1048576 false 1 2 0 pair_sq pair_cq pair_dev pair_worker
    eq_refl pair_ready) as H. rewrite E1 in H. rewrite (surjective_pairing pair_taken) in H.
  destruct H as (m & k1 & _ & _ & Hm & _ & Hk1 & H). destruct (Hm eq_refl) as [-> _].
  assert (pass_clocks (fun _ => true) 1048576 false 0 pair_taken.1 = [7000000; 8000000]) as Ec by (vm_compute; reflexivity).
  change (worker_of pair_dev 1) with 0 in H, Hk1.
  assert (k1 = default pair_worker (pair_taken.1.(dv_workers) !! 0)) as -> by (by rewrite Hk1). rewrite Ec, E2 in H. apply H.
  - vm_compute. repeat constructor; discriminate.
  - vm_compute. repeat constructor; eexists; (split; [reflexivity|discriminate]).
Defined.
