(* ===== verification/AdminProps.v ===== *)
(** * Properties of the controller

    The theorems about admin.c and the registers of pci.c, each followed by its
    instance at a small device that comes up and takes the commands by which a
    driver sets up its first pair of queues; then examples of what the code does
    where a host does not keep to what they ask of it. *)

From stdpp Require Import prelude list gmap.
From Stdlib Require Import ZArith Lia.
From S2P Require Import Prelude Mem Prp ChannelModel SsdConfig Ssd ConvFtl IoUnits NvmeCmd IoQueue IoInv IoCopy Io IoBackends IoRing Vdev.
From S2P Require Import Admin AdminInv Bars AdminQueues Toy.

(** ** The registers *)

(** C11: the controller comes up.  A host writes the sizes of the admin queue, its
    two addresses, in any order, and then the configuration that enables the
    controller, while the dispatcher looks at the registers at any moments
    between.  Four more looks and the controller says that it is ready; no further
    look changes anything; the doorbells are at zero; and the admin queue is the one
    described: its entries follow one another from the pages of the two addresses,
    and where the two rings do not overlap it is a queue that the admin commands
    rely on. *)
Theorem controller_comes_up `{BK : Backend} `{BD : Build} (d : io_dev) aqa asq acq cc evs :
  aqa <> 0 -> asq <> 0 -> acq <> 0 -> cc_en cc = 1 -> cc_shn cc <> 1 -> host_program aqa asq acq cc evs ->
  exists v q, rfold bar_exec (evs ++ replicate 4 Dispatch) (reset_vdev d) = Ok v /\ nvmev_proc_bars v = Ok (v, false) /\
    v.(vd_bar).(u_csts) = 1 /\ v.(vd_bar).(u_cc) = cc /\ v.(vd_io) = d /\
    v.(vd_dbs) = zrepeat 1024 0 /\ v.(vd_old_dbs) = zrepeat 1024 0 /\ v.(vd_admin_q) = Some q /\
    q.(aq_sq_depth) = aqa_asqs aqa + 1 /\ q.(aq_cq_depth) = aqa_acqs aqa + 1 /\ q.(aq_phase) = 1 /\ q.(aq_cq_head) = 0 /\
    (forall i, 0 <= i < q.(aq_sq_depth) -> admin_sq_entry q i = Ok (ring_base asq + 64 * i)) /\
    (forall i, 0 <= i < q.(aq_cq_depth) -> cq_entry (admin_ring q) i = Ok (ring_base acq + 16 * i)) /\
    (ring_base asq + 64 * q.(aq_sq_depth) <= ring_base acq \/ ring_base acq + 16 * q.(aq_cq_depth) <= ring_base asq -> admin_q_ok q).
Proof.
  intros Ha Hs Hc He Hn Hp. destruct (handshake_ok d aqa asq acq cc Ha Hs Hc He Hn evs Hp) as [H1 H2].
  eexists _, (queue_seen aqa asq acq true true). split; [exact H1|]. split; [exact H2|]. do 10 (split; [done|]).
  split; [apply seen_sq_entry|]. split; [apply seen_cq_entry|apply seen_admin_q_ok].
Qed.

(** ** A small device *)

Definition small_cf : nvmev_config := NvmevConfig 0 1048576 4 12 10 100 1000 20 200 2000.
#[local] Instance small_backend : Backend := simple_backend small_cf.
#[local] Instance small_fields : NsFields small_backend := simple_fields small_cf.
#[local] Existing Instance intel_optane.

(** An admin command: at dwords 10 and 11 the words [dw10] and [dw11]. *)
Definition small_admin (opcode id nsid prp1 dw10 dw11 : Z) : list Z :=
  le_encode 1 opcode ++ [0] ++ le_encode 2 id ++ le_encode 4 nsid ++ zrepeat 16 0 ++
  le_encode 8 prp1 ++ zrepeat 8 0 ++ le_encode 4 dw10 ++ le_encode 4 dw11 ++ zrepeat 16 0.

(** The queues are asked for; a completion queue and a submission queue of four
    entries are made, the controller is identified and a command that does not
    exist is refused. *)
Definition small_commands : list (list Z) :=
  [small_admin 9 1 0 0 7 (1 + 65536); small_admin 5 2 0 12288 (1 + 3 * 65536) (3 + 65536);
   small_admin 1 3 0 16384 (1 + 3 * 65536) (1 + 65536); small_admin 6 4 0 65536 1 0; small_admin 255 5 0 0 0 0].

Definition small_host (cmds : list (list Z)) : mem := mstore (fun _ => 0) 4096 (concat cmds).

Definition small_dev (cmds : list (list Z)) : io_dev := IoDev small_backend [] 0 []
  (zrepeat 73 None) (zrepeat 73 None) 0 [Simple.SimpleNs 0 NVME_CSI_NVM 1048576 0] [0] (Simple.UnitDev [0; 0; 0; 0] 0)
  (IoMem (small_host cmds) (fun _ => 7)) [].

(** Eight entries in each ring, at the pages at 4096 and 8192. *)
Definition small_aqa : Z := 7 + 7 * 65536.
Definition small_events : list bar_event :=
  [WriteAcq 8192; Dispatch; WriteAqa small_aqa; Dispatch; WriteAsq 4096; Dispatch; Dispatch; WriteCc 1].

Lemma small_program : host_program small_aqa 4096 8192 1 small_events.
Proof.
  exists [WriteAcq 8192; WriteAqa small_aqa; WriteAsq 4096]. split; [vm_compute; reflexivity|].
  exact (Permutation_cons_append [WriteAqa small_aqa; WriteAsq 4096] (WriteAcq 8192)).
Qed.

Lemma controller_comes_up_witness : exists v q,
  rfold bar_exec (small_events ++ replicate 4 Dispatch) (reset_vdev (small_dev [])) = Ok v /\
  v.(vd_bar).(u_csts) = 1 /\ v.(vd_admin_q) = Some q /\ admin_sq_entry q 7 = Ok 4544 /\ admin_q_ok q.
Proof.
  destruct (controller_comes_up (small_dev []) small_aqa 4096 8192 1 small_events) as
    (v & q & H1 & _ & H2 & _ & _ & _ & _ & H3 & H4 & H5 & _ & _ & H6 & _ & H7);
    [unfold small_aqa; lia|lia|lia|reflexivity|vm_compute; congruence|apply small_program|].
  exists v, q. split; [exact H1|]. split; [exact H2|]. split; [exact H3|]. split.
  - apply (H6 7). rewrite H4. vm_compute. intuition congruence.
  - apply H7. left. rewrite H4. vm_compute. congruence.
Defined.

(** ** The admin queue *)

(** C6: admin commands are answered as specified, where their identifiers, the lengths
    of the logs they read and their buffers are in range.  A call for the doorbell of the
    admin queue takes exactly the entries of the ring from the old doorbell to
    before the new one, over its end, and moves the tables of queues as an abstract
    machine does on the commands decoded from them, one after another; a host that
    scans the completion ring finds exactly the answers of that machine, in order,
    each with its command, status and result, and stops after them.  The admin
    queue is then ready for the next call; the workers, the namespaces and the
    stored data are as they were, and one interrupt more was raised. *)
Theorem admin_commands_answered `{BK : Backend} `{BD : Build} `{NF : !NsFields BK} (v0 : vdev) q0 s0 old new :
  let depth := q0.(aq_sq_depth) in
  let n := (new - old) `mod` depth in
  0 <= old < depth -> 0 <= new < depth -> n <= q0.(aq_cq_depth) -> admin_host_ok v0 q0 s0 old n ->
  okp (nvmev_proc_admin_sq new old v0) (fun v' => exists s ws q,
    admin_spec_run q0 (vd_host v0) (admin_entries q0 old n) s0 = (s, ws) /\ admin_rel v' s /\
    v'.(vd_admin_q) = Some q /\ admin_q_ok q /\ phases (admin_ring q) (vd_host v') /\
    host_view <$> host_scan (S (length ws)) (admin_ring q0) (vd_host v') q0.(aq_cq_head) q0.(aq_phase) = work_view <$> ws /\
    admin_same (admin_irq v0) v').
Proof.
  intros depth n Ho Hw Hn Hh. eapply okp_mono; [by apply (proc_admin_ok v0 q0 s0 old n Hh new)|].
  intros v' (s & ws & q & H1 & H2 & H3 & H4 & H5 & H6 & H7 & H8). exists s, ws, q. pose proof (hk_ok _ _ _ _ _ Hh) as Hq.
  assert (zlen ws <= cq_queue_size (admin_ring q0)) as Hl.
  { apply spec_run_length in H1. unfold admin_entries in H1. rewrite length_fmap in H1. unfold zlen. cbn.
    pose proof (zlen_zrange 0 n) as Hz. unfold zlen in Hz. pose proof (Z.mod_pos_bound (new - old) depth ltac:(lia)). lia. }
  destruct (posts_scan _ _ _ _ _ H7 (ak_ring _ Hq) (hk_phases _ _ _ _ _ Hh) Hl) as [_ _ _ _ _ _ Hs].
  split; [done|]. split; [done|]. split; [done|]. split; [by eapply with_ring_ok|]. split; [done|]. split; [|done].
  etransitivity; [apply (f_equal (fmap host_view)), Hs|]. apply completions_view. apply (co_phase _ (ak_ring _ Hq)).
Qed.

(** C16: the tables of queues stay well formed.  The admin commands of a call for
    the doorbell, with identifiers, log lengths and buffers in range, leave tables of 73 entries, with at most 72 queues of each kind in
    use, every queue of which is one that the I/O path relies on: a submission queue
    of 1 to 65536 entries that follow one another, and a completion ring whose
    entries do, do not overlap, and whose position and phase are those of a ring. *)
Theorem admin_tables_well_formed `{BK : Backend} `{BD : Build} `{NF : !NsFields BK} (v0 : vdev) q0 old new :
  let depth := q0.(aq_sq_depth) in
  let n := (new - old) `mod` depth in
  0 <= old < depth -> 0 <= new < depth -> tables_wf v0 -> admin_host_ok v0 q0 (abs_of v0) old n ->
  okp (nvmev_proc_admin_sq new old v0) tables_wf.
Proof.
  intros depth n Ho Hw Ht Hh. eapply okp_mono; [by apply (proc_admin_ok v0 q0 (abs_of v0) old n Hh new)|].
  intros v' (s & ws & q & H1 & H2 & _). apply (rel_wf v' s H2).
  eapply (spec_run_wf _ _ _ _ _ _ _ (fun e He => proj1 (hk_cmd _ _ _ _ _ Hh e He))); [by apply abs_of_wf|exact H1].
Qed.

(** The small device with its queue, and the commands in it. *)
Definition small_q : nvmev_admin_queue := queue_seen small_aqa 4096 8192 true true.
Definition small_ready : vdev :=
  shake_vdev (small_dev small_commands) small_aqa 4096 8192 1 (Shaking Noticed Noticed Noticed Noticed).

Lemma small_q_ok : admin_q_ok small_q.
Proof. apply seen_admin_q_ok. left. vm_compute. congruence. Qed.

Lemma small_tables : tables_wf small_ready.
Proof.
  assert (forall A i (x : option A) n, zrepeat n (@None A) !! i = Some x -> x = None) as Hn.
  { intros A i x n. unfold lookup, zlookup, zrepeat. case_decide; [|done]. by intros [-> _]%lookup_replicate. }
  split; [reflexivity|]. split; [reflexivity|]. split; [split; vm_compute; congruence|]. split; [split; vm_compute; congruence|].
  split; intros i q E; apply Hn in E; done.
Qed.

Lemma small_host_ok : admin_host_ok small_ready small_q (abs_of small_ready) 0 5.
Proof.
  split; [reflexivity|exact small_q_ok|apply abs_of_rel; [exact small_tables|reflexivity|reflexivity|done]| |vm_compute; congruence|by left|].
  - apply cleared_phases; [reflexivity|reflexivity|]. intros i b Hi. rewrite (seen_cq_entry small_aqa 4096 8192) by done. intros [= <-] x Hx.
    change (mstore (fun _ => 0) 4096 (concat small_commands) x = 0). rewrite mstore_out; [done|].
    change (zlen (concat small_commands)) with 320. change (ring_base 8192) with 8192 in Hx. unfold NVME_COMPLETION_SIZE in Hx. lia.
  - intros e He. change (admin_entries small_q 0 5) with [0; 1; 2; 3; 4] in He.
    split; [rewrite !elem_of_cons, elem_of_nil in He; destruct He as [->|[->|[->|[->|[->|[]]]]]]|].
    1-5: vm_compute; intuition congruence.
    apply seen_data_ok; rewrite !elem_of_cons, elem_of_nil in He; destruct He as [->|[->|[->|[->|[->|[]]]]]]; vm_compute; intuition congruence.
Qed.

Lemma admin_commands_answered_witness :
  admin_host_ok small_ready small_q (abs_of small_ready) 0 5 /\
  okp (nvmev_proc_admin_sq 5 0 small_ready) (fun v' =>
    host_view <$> host_scan 6 (admin_ring small_q) (vd_host v') 0 1 =
      [(1, 0, 0, 65537, 0, 0); (2, 0, 1, 0, 0, 0); (3, 0, 2, 0, 0, 0); (4, 0, 3, 0, 0, 0); (5, 0, 4, 0, 0, 1)]).
Proof.
  split; [exact small_host_ok|].
  eapply okp_mono; [apply (admin_commands_answered small_ready small_q (abs_of small_ready) 0 5)|].
  - vm_compute. intuition congruence.
  - vm_compute. intuition congruence.
  - vm_compute. congruence.
  - exact small_host_ok.
  - intros v' (s & ws & q & H1 & _ & _ & _ & _ & H2 & _).
    assert (ws = (admin_spec_run small_q (vd_host small_ready) (admin_entries small_q 0 5) (abs_of small_ready)).2) as Hws
      by (change ((5 - 0) `mod` aq_sq_depth small_q) with 5 in H1; rewrite H1; reflexivity).
    assert (length ws = 5%nat) as Hl by (rewrite Hws; vm_compute; reflexivity). rewrite Hl in H2.
    etransitivity; [exact H2|]. rewrite Hws. vm_compute. reflexivity.
Defined.

Lemma admin_tables_well_formed_witness :
  tables_wf small_ready /\ okp (nvmev_proc_admin_sq 5 0 small_ready) tables_wf.
Proof.
  split; [exact small_tables|]. apply (admin_tables_well_formed small_ready small_q 0 5).
  - vm_compute. intuition congruence.
  - vm_compute. intuition congruence.
  - exact small_tables.
  - exact small_host_ok.
Defined.

(** ** What the code does outside *)

(** The device with some commands, and what it says of them. *)
Definition ready (cmds : list (list Z)) : vdev :=
  shake_vdev (small_dev cmds) small_aqa 4096 8192 1 (Shaking Noticed Noticed Noticed Noticed).
Definition answers (r : res vdev) : option (list (Z * Z * Z)) :=
  match r with
  | Ok v => Some ((fun c => (c.(cqe_command_id), c.(cqe_result0), c.(cqe_status) `div` 2)) <$> host_scan 9 (admin_ring small_q) (vd_host v) 0 1)
  | Fault _ => None
  end.
Definition byte_at (a : Z) (r : res vdev) : option Z := match r with Ok v => Some (vd_host v a) | Fault _ => None end.
Definition with_byte (a x : Z) (v : vdev) : vdev := vd_with_host (mstore (vd_host v) a [x]) v.

(** An abort is never completed; the commands around it are. *)
Example abort_is_not_answered :
  answers (nvmev_proc_admin_sq 3 0 (ready [small_admin 12 1 0 0 0 0; small_admin 8 2 0 0 0 0; small_admin 12 3 0 0 0 0])) =
  Some [(1, 0, 0); (3, 0, 0)].
Proof. vm_compute. reflexivity. Qed.

(** The list of namespaces clears the page after the one that the host gave. *)
Example namespace_list_clears_next_page :
  let v := with_byte 69632 77 (ready [small_admin 6 1 0 65536 2 0]) in
  vd_host v 69632 = 77 /\ byte_at 69632 (nvmev_proc_admin_sq 1 0 v) = Some 0.
Proof. split; vm_compute; reflexivity. Qed.

(** Before the number of queues is set, the answer is all ones. *)
Example queues_before_set : answers (nvmev_proc_admin_sq 1 0 (ready [small_admin 10 1 0 0 7 0])) = Some [(1, 4294967295, 0)].
Proof. vm_compute. reflexivity. Qed.

(** The identifiers of a queue and of a namespace are not looked at before the
    tables are. *)
Example queue_beyond_table :
  fault_of (nvmev_proc_admin_sq 1 0 (ready [small_admin 5 1 0 12288 (73 + 3 * 65536) 3])) = Some OutOfBounds.
Proof. vm_compute. reflexivity. Qed.
Example namespace_beyond_table :
  fault_of (nvmev_proc_admin_sq 1 0 (ready [small_admin 6 1 2 65536 0 0])) = Some OutOfBounds.
Proof. vm_compute. reflexivity. Qed.

(** A health log of more than its 512 bytes is read past its end. *)
Example log_read_past_end :
  fault_of (nvmev_proc_admin_sq 1 0 (ready [small_admin 2 1 0 65536 (2 + 128 * 65536) 0])) = Some OutOfBounds.
Proof. vm_compute. reflexivity. Qed.

(** A shutdown notice before the admin queue exists. *)
Example shutdown_without_queue :
  fault_of (rfold bar_exec [WriteCc 16384; Dispatch] (reset_vdev (small_dev []))) = Some NullDeref.
Proof. vm_compute. reflexivity. Qed.

(** A host that disables the controller and enables it again with the same queue,
    whose ring it has cleared: the code goes on with the position of the last
    session, and the host finds nothing. *)
Definition again (cmds : list (list Z)) : res vdev :=
  v ← nvmev_proc_admin_sq 1 0 (ready cmds);
  v ← rfold bar_exec [WriteCc 0; Dispatch; WriteAqa small_aqa; WriteAsq 4096; WriteAcq 8192; WriteCc 1; Dispatch; Dispatch]
        (vd_with_host (small_host cmds) v);
  nvmev_proc_admin_sq 1 0 v.
Example enabled_again_answers_elsewhere :
  answers (nvmev_proc_admin_sq 1 0 (ready [small_admin 12 1 0 0 0 0])) = Some [(1, 0, 0)] /\
  answers (again [small_admin 12 1 0 0 0 0]) = Some [].
Proof. split; vm_compute; reflexivity. Qed.

(** The depth of the admin queue changes after its pages are known: the pages of
    the old depth stay. *)
Example deeper_queue_keeps_pages :
  match rfold bar_exec [WriteAqa 7; WriteAsq 4096; Dispatch; Dispatch; WriteAqa 127; Dispatch] (reset_vdev (small_dev [])) with
  | Ok v => match v.(vd_admin_q) with Some q => Some (q.(aq_sq_depth), admin_sq_entry q 100) | None => None end
  | Fault _ => None
  end = Some (128, Fault OutOfBounds).
Proof. vm_compute. reflexivity. Qed.
