(* ===== verification/DevProps.v ===== *)
(** * Properties of the whole device

    What holds of the components together: the conventional FTL and the zoned
    namespace behind the dispatcher and the workers, in every order of their steps. *)

From stdpp Require Import prelude list relations.
From Stdlib Require Import ZArith Lia.
From S2P Require Import Prelude Mem ChannelModel SsdConfig Ssd ConvFtl ConvInv ConvState ConvWrite ConvNs.
From S2P Require Import Prp ZnsFtl ZnsMgmt ZnsRw ZnsInv ZnsStep ZnsWrite ZnsInit ZnsRun ZnsProps.
From S2P Require Import ConvRun IoUnits IoQueue IoInv NvmeCmd IoCopy Io IoBackends IoRun IoDispatch IoLaws IoDevice IoRing IoPass Toy.

(** C23: the device is safe under every interleaving.  From a new conventional
    namespace and new workers, let the dispatcher take rings of commands that keep
    to the exported pages, the workers start, visit and pass entries and raise
    interrupts, each at any time, and let the host write its memory, move the
    doorbells and make or delete queues between: in every state that is reached the
    mapping table and the reverse map are inverse on the valid pages, each line is
    in exactly one place with the right counters, every pending release names the
    namespace's own write buffer, and the next ring of such commands is taken
    without a fault.  No request is lost: what a worker accepted are the requests that it
    completed, none before its time, and those in its queue.  No step of a worker can
    fault, but for a visit of a command of which the host took the queue, the buffer
    or the completion ring away, and for interrupts over a number of queues that is
    not the table's. *)
Theorem conv_device_sound `{SC : SsdConfig, CC : ChanConfig, CK : Clock, QC : QueueConfig}
    L size (Hs : session_ok L size) pages pfn_valid store_size dma nr id addr cpu h ns h1 (d d1 : io_dev) :
  0 < nr < 4294967296 -> conv_init_namespace id size addr cpu h = Ok (ns, h1) -> h1.(hw_sched) = [] ->
  d.(dv_ns) = [ns] -> d.(dv_world) = h1 -> NVMEV_IO_WORKER_INIT nr d = Ok d1 ->
  exists sp p w, geometry_of size SSD_PARTITIONS sp /\
    let W := conv_world L sp (Some p) (Some w) SSD_PARTITIONS in
    let LW := conv_laws (proj2 (so_wb _ _ Hs)) L sp (Some p) (Some w) SSD_PARTITIONS pages in
    forall d2, rtc (dev_step W (LW := LW) pfn_valid store_size dma) d1 d2 ->
    (exists ns2, d2.(dv_ns) = [ns2] /\ Forall mapping_sound ns2.(cn_ftls) /\ Forall lines_sound ns2.(cn_ftls)) /\
    (forall i k sqid t b z, d2.(dv_workers) !! i = Some k -> RqInternal sqid t b z ∈ pending k -> b = Some w) /\
    (forall sqid sq new old, ring_ok W (LW := LW) sqid sq d2 new old -> stat_ok sq.(sq_stat) ->
      (Z.to_nat (ring_distance sq.(sq_queue_size) new old) * S pages < room d2 (worker_of d2 sqid))%nat ->
      okp (nvmev_proc_io_sq sqid new old d2) (fun _ => True)) /\
    conserved pfn_valid store_size dma d1 d2 /\ workers_return pfn_valid store_size dma d2.
Proof.
  intros Hnr Hi Hsch Ens Ew Ed. pose proof (new_namespace_ok L id size addr cpu h Hs) as Hnew. rewrite Hi in Hnew.
  destruct Hnew as (sp & p & w & Hgeo & Hrun). exists sp, p, w. split; [done|]. intros W LW d2 Hsteps.
  assert (device_ok W (LW := LW) d1) as Hd.
  { apply (device_start (BK := conv_backend) W (LW := LW) nr d); [done| |done]. rewrite Ens, Ew. exists ns. split; [done|]. split; [|done].
    by eapply run_ok_weaken; [|exact Hrun]. }
  pose proof (steps_device W (LW := LW) pfn_valid store_size dma _ _ Hsteps Hd) as Hok.
  assert (conserved pfn_valid store_size dma d1 d2 /\ workers_return pfn_valid store_size dma d2) as Hrest
    by (split; [by eapply (steps_conserve (BK := conv_backend) W (LW := LW))|by apply (device_returns (BK := conv_backend) W (LW := LW))]).
  destruct Hok as [Hd2 Hg]. split; [|split; [|split; [|exact Hrest]]].
  - destruct (di_world _ _ Hd2) as (ns2 & E2 & [Hns _ _ _ _] & _). exists ns2. split; [done|].
    split; apply Forall_forall; intros f [i Ef]%elem_of_zlookup; destruct (no_part _ _ _ _ _ Hns i f Ef) as ([[] _] & _);
      [by apply mapping_sound_ok|by apply lines_sound_ok].
  - intros i k sqid t b z Hk Hin. pose proof (Hg i k Hk) as HF. rewrite Forall_forall in HF. exact (HF _ Hin).
  - intros sqid sq new old Hr Hst Hroom. eapply okp_mono; [by apply (dispatch_ok (BK := conv_backend) W (LW := LW) pfn_valid store_size dma)|done].
Qed.

(** A device with the toy namespace, two workers, and a ring of four entries at the
    page at 4096 with a write and a read. *)
#[local, refine] Instance toy_queue : QueueConfig := {| NR_MAX_PARALLEL_IO := 32 |}.
Proof. lia. Defined.

Definition toy_cmd (opcode id slba nlb : Z) : list Z :=
  le_encode 1 opcode ++ [0] ++ le_encode 2 id ++ le_encode 4 1 ++ zrepeat 16 0 ++
  le_encode 8 65536 ++ le_encode 8 69632 ++ le_encode 8 slba ++ le_encode 2 nlb ++ zrepeat 14 0.
Definition toy_ring : mem := mstore (fun _ => 0) 4096 (toy_cmd nvme_cmd_write 1 8 15 ++ toy_cmd nvme_cmd_read 2 8 15).

Definition toy_sq : nvmev_submission_queue := SubmissionQueue 1 4 (SqStat 0 0 0 0 0) [4096].
Definition toy_dev (ns : conv_ns) (h : hw) : io_dev := IoDev conv_backend [] 0 []
  [None; Some toy_sq] [None; Some (CompletionQueue 3 true false 4 1 0 (-1) [8192])] 1 [ns] [0] h
  (IoMem toy_ring (fun _ => 7)) [].

Definition toy_new : conv_ns * hw :=
  get_Ok (ConvNs 0 0 0 0 [] 0, toy_hw) (conv_init_namespace 0 toy_size 0 0 toy_hw).
Definition toy_start : io_dev := get_Ok (toy_dev toy_new.1 toy_new.2) (NVMEV_IO_WORKER_INIT 2 (toy_dev toy_new.1 toy_new.2)).

Lemma toy_allowed sp a : geometry_of toy_size SSD_PARTITIONS sp -> a = 4096 \/ a = 4160 ->
  conv_allowed toy_L sp SSD_PARTITIONS 4 toy_ring a.
Proof.
  intros Hgeo Ha. apply (host_allowed toy_L toy_size); [exact toy_session_ok|exact Hgeo|..].
  - destruct Ha as [-> | ->]; (split; [vm_compute; intuition congruence|]); intros _; split; vm_compute; congruence.
  - intros _. destruct Ha as [-> | ->]; vm_compute; lia.
Qed.

Lemma conv_device_sound_witness :
  exists d2 ns2, nvmev_proc_io_sq 1 2 0 toy_start = Ok (d2, 2) /\ d2.(dv_ns) = [ns2] /\
    Forall mapping_sound ns2.(cn_ftls) /\ Forall lines_sound ns2.(cn_ftls).
Proof.
  assert (conv_init_namespace 0 toy_size 0 0 toy_hw = Ok (toy_new.1, toy_new.2)) as Ei
    by (rewrite <- surjective_pairing; apply get_Ok_eq; vm_compute; reflexivity).
  assert (NVMEV_IO_WORKER_INIT 2 (toy_dev toy_new.1 toy_new.2) = Ok toy_start) as Ed by (apply get_Ok_eq; vm_compute; reflexivity).
  destruct (conv_device_sound toy_L toy_size toy_session_ok 4 (fun _ => true) 1048576 false 2 0 0 0 toy_hw toy_new.1 toy_new.2
    (toy_dev toy_new.1 toy_new.2) toy_start ltac:(lia) Ei ltac:(vm_compute; reflexivity) eq_refl eq_refl Ed) as (sp & p & w & Hgeo & H).
  cbv zeta in H. set (LW := conv_laws _ _ _ _ _ _ _) in H.
  assert (ring_ok _ (LW := LW) 1 toy_sq toy_start 2 0) as Hr.
  { split; [vm_compute; reflexivity|vm_compute; intuition congruence..| |done]. intros e He.
    assert (ring_entries (sq_queue_size toy_sq) 2 0 = [0; 1]) as E by reflexivity. rewrite E, !elem_of_cons, elem_of_nil in He.
    destruct He as [->|[->|[]]]; eexists; (split; [reflexivity|]); (split; [vm_compute; intuition congruence|]);
      change (conv_allowed toy_L sp SSD_PARTITIONS 4 toy_ring) with (conv_allowed toy_L sp SSD_PARTITIONS 4 toy_ring); apply toy_allowed; auto. }
  assert (stat_ok (sq_stat toy_sq)) as Hst by (vm_compute; intuition congruence).
  assert (Z.to_nat (ring_distance (sq_queue_size toy_sq) 2 0) * 5 < room toy_start (worker_of toy_start 1))%nat as Hroom by (vm_compute; lia).
  destruct (okp_inv _ _ (proj1 (proj2 (proj2 (H toy_start (rtc_refl _ _)))) 1 toy_sq 2 0 Hr Hst Hroom)) as ([d2 db] & E & _).
  assert (db = 2) as ->.
  { pose (f := fun r : res (io_dev * Z) => match r with Ok (_, db) => db | Fault _ => 0 end).
    assert (f (nvmev_proc_io_sq 1 2 0 toy_start) = 2) as Edb by (vm_compute; reflexivity).
    exact (eq_trans (eq_sym (f_equal f E)) Edb). }
  destruct (H d2) as ((ns2 & E2 & H1 & H2) & _).
  { apply rtc_once. exact (ds_dispatch _ _ _ _ 1 toy_sq 2 0 toy_start d2 2 Hr Hst Hroom E). }
  exists d2, ns2. split; [exact E|]. split; [exact E2|]. split; [exact H1|exact H2].
Defined.

(** ** The zoned namespace *)

(** C31: the zoned device is safe under every interleaving.  From a new zoned
    namespace and new workers, let the dispatcher take rings of commands of a host
    that stays in the namespace, opens no ZRWA and keeps commands and report buffers
    apart, the workers do their steps, each at any time, and let the host write its
    memory, move the doorbells and make or delete queues between: in every state
    that is reached the zones tile the namespace with their write pointers inside
    them, the open and active counters are the numbers of zones in those states,
    every pending release names the write buffer of a zone, and the next ring of such
    commands, appends and reports among them, is taken without a fault.  No request is
    lost, and the steps of the workers return, as on the conventional device. *)
Theorem zns_device_sound `{SC : SsdConfig, ZC : ZnsConfig, CC : ChanConfig, CK : Clock, QC : QueueConfig}
    size (Hs : zsession_ok size) garbage blocks data pfn_valid store_size dma nr id mapped cpu h ns h1
    (d d1 : io_dev (H := zns_backend garbage)) :
  0 < nr < 4294967296 -> zns_init_namespace id size mapped cpu h = Ok (ns, h1) -> h1.(hw_sched) = [] ->
  d.(dv_ns) = [ns] -> d.(dv_world) = h1 -> NVMEV_IO_WORKER_INIT nr d = Ok d1 ->
  let wbs := zone_wb ns.(zn_ftl) in
  let W := zns_world size wbs in
  let LW := zns_laws (co_lba (zc_ssd _ (zn_config _ Hs))) (zsession_wb size Hs) garbage size wbs blocks data in
  forall d2, rtc (dev_step (BK := zns_backend garbage) W (LW := LW) pfn_valid store_size dma) d1 d2 ->
  (exists ns2, d2.(dv_ns) = [ns2] /\
    let f := ns2.(zn_ftl) in
    zlen f.(zone_descs) = size `div` ZONE_SIZE /\
    acquired_cnt f.(res_infos).(ri_open) = zcount is_open f.(zone_descs) /\
    acquired_cnt f.(res_infos).(ri_active) = zcount is_active f.(zone_descs) /\
    forall (i : Z) z, f.(zone_descs) !! i = Some z -> zone_ok (zone_lbas f) i z) /\
  (forall i k sqid t b z, d2.(dv_workers) !! i = Some k -> RqInternal sqid t b z ∈ pending k ->
    exists zid, 0 <= zid < size `div` ZONE_SIZE /\ b = wbs zid) /\
  (forall sqid sq new old, ring_ok (BK := zns_backend garbage) W (LW := LW) sqid sq d2 new old -> stat_ok sq.(sq_stat) ->
    (Z.to_nat (ring_distance sq.(sq_queue_size) new old) * S blocks < room d2 (worker_of d2 sqid))%nat ->
    okp (nvmev_proc_io_sq sqid new old d2) (fun _ => True)) /\
  conserved (BK := zns_backend garbage) pfn_valid store_size dma d1 d2 /\ workers_return (BK := zns_backend garbage) pfn_valid store_size dma d2.
Proof.
  intros Hnr Hi Hsch Ens Ew Ed wbs W LW d2 Hsteps.
  pose proof (zsession_start id size mapped cpu h Hs) as Hrun. rewrite Hi in Hrun. simpl in Hrun.
  assert (device_ok (BK := zns_backend garbage) W (LW := LW) d1) as Hd.
  { apply (device_start (BK := zns_backend garbage) W (LW := LW) nr d); [done| |done]. rewrite Ens, Ew. by exists ns. }
  pose proof (steps_device (BK := zns_backend garbage) W (LW := LW) pfn_valid store_size dma _ _ Hsteps Hd) as Hok.
  assert (conserved (BK := zns_backend garbage) pfn_valid store_size dma d1 d2 /\ workers_return (BK := zns_backend garbage) pfn_valid store_size dma d2) as Hrest
    by (split; [by eapply (steps_conserve (BK := zns_backend garbage) W (LW := LW))|by apply (device_returns (BK := zns_backend garbage) W (LW := LW))]).
  destruct Hok as [Hd2 Hg]. split; [|split; [|split; [|exact Hrest]]].
  - destruct (di_world _ _ Hd2) as (ns2 & E2 & [[_ _ Hf] _ Hn _ _ _ _ _] & _). exists ns2. split; [done|]. cbv zeta. simpl in *.
    destruct (zo_res _ Hf) as [E3 E4 _]. rewrite (zo_len _ Hf), E3, E4. do 3 (split; [done|]). apply (zo_zone _ Hf).
  - intros i k sqid t b z Hk Hin. pose proof (Hg i k Hk) as HF. rewrite Forall_forall in HF. exact (HF _ Hin).
  - intros sqid sq new old Hr Hst Hroom. eapply okp_mono; [by apply (dispatch_ok (BK := zns_backend garbage) W (LW := LW) pfn_valid store_size dma)|done].
Qed.

(** The zoned device of ZnsProps.v with a ring of three commands at 4096: an append
    to the first zone, an append to the second, a report to the page at 65536. *)
Definition zns_cmd (opcode id slba dw12 dw13 : Z) : list Z :=
  le_encode 1 opcode ++ [0] ++ le_encode 2 id ++ le_encode 4 1 ++ zrepeat 16 0 ++
  le_encode 8 65536 ++ le_encode 8 69632 ++ le_encode 8 slba ++ le_encode 4 dw12 ++ le_encode 4 dw13 ++ zrepeat 8 0.
Definition zns_ring : mem := mstore (fun _ => 0) 4096
  (zns_cmd nvme_cmd_zone_append 1 5 7 0 ++ zns_cmd nvme_cmd_zone_append 2 130 7 0 ++ zns_cmd nvme_cmd_zone_mgmt_recv 3 0 63 65536).

Definition zns_dev (ns : zns_ns) (h : hw) : io_dev (H := zns_backend zgarbage) := IoDev (zns_backend zgarbage) [] 0 []
  [None; Some toy_sq] [None; Some (CompletionQueue 3 true false 4 1 0 (-1) [8192])] 1 [ns] [0] h
  (IoMem zns_ring (fun _ => 7)) [].
Definition zns_start (ns : zns_ns) (h : hw) : io_dev (H := zns_backend zgarbage) := get_Ok (zns_dev ns h) (NVMEV_IO_WORKER_INIT 2 (zns_dev ns h)).

Definition report_page (x : Z) : Prop := 65536 <= x < 69632.

Lemma zns_ring_buffer h : prp_buffer_ok h 65536 69632 256.
Proof.
  assert (prp_first 65536 256 = 256) as Hf by reflexivity.
  assert (forall rd o, 0 <= o < 256 -> prp_addr rd 65536 69632 256 o = 65536 + o) as Ha.
  { intros rd o Ho. unfold prp_addr. rewrite Hf. by rewrite (proj2 (Z.ltb_lt _ _)) by lia. }
  split; [split|..]; rewrite ?Hf; try (unfold PAGE_SIZE; lia). intros o o' Ho Ho'. rewrite !Ha by done. lia.
Qed.

Lemma zns_ring_allowed a : a = 4096 \/ a = 4160 \/ a = 4224 -> zns_allowed toy_size 8 report_page zns_ring a.
Proof.
  intros Ha. split; [|split; [|split]].
  - split; [destruct Ha as [->|[->| ->]]; vm_compute; intuition congruence|].
    split; [intros _; destruct Ha as [->|[->| ->]]; vm_compute; congruence|].
    split; [intros E; destruct Ha as [->|[->| ->]]; vm_compute in E; congruence|].
    intros E. assert (a = 4224) as -> by (destruct Ha as [->|[->| ->]]; vm_compute in E; congruence).
    split; [exact (zns_ring_buffer zns_ring)|vm_compute; congruence].
  - destruct Ha as [->|[->| ->]]; vm_compute; congruence.
  - intros x Hx. unfold NVME_COMMAND_SIZE, report_page in *. lia.
  - intros E. assert (a = 4224) as -> by (destruct Ha as [->|[->| ->]]; vm_compute in E; congruence).
    split; [vm_compute; congruence|]. intros o Ho. change (0 <= o < 256) in Ho. unfold prp_addr.
    change (prp_first (zc_prp1 (zns_view zns_ring 4224)) (bytes_transfer (zns_view zns_ring 4224))) with 256.
    rewrite (proj2 (Z.ltb_lt _ _)) by lia. change (zc_prp1 (zns_view zns_ring 4224)) with 65536. unfold report_page. lia.
Qed.

Lemma zns_device_sound_witness :
  exists ns h1 d2 ns2, zns_init_namespace 0 toy_size (fun _ => 7) 0 toy_hw = Ok (ns, h1) /\
    nvmev_proc_io_sq 1 3 0 (zns_start ns h1) = Ok (d2, 3) /\ d2.(dv_ns) = [ns2] /\
    let f := ns2.(zn_ftl) in
    zlen f.(zone_descs) = 8 /\ acquired_cnt f.(res_infos).(ri_open) = zcount is_open f.(zone_descs) /\
    forall (i : Z) z, f.(zone_descs) !! i = Some z -> zone_ok (zone_lbas f) i z.
Proof.
  destruct (okp_inv _ _ (zsession_start 0 toy_size (fun _ => 7) 0 toy_hw toy_zsession_ok)) as ([ns h1] & Ei & Hrun).
  assert (h1.(hw_sched) = []) as Hsch.
  { pose (f := fun r : res (zns_ns * hw) => match r with Ok (_, h) => h.(hw_sched) | Fault _ => [] end).
    assert (f (zns_init_namespace 0 toy_size (fun _ => 7) 0 toy_hw) = []) as E by (vm_compute; reflexivity).
    exact (eq_trans (eq_sym (f_equal f Ei)) E). }
  assert (NVMEV_IO_WORKER_INIT 2 (zns_dev ns h1) = Ok (zns_start ns h1)) as Ed by (apply get_Ok_eq; vm_compute; reflexivity).
  pose proof (zns_device_sound toy_size toy_zsession_ok zgarbage 8 report_page (fun _ => true) 1048576 false 2 0 (fun _ => 7) 0 toy_hw ns h1
    (zns_dev ns h1) (zns_start ns h1) ltac:(lia) Ei Hsch eq_refl eq_refl Ed) as H.
  cbv zeta in H. set (LW := zns_laws _ _ _ _ _ _ _) in H.
  assert (ring_ok (BK := zns_backend zgarbage) _ (LW := LW) 1 toy_sq (zns_start ns h1) 3 0) as Hr.
  { split; [vm_compute; reflexivity|vm_compute; intuition congruence..| |].
    all: assert (ring_entries (sq_queue_size toy_sq) 3 0 = [0; 1; 2]) as Er by reflexivity; rewrite Er.
    - intros e He. rewrite !elem_of_cons, elem_of_nil in He.
      destruct He as [->|[->|[->|[]]]]; eexists; (split; [reflexivity|]); (split; [vm_compute; intuition congruence|]);
        apply zns_ring_allowed; auto.
    - intros e e' He He' Hne. rewrite !elem_of_cons, elem_of_nil in He, He'.
      destruct He as [->|[->|[->|[]]]], He' as [->|[->|[->|[]]]]; first [by destruct Hne|vm_compute; intuition congruence]. }
  assert (stat_ok (sq_stat toy_sq)) as Hst by (vm_compute; intuition congruence).
  assert (Z.to_nat (ring_distance (sq_queue_size toy_sq) 3 0) * 9 < room (zns_start ns h1) (worker_of (zns_start ns h1) 1))%nat as Hroom by (vm_compute; lia).
  destruct (okp_inv _ _ (proj1 (proj2 (proj2 (H _ (rtc_refl _ _)))) 1 toy_sq 3 0 Hr Hst Hroom)) as ([d2 db] & E & _).
  assert (db = 3) as ->.
  { pose (f := fun r : res (io_dev (H := zns_backend zgarbage) * Z) => match r with Ok (_, db) => db | Fault _ => 0 end).
    assert (f ('(ns, h1) ← zns_init_namespace 0 toy_size (fun _ => 7) 0 toy_hw; nvmev_proc_io_sq 1 3 0 (zns_start ns h1)) = 3) as Edb by (vm_compute; reflexivity).
    rewrite Ei, bind_Ok in Edb. exact (eq_trans (eq_sym (f_equal f E)) Edb). }
  destruct (H d2) as ((ns2 & E2 & H1 & H2 & _ & H4) & _).
  { apply rtc_once. exact (ds_dispatch _ _ _ _ 1 toy_sq 3 0 _ d2 3 Hr Hst Hroom E). }
  exists ns, h1, d2, ns2. split; [exact Ei|]. split; [exact E|]. split; [exact E2|]. split; [exact H1|]. split; [exact H2|exact H4].
Defined.

(** ** What a host can provoke *)

(** The block that an append was given is in its command. *)
Example append_tells_block :
  ('(ns, h) ← zns_init_namespace 0 toy_size (fun _ => 7) 0 toy_hw;
   '(d, _) ← nvmev_proc_io_sq 1 2 0 (zns_start ns h);
   Ok (cmd_slba (dv_host (zns_start ns h)) 4096, cmd_slba (dv_host d) 4096, cmd_slba (dv_host d) 4160)) = Ok (5, 0, 128).
Proof. vm_compute. reflexivity. Qed.

(** A full zone and no room in the write buffer: the append [cmd] to it is refused, for
    the dispatcher to try again, after it has stored the end of the zone as its block.
    When there is room it is tried again.  The result: what the command was changed
    to, the status, the state of the zone [zid] and its write pointer. *)
Definition append_retried (first_lba zid : Z) : res (bool * Z * Z * zone_state * Z) :=
  let host := mstore (fun _ => 0) 4096 (zns_cmd nvme_cmd_zone_append 1 first_lba 7 0) in
  '(ns, w) ← zns_session zgarbage 0 toy_size (fun _ => 7) 0 toy_hw [zcmd nvme_cmd_write first_lba 127 0];
  '(ns, w, m, _, ok) ← proc_io_cmd (Backend := zns_backend zgarbage) ns host 4096 1 0 (Result 0 0) w;
  w ← release_buffer (Backend := zns_backend zgarbage) (zone_wb ns.(zn_ftl) 0) 65536 w;
  '(ns, w, _, ret, _) ← proc_io_cmd (Backend := zns_backend zgarbage) ns m 4096 1 0 (Result 0 0) w;
  d ← aget ns.(zn_ftl).(zone_descs) zid;
  Ok (ok, cmd_slba m 4096, ret.(rs_status), d.(zd_state), d.(zd_wp)).

(** An append to the full first zone is written to the second one. *)
Example refused_append_moves_on : append_retried 0 1 = Ok (false, 128, NVME_SC_SUCCESS, ZONE_STATE_OPENED_IMPL, 136).
Proof. vm_compute. reflexivity. Qed.

(** An append to the full last zone reads past the descriptors. *)
Example refused_append_past_end : append_retried 896 7 = Fault OutOfBounds.
Proof. vm_compute. reflexivity. Qed.
