(* ===== verification/MainProps.v ===== *)
(** * Properties of the dispatcher and of the start of the module

    The theorems about main.c, each followed by its instance at a small device. *)

From stdpp Require Import prelude list strings.
From Stdlib Require Import ZArith Lia.
From S2P Require Import Prelude Mem Prp SsdConfig Ssd ConvFtl IoUnits NvmeCmd IoQueue IoInv IoCopy Io IoBackends IoRun IoDispatch IoConsume IoLaws.
From S2P Require Import Vdev Admin Bars Config Main MainInv Toy.
Open Scope Z_scope.

(** ** A pass of the dispatcher *)

(** C17: no doorbell is lost and no queue is served out of turn.  Let the admin
    queue be served, and the queues then in use be in range, with room in the queue
    of each worker for all the entries that its submission queues offer.  The call
    serves every submission queue whose doorbell moved, in the order of their
    identifiers, each exactly once: what each worker accepts is the requests of its
    own submission queues, queue after queue, and for each the entries between the
    doorbells in order, up to one that its namespace refuses.  Then the consumed
    completions of every completion queue are taken off the numbers in flight.  After it
    the dispatcher's copy of every doorbell is the host's, unless a namespace may
    refuse commands, and the invariants of queues and namespaces hold. *)
Theorem dispatcher_pass `{BK : Backend} `{BD : Build} `{NF : !NsFields BK} `{QC : QueueConfig} W `{LW : !BackendLaws BK W}
    pfn_valid store_size dma (v v1 : vdev) u :
  (st ← proc_admin_sq_db (v, false); proc_admin_cq_db st) = Ok (v1, u) -> pass_ok W v1 ->
  okp (nvmev_proc_dbs v) (fun '(v2, _) => exists vs reqs,
    (forall q, 1 <= q <= v1.(vd_nr_sq) -> sq_taken W v1 vs q (reqs q)) /\
    (forall w, queue_run pfn_valid store_size dma w v1.(vd_io)
       (concat ((fun q => at_worker (worker_of v1.(vd_io) q) w (reqs q)) <$> zrange 1 (v1.(vd_nr_sq) + 1))) [] v2.(vd_io)) /\
    v2.(vd_io).(dv_sqes) = foldl consume_one vs.(vd_io).(dv_sqes) (concat (consumed_ids v1 <$> zrange 1 (v1.(vd_io).(dv_nr_cq) + 1))) /\
    dispatch_inv W v2.(vd_io) /\ v2.(vd_dbs) = v1.(vd_dbs) /\
    (forall q sq, 1 <= q <= v1.(vd_nr_sq) -> v1.(vd_io).(dv_sqes) !! q = Some (Some sq) -> may_refuse = false ->
       v2.(vd_old_dbs) !! (q * 2) = Some (new_sq v1 q)) /\
    (forall q cq, 1 <= q <= v1.(vd_io).(dv_nr_cq) -> v1.(vd_io).(dv_cqes) !! q = Some (Some cq) ->
       v2.(vd_old_dbs) !! (q * 2 + 1) = Some (new_cq v1 q))).
Proof.
  intros Ea Hv. unfold nvmev_proc_dbs.
  destruct (proc_admin_sq_db (v, false)) as [st|] eqn:E1; [|done]. simpl in Ea. rewrite bind_Ok, Ea, bind_Ok. cbn [fst].
  apply okp_bind. eapply okp_mono; [by apply (sqs_pass W pfn_valid store_size dma v1 Hv)|]. intros [vs us] Hs.
  pose proof (sa_nr _ _ _ _ _ _ _ Hs) as En. cbn [fst]. rewrite En.
  eapply okp_mono; [by apply (cqs_pass W pfn_valid store_size dma v1 vs Hv Hs)|]. intros [v2 u2] Hc.
  destruct (sa_taken _ _ _ _ _ _ _ Hs) as (reqs & Ht & Hr). exists vs, reqs.
  assert (forall q, 1 <= q <= vd_nr_sq v1 -> sq_taken W v1 vs q (reqs q)) as Ht' by (intros q Hq; apply Ht; lia).
  split; [done|]. split; [intros w; eapply (cqs_run _ _ _ v1 vs); [exact Hc|apply Hr]|]. split; [apply (ca_sqes _ _ _ _ Hc)|].
  split; [|split; [|split]].
  - destruct (sa_inv _ _ _ _ _ _ _ Hs) as [[Q1 Q2 Q3] HW]. rewrite (ca_io _ _ _ _ Hc). by split.
  - by rewrite (ca_frame _ _ _ _ Hc).
  - intros q sq Hq Esq Hno. rewrite (ca_even _ _ _ _ Hc q). specialize (Ht' q Hq). unfold sq_taken in Ht'. rewrite Esq in Ht'.
    destruct Ht' as (m & st' & inss & _ & Hm & -> & _). rewrite (Hm Hno). f_equal.
    by eapply last_entry, (pk_sq _ _ Hv q sq).
  - intros q cq Hq Ecq. apply (ca_done _ _ _ _ Hc q cq); [lia|done].
Qed.

(** A simple namespace; the submission queue 1 of eight entries at 4096, whose
    doorbell moved over the end of the ring from 7 to 1, and the completion queue 1
    of four at 8192, of which the host consumed two. *)
Definition pass_cf : nvmev_config := NvmevConfig 0 1048576 4 12 10 100 1000 20 200 2000.
#[local, refine] Instance pass_queue : QueueConfig := {| NR_MAX_PARALLEL_IO := 4 |}.
Proof. lia. Defined.
#[local] Instance pass_backend : Backend := simple_backend pass_cf.
#[local] Instance pass_fields : NsFields pass_backend := simple_fields pass_cf.
#[local] Existing Instance intel_optane.
Lemma pass_units : units_ok pass_cf.
Proof. split; vm_compute; intuition congruence. Qed.
#[local] Instance pass_laws : BackendLaws pass_backend (simple_world pass_cf) := simple_laws pass_cf pass_units.

Definition pass_cmd (id slba : Z) : list Z :=
  le_encode 1 nvme_cmd_write ++ [0] ++ le_encode 2 id ++ le_encode 4 1 ++ zrepeat 16 0 ++
  le_encode 8 65536 ++ le_encode 8 69632 ++ le_encode 8 slba ++ le_encode 2 0 ++ zrepeat 14 0.
Definition pass_sq : nvmev_submission_queue := SubmissionQueue 1 8 (SqStat 5 2 2 2 0) [4096].
Definition pass_cq : nvmev_completion_queue := CompletionQueue 3 true false 4 1 0 (-1) [8192].
Definition pass_cqe (id : Z) : nvme_completion := NvmeCompletion 0 0 3 1 id 1.
Definition pass_host : mem := put_cqe 8208 (pass_cqe 2) (put_cqe 8192 (pass_cqe 1) (mstore (fun _ => 0) 4096 (concat (zrepeat 8 (pass_cmd 7 0))))).
Definition pass_io0 : io_dev := IoDev pass_backend [] 0 []
  (None :: Some pass_sq :: zrepeat 71 None) (None :: Some pass_cq :: zrepeat 71 None)
  1 [Simple.SimpleNs 0 NVME_CSI_NVM 1048576 0] [0] (Simple.UnitDev [0; 0; 0; 0] 0) (IoMem pass_host (fun _ => 7)) [].
Definition pass_io : io_dev := get_Ok pass_io0 (NVMEV_IO_WORKER_INIT 2 pass_io0).
Definition pass_dev : vdev := Vdev _ pass_io 1 None ([0; 0; 1; 2] ++ zrepeat 1020 0) ([0; 0; 7; 0] ++ zrepeat 1020 0)
  __init_nvme_ctrl_regs __init_nvme_ctrl_regs 5.

Lemma one_queue {A} q (x y : A) : 1 <= q <= 1 -> (None :: Some x :: zrepeat 71 None : list (option A)) !! q = Some (Some y) -> q = 1 /\ y = x.
Proof. intros Hq. assert (q = 1) as -> by lia. by intros [= ->]. Qed.

Lemma pass_dev_ok : pass_ok (BK := pass_backend) (simple_world pass_cf) pass_dev.
Proof.
  assert (NVMEV_IO_WORKER_INIT 2 pass_io0 = Ok pass_io) as Ei by (apply get_Ok_eq; vm_compute; reflexivity).
  split.
  - pose proof (init_queues 2 pass_io0 ltac:(lia)) as H. rewrite Ei in H. split; [apply H|]. split; [reflexivity|]. constructor; [reflexivity|constructor].
  - vm_compute. intuition congruence.
  - vm_compute. intuition congruence.
  - intros q sq Hq E. apply one_queue in E as [-> ->]; [|exact Hq]. split; [|split; [vm_compute; intuition congruence|vm_compute; lia]].
    split; [vm_compute; reflexivity|vm_compute; intuition congruence..| |done].
    assert (ring_entries (sq_queue_size pass_sq) (new_sq pass_dev 1) (old_sq pass_dev 1) = [7; 0]) as -> by (vm_compute; reflexivity).
    intros e He. rewrite !elem_of_cons, elem_of_nil in He. destruct He as [->|[->|[]]]; eexists; (split; [reflexivity|]); vm_compute; intuition congruence.
  - intros q cq Hq E. apply one_queue in E as [-> ->]; [|exact Hq]. split; [vm_compute; reflexivity|vm_compute; intuition congruence..| |vm_compute; congruence].
    intros i Hi. change (cq_queue_size pass_cq) with 4 in Hi.
    assert (i = 0 \/ i = 1 \/ i = 2 \/ i = 3) as [->|[->|[->| ->]]] by lia; eexists; (split; [reflexivity|]); vm_compute; intuition congruence.
  - done.
  - intros q cq i c a x _ _ _ _ _ _ [].
Qed.

Lemma dispatcher_pass_witness :
  pass_ok (BK := pass_backend) (simple_world pass_cf) pass_dev /\
  okp (nvmev_proc_dbs pass_dev) (fun '(v2, _) => v2.(vd_old_dbs) !! 2 = Some 1 /\ v2.(vd_old_dbs) !! 3 = Some 2 /\
    exists vs, v2.(vd_io).(dv_sqes) = foldl consume_one vs.(vd_io).(dv_sqes) [1; 1]).
Proof.
  split; [exact pass_dev_ok|].
  eapply okp_mono; [apply (dispatcher_pass (BK := pass_backend) (simple_world pass_cf) (fun _ => true) 1048576 false pass_dev pass_dev false eq_refl pass_dev_ok)|].
  intros [v2 u] (vs & reqs & _ & _ & Hc & _ & _ & Hs & Hq). split; [|split].
  - exact (Hs 1 pass_sq ltac:(vm_compute; intuition congruence) eq_refl eq_refl).
  - exact (Hq 1 pass_cq ltac:(vm_compute; intuition congruence) eq_refl).
  - exists vs. etransitivity; [exact Hc|]. reflexivity.
Defined.

(** ** The namespaces of a build *)

(** C20: the namespaces lie apart in the storage.  For every build of at most two
    namespaces whose kinds are initialised as the interface says, the initialisation
    returns with all of them; each is made with the kind of its place, its identifier,
    and the address and size of the layout, which gives it the capacity it asks
    for, or what is left where that is less or it asks for all; its data goes to
    the start of its extent; every extent is inside the storage, and no two overlap. *)
Theorem namespaces_apart `{BK : Backend} `{BD : Build} (NI : NsInit) made size_ok `{LI : !NsInitLaws NI made size_ok}
    storage_size storage_mapped disp v :
  build_ok size_ok storage_size storage_mapped ->
  okp (NVMEV_NAMESPACE_INIT storage_size storage_mapped disp v) (fun v' =>
    let nss := v'.(vd_io).(dv_ns) in
    let extents := layout capacities storage_mapped storage_size in
    zlen nss = NR_NAMESPACES /\ v'.(vd_io).(dv_mapped) = (fun e => e.1 - storage_mapped) <$> extents /\
    (forall i ns, nss !! i = Some ns -> exists t e, types !! i = Some t /\ extents !! i = Some e /\ made t i e.2 e.1 ns) /\
    (forall i e, extents !! i = Some e -> storage_mapped <= e.1 /\ 0 <= e.2 /\ e.1 + e.2 <= storage_mapped + storage_size) /\
    (forall i j e1 e2, i <> j -> extents !! i = Some e1 -> extents !! j = Some e2 -> e1.1 + e1.2 <= e2.1 \/ e2.1 + e2.2 <= e1.1)).
Proof.
  intros Hb. eapply okp_mono; [by apply (namespace_init_ok NI made size_ok)|]. intros v' (H1 & _ & HM & H3).
  assert (Forall (fun c => 0 <= c) capacities) as Hc by apply Forall_take, (bo_caps _ _ _ Hb).
  destruct (bo_storage _ _ _ Hb) as (Hs & _ & _). split; [done|]. split; [exact HM|]. split; [exact H3|]. split.
  - intros i e He. pose proof (layout_inside capacities storage_mapped storage_size Hc Hs) as Hin. rewrite Forall_forall in Hin.
    destruct e as [a s]. specialize (Hin (a, s)). apply Hin. pose proof (zlookup_Some_range _ _ _ He). rewrite zlookup_to_nat in He by lia.
    by eapply list_elem_of_lookup_2.
  - intros i j e1 e2. by apply layout_apart.
Qed.

(** Two simple namespaces in a megabyte, of which the first asks for 600 000 bytes. *)
Definition two_simple : Build := {| NR_NAMESPACES := 2; NS_SSD_TYPE_0 := SSD_TYPE_NVM; NS_SSD_TYPE_1 := SSD_TYPE_NVM;
  NS_CAPACITY_0 := 600000; NS_CAPACITY_1 := 0; BUILD_MDTS := 5; BUILD_LBA_BITS := 9 |}.

Lemma two_elements {A} (l : list A) : zlen l = 2 -> exists x y, l = [x; y].
Proof. unfold zlen. destruct l as [|x [|y [|z l]]]; simpl; [lia..|eauto|lia]. Qed.

Lemma namespaces_apart_witness :
  build_ok (BD := two_simple) (fun t _ => t = SSD_TYPE_NVM) 1048576 4096 /\
  okp (NVMEV_NAMESPACE_INIT (BD := two_simple) (NI := simple_init pass_cf) 1048576 4096 0 pass_dev) (fun v' =>
    v'.(vd_io).(dv_ns) = [Simple.SimpleNs 0 NVME_CSI_NVM 600000 4096; Simple.SimpleNs 1 NVME_CSI_NVM 448576 604096]).
Proof.
  assert (build_ok (BD := two_simple) (fun t _ => t = SSD_TYPE_NVM) 1048576 4096) as Hb.
  { split; [vm_compute; intuition congruence|repeat constructor; vm_compute; congruence|vm_compute; intuition congruence|].
    intros i t e Ht _. assert (i = 0 \/ i = 1) as [->| ->] by (apply zlookup_Some_range in Ht; unfold zlen in Ht; simpl in Ht; lia);
      injection Ht as <-; (split; [reflexivity|left; reflexivity]). }
  split; [exact Hb|].
  eapply okp_mono; [apply (namespaces_apart (BK := pass_backend) (BD := two_simple) (simple_init pass_cf) simple_made (fun t _ => t = SSD_TYPE_NVM) 1048576 4096 0 pass_dev Hb)|].
  intros v' (H1 & _ & H2 & _). cbv zeta in H1, H2. destruct (two_elements _ H1) as (n1 & n2 & En). rewrite En in H2. refine (eq_trans En _).
  destruct (H2 0 n1 eq_refl) as (t1 & e1 & _ & E1 & M1). destruct (H2 1 n2 eq_refl) as (t2 & e2 & _ & E2 & M2).
  injection E1 as <-. injection E2 as <-. rewrite M1, M2. reflexivity.
Defined.

(** ** The module's parameters *)

(** The parameters are refused, with no configuration, or taken: the storage is what
    is left of the reserved memory after its first megabyte, less the table of the
    key-value build; the first processor of the list is the dispatcher's and the
    others, of which there are at most 32, are the workers', in order. *)
Lemma load_configs_correct e820 strtol kv old p t ts :
  zlen old = 32 -> p.(cpus) = Some (String.concat "," (t :: ts)) -> Forall no_comma (t :: ts) -> zlen ts <= 32 ->
  0 <= p.(memmap_start) -> p.(memmap_start) + p.(memmap_size) < 18446744073709551616 ->
  (kv = true -> KV_MAPPING_TABLE_BYTES + MB 1 <= p.(memmap_size)) ->
  let size := p.(memmap_size) - (if kv then KV_MAPPING_TABLE_BYTES else 0) in
  (acceptable e820 p -> exists c, __load_configs kv e820 strtol old p = Ok (Some c) /\
     c.(fc_memmap_start) = p.(memmap_start) /\ c.(fc_memmap_size) = size /\
     c.(fc_units) = NvmevConfig (p.(memmap_start) + MB 1) (size - MB 1) p.(nr_io_units) p.(io_unit_shift)
       p.(read_delay) p.(read_time) p.(read_trailing) p.(write_delay) p.(write_time) p.(write_trailing) /\
     c.(fc_cpu_nr_dispatcher) = u32 (strtol t) /\ c.(fc_nr_io_workers) = zlen ts /\
     take (length ts) c.(fc_cpu_nr_io_workers) = (fun s => u32 (strtol s)) <$> ts) /\
  (~ acceptable e820 p -> __load_configs kv e820 strtol old p = Ok None).
Proof.
  intros Ho Ec Hts Hn Hs Hm Hkv size. unfold __load_configs. destruct (validate_ok e820 p) as [V1 V2]. split; intros Ha.
  - rewrite (V1 Ha). rewrite (proj2 (Z.ltb_ge 0 0)) by lia. rewrite Ec. change (Some (String.concat "," (t :: ts))) with (joined (t :: ts)).
    rewrite cpus_ok by (done || lia). rewrite bind_Ok. eexists. split; [reflexivity|]. cbn [fc_memmap_start fc_memmap_size fc_units fc_cpu_nr_dispatcher fc_nr_io_workers fc_cpu_nr_io_workers cs_dispatcher cs_nr cs_workers].
    assert (MB 1 = 1048576) as EM by reflexivity. assert (KV_MAPPING_TABLE_BYTES = 1073741824) as EK by reflexivity. pose proof (ac_size _ _ Ha).
    assert ((if kv then u64 (memmap_size p - KV_MAPPING_TABLE_BYTES) else memmap_size p) = size) as ->.
    { unfold size. destruct kv; [specialize (Hkv eq_refl); apply u64_small; lia|lia]. }
    assert (MB 1 <= size < 18446744073709551616) by (unfold size; destruct kv; [specialize (Hkv eq_refl)|]; lia).
    rewrite (u64_small (memmap_start p + MB 1)) by lia. rewrite (u64_small (size - MB 1)) by lia. repeat (split; [done|]). rewrite take_app_length' by (by rewrite length_fmap). done.
  - by rewrite (proj2 (Z.ltb_lt _ _) (V2 Ha)).
Qed.

(** A key-value build with less than its table: the size of the storage wraps. *)
Definition small_params (size : Z) : module_params := ModuleParams 4294967296 size 1 1 0 1 1 0 8 12 (Some "1,2,3"%string).
Definition all_reserved (a b : Z) (t : e820_type) : bool := match t with E820_TYPE_RESERVED => true | _ => false end.
Definition digit (s : string) : Z := match s with String c _ => Z.of_nat (Ascii.nat_of_ascii c) - 48 | EmptyString => 0 end.
Example kv_storage_wraps :
  match __load_configs true all_reserved digit (zrepeat 32 0) (small_params 2097152) with
  | Ok (Some c) => Some (c.(fc_units).(cf_storage_size), c.(fc_cpu_nr_dispatcher), take 2 c.(fc_cpu_nr_io_workers)) | _ => None end =
  Some (18446744072636858368, 1, [2; 3]).
Proof. vm_compute. reflexivity. Qed.
