(* ===== verification/PciProps.v ===== *)
(** * Properties of the configuration space

    The theorem about the configuration space of pci.c, its instance, and the
    behaviours of [nvmev_pci_write] that a host may stumble over. *)

From stdpp Require Import prelude list.
From Stdlib Require Import ZArith Lia.
From S2P Require Import Prelude Mem PciCfg PciInv.

(** C9: the configuration space stays what the device says it is.  Whatever the
    kernel writes in aligned accesses while it finds the device and, with MSI-X off
    at that point, whatever is written and whichever interrupts are raised after,
    nothing faults, and in every state that is reached: no bit outside the masks has
    changed, so the identifiers, the class and the list of capabilities are those of
    the settings; what the device takes for the pin and for MSI-X is what the command
    register and the MSI-X flags say; the next interrupt goes by MSI-X if its flag
    is set, and otherwise by the pin with the interrupt status set; and a host
    that sizes the first region reads 16 KiB and gets the page back as it was. *)
Theorem config_space_protected virq base_pa scan evs :
  Forall aligned scan -> Forall (cfg_event_ok virq) evs ->
  okp (NVMEV_PCI_INIT base_pa scan VDEV_INIT) (fun s => bit s 83 7 = false ->
    okp (rfold (cfg_exec virq) evs s) (fun s' =>
      kept s s' /\ described s'.(pc_space) /\ s'.(pc_intx_disabled) = bit s' 5 2 /\
      (exists d, s'.(pc_pdev) = Some d /\ d.(msix_enabled) = bit s' 83 7 /\ d.(pd_irq) = get_le s.(pc_space) 60 1 /\
        forall msi_index, virq msi_index <> 0 -> okp (nvmev_signal_irq virq msi_index s') (fun s'' =>
          s''.(pc_irqs) = s'.(pc_irqs) ++ [raised virq s' d msi_index] /\ (bit s' 83 7 = false -> bit s'' 6 3 = true))) /\
      okp (set_bar0 4294967295 s') (fun s1 => bar_size (get_le s1.(pc_space) 16 4) = 16384 /\
        okp (set_bar0 (get_le s'.(pc_space) 16 4) s1) (fun s2 => forall x, s2.(pc_space) x = s'.(pc_space) x)))).
Proof.
  intros Hs He. eapply okp_mono; [by apply pci_init_ok|]. intros s (H1 & H2 & H3 & H4 & H5) Hx.
  assert (cfg_ok s) as Hok by (split; [done|done|]; intros d; rewrite H4, Hx; by intros [= <-]).
  eapply okp_mono; [apply (cfg_run_ok virq evs s (get_le (pc_space s) 60 1) He Hok); by rewrite H4|].
  intros s' (K1 & K2 & K3). pose proof K1 as [C1 C2 C3]. pose proof (kept_described _ _ H1 C1 K2 H2) as Hd.
  split; [done|]. split; [done|]. split; [done|]. split; [|by apply bar0_sized, Hd].
  destruct (pc_pdev s') as [d|] eqn:Ed; [|done]. exists d. split; [done|]. split; [by apply C3|]. injection K3 as K3. split; [done|].
  intros msi_index Hv. eapply okp_mono; [by apply (signal_ok virq s' d)|]. intros s'' (_ & _ & _ & L1 & L2). done.
Qed.

(** The kernel turns MSI-X off while it sets up the device; the driver sizes the
    region, turns MSI-X on and the device raises vector 3; the host tries to change
    the identifiers. *)
Definition scan_writes : list cfg_write := [CfgWrite 4 2 0; CfgWrite 82 2 0].
Definition driver_events : list cfg_event :=
  [EvWrite (CfgWrite 16 4 4294967295); EvWrite (CfgWrite 82 2 49152); EvSignal 3; EvWrite (CfgWrite 0 4 0)].
Definition vectors (i : Z) : Z := 40 + i.

Lemma aligned_write a n v : n = 1 \/ n = 2 \/ n = 4 -> a mod n = 0 -> 0 <= a /\ a + n <= 4096 -> 0 <= v < 256 ^ n -> aligned (CfgWrite a n v).
Proof. by split. Qed.

Lemma config_space_protected_witness :
  Forall aligned scan_writes /\ Forall (cfg_event_ok vectors) driver_events /\
  okp (NVMEV_PCI_INIT 4831838208 scan_writes VDEV_INIT) (fun s => bit s 83 7 = false -> okp (rfold (cfg_exec vectors) driver_events s) (fun s' =>
    mload s'.(pc_space) 0 4 = [81; 12; 16; 1])).
Proof.
  assert (Forall aligned scan_writes) as Hs by (repeat constructor; cbn; auto; lia).
  assert (Forall (cfg_event_ok vectors) driver_events) as He.
  { repeat constructor; cbn; auto; try lia; done. }
  split; [exact Hs|]. split; [exact He|].
  eapply okp_mono; [apply (config_space_protected vectors 4831838208 scan_writes driver_events Hs He)|].
  intros s H Hx. eapply okp_mono; [exact (H Hx)|]. intros s' (_ & Hd & _). exact (de_ids _ Hd).
Defined.

Definition ready_cfg : pci_cfg := match NVMEV_PCI_INIT 4831838208 scan_writes VDEV_INIT with Ok s => s | Fault _ => VDEV_INIT end.
Definition cfg_after (evs : list cfg_event) (s : pci_cfg) : pci_cfg := match rfold (cfg_exec vectors) evs s with Ok s' => s' | Fault _ => VDEV_INIT end.

(** The interrupt goes where the flags say. *)
Example vector_raised : (cfg_after driver_events ready_cfg).(pc_irqs) = [IrqMsi 43].
Proof. vm_compute. reflexivity. Qed.
Example pin_raised : let s := cfg_after [EvSignal 0] ready_cfg in (s.(pc_irqs), bit s 6 3) = ([IrqLine 15], true).
Proof. vm_compute. reflexivity. Qed.

(** Enabling the pin clears the interrupt status, but not when the command and the
    status are written as one word: the status that was read before is stored again. *)
Example pin_enabled : let off := EvWrite (CfgWrite 4 2 1024) in
  (bit (cfg_after [off; EvSignal 0; EvWrite (CfgWrite 4 2 0)] ready_cfg) 6 3,
   bit (cfg_after [off; EvSignal 0; EvWrite (CfgWrite 4 4 0)] ready_cfg) 6 3) = (false, true).
Proof. vm_compute. reflexivity. Qed.

(** The power management capability has no mask: a host can unlink the list of
    capabilities. *)
Example capability_unlinked : mload (cfg_after [EvWrite (CfgWrite 64 2 0)] ready_cfg).(pc_space) 64 2 = [0; 0].
Proof. vm_compute. reflexivity. Qed.

(** The list of capabilities that the settings make: identifiers and places. *)
Fixpoint walk_caps (fuel : nat) (m : mem) (a : Z) : list (Z * Z) :=
  match fuel with O => [] | S fuel => if a =? 0 then [] else (a, m a) :: walk_caps fuel m (m (a + 1)) end.
Example capabilities_listed : walk_caps 48 ready_cfg.(pc_space) (ready_cfg.(pc_space) 52) =
  [(OFFS_PCI_PM_CAP, PCI_CAP_ID_PM); (OFFS_PCI_MSIX_CAP, PCI_CAP_ID_MSIX); (OFFS_PCIE_CAP, PCI_CAP_ID_EXP)].
Proof. vm_compute. reflexivity. Qed.

(** The pending bits of MSI-X are described at 32 KiB, outside the region of 16 KiB. *)
Example pending_bits_outside : Z.shiftl (Z.shiftr (get_le ready_cfg.(pc_space) 88 4) 3) 3 = 32768.
Proof. vm_compute. reflexivity. Qed.
