(* ===== verification/ProcProps.v ===== *)
(** * The proc files set what they are told and show what is set

    The three files that change the timing, and what they do with texts that hold
    no number, no end or no units. *)

From Stdlib Require Import ZArith Lia Ascii String.
From stdpp Require Import prelude list strings.
From S2P Require Import Prelude Mem SsdConfig Ssd ConvFtl IoUnits NvmeCmd IoQueue IoCopy Io IoBackends IoLaws Vdev Admin Bars Main ProcFs Toy MainProps.

(** ** The settings behind the files *)

Inductive setting := ReadTimes | WriteTimes | IoUnits.
#[global] Instance setting_eq_dec : EqDecision setting.
Proof. solve_decision. Defined.

Definition setting_file (f : setting) : string :=
  match f with ReadTimes => "read_times" | WriteTimes => "write_times" | IoUnits => "io_units" end.

Definition setting_get (f : setting) (c : nvmev_config) : list Z :=
  match f with
  | ReadTimes => [c.(cf_read_delay); c.(cf_read_time); c.(cf_read_trailing)]
  | WriteTimes => [c.(cf_write_delay); c.(cf_write_time); c.(cf_write_trailing)]
  | IoUnits => [c.(cf_nr_io_units); c.(cf_io_unit_shift)]
  end.

(** The configuration with [ns] in one setting and the rest as it was. *)
Record only_set (f : setting) (ns : list Z) (c c' : nvmev_config) : Prop := {
  os_set : setting_get f c' = ns;
  os_others : forall g, g <> f -> setting_get g c' = setting_get g c;
  os_storage : c'.(cf_storage_start) = c.(cf_storage_start) /\ c'.(cf_storage_size) = c.(cf_storage_size)
}.

(** The table of the units after a write. *)
Definition units_after (kzalloc : Z -> bool) (f : setting) (c' : nvmev_config) (old : option (list Z)) : option (list Z) :=
  match f with
  | IoUnits => if kzalloc (8 * c'.(cf_nr_io_units)) then Some (zrepeat c'.(cf_nr_io_units) 0) else None
  | _ => old
  end.

Section proc.
Context `{BK : Backend} (kzalloc : Z -> bool).

Definition setting_fmt (f : setting) : list conv :=
  match f with IoUnits => [Conv_d; Conv_d] | _ => [Conv_u; Conv_u; Conv_u] end.

Lemma listing_range t ns : listing t ns -> Forall (fun n => 0 <= n < 4294967296) ns.
Proof. induction 1; by constructor. Qed.

Lemma written_range t ns : written t ns -> Forall (fun n => 0 <= n < 4294967296) ns.
Proof. destruct ns; [constructor|]. intros (sp & t' & _ & _ & Hn & Ht). constructor; [done|by eapply listing_range]. Qed.

(** The state after the numbers [ns]. *)
Definition settings_after (f : setting) (ns : list Z) (s : proc_state) : proc_state :=
  let c := s.(ps_config) in
  match f with
  | ReadTimes => ps_with_config (cfg_with_read_times (assigned ns 0 c.(cf_read_delay)) (assigned ns 1 c.(cf_read_time)) (assigned ns 2 c.(cf_read_trailing)) c) s
  | WriteTimes => ps_with_config (cfg_with_write_times (assigned ns 0 c.(cf_write_delay)) (assigned ns 1 c.(cf_write_time)) (assigned ns 2 c.(cf_write_trailing)) c) s
  | IoUnits =>
      let c := cfg_with_units (assigned ns 0 c.(cf_nr_io_units)) (assigned ns 1 c.(cf_io_unit_shift)) c in
      ProcState c (if zlen ns <? 1 then s.(ps_unit_stat) else
        if kzalloc (u64 (8 * c.(cf_nr_io_units))) then Some (zrepeat c.(cf_nr_io_units) 0) else None) s.(ps_vdev)
  end.

Lemma write_scanned stack f buf ns s : sscanf (setting_fmt f) (copy_input stack buf) = Ok ns ->
  __proc_file_write kzalloc stack (setting_file f) buf s = Ok (zlen buf, settings_after f ns s).
Proof.
  intros Hs. unfold __proc_file_write. destruct f; cbn [setting_file setting_fmt] in *; repeat (rewrite decide_False by done || rewrite decide_True by done);
    rewrite Hs, bind_Ok; [done..|]. unfold settings_after. by destruct (zlen ns <? 1).
Qed.

Lemma write_sets stack f buf ns s :
  length ns = length (setting_get f s.(ps_config)) -> zlen buf <= INPUT_SIZE -> written buf ns ->
  exists c', only_set f ns s.(ps_config) c' /\
    __proc_file_write kzalloc stack (setting_file f) buf s =
      Ok (zlen buf, ProcState c' (units_after kzalloc f c' s.(ps_unit_stat)) s.(ps_vdev)).
Proof.
  intros El Hb Hw. pose proof (written_range _ _ Hw) as Hr. exists (ps_config (settings_after f ns s)).
  rewrite (write_scanned stack f buf ns) by (apply sscanf_written; [by rewrite El; destruct f|done..]).
  destruct f; cbn [setting_get length] in El.
  1, 2: destruct ns as [|a [|b [|d [|]]]]; try done; (split; [|done]); (split; [done|by intros []|done]).
  destruct ns as [|a [|b [|]]]; try done. split; [split; [done|by intros []|done]|]. apply Forall_cons in Hr as [Ha _].
  change (settings_after IoUnits [a; b] s) with
    (ProcState (cfg_with_units a b s.(ps_config)) (if kzalloc (u64 (8 * a)) then Some (zrepeat a 0) else None) s.(ps_vdev)).
  by rewrite u64_small by lia.
Qed.

(** What a file shows, and that it changes nothing. *)
Definition shown (f : setting) (c : nvmev_config) : list Z :=
  match setting_get f c with
  | [a; b] => decimal a ++ text " x " ++ decimal b
  | [a; b; d] => decimal a ++ text " + " ++ decimal b ++ text " x + " ++ decimal d
  | _ => []
  end.

Lemma read_shows f s : __proc_file_read (setting_file f) s = Ok (shown f s.(ps_config), s).
Proof.
  unfold __proc_file_read. destruct f; cbn [setting_file]; repeat (rewrite decide_False by done || rewrite decide_True by done);
    unfold shown, setting_get, seq_printf; cbn [mbind list_bind print_item]; by rewrite !field_0, app_nil_r.
Qed.

Lemma numbers_text u t : forallb (fun c => negb (isdigit c)) u = true -> numbers_in None (u ++ t) = numbers_in None t.
Proof. induction u as [|c u IH]; [done|]. simpl. destruct (isdigit c); [done|]. simpl. exact IH. Qed.

Lemma free_text u t : u <> [] -> forallb (fun c => negb (isdigit c)) u = true -> digit_free (u ++ t).
Proof.
  destruct u as [|c u]; [done|]. simpl. intros _ [H _]%andb_true_iff. exists c, (u ++ t). split; [done|]. by destruct (isdigit c).
Qed.

(** The numbers that a file shows are those that are set. *)
Lemma shown_numbers f c : Forall (fun n => 0 <= n < 4294967296) (setting_get f c) -> numbers_in None (shown f c) = setting_get f c.
Proof.
  unfold shown. destruct f; cbn [setting_get]; intros H; repeat (apply Forall_cons in H as [? H]);
    repeat first [rewrite numbers_decimal by first [done|right; by apply free_text] | rewrite numbers_text by done];
    match goal with |- context [numbers_in None (decimal ?n)] => rewrite <- (app_nil_r (decimal n)) end;
    by rewrite numbers_decimal by first [done|by left].
Qed.

Lemma zlen_shown f c : zlen (shown f c ++ [10]) <= INPUT_SIZE.
Proof.
  unfold shown, INPUT_SIZE. destruct f; cbn [setting_get]; rewrite !zlen_app;
    repeat match goal with |- context [zlen (decimal ?n)] => lazymatch goal with H : zlen (decimal n) <= 20 |- _ => fail | _ => pose proof (zlen_decimal n) end end;
    change (zlen (text " + ")) with 3; change (zlen (text " x + ")) with 5; change (zlen (text " x ")) with 3; change (zlen [10]) with 1; lia.
Qed.

(** Of what a file shows the scan takes the first number: the setting is what it was. *)
Lemma shown_scanned stack f s : Forall (fun n => 0 <= n < 4294967296) (setting_get f s.(ps_config)) ->
  exists stat, __proc_file_write kzalloc stack (setting_file f) (shown f s.(ps_config) ++ [10]) s =
    Ok (zlen (shown f s.(ps_config) ++ [10]), ProcState s.(ps_config) stat s.(ps_vdev)).
Proof.
  intros H. assert (exists n, sscanf (setting_fmt f) (copy_input stack (shown f s.(ps_config) ++ [10])) = Ok [n] /\ head (setting_get f s.(ps_config)) = Some n) as (n & Hs & Hn).
  { rewrite copy_input_short by apply zlen_shown. unfold shown. destruct f; cbn [setting_get setting_fmt] in *; apply Forall_cons in H as [H _];
      eexists; (split; [|done]); rewrite <- !(assoc_L (++)); by apply sscanf_first. }
  exists (ps_unit_stat (settings_after f [n] s)). rewrite (write_scanned _ _ _ _ _ Hs). do 2 f_equal. clear Hs H.
  destruct s as [[] stat v], f; cbn in Hn; by injection Hn as <-.
Qed.
End proc.

(** C22: a proc file of settings sets what it is told and shows what is set.  Numbers
    written to a file, with spaces between them and something after the last, become
    its settings, and no other setting, no other file and nothing of the device
    changes, apart from a new table of idle units when the units are set.  A read then
    gives a text in which the numbers are exactly those, and writing that text back
    changes no setting.  When the units that are set are ones that the device can run
    with, and the table is granted, the simple namespace serves every command on them. *)
Theorem proc_settings_roundtrip `{BK : Backend} `{CK : Clock} kzalloc stack f buf ns s :
  length ns = length (setting_get f s.(ps_config)) -> zlen buf <= INPUT_SIZE -> written buf ns ->
  okp (__proc_file_write kzalloc stack (setting_file f) buf s) (fun '(count, s') =>
    let c' := s'.(ps_config) in
    count = zlen buf /\ only_set f ns s.(ps_config) c' /\ s'.(ps_vdev) = s.(ps_vdev) /\
    s'.(ps_unit_stat) = units_after kzalloc f c' s.(ps_unit_stat) /\
    okp (__proc_file_read (setting_file f) s') (fun '(t, s2) => s2 = s' /\ numbers_in None t = ns /\
      okp (__proc_file_write kzalloc stack (setting_file f) (t ++ [10]) s') (fun '(_, s3) => s3.(ps_config) = c')) /\
    (f = IoUnits -> units_ok c' -> kzalloc (8 * c'.(cf_nr_io_units)) = true ->
     exists stat, s'.(ps_unit_stat) = Some stat /\ forall nsp req ret tick, nsp.(Simple.sn_csi) = NVME_CSI_NVM ->
       okp (Simple.simple_proc_nvme_io_cmd c' true nsp req ret (Simple.UnitDev stat tick)) (fun '(w', _, ok) =>
         zlen w'.(Simple.ud_stat) = c'.(cf_nr_io_units) /\ ok = true))).
Proof.
  intros El Hb Hw. destruct (write_sets kzalloc stack f buf ns s El Hb Hw) as (c' & Hc & ->).
  pose proof (os_set _ _ _ _ Hc) as Hset. pose proof (written_range _ _ Hw) as Hr. rewrite <- Hset in Hr. cbn [okp ps_config ps_vdev ps_unit_stat].
  split; [done|]. split; [done|]. split; [done|]. split; [done|]. split.
  - rewrite read_shows. cbn [okp ps_config]. split; [done|]. split; [by rewrite shown_numbers|].
    destruct (shown_scanned kzalloc stack f (ProcState c' (units_after kzalloc f c' s.(ps_unit_stat)) s.(ps_vdev)) Hr) as [stat E].
    cbn [ps_config ps_vdev] in E. by rewrite E.
  - intros -> Hu Hk. exists (zrepeat c'.(cf_nr_io_units) 0). split; [simpl; by rewrite Hk|]. intros nsp req ret tick Hcsi.
    eapply okp_mono; [apply (simple_cmd_total c' Hu); [done|]|by intros [[w' ret'] ok]].
    unfold stat_len. simpl. apply zlen_zrepeat. pose proof (uo_units _ Hu). lia.
Qed.

(** ** A small device *)

#[local] Existing Instance pass_backend.

Definition proc0 : proc_state := ProcState pass_cf (Some [7; 8; 9; 10]) pass_dev.
Definition line (s : string) : list Z := text s ++ [10].
Definition write_to (kzalloc : Z -> bool) (stack : list Z) (f : setting) (t : list Z) : res (Z * proc_state) :=
  __proc_file_write kzalloc stack (setting_file f) t proc0.
Definition setting_after (f : setting) (r : res (Z * proc_state)) : option (list Z) :=
  match r with Ok (_, s) => Some (setting_get f s.(ps_config)) | Fault _ => None end.

Lemma written_units : written (line "8 13") [8; 13].
Proof.
  exists [], (text " 13" ++ [10]). split; [done|]. split; [constructor|]. split; [lia|].
  apply (listing_more [32] 13 [10]); [done|by constructor|lia|]. constructor. by exists 10, [].
Qed.

Lemma proc_settings_roundtrip_witness :
  written (line "8 13") [8; 13] /\
  okp (write_to (fun _ => true) (zrepeat 128 51) IoUnits (line "8 13")) (fun '(count, s') =>
    count = 5 /\ s'.(ps_config) = NvmevConfig 0 1048576 8 13 10 100 1000 20 200 2000 /\ s'.(ps_unit_stat) = Some [0; 0; 0; 0; 0; 0; 0; 0] /\
    okp (Simple.simple_proc_nvme_io_cmd s'.(ps_config) true (Simple.SimpleNs 0 NVME_CSI_NVM 1048576 0) (Request (RwCommand nvme_cmd_write 0 7 0) 1 1000)
      (Result 0 0) (Simple.UnitDev (default [] s'.(ps_unit_stat)) 0)) (fun '(_, _, ok) => ok = true)).
Proof.
  split; [exact written_units|].
  assert (zlen (line "8 13") <= INPUT_SIZE) as Hl by (vm_compute; congruence).
  pose proof (proc_settings_roundtrip (CK := toy_clock) (fun _ => true) (zrepeat 128 51) IoUnits (line "8 13") [8; 13] proc0 eq_refl Hl written_units) as Hp.
  unfold write_to. eapply okp_mono; [exact Hp|]. clear Hp.
  intros [count s'] (Hc & [Hs Ho Hst] & _ & Ht & _ & Hrun). cbv zeta in *. 
  pose proof (Ho ReadTimes ltac:(done)) as Hr. pose proof (Ho WriteTimes ltac:(done)) as Hw.
  destruct s' as [c stat v]. cbn [ps_config ps_unit_stat setting_get] in *.
  assert (c = NvmevConfig 0 1048576 8 13 10 100 1000 20 200 2000) as -> by (destruct c; cbn in *; destruct Hst; congruence).
  split; [exact Hc|]. split; [done|]. split; [exact Ht|].
  destruct (Hrun eq_refl) as (st & -> & Hcmd); [split; cbn; unfold UNIT_LBA_BITS; lia|reflexivity|]. cbn [default].
  eapply okp_mono; [by apply Hcmd|]. by intros [[w' r] ok] [_ ?].
Defined.

(** ** What the files do with other texts *)

(** The text that another device shows sets the first number only. *)
Example shown_text_sets_first :
  setting_after ReadTimes (write_to (fun _ => true) (zrepeat 128 0) ReadTimes (line "5 + 7 x + 9")) = Some [5; 100; 1000].
Proof. vm_compute. reflexivity. Qed.

(** Nothing ends the text: the number goes on in what the stack held, and past the
    array when that is digits too. *)
Example unended_number_goes_on :
  setting_after IoUnits (write_to (fun _ => false) (text "333" ++ zrepeat 125 0) IoUnits (text "8 1")) = Some [8; 1] /\
  setting_after IoUnits (write_to (fun _ => false) (text "3334" ++ zrepeat 124 0) IoUnits (text "8 1")) = Some [8; 14] /\
  fault_of (write_to (fun _ => false) (zrepeat 128 51) IoUnits (text "8 1")) = Some OutOfBounds.
Proof. vm_compute. done. Qed.

(** No check of the parameters is made again: no units, and a time of zero. *)
Example settings_not_validated :
  setting_after ReadTimes (write_to (fun _ => true) (zrepeat 128 0) ReadTimes (line "0 0 0")) = Some [0; 0; 0] /\
  setting_after IoUnits (write_to (fun _ => true) (zrepeat 128 0) IoUnits (line "0 12")) = Some [0; 12].
Proof. vm_compute. done. Qed.

Definition serve (r : res (Z * proc_state)) : res (Simple.unit_dev * nvmev_result * bool) :=
  '(_, s) ← r;
  stat ← of_opt NullDeref s.(ps_unit_stat);
  Simple.simple_proc_nvme_io_cmd s.(ps_config) true (Simple.SimpleNs 0 NVME_CSI_NVM 1048576 0) (Request (RwCommand nvme_cmd_write 0 7 0) 1 1000)
    (Result 0 0) (Simple.UnitDev stat 0).

(** The next command divides by the number of units, shifts by more than the width
    of a word, or follows the pointer of a table that was not granted. *)
Example units_stop_the_device :
  fault_of (serve (write_to (fun _ => true) (zrepeat 128 0) IoUnits (line "0 12"))) = Some DivByZero /\
  fault_of (serve (write_to (fun _ => true) (zrepeat 128 0) IoUnits (line "8 3"))) = Some OutOfBounds /\
  fault_of (serve (write_to (fun size => size <? 4194304) (zrepeat 128 0) IoUnits (line "-1 12"))) = Some NullDeref /\
  fault_of (serve (write_to (fun _ => true) (zrepeat 128 0) IoUnits (line "8 12"))) = None.
Proof. vm_compute. done. Qed.
