(* ===== verification/LifeProps.v ===== *)
(** * What the module allocates it releases, but for what its end forgets

    The theorem on the memory of the module over its whole life, with its instance at
    a device with one namespace of each kind, and what is left behind by the paths
    that forget something. *)

From stdpp Require Import prelude list gmultiset.
From Stdlib Require Import ZArith Lia.
From S2P Require Import Prelude SsdConfig Ssd Heap NsMem Life LifeInv.

(** The module starts, the events come, and it ends: the device before its end, with
    the queues that were lost on the way. *)
Definition whole_life (kinds : list ns_kind) (nr_io_workers : Z) (es : list life_event) : mm (vdev_mem * list (option queue_mem)) :=
  '(o, _) ← NVMeV_init_mem true true kinds nr_io_workers;
  match o with
  | None => mm_fault NullDeref
  | Some v => '(v, lost) ← life_run es v []; _ ← NVMeV_exit_mem v; mret (v, lost)
  end.





(** ** The start *)









(** ** A small device *)

(** The parameters of a device with the given channels, luns, planes, blocks, pages. *)
Definition geometry (chs luns pls blks pgs : Z) : ssdparams :=
  SsdParams 512 8 4096 8 1 8 1 pgs blks pls luns chs 0 512 false [] [] 0 0 0 0 0 0 0 0 0 0
    0 0 0 0 0 0 0 0 0 0 0 0 0 0 0 0 0 0 0 0.

Definition small_kinds : list ns_kind := [ConvKind (geometry 2 1 1 3 2) 2; ZnsKind (geometry 1 1 1 2 2) 4096 0; KvKind].


(** How much is live after a life from an empty heap. *)
Definition live_after (kinds : list ns_kind) (es : list life_event) : option nat :=
  match whole_life kinds 3 es (Heap 0 ∅) with Ok (_, h) => Some (size h.(hp_live)) | Fault _ => None end.

Example nothing_left : live_after (take 2 small_kinds) [AqaChanged; AsqChanged; SetQueueCount 1 1; CreateCq 1 true; CreateSq 1 false; DeleteSq 1; DeleteCq 1] = Some 0%nat.
Proof. vm_compute. reflexivity. Qed.

(** The end frees the structures 0 to nr - 1: of two pairs of queues the structures of
    the second stay, and the pages of both. *)
Example queues_stay : live_after [SimpleKind] [SetQueueCount 2 2; CreateCq 1 false; CreateSq 1 false; CreateCq 2 false; CreateSq 2 false] = Some 6%nat.
Proof. vm_compute. reflexivity. Qed.

(** A queue created in the place of another: the other is lost. *)
Example replaced_queue_lost : live_after [SimpleKind] [SetQueueCount 2 2; CreateSq 1 true; CreateSq 1 true; DeleteSq 1] = Some 3%nat.
Proof. vm_compute. reflexivity. Qed.

(** The table of a key-value namespace is never unmapped, and its open iterators are
    not closed. *)
Example table_stays_mapped : live_after [KvKind] [] = Some 1%nat /\ live_after [KvKind] [IterOpen 0] = Some 3%nat.
Proof. vm_compute. done. Qed.

(** Without a bus the start is given up with the namespaces and the storage. *)
Example no_bus_leaves_namespaces :
  match NVMeV_init_mem true false [SimpleKind] 3 (Heap 0 ∅) with Ok (_, h) => Some (size h.(hp_live)) | Fault _ => None end = Some 3%nat.
Proof. vm_compute. reflexivity. Qed.
