(* ===== verification/DmaProps.v ===== *)
(** * Properties of the copies by the DMA engine

    Against the documented behaviour of the kernel's engine: [ioat_dma_chan_set]
    takes exactly the channels of the name it is given and [ioat_dma_cleanup] gives
    them back; [ioat_dma_submit] reports success only for a copy that was made.  Then
    a small engine that keeps the laws, and one whose copies time out. *)

From stdpp Require Import prelude list strings.
From Stdlib Require Import ZArith Lia.
From S2P Require Import Prelude Mem Dma.
Open Scope Z_scope.

(** ** The documented behaviour *)

Definition copied `{DE : DmaEngine} (dst src n : Z) (e e' : de_state) : Prop := forall x, phys e' x = mcopy (phys e) dst (phys e) src n x.

Class DmaLaws `(DE : DmaEngine) := {
  dl_request f e : match dma_request_channel f e with
    | (Some c, e') => f c = true /\ available e ≡ₚ c :: available e'
    | (None, e') => Forall (fun c => f c = false) (available e) /\ available e' = available e
    end;
  dl_release c e : available (dma_release_channel c e) ≡ₚ c :: available e;
  dl_terminate c e : available (dmaengine_terminate_sync c e) = available e /\ forall x, phys (dmaengine_terminate_sync c e) x = phys e x;
  dl_polled c dst src n e tx e1 cookie e2 e3 :
    device_prep_dma_memcpy c dst src n false e = (Some tx, e1) -> tx_submit c tx e1 = (cookie, e2) -> 0 <= cookie ->
    dma_sync_wait c cookie e2 = (DMA_COMPLETE, e3) -> copied dst src n e e3;
  dl_waited c dst src n e tx e1 cookie e2 e3 status e4 :
    device_prep_dma_memcpy c dst src n true e = (Some tx, e1) -> tx_submit c tx e1 = (cookie, e2) -> 0 <= cookie ->
    wait_event c cookie (dma_async_issue_pending c e2) = (true, e3) -> dma_async_is_tx_complete c cookie e3 = (status, e4) ->
    status = DMA_COMPLETE \/ c.(has_no_order) = true /\ status = DMA_OUT_OF_ORDER -> copied dst src n e e4;
  dl_strim : strim "" = ""
}.

Section dma.
Context `{DL : DmaLaws}.

(** ** A copy *)

(** Success is a copy of the bytes that were asked for; anything else is reported. *)
Lemma submit_copies src dst n d c :
  d.(dd_thread).(dt_chan) = Some c -> 0 <= n < 4294967296 ->
  okp (ioat_dma_submit src dst n d) (fun '(d', r) => (r = 0 \/ r = - ENOMEM) /\ d'.(dd_info) = d.(dd_info) /\ d'.(dd_thread).(dt_chan) = Some c /\
    (r = 0 -> copied dst src n d.(dd_engine) d'.(dd_engine))).
Proof.
  intros Hc Hn. unfold ioat_dma_submit. rewrite Hc. cbn [of_opt]. rewrite bind_Ok, u32_small by done. cbv zeta.
  destruct (device_prep_dma_memcpy _ _ _ _ _ _) as [[tx|] e1] eqn:E1; [|cbn; split; [auto|split; [done|split; [done|done]]]].
  destruct (tx_submit c tx e1) as [cookie e2] eqn:E2. destruct (Z.ltb_spec cookie 0) as [Hk|Hk]; [cbn; split; [auto|split; [done|split; [done|done]]]|].
  unfold submit_wait. destruct (pa_polled _) eqn:Ep; cbn [negb] in E1.
  - destruct (dma_sync_wait c cookie e2) as [status e3] eqn:E3. destruct (bool_decide_reflect (status = DMA_COMPLETE)) as [->|Hs]; cbn [negb].
    + rewrite bool_decide_false by auto. cbn. split; [auto|]. split; [done|]. split; [done|]. intros _ x.
      rewrite (proj2 (dl_terminate c e3)). by eapply dl_polled.
    + cbn. split; [auto|]. split; [done|]. split; [done|done].
  - destruct (wait_event _ _ _) as [[] e3] eqn:E3; destruct (dma_async_is_tx_complete c cookie e3) as [status e4] eqn:E4; cbn [negb].
    2: { cbn. split; [auto|]. split; [done|]. split; [done|done]. }
    destruct (bool_decide (status <> DMA_COMPLETE) && _) eqn:Es; cbn; (split; [auto|]; split; [done|]; split; [done|]); [done|].
    intros _. eapply dl_waited; [done..|]. apply andb_false_iff in Es as [Es|Es].
    + left. apply bool_decide_eq_false in Es. by apply dec_stable.
    + right. apply negb_false_iff, andb_true_iff in Es as [Es1 Es2]. by apply bool_decide_eq_true in Es2.
Qed.

(** ** Channels *)

Section channels.
Context (e0 : de_state) (name : string) (Hname : name <> "").

Definition named (c : dma_chan) : bool := c.(has_memcpy) && bool_decide (c.(dma_chan_name) = name).

(** While channels are requested: each was free, has the name, and is in the list. *)
Record requesting (d : dma_dev) : Prop := {
  rg_free : available e0 ≡ₚ d.(dd_info).(di_channels) ++ available d.(dd_engine);
  rg_named : Forall (fun c => named c = true) d.(dd_info).(di_channels);
  rg_params : d.(dd_info).(di_params).(pa_channel) = name /\ d.(dd_info).(di_params).(pa_device) = "" /\ d.(dd_info).(di_params).(pa_max_channels) = 0;
  rg_thread : d.(dd_thread).(dt_chan) = last d.(dd_info).(di_channels)
}.

Lemma filter_named p c : p.(pa_channel) = name -> p.(pa_device) = "" -> c.(has_memcpy) && filter_chan p c = named c.
Proof using Hname.
  intros E1 E2. unfold filter_chan, ioat_dma_match_channel, ioat_dma_match_device, named. rewrite E1, E2. rewrite decide_False by done.
  cbn. by rewrite andb_true_r.
Qed.

Lemma request_step_ok d : requesting d -> okp (request_step d) (fun r => match r with
  | inl d' => requesting d' /\ (length (available d'.(dd_engine)) < length (available d.(dd_engine)))%nat
  | inr d' => requesting d' /\ Forall (fun c => named c = false) (available d'.(dd_engine)) end).
Proof using Hname DL.
  intros [R1 R2 (R3 & R4 & R5) R6]. unfold request_step. cbv zeta.
  pose proof (dl_request (fun c => c.(has_memcpy) && filter_chan d.(dd_info).(di_params) c) d.(dd_engine)) as H.
  destruct (dma_request_channel _ _) as [[c|] e] eqn:E.
  - destruct H as [Hf Hav]. rewrite filter_named in Hf by done. unfold ioat_dma_add_channel. cbn [with_engine dd_info dd_thread dd_engine with_info with_thread].
    assert (has_memcpy c = true) as Hmc by (unfold named in Hf; by apply andb_true_iff in Hf as [? _]). rewrite Hmc. cbn [Z.eqb negb di_params].
    set (p := if has_no_order c && _ then without_polling _ else _). assert (pa_channel p = name /\ pa_device p = "" /\ pa_max_channels p = 0) as Hp by (unfold p; destruct (_ && _); done).
    rewrite (proj2 (proj2 Hp)). cbn. split; [|rewrite Hav; simpl; lia]. split; cbn; [|by apply Forall_app; split; [|constructor]|done|by rewrite last_snoc].
    by rewrite R1, Hav, <- app_assoc.
  - destruct H as [Hf Hav]. cbn. split; [split; cbn; [by rewrite Hav|done..]|]. rewrite Hav. eapply Forall_impl; [exact Hf|]. intros c Hc. cbn in Hc. by rewrite filter_named in Hc.
Qed.

Lemma request_channels_ok d : requesting d -> okp (request_channels d) (fun d' => requesting d' /\ Forall (fun c => named c = false) (available d'.(dd_engine))).
Proof using Hname DL.
  intros Hd. unfold request_channels.
  apply (rloop_inv request_step requesting (fun d => Z.of_nat (length (available d.(dd_engine))))); [lia| |done|lia].
  intros s Hs. eapply okp_mono; [by apply request_step_ok|]. intros [d'|d']; [|done]. intros [H1 H2]. split; [done|lia].
Qed.
End channels.

(** The channels of a name are taken, and given back at the end. *)
Theorem dma_channels_taken e val : let name := strim val in
  (String.length val < 20)%nat -> name <> "" ->
  okp (ioat_dma_chan_set val (initial_dma e)) (fun '(d, r) =>
    d.(dd_info).(di_channels) ++ available d.(dd_engine) ≡ₚ available e /\
    Forall (fun c => named name c = true) d.(dd_info).(di_channels) /\ Forall (fun c => named name c = false) (available d.(dd_engine)) /\
    (d.(dd_info).(di_channels) <> [] /\ r = 0 /\ is_Some d.(dd_thread).(dt_chan) \/ d.(dd_info).(di_channels) = [] /\ r = - EBUSY) /\
    available (ioat_dma_cleanup d).(dd_engine) ≡ₚ available e /\ (ioat_dma_cleanup d).(dd_info).(di_channels) = []).
Proof.
  intros name Hl Hn. unfold ioat_dma_chan_set. fold name. destruct (Z.leb_spec CHANNEL_NAME_LEN (Z.of_nat (String.length val))) as [H|_]; [unfold CHANNEL_NAME_LEN in H; lia|].
  cbn [existsb initial_dma dd_info di_channels]. apply okp_bind. unfold add_threaded_dma.
  eapply okp_mono; [apply (request_channels_ok e name Hn)|].
  { split; cbn; [done|constructor|by rewrite dl_strim|done]. }
  intros d ([R1 R2 R3 R4] & Hrest). 
  assert (forall cs e1, available (foldl (fun e c => dma_release_channel c (dmaengine_terminate_sync c e)) e1 cs) ≡ₚ cs ++ available e1) as Hback.
  { induction cs as [|c cs IH]; intros e1; [done|]. cbn [foldl app]. rewrite IH, dl_release, (proj1 (dl_terminate c e1)). by rewrite <- Permutation_middle. }
  assert (forall r, d.(dd_info).(di_channels) <> [] /\ r = 0 /\ is_Some d.(dd_thread).(dt_chan) \/ d.(dd_info).(di_channels) = [] /\ r = - EBUSY ->
    okp (Ok (with_error r d, r)) (fun '(d, r) =>
    d.(dd_info).(di_channels) ++ available d.(dd_engine) ≡ₚ available e /\
    Forall (fun c => named name c = true) d.(dd_info).(di_channels) /\ Forall (fun c => named name c = false) (available d.(dd_engine)) /\
    (d.(dd_info).(di_channels) <> [] /\ r = 0 /\ is_Some d.(dd_thread).(dt_chan) \/ d.(dd_info).(di_channels) = [] /\ r = - EBUSY) /\
    available (ioat_dma_cleanup d).(dd_engine) ≡ₚ available e /\ (ioat_dma_cleanup d).(dd_info).(di_channels) = [])) as Hfin.
  { intros r Hr. cbn. split; [done|]. split; [done|]. split; [done|]. split; [exact Hr|]. split; [|done]. by rewrite Hback. }
  destruct (last (di_channels (dd_info d))) as [c|] eqn:El.
  - assert (c ∈ di_channels (dd_info d)) as Hin by (apply last_Some_elem_of; done).
    pose proof (proj1 (Forall_forall _ _) R2 c Hin) as Hc. apply andb_true_iff in Hc as [_ Hc]. apply bool_decide_eq_true in Hc.
    rewrite bool_decide_false by auto. cbn [andb]. apply Hfin. left. split; [intros E; by rewrite E in El|]. split; [done|]. by rewrite R4.
  - apply Hfin. right. split; [by apply last_None|done].
Qed.
End dma.

(** ** An engine of three channels *)

Record toy_engine := ToyEngine { te_free : list dma_chan; te_mem : mem; te_pending : option (Z * Z * Z) }.

Definition toy_take (f : dma_chan -> bool) (e : toy_engine) : option dma_chan * toy_engine :=
  match list_find (fun c => f c = true) e.(te_free) with
  | Some (i, c) => (Some c, ToyEngine (delete i e.(te_free)) e.(te_mem) e.(te_pending))
  | None => (None, e)
  end.
Definition toy_finish (e : toy_engine) : toy_engine :=
  match e.(te_pending) with
  | Some (dst, src, n) => ToyEngine e.(te_free) (mcopy e.(te_mem) dst e.(te_mem) src n) None
  | None => e
  end.

(** It copies when it is waited for, or always times out. *)
Definition toy_dma (works : bool) : DmaEngine := {|
  de_state := toy_engine; available := te_free; phys := te_mem;
  dma_request_channel := toy_take;
  dma_release_channel := fun c e => ToyEngine (c :: e.(te_free)) e.(te_mem) e.(te_pending);
  device_prep_dma_memcpy := fun _ dst src n _ e => (Some 0, ToyEngine e.(te_free) e.(te_mem) (Some (dst, src, n)));
  tx_submit := fun _ _ e => (1, e);
  dma_sync_wait := fun _ _ e => if works then (DMA_COMPLETE, toy_finish e) else (DMA_ERROR, e);
  dma_async_issue_pending := fun _ e => e;
  wait_event := fun _ _ e => if works then (true, toy_finish e) else (false, e);
  dma_async_is_tx_complete := fun _ _ e => (if works then DMA_COMPLETE else DMA_IN_PROGRESS, e);
  dmaengine_terminate_sync := fun _ e => ToyEngine e.(te_free) e.(te_mem) None;
  strim := fun s => s
|}.

#[local] Instance toy_dma_laws works : DmaLaws (toy_dma works).
Proof.
  split; cbn; try done.
  - intros f e. unfold toy_take. destruct (list_find _ _) as [[i c]|] eqn:E.
    + apply list_find_Some in E as (E1 & E2 & _). split; [done|]. cbn. by apply delete_Permutation.
    + apply list_find_None in E. split; [|done]. eapply Forall_impl; [exact E|]. intros c Hc. cbn in Hc. by destruct (f c).
  - intros c dst src n e tx e1 cookie e2 e3 [= <- <-] [= <- <-] _. destruct works; [|done]. by intros [= <-].
  - intros c dst src n e tx e1 cookie e2 e3 status e4 [= <- <-] [= <- <-] _. destruct works; [|done]. by intros [= <-] [= <- <-].
Qed.

Definition engine_chan (s : string) (ordered : bool) : dma_chan := DmaChan s "ioat" true (negb ordered).
Definition toy_start : toy_engine := ToyEngine [engine_chan "dma0chan0" true; engine_chan "dma7chan0" true; engine_chan "dma7chan1" true] (fun a => a) None.
Definition after_set (works : bool) (val : string) : option (list string * Z) :=
  match ioat_dma_chan_set (DE := toy_dma works) val (initial_dma (DE := toy_dma works) toy_start) with
  | Ok (d, r) => Some (dma_chan_name <$> d.(dd_info).(di_channels), r) | Fault _ => None end.
Definition after_copy (works : bool) : option (Z * list Z) :=
  match ioat_dma_chan_set (DE := toy_dma works) "dma7chan0" (initial_dma (DE := toy_dma works) toy_start) with
  | Ok (d, _) => match ioat_dma_submit (DE := toy_dma works) 100 200 2 d with
                 | Ok (d, r) => Some (r, mload (te_mem d.(dd_engine)) 199 4) | Fault _ => None end
  | Fault _ => None end.

Example channel_found : after_set true "dma7chan0" = Some (["dma7chan0"%string], 0).
Proof. vm_compute. reflexivity. Qed.
Example channel_missing : after_set true "dma9chan0" = Some ([], - EBUSY).
Proof. vm_compute. reflexivity. Qed.
(** No name takes every channel of the machine. *)
Example no_name_takes_all : option_map (fun r => (length r.1, r.2)) (after_set true "") = Some (3%nat, 0).
Proof. vm_compute. reflexivity. Qed.
Example copy_made : after_copy true = Some (0, [199; 100; 101; 202]).
Proof. vm_compute. reflexivity. Qed.
(** A copy that fails is reported, but the callers in io.c do not look. *)
Example copy_failed : after_copy false = Some (- ENOMEM, [199; 200; 201; 202]).
Proof. vm_compute. reflexivity. Qed.
Example copy_before_set : ioat_dma_submit (DE := toy_dma true) 100 200 2 (initial_dma (DE := toy_dma true) toy_start) = Fault NullDeref.
Proof. reflexivity. Qed.
