(* ===== verification/StartProps.v ===== *)
(** * Properties of the start and the end of the module

    The parts put together by [NVMeV_init], in every build whose namespaces are
    initialised as [NsInitLaws] says, as MainInv.v proves of each of the four kinds,
    with an instance at the build for a simple namespace, and what [NVMeV_exit] leaves. *)

From stdpp Require Import prelude list strings.
From Stdlib Require Import ZArith Lia.
From S2P Require Import Prelude Mem SsdConfig Ssd ConvFtl IoUnits NvmeCmd IoQueue IoInv IoCopy Io IoBackends IoRun IoDispatch IoLaws.
From S2P Require Import Dma Vdev Admin Bars PciCfg PciInv Config Main MainInv Start Toy MainProps PciProps DmaProps.
Open Scope Z_scope.

(** The storage that parameters leave, in a build for key-value commands or another. *)
Definition table_bytes (kv : bool) : Z := if kv then KV_MAPPING_TABLE_BYTES else 0.
Definition storage_bytes (kv : bool) (p : module_params) : Z := p.(memmap_size) - table_bytes kv - MB 1.
Definition config_of (kv : bool) (p : module_params) : nvmev_config :=
  NvmevConfig (p.(memmap_start) + MB 1) (storage_bytes kv p) p.(nr_io_units) p.(io_unit_shift)
    p.(read_delay) p.(read_time) p.(read_trailing) p.(write_delay) p.(write_time) p.(write_trailing).

(** The list of processors names [t] for the dispatcher and [ts] for the workers. *)
Definition names_cpus (p : module_params) (t : string) (ts : list string) : Prop :=
  p.(cpus) = Some (String.concat "," (t :: ts)) /\ Forall no_comma (t :: ts).

(** The start of the workers leaves the rest of the device; with none to start there
    is none. *)
Lemma workers_start_rest `{BK : Backend} `{QC : QueueConfig} nr (d : io_dev) :
  retp (NVMEV_IO_WORKER_INIT nr d) (fun d' => d'.(dv_ns) = d.(dv_ns) /\ d'.(dv_mapped) = d.(dv_mapped) /\ d'.(dv_world) = d.(dv_world) /\
    d'.(dv_sqes) = d.(dv_sqes) /\ d'.(dv_cqes) = d.(dv_cqes)).
Proof. unfold NVMEV_IO_WORKER_INIT. apply retp_bind. intros l _. by apply retp_Ok. Qed.

Lemma workers_start `{BK : Backend} `{QC : QueueConfig} nr (d : io_dev) : 0 <= nr < 4294967296 ->
  okp (NVMEV_IO_WORKER_INIT nr d) (fun d' => zlen d'.(dv_workers) = nr /\ (forall i k, d'.(dv_workers) !! i = Some k -> pending k = []) /\
    (0 < nr -> queues_ok d')).
Proof.
  intros Hnr. destruct (decide (nr = 0)) as [->|Hne].
  - simpl. split; [done|]. split; [|lia]. intros i k Hk. apply zlookup_Some_range in Hk. unfold zlen in Hk. simpl in Hk. lia.
  - eapply okp_mono; [apply (init_queues nr d); lia|]. intros d' (H1 & H2 & H3). done.
Qed.

(** The initialisation of the namespaces leaves the queues and the registers. *)
Lemma namespaces_rest `{BK : Backend} `{BD : Build} `{NI : !NsInit} size a disp (v : vdev) :
  retp (NVMEV_NAMESPACE_INIT size a disp v) (fun v' => v'.(vd_nr_sq) = v.(vd_nr_sq) /\ v'.(vd_admin_q) = v.(vd_admin_q) /\
    v'.(vd_io).(dv_sqes) = v.(vd_io).(dv_sqes) /\ v'.(vd_io).(dv_cqes) = v.(vd_io).(dv_cqes)).
Proof. unfold NVMEV_NAMESPACE_INIT. apply retp_bind. intros s _. by apply retp_Ok. Qed.

Lemma dma_setup_ok `{DL : DmaLaws} (using_dma : bool) e : strim "dma7chan0" <> "" ->
  okp (dma_setup using_dma (initial_dma e)) (fun '(dma, u) => u = true -> using_dma = true /\ is_Some dma.(dd_thread).(dt_chan)).
Proof.
  intros Hn. unfold dma_setup. destruct using_dma; [|done]. apply okp_bind.
  eapply okp_mono; [apply (dma_channels_taken e "dma7chan0"); [simpl; lia|done]|].
  intros [dma r] (_ & _ & _ & [(_ & -> & H)|[_ ->]] & _); cbn; [done|done].
Qed.

Section start.
Context `{BK : Backend} `{BD : Build} `{QC : QueueConfig} `{DL : DmaLaws} (NI : NsInit) `{NM : !NsModule}.
Context (made : Z -> Z -> Z -> Z -> bk_ns -> Prop) (size_ok : Z -> Z -> Prop) `{LI : !NsInitLaws NI made size_ok}.
Context (kv : bool) (e820 : Z -> Z -> e820_type -> bool) (strtol : string -> Z) (memremap : Z -> Z -> Z).
Context (scan : list cfg_write) (p : module_params) (using_dma : bool) (w : bk_world) (m : io_mem) (e : de_state).

Let cf : nvmev_config := config_of kv p.
Let base : Z := memremap cf.(cf_storage_start) cf.(cf_storage_size).

(** The device before and after its namespaces are made. *)
Definition with_storage : vdev := vd_with_io (dv_with_world (units_init cf.(cf_nr_io_units) w) (vdev_zeroed w m).(vd_io)) (vdev_zeroed w m).

(** The device of the module, for [nr] workers and the processor [disp]. *)
Record started_io (disp nr : Z) (io : io_dev) : Prop := {
  si_made : exists v, NVMEV_NAMESPACE_INIT cf.(cf_storage_size) base disp with_storage = Ok v /\ NVMEV_IO_WORKER_INIT nr v.(vd_io) = Ok io;
  si_ns : zlen io.(dv_ns) = NR_NAMESPACES /\ (forall i ns, io.(dv_ns) !! i = Some ns -> placed made cf.(cf_storage_size) base i ns) /\
    io.(dv_mapped) = (fun e => e.1 - base) <$> layout capacities base cf.(cf_storage_size);
  si_workers : zlen io.(dv_workers) = nr /\ (forall i k, io.(dv_workers) !! i = Some k -> pending k = []) /\ (0 < nr -> queues_ok io);
  si_queues : io.(dv_sqes) = zrepeat (NR_MAX_IO_QUEUE + 1) None /\ io.(dv_cqes) = zrepeat (NR_MAX_IO_QUEUE + 1) None
}.

Lemma started_device disp nr : build_ok size_ok cf.(cf_storage_size) base -> 0 <= nr < 4294967296 ->
  exists v io, NVMEV_NAMESPACE_INIT cf.(cf_storage_size) base disp with_storage = Ok v /\ NVMEV_IO_WORKER_INIT nr v.(vd_io) = Ok io /\
    started_io disp nr io /\ vd_with_io io (map_registers v) = reset_vdev io.
Proof using LI.
  intros Hb Hnr. destruct (okp_inv _ _ (namespace_init_ok NI made size_ok _ _ disp with_storage Hb)) as (v & Ev & V1 & V2 & V3 & V4).
  destruct (namespaces_rest _ _ _ _ _ Ev) as (W1 & W2 & W3 & W4).
  destruct (okp_inv _ _ (workers_start nr v.(vd_io) Hnr)) as (io & Ed & D1 & D2 & D3). exists v, io. split; [done|]. split; [done|].
  destruct (workers_start_rest nr v.(vd_io) _ Ed) as (R1 & R2 & _ & R4 & R5). split.
  - split; [by exists v| |done|by rewrite R4, R5, W3, W4]. rewrite R1, R2. done.
  - unfold map_registers, vd_with_io, reset_vdev. cbn. by rewrite W1, W2, V2.
Qed.

(** The whole of it, from parameters that are accepted. *)
Lemma accepted_starts t ts :
  Forall aligned scan -> strim "dma7chan0" <> "" -> acceptable e820 p -> names_cpus p t ts -> zlen ts <= 32 ->
  0 <= p.(memmap_start) -> p.(memmap_start) + p.(memmap_size) < 18446744073709551616 ->
  (kv = true -> KV_MAPPING_TABLE_BYTES + MB 1 <= p.(memmap_size)) -> build_ok size_ok cf.(cf_storage_size) base ->
  okp (NVMeV_init kv e820 strtol memremap (Some scan) (zrepeat 32 0) p using_dma w m (initial_dma e)) (fun r =>
    exists io s c dma u, r = Started (reset_vdev io) s c dma u /\ c.(fc_units) = cf /\
      started_io (u32 (strtol t)) (zlen ts) io /\ described s.(pc_space) /\
      (u = true -> using_dma = true /\ is_Some dma.(dd_thread).(dt_chan))).
Proof using DL LI.
  intros Hscan Hd Ha [N1 N2] Hts Hs1 Hs2 Hkv Hb. pose proof (zlen_nonneg ts). unfold NVMeV_init. cbv zeta.
  destruct (load_configs_correct e820 strtol kv (zrepeat 32 0) p t ts) as [Hload _]; [by rewrite zlen_zrepeat|done..|].
  destruct (Hload Ha) as (c & Ec & C1 & C2 & C3 & C4 & C5 & _). rewrite Ec, bind_Ok.
  assert (c.(fc_units) = cf) as Ecf by (rewrite C3; by destruct kv). rewrite C4, C5. unfold NVMEV_STORAGE_INIT. rewrite Ecf.
  destruct (started_device (u32 (strtol t)) (zlen ts) Hb ltac:(lia)) as (v & io & Ev & Ed & Hio & Eq).
  change (dv_world (vd_io (vdev_zeroed w m))) with w. unfold base, with_storage in Ev. rewrite Ev, bind_Ok.
  apply okp_bind. eapply okp_mono; [by apply dma_setup_ok|]. intros [dma u] Hu. apply okp_bind.
  eapply okp_mono; [by apply pci_init_ok|]. intros s (_ & Hdesc & _). change (vd_io (map_registers v)) with (vd_io v).
  rewrite Ed, bind_Ok. cbn [okp]. exists io, s, c, dma, u. by rewrite Eq.
Qed.

(** Too many processors, and parameters that are not accepted. *)
Lemma workers_overrun t ts : acceptable e820 p -> names_cpus p t ts -> 32 < zlen ts ->
  NVMeV_init kv e820 strtol memremap (Some scan) (zrepeat 32 0) p using_dma w m (initial_dma e) = Fault OutOfBounds.
Proof using.
  intros Ha [N1 N2] Hts. unfold NVMeV_init, __load_configs. rewrite (proj1 (validate_ok e820 p) Ha). rewrite (proj2 (Z.ltb_ge 0 0)) by lia.
  rewrite N1. change (Some (String.concat "," (t :: ts))) with (joined (t :: ts)).
  by rewrite cpus_overflow by (rewrite ?zlen_zrepeat; (done || lia)).
Qed.
Lemma unaccepted_refused : ~ acceptable e820 p ->
  NVMeV_init kv e820 strtol memremap (Some scan) (zrepeat 32 0) p using_dma w m (initial_dma e) = Ok (Refused (- EIO)).
Proof using.
  intros Hn. unfold NVMeV_init, __load_configs. by rewrite (proj2 (Z.ltb_lt _ _) (proj2 (validate_ok e820 p) Hn)).
Qed.
End start.

(** C14: what the start of the module does with its parameters, in every build whose
    namespaces are initialised as the interface says, which each of the four kinds is,
    on a machine with a PCI bus.
    Parameters that [__validate_configs] does not accept are refused.  Those that it
    accepts are of three kinds, by the list of processors.  With at most 32 behind the
    dispatcher's, and memory that does not wrap around, holds the table of a key-value
    build and gives each namespace a size that it supports, the module starts: its
    namespaces lie in the storage behind the first megabyte of the reserved memory as
    the layout of the build says; there is a worker for each of these processors,
    with an empty queue; no queue of the host exists yet; the configuration space is
    described; DMA is used only with a channel taken.  That device is the one whose
    controller comes up: whatever order the host writes the registers in, and
    whenever the dispatcher looks, it ends ready, over the same namespaces and
    workers.  With more than 32 the array of the workers' processors is overrun.  With
    none it starts too, without a worker: [no_worker_divides] is what comes of it. *)
Theorem module_starts `{BK : Backend} `{BD : Build} `{QC : QueueConfig} `{DL : DmaLaws} (NI : NsInit) `{NM : !NsModule}
    made size_ok `{LI : !NsInitLaws NI made size_ok} kv e820 strtol memremap scan p t ts using_dma w m e :
  let cf := config_of kv p in
  let base := memremap cf.(cf_storage_start) cf.(cf_storage_size) in
  let init := NVMeV_init kv e820 strtol memremap (Some scan) (zrepeat 32 0) p using_dma w m (initial_dma e) in
  Forall aligned scan -> strim "dma7chan0" <> "" -> names_cpus p t ts ->
  (acceptable e820 p -> zlen ts <= 32 -> 0 <= p.(memmap_start) -> p.(memmap_start) + p.(memmap_size) < 18446744073709551616 ->
   (kv = true -> KV_MAPPING_TABLE_BYTES + MB 1 <= p.(memmap_size)) -> build_ok size_ok cf.(cf_storage_size) base ->
   okp init (fun r => exists io s c dma u, r = Started (reset_vdev io) s c dma u /\ c.(fc_units) = cf /\
     started_io NI made kv memremap p w m (u32 (strtol t)) (zlen ts) io /\
     described s.(pc_space) /\ (u = true -> using_dma = true /\ is_Some dma.(dd_thread).(dt_chan)) /\
     forall aqa asq acq cc evs, aqa <> 0 -> asq <> 0 -> acq <> 0 -> cc_en cc = 1 -> cc_shn cc <> 1 -> host_program aqa asq acq cc evs ->
       exists v, rfold bar_exec (evs ++ replicate 4 Dispatch) (reset_vdev io) = Ok v /\ v.(vd_bar).(u_csts) = 1 /\ v.(vd_io) = io)) /\
  (acceptable e820 p -> 32 < zlen ts -> init = Fault OutOfBounds) /\
  (~ acceptable e820 p -> init = Ok (Refused (- EIO))).
Proof.
  intros cf base init Hscan Hd Hn. split; [|split; [intros Ha Hts; by eapply workers_overrun|by apply unaccepted_refused]].
  intros Ha Hts Hs1 Hs2 Hkv Hb.
  eapply okp_mono; [by apply (accepted_starts NI made size_ok kv e820 strtol memremap scan p using_dma w m e t ts)|].
  intros r (io & s & c & dma & u & -> & Ecf & Hio & Hdesc & Hu). exists io, s, c, dma, u. do 5 (split; [done|]).
  intros aqa asq acq cc evs H1 H2 H3 He Hsh Hp. destruct (handshake_ok io aqa asq acq cc H1 H2 H3 He Hsh evs Hp) as [H _].
  eexists. split; [exact H|]. done.
Qed.

(** Two megabytes of reserved memory, three processors, and the engine of DmaProps.v. *)
#[local, refine] Instance start_queue : QueueConfig := {| NR_MAX_PARALLEL_IO := 4 |}.
Proof. lia. Defined.
#[local] Existing Instance toy_dma_laws.
Definition start_params : module_params := small_params 2097152.

Lemma start_params_ok : acceptable all_reserved start_params /\ names_cpus start_params "1" ["2"; "3"]%string /\
  build_ok (BD := intel_optane) (fun t _ => t = SSD_TYPE_NVM) 1048576 65536.
Proof.
  split; [split; vm_compute; intuition congruence|]. split; [split; [reflexivity|]; repeat constructor; by intros t r [= <- <-]|].
  split; [vm_compute; intuition congruence|repeat constructor; vm_compute; congruence|vm_compute; intuition congruence|].
  intros i t x Ht _. assert (i = 0) as -> by (apply zlookup_Some_range in Ht; unfold zlen in Ht; simpl in Ht; lia).
  injection Ht as <-. split; [reflexivity|left; reflexivity].
Qed.

Lemma module_starts_witness :
  let cf := config_of false start_params in
  okp (NVMeV_init (BK := simple_backend cf) (BD := intel_optane) (NI := simple_init cf) (NM := simple_module cf) (DE := toy_dma true)
         false all_reserved digit (fun _ _ => 65536) (Some scan_writes) (zrepeat 32 0) start_params true
         (Simple.UnitDev [] 0) (IoMem (fun _ => 0) (fun _ => 0)) (initial_dma (DE := toy_dma true) toy_start))
    (fun r => exists io s c dma u, r = Started (BK := simple_backend cf) (DE := toy_dma true)
         (reset_vdev (BK := simple_backend cf) (BD := intel_optane) io) s c dma u /\
       io.(dv_ns) = [Simple.SimpleNs 0 NVME_CSI_NVM 1048576 65536] /\ zlen io.(dv_workers) = 2 /\ mload s.(pc_space) 0 4 = [81; 12; 16; 1]).
Proof.
  intros cf. destruct start_params_ok as (Ha & Hn & Hb).
  assert (Forall aligned scan_writes) as Hs by (repeat constructor; cbn; auto; lia).
  pose proof (module_starts (BK := simple_backend cf) (BD := intel_optane) (DL := toy_dma_laws true) (simple_init cf) (NM := simple_module cf)
    simple_made (fun t _ => t = SSD_TYPE_NVM) false all_reserved digit (fun _ _ => 65536) scan_writes start_params "1" ["2"; "3"]%string true
    (Simple.UnitDev [] 0) (IoMem (fun _ => 0) (fun _ => 0)) toy_start Hs ltac:(discriminate) Hn) as [H _].
  eapply okp_mono; [exact (H Ha ltac:(vm_compute; congruence) ltac:(vm_compute; congruence) ltac:(vm_compute; reflexivity) ltac:(discriminate) Hb)|].
  intros r (io & s & c & dma & u & E & _ & [_ (E1 & E2 & _) (E3 & _) _] & Hd & _).
  exists io, s, c, dma, u. split; [exact E|]. split; [|split; [exact E3|exact (de_ids _ Hd)]].
  destruct (dv_ns io) as [|n1 [|n2 l]] eqn:En; try (unfold zlen in E1; simpl in E1; lia).
  destruct (E2 0 n1 eq_refl) as (t & x & Ht & Hx & ->). injection Ht as <-. injection Hx as <-. reflexivity.
Defined.

(** The module of this build starts in a state that the dispatcher can go on from. *)
Lemma optane_dispatches `{CK : Clock} `{QC : QueueConfig} p memremap w m disp nr (cf := config_of false p)
    (io : io_dev (H := simple_backend cf)) :
  started_io (BK := simple_backend cf) (BD := intel_optane) (simple_init cf) (NM := simple_module cf) simple_made false memremap p w m disp nr io ->
  units_ok cf -> 0 < nr -> dispatch_inv (BK := simple_backend cf) (simple_world cf) io.
Proof.
  intros [(v & Ev & Ed) _ (_ & _ & Hq) _] Hu Hnr. split; [by apply Hq|].
  destruct (workers_start_rest (BK := simple_backend cf) nr v.(vd_io) io Ed) as (R1 & _ & R3 & _). rewrite R1, R3.
  injection Ev as <-. split; [|by constructor]. unfold stat_len. cbn. etransitivity; [apply zlen_zrepeat|done].
  pose proof (uo_units _ Hu). cbn in *. lia.
Qed.

(** ** Where it ends otherwise *)

Definition start_cf : nvmev_config := config_of false start_params.
#[local] Instance start_backend : Backend := simple_backend start_cf.
#[local] Instance start_fields : NsFields start_backend := simple_fields start_cf.
#[local] Instance start_module : NsModule := simple_module start_cf.
#[local] Existing Instance intel_optane.

(** A host with a pair of queues, on a module with [nr] workers. *)
Definition start_sq : nvmev_submission_queue := SubmissionQueue 1 8 (SqStat 0 0 0 0 0) [4096].
Definition start_cq : nvmev_completion_queue := CompletionQueue 0 true false 4 1 0 (-1) [8192].
Definition start_io (nr : Z) : io_dev := let d := IoDev start_backend [] 0 []
  (None :: Some start_sq :: zrepeat 71 None) (None :: Some start_cq :: zrepeat 71 None)
  1 [Simple.SimpleNs 0 NVME_CSI_NVM 1048576 65536] [0] (Simple.UnitDev (zrepeat 8 0) 0) (IoMem pass_host (fun _ => 0)) [] in
  get_Ok d (NVMEV_IO_WORKER_INIT nr d).
Definition start_dev (nr : Z) : vdev := Vdev _ (start_io nr) 1 None ([0; 0; 1; 0] ++ zrepeat 1020 0) (zrepeat 1024 0)
  __init_nvme_ctrl_regs __init_nvme_ctrl_regs 5.

(** A list of one processor starts the module without workers: the first command
    divides by their number. *)
Example no_worker_divides : fault_of (nvmev_proc_dbs (start_dev 0)) = Some DivByZero.
Proof. vm_compute. reflexivity. Qed.

(** The end frees the entries [0] to [nr - 1] of the tables, but the queues are in
    [1] to [nr]: the last queue of each table is lost. *)
Example last_queue_leaks :
  match NVMeV_exit (DE := toy_dma true) false (start_dev 2) (initial_dma (DE := toy_dma true) toy_start) with
  | Ok (v, _) => Some (take 2 v.(vd_io).(dv_sqes), take 2 v.(vd_io).(dv_cqes), length v.(vd_io).(dv_ns)) | Fault _ => None end =
  Some ([None; Some start_sq], [None; Some start_cq], 0%nat).
Proof. vm_compute. reflexivity. Qed.
